(* ===== verification/_CoqProject ===== *)
-Q . S2P
Prelude.v
JsString.v
JsNumber.v
Cache.v
InstanceTable.v
Selection.v
ClientRequest.v
Uri.v
TimeRange.v
UrlState.v
UrlStateV1.v
Session.v
SignIn.v
KeyVizAxis.v
KeyVizChart.v
PlanParser.v
Metrics.v
TableColumns.v
TableController.v
StoreLocation.v
PlanTable.v
AutoRefresh.v
TimePickers.v
FilterPanels.v
QueryParams.v
TopSql.v
TopSqlPage.v
PromQL.v
MetricTypes.v
MetricTablesOp.v
MetricTablesClinic.v
Monitoring.v
PollPage.v
Profiling.v
Selects.v
SearchLogs.v
JsArray.v
Bar.v
DetailTabs.v
StatementDetail.v
StatementList.v
Links.v
SlowQueryPages.v
TopSlowPage.v
KeyVizPage.v
Configuration.v
FormLib.v
UserProfile.v
ClusterInfo.v
SQLAdvisor.v
DebugAPI.v
OptimizerTrace.v
Diagnosis.v
SystemReport.v
MetricPage.v
QueryData.v
ListTables.v
StatementDetailV2.v
Deadlock.v
ApiClient.v
ApiServer.v
DataSources.v
ClinicShell.v
QueryEditor.v
Locales.v
