(* ===== verification/Prelude.v ===== *)
(** * TiDB Dashboard: a verification library for the web front end

    The repository holds two generations of the dashboard's web interface, both
    in TypeScript: ui/ (packages tidb-dashboard-lib, the shared library, and
    tidb-dashboard-for-op, -for-clinic-op, -for-clinic-cloud, its distributions)
    and ui-v2/ (packages libs/1-utils to libs/4-apps), and the Go server they
    talk to.  This library models the logic of the front end that is its own:
    what it keeps, how it reacts to requests that end in any order, what it
    writes to and reads from the URL, what it parses, and what it draws.

    ** Parts and files

    The parts depend on each other in this order.

    - This file: truthiness, tactics and list lemmas shared by all files.
    - [JsString], [JsNumber], [Uri]: the platform.  The operations of strings,
      the conversions between text and numbers, the encodings of URLs.  They
      translate no file of the repository; the other files are written with them.
    - [Cache]: utils/useCache.ts and utils/useCacheItemIndex.ts of ui/.  Module
      [CacheMgr] is the class (its dictionary, its list of keys, the capacity and
      the lifetime; [get], [set], [remove], [clear]); Module [Index] the clicked
      row kept in it.
    - [InstanceTable]: utils/instanceTable.ts and combineTargetStats.ts.
    - [Selection]: utils/selectionWithFilter.ts, over the class [InnerSelection]
      of what it needs from the selection object of the Fabric library.
    - [ClientRequest]: utils/useClientRequest.ts, a hook and its polling variant
      as state machines whose steps are the events React and the network cause.
    - [TimeRange]: components/TimeRangeSelector of ui/ (Module [V1]) and
      time-range.ts of ui-v2/ (Module [V2]).
    - [UrlState]: the URL state of ui-v2/ (1-utils/src/url-state and the
      shared-state of the applications), over the class [UrlStore], which the
      query string implements.  [UrlStateV1]: that of the lists of ui/
      (list-url-state.ts of SlowQuery, url-state.ts of TopSlowQuery).
    - [Session]: the token, the user, the errors of the server, single sign-on
      and the locations of tidb-dashboard-for-op (utils/auth.ts, authSSO.ts,
      store.ts, registry.ts, client/index.tsx, dashboardApp/main.tsx,
      utils/routing.ts).  [SignIn]: the page dashboardApp/layout/signin over it.
    - [KeyVizAxis], [KeyVizChart]: apps/KeyViz/heatmap, its axes and histograms,
      and chart.ts with its event handlers over the class [D3].
    - [PlanParser]: plan-table/parser.ts of ui-v2/, the two formats of a plan.
    - [Metrics]: utils/prometheus and utils/charts.ts of ui/, prom.ts,
      series-chart.tsx and the state of the metric application of ui-v2/.
    - [TableColumns]: utils/tableColumnFactory.tsx, the columns of the lists of
      statements and slow queries, components/ColumnsSelector and CardTable.
    - [TableController]: useStatementTableController.ts and
      useSlowQueryTableController.ts with useOrderState.ts.  It uses the cache
      through the class [RowCache], of which [CacheMgr] is the instance, asks for
      the fields [TableColumns] selects and for the range [TimeRange] computes.
    - [StoreLocation]: apps/ClusterInfo/components/StoreLocationTree: the short
      names of the labels and the tree of the stores.
    - [PlanTable]: components/BinaryPlanTable of ui/ and plan-table/index.tsx of
      ui-v2/, which shows what [PlanParser] reads.
    - [AutoRefresh], [TimePickers], [FilterPanels]: components/AutoRefreshButton
      and LimitTimeRange of ui/; auto-refresh-button, time-range-picker,
      advanced-filters, the multi-selects and state-filters.tsx of ui-v2/.  They
      are written over [TimeRange] and [UrlState].
    - [QueryParams]: hooks/useQueryParams.ts and useURLTimeRange.ts, and both on
      one page.
    - [TopSql], [TopSqlPage]: apps/TopSQL, what it computes from an answer and
      the state of its page (request, instances, brush, chosen rows).
    - [PromQL]: a parser and the typing rules of the query language; with them
      [Monitoring] measures the tables of metric queries, [MetricTablesOp] and
      [MetricTablesClinic] (apps/Monitoring/metricsQueries.ts, apps/Overview and
      apps/ResourceManager of the distributions), whose data [MetricTypes] holds.
      [Monitoring] also models the pages over them: the loading switch, the counts
      of instances, and the estimates of the resource manager over
      [ClientRequest].
    - [PollPage]: a page over the polling hook of [ClientRequest];
      [Profiling]: apps/InstanceProfiling and apps/ContinuousProfiling, and
      [SearchLogs]: apps/SearchLogs, are such pages with their forms and lists.
    - [Selects]: components/BaseSelect, MultiSelect and InstanceSelect, over
      [Selection] and [InstanceTable].  The forms of [Profiling] and [SearchLogs]
      read their instances from it.
    - [JsArray]: the methods of arrays, in the platform.  [Bar]: components/Bar,
      the stacked bars with whiskers of the lists, and their cells.
    - [DetailTabs]: the tabs of the detail pages (apps/Statement/pages/Detail,
      apps/SlowQuery/pages/Detail and utils/tableColumns.ts), built from tables of
      fields.  [StatementDetail] and [StatementList]: the detail page of a
      statement with its plans and the binding of a plan, and the list page.
    - [Links]: utils/query.ts and openLink.ts, the addresses the pages open each
      other with, over the class [SearchParse].  [SlowQueryPages]: the list and
      the detail page of a slow query, the download of the list and the page of
      the clinic distribution with the queries it keeps; [TopSlowPage]: apps/TopSlowQuery.  Their rows open
      each other's pages through [Links], [QueryParams] and [UrlStateV1].
    - [KeyVizPage]: the page and the toolbar of apps/KeyViz over [KeyVizChart].
    - [FormLib]: what the pages use of the forms of antd, as an interface.  On it
      [UserProfile], the page apps/UserProfile (the address of Prometheus, single
      sign-on, sharing), and [Diagnosis], the tables and the form of apps/Diagnose.
    - [Configuration], [ClusterInfo], [SQLAdvisor], [DebugAPI], [OptimizerTrace],
      [SystemReport]: the pages of these names in apps/, over [ClientRequest],
      [InstanceTable] and [PollPage] where the code uses them.
    - [Deadlock], [QueryEditor]: apps/Deadlock, over the cache of [Cache] that its
      pages share, and apps/QueryEditor.
    - [MetricPage], [QueryData], [ListTables], [StatementDetailV2]: libs/4-apps of
      ui-v2/: the pages of metrics; the data hooks of all applications over the
      class [QueryCache]; the tables of the list pages, over [UrlState]; and the
      detail page of a statement with its plans, limits and settings.
    - [ApiClient]: the generated client (tidb-dashboard-client), as the one pattern
      its operations are made from and a description of each operation.
      [ApiServer]: the routes of the Go server with their middlewares and what the
      handlers read, over the class [Gin].  [DataSources]: the methods by which the
      pages reach the client, in both distributions, those that choose what they
      call, and those that write their requests themselves.  A call of a page passes
      through all three.
    - [ClinicShell]: the registry, menus, client and layout of
      tidb-dashboard-for-clinic-cloud, over [Session].
    - [Locales]: the script of ui-v2/ that collects the texts of the source files and
      writes the locale files, on a disk, and the loading of these files.

    ** How the code is modelled

    A component's state is a record with the names of the code, an operation a
    function from state to state, an exception or a missing value an option or a
    sum.  Code that suspends at an await is split there: the call is recorded in
    the state as a request in flight and the rest of the function is the handler
    of its response, so that the statements about runs ([step], [tstep], [pstep],
    [step_quiet]) cover every order of responses and events.  The clock, random
    numbers and the time at which React runs effects are arguments.  What a
    function draws or shows is a value: a list of canvas calls, a cell, an error
    to display.

    Code outside the repository is a parameter with the equations its
    documentation states: the inner selection ([InnerLaws]), the transforms of
    d3 ([D3]), the URL hook of ahooks ([UrlHookLaws]), dates ([DayjsLaws]), the
    reading of the search part of an address ([SearchParseLaws]), the values and
    the checks of a form ([FormLaws]), the end of a day ([DayEndLaws]), the cache of
    react-query ([QueryCacheLaws]), the router of the server ([GinLaws]), the
    encryption of the password on the sign-in page (no equation), the sorting functions and the maximum of lodash, the comparison of versions, value
    formats, the SQL formatter, string templates and translations (no equations,
    unless a theorem names one).  Each of these classes has an instance, used by
    the witnesses.

    A dictionary of the code is a finite map.  The one key for which a plain object
    is not one, "__proto__", is treated like the others.

    Numbers are exact: [Z] for counters, indices and whole seconds, rationals for
    pixels and fractional values, [num] where a value can be infinite or not a
    number.  Doubles are exact on the integers the code computes with (below
    2^53); the rounding of other values is not modelled.  Strings are sequences of
    bytes; lengths are exact on ASCII text.

    ** Fuel

    Loops of the code that are not structural take fuel, and each time the amount
    is shown to be enough: the eviction loop of the cache takes the number of keys
    ([cache_set_refines] shows that its guard is false at the end); the parsers of
    plans take the length of the text and never run out ([plan_v1_roundtrip] and
    [plan_v2_lines] state that they return for every text); the loops that fill
    the gaps of a series take the number of ticks, plus one ([raw_data_fills_grid]
    states the result for every positive step); the label groups of the key axis
    are the four the code computes.  The search for a common head of names
    takes the length of the first name, plus one ([short_names_total] shows that
    the names come out whatever the labels are).  A fraction is printed with
    seventeen digits.  The parser of queries, which is no code of the repository,
    takes ten steps for each token; a query it cannot read is untyped, and
    [metric_queries_typed] shows that every query of the tables is typed.

    ** What the theorems show

    - Invariants of all reachable states: the key list of the cache is exactly its
      dictionary and within capacity; the sets of a filtered selection agree; at
      most one request of a hook is in flight, a component that was unmounted is
      not changed any more, no polling timer runs beside a request; a list only
      shows data that answers a request of its own; a session shows the owner of
      its token; at most one application is active; the tree of stores has no
      two inner siblings of one label and value; an answer of Top SQL is stored as
      the rows of the grouping it was asked for, and drawn by it, while the grouping
      stays as it is until the answers and the refreshes that are out have ended; the
      estimate shown at rest is the one for the choice made, while choices are made
      at rest; a select reports the keys of its selection; the binding of a plan is
      shown as the server has it; a list of statements shows what its filters ask
      for, when it starts so and while the page follows them at once; the key map shown is one that was asked for; the sign-in page has at
      most one request of a form in flight; a hook of ui-v2 is given the answer to
      its own request, or, in a chart that has none yet, that to a query it had
      before, and a change makes exactly what it touches stale; the table of the
      configuration is that of the last answer; the registry of the clinic
      has the applications that were chosen.
    - Refinement: writing to the cache is writing to a bounded queue; the updates
      of the query string are updates of a map of parameters; the list of rows of a
      diagnosis that is cut and joined at every click is the one laid out anew from
      the open rows; every operation of the client of the API is served by the
      handler that is documented for it, with the arguments it was given, except for
      two downloads whose routes ask for a token; all arguments and bodies that a
      page gives to a method that calls the client reach the server, but for four.
    - Agreement: the tables of both generations show the same plans; the chart and
      the table of Top SQL show the same sums; every metric query of the tables
      is well typed and carries the labels its series are named by; the tabs of the
      detail pages agree in the rows that both have, and the pages show a plan by the same tabs;
      the query that the clinic writes itself is that of the generated client; the
      tables of ui-v2 show the columns that are chosen; the page of a deadlock shows
      the rows the list was given; every menu entry opens its application.
    - Round trips: filters, ranges, orders, lists and pages through the URL, plans
      through their textual format, the clicked row through the cache, the
      filters through their dialog, a saved log search through its form, a row of
      a list through the address or the id of the page it opens, the parameters of a
      request through its path and its query.
    - Progress: a refresh button that is left alone refreshes at its pace; a page
      that polls asks until an answer is final and once more; a page with one group
      of charts is told that they are loading exactly as long as one is; building
      the tree of costs of an optimizer ends, with distinct numbers or, only if one is
      missing, with the operator that a reference does not find.
    - Geometry and bounds: the sections of an axis do not overlap, the chart keeps
      to the matrix and keeps its view when it is resized, a brush reports a range
      that covers it, aligned ranges cover the given ones, the points of a query
      fit the chart, the parts of a bar stay inside it, the graph of a deadlock is
      made of rings.
    - Files: the locale files of ui-v2 hold the texts of the sources and keep the
      translations that were there, and writing them again changes nothing.
    - Errors: an unauthenticated answer signs the session out; a callback of
      single sign-on with another state is refused.
    - Behaviours of the code that its authors would not expect, proved as they
      are: late answers that replace newer data or bring back a user who signed
      out, a cache key that leaves out what the request depends on, columns whose
      maximum is never requested, histograms without the last row and column,
      polling that goes on after errors, a search that is not followed after a
      retry, a choice that is lost while its items are asked for again, the end of a
      range of the key visualizer that is never sent, translations of components
      that are lost when their texts are collected again.

    ** Not modelled

    What the handlers of the Go server do, the generated clients of ui-v2 and of
    the other clinic, the rendering of React elements and the libraries they are
    made of, the translated texts, telemetry, the pages of ui-v2 that only arrange
    components, the test portal and the other build scripts. *)

From Stdlib Require Import QArith.
From stdpp Require Export base tactics list gmap strings pretty.
From stdpp Require Import options.

(** ** Hint databases shared by the components

    [js_rw] holds the rewriting rules that compute the string, number and list
    helpers on constructors; [js_hint] holds the side conditions they need. *)

Create HintDb js_hint discriminated.
Create Rewrite HintDb js_rw.

(** ** JavaScript truthiness

    [x || y], [!x] and [if (x)] test a value's truthiness.  The class gives the
    test for each type of value the program applies it to. *)

Class Truthy (A : Type) := truthy : A -> bool.
Arguments truthy {A _} !_ / : assert.
Global Hint Mode Truthy ! : typeclass_instances.

Global Instance truthy_bool : Truthy bool := fun b => b.
Global Instance truthy_string : Truthy string :=
  fun s => match s with EmptyString => false | String _ _ => true end.
Global Instance truthy_Z : Truthy Z := fun z => negb (Z.eqb z 0).
Global Instance truthy_option `{Truthy A} : Truthy (option A) :=
  fun o => match o with Some a => truthy a | None => false end.

(** [default d o] is the nullish coalescing [o ?? d]; [js_or o d] is the logical
    or [o || d] of a possibly undefined value with a default of its type. *)
Definition js_or {A} `{Truthy A} (o : option A) (d : A) : A :=
  match o with Some a => if truthy a then a else d | None => d end.

(** ** Tactics *)

(** Splits the [match]es and [if]s of the goal, closing the trivial branches. *)
Ltac js_cases := repeat (case_match || case_decide); simplify_eq/=; try done.

(** Turns boolean comparisons into propositions. *)
Ltac bool_to_prop :=
  repeat match goal with
  | H : (_ <? _)%Z = true |- _ => apply Z.ltb_lt in H
  | H : (_ <? _)%Z = false |- _ => apply Z.ltb_ge in H
  | H : (_ <=? _)%Z = true |- _ => apply Z.leb_le in H
  | H : (_ <=? _)%Z = false |- _ => apply Z.leb_gt in H
  | H : (_ =? _)%Z = true |- _ => apply Z.eqb_eq in H
  | H : (_ =? _)%Z = false |- _ => apply Z.eqb_neq in H
  | H : Nat.ltb _ _ = true |- _ => apply Nat.ltb_lt in H
  | H : Nat.ltb _ _ = false |- _ => apply Nat.ltb_ge in H
  | H : Nat.leb _ _ = true |- _ => apply Nat.leb_le in H
  | H : Nat.leb _ _ = false |- _ => apply Nat.leb_gt in H
  | H : andb _ _ = true |- _ => apply andb_true_iff in H as [? ?]
  | H : andb _ _ = false |- _ => apply andb_false_iff in H
  | H : orb _ _ = true |- _ => apply orb_true_iff in H
  | H : orb _ _ = false |- _ => apply orb_false_iff in H as [? ?]
  | H : negb _ = true |- _ => apply negb_true_iff in H
  | H : negb _ = false |- _ => apply negb_false_iff in H
  end.

Ltac js_lia := bool_to_prop; simplify_eq/=; lia.

(** Rewrites with the components' computation rules. *)
Tactic Notation "js_simpl" := autorewrite with js_rw; simpl.

(** ** Generic lemmas *)

Lemma truthy_string_spec (s : string) : truthy s = true <-> s <> "".
Proof. destruct s; simpl; split; congruence. Qed.

Lemma js_or_some {A} `{Truthy A} (a d : A) : truthy a = true -> js_or (Some a) d = a.
Proof. unfold js_or. intros H'. rewrite H'. done. Qed.

Lemma filter_length_le {A} (P : A -> Prop) `{!forall x, Decision (P x)} (l : list A) :
  length (filter P l) <= length l.
Proof. induction l; [done|]. rewrite filter_cons. case_decide; simpl; lia. Qed.

(** Filtering an already filtered list with the same test does nothing. *)
Lemma filter_id {A} (P : A -> Prop) `{!forall x, Decision (P x)} (l : list A) :
  Forall P l -> filter P l = l.
Proof.
  induction 1 as [|x l Hx _ IH]; [done|].
  rewrite filter_cons_True by done. by rewrite IH.
Qed.

Lemma filter_ext_elem {A} (P Q : A -> Prop) `{!forall x, Decision (P x), !forall x, Decision (Q x)}
    (l : list A) :
  (forall x, x ∈ l -> (P x <-> Q x)) -> filter P l = filter Q l.
Proof.
  induction l as [|x l IH]; intros Hl; [done|]. rewrite !filter_cons.
  rewrite IH by (intros; apply Hl; by right).
  pose proof (Hl x (list_elem_of_here _ _)). repeat case_decide; tauto.
Qed.

Lemma filter_none {A} (P : A -> Prop) `{!forall x, Decision (P x)} (l : list A) :
  Forall (fun x => ~ P x) l -> filter P l = [].
Proof.
  induction 1 as [|x l Hx _ IH]; [done|].
  by rewrite filter_cons_False.
Qed.

(** A filter that drops nothing kept every element. *)
Lemma filter_full_length {A} (P : A -> Prop) `{!forall x, Decision (P x)} (l : list A) :
  length (filter P l) = length l -> Forall P l.
Proof.
  induction l as [|x l IH]; [done|]. rewrite filter_cons.
  case_decide; simpl; intros; [constructor; auto with lia|].
  pose proof (filter_length_le P l). lia.
Qed.

Lemma forallb_elem {A} (p : A -> bool) l x : forallb p l = true -> x ∈ l -> p x = true.
Proof. rewrite forallb_forall, list_elem_of_In. eauto. Qed.

Lemma find_unique {A} (p : A -> bool) l x :
  x ∈ l -> p x = true -> (forall y, y ∈ l -> p y = true -> y = x) -> find p l = Some x.
Proof.
  intros Hx Hp Hu. destruct (find p l) as [y|] eqn:E.
  - apply find_some in E as [Hy Hpy]. apply list_elem_of_In in Hy. by rewrite (Hu y Hy Hpy).
  - apply list_elem_of_In in Hx. by rewrite (find_none _ _ E x Hx) in Hp.
Qed.

Lemma NoDup_filter' {A} (P : A -> Prop) `{!forall x, Decision (P x)} (l : list A) :
  NoDup l -> NoDup (filter P l).
Proof. apply NoDup_filter. Qed.

#[export] Hint Resolve NoDup_filter' filter_length_le : js_hint.
