(* ===== verification/JsString.v ===== *)
(** * JavaScript string operations

    The operations of [String.prototype] that the dashboard uses, on Rocq
    strings.  A string is its sequence of bytes: ASCII text is represented
    exactly, other text by its UTF-8 encoding, so the operations that split,
    join, search, encode and decode are exact on every text and the ones that
    measure a length are exact on ASCII text. *)

From Stdlib Require Import Ascii.
From S2P Require Import Prelude.
From stdpp Require Import options.

Local Open Scope string_scope.

(** ** Splitting and joining *)

Fixpoint js_split (c : ascii) (s : string) : list string :=
  match s with
  | EmptyString => [""]
  | String a s' =>
      if decide (a = c) then "" :: js_split c s'
      else match js_split c s' with
           | x :: xs => String a x :: xs
           | [] => [String a ""]
           end
  end.

Fixpoint js_join (sep : string) (l : list string) : string :=
  match l with
  | [] => ""
  | [x] => x
  | x :: l' => x +:+ sep +:+ js_join sep l'
  end.

Fixpoint has_char (c : ascii) (s : string) : bool :=
  match s with
  | EmptyString => false
  | String a s' => bool_decide (a = c) || has_char c s'
  end.

(** ** Prefixes, searching and slicing *)

Definition js_startsWith (s p : string) : bool := String.prefix p s.

Fixpoint str_drop (n : nat) (s : string) : string :=
  match n, s with
  | S n', String _ s' => str_drop n' s'
  | _, _ => s
  end.

Fixpoint str_take (n : nat) (s : string) : string :=
  match n, s with
  | S n', String a s' => String a (str_take n' s')
  | _, _ => ""
  end.

(** [s.slice(a, b)]: negative positions count from the end, positions are
    clamped to the string. *)
Definition js_clamp (len z : Z) : nat :=
  Z.to_nat (if (z <? 0)%Z then Z.max 0 (len + z) else Z.min z len)%Z.

Definition js_length (s : string) : Z := Z.of_nat (String.length s).

Definition js_slice (s : string) (a b : Z) : string :=
  let i := js_clamp (js_length s) a in
  let j := js_clamp (js_length s) b in
  str_take (j - i) (str_drop i s).

Definition js_slice_from (s : string) (a : Z) : string := js_slice s a (js_length s).

Fixpoint find_char (c : ascii) (s : string) : option nat :=
  match s with
  | EmptyString => None
  | String a s' => if decide (a = c) then Some 0 else S <$> find_char c s'
  end.

(** [s.indexOf(c, from)] for a one-character pattern; -1 when there is none. *)
Definition js_indexOf_char (s : string) (c : ascii) (from : Z) : Z :=
  let i := js_clamp (js_length s) (Z.max 0 from) in
  match find_char c (str_drop i s) with
  | Some k => Z.of_nat (i + k)
  | None => -1
  end.

(** [s.indexOf(p) > -1] *)
Fixpoint js_includes (s p : string) : bool :=
  String.prefix p s ||
  match s with EmptyString => false | String _ s' => js_includes s' p end.

(** ** White space and case *)

Definition is_ws (a : ascii) : bool :=
  let n := nat_of_ascii a in
  ((9 <=? n)%nat && (n <=? 13)%nat) || (n =? 32)%nat.

Fixpoint js_trimStart (s : string) : string :=
  match s with
  | EmptyString => ""
  | String a s' => if is_ws a then js_trimStart s' else s
  end.

Fixpoint js_trimEnd (s : string) : string :=
  match s with
  | EmptyString => ""
  | String a s' =>
      match js_trimEnd s' with
      | EmptyString => if is_ws a then "" else String a ""
      | t => String a t
      end
  end.

Definition js_trim (s : string) : string := js_trimEnd (js_trimStart s).

Definition lower_char (a : ascii) : ascii :=
  let n := nat_of_ascii a in
  if (65 <=? n)%nat && (n <=? 90)%nat then ascii_of_nat (n + 32) else a.

Fixpoint js_toLowerCase (s : string) : string :=
  match s with
  | EmptyString => ""
  | String a s' => String (lower_char a) (js_toLowerCase s')
  end.

Fixpoint js_repeat (s : string) (n : nat) : string :=
  match n with O => "" | S n' => s +:+ js_repeat s n' end.

(** [s.replaceAll(p, r)] for a non-empty pattern.  [skip] counts the characters
    of the current match that remain to be dropped. *)
Fixpoint replace_go (p r : string) (skip : nat) (s : string) : string :=
  match s with
  | EmptyString => ""
  | String a s' =>
      match skip with
      | S k => replace_go p r k s'
      | O => if String.prefix p s
             then r +:+ replace_go p r (String.length p - 1) s'
             else String a (replace_go p r O s')
      end
  end.

Definition js_replaceAll (s p r : string) : string := replace_go p r O s.

(** ** Lemmas on append *)

Lemma str_app_cons a s t : String a s +:+ t = String a (s +:+ t).
Proof. done. Qed.
Lemma str_app_nil_l s : "" +:+ s = s.
Proof. done. Qed.
Lemma str_app_nil_r s : s +:+ "" = s.
Proof. induction s as [|a s IH]; [done|]. by rewrite str_app_cons, IH. Qed.
Lemma str_app_assoc s t u : s +:+ (t +:+ u) = (s +:+ t) +:+ u.
Proof. induction s as [|a s IH]; [done|]. by rewrite !str_app_cons, IH. Qed.
Lemma str_length_app s t : String.length (s +:+ t) = (String.length s + String.length t)%nat.
Proof. induction s as [|a s IH]; [done|]. rewrite str_app_cons. simpl. by rewrite IH. Qed.

#[export] Hint Rewrite str_app_cons str_app_nil_l str_app_nil_r str_length_app : js_rw.

Lemma prefix_cons a p b s :
  String.prefix (String a p) (String b s) = bool_decide (a = b) && String.prefix p s.
Proof.
  simpl. destruct (ascii_dec a b); [by rewrite bool_decide_eq_true_2|].
  by rewrite bool_decide_eq_false_2.
Qed.
Lemma prefix_nil s : String.prefix "" s = true.
Proof. by destruct s. Qed.
Global Arguments String.prefix : simpl never.
Lemma prefix_app p s : String.prefix p (p +:+ s) = true.
Proof.
  induction p as [|a p IH]; [apply prefix_nil|]. rewrite str_app_cons, prefix_cons.
  by rewrite bool_decide_eq_true_2, IH.
Qed.

Lemma prefix_inv p s : String.prefix p s = true -> exists t, s = p +:+ t.
Proof.
  revert s. induction p as [|a p IH]; intros s; [by exists s|]. destruct s as [|b s]; [done|].
  rewrite prefix_cons. intros [Hab Hp]%andb_true_iff. apply bool_decide_eq_true in Hab. subst.
  destruct (IH s Hp) as [t ->]. exists t. by rewrite str_app_cons.
Qed.

Lemma has_char_app c s t : has_char c (s +:+ t) = has_char c s || has_char c t.
Proof.
  induction s as [|a s IH]; [done|]. rewrite str_app_cons. simpl.
  by rewrite IH, orb_assoc.
Qed.

(** ** Split and join are inverse on separator-free pieces *)

Lemma js_split_no_sep c s : has_char c s = false -> js_split c s = [s].
Proof.
  induction s as [|a s IH]; [done|]. simpl. intros [Ha Hs]%orb_false_iff.
  apply bool_decide_eq_false in Ha. rewrite decide_False by done. by rewrite IH.
Qed.

Lemma js_split_app_sep c s t :
  has_char c s = false -> js_split c (s +:+ String c t) = s :: js_split c t.
Proof.
  induction s as [|a s IH].
  - intros _. simpl. by rewrite decide_True.
  - rewrite str_app_cons. simpl. intros [Ha Hs]%orb_false_iff.
    apply bool_decide_eq_false in Ha. rewrite decide_False by done. by rewrite IH.
Qed.

Lemma js_split_nonempty c s : js_split c s <> [].
Proof. destruct s as [|a s]; simpl; js_cases. Qed.

Lemma js_split_join c l :
  l <> [] -> Forall (fun s => has_char c s = false) l ->
  js_split c (js_join (String c "") l) = l.
Proof.
  intros Hne Hl. induction Hl as [|x l Hx Hl IH]; [done|].
  destruct l as [|y l].
  - simpl. by apply js_split_no_sep.
  - change (js_join (String c "") (x :: y :: l))
      with (x +:+ String c "" +:+ js_join (String c "") (y :: l)).
    rewrite str_app_cons, str_app_nil_l, js_split_app_sep by done.
    by rewrite IH.
Qed.

Lemma js_join_cons sep x l :
  l <> [] -> js_join sep (x :: l) = x +:+ sep +:+ js_join sep l.
Proof. by destruct l. Qed.

(** Splitting loses no character: joining the pieces gives the text back. *)
Lemma js_join_split c s : js_join (String c "") (js_split c s) = s.
Proof.
  induction s as [|a s IH]; [done|]. simpl. case_decide as Ha.
  - rewrite js_join_cons by apply js_split_nonempty.
    rewrite IH. by subst.
  - destruct (js_split c s) as [|x xs] eqn:E; [by apply js_split_nonempty in E|].
    destruct xs as [|y xs]; [by rewrite <-IH|].
    rewrite js_join_cons by done. rewrite str_app_cons.
    rewrite <-js_join_cons by done. by rewrite IH.
Qed.

Lemma js_split_pieces c s : Forall (fun p => has_char c p = false) (js_split c s).
Proof.
  induction s as [|a s IH]; [by repeat constructor|]. simpl. case_decide as Ha.
  - by constructor.
  - destruct (js_split c s) as [|x xs]; inversion IH as [|?? Hx Hxs]; subst.
    + repeat constructor. simpl. by rewrite bool_decide_eq_false_2.
    + constructor; [|done]. simpl. by rewrite bool_decide_eq_false_2.
Qed.

Lemma js_join_empty sep l :
  l <> [] -> Forall (fun s => s <> "") l -> js_join sep l <> "".
Proof.
  intros Hne Hl. destruct Hl as [|x l Hx Hl]; [done|].
  destruct l; [done|]. rewrite js_join_cons by done. by destruct x.
Qed.

(** ** Slices *)

Lemma str_drop_app s t : str_drop (String.length s) (s +:+ t) = t.
Proof. induction s as [|a s IH]; [done|]. rewrite str_app_cons. simpl. done. Qed.
Lemma str_take_app s t : str_take (String.length s) (s +:+ t) = s.
Proof.
  induction s as [|a s IH]; [by destruct t|]. rewrite str_app_cons. simpl. by rewrite IH.
Qed.
Lemma str_drop_all n s : (String.length s <= n)%nat -> str_drop n s = "".
Proof.
  revert n. induction s as [|a s IH]; intros [|n]; simpl; try done; [lia|].
  intros. apply IH. lia.
Qed.

Lemma str_take_length n s : (n <= String.length s)%nat -> String.length (str_take n s) = n.
Proof.
  revert n. induction s as [|a s IH]; intros [|n]; simpl; try done; [lia|].
  intros. by rewrite IH by lia.
Qed.
Lemma str_drop_length n s : String.length (str_drop n s) = (String.length s - n)%nat.
Proof. revert n. induction s as [|a s IH]; intros [|n]; simpl; try done. Qed.

Lemma js_slice_length s a b :
  (0 <= a <= b)%Z -> (b <= js_length s)%Z -> js_length (js_slice s a b) = (b - a)%Z.
Proof.
  intros Ha Hb. unfold js_slice, js_clamp.
  rewrite !(proj2 (Z.ltb_ge _ _)) by lia. rewrite !Z.min_l by lia.
  unfold js_length in *. rewrite str_take_length; [lia|]. rewrite str_drop_length. lia.
Qed.

(** The slice at the position of a middle piece is that piece. *)
Lemma js_slice_mid p m q :
  js_slice (p +:+ m +:+ q) (js_length p) (js_length p + js_length m) = m.
Proof.
  unfold js_slice, js_clamp, js_length. rewrite !str_length_app.
  rewrite !(proj2 (Z.ltb_ge _ _)) by lia. rewrite !Z.min_l by lia.
  rewrite Nat2Z.id.
  replace (Z.to_nat _ - _)%nat with (String.length m) by lia.
  by rewrite str_drop_app, str_take_app.
Qed.

Lemma find_char_app_sep c s t :
  has_char c s = false -> find_char c (s +:+ String c t) = Some (String.length s).
Proof.
  induction s as [|a s IH]; [intros _; simpl; by rewrite decide_True|].
  rewrite str_app_cons. simpl. intros [Ha Hs]%orb_false_iff.
  apply bool_decide_eq_false in Ha. rewrite decide_False by done. by rewrite IH.
Qed.

Lemma find_char_none c s : has_char c s = false -> find_char c s = None.
Proof.
  induction s as [|a s IH]; [done|]. simpl. intros [Ha Hs]%orb_false_iff.
  apply bool_decide_eq_false in Ha. rewrite decide_False by done. by rewrite IH.
Qed.

Lemma js_indexOf_char_app c p s t :
  has_char c s = false ->
  js_indexOf_char (p +:+ s +:+ String c t) c (js_length p) = (js_length p + js_length s)%Z.
Proof.
  intros Hs. unfold js_indexOf_char, js_clamp, js_length. rewrite !str_length_app.
  rewrite (proj2 (Z.ltb_ge _ _)) by lia.
  replace (Z.to_nat _) with (String.length p) by lia.
  rewrite str_drop_app, find_char_app_sep by done. lia.
Qed.

Lemma js_indexOf_char_none c p s :
  has_char c s = false -> js_indexOf_char (p +:+ s) c (js_length p) = (-1)%Z.
Proof.
  intros Hs. unfold js_indexOf_char, js_clamp, js_length. rewrite !str_length_app.
  rewrite (proj2 (Z.ltb_ge _ _)) by lia.
  replace (Z.to_nat _) with (String.length p) by lia.
  by rewrite str_drop_app, find_char_none.
Qed.

(** ** Trimming *)

Lemma js_trimEnd_idemp s : js_trimEnd (js_trimEnd s) = js_trimEnd s.
Proof.
  induction s as [|a s IH]; [done|]. simpl.
  destruct (js_trimEnd s) as [|b t] eqn:E.
  - destruct (is_ws a) eqn:Ha; simpl; [done|]. by rewrite Ha.
  - change (js_trimEnd (String a (String b t))) with
      (match js_trimEnd (String b t) with
       | EmptyString => if is_ws a then "" else String a ""
       | t => String a t end).
    by rewrite IH.
Qed.

#[export] Hint Resolve js_split_no_sep js_split_nonempty js_split_pieces : js_hint.
