(* ===== verification/JsNumber.v ===== *)
(** * JavaScript numbers and their conversions

    Integers that the program only counts with (indices, seconds, sizes) are
    [Z].  Where a value may be fractional or not a number, it is a [num]: an
    exact rational, one of the infinities, or NaN.  The rounding of doubles is
    not modelled; on integers below 2^53, which is what the program computes
    with, doubles are exact. *)

From Stdlib Require Import Ascii QArith Qround Qcanon Qpower Qfield.
From stdpp Require Import strings pretty.
From S2P Require Import Prelude JsString.
From stdpp Require Import options.

Local Open Scope Z_scope.

(** ** Values *)

Inductive num :=
| NaN
| Inf (neg : bool)
| Fin (q : Q).

Global Instance num_eq_dec : EqDecision num.
Proof.
  intros x y. unfold Decision. decide equality; [apply bool_dec|].
  destruct q as [a b], q0 as [c d].
  destruct (decide (a = c)), (decide (b = d)); subst; (left; congruence) || (right; congruence).
Defined.

Definition num_of_Z (z : Z) : num := Fin (inject_Z z).
Coercion num_of_Z : Z >-> num.

Definition isNaN (x : num) : bool := match x with NaN => true | _ => false end.

Global Instance truthy_num : Truthy num := fun x =>
  match x with NaN => false | Inf _ => true | Fin q => negb (Qeq_bool q 0) end.

Definition num_opp (x : num) : num :=
  match x with NaN => NaN | Inf b => Inf (negb b) | Fin q => Fin (Qred (- q)) end.

Definition num_add (x y : num) : num :=
  match x, y with
  | Fin a, Fin b => Fin (Qred (a + b))
  | NaN, _ | _, NaN => NaN
  | Inf a, Inf b => if Bool.eqb a b then Inf a else NaN
  | Inf a, Fin _ | Fin _, Inf a => Inf a
  end.

Definition num_sub (x y : num) : num := num_add x (num_opp y).

Definition num_sign_neg (x : num) : bool :=
  match x with Fin q => negb (Qle_bool 0 q) | Inf b => b | NaN => false end.

Definition num_mul (x y : num) : num :=
  match x, y with
  | Fin a, Fin b => Fin (Qred (a * b))
  | NaN, _ | _, NaN => NaN
  | Inf a, Inf b => Inf (xorb a b)
  | Inf a, Fin q | Fin q, Inf a =>
      if Qeq_bool q 0 then NaN else Inf (xorb a (num_sign_neg (Fin q)))
  end.

Definition num_div (x y : num) : num :=
  match x, y with
  | NaN, _ | _, NaN => NaN
  | Inf _, Inf _ => NaN
  | Inf a, Fin q => Inf (xorb a (num_sign_neg (Fin q)))
  | Fin _, Inf _ => Fin 0
  | Fin a, Fin b =>
      if Qeq_bool b 0 then if Qeq_bool a 0 then NaN else Inf (num_sign_neg (Fin a))
      else Fin (Qred (a / b))
  end.

(** Comparisons are false as soon as one operand is NaN. *)
Definition num_le (x y : num) : bool :=
  match x, y with
  | NaN, _ | _, NaN => false
  | Inf true, _ => true
  | _, Inf false => true
  | Inf false, _ => false
  | _, Inf true => false
  | Fin a, Fin b => Qle_bool a b
  end.

Definition num_lt (x y : num) : bool :=
  match x, y with
  | NaN, _ | _, NaN => false
  | _, _ => negb (num_le y x)
  end.

(** [a < b] on rationals. *)
Definition Qltb (a b : Q) : bool := negb (Qle_bool b a).

Lemma Qltb_true a b : Qltb a b = true <-> (a < b)%Q.
Proof.
  unfold Qltb. rewrite negb_true_iff, <-not_true_iff_false, Qle_bool_iff. split.
  - apply Qnot_le_lt.
  - intros H1 H2. apply (Qlt_not_le _ _ H1 H2).
Qed.

Lemma Qltb_false a b : Qltb a b = false <-> (b <= a)%Q.
Proof. unfold Qltb. by rewrite negb_false_iff, Qle_bool_iff. Qed.

#[export] Instance Qltb_proper : Proper (Qeq ==> Qeq ==> eq) Qltb.
Proof. intros a a' Ha b b' Hb. apply eq_true_iff_eq. by rewrite !Qltb_true, Ha, Hb. Qed.

(** ** Finite values

    [fin x q]: the number is finite and equals the rational. *)
Definition fin (x : num) (q : Q) : Prop := match x with Fin a => (a == q)%Q | _ => False end.

#[export] Instance fin_proper : Proper (eq ==> Qeq ==> iff) fin.
Proof. intros x _ <- p q Hq. destruct x; unfold fin; [done|done|by rewrite Hq]. Qed.

Lemma fin_Z z : fin (num_of_Z z) (inject_Z z).
Proof. apply Qeq_refl. Qed.

Lemma fin_add x y a b : fin x a -> fin y b -> fin (num_add x y) (a + b).
Proof. destruct x, y; unfold fin, num_add; try done. intros H1 H2. by rewrite Qred_correct, H1, H2. Qed.

Lemma fin_sub x y a b : fin x a -> fin y b -> fin (num_sub x y) (a - b).
Proof.
  intros Hx Hy. apply fin_add; [done|]. destruct y; unfold fin, num_opp in *; try done. by rewrite Qred_correct, Hy.
Qed.

Lemma fin_mul x y a b : fin x a -> fin y b -> fin (num_mul x y) (a * b).
Proof. destruct x, y; unfold fin, num_mul; try done. intros H1 H2. by rewrite Qred_correct, H1, H2. Qed.

Lemma fin_div x y a b : fin x a -> fin y b -> ~ (b == 0)%Q -> fin (num_div x y) (a / b).
Proof.
  destruct x as [| |p], y as [| |q]; unfold fin, num_div; try done. intros H1 H2 Hb. destruct (Qeq_bool q 0) eqn:E.
  - apply Qeq_bool_iff in E. by rewrite H2 in E.
  - by rewrite Qred_correct, H1, H2.
Qed.

Lemma fin_le x y a b : fin x a -> fin y b -> num_le x y = Qle_bool a b.
Proof.
  destruct x, y; unfold fin, num_le; try done. intros H1 H2. apply eq_true_iff_eq. by rewrite !Qle_bool_iff, H1, H2.
Qed.

Lemma fin_lt x y a b : fin x a -> fin y b -> num_lt x y = Qltb a b.
Proof.
  intros H1 H2. pose proof (fin_le y x b a H2 H1) as Hl. unfold Qltb. rewrite <-Hl. by destruct x, y.
Qed.

Lemma fin_inj x a b : fin x a -> fin x b -> (a == b)%Q.
Proof. destruct x; unfold fin; [done|done|]. intros H1 H2. by rewrite <-H1. Qed.

(** ** Printing *)

Definition show (z : Z) : string := pretty z.

(** Decimal digits of the fraction [n/d], at most [fuel] of them. *)
Fixpoint frac_digits (fuel : nat) (n d : Z) : string :=
  match fuel with
  | O => ""
  | S f => if n =? 0 then ""
           else String (pretty_N_char (Z.to_N (n * 10 / d))) (frac_digits f (n * 10 mod d) d)
  end.

(** [`${x}`]; a fraction is printed with at most 17 digits after the point. *)
Definition num_show (x : num) : string :=
  match x with
  | NaN => "NaN"
  | Inf true => "-Infinity"
  | Inf false => "Infinity"
  | Fin q =>
      let n := Qnum (Qred q) in
      let d := Zpos (Qden (Qred q)) in
      if d =? 1 then show n
      else (if n <? 0 then "-" else "") +:+ show (Z.abs n / d) +:+ "." +:+
           frac_digits 17 (Z.abs n mod d) d
  end.

(** [x.toFixed(2)] of a non-negative number, ties rounded up. *)
Definition pad2 (z : Z) : string := (if z <? 10 then "0" else "") +:+ show z.
Definition toFixed2 (q : Q) : string :=
  let n := Qfloor (q * 100 + (1 # 2)) in
  show (n / 100) +:+ "." +:+ pad2 (n mod 100).

(** ** Reading digits *)

Definition digit_val (base : N) (a : ascii) : option N :=
  let n := N_of_ascii a in
  let v := if (48 <=? n)%N && (n <=? 57)%N then Some (n - 48)%N
           else if (65 <=? n)%N && (n <=? 90)%N then Some (n - 55)%N
           else if (97 <=? n)%N && (n <=? 122)%N then Some (n - 87)%N
           else None in
  match v with Some d => if (d <? base)%N then Some d else None | None => None end.

(** Reads the longest run of digits: its value over [acc], how many digits were
    read, and the rest of the text. *)
Fixpoint read_digits (base acc : N) (cnt : nat) (s : string) : N * nat * string :=
  match s with
  | EmptyString => (acc, cnt, s)
  | String a s' =>
      match digit_val base a with
      | Some d => read_digits base (acc * base + d) (S cnt) s'
      | None => (acc, cnt, s)
      end
  end.

Definition read_sign (s : string) : bool * string :=
  match s with
  | EmptyString => (false, s)
  | String a s' =>
      if decide (a = "-"%char) then (true, s')
      else if decide (a = "+"%char) then (false, s') else (false, s)
  end.

Definition apply_sign (neg : bool) (z : Z) : Z := if neg then - z else z.

(** An unsigned integer at the head of the text, hexadecimal after [0x]. *)
Definition read_int (r : string) : option N :=
  let hex := js_startsWith r "0x" || js_startsWith r "0X" in
  let '(v, n, _) :=
    if hex then read_digits 16 0 0 (str_drop 2 r) else read_digits 10 0 0 r in
  if Nat.eqb n 0 then None else Some v.

(** [parseInt(s)]; [None] is NaN. *)
Definition parseInt (s : string) : option Z :=
  let '(neg, r) := read_sign (js_trimStart s) in
  match read_int r with
  | Some v => Some (apply_sign neg (Z.of_N v))
  | None => None
  end.

(** An unsigned decimal literal at the head of the text, with the rest. *)
Definition read_exponent (s : string) : Z * string :=
  match s with
  | String "e" s' | String "E" s' =>
      let '(neg, r) := read_sign s' in
      let '(v, n, r') := read_digits 10 0 0 r in
      if Nat.eqb n 0 then (0, s) else (apply_sign neg (Z.of_N v), r')
  | _ => (0, s)
  end.

Definition read_decimal (s : string) : option (Q * string) :=
  let '(i, ni, r) := read_digits 10 0 0 s in
  let '(f, nf, r') :=
    match r with
    | String "." r1 => read_digits 10 i 0 r1
    | _ => (i, O, r)
    end in
  if Nat.eqb (ni + nf) 0 then None
  else let '(e, r'') := read_exponent r' in
       Some (Qred ((Z.of_N f # 1) * Qpower 10 (e - Z.of_nat nf)), r'').

Definition read_unsigned (s : string) : option (num * string) :=
  if js_startsWith s "Infinity" then Some (Inf false, str_drop 8 s)
  else match read_decimal s with Some (q, r) => Some (Fin q, r) | None => None end.

Definition signed (neg : bool) (x : num) : num := if neg then num_opp x else x.

(** [parseFloat(s)] *)
Definition parseFloat (s : string) : num :=
  let '(neg, r) := read_sign (js_trimStart s) in
  match read_unsigned r with Some (x, _) => signed neg x | None => NaN end.

(** [Number(s)] *)
Definition read_radix (base : N) (s : string) : num :=
  let '(v, n, r) := read_digits base 0 0 s in
  match r with
  | EmptyString => if Nat.eqb n 0 then NaN else num_of_Z (Z.of_N v)
  | _ => NaN
  end.

Definition js_Number (s : string) : num :=
  let t := js_trim s in
  if decide (t = "") then num_of_Z 0
  else if js_startsWith t "0x" || js_startsWith t "0X" then read_radix 16 (str_drop 2 t)
  else if js_startsWith t "0o" || js_startsWith t "0O" then read_radix 8 (str_drop 2 t)
  else if js_startsWith t "0b" || js_startsWith t "0B" then read_radix 2 (str_drop 2 t)
  else
    let '(neg, r) := read_sign t in
    match read_unsigned r with
    | Some (x, EmptyString) => signed neg x
    | _ => NaN
    end.

(** ** Decimal text of an integer *)

Fixpoint str_forall (p : ascii -> bool) (s : string) : bool :=
  match s with EmptyString => true | String a s' => p a && str_forall p s' end.

Definition is_digit (a : ascii) : bool :=
  match digit_val 10 a with Some _ => true | None => false end.

Lemma str_forall_impl (p q : ascii -> bool) s :
  (forall a, p a = true -> q a = true) -> str_forall p s = true -> str_forall q s = true.
Proof.
  intros Hpq. induction s as [|a s IH]; [done|]. simpl.
  intros [Ha Hs]%andb_true_iff. by rewrite Hpq, IH.
Qed.

Lemma str_forall_has_char p c s :
  str_forall p s = true -> p c = false -> has_char c s = false.
Proof.
  induction s as [|a s IH]; [done|]. simpl. intros [Ha Hs]%andb_true_iff Hc.
  rewrite IH by done. rewrite bool_decide_eq_false_2 by congruence. done.
Qed.

Lemma js_trimStart_id a s : is_ws a = false -> js_trimStart (String a s) = String a s.
Proof. simpl. by intros ->. Qed.

Lemma js_trimEnd_id s :
  str_forall (fun a => negb (is_ws a)) s = true -> js_trimEnd s = s.
Proof.
  induction s as [|a s IH]; [done|]. simpl. intros [Ha Hs]%andb_true_iff.
  rewrite IH by done. apply negb_true_iff in Ha. destruct s; [by rewrite Ha|done].
Qed.

Lemma js_trim_id s :
  str_forall (fun a => negb (is_ws a)) s = true -> js_trim s = s.
Proof.
  intros Hs. unfold js_trim. destruct s as [|a s]; [done|].
  pose proof Hs as Hs'. simpl in Hs'. apply andb_true_iff in Hs' as [Ha _].
  apply negb_true_iff in Ha. rewrite js_trimStart_id by done. by apply js_trimEnd_id.
Qed.

Lemma is_digit_range a :
  is_digit a = true <-> (48 <= nat_of_ascii a <= 57)%nat.
Proof. destruct a as [[] [] [] [] [] [] [] []]; vm_compute; split; try lia; intros; done || lia. Qed.

Lemma digit_not_ws a : is_digit a = true -> negb (is_ws a) = true.
Proof.
  rewrite is_digit_range. unfold is_ws. intros.
  rewrite (proj2 (Nat.leb_gt _ 13)), (proj2 (Nat.eqb_neq _ 32)) by lia.
  by rewrite andb_false_r.
Qed.

Lemma digit_val_pretty d : (d < 10)%N -> digit_val 10 (pretty_N_char d) = Some d.
Proof.
  intros H.
  assert (d = 0 \/ d = 1 \/ d = 2 \/ d = 3 \/ d = 4 \/ d = 5 \/ d = 6 \/ d = 7 \/ d = 8 \/ d = 9)%N
    as Hd by lia.
  repeat destruct Hd as [->|Hd]; try done. by subst.
Qed.

Lemma pretty_N_go_forall x s :
  str_forall is_digit s = true -> str_forall is_digit (pretty_N_go x s) = true.
Proof.
  revert s. induction (N.lt_wf_0 x) as [x _ IH]. intros s Hs.
  destruct (decide (x = 0%N)) as [->|Hx]; [done|].
  rewrite pretty_N_go_step by lia. apply IH; [apply N.div_lt; lia|].
  simpl. rewrite Hs, andb_true_r. unfold is_digit.
  by rewrite digit_val_pretty by (apply N.mod_lt; lia).
Qed.

Lemma pretty_N_digits (x : N) : str_forall is_digit (pretty x) = true.
Proof. unfold pretty, pretty_N. case_decide; [done|]. by apply pretty_N_go_forall. Qed.

(** Reading the decimal text of a number gives the number, whatever follows. *)
Lemma read_digits_go x n s :
  exists k, (x <> 0%N -> (0 < k)%nat) /\
    read_digits 10 0 n (pretty_N_go x s) = read_digits 10 x (k + n) s.
Proof.
  revert n s. induction (N.lt_wf_0 x) as [x _ IH]. intros n s.
  destruct (decide (x = 0%N)) as [->|Hx]; [by exists O|].
  rewrite pretty_N_go_step by lia.
  destruct (IH (x / 10)%N) with (n := n) (s := String (pretty_N_char (x mod 10)) s)
    as (k & _ & ->); [apply N.div_lt; lia|].
  exists (S k). split; [lia|]. simpl.
  rewrite digit_val_pretty by (apply N.mod_lt; lia).
  f_equal. rewrite (N.div_mod x 10) at 3 by lia. lia.
Qed.

Lemma read_digits_pretty (x : N) s :
  exists k, (0 < k)%nat /\ read_digits 10 0 0 (pretty x +:+ s) = read_digits 10 x k s.
Proof.
  assert (Hgo : forall y t u, pretty_N_go y t +:+ u = pretty_N_go y (t +:+ u)).
  { intros y. induction (N.lt_wf_0 y) as [y _ IH]. intros t u.
    destruct (decide (y = 0%N)) as [->|Hy]; [done|].
    rewrite !(pretty_N_go_step y) by lia. rewrite IH by (apply N.div_lt; lia). done. }
  unfold pretty, pretty_N. case_decide as Hx.
  - subst. exists 1%nat. split; [lia|]. done.
  - rewrite Hgo. destruct (read_digits_go x 0 ("" +:+ s)) as (k & Hk & ->).
    exists k. split; [auto|]. rewrite str_app_nil_l. by rewrite Nat.add_0_r.
Qed.

Definition second_char (s : string) : option ascii :=
  match s with String _ (String b _) => Some b | _ => None end.

Lemma no_radix_prefix c s :
  second_char s <> Some c -> js_startsWith s (String "0" (String c "")) = false.
Proof.
  unfold js_startsWith. intros H. destruct s as [|a [|b s]]; [done| |].
  - rewrite prefix_cons. by rewrite andb_false_r.
  - simpl in H. rewrite !prefix_cons.
    rewrite (bool_decide_eq_false_2 (c = b)) by congruence. apply andb_false_r.
Qed.

Definition stops (s : string) : bool :=
  match s with EmptyString => true | String a _ => negb (is_digit a) end.

Lemma read_digits_stops acc n s : stops s = true -> read_digits 10 acc n s = (acc, n, s).
Proof.
  destruct s as [|a s]; [done|]. simpl. unfold is_digit.
  destruct (digit_val 10 a); done.
Qed.

Lemma pretty_N_cons (x : N) :
  exists a t, (pretty x : string) = String a t /\ is_digit a = true /\ str_forall is_digit t = true.
Proof.
  pose proof (pretty_N_digits x) as Hd.
  destruct (pretty x) as [|a t] eqn:E.
  - destruct (read_digits_pretty x "") as (k & Hk & H). rewrite E in H.
    rewrite str_app_nil_l, !read_digits_stops in H by done. injection H. lia.
  - exists a, t. simpl in Hd. apply andb_true_iff in Hd as [??]. done.
Qed.

Lemma digit_not_char a c : is_digit a = true -> is_digit c = false -> a <> c.
Proof. congruence. Qed.

Lemma show_nonneg z : 0 <= z -> show z = pretty (Z.to_N z).
Proof. by destruct z. Qed.
Lemma show_neg z : z < 0 -> show z = String "-" (pretty (Z.to_N (- z))).
Proof. by destruct z. Qed.

(** Text that cannot extend a decimal number: it is empty, or starts with a
    character that is neither a digit nor a radix mark. *)
Definition ends_number (s : string) : bool :=
  stops s &&
  match s with
  | EmptyString => true
  | String a _ => negb (bool_decide (a = "x"%char)) && negb (bool_decide (a = "X"%char))
  end.

Lemma no_hex (x : N) s :
  ends_number s = true ->
  js_startsWith (pretty x +:+ s) "0x" || js_startsWith (pretty x +:+ s) "0X" = false.
Proof.
  intros [_ Hs]%andb_true_iff.
  destruct (pretty_N_cons x) as (a & t & -> & Ha & Ht). rewrite str_app_cons.
  apply orb_false_iff. split; apply no_radix_prefix; destruct t as [|b t]; simpl in *.
  1,3: destruct s as [|c s]; simpl in *; [done|];
       apply andb_true_iff in Hs as [?%negb_true_iff ?%negb_true_iff];
       rewrite !bool_decide_eq_false in *; congruence.
  all: apply andb_true_iff in Ht as [Hb _]; intros [= ->]; done.
Qed.

Lemma read_sign_digit a s : is_digit a = true -> read_sign (String a s) = (false, String a s).
Proof.
  intros Ha. simpl.
  by rewrite !decide_False by (intros ->; done).
Qed.

Lemma read_sign_minus s : read_sign (String "-" s) = (true, s).
Proof. done. Qed.

Lemma read_int_pretty (x : N) s : ends_number s = true -> read_int (pretty x +:+ s) = Some x.
Proof.
  intros Hs. unfold read_int. rewrite no_hex by done.
  destruct (read_digits_pretty x s) as (k & Hk & ->).
  apply andb_true_iff in Hs as [Hs _]. rewrite read_digits_stops by done.
  destruct (Nat.eqb_spec k 0); [lia|done].
Qed.

(** [parseInt] reads back the text of an integer, with anything after it that
    does not continue the number. *)
Lemma parseInt_show z s : ends_number s = true -> parseInt (show z +:+ s) = Some z.
Proof.
  intros Hs. unfold parseInt.
  destruct (Z.lt_ge_cases z 0) as [Hz|Hz].
  - rewrite show_neg by done. rewrite str_app_cons, js_trimStart_id by done.
    rewrite read_sign_minus, read_int_pretty by done. simpl. f_equal. lia.
  - rewrite show_nonneg by done.
    pose proof (read_int_pretty (Z.to_N z) s Hs) as H.
    destruct (pretty_N_cons (Z.to_N z)) as (a & t & E & Ha & Ht). rewrite E in *.
    rewrite str_app_cons in *. rewrite js_trimStart_id by (by apply negb_true_iff, digit_not_ws).
    rewrite read_sign_digit, H by done. simpl. f_equal. lia.
Qed.

Lemma parseInt_show' z : parseInt (show z) = Some z.
Proof. rewrite <-(str_app_nil_r (show z)). by apply parseInt_show. Qed.

Lemma show_forall (p : ascii -> bool) z :
  (forall a, is_digit a = true -> p a = true) -> p "-"%char = true ->
  str_forall p (show z) = true.
Proof.
  intros Hp Hm.
  destruct (Z.lt_ge_cases z 0) as [Hz|Hz].
  - rewrite show_neg by done. simpl. rewrite Hm. simpl.
    eapply str_forall_impl; [exact Hp|]. apply pretty_N_digits.
  - rewrite show_nonneg by done. eapply str_forall_impl; [exact Hp|]. apply pretty_N_digits.
Qed.

Lemma js_trim_show z : js_trim (show z) = show z.
Proof.
  apply js_trim_id, show_forall; [|done]. intros a. apply digit_not_ws.
Qed.

Lemma show_nonempty z : show z <> "".
Proof.
  destruct (Z.lt_ge_cases z 0) as [Hz|Hz].
  - by rewrite show_neg.
  - rewrite show_nonneg by done. by destruct (pretty_N_cons (Z.to_N z)) as (a & t & -> & _).
Qed.

Lemma has_char_show c z : is_digit c = false -> c <> "-"%char -> has_char c (show z) = false.
Proof.
  intros Hc Hm. apply str_forall_has_char with (fun a => is_digit a || bool_decide (a = "-"%char)).
  - apply show_forall; [intros a ->|]; done.
  - rewrite Hc. simpl. by apply bool_decide_eq_false_2.
Qed.

Lemma Qred_Z z : Qred (z # 1) = z # 1.
Proof. apply Qred_identity. simpl. apply Z.gcd_1_r. Qed.
Lemma Qred_Z_mul_1 z : Qred ((z # 1) * 1) = z # 1.
Proof. unfold Qmult. simpl. rewrite Z.mul_1_r. apply Qred_Z. Qed.

Lemma read_unsigned_pretty (x : N) :
  read_unsigned (pretty x) = Some (num_of_Z (Z.of_N x), "").
Proof.
  unfold read_unsigned, js_startsWith.
  destruct (pretty_N_cons x) as (a & t & E & Ha & Ht).
  rewrite E, prefix_cons, (bool_decide_eq_false_2 ("I"%char = a)) by (intros <-; done).
  simpl andb. cbv iota. rewrite <-E. unfold read_decimal.
  destruct (read_digits_pretty x "") as (k & Hk & H). rewrite str_app_nil_r in H.
  rewrite H, read_digits_stops by done. rewrite Nat.add_0_r.
  destruct (Nat.eqb_spec k 0); [lia|]. simpl.
  rewrite Qred_Z_mul_1. done.
Qed.

(** [Number] reads back the text of an integer. *)
Lemma js_Number_show z : js_Number (show z) = num_of_Z z.
Proof.
  unfold js_Number. rewrite js_trim_show. rewrite decide_False by apply show_nonempty.
  assert (Hp : forall c, is_digit c = false -> js_startsWith (show z) (String "0" (String c "")) = false).
  { intros c Hc. apply no_radix_prefix.
    destruct (Z.lt_ge_cases z 0) as [Hz|Hz].
    - rewrite show_neg by done. pose proof (pretty_N_digits (Z.to_N (- z))) as H.
      destruct (pretty _) as [|b t]; [done|]. simpl in *.
      apply andb_true_iff in H as [? _]. congruence.
    - rewrite show_nonneg by done. pose proof (pretty_N_digits (Z.to_N z)) as H.
      destruct (pretty _) as [|a [|b t]]; [done..|]. simpl in *.
      apply andb_true_iff in H as [_ [? _]%andb_true_iff]. congruence. }
  rewrite !Hp by done. simpl orb. cbv iota.
  destruct (Z.lt_ge_cases z 0) as [Hz|Hz].
  - rewrite show_neg by done. rewrite read_sign_minus.
    rewrite read_unsigned_pretty. unfold signed, num_opp, num_of_Z, inject_Z, Qopp.
    simpl Qnum. simpl Qden. rewrite Qred_Z. repeat f_equal. lia.
  - rewrite show_nonneg by done.
    destruct (pretty_N_cons (Z.to_N z)) as (a & t & E & Ha & Ht). rewrite E.
    rewrite read_sign_digit, <-E, read_unsigned_pretty by done.
    simpl. unfold num_of_Z. repeat f_equal. lia.
Qed.

(** Arithmetic on integers stays exact. *)
Lemma num_add_Z a b : num_add (num_of_Z a) (num_of_Z b) = num_of_Z (a + b).
Proof.
  unfold num_add, num_of_Z, inject_Z, Qplus. simpl. f_equal.
  rewrite !Z.mul_1_r. apply Qred_Z.
Qed.
Lemma num_sub_Z a b : num_sub (num_of_Z a) (num_of_Z b) = num_of_Z (a - b).
Proof.
  unfold num_sub. replace (num_opp (num_of_Z b)) with (num_of_Z (- b)); [apply num_add_Z|].
  unfold num_opp, num_of_Z, inject_Z, Qopp. f_equal. symmetry.
  apply Qred_Z.
Qed.
Lemma num_mul_Z a b : num_mul (num_of_Z a) (num_of_Z b) = num_of_Z (a * b).
Proof. unfold num_mul, num_of_Z, inject_Z, Qmult. simpl. by rewrite Qred_Z. Qed.

Lemma num_show_Z z : num_show (num_of_Z z) = show z.
Proof.
  unfold num_show, num_of_Z, inject_Z. rewrite Qred_Z. done.
Qed.
Lemma num_le_Z a b : num_le (num_of_Z a) (num_of_Z b) = (a <=? b)%Z.
Proof. unfold num_le, num_of_Z, inject_Z, Qle_bool. simpl. by rewrite !Z.mul_1_r. Qed.
Lemma num_lt_Z a b : num_lt (num_of_Z a) (num_of_Z b) = (a <? b)%Z.
Proof. unfold num_lt. rewrite num_le_Z. by rewrite Z.ltb_antisym. Qed.
Lemma truthy_num_Z z : truthy (num_of_Z z) = negb (z =? 0).
Proof. unfold num_of_Z, inject_Z. simpl. unfold Qeq_bool. simpl. by rewrite Z.mul_1_r. Qed.

#[export] Hint Rewrite js_Number_show parseInt_show' num_add_Z num_sub_Z num_show_Z
  num_le_Z num_lt_Z truthy_num_Z js_trim_show : js_rw.
#[export] Hint Resolve show_nonempty has_char_show : js_hint.

(** ** Decimal text of a fraction *)

(** The digits after the point are read back when the fraction has at most [fuel] of them. *)
Lemma read_frac_digits d fuel : 0 < d -> forall n acc cnt, 0 <= n < d -> (d | n * 10 ^ Z.of_nat fuel) ->
  exists k v, 0 <= v /\ v * d = n * 10 ^ Z.of_nat k /\
    read_digits 10 acc cnt (frac_digits fuel n d) = (Z.to_N (Z.of_N acc * 10 ^ Z.of_nat k + v), (cnt + k)%nat, "").
Proof.
  intros Hd. induction fuel as [|fuel IH]; intros n acc cnt Hn Hdiv.
  - assert (n = 0) as ->.
    { destruct Hdiv as [c Hc]. change (n * 1 = c * d) in Hc. assert (c < 1) by nia. assert (-1 < c) by nia. nia. }
    exists O, 0. split_and!; [lia|lia|]. cbn [frac_digits read_digits]. repeat f_equal; lia.
  - cbn [frac_digits]. destruct (n =? 0) eqn:E.
    + apply Z.eqb_eq in E as ->. exists O, 0. split_and!; [lia|lia|]. cbn [read_digits]. repeat f_equal; lia.
    + pose proof (Z.div_mod (n * 10) d ltac:(lia)) as Hdm. pose proof (Z.mod_pos_bound (n * 10) d Hd) as Hm.
      set (c := n * 10 / d) in *. set (m := (n * 10) mod d) in *. assert (0 <= c < 10) as Hc by nia.
      destruct (IH m (acc * 10 + Z.to_N c)%N (S cnt) Hm) as (k & v & Hv & Hvd & Hr).
      { rewrite Nat2Z.inj_succ, Z.pow_succ_r in Hdiv by lia.
        replace (n * (10 * 10 ^ Z.of_nat fuel)) with (d * (c * 10 ^ Z.of_nat fuel) + m * 10 ^ Z.of_nat fuel) in Hdiv by nia.
        eapply Z.divide_add_cancel_r; [|exact Hdiv]. apply Z.divide_factor_l. }
      exists (S k), (c * 10 ^ Z.of_nat k + v). rewrite Nat2Z.inj_succ, Z.pow_succ_r by lia.
      assert (0 <= 10 ^ Z.of_nat k) as Hp by (apply Z.pow_nonneg; lia).
      split_and!; [nia|nia|]. cbn [read_digits]. rewrite digit_val_pretty by lia. rewrite Hr.
      replace (S cnt + k)%nat with (cnt + S k)%nat by lia. replace (Z.of_N (acc * 10 + Z.to_N c)) with (Z.of_N acc * 10 + c) by lia.
      by replace ((Z.of_N acc * 10 + c) * 10 ^ Z.of_nat k + v) with (Z.of_N acc * (10 * 10 ^ Z.of_nat k) + (c * 10 ^ Z.of_nat k + v)) by ring.
Qed.

(** A number that is not negative and has at most 17 digits after the point. *)
Definition decimal (q : Q) : Prop := (0 <= q)%Q /\ (Zpos (Qden (Qred q)) | 10 ^ 17).

Lemma start_digit s : s <> "" -> (forall a t, s = String a t -> is_digit a = true) ->
  js_trimStart s = s /\ read_sign s = (false, s) /\ js_startsWith s "Infinity" = false.
Proof.
  destruct s as [|a t]; [done|]. intros _ H. specialize (H a t eq_refl). split_and!.
  - apply js_trimStart_id. apply digit_not_ws in H. by destruct (is_ws a).
  - by apply read_sign_digit.
  - unfold js_startsWith. rewrite prefix_cons, bool_decide_eq_false_2; [done|]. intros <-. done.
Qed.

Lemma parseFloat_show_decimal q : decimal q -> fin (parseFloat (num_show (Fin q))) q.
Proof.
  intros [Hq Hd]. pose proof (Qred_correct q) as Hr. unfold num_show. set (n := Qnum (Qred q)) in *. set (d := Zpos (Qden (Qred q))) in *.
  assert (0 <= n) as Hn.
  { rewrite <- Hr in Hq. unfold Qle in Hq. cbn in Hq. unfold n. lia. }
  assert (Hpre : forall z u, 0 <= z -> let s := show z +:+ u in
    js_trimStart s = s /\ read_sign s = (false, s) /\ js_startsWith s "Infinity" = false).
  { intros z u Hz s. subst s. rewrite show_nonneg by done. destruct (pretty_N_cons (Z.to_N z)) as (a & t & E & Ha & _).
    rewrite E. apply start_digit; [done|]. intros a' t' [= <- _]. done. }
  destruct (Z.eqb_spec d 1) as [E|E].
  - destruct (Hpre n "" Hn) as (H1 & H2 & _). rewrite str_app_nil_r in H1, H2. unfold parseFloat. rewrite H1, H2.
    rewrite show_nonneg, read_unsigned_pretty by done. cbn. rewrite Z2N.id by done. rewrite <- Hr. unfold Qeq. cbn. fold n d. lia.
  - rewrite (proj2 (Z.ltb_ge n 0)) by done. rewrite str_app_nil_l, Z.abs_eq by done.
    assert (0 < d) as Hdp by lia. pose proof (Z.mod_pos_bound n d Hdp) as Hm. pose proof (Z.div_mod n d ltac:(lia)) as Hdm.
    assert (0 <= n / d) as Hi by (apply Z.div_pos; lia).
    destruct (Hpre (n / d) ("." +:+ frac_digits 17 (n mod d) d) Hi) as (H1 & H2 & H3). unfold parseFloat. rewrite H1, H2.
    unfold read_unsigned. rewrite H3. unfold read_decimal. rewrite show_nonneg by done.
    destruct (read_digits_pretty (Z.to_N (n / d)) ("." +:+ frac_digits 17 (n mod d) d)) as (k & Hk & ->).
    rewrite read_digits_stops by done. rewrite str_app_cons, str_app_nil_l.
    destruct (read_frac_digits d 17 Hdp (n mod d) (Z.to_N (n / d)) 0 Hm) as (j & v & Hv & Hvd & ->).
    { by apply Z.divide_mul_r. }
    destruct (Nat.eqb_spec (k + (0 + j)) 0); [lia|]. cbn [read_exponent signed fin].
    rewrite Qred_correct, <- Hr. rewrite Z2N.id by lia.
    assert (0 <= 10 ^ Z.of_nat j) by (apply Z.pow_nonneg; lia). rewrite Z2N.id by nia.
    replace (0 - Z.of_nat (0 + j)) with (- Z.of_nat j) by lia. rewrite Qpower_opp.
    assert (Hpos : 0 < 10 ^ Z.of_nat j) by (apply Z.pow_pos_nonneg; lia).
    assert (Ht : (Qpower 10 (Z.of_nat j) == inject_Z (10 ^ Z.of_nat j))%Q) by (rewrite Zpower_Qpower by lia; done).
    rewrite Ht.
    set (p := 10 ^ Z.of_nat j) in *. set (z := n / d * p + v).
    assert (Hz : z * d = n * p) by (subst z; nia).
    assert (Hqd : (Qred q == inject_Z n / inject_Z d)%Q) by (unfold n, d; destruct (Qred q) as [a b]; apply Qmake_Qdiv).
    rewrite Hqd. change (z # 1) with (inject_Z z).
    assert (Hdq : ~ (inject_Z d == 0)%Q) by (unfold Qeq; cbn; lia).
    assert (Hpq : ~ (inject_Z p == 0)%Q) by (unfold Qeq; cbn; lia).
    assert (Hzq : (inject_Z z * inject_Z d == inject_Z n * inject_Z p)%Q) by (rewrite <- !inject_Z_mult; by rewrite Hz).
    transitivity ((inject_Z z * inject_Z d) / (inject_Z d * inject_Z p))%Q; [by field|]. rewrite Hzq. by field.
Qed.
