(* ===== verification/Cache.v ===== *)
(** * The runtime cache of the list pages (utils/useCache.ts, utils/useCacheItemIndex.ts)

  [CacheMgr] is the class of useCache.ts: a dictionary of values with an
  expiry time, the keys in order of their last write, a capacity and a default
  lifetime.  The clock [new Date().valueOf()] is the argument [now] of the
  operations that read it.  The dictionary, a plain object, is a finite map: its keys
  are fixed names or options written as JSON, none of which is "__proto__".  [Index] adds the two functions of
  useCacheItemIndex.ts on top. *)

From S2P Require Import Prelude.
From stdpp Require Import options.

Local Open Scope Z_scope.

Module CacheMgr.
Section Cache.
Context {V : Type}.

Record CacheItem := { expireAt : Z; data : V }.

Record CacheMgr := mkCache {
  cache : gmap string CacheItem;
  cacheItemKeys : list string;
  capacity : Z;
  globalExpire : Z
  }.

Definition ONE_HOUR_TIME : Z := 1 * 60 * 60 * 1000.

(** The constructor; the defaults of its parameters are 1 and one hour. *)
Definition new (capacity globalExpire : option Z) : CacheMgr :=
  mkCache ∅ [] (default 1 capacity) (default ONE_HOUR_TIME globalExpire).

Definition remove (key : string) (c : CacheMgr) : CacheMgr :=
  mkCache (delete key (cache c)) (filter (fun k => k <> key) (cacheItemKeys c))
    (capacity c) (globalExpire c).

Definition get (now : Z) (key : string) (c : CacheMgr) : option V * CacheMgr :=
  match cache c !! key with
  | None => (None, c)
  | Some item =>
      if expireAt item <? now then (None, remove key c) else (Some (data item), c)
  end.

(** The guard of the eviction loop of [set]. *)
Definition over_capacity (c : CacheMgr) : bool :=
  (0 <? capacity c) && (capacity c <? Z.of_nat (length (cacheItemKeys c))).

(** The loop itself, with one unit of fuel per round. *)
Fixpoint evict (fuel : nat) (c : CacheMgr) : CacheMgr :=
  match fuel with
  | O => c
  | S f =>
      if over_capacity c then
        match cacheItemKeys c with
        | k :: _ => evict f (remove k c)
        | [] => c
        end
      else c
  end.

Definition expiry (now : Z) (expire : option Z) (c : CacheMgr) : Z :=
  match expire with
  | Some e => if truthy e then now + e else now + globalExpire c
  | None => now + globalExpire c
  end.

(** [set] before its loop: the value is written and its key moved to the end. *)
Definition write (now : Z) (key : string) (val : V) (expire : option Z) (c : CacheMgr)
  : CacheMgr :=
  mkCache (<[key := {| expireAt := expiry now expire c; data := val |}]> (cache c))
    (filter (fun k => k <> key) (cacheItemKeys c) ++ [key])
    (capacity c) (globalExpire c).

Definition set (now : Z) (key : string) (val : V) (expire : option Z) (c : CacheMgr)
  : CacheMgr :=
  let c1 := write now key val expire c in
  evict (length (cacheItemKeys c1)) c1.

Definition clear (c : CacheMgr) : CacheMgr :=
  mkCache ∅ [] (capacity c) (globalExpire c).

(** ** Operations as data, for statements about any sequence of calls *)

Inductive op :=
  | Get (now : Z) (key : string)
  | Set_ (now : Z) (key : string) (val : V) (expire : option Z)
  | Remove (key : string)
  | Clear.

Definition run_op (c : CacheMgr) (o : op) : CacheMgr :=
  match o with
  | Get now k => snd (get now k c)
  | Set_ now k v e => set now k v e c
  | Remove k => remove k c
  | Clear => clear c
  end.

Definition run (c : CacheMgr) (os : list op) : CacheMgr := fold_left run_op os c.

(** ** Well-formedness *)

Definition keys_ok (c : CacheMgr) : Prop :=
  NoDup (cacheItemKeys c) /\
  forall k, k ∈ cacheItemKeys c <-> is_Some (cache c !! k).

Definition within_capacity (c : CacheMgr) : Prop :=
  0 < capacity c -> Z.of_nat (length (cacheItemKeys c)) <= capacity c.

Definition wf (c : CacheMgr) : Prop := keys_ok c /\ within_capacity c.

Lemma remove_keys_ok k c : keys_ok c -> keys_ok (remove k c).
Proof.
  intros [Hnd Hk]. split; simpl; [auto with js_hint|].
  intros k'. rewrite list_elem_of_filter, Hk.
  destruct (decide (k' = k)) as [->|Hne].
  - rewrite lookup_delete_eq. split; [intros [[] _]; done|intros [? ?]; done].
  - rewrite lookup_delete_ne by done. tauto.
Qed.

Lemma remove_length k c :
  (length (cacheItemKeys (remove k c)) <= length (cacheItemKeys c))%nat.
Proof. simpl. apply filter_length_le. Qed.

Lemma remove_wf k c : wf c -> wf (remove k c).
Proof.
  intros [Hk Hc]. split; [by apply remove_keys_ok|].
  intros Hpos. pose proof (remove_length k c). specialize (Hc Hpos). simpl in *. lia.
Qed.

Lemma write_keys_ok now k v e c : keys_ok c -> keys_ok (write now k v e c).
Proof.
  intros [Hnd Hk]. split; simpl.
  - apply NoDup_app. split_and!; [auto with js_hint| |apply NoDup_singleton].
    intros k' [Hne _]%list_elem_of_filter. by rewrite list_elem_of_singleton.
  - intros k'. rewrite elem_of_app, list_elem_of_singleton, list_elem_of_filter, Hk.
    destruct (decide (k' = k)) as [->|Hne].
    + rewrite lookup_insert_eq. split; [by eexists|tauto].
    + rewrite lookup_insert_ne by done. tauto.
Qed.

(** One round of the loop drops exactly the oldest key. *)
Lemma remove_head k ks c :
  NoDup (cacheItemKeys c) -> cacheItemKeys c = k :: ks ->
  cacheItemKeys (remove k c) = ks.
Proof.
  intros Hnd E. simpl. rewrite E in *. apply NoDup_cons in Hnd as [Hk _].
  rewrite filter_cons_False by naive_solver. apply filter_id.
  apply Forall_forall. intros x Hx ->. done.
Qed.

Lemma evict_keys_ok fuel c : keys_ok c -> keys_ok (evict fuel c).
Proof.
  revert c. induction fuel as [|f IH]; intros c Hc; [done|]. simpl.
  destruct (over_capacity c), (cacheItemKeys c); auto using remove_keys_ok.
Qed.

Lemma evict_params fuel c :
  capacity (evict fuel c) = capacity c /\ globalExpire (evict fuel c) = globalExpire c.
Proof.
  revert c. induction fuel as [|f IH]; intros c; [done|]. simpl.
  destruct (over_capacity c), (cacheItemKeys c) as [|k ks]; try done.
  destruct (IH (remove k c)). done.
Qed.

(** The keys the loop keeps are the newest ones. *)
Definition excess (c : CacheMgr) : nat :=
  if 0 <? capacity c then Z.to_nat (Z.of_nat (length (cacheItemKeys c)) - capacity c) else O.

Lemma over_capacity_excess c :
  over_capacity c = bool_decide (excess c <> O).
Proof.
  unfold over_capacity, excess. destruct (0 <? capacity c) eqn:Hc; cbn [andb]; cbv iota; bool_to_prop.
  - destruct (Z.ltb_spec (capacity c) (Z.of_nat (length (cacheItemKeys c)))).
    + rewrite bool_decide_eq_true_2 by lia. done.
    + rewrite bool_decide_eq_false_2 by lia. done.
  - by rewrite bool_decide_eq_false_2 by lia.
Qed.

Lemma excess_cons k ks c :
  excess c <> O -> NoDup (cacheItemKeys c) -> cacheItemKeys c = k :: ks ->
  excess c = S (excess (remove k c)).
Proof.
  intros Hx Hnd E. pose proof (remove_head _ _ _ Hnd E) as Hr.
  unfold excess in *. rewrite Hr. rewrite E in *. change (capacity (remove k c)) with (capacity c).
  destruct (0 <? capacity c) eqn:Hc; [|done]. bool_to_prop. simpl length in *. lia.
Qed.

Lemma evict_keys fuel c :
  NoDup (cacheItemKeys c) -> (excess c <= fuel)%nat ->
  cacheItemKeys (evict fuel c) = drop (excess c) (cacheItemKeys c).
Proof.
  revert c. induction fuel as [|f IH]; intros c Hnd Hf.
  - replace (excess c) with O by lia. done.
  - simpl. rewrite over_capacity_excess. case_bool_decide as Hx.
    + destruct (cacheItemKeys c) as [|k ks] eqn:E.
      { unfold excess in Hx. rewrite E in Hx. destruct (0 <? _) eqn:Hc; [|done].
        bool_to_prop. simpl in Hx. lia. }
      rewrite <-E in Hnd. pose proof (excess_cons _ _ _ Hx Hnd E) as He.
      rewrite IH; [|simpl; auto with js_hint|lia].
      rewrite (remove_head _ _ _ Hnd E). by rewrite He.
    + replace (excess c) with O by (destruct (excess c); naive_solver). done.
Qed.

Lemma excess_le c : (excess c <= length (cacheItemKeys c))%nat.
Proof. unfold excess. case_match; bool_to_prop; lia. Qed.

Lemma set_keys now k v e c :
  keys_ok c ->
  cacheItemKeys (set now k v e c) =
    drop (excess (write now k v e c)) (cacheItemKeys (write now k v e c)).
Proof.
  intros Hk. unfold set. apply evict_keys; [|apply excess_le].
  by apply write_keys_ok.
Qed.

Lemma set_wf now k v e c : keys_ok c -> wf (set now k v e c).
Proof.
  intros Hk. split.
  - unfold set. by apply evict_keys_ok, write_keys_ok.
  - intros Hpos. rewrite set_keys, length_drop by done.
    destruct (evict_params (length (cacheItemKeys (write now k v e c))) (write now k v e c))
      as [Hcap _]. unfold set in *. rewrite Hcap in *.
    unfold excess. destruct (0 <? _) eqn:E; bool_to_prop; lia.
Qed.

Lemma get_wf now k c : wf c -> wf (snd (get now k c)).
Proof. intros Hw. unfold get. js_cases. by apply remove_wf. Qed.

Lemma empty_wf cap exp : wf (mkCache ∅ [] cap exp).
Proof.
  split; [split|]; simpl.
  - apply NoDup_nil_2.
  - intros k. rewrite lookup_empty, elem_of_nil. split; [done|intros [? ?]; done].
  - intros Hpos. simpl in *. lia.
Qed.

Lemma run_op_wf c o : wf c -> wf (run_op c o).
Proof.
  intros Hw. destruct o; simpl; auto using get_wf, remove_wf.
  - apply set_wf, Hw.
  - apply empty_wf.
Qed.

Lemma run_wf c os : wf c -> wf (run c os).
Proof.
  unfold run. revert c. induction os as [|o os IH]; intros c Hw; simpl; auto using run_op_wf.
Qed.

Lemma new_wf cap exp : wf (new cap exp).
Proof. apply empty_wf. Qed.

(** ** The abstract cache: a bounded queue of entries, oldest write first *)

Definition spec := list (string * CacheItem).

Definition abs (c : CacheMgr) : spec :=
  omap (fun k => pair k <$> cache c !! k) (cacheItemKeys c).

(** Drops the oldest entries until the bound holds; a bound of zero or less
    means no bound. *)
Definition spec_bound (cap : Z) (q : spec) : spec :=
  drop (if 0 <? cap then Z.to_nat (Z.of_nat (length q) - cap) else O) q.

Definition spec_set (cap : Z) (k : string) (i : CacheItem) (q : spec) : spec :=
  spec_bound cap (filter (fun e => fst e <> k) q ++ [(k, i)]).

Lemma evict_lookup fuel c k :
  k ∈ cacheItemKeys (evict fuel c) -> cache (evict fuel c) !! k = cache c !! k.
Proof.
  revert c. induction fuel as [|f IH]; intros c; [done|]. simpl.
  destruct (over_capacity c), (cacheItemKeys c) as [|k0 ks] eqn:E; try done.
  intros Hk. rewrite IH by done. simpl. apply lookup_delete_ne. intros ->.
  assert (Hsub : forall g d, k ∈ cacheItemKeys (evict g d) -> k ∈ cacheItemKeys d).
  { clear. intros g. induction g as [|g IH]; intros d; [done|]. simpl.
    destruct (over_capacity d), (cacheItemKeys d) eqn:E; try rewrite E; try done.
    intros H%IH. simpl in H. apply list_elem_of_filter in H as [_ H]. by rewrite E in H. }
  apply Hsub in Hk. simpl in Hk. apply list_elem_of_filter in Hk as [[] _]. done.
Qed.

Lemma omap_drop_total {A B} (f : A -> option B) n (l : list A) :
  (forall x, x ∈ l -> is_Some (f x)) -> omap f (drop n l) = drop n (omap f l).
Proof.
  revert n. induction l as [|x l IH]; intros n Hl; [by destruct n|].
  destruct (Hl x) as [y Hy]; [left|]. destruct n as [|n].
  - done.
  - csimpl. rewrite Hy. apply IH. intros z Hz. apply Hl. by right.
Qed.

Lemma length_omap_total {A B} (f : A -> option B) (l : list A) :
  (forall x, x ∈ l -> is_Some (f x)) -> length (omap f l) = length l.
Proof.
  induction l as [|x l IH]; intros Hl; [done|]. csimpl.
  destruct (Hl x) as [y ->]; [left|]. csimpl. rewrite IH; [done|]. intros z Hz. apply Hl. by right.
Qed.

Lemma omap_ext_elem {A B} (f g : A -> option B) (l : list A) :
  (forall x, x ∈ l -> f x = g x) -> omap f l = omap g l.
Proof.
  induction l as [|x l IH]; intros Hl; [done|]. csimpl.
  rewrite (Hl x) by left. rewrite IH; [done|]. intros z Hz. apply Hl. by right.
Qed.

Lemma abs_write now k v e c :
  abs (write now k v e c) =
    filter (fun x => fst x <> k) (abs c) ++
    [(k, {| expireAt := expiry now e c; data := v |})].
Proof.
  unfold abs. csimpl. rewrite omap_app. csimpl. rewrite lookup_insert_eq. csimpl. f_equal.
  induction (cacheItemKeys c) as [|x l IH]; [done|]. csimpl.
  destruct (decide (x = k)) as [->|Hne].
  - rewrite filter_cons_False by tauto. rewrite IH.
    destruct (cache c !! k); csimpl; [|done]. symmetry. apply filter_cons_False. tauto.
  - rewrite filter_cons_True by done. csimpl. rewrite lookup_insert_ne by done.
    destruct (cache c !! x) as [i|]; csimpl; [|done]. rewrite IH. symmetry.
    by apply (filter_cons_True _ (x, i)).
Qed.

Lemma keys_total c k :
  keys_ok c -> k ∈ cacheItemKeys c -> is_Some (pair k <$> cache c !! k).
Proof. intros [_ Hk] [x Hx]%Hk. rewrite Hx. by eexists. Qed.

Lemma abs_evict c :
  keys_ok c ->
  abs (evict (length (cacheItemKeys c)) c) = spec_bound (capacity c) (abs c).
Proof.
  intros Hk. unfold abs at 1.
  rewrite (omap_ext_elem _ (fun k => pair k <$> cache c !! k))
    by (intros k Hin; by rewrite evict_lookup).
  rewrite evict_keys by (apply Hk || apply excess_le).
  rewrite omap_drop_total by auto using keys_total.
  unfold spec_bound, excess. unfold abs at 1.
  by rewrite length_omap_total by auto using keys_total.
Qed.

Lemma set_last now k v e c :
  keys_ok c -> k ∈ cacheItemKeys (set now k v e c).
Proof.
  intros Hk. rewrite set_keys by done. simpl cacheItemKeys.
  rewrite drop_app_le.
  - apply elem_of_app. right. by left.
  - unfold excess. cbn [write cacheItemKeys capacity]. rewrite length_app. cbn [length].
    destruct (0 <? capacity c) eqn:E; bool_to_prop; lia.
Qed.

Lemma set_lookup now k v e c :
  keys_ok c ->
  cache (set now k v e c) !! k = Some {| expireAt := expiry now e c; data := v |}.
Proof.
  intros Hk. pose proof (set_last now k v e c Hk) as Hin. unfold set in *.
  rewrite evict_lookup by done. simpl. by rewrite lookup_insert_eq.
Qed.
End Cache.
Arguments CacheMgr V : clear implicits.
Arguments CacheItem V : clear implicits.
Arguments op V : clear implicits.

(** ** Properties *)

(** C2: every sequence of [get], [set], [remove] and [clear] calls on a new
  cache leaves it well formed: the key list has no duplicates, lists exactly
  the keys of the dictionary, and is no longer than a positive capacity. *)
Theorem cache_reachable_wf {V} (cap exp : option Z) (os : list (op V)) :
  wf (run (new cap exp) os).
Proof. apply run_wf, new_wf. Qed.

(** C1: [set] refines the abstract bounded queue: the entry is moved to the
  newest end and the oldest entries are dropped until the bound holds, which
  also shows that the eviction loop ends with its guard false. *)
Theorem cache_set_refines {V} now k (v : V) e (c : CacheMgr V) :
  wf c ->
  abs (set now k v e c) =
  spec_set (capacity c) k {| expireAt := expiry now e c; data := v |} (abs c) /\
  over_capacity (set now k v e c) = false.
Proof.
  intros [Hk _]. split.
  - unfold set, spec_set. rewrite abs_evict by (by apply write_keys_ok).
  by rewrite abs_write.
  - rewrite over_capacity_excess. apply bool_decide_eq_false. intros Hx. apply Hx.
  destruct (set_wf now k v e c Hk) as [_ Hc]. unfold within_capacity in Hc. unfold excess.
  destruct (0 <? _) eqn:E; bool_to_prop; lia.
Qed.

Lemma cache_set_refines_witness :
  let c := run (new (Some 2) None) [Set_ 0 "a" 1 None; Set_ 1 "b" 2 None] in
  wf c /\ map fst (abs (set 2 "c" 3 None c)) = ["b"; "c"].
Proof.
  cbv zeta. split; [apply run_wf, new_wf|].
  rewrite (proj1 (cache_set_refines 2 "c" 3 None _ (run_wf _ _ (new_wf _ _)))).
  vm_compute. reflexivity.
Defined.

(** A value just written is read back until its lifetime is over and not
  after it, whatever the capacity; the read that finds it expired removes it. *)
Theorem cache_get_set {V} now now' k (v : V) e (c : CacheMgr V) :
  wf c ->
  let c' := set now k v e c in
  (now' <= expiry now e c -> get now' k c' = (Some v, c')) /\
  (expiry now e c < now' -> get now' k c' = (None, remove k c')).
Proof.
  intros [Hk _] c'. subst c'.
  unfold get. rewrite set_lookup by done. simpl.
  split; intros Hn; [rewrite (proj2 (Z.ltb_ge _ _)) by lia|rewrite (proj2 (Z.ltb_lt _ _)) by lia];
  done.
Qed.

Lemma cache_get_set_witness :
  wf (new (V := Z) None None) /\
  fst (get 3600000 "k" (set 0 "k" 7 None (new None None))) = Some 7 /\
  fst (get 3600001 "k" (set 0 "k" 7 None (new None None))) = None.
Proof.
  split; [apply new_wf|].
  destruct (cache_get_set 0 3600000 "k" 7 None _ (new_wf None None)) as [H _].
  destruct (cache_get_set 0 3600001 "k" 7 None _ (new_wf None None)) as [_ H'].
  rewrite H, H' by (vm_compute; done). split; reflexivity.
Defined.
End CacheMgr.

(** * The clicked row kept in the cache (utils/useCacheItemIndex.ts) *)

Module Index.
Import CacheMgr.
Section Index.
(** The cache holds values of any type; the index shares it with the results
    of the list queries. *)
Context {E : Type}.

Inductive any := ANum (n : Z) | AEntity (e : E).

Definition CLICKED_ITEM_INDEX : string := "clicked_item_index".

(** [cacheMgr?.set(...)]: nothing happens without a cache manager. *)
Definition saveClickedItemIndex (now idx : Z) (c : option (CacheMgr any))
  : option (CacheMgr any) :=
  set now CLICKED_ITEM_INDEX (ANum idx) None <$> c.

(** [Number(cacheMgr?.get(...) || -1)]; [None] is NaN, which [Number] gives for
    an object.  An object is truthy, a number unless it is zero. *)
Definition getClickedItemIndex (now : Z) (c : option (CacheMgr any)) : option Z :=
  match c ≫= fun c => fst (get now CLICKED_ITEM_INDEX c) with
  | None => Some (-1)
  | Some (ANum n) => if truthy n then Some n else Some (-1)
  | Some (AEntity _) => None
  end.
End Index.
Arguments any E : clear implicits.

(** The index saved by a click is read back while it lives, except that the
  first row (index 0) reads back as -1, the value for "no row". *)
Theorem clicked_index_roundtrip {E} now now' idx (c : CacheMgr (any E)) :
  wf c -> now' <= now + globalExpire c ->
  getClickedItemIndex now' (saveClickedItemIndex now idx (Some c)) =
  Some (if idx =? 0 then -1 else idx).
Proof.
  intros Hw Hn. unfold getClickedItemIndex, saveClickedItemIndex. simpl.
  destruct Hw as [Hk Hc].
  unfold get. rewrite set_lookup by done. simpl. rewrite (proj2 (Z.ltb_ge _ _)) by lia. simpl.
  by destruct idx.
Qed.

Lemma clicked_index_roundtrip_witness :
  wf (new (V := any unit) (Some 2) None) /\
  getClickedItemIndex 5 (saveClickedItemIndex 0 0 (Some (new (V := any unit) (Some 2) None))) = Some (-1).
Proof.
  split; [apply new_wf|].
  rewrite (clicked_index_roundtrip 0 5 0 _ (new_wf _ _)) by (vm_compute; done). reflexivity.
Defined.
End Index.
