(* ===== verification/InstanceTable.v ===== *)
(** * Instance tables (utils/instanceTable.ts, InstanceProfiling/utils/combineTargetStats.ts)

    The grouped tables of cluster instances: [buildInstanceTable] lays the
    instances of every kind out in one list with one group per non-empty kind,
    [filterInstanceTable] narrows such a list by a keyword and groups it again. *)

From stdpp Require Import sorting.
From S2P Require Import Prelude JsString JsNumber.
From stdpp Require Import options.

Inductive InstanceKind :=
| pd | tidb | tikv | tiflash | ticdc | tiproxy | tso | scheduling.

Global Instance InstanceKind_eq_dec : EqDecision InstanceKind.
Proof. solve_decision. Defined.

(** The text of a kind, which is also its runtime value in the code. *)
Definition kind_str (k : InstanceKind) : string :=
  match k with
  | pd => "pd" | tidb => "tidb" | tikv => "tikv" | tiflash => "tiflash"
  | ticdc => "ticdc" | tiproxy => "tiproxy" | tso => "tso" | scheduling => "scheduling"
  end.

Definition InstanceKinds : list InstanceKind :=
  [pd; tidb; tikv; tiflash; ticdc; tiproxy; tso; scheduling].

Inductive InstanceStatus := Unreachable | Up | Tombstone | Offline | Down.

Definition status_code (s : InstanceStatus) : Z :=
  match s with Unreachable => 0 | Up => 1 | Tombstone => 2 | Offline => 3 | Down => 4 end.

Section InstanceTable.
(** The fields of the topology records of the API client other than the address. *)
Context {Info : Type}.
(** The translation function [i18next.t]. *)
Context (t : string -> string).

Definition instanceKindName (kind : InstanceKind) : string :=
  t ("distro." +:+ kind_str kind).

Record Instance_ := mkInstance { ip : string; port : Z; info : Info }.

Record IInstanceTableItem := mkItem {
  key : string;
  instanceKind : InstanceKind;
  instance : Instance_
}.

Record IGroup := mkGroup {
  group_key : InstanceKind;
  name : string;
  startIndex : nat;
  count : nat;
  level : nat
}.

Record IBuildInstanceTableProps := mkProps {
  dataPD : option (list Instance_);
  dataTiDB : option (list Instance_);
  dataTiKV : option (list Instance_);
  dataTiFlash : option (list Instance_);
  dataTiCDC : option (list Instance_);
  dataTiProxy : option (list Instance_);
  dataTSO : option (list Instance_);
  dataScheduling : option (list Instance_);
  includeTiFlash : bool
}.

(** The dictionary [kinds]: TiFlash is only entered when it is asked for. *)
Definition kinds (p : IBuildInstanceTableProps) (k : InstanceKind) : option (list Instance_) :=
  match k with
  | pd => dataPD p
  | tidb => dataTiDB p
  | tikv => dataTiKV p
  | tiflash => if includeTiFlash p then dataTiFlash p else None
  | ticdc => dataTiCDC p
  | tiproxy => dataTiProxy p
  | tso => dataTSO p
  | scheduling => dataScheduling p
  end.

(** The variables of the two loops. *)
Record loop_state := mkLoop {
  tableData : list IInstanceTableItem;
  groupData : list IGroup;
  next : nat
}.

Definition loop_init : loop_state := mkLoop [] [] 0.

(** One round: nothing for an absent or empty kind, else a group that starts
    where the previous one ended, and the items. *)
Definition push_kind (ik : InstanceKind) (items : option (list IInstanceTableItem))
    (s : loop_state) : loop_state :=
  match items with
  | None | Some [] => s
  | Some items =>
      mkLoop (tableData s ++ items)
        (groupData s ++ [mkGroup ik (instanceKindName ik) (next s) (length items) 0])
        (next s + length items)
  end.

Definition item_of (ik : InstanceKind) (i : Instance_) : IInstanceTableItem :=
  mkItem (ip i +:+ ":" +:+ show (port i)) ik i.

Definition buildInstanceTable (p : IBuildInstanceTableProps)
    : list IInstanceTableItem * list IGroup :=
  let s := fold_left (fun s ik => push_kind ik (map (item_of ik) <$> kinds p ik) s)
             InstanceKinds loop_init in
  (tableData s, groupData s).

(** The keyword test of the filter. *)
Definition matches (filterKeyword : string) (i : IInstanceTableItem) : bool :=
  if decide (filterKeyword = "") then true
  else
    let kw := js_toLowerCase filterKeyword in
    js_includes (js_toLowerCase (key i)) kw || js_includes (kind_str (instanceKind i)) kw.

(** [_.groupBy(items, 'instanceKind')[ik]] *)
Definition groupBy_kind (items : list IInstanceTableItem) (ik : InstanceKind)
    : option (list IInstanceTableItem) :=
  match filter (fun i => instanceKind i = ik) items with [] => None | l => Some l end.

Definition filterInstanceTable (items : list IInstanceTableItem) (filterKeyword : string)
    : list IInstanceTableItem * list IGroup :=
  let filteredItems := filter (fun i => matches filterKeyword i = true) items in
  let s := fold_left (fun s ik => push_kind ik (groupBy_kind filteredItems ik) s)
             InstanceKinds loop_init in
  (tableData s, groupData s).

(** ** The grouping contract *)

(** The groups tile the table: starting at [start], each group is non-empty, at
    level 0, carries its kind's name, covers exactly the next [count] items, and
    these are of its kind. *)
Fixpoint tiles (start : nat) (gs : list IGroup) (items : list IInstanceTableItem) : Prop :=
  match gs with
  | [] => items = []
  | g :: gs' =>
      startIndex g = start /\ 0 < count g /\ level g = 0 /\
      name g = instanceKindName (group_key g) /\
      length (take (count g) items) = count g /\
      Forall (fun i => instanceKind i = group_key g) (take (count g) items) /\
      tiles (start + count g) gs' (drop (count g) items)
  end.

(** Both tables are the concatenation of the kinds' items in the order of
    [InstanceKinds]. *)
Definition table_of (get : InstanceKind -> list IInstanceTableItem) (ks : list InstanceKind)
    : list IInstanceTableItem :=
  flat_map get ks.

Definition groups_of (get : InstanceKind -> list IInstanceTableItem) :=
  fix go (start : nat) (ks : list InstanceKind) : list IGroup :=
    match ks with
    | [] => []
    | k :: ks' =>
        match get k with
        | [] => go start ks'
        | l => mkGroup k (instanceKindName k) start (length l) 0 :: go (start + length l) ks'
        end
    end.

Lemma loop_spec (f : InstanceKind -> option (list IInstanceTableItem)) get ks s :
  (forall k, get k = default [] (f k)) ->
  fold_left (fun s ik => push_kind ik (f ik) s) ks s =
    mkLoop (tableData s ++ table_of get ks)
      (groupData s ++ groups_of get (next s) ks)
      (next s + length (table_of get ks)).
Proof.
  intros Hg. revert s. induction ks as [|k ks IH]; intros [td gd n]; simpl.
  - by rewrite !app_nil_r, Nat.add_0_r.
  - rewrite IH, Hg. unfold push_kind.
    destruct (f k) as [[|i l]|]; simpl; [done| |done].
    rewrite <-!app_assoc. simpl. rewrite length_app. f_equal. lia.
Qed.

Lemma groups_tile (get : InstanceKind -> list IInstanceTableItem) start ks :
  (forall k, Forall (fun i => instanceKind i = k) (get k)) ->
  tiles start (groups_of get start ks) (table_of get ks).
Proof.
  intros Hget. revert start. induction ks as [|k ks IH]; intros start; [done|].
  pose proof (Hget k) as Hk. change (table_of get (k :: ks)) with (get k ++ table_of get ks).
  cbn [groups_of]. destruct (get k) as [|i l] eqn:E; [apply IH|]. rewrite <-E in *.
  cbn [tiles startIndex count level name group_key count].
  rewrite take_app_length, drop_app_length. split_and!; auto. rewrite E. simpl. lia.
Qed.

Lemma groups_keys (get : InstanceKind -> list IInstanceTableItem) start ks :
  map group_key (groups_of get start ks) = filter (fun k => get k <> []) ks.
Proof.
  revert start. induction ks as [|k ks IH]; intros start; [done|]. simpl.
  destruct (get k) eqn:E; simpl.
  - rewrite filter_cons_False by (rewrite E; tauto). apply IH.
  - rewrite filter_cons_True by (by rewrite E). by rewrite IH.
Qed.

Lemma table_kind (get : InstanceKind -> list IInstanceTableItem) ks k :
  (forall k, Forall (fun i => instanceKind i = k) (get k)) ->
  NoDup ks -> k ∈ ks ->
  filter (fun i => instanceKind i = k) (table_of get ks) = get k.
Proof.
  intros Hget Hnd Hin.
  assert (Hno : forall ks, k ∉ ks -> filter (fun i => instanceKind i = k) (table_of get ks) = []).
  { clear -Hget. induction ks as [|k' ks IH]; intros Hk; [done|]. simpl.
    rewrite filter_app, IH by set_solver.
    rewrite app_nil_r. apply filter_none. eapply Forall_impl; [apply Hget|].
    intros i Hi E. apply Hk, elem_of_cons. left. congruence. }
  induction Hnd as [|k' ks Hk' Hnd IH]; [by apply elem_of_nil in Hin|]. simpl.
  rewrite filter_app. apply elem_of_cons in Hin as [<-|Hin].
  - rewrite Hno, app_nil_r by done. apply filter_id, Hget.
  - rewrite IH by done.
    rewrite filter_none; [done|]. eapply Forall_impl; [apply Hget|]. congruence.
Qed.

Lemma InstanceKinds_NoDup : NoDup InstanceKinds.
Proof. by apply (bool_decide_unpack _). Qed.

Lemma InstanceKinds_all k : k ∈ InstanceKinds.
Proof. destruct k; unfold InstanceKinds; set_solver. Qed.

(** The rows of one kind, as each function reads them. *)
Definition build_rows (p : IBuildInstanceTableProps) (k : InstanceKind) :=
  map (item_of k) (default [] (kinds p k)).

Definition filter_rows (items : list IInstanceTableItem) (kw : string) (k : InstanceKind) :=
  filter (fun i => instanceKind i = k) (filter (fun i => matches kw i = true) items).

Lemma build_spec p :
  buildInstanceTable p =
    (table_of (build_rows p) InstanceKinds, groups_of (build_rows p) 0 InstanceKinds).
Proof.
  unfold buildInstanceTable.
  rewrite (loop_spec (fun ik => map (item_of ik) <$> kinds p ik) (build_rows p)); [done|].
  intros k. unfold build_rows. by destruct (kinds p k).
Qed.

Lemma filter_spec items kw :
  filterInstanceTable items kw =
    (table_of (filter_rows items kw) InstanceKinds,
     groups_of (filter_rows items kw) 0 InstanceKinds).
Proof.
  unfold filterInstanceTable. cbv zeta.
  rewrite (loop_spec (groupBy_kind _) (filter_rows items kw)); [done|].
  intros k. unfold groupBy_kind, filter_rows. by destruct (filter _ (filter _ _)).
Qed.

Lemma build_rows_kind p k : Forall (fun i => instanceKind i = k) (build_rows p k).
Proof. apply Forall_forall. intros i [j [-> _]]%list_elem_of_fmap. done. Qed.

Lemma filter_rows_kind items kw k : Forall (fun i => instanceKind i = k) (filter_rows items kw k).
Proof. apply Forall_forall. by intros i [? _]%list_elem_of_filter. Qed.
End InstanceTable.

(** ** Properties *)

(** Both functions return groups that tile the table: consecutive,
    non-empty, and each covering exactly rows of its own kind; the kinds appear
    at most once and in the order of [InstanceKinds]. *)
Theorem instance_groups_tile {Info} (t : string -> string) (p : @IBuildInstanceTableProps Info)
    (items : list IInstanceTableItem) (kw : string) :
  let ok r := tiles t 0 (snd r) (fst r) /\ sublist (map group_key (snd r)) InstanceKinds in
  ok (buildInstanceTable t p) /\ ok (filterInstanceTable t items kw).
Proof.
  cbv zeta. rewrite build_spec, filter_spec. cbn [fst snd]. rewrite !groups_keys.
  split; split; auto using groups_tile, build_rows_kind, filter_rows_kind, sublist_filter.
Qed.

(** The filtered table holds, for every kind, exactly the matching rows of
    that kind in their original order, so no row is lost, added or reordered
    within its kind. *)
Theorem filter_keeps_matching {Info} (t : string -> string)
    (items : list (@IInstanceTableItem Info)) (kw : string) (k : InstanceKind) :
  filter (fun i => instanceKind i = k) (fst (filterInstanceTable t items kw)) =
    filter (fun i => instanceKind i = k) (filter (fun i => matches kw i = true) items).
Proof.
  rewrite filter_spec. cbn [fst snd].
  apply (table_kind (filter_rows items kw)); auto using InstanceKinds_NoDup, InstanceKinds_all.
  intros k'. apply filter_rows_kind.
Qed.

(** Clearing the keyword restores the built table: filtering a built table
    with an empty keyword gives the same rows and the same groups. *)
Theorem filter_empty_keyword {Info} (t : string -> string) (p : @IBuildInstanceTableProps Info) :
  filterInstanceTable t (fst (buildInstanceTable t p)) "" = buildInstanceTable t p.
Proof.
  rewrite filter_spec, build_spec. cbn [fst snd].
  assert (H : forall k, filter_rows (table_of (build_rows p) InstanceKinds) "" k = build_rows p k).
  { intros k. unfold filter_rows. rewrite (filter_id (fun i => matches "" i = true)).
    - apply table_kind; auto using InstanceKinds_NoDup, InstanceKinds_all, build_rows_kind.
    - apply Forall_forall. done. }
  f_equal; simpl; by rewrite !H.
Qed.

(** * Summary text of a profiling task (InstanceProfiling/utils/combineTargetStats.ts) *)

Section CombineTargetStats.
Context (t : string -> string).

Definition targetNameMap (key : string) : option InstanceKind :=
  if decide (key = "num_tidb_nodes") then Some tidb
  else if decide (key = "num_tikv_nodes") then Some tikv
  else if decide (key = "num_pd_nodes") then Some pd
  else if decide (key = "num_tiflash_nodes") then Some tiflash
  else if decide (key = "num_ticdc_nodes") then Some ticdc
  else if decide (key = "num_tiproxy_nodes") then Some tiproxy
  else if decide (key = "num_tso_nodes") then Some tso
  else if decide (key = "num_scheduling_nodes") then Some scheduling
  else None.

(** The statistics as [Object.entries] lists them. *)
Definition combineTargetStats (stats : list (string * Z)) : string :=
  js_join ", " (omap (fun '(key, stat) =>
    k ← targetNameMap key;
    let targetName := instanceKindName t k in
    if truthy targetName then Some (show stat +:+ " " +:+ targetName) else None) stats).
End CombineTargetStats.
