(* ===== verification/Selection.v ===== *)
(** * Selection over a filtered list (utils/selectionWithFilter.ts)

    [SelectionWithFilter] wraps the [Selection] object of the Fabric library,
    which only knows the rows that pass the current filter, and keeps the
    selection of all rows.  The inner object is a parameter: [InnerSelection]
    lists the methods the class calls and [InnerLaws] what it relies on. *)

From S2P Require Import Prelude.

(** ** The inner selection *)

(** The methods that only pass their arguments to the inner object and change at most which of
    its rows are selected: by index, by ranges, and from the row selected before. *)
Inductive Gesture :=
| ToggleKey (key : string)
| SetIndex (index : Z) (isSelected : bool)
| SelectToKey (key : string) (clearSelection : option bool)
| SelectToIndex (index : Z) (clearSelection : option bool)
| ToggleIndex (index : Z)
| ToggleRange (fromIndex count : Z).

(** Each mutating method returns the new object and whether it called
    [onSelectionChanged] while it ran. *)
Class InnerSelection (T Sel : Type) := {
  getKey : T -> string;
  inner_getItems : Sel -> list T;
  inner_isKeySelected : Sel -> string -> bool;
  inner_isAllSelected : Sel -> bool;
  inner_setItems : list T -> option bool -> Sel -> Sel * bool;
  inner_setKeySelected : string -> bool -> Sel -> Sel * bool;
  inner_gesture : Gesture -> Sel -> Sel * bool;
  inner_setAllSelected : bool -> Sel -> Sel * bool;
  inner_setChangeEvents : bool -> option bool -> Sel -> Sel * bool
}.

Definition item_keys {T Sel} `{InnerSelection T Sel} (s : Sel) : list string :=
  map getKey (inner_getItems s).

(** What the wrapper relies on, for a selection in multiple mode whose items are
    all selectable: [setItems] replaces the rows and, unless told not to clear,
    deselects everything (its parameter defaults to true), while a row that was
    there before is left as it was when told not to; which rows that are new are
    selected then is left open, since an object in which all rows are selected may
    select them too.  [setKeySelected] sets one row that is present;
    [setAllSelected] sets all; [setChangeEvents] only concerns events; no gesture
    changes the rows. *)
Class InnerLaws (T Sel : Type) `{InnerSelection T Sel} := {
  setItems_items l c s : inner_getItems (fst (inner_setItems l c s)) = l;
  setItems_clear l c s k :
    c <> Some false -> inner_isKeySelected (fst (inner_setItems l c s)) k = false;
  setItems_keep l s k :
    k ∈ map getKey l -> k ∈ item_keys s ->
    inner_isKeySelected (fst (inner_setItems l (Some false) s)) k = inner_isKeySelected s k;
  setKey_items k b s : inner_getItems (fst (inner_setKeySelected k b s)) = inner_getItems s;
  setKey_same k b s :
    k ∈ item_keys s -> inner_isKeySelected (fst (inner_setKeySelected k b s)) k = b;
  setKey_other k b s k' :
    k' <> k -> inner_isKeySelected (fst (inner_setKeySelected k b s)) k' = inner_isKeySelected s k';
  gesture_items g s : inner_getItems (fst (inner_gesture g s)) = inner_getItems s;
  setAll_items b s : inner_getItems (fst (inner_setAllSelected b s)) = inner_getItems s;
  setAll_selected b s k :
    k ∈ item_keys s -> inner_isKeySelected (fst (inner_setAllSelected b s)) k = b;
  events_items b c s : inner_getItems (fst (inner_setChangeEvents b c s)) = inner_getItems s;
  events_selected b c s k :
    inner_isKeySelected (fst (inner_setChangeEvents b c s)) k = inner_isKeySelected s k
}.

(** ** Insertion-ordered sets and maps *)

(** A JavaScript [Set] of strings lists its members in insertion order. *)
Definition set_add (k : string) (l : list string) : list string :=
  if decide (k ∈ l) then l else l ++ [k].

Fixpoint map_set {T} (k : string) (v : T) (m : list (string * T)) : list (string * T) :=
  match m with
  | [] => [(k, v)]
  | (k', v') :: m' => if decide (k' = k) then (k, v) :: m' else (k', v') :: map_set k v m'
  end.

Lemma elem_of_set_add k k' l : k ∈ set_add k' l <-> k = k' \/ k ∈ l.
Proof.
  unfold set_add. case_decide as E.
  - split; [tauto|intros [->|?]; done].
  - rewrite elem_of_app, list_elem_of_singleton. tauto.
Qed.

Lemma elem_of_map_set {T} k k' (v : T) m : k ∈ map fst (map_set k' v m) <-> k = k' \/ k ∈ map fst m.
Proof.
  induction m as [|[k1 v1] m IH]; simpl.
  - rewrite list_elem_of_singleton, elem_of_nil. tauto.
  - case_decide; simpl; rewrite !elem_of_cons, ?IH; [subst|]; tauto.
Qed.

(** ** The wrapper *)

Section Wrapper.
Context {T Sel : Type} `{InnerSelection T Sel}.

Record SelectionWithFilter := mkSel {
  _inner : Sel;
  _allItems : list T;
  _allItemsMap : list (string * T);
  _allSelectedKeysSet : list string;
  _itemKeysSet : list string;
  _allSelectionCache : option (list T);
  (* how many times SELECTION_CHANGE was raised and the handler called *)
  changes : nat
}.

Implicit Types s : SelectionWithFilter.

Definition has (k : string) (l : list string) : bool := bool_decide (k ∈ l).
Definition map_has (k : string) (m : list (string * T)) : bool := bool_decide (k ∈ map fst m).

Definition new (inner : Sel) : SelectionWithFilter := mkSel inner [] [] [] [] None 0.

Definition _triggerSelectionChanged s : SelectionWithFilter :=
  mkSel (_inner s) (_allItems s) (_allItemsMap s) (_allSelectedKeysSet s) (_itemKeysSet s)
    None (S (changes s)).

(** Runs a method of the inner object; its callback is
    [_handleSelectionChanged], which triggers. *)
Definition on_inner (f : Sel -> Sel * bool) s : SelectionWithFilter :=
  let r := f (_inner s) in
  let s' := mkSel (fst r) (_allItems s) (_allItemsMap s) (_allSelectedKeysSet s)
              (_itemKeysSet s) (_allSelectionCache s) (changes s) in
  if snd r then _triggerSelectionChanged s' else s'.

Definition with_cache (c : option (list T)) s : SelectionWithFilter :=
  mkSel (_inner s) (_allItems s) (_allItemsMap s) (_allSelectedKeysSet s) (_itemKeysSet s)
    c (changes s).

Definition with_selected (l : list string) s : SelectionWithFilter :=
  mkSel (_inner s) (_allItems s) (_allItemsMap s) l (_itemKeysSet s)
    (_allSelectionCache s) (changes s).

Definition with_item_keys (l : list string) s : SelectionWithFilter :=
  mkSel (_inner s) (_allItems s) (_allItemsMap s) (_allSelectedKeysSet s) l
    (_allSelectionCache s) (changes s).

Definition with_all_items (items : list T) (m : list (string * T)) s : SelectionWithFilter :=
  mkSel (_inner s) items m (_allSelectedKeysSet s) (_itemKeysSet s)
    (_allSelectionCache s) (changes s).

(** [for (const key of keys) if (test(key)) inner.setKeySelected(key, true, false)] *)
Definition select_keys (test : string -> bool) (keys : list string) s : SelectionWithFilter :=
  fold_left (fun s k => if test k then on_inner (inner_setKeySelected k true) s else s) keys s.

Definition setItems (items : list T) (shouldClear : option bool) s : SelectionWithFilter :=
  let s := with_cache None s in
  let s := if default false shouldClear then with_selected [] s else s in
  let itemSubset := filter (fun i => map_has (getKey i) (_allItemsMap s) = true) items in
  let s := with_item_keys
             (fold_left (fun l i => set_add (getKey i) l) itemSubset []) s in
  let s := on_inner (inner_setChangeEvents false None) s in
  let s := on_inner (inner_setItems itemSubset shouldClear) s in
  let s := select_keys (fun k => has k (_itemKeysSet s)) (_allSelectedKeysSet s) s in
  on_inner (inner_setChangeEvents true None) s.

Definition setAllSelected (isAllSelected : bool) s : SelectionWithFilter :=
  if isAllSelected && negb (Nat.eqb (length (_itemKeysSet s)) (length (_allItemsMap s))) then
    let s := on_inner (inner_setChangeEvents false None) s in
    let s := select_keys (fun _ => true) (_itemKeysSet s) s in
    on_inner (inner_setChangeEvents true None) s
  else on_inner (inner_setAllSelected isAllSelected) s.

Definition toggleAllSelected s : SelectionWithFilter :=
  setAllSelected (negb (inner_isAllSelected (_inner s))) s.

Definition setKeySelected (key : string) (isSelected : bool) s : SelectionWithFilter :=
  on_inner (inner_setKeySelected key isSelected) s.

Definition gesture (g : Gesture) s : SelectionWithFilter := on_inner (inner_gesture g) s.

Definition setChangeEvents (isEnabled : bool) (suppressChange : option bool) s : SelectionWithFilter :=
  on_inner (inner_setChangeEvents isEnabled suppressChange) s.

Definition setAllItems (items : list T) s : SelectionWithFilter :=
  let s := with_cache None s in
  let s := with_all_items items
             (fold_left (fun m i => map_set (getKey i) i m) items []) s in
  let filteredItems := inner_getItems (_inner s) in
  let newItems := filter (fun i => map_has (getKey i) (_allItemsMap s) = true) filteredItems in
  if Nat.eqb (length filteredItems) (length newItems) then s else setItems newItems None s.

(** The rows the loop of [getAllSelection] collects: the inner object decides
    for the rows it holds, [_allSelectedKeysSet] for the others. *)
Definition collect s : list T :=
  map snd (filter (fun e =>
    (if has (fst e) (_itemKeysSet s) then inner_isKeySelected (_inner s) (fst e)
     else has (fst e) (_allSelectedKeysSet s)) = true) (_allItemsMap s)).

Definition getAllSelection s : list T * SelectionWithFilter :=
  match _allSelectionCache s with
  | Some l => (l, s)
  | None =>
      let l := collect s in
      (l, with_cache (Some l)
            (with_selected (fold_left (fun ks i => set_add (getKey i) ks) l []) s))
  end.

(** The check that avoids an update: the loop stops at the first valid key that
    is not selected; the count of valid keys seen is compared with the set. *)
Fixpoint unchanged_loop (selectedKeys : list string) (valid : nat) s : bool * nat :=
  match selectedKeys with
  | [] => (true, valid)
  | k :: ks =>
      if map_has k (_allItemsMap s) then
        if has k (_allSelectedKeysSet s) then unchanged_loop ks (S valid) s
        else (false, S valid)
      else unchanged_loop ks valid s
  end.

Definition unChanged (selectedKeys : list string) s : bool :=
  let '(u, valid) := unchanged_loop selectedKeys 0 s in
  u && Nat.eqb valid (length (_allSelectedKeysSet s)).

Definition resetAllSelection (selectedKeys : list string) s : SelectionWithFilter :=
  if unChanged selectedKeys s then s
  else
    let s := with_selected
               (fold_left (fun l k => if map_has k (_allItemsMap s) then set_add k l else l)
                  selectedKeys []) s in
    let s := on_inner (inner_setChangeEvents false None) s in
    let s := on_inner (inner_setAllSelected false) s in
    let s := select_keys (fun k => has k (_itemKeysSet s)) selectedKeys s in
    let s := on_inner (inner_setChangeEvents true (Some true)) s in
    _triggerSelectionChanged s.

Definition setAllSelectionSelected (isAllSelected : bool) s : SelectionWithFilter :=
  let s := on_inner (inner_setChangeEvents false None) s in
  let s :=
    if isAllSelected then
      on_inner (inner_setAllSelected true)
        (with_selected (fold_left (fun l k => set_add k l) (map fst (_allItemsMap s))
           (_allSelectedKeysSet s)) s)
    else on_inner (inner_setAllSelected false) (with_selected [] s) in
  let s := on_inner (inner_setChangeEvents true (Some true)) s in
  _triggerSelectionChanged s.

(** ** Well-formed states *)

Definition wf s : Prop :=
  NoDup (map fst (_allItemsMap s)) /\
  Forall (fun e => getKey (snd e) = fst e) (_allItemsMap s) /\
  NoDup (_itemKeysSet s) /\
  (forall k, k ∈ _itemKeysSet s <-> k ∈ item_keys (_inner s)) /\
  (forall k, k ∈ _itemKeysSet s -> k ∈ map fst (_allItemsMap s)).

(** The selection as a set of keys agrees with the inner object. *)
Definition synced s : Prop :=
  forall k, k ∈ _itemKeysSet s -> inner_isKeySelected (_inner s) k = has k (_allSelectedKeysSet s).

(** The rows of all items whose key is in a list. *)
Definition chosen (l : list string) (m : list (string * T)) : list T :=
  map snd (filter (fun e => has (fst e) l = true) m).

Lemma on_inner_frame f s :
  _inner (on_inner f s) = fst (f (_inner s)) /\
  _allItems (on_inner f s) = _allItems s /\
  _allItemsMap (on_inner f s) = _allItemsMap s /\
  _allSelectedKeysSet (on_inner f s) = _allSelectedKeysSet s /\
  _itemKeysSet (on_inner f s) = _itemKeysSet s /\
  (_allSelectionCache s = None -> _allSelectionCache (on_inner f s) = None).
Proof. unfold on_inner. destruct (f (_inner s)) as [r []]; done. Qed.

Lemma on_inner_inner f s : _inner (on_inner f s) = fst (f (_inner s)).
Proof. apply on_inner_frame. Qed.
Lemma on_inner_map f s : _allItemsMap (on_inner f s) = _allItemsMap s.
Proof. apply on_inner_frame. Qed.
Lemma on_inner_selected f s : _allSelectedKeysSet (on_inner f s) = _allSelectedKeysSet s.
Proof. apply on_inner_frame. Qed.
Lemma on_inner_item_keys f s : _itemKeysSet (on_inner f s) = _itemKeysSet s.
Proof. apply on_inner_frame. Qed.
Lemma on_inner_cache f s : _allSelectionCache s = None -> _allSelectionCache (on_inner f s) = None.
Proof. apply on_inner_frame. Qed.

Lemma select_keys_cons test k ks s :
  select_keys test (k :: ks) s =
    select_keys test ks (if test k then on_inner (inner_setKeySelected k true) s else s).
Proof. done. Qed.

Lemma select_keys_frame test ks s :
  _allItemsMap (select_keys test ks s) = _allItemsMap s /\
  _allSelectedKeysSet (select_keys test ks s) = _allSelectedKeysSet s /\
  _itemKeysSet (select_keys test ks s) = _itemKeysSet s /\
  (_allSelectionCache s = None -> _allSelectionCache (select_keys test ks s) = None).
Proof.
  revert s. induction ks as [|k ks IH]; intros s; [done|].
  rewrite select_keys_cons. destruct (IH (if test k then on_inner (inner_setKeySelected k true) s else s))
    as (-> & -> & -> & Hc).
  destruct (test k); [|done]. destruct (on_inner_frame (inner_setKeySelected k true) s) as (_&_&->&->&->&?).
  split_and!; auto.
Qed.

Lemma has_true k l : has k l = true <-> k ∈ l.
Proof. apply bool_decide_eq_true. Qed.

Lemma has_ext k l1 l2 : (k ∈ l1 <-> k ∈ l2) -> has k l1 = has k l2.
Proof. intros. unfold has. by apply bool_decide_ext. Qed.

Lemma fold_set_add_elem {A} (f : A -> string) l acc k :
  k ∈ fold_left (fun ks a => set_add (f a) ks) l acc <-> k ∈ acc \/ k ∈ map f l.
Proof.
  revert acc. induction l as [|a l IH]; intros acc; simpl.
  - rewrite elem_of_nil. tauto.
  - rewrite IH, elem_of_set_add, elem_of_cons. tauto.
Qed.

Lemma set_add_NoDup k l : NoDup l -> NoDup (set_add k l).
Proof.
  unfold set_add. case_decide; [done|]. intros. apply NoDup_app. split_and!; [done| |apply NoDup_singleton].
  intros x Hx. rewrite list_elem_of_singleton. intros ->. done.
Qed.

Lemma fold_set_add_NoDup {A} (f : A -> string) l acc :
  NoDup acc -> NoDup (fold_left (fun ks a => set_add (f a) ks) l acc).
Proof. revert acc. induction l; simpl; auto using set_add_NoDup. Qed.

Lemma elem_of_chosen m l x :
  x ∈ chosen l m <-> exists k, (k, x) ∈ m /\ k ∈ l.
Proof.
  unfold chosen. rewrite list_elem_of_fmap. split.
  - intros ([k y] & -> & [Hl Hm]%list_elem_of_filter). exists k. by rewrite has_true in Hl.
  - intros (k & Hm & Hl). exists (k, x). split; [done|]. apply list_elem_of_filter.
    split; [by apply has_true|done].
Qed.

Lemma collect_synced s : synced s -> collect s = chosen (_allSelectedKeysSet s) (_allItemsMap s).
Proof.
  intros Hs. unfold collect, chosen. f_equal. apply list_filter_iff. intros [k x].
  simpl. destruct (has k (_itemKeysSet s)) eqn:E; [|done].
  apply has_true in E. by rewrite Hs.
Qed.

Lemma chosen_ext l1 l2 m :
  (forall k, k ∈ map fst m -> (k ∈ l1 <-> k ∈ l2)) -> chosen l1 m = chosen l2 m.
Proof.
  intros He. unfold chosen. f_equal. induction m as [|[k x] m IH]; [done|].
  rewrite !filter_cons. simpl. rewrite (has_ext k l1 l2) by (apply He; simpl; left).
  rewrite IH; [done|]. intros k' Hk'. apply He. simpl. by right.
Qed.

(** ** Behaviour under the laws of the inner object *)

Context `{!InnerLaws T Sel}.

Lemma select_keys_items test ks s :
  inner_getItems (_inner (select_keys test ks s)) = inner_getItems (_inner s).
Proof.
  revert s. induction ks as [|k ks IH]; intros s; [done|].
  rewrite select_keys_cons, IH. destruct (test k); [|done].
  by rewrite on_inner_inner, setKey_items.
Qed.

(** After the loop a row is selected if it was, or if the loop selected it. *)
Lemma select_keys_selected test ks s k :
  (forall k, k ∈ ks -> test k = true -> k ∈ item_keys (_inner s)) ->
  inner_isKeySelected (_inner (select_keys test ks s)) k =
    (has k ks && test k) || inner_isKeySelected (_inner s) k.
Proof.
  revert s. induction ks as [|k0 ks IH]; intros s Hin; [done|].
  rewrite select_keys_cons, IH.
  2: { intros k1 Hk1 Ht. assert (Hk : k1 ∈ item_keys (_inner s)) by (apply Hin; [by right|done]).
       destruct (test k0); [|done]. unfold item_keys in *.
       by rewrite on_inner_inner, setKey_items. }
  assert (Hc : has k (k0 :: ks) = bool_decide (k = k0) || has k ks).
  { unfold has. rewrite <-bool_decide_or. apply bool_decide_ext, elem_of_cons. }
  rewrite Hc. destruct (test k0) eqn:Ht.
  - rewrite on_inner_inner. case_bool_decide as Hk.
    + subst. rewrite setKey_same, Ht by (apply Hin; [left|]; done). by rewrite orb_true_r.
    + by rewrite setKey_other.
  - case_bool_decide as Hk; [|done]. subst. by rewrite Ht, !andb_false_r.
Qed.

Definition subset_keys (items : list T) s : list string :=
  map getKey (filter (fun i => map_has (getKey i) (_allItemsMap s) = true) items).

Lemma select_keys_map test ks s : _allItemsMap (select_keys test ks s) = _allItemsMap s.
Proof. apply select_keys_frame. Qed.
Lemma select_keys_sel test ks s : _allSelectedKeysSet (select_keys test ks s) = _allSelectedKeysSet s.
Proof. apply select_keys_frame. Qed.
Lemma select_keys_item_keys test ks s : _itemKeysSet (select_keys test ks s) = _itemKeysSet s.
Proof. apply select_keys_frame. Qed.
Lemma select_keys_cache test ks s :
  _allSelectionCache s = None -> _allSelectionCache (select_keys test ks s) = None.
Proof. apply select_keys_frame. Qed.

Ltac frame := rewrite ?on_inner_map, ?on_inner_selected, ?on_inner_item_keys, ?on_inner_inner,
  ?select_keys_map, ?select_keys_sel, ?select_keys_item_keys, ?select_keys_items,
  ?setItems_items, ?setKey_items, ?gesture_items, ?setAll_items, ?events_items, ?events_selected.

(** The state after [setItems]. *)
Lemma setItems_frame items c s :
  let s' := setItems items c s in
  _allItemsMap s' = _allItemsMap s /\
  _allSelectedKeysSet s' = (if default false c then [] else _allSelectedKeysSet s) /\
  NoDup (_itemKeysSet s') /\
  (forall k, k ∈ _itemKeysSet s' <-> k ∈ subset_keys items s) /\
  item_keys (_inner s') = subset_keys items s /\
  _allSelectionCache s' = None.
Proof.
  intros s'. subst s'. unfold setItems, item_keys. cbn [with_cache].
  destruct (default false c); cbn [with_selected].
  all: do 4 (repeat frame); cbn; split_and!; try done.
  all: try apply fold_set_add_NoDup, NoDup_nil_2.
  all: try (intros k; rewrite fold_set_add_elem, elem_of_nil; unfold subset_keys; tauto).
  all: apply on_inner_cache; try apply select_keys_cache; by apply on_inner_cache, on_inner_cache.
Qed.

Lemma setItems_state items s :
  let s' := setItems items None s in
  _allItemsMap s' = _allItemsMap s /\
  _allSelectedKeysSet s' = _allSelectedKeysSet s /\
  NoDup (_itemKeysSet s') /\
  (forall k, k ∈ _itemKeysSet s' <-> k ∈ subset_keys items s) /\
  item_keys (_inner s') = subset_keys items s /\
  _allSelectionCache s' = None.
Proof. exact (setItems_frame items None s). Qed.

(** What the inner object selects after it: the rows that are selected overall, and those it
    selects by itself. *)
Lemma setItems_selected items c s k :
  k ∈ subset_keys items s ->
  exists x, inner_getItems x = inner_getItems (_inner s) /\
    (forall k, inner_isKeySelected x k = inner_isKeySelected (_inner s) k) /\
    inner_isKeySelected (_inner (setItems items c s)) k =
      has k (if default false c then [] else _allSelectedKeysSet s) ||
      inner_isKeySelected (fst (inner_setItems (filter (fun i => map_has (getKey i) (_allItemsMap s) = true) items) c x)) k.
Proof.
  intros Hk. exists (fst (inner_setChangeEvents false None (_inner s))).
  split; [apply events_items|split; [intros; apply events_selected|]].
  unfold setItems. cbn [with_cache]. destruct (default false c); cbn [with_selected]; repeat frame.
  all: rewrite select_keys_selected; cycle 1.
  all: try (intros k'; repeat frame; cbn; rewrite has_true, fold_set_add_elem, elem_of_nil;
            unfold item_keys; repeat frame; cbn; tauto).
  all: repeat frame; cbn; try done.
  all: match goal with |- (_ && ?t) || _ = _ => replace t with true end; [by rewrite andb_true_r|].
  all: symmetry; apply has_true; cbn; apply fold_set_add_elem; by right.
Qed.

Lemma setItems_synced items s : synced (setItems items None s).
Proof.
  intros k Hk. destruct (setItems_frame items None s) as (_ & -> & _ & Hke & _).
  apply Hke in Hk. destruct (setItems_selected items None s k Hk) as (x & _ & _ & ->).
  rewrite setItems_clear by done. by rewrite orb_false_r.
Qed.

Lemma elem_of_subset_keys items s k :
  k ∈ subset_keys items s -> k ∈ map fst (_allItemsMap s).
Proof.
  unfold subset_keys. intros (i & -> & [Hm _]%list_elem_of_filter)%list_elem_of_fmap.
  unfold map_has in Hm. by apply bool_decide_eq_true in Hm.
Qed.

Lemma setItems_wf items c s : wf s -> wf (setItems items c s).
Proof.
  intros (Hnd & Hk & _). destruct (setItems_frame items c s) as (Hm & _ & Hn & Hi & Hik & _).
  unfold wf. rewrite Hm. split_and!; try done.
  - intros k. by rewrite Hi, Hik.
  - intros k Hs%Hi. by apply elem_of_subset_keys in Hs.
Qed.

Lemma map_set_keys_NoDup k (v : T) m : NoDup (map fst m) -> NoDup (map fst (map_set k v m)).
Proof.
  induction m as [|[k' v'] m IH]; simpl; [intros _; apply NoDup_singleton|].
  intros [Hk Hnd]%NoDup_cons. case_decide as E; simpl; apply NoDup_cons; [by subst|].
  split; [|auto]. rewrite elem_of_map_set. intros [->|]; done.
Qed.

Lemma map_set_getKey (v : T) m :
  Forall (fun e => getKey (snd e) = fst e) m ->
  Forall (fun e => getKey (snd e) = fst e) (map_set (getKey v) v m).
Proof.
  induction 1 as [|[k' v'] m He Hm IH]; simpl; [by repeat constructor|].
  case_decide; by constructor.
Qed.

Lemma items_map_ok items m :
  NoDup (map fst m) -> Forall (fun e => getKey (snd e) = fst e) m ->
  let m' := fold_left (fun m i => map_set (getKey i) i m) items m in
  NoDup (map fst m') /\ Forall (fun e => getKey (snd e) = fst e) m' /\
  (forall k, k ∈ map fst m' <-> k ∈ map getKey items \/ k ∈ map fst m).
Proof.
  revert m. induction items as [|i items IH]; intros m Hnd Hk; simpl.
  - split_and!; [done..|]. intros k. rewrite elem_of_nil. tauto.
  - destruct (IH (map_set (getKey i) i m)) as (H1 & H2 & H3);
      [by apply map_set_keys_NoDup|by apply map_set_getKey|].
    split_and!; [done..|]. intros k. rewrite H3, elem_of_map_set, elem_of_cons. tauto.
Qed.

Lemma wf_frame f s :
  (forall x, inner_getItems (fst (f x)) = inner_getItems x) -> wf s -> wf (on_inner f s).
Proof.
  intros Hf. unfold wf, item_keys.
  destruct (on_inner_frame f s) as (-> & _ & -> & _ & -> & _). by rewrite Hf.
Qed.

Lemma select_keys_wf test ks s : wf s -> wf (select_keys test ks s).
Proof.
  revert s. induction ks as [|k ks IH]; intros s Hw; [done|].
  rewrite select_keys_cons. apply IH. destruct (test k); [|done].
  apply wf_frame; [|done]. intros. apply setKey_items.
Qed.

Create HintDb sel discriminated.
#[local] Hint Resolve wf_frame select_keys_wf setItems_wf setKey_items setAll_items events_items : sel.

Lemma setAllSelected_wf b s : wf s -> wf (setAllSelected b s).
Proof. intros Hw. unfold setAllSelected. case_match; auto 8 with sel. Qed.

Lemma wf_selected l s : wf s -> wf (with_selected l s).
Proof. done. Qed.

Lemma setAllItems_wf items s : wf s -> wf (setAllItems items s).
Proof.
  intros (Hnd & Hk & Hni & Hi & Hsub). unfold setAllItems. cbv zeta.
  set (s1 := with_all_items _ _ _).
  destruct (items_map_ok items []) as (H1 & H2 & H3); [apply NoDup_nil_2|done|].
  destruct (Nat.eqb _ _) eqn:E.
  - unfold wf. subst s1. cbn. split_and!; try done.
    intros k Hik. apply Hi in Hik as (i & -> & Hin)%list_elem_of_fmap.
    apply Nat.eqb_eq in E. symmetry in E. apply filter_full_length in E.
    rewrite Forall_forall in E. apply E, bool_decide_eq_true in Hin. done.
  - destruct (setItems_state (filter (fun i => map_has (getKey i) (_allItemsMap s1) = true)
      (inner_getItems (_inner s1))) s1) as (Hm & _ & Hn & Hie & Hik & _).
    unfold wf. rewrite Hm. split_and!; try done.
    + intros k. by rewrite Hie, Hik.
    + intros k Hs%Hie. by apply elem_of_subset_keys in Hs.
Qed.

Lemma setAllSelectionSelected_wf b s : wf s -> wf (setAllSelectionSelected b s).
Proof.
  intros Hw. unfold setAllSelectionSelected. cbv zeta.
  assert (Ht : forall x, wf x -> wf (_triggerSelectionChanged x)) by done.
  apply Ht. destruct b; auto 8 using wf_selected with sel.
Qed.

Lemma resetAllSelection_wf keys s : wf s -> wf (resetAllSelection keys s).
Proof.
  intros Hw. unfold resetAllSelection. case_match; [done|]. cbv zeta.
  assert (Ht : forall x, wf x -> wf (_triggerSelectionChanged x)) by done.
  apply Ht. auto 10 using wf_selected with sel.
Qed.

Lemma getAllSelection_wf s : wf s -> wf (snd (getAllSelection s)).
Proof. unfold getAllSelection. by case_match. Qed.

(** ** Reading and restoring the selection *)

Definition test s (k : string) : bool :=
  if has k (_itemKeysSet s) then inner_isKeySelected (_inner s) k
  else has k (_allSelectedKeysSet s).

Lemma collect_keys s k :
  wf s -> k ∈ map getKey (collect s) <-> k ∈ map fst (_allItemsMap s) /\ test s k = true.
Proof.
  intros (_ & Hk & _). rewrite Forall_forall in Hk. unfold collect. rewrite !list_elem_of_fmap. split.
  - intros (x & -> & ([k' y] & -> & [Ht Hm]%list_elem_of_filter)%list_elem_of_fmap).
    pose proof (Hk _ Hm) as E. simpl in *. rewrite E. split; [by exists (k', y)|done].
  - intros [([k' y] & -> & Hm) Ht]. exists y. pose proof (Hk _ Hm) as E. simpl in *. split; [done|].
    apply list_elem_of_fmap. exists (k', y). split; [done|]. by apply list_elem_of_filter.
Qed.

(** Reading the selection brings the set of keys and the inner object in step. *)
Lemma getAllSelection_sync s :
  wf s -> _allSelectionCache s = None ->
  let s1 := snd (getAllSelection s) in
  fst (getAllSelection s) = collect s /\ synced s1 /\ collect s1 = collect s /\
  _allSelectionCache s1 = Some (collect s) /\
  (forall k, k ∈ _allSelectedKeysSet s1 -> k ∈ map fst (_allItemsMap s1)) /\
  NoDup (_allSelectedKeysSet s1).
Proof.
  intros Hw Hc. unfold getAllSelection. rewrite Hc. cbn.
  pose proof (fun k => fold_set_add_elem getKey (collect s) [] k) as Hf.
  assert (Hs : forall k, k ∈ map fst (_allItemsMap s) ->
    has k (fold_left (fun ks i => set_add (getKey i) ks) (collect s) []) = test s k).
  { intros k Hk. destruct (test s k) eqn:E.
    - apply has_true, Hf. right. by apply collect_keys.
    - apply not_true_iff_false. rewrite has_true, Hf, elem_of_nil, collect_keys by done.
      rewrite E. intros [[]|[_ ?]]; done. }
  assert (Hsy : synced (with_cache (Some (collect s)) (with_selected
    (fold_left (fun ks i => set_add (getKey i) ks) (collect s) []) s))).
  { intros k Hk. cbn in *. rewrite Hs by (by apply Hw).
    unfold test. by rewrite (proj2 (has_true _ _) Hk). }
  split_and!; try done.
  - etrans; [apply (collect_synced _ Hsy)|]. cbn. unfold chosen, collect. f_equal.
    apply filter_ext_elem. intros [k x] Hm. simpl. rewrite Hs; [reflexivity|].
    apply list_elem_of_fmap. by exists (k, x).
  - intros k [[]%elem_of_nil|Hk]%Hf. by apply collect_keys in Hk as [? _].
  - apply fold_set_add_NoDup, NoDup_nil_2.
Qed.

Lemma getAllSelection_none s :
  _allSelectionCache s = None -> fst (getAllSelection s) = collect s.
Proof. unfold getAllSelection. by intros ->. Qed.

(** ** The update-avoiding check of [resetAllSelection] *)

Lemma unchanged_loop_true keys n s v :
  unchanged_loop keys n s = (true, v) ->
  let valid := filter (fun k => map_has k (_allItemsMap s) = true) keys in
  v = n + length valid /\ Forall (fun k => k ∈ _allSelectedKeysSet s) valid.
Proof.
  revert n. induction keys as [|k keys IH]; intros n; simpl; [intros [= <-]; split; [lia|done]|].
  destruct (map_has k (_allItemsMap s)) eqn:E.
  - destruct (has k (_allSelectedKeysSet s)) eqn:Hs; [|done].
    intros [-> Hf]%IH. rewrite filter_cons_True by done. apply has_true in Hs.
    split; [simpl; lia|by constructor].
  - intros H1%IH. by rewrite filter_cons_False by (by rewrite E).
Qed.

Lemma unChanged_keys keys s :
  NoDup keys -> NoDup (_allSelectedKeysSet s) -> unChanged keys s = true ->
  forall k, k ∈ map fst (_allItemsMap s) -> (k ∈ _allSelectedKeysSet s <-> k ∈ keys).
Proof.
  intros Hnk Hns. unfold unChanged. destruct (unchanged_loop keys 0 s) as [u v] eqn:E.
  intros [-> Hv%Nat.eqb_eq]%andb_true_iff k Hk. apply unchanged_loop_true in E as [-> Hf].
  simpl in Hv. set (valid := filter _ keys) in *.
  assert (Hin : forall k, k ∈ valid <-> k ∈ keys /\ k ∈ map fst (_allItemsMap s)).
  { intros k'. subst valid. rewrite list_elem_of_filter. unfold map_has.
    rewrite bool_decide_eq_true. tauto. }
  assert (Hincl : incl (_allSelectedKeysSet s) valid).
  { apply NoDup_length_incl.
    - apply NoDup_ListNoDup, NoDup_filter, Hnk.
    - by rewrite Hv.
    - intros x. rewrite <-!list_elem_of_In. rewrite Forall_forall in Hf. apply Hf. }
  split.
  - intros Hs. apply list_elem_of_In, Hincl, list_elem_of_In, Hin in Hs. tauto.
  - intros Hs. rewrite Forall_forall in Hf. apply Hf, Hin. tauto.
Qed.

(** The update itself, when it is not avoided. *)
Lemma resetAllSelection_update keys s :
  wf s -> unChanged keys s = false ->
  let s' := resetAllSelection keys s in
  _allSelectionCache s' = None /\ synced s' /\ _allItemsMap s' = _allItemsMap s /\
  forall k, k ∈ map fst (_allItemsMap s) -> (k ∈ _allSelectedKeysSet s' <-> k ∈ keys).
Proof.
  intros (_ & _ & _ & Hi & Hsub) Hu. unfold resetAllSelection. rewrite Hu. cbn.
  assert (Hf : forall l acc k, k ∈ fold_left
    (fun l k => if map_has k (_allItemsMap s) then set_add k l else l) l acc <->
    k ∈ acc \/ (k ∈ l /\ k ∈ map fst (_allItemsMap s))).
  { clear. induction l as [|k0 l IH]; intros acc k; simpl; [rewrite elem_of_nil; tauto|].
    rewrite IH, elem_of_cons. destruct (map_has k0 (_allItemsMap s)) eqn:E;
      [apply bool_decide_eq_true in E; rewrite elem_of_set_add
      |apply bool_decide_eq_false in E]; naive_solver. }
  split_and!; [done| |by repeat frame|].
  - intros k. cbn. repeat frame. cbn. intros Hk. rewrite select_keys_selected.
    + repeat frame. rewrite setAll_selected by (unfold item_keys; repeat frame; by apply Hi).
      cbn. rewrite orb_false_r. rewrite (proj2 (has_true k (_itemKeysSet s))), andb_true_r by done.
      apply has_ext. rewrite Hf, elem_of_nil. pose proof (Hsub _ Hk). tauto.
    + intros k' _. repeat frame. cbn. rewrite has_true. intros Hk'%Hi.
      unfold item_keys in *. repeat frame. done.
  - intros k Hk. repeat frame. cbn. rewrite Hf, elem_of_nil. tauto.
Qed.
End Wrapper.

Ltac frame := rewrite ?on_inner_map, ?on_inner_selected, ?on_inner_item_keys, ?on_inner_inner,
  ?select_keys_map, ?select_keys_sel, ?select_keys_item_keys, ?select_keys_items,
  ?setItems_items, ?setKey_items, ?gesture_items, ?setAll_items, ?events_items, ?events_selected.

(** ** A concrete inner selection *)

(** Rows are strings, their own keys.  The object keeps its rows, whether it is one in which all
    rows are selected, and the rows that are the exceptions: rows that come while all are selected
    are selected too.  It is used to run the wrapper on examples. *)
Record ListSel := mkListSel { rows : list string; all_mode : bool; exempted : list string }.

Definition ls_selected (x : ListSel) (k : string) : bool := bool_decide (k ∈ rows x) && xorb (all_mode x) (bool_decide (k ∈ exempted x)).
Definition ls_set (k : string) (b : bool) (x : ListSel) : ListSel :=
  mkListSel (rows x) (all_mode x) (if xorb (all_mode x) b then set_add k (exempted x) else filter (fun k' => k' <> k) (exempted x)).

Global Instance list_selection : InnerSelection string ListSel := {
  getKey := id;
  inner_getItems := rows;
  inner_isKeySelected := ls_selected;
  inner_isAllSelected x := forallb (ls_selected x) (rows x);
  inner_setItems l c x :=
    (if default true c then mkListSel l false []
     else mkListSel l (all_mode x) (filter (fun k => k ∈ l /\ k ∈ rows x) (exempted x)), true);
  inner_setKeySelected k b x := (ls_set k b x, true);
  inner_gesture g x := match g with ToggleKey k => (ls_set k (negb (ls_selected x k)) x, true) | _ => (x, false) end;
  inner_setAllSelected b x := (mkListSel (rows x) b [], true);
  inner_setChangeEvents _ _ x := (x, false)
}.

Lemma ls_set_exempted k b x k' : bool_decide (k' ∈ exempted (ls_set k b x)) = if decide (k' = k) then xorb (all_mode x) b else bool_decide (k' ∈ exempted x).
Proof.
  unfold ls_set. cbn. destruct (xorb (all_mode x) b) eqn:E; case_decide as Hk; subst.
  - apply bool_decide_eq_true, elem_of_set_add. by left.
  - apply bool_decide_ext. rewrite elem_of_set_add. naive_solver.
  - apply bool_decide_eq_false. rewrite list_elem_of_filter. naive_solver.
  - apply bool_decide_ext. rewrite list_elem_of_filter. naive_solver.
Qed.

Global Instance list_selection_laws : InnerLaws string ListSel.
Proof.
  split; unfold item_keys; simpl; unfold ls_selected; try done.
  - by intros l [[]|] s.
  - intros l [[]|] s k Hc; simpl; [by rewrite andb_false_r|congruence|by rewrite andb_false_r].
  - intros l s k. rewrite !map_id. intros Hl Hs. cbn. rewrite (bool_decide_eq_true_2 (k ∈ l)), (bool_decide_eq_true_2 (k ∈ rows s)) by done. cbn.
    f_equal. apply bool_decide_ext. rewrite list_elem_of_filter. tauto.
  - intros k b s. rewrite map_id. intros Hk. rewrite (bool_decide_eq_true_2 (k ∈ rows (ls_set k b s))) by done.
    rewrite ls_set_exempted, decide_True by done. cbn. by destruct (all_mode s), b.
  - intros k b s k' Hk. by rewrite ls_set_exempted, decide_False by done.
  - by intros [] s.
  - intros b s k. rewrite map_id. intros Hk. rewrite (bool_decide_eq_true_2 (k ∈ rows s)) by done. by destruct b.
Qed.

(** ** Operations as data *)

Section Runs.
Context {T Sel : Type} `{InnerLaws T Sel}.

Inductive op :=
| SetAllItems (items : list T)
| SetItems (items : list T) (shouldClear : option bool)
| SetAllSelected (b : bool)
| ToggleAllSelected
| SetKeySelected (k : string) (b : bool)
| GetAllSelection
| ResetAllSelection (keys : list string)
| SetAllSelectionSelected (b : bool)
| SetChangeEvents (isEnabled : bool) (suppressChange : option bool)
| DoGesture (g : Gesture).

Definition run_op (s : SelectionWithFilter) (o : op) : SelectionWithFilter :=
  match o with
  | SetAllItems l => setAllItems l s
  | SetItems l c => setItems l c s
  | SetAllSelected b => setAllSelected b s
  | ToggleAllSelected => toggleAllSelected s
  | SetKeySelected k b => setKeySelected k b s
  | GetAllSelection => snd (getAllSelection s)
  | ResetAllSelection ks => resetAllSelection ks s
  | SetAllSelectionSelected b => setAllSelectionSelected b s
  | SetChangeEvents b c => setChangeEvents b c s
  | DoGesture g => gesture g s
  end.

Lemma selection_new_wf (inner : Sel) : inner_getItems inner = [] -> wf (new inner).
Proof.
  intros Hi. unfold wf, item_keys. simpl. rewrite Hi.
  split_and!; try done; apply NoDup_nil_2.
Qed.

Lemma selection_run_op_wf s o : wf s -> wf (run_op s o).
Proof.
  intros Hw. destruct o; simpl; [by apply setAllItems_wf|by apply setItems_wf
    |by apply setAllSelected_wf|by apply setAllSelected_wf| |by apply getAllSelection_wf|by apply resetAllSelection_wf
    |by apply setAllSelectionSelected_wf| |]; apply wf_frame; try done; intros.
  - apply setKey_items.
  - apply events_items.
  - apply gesture_items.
Qed.

Lemma runs_wf s os : wf s -> wf (fold_left run_op os s).
Proof. revert s. induction os as [|o os IH]; intros s Hw; [done|]. by apply IH, selection_run_op_wf. Qed.

(** C9: whatever calls of its methods are made on a new object that shows no row yet, with rows
    that are cleared or kept and gestures of every kind, the keys of the filtered rows are exactly
    the keys of the rows the inner object shows, and all of them belong to the list of all rows. *)
Theorem selection_reachable_wf (inner : Sel) (os : list op) :
  inner_getItems inner = [] -> wf (fold_left run_op os (new inner)).
Proof.
  intros Hi. apply runs_wf, selection_new_wf, Hi.
Qed.

Lemma filter_sublist {A} (P Q : A -> Prop) `{!forall x, Decision (P x), !forall x, Decision (Q x)} (l : list A) :
  (forall x, x ∈ l -> P x -> Q x) -> filter P l `sublist_of` filter Q l.
Proof.
  induction l as [|x l IH]; intros Hl; [constructor|]. assert (IH' : filter P l `sublist_of` filter Q l) by (apply IH; intros y Hy; apply Hl; by right).
  rewrite !filter_cons. case_decide as HP.
  - rewrite decide_True by (apply Hl; [by left|done]). by constructor.
  - case_decide; [by constructor|done].
Qed.

(** The keys of the rows that are selected after [setItems] without clearing: those that were, and
    new rows that the inner object selects. *)
Lemma kept_rows items s k : wf s -> synced s -> k ∈ map fst (_allItemsMap s) ->
  (test s k = true -> test (setItems items (Some false) s) k = true) /\
  (test (setItems items (Some false) s) k = true -> test s k = true \/ (k ∈ subset_keys items s /\ k ∉ item_keys (_inner s))).
Proof.
  intros Hw Hs Hk. destruct (setItems_frame items (Some false) s) as (_ & Hsel & _ & Hi & _ & _). cbn in Hsel.
  assert (Ht : test s k = has k (_allSelectedKeysSet s)).
  { unfold test. destruct (has k (_itemKeysSet s)) eqn:E; [|done]. apply has_true in E. by apply Hs. }
  rewrite Ht. unfold test. destruct (has k (_itemKeysSet (setItems items (Some false) s))) eqn:E; [|rewrite Hsel; tauto].
  apply has_true, Hi in E. destruct (setItems_selected items (Some false) s k E) as (x & Hx & Hxs & ->). change (default false (Some false)) with false. cbv iota.
  split; [by intros ->|]. destruct (has k (_allSelectedKeysSet s)) eqn:Eh; [by left|]. cbn. intros Hn. right. split; [done|].
  intros Hold. assert (Hold' : k ∈ item_keys x) by (unfold item_keys; by rewrite Hx).
  rewrite setItems_keep, Hxs in Hn by done. apply Hw in Hold. rewrite (Hs k Hold) in Hn. congruence.
Qed.

(** C10: once the selection was read, new rows of the filter do not change it when they come without
    [shouldClear], and clear it when they come with [shouldClear] true.  With [shouldClear] false,
    which is what the table passes when its filter changes, no selected row is lost, the order
    stays, and the only rows that can be selected besides are ones the filter did not show before:
    there the inner object decides. *)
Theorem filter_preserves_selection (s : SelectionWithFilter) (items : list T) (shouldClear : option bool) :
  wf s -> _allSelectionCache s = None ->
  let s1 := snd (getAllSelection s) in
  let before := fst (getAllSelection s) in
  let after := fst (getAllSelection (setItems items shouldClear s1)) in
  match shouldClear with
  | None => after = before
  | Some true => after = []
  | Some false =>
      before `sublist_of` after /\
      forall x, x ∈ after -> x ∈ before \/ (getKey x ∈ map getKey items /\ getKey x ∉ item_keys (_inner s1))
  end.
Proof.
  intros Hw Hc s1 before after. destruct (getAllSelection_sync s Hw Hc) as (Hb & Hs & Hco & _).
  pose proof (getAllSelection_wf s Hw) as Hw1. fold s1 in Hs, Hco, Hw1. fold before in Hb.
  destruct (setItems_frame items shouldClear s1) as (Hm & Hsel & _ & Hi & _ & Hc').
  assert (Ha : after = collect (setItems items shouldClear s1)) by by apply getAllSelection_none.
  destruct shouldClear as [[]|]; cbn in Hsel.
  - rewrite Ha. unfold collect. rewrite filter_none; [done|]. apply Forall_forall. intros [k x] _. cbn.
    destruct (has k (_itemKeysSet _)) eqn:E; [|by rewrite Hsel].
    apply has_true, Hi in E. destruct (setItems_selected items (Some true) s1 k E) as (y & _ & _ & ->).
    by rewrite setItems_clear by done.
  - rewrite Ha, Hb, <- Hco. split.
    + unfold collect. rewrite Hm. apply fmap_sublist, filter_sublist. intros [k x] Hk%(list_elem_of_fmap_2 fst).
      by apply (kept_rows items s1 k Hw1 Hs).
    + intros x Hx. pose proof (setItems_wf items (Some false) s1 Hw1) as Hw2.
      destruct (proj1 (list_elem_of_fmap _ _ _) Hx) as ([k y] & -> & [Ht Hk]%list_elem_of_filter). cbn in *. rewrite Hm in Hk.
      pose proof Hw1 as (_ & Hg & _). rewrite Forall_forall in Hg. pose proof (Hg _ Hk) as Hky. cbn in Hky.
      pose proof (list_elem_of_fmap_2 fst _ _ Hk) as Hk'. destruct (kept_rows items s1 k Hw1 Hs Hk') as [_ Hn]. destruct (Hn Ht) as [Hold|[Hi1 Hi2]].
      * left. apply list_elem_of_fmap. exists (k, y). split; [done|]. by apply list_elem_of_filter.
      * right. rewrite Hky. split; [|done]. unfold subset_keys in Hi1. apply list_elem_of_fmap in Hi1 as (i & -> & [_ Hin]%list_elem_of_filter).
        by apply (list_elem_of_fmap_2 getKey).
  - rewrite Ha, Hb, collect_synced by apply setItems_synced. rewrite Hm, Hsel. by rewrite <- collect_synced.
Qed.

(** [resetAllSelection] with duplicate-free keys makes the selection exactly
    the rows of all rows with one of these keys, in the order of all rows, also
    when it decides that no update is needed. *)
Theorem resetAllSelection_selects (s : SelectionWithFilter) (keys : list string) :
  wf s -> _allSelectionCache s = None -> NoDup keys ->
  let s1 := snd (getAllSelection s) in
  fst (getAllSelection (resetAllSelection keys s1)) = chosen keys (_allItemsMap s).
Proof.
  intros Hw Hc Hnd s1.
  destruct (getAllSelection_sync s Hw Hc) as (_ & Hs & Hco & Hca & Hsub & Hns).
  assert (Hm : _allItemsMap s1 = _allItemsMap s) by (subst s1; unfold getAllSelection; by rewrite Hc).
  fold s1 in Hs, Hco, Hca, Hsub, Hns. pose proof (getAllSelection_wf s Hw) as Hw1. fold s1 in Hw1.
  destruct (unChanged keys s1) eqn:Hu.
  - unfold resetAllSelection. rewrite Hu. unfold getAllSelection. rewrite Hca. simpl.
    rewrite <-Hco, collect_synced, Hm by done. apply chosen_ext.
    rewrite <-Hm. by apply unChanged_keys.
  - destruct (resetAllSelection_update keys s1 Hw1 Hu) as (Hn & Hs' & Hm' & Hk).
    rewrite getAllSelection_none, collect_synced, Hm' by done. rewrite <-Hm.
    by apply chosen_ext.
Qed.

(** Selecting or clearing everything selects all rows or none, not only the
    rows the filter shows. *)
Theorem setAllSelectionSelected_selects (s : SelectionWithFilter) (b : bool) :
  wf s ->
  fst (getAllSelection (setAllSelectionSelected b s)) =
    if b then map snd (_allItemsMap s) else [].
Proof.
  intros (_ & _ & _ & Hi & Hsub).
  set (s' := setAllSelectionSelected b s).
  assert (Hm : _allItemsMap s' = _allItemsMap s) by (subst s'; unfold setAllSelectionSelected; destruct b; cbn; by repeat (frame; cbn)).
  assert (Hk : _itemKeysSet s' = _itemKeysSet s) by (subst s'; unfold setAllSelectionSelected; destruct b; cbn; by repeat (frame; cbn)).
  assert (Hsel : forall k, k ∈ _itemKeysSet s -> inner_isKeySelected (_inner s') k = b).
  { intros k Hk'%Hi. subst s'. unfold setAllSelectionSelected. destruct b; cbn; repeat frame; cbn;
      rewrite setAll_selected by (unfold item_keys; cbn; repeat frame; done); done. }
  assert (Hall : forall k, k ∈ map fst (_allItemsMap s) -> has k (_allSelectedKeysSet s') = b).
  { intros k Hk'. subst s'. unfold setAllSelectionSelected. destruct b; cbn; repeat frame; cbn.
    - apply has_true. cbn. apply (fold_set_add_elem id). right. by rewrite map_id.
    - apply bool_decide_eq_false, not_elem_of_nil. }
  rewrite getAllSelection_none by (subst s'; by destruct b).
  unfold collect. rewrite Hm, Hk.
  transitivity (map snd (filter (fun _ => b = true) (_allItemsMap s))).
  - f_equal. apply filter_ext_elem. intros [k x] He. simpl.
    assert (Hk' : k ∈ map fst (_allItemsMap s)) by (apply list_elem_of_fmap; by exists (k, x)).
    destruct (has k (_itemKeysSet s)) eqn:E; [apply has_true in E; by rewrite Hsel|by rewrite Hall].
  - destruct b; [by rewrite filter_id by (by apply Forall_forall)|].
    by rewrite filter_none by (by apply Forall_forall).
Qed.
End Runs.

(** A small object: four rows, a filter that shows two of them, two selected. *)
Definition example : @SelectionWithFilter string ListSel :=
  fold_left run_op
    [SetAllItems ["a"; "b"; "c"; "d"]; SetItems ["b"; "c"] (Some false); SetKeySelected "b" true;
     GetAllSelection; SetItems ["c"; "d"] (Some false); SetKeySelected "d" true]
    (new (mkListSel [] false [])).

Lemma example_wf : wf example.
Proof. by apply runs_wf, selection_new_wf. Qed.

Lemma selection_reachable_wf_witness : wf example.
Proof. apply selection_reachable_wf. reflexivity. Defined.

Lemma filter_preserves_selection_witness :
  fst (getAllSelection (setItems ["a"] None (snd (getAllSelection example)))) = ["b"; "d"] /\
  ["b"; "d"] `sublist_of` fst (getAllSelection (setItems ["a"; "b"] (Some false) (snd (getAllSelection example)))).
Proof.
  split.
  - rewrite (filter_preserves_selection example ["a"] None example_wf eq_refl). vm_compute. reflexivity.
  - exact (proj1 (filter_preserves_selection example ["a"; "b"] (Some false) example_wf eq_refl)).
Defined.

(** The rows that come back are the open case: in an object that remembers that all rows are
    selected, a row that was deselected is selected again after the filter hid it and shows it. *)
Lemma deselected_row_returns :
  let s := snd (getAllSelection (fold_left run_op
    [SetAllItems ["a"; "b"; "c"]; SetItems ["a"; "b"; "c"] (Some false); SetAllSelected true; GetAllSelection;
     SetKeySelected "a" false; GetAllSelection; SetItems ["b"] (Some false)] (new (mkListSel [] false [])))) in
  fst (getAllSelection s) = ["b"; "c"] /\ fst (getAllSelection (setItems ["a"; "b"; "c"] (Some false) s)) = ["a"; "b"; "c"].
Proof. vm_compute. done. Qed.

Lemma resetAllSelection_selects_witness :
  fst (getAllSelection (resetAllSelection ["c"; "z"; "a"] (snd (getAllSelection example)))) = ["a"; "c"].
Proof.
  assert (Hd : NoDup ["c"; "z"; "a"]) by (apply (bool_decide_unpack _); vm_compute; exact I).
  rewrite (resetAllSelection_selects example ["c"; "z"; "a"] example_wf eq_refl Hd).
  vm_compute. reflexivity.
Defined.

Lemma setAllSelectionSelected_selects_witness :
  fst (getAllSelection (setAllSelectionSelected true example)) = ["a"; "b"; "c"; "d"].
Proof.
  rewrite (setAllSelectionSelected_selects example true example_wf). vm_compute. reflexivity.
Defined.

(** Without the hypothesis on duplicates [resetAllSelection] can be wrong: the
    check counts a repeated key twice, so that asking for row a alone while a
    and b are selected is taken for no change. *)
Definition ab_selected : @SelectionWithFilter string ListSel :=
  snd (getAllSelection (fold_left run_op
    [SetAllItems ["a"; "b"; "c"]; SetItems ["a"; "b"; "c"] (Some false);
     SetKeySelected "a" true; SetKeySelected "b" true]
    (new (mkListSel [] false [])))).

Lemma resetAllSelection_repeated_key :
  unChanged ["a"; "a"] ab_selected = true /\
  fst (getAllSelection (resetAllSelection ["a"; "a"] ab_selected)) = ["a"; "b"] /\
  fst (getAllSelection (resetAllSelection ["a"] ab_selected)) = ["a"].
Proof. vm_compute. done. Qed.
