(* ===== verification/ClientRequest.v ===== *)
(** * Requests of a component (utils/useClientRequest.ts)

    [useClientRequest] as a state machine: a record of the hook's refs and state,
    and an event for everything that runs its code (React mounting and
    unmounting the component, a call of [sendRequest], the end of a request, the
    effects of a render).  [useClientRequestWithPolling] is the same machine with
    a timer in its callbacks.  The request, its callbacks and the moment at which
    React runs effects are arguments and events. *)

From S2P Require Import Prelude.

(** ** useClientRequest *)

(** React mounts a component once and unmounts it at most once. *)
Inductive lifecycle := Created | Mounted | Unmounted.

Global Instance lifecycle_eq_dec : EqDecision lifecycle.
Proof. solve_decision. Defined.

Section Hook.
Context {D E W : Type}.

Record State := mkState { isLoading : bool; data : option D; error : option E }.

Record Hook := mkHook {
  state : State;
  cancelTokenSource : option nat;
  mounted : bool;
  phase : lifecycle;
  (* tokens of the calls suspended at [await reqFactory(reqConfig)] *)
  pending : list nat;
  cancelled : list nat;
  fresh : nat;
  (* what the callbacks act on *)
  world : W
}.

Implicit Types h : Hook.

(** The options: whether there is a request factory, and the callbacks.  [commit]
    is the effect that runs after a render with the state it shows. *)
Context (reqFactory immediate : bool) (beforeRequest afterRequest : W -> W).
Context (commit : State -> W -> W) (onMount onUnmount : W -> W).

Definition new (w : W) : Hook :=
  mkHook (mkState immediate None None) None false Created [] [] 0 w.

Definition setState (st : State) h : Hook :=
  mkHook st (cancelTokenSource h) (mounted h) (phase h) (pending h) (cancelled h) (fresh h) (world h).

Definition set_source (c : option nat) h : Hook :=
  mkHook (state h) c (mounted h) (phase h) (pending h) (cancelled h) (fresh h) (world h).

Definition set_mounted (b : bool) (p : lifecycle) h : Hook :=
  mkHook (state h) (cancelTokenSource h) b p (pending h) (cancelled h) (fresh h) (world h).

Definition set_pending (l : list nat) h : Hook :=
  mkHook (state h) (cancelTokenSource h) (mounted h) (phase h) l (cancelled h) (fresh h) (world h).

Definition cancel (t : nat) h : Hook :=
  mkHook (state h) (cancelTokenSource h) (mounted h) (phase h) (pending h) (t :: cancelled h)
    (fresh h) (world h).

Definition on_world (f : W -> W) h : Hook :=
  mkHook (state h) (cancelTokenSource h) (mounted h) (phase h) (pending h) (cancelled h) (fresh h)
    (f (world h)).

(** [axios.CancelToken.source()] stored in the ref. *)
Definition new_source h : Hook :=
  mkHook (state h) (Some (fresh h)) (mounted h) (phase h) (pending h) (cancelled h)
    (S (fresh h)) (world h).

(** The end of [sendRequest], after the [try]. *)
Definition finish h : Hook := on_world afterRequest (set_source None h).

(** [sendRequest] up to the first suspension. *)
Definition sendRequest h : Hook :=
  if negb (mounted h) then h
  else match cancelTokenSource h with
  | Some _ => h
  | None =>
      let h := on_world beforeRequest h in
      let h := new_source h in
      let h := setState (mkState true (data (state h)) None) h in
      if reqFactory then set_pending (pending h ++ option_list (cancelTokenSource h)) h
      else finish (setState (mkState false None None) h)
  end.

(** [sendRequest] from the point where the request ended, with a response or an
    exception (a cancelled request ends with an exception). *)
Definition resume (t : nat) (r : D + E) h : Hook :=
  let h := set_pending (filter (fun t' => t' <> t) (pending h)) h in
  let h :=
    if mounted h then
      setState (match r with
                | inl d => mkState false (Some d) None
                | inr e => mkState false None (Some e)
                end) h
    else h in
  finish h.

Definition mount h : Hook :=
  let h := set_mounted true Mounted h in
  let h := if immediate then sendRequest h else h in
  on_world onMount h.

Definition unmount h : Hook :=
  let h := set_mounted false Unmounted h in
  let h := match cancelTokenSource h with Some t => set_source None (cancel t h) | None => h end in
  on_world onUnmount h.

Inductive step : Hook -> Hook -> Prop :=
| step_mount h : phase h = Created -> step h (mount h)
| step_unmount h : phase h = Mounted -> step h (unmount h)
| step_send h : step h (sendRequest h)
| step_settle h t r : t ∈ pending h -> step h (resume t r h)
| step_commit h : phase h = Mounted -> step h (on_world (commit (state h)) h).

Definition reachable (w : W) : Hook -> Prop := rtc step (new w).

(** ** The invariant *)

Definition inv h : Prop :=
  mounted h = bool_decide (phase h = Mounted) /\
  (forall t, t ∈ pending h -> t < fresh h) /\
  match phase h with
  | Created => pending h = [] /\ cancelTokenSource h = None
  | Mounted => pending h = option_list (cancelTokenSource h)
  | Unmounted => cancelTokenSource h = None /\ length (pending h) <= 1 /\
                 (forall t, t ∈ pending h -> t ∈ cancelled h)
  end.

Lemma send_cases h :
  sendRequest h = h \/
  (mounted h = true /\ cancelTokenSource h = None /\
   phase (sendRequest h) = phase h /\ mounted (sendRequest h) = true /\
   fresh (sendRequest h) = S (fresh h) /\ cancelled (sendRequest h) = cancelled h /\
   if reqFactory then
     pending (sendRequest h) = pending h ++ [fresh h] /\
     cancelTokenSource (sendRequest h) = Some (fresh h) /\
     state (sendRequest h) = mkState true (data (state h)) None /\
     world (sendRequest h) = beforeRequest (world h)
   else
     pending (sendRequest h) = pending h /\ cancelTokenSource (sendRequest h) = None /\
     state (sendRequest h) = mkState false None None /\
     world (sendRequest h) = afterRequest (beforeRequest (world h))).
Proof.
  unfold sendRequest. destruct (mounted h) eqn:Hm; simpl; [|by left].
  destruct (cancelTokenSource h) eqn:Hc; [by left|]. right. by destruct reqFactory.
Qed.

Lemma send_inv h : inv h -> inv (sendRequest h).
Proof.
  intros (Hm & Hf & Hp). destruct (send_cases h) as [->|(Hmt & Hc & Hph & Hm' & Hfr & Hca & Hr)]; [done|].
  unfold inv. rewrite Hph, Hm', Hfr. rewrite Hmt in Hm. symmetry in Hm. apply bool_decide_eq_true in Hm.
  rewrite Hm in *. rewrite Hc in Hp. simpl in Hp. rewrite Hp in *.
  destruct reqFactory; destruct Hr as (-> & -> & _); simpl; split_and!; try done.
  - intros t. rewrite list_elem_of_singleton. lia.
  - intros t []%elem_of_nil.
Qed.

Lemma mount_inv h : phase h = Created -> inv h -> inv (mount h).
Proof.
  intros Hph (_ & Hf & Hp). rewrite Hph in Hp. destruct Hp as [Hp Hc].
  assert (Hi : inv (set_mounted true Mounted h)).
  { split_and!; simpl; [done|done|]. by rewrite Hp, Hc. }
  unfold mount. destruct immediate; [|exact Hi]. apply send_inv in Hi. exact Hi.
Qed.

Lemma unmount_inv h : phase h = Mounted -> inv h -> inv (unmount h).
Proof.
  intros Hph (_ & Hf & Hp). rewrite Hph in Hp. unfold unmount, inv. simpl.
  destruct (cancelTokenSource h) as [t|] eqn:Hc; simpl; rewrite Hp in *; simpl in *;
    split_and!; try done; try lia; intros t'.
  - rewrite list_elem_of_singleton. intros ->. by left.
  - by intros []%elem_of_nil.
Qed.

Lemma resume_inv t r h : t ∈ pending h -> inv h -> inv (resume t r h).
Proof.
  intros Ht (Hm & Hf & Hp). unfold resume, inv.
  set (h1 := if mounted _ then _ else _).
  assert (He : mounted h1 = mounted h /\ phase h1 = phase h /\ fresh h1 = fresh h /\
    pending h1 = filter (fun t' => t' <> t) (pending h) /\ cancelled h1 = cancelled h).
  { subst h1. simpl. destruct (mounted h) eqn:Hmt; simpl; by rewrite ?Hmt. }
  simpl. destruct He as (-> & -> & -> & -> & ->). split_and!; [done| |].
  - intros t' [_ ?]%list_elem_of_filter. auto.
  - destruct (phase h).
    + destruct Hp as [Hp _]. rewrite Hp in Ht. by apply elem_of_nil in Ht.
    + rewrite Hp in *. destruct (cancelTokenSource h) as [t0|]; [|done].
      simpl in *. apply list_elem_of_singleton in Ht. subst. by rewrite filter_cons_False by auto.
    + destruct Hp as (_ & Hl & Hin). split_and!; [done| |].
      * etrans; [apply filter_length_le|done].
      * intros t' [_ ?]%list_elem_of_filter. auto.
Qed.

Lemma resume_frame t r h :
  world (resume t r h) = afterRequest (world h) /\ mounted (resume t r h) = mounted h /\
  phase (resume t r h) = phase h /\ cancelTokenSource (resume t r h) = None /\
  (mounted h = true -> state (resume t r h) =
     match r with inl d => mkState false (Some d) None | inr e => mkState false None (Some e) end).
Proof. unfold resume. simpl. destruct (mounted h) eqn:Hmt; simpl; by rewrite ?Hmt. Qed.

Lemma step_inv h h' : step h h' -> inv h -> inv h'.
Proof. destruct 1; [by apply mount_inv|by apply unmount_inv|apply send_inv|by apply resume_inv|done]. Qed.

Lemma new_inv w : inv (new w).
Proof. split_and!; simpl; [done| |done]. by intros t []%elem_of_nil. Qed.

Lemma reachable_inv w h : reachable w h -> inv h.
Proof.
  unfold reachable. intros Hr. pose proof (new_inv w) as Hi. revert Hi.
  induction Hr as [|h1 h2 h3 Hs _ IH]; [done|]. eauto using step_inv.
Qed.

Lemma send_unmounted h : inv h -> phase h <> Mounted -> sendRequest h = h.
Proof. intros (Hm & _) Hp. unfold sendRequest. by rewrite Hm, bool_decide_eq_false_2. Qed.
End Hook.
Arguments State : clear implicits.
Arguments Hook : clear implicits.
Arguments resume : simpl never.

Section Properties.
Context {D E W : Type}.
Context (reqFactory immediate : bool) (beforeRequest afterRequest : W -> W).
Context (commit : State D E -> W -> W) (onMount onUnmount : W -> W).

#[local] Abbreviation run := (step reqFactory immediate beforeRequest afterRequest commit onMount onUnmount).
#[local] Abbreviation Reachable := (reachable reqFactory immediate beforeRequest afterRequest commit onMount onUnmount).

(** C5: whatever the order of renders, calls and responses, at most one request
    of a component is in flight; while the component is mounted it is the one the
    ref holds, and once it is unmounted every request still in flight has been
    cancelled. *)
Theorem requests_exclusive (w : W) (h : Hook D E W) :
  Reachable w h ->
  length (pending h) <= 1 /\
  (phase h = Mounted -> pending h = option_list (cancelTokenSource h)) /\
  (phase h = Unmounted -> forall t, t ∈ pending h -> t ∈ cancelled h).
Proof.
  intros (_ & _ & Hp)%reachable_inv. destruct (phase h); split_and!; try done.
  - by destruct Hp as [-> _]; simpl; lia.
  - rewrite Hp. by destruct (cancelTokenSource h); simpl; lia.
  - apply Hp.
  - intros _. apply Hp.
Qed.

(** C6: after the component is unmounted nothing sends a request or changes the
    hook's state, in any continuation: the requests in flight only end. *)
Theorem unmounted_is_final (w : W) (h h' : Hook D E W) :
  Reachable w h -> phase h = Unmounted -> rtc run h h' ->
  phase h' = Unmounted /\ state h' = state h /\ fresh h' = fresh h /\
  pending h' ⊆ pending h.
Proof.
  intros Hi%reachable_inv Hp Hr. revert Hi Hp.
  induction Hr as [h|h1 h2 h3 Hs _ IH]; intros Hi Hp; [done|].
  assert (H2 : phase h2 = Unmounted /\ state h2 = state h1 /\ fresh h2 = fresh h1 /\
    pending h2 ⊆ pending h1).
  { destruct Hi as (Hm & _ & Hu). rewrite Hp in *. destruct Hs; try congruence.
    - unfold sendRequest. by rewrite Hm.
    - unfold resume. simpl. rewrite Hm. simpl. split_and!; try done.
      intros x [_ ?]%list_elem_of_filter. done. }
  destruct H2 as (Hp2 & <- & <- & Hsub). apply step_inv in Hs; [|done].
  destruct (IH Hs Hp2) as (? & ? & ? & ?). split_and!; [done..|]. etrans; eassumption.
Qed.
End Properties.

(** ** useClientRequestWithPolling *)

Section Polling.
Context {D E U : Type}.

(** What the callbacks of the polling hook act on: the result of the last render
    whose effects ran, the timer, the mounted flag and the user's own state. *)
Record Poll := mkPoll {
  retRef : State D E;
  pollingTimer : bool;
  poll_mounted : bool;
  user : U
}.

Context (shouldPoll : option (D -> bool)) (immediate : bool) (userBefore userAfter : U -> U).

Definition set_timer (b : bool) (p : Poll) : Poll := mkPoll (retRef p) b (poll_mounted p) (user p).
Definition on_user (f : U -> U) (p : Poll) : Poll :=
  mkPoll (retRef p) (pollingTimer p) (poll_mounted p) (f (user p)).

Definition scheduleNextPoll (p : Poll) : Poll :=
  if negb (pollingTimer p) && poll_mounted p then set_timer true p else p.

Definition cancelNextPoll (p : Poll) : Poll :=
  if pollingTimer p then set_timer false p else p.

Definition myBeforeRequest (p : Poll) : Poll := cancelNextPoll (on_user userBefore p).

Definition triggerPoll (st : State D E) : bool :=
  match error st, data st, shouldPoll with
  | Some _, _, _ => false
  | None, Some d, Some test => test d
  | None, _, _ => true
  end.

Definition myAfterRequest (p : Poll) : Poll :=
  on_user userAfter (if triggerPoll (retRef p) then scheduleNextPoll p else p).

Definition set_retRef (st : State D E) (p : Poll) : Poll :=
  mkPoll st (pollingTimer p) (poll_mounted p) (user p).

Definition poll_onMount (p : Poll) : Poll := mkPoll (retRef p) (pollingTimer p) true (user p).
Definition poll_onUnmount (p : Poll) : Poll :=
  cancelNextPoll (mkPoll (retRef p) (pollingTimer p) false (user p)).

Definition new_poll (u : U) : Poll := mkPoll (mkState immediate None None) false false u.

(** The callback of the timer. *)
Definition fire (h : Hook D E Poll) : Hook D E Poll :=
  on_world (set_timer false) (sendRequest true myBeforeRequest myAfterRequest h).

#[local] Abbreviation poll_step :=
  (step true immediate myBeforeRequest myAfterRequest set_retRef poll_onMount poll_onUnmount).

Inductive pstep : Hook D E Poll -> Hook D E Poll -> Prop :=
| pstep_hook h h' : poll_step h h' -> pstep h h'
| pstep_fire h : pollingTimer (world h) = true -> pstep h (fire h).

Definition poll_reachable (u : U) : Hook D E Poll -> Prop :=
  rtc pstep (new immediate (new_poll u)).

(** One poll that fails, in the order of React 17: the update after [await] is
    rendered at once, but the effects of that render only run after the code
    that follows it, so that [myAfterRequest] still sees the render before. *)
Definition run_effects (h : Hook D E Poll) : Hook D E Poll :=
  on_world (set_retRef (state h)) h.

Definition failing_poll (e : E) (h : Hook D E Poll) : Hook D E Poll :=
  let h := run_effects (fire h) in
  match cancelTokenSource h with
  | Some t => run_effects (resume myAfterRequest t (inr e) h)
  | None => h
  end.

Definition pinv (h : Hook D E Poll) : Prop :=
  inv h /\ poll_mounted (world h) = mounted h /\
  (pollingTimer (world h) = true -> phase h = Mounted /\ pending h = []).

Lemma cancelNextPoll_timer p : pollingTimer (cancelNextPoll p) = false.
Proof. unfold cancelNextPoll. by destruct (pollingTimer p) eqn:Hp. Qed.

Lemma cancelNextPoll_mounted p : poll_mounted (cancelNextPoll p) = poll_mounted p.
Proof. unfold cancelNextPoll. by destruct (pollingTimer p). Qed.

Lemma myBeforeRequest_frame p :
  poll_mounted (myBeforeRequest p) = poll_mounted p /\ pollingTimer (myBeforeRequest p) = false.
Proof. unfold myBeforeRequest. by rewrite cancelNextPoll_mounted, cancelNextPoll_timer. Qed.

Lemma myAfterRequest_timer p :
  pollingTimer (myAfterRequest p) =
    pollingTimer p || (triggerPoll (retRef p) && poll_mounted p).
Proof.
  unfold myAfterRequest, scheduleNextPoll.
  by destruct (triggerPoll _), p as [r [] [] u].
Qed.

Lemma myAfterRequest_mounted p : poll_mounted (myAfterRequest p) = poll_mounted p.
Proof. unfold myAfterRequest, scheduleNextPoll. by destruct (triggerPoll _), p as [r [] [] u]. Qed.

Lemma mounted_phase {W} (h : Hook D E W) : inv h -> (mounted h = true <-> phase h = Mounted).
Proof. intros (-> & _). apply bool_decide_eq_true. Qed.

Lemma send_pinv h : pinv h -> pinv (sendRequest true myBeforeRequest myAfterRequest h).
Proof.
  intros (Hi & Hm & Ht). pose proof (send_inv true myBeforeRequest myAfterRequest h Hi) as Hi'.
  destruct (send_cases true myBeforeRequest myAfterRequest h)
    as [E0|(_ & _ & Hp & Hm' & _ & _ & Hpe & _ & _ & Hw)]; [by rewrite E0|].
  destruct (myBeforeRequest_frame (world h)) as [Hbm Hbt].
  split_and!; [done| |]; rewrite Hw.
  - rewrite Hbm, Hm, Hm'.
    apply (mounted_phase _ Hi). apply (mounted_phase _ Hi') in Hm'. by rewrite <-Hp.
  - by rewrite Hbt.
Qed.

Lemma resume_pinv t r h : t ∈ pending h -> pinv h -> pinv (resume myAfterRequest t r h).
Proof.
  intros Hin (Hi & Hm & Ht). pose proof (resume_inv myAfterRequest t r h Hin Hi) as Hi'.
  assert (Hnt : pollingTimer (world h) = false).
  { destruct (pollingTimer (world h)); [|done]. destruct Ht as [_ Ht]; [done|].
    rewrite Ht in Hin. by apply elem_of_nil in Hin. }
  destruct (resume_frame myAfterRequest t r h) as (Hw & Hm' & Hp' & Hc' & _).
  split_and!; [done| |]; rewrite Hw.
  - by rewrite myAfterRequest_mounted, Hm, Hm'.
  - rewrite myAfterRequest_timer, Hnt, Hm. simpl.
    intros [_ Hmt]%andb_true_iff. rewrite <-Hm' in Hmt. apply (mounted_phase _ Hi') in Hmt as Hph.
    split; [done|]. destruct Hi' as (_ & _ & Hp). rewrite Hph, Hc' in Hp. done.
Qed.

Lemma pstep_pinv h h' : pstep h h' -> pinv h -> pinv h'.
Proof.
  intros Hs Hinv. destruct Hs as [h h' Hs|h Ht].
  - destruct Hs as [h Hp|h Hp|h|h t r Hin|h Hp].
    + destruct Hinv as (Hi & Hm & Ht). split; [by apply mount_inv|].
      assert (Hp0 : pending h = [] /\ cancelTokenSource h = None)
        by (destruct Hi as (_ & _ & Hi); by rewrite Hp in Hi).
      destruct Hp0 as [Hpe Hc].
      assert (Hnt : pollingTimer (world h) = false).
      { destruct (pollingTimer (world h)); [|done]. destruct Ht; [done|congruence]. }
      unfold mount. destruct immediate; simpl.
      * unfold sendRequest. simpl. rewrite Hc. simpl. split; [done|].
        by rewrite (proj2 (myBeforeRequest_frame (world h))).
      * split; [done|]. by rewrite Hnt.
    + destruct Hinv as (Hi & Hm & Ht). split; [by apply unmount_inv|].
      unfold unmount, poll_onUnmount. simpl.
      destruct (cancelTokenSource h); simpl; split; rewrite ?cancelNextPoll_mounted, ?cancelNextPoll_timer; done.
    + by apply send_pinv.
    + by apply resume_pinv.
    + done.
  - apply send_pinv in Hinv as (Hi & Hm & _). split_and!; [exact Hi|exact Hm|done].
Qed.

Lemma poll_reachable_pinv u h : poll_reachable u h -> pinv h.
Proof.
  unfold poll_reachable. intros Hr.
  assert (H0 : pinv (new immediate (new_poll u))) by (split_and!; [apply new_inv|done|done]).
  revert H0. induction Hr as [|h1 h2 h3 Hs _ IH]; [done|]. eauto using pstep_pinv.
Qed.

Lemma fire_timer h :
  pinv h -> pollingTimer (world h) = true ->
  let h' := fire h in
  pending h' = [fresh h] /\ cancelTokenSource h' = Some (fresh h) /\ mounted h' = true /\
  phase h' = Mounted /\ pollingTimer (world h') = false /\ poll_mounted (world h') = true /\
  error (state h') = None /\ data (state h') = data (state h).
Proof.
  intros Hpi Ht. destruct (send_pinv h Hpi) as (Hi' & Hm' & _). destruct Hpi as (Hi & Hm & Hti).
  destruct (Hti Ht) as [Hp Hpe]. assert (Hmt : mounted h = true) by (by apply mounted_phase).
  assert (Hc : cancelTokenSource h = None).
  { destruct Hi as (_ & _ & Hx). rewrite Hp, Hpe in Hx. by destruct (cancelTokenSource h). }
  unfold fire. destruct (send_cases true myBeforeRequest myAfterRequest h) as [E0|Hs].
  - exfalso. unfold sendRequest in E0. rewrite Hmt, Hc in E0. simpl in E0.
    apply (f_equal fresh) in E0. simpl in E0. lia.
  - destruct Hs as (_ & _ & Hph & Hmt' & _ & _ & Hpe' & Hc' & Hst & _). simpl.
    rewrite Hpe', Hpe, Hc', Hmt', Hph, Hst, Hm', Hmt'. done.
Qed.
End Polling.
Arguments Poll : clear implicits.

Section PollingProperties.
Context {D E U : Type}.
Context (shouldPoll : option (D -> bool)) (immediate : bool) (userBefore userAfter : U -> U).
#[local] Abbreviation Reachable := (poll_reachable shouldPoll immediate userBefore userAfter).
#[local] Abbreviation after := (myAfterRequest shouldPoll userAfter).

(** A poll is only scheduled while the component is mounted and no request
    is in flight: the timer of an unmounted component is cleared, and a request
    started by hand replaces the scheduled poll. *)
Theorem poll_timer_exclusive (u : U) (h : Hook D E (Poll D E U)) :
  Reachable u h -> pollingTimer (world h) = true ->
  phase h = Mounted /\ pending h = [] /\ cancelTokenSource h = None.
Proof.
  intros (Hi & _ & Ht)%poll_reachable_pinv Htm. destruct (Ht Htm) as [Hp Hpe].
  split_and!; [done..|]. destruct Hi as (_ & _ & Hi). rewrite Hp, Hpe in Hi.
  by destruct (cancelTokenSource h).
Qed.

(** When a request of a mounted component ends, its outcome becomes the
    state, and the next poll is scheduled exactly when the state of the last
    render whose effects ran has no error and, if it has data, the data ask for
    it: the decision is not taken on the outcome that just arrived. *)
Theorem poll_decision (u : U) (h : Hook D E (Poll D E U)) (t : nat) (r : D + E) :
  Reachable u h -> phase h = Mounted -> t ∈ pending h ->
  let h' := resume after t r h in
  pollingTimer (world h') = triggerPoll shouldPoll (retRef (world h)) /\
  pending h' = [] /\ cancelTokenSource h' = None /\ isLoading (state h') = false /\
  (data (state h'), error (state h')) =
    match r with inl d => (Some d, None) | inr e => (None, Some e) end.
Proof.
  intros (Hi & Hm & Ht)%poll_reachable_pinv Hp Hin.
  assert (Hmt : mounted h = true) by (by apply mounted_phase).
  assert (Hnt : pollingTimer (world h) = false).
  { destruct (pollingTimer (world h)); [|done]. destruct (Ht eq_refl) as [_ Hpe].
    rewrite Hpe in Hin. by apply elem_of_nil in Hin. }
  pose proof (resume_inv after t r h Hin Hi) as (_ & _ & Hr).
  destruct (resume_frame after t r h) as (Hw & _ & Hp' & Hc' & Hs).
  rewrite Hp', Hp, Hc' in Hr. cbv zeta. rewrite Hw, Hc', Hs by done.
  rewrite myAfterRequest_timer, Hnt, Hm, Hmt, andb_true_r. by destruct r.
Qed.

(** Polling does not stop on errors.  With the effects of a render running
    after the code that caused it, however many polls in a row fail, the state
    shows the error and the next poll is scheduled all the same. *)
Theorem error_keeps_polling (u : U) (h : Hook D E (Poll D E U)) (e : E) (n : nat) :
  Reachable u h -> pollingTimer (world h) = true -> data (state h) = None ->
  let h' := Nat.iter n (failing_poll shouldPoll userBefore userAfter e) h in
  pollingTimer (world h') = true /\ (0 < n -> error (state h') = Some e).
Proof.
  intros Hpi%poll_reachable_pinv Ht Hd.
  assert (Hloop : let h' := Nat.iter n (failing_poll shouldPoll userBefore userAfter e) h in
    pinv h' /\ pollingTimer (world h') = true /\ data (state h') = None /\
    (0 < n -> error (state h') = Some e)).
  { induction n as [|n (IHi & IHt & IHd & _)]; [split_and!; done || lia|].
    rewrite Nat.iter_succ. set (h1 := Nat.iter n _ h) in *.
    destruct (fire_timer shouldPoll userBefore userAfter h1 IHi IHt)
      as (Hpe & Hc & Hmt & Hph & Htm & Hpm & Her & Hda).
    assert (Hfi : pinv (run_effects (fire shouldPoll userBefore userAfter h1))).
    { apply (pstep_pinv shouldPoll true userBefore userAfter
        (fire shouldPoll userBefore userAfter h1)); [|].
      - by apply pstep_hook, step_commit.
      - apply (pstep_pinv shouldPoll true userBefore userAfter h1); [by apply pstep_fire|done]. }
    set (h2 := fire shouldPoll userBefore userAfter h1) in *.
    assert (Hin : fresh h1 ∈ pending (run_effects h2)) by (change (fresh h1 ∈ pending h2); rewrite Hpe; by left).
    pose proof (resume_pinv shouldPoll userAfter (fresh h1) (inr e) _ Hin Hfi) as Hr.
    unfold failing_poll. fold h2. change (cancelTokenSource (run_effects h2)) with (cancelTokenSource h2). rewrite Hc.
    destruct (resume_frame after (fresh h1) (inr e) (run_effects h2)) as (Hw & _ & _ & _ & Hs).
    specialize (Hs Hmt). split_and!; [exact Hr| |by change (data (state (resume after (fresh h1) (inr e) (run_effects h2))) = None); rewrite Hs
      |intros _; change (error (state (resume after (fresh h1) (inr e) (run_effects h2))) = Some e);
       by rewrite Hs].
    change (pollingTimer (world (resume after (fresh h1) (inr e) (run_effects h2))) = true).
    rewrite Hw, myAfterRequest_timer. clearbody h2. simpl. rewrite Hpm, Htm, andb_true_r.
    unfold triggerPoll. by rewrite Her, Hda, IHd. }
  destruct Hloop as (_ & H1 & _ & H2). by split.
Qed.
End PollingProperties.

(** ** Examples: a component with user state [nat] whose requests return strings *)

Definition demo_new : Hook string string (Poll string string nat) := new true (new_poll true 0).
Definition demo_mounted : Hook string string (Poll string string nat) :=
  run_effects (mount true true (myBeforeRequest S) (myAfterRequest None S) poll_onMount demo_new).
Definition demo_polling : Hook string string (Poll string string nat) :=
  run_effects (resume (myAfterRequest None S) 0 (inr "down") demo_mounted).

Lemma demo_reachable :
  poll_reachable None true S S 0 demo_mounted /\ poll_reachable None true S S 0 demo_polling.
Proof.
  assert (H1 : poll_reachable None true S S 0 demo_mounted).
  { unfold poll_reachable. eapply rtc_l; [apply pstep_hook, step_mount; done|].
    apply rtc_once, pstep_hook, (step_commit _ _ _ _ set_retRef). done. }
  split; [done|]. unfold poll_reachable. eapply rtc_r.
  - eapply rtc_r; [exact H1|]. apply pstep_hook, (step_settle _ _ _ _ _ _ _ _ 0 (inr "down")).
    vm_compute. by left.
  - apply pstep_hook, (step_commit _ _ _ _ set_retRef). done.
Qed.

Lemma requests_exclusive_witness : length (pending demo_mounted) <= 1.
Proof.
  apply (requests_exclusive true true (myBeforeRequest S) (myAfterRequest None S)
    set_retRef poll_onMount poll_onUnmount (new_poll true 0)).
  eapply rtc_l; [apply step_mount; reflexivity|].
  apply rtc_once, (step_commit _ _ _ _ set_retRef). reflexivity.
Defined.

Definition demo_unmounted := unmount poll_onUnmount demo_mounted.

Lemma unmounted_is_final_witness :
  let h' := resume (myAfterRequest None S) 0 (inr "cancelled") demo_unmounted in
  phase h' = Unmounted /\ state h' = state demo_unmounted.
Proof.
  cbv zeta.
  pose proof (unmounted_is_final true true (myBeforeRequest S) (myAfterRequest None S)
    set_retRef poll_onMount poll_onUnmount (new_poll true 0) demo_unmounted
    (resume (myAfterRequest None S) 0 (inr "cancelled") demo_unmounted)) as H.
  destruct H as (Hp & Hs & _).
  - eapply rtc_l; [apply step_mount; reflexivity|]. eapply rtc_l.
    + apply (step_commit _ _ _ _ set_retRef). reflexivity.
    + apply rtc_once, step_unmount. reflexivity.
  - reflexivity.
  - apply rtc_once, step_settle. vm_compute. left.
  - split; [exact Hp|exact Hs].
Defined.

Lemma poll_timer_exclusive_witness :
  pollingTimer (world demo_polling) = true /\ pending demo_polling = [].
Proof.
  split; [reflexivity|].
  apply (poll_timer_exclusive None true S S 0 demo_polling (proj2 demo_reachable) eq_refl).
Defined.

Lemma poll_decision_witness :
  pollingTimer (world (resume (myAfterRequest None S) 0 (inr "down") demo_mounted)) = true.
Proof.
  assert (Hin : 0 ∈ pending demo_mounted) by (vm_compute; left).
  apply (poll_decision None true S S 0 demo_mounted 0 (inr "down") (proj1 demo_reachable) eq_refl Hin).
Defined.

Lemma error_keeps_polling_witness :
  let h' := Nat.iter 5 (failing_poll None S S "down") demo_polling in
  pollingTimer (world h') = true /\ (0 < 5 -> error (state h') = Some "down").
Proof.
  apply (error_keeps_polling None true S S 0 demo_polling "down" 5 (proj2 demo_reachable));
    reflexivity.
Defined.
