(* ===== verification/Uri.v ===== *)
(** * URIs of the web platform

    [encodeURIComponent], [decodeURIComponent] and [URLSearchParams], which the
    URL states use.  Strings are sequences of UTF-8 bytes; a well-formed string
    of JavaScript is one that satisfies [utf8]. *)

From Stdlib Require Import Ascii.
From S2P Require Import Prelude JsString.
From stdpp Require Import options.
Open Scope Z_scope.

Definition byte_of (a : ascii) : Z := Z.of_N (N_of_ascii a).
Definition char_of (z : Z) : ascii := ascii_of_N (Z.to_N z).

(** ** Hexadecimal digits *)

Definition hex_char (d : Z) : ascii := char_of (if d <? 10 then 48 + d else 55 + d).

Definition hex_val (a : ascii) : option Z :=
  let z := byte_of a in
  if (48 <=? z) && (z <=? 57) then Some (z - 48)
  else if (65 <=? z) && (z <=? 70) then Some (z - 55)
  else if (97 <=? z) && (z <=? 102) then Some (z - 87)
  else None.

(** [%XX] for a byte. *)
Definition escape (a : ascii) (rest : string) : string :=
  String "%" (String (hex_char (byte_of a / 16)) (String (hex_char (byte_of a mod 16)) rest)).

Definition unescape (a b : ascii) : option ascii :=
  x ← hex_val a; y ← hex_val b; Some (char_of (16 * x + y)).

Definition is_alnum (a : ascii) : bool :=
  let z := byte_of a in
  ((48 <=? z) && (z <=? 57)) || ((65 <=? z) && (z <=? 90)) || ((97 <=? z) && (z <=? 122)).

(** ** UTF-8 *)

(** The ranges of the bytes that follow a lead byte. *)
Definition lead (a : ascii) : option (list (Z * Z)) :=
  let z := byte_of a in let c := (128, 191) in
  if z <? 128 then Some []
  else if z <? 194 then None
  else if z <? 224 then Some [c]
  else if z =? 224 then Some [(160, 191); c]
  else if z =? 237 then Some [(128, 159); c]
  else if z <? 240 then Some [c; c]
  else if z =? 240 then Some [(144, 191); c; c]
  else if z <? 244 then Some [c; c; c]
  else if z =? 244 then Some [(128, 143); c; c]
  else None.

(** One byte, given the ranges still expected. *)
Definition utf8_byte (st : list (Z * Z)) (a : ascii) : option (list (Z * Z)) :=
  match st with
  | [] => lead a
  | (lo, hi) :: st' => if (lo <=? byte_of a) && (byte_of a <=? hi) then Some st' else None
  end.

Fixpoint utf8_go (st : list (Z * Z)) (s : string) : bool :=
  match s with
  | EmptyString => match st with [] => true | _ :: _ => false end
  | String a s' => match utf8_byte st a with Some st' => utf8_go st' s' | None => false end
  end.

Definition utf8 (s : string) : bool := utf8_go [] s.

(** ** encodeURIComponent and decodeURIComponent *)

Definition is_unreserved (a : ascii) : bool :=
  is_alnum a || has_char a "-_.!~*'()".

Fixpoint encodeURIComponent (s : string) : string :=
  match s with
  | EmptyString => EmptyString
  | String a s' =>
      if is_unreserved a then String a (encodeURIComponent s')
      else escape a (encodeURIComponent s')
  end.

(** [None] is the [URIError] exception. *)
Fixpoint decode_go (st : list (Z * Z)) (s : string) : option string :=
  match s with
  | EmptyString => match st with [] => Some EmptyString | _ :: _ => None end
  | String c s1 =>
      if decide (c = "%"%char) then
        match s1 with
        | String a (String b s2) =>
            x ← unescape a b; st' ← utf8_byte st x; r ← decode_go st' s2; Some (String x r)
        | _ => None
        end
      else
        match st with
        | [] => r ← decode_go [] s1; Some (String c r)
        | _ :: _ => None
        end
  end.

Definition decodeURIComponent (s : string) : option string := decode_go [] s.

(** ** URLSearchParams *)

Definition form_safe (a : ascii) : bool := is_alnum a || has_char a "*-._".

Fixpoint form_encode (s : string) : string :=
  match s with
  | EmptyString => EmptyString
  | String a s' =>
      if decide (a = " "%char) then String "+" (form_encode s')
      else if form_safe a then String a (form_encode s')
      else escape a (form_encode s')
  end.

(** The bytes that do not decode as UTF-8 are kept here; the platform puts a
    replacement character in their place. *)
Fixpoint form_decode (s : string) : string :=
  match s with
  | EmptyString => EmptyString
  | String c s1 =>
      if decide (c = "+"%char) then String " " (form_decode s1)
      else if decide (c = "%"%char) then
        match s1 with
        | String a (String b s2) =>
            match unescape a b with
            | Some x => String x (form_decode s2)
            | None => String c (form_decode s1)
            end
        | _ => String c (form_decode s1)
        end
      else String c (form_decode s1)
  end.

Definition split_pair (s : string) : string * string :=
  match find_char "=" s with
  | Some n => (str_take n s, str_drop (S n) s)
  | None => (s, "")
  end.

Definition strip_question (s : string) : string :=
  match s with
  | String c s' => if decide (c = "?"%char) then s' else s
  | EmptyString => s
  end.

Abbreviation params := (list (string * string)).

Definition parse_query (q : string) : params :=
  map (fun p => let '(k, v) := split_pair p in (form_decode k, form_decode v))
    (filter (fun p => p <> "") (js_split "&" (strip_question q))).

Definition print_query (l : params) : string :=
  js_join "&" (map (fun '(k, v) => form_encode k +:+ "=" +:+ form_encode v) l).

(** [set] gives the first pair of the name its new value and drops the others. *)
Fixpoint params_set (k v : string) (l : params) : params :=
  match l with
  | [] => [(k, v)]
  | (k', v') :: l' =>
      if decide (k' = k) then (k, v) :: filter (fun p => fst p <> k) l'
      else (k', v') :: params_set k v l'
  end.

Definition params_delete (k : string) (l : params) : params := filter (fun p => fst p <> k) l.

(** ** encodeURIComponent and decodeURIComponent are inverse *)

(** A statement about one byte, decided on the 256 bytes. *)
Ltac byte_cases a := destruct a as [[] [] [] [] [] [] [] []]; try reflexivity; try discriminate.

Lemma unescape_escape a :
  unescape (hex_char (byte_of a / 16)) (hex_char (byte_of a mod 16)) = Some a.
Proof. byte_cases a. Qed.

Lemma unreserved_ascii a :
  is_unreserved a = true -> (byte_of a <? 128) && negb (bool_decide (a = "%"%char)) = true.
Proof. byte_cases a. Qed.

Lemma form_safe_spec a :
  form_safe a = true ->
  negb (bool_decide (a = "%"%char)) && negb (bool_decide (a = "+"%char)) = true.
Proof. byte_cases a. Qed.

Definition high (st : list (Z * Z)) : Prop := Forall (fun r => 128 <= fst r) st.

Lemma utf8_byte_high st a st' : high st -> utf8_byte st a = Some st' -> high st'.
Proof.
  destruct st as [|[lo hi] st]; simpl; intros Hh.
  - unfold lead. repeat case_match; intros [= <-]; unfold high; repeat constructor; simpl; lia.
  - case_match; [|done]. intros [= <-]. by inversion Hh.
Qed.

Lemma utf8_byte_ascii st a st' :
  high st -> byte_of a < 128 -> utf8_byte st a = Some st' -> st = [] /\ st' = [].
Proof.
  intros Hh Ha. destruct st as [|[lo hi] st]; simpl.
  - unfold lead. rewrite (proj2 (Z.ltb_lt _ _)) by done. by intros [= <-].
  - inversion Hh; simpl in *. case_match; [|done]. js_lia.
Qed.

Lemma decode_escape st a s :
  decode_go st (escape a s) =
    st' ← utf8_byte st a; r ← decode_go st' s; Some (String a r).
Proof. unfold escape. simpl. by rewrite unescape_escape. Qed.

Lemma decode_encode_go st s :
  high st -> utf8_go st s = true -> decode_go st (encodeURIComponent s) = Some s.
Proof.
  revert st. induction s as [|a s IH]; intros st Hh; simpl; [by destruct st|].
  destruct (utf8_byte st a) as [st'|] eqn:Hst; [|done]. intros Hs.
  pose proof (utf8_byte_high _ _ _ Hh Hst) as Hh'. destruct (is_unreserved a) eqn:Ha.
  - apply unreserved_ascii, andb_true_iff in Ha as [Ha%Z.ltb_lt Hp].
    destruct (utf8_byte_ascii _ _ _ Hh Ha Hst) as [-> ->].
    apply negb_true_iff, bool_decide_eq_false in Hp. simpl.
    rewrite decide_False by done. by rewrite IH.
  - rewrite decode_escape, Hst. simpl. by rewrite IH.
Qed.

Lemma decode_encode s : utf8 s = true -> decodeURIComponent (encodeURIComponent s) = Some s.
Proof. apply decode_encode_go. constructor. Qed.

Lemma hex_char_hex a :
  has_char (hex_char (byte_of a / 16)) "%0123456789ABCDEF" &&
  has_char (hex_char (byte_of a mod 16)) "%0123456789ABCDEF" = true.
Proof. byte_cases a. Qed.

Lemma has_char_escape c a s :
  has_char c "%0123456789ABCDEF" = false -> has_char c (escape a s) = has_char c s.
Proof.
  intros Hc. unfold escape. cbn [has_char].
  assert (Hn : forall x, has_char x "%0123456789ABCDEF" = true -> bool_decide (x = c) = false).
  { intros x Hx. apply bool_decide_eq_false. intros ->. congruence. }
  pose proof (hex_char_hex a) as [H1 H2]%andb_true_iff.
  by rewrite (Hn "%"%char), (Hn _ H1), (Hn _ H2).
Qed.

(** The separators of the URL formats never occur in an encoded text. *)
Lemma has_char_encode c s :
  is_unreserved c = false -> has_char c "%0123456789ABCDEF" = false ->
  has_char c (encodeURIComponent s) = false.
Proof.
  intros Hu Hc. induction s as [|a s IH]; [done|]. simpl.
  destruct (is_unreserved a) eqn:Ha; [|by rewrite has_char_escape].
  simpl. rewrite bool_decide_eq_false_2, IH by congruence. done.
Qed.

Lemma encode_nonempty s : s <> "" -> encodeURIComponent s <> "".
Proof. destruct s as [|a s]; [done|]. simpl. by destruct (is_unreserved a). Qed.

(** ** URLSearchParams prints what it parses *)

Lemma form_decode_encode s : form_decode (form_encode s) = s.
Proof.
  induction s as [|a s IH]; [done|]. simpl. case_decide as Hs; [subst; simpl; by rewrite IH|].
  destruct (form_safe a) eqn:Ha.
  - apply form_safe_spec, andb_true_iff in Ha as [H1%negb_true_iff H2%negb_true_iff].
    apply bool_decide_eq_false in H1, H2. simpl. rewrite !decide_False by done. by rewrite IH.
  - unfold escape. simpl. by rewrite unescape_escape, IH.
Qed.

Lemma has_char_form_encode c s :
  form_safe c = false -> has_char c "+%0123456789ABCDEF" = false ->
  has_char c (form_encode s) = false.
Proof.
  intros Hu Hc.
  assert (Hp : bool_decide ("+"%char = c) = false) by (apply bool_decide_eq_false; intros <-; discriminate).
  assert (Hc' : has_char c "%0123456789ABCDEF" = false) by (by apply orb_false_iff in Hc as [_ Hc]).
  induction s as [|a s IH]; [done|]. cbn [form_encode].
  destruct (decide (a = " "%char)) as [->|Hsp]; [cbn [has_char]; by rewrite Hp, IH|].
  destruct (form_safe a) eqn:Ha; [|by rewrite has_char_escape].
  simpl. rewrite bool_decide_eq_false_2, IH by congruence. done.
Qed.

Lemma split_pair_eq k v :
  has_char "=" k = false -> split_pair (k +:+ "=" +:+ v) = (k, v).
Proof.
  intros Hk. unfold split_pair. change ("=" +:+ v) with (String "=" v).
  rewrite find_char_app_sep by done. rewrite str_take_app.
  f_equal. transitivity (str_drop (String.length (k +:+ "=")) ((k +:+ "=") +:+ v)).
  - rewrite <-str_app_assoc, str_length_app. f_equal. simpl. lia.
  - apply str_drop_app.
Qed.

(** A text without the two characters of the encoding stands for itself. *)
Lemma form_decode_plain s : has_char "+" s = false -> has_char "%" s = false -> form_decode s = s.
Proof.
  induction s as [|a s IH]; [done|]. cbn [has_char form_decode]. intros [Hp Hs]%orb_false_iff [Hq Hs']%orb_false_iff.
  apply bool_decide_eq_false in Hp, Hq. by rewrite !decide_False, IH by done.
Qed.

(** Parameters written by [enc] are read back, if [enc] writes what is decoded and leaves no separator. *)
Section Joined.
Context (enc : string -> string).

Definition readable (p : string * string) : Prop :=
  (forall c, c ∈ ["&"; "="; "?"]%char -> has_char c (enc (fst p)) = false) /\ has_char "&" (enc (snd p)) = false /\
  form_decode (enc (fst p)) = fst p /\ form_decode (enc (snd p)) = snd p.

Lemma strip_joined l : Forall readable l ->
  strip_question (js_join "&" (map (fun p => enc (fst p) +:+ "=" +:+ enc (snd p)) l)) =
  js_join "&" (map (fun p => enc (fst p) +:+ "=" +:+ enc (snd p)) l).
Proof.
  intros Hl. destruct l as [|p l]; [done|]. apply Forall_cons in Hl as [(Hk & _) _].
  specialize (Hk "?"%char ltac:(set_solver)).
  assert (Hf : forall t, strip_question ((enc (fst p) +:+ "=" +:+ enc (snd p)) +:+ t) =
    (enc (fst p) +:+ "=" +:+ enc (snd p)) +:+ t).
  { intros t. destruct (enc (fst p)) as [|c k]; [done|]. cbn [has_char] in Hk.
    apply orb_false_iff in Hk as [Hk _]. apply bool_decide_eq_false in Hk. simpl. by rewrite decide_False. }
  destruct l as [|q l]; [|exact (Hf _)]. cbn [map js_join]. rewrite <- (str_app_nil_r (enc (fst p) +:+ "=" +:+ enc (snd p))). apply Hf.
Qed.

Lemma parse_joined l : Forall readable l ->
  parse_query (js_join "&" (map (fun p => enc (fst p) +:+ "=" +:+ enc (snd p)) l)) = l.
Proof.
  intros Hl. unfold parse_query. rewrite strip_joined by done. destruct (decide (l = [])) as [->|Hne]; [done|].
  rewrite js_split_join.
  - rewrite filter_id.
    + rewrite map_map. transitivity (map id l); [|apply map_id]. apply map_ext_in. intros p Hi. apply list_elem_of_In in Hi.
      rewrite Forall_forall in Hl. destruct (Hl _ Hi) as (Hk & _ & Ek & Ev). rewrite split_pair_eq by (apply Hk; set_solver).
      rewrite Ek, Ev. by destruct p.
    + apply Forall_map, Forall_forall. intros p _. by destruct (enc (fst p)).
  - by destruct l.
  - apply Forall_map. eapply Forall_impl; [exact Hl|]. intros p (Hk & Hv & _). cbn.
    by rewrite !has_char_app, Hk, Hv by set_solver.
Qed.
End Joined.

Lemma parse_print l : parse_query (print_query l) = l.
Proof.
  transitivity (parse_query (js_join "&" (map (fun p => form_encode (fst p) +:+ "=" +:+ form_encode (snd p)) l))).
  - unfold print_query. do 2 f_equal. apply map_ext. by intros [].
  - apply parse_joined, Forall_forall. intros p _. split_and!; try apply form_decode_encode; [|by apply has_char_form_encode].
    intros c Hc%list_elem_of_In; cbn in Hc; destruct Hc as [<-|[<-|[<-|[]]]]; by apply has_char_form_encode.
Qed.

(** ** The list of parameters as a dictionary *)

(** [paramsObj[k] = v] for every pair: the last value of a name wins. *)
Definition params_object (l : params) : gmap string string :=
  fold_left (fun m p => <[fst p := snd p]> m) l ∅.
