(* ===== verification/TimeRange.v ===== *)
(** * Time ranges of both interfaces

    Module [V1] is components/TimeRangeSelector (index.tsx, WithZoomOut.tsx) of
    ui/, Module [V2] is time-range.ts of ui-v2/.  The clock ([dayjs().unix()])
    is the argument [now]. *)

From Stdlib Require Import Ascii QArith Qabs Qround.
From S2P Require Import Prelude JsString JsNumber.
From stdpp Require Import options.
Local Open Scope Z_scope.

Definition TimeRangeValue := (num * num)%type.
Record URLTimeRange := mkURL { from : string; to : string }.

Module V1.

Inductive TimeRange :=
| Recent (value : num)
| Absolute (value : TimeRangeValue).

Definition DEFAULT_RECENT_SECONDS : list Z :=
  [5 * 60; 15 * 60; 30 * 60; 60 * 60; 3 * 60 * 60; 6 * 60 * 60; 12 * 60 * 60; 24 * 60 * 60;
   2 * 24 * 60 * 60; 7 * 24 * 60 * 60; 30 * 24 * 60 * 60; 90 * 24 * 60 * 60].

Definition DEFAULT_TIME_RANGE : TimeRange := Recent (30 * 60).

Definition toTimeRangeValue (now : Z) (timeRange : option TimeRange) (offset : num)
    : TimeRangeValue :=
  match default DEFAULT_TIME_RANGE timeRange with
  | Absolute (a, b) => (num_add a offset, num_add b offset)
  | Recent value => (num_add (num_sub now value) offset, num_add (now + 1) offset)
  end.

Definition fromTimeRangeValue (v : TimeRangeValue) : TimeRange := Absolute v.

Definition toURLTimeRange (now : Z) (timeRange : TimeRange) : URLTimeRange :=
  match timeRange with
  | Recent value => mkURL (num_show value) "now"
  | Absolute _ =>
      let timeRangeValue := toTimeRangeValue now (Some timeRange) 0 in
      mkURL (num_show (fst timeRangeValue)) (num_show (snd timeRangeValue))
  end.

Definition urlToTimeRange (url : URLTimeRange) : TimeRange :=
  if decide (to url = "now") then Recent (js_Number (from url))
  else Absolute (js_Number (from url), js_Number (to url)).

Definition urlToTimeRangeValue (now : Z) (url : URLTimeRange) : TimeRangeValue :=
  toTimeRangeValue now (Some (urlToTimeRange url)) 0.

Definition calcTimeRange (now : Z) (timeRange : option TimeRange) : TimeRangeValue :=
  toTimeRangeValue now timeRange 0.

Definition stringifyTimeRange (timeRange : option TimeRange) : string :=
  match default DEFAULT_TIME_RANGE timeRange with
  | Absolute (a, b) => "absolute_" +:+ num_show a +:+ "_" +:+ num_show b
  | Recent v => "recent_" +:+ num_show v
  end.

(** The unit a duration in seconds is shown in.  [toFixed] and [toFixedScaled]
    of the Grafana library are parameters. *)
Section Format.
Context (toFixed : Q -> option Z -> string)
  (toFixedScaled : Q -> option Z -> option Z -> Z -> string -> string).

Definition trySubstract (value1 value2 : option Z) : option Z :=
  v1 ← value1; v2 ← value2; Some (v1 - v2).

Definition customValueFormat (size : option Q) (decimals scaledDecimals : option Z) : string :=
  match size with
  | None => ""
  | Some size =>
      let below (q : Q) := negb (Qle_bool q (Qabs size)) in
      if below (1 # 1000000) then
        toFixedScaled (size * 1000000000)%Q decimals (trySubstract scaledDecimals decimals) (-9) " ns"
      else if below (1 # 1000) then
        toFixedScaled (size * 1000000)%Q decimals (trySubstract scaledDecimals decimals) (-6) " µs"
      else if below 1%Q then
        toFixedScaled (size * 1000)%Q decimals (trySubstract scaledDecimals decimals) (-3) " ms"
      else if below 60%Q then toFixed size decimals +:+ " s"
      else if below 3600%Q then toFixedScaled (size / 60)%Q decimals scaledDecimals 1 " min"
      else if below 86400%Q then toFixedScaled (size / 3600)%Q decimals scaledDecimals 4 " hour"
      else toFixedScaled (size / 86400)%Q decimals scaledDecimals 5 " day"
  end.
End Format.

(** The handlers of the selector: the argument of [onChange], if it is called.
    Each closes the dropdown. *)
Definition on_value_change (value : option TimeRange) : option TimeRange :=
  match value with None => Some DEFAULT_TIME_RANGE | Some _ => None end.
Definition handleRecentChange (seconds : Z) : TimeRange := Recent seconds.
Definition handleRangePickerChange (values : option (Z * Z)) : TimeRange :=
  match values with
  | None => DEFAULT_TIME_RANGE
  | Some (a, b) => Absolute (num_of_Z a, num_of_Z b)
  end.
Definition rangePickerValue (value : option TimeRange) : option (num * num) :=
  match value with
  | Some (Absolute (a, b)) => Some (num_mul a 1000, num_mul b 1000)
  | _ => None
  end.

(** [handleZoomOut]: the arguments of [onZoomOutClick], then of [onChange]. *)
Definition handleZoomOut (now : Z) (zoomOutRate : num) (minRange : num)
    (value : option TimeRange) : TimeRangeValue * TimeRange :=
  let '(start, end_) := toTimeRangeValue now value 0 in
  let expand := num_mul (num_sub end_ start) zoomOutRate in
  let expand := if num_lt expand minRange then minRange else expand in
  let computedStart := num_sub start expand in
  let computedEnd := num_add end_ expand in
  ((computedStart, computedEnd), fromTimeRangeValue (computedStart, computedEnd)).
End V1.

Module V2.

Inductive RelativeType := relative | before_to_now | now_to_future.

Inductive TimeRange :=
| Relative (type : RelativeType) (value : num)
| Absolute (value : TimeRangeValue).

Definition toTimeRangeValue (now : Z) (timeRange : TimeRange) (offset : num) : TimeRangeValue :=
  match timeRange with
  | Absolute (a, b) => (num_add a offset, num_add b offset)
  | Relative now_to_future value => (num_add now offset, num_add (num_add now value) offset)
  | Relative _ value => (num_add (num_sub now value) offset, num_add now offset)
  end.

Definition fromTimeRangeValue (v : TimeRangeValue) : TimeRange := Absolute v.

Definition toURLTimeRange (timeRange : TimeRange) : URLTimeRange :=
  match timeRange with
  | Absolute (a, b) => mkURL (num_show a) (num_show b)
  | Relative now_to_future value => mkURL "now" (num_show value)
  | Relative _ value => mkURL (num_show value) "now"
  end.

Definition urlToTimeRange (url : URLTimeRange) : TimeRange :=
  if decide (from url = "now") then Relative now_to_future (js_Number (to url))
  else if decide (to url = "now") then Relative relative (js_Number (from url))
  else Absolute (js_Number (from url), js_Number (to url)).

Definition urlToTimeRangeValue (now : Z) (url : URLTimeRange) : TimeRangeValue :=
  toTimeRangeValue now (urlToTimeRange url) 0.
End V2.

(** ** Round trips through the URL *)

Lemma show_not_now z : show z <> "now".
Proof. intros H. pose proof (has_char_show "n"%char z eq_refl ltac:(done)) as Hn. by rewrite H in Hn. Qed.

(** The ranges the program builds: whole seconds. *)
Definition whole1 (tr : V1.TimeRange) : Prop :=
  match tr with
  | V1.Recent v => exists z : Z, v = z
  | V1.Absolute (a, b) => exists x y : Z, a = x /\ b = y
  end.

Definition whole2 (tr : V2.TimeRange) : Prop :=
  match tr with
  | V2.Relative _ v => exists z : Z, v = z
  | V2.Absolute (a, b) => exists x y : Z, a = x /\ b = y
  end.

(** A time range of whole seconds written to the URL is read back
    unchanged, in ui/; what is read does not depend on the clock at the time of
    writing. *)
Theorem v1_url_roundtrip (now : Z) (tr : V1.TimeRange) :
  whole1 tr -> V1.urlToTimeRange (V1.toURLTimeRange now tr) = tr.
Proof.
  destruct tr as [v|[a b]]; unfold V1.toURLTimeRange, V1.urlToTimeRange; cbn [from to fst snd].
  - intros [z ->]. rewrite num_show_Z, js_Number_show. done.
  - intros (x & y & -> & ->). unfold V1.toTimeRangeValue. cbn [default from_option id fst snd from to].
    rewrite !num_add_Z, !num_show_Z, !js_Number_show, !Z.add_0_r.
    by rewrite decide_False by apply show_not_now.
Qed.

(** What a range is read back as: before-to-now becomes relative. *)
Definition read_back (tr : V2.TimeRange) : V2.TimeRange :=
  match tr with V2.Relative V2.before_to_now v => V2.Relative V2.relative v | _ => tr end.

Lemma v2_url_back (tr : V2.TimeRange) :
  whole2 tr -> V2.urlToTimeRange (V2.toURLTimeRange tr) = read_back tr.
Proof.
  destruct tr as [ty v|[a b]]; unfold V2.toURLTimeRange, V2.urlToTimeRange.
  - intros [z ->]. destruct ty; cbn [from to]; rewrite num_show_Z, js_Number_show;
      by rewrite ?(decide_False (P := show z = "now")) by apply show_not_now.
  - intros (x & y & -> & ->). cbn [from to]. rewrite !num_show_Z, !js_Number_show.
    by rewrite !decide_False by apply show_not_now.
Qed.

Lemma read_back_meaning tr now offset :
  V2.toTimeRangeValue now (read_back tr) offset = V2.toTimeRangeValue now tr offset.
Proof. by destruct tr as [[]|]. Qed.

Lemma v2_url_nonempty (tr : V2.TimeRange) :
  whole2 tr -> from (V2.toURLTimeRange tr) <> "" /\ to (V2.toURLTimeRange tr) <> "".
Proof.
  destruct tr as [ty v|[a b]]; cbn.
  - intros [z ->]. destruct ty; cbn [from to]; rewrite num_show_Z; auto using show_nonempty.
  - intros (x & y & -> & ->). rewrite !num_show_Z. auto using show_nonempty.
Qed.

(** In ui-v2 the range that is read back covers the same seconds at every
    moment; its type is unchanged except that before-to-now comes back as
    relative, which means the same. *)
Theorem v2_url_roundtrip (tr : V2.TimeRange) :
  whole2 tr ->
  let tr' := V2.urlToTimeRange (V2.toURLTimeRange tr) in
  (forall now offset, V2.toTimeRangeValue now tr' offset = V2.toTimeRangeValue now tr offset) /\
  (tr' = tr \/ exists v, tr = V2.Relative V2.before_to_now v /\ tr' = V2.Relative V2.relative v).
Proof.
  intros Hw tr'. subst tr'. rewrite v2_url_back by done. split.
  - intros. apply read_back_meaning.
  - destruct tr as [[]|]; eauto.
Qed.

(** ** Zooming out *)

(** Zooming out keeps the old range inside the new one and extends it on
    both sides by the same number of seconds: the larger of the given share of
    its length and of the minimum. *)
Theorem zoom_out_expands (now : Z) (rate minRange : Q) (value : option V1.TimeRange) (s e : Z) :
  V1.toTimeRangeValue now value 0 = (num_of_Z s, num_of_Z e) ->
  exists a b expand : Q,
    V1.handleZoomOut now (Fin rate) (Fin minRange) value =
      ((Fin a, Fin b), V1.Absolute (Fin a, Fin b)) /\
    (a == inject_Z s - expand)%Q /\ (b == inject_Z e + expand)%Q /\
    (minRange <= expand)%Q /\ (rate * inject_Z (e - s) <= expand)%Q /\
    (expand == minRange \/ expand == rate * inject_Z (e - s))%Q.
Proof.
  intros Hv. unfold V1.handleZoomOut. rewrite Hv. js_simpl.
  set (share := Qred (inject_Z (e - s) * rate)).
  assert (Hs : (share == rate * inject_Z (e - s))%Q) by (unfold share; rewrite Qred_correct; ring).
  destruct (Qle_bool minRange share) eqn:Hle; simpl.
  - apply Qle_bool_iff in Hle.
    eexists _, _, share. split; [reflexivity|]. rewrite !Qred_correct. split_and!; try ring; auto.
    rewrite Hs. apply Qle_refl.
  - assert (Hlt : (share <= minRange)%Q).
    { apply Qlt_le_weak, Qnot_le_lt. intros H%Qle_bool_iff. congruence. }
    eexists _, _, minRange. split; [reflexivity|]. rewrite !Qred_correct. split_and!; try ring; auto.
    + apply Qle_refl.
    + by rewrite <-Hs.
    + left. reflexivity.
Qed.

Lemma v1_url_roundtrip_witness :
  V1.urlToTimeRange (V1.toURLTimeRange 0 (V1.Absolute (num_of_Z 1700000000, num_of_Z 1700003600))) =
    V1.Absolute (num_of_Z 1700000000, num_of_Z 1700003600).
Proof. apply v1_url_roundtrip. exists 1700000000, 1700003600. split; reflexivity. Defined.

Lemma v2_url_roundtrip_witness :
  V2.toTimeRangeValue 1700000000
    (V2.urlToTimeRange (V2.toURLTimeRange (V2.Relative V2.before_to_now (num_of_Z 900)))) 0 =
  (num_of_Z 1699999100, num_of_Z 1700000000).
Proof.
  assert (Hw : whole2 (V2.Relative V2.before_to_now (num_of_Z 900))) by (exists 900; reflexivity).
  rewrite (proj1 (v2_url_roundtrip _ Hw)). reflexivity.
Defined.

Lemma zoom_out_expands_witness :
  exists a b expand : Q,
    V1.handleZoomOut 1000 (Fin (1 # 2)) (Fin 300) (Some (V1.Recent (num_of_Z 899))) =
      ((Fin a, Fin b), V1.Absolute (Fin a, Fin b)) /\
    (a == inject_Z 101 - expand)%Q /\ (b == inject_Z 1001 + expand)%Q.
Proof.
  destruct (zoom_out_expands 1000 (1 # 2) 300 (Some (V1.Recent (num_of_Z 899))) 101 1001 eq_refl)
    as (a & b & e & H1 & H2 & H3 & _).
  exists a, b, e. split; [exact H1|split; [exact H2|exact H3]].
Defined.
