(* ===== verification/UrlState.v ===== *)
(** * State kept in the URL of ui-v2 (1-utils/src/url-state, apps' shared-state)

    [useUrlState] gives the components of a page the parameters of the URL and a
    function that updates some of them.  [UrlStore] is what it promises; the
    hooks on top of it (search term, sorting, pagination, time range, filters
    and the lists of the two apps) are proved against that promise, and the
    query string itself is the instance. *)

From Stdlib Require Import Ascii QArith.
From S2P Require Import Prelude JsString JsNumber Uri TimeRange.
From stdpp Require Import options.
Local Open Scope Z_scope.

(** ** The promise *)

(** An update names some parameters, each with its new value or [undefined]. *)
Definition update := list (string * option string).

Fixpoint update_at (s : update) (k : string) : option (option string) :=
  match s with
  | [] => None
  | (k', v) :: s' => if decide (k' = k) then Some v else update_at s' k
  end.

(** A parameter set to a value that is empty or undefined is removed. *)
Definition stored (v : option string) : option string := if truthy v then v else None.

Class UrlStore (Q : Type) := {
  queryParams : Q -> gmap string string;
  setQueryParams : update -> Q -> Q;
  get_set s q k : NoDup (s.*1) ->
    queryParams (setQueryParams s q) !! k =
      match update_at s k with Some v => stored v | None => queryParams q !! k end
}.

(** ** The query string *)

Definition apply_param (l : params) (p : string * option string) : params :=
  match snd p with
  | Some v => if truthy v then params_set (fst p) v l else params_delete (fst p) l
  | None => params_delete (fst p) l
  end.

Definition string_params (urlQuery : string) : gmap string string :=
  params_object (parse_query urlQuery).

Definition string_set (s : update) (urlQuery : string) : string :=
  print_query (fold_left apply_param s (parse_query urlQuery)).

Lemma params_object_lookup (l : params) (m : gmap string string) k :
  fold_left (fun m (p : string * string) => <[fst p := snd p]> m) l m !! k =
    match last (filter (fun p => fst p = k) l) with
    | Some p => Some (snd p)
    | None => m !! k
    end.
Proof.
  revert m. induction l as [|[k' v] l IH]; intros m; [done|]. cbn [fold_left].
  rewrite IH, filter_cons. cbn [fst snd]. case_decide as Hk; [subst|by rewrite lookup_insert_ne].
  rewrite last_cons. destruct (last _); [done|]. by rewrite lookup_insert_eq.
Qed.

Lemma params_filter_set k v l k' :
  filter (fun p : string * string => fst p = k') (params_set k v l) =
    if decide (k' = k) then [(k, v)] else filter (fun p => fst p = k') l.
Proof.
  induction l as [|[k1 v1] l IH]; cbn [params_set].
  - rewrite filter_cons. cbn [fst]. repeat case_decide; subst; done || congruence.
  - destruct (decide (k1 = k)) as [Hk|Hk]; rewrite !filter_cons; cbn [fst].
    + subst. rewrite list_filter_filter. repeat case_decide; subst; try congruence.
      * f_equal. apply filter_none, Forall_forall. naive_solver.
      * apply filter_ext_elem. naive_solver.
    + rewrite IH. repeat case_decide; subst; congruence.
Qed.

Lemma params_filter_delete k l k' :
  filter (fun p : string * string => fst p = k') (params_delete k l) =
    if decide (k' = k) then [] else filter (fun p => fst p = k') l.
Proof.
  unfold params_delete. rewrite list_filter_filter. case_decide; subst.
  - apply filter_none, Forall_forall. naive_solver.
  - apply filter_ext_elem. naive_solver.
Qed.

Lemma apply_param_lookup l k v k' :
  params_object (apply_param l (k, v)) !! k' =
    if decide (k' = k) then stored v else params_object l !! k'.
Proof.
  unfold params_object, apply_param, stored. cbn [fst snd]. rewrite !params_object_lookup.
  destruct v as [v|]; cbn [truthy truthy_option]; [destruct (truthy v)|];
    rewrite ?params_filter_set, ?params_filter_delete; by case_decide.
Qed.

Lemma fold_params_lookup s l k :
  NoDup (s.*1) ->
  params_object (fold_left apply_param s l) !! k =
    match update_at s k with Some v => stored v | None => params_object l !! k end.
Proof.
  revert l. induction s as [|[k' v] s IH]; intros l; [done|]. simpl.
  intros [Hk Hnd]%NoDup_cons. rewrite IH by done. rewrite apply_param_lookup.
  assert (Hn : update_at s k' = None).
  { clear -Hk. induction s as [|[k1 v1] s IH]; [done|]. simpl in *.
    apply not_elem_of_cons in Hk as [? ?]. rewrite decide_False by done. auto. }
  case_decide; [subst|]; [by rewrite Hn, decide_True|]. by rewrite decide_False by done.
Qed.

Lemma string_get_set s q k :
  NoDup (s.*1) ->
  string_params (string_set s q) !! k =
    match update_at s k with Some v => stored v | None => string_params q !! k end.
Proof.
  intros Hnd. unfold string_params, string_set. rewrite parse_print.
  by apply fold_params_lookup.
Qed.

Global Instance string_store : UrlStore string := {
  queryParams := string_params;
  setQueryParams := string_set;
  get_set := string_get_set
}.

(** ** The provider of a page *)

(** The address of the page, and the query string the provider keeps.  A reload
    takes the query string from the address. *)
Record Url := mkUrl { pathname : string; search : string; hash : string }.

Definition href_of (path q : string) : Url :=
  mkUrl path (if truthy q then "?" +:+ q else "") "".

Record Provider := mkProvider { location : Url; urlQuery : string }.

Definition mount_provider (u : Url) : Provider := mkProvider u (search u).

(** [setUrlQuery] of the default context value, then the state update. *)
Definition setUrlQuery (v : string) (p : Provider) : Provider :=
  mkProvider (href_of (pathname (location p)) v) v.

(** One event handler of a render: its calls of [setQueryParams] all start from
    the query string of that render. *)
Definition handler (us : list update) (p : Provider) : Provider :=
  fold_left (fun p' s => setUrlQuery (string_set s (urlQuery p)) p') us p.

(** ** Search term (search-url-state.ts) *)

(** The parameters are an argument; a setter gives the update it passes to
    [setQueryParams]. [None] is the [URIError] of a malformed URL. *)
Definition term (q : gmap string string) : option string :=
  decodeURIComponent (default "" (q !! "term")).

Definition setTerm (v : option string) : update :=
  [("term", match v with Some v' => if truthy v' then Some (encodeURIComponent v') else v | None => v end);
   ("pageIndex", None)].

(** ** Sorting (sort-url-state.ts, pro-table-sort-state.ts) *)

Record SortRule := mkSort { orderBy : string; desc : bool }.

Definition sortRule (defOrderBy : string) (q : gmap string string) : SortRule :=
  mkSort (default defOrderBy (q !! "orderBy"))
    (negb (bool_decide (q !! "desc" = Some "false"))).

Definition setSortRule (r : SortRule) : update :=
  [("orderBy", if truthy (orderBy r) then Some (orderBy r) else None);
   ("desc", if desc r then None else Some "false");
   ("pageIndex", None)].

(** The state of the table component: a list of column ids with a direction. *)
Definition sortingState (r : SortRule) : list (string * bool) :=
  if truthy (orderBy r) then [(orderBy r, desc r)] else [].

(** [setSortingState] with the new state: [None] when it is the same array. *)
Definition setSortingState (same : bool) (newSort : list (string * bool)) : option update :=
  if same then None
  else Some (setSortRule (match newSort with
                          | (id, d) :: _ => mkSort id d
                          | [] => mkSort "" true
                          end)).

(** ** Pagination (pagination-url-state.ts) *)

Record Pagination := mkPage { pageIndex : num; pageSize : num }.

(** [Number(undefined)] is NaN. *)
Definition number_of (v : option string) : num :=
  match v with Some s => js_Number s | None => NaN end.

Definition or_num (x d : num) : num := if truthy x then x else d.

Definition pagination (defPageSize : Z) (q : gmap string string) : Pagination :=
  mkPage (or_num (number_of (q !! "pageIndex")) 0)
    (or_num (number_of (q !! "pageSize")) defPageSize).

Definition setPagination (defPageSize : Z) (p : Pagination) : update :=
  [("pageIndex", if bool_decide (pageIndex p = num_of_Z 0) then None else Some (num_show (pageIndex p)));
   ("pageSize", if bool_decide (pageSize p = num_of_Z defPageSize) then None
                else Some (num_show (pageSize p)))].

(** ** Time range (timerange-url-state.ts) *)

Definition DEF_TIME_RANGE : V2.TimeRange := V2.Relative V2.relative (30 * 60).

Definition timeRange (defTimeRange : option V2.TimeRange) (q : gmap string string) : V2.TimeRange :=
  match q !! "from", q !! "to" with
  | Some f, Some t =>
      if truthy f && truthy t then V2.urlToTimeRange (mkURL f t)
      else default DEF_TIME_RANGE defTimeRange
  | _, _ => default DEF_TIME_RANGE defTimeRange
  end.

Definition setTimeRange (r : V2.TimeRange) : update :=
  let u := V2.toURLTimeRange r in
  [("from", Some (from u)); ("to", Some (to u)); ("pageIndex", None)].

(** ** Advanced filters (advanced-filters-url-state.ts) *)

Record AdvancedFilterItem := mkFilter { name : string; operator : string; values : list string }.

Definition print_filter (f : AdvancedFilterItem) : string :=
  encodeURIComponent (name f) +:+ "," +:+ encodeURIComponent (operator f) +:+ "," +:+
  js_join "," (map encodeURIComponent (values f)).

Definition setAdvancedFilters (l : list AdvancedFilterItem) : update :=
  [("af", Some (js_join ";" (map print_filter l))); ("pageIndex", None)].

(** One part of the parameter; a part without a name or an operator is skipped. *)
Definition parse_filter (s : string) : option (list AdvancedFilterItem) :=
  match js_split "," s with
  | n :: o :: vs =>
      if truthy n && truthy o then
        n' ← decodeURIComponent n; o' ← decodeURIComponent o; vs' ← mapM decodeURIComponent vs;
        Some [mkFilter n' o' vs']
      else Some []
  | _ => Some []
  end.

Definition advancedFilters (q : gmap string string) : option (list AdvancedFilterItem) :=
  match q !! "af" with
  | Some af => if truthy af then @concat _ <$> mapM parse_filter (js_split ";" af) else Some []
  | None => Some []
  end.

(** ** The lists of the two apps (shared-state/list-url-state.ts) *)

(** [v.join(",")] and back. *)
Definition read_list (v : option string) : list string :=
  match v with Some s => if truthy s then js_split "," s else [] | None => [] end.
Definition write_list (k : string) (v : list string) : update := [(k, Some (js_join "," v))].

Definition clear (ks : list string) : update := map (fun k => (k, None)) ks.

(** The effect of a list on [resetVal], which runs when the component mounts and
    when the value changes. *)
Definition reset_effect (resetFilters : update) (resetVal : Z) : update :=
  if 0 <? resetVal then resetFilters else [].

(** [useResetFiltersState]: [reset] stores the time in a variable all lists share. *)
Definition reset (now : Z) (resetVal : Z) : Z := now.

Module SlowQuery.
Definition list_sortRule := sortRule "query_time".
Definition dbs (q : gmap string string) := read_list (q !! "dbs").
Definition setDbs (v : list string) : update := write_list "dbs" v ++ [("pageIndex", None)].
Definition ruGroups (q : gmap string string) := read_list (q !! "ruGroups").
Definition setRuGroups (v : list string) : update := write_list "ruGroups" v ++ [("pageIndex", None)].
Definition sqlDigest (q : gmap string string) : string := default "" (q !! "sqlDigest").
Definition setSqlDigest (v : option string) : update := [("sqlDigest", v); ("pageIndex", None)].
Definition limit (q : gmap string string) : Z :=
  default 100 (parseInt (default "100" (q !! "limit"))).
Definition setLimit (v : string) : update := [("limit", Some v); ("pageIndex", None)].
Definition cols (q : gmap string string) : list string :=
  read_list (Some (js_or (q !! "cols") "query,timestamp,query_time,memory_max")).
Definition setCols (v : list string) : update := write_list "cols" v.
Definition resetFilters : update :=
  clear ["from"; "to"; "dbs"; "ruGroups"; "sqlDigest"; "af"; "limit"; "term"; "pageIndex"].
Definition id (q : gmap string string) : string := default "" (q !! "id").
End SlowQuery.

Module Statement.
Definition list_sortRule := sortRule "sum_latency".
Definition dbs (q : gmap string string) := read_list (q !! "dbs").
Definition setDbs (v : list string) : update := write_list "dbs" v ++ [("pageIndex", None)].
Definition ruGroups (q : gmap string string) := read_list (q !! "ruGroups").
Definition setRuGroups (v : list string) : update := write_list "ruGroups" v ++ [("pageIndex", None)].
Definition kinds (q : gmap string string) := read_list (q !! "kinds").
Definition setKinds (v : list string) : update := write_list "kinds" v ++ [("pageIndex", None)].
Definition list_term := term.
Definition list_setTerm := setTerm.
Definition resetFilters : update :=
  clear ["from"; "to"; "dbs"; "ruGroups"; "kinds"; "term"; "af"; "pageIndex"].
Definition cols (q : gmap string string) : list string :=
  read_list (Some (js_or (q !! "cols") "digest_text,sum_latency,avg_latency,exec_count,plan_count")).
Definition setCols (v : list string) : update := write_list "cols" v.
Definition id (q : gmap string string) : string := default "" (q !! "id").
Definition plan (q : gmap string string) : string := default "" (q !! "plan").
Definition setPlan (newPlan : string) : update :=
  [("plan", if truthy newPlan then Some newPlan else None)].
End Statement.

Module Metric.
Definition panel (q : gmap string string) : string := default "" (q !! "panel").
Definition setPanel (newPanel : string) : update :=
  [("panel", if truthy newPanel then Some newPanel else None)].
Definition refresh (q : gmap string string) : string := default "" (q !! "refresh").
Definition setRefresh (now : Z) (v : option string) : update :=
  [("refresh", Some (js_or v "" +:+ show now))].
End Metric.

(** ** Properties of the address *)

Lemma handler_last us p :
  handler us p =
    match last us with Some s => setUrlQuery (string_set s (urlQuery p)) p | None => p end.
Proof.
  unfold handler. generalize (urlQuery p) at 1 2 as q. intros q. revert p.
  induction us as [|s us IH]; intros p; [done|].
  cbn [fold_left]. rewrite IH, last_cons. by destruct (last us).
Qed.

Lemma print_query_no_question l : strip_question (print_query l) = print_query l.
Proof.
  destruct l as [|[k v] l]; [done|].
  assert (Hf : forall t, strip_question (form_encode k +:+ "=" +:+ t) = form_encode k +:+ "=" +:+ t).
  { intros t. pose proof (has_char_form_encode "?" k eq_refl eq_refl) as Hk.
    destruct (form_encode k) as [|c k']; [done|]. cbn [has_char] in Hk.
    apply orb_false_iff in Hk as [Hk _]. apply bool_decide_eq_false in Hk.
    simpl. by rewrite decide_False. }
  unfold print_query. destruct l as [|e l]; [apply Hf|].
  change (js_join "&" (map ?f (?x :: ?y :: ?l))) with (f x +:+ "&" +:+ js_join "&" (map f (y :: l))).
  simpl. rewrite <-!str_app_assoc. apply Hf.
Qed.

Lemma search_params path q :
  strip_question q = q -> string_params (search (href_of path q)) = string_params q.
Proof.
  intros Hq. unfold href_of. cbn [search]. destruct q as [|c q]; [done|]. cbn [truthy truthy_string].
  unfold string_params, parse_query. by rewrite Hq.
Qed.

(** C11: calling [setQueryParams] once in an event handler updates exactly the
    parameters it names, an empty or undefined value removing the parameter, and
    the address then gives the same parameters after a reload; the fragment of
    the address is dropped. *)
Theorem set_query_params_spec (p : Provider) (s : update) (k : string) :
  NoDup (s.*1) ->
  let p' := handler [s] p in
  string_params (urlQuery p') !! k =
    match update_at s k with Some v => stored v | None => string_params (urlQuery p) !! k end /\
  string_params (urlQuery (mount_provider (location p'))) = string_params (urlQuery p') /\
  pathname (location p') = pathname (location p) /\ hash (location p') = "".
Proof.
  intros Hnd. split_and!; [by apply string_get_set| |done|done].
  exact (search_params (pathname (location p)) _ (print_query_no_question _)).
Qed.

(** When a handler calls [setQueryParams] several times only the last call
    counts: each starts from the query string of the render. *)
Lemma handler_keeps_last (p : Provider) (us : list update) (s : update) :
  handler (us ++ [s]) p = handler [s] p.
Proof. by rewrite !handler_last, last_snoc. Qed.

(** ** Round trips of the hooks, over any store *)

Lemma has_char_join c sep l :
  has_char c sep = false -> Forall (fun s => has_char c s = false) l -> has_char c (js_join sep l) = false.
Proof.
  intros Hs. induction 1 as [|x l Hx Hl IH]; [done|]. destruct l as [|y l]; [done|].
  rewrite js_join_cons by done. rewrite !has_char_app. by rewrite Hx, Hs, IH.
Qed.

Lemma stored_show z : stored (Some (show z)) = Some (show z).
Proof. unfold stored. cbn. by rewrite (proj2 (truthy_string_spec _) (show_nonempty z)). Qed.

Lemma number_param (d i : Z) :
  or_num (number_of (stored (if bool_decide (num_of_Z i = num_of_Z d) then None
                             else Some (num_show (num_of_Z i))))) d =
    num_of_Z (if i =? 0 then d else i).
Proof.
  case_bool_decide as Hi.
  - injection Hi as Hi. cbn. by destruct (i =? 0) eqn:Hz; bool_to_prop; subst.
  - rewrite num_show_Z, stored_show. unfold or_num. cbn [number_of].
    rewrite js_Number_show, truthy_num_Z. by destruct (i =? 0).
Qed.

Ltac store_nodup := apply (bool_decide_unpack _); vm_compute; exact I.

Section Hooks.
Context {Q : Type} `{UrlStore Q}.
Implicit Types q : Q.

#[local] Abbreviation after s q := (queryParams (setQueryParams s q)).

(** A search term that is set is read back unchanged whatever characters it
    has, the page goes back to the first, and no other parameter changes. *)
Theorem term_roundtrip q (v : string) :
  utf8 v = true ->
  term (after (setTerm (Some v)) q) = Some v /\
  after (setTerm (Some v)) q !! "pageIndex" = None /\
  forall k, k <> "term" -> k <> "pageIndex" -> after (setTerm (Some v)) q !! k = queryParams q !! k.
Proof.
  intros Hv. unfold setTerm, term.
  assert (Hnd : forall x y : option string, NoDup ([("term", x); ("pageIndex", y)].*1)) by (intros; store_nodup).
  rewrite !get_set by apply Hnd. split_and!; [|done|].
  - cbn [update_at decide]. simpl. destruct v as [|c v]; [done|].
    cbn [stored truthy truthy_option truthy_string default from_option].
    unfold stored. cbn [truthy truthy_option].
    rewrite (proj2 (truthy_string_spec _)) by (by apply encode_nonempty).
    by apply decode_encode.
  - intros k H1 H2. rewrite get_set by apply Hnd. cbn [update_at].
    by rewrite !decide_False by done.
Qed.

(** A sort rule with a column is read back unchanged whatever the default
    column is; without a column the default column is read. *)
Theorem sort_roundtrip q (d : string) (r : SortRule) :
  sortRule d (after (setSortRule r) q) = mkSort (if truthy (orderBy r) then orderBy r else d) (desc r) /\
  (setSortingState false (sortingState r) = Some (setSortRule (mkSort (orderBy r) (desc r))) \/
   orderBy r = "").
Proof.
  split.
  - unfold sortRule. rewrite !get_set by (destruct (desc r), (truthy (orderBy r)); store_nodup).
    cbn [setSortRule update_at decide]. destruct r as [o []]; by destruct o.
  - destruct r as [[|c o] b]; [by right|by left].
Qed.

(** A page of whole numbers is read back unchanged, provided its size is not
    zero; a size of zero is read as the default size. *)
Theorem pagination_roundtrip q (defPageSize i n : Z) :
  defPageSize <> 0 ->
  pagination defPageSize (after (setPagination defPageSize (mkPage i n)) q) =
    mkPage i (num_of_Z (if n =? 0 then defPageSize else n)).
Proof.
  intros Hd. unfold pagination, setPagination. rewrite !get_set by store_nodup.
  cbn [update_at]. rewrite decide_True by done. f_equal; [|apply number_param].
  etrans; [apply (number_param 0)|]. by destruct (i =? 0) eqn:Hz; bool_to_prop; subst.
Qed.

(** A time range of whole seconds is read back as one that covers the same
    seconds at every moment, whatever the default range is. *)
Theorem timerange_roundtrip q (d : option V2.TimeRange) (r : V2.TimeRange) :
  whole2 r ->
  forall now offset,
    V2.toTimeRangeValue now (timeRange d (after (setTimeRange r) q)) offset =
      V2.toTimeRangeValue now r offset.
Proof.
  intros Hw now offset. unfold timeRange. rewrite !get_set by store_nodup.
  change (update_at (setTimeRange r) "from") with (Some (Some (from (V2.toURLTimeRange r)))).
  change (update_at (setTimeRange r) "to") with (Some (Some (to (V2.toURLTimeRange r)))).
  cbv beta iota.
  assert (Hs : forall x, x <> "" -> stored (Some x) = Some x /\ truthy x = true).
  { intros x Hx. unfold stored. cbn. by rewrite (proj2 (truthy_string_spec _) Hx). }
  destruct (v2_url_nonempty r Hw) as [Hf Ht].
  destruct (Hs _ Hf) as [-> Hf'], (Hs _ Ht) as [-> Ht']. rewrite Hf', Ht'. cbn [andb].
  replace (mkURL _ _) with (V2.toURLTimeRange r) by (by destruct (V2.toURLTimeRange r)).
  by rewrite v2_url_back, read_back_meaning.
Qed.

(** A filter as it is read back: an empty list of values becomes one empty value. *)
Definition read_filter (f : AdvancedFilterItem) : AdvancedFilterItem :=
  mkFilter (name f) (operator f) (match values f with [] => [""] | vs => vs end).

Definition filter_ok (f : AdvancedFilterItem) : bool :=
  truthy (name f) && truthy (operator f) && utf8 (name f) && utf8 (operator f) &&
  forallb utf8 (values f).

Lemma mapM_decode vs :
  forallb utf8 vs = true -> mapM decodeURIComponent (map encodeURIComponent vs) = Some vs.
Proof.
  induction vs as [|v vs IH]; [done|]. simpl. intros [Hv Hvs]%andb_true_iff.
  by rewrite decode_encode, IH.
Qed.

Lemma truthy_encode s : truthy s = true -> truthy (encodeURIComponent s) = true.
Proof. rewrite !truthy_string_spec. apply encode_nonempty. Qed.

Lemma print_filter_pieces f :
  js_split "," (print_filter f) =
    encodeURIComponent (name f) :: encodeURIComponent (operator f) ::
    (match map encodeURIComponent (values f) with [] => [""] | vs => vs end).
Proof.
  change (print_filter f) with (encodeURIComponent (name f) +:+ String ","
    (encodeURIComponent (operator f) +:+ String "," (js_join "," (map encodeURIComponent (values f))))).
  rewrite js_split_app_sep by (by apply has_char_encode). f_equal.
  rewrite js_split_app_sep by (by apply has_char_encode). f_equal.
  destruct (map encodeURIComponent (values f)) as [|v vs] eqn:E; [done|].
  apply (js_split_join ","); [done|]. rewrite <-E. apply Forall_fmap, Forall_forall.
  intros x _. by apply has_char_encode.
Qed.

Lemma parse_print_filter f :
  filter_ok f = true -> parse_filter (print_filter f) = Some [read_filter f].
Proof.
  unfold filter_ok. intros ((((Hn & Ho)%andb_true_iff & Hun)%andb_true_iff & Huo)%andb_true_iff & Hv)%andb_true_iff.
  unfold parse_filter. rewrite print_filter_pieces, !truthy_encode by done. cbn [andb].
  rewrite !decode_encode by done. cbn [mbind option_bind]. unfold read_filter.
  pose proof (mapM_decode _ Hv) as Hm. destruct (values f) as [|v vs]; [done|].
  cbn [map] in *. by rewrite Hm.
Qed.

Lemma read_write_list v :
  Forall (fun x => has_char "," x = false) v -> v <> [""] ->
  read_list (stored (Some (js_join "," v))) = v.
Proof.
  intros Hc Hv. unfold stored, read_list. cbn [truthy truthy_option].
  destruct (truthy (js_join "," v)) eqn:Ht.
  - rewrite Ht. apply js_split_join; [|done]. by intros ->.
  - destruct v as [|x [|y v]]; [done| |].
    + cbn in Ht. by destruct x.
    + exfalso. cbn in Ht. by destruct x.
Qed.

(** A list of names that is set is read back unchanged when no name contains
    a comma (the list of one empty name excepted); a name with a comma comes back
    as several. *)
Theorem list_param_roundtrip q (v : list string) :
  Forall (fun x => has_char "," x = false) v -> v <> [""] ->
  SlowQuery.dbs (after (SlowQuery.setDbs v) q) = v /\
  SlowQuery.ruGroups (after (SlowQuery.setRuGroups v) q) = v /\
  Statement.kinds (after (Statement.setKinds v) q) = v /\
  (v <> [] -> SlowQuery.cols (after (SlowQuery.setCols v) q) = v) /\
  SlowQuery.dbs (after (SlowQuery.setDbs ["a,b"]) q) = ["a"; "b"].
Proof.
  intros Hc Hv. unfold SlowQuery.dbs, SlowQuery.ruGroups, Statement.kinds, SlowQuery.cols.
  rewrite !get_set by store_nodup.
  change (update_at (SlowQuery.setDbs ?v) "dbs") with (Some (Some (js_join "," v))).
  change (update_at (SlowQuery.setRuGroups ?v) "ruGroups") with (Some (Some (js_join "," v))).
  change (update_at (Statement.setKinds ?v) "kinds") with (Some (Some (js_join "," v))).
  change (update_at (SlowQuery.setCols ?v) "cols") with (Some (Some (js_join "," v))).
  cbv beta iota. rewrite !read_write_list by done. split_and!; try done.
  intros Hne. rewrite <-(read_write_list v) at 2 by done. f_equal. unfold stored.
  cbn [truthy truthy_option]. destruct (truthy (js_join "," v)) eqn:Ht.
  - by apply f_equal, js_or_some.
  - exfalso. destruct v as [|x [|y v]]; [done| |]; cbn in Ht; by destruct x.
Qed.

Lemma has_char_print_filter f : has_char ";" (print_filter f) = false.
Proof.
  unfold print_filter. rewrite !has_char_app, !has_char_encode by done. cbn.
  apply has_char_join; [done|]. apply Forall_fmap, Forall_forall. intros x _. by apply has_char_encode.
Qed.

Lemma mapM_parse_filter l :
  forallb filter_ok l = true ->
  @concat _ <$> mapM parse_filter (map print_filter l) = Some (map read_filter l).
Proof.
  induction l as [|f l IH]; [done|]. cbn [forallb map mapM]. intros [Hf Hl]%andb_true_iff.
  specialize (IH Hl). rewrite parse_print_filter by done. cbn [mbind option_bind].
  destruct (mapM parse_filter _) as [ll|]; [|done]. cbn in *. by injection IH as ->.
Qed.

Lemma filters_nonempty f l :
  forallb filter_ok (f :: l) = true -> js_join ";" (map print_filter (f :: l)) <> "".
Proof.
  intros Hf%andb_true_iff. destruct Hf as [Hf _].
  assert (Hp : forall t, print_filter f +:+ t <> "").
  { intros t. unfold print_filter.
    by destruct (encodeURIComponent (name f)). }
  destruct l as [|g l]; [|apply (Hp _)]. cbn. rewrite <-(str_app_nil_r (print_filter f)). apply Hp.
Qed.

(** Filters written to the query string are read back. *)
Lemma filters_read_back q (l : list AdvancedFilterItem) :
  forallb filter_ok l = true ->
  advancedFilters (after (setAdvancedFilters l) q) = Some (map read_filter l).
Proof.
  intros Hl. unfold advancedFilters. rewrite get_set by store_nodup.
  change (update_at (setAdvancedFilters l) "af") with (Some (Some (js_join ";" (map print_filter l)))).
  cbv beta iota. unfold stored. cbn [truthy truthy_option].
  destruct l as [|f l]; [done|]. set (l' := f :: l) in *.
  assert (Hne : js_join ";" (map print_filter l') <> "") by apply filters_nonempty, Hl.
  rewrite (proj2 (truthy_string_spec _) Hne), (proj2 (truthy_string_spec _) Hne).
  rewrite js_split_join; [|done|].
  - by rewrite mapM_parse_filter.
  - apply Forall_fmap, Forall_forall. intros x _. apply has_char_print_filter.
Qed.

(** C12: advanced filters are read back in order with their names, operators and
    values, whatever characters these have (the separators are encoded), provided
    no name or operator is empty; a filter without values gets one empty value. *)
Theorem filters_roundtrip q (l : list AdvancedFilterItem) :
  forallb filter_ok l = true ->
  advancedFilters (after (setAdvancedFilters l) q) = Some (map read_filter l).
Proof. apply filters_read_back. Qed.

(** [resetFilters] removes the parameters of all filters and nothing else:
    the sort rule, the page size and the columns stay. *)
Theorem reset_filters_spec q :
  let slow := after SlowQuery.resetFilters q in
  let stmt := after Statement.resetFilters q in
  (SlowQuery.dbs slow, SlowQuery.ruGroups slow, SlowQuery.sqlDigest slow, SlowQuery.limit slow,
   term slow, advancedFilters slow, timeRange None slow) =
    ([], [], "", 100, Some "", Some [], DEF_TIME_RANGE) /\
  (Statement.dbs stmt, Statement.ruGroups stmt, Statement.kinds stmt, term stmt,
   advancedFilters stmt, timeRange None stmt) =
    ([], [], [], Some "", Some [], DEF_TIME_RANGE) /\
  (forall k, k ∈ ["orderBy"; "desc"; "pageSize"; "cols"] ->
    slow !! k = queryParams q !! k /\ stmt !! k = queryParams q !! k).
Proof.
  cbv zeta.
  unfold SlowQuery.dbs, SlowQuery.ruGroups, SlowQuery.sqlDigest, SlowQuery.limit, Statement.dbs,
    Statement.ruGroups, Statement.kinds, term, advancedFilters, timeRange.
  rewrite !get_set by store_nodup. split_and!; [reflexivity..|].
  intros k Hk. rewrite !get_set by store_nodup.
  repeat (apply elem_of_cons in Hk as [->|Hk]; [done|]). by apply elem_of_nil in Hk.
Qed.

(** Once the filters were reset anywhere in the session, every list that is
    mounted later loses the filters its URL carries: the effect runs on mounting
    with the value that is kept. *)
Theorem reset_outlives_list q (now k : Z) :
  0 < now ->
  let q' := setQueryParams (reset_effect SlowQuery.resetFilters (reset now k)) q in
  advancedFilters (queryParams q') = Some [] /\ SlowQuery.dbs (queryParams q') = [] /\
  term (queryParams q') = Some "".
Proof.
  intros Hn q'. subst q'. unfold reset_effect, reset. rewrite (proj2 (Z.ltb_lt _ _) Hn).
  unfold advancedFilters, SlowQuery.dbs, term. by rewrite !get_set by store_nodup.
Qed.
End Hooks.

(** ** Witnesses, on query strings *)

Lemma set_query_params_spec_witness :
  let p := mount_provider (mkUrl "/slow-query" "?dbs=a&dbs=b&orderBy=time" "#top") in
  NoDup ([("dbs", Some "c d"); ("orderBy", Some "")].*1) /\
  string_params (urlQuery (handler [[("dbs", Some "c d"); ("orderBy", Some "")]] p)) !! "dbs" = Some "c d".
Proof.
  assert (Hnd : NoDup ([("dbs", Some "c d"); ("orderBy", Some "")].*1)) by store_nodup.
  split; [exact Hnd|].
  rewrite (proj1 (set_query_params_spec _ [("dbs", Some "c d"); ("orderBy", Some "")] "dbs" Hnd)).
  reflexivity.
Defined.

Lemma term_roundtrip_witness :
  term (queryParams (setQueryParams (setTerm (Some "50% & more; é")) "?term=x")) = Some "50% & more; é".
Proof. apply (term_roundtrip "?term=x" "50% & more; é"). vm_compute. reflexivity. Defined.

Lemma sort_roundtrip_witness :
  sortRule "query_time" (queryParams (setQueryParams (setSortRule (mkSort "rows" false)) "")) = mkSort "rows" false.
Proof. rewrite (proj1 (sort_roundtrip "" "query_time" (mkSort "rows" false))). reflexivity. Defined.

Lemma pagination_roundtrip_witness :
  pagination 15 (queryParams (setQueryParams (setPagination 15 (mkPage 3 50)) "pageIndex=7")) = mkPage 3 50.
Proof. apply (pagination_roundtrip "pageIndex=7" 15 3 50). lia. Defined.

Lemma timerange_roundtrip_witness :
  V2.toTimeRangeValue 1000 (timeRange None (queryParams (setQueryParams
    (setTimeRange (V2.Relative V2.now_to_future 60)) "?from=1"))) 0 = (num_of_Z 1000, num_of_Z 1060).
Proof.
  rewrite (timerange_roundtrip "?from=1" None (V2.Relative V2.now_to_future 60)); [reflexivity|].
  exists 60. reflexivity.
Defined.

Lemma filters_roundtrip_witness :
  advancedFilters (queryParams (setQueryParams
    (setAdvancedFilters [mkFilter "user, host" "not in" ["a;b"; ""]; mkFilter "db" "=" []]) "")) =
  Some [mkFilter "user, host" "not in" ["a;b"; ""]; mkFilter "db" "=" [""]].
Proof.
  apply (filters_roundtrip "" [mkFilter "user, host" "not in" ["a;b"; ""]; mkFilter "db" "=" []]).
  vm_compute. reflexivity.
Defined.

Lemma reset_filters_spec_witness :
  queryParams (setQueryParams SlowQuery.resetFilters "?dbs=a&cols=query") !! "cols" = Some "query".
Proof.
  destruct (reset_filters_spec "?dbs=a&cols=query") as (_ & _ & Hk).
  rewrite (proj1 (Hk "cols" ltac:(repeat constructor))). reflexivity.
Defined.

Lemma reset_outlives_list_witness :
  term (queryParams (setQueryParams (reset_effect SlowQuery.resetFilters (reset 1700000000000 0)) "?term=x"))
    = Some "".
Proof. apply (reset_outlives_list "?term=x" 1700000000000 0). lia. Defined.

Lemma list_param_roundtrip_witness :
  SlowQuery.dbs (queryParams (setQueryParams (SlowQuery.setDbs ["test"; "mysql"]) "")) = ["test"; "mysql"].
Proof.
  apply (list_param_roundtrip "" ["test"; "mysql"]); [|discriminate].
  repeat constructor.
Defined.
