(* ===== verification/UrlStateV1.v ===== *)
(** * URL state of the lists of ui/ (apps/SlowQuery/utils/list-url-state.ts,
      apps/TopSlowQuery/uilts/url-state.ts)

    What the two pages read from the parameters of the URL and what they write to
    them.  The hook [useUrlState] of ahooks is the interface [UrlHook]. *)

From Stdlib Require Import Ascii QArith.
From S2P Require Import Prelude JsString JsNumber TimeRange.
Local Open Scope Z_scope.

Abbreviation queryParams := (gmap string string).

(** What a setter gives to [setQueryParams]; [None] is undefined. *)
Definition changes := list (string * option string).

Fixpoint change_of (u : changes) (k : string) : option (option string) :=
  match u with
  | [] => None
  | (k', v) :: u => if decide (k' = k) then Some v else change_of u k
  end.

(** The parameters after [setQueryParams]. *)
Class UrlHook := setQueryParams : changes -> queryParams -> queryParams.

(** The given parameters replace the old ones, undefined removes one, the others
    stay. *)
Class UrlHookLaws `{UrlHook} := set_lookup u (q : queryParams) k :
  setQueryParams u q !! k = match change_of u k with Some v => v | None => q !! k end.

#[export] Instance param_map : UrlHook := fun u q =>
  foldr (fun '(k, v) m => partial_alter (fun _ => v) k m) q u.

#[export] Instance param_map_laws : UrlHookLaws.
Proof.
  intros u q k. unfold setQueryParams, param_map. induction u as [|[k' v] u IH]; [done|]. cbn.
  case_decide as Hk; [subst; apply lookup_partial_alter_eq|]. by rewrite lookup_partial_alter_ne.
Qed.

(** [v ? v.split(",") : []] *)
Definition read_list (v : option string) : list string :=
  match v with Some s => if truthy s then js_split ","%char s else [] | None => [] end.

Definition read_range (def : V1.TimeRange) (q : queryParams) : V1.TimeRange :=
  match q !! "from", q !! "to" with
  | Some f, Some t => if truthy f && truthy t then V1.urlToTimeRange (mkURL f t) else def
  | _, _ => def
  end.

Definition write_range (now : Z) (r : V1.TimeRange) : changes :=
  let u := V1.toURLTimeRange now r in [("from", Some (from u)); ("to", Some (to u))].

Lemma range_back `{UrlHookLaws} now def r q :
  whole1 r ->
  read_range def (setQueryParams (write_range now r) q) = r.
Proof.
  intros Hw. pose proof (v1_url_roundtrip now r Hw) as Hr.
  assert (Hc : setQueryParams (write_range now r) q !! "from" = Some (from (V1.toURLTimeRange now r)) /\
    setQueryParams (write_range now r) q !! "to" = Some (to (V1.toURLTimeRange now r)))
    by (split; by rewrite set_lookup).
  unfold read_range. destruct Hc as [-> ->].
  assert (Hn : from (V1.toURLTimeRange now r) <> "" /\ to (V1.toURLTimeRange now r) <> "").
  { destruct r as [v|[a b]]; cbn in Hw |- *.
    - destruct Hw as [z ->]. rewrite num_show_Z. split; [apply show_nonempty|done].
    - destruct Hw as (x & y & -> & ->). rewrite !num_add_Z, !num_show_Z. auto using show_nonempty. }
  destruct Hn as [Hf Ht]. cbv beta iota.
  rewrite (proj2 (truthy_string_spec _) Hf), (proj2 (truthy_string_spec _) Ht). cbn [andb].
  by destruct (V1.toURLTimeRange now r).
Qed.

Lemma list_back c (l : list string) :
  c = ","%char -> l <> [""] -> Forall (fun s => has_char "," s = false) l ->
  read_list (Some (js_join (String c "") l)) = l.
Proof.
  intros -> Hn Hl. cbn. destruct (decide (l = [])) as [->|Hne]; [done|].
  destruct (decide (js_join "," l = "")) as [He|He].
  - pose proof (js_split_join "," l Hne Hl) as Hs. rewrite He in Hs. by destruct Hn.
  - rewrite (proj2 (truthy_string_spec _) He). by apply js_split_join.
Qed.

(** ** The list of slow queries *)

Module SlowQueryList.
Inductive order_type := Asc | Desc.
Record OrderOpt := mkOrder { col : string; type : order_type }.

Definition timeRange (q : queryParams) : V1.TimeRange := read_range V1.DEFAULT_TIME_RANGE q.
Definition setTimeRange (now : Z) (r : V1.TimeRange) : changes := write_range now r.
Definition dbs (q : queryParams) : list string := read_list (q !! "dbs").
Definition setDbs (v : list string) : changes := [("dbs", Some (js_join "," v))].
Definition digest (q : queryParams) : string := default "" (q !! "digest").
Definition setDigest (v : string) : changes := [("digest", Some v)].
Definition ruGroups (q : queryParams) : list string := read_list (q !! "ru_groups").
Definition setRuGroups (v : list string) : changes := [("ru_groups", Some (js_join "," v))].
Definition term (q : queryParams) : string := default "" (q !! "term").
Definition setTerm (v : string) : changes := [("term", Some v)].
(** [None] is NaN. *)
Definition limit (q : queryParams) : option Z := parseInt (default "100" (q !! "limit")).
Definition setLimit (v : Z) : changes := [("limit", Some (show v))].

Definition read_order (o : string) : OrderOpt :=
  if js_startsWith o "-" then mkOrder (js_slice_from o 1) Desc else mkOrder o Asc.
Definition write_order (v : OrderOpt) : string :=
  match type v with Asc => col v | Desc => "-" +:+ col v end.
Definition order (q : queryParams) : OrderOpt := read_order (default "-timestamp" (q !! "order")).
Definition setOrder (v : OrderOpt) : changes := [("order", Some (write_order v))].
Definition resetOrder : changes := [("order", None)].

Definition rowIdx (q : queryParams) : Z :=
  match q !! "row" with
  | Some s => match parseInt s with Some r => if 0 <=? r then r else -1 | None => -1 end
  | None => -1
  end.
Definition setRowIdx (v : Z) : changes := [("row", Some (show v))].

Definition showInternal (q : queryParams) : bool :=
  let s := js_toLowerCase (default "" (q !! "show_internal")) in
  String.eqb s "1" || String.eqb s "true".
(** The boolean becomes text in the URL. *)
Definition setShowInternal (show : bool) : changes :=
  [("show_internal", Some (if show then "true" else "false"))].
End SlowQueryList.

(** ** Top slow queries *)

Module TopSlowQuery.
Definition TIME_RANGE_RECENT_SECONDS : list Z :=
  [60 * 60; 3 * 60 * 60; 6 * 60 * 60; 12 * 60 * 60; 24 * 60 * 60; 7 * 24 * 60 * 60; 30 * 24 * 60 * 60].
Definition DEFAULT_TIME_RANGE : V1.TimeRange := V1.Recent (num_of_Z (nth 6 TIME_RANGE_RECENT_SECONDS 0)).
Definition DURATIONS : list (string * Z) :=
  [("1 hour", 60 * 60); ("3 hours", 3 * 60 * 60); ("6 hours", 6 * 60 * 60); ("12 hours", 12 * 60 * 60);
   ("1 day", 24 * 60 * 60); ("3 days", 3 * 24 * 60 * 60)].
Definition ORDER_BY : list (string * string) :=
  [("Total Latency", "sum_latency"); ("Max Latency", "max_latency"); ("Avg Latency", "avg_latency");
   ("Total Memory", "sum_memory"); ("Max Memory", "max_memory"); ("Avg Memory", "avg_memory");
   ("Total Count", "count")].

Definition timeRange (q : queryParams) : V1.TimeRange := read_range DEFAULT_TIME_RANGE q.
Definition setTimeRange (now : Z) (r : V1.TimeRange) : changes := write_range now r.

Definition first_duration : Z := match DURATIONS with (_, v) :: _ => v | [] => 0 end.
Definition duration (q : queryParams) : Z :=
  match q !! "duration" ≫= parseInt with
  | Some v => if existsb (fun d => snd d =? v) DURATIONS then v else first_duration
  | None => first_duration
  end.
Definition setDuration (v : Z) : changes := [("duration", Some (show v))].

Definition tw (q : queryParams) : Z * Z :=
  match js_split "-"%char <$> q !! "tw" with
  | Some [a; b] =>
      match parseInt a, parseInt b with Some s, Some e => (s, e) | _, _ => (0, 0) end
  | _ => (0, 0)
  end.
Definition setTw (v : string) : changes := [("tw", Some v)].

Definition order (q : queryParams) : string :=
  js_or (q !! "order") (match ORDER_BY with (_, v) :: _ => v | [] => "" end).
Definition setOrder (v : string) : changes := [("order", Some v)].
Definition dbs (q : queryParams) : list string := read_list (q !! "dbs").
Definition setDbs (v : list string) : changes := [("dbs", Some (js_join "," v))].
Definition stmtKinds (q : queryParams) : list string := read_list (q !! "stmt_kinds").
Definition setStmtKinds (v : list string) : changes := [("stmt_kinds", Some (js_join "," v))].
Definition internal (q : queryParams) : string := js_or (q !! "internal") "no".
Definition setInternal (v : string) : changes := [("internal", Some v)].
End TopSlowQuery.

(** ** Reading back what was written *)

Lemma slice_tail a s : js_slice_from (String a s) 1 = s.
Proof.
  unfold js_slice_from. replace (js_length (String a s)) with (js_length (String a "") + js_length s)
    by (unfold js_length; cbn [String.length]; lia).
  pose proof (js_slice_mid (String a "") s "") as H. by rewrite str_app_nil_r in H.
Qed.

Lemma show_no_minus z : 0 <= z -> has_char "-" (show z) = false.
Proof.
  intros Hz. rewrite show_nonneg by done.
  apply (str_forall_has_char is_digit); [apply pretty_N_digits|done].
Qed.

Lemma order_back o :
  (SlowQueryList.type o = SlowQueryList.Asc -> js_startsWith (SlowQueryList.col o) "-" = false) ->
  SlowQueryList.read_order (SlowQueryList.write_order o) = o.
Proof.
  destruct o as [c []]; unfold SlowQueryList.read_order, SlowQueryList.write_order;
    cbn [SlowQueryList.type SlowQueryList.col]; intros Ho.
  - by rewrite Ho.
  - unfold js_startsWith. rewrite prefix_app.
    exact (f_equal (fun s => SlowQueryList.mkOrder s SlowQueryList.Desc) (slice_tail "-" c)).
Qed.

Lemma after_change `{UrlHookLaws} u q k v :
  change_of u k = Some v -> setQueryParams u q !! k = v.
Proof. intros Hc. by rewrite set_lookup, Hc. Qed.

(** Every setting of the list of slow queries is read back from the URL it
    was written to, whatever the URL was before: ranges of whole seconds, lists
    of names without commas other than the list of the empty name, limits, texts,
    orders (an ascending one on a column that does not begin with a minus), rows
    and the switch for internal queries; a negative row reads as -1 and a reset
    order as the default one. *)
Theorem slow_list_state_roundtrip `{UrlHookLaws} (now : Z) (q : queryParams) :
  (forall r, whole1 r -> SlowQueryList.timeRange (setQueryParams (SlowQueryList.setTimeRange now r) q) = r) /\
  (forall l, l <> [""] -> Forall (fun s => has_char "," s = false) l ->
    SlowQueryList.dbs (setQueryParams (SlowQueryList.setDbs l) q) = l /\
    SlowQueryList.ruGroups (setQueryParams (SlowQueryList.setRuGroups l) q) = l) /\
  (forall n, SlowQueryList.limit (setQueryParams (SlowQueryList.setLimit n) q) = Some n) /\
  (forall t, SlowQueryList.term (setQueryParams (SlowQueryList.setTerm t) q) = t /\
    SlowQueryList.digest (setQueryParams (SlowQueryList.setDigest t) q) = t) /\
  (forall o, (SlowQueryList.type o = SlowQueryList.Asc -> js_startsWith (SlowQueryList.col o) "-" = false) ->
    SlowQueryList.order (setQueryParams (SlowQueryList.setOrder o) q) = o) /\
  SlowQueryList.order (setQueryParams SlowQueryList.resetOrder q) =
    SlowQueryList.mkOrder "timestamp" SlowQueryList.Desc /\
  (forall i, SlowQueryList.rowIdx (setQueryParams (SlowQueryList.setRowIdx i) q) = Z.max (-1) i) /\
  (forall b, SlowQueryList.showInternal (setQueryParams (SlowQueryList.setShowInternal b) q) = b).
Proof.
  split_and!.
  - intros r Hr. by apply range_back.
  - intros l Hn Hl. unfold SlowQueryList.dbs, SlowQueryList.ruGroups.
    split; erewrite after_change by reflexivity; by apply list_back.
  - intros n. unfold SlowQueryList.limit. erewrite after_change by reflexivity. apply parseInt_show'.
  - intros t. unfold SlowQueryList.term, SlowQueryList.digest.
    split; by erewrite after_change by reflexivity.
  - intros o Ho. unfold SlowQueryList.order. erewrite after_change by reflexivity. by apply order_back.
  - unfold SlowQueryList.order. by erewrite after_change by reflexivity.
  - intros i. unfold SlowQueryList.rowIdx. erewrite after_change by reflexivity.
    cbn. rewrite parseInt_show'. destruct (Z.leb_spec 0 i); lia.
  - intros []; unfold SlowQueryList.showInternal; by erewrite after_change by reflexivity.
Qed.

Lemma slow_list_state_roundtrip_witness :
  let set u := setQueryParams u (∅ : queryParams) in
  SlowQueryList.limit (set (SlowQueryList.setLimit 200)) = Some 200 /\
  SlowQueryList.order (set (SlowQueryList.setOrder (SlowQueryList.mkOrder "query_time" SlowQueryList.Desc))) =
    SlowQueryList.mkOrder "query_time" SlowQueryList.Desc.
Proof.
  destruct (slow_list_state_roundtrip (H := param_map) 0 ∅) as (_ & _ & Hl & _ & Ho & _).
  split; [apply Hl|]. by apply Ho.
Defined.

(** The same for the top slow queries: a duration is read back when it is
    one of those offered and as the first of them otherwise, a time window when it
    is a pair of times from the epoch on, an order or a choice of the internal
    queries when it is not empty. *)
Theorem top_state_roundtrip `{UrlHookLaws} (now : Z) (q : queryParams) :
  (forall r, whole1 r -> TopSlowQuery.timeRange (setQueryParams (TopSlowQuery.setTimeRange now r) q) = r) /\
  (forall v, TopSlowQuery.duration (setQueryParams (TopSlowQuery.setDuration v) q) =
    if decide (v ∈ map snd TopSlowQuery.DURATIONS) then v else 60 * 60) /\
  (forall s e, 0 <= s -> 0 <= e ->
    TopSlowQuery.tw (setQueryParams (TopSlowQuery.setTw (show s +:+ "-" +:+ show e)) q) = (s, e)) /\
  (forall l, l <> [""] -> Forall (fun s => has_char "," s = false) l ->
    TopSlowQuery.dbs (setQueryParams (TopSlowQuery.setDbs l) q) = l /\
    TopSlowQuery.stmtKinds (setQueryParams (TopSlowQuery.setStmtKinds l) q) = l) /\
  (forall v, v <> "" -> TopSlowQuery.order (setQueryParams (TopSlowQuery.setOrder v) q) = v /\
    TopSlowQuery.internal (setQueryParams (TopSlowQuery.setInternal v) q) = v).
Proof.
  split_and!.
  - intros r Hr. by apply range_back.
  - intros v. unfold TopSlowQuery.duration. erewrite after_change by reflexivity.
    cbn [mbind option_bind]. rewrite parseInt_show'.
    case_decide as Hd.
    + replace (existsb _ _) with true; [done|]. symmetry. apply existsb_exists.
      apply list_elem_of_fmap in Hd as (d & -> & Hd). exists d. split; [by apply list_elem_of_In|].
      apply Z.eqb_refl.
    + destruct (existsb _ _) eqn:E; [|done]. apply existsb_exists in E as (d & Hd' & He).
      apply Z.eqb_eq in He as <-. destruct Hd. apply list_elem_of_fmap. exists d.
      split; [done|]. by apply list_elem_of_In.
  - intros s e Hs He. unfold TopSlowQuery.tw. erewrite after_change by reflexivity.
    cbn [fmap option_fmap option_map].
    change (show s +:+ "-" +:+ show e) with (show s +:+ String "-" (show e)).
    rewrite (js_split_app_sep "-" (show s)) by (by apply show_no_minus).
    rewrite js_split_no_sep by (by apply show_no_minus). by rewrite !parseInt_show'.
  - intros l Hn Hl. unfold TopSlowQuery.dbs, TopSlowQuery.stmtKinds.
    split; erewrite after_change by reflexivity; by apply list_back.
  - intros v Hv%truthy_string_spec. unfold TopSlowQuery.order, TopSlowQuery.internal.
    split; erewrite after_change by reflexivity; by apply js_or_some.
Qed.

Lemma top_state_roundtrip_witness :
  let set u := setQueryParams u (∅ : queryParams) in
  TopSlowQuery.tw (set (TopSlowQuery.setTw (show 1700000000 +:+ "-" +:+ show 1700003600))) =
    (1700000000, 1700003600) /\
  TopSlowQuery.duration (set (TopSlowQuery.setDuration 5)) = 3600.
Proof.
  destruct (top_state_roundtrip (H := param_map) 0 ∅) as (_ & Hd & Ht & _).
  split; [by apply Ht|]. rewrite (Hd 5). by vm_compute.
Defined.
