(* ===== verification/Session.v ===== *)
(** * Sign-in, sessions and routing of the dashboard (tidb-dashboard-for-op:
      utils/auth.ts, authSSO.ts, store.ts, registry.ts, client/index.tsx,
      dashboardApp/main.tsx; tidb-dashboard-lib: utils/routing.ts)

    The token in the local storage, the user it belongs to, the sign-in through a
    single sign-on provider, what an error of the backend does to the session,
    and which application a location shows.  Responses are events that arrive in
    any order. *)

From Stdlib Require Import Ascii QArith Qround Lqa.
From S2P Require Import Prelude JsString JsNumber Uri.
Local Open Scope Z_scope.

(** ** Locations (routing.ts) *)

Module Routing.
Definition signInRoute : string := "/signin".
Definition portalRoute : string := "/portal".

(** [hash] is that of the location. *)
Definition isLocationMatch (hash s : string) (matchPrefix : bool) : bool :=
  let hash := if negb (truthy hash) || String.eqb hash "#" then "#/" else hash in
  if matchPrefix then js_startsWith hash ("#" +:+ s) else String.eqb (js_trim hash) ("#" +:+ s).

Definition isLocationMatchPrefix (hash s : string) : bool := isLocationMatch hash s true.
Definition isSignInPage (hash : string) : bool := isLocationMatchPrefix hash signInRoute.
Definition isPortalPage (hash : string) : bool := isLocationMatchPrefix hash portalRoute.

Definition getPathInLocationHash (hash : string) : string :=
  match find_char "?" hash with Some pos => str_take pos hash | None => hash end.
End Routing.

(** ** Applications (registry.ts, the meta.ts of each application) *)

Module Registry.
Record App := mkApp { id : string; routerPrefix : string; indexRoute : option string; isDefaultRouter : bool }.

Record AppRegistry := mkRegistry { defaultRouter : string; apps : gmap string App }.

Definition new : AppRegistry := mkRegistry "" ∅.

(** The activity function given to single-spa. *)
Definition active (hash : string) (a : App) : bool := Routing.isLocationMatchPrefix hash (routerPrefix a).

Definition register (r : AppRegistry) (a : App) : AppRegistry :=
  let route := js_or (indexRoute a) (routerPrefix a) in
  let a := mkApp (id a) (routerPrefix a) (Some route) (isDefaultRouter a) in
  mkRegistry (if negb (truthy (defaultRouter r)) || isDefaultRouter a then route else defaultRouter r)
    (<[id a := a]> (apps r)).

Definition getDefaultRouter (r : AppRegistry) : string := if truthy (defaultRouter r) then defaultRouter r else "/".

(** [mountedApps] are the names of the applications single-spa has mounted. *)
Fixpoint getActiveApp (mountedApps : list string) (r : AppRegistry) : option App :=
  match mountedApps with
  | [] => None
  | app :: l => match apps r !! app with Some a => Some a | None => getActiveApp l r end
  end.

Definition meta (id prefix : string) : App := mkApp id prefix None false.

(** In the order [webPageStart] registers them. *)
Definition op_apps : list App :=
  [meta "user_profile" "/user_profile"; mkApp "overview" "/overview" None true;
   meta "cluster_info" "/cluster_info"; meta "keyviz" "/keyviz"; meta "topsql" "/topsql";
   meta "statement" "/statement"; meta "system_report" "/system_report"; meta "slow_query" "/slow_query";
   meta "diagnose" "/diagnose"; meta "monitoring" "/monitoring"; meta "search_logs" "/search_logs";
   meta "instance_profiling" "/instance_profiling"; meta "conprof" "/continuous_profiling";
   meta "query_editor" "/query_editor"; meta "configuration" "/configuration";
   meta "debug_api" "/debug_api"; meta "optimizer_trace" "/optimizer_trace"; meta "deadlock" "/deadlock";
   meta "resource_manager" "/resource_manager"].

Definition op_registry : AppRegistry := fold_left register op_apps new.

(** The layouts around the applications. *)
Definition layout_active (hash : string) : bool := negb (Routing.isSignInPage hash).
Definition signin_active (hash : string) : bool := Routing.isSignInPage hash.
End Registry.

(** ** The session *)

Section Session.
Context {User : Type}.

Record Session := mkSession {
  token : option string;        (* local storage *)
  codeVerifier : option string; (* session storage *)
  ssoState : option string;     (* session storage *)
  whoAmI : option User;
  who_pending : list string;    (* the token of each [infoWhoami] in flight *)
  hash : string
}.
Implicit Types s : Session.

Definition set_token (t : option string) s : Session :=
  mkSession t (codeVerifier s) (ssoState s) (whoAmI s) (who_pending s) (hash s).
Definition set_who (u : option User) (l : list string) s : Session :=
  mkSession (token s) (codeVerifier s) (ssoState s) u l (hash s).
Definition set_sso (v st : option string) s : Session :=
  mkSession (token s) v st (whoAmI s) (who_pending s) (hash s).
Definition navigateToUrl (h : string) s : Session :=
  mkSession (token s) (codeVerifier s) (ssoState s) (whoAmI s) (who_pending s) h.

Definition getAuthToken s : option string := token s.

Definition getAuthTokenAsBearer s : option string :=
  match getAuthToken s with Some t => if truthy t then Some ("Bearer " +:+ t) else None | None => None end.

(** [reloadWhoAmI] up to its request. *)
Definition reloadWhoAmI s : Session :=
  match getAuthToken s with
  | Some t => if truthy t then set_who (whoAmI s) (who_pending s ++ [t]) s else set_who None (who_pending s) s
  | None => set_who None (who_pending s) s
  end.

(** The event of a changed token makes the store reload the user. *)
Definition setAuthToken (t : string) s : Session :=
  if decide (getAuthToken s = Some t) then s else reloadWhoAmI (set_token (Some t) s).

Definition clearAuthToken s : Session :=
  if truthy (getAuthToken s) then reloadWhoAmI (set_token None s) else s.

(** *** Errors (client/index.tsx) *)

Inductive HandleError := Default | Custom.

Record AxiosError := mkError {
  message : string;
  response_code : option string;    (* response?.data?.code *)
  response_message : option string;
  handleError : HandleError;
  method : string
}.

(** What the user sees. *)
Inductive ErrorAction := Toast | Notification | ModalError | Nothing.

Definition errCode (e : AxiosError) : option string :=
  if String.eqb (message e) "Network Error" then Some "common.network" else response_code e.

(** [exists] and [t] of i18next. *)
Definition content (translation : string -> option string) (e : AxiosError) : string :=
  match translation ("error." +:+ default "" (errCode e)) with
  | Some text => text
  | None => js_or (response_message e) (js_or (Some (message e)) "Internal error")
  end.

Definition unauthenticated (e : AxiosError) : bool :=
  bool_decide (errCode e ∈ [Some "common.unauthenticated"; Some "error.api.unauthorized"]).

(** The session after the interceptor, what is shown, and [err.handled]. *)
Definition intercept (e : AxiosError) s : Session * ErrorAction * bool :=
  if unauthenticated e then
    (navigateToUrl ("#" +:+ Routing.signInRoute) (clearAuthToken s),
     if negb (Routing.isLocationMatch (hash s) "/" false) && negb (Routing.isSignInPage (hash s))
     then Toast else Nothing,
     true)
  else
    match handleError e with
    | Default =>
        (s, if String.eqb (js_toLowerCase (method e)) "get" then Notification
            else if bool_decide (js_toLowerCase (method e) ∈ ["post"; "put"; "delete"; "patch"])
            then ModalError else Nothing, true)
    | Custom => (s, Nothing, false)
    end.

Definition api_error (e : AxiosError) s : Session := fst (fst (intercept e s)).

(** The rest of [reloadWhoAmI], for the request at place [i]. *)
Definition who_response (i : nat) (r : AxiosError + User) s : Session :=
  let s := set_who (whoAmI s) (delete i (who_pending s)) s in
  match r with
  | inr u => set_who (Some u) (who_pending s) s
  | inl e => let s := api_error e s in set_who None (who_pending s) s
  end.

(** *** Single sign-on (authSSO.ts) *)

Definition possible : string := "ABCDEFGHIJKLMNOPQRSTUVWXYZabcdefghijklmnopqrstuvwxyz0123456789".

(** [random] are the results of [Math.random]. *)
Definition newRandomString (random : list Q) : string :=
  foldl (fun text r =>
    text +:+ match String.get (Z.to_nat (Qfloor (r * inject_Z (js_length possible)))) possible with
             | Some c => String c "" | None => "" end) "" random.

(** Protocol, host and path of the location. *)
Definition getBaseURL (protocol host pathname : string) : string := protocol +:+ "//" +:+ host +:+ pathname.
Definition getRedirectURL (base : string) : string := base +:+ "?sso_callback=1".

Record AuthURLRequest := mkAuthURL { req_verifier : string; redirectUrl : string; req_state : string }.

Definition getAuthURL (base : string) (r128 r32 : list Q) s : AuthURLRequest * Session :=
  let v := newRandomString r128 in
  let st := newRandomString r32 in
  (mkAuthURL v (getRedirectURL base) st, set_sso (Some v) (Some st) s).

Definition params_get (k : string) (l : params) : option string := snd <$> find (fun p => String.eqb (fst p) k) l.

Definition isSSOCallback (search : string) : bool := bool_decide ("sso_callback" ∈ map fst (parse_query search)).

Record LoginRequest := mkLogin { code : option string; code_verifier : option string; redirect_url : string }.

(** [inl] is the exception of an invalid state. *)
Definition handleSSOCallbackInner (base search : string) s : string + LoginRequest :=
  let p := parse_query search in
  if decide (params_get "state" p = ssoState s) then
    inr (mkLogin (params_get "code" p) (codeVerifier s) (getRedirectURL base))
  else inl "Invalid OIDC state: You may see this error when your SSO sign in is outdated.".

(** The rest, when the login succeeded. *)
Definition sso_signed_in (t : string) s : Session := setAuthToken t (set_sso None None s).

(** *** The page (main.tsx) *)

Inductive Page := Portal | SSOCallback | WebPage.

Definition main (hash search : string) : Page :=
  if Routing.isPortalPage hash then Portal
  else if isSSOCallback search then SSOCallback
  else WebPage.

(** A message to the portal page; [None] when it is ignored. *)
Definition handlePortalEvent (type t redirectPath : string) s : option Session :=
  if String.eqb type "DASHBOARD_PORTAL_EVENT" then
    Some (navigateToUrl ("#" +:+ redirectPath) (setAuthToken t s))
  else None.

(** The listener of [single-spa:app-change]. *)
Definition app_change s : Session :=
  if Routing.isSignInPage (hash s) then s
  else match getAuthTokenAsBearer s with
       | Some _ => s
       | None => navigateToUrl ("#" +:+ Routing.signInRoute) s
       end.

(** What [webPageStart] does when its [reloadWhoAmI] has returned [ok]. *)
Definition after_start (ok : bool) (defaultRouter : string) s : Session :=
  if Routing.isLocationMatch (hash s) "/" false && ok then navigateToUrl ("#" +:+ defaultRouter) s else s.

(** *** Runs *)

(** The backend answers with the owner of the token a request carried. *)
Context (owner : string -> User).

Definition allowed s (i : nat) (r : AxiosError + User) : Prop :=
  exists t, who_pending s !! i = Some t /\ (forall u, r = inr u -> u = owner t).

(** Steps that do not change the token, or change it while no request for the
    user is in flight. *)
Inductive step_quiet : Session -> Session -> Prop :=
| q_reload s : who_pending s = [] -> step_quiet s (reloadWhoAmI s)
| q_sign_in s t : who_pending s = [] -> step_quiet s (setAuthToken t s)
| q_sso s t : who_pending s = [] -> step_quiet s (sso_signed_in t s)
| q_sign_out s : who_pending s = [] -> step_quiet s (clearAuthToken s)
| q_error s e : who_pending s = [] -> step_quiet s (api_error e s)
| q_who s i r : allowed s i r -> step_quiet s (who_response i r s)
| q_app s : step_quiet s (app_change s)
| q_auth s base a b : step_quiet s (snd (getAuthURL base a b s)).

Definition user_known s : Prop :=
  forall u, whoAmI s = Some u -> exists t, token s = Some t /\ truthy t = true /\ u = owner t.

Definition session_ok s : Prop :=
  match who_pending s with
  | [] => user_known s
  | [t] => token s = Some t /\ truthy t = true
  | _ => False
  end.
End Session.
Arguments Session : clear implicits.

Section SessionProperties.
Context {User : Type} (owner : string -> User).
Implicit Types s : Session User.

Lemma set_known_none s l : user_known owner (set_who None l s).
Proof. by intros u. Qed.

Lemma reload_ok s : who_pending s = [] -> session_ok owner (reloadWhoAmI s).
Proof.
  intros Hp. unfold reloadWhoAmI, getAuthToken. destruct (token s) as [t|] eqn:Ht; [destruct (truthy t) eqn:E|];
    unfold session_ok; cbn; rewrite Hp; cbn; [by split|apply set_known_none..].
Qed.

Lemma set_auth_ok t s : who_pending s = [] -> session_ok owner s -> session_ok owner (setAuthToken t s).
Proof. intros Hp Hs. unfold setAuthToken. case_decide; [done|]. by apply reload_ok. Qed.

Lemma clear_auth_ok s : who_pending s = [] -> session_ok owner s -> session_ok owner (clearAuthToken s).
Proof. intros Hp Hs. unfold clearAuthToken. case_match; [|done]. by apply reload_ok. Qed.

Lemma navigate_ok h s : session_ok owner s -> session_ok owner (navigateToUrl h s).
Proof. done. Qed.

Lemma api_error_cases e s :
  api_error e s = s \/ api_error e s = navigateToUrl ("#" +:+ Routing.signInRoute) (clearAuthToken s).
Proof. unfold api_error, intercept. destruct (unauthenticated e); [by right|]. left. by destruct (handleError e). Qed.

Lemma api_error_ok e s : who_pending s = [] -> session_ok owner s -> session_ok owner (api_error e s).
Proof. intros Hp Hs. destruct (api_error_cases e s) as [->| ->]; [done|]. by apply navigate_ok, clear_auth_ok. Qed.

Lemma clear_auth_pending s : who_pending (clearAuthToken s) = who_pending s.
Proof. unfold clearAuthToken. by case_match. Qed.

Lemma api_error_pending e s : who_pending (api_error e s) = who_pending s.
Proof. destruct (api_error_cases e s) as [->| ->]; [done|]. apply clear_auth_pending. Qed.

Lemma who_response_ok i r s :
  allowed owner s i r -> session_ok owner s -> session_ok owner (who_response i r s).
Proof.
  intros (t & Hi & Hr) Hs. unfold session_ok in Hs.
  destruct (who_pending s) as [|t' [|]] eqn:Hp; [done| |done].
  destruct i; [|done]. injection Hi as ->. destruct Hs as [Ht Htt].
  unfold session_ok, who_response. rewrite Hp. cbn [delete list_delete].
  destruct r as [e|u]; cbn.
  - rewrite api_error_pending. cbn. apply set_known_none.
  - intros u' [= <-]. exists t. split_and!; [done|done|]. by apply Hr.
Qed.

Lemma app_change_ok s : session_ok owner s -> session_ok owner (app_change s).
Proof. intros Hs. unfold app_change. repeat case_match; done. Qed.

Lemma quiet_ok s s' : step_quiet owner s s' -> session_ok owner s -> session_ok owner s'.
Proof.
  destruct 1; intros Hs; auto using reload_ok, set_auth_ok, clear_auth_ok, api_error_ok, who_response_ok,
    app_change_ok.
  unfold sso_signed_in. by apply set_auth_ok.
Qed.
End SessionProperties.



(** Signing out while the user is still being requested leaves a session
    without a token that shows the user who signed out. *)
Theorem signed_out_user_returns {User} (owner : string -> User) (s : Session User) (t : string) :
  token s = None -> who_pending s = [] -> t <> "" ->
  let s' := who_response 0 (inr (owner t)) (clearAuthToken (setAuthToken t s)) in
  token s' = None /\ who_pending s' = [] /\ whoAmI s' = Some (owner t).
Proof.
  destruct s as [tk cv st wh wp h]. cbn. intros -> -> Ht%truthy_string_spec.
  assert (E1 : setAuthToken t (mkSession None cv st wh [] h) = mkSession (Some t) cv st wh [t] h).
  { unfold setAuthToken. cbn [getAuthToken token]. rewrite decide_False by done.
    unfold reloadWhoAmI. cbn [getAuthToken token set_token]. by rewrite Ht. }
  assert (E2 : clearAuthToken (mkSession (Some t) cv st wh [t] h) = mkSession None cv st None [t] h).
  { unfold clearAuthToken. cbn [getAuthToken token truthy truthy_option]. by rewrite Ht. }
  by rewrite E1, E2.
Qed.

Lemma signed_out_user_returns_witness :
  whoAmI (who_response 0 (inr "root") (clearAuthToken (setAuthToken "t"
    (mkSession (User := string) None None None None [] "#/")))) = Some "root".
Proof.
  apply (signed_out_user_returns (fun _ => "root") (mkSession None None None None [] "#/") "t");
    [reflexivity|reflexivity|discriminate].
Defined.

(** C40: an error that says the session is not authenticated signs the session
    out, whatever request it answers: no token is left, the location is the
    sign-in page, where no change of application moves it away, and only the
    sign-in layout is active there. *)
Theorem unauthenticated_signs_out {User} (e : AxiosError) (s : Session User) :
  errCode e = Some "common.unauthenticated" \/ errCode e = Some "error.api.unauthorized" ->
  let s' := api_error e s in
  getAuthTokenAsBearer s' = None /\ Routing.isSignInPage (hash s') = true /\
  app_change s' = s' /\ snd (intercept e s) = true /\
  filter (fun a => Registry.active (hash s') a = true) Registry.op_apps = [] /\
  Registry.layout_active (hash s') = false /\ Registry.signin_active (hash s') = true.
Proof.
  intros He. assert (Hu : unauthenticated e = true).
  { unfold unauthenticated. apply bool_decide_eq_true. destruct He as [-> | ->]; set_solver. }
  unfold api_error, intercept. rewrite Hu. cbn [fst snd hash navigateToUrl].
  assert (Hb : getAuthTokenAsBearer (navigateToUrl ("#" +:+ Routing.signInRoute) (clearAuthToken s)) = None).
  { unfold getAuthTokenAsBearer, getAuthToken, clearAuthToken. cbn [token navigateToUrl].
    destruct (token s) as [t|] eqn:Et; cbn [truthy truthy_option getAuthToken];
      unfold getAuthToken; rewrite Et; cbn [truthy_option truthy].
    - destruct (truthy t) eqn:E; cbn; [done|]. rewrite Et, E. done.
    - by rewrite Et. }
  split; [done|]. split; [by vm_compute|]. split; [|split_and!; by vm_compute].
  unfold app_change. cbn [hash navigateToUrl].
  by replace (Routing.isSignInPage _) with true by (by vm_compute).
Qed.

Lemma unauthenticated_signs_out_witness :
  let e := mkError "" (Some "common.unauthenticated") None Custom "get" in
  getAuthTokenAsBearer (api_error e (mkSession (User := string) (Some "t") None None None [] "#/overview")) = None.
Proof. intros e. apply (unauthenticated_signs_out e); by left. Defined.

(** ** Random strings *)

Definition in_unit (r : Q) : Prop := (0 <= r < 1)%Q.

Lemma possible_char r :
  in_unit r -> exists c, String.get (Z.to_nat (Qfloor (r * inject_Z (js_length possible)))) possible = Some c /\
    is_alnum c = true.
Proof.
  intros [H0 H1]. set (k := Z.to_nat (Qfloor (r * inject_Z (js_length possible)))).
  assert (Hk : (k < 62)%nat).
  { assert (Hq : (r * inject_Z (js_length possible) < inject_Z 62)%Q).
    { change (js_length possible) with 62%Z. change (inject_Z 62) with 62%Q. lra. }
    pose proof (Qle_lt_trans _ _ _ (Qfloor_le _) Hq) as Hf. rewrite <-Zlt_Qlt in Hf. lia. }
  clearbody k. assert (Hall : forallb (fun k => match String.get k possible with
    | Some c => is_alnum c | None => false end) (seq 0 62) = true) by (by vm_compute).
  assert (Hin : k ∈ seq 0 62) by (apply list_elem_of_In, in_seq; lia).
  pose proof (forallb_elem _ _ k Hall Hin) as Hc. cbv beta in Hc.
  destruct (String.get k possible) as [c|]; [by exists c|done].
Qed.

Lemma newRandomString_snoc l r :
  in_unit r -> exists c, newRandomString (l ++ [r]) = newRandomString l +:+ String c "" /\ is_alnum c = true.
Proof.
  intros Hr. destruct (possible_char r Hr) as (c & Hc & Ha). exists c. split; [|done].
  unfold newRandomString. rewrite foldl_app. cbn [foldl]. by rewrite Hc.
Qed.

Lemma str_forall_snoc p s c : str_forall p s = true -> p c = true -> str_forall p (s +:+ String c "") = true.
Proof.
  intros Hs Hc. induction s as [|a s IH]; [simpl; by rewrite Hc|].
  rewrite str_app_cons. simpl in Hs |- *. apply andb_true_iff in Hs as [Ha Hs]. by rewrite Ha, IH.
Qed.

Lemma newRandomString_length l :
  Forall in_unit l -> js_length (newRandomString l) = Z.of_nat (length l) /\
    str_forall is_alnum (newRandomString l) = true.
Proof.
  induction l as [|r l IH] using rev_ind; [done|]. intros [Hl Hr]%Forall_app.
  inversion_clear Hr as [|? ? Hr' _]. destruct (newRandomString_snoc l r Hr') as (c & -> & Ha).
  destruct (IH Hl) as [Hn Hf]. split; [|by apply str_forall_snoc].
  unfold js_length in *. rewrite str_length_app, length_app. cbn. lia.
Qed.

(** C4: the state and the verifier of a single sign-on are 32 and 128 letters or
    digits; from then on a callback is taken exactly when it carries this state,
    and the login then carries the verifier; after the sign-in no callback with a
    state is taken any more, but one without a state is, as no state is expected. *)
Theorem sso_callback_spec {User} (base : string) (r128 r32 : list Q) (s : Session User) (l : params) :
  length r128 = 128%nat -> length r32 = 32%nat -> Forall in_unit r128 -> Forall in_unit r32 ->
  let '(req, s1) := getAuthURL base r128 r32 s in
  js_length (req_state req) = 32 /\ js_length (req_verifier req) = 128 /\
  str_forall is_alnum (req_state req) = true /\
  (params_get "state" l = Some (req_state req) ->
    handleSSOCallbackInner base (print_query l) s1 =
      inr (mkLogin (params_get "code" l) (Some (req_verifier req)) (base +:+ "?sso_callback=1"))) /\
  (params_get "state" l <> Some (req_state req) ->
    exists m, handleSSOCallbackInner base (print_query l) s1 = inl m) /\
  forall t, let s2 := sso_signed_in t s1 in
    (is_Some (params_get "state" l) -> exists m, handleSSOCallbackInner base (print_query l) s2 = inl m) /\
    (params_get "state" l = None ->
      handleSSOCallbackInner base (print_query l) s2 =
        inr (mkLogin (params_get "code" l) None (base +:+ "?sso_callback=1"))).
Proof.
  intros H128 H32 F128 F32. unfold getAuthURL. cbn [req_state req_verifier].
  destruct (newRandomString_length r128 F128) as [L128 _].
  destruct (newRandomString_length r32 F32) as [L32 A32].
  rewrite L32, L128, H32, H128. split; [done|]. split; [done|]. split; [done|].
  unfold handleSSOCallbackInner. rewrite parse_print. cbn [ssoState set_sso codeVerifier].
  split; [|split].
  - intros Hst. by rewrite decide_True.
  - intros Hst. rewrite decide_False by done. by eexists.
  - intros t.
    assert (Hs2 : forall x, ssoState (sso_signed_in t x : Session User) = None /\
      codeVerifier (sso_signed_in t x) = None).
    { intros x. unfold sso_signed_in, setAuthToken. case_decide; [done|].
      unfold reloadWhoAmI. cbn [getAuthToken token set_token]. by case_match. }
    cbv zeta. rewrite (proj1 (Hs2 _)), (proj2 (Hs2 _)). split.
    + intros [st Hst]. rewrite Hst, decide_False by done. by eexists.
    + intros Hst. by rewrite decide_True.
Qed.

Lemma sso_callback_spec_witness :
  let r n := repeat (1 # 2)%Q n in
  let s := mkSession (User := string) None None None None [] "" in
  handleSSOCallbackInner "https://h/" (print_query [("sso_callback", "1"); ("code", "c")])
    (sso_signed_in "t" (snd (getAuthURL "https://h/" (r 128%nat) (r 32%nat) s))) =
  inr (mkLogin (Some "c") None "https://h/?sso_callback=1").
Proof.
  intros r s.
  assert (Hr : forall n, Forall in_unit (r n)).
  { intros n. apply Forall_forall. intros x Hx. apply list_elem_of_In, repeat_spec in Hx as ->.
    split; by vm_compute. }
  pose proof (sso_callback_spec "https://h/" (r 128%nat) (r 32%nat) s [("sso_callback", "1"); ("code", "c")]
    eq_refl eq_refl (Hr _) (Hr _)) as H.
  destruct H as (_ & _ & _ & _ & _ & H). by apply (proj2 (H "t")).
Defined.

(** ** One application at a time *)

Lemma prefix_comparable p q h :
  String.prefix p h = true -> String.prefix q h = true ->
  String.prefix p q = true \/ String.prefix q p = true.
Proof.
  revert q h. induction p as [|a p IH]; intros q h Hp Hq; [left; apply prefix_nil|].
  destruct q as [|b q]; [right; apply prefix_nil|]. destruct h as [|c h]; [done|].
  rewrite prefix_cons in Hp, Hq. apply andb_true_iff in Hp as [->%bool_decide_eq_true Hp].
  apply andb_true_iff in Hq as [->%bool_decide_eq_true Hq]. rewrite !prefix_cons, bool_decide_true by done.
  by apply (IH q h).
Qed.

Definition apart (p q : string) : bool := negb (String.prefix p q) && negb (String.prefix q p).

Lemma apart_exclusive h p q :
  apart p q = true -> Routing.isLocationMatchPrefix h p = true ->
  Routing.isLocationMatchPrefix h q = true -> False.
Proof.
  unfold apart, Routing.isLocationMatchPrefix, Routing.isLocationMatch, js_startsWith.
  rewrite andb_true_iff, !negb_true_iff. intros [Hpq Hqp]. destruct (_ || _); intros Hp Hq;
    destruct (prefix_comparable _ _ _ Hp Hq) as [H|H]; rewrite !str_app_cons, prefix_cons in H;
    rewrite bool_decide_true in H by done; rewrite !str_app_nil_l in H; cbn [andb] in H; congruence.
Qed.

Fixpoint all_apart (l : list string) : bool :=
  match l with [] => true | p :: l => forallb (apart p) l && all_apart l end.

Lemma one_active (l : list Registry.App) h :
  all_apart (map Registry.routerPrefix l) = true ->
  (length (filter (fun a => Registry.active h a = true) l) <= 1)%nat.
Proof.
  induction l as [|a l IH]; [cbn; lia|]. cbn [map all_apart]. rewrite andb_true_iff. intros [Ha Hl].
  rewrite filter_cons. case_decide as Hac; [|by apply IH].
  rewrite (filter_none _ l); [cbn; lia|]. apply Forall_forall. intros b Hb Hbc.
  apply (apart_exclusive h (Registry.routerPrefix a) (Registry.routerPrefix b)); [|done..].
  apply (forallb_elem _ _ _ Ha), list_elem_of_fmap_2, Hb.
Qed.

(** At every location at most one application of the dashboard is active
    and exactly one of its two layouts, no application is active on the sign-in
    page, every application is active at its own route, and the default route is
    that of the overview. *)
Theorem one_app_active (h : string) :
  (length (filter (fun a => Registry.active h a = true) Registry.op_apps) <= 1)%nat /\
  Registry.layout_active h = negb (Registry.signin_active h) /\
  (Registry.signin_active h = true ->
    filter (fun a => Registry.active h a = true) Registry.op_apps = []) /\
  (forall a rest, a ∈ Registry.op_apps ->
    Registry.active ("#" +:+ Registry.routerPrefix a +:+ rest) a = true) /\
  Registry.getDefaultRouter Registry.op_registry = "/overview".
Proof.
  split_and!; [by apply one_active; vm_compute|done| | |by vm_compute].
  - intros Hs. apply filter_none, Forall_forall. intros a Ha Hac.
    assert (Hap : forallb (apart Routing.signInRoute) (map Registry.routerPrefix Registry.op_apps) = true)
      by (by vm_compute).
    apply (apart_exclusive h Routing.signInRoute (Registry.routerPrefix a)); [|done..].
    apply (forallb_elem _ _ _ Hap), list_elem_of_fmap_2, Ha.
  - intros a rest Ha. unfold Registry.active, Routing.isLocationMatchPrefix, Routing.isLocationMatch.
    assert (Hne : forallb (fun a => truthy (Registry.routerPrefix a)) Registry.op_apps = true) by (by vm_compute).
    apply (forallb_elem _ _ _ Hne) in Ha.
    destruct (Registry.routerPrefix a) as [|c p]; [done|]. cbn [orb negb truthy truthy_string].
    unfold js_startsWith. replace (_ || _) with false by done.
    apply (prefix_app ("#" +:+ String c p) rest).
Qed.

Lemma one_app_active_witness :
  Registry.signin_active "#/signin" = true /\
  filter (fun a => Registry.active "#/signin" a = true) Registry.op_apps = [].
Proof. split; [by vm_compute|]. apply (one_app_active "#/signin"). by vm_compute. Defined.
