(* ===== verification/SignIn.v ===== *)
(** * The sign-in page (tidb-dashboard-for-op: dashboardApp/layout/signin/index.tsx)

    The page asks how one can sign in, shows one of three forms (a user of the database, a
    sharing code, single sign-on) and lets the user switch between them.  A form that is
    submitted waits for its answer, which arrives after any number of other events: also
    after the form has been left.  What an answer does to the token and the location is
    done by the operations of [Session]. *)

From Stdlib Require Import QArith.
From S2P Require Import Prelude JsString JsNumber Uri Session.
Local Open Scope Z_scope.

Module SignIn.

(** ** Forms and requests *)

Inductive DisplayFormType := uninitialized | tidbCredential | shareCode | sso.

#[export] Instance DisplayFormType_eq_dec : EqDecision DisplayFormType.
Proof. solve_decision. Defined.

(** AuthTypes (utils/auth.ts). *)
Definition SQLUser : Z := 0.
Definition SharingCode : Z := 1.
Definition SSO : Z := 2.

(** The password of a request: the value of a field, or what the encryption returns, which
    is [false] when it fails. *)
Inductive Password := Undefined | Text (s : string) | NotEncrypted.

Record UserAuthenticateForm := mkAuth { auth_username : option string; auth_password : Password; auth_type : Z }.

(** The error below the password, with or without the link to the documentation. *)
Record ErrorMsg := mkErrorMsg { errMsg : string; help_link : bool }.

(** The form on the page.  Every form that is mounted has a number of its own. *)
Record SignInForm := mkForm {
  number : nat;
  username : option string;
  secret : option string;      (* the field password, or code *)
  loading : bool;
  errorMsg : option ErrorMsg
}.

Definition new_form (n : nat) (u : option string) : SignInForm := mkForm n u None false None.
Definition set_username (u : option string) (f : SignInForm) : SignInForm :=
  mkForm (number f) u (secret f) (loading f) (errorMsg f).
Definition set_secret (v : option string) (f : SignInForm) : SignInForm :=
  mkForm (number f) (username f) v (loading f) (errorMsg f).
Definition set_loading (b : bool) (f : SignInForm) : SignInForm :=
  mkForm (number f) (username f) (secret f) b (errorMsg f).
Definition set_error (e : option ErrorMsg) (f : SignInForm) : SignInForm :=
  mkForm (number f) (username f) (secret f) (loading f) e.

(** A login in flight: the form that sent it, the name typed there, the message. *)
Record Login := mkLogin { of_form : nat; of_type : DisplayFormType; of_user : option string; sent : UserAuthenticateForm }.

Record LoginInfo := mkLoginInfo { supported_auth_types : option (list Z); sql_auth_public_key : option string }.

Section Page.
Context {User : Type}.

(** [encrypt key text] is the encryption of JSEncrypt, [None] when it returns [false]. *)
Context (encrypt : string -> string -> option string).

(** Of the translations: what i18next has for an error, and the text of the message. *)
Context (translation : string -> option string) (signin_error : string -> string).

(** The build, the features of the server (known before the page starts) and the apps. *)
Context (isDistro supportNonRootLogin : bool) (registry : Registry.AppRegistry).

Record Page := mkPage {
  formType : DisplayFormType;
  alternativeVisible : bool;
  supportedAuthTypes : list Z;
  publicKey : string;
  info_pending : bool;            (* userGetLoginInfo in flight *)
  init_failed : bool;             (* the dialog that only offers to reload *)
  form : SignInForm;
  logins : list Login;
  sso_pending : list nat;         (* userSSOGetAuthURL in flight, by form *)
  last_username : option string;  (* local storage *)
  left_for : option string;       (* the address of the provider the browser went to *)
  session : Session User
}.
Implicit Types p : Page.

Definition set_form (f : SignInForm) p : Page :=
  mkPage (formType p) (alternativeVisible p) (supportedAuthTypes p) (publicKey p) (info_pending p) (init_failed p)
    f (logins p) (sso_pending p) (last_username p) (left_for p) (session p).
Definition set_requests (l : list Login) (q : list nat) p : Page :=
  mkPage (formType p) (alternativeVisible p) (supportedAuthTypes p) (publicKey p) (info_pending p) (init_failed p)
    (form p) l q (last_username p) (left_for p) (session p).
Definition set_session (s : Session User) p : Page :=
  mkPage (formType p) (alternativeVisible p) (supportedAuthTypes p) (publicKey p) (info_pending p) (init_failed p)
    (form p) (logins p) (sso_pending p) (last_username p) (left_for p) s.
Definition set_last_username (u : option string) p : Page :=
  mkPage (formType p) (alternativeVisible p) (supportedAuthTypes p) (publicKey p) (info_pending p) (init_failed p)
    (form p) (logins p) (sso_pending p) u (left_for p) (session p).
Definition set_left (url : string) p : Page :=
  mkPage (formType p) (alternativeVisible p) (supportedAuthTypes p) (publicKey p) (info_pending p) (init_failed p)
    (form p) (logins p) (sso_pending p) (last_username p) (Some url) (session p).
Definition set_alternative (b : bool) p : Page :=
  mkPage (formType p) b (supportedAuthTypes p) (publicKey p) (info_pending p) (init_failed p)
    (form p) (logins p) (sso_pending p) (last_username p) (left_for p) (session p).

(** A state change of a form does nothing once the form is no longer mounted. *)
Definition on_form (n : nat) (g : SignInForm -> SignInForm) p : Page :=
  if decide (number (form p) = n) then set_form (g (form p)) p else p.

(** ** The state of the page *)

Definition initial (last : option string) (s : Session User) : Page :=
  mkPage uninitialized false [SQLUser] "" true false (new_form 0 None) [] [] last None s.

Definition lastLoginUsername p : string := js_or (last_username p) "".

(** [setFormType]: the form of another type is mounted anew. *)
Definition setFormType (k : DisplayFormType) p : Page :=
  if decide (formType p = k) then p
  else
    mkPage k (alternativeVisible p) (supportedAuthTypes p) (publicKey p) (info_pending p) (init_failed p)
      (new_form (S (number (form p))) (if decide (k = tidbCredential) then Some (lastLoginUsername p) else None))
      (logins p) (sso_pending p) (last_username p) (left_for p) (session p).

Definition handleClickAlternative p : Page := set_alternative true p.
Definition handleAlternativeClose p : Page := set_alternative false p.
Definition handleSwitchForm (k : DisplayFormType) p : Page := set_alternative false (setFormType k p).

(** The forms the dialog of alternatives offers. *)
Definition alternatives p : list DisplayFormType :=
  [tidbCredential; shareCode] ++ (if bool_decide (SSO ∈ supportedAuthTypes p) then [sso] else []).

(** The effect of the page, from the answer to [userGetLoginInfo] on. *)
Definition info_answered p : Page :=
  mkPage (formType p) (alternativeVisible p) (supportedAuthTypes p) (publicKey p) false (init_failed p)
    (form p) (logins p) (sso_pending p) (last_username p) (left_for p) (session p).
Definition show_dialog p : Page :=
  mkPage (formType p) (alternativeVisible p) (supportedAuthTypes p) (publicKey p) (info_pending p) true
    (form p) (logins p) (sso_pending p) (last_username p) (left_for p) (session p).
Definition set_supported (l : list Z) (key : option string) p : Page :=
  mkPage (formType p) (alternativeVisible p) l (js_or key (publicKey p)) (info_pending p) (init_failed p)
    (form p) (logins p) (sso_pending p) (last_username p) (left_for p) (session p).

Definition info_response (r : AxiosError * option Z + LoginInfo) p : Page :=
  let p := info_answered p in
  match r with
  | inr info =>
      let types := default [] (supported_auth_types info) in
      set_supported types (sql_auth_public_key info)
        (setFormType (if bool_decide (SSO ∈ types) then sso else tidbCredential) p)
  | inl (e, status) =>
      let p := set_session (api_error e (session p)) p in
      if bool_decide (status = Some 404) then setFormType tidbCredential p else show_dialog p
  end.

(** ** Submitting a form *)

Definition pem (key : string) : string :=
  if js_startsWith key "-----BEGIN PUBLIC KEY-----" then key
  else ("-----BEGIN PUBLIC KEY-----" +:+ key) +:+ "-----END PUBLIC KEY-----".

Definition sealed (key text : string) : Password :=
  match encrypt (pem key) text with Some c => Text c | None => NotEncrypted end.

(** The message of the form for a user of the database, and that for a sharing code. *)
Definition tidbLoginForm (key : string) (f : SignInForm) : UserAuthenticateForm :=
  let password := default "" (secret f) in
  mkAuth (username f) (if truthy key then sealed key password else Text password) SQLUser.

Definition codeLoginForm (f : SignInForm) : UserAuthenticateForm :=
  mkAuth None (match secret f with Some c => Text c | None => Undefined end) SharingCode.

(** [handleSubmit] up to its request. *)
Definition handleSubmit (fnLoginForm : SignInForm -> UserAuthenticateForm) p : Page :=
  let f := set_loading true (set_error None (form p)) in
  set_requests (logins p ++ [mkLogin (number f) (formType p) (username f) (fnLoginForm f)]) (sso_pending p) (set_form f p).

(** The form calls it when its rules are met: a user name is required. *)
Definition onFinish p : Page :=
  match formType p with
  | tidbCredential => if truthy (username (form p)) then handleSubmit (tidbLoginForm (publicKey p)) p else p
  | shareCode => handleSubmit codeLoginForm p
  | _ => p
  end.

Definition successRoute : string := "#" +:+ Registry.getDefaultRouter registry.

(** [onSuccess] of the two forms. *)
Definition onSuccess (l : Login) p : Page :=
  match of_type l with
  | tidbCredential => set_last_username (Some (default "undefined" (of_user l))) p
  | _ => p
  end.

(** What is shown for an error nothing else has shown, and [onFailure] of both forms. *)
Definition error_shown (e : AxiosError) : ErrorMsg :=
  mkErrorMsg (signin_error (content translation e))
    (bool_decide (errCode e = Some "api.user.signin.insufficient_priv") && negb isDistro).

Definition failed (e : AxiosError) (f : SignInForm) : SignInForm := set_secret (Some "") (set_error (Some (error_shown e)) f).

(** The rest of [handleSubmit], for the login at place [i]: the outcome, then [finally]. *)
Definition login_outcome (l : Login) (r : AxiosError + string) p : Page :=
  match r with
  | inr t => onSuccess l (set_session (navigateToUrl successRoute (setAuthToken t (session p))) p)
  | inl e =>
      let '(s, _, handled) := intercept e (session p) in
      let p := set_session s p in
      if handled then p else on_form (of_form l) (failed e) p
  end.

Definition login_response (i : nat) (r : AxiosError + string) p : Page :=
  match logins p !! i with
  | None => p
  | Some l =>
      let p := set_requests (delete i (logins p)) (sso_pending p) p in
      on_form (of_form l) (set_loading false) (login_outcome l r p)
  end.

(** ** Single sign-on *)

Definition handleSignIn (base : string) (r128 r32 : list Q) p : Page :=
  let p := set_form (set_loading true (form p)) p in
  set_requests (logins p) (sso_pending p ++ [number (form p)]) (set_session (snd (getAuthURL base r128 r32 (session p))) p).

Definition url_response (i : nat) (r : AxiosError + string) p : Page :=
  match sso_pending p !! i with
  | None => p
  | Some n =>
      let p := set_requests (logins p) (delete i (sso_pending p)) p in
      match r with
      | inr url => set_left url p
      | inl e => on_form n (set_loading false) (set_session (api_error e (session p)) p)
      end
  end.

(** ** Typing.  It takes the error away. *)

Definition type_username (u : string) p : Page := set_form (set_error None (set_username (Some u) (form p))) p.
Definition type_secret (v : string) p : Page := set_form (set_error None (set_secret (Some v) (form p))) p.

(** ** Runs

    A button that loads and an input that is disabled cannot be used; what is not mounted
    cannot be used either.  The session also changes by itself (requests for the user). *)

Inductive step : Page -> Page -> Prop :=
| s_info p r : info_pending p = true -> step p (info_response r p)
| s_username p u : formType p = tidbCredential -> supportNonRootLogin = true -> step p (type_username u p)
| s_secret p v : formType p = tidbCredential \/ formType p = shareCode -> loading (form p) = false -> step p (type_secret v p)
| s_submit p : loading (form p) = false -> step p (onFinish p)
| s_login p i r : step p (login_response i r p)
| s_sso p base a b : formType p = sso -> loading (form p) = false -> step p (handleSignIn base a b p)
| s_url p i r : step p (url_response i r p)
| s_alternative p : formType p <> uninitialized -> step p (handleClickAlternative p)
| s_close p : step p (handleAlternativeClose p)
| s_switch p k : alternativeVisible p = true -> k ∈ alternatives p -> step p (handleSwitchForm k p)
| s_session p s : step p (set_session s p).

(** The browser is still on the page. *)
Definition stays (p p' : Page) : Prop := left_for p = None /\ step p p'.
End Page.
Arguments Page : clear implicits.
End SignIn.

(** ** Requests in flight, by the number of their form *)

Section Requests.
Implicit Types (n m : nat) (b : bool) (l : list nat).

(** [n] is the number of the form on the page, [b] whether it loads. *)
Definition reqs_ok n b l : Prop := NoDup l /\ Forall (fun m => (m <= n)%nat) l /\ (b = true <-> n ∈ l).

Lemma reqs_perm n b l l' : l ≡ₚ l' -> reqs_ok n b l -> reqs_ok n b l'.
Proof. intros Hl (H1 & H2 & H3). unfold reqs_ok. by rewrite <- Hl. Qed.

Lemma reqs_mount n b l : reqs_ok n b l -> reqs_ok (S n) false l.
Proof.
  intros (H1 & H2 & _). split_and!; [done|eapply Forall_impl; [exact H2|cbn; lia]|].
  split; [done|]. intros Hn. rewrite Forall_forall in H2. specialize (H2 _ Hn). lia.
Qed.

Lemma reqs_send n l : reqs_ok n false l -> reqs_ok n true (n :: l).
Proof.
  intros (H1 & H2 & H3). split_and!; [constructor; [|done]|constructor; [lia|done]|split; [by left|done]].
  intros Hn. by apply H3 in Hn.
Qed.

Lemma reqs_answer n b m l : reqs_ok n b (m :: l) -> reqs_ok n (if decide (n = m) then false else b) l.
Proof.
  intros (H1 & H2 & H3). apply NoDup_cons in H1 as [Hm H1]. apply Forall_cons in H2 as [_ H2].
  split_and!; [done|done|]. case_decide as Hd; [subst; by split|]. rewrite H3, elem_of_cons. naive_solver.
Qed.
End Requests.

Section Facts.
Context {User : Type} (encrypt : string -> string -> option string).
Context (translation : string -> option string) (signin_error : string -> string).
Context (isDistro supportNonRootLogin : bool) (registry : Registry.AppRegistry).
Implicit Types p : SignIn.Page User.
Import SignIn.

#[local] Abbreviation step := (step encrypt translation signin_error isDistro supportNonRootLogin registry).
#[local] Abbreviation stays := (stays encrypt translation signin_error isDistro supportNonRootLogin registry).
#[local] Abbreviation login_outcome := (login_outcome translation signin_error isDistro registry).
#[local] Abbreviation login_response := (login_response translation signin_error isDistro registry).

Definition pending p : list nat := map of_form (logins p) ++ sso_pending p.

Definition requests_ok p : Prop := left_for p = None -> reqs_ok (number (form p)) (loading (form p)) (pending p).

(** Nothing can be sent before the page knows how one can sign in. *)
Definition start_ok p : Prop :=
  (formType p = uninitialized <-> info_pending p = true \/ init_failed p = true) /\
  (formType p = uninitialized -> alternativeVisible p = false /\ logins p = [] /\ sso_pending p = []) /\
  (info_pending p = true -> init_failed p = false).

(** What the form shows. *)
Definition error_ok (f : SignInForm) : Prop := errorMsg f <> None -> loading f = false /\ secret f = Some "".

Definition shown_ok p : Prop :=
  error_ok (form p) /\ (formType p = sso -> SSO ∈ supportedAuthTypes p /\ errorMsg (form p) = None).

(** What was sent: a user name, and the password encrypted when the server has a key. *)
Definition message_ok (key : string) (l : Login) : Prop :=
  of_type l = tidbCredential ->
  truthy (auth_username (sent l)) = true /\
  (truthy key = true -> exists t, auth_password (sent l) = sealed encrypt key t).

(** It came from a form of the page with fields. *)
Definition sender_ok (n : nat) (k : DisplayFormType) (l : Login) : Prop :=
  (of_form l <= n)%nat /\ (of_form l = n -> of_type l = k /\ k <> sso).

Definition sent_ok p (l : Login) : Prop := message_ok (publicKey p) l /\ sender_ok (number (form p)) (formType p) l.

Definition page_ok p : Prop := requests_ok p /\ start_ok p /\ shown_ok p /\ Forall (sent_ok p) (logins p).

Lemma initial_ok last (s : Session User) : page_ok (initial last s).
Proof.
  split_and!; [|split; cbn; [tauto|done]|split; cbn; [done|done]|constructor].
  intros _. split_and!; [constructor|constructor|]. cbn. set_solver.
Qed.
Lemma setFormType_cases k p :
  setFormType k p = p /\ formType p = k \/
  formType (setFormType k p) = k /\ number (form (setFormType k p)) = S (number (form p)) /\
  loading (form (setFormType k p)) = false /\ errorMsg (form (setFormType k p)) = None.
Proof. unfold setFormType. case_decide; [by left|by right]. Qed.

Lemma setFormType_rest k p :
  let p' := setFormType k p in
  logins p' = logins p /\ sso_pending p' = sso_pending p /\ left_for p' = left_for p /\ publicKey p' = publicKey p /\
  supportedAuthTypes p' = supportedAuthTypes p /\ info_pending p' = info_pending p /\ init_failed p' = init_failed p.
Proof. unfold setFormType. by case_decide. Qed.

Lemma mount_requests k p : requests_ok p -> requests_ok (setFormType k p).
Proof.
  intros Hp. unfold requests_ok, pending. destruct (setFormType_rest k p) as (-> & -> & -> & _).
  intros Hl. specialize (Hp Hl). destruct (setFormType_cases k p) as [[-> _]|(_ & -> & -> & _)]; [done|].
  by eapply reqs_mount.
Qed.

Lemma mount_shown k p : (k = sso -> SSO ∈ supportedAuthTypes p) -> shown_ok p -> shown_ok (setFormType k p).
Proof.
  intros Hk Hp. destruct (setFormType_cases k p) as [[-> _]|(Hf & _ & _ & He)]; [done|].
  destruct (setFormType_rest k p) as (_ & _ & _ & _ & Hs & _). unfold shown_ok, error_ok. rewrite Hf, He, Hs. by split; [|auto].
Qed.

Lemma mount_sent k p : Forall (sent_ok p) (logins p) -> Forall (sent_ok (setFormType k p)) (logins (setFormType k p)).
Proof.
  destruct (setFormType_rest k p) as (-> & _ & _ & Hk & _). intros Hp.
  destruct (setFormType_cases k p) as [[-> _]|(Hf & Hn & _)]; [done|].
  eapply Forall_impl; [exact Hp|]. intros l [Hm [Hl _]]. unfold sent_ok. rewrite Hk, Hn. split; [done|].
  split; [lia|]. intros He. lia.
Qed.

Lemma switch_ok k p : alternativeVisible p = true -> k ∈ alternatives p -> page_ok p -> page_ok (handleSwitchForm k p).
Proof.
  intros Hv Hk (Hr & (Hs & Hu & Hi0) & Hsh & Hse).
  assert (Hn : formType p <> uninitialized) by (intros H; destruct (Hu H); congruence).
  assert (Hk' : k <> uninitialized /\ (k = sso -> SSO ∈ supportedAuthTypes p)).
  { unfold alternatives in Hk. case_bool_decide; set_solver. }
  split_and!; [exact (mount_requests k p Hr)| |exact (mount_shown k p (proj2 Hk') Hsh)|exact (mount_sent k p Hse)].
  destruct (setFormType_rest k p) as (_ & _ & _ & _ & _ & Hi & Hf). unfold handleSwitchForm, start_ok. cbn. rewrite Hi, Hf.
  assert (Ht : formType (setFormType k p) <> uninitialized).
  { destruct (setFormType_cases k p) as [[-> _]|[-> _]]; [done|naive_solver]. }
  split_and!; [|naive_solver|done]. split; [naive_solver|]. intros H. by apply Hs in H.
Qed.

Lemma mount_start k p : k <> uninitialized -> info_pending p = false -> init_failed p = false -> start_ok (setFormType k p).
Proof.
  intros Hk Hi Hf. destruct (setFormType_rest k p) as (_ & _ & _ & _ & _ & Hi' & Hf').
  assert (formType (setFormType k p) = k) as H by (by destruct (setFormType_cases k p) as [[-> <-]|[-> _]]).
  unfold start_ok. rewrite Hi', Hf', Hi, Hf, H. naive_solver.
Qed.

Lemma info_ok r p : info_pending p = true -> page_ok p -> page_ok (info_response r p).
Proof.
  intros Hi (Hr & (Hs & Hu & Hi0) & Hsh & Hse). assert (Ht : formType p = uninitialized) by (apply Hs; by left).
  destruct (Hu Ht) as (Ha & Hl & Hq). specialize (Hi0 Hi). unfold info_response.
  destruct r as [[e status]|info].
  - set (q := set_session _ _). case_bool_decide.
    + split_and!; [exact (mount_requests _ q Hr)|by apply mount_start|by apply mount_shown|].
      apply mount_sent. by subst q; cbn; rewrite Hl.
    + split_and!; [exact Hr| |done|by subst q; cbn; rewrite Hl]. unfold start_ok. cbn. naive_solver.
  - set (q := info_answered p). set (k := if bool_decide (SSO ∈ _) then sso else tidbCredential).
    assert (Hk : k <> uninitialized) by (subst k; by case_bool_decide).
    assert (Hkq : k <> formType q) by (by subst q; cbn; rewrite Ht).
    destruct (setFormType_rest k q) as (Hlq & _). destruct (setFormType_cases k q) as [[_ E]|(E & _ & _ & He)]; [by rewrite E in Hkq|].
    split_and!; [exact (mount_requests k q Hr)|exact (mount_start k q Hk eq_refl Hi0)| |cbn; by rewrite Hlq; subst q; cbn; rewrite Hl].
    unfold shown_ok, error_ok. cbn. rewrite E, He. split; [done|]. intros Hsso. split; [|done].
    subst k. by case_bool_decide.
Qed.

(** The other steps leave the type of the form alone. *)
Lemma start_same p p' : formType p' = formType p -> info_pending p' = info_pending p -> init_failed p' = init_failed p ->
  (formType p = uninitialized -> alternativeVisible p' = false /\ logins p' = [] /\ sso_pending p' = []) ->
  start_ok p -> start_ok p'.
Proof. unfold start_ok. intros -> -> -> H (H1 & H2 & H3). split_and!; auto. Qed.

Lemma typed_ok f p : formType p <> sso -> number f = number (form p) -> loading f = loading (form p) -> errorMsg f = None ->
  page_ok p -> page_ok (set_form f p).
Proof.
  intros Hk Hn Hl He (Hr & Hst & Hsh & Hse). split_and!.
  - unfold requests_ok. cbn. rewrite Hn, Hl. exact Hr.
  - exact Hst.
  - unfold shown_ok, error_ok. cbn. rewrite He. by split.
  - cbn. eapply Forall_impl; [exact Hse|]. intros l. unfold sent_ok. cbn. by rewrite Hn.
Qed.

Lemma submit_ok (fn : SignInForm -> UserAuthenticateForm) p :
  (formType p = tidbCredential \/ formType p = shareCode) -> loading (form p) = false ->
  (forall f, f = set_loading true (set_error None (form p)) ->
     message_ok (publicKey p) (mkLogin (number f) (formType p) (username f) (fn f))) ->
  page_ok p -> page_ok (handleSubmit fn p).
Proof.
  intros Hk Hl Hfn (Hr & Hst & Hsh & Hse). split_and!.
  - intros Hle. specialize (Hr Hle). rewrite Hl in Hr. apply reqs_send in Hr. cbn.
    eapply reqs_perm; [|exact Hr]. unfold pending. cbn. rewrite map_app. cbn. by rewrite <- Permutation_cons_append.
  - eapply start_same; [..|exact Hst]; try done. intros H. rewrite H in Hk. naive_solver.
  - split; [done|]. cbn. intros H. rewrite H in Hk. naive_solver.
  - apply Forall_app. split; [exact Hse|]. apply Forall_singleton. split; [by apply Hfn|]. split; cbn; [lia|].
    intros _. split; [done|]. by destruct Hk as [-> | ->].
Qed.

Lemma onFinish_ok p : loading (form p) = false -> page_ok p -> page_ok (onFinish encrypt p).
Proof.
  intros Hl Hp. unfold onFinish. destruct (formType p) eqn:Hk; [done| | |done].
  - destruct (truthy (username (form p))) eqn:Hu; [|done]. apply submit_ok; auto.
    intros f -> _. cbn. split; [done|]. intros ->. eauto.
  - apply submit_ok; auto. intros f -> H. cbn in H. congruence.
Qed.

Lemma signin_ok base a b p : formType p = sso -> loading (form p) = false -> page_ok p -> page_ok (handleSignIn base a b p).
Proof.
  intros Hk Hl (Hr & Hst & Hsh & Hse). split_and!.
  - intros Hle. specialize (Hr Hle). rewrite Hl in Hr. apply reqs_send in Hr. cbn.
    eapply reqs_perm; [|exact Hr]. unfold pending. cbn. rewrite app_assoc. by rewrite <- Permutation_cons_append.
  - eapply start_same; [..|exact Hst]; try done. cbn. congruence.
  - destruct Hsh as [_ Hsh]. split; [|exact Hsh]. intros He. cbn in He. by destruct (Hsh Hk).
  - exact Hse.
Qed.

(** The answer to the request at place [i] of either list; [g] is what it does to a form. *)
Lemma on_form_cases n (g : SignInForm -> SignInForm) p :
  on_form n g p = (if decide (number (form p) = n) then set_form (g (form p)) p else p).
Proof. done. Qed.

Lemma answered_requests n (l : list Login) (q : list nat) p p' :
  pending p ≡ₚ n :: map of_form l ++ q -> requests_ok p ->
  logins p' = l -> sso_pending p' = q -> left_for p' = left_for p -> number (form p') = number (form p) ->
  loading (form p') = (if decide (number (form p) = n) then false else loading (form p)) -> requests_ok p'.
Proof.
  intros Hp Hr Hl Hq Hle Hn Hlo. unfold requests_ok, pending. rewrite Hl, Hq, Hle, Hn, Hlo. intros H. apply reqs_answer.
  by eapply reqs_perm; [|apply Hr].
Qed.

Lemma login_pending i (l : Login) p : logins p !! i = Some l ->
  pending p ≡ₚ of_form l :: map of_form (delete i (logins p)) ++ sso_pending p.
Proof.
  intros Hi. unfold pending. rewrite app_comm_cons. f_equiv. change (of_form l :: ?r) with (map of_form (l :: delete i (logins p))).
  by apply Permutation_map, delete_Permutation.
Qed.

Lemma url_pending i n p : sso_pending p !! i = Some n ->
  pending p ≡ₚ n :: map of_form (logins p) ++ delete i (sso_pending p).
Proof. intros Hi. unfold pending. rewrite Permutation_middle. f_equiv. by apply delete_Permutation. Qed.

Lemma url_ok i r p : left_for p = None -> page_ok p -> page_ok (url_response i r p).
Proof.
  intros Hle Hp. unfold url_response. destruct (sso_pending p !! i) as [n|] eqn:Hi; [|done].
  destruct Hp as (Hr & Hst & Hsh & Hse). destruct r as [e|url].
  - rewrite on_form_cases. cbn. split_and!.
    + eapply (answered_requests n); [by apply url_pending|done|by case_decide..].
    + eapply start_same; [..|exact Hst]; try by case_decide. intros H. destruct Hst as (_ & Hu & _).
      destruct (Hu H) as (_ & _ & Hq). by rewrite Hq in Hi.
    + case_decide; [|done]. unfold shown_ok, error_ok in *. cbn. naive_solver.
    + by case_decide.
  - split_and!; [done| |done|done]. eapply start_same; [..|exact Hst]; try done.
    intros H. destruct Hst as (_ & Hu & _). destruct (Hu H) as (_ & _ & Hq). by rewrite Hq in Hi.
Qed.

(** All an outcome changes of the page: the session, the name kept, and the form that failed. *)
Definition same_page p p' : Prop :=
  formType p' = formType p /\ alternativeVisible p' = alternativeVisible p /\
  supportedAuthTypes p' = supportedAuthTypes p /\ publicKey p' = publicKey p /\ info_pending p' = info_pending p /\
  init_failed p' = init_failed p /\ logins p' = logins p /\ sso_pending p' = sso_pending p /\ left_for p' = left_for p.

Lemma outcome_cases l r p :
  same_page p (login_outcome l r p) /\
  (form (login_outcome l r p) = form p \/
   exists e, number (form p) = of_form l /\ form (login_outcome l r p) = failed translation signin_error isDistro e (form p)).
Proof.
  unfold login_outcome. destruct r as [e|t].
  - destruct (intercept e (session p)) as [[s' act] [|]]; [by split; [|left]|].
    rewrite on_form_cases. cbn. case_decide; split; eauto; done.
  - unfold onSuccess. destruct (of_type l); by split; [|left].
Qed.

Lemma login_ok i r p : page_ok p -> page_ok (login_response i r p).
Proof.
  intros Hp. unfold login_response. destruct (logins p !! i) as [l|] eqn:Hi; [|done].
  destruct Hp as (Hr & Hst & Hsh & Hse). pose proof (proj1 (Forall_lookup _ _) Hse i l Hi) as [_ [_ Hown]].
  set (p0 := set_requests _ _ p). destruct (outcome_cases l r p0) as [(E1 & E2 & E3 & E4 & E5 & E6 & E7 & E8 & E9) Hf].
  set (p1 := login_outcome l r p0) in *. clearbody p1. subst p0. cbn in *. rewrite on_form_cases.
  assert (Hn : number (form p1) = number (form p)) by (by destruct Hf as [->|(e & _ & ->)]).
  assert (Hlo : loading (form p1) = loading (form p)) by (by destruct Hf as [->|(e & _ & ->)]).
  split_and!.
  - eapply (answered_requests (of_form l)); [by apply login_pending|exact Hr|..].
    all: rewrite <- ?Hn; case_decide; done || cbn; done || congruence.
  - destruct Hst as (Hs & Hu & H0). eapply (start_same p); [case_decide; cbn; congruence..| |by split_and!].
    intros H. destruct (Hu H) as (_ & H' & _). by rewrite H' in Hi.
  - destruct Hsh as [He Hs]. case_decide as Hd.
    + specialize (Hown (eq_sym (eq_trans (eq_sym Hn) Hd))) as [_ Hk]. split; cbn; [|rewrite E1; congruence].
      intros H. split; [done|]. destruct Hf as [Hf|(e & _ & Hf)]; rewrite Hf in *; [by apply He|done].
    + assert (form p1 = form p) as Hf' by (destruct Hf as [|(e & Hm & _)]; [done|by rewrite <- Hn in Hm]).
      unfold shown_ok. by rewrite Hf', E1, E3.
  - assert (Forall (sent_ok p1) (logins p1)) as H1.
    { rewrite E7. apply Forall_delete. eapply Forall_impl; [exact Hse|]. intros l'. unfold sent_ok. by rewrite E4, E1, Hn. }
    by case_decide.
Qed.

Lemma step_ok p p' : stays p p' -> page_ok p -> page_ok p'.
Proof.
  intros [Hle Hstep] Hp. destruct Hstep.
  - by apply info_ok.
  - apply typed_ok; try done. by rewrite H.
  - apply typed_ok; try done. intros E. rewrite E in H. by destruct H.
  - by apply onFinish_ok.
  - by apply login_ok.
  - by apply signin_ok.
  - by apply url_ok.
  - destruct Hp as (Hr & Hst & Hsh & Hse). split_and!; [done| |done|done]. by eapply start_same; [..|exact Hst].
  - destruct Hp as (Hr & Hst & Hsh & Hse). split_and!; [done| |done|done]. eapply start_same; [..|exact Hst]; try done.
    intros E. destruct Hst as (_ & Hu & _). by destruct (Hu E) as (_ & ? & ?).
  - by apply switch_ok.
  - exact Hp.
Qed.

Lemma reachable_ok last s p : rtc stays (initial last s) p -> page_ok p.
Proof.
  intros H. assert (Hi : page_ok (initial last s)) by apply initial_ok.
  induction H as [|p q r Hs _ IH]; [done|]. apply IH. by eapply step_ok.
Qed.

(** A server without the feature and a browser that kept no name: the field of the name is
    empty and cannot be changed. *)
Definition locked p : Prop :=
  truthy (last_username p) = false /\ Forall (fun l => of_type l <> tidbCredential) (logins p) /\
  (formType p = tidbCredential -> truthy (username (form p)) = false).

Lemma locked_same p p' : last_username p' = last_username p -> logins p' = logins p -> formType p' = formType p ->
  username (form p') = username (form p) -> locked p -> locked p'.
Proof. unfold locked. by intros -> -> -> ->. Qed.

Lemma mount_locked k p : locked p -> locked (setFormType k p).
Proof.
  intros (H1 & H2 & H3). unfold setFormType. case_decide as Hd; [done|]. split_and!; [done|done|]. cbn. intros ->. cbn.
  unfold lastLoginUsername, js_or. destruct (last_username p) as [u|]; [|done]. cbn in H1. by rewrite H1, H1 || rewrite H1.
Qed.
Lemma step_locked p p' : supportNonRootLogin = false -> step p p' -> locked p -> locked p'.
Proof.
  intros Hf Hstep Hp. destruct Hstep.
  - unfold info_response. destruct r as [[e status]|info].
    + case_bool_decide; [apply mount_locked|]; by apply (locked_same p).
    + eapply locked_same; [done..|]. apply mount_locked. by apply (locked_same p).
  - congruence.
  - by apply (locked_same p).
  - unfold onFinish. pose proof Hp as (H1 & H2 & H3). destruct (formType p) eqn:Hk; try exact Hp.
    + by rewrite H3.
    + split_and!; [done| |by cbn; rewrite Hk]. cbn. apply Forall_app. split; [done|]. apply Forall_singleton. cbn. congruence.
  - unfold login_response. destruct (logins p !! i) as [l|] eqn:Hi; [|done].
    destruct Hp as (H1 & H2 & H3). pose proof (proj1 (Forall_lookup _ _) H2 i l Hi) as Hl. cbn in Hl.
    set (p0 := set_requests _ _ p). assert (Hp0 : locked p0) by (split_and!; [done|by apply Forall_delete|done]).
    assert (locked (login_outcome l r p0)) as Hq.
    { destruct (outcome_cases l r p0) as [(E1 & _ & _ & _ & _ & _ & E7 & _) Hfm]. apply (locked_same p0); try done.
      - unfold login_outcome. destruct r as [e|t].
        + destruct (intercept e (session p0)) as [[s' act] [|]]; [done|]. rewrite on_form_cases. by case_decide.
        + unfold onSuccess. by destruct (of_type l).
      - by destruct Hfm as [->|(e & _ & ->)]. }
    rewrite on_form_cases. case_decide; [|done]. by eapply locked_same; [..|exact Hq].
  - by apply (locked_same p).
  - unfold url_response. destruct (sso_pending p !! i) as [n|]; [|done]. destruct r as [e|url].
    + rewrite on_form_cases. case_decide; by apply (locked_same p).
    + by apply (locked_same p).
  - by apply (locked_same p).
  - by apply (locked_same p).
  - eapply locked_same; [done..|]. by apply mount_locked.
  - by apply (locked_same p).
Qed.

(** The disabled field is to hold the only name such a server accepts, but without a name of an
    earlier sign-in it holds the empty one, which the form refuses: nobody can sign in with a user
    of the database. *)
Lemma username_locked last s p : supportNonRootLogin = false -> js_or last "" = "" -> rtc stays (initial last s) p ->
  Forall (fun l => of_type l <> tidbCredential) (logins p).
Proof.
  intros Hf Hlast H. assert (Hi : locked (initial last s)).
  { split_and!; [|constructor|done]. cbn. destruct last as [u|]; [|done]. by destruct u. }
  assert (locked p) as (_ & ? & _); [|done]. induction H as [|p q r [_ Hs] _ IH]; [done|]. apply IH. by eapply step_locked.
Qed.
End Facts.

(** ** Properties *)

Section Properties.
Context {User : Type} (encrypt : string -> string -> option string).
Context (translation : string -> option string) (signin_error : string -> string).
Context (isDistro supportNonRootLogin : bool).
Implicit Types (p : SignIn.Page User) (registry : Registry.AppRegistry).
Import SignIn.

(** C18: whatever happens on the sign-in page, and in whatever order answers arrive, until the
    browser leaves it for a provider of single sign-on: each form has at most one request in
    flight, and the form on the page shows that it is loading exactly while its own is; before
    the page knows how one can sign in, nothing is sent; an error is shown only by a form that
    is at rest and whose password is empty; single sign-on is shown only if the server supports
    it; a login of a user of the database names the user and, when the server has a public key,
    carries no other password than one encrypted with that key. *)
Theorem sign_in_safe registry (last : option string) (s : Session User) p :
  rtc (stays encrypt translation signin_error isDistro supportNonRootLogin registry) (initial last s) p ->
  left_for p = None ->
  (NoDup (pending p) /\ (loading (form p) = true <-> number (form p) ∈ pending p)) /\
  (formType p = uninitialized -> pending p = []) /\
  (errorMsg (form p) <> None -> loading (form p) = false /\ secret (form p) = Some "") /\
  (formType p = sso -> SSO ∈ supportedAuthTypes p) /\
  Forall (fun l => of_type l = tidbCredential ->
    truthy (auth_username (sent l)) = true /\
    (truthy (publicKey p) = true -> exists t, auth_password (sent l) = sealed encrypt (publicKey p) t)) (logins p).
Proof.
  intros H Hl. apply reachable_ok in H as (Hr & (_ & Hu & _) & [He Hs] & Hse). destruct (Hr Hl) as (Hnd & _ & Hlo).
  split_and!; [done|done| |exact He|apply Hs|].
  - intros H. unfold pending. by destruct (Hu H) as (_ & -> & ->).
  - eapply Forall_impl; [exact Hse|]. by intros l [Hm _].
Qed.

Lemma outcome_session registry l r p :
  session (login_outcome translation signin_error isDistro registry l r p) =
  match r with
  | inr t => navigateToUrl (successRoute registry) (setAuthToken t (session p))
  | inl e => api_error e (session p)
  end.
Proof.
  unfold login_outcome, api_error. destruct r as [e|t].
  - destruct (intercept e (session p)) as [[s' act] [|]]; [done|]. rewrite on_form_cases. by case_decide.
  - unfold onSuccess. by destruct (of_type l).
Qed.

Lemma response_outcome registry i l r p : logins p !! i = Some l ->
  let q := login_outcome translation signin_error isDistro registry l r (set_requests (delete i (logins p)) (sso_pending p) p) in
  let p' := login_response translation signin_error isDistro registry i r p in
  p' = on_form (of_form l) (set_loading false) q /\ session p' = session q /\ last_username p' = last_username q.
Proof. intros Hi q p'. subst p'. unfold login_response. rewrite Hi. fold q. rewrite on_form_cases. by case_decide. Qed.

(** What an answer to a login does.  A token is kept, and the page goes to the application
    that is the default, the only one active there, where it stays; the name of a user of the
    database is kept for the next time.  An error that says the session is not authenticated
    does to the session what it does everywhere, and shows nothing; any other error leaves the
    session alone, is shown and empties the password.  The form stops loading, if it is still on
    the page: a form that has been left is not changed, though its answer signs in.  No other
    request is touched, and a session that shows the owner of its token goes on to do so. *)
Theorem login_answered (owner : string -> User) (i : nat) (l : Login) p :
  logins p !! i = Some l ->
  let answer r := login_response translation signin_error isDistro Registry.op_registry i r p in
  let at_rest (f : SignInForm) := if decide (number (form p) = of_form l) then set_loading false f else form p in
  (forall r, logins (answer r) = delete i (logins p) /\ sso_pending (answer r) = sso_pending p /\
     formType (answer r) = formType p /\
     (who_pending (session p) = [] -> session_ok owner (session p) -> session_ok owner (session (answer r)))) /\
  (forall t, truthy t = true -> let q := answer (inr t) in
     token (session q) = Some t /\ app_change (session q) = session q /\
     Registry.signin_active (hash (session q)) = false /\
     map Registry.id (filter (fun a => Registry.active (hash (session q)) a = true) Registry.op_apps) = ["overview"] /\
     last_username q = (if decide (of_type l = tidbCredential) then Some (default "undefined" (of_user l)) else last_username p) /\
     form q = at_rest (form p)) /\
  (forall e, handleError e = Custom -> let q := answer (inl e) in
     last_username q = last_username p /\
     if unauthenticated e then session q = api_error e (session p) /\ form q = at_rest (form p)
     else session q = session p /\ form q = at_rest (failed translation signin_error isDistro e (form p))).
Proof.
  intros Hi. cbv zeta. set (p0 := set_requests (delete i (logins p)) (sso_pending p) p).
  split_and!.
  - intros r. destruct (response_outcome Registry.op_registry i l r p Hi) as (Hp & Hs & _). rewrite Hs, Hp, on_form_cases.
    destruct (outcome_cases translation signin_error isDistro Registry.op_registry l r p0) as [(E1 & _ & _ & _ & _ & _ & E7 & E8 & _) _].
    rewrite outcome_session. split_and!; [by case_decide..|]. intros Hw Ho. destruct r as [e|t].
    + by apply api_error_ok.
    + by apply navigate_ok, set_auth_ok.
  - intros t Ht. destruct (response_outcome Registry.op_registry i l (inr t) p Hi) as (Hp & Hs & Hu). rewrite Hs, Hu, Hp, outcome_session.
    change (session (set_requests _ _ p)) with (session p).
    assert (Htok : token (setAuthToken t (session p)) = Some t).
    { unfold setAuthToken. case_decide as Hd; [done|]. unfold reloadWhoAmI. cbn. by rewrite Ht. }
    split_and!; [exact Htok| |by vm_compute|by vm_compute| |].
    + unfold app_change, getAuthTokenAsBearer, getAuthToken. cbn [hash navigateToUrl token]. rewrite Htok, Ht. by case_match.
    + cbn [login_outcome]. unfold onSuccess. by destruct (of_type l).
    + rewrite on_form_cases. cbn [login_outcome]. unfold onSuccess. destruct (of_type l); cbn; by case_decide.
  - intros e Hc. destruct (response_outcome Registry.op_registry i l (inl e) p Hi) as (Hp & Hs & Hu). rewrite Hs, Hu, Hp, outcome_session.
    change (session (set_requests _ _ p)) with (session p).
    rewrite on_form_cases. unfold login_outcome, api_error, intercept. rewrite Hc.
    destruct (unauthenticated e); cbn [fst snd];
      rewrite ?on_form_cases; cbn [form set_session set_form number]; case_decide; cbn [form set_form]; rewrite ?on_form_cases; cbn;
      by split_and!; repeat case_decide.
Qed.
End Properties.

(** A server with a key, and a user who mistypes and then signs in. *)
Definition example_steps : list (SignIn.Page string -> SignIn.Page string) :=
  let enc key text := Some ("<" +:+ text +:+ ">") in
  let e := mkError "" (Some "api.user.signin.auth") (Some "wrong") Custom "post" in
  let answer := SignIn.login_response (fun _ => None) id false Registry.op_registry 0 in
  [SignIn.info_response (inr (SignIn.mkLoginInfo (Some [0; 1]) (Some "KEY")));
   SignIn.type_username "root"; SignIn.type_secret "x"; SignIn.onFinish enc; answer (inl e);
   SignIn.type_secret "y"; SignIn.onFinish enc].

Definition example : SignIn.Page string :=
  fold_left (fun p f => f p) example_steps (SignIn.initial None (mkSession None None None None [] "#/signin")).

Lemma sign_in_safe_witness :
  map (fun l => SignIn.auth_password (SignIn.sent l)) (SignIn.logins example) = [SignIn.Text "<y>"] /\
  NoDup (pending example).
Proof.
  split; [reflexivity|].
  apply (sign_in_safe (fun _ t => Some ("<" +:+ t +:+ ">")) (fun _ => None) id false true Registry.op_registry None
    (mkSession None None None None [] "#/signin")); [|reflexivity].
  unfold example, example_steps. cbn [fold_left].
  eapply rtc_r; [|split; [|apply SignIn.s_submit; vm_compute; reflexivity]; vm_compute; reflexivity].
  eapply rtc_r; [|split; [|apply SignIn.s_secret; [left|]; vm_compute; reflexivity]; vm_compute; reflexivity].
  eapply rtc_r; [|split; [|apply SignIn.s_login]; vm_compute; reflexivity].
  eapply rtc_r; [|split; [|apply SignIn.s_submit; vm_compute; reflexivity]; vm_compute; reflexivity].
  eapply rtc_r; [|split; [|apply SignIn.s_secret; [left|]; vm_compute; reflexivity]; vm_compute; reflexivity].
  eapply rtc_r; [|split; [|apply SignIn.s_username; vm_compute; reflexivity]; vm_compute; reflexivity].
  eapply rtc_r; [|split; [|apply SignIn.s_info; vm_compute; reflexivity]; vm_compute; reflexivity].
  apply rtc_refl.
Defined.

Lemma login_answered_witness :
  let l := default (SignIn.mkLogin 0 SignIn.sso None (SignIn.mkAuth None SignIn.Undefined 0)) (SignIn.logins example !! 0%nat) in
  let q := SignIn.login_response (fun _ => None) id false Registry.op_registry 0 (inr "T") example in
  SignIn.logins example !! 0%nat = Some l /\ SignIn.last_username q = Some "root" /\ token (SignIn.session q) = Some "T".
Proof.
  intros l q. assert (Hl : SignIn.logins example !! 0%nat = Some l) by (vm_compute; reflexivity).
  destruct (login_answered (fun _ => None) id false id 0 l example Hl) as (_ & Hs & _).
  destruct (Hs "T" eq_refl) as (Ht & _ & _ & _ & Hu & _). split; [exact Hl|]. split; [|exact Ht].
  unfold q. rewrite Hu. vm_compute. reflexivity.
Defined.
