(* ===== verification/KeyVizAxis.v ===== *)
(** * Axes of the key visualizer (apps/KeyViz/heatmap)

    axis/index.ts (sections of an axis scaled to the canvas), axis/label-axis.ts
    (labels of key ranges), axis/histogram.ts, utils.ts, buffer.ts, color.ts and
    utils/api.ts.  Pixel positions are exact rationals; the d3 scale is a
    function argument; what is drawn is the list of canvas calls. *)

From Stdlib Require Import Ascii QArith Qminmax Qround Lqa.
From S2P Require Import Prelude JsString JsNumber.
From stdpp Require Import options.
Local Open Scope Z_scope.

(** ** Sections (axis/index.ts) *)

Record Section_ (T : Type) := mkSection { val : T; startIdx : Z; endIdx : Z }.
Arguments mkSection {T}. Arguments val {T}. Arguments startIdx {T}. Arguments endIdx {T}.

Record DisplaySection (T : Type) := mkDisplay {
  section : Section_ T;
  startPos : Q;
  endPos : Q;
  focus : bool
}.
Arguments mkDisplay {T}. Arguments section {T}. Arguments startPos {T}.
Arguments endPos {T}. Arguments focus {T}.

Definition mergeWidth : Q := 3.

Section Scale.
Context {T : Type}.
Context (focusDomain : option (Q * Q)) (range : Q * Q) (scale : Q -> Q) (merge : T -> T -> T).

Record scale_state := mkState {
  result : list (DisplaySection T);
  mergedSmallSection : option (DisplaySection T);
  oneSectionRendered : bool
}.

Definition commonStart (s : Section_ T) : Q := Qmax (scale (inject_Z (startIdx s))) (fst range).
Definition commonEnd (s : Section_ T) : Q := Qmin (scale (inject_Z (endIdx s))) (snd range).

Definition in_focus (s : Section_ T) : bool :=
  match focusDomain with
  | Some (a, b) =>
      Qltb 0 (Qmin (scale b) (scale (inject_Z (endIdx s))) - Qmax (scale a) (scale (inject_Z (startIdx s))))
  | None => false
  end.

(** The first half of the loop body: the merged small section is shown when it
    is wide enough, far enough from the next section, or, while nothing is shown
    yet, in front of an even index. *)
Definition flush (s : Section_ T) (st : scale_state) : scale_state :=
  match mergedSmallSection st with
  | Some m =>
      if Qle_bool mergeWidth (endPos m - startPos m) ||
         Qltb mergeWidth (commonStart s - startPos m) ||
         (negb (oneSectionRendered st) && (startIdx s mod 2 =? 0))
      then mkState (result st ++ [m]) None true
      else st
  | None => st
  end.

Definition display (s : Section_ T) : DisplaySection T :=
  mkDisplay s (commonStart s) (commonEnd s) (in_focus s).

Definition absorb (m : DisplaySection T) (s : Section_ T) : DisplaySection T :=
  mkDisplay (mkSection (merge (val (section m)) (val s)) (startIdx (section m)) (endIdx (section m)))
    (startPos m) (commonEnd s) (focus m || in_focus s).

(** The second half: a wide section is shown, a small one merged. *)
Definition place (s : Section_ T) (st : scale_state) : scale_state :=
  if Qltb 0 (commonEnd s - commonStart s) then
    if Qltb mergeWidth (commonEnd s - commonStart s) then
      mkState (result st ++ [display s]) None true
    else
      mkState (result st)
        (Some (match mergedSmallSection st with
               | None => display s
               | Some m => absorb m s
               end)) (oneSectionRendered st)
  else st.

Definition scale_step (st : scale_state) (s : Section_ T) : scale_state := place s (flush s st).

Definition scaleSections (sections : list (Section_ T)) : list (DisplaySection T) :=
  result (fold_left scale_step sections (mkState [] None false)).

(** ** What is shown is in order, inside the canvas and without overlap *)

Fixpoint spans (b : Q) (l : list (DisplaySection T)) (e : Q) : Prop :=
  match l with
  | [] => (b <= e)%Q
  | d :: l' => (b <= startPos d)%Q /\ (startPos d < endPos d)%Q /\ spans (endPos d) l' e
  end.

Lemma spans_weaken b l e e' : spans b l e -> (e <= e')%Q -> spans b l e'.
Proof.
  revert b. induction l as [|d l IH]; simpl; intros b.
  - intros H1 H2. lra.
  - intros (? & ? & ?) ?. split_and!; auto.
Qed.

Lemma spans_snoc b l e d :
  spans b l e -> (e <= startPos d)%Q -> (startPos d < endPos d)%Q -> spans b (l ++ [d]) (endPos d).
Proof.
  revert b. induction l as [|d' l IH]; simpl; intros b.
  - intros. split_and!; [lra|lra|lra].
  - intros (? & ? & ?) ? ?. split_and!; auto.
Qed.

(** The sections of an axis follow each other from an index on. *)
Fixpoint ordered (lo : Z) (l : list (Section_ T)) : Prop :=
  match l with
  | [] => True
  | s :: l' => lo <= startIdx s /\ startIdx s < endIdx s /\ ordered (endIdx s) l'
  end.

Definition st_ok (F : Q) (st : scale_state) : Prop :=
  Forall (fun d => endPos d <= snd range)%Q (result st) /\
  match mergedSmallSection st with
  | None => spans (fst range) (result st) F
  | Some m =>
      exists e, spans (fst range) (result st) e /\ (e <= startPos m)%Q /\
        (startPos m < endPos m)%Q /\ (endPos m <= F)%Q /\ (endPos m <= snd range)%Q
  end.

Lemma st_ok_weaken F F' st : st_ok F st -> (F <= F')%Q -> st_ok F' st.
Proof.
  intros [Hr Hm] HF. split; [done|]. destruct (mergedSmallSection st).
  - destruct Hm as (e & ? & ? & ? & ? & ?). exists e. split_and!; try done. lra.
  - by apply (spans_weaken _ _ F).
Qed.

Lemma flush_ok F s st : st_ok F st -> st_ok F (flush s st).
Proof.
  intros [Hr Hm]. unfold flush. destruct (mergedSmallSection st) as [m|] eqn:E0.
  - case_match; [|by split; rewrite ?E0].
    destruct Hm as (e & ? & ? & ? & ? & ?). split; simpl.
    + apply Forall_app_2; [done|by constructor].
    + apply (spans_weaken _ _ (endPos m)); [by apply (spans_snoc _ _ e)|done].
  - by split; rewrite ?E0.
Qed.

Lemma place_ok F s st :
  (F <= commonStart s)%Q -> st_ok F st -> st_ok (Qmax F (commonEnd s)) (place s st).
Proof.
  intros HF [Hr Hm].
  assert (Hce : (commonEnd s <= snd range)%Q) by apply Q.le_min_r.
  assert (Hmax : (F <= Qmax F (commonEnd s))%Q /\ (commonEnd s <= Qmax F (commonEnd s))%Q)
    by (split; [apply Q.le_max_l|apply Q.le_max_r]).
  destruct Hmax as [HmF HmE]. unfold place.
  destruct (Qltb 0 _) eqn:E0; [|by apply (st_ok_weaken F)].
  apply Qltb_true in E0. destruct (Qltb mergeWidth _) eqn:E1.
  - apply Qltb_true in E1. split; simpl.
    + apply Forall_app_2; [done|]. by constructor.
    + apply (spans_weaken _ _ (commonEnd s)); [|done].
      assert (Hs : exists e, spans (fst range) (result st) e /\ (e <= commonStart s)%Q).
      { destruct (mergedSmallSection st) as [m|]; [|by exists F].
        destruct Hm as (e & ? & ? & ? & ? & ?). exists e. split; [done|lra]. }
      destruct Hs as (e & He & Hle). apply (spans_snoc _ _ e (display s)); [done|done|simpl; lra].
  - split; [done|]. simpl. destruct (mergedSmallSection st) as [m|].
    + destruct Hm as (e & ? & ? & ? & ? & ?). exists e. simpl. split_and!; try done. lra.
    + exists F. simpl. split_and!; try done. lra.
Qed.
End Scale.

Section ScaleProperties.
Context {T : Type}.
Context (focusDomain : option (Q * Q)) (range : Q * Q) (scale : Q -> Q) (merge : T -> T -> T).
Context (mono : forall i j, (i <= j)%Q -> (scale i <= scale j)%Q).

#[local] Abbreviation loop := (fold_left (scale_step focusDomain range scale merge)).
#[local] Abbreviation CS := (commonStart range scale).
#[local] Abbreviation CE := (commonEnd range scale).

Lemma loop_ok lo F sections st :
  ordered lo sections -> (F <= Qmax (scale (inject_Z lo)) (fst range))%Q -> st_ok range F st ->
  exists F', st_ok range F' (loop sections st).
Proof using mono.
  revert lo F st. induction sections as [|s l IH]; intros lo F st; [by exists F|].
  intros (Hlo & Hse & Hl) HF Hok. cbn [fold_left].
  assert (HF' : (F <= CS s)%Q).
  { eapply Qle_trans; [exact HF|]. apply Q.max_le_compat_r, mono. by rewrite <-Zle_Qle. }
  apply (IH (endIdx s) (Qmax F (CE s))); [done| |].
  - apply Q.max_lub.
    + eapply Qle_trans; [exact HF'|]. apply Q.max_le_compat_r, mono. rewrite <-Zle_Qle. lia.
    + eapply Qle_trans; [apply Q.le_min_l|]. apply Q.le_max_l.
  - by apply place_ok, flush_ok.
Qed.

Lemma step_result s st :
  exists l, result (scale_step focusDomain range scale merge st s) = result st ++ l.
Proof.
  unfold scale_step, place, flush.
  repeat case_match; simpl; rewrite <-?(assoc_L (++)); eauto; exists []; by rewrite app_nil_r.
Qed.

Lemma loop_result l st : exists r, result (loop l st) = result st ++ r.
Proof.
  revert st. induction l as [|s l IH]; intros st; [exists []; by rewrite app_nil_r|].
  cbn [fold_left]. destruct (IH (scale_step focusDomain range scale merge st s)) as [r ->].
  destruct (step_result s st) as [r' ->]. rewrite <-(assoc_L (++)). eauto.
Qed.

Lemma wide_step s st :
  (mergeWidth < CE s - CS s)%Q ->
  display focusDomain range scale s ∈ result (scale_step focusDomain range scale merge st s).
Proof.
  intros Hw. unfold scale_step, place.
  assert (H0 : (0 < CE s - CS s)%Q) by (unfold mergeWidth in Hw; lra).
  rewrite (proj2 (Qltb_true _ _) H0), (proj2 (Qltb_true _ _) Hw). simpl.
  apply elem_of_app. right. by left.
Qed.

Lemma wide_loop s l st :
  s ∈ l -> (mergeWidth < CE s - CS s)%Q -> display focusDomain range scale s ∈ result (loop l st).
Proof.
  revert st. induction l as [|s' l IH]; intros st; [by intros []%elem_of_nil|].
  intros [->|Hs]%elem_of_cons Hw; cbn [fold_left]; [|by apply IH].
  destruct (loop_result l (scale_step focusDomain range scale merge st s')) as [r ->].
  apply elem_of_app. left. by apply wide_step.
Qed.
End ScaleProperties.

(** For sections that follow each other and a scale that preserves their
    order, what is shown lies inside the canvas, in order, with positive widths
    and without overlap, and every section that is more than three pixels wide on
    the canvas is shown on its own with its value and its exact extent. *)
Theorem scale_sections_layout {T} (focusDomain : option (Q * Q)) (range : Q * Q) (scale : Q -> Q)
    (merge : T -> T -> T) (sections : list (Section_ T)) (lo : Z) :
  (forall i j, (i <= j)%Q -> (scale i <= scale j)%Q) -> (fst range <= snd range)%Q ->
  ordered lo sections ->
  let shown := scaleSections focusDomain range scale merge sections in
  (exists e, spans (fst range) shown e) /\
  Forall (fun d => endPos d <= snd range)%Q shown /\
  forall s, s ∈ sections -> (mergeWidth < commonEnd range scale s - commonStart range scale s)%Q ->
    display focusDomain range scale s ∈ shown.
Proof.
  intros Hm Hr Ho shown. unfold shown, scaleSections. split.
  - destruct (loop_ok focusDomain range scale merge Hm lo (fst range) sections (mkState [] None false))
      as (F & _ & Hok); [done|apply Q.le_max_r|split; [done|apply Qle_refl]|].
    destruct (mergedSmallSection _); [destruct Hok as (e & ? & _)|]; eauto.
  - split; [|intros s; apply wide_loop].
    destruct (loop_ok focusDomain range scale merge Hm lo (fst range) sections (mkState [] None false))
      as (F & Hf & _); [done|apply Q.le_max_r|split; [done|apply Qle_refl]|done].
Qed.

(** Sections that stay in the pending merged section at the end of the loop are
    never shown, however many there are. *)
Lemma trailing_small_sections_lost :
  scaleSections None (0%Q, 100%Q) (fun i => i) Z.add
    [mkSection 5 0 97; mkSection 7 97 98; mkSection 9 98 99] =
  [mkDisplay (mkSection 5 0 97) 0%Q 97%Q false].
Proof. reflexivity. Qed.

Lemma scale_sections_layout_witness :
  let shown := scaleSections None (0%Q, 100%Q) (fun i => i) Z.add
    [mkSection 5 0 2; mkSection 7 2 90] in
  exists e, spans 0%Q shown e.
Proof.
  apply (scale_sections_layout None (0%Q, 100%Q) (fun i => i) Z.add
    [mkSection 5 0 2; mkSection 7 2 90] 0).
  - intros i j Hij. exact Hij.
  - discriminate.
  - simpl. lia.
Defined.

(** ** Labels of the key axis (axis/label-axis.ts) *)

Record KeyAxisEntry := mkEntry { key : string; labels : list string }.

(** One pass over the keys for one group of labels; [rows] pairs the label of a
    key in the group, if it has one, with its mark from the previous groups. *)
Fixpoint aggr_loop (rows : list (option string * bool)) (keyIdx : Z)
    (lastLabel : option string) (startKeyIdx : option Z) : list (Section_ string) * list bool :=
  match rows with
  | [] =>
      (match startKeyIdx, lastLabel with
       | Some start, Some l => [mkSection l start keyIdx]
       | _, _ => []
       end, [])
  | (label, ne) :: rows' =>
      let ne := ne || (negb (bool_decide (label = None)) && negb (bool_decide (label = lastLabel))) in
      if ne then
        let '(pushed, start) :=
          match startKeyIdx, lastLabel with
          | Some start, Some l => ([mkSection l start keyIdx], None)
          | _, _ => ([], startKeyIdx)
          end in
        let start := match label with Some _ => Some keyIdx | None => start end in
        let '(sections, nes) := aggr_loop rows' (keyIdx + 1) label start in
        (pushed ++ sections, ne :: nes)
      else
        let '(sections, nes) := aggr_loop rows' (keyIdx + 1) lastLabel startKeyIdx in
        (sections, ne :: nes)
  end.

(** The groups in order: each starts from the marks the one before left. *)
Fixpoint aggr_groups (fuel groupIdx : nat) (keyAxis : list KeyAxisEntry) (notEqual : list bool)
    : list (list (Section_ string)) :=
  match fuel with
  | O => []
  | S fuel =>
      let rows := zip (map (fun e => labels e !! groupIdx) keyAxis) notEqual in
      let '(sections, ne) := aggr_loop rows 0 None None in
      sections :: aggr_groups fuel (S groupIdx) keyAxis ne
  end.

Definition aggrKeyAxisLabel (keyAxis : list KeyAxisEntry) : list (list (Section_ string)) :=
  aggr_groups 4 0 keyAxis (replicate (length keyAxis) false).

Definition cur_label (cur : option (Z * string)) : option string := snd <$> cur.
Definition cur_start (cur : option (Z * string)) : option Z := fst <$> cur.

(** What one pass promises, from a key [k] on with [cur] the open section. *)
Record pass_ok (rows : list (option string * bool)) (k : Z) (cur : option (Z * string))
    (sections : list (Section_ string)) (nes : list bool) : Prop := {
  pass_ordered : ordered (default k (cur_start cur)) sections;
  pass_end : Forall (fun s => endIdx s <= k + Z.of_nat (length rows)) sections;
  pass_length : length nes = length rows;
  pass_marks : forall i l, rows !! i = Some (l, true) -> nes !! i = Some true;
  pass_open : forall s0 l, cur = Some (s0, l) ->
    exists e rest, sections = mkSection l s0 e :: rest /\ k <= e /\ ordered k rest;
  pass_closed : cur = None -> ordered k sections;
  pass_covers : forall i l b, rows !! i = Some (Some l, b) ->
    exists s, s ∈ sections /\ startIdx s <= k + Z.of_nat i < endIdx s /\ val s = l;
  pass_starts : forall s, s ∈ sections -> k <= startIdx s ->
    exists i b, startIdx s = k + Z.of_nat i /\ rows !! i = Some (Some (val s), b) /\ nes !! i = Some true;
  pass_no_cross : forall i s, nes !! i = Some true -> s ∈ sections ->
    ~ (startIdx s < k + Z.of_nat i < endIdx s)
}.

Lemma ordered_weaken {T} lo lo' (l : list (Section_ T)) : lo <= lo' -> ordered lo' l -> ordered lo l.
Proof. destruct l; simpl; [done|]. intros ? (? & ? & ?). split_and!; [lia|done|done]. Qed.

Lemma ordered_starts {T} lo (l : list (Section_ T)) s :
  ordered lo l -> s ∈ l -> lo <= startIdx s /\ startIdx s < endIdx s.
Proof.
  revert lo. induction l as [|s' l IH]; intros lo; simpl; [by intros _ []%elem_of_nil|].
  intros (? & ? & Hl) [->|Hs]%elem_of_cons; [lia|]. destruct (IH _ Hl Hs). lia.
Qed.

(** The sections of the rest, shifted by one key. *)
Lemma pass_nil k cur :
  (forall s0 l, cur = Some (s0, l) -> s0 < k) ->
  pass_ok [] k cur (aggr_loop [] k (cur_label cur) (cur_start cur)).1 [].
Proof.
  intros Hc. destruct cur as [[s0 l]|]; simpl; split; simpl; try done.
  - specialize (Hc s0 l eq_refl). split_and!; [lia|done|done].
  - repeat constructor. simpl. lia.
  - intros ? ? [= <- <-]. exists k, []. by split_and!; [|lia|].
  - intros s Hs%list_elem_of_singleton Hk. subst s. simpl in *. specialize (Hc s0 l eq_refl). lia.
  - by intros s []%elem_of_nil.
Qed.

Section Pass.
Context (label : option string) (rows : list (option string * bool)) (k : Z).
Context (cur : option (Z * string)) (before : forall s0 l, cur = Some (s0, l) -> s0 < k).

Lemma shift_index i : k + Z.of_nat (S i) = k + 1 + Z.of_nat i.
Proof using Type. lia. Qed.

(** A key whose label counts as equal to the one above. *)
Lemma pass_same sections nes :
  label = None \/ label = cur_label cur ->
  pass_ok rows (k + 1) cur sections nes ->
  pass_ok ((label, false) :: rows) k cur sections (false :: nes).
Proof using before.
  intros Hl [Ho He Hlen Hm Hop Hcl Hco Hst Hx].
  assert (Hge : forall s, s ∈ sections -> startIdx s <> k).
  { intros s Hs. destruct cur as [[s0 l0]|].
    - destruct (Hop s0 l0 eq_refl) as (e & rest & -> & Hke & Hrest).
      apply elem_of_cons in Hs as [->|Hs]; [simpl; specialize (before s0 l0 eq_refl); lia|].
      destruct (ordered_starts _ _ _ Hrest Hs). lia.
    - destruct (ordered_starts _ _ _ (Hcl eq_refl) Hs). lia. }
  split.
  - destruct cur as [[s0 l0]|]; [done|]. apply (ordered_weaken _ (k + 1)); [simpl; lia|]. by apply Hcl.
  - eapply Forall_impl; [exact He|]. intros s Hs. simpl in *. lia.
  - simpl. by rewrite Hlen.
  - intros [|i] l; [done|]. apply Hm.
  - intros s0 l H0. destruct (Hop s0 l H0) as (e & rest & -> & Hke & Hrest). exists e, rest.
    split_and!; [done|lia|]. by apply (ordered_weaken _ (k + 1)); [lia|].
  - intros H0. apply (ordered_weaken _ (k + 1)); [lia|]. by apply Hcl.
  - intros [|i] l b; simpl; intros Hi.
    + injection Hi as -> <-. destruct Hl as [|Hl]; [done|].
      destruct cur as [[s0 l0]|]; [|done]. injection Hl as ->.
      destruct (Hop s0 l0 eq_refl) as (e & rest & -> & Hke & Hrest).
      exists (mkSection l0 s0 e). specialize (before s0 l0 eq_refl). split_and!; [by left|simpl; lia|simpl; lia|done].
    + destruct (Hco i l b Hi) as (s & ? & ? & ?). exists s. split_and!; [done|lia|lia|done].
  - intros s Hs Hk. specialize (Hge s Hs). destruct (Hst s Hs ltac:(lia)) as (i & b & ? & ? & ?).
    exists (S i), b. split_and!; [lia|done|done].
  - intros [|i] s; simpl; [done|]. intros Hi Hs. pose proof (Hx i s Hi Hs). lia.
Qed.

(** A key that starts a new section, or ends the open one. *)
Lemma pass_new ne sections nes :
  pass_ok rows (k + 1) (pair k <$> label) sections nes ->
  pass_ok ((label, ne) :: rows) k cur
    (match cur with Some (s0, l) => [mkSection l s0 k] | None => [] end ++ sections) (true :: nes).
Proof using before.
  intros [Ho He Hlen Hm Hop Hcl Hco Hst Hx].
  assert (Hk : ordered k sections).
  { destruct label as [l|]; [done|]. apply (ordered_weaken _ (k + 1)); [lia|]. by apply Hcl. }
  set (pushed := match cur with Some _ => _ | None => _ end).
  assert (Hp : forall s, s ∈ pushed -> startIdx s < k /\ endIdx s = k).
  { subst pushed. destruct cur as [[s0 l0]|]; [|by intros s []%elem_of_nil].
    intros s ->%list_elem_of_singleton. split; [apply (before s0 l0 eq_refl)|done]. }
  split.
  - subst pushed. destruct cur as [[s0 l0]|]; [|done]. specialize (before s0 l0 eq_refl).
    simpl. split_and!; [lia|lia|done].
  - apply Forall_app_2.
    + apply Forall_forall. intros s [_ ->]%Hp. simpl. lia.
    + eapply Forall_impl; [exact He|]. intros s Hs. simpl in *. lia.
  - simpl. by rewrite Hlen.
  - intros [|i] l; [done|]. apply Hm.
  - intros s0 l H0. subst pushed. rewrite H0. exists k, sections. split_and!; [done|lia|done].
  - intros H0. subst pushed. by rewrite H0.
  - intros [|i] l b; simpl; intros Hi.
    + injection Hi as -> <-. destruct (Hop k l eq_refl) as (e & rest & -> & Hke & _).
      exists (mkSection l k e). split_and!; [apply elem_of_app; right; by left|simpl; lia|simpl; lia|done].
    + destruct (Hco i l b Hi) as (s & ? & ? & ?). exists s.
      split_and!; [apply elem_of_app; by right|lia|lia|done].
  - intros s [Hs|Hs]%elem_of_app Hks; [apply Hp in Hs; lia|].
    destruct (decide (startIdx s = k)) as [E0|E0].
    + exists 0%nat, ne. split_and!; [lia| |done]. destruct label as [l|].
      * destruct (Hop k l eq_refl) as (e & rest & -> & Hke & Hrest).
        apply elem_of_cons in Hs as [->|Hs]; [done|]. destruct (ordered_starts _ _ _ Hrest Hs). lia.
      * destruct (ordered_starts _ _ _ (Hcl eq_refl) Hs). lia.
    + destruct (Hst s Hs ltac:(lia)) as (i & b & ? & ? & ?). exists (S i), b. split_and!; [lia|done|done].
  - intros [|i] s Hi [Hs|Hs]%elem_of_app; try (apply Hp in Hs; lia).
    + destruct (ordered_starts _ _ _ Hk Hs). lia.
    + pose proof (Hx i s Hi Hs). lia.
Qed.
End Pass.

Lemma aggr_loop_ok rows k cur :
  (forall s0 l, cur = Some (s0, l) -> s0 < k) ->
  let r := aggr_loop rows k (cur_label cur) (cur_start cur) in
  pass_ok rows k cur r.1 r.2.
Proof.
  revert k cur. induction rows as [|[label ne] rows IH]; intros k cur Hc; [by apply pass_nil|].
  cbn [aggr_loop]. destruct (ne || _) eqn:E0.
  - assert (Hc' : forall s0 l, pair k <$> label = Some (s0, l) -> s0 < k + 1)
      by (intros s0 l Hl; destruct label; [injection Hl as <- _; lia|done]).
    specialize (IH (k + 1) (pair k <$> label) Hc').
    pose proof (pass_new label rows k cur Hc ne _ _ IH) as Hn.
    destruct cur as [[s0 l0]|]; destruct label as [l|]; cbn in IH, Hn |- *;
      by destruct (aggr_loop rows (k + 1) _ _).
  - apply orb_false_iff in E0 as [-> E0].
    assert (Hl : label = None \/ label = cur_label cur).
    { apply andb_false_iff in E0 as [E0|E0]; apply negb_false_iff, bool_decide_eq_true in E0; auto. }
    assert (Hc' : forall s0 l, cur = Some (s0, l) -> s0 < k + 1) by (intros s0 l Hs; specialize (Hc s0 l Hs); lia).
    pose proof (pass_same label rows k cur Hc _ _ Hl (IH (k + 1) cur Hc')) as Hs.
    by destruct (aggr_loop rows (k + 1) _ _).
Qed.

Lemma lookup_rows (keyAxis : list KeyAxisEntry) (g : nat) (ne : list bool) (i : nat) :
  length ne = length keyAxis ->
  zip (map (fun e => labels e !! g) keyAxis) ne !! i =
    e ← keyAxis !! i; b ← ne !! i; Some (labels e !! g, b).
Proof.
  intros Hl. rewrite lookup_zip_with, list_lookup_fmap. by destruct (keyAxis !! i); simpl.
Qed.

(** What is shown for one group, with the marks of the groups before it. *)
Definition group_ok (keyAxis : list KeyAxisEntry) (g : nat) (ne : list bool)
    (sections : list (Section_ string)) : Prop :=
  ordered 0 sections /\
  Forall (fun s => endIdx s <= Z.of_nat (length keyAxis)) sections /\
  (forall i e l, keyAxis !! i = Some e -> labels e !! g = Some l ->
    exists s, s ∈ sections /\ startIdx s <= Z.of_nat i < endIdx s /\ val s = l) /\
  (forall s, s ∈ sections -> exists i e,
    startIdx s = Z.of_nat i /\ keyAxis !! i = Some e /\ labels e !! g = Some (val s)) /\
  (forall i s, ne !! i = Some true -> s ∈ sections -> ~ (startIdx s < Z.of_nat i < endIdx s)).

Lemma pass_group keyAxis g ne :
  length ne = length keyAxis ->
  let r := aggr_loop (zip (map (fun e => labels e !! g) keyAxis) ne) 0 None None in
  group_ok keyAxis g ne r.1 /\ length r.2 = length keyAxis /\
  (forall i, ne !! i = Some true -> r.2 !! i = Some true) /\
  (forall s, s ∈ r.1 -> exists i, startIdx s = Z.of_nat i /\ r.2 !! i = Some true).
Proof.
  intros Hl r. pose proof (aggr_loop_ok (zip (map (fun e => labels e !! g) keyAxis) ne) 0 None ltac:(done)) as Hp.
  change (aggr_loop _ 0 (cur_label None) (cur_start None)) with r in Hp.
  destruct Hp as [Ho He Hlen Hm _ _ Hco Hst Hx].
  assert (Hzl : length (zip (map (fun e => labels e !! g) keyAxis) ne) = length keyAxis).
  { rewrite length_zip_with, length_map. lia. }
  assert (Hne : forall i, ne !! i = Some true -> r.2 !! i = Some true).
  { intros i Hi. destruct (keyAxis !! i) as [e|] eqn:Hk.
    - apply (Hm i (labels e !! g)). rewrite lookup_rows by done. by rewrite Hk, Hi.
    - apply lookup_ge_None in Hk. apply lookup_lt_Some in Hi. lia. }
  split_and!; [|by rewrite Hlen|done|].
  - split_and!; [exact Ho| | | |].
    + by rewrite Hzl in He.
    + intros i e l Hk Hlab. destruct (ne !! i) as [b|] eqn:Hb.
      * destruct (Hco i l b) as (s & ? & ? & ?); [|by exists s].
        rewrite lookup_rows by done. by rewrite Hk, Hb, <-Hlab.
      * apply lookup_ge_None in Hb. apply lookup_lt_Some in Hk. lia.
    + intros s Hs. destruct (ordered_starts _ _ _ Ho Hs) as [Hs0 _].
      destruct (Hst s Hs Hs0) as (i & b & Hi & Hr & _). rewrite lookup_rows in Hr by done.
      destruct (keyAxis !! i) as [e|] eqn:Hk; [|done]. simpl in Hr.
      destruct (ne !! i); [|done]. injection Hr as Hv _. by exists i, e.
    + intros i s Hi Hs. apply (Hx i s); [by apply Hne|done].
  - intros s Hs. destruct (ordered_starts _ _ _ Ho Hs) as [Hs0 _].
    destruct (Hst s Hs Hs0) as (i & b & Hi & _ & Ht). by exists i.
Qed.

Lemma aggr_groups_ok keyAxis fuel g ne j sections :
  length ne = length keyAxis -> aggr_groups fuel g keyAxis ne !! j = Some sections ->
  exists ne', group_ok keyAxis (g + j) ne' sections /\
    forall i, ne !! i = Some true -> ne' !! i = Some true.
Proof.
  revert g ne j. induction fuel as [|fuel IH]; intros g ne j Hl; [done|]. cbn [aggr_groups].
  destruct (pass_group keyAxis g ne Hl) as (Hg & Hl' & Hm & _).
  destruct (aggr_loop _ 0 None None) as [secs ne1]. simpl in Hg, Hl', Hm.
  destruct j as [|j]; simpl.
  - intros [= <-]. exists ne. rewrite Nat.add_0_r. auto.
  - intros Hj. destruct (IH (S g) ne1 j Hl' Hj) as (ne' & Hok & Hn). exists ne'.
    replace (g + S j)%nat with (S g + j)%nat by lia. auto.
Qed.

Lemma aggr_groups_nested keyAxis fuel g ne j j' ss ss' s s' :
  length ne = length keyAxis ->
  aggr_groups fuel g keyAxis ne !! j = Some ss -> aggr_groups fuel g keyAxis ne !! j' = Some ss' ->
  (j < j')%nat -> s ∈ ss -> s' ∈ ss' -> ~ (startIdx s' < startIdx s < endIdx s').
Proof.
  revert g ne j j'. induction fuel as [|fuel IH]; intros g ne j j' Hl; [done|]. cbn [aggr_groups].
  destruct (pass_group keyAxis g ne Hl) as (_ & Hl' & _ & Hs).
  destruct (aggr_loop _ 0 None None) as [secs ne1]. simpl in Hl', Hs.
  destruct j as [|j], j' as [|j']; simpl; try lia.
  - intros [= <-] Hj' _ Hin Hin'. destruct (aggr_groups_ok _ _ _ _ _ _ Hl' Hj') as (ne' & Hok & Hn).
    destruct (Hs s Hin) as (i & Hi & Ht). destruct Hok as (_ & _ & _ & _ & Hx).
    rewrite Hi. by apply (Hx i s'); [apply Hn|].
  - intros Hj Hj' Hlt. apply (IH (S g) ne1 j j'); auto with lia.
Qed.

(** The label groups of the key axis. In each of the four groups the
    sections are in order, without overlap and inside the axis, every key that
    has a label lies in a section with this label and every section starts at a
    key with its label; and the groups are nested: no section of a later group
    extends over the start of a section of an earlier one. *)
Theorem label_groups (keyAxis : list KeyAxisEntry) (g : nat) (sections : list (Section_ string)) :
  aggrKeyAxisLabel keyAxis !! g = Some sections ->
  ordered 0 sections /\
  Forall (fun s => endIdx s <= Z.of_nat (length keyAxis)) sections /\
  (forall i e l, keyAxis !! i = Some e -> labels e !! g = Some l ->
    exists s, s ∈ sections /\ startIdx s <= Z.of_nat i < endIdx s /\ val s = l) /\
  (forall s, s ∈ sections -> exists i e,
    startIdx s = Z.of_nat i /\ keyAxis !! i = Some e /\ labels e !! g = Some (val s)) /\
  (forall g' sections' s s', (g < g')%nat -> aggrKeyAxisLabel keyAxis !! g' = Some sections' ->
    s ∈ sections -> s' ∈ sections' -> ~ (startIdx s' < startIdx s < endIdx s')).
Proof.
  unfold aggrKeyAxisLabel. intros Hg.
  destruct (aggr_groups_ok keyAxis 4 0 _ g sections (length_replicate _ _) Hg)
    as (ne & (Ho & He & Hc & Hs & _) & _).
  split_and!; [done|done|done|done|].
  intros g' sections' s s' Hlt Hg'.
  apply (aggr_groups_nested keyAxis 4 0 (replicate (length keyAxis) false) g g' sections sections');
    [apply length_replicate|done..].
Qed.

Definition demo_keys : list KeyAxisEntry :=
  [mkEntry "a" ["db"; "t1"]; mkEntry "b" ["db"; "t2"]; mkEntry "c" ["meta"]; mkEntry "d" ["meta"; "t2"]].

Lemma label_groups_witness :
  aggrKeyAxisLabel demo_keys !! 1%nat = Some [mkSection "t1" 0 1; mkSection "t2" 1 2; mkSection "t2" 3 4] /\
  ordered 0 [mkSection "t1" 0 1; mkSection "t2" 1 2; mkSection "t2" 3 4].
Proof.
  split; [vm_compute; reflexivity|].
  apply (label_groups demo_keys 1 [mkSection "t1" 0 1; mkSection "t2" 1 2; mkSection "t2" 3 4]).
  vm_compute. reflexivity.
Defined.

(** ** Text helpers (utils.ts) *)

Inductive DataTag := integration | written_bytes | read_bytes | written_keys | read_keys.

Definition tagUnit (tag : DataTag) : string :=
  match tag with
  | integration | read_bytes | written_bytes => "bytes/min"
  | read_keys | written_keys => "keys/min"
  end.

(** For a value that is not negative; [None] is [undefined]. *)
Definition withUnit (value : option Q) : string :=
  let v := default 0%Q value in
  if Qltb 1073741824 v then toFixed2 (v / 1073741824)%Q +:+ " G"
  else if Qltb 1048576 v then toFixed2 (v / 1048576)%Q +:+ " M"
  else if Qltb 1024 v then toFixed2 (v / 1024)%Q +:+ " K"
  else toFixed2 v.

(** [s.substr(start, count)], whose arguments are truncated to integers. *)
Definition js_substr (s : string) (start count : Z) : string :=
  let from := if start <? 0 then Z.max 0 (js_length s + start) else start in
  str_take (Z.to_nat count) (str_drop (Z.to_nat from) s).

(** The halves of an odd [len] are fractions, which [substr] truncates. *)
Definition truncateString (str : string) (len : Z) : string :=
  if len <? js_length str then
    js_substr str 0 (Z.quot (len - 2) 2) +:+ "...." +:+
    js_substr str (Z.quot (2 * js_length str - len + 2) 2) (js_length str)
  else str.

(** ** Drawing of the label axis *)

Definition labelAxisMargin : Z := 4.
Definition labelAxisWidth : Z := 28.
Definition labelTextPadding : Z := 4.
Definition minTextHeight : Z := 17.

Definition shouldShowLabelText (label : DisplaySection string) : bool :=
  Qle_bool (inject_Z minTextHeight) (endPos label - startPos label) &&
  negb (js_length (val (section label)) =? 0).

Definition fitLabelText (label : DisplaySection string) : string :=
  truncateString (val (section label)) (Qfloor ((endPos label - startPos label) / (15 # 2))).

(** A filled and stroked rectangle, or a rotated text at a position; the colours
    and the font depend on the focus. *)
Inductive canvas_call :=
| clearRect (x y w h : Q)
| rect (focus : bool) (x y w h : Q)
| fillText (focus : bool) (text : string) (x y : Q).

Definition draw_label (groupIdx : nat) (label : DisplaySection string) : list canvas_call :=
  let marginLeft := inject_Z (Z.of_nat groupIdx * (labelAxisWidth + labelAxisMargin)) in
  rect (focus label) marginLeft (startPos label) (inject_Z labelAxisWidth) (endPos label - startPos label) ::
  (if shouldShowLabelText label then
     [fillText (focus label) (fitLabelText label)
        (marginLeft + inject_Z labelAxisWidth / 2 + 2)%Q (endPos label - inject_Z labelTextPadding)%Q]
   else []).

Definition labelAxisGroup (keyAxis : list KeyAxisEntry) (range : Q * Q) (width height : Q)
    (focusDomain : option (Q * Q)) (scale : Q -> Q) : list canvas_call :=
  let keyAxis := if Nat.ltb 1 (length keyAxis) then drop 1 keyAxis else keyAxis in
  let groups := aggrKeyAxisLabel keyAxis in
  let scaledGroups := map (scaleSections focusDomain range scale (fun _ _ => "")) groups in
  clearRect 0 0 width height ::
  concat (imap (fun groupIdx group => concat (map (draw_label groupIdx) group)) scaledGroups).

(** ** Histograms (axis/histogram.ts) *)

(** A matrix is a list of columns of equal length. *)
Definition cell (data : list (list Q)) (x y : Z) : Q :=
  default 0%Q (col ← data !! Z.to_nat x; col !! Z.to_nat y).

Definition sum_over (f : Z -> Q) (from to : Z) : Q :=
  fold_left (fun acc i => acc + f i)%Q (seqZ from (to - from)) 0%Q.

(** The visible indices: the first, and the one the loops stop before. *)
Definition visible (len : Z) (invert : Q -> Q) (range : Q * Q) : Z * Z :=
  (Z.max 0 (Qfloor (invert (fst range))), Z.min (len - 1) (Qceiling (invert (snd range)))).

Definition histogram_sums (data : list (list Q)) (xRange yRange : Q * Q) (xInvert yInvert : Q -> Q)
    : list (Section_ Q) * list (Section_ Q) :=
  let xLen := Z.of_nat (length data) in
  let yLen := Z.of_nat (length (default [] (head data))) in
  let '(xStartIdx, xEndIdx) := visible xLen xInvert xRange in
  let '(yStartIdx, yEndIdx) := visible yLen yInvert yRange in
  (map (fun x => mkSection (sum_over (fun y => cell data x y) yStartIdx yEndIdx) x (x + 1))
     (seqZ xStartIdx (xEndIdx - xStartIdx)),
   map (fun y => mkSection (sum_over (fun x => cell data x y) xStartIdx xEndIdx) y (y + 1))
     (seqZ yStartIdx (yEndIdx - yStartIdx))).

Definition bins_max (bins : list (DisplaySection Q)) : Q :=
  match bins with
  | [] => 0
  | b :: bins => fold_left (fun m b => Qmax m (val (section b))) bins (val (section b))
  end.

Definition draw_x_bin (max xHeight : Q) (bin : DisplaySection Q) : list canvas_call :=
  let width := (endPos bin - startPos bin)%Q in
  let height := (val (section bin) / max * xHeight)%Q in
  if Qltb height 1 then [] else [rect (focus bin) (startPos bin) (xHeight - height) width height].

Definition draw_y_bin (max yWidth : Q) (bin : DisplaySection Q) : list canvas_call :=
  let width := (val (section bin) / max * yWidth)%Q in
  let height := (endPos bin - startPos bin)%Q in
  if Qltb width 1 then [] else [rect (focus bin) (yWidth - width) (startPos bin) width height].

Definition histogram (data : list (list Q)) (xRange yRange : Q * Q) (xHeight yWidth : Q)
    (xFocusDomain yFocusDomain : option (Q * Q))
    (xScale yScale xInvert yInvert : Q -> Q) : list canvas_call * list canvas_call :=
  let '(xSum, ySum) := histogram_sums data xRange yRange xInvert yInvert in
  let xBins := scaleSections xFocusDomain xRange xScale Qplus xSum in
  let yBins := scaleSections yFocusDomain yRange yScale Qplus ySum in
  (clearRect (fst xRange) 0 (snd xRange) xHeight ::
     concat (map (draw_x_bin (bins_max xBins) xHeight) xBins),
   clearRect 0 (fst yRange) yWidth (snd yRange) ::
     concat (map (draw_y_bin (bins_max yBins) yWidth) yBins)).

(** ** Pixels (buffer.ts, color.ts) and the direction of the key axis (utils/api.ts) *)

(** A colour packed for a little-endian pixel buffer; the array holds unsigned
    32-bit integers. *)
Definition pack_color (r g b : Z) : Z :=
  Z.modulo (Z.lor (Z.lor (Z.lor r (Z.shiftl g 8)) (Z.shiftl b 16)) 4278190080) (2 ^ 32).

Definition rasterizeLevel : nat := 100.

(** [color] is the background colour of a level. *)
Definition rasterizedColors (color : nat -> Z * Z * Z) : list Z :=
  map (fun i => let '(r, g, b) := color i in pack_color r g b) (seq 0 (S rasterizeLevel)).

(** Writes past the end of a typed array are ignored, reads past it give
    [undefined], which is stored as 0. *)
Definition createBuffer (normalizedValues : list nat) (width height : nat) (colors : list Z) : list Z :=
  let pixels := replicate (width * height) 0 in
  imap (fun i _ => match normalizedValues !! i with
                   | Some v => default 0 (colors !! v)
                   | None => 0
                   end) pixels.

Record HeatmapData := mkHeatmap {
  timeAxis : list Z;
  keyAxis : list KeyAxisEntry;
  data : list (string * list (list Q))
}.

Definition reverse (d : HeatmapData) : HeatmapData :=
  mkHeatmap (timeAxis d) (rev (keyAxis d)) (map (fun '(tag, m) => (tag, map (@rev Q) m)) (data d)).

(** ** Properties of the drawings *)

Lemma Qfloor_eq (q : Q) (z : Z) : (q == inject_Z z)%Q -> Qfloor q = z.
Proof. intros ->. apply Qfloor_Z. Qed.

Lemma Qceiling_eq (q : Q) (z : Z) : (q == inject_Z z)%Q -> Qceiling q = z.
Proof. intros ->. apply Qceiling_Z. Qed.

(** The bars of a histogram are the sums over the visible cells, but the
    last column and the last row never count: with the whole matrix of n columns
    and m rows visible there are n - 1 and m - 1 sums, over the first m - 1 rows
    and n - 1 columns. *)
Theorem histogram_columns (m : list (list Q)) (xRange yRange : Q * Q) (xInvert yInvert : Q -> Q) :
  let n := Z.of_nat (length m) in
  let k := Z.of_nat (length (default [] (head m))) in
  0 < n -> 0 < k ->
  (xInvert (fst xRange) == 0)%Q -> (xInvert (snd xRange) == inject_Z n)%Q ->
  (yInvert (fst yRange) == 0)%Q -> (yInvert (snd yRange) == inject_Z k)%Q ->
  histogram_sums m xRange yRange xInvert yInvert =
    (map (fun x => mkSection (sum_over (cell m x) 0 (k - 1)) x (x + 1)) (seqZ 0 (n - 1)),
     map (fun y => mkSection (sum_over (fun x => cell m x y) 0 (n - 1)) y (y + 1)) (seqZ 0 (k - 1))).
Proof.
  intros n k Hn Hk Hx0 Hx1 Hy0 Hy1. unfold histogram_sums, visible. fold n k.
  rewrite (Qfloor_eq _ 0 Hx0), (Qceiling_eq _ _ Hx1), (Qfloor_eq _ 0 Hy0), (Qceiling_eq _ _ Hy1).
  rewrite Z.max_id, !Z.min_l, !Z.sub_0_r by lia. done.
Qed.

Lemma histogram_columns_witness :
  histogram_sums [[1; 2]; [3; 4]; [50; 60]]%Q (0%Q, 300%Q) (0%Q, 200%Q) (fun p => p / 100)%Q (fun p => p / 100)%Q =
    ([mkSection 1%Q 0 1; mkSection 3%Q 1 2], [mkSection 4%Q 0 1]).
Proof.
  rewrite (histogram_columns [[1; 2]; [3; 4]; [50; 60]]%Q); reflexivity || exact eq_refl.
Defined.

Lemma js_substr_length s start count :
  0 <= start -> String.length (js_substr s start count) =
    Nat.min (Z.to_nat count) (String.length s - Z.to_nat start).
Proof.
  intros Hs. unfold js_substr. rewrite (proj2 (Z.ltb_ge _ _) Hs).
  rewrite <-str_drop_length. generalize (str_drop (Z.to_nat start) s) as t, (Z.to_nat count) as n.
  induction t as [|a t IH]; intros [|n]; simpl; [done..|]. by rewrite IH.
Qed.

(** A text cut to [len] characters is two characters longer than that. *)
Lemma truncateString_length s len :
  2 <= len -> len < js_length s -> js_length (truncateString s len) = len + 2.
Proof.
  intros Hl Hs. unfold truncateString. rewrite (proj2 (Z.ltb_lt _ _) Hs).
  unfold js_length in *. rewrite !str_length_app. simpl.
  set (L := Z.of_nat (String.length s)) in *.
  assert (Hq1 : 0 <= Z.quot (len - 2) 2 /\ 2 * Z.quot (len - 2) 2 <= len - 2 < 2 * Z.quot (len - 2) 2 + 2).
  { rewrite Z.quot_div_nonneg by lia. pose proof (Z.div_mod (len - 2) 2). pose proof (Z.mod_pos_bound (len - 2) 2).
    pose proof (Z.div_pos (len - 2) 2). lia. }
  assert (Hq2 : 0 <= Z.quot (2 * L - len + 2) 2 /\
    2 * Z.quot (2 * L - len + 2) 2 <= 2 * L - len + 2 < 2 * Z.quot (2 * L - len + 2) 2 + 2).
  { rewrite Z.quot_div_nonneg by lia. pose proof (Z.div_mod (2 * L - len + 2) 2).
    pose proof (Z.mod_pos_bound (2 * L - len + 2) 2). pose proof (Z.div_pos (2 * L - len + 2) 2). lia. }
  rewrite !js_substr_length by lia. unfold js_length in *. fold L. lia.
Qed.

Lemma land_255_testbit x n : 0 <= n -> Z.testbit (Z.land x 255) n = Z.testbit x n && (n <? 8).
Proof.
  intros Hn. rewrite Z.land_spec. f_equal. change 255 with (Z.ones 8).
  destruct (n <? 8) eqn:E0; bool_to_prop; [apply Z.ones_spec_low|apply Z.ones_spec_high]; lia.
Qed.

Lemma byte_high x n : 0 <= x < 256 -> 8 <= n -> Z.testbit x n = false.
Proof.
  intros Hx Hn. rewrite <-(Z.mod_small x (2 ^ 8)) by lia. by apply Z.mod_pow2_bits_high.
Qed.

(** The four bytes of a pixel are its red, green and blue parts and an opaque
    alpha, in the order of the pixel buffer. *)
Lemma pack_color_bytes r g b :
  0 <= r < 256 -> 0 <= g < 256 -> 0 <= b < 256 ->
  let p := pack_color r g b in
  Z.land p 255 = r /\ Z.land (Z.shiftr p 8) 255 = g /\ Z.land (Z.shiftr p 16) 255 = b /\
  Z.land (Z.shiftr p 24) 255 = 255 /\ 0 <= p < 2 ^ 32.
Proof.
  intros Hr Hg Hb p.
  assert (Hp : forall n, 0 <= n -> Z.testbit p n =
    (n <? 32) && (Z.testbit r n || Z.testbit g (n - 8) || Z.testbit b (n - 16) || Z.testbit 255 (n - 24))).
  { intros n Hn. subst p. unfold pack_color. change 4278190080 with (Z.shiftl 255 24).
    destruct (n <? 32) eqn:E0; bool_to_prop.
    - rewrite Z.mod_pow2_bits_low, !Z.lor_spec, !Z.shiftl_spec by lia. done.
    - by rewrite Z.mod_pow2_bits_high by lia. }
  assert (Hneg : forall x n, n < 0 -> Z.testbit x n = false) by (intros; by apply Z.testbit_neg_r).
  assert (H255 : forall n, 8 <= n -> Z.testbit 255 n = false) by (intros; by apply byte_high).
  split_and!; [| | | |apply Z.mod_pos_bound; lia|apply Z.mod_pos_bound; lia].
  all: apply Z.bits_inj'; intros n Hn; rewrite land_255_testbit, ?Z.shiftr_spec, Hp by lia.
  all: destruct (n <? 8) eqn:E8; bool_to_prop; rewrite ?andb_false_r, ?andb_true_r;
    [rewrite (proj2 (Z.ltb_lt _ 32)) by lia|symmetry; apply byte_high; lia].
  all: rewrite ?(byte_high r), ?(byte_high g), ?(byte_high b), ?H255, ?(Hneg g), ?(Hneg b), ?(Hneg 255) by lia;
    rewrite ?orb_false_r; cbn [orb andb]; f_equal; lia.
Qed.
