(* ===== verification/KeyVizChart.v ===== *)
(** * The key visualizer's chart (apps/KeyViz/heatmap/chart.ts)

    The variables of the chart as a record and its event handlers as functions on
    it.  The transforms and scales of d3 are the interface [D3], with the
    equations its documentation gives; what is drawn is the list of calls or the
    text shown. *)

From Stdlib Require Import Ascii QArith Qminmax Qround Lqa.
From S2P Require Import Prelude JsString JsNumber KeyVizAxis.
Local Open Scope Z_scope.

(** ** The transforms of d3-zoom *)

Class D3 (Tr : Type) := {
  tr_k : Tr -> Q;
  tr_x : Tr -> Q;
  tr_y : Tr -> Q;
  zoomIdentity : Tr;
  translate : Tr -> Q -> Q -> Tr;
  scale_by : Tr -> Q -> Tr;
  applyX : Tr -> Q -> Q;
  applyY : Tr -> Q -> Q;
  invertX : Tr -> Q -> Q;
  invertY : Tr -> Q -> Q;
  (* the scale from the domain [0, n] to the range [0, w], under the transform *)
  rescaleX : Tr -> Q -> Q -> Q -> Q;
  rescaleX_invert : Tr -> Q -> Q -> Q -> Q;
  rescaleY : Tr -> Q -> Q -> Q -> Q;
  rescaleY_invert : Tr -> Q -> Q -> Q -> Q
}.

Class D3Laws (Tr : Type) `{D3 Tr} := {
  identity_k : (tr_k zoomIdentity == 1)%Q;
  identity_x : (tr_x zoomIdentity == 0)%Q;
  identity_y : (tr_y zoomIdentity == 0)%Q;
  translate_k t a b : (tr_k (translate t a b) == tr_k t)%Q;
  translate_x t a b : (tr_x (translate t a b) == tr_x t + tr_k t * a)%Q;
  translate_y t a b : (tr_y (translate t a b) == tr_y t + tr_k t * b)%Q;
  scale_k t k : (tr_k (scale_by t k) == tr_k t * k)%Q;
  scale_x t k : (tr_x (scale_by t k) == tr_x t)%Q;
  scale_y t k : (tr_y (scale_by t k) == tr_y t)%Q;
  applyX_eq t p : (applyX t p == p * tr_k t + tr_x t)%Q;
  applyY_eq t p : (applyY t p == p * tr_k t + tr_y t)%Q;
  invertX_eq t p : (invertX t p == (p - tr_x t) / tr_k t)%Q;
  invertY_eq t p : (invertY t p == (p - tr_y t) / tr_k t)%Q;
  rescaleX_eq t n w v : (rescaleX t n w v == applyX t (v * w / n))%Q;
  rescaleY_eq t n w v : (rescaleY t n w v == applyY t (v * w / n))%Q;
  rescaleX_invert_eq t n w p : (rescaleX_invert t n w p == invertX t p * n / w)%Q;
  rescaleY_invert_eq t n w p : (rescaleY_invert t n w p == invertY t p * n / w)%Q
}.

(** ** Normalized values *)

(** What a [Uint8Array] stores for a number. *)
Definition toUint8 (x : num) : Z :=
  match x with Fin q => Z.quot (Qnum q) (Zpos (Qden q)) mod 256 | _ => 0 end.

Section Normalize.
(** [Math.log]. *)
Context (log : Q -> num).

Definition level (value maxValue : Q) : Z :=
  toUint8 (num_mul (num_div (log value) (log maxValue)) (num_of_Z (Z.of_nat rasterizeLevel))).

Definition value_at (d : list (list Q)) (cIdx rIdx : nat) : Q :=
  default 0%Q (col ← d !! cIdx; col !! rIdx).

Definition normalize_column (d : list (list Q)) (maxValue : Q) (width height : nat)
    (normalized : list Z) (cIdx : nat) : list Z :=
  fold_left (fun acc rIdx => <[rIdx * width + cIdx := level (value_at d cIdx rIdx) maxValue]> acc)%nat
    (seq 0 height) normalized.

Definition normalizeData (d : list (list Q)) (maxValue : Q) : list Z :=
  let height := match d with [] => O | col :: _ => length col end in
  let width := length d in
  fold_left (normalize_column d maxValue width height) (seq 0 width)
    (replicate (width * height)%nat 0).

Lemma column_length d mx w h acc c : length (normalize_column d mx w h acc c) = length acc.
Proof using Type.
  unfold normalize_column. generalize (seq 0 h) as l. intros l. revert acc.
  induction l as [|r l IH]; intros acc; [done|]. simpl. by rewrite IH, length_insert.
Qed.

Lemma column_lookup d mx w h acc c r c' :
  (c < w)%nat -> (c' < w)%nat -> (r < h)%nat -> (r * w + c' < length acc)%nat ->
  normalize_column d mx w h acc c !! (r * w + c')%nat =
    if decide (c' = c) then Some (level (value_at d c r) mx) else acc !! (r * w + c')%nat.
Proof using Type.
  intros Hc Hc' Hr Ha. unfold normalize_column.
  assert (Hg : forall l acc, (r * w + c' < length acc)%nat -> NoDup l ->
    fold_left (fun acc r => <[r * w + c := level (value_at d c r) mx]> acc)%nat l acc !! (r * w + c')%nat =
      if decide (c' = c /\ r ∈ l) then Some (level (value_at d c r) mx) else acc !! (r * w + c')%nat).
  { clear Ha acc. induction l as [|r0 l IH]; intros acc Ha Hnd.
    - rewrite decide_False; [done|]. by intros [_ []%elem_of_nil].
    - apply NoDup_cons in Hnd as [Hr0 Hnd]. simpl. rewrite IH by (rewrite ?length_insert; done).
      destruct (decide (c' = c /\ r ∈ l)) as [[-> Hin]|Hn].
      + rewrite decide_True; [done|]. split; [done|]. by right.
      + destruct (decide (c' = c /\ r ∈ r0 :: l)) as [[-> Hin]|Hn'].
        * apply elem_of_cons in Hin as [->|Hin]; [|naive_solver]. by apply list_lookup_insert_eq.
        * apply list_lookup_insert_ne. intros He. apply Hn'.
          destruct (Nat.div_mod_unique w r0 r c c' Hc Hc') as [-> ->]; [lia|]. split; [done|]. by left. }
  rewrite Hg by (done || apply NoDup_seq). destruct (decide (c' = c)) as [->|Hn].
  - rewrite decide_True; [done|]. split; [done|]. apply elem_of_seq. lia.
  - rewrite decide_False; [done|]. tauto.
Qed.

(** Every cell of the matrix has a pixel of its own, in row-major order. *)
Lemma normalizeData_lookup d mx c r :
  let height := match d with [] => O | col :: _ => length col end in
  (c < length d)%nat -> (r < height)%nat ->
  normalizeData d mx !! (r * length d + c)%nat = Some (level (value_at d c r) mx).
Proof using Type.
  intros h Hc Hr. unfold normalizeData. fold h. set (w := length d) in *.
  assert (Hg : forall l acc, length acc = (w * h)%nat -> (forall x, x ∈ l -> (x < w)%nat) -> NoDup l ->
    fold_left (normalize_column d mx w h) l acc !! (r * w + c)%nat =
      if decide (c ∈ l) then Some (level (value_at d c r) mx) else acc !! (r * w + c)%nat).
  { induction l as [|c0 l IH]; intros acc Ha Hl Hnd; [done|].
    apply NoDup_cons in Hnd as [Hc0 Hnd]. simpl.
    rewrite IH; [|by rewrite column_length|intros x Hx; apply Hl; by right|done].
    assert (Hc0w : (c0 < w)%nat) by (apply Hl; by left).
    rewrite column_lookup by (rewrite ?Ha; nia).
    destruct (decide (c ∈ l)) as [Hin|Hn].
    - rewrite decide_True; [done|]. by right.
    - destruct (decide (c = c0)) as [->|Hne].
      + rewrite decide_True; [done|]. by left.
      + rewrite decide_False; [done|]. intros [?|?]%elem_of_cons; done. }
  rewrite Hg; [|apply length_replicate|intros x; rewrite elem_of_seq; lia|apply NoDup_seq].
  rewrite decide_True; [done|]. apply elem_of_seq. lia.
Qed.
End Normalize.

(** ** The chart's variables *)

Definition margin_top : Z := 25.
Definition margin_right : Z := 40.
Definition margin_bottom : Z := 70.
Definition margin_left : Z := 100.
Definition tooltipOffset_horizontal : Z := 20.
Definition tooltipOffset_vertical : Z := 20.

Record TooltipStatus := mkTooltip { pinned : bool; hidden : bool; tip_x : Q; tip_y : Q }.
Record FocusStatus := mkFocus { xDomain : Q * Q; yDomain : Q * Q }.

Definition defaultTooltipStatus : TooltipStatus := mkTooltip false true 0 0.

Definition set_hidden (b : bool) (t : TooltipStatus) : TooltipStatus :=
  mkTooltip (pinned t) b (tip_x t) (tip_y t).

(** A JavaScript array read: out of range is [undefined]. *)
Definition js_nth {A} (l : list A) (i : Z) : option A := if i <? 0 then None else l !! Z.to_nat i.

Section Chart.
Context {Tr : Type} `{D3Laws Tr}.
Context (timeAxis : list Z) (keyAxis : list KeyAxisEntry) (matrix : list (list Q)).

Record Chart := mkChart {
  brightness : Q;
  zoomTransform : Tr;
  tooltipStatus : TooltipStatus;
  focusStatus : option FocusStatus;
  isBrushing : bool;
  width : Q; height : Q;
  canvasWidth : Q; canvasHeight : Q
}.

Implicit Types c : Chart.

Definition initial : Chart :=
  mkChart 1 zoomIdentity defaultTooltipStatus None false 0 0 0 0.

Definition set_transform (t : Tr) c : Chart :=
  mkChart (brightness c) t (tooltipStatus c) (focusStatus c) (isBrushing c)
    (width c) (height c) (canvasWidth c) (canvasHeight c).
Definition set_tooltip (t : TooltipStatus) c : Chart :=
  mkChart (brightness c) (zoomTransform c) t (focusStatus c) (isBrushing c)
    (width c) (height c) (canvasWidth c) (canvasHeight c).
Definition set_focus (f : option FocusStatus) c : Chart :=
  mkChart (brightness c) (zoomTransform c) (tooltipStatus c) f (isBrushing c)
    (width c) (height c) (canvasWidth c) (canvasHeight c).
Definition set_brushing (b : bool) c : Chart :=
  mkChart (brightness c) (zoomTransform c) (tooltipStatus c) (focusStatus c) b
    (width c) (height c) (canvasWidth c) (canvasHeight c).

(** ** The methods of the chart object *)

Definition set_brightness (v : Q) c : Chart :=
  mkChart v (zoomTransform c) (tooltipStatus c) (focusStatus c) (isBrushing c)
    (width c) (height c) (canvasWidth c) (canvasHeight c).
Definition brush (enabled : bool) c : Chart := set_brushing enabled c.
Definition resetZoom c : Chart := set_transform zoomIdentity c.

Definition size (newWidth newHeight : Q) c : Chart :=
  let newCanvasWidth := (newWidth - inject_Z margin_left - inject_Z margin_right)%Q in
  let newCanvasHeight := (newHeight - inject_Z margin_top - inject_Z margin_bottom)%Q in
  let t :=
    if negb (Qeq_bool (canvasWidth c) 0) && negb (Qeq_bool (canvasHeight c) 0) then
      scale_by (translate zoomIdentity
                  (tr_x (zoomTransform c) * newCanvasWidth / canvasWidth c)
                  (tr_y (zoomTransform c) * newCanvasHeight / canvasHeight c))
        (tr_k (zoomTransform c))
    else zoomTransform c in
  mkChart (brightness c) t (tooltipStatus c) (focusStatus c) (isBrushing c)
    newWidth newHeight newCanvasWidth newCanvasHeight.

(** ** Zooming *)

Definition constrainBoucing c (t : Tr) : Tr :=
  let bounceRatio := (8 # 10)%Q in
  let dragLeft := Qmax 0 (applyX t 0) in
  let dragRight := Qmax 0 (canvasWidth c - applyX t (canvasWidth c)) in
  let dragTop := Qmax 0 (applyY t 0) in
  let dragBottom := Qmax 0 (canvasHeight c - applyY t (canvasHeight c)) in
  scale_by (translate zoomIdentity
              (inject_Z (Qfloor (tr_x t - (dragLeft - dragRight) * bounceRatio)))
              (inject_Z (Qfloor (tr_y t - (dragTop - dragBottom) * bounceRatio))))
    (tr_k t).

(** [d1 > d0 ? (d0 + d1) / 2 : Math.min(0, d0) || Math.max(0, d1)] *)
Definition hard_shift (d0 d1 : Q) : Q :=
  if Qltb d0 d1 then ((d0 + d1) / 2)%Q
  else if Qeq_bool (Qmin 0 d0) 0 then Qmax 0 d1 else Qmin 0 d0.

Definition constrainHard c (t : Tr) : Tr :=
  translate t
    (hard_shift (invertX t 0) (invertX t (canvasWidth c) - canvasWidth c))
    (hard_shift (invertY t 0) (invertY t (canvasHeight c) - canvasHeight c)).

(** ** Tooltips *)

Definition xDom : Q := inject_Z (Z.of_nat (length timeAxis) - 1).
Definition yDom : Q := inject_Z (Z.of_nat (length keyAxis) - 1).

Definition x_at c (p : Q) : Q := rescaleX_invert (zoomTransform c) xDom (canvasWidth c) p.
Definition y_at c (p : Q) : Q := rescaleY_invert (zoomTransform c) yDom (canvasHeight c) p.

Definition hideTooltips c : Chart := set_tooltip (set_hidden true (tooltipStatus c)) c.

Definition focusPoint (x y : Q) c : Chart :=
  set_focus (Some (mkFocus (x, x + (1 # 1000)) (y, y + (1 # 1000)))%Q) c.

Definition outside c (m : Q * Q) : bool :=
  Qltb (fst m) 0 || Qltb (canvasWidth c) (fst m) || Qltb (snd m) 0 || Qltb (canvasHeight c) (snd m).

(** The mouse position, [None] when d3 gives NaN. *)
Definition showTooltips (mouse : option (Q * Q)) c : Chart :=
  let c := set_tooltip (set_hidden false (tooltipStatus c)) c in
  if pinned (tooltipStatus c) then c
  else match mouse with
  | None => c
  | Some m =>
      let x := x_at c (fst m) in
      let y := y_at c (snd m) in
      let c := if isBrushing c then c else focusPoint x y c in
      if outside c m then hideTooltips c
      else set_tooltip (mkTooltip (pinned (tooltipStatus c)) (hidden (tooltipStatus c)) x y) c
  end.

(** ** Event handlers *)

Definition zooming (mousemove : bool) (transform : Tr) (mouse : option (Q * Q)) c : Chart :=
  if mousemove then hideTooltips (set_transform (constrainBoucing c transform) c)
  else showTooltips mouse (set_transform (constrainHard c transform) c).

Definition zoomEnd (mouse : option (Q * Q)) c : Chart :=
  let c := set_transform (constrainHard c (zoomTransform c)) c in
  if pinned (tooltipStatus c) then showTooltips mouse c else c.

Definition mousemoved (mouse : option (Q * Q)) c : Chart := showTooltips mouse c.

Definition mouseout c : Chart :=
  if negb (pinned (tooltipStatus c)) && negb (isBrushing c) then set_focus None c else c.

Definition clicked (defaultPrevented : bool) (m : Q * Q) c : Chart :=
  if defaultPrevented then c
  else if outside c m then c
  else
    let t := tooltipStatus c in
    showTooltips (Some m) (set_tooltip (mkTooltip (negb (pinned t)) (hidden t) (tip_x t) (tip_y t)) c).

Definition brushStart c : Chart := hideTooltips c.

Definition selection := ((Q * Q) * (Q * Q))%type.

Definition brushing (sel : option selection) c : Chart :=
  match sel with
  | Some ((x0, y0), (x1, y1)) =>
      set_focus (Some (mkFocus (x_at c x0, x_at c x1) (y_at c y0, y_at c y1))) c
  | None => c
  end.

(** What [brushEnd] does: [onBrush] is called with a range, or reading the key
    of a missing entry throws. *)
Record HeatmapRange := mkRange {
  starttime : option Z; endtime : option Z; startkey : string; endkey : string
}.

Inductive brush_call := NoCall | Called (r : HeatmapRange) | Throws.

Definition brush_range (sel : selection) c : brush_call :=
  let '((x0, y0), (x1, y1)) := sel in
  match js_nth keyAxis (Qceiling (y_at c y1)), js_nth keyAxis (Qfloor (y_at c y0)) with
  | Some s, Some e =>
      Called (mkRange (js_nth timeAxis (Qfloor (x_at c x0))) (js_nth timeAxis (Qceiling (x_at c x1)))
                (key s) (key e))
  | _, _ => Throws
  end.

Definition brushEnd (sel : option selection) (mouse : option (Q * Q)) c : brush_call * Chart :=
  let c := set_brushing false c in
  match sel with
  | None => (NoCall, showTooltips mouse c)
  | Some s =>
      match brush_range s c with
      | Throws => (Throws, c)
      | r => (r, showTooltips mouse c)
      end
  end.

(** ** The tooltip shown *)

Definition getTooltipOverviewLabel (startLabel endLabel : option (list string)) : list string :=
  match startLabel, endLabel with
  | None, None => []
  | None, Some e => e
  | Some s, None => s
  | Some s, Some e =>
      if decide (s = e) then s
      else
        let startLen := length s in
        let endLen := length e in
        if Nat.leb 1 startLen && Nat.eqb (startLen + 1) endLen &&
           bool_decide (s = take startLen e) then e
        else if Nat.leb 3 startLen && Nat.eqb startLen endLen &&
                bool_decide (take (startLen - 1) s = take (startLen - 1) e) then
          take (startLen - 1) s ++
            [default "" (s !! (startLen - 1)%nat) +:+ " ~ " +:+ default "" (e !! (startLen - 1)%nat)]
        else s
  end.

Inductive h_side := Left (v : Q) | Right (v : Q).
Inductive v_side := Top (v : Q) | Bottom (v : Q).

Record TooltipText := mkText {
  h_pos : h_side; v_pos : v_side; interactive : bool;
  value_text : string; times : Z * Z; overview : list string;
  start_key : string; end_key : string
}.

(** [Some None] removes the tooltip, [None] leaves it as it is. *)
Definition renderTooltip c : option (option TooltipText) :=
  let t := tooltipStatus c in
  if hidden t then Some None
  else
    let timeIdx := Qfloor (tip_x t) in
    let keyIdx := Qfloor (tip_y t) in
    match js_nth keyAxis keyIdx, js_nth keyAxis (keyIdx + 1),
          js_nth timeAxis timeIdx, js_nth timeAxis (timeIdx + 1) with
    | Some k0, Some k1, Some t0, Some t1 =>
        let ox := rescaleX (zoomTransform c) xDom (canvasWidth c) (tip_x t) in
        let oy := rescaleY (zoomTransform c) yDom (canvasHeight c) (tip_y t) in
        Some (Some (mkText
          (if Qltb ox (canvasWidth c / 2)
           then Left (ox + inject_Z tooltipOffset_horizontal + inject_Z margin_left)%Q
           else Right (canvasWidth c - ox + inject_Z tooltipOffset_horizontal + inject_Z margin_right)%Q)
          (if Qltb oy (canvasHeight c / 2)
           then Top (oy + inject_Z tooltipOffset_vertical + inject_Z margin_top)%Q
           else Bottom (canvasHeight c - oy + inject_Z tooltipOffset_vertical + inject_Z margin_bottom)%Q)
          (pinned t)
          (withUnit (col ← js_nth matrix timeIdx; js_nth col keyIdx))
          (t0, t1)
          (getTooltipOverviewLabel (Some (labels k1)) (Some (labels k0)))
          (key k1) (key k0)))
    | _, _, _, _ => None
    end.
End Chart.

Section Drawing.
Context {Tr : Type} `{D3Laws Tr}.
Context (timeAxis : list Z) (keyAxis : list KeyAxisEntry) (matrix : list (list Q)).

(** The part of the buffer that [renderHeatmap] draws on the canvas: left, top,
    width and height.  The scales without a transform are those under the
    identity. *)
Definition renderHeatmap (c : Chart (Tr := Tr)) : Q * Q * Q * Q :=
  let xi := rescaleX_invert zoomIdentity (xDom timeAxis) (canvasWidth c) in
  let yi := rescaleY_invert zoomIdentity (yDom keyAxis) (canvasHeight c) in
  (xi (invertX (zoomTransform c) 0), yi (invertY (zoomTransform c) 0),
   xi (canvasWidth c * (1 / tr_k (zoomTransform c)))%Q, yi (canvasHeight c * (1 / tr_k (zoomTransform c)))%Q).

(** [renderAxis]: the calls on the histogram canvases and on the label canvas. *)
Definition renderAxis (xHeight yWidth labelW labelH : Q) (c : Chart (Tr := Tr))
    : (list canvas_call * list canvas_call) * list canvas_call :=
  let t := zoomTransform c in
  let xRescale := rescaleX t (xDom timeAxis) (canvasWidth c) in
  let yRescale := rescaleY t (yDom keyAxis) (canvasHeight c) in
  (histogram matrix (0%Q, canvasWidth c) (0%Q, canvasHeight c) xHeight yWidth
     (xDomain <$> focusStatus c) (yDomain <$> focusStatus c) xRescale yRescale
     (x_at timeAxis c) (y_at keyAxis c),
   labelAxisGroup keyAxis (0%Q, canvasHeight c) labelW labelH (yDomain <$> focusStatus c) yRescale).

(** The four strokes of the cross at a pinned point, drawn twice. *)
Definition cross_strokes (ox oy reach gap : Q) : list ((Q * Q) * (Q * Q)) :=
  [((ox, oy - reach), (ox, oy - gap)); ((ox, oy + gap), (ox, oy + reach));
   ((ox - reach, oy), (ox - gap, oy)); ((ox + gap, oy), (ox + reach, oy))]%Q.

Definition renderCross (c : Chart (Tr := Tr)) : list (Z * list ((Q * Q) * (Q * Q))) :=
  if pinned (tooltipStatus c) then
    let ox := rescaleX (zoomTransform c) (xDom timeAxis) (canvasWidth c) (tip_x (tooltipStatus c)) in
    let oy := rescaleY (zoomTransform c) (yDom keyAxis) (canvasHeight c) (tip_y (tooltipStatus c)) in
    [(4, cross_strokes ox oy 9 2); (2, cross_strokes ox oy 8 3)]
  else [].
End Drawing.

(** ** The view stays inside the data *)

Section View.
Context {Tr : Type} {d3 : D3 Tr} {laws : D3Laws Tr}.

Definition view_inside (c : Chart (Tr := Tr)) (t : Tr) : Prop :=
  (0 <= invertX t 0)%Q /\ (invertX t (canvasWidth c) <= canvasWidth c)%Q /\
  (0 <= invertY t 0)%Q /\ (invertY t (canvasHeight c) <= canvasHeight c)%Q.

(** One axis: the shift that [constrainHard] applies, for a zoom of at least 1. *)
Lemma hard_shift_spec (k x w : Q) :
  (1 <= k)%Q -> (0 <= w)%Q ->
  let s := hard_shift ((0 - x) / k) ((w - x) / k - w) in
  let x' := (x + k * s)%Q in
  (0 <= (0 - x') / k)%Q /\ ((w - x') / k <= w)%Q /\
  ((0 <= (0 - x) / k)%Q -> ((w - x) / k <= w)%Q -> (s == 0)%Q).
Proof.
  intros Hk Hw s x'.
  assert (Hd : forall q, (q / k * k == q)%Q) by (intros; field; lra).
  set (d0 := ((0 - x) / k)%Q) in *. set (q1 := ((w - x) / k)%Q).
  assert (HA : (d0 * k == 0 - x)%Q) by apply Hd.
  assert (HB : (q1 * k == w - x)%Q) by apply Hd.
  assert (Hwk : (w <= w * k)%Q) by nra.
  assert (Hle : (q1 - w <= d0)%Q) by nra.
  assert (Hs : (s == Qmin 0 d0 /\ ~ Qmin 0 d0 == 0 \/ (0 <= d0 /\ s == Qmax 0 (q1 - w)))%Q).
  { unfold s, hard_shift. fold q1. destruct (Qltb d0 (q1 - w)) eqn:E0; [apply Qltb_true in E0; lra|].
    destruct (Qeq_bool (Qmin 0 d0) 0) eqn:E1.
    - apply Qeq_bool_eq in E1. right. split; [|reflexivity]. rewrite <-E1. apply Q.le_min_r.
    - left. split; [reflexivity|]. by apply Qeq_bool_neq. }
  assert (Hx0 : ((0 - x') / k == d0 - s)%Q) by (unfold x', d0; field; lra).
  assert (Hx1 : ((w - x') / k == q1 - s)%Q) by (unfold x', q1; field; lra).
  rewrite Hx0, Hx1. clear Hx0 Hx1 Hd. clearbody d0 q1 s. clear x'.
  destruct Hs as [[Hs Hne]|[Hd0 Hs]]; rewrite Hs.
  - destruct (Q.min_spec 0 d0) as [[? Hm]|[? Hm]]; rewrite Hm in *; split_and!; intros; try lra; nra.
  - destruct (Q.max_spec 0 (q1 - w)) as [[? Hm]|[? Hm]]; rewrite Hm in *; split_and!; intros; lra.
Qed.

#[local] Instance Qltb_proper : Proper (Qeq ==> Qeq ==> eq) Qltb.
Proof. intros a b Ha c d Hc. unfold Qltb. by rewrite Ha, Hc. Qed.

#[local] Instance hard_shift_proper : Proper (Qeq ==> Qeq ==> Qeq) hard_shift.
Proof.
  intros a b Ha c d Hc. unfold hard_shift.
  assert (Hm : (Qmin 0 a == Qmin 0 b)%Q) by (by apply Q.min_compat).
  assert (Hx : (Qmax 0 c == Qmax 0 d)%Q) by (by apply Q.max_compat).
  rewrite (Qltb_proper _ _ Ha _ _ Hc), Hm. case_match; [by rewrite Ha, Hc|]. by case_match.
Qed.

(** Whatever transform d3 proposes, with a zoom of at least one the
    transform the chart keeps shows only the matrix: nothing left of its first or
    right of its last column, nor above or below its rows; the zoom is unchanged,
    and a transform that already has this property is not moved. *)
Theorem constrainHard_inside (c : Chart (Tr := Tr)) (t : Tr) :
  (1 <= tr_k t)%Q -> (0 <= canvasWidth c)%Q -> (0 <= canvasHeight c)%Q ->
  let t' := constrainHard c t in
  view_inside c t' /\ (tr_k t' == tr_k t)%Q /\
  (view_inside c t -> (tr_x t' == tr_x t)%Q /\ (tr_y t' == tr_y t)%Q).
Proof.
  intros Hk Hw Hh t'. unfold view_inside, t', constrainHard.
  assert (Hsx : (hard_shift (invertX t 0) (invertX t (canvasWidth c) - canvasWidth c) ==
    hard_shift ((0 - tr_x t) / tr_k t) ((canvasWidth c - tr_x t) / tr_k t - canvasWidth c))%Q)
    by (by rewrite !invertX_eq).
  assert (Hsy : (hard_shift (invertY t 0) (invertY t (canvasHeight c) - canvasHeight c) ==
    hard_shift ((0 - tr_y t) / tr_k t) ((canvasHeight c - tr_y t) / tr_k t - canvasHeight c))%Q)
    by (by rewrite !invertY_eq).
  destruct (hard_shift_spec (tr_k t) (tr_x t) (canvasWidth c) Hk Hw) as (Hx0 & Hx1 & Hx2).
  destruct (hard_shift_spec (tr_k t) (tr_y t) (canvasHeight c) Hk Hh) as (Hy0 & Hy1 & Hy2).
  rewrite <-Hsx in Hx0, Hx1, Hx2. rewrite <-Hsy in Hy0, Hy1, Hy2. clear Hsx Hsy.
  set (sx := hard_shift _ (_ - canvasWidth c)) in *. set (sy := hard_shift _ (_ - canvasHeight c)) in *.
  clearbody sx sy.
  rewrite !invertX_eq, !invertY_eq, !translate_k, !translate_x, !translate_y.
  split_and!; [done..|reflexivity|].
  intros (Ha & Hb & Hc & Hd). rewrite Hx2, Hy2 by done. split; ring.
Qed.

(** Resizing the chart keeps the view: the column and row under each edge of
    the canvas stay the same. *)
Theorem resize_keeps_view (timeAxis : list Z) (keyAxis : list KeyAxisEntry) (c : Chart (Tr := Tr))
    (w h : Q) :
  (0 < tr_k (zoomTransform c))%Q -> (0 < canvasWidth c)%Q -> (0 < canvasHeight c)%Q ->
  let c' := size w h c in
  (0 < canvasWidth c')%Q -> (0 < canvasHeight c')%Q ->
  (x_at timeAxis c' 0 == x_at timeAxis c 0)%Q /\
  (x_at timeAxis c' (canvasWidth c') == x_at timeAxis c (canvasWidth c))%Q /\
  (y_at keyAxis c' 0 == y_at keyAxis c 0)%Q /\
  (y_at keyAxis c' (canvasHeight c') == y_at keyAxis c (canvasHeight c))%Q.
Proof.
  intros Hk Hw Hh c' Hw' Hh'. unfold x_at, y_at.
  assert (Hx : (tr_x (zoomTransform c') == tr_x (zoomTransform c) * canvasWidth c' / canvasWidth c)%Q /\
    (tr_y (zoomTransform c') == tr_y (zoomTransform c) * canvasHeight c' / canvasHeight c)%Q /\
    (tr_k (zoomTransform c') == tr_k (zoomTransform c))%Q).
  { unfold c', size. cbn [zoomTransform canvasWidth canvasHeight].
    assert (Hb : forall q, (0 < q)%Q -> negb (Qeq_bool q 0) = true).
    { intros q Hq. apply negb_true_iff, not_true_iff_false. rewrite Qeq_bool_iff. lra. }
    rewrite !Hb by done. cbn [andb].
    rewrite scale_x, scale_y, scale_k, translate_x, translate_y, translate_k,
      identity_x, identity_y, identity_k. split_and!; ring. }
  destruct Hx as (Hx & Hy & Hkk).
  rewrite !rescaleX_invert_eq, !rescaleY_invert_eq, !invertX_eq, !invertY_eq, Hx, Hy, Hkk.
  split_and!; field; lra.
Qed.

(** ** Brushing *)

Lemma at_range (k x w n p : Q) :
  (0 < k)%Q -> (0 < w)%Q -> (0 <= n)%Q -> (0 <= (0 - x) / k)%Q -> ((w - x) / k <= w)%Q ->
  (0 <= p <= w)%Q -> (0 <= (p - x) / k * n / w <= n)%Q.
Proof.
  intros Hk Hw Hn H0 H1 Hp.
  assert (Hd : forall q, (q / k * k == q)%Q) by (intros; field; lra).
  pose proof (Hd (0 - x)%Q) as Ha. pose proof (Hd (w - x)%Q) as Hb. pose proof (Hd (p - x)%Q) as Hc.
  set (a := ((0 - x) / k)%Q) in *. set (b := ((w - x) / k)%Q) in *. set (q := ((p - x) / k)%Q) in *.
  clearbody a b q. assert (Hq0 : (0 <= q)%Q) by nra. assert (Hq1 : (q <= w)%Q) by nra.
  assert (He : (q * n / w * w == q * n)%Q) by (field; lra).
  set (r := (q * n / w)%Q) in *. clearbody r. split; nra.
Qed.

Lemma at_mono (k x w n p p' : Q) :
  (0 < k)%Q -> (0 < w)%Q -> (0 <= n)%Q -> (p <= p')%Q -> ((p - x) / k * n / w <= (p' - x) / k * n / w)%Q.
Proof.
  intros Hk Hw Hn Hp.
  assert (He : forall q, ((q - x) / k * n / w * (k * w) == (q - x) * n)%Q) by (intros; field; lra).
  pose proof (He p) as H1. pose proof (He p') as H2.
  set (a := ((p - x) / k * n / w)%Q) in *. set (b := ((p' - x) / k * n / w)%Q) in *. clearbody a b.
  assert (Hkw : (0 < k * w)%Q) by nra. assert (Hab : (a * (k * w) <= b * (k * w))%Q) by nra.
  apply (Qmult_le_r _ _ (k * w)); done.
Qed.

(** The indices of a range of an axis with [n + 1] entries. *)
Lemma index_range {A} (l : list A) (a b : Q) :
  (0 <= a)%Q -> (a <= b)%Q -> (b <= inject_Z (Z.of_nat (length l) - 1))%Q ->
  0 <= Qfloor a <= Qceiling b /\ Qceiling b < Z.of_nat (length l) /\
  is_Some (js_nth l (Qfloor a)) /\ is_Some (js_nth l (Qceiling b)).
Proof.
  intros Ha Hab Hb.
  assert (H0 : 0 <= Qfloor a) by (rewrite <-(Qfloor_Z 0); by apply Qfloor_resp_le).
  assert (H1 : Qceiling b <= Z.of_nat (length l) - 1)
    by (rewrite <-(Qceiling_Z (Z.of_nat (length l) - 1)); by apply Qceiling_resp_le).
  assert (H2 : Qfloor a <= Qceiling b).
  { rewrite Zle_Qle. pose proof (Qfloor_le a). pose proof (Qle_ceiling b). lra. }
  split_and!; [lia..| |]; unfold js_nth; rewrite (proj2 (Z.ltb_ge _ _)) by lia;
    apply lookup_lt_is_Some; lia.
Qed.

(** Releasing the brush over the matrix never throws and reports a range of
    times and keys that exists on both axes, is not reversed and covers what was
    selected. *)
Theorem brush_range_covers (timeAxis : list Z) (keyAxis : list KeyAxisEntry) (c : Chart (Tr := Tr))
    (x0 y0 x1 y1 : Q) :
  (1 <= tr_k (zoomTransform c))%Q -> view_inside c (zoomTransform c) ->
  (0 < canvasWidth c)%Q -> (0 < canvasHeight c)%Q -> timeAxis <> [] -> keyAxis <> [] ->
  (0 <= x0)%Q -> (x0 <= x1)%Q -> (x1 <= canvasWidth c)%Q ->
  (0 <= y0)%Q -> (y0 <= y1)%Q -> (y1 <= canvasHeight c)%Q ->
  exists (i0 i1 j0 j1 : Z) (t0 t1 : Z) (k0 k1 : KeyAxisEntry),
    brush_range timeAxis keyAxis ((x0, y0), (x1, y1)) c =
      Called (mkRange (Some t0) (Some t1) (key k1) (key k0)) /\
    js_nth timeAxis i0 = Some t0 /\ js_nth timeAxis i1 = Some t1 /\
    js_nth keyAxis j0 = Some k0 /\ js_nth keyAxis j1 = Some k1 /\
    i0 <= i1 /\ j0 <= j1 /\
    (inject_Z i0 <= x_at timeAxis c x0)%Q /\ (x_at timeAxis c x1 <= inject_Z i1)%Q /\
    (inject_Z j0 <= y_at keyAxis c y0)%Q /\ (y_at keyAxis c y1 <= inject_Z j1)%Q.
Proof.
  intros Hk (Hv1 & Hv2 & Hv3 & Hv4) Hw Hh Hta Hka Hx0 Hx01 Hx1 Hy0 Hy01 Hy1.
  assert (Hk0 : (0 < tr_k (zoomTransform c))%Q) by lra.
  rewrite invertX_eq in Hv1, Hv2. rewrite invertY_eq in Hv3, Hv4.
  assert (Hn : forall A (l : list A), l <> [] -> (0 <= inject_Z (Z.of_nat (length l) - 1))%Q).
  { intros A [|a l] Hl; [done|]. change 0%Q with (inject_Z 0). rewrite <-Zle_Qle. simpl. lia. }
  assert (Hx : (0 <= x_at timeAxis c x0 /\ x_at timeAxis c x0 <= x_at timeAxis c x1 /\
    x_at timeAxis c x1 <= xDom timeAxis)%Q).
  { unfold x_at. rewrite !rescaleX_invert_eq, !invertX_eq.
    split_and!; [apply at_range|apply at_mono|apply at_range]; try done; try (by apply Hn); lra. }
  assert (Hy : (0 <= y_at keyAxis c y0 /\ y_at keyAxis c y0 <= y_at keyAxis c y1 /\
    y_at keyAxis c y1 <= yDom keyAxis)%Q).
  { unfold y_at. rewrite !rescaleY_invert_eq, !invertY_eq.
    split_and!; [apply at_range|apply at_mono|apply at_range]; try done; try (by apply Hn); lra. }
  destruct Hx as (Hxa & Hxb & Hxc), Hy as (Hya & Hyb & Hyc).
  destruct (index_range timeAxis _ _ Hxa Hxb Hxc) as (Hi & _ & [t0 Ht0] & [t1 Ht1]).
  destruct (index_range keyAxis _ _ Hya Hyb Hyc) as (Hj & _ & [k0 Hk0'] & [k1 Hk1]).
  exists (Qfloor (x_at timeAxis c x0)), (Qceiling (x_at timeAxis c x1)),
    (Qfloor (y_at keyAxis c y0)), (Qceiling (y_at keyAxis c y1)), t0, t1, k0, k1.
  unfold brush_range. rewrite Hk0', Hk1, Ht0, Ht1.
  split_and!; try done; try lia; apply Qfloor_le || apply Qle_ceiling.
Qed.
End View.

(** ** A concrete transform, for the examples *)

Record ZoomTransform := mkZT { zk : Q; zx : Q; zy : Q }.

#[export] Instance zoom_d3 : D3 ZoomTransform := {
  tr_k := zk; tr_x := zx; tr_y := zy;
  zoomIdentity := mkZT 1 0 0;
  translate t a b := mkZT (zk t) (zx t + zk t * a) (zy t + zk t * b);
  scale_by t k := mkZT (zk t * k) (zx t) (zy t);
  applyX t p := (p * zk t + zx t)%Q;
  applyY t p := (p * zk t + zy t)%Q;
  invertX t p := ((p - zx t) / zk t)%Q;
  invertY t p := ((p - zy t) / zk t)%Q;
  rescaleX t n w v := (v * w / n * zk t + zx t)%Q;
  rescaleY t n w v := (v * w / n * zk t + zy t)%Q;
  rescaleX_invert t n w p := ((p - zx t) / zk t * n / w)%Q;
  rescaleY_invert t n w p := ((p - zy t) / zk t * n / w)%Q
}.

#[export] Instance zoom_laws : D3Laws ZoomTransform.
Proof. split; intros; reflexivity. Qed.

Definition demo_chart : Chart (Tr := ZoomTransform) := size 940 295 initial.

Lemma constrainHard_inside_witness :
  view_inside demo_chart (constrainHard demo_chart (mkZT 2 300 (-500))).
Proof.
  apply (constrainHard_inside demo_chart (mkZT 2 300 (-500))); vm_compute; discriminate.
Defined.

Lemma resize_keeps_view_witness :
  let c := set_transform (mkZT 2 (-300) (-100)) demo_chart in
  (x_at ([10; 20; 30]%Z) (size 540 495 c) 0 == x_at ([10; 20; 30]%Z) c 0)%Q.
Proof.
  apply (resize_keeps_view ([10; 20; 30]%Z) [] (set_transform (mkZT 2 (-300) (-100)) demo_chart) 540 495);
    reflexivity.
Defined.

Lemma brush_range_covers_witness :
  let c := set_transform (mkZT 2 (-300) (-100)) demo_chart in
  exists r, brush_range ([10; 20; 30]%Z) [mkEntry "b" []; mkEntry "a" []] ((5%Q, 7%Q), (200%Q, 90%Q)) c = Called r.
Proof.
  destruct (brush_range_covers ([10; 20; 30]%Z) [mkEntry "b" []; mkEntry "a" []]
    (set_transform (mkZT 2 (-300) (-100)) demo_chart) 5 7 200 90)
    as (i0 & i1 & j0 & j1 & t0 & t1 & k0 & k1 & He & _);
    try (vm_compute; discriminate); try reflexivity; try discriminate.
  - split; [|split; [|split]]; vm_compute; discriminate.
  - eexists. exact He.
Defined.
