(* ===== verification/PlanParser.v ===== *)
(** * Execution plans (ui-v2 3-biz-ui/src/plan-table/parser.ts)

    The two textual formats of an execution plan: tab-separated rows, and a
    table of columns of fixed width.  The loops take fuel; [None] is running out
    of it, which is shown not to happen. *)

From Stdlib Require Import Ascii.
From S2P Require Import Prelude JsString JsNumber.
From stdpp Require Import options.
Local Open Scope Z_scope.

Definition TAB : ascii := ascii_of_nat 9.
Definition LF : ascii := ascii_of_nat 10.

Record PlanItem := mkItem {
  id : string; estRows : string; estCost : string; actRows : string; task : string;
  accessObject : string; executionInfo : string; operatorInfo : string;
  memory : string; disk : string
}.

(** ** The tab-separated format *)

(** The text up to the next tab, and the position after the tab. *)
Definition next_cell (text : string) (curPos : Z) : option (string * Z) :=
  let nextTabPos := js_indexOf_char text TAB curPos in
  if nextTabPos =? -1 then None else Some (js_slice text curPos nextTabPos, nextTabPos + 1).

(** One turn of the loop: the item, and where its last cell ends. *)
Definition v1_row (planV1Text : string) (curPos : Z) : option (PlanItem * Z) :=
  '(id, curPos) ← next_cell planV1Text curPos;
  '(task, curPos) ← next_cell planV1Text curPos;
  '(estRows, curPos) ← next_cell planV1Text curPos;
  '(operatorInfo, curPos) ← next_cell planV1Text curPos;
  '(actRows, curPos) ← next_cell planV1Text curPos;
  '(executionInfo, curPos) ← next_cell planV1Text curPos;
  '(memory, curPos) ← next_cell planV1Text curPos;
  let nextTabPos := js_indexOf_char planV1Text TAB curPos in
  let nextTabPos := if nextTabPos =? -1 then js_length planV1Text else nextTabPos in
  let disk := js_slice planV1Text curPos nextTabPos in
  Some (mkItem (js_trimEnd id) (js_trim estRows) "" (js_trim actRows) (js_trim task) ""
          (js_trim executionInfo) (js_trim operatorInfo) (js_trim memory) (js_trim disk), nextTabPos).

Fixpoint v1_loop (fuel : nat) (planV1Text : string) (curPos : Z) : option (list PlanItem) :=
  match fuel with
  | O => None
  | S fuel =>
      match v1_row planV1Text curPos with
      | None => Some []
      | Some (item, nextTabPos) =>
          if js_length planV1Text <=? nextTabPos then Some [item]
          else (item ::.) <$> v1_loop fuel planV1Text (nextTabPos + 1)
      end
  end.

Definition parsePlanV1TextToArray (planV1Text : string) : option (list PlanItem) :=
  if negb (js_startsWith planV1Text (String TAB "id")) then Some []
  else
    let headerEndPos := js_indexOf_char planV1Text LF 0 in
    let headerLine := js_slice planV1Text 0 headerEndPos in
    let headers := js_split TAB headerLine in
    if negb (Nat.eqb (length headers) 9) then Some []
    else v1_loop (S (String.length planV1Text)) planV1Text (headerEndPos + 2).

(** ** The format of fixed width *)

(** Start and length of the columns, from the lengths of the header's parts. *)
Fixpoint positions (start : Z) (lens : list Z) : list (Z * Z) :=
  match lens with
  | [] => []
  | len :: lens => (start, len) :: positions (start + len + 1) lens
  end.

Definition field (line : string) (p : Z * Z) : string := js_slice line (fst p) (fst p + snd p).

(** The column [id] keeps its leading space out by starting one later. *)
Definition id_field (line : string) (p : Z * Z) : string :=
  js_slice line (fst p + 1) (fst p + snd p).

Definition v2_item (line : string) (ps : list (Z * Z)) : option PlanItem :=
  match ps with
  | [p1; p2; p3; p4; p5; p6; p7; p8; p9; p10] =>
      let get p := js_trim (field line p) in
      Some (mkItem (js_trimEnd (id_field line p1)) (get p2) (get p3) (get p4) (get p5) (get p6)
              (get p7) (get p8) (get p9) (get p10))
  | _ => None
  end.

Fixpoint v2_loop (fuel : nat) (planV2Text : string) (headerLineLen : Z) (ps : list (Z * Z))
    (lineIdx : Z) : option (list PlanItem) :=
  match fuel with
  | O => None
  | S fuel =>
      let lineStart := 1 + (headerLineLen + 1) * lineIdx in
      let lineEnd := 1 + (headerLineLen + 1) * (lineIdx + 1) in
      if js_length planV2Text <? lineEnd then Some []
      else
        item ← v2_item (js_slice planV2Text lineStart lineEnd) ps;
        (item ::.) <$> v2_loop fuel planV2Text headerLineLen ps (lineIdx + 1)
  end.

(** The parts between the bars, without the first and the last. *)
Definition inner_parts (headers : list string) : list string := take 10 (drop 1 headers).

Definition parsePlanV2TextToArray (planV2Text : string) : option (list PlanItem) :=
  let headerEndPos := js_indexOf_char planV2Text LF 1 in
  let headerLine := js_slice planV2Text 1 headerEndPos in
  if negb (js_startsWith headerLine "| id") then Some []
  else
    let headers := js_split "|" headerLine in
    if negb (Nat.eqb (length headers) 12) then Some []
    else v2_loop (S (String.length planV2Text)) planV2Text (js_length headerLine)
           (positions 1 (map js_length (inner_parts headers))) 1.

(** ** Choosing the format *)

Inductive PlanTextType := v1 | v2 | unknown.

Definition getPlanTextType (plan : string) : PlanTextType :=
  if js_startsWith plan (String TAB "id") then v1
  else if js_startsWith plan (String LF "| id") then v2
  else unknown.

Definition parsePlanTextToArray (plan : string) : option (list PlanItem) :=
  match getPlanTextType plan with
  | v1 => parsePlanV1TextToArray plan
  | v2 => parsePlanV2TextToArray plan
  | unknown => Some []
  end.

(** ** The tab-separated format as a list of cells *)

(** Eight cells make a row; cells that do not fill a row are dropped. *)
Fixpoint chunk8 (cells : list string) : list PlanItem :=
  match cells with
  | c1 :: c2 :: c3 :: c4 :: c5 :: c6 :: c7 :: c8 :: rest =>
      mkItem (js_trimEnd c1) (js_trim c3) "" (js_trim c5) (js_trim c2) "" (js_trim c6) (js_trim c4)
        (js_trim c7) (js_trim c8) :: chunk8 rest
  | _ => []
  end.

(** The text after a position, cut at its first tab. *)
Lemma split_first rest w ws :
  js_split TAB rest = w :: ws ->
  match ws with
  | [] => rest = w
  | _ :: _ => exists rest', rest = w +:+ String TAB rest' /\ js_split TAB rest' = ws
  end /\ has_char TAB w = false.
Proof.
  intros Hs. pose proof (js_split_pieces TAB rest) as Hp. pose proof (js_join_split TAB rest) as Hj.
  rewrite Hs in Hp, Hj. apply Forall_cons in Hp as [Hw Hws]. split; [|done].
  destruct ws as [|w' ws]; [by rewrite <-Hj|].
  exists (js_join (String TAB "") (w' :: ws)). split; [|by apply js_split_join].
  rewrite <-Hj. rewrite js_join_cons by done. done.
Qed.

Lemma next_cell_last p rest :
  has_char TAB rest = false -> next_cell (p +:+ rest) (js_length p) = None.
Proof. intros Hr. unfold next_cell. by rewrite js_indexOf_char_none. Qed.

Lemma js_length_app s t : js_length (s +:+ t) = js_length s + js_length t.
Proof. unfold js_length. rewrite str_length_app. lia. Qed.

Lemma js_length_nonneg s : 0 <= js_length s.
Proof. unfold js_length. lia. Qed.

Lemma next_cell_some p w rest :
  has_char TAB w = false ->
  next_cell (p +:+ w +:+ String TAB rest) (js_length p) =
    Some (w, js_length (p +:+ w +:+ String TAB "")).
Proof.
  intros Hw. unfold next_cell. rewrite js_indexOf_char_app by done.
  pose proof (js_length_nonneg p). pose proof (js_length_nonneg w).
  rewrite (proj2 (Z.eqb_neq _ _)) by lia. rewrite js_slice_mid.
  rewrite !js_length_app. do 2 f_equal. change (js_length (String TAB "")) with 1. lia.
Qed.

(** One cell, by the list of cells that remain. *)
Lemma next_cell_cells text p rest w ws :
  text = p +:+ rest -> js_split TAB rest = w :: ws ->
  match ws with
  | [] => next_cell text (js_length p) = None
  | _ :: _ => exists p' rest', text = p' +:+ rest' /\ js_split TAB rest' = ws /\
      next_cell text (js_length p) = Some (w, js_length p') /\ js_length p < js_length p'
  end.
Proof.
  intros -> Hs. destruct (split_first rest w ws Hs) as [Hr Hw]. destruct ws as [|w' ws].
  - subst. by apply next_cell_last.
  - destruct Hr as (rest' & -> & Hs'). exists (p +:+ w +:+ String TAB ""), rest'.
    split_and!; [by rewrite <-!str_app_assoc|done|by apply next_cell_some|].
    rewrite !js_length_app. change (js_length (String TAB "")) with 1.
    pose proof (js_length_nonneg w). lia.
Qed.

Lemma last_cell text p rest w ws :
  text = p +:+ rest -> js_split TAB rest = w :: ws ->
  let e := js_indexOf_char text TAB (js_length p) in
  let e' := if e =? -1 then js_length text else e in
  js_slice text (js_length p) e' = w /\
  match ws with
  | [] => e' = js_length text
  | _ :: _ => exists p' rest', text = p' +:+ rest' /\ js_split TAB rest' = ws /\ e' + 1 = js_length p' /\
      js_length p < js_length p'
  end.
Proof.
  intros -> Hs e e'. destruct (split_first rest w ws Hs) as [Hr Hw]. subst e e'. destruct ws as [|w' ws].
  - subst. rewrite js_indexOf_char_none by done. rewrite Z.eqb_refl. split; [|done].
    rewrite js_length_app. rewrite <-(str_app_nil_r (p +:+ w)), <-str_app_assoc. apply js_slice_mid.
  - destruct Hr as (rest' & -> & Hs'). rewrite js_indexOf_char_app by done.
    pose proof (js_length_nonneg p). pose proof (js_length_nonneg w).
    rewrite (proj2 (Z.eqb_neq _ _)) by lia. split; [apply js_slice_mid|].
    exists (p +:+ w +:+ String TAB ""), rest'. split_and!; [by rewrite <-!str_app_assoc|done| |];
      rewrite !js_length_app; change (js_length (String TAB "")) with 1; lia.
Qed.

(** Reads one cell of [v1_row] in the goal. *)
Ltac read_cell :=
  match goal with
  | Ht : ?text = ?p +:+ ?rest, Hs : js_split TAB ?rest = ?w :: ?ws |- context [next_cell ?text (js_length ?p)] =>
      let Hc := fresh in
      pose proof (next_cell_cells text p rest w ws Ht Hs) as Hc;
      destruct ws; [rewrite Hc; try done|
        destruct Hc as (?p & ?rest & ?Ht & ?Hs & -> & ?Hlt); clear Ht Hs; cbn [mbind option_bind]]
  end.

Lemma v1_row_cells text p rest cells :
  text = p +:+ rest -> js_split TAB rest = cells ->
  match chunk8 cells with
  | [] => v1_row text (js_length p) = None
  | item :: items => exists e, v1_row text (js_length p) = Some (item, e) /\
      (e = js_length text /\ items = [] \/
       exists p' rest', text = p' +:+ rest' /\ e + 1 = js_length p' /\ e < js_length text /\
         chunk8 (js_split TAB rest') = items /\
         (String.length rest' < String.length rest)%nat)
  end.
Proof.
  intros Ht Hs. assert (Hlen : js_length text = js_length p + js_length rest)
    by (rewrite Ht; apply js_length_app).
  destruct cells as [|c1 cells]; [by apply js_split_nonempty in Hs|].
  unfold v1_row. do 7 read_cell.
  match goal with Ht' : text = ?q +:+ ?r, Hs' : js_split TAB ?r = ?w :: ?ws |- _ =>
    destruct (last_cell text q r w ws Ht' Hs') as [Hd He];
    assert (Hq : js_length text = js_length q + js_length r) by (rewrite Ht'; apply js_length_app);
    set (e := if js_indexOf_char text TAB (js_length q) =? -1 then _ else _) in *
  end.
  cbv zeta. rewrite Hd. cbn [chunk8]. exists e. split; [done|].
  match goal with |- context [chunk8 ?ws] => destruct ws as [|c9 ws] end; [by left|].
  right. destruct He as (p' & rest' & Ht' & Hs' & He & Hqp). exists p', rest'.
  assert (Hl' : js_length text = js_length p' + js_length rest') by (rewrite Ht'; apply js_length_app).
  unfold js_length in *. split_and!; [done|lia|lia|by rewrite Hs'|lia].
Qed.

Lemma v1_loop_cells text p rest fuel :
  text = p +:+ rest -> (String.length rest < fuel)%nat ->
  v1_loop fuel text (js_length p) = Some (chunk8 (js_split TAB rest)).
Proof.
  revert p rest. induction fuel as [|fuel IH]; intros p rest Ht Hf; [lia|].
  cbn [v1_loop]. pose proof (v1_row_cells text p rest _ Ht eq_refl) as Hr.
  destruct (chunk8 (js_split TAB rest)) as [|item items]; [by rewrite Hr|].
  destruct Hr as (e & -> & [[-> ->]|(p' & rest' & Ht' & He & Hlt & <- & Hl)]).
  - by rewrite Z.leb_refl.
  - rewrite (proj2 (Z.leb_gt _ _)) by done. rewrite He, (IH p' rest') by (done || lia). done.
Qed.

(** Any position is the length of a prefix, or lies past the end. *)
Lemma str_take_drop n s : str_take n s +:+ str_drop n s = s.
Proof.
  revert n. induction s as [|a s IH]; intros [|n]; try done. simpl.
  by rewrite str_app_cons, IH.
Qed.

Lemma v1_loop_total text curPos :
  0 <= curPos -> exists items, v1_loop (S (String.length text)) text curPos = Some items.
Proof.
  intros Hc. destruct (decide (curPos <= js_length text)) as [Hle|Hgt].
  - exists (chunk8 (js_split TAB (str_drop (Z.to_nat curPos) text))).
    assert (Hp : js_length (str_take (Z.to_nat curPos) text) = curPos).
    { unfold js_length in *. rewrite str_take_length; lia. }
    rewrite <-Hp at 1. apply v1_loop_cells; [by rewrite str_take_drop|].
    rewrite str_drop_length. lia.
  - exists []. cbn [v1_loop]. unfold v1_row, next_cell, js_indexOf_char, js_clamp.
    rewrite (proj2 (Z.ltb_ge _ _)) by (unfold js_length in *; lia).
    unfold js_length in *. rewrite Z.max_r, Z.min_r, Nat2Z.id, str_drop_all by lia. done.
Qed.

Lemma parse_v1_cells h rest :
  has_char LF h = false -> length (js_split TAB (String TAB "id" +:+ h)) = 9%nat ->
  parsePlanV1TextToArray (String TAB "id" +:+ h +:+ String LF (String TAB rest)) =
    Some (chunk8 (js_split TAB rest)).
Proof.
  intros Hh Hl. set (header := String TAB "id" +:+ h) in *.
  set (text := String TAB "id" +:+ h +:+ String LF (String TAB rest)).
  assert (Ht : text = header +:+ String LF (String TAB rest)) by (unfold text, header; apply str_app_assoc).
  assert (Hlf : has_char LF header = false) by (unfold header; by rewrite has_char_app, Hh).
  assert (He : js_indexOf_char text LF 0 = js_length header).
  { rewrite Ht. apply (js_indexOf_char_app LF "" header _ Hlf). }
  assert (Hsl : js_slice text 0 (js_length header) = header)
    by (rewrite Ht; apply (js_slice_mid "" header)).
  unfold parsePlanV1TextToArray. rewrite He, Hsl, Hl.
  replace (js_startsWith text (String TAB "id")) with true by (symmetry; apply prefix_app).
  cbn [negb Nat.eqb].
  replace (js_length header + 2) with (js_length (header +:+ String LF (String TAB "")))
    by (rewrite js_length_app; reflexivity).
  apply v1_loop_cells; [rewrite Ht, <-str_app_assoc; reflexivity|].
  rewrite Ht, str_length_app. simpl. lia.
Qed.

(** ** Printing tab-separated rows *)

Definition v1_cells (i : PlanItem) : list string :=
  [id i; task i; estRows i; operatorInfo i; actRows i; executionInfo i; memory i; disk i].

Definition print_v1 (h : string) (items : list PlanItem) : string :=
  String TAB "id" +:+ h +:+ String LF (String TAB
    (js_join (String LF (String TAB "")) (map (fun i => js_join (String TAB "") (v1_cells i)) items))).

(** Cells without tabs and without surrounding white space; the two columns the
    format lacks are empty. *)
Definition v1_clean (i : PlanItem) : bool :=
  forallb (fun c => negb (has_char TAB c)) (v1_cells i) &&
  bool_decide (js_trimEnd (id i) = id i) &&
  forallb (fun c => bool_decide (js_trim c = c)) (drop 1 (v1_cells i)) &&
  bool_decide (estCost i = "") && bool_decide (accessObject i = "").

Fixpoint all_cells (items : list PlanItem) : list string :=
  match items with
  | [] => []
  | [i] => v1_cells i
  | i :: items => take 7 (v1_cells i) ++ (disk i +:+ String LF "") :: all_cells items
  end.

Lemma js_trimEnd_LF s : js_trimEnd (s +:+ String LF "") = js_trimEnd s.
Proof. induction s as [|a s IH]; [done|]. rewrite str_app_cons. simpl. by rewrite IH. Qed.

Lemma js_trim_LF s : js_trim (s +:+ String LF "") = js_trim s.
Proof.
  unfold js_trim. induction s as [|a s IH]; [done|]. rewrite str_app_cons. simpl.
  destruct (is_ws a); [done|]. rewrite <-str_app_cons. apply js_trimEnd_LF.
Qed.

Lemma all_cells_nonempty items : items <> [] -> all_cells items <> [].
Proof. by destruct items as [|i [|]]. Qed.

Lemma join_rows items :
  js_join (String LF (String TAB "")) (map (fun i => js_join (String TAB "") (v1_cells i)) items) =
    js_join (String TAB "") (all_cells items).
Proof.
  induction items as [|i items IH]; [done|]. destruct items as [|i' items]; [done|].
  change (all_cells (i :: i' :: items))
    with (take 7 (v1_cells i) ++ (disk i +:+ String LF "") :: all_cells (i' :: items)).
  set (rest := all_cells (i' :: items)) in *.
  assert (Hr : rest <> []) by by apply all_cells_nonempty.
  cbn [map]. rewrite js_join_cons by done. cbn [map] in IH. rewrite IH.
  unfold v1_cells. cbn [take app].
  rewrite !(js_join_cons _ (id i)), !(js_join_cons _ (task i)), !(js_join_cons _ (estRows i)),
    !(js_join_cons _ (operatorInfo i)), !(js_join_cons _ (actRows i)),
    !(js_join_cons _ (executionInfo i)), !(js_join_cons _ (memory i)), (js_join_cons _ (_ +:+ _)) by done.
  change (js_join (String TAB "") [disk i]) with (disk i).
  rewrite <-!str_app_assoc. reflexivity.
Qed.

Lemma v1_clean_spec i :
  v1_clean i = true ->
  chunk8 (v1_cells i) = [i] /\ js_trim (disk i) = disk i /\
  Forall (fun c => has_char TAB c = false) (v1_cells i).
Proof.
  unfold v1_clean. intros ((((Ht & Hi)%andb_true_iff & Hc)%andb_true_iff & He)%andb_true_iff & Ha)%andb_true_iff.
  apply bool_decide_eq_true in Hi, He, Ha.
  assert (Hc' : Forall (fun c => js_trim c = c) (drop 1 (v1_cells i))).
  { apply Forall_forall. intros c Hin. rewrite forallb_forall in Hc.
    apply list_elem_of_In, Hc, bool_decide_eq_true in Hin. done. }
  split_and!.
  - destruct i; simpl in *. repeat (apply Forall_cons in Hc' as [? Hc']). congruence.
  - destruct i; simpl in *. by repeat (apply Forall_cons in Hc' as [? Hc']).
  - apply Forall_forall. intros c Hin. rewrite forallb_forall in Ht.
    apply list_elem_of_In, Ht, negb_true_iff in Hin. done.
Qed.

Lemma chunk8_all_cells items : forallb v1_clean items = true -> chunk8 (all_cells items) = items.
Proof.
  induction items as [|i items IH]; [done|]. cbn [forallb]. intros [Hi Hl]%andb_true_iff.
  destruct (v1_clean_spec i Hi) as (Hc & Hd & _). destruct items as [|i' items]; [done|].
  specialize (IH Hl). change (all_cells (i :: i' :: items))
    with (take 7 (v1_cells i) ++ (disk i +:+ String LF "") :: all_cells (i' :: items)).
  cbn [v1_cells take app chunk8] in Hc |- *. rewrite js_trim_LF, IH. congruence.
Qed.

Lemma all_cells_no_tab items :
  forallb v1_clean items = true -> Forall (fun c => has_char TAB c = false) (all_cells items).
Proof.
  induction items as [|i items IH]; [by constructor|]. cbn [forallb]. intros [Hi Hl]%andb_true_iff.
  destruct (v1_clean_spec i Hi) as (_ & _ & Ht). destruct items as [|i' items]; [done|].
  change (all_cells (i :: i' :: items))
    with (take 7 (v1_cells i) ++ (disk i +:+ String LF "") :: all_cells (i' :: items)).
  apply Forall_app. split; [by apply Forall_take|]. constructor; [|by apply IH].
  rewrite has_char_app. apply orb_false_iff. split; [|done]. unfold v1_cells in Ht.
  by repeat (apply Forall_cons in Ht as [? Ht]).
Qed.

(** C38: a plan printed in the tab-separated format is parsed back into the same
    items in order, whatever line breaks their cells contain; and the parser
    returns for every text at all. *)
Theorem plan_v1_roundtrip (h : string) (items : list PlanItem) :
  has_char LF h = false -> length (js_split TAB (String TAB "id" +:+ h)) = 9%nat ->
  items <> [] -> forallb v1_clean items = true ->
  getPlanTextType (print_v1 h items) = v1 /\
  parsePlanTextToArray (print_v1 h items) = Some items /\
  forall text, exists l, parsePlanV1TextToArray text = Some l.
Proof.
  intros Hh Hl Hne Hc.
  assert (Hty : getPlanTextType (print_v1 h items) = v1).
  { unfold getPlanTextType. replace (js_startsWith _ _) with true; [done|].
    symmetry. apply prefix_app. }
  split_and!; [done| |].
  - unfold parsePlanTextToArray. rewrite Hty. unfold print_v1.
    rewrite parse_v1_cells, join_rows by done.
    rewrite js_split_join; [by rewrite chunk8_all_cells|by apply all_cells_nonempty|by apply all_cells_no_tab].
  - intros text. unfold parsePlanV1TextToArray. destruct (negb _); [by eexists|].
    destruct (negb _); [by eexists|]. apply v1_loop_total.
    unfold js_indexOf_char. case_match; lia.
Qed.

(** ** Tables of fixed width *)

(** The cells of a line, each followed by a bar. *)
Fixpoint bars (cells : list string) : string :=
  match cells with [] => "" | c :: cells => c +:+ String "|" (bars cells) end.

Definition print_line (cells : list string) : string := String "|" (bars cells).

Fixpoint print_lines (rows : list (list string)) : string :=
  match rows with [] => "" | r :: rows => print_line r +:+ String LF (print_lines rows) end.

Definition print_v2 (hs : list string) (rows : list (list string)) : string :=
  String LF (print_line hs +:+ String LF (print_lines rows)).

(** What the cells of a line mean: the leading space of the first is dropped,
    its remaining leading spaces are the depth of the operator. *)
Definition row_item (cells : list string) : option PlanItem :=
  match cells with
  | [c1; c2; c3; c4; c5; c6; c7; c8; c9; c10] =>
      Some (mkItem (js_trimEnd (str_drop 1 c1)) (js_trim c2) (js_trim c3) (js_trim c4) (js_trim c5)
              (js_trim c6) (js_trim c7) (js_trim c8) (js_trim c9) (js_trim c10))
  | _ => None
  end.

Lemma split_bars hs :
  Forall (fun h => has_char "|" h = false) hs -> js_split "|" (bars hs) = hs ++ [""].
Proof.
  induction 1 as [|h hs Hh _ IH]; [done|]. cbn [bars]. by rewrite js_split_app_sep, IH.
Qed.

Lemma bars_length hs cs : map js_length cs = map js_length hs -> js_length (bars cs) = js_length (bars hs).
Proof.
  revert hs. induction cs as [|c cs IH]; intros [|h hs]; simpl; try done.
  intros [= Hc Hcs%IH]. rewrite !js_length_app, Hc. unfold js_length in *. simpl. lia.
Qed.

Lemma fields_of_bars line P cs Q :
  line = P +:+ bars cs +:+ Q ->
  map (field line) (positions (js_length P) (map js_length cs)) = cs.
Proof.
  revert P. induction cs as [|c cs IH]; intros P Hl; [done|]. cbn [map positions]. f_equal.
  - unfold field. cbn [fst snd]. rewrite Hl. cbn [bars]. rewrite <-str_app_assoc. apply js_slice_mid.
  - replace (js_length P + js_length c + 1) with (js_length (P +:+ c +:+ String "|" ""))
      by (rewrite !js_length_app; change (js_length (String "|" "")) with 1; lia).
    apply IH. rewrite Hl. cbn [bars]. rewrite <-!str_app_assoc. reflexivity.
Qed.

Lemma id_field_line a c cs Q :
  id_field (print_line (String a c :: cs) +:+ Q) (1, js_length (String a c)) = c.
Proof.
  unfold id_field, print_line. cbn [fst snd bars].
  transitivity (js_slice (String "|" (String a "") +:+ c +:+ (String "|" (bars cs) +:+ Q))
    (js_length (String "|" (String a ""))) (js_length (String "|" (String a "")) + js_length c)).
  - f_equal; [|unfold js_length; simpl; lia]. rewrite !str_app_cons, str_app_nil_l.
    do 2 f_equal. symmetry. exact (str_app_assoc c (String "|" (bars cs)) Q).
  - apply js_slice_mid.
Qed.

Lemma v2_item_line cs item :
  row_item cs = Some item -> str_drop 1 (default "" (head cs)) <> "" \/ default "" (head cs) <> "" ->
  v2_item (print_line cs +:+ String LF "") (positions 1 (map js_length cs)) = Some item.
Proof.
  intros Hr Hne.
  pose proof (fields_of_bars (print_line cs +:+ String LF "") (String "|" "") cs (String LF "") eq_refl) as Hf.
  change (js_length (String "|" "")) with 1 in Hf.
  do 10 (destruct cs as [|? cs]; [done|]). destruct cs; [|done].
  cbn [row_item] in Hr. injection Hr as <-.
  cbn [map positions v2_item] in Hf |- *.
  injection Hf as H1 H2 H3 H4 H5 H6 H7 H8 H9 H10. rewrite H2, H3, H4, H5, H6, H7, H8, H9, H10.
  do 3 f_equal. unfold id_field. cbn [fst snd].
  match goal with |- js_slice (print_line (?c :: ?cs) +:+ _) _ _ = _ =>
    destruct c as [|a c]; [by cbn in Hne; destruct Hne|]; apply (id_field_line a c cs)
  end.
Qed.

(** Rows whose cells are as wide as the columns; the first cell has at least its
    leading space. *)
Definition v2_row_ok (hs cells : list string) : bool :=
  bool_decide (map js_length cells = map js_length hs).

Lemma v2_loop_lines hs rows items P fuel idx :
  length hs = 10%nat -> default "" (head hs) <> "" ->
  forallb (v2_row_ok hs) rows = true -> mapM row_item rows = Some items ->
  js_length P = 1 + (js_length (print_line hs) + 1) * idx ->
  (length rows < fuel)%nat ->
  v2_loop fuel (P +:+ print_lines rows) (js_length (print_line hs))
    (positions 1 (map js_length hs)) idx = Some items.
Proof.
  intros Hl Hh. revert items P fuel idx.
  induction rows as [|r rows IH]; intros items P [|fuel] idx Hok Hit HP Hf;
    cbn [length] in Hf; try lia; cbn [v2_loop print_lines].
  - injection Hit as <-. rewrite str_app_nil_r, HP. rewrite (proj2 (Z.ltb_lt _ _)); [done|].
    pose proof (js_length_nonneg (print_line hs)). lia.
  - cbn [forallb] in Hok. apply andb_true_iff in Hok as [Hr Hok].
    apply bool_decide_eq_true in Hr. cbn [mapM] in Hit.
    destruct (row_item r) as [item|] eqn:Hi; [|done].
    destruct (mapM row_item rows) as [items'|] eqn:Hm; [|done]. injection Hit as <-.
    assert (Hlen : js_length (print_line r +:+ String LF "") = js_length (print_line hs) + 1).
    { rewrite js_length_app. pose proof (bars_length hs r Hr) as Hb.
      unfold print_line, js_length in *. simpl. lia. }
    assert (Ht : P +:+ print_line r +:+ String LF (print_lines rows) =
      P +:+ (print_line r +:+ String LF "") +:+ print_lines rows)
      by (rewrite <-str_app_assoc; reflexivity).
    rewrite Ht. rewrite (proj2 (Z.ltb_ge _ _)).
    + replace (1 + (js_length (print_line hs) + 1) * (idx + 1))
        with (js_length P + js_length (print_line r +:+ String LF "")) by lia.
      rewrite <-HP, js_slice_mid, <-Hr. rewrite (v2_item_line r item); [|done|].
      * cbn [mbind option_bind]. rewrite Hr, str_app_assoc.
        rewrite (IH items' (P +:+ print_line r +:+ String LF "")); try done.
        -- rewrite js_length_app, Hlen. lia.
        -- lia.
      * right. destruct r as [|c r], hs as [|h hs]; try done. simpl in *.
        injection Hr as Hc _. destruct c, h; try done; unfold js_length in Hc; simpl in Hc; lia.
    + rewrite !js_length_app. rewrite js_length_app in Hlen.
      pose proof (js_length_nonneg (print_lines rows)). lia.
Qed.

Lemma print_lines_length rows : (length rows <= String.length (print_lines rows))%nat.
Proof.
  induction rows as [|r rows IH]; [done|]. cbn [print_lines length].
  rewrite str_length_app. unfold print_line. simpl. lia.
Qed.

Lemma has_char_bars c hs :
  c <> "|"%char -> Forall (fun h => has_char c h = false) hs -> has_char c (bars hs) = false.
Proof.
  intros Hc. induction 1 as [|h hs Hh _ IH]; [done|]. cbn [bars].
  rewrite has_char_app, Hh. cbn [has_char]. by rewrite IH, bool_decide_eq_false_2 by congruence.
Qed.

Definition header_ok (hs : list string) : bool :=
  Nat.eqb (length hs) 10 && js_startsWith (default "" (head hs)) " id" &&
  forallb (fun h => negb (has_char "|" h) && negb (has_char LF h)) hs.

Lemma positions_length start lens : length (positions start lens) = length lens.
Proof. revert start. induction lens as [|l lens IH]; intros start; simpl; by rewrite ?IH. Qed.

Lemma v2_loop_total text H ps idx fuel :
  0 <= H -> 0 <= idx -> length ps = 10%nat -> js_length text < idx + Z.of_nat fuel ->
  (0 < fuel)%nat -> exists l, v2_loop fuel text H ps idx = Some l.
Proof.
  intros HH. revert idx. induction fuel as [|fuel IH]; intros idx Hi Hps Hf H0; [lia|].
  cbn [v2_loop]. destruct (js_length text <? _) eqn:E0; [by eexists|]. apply Z.ltb_ge in E0.
  assert (Hit : exists item, v2_item (js_slice text (1 + (H + 1) * idx) (1 + (H + 1) * (idx + 1))) ps = Some item).
  { do 10 (destruct ps as [|? ps]; [done|]). destruct ps; [by eexists|done]. }
  destruct Hit as [item ->]. destruct (IH (idx + 1)) as [l Hl]; [lia|done|lia|nia|].
  exists (item :: l). cbn [mbind option_bind]. by rewrite Hl.
Qed.

(** The parser returns for every text. *)
Lemma parse_v2_total text : exists l, parsePlanV2TextToArray text = Some l.
Proof.
  unfold parsePlanV2TextToArray. case_match; [by eexists|].
  destruct (Nat.eqb _ 12) eqn:E12; [|by eexists]. apply Nat.eqb_eq in E12. cbn [negb].
  apply v2_loop_total; try lia; [apply js_length_nonneg| |unfold js_length; lia].
  unfold inner_parts. rewrite positions_length, length_map, length_take, length_drop. lia.
Qed.

(** A printed table parses to its rows. *)
Lemma printed_v2_parses (hs : list string) (rows : list (list string)) (items : list PlanItem) :
  header_ok hs = true -> forallb (v2_row_ok hs) rows = true -> mapM row_item rows = Some items ->
  getPlanTextType (print_v2 hs rows) = v2 /\ parsePlanTextToArray (print_v2 hs rows) = Some items /\
  forall text, exists l, parsePlanV2TextToArray text = Some l.
Proof.
  intros ((Hl%Nat.eqb_eq & Hid)%andb_true_iff & Hc)%andb_true_iff Hok Hit.
  assert (Hbar : Forall (fun h => has_char "|" h = false) hs /\ Forall (fun h => has_char LF h = false) hs).
  { rewrite !Forall_forall. rewrite forallb_forall in Hc.
    split; intros h Hin; apply list_elem_of_In, Hc, andb_true_iff in Hin as [H1 H2];
      by apply negb_true_iff. }
  destruct Hbar as [Hbar Hlf].
  destruct hs as [|h hs]; [done|]. cbn [head default from_option Datatypes.id] in Hid.
  apply prefix_inv in Hid as [h' ->]. set (hs' := (" id" +:+ h') :: hs) in *.
  assert (Hpl : exists t, print_line hs' = "| id" +:+ t).
  { exists (h' +:+ String "|" (bars hs)). unfold print_line, hs'. cbn [bars].
    by rewrite <-str_app_assoc. }
  destruct Hpl as [t Hpl].
  assert (Hty : getPlanTextType (print_v2 hs' rows) = v2).
  { unfold getPlanTextType, print_v2, js_startsWith. rewrite Hpl, <-str_app_assoc.
    rewrite prefix_cons, bool_decide_eq_false_2 by done.
    change (String LF ("| id" +:+ ?x)) with (String LF "| id" +:+ x).
    by rewrite prefix_app. }
  split_and!; [done| |].
  2: { apply parse_v2_total. }
  unfold parsePlanTextToArray. rewrite Hty. unfold parsePlanV2TextToArray.
  assert (Hlfl : has_char LF (print_line hs') = false).
  { unfold print_line. cbn [has_char]. by rewrite has_char_bars. }
  assert (He : js_indexOf_char (print_v2 hs' rows) LF 1 = 1 + js_length (print_line hs'))
    by (apply (js_indexOf_char_app LF (String LF "") (print_line hs') (print_lines rows) Hlfl)).
  assert (Hs : js_slice (print_v2 hs' rows) 1 (1 + js_length (print_line hs')) = print_line hs')
    by (apply (js_slice_mid (String LF "") (print_line hs'))).
  rewrite He, Hs. unfold js_startsWith. rewrite Hpl at 1. rewrite prefix_app. cbn [negb].
  assert (Hsp : js_split "|" (print_line hs') = "" :: hs' ++ [""]).
  { unfold print_line. change (String "|" (bars hs')) with ("" +:+ String "|" (bars hs')).
    by rewrite js_split_app_sep, split_bars. }
  rewrite Hsp. cbn [length]. rewrite length_app, Hl. cbn [length Nat.add Nat.eqb negb].
  unfold inner_parts. cbn [drop]. rewrite drop_0, take_app_length' by done.
  replace (print_v2 hs' rows) with ((String LF "" +:+ print_line hs' +:+ String LF "") +:+ print_lines rows)
    by (rewrite <-!str_app_assoc; reflexivity).
  apply v2_loop_lines; try done.
  - rewrite !js_length_app. change (js_length (String LF "")) with 1. lia.
  - rewrite str_length_app. pose proof (print_lines_length rows). lia.
Qed.

(** In the format of fixed width every line gives its item: the cells by
    their position, trimmed, the first keeping the indentation of the operator
    tree; a cell may contain bars and line breaks.  The parser returns for every
    text. *)
Theorem plan_v2_lines (hs : list string) (rows : list (list string)) (items : list PlanItem) :
  header_ok hs = true -> forallb (v2_row_ok hs) rows = true -> mapM row_item rows = Some items ->
  getPlanTextType (print_v2 hs rows) = v2 /\ parsePlanTextToArray (print_v2 hs rows) = Some items /\
  forall text, exists l, parsePlanV2TextToArray text = Some l.
Proof. apply printed_v2_parses. Qed.

Definition demo_v1 : PlanItem :=
  mkItem "  └─TableFullScan" "10" "" "7" "cop" "" "time:1ms" ("a" +:+ String LF "b") "1 KB" "N/A".

Lemma plan_v1_roundtrip_witness :
  parsePlanTextToArray (print_v1 (js_repeat (String TAB "x") 7) [demo_v1; demo_v1]) = Some [demo_v1; demo_v1].
Proof.
  apply plan_v1_roundtrip; [reflexivity|reflexivity|discriminate|vm_compute; reflexivity].
Defined.

Definition demo_header : list string :=
  [" id     "; " e "; " c "; " a "; " t "; " o "; " x "; " p  "; " m "; " d "].

Lemma plan_v2_lines_witness :
  parsePlanTextToArray (print_v2 demo_header
    [[" Scan_1 "; " 1 "; " 2 "; " 3 "; " r "; " o "; " x "; "a|b "; " m "; " d "]]) =
  Some [mkItem "Scan_1" "1" "2" "3" "r" "o" "x" "a|b" "m" "d"].
Proof. apply plan_v2_lines; vm_compute; reflexivity. Defined.
