(* ===== verification/Metrics.v ===== *)
(** * Metrics (utils/prometheus, utils/charts.ts of ui/; prom.ts, series-chart.tsx,
      the metric app of ui-v2/)

    The answers of Prometheus and the points drawn from them, the templates of
    the queries, the interval of a chart and the state the charts share. *)

From Stdlib Require Import Ascii QArith Qround Lqa Sorted.
From S2P Require Import Prelude JsString JsNumber TimeRange.
Local Open Scope Z_scope.

Definition DEFAULT_MIN_INTERVAL_SEC : Z := 30.

(** ** Values of samples *)

(** [None] is null. *)
Definition DataPoint := (num * option num)%type.

Definition parseSampleValue (value : string) : num :=
  if String.eqb value "+Inf" then Inf false
  else if String.eqb value "-Inf" then Inf true
  else parseFloat value.

Definition sample_point (value : string) : option num :=
  let v := parseSampleValue value in if isNaN v then None else Some v.

(** ** Filling the gaps of a series (utils/prometheus/data.ts) *)

Record QueryOptions := mkOptions { step : num; start : num; end_ : num }.

Inductive MatrixOrVectorResult :=
| Matrix (values : list (num * string))
| Vector (value : num * string).

Definition isMatrixData (d : MatrixOrVectorResult) : bool :=
  match d with Matrix _ => true | Vector _ => false end.

(** One round of [for (let t = base; before t limit; t += stepMs)] per unit of
    fuel; [None] when the fuel is not enough. *)
Fixpoint fill (fuel : nat) (before : num -> num -> bool) (t limit stepMs : num) : option (list DataPoint) :=
  if before t limit then
    match fuel with
    | O => None
    | S f => cons (t, None) <$> fill f before (num_add t stepMs) limit stepMs
    end
  else Some [].

(** Enough for any positive step, and for a step that is not a number, after
    which no comparison holds; a step below zero never ends the loop. *)
Definition fill_fuel (t limit stepMs : num) : nat :=
  match t, limit, stepMs with
  | Fin a, Fin b, Fin s => S (Z.to_nat (Qceiling ((b - a) / s)))
  | _, _, _ => 1
  end.

Definition gap (before : num -> num -> bool) (t limit stepMs : num) : option (list DataPoint) :=
  fill (fill_fuel t limit stepMs) before t limit stepMs.

(** The loop over the samples: the points, and the next base timestamp. *)
Fixpoint samples_loop (values : list (num * string)) (baseTimestamp stepMs : num)
    : option (list DataPoint * num) :=
  match values with
  | [] => Some ([], baseTimestamp)
  | (ts, v) :: values =>
      let timestamp := num_mul ts 1000 in
      g ← gap num_lt baseTimestamp timestamp stepMs;
      '(dps, base) ← samples_loop values (num_add timestamp stepMs) stepMs;
      Some (g ++ (timestamp, sample_point v) :: dps, base)
  end.

(** The outer option is that of a loop without end, the inner one is null. *)
Definition processRawData (d : MatrixOrVectorResult) (o : QueryOptions) : option (option (list DataPoint)) :=
  match d with
  | Matrix values =>
      let stepMs := if truthy (step o) then num_mul (step o) 1000 else NaN in
      '(dps, base) ← samples_loop values (num_mul (start o) 1000) stepMs;
      g ← gap num_le base (num_mul (end_ o) 1000) stepMs;
      Some (Some (dps ++ g))
  | Vector _ => Some None
  end.

(** ** Templates of queries *)

Definition interval_text (z : Z) : string := show z +:+ "s".

Definition resolveQueryTemplate (template : string) (stepSec : Z) : string :=
  js_replaceAll template "$__rate_interval" (interval_text (Z.max stepSec (4 * DEFAULT_MIN_INTERVAL_SEC))).

Definition DEF_SCRAPE_INTERVAL : Z := 30.

Definition resolvePromQLTemplate (promql : string) (stepSec : Z) (scrapeInterval : option Z) : string :=
  let scrapeInterval := default DEF_SCRAPE_INTERVAL scrapeInterval in
  js_replaceAll promql "$__rate_interval"
    (interval_text (Z.max (stepSec + scrapeInterval) (4 * scrapeInterval))).

(** ** Results of Prometheus (prom.ts) *)

Inductive TransformNullValue := NULL | AS_ZERO.

Record PromResultItem := mkItem { metric : list (string * string); values : list (num * string) }.
Record PromSeriesItem := mkSeries { series_name : string; series_data : list DataPoint }.

Definition transformStrVal (value : string) (nullValue : option TransformNullValue) : option num :=
  let v := parseSampleValue value in
  if isNaN v then match nullValue with Some AS_ZERO => Some (num_of_Z 0) | _ => None end else Some v.

Section Names.
(** [interpolate] of string-template. *)
Context (interpolate : string -> list (string * string) -> string).

Definition transformPromResultItem (item : PromResultItem) (nameTemplate : string)
    (nullValue : option TransformNullValue) : PromSeriesItem :=
  let name := interpolate nameTemplate (metric item) in
  let name :=
    if String.eqb name "" then
      let n := js_join "," (map (fun '(k, v) => k +:+ "=" +:+ v)
                 (filter (fun e => snd e <> "") (metric item))) in
      if String.eqb n "" then n else "{" +:+ n +:+ "}"
    else name in
  let name := if String.eqb name "" then "value" else name in
  mkSeries name (map (fun '(ts, v) => (num_mul ts 1000, transformStrVal v nullValue)) (values item)).

(** One series and its identity (metric/components/chart-body.tsx). *)
Definition transformData (items : list PromResultItem) (qIdx : Z) (legendName : string)
    (nullValue : option TransformNullValue) : list (PromSeriesItem * string) :=
  imap (fun dIdx d => (transformPromResultItem d legendName nullValue,
    show qIdx +:+ "-" +:+ show (Z.of_nat dIdx))) items.
End Names.

(** ** Intervals and ranges *)

(** [Math.floor(x / i) * i] and [Math.ceil(x / i) * i]. *)
Definition floor_to (i x : Q) : Q := (inject_Z (Qfloor (x / i)) * i)%Q.
Definition ceil_to (i x : Q) : Q := (inject_Z (Qceiling (x / i)) * i)%Q.

(** [alignRange] of both interfaces. *)
Definition alignRange (range : Q * Q) (minIntervalSec minRangeSec : option Q) : Q * Q :=
  let minIntervalSec := default (inject_Z DEFAULT_MIN_INTERVAL_SEC) minIntervalSec in
  let minRangeSec := default 60%Q minRangeSec in
  let '(min, max) := range in
  let min := if Qltb (max - min) minRangeSec then (max - minRangeSec)%Q else min in
  (floor_to minIntervalSec min, ceil_to minIntervalSec max).

(** [calcIntervalSec] of [useChartHandle]; [offsetWidth] is that of the element. *)
Definition calcIntervalSec (offsetWidth : option Q) (legendWidth minBinWidth : Q) (range : Q * Q)
    (minIntervalSec : option Q) : Q :=
  let minIntervalSec := default (inject_Z DEFAULT_MIN_INTERVAL_SEC) minIntervalSec in
  let maxDataPoints := ((default 0 offsetWidth - legendWidth) / minBinWidth)%Q in
  if Qle_bool maxDataPoints 0 then minIntervalSec
  else
    let interval := ((snd range - fst range) / maxDataPoints)%Q in
    let roundedInterval := floor_to minIntervalSec interval in
    if Qle_bool roundedInterval minIntervalSec then minIntervalSec else roundedInterval.

Definition calcPromQueryStep (tr : Q * Q) (width : Q) (scrapeInterval minBinWidth : option Q) : Q :=
  let scrapeInterval := default (inject_Z DEF_SCRAPE_INTERVAL) scrapeInterval in
  let minBinWidth := default 4%Q minBinWidth in
  if Qle_bool width 0 then scrapeInterval
  else
    let points := (width / minBinWidth)%Q in
    ceil_to scrapeInterval ((snd tr - fst tr) / points).

(** The end of a brush, in milliseconds (series-chart.tsx). *)
Definition handleBrushEnd (x : option (Q * Q)) : option (Q * Q) :=
  '(a, b) ← x;
  Some (alignRange (inject_Z (Qfloor (a / 1000)), inject_Z (Qfloor (b / 1000))) None None).

Definition niceTimeFormat (seconds : Q) : string :=
  if Qltb (5 * 24 * 60 * 60) seconds then "MM-DD"
  else if Qltb (1 * 24 * 60 * 60) seconds then "MM-DD HH:mm"
  else if Qltb (5 * 60) seconds then "HH:mm"
  else "HH:mm:ss".

(** The argument is in minutes, as [timeTickFormatter] gives it. *)
Definition niceTimeFormatByDay (days : Z) : string :=
  if 5 * 60 * 24 <? days then "MM-DD"
  else if 1 * 60 * 24 <? days then "MM-DD HH:mm"
  else if 5 <? days then "HH:mm"
  else "HH:mm:ss".

(** [a % b], with the sign of [a]. *)
Definition num_rem (a b : num) : num :=
  match a, b with
  | Fin x, Fin y =>
      if Qeq_bool y 0 then NaN
      else let q := (x / y)%Q in
           let t := if Qle_bool 0 q then Qfloor q else Qceiling q in
           Fin (Qred (x - inject_Z t * y))
  | Fin x, Inf _ => Fin x
  | _, _ => NaN
  end.

(** metric/utils/common.ts *)
Definition fixTimeRange (now : Z) (timeRange : V2.TimeRange) (stepSec : option num) : num * num :=
  let stepSec := default (num_of_Z 30) stepSec in
  let tr := V2.toTimeRangeValue now timeRange 0 in
  (num_sub (fst tr) (num_rem (fst tr) stepSec), num_sub (snd tr) (num_rem (snd tr) stepSec)).

(** ** State shared by the charts (metric/shared-state/memory-state.ts) *)

Record ChartState (Config : Type) := mkChart {
  selectedChart : option Config;
  timeRange : V2.TimeRange;
  selectedInstance : option string;
  metricPromAddrs : gmap string string
}.
Arguments mkChart {Config}. Arguments selectedChart {Config}. Arguments timeRange {Config}.
Arguments selectedInstance {Config}. Arguments metricPromAddrs {Config}.

Definition DEF_TIME_RANGE : V2.TimeRange := V2.Relative V2.relative (30 * 60).

Section ChartState.
Context {Config : Type}.
Implicit Types s : ChartState Config.

Definition initialChart : ChartState Config := mkChart None DEF_TIME_RANGE None ∅.
Definition setSelectedChart (c : option Config) s : ChartState Config :=
  mkChart c (timeRange s) (selectedInstance s) (metricPromAddrs s).
Definition setTimeRange (r : V2.TimeRange) s : ChartState Config :=
  mkChart (selectedChart s) r (selectedInstance s) (metricPromAddrs s).
Definition setSelectedInstance (i : option string) s : ChartState Config :=
  mkChart (selectedChart s) (timeRange s) i (metricPromAddrs s).
Definition setMetricPromAddrs (name addr : string) s : ChartState Config :=
  mkChart (selectedChart s) (timeRange s) (selectedInstance s) (<[name := addr]> (metricPromAddrs s)).
Definition resetChart s : ChartState Config := mkChart None DEF_TIME_RANGE None ∅.
End ChartState.

(** Charts hidden by the user, and the value kept in the local storage. *)
Record ChartsSelect := mkSelect { hiddenCharts : list string; stored_charts : option string }.

Definition initialSelect (item : option string) : ChartsSelect :=
  mkSelect (match item with Some s => js_split ","%char s | None => [] end) item.
Definition setHiddenCharts (l : list string) (s : ChartsSelect) : ChartsSelect :=
  mkSelect l (Some (js_join "," l)).
Definition resetSelect (s : ChartsSelect) : ChartsSelect := mkSelect [] None.

(** ** A series on the grid of its query *)

Section Grid.
Context (start step : Z) (Hstep : 0 < step).

Definition tick (k : nat) : Z := (start + Z.of_nat k * step) * 1000.

(** Samples given by their place on the grid. *)
Definition on_grid (samples : list (nat * string)) : list (num * string) :=
  map (fun '(k, v) => (num_of_Z (start + Z.of_nat k * step), v)) samples.

Definition value_at (samples : list (nat * string)) (k : nat) : option num :=
  match find (fun e => Nat.eqb (fst e) k) samples with Some (_, v) => sample_point v | None => None end.

Definition grid_point (samples : list (nat * string)) (k : nat) : DataPoint :=
  (num_of_Z (tick k), value_at samples k).

Definition empty_point (k : nat) : DataPoint := (num_of_Z (tick k), None).

Lemma tick_next k : num_add (num_of_Z (tick k)) (num_of_Z (step * 1000)) = num_of_Z (tick (S k)).
Proof using Type. rewrite num_add_Z. f_equal. unfold tick. lia. Qed.

Lemma fill_grid before L m : forall fuel k,
  (forall j, (j < m)%nat -> before (num_of_Z (tick (k + j))) L = true) ->
  before (num_of_Z (tick (k + m))) L = false -> (m <= fuel)%nat ->
  fill fuel before (num_of_Z (tick k)) L (num_of_Z (step * 1000)) = Some (map empty_point (seq k m)).
Proof using Type.
  induction m as [|m IH]; intros fuel k Ht Hf Hm.
  - rewrite Nat.add_0_r in Hf. destruct fuel; cbn; by rewrite Hf.
  - pose proof (Ht 0%nat ltac:(lia)) as H0. rewrite Nat.add_0_r in H0.
    destruct fuel as [|fuel]; [lia|]. cbn [fill]. rewrite H0, tick_next, IH; [done| | |lia].
    + intros j Hj. replace (S k + j)%nat with (k + S j)%nat by lia. apply Ht. lia.
    + by replace (S k + m)%nat with (k + S m)%nat by lia.
Qed.

Lemma fill_fuel_grid k L m :
  (forall j, (j < m)%nat -> tick (k + j) <= L) ->
  (m <= fill_fuel (num_of_Z (tick k)) (num_of_Z L) (num_of_Z (step * 1000)))%nat.
Proof using Hstep.
  intros Ht. destruct m as [|m]; [lia|]. specialize (Ht m ltac:(lia)).
  cbn. apply le_n_S. apply Nat2Z.inj_le.
  assert (Hq : (inject_Z (Z.of_nat m) <= (inject_Z L - inject_Z (tick k)) / inject_Z (step * 1000))%Q).
  { apply Qle_shift_div_l; [change 0%Q with (inject_Z 0); rewrite <-Zlt_Qlt; lia|].
    unfold Qminus. rewrite <-inject_Z_opp, <-inject_Z_plus, <-inject_Z_mult, <-Zle_Qle.
    unfold tick in *. nia. }
  pose proof (Qle_trans _ _ _ Hq (Qle_ceiling _)) as Hc. rewrite <-Zle_Qle in Hc. lia.
Qed.

Lemma gap_before k k' :
  (k <= k')%nat ->
  gap num_lt (num_of_Z (tick k)) (num_of_Z (tick k')) (num_of_Z (step * 1000)) =
    Some (map empty_point (seq k (k' - k))).
Proof using Hstep.
  intros Hk. unfold gap. apply fill_grid.
  - intros j Hj. rewrite num_lt_Z. apply Z.ltb_lt. unfold tick. nia.
  - rewrite num_lt_Z. apply Z.ltb_ge. unfold tick. nia.
  - apply fill_fuel_grid. intros j Hj. unfold tick. nia.
Qed.

(** The number of ticks up to [L] seconds. *)
Definition ticks_to (L : Z) : nat := Z.to_nat ((L - start) / step + 1).

Lemma tick_le L j : (tick j <=? L * 1000) = Nat.ltb j (ticks_to L).
Proof using Hstep.
  unfold tick, ticks_to. destruct (Nat.ltb_spec j (Z.to_nat ((L - start) / step + 1))) as [Hj|Hj].
  - apply Z.leb_le. assert (Z.of_nat j <= (L - start) / step) by lia.
    pose proof (Z.mul_div_le (L - start) step Hstep). nia.
  - apply Z.leb_gt. assert ((L - start) / step < Z.of_nat j) as Hd by lia.
    pose proof (Z.mul_succ_div_gt (L - start) step Hstep). nia.
Qed.

Lemma gap_to_end k L :
  gap num_le (num_of_Z (tick k)) (num_of_Z (L * 1000)) (num_of_Z (step * 1000)) =
    Some (map empty_point (seq k (ticks_to L - k))).
Proof using Hstep.
  unfold gap. apply fill_grid.
  - intros j Hj. rewrite num_le_Z, tick_le. apply Nat.ltb_lt. lia.
  - rewrite num_le_Z, tick_le. apply Nat.ltb_ge. lia.
  - apply fill_fuel_grid. intros j Hj. apply Z.leb_le. rewrite tick_le. apply Nat.ltb_lt. lia.
Qed.

(** The tick after the last sample. *)
Definition end_tick (k : nat) (samples : list (nat * string)) : nat :=
  fold_left (fun _ e => S (fst e)) samples k.

Lemma value_at_absent samples k : Forall (fun e => fst e <> k) samples -> value_at samples k = None.
Proof using Type.
  unfold value_at. induction 1 as [|[j v] l Hj _ IH]; [done|]. cbn in *.
  by rewrite (proj2 (Nat.eqb_neq _ _) Hj).
Qed.

Lemma grid_points_absent samples k n :
  Forall (fun e => (k + n <= fst e)%nat) samples ->
  map (grid_point samples) (seq k n) = map empty_point (seq k n).
Proof using Type.
  intros Hl. apply map_ext_in. intros j Hj%in_seq. unfold grid_point, empty_point. f_equal.
  apply value_at_absent. eapply Forall_impl; [exact Hl|]. cbn. lia.
Qed.

Lemma grid_points_past k v samples a n :
  (k < a)%nat -> map (grid_point ((k, v) :: samples)) (seq a n) = map (grid_point samples) (seq a n).
Proof using Type.
  intros Ha. apply map_ext_in. intros j Hj%in_seq. unfold grid_point, value_at. cbn.
  by rewrite (proj2 (Nat.eqb_neq k j)) by lia.
Qed.

Lemma end_tick_ge k samples :
  Forall (fun e => (k <= fst e)%nat) samples -> StronglySorted lt (map fst samples) ->
  (k <= end_tick k samples)%nat.
Proof using Type.
  revert k. induction samples as [|[j v] l IH]; intros k Hk Hs; [done|]. cbn in *.
  inversion_clear Hk as [|? ? Hj _]. inversion_clear Hs as [|? ? Hs' Hjl]. cbn in Hj.
  enough (S j <= end_tick (S j) l)%nat by (unfold end_tick in *; lia).
  apply IH; [|done]. by rewrite Forall_fmap in Hjl.
Qed.

Lemma seq_split a b c : (a <= b)%nat -> (b <= c)%nat -> seq a (c - a) = seq a (b - a) ++ seq b (c - b).
Proof using Type.
  intros. replace (c - a)%nat with ((b - a) + (c - b))%nat by lia. rewrite seq_app.
  by replace (a + (b - a))%nat with b by lia.
Qed.

Lemma samples_loop_grid samples : forall k,
  Forall (fun e => (k <= fst e)%nat) samples -> StronglySorted lt (map fst samples) ->
  samples_loop (on_grid samples) (num_of_Z (tick k)) (num_of_Z (step * 1000)) =
    Some (map (grid_point samples) (seq k (end_tick k samples - k)), num_of_Z (tick (end_tick k samples))).
Proof using Hstep.
  induction samples as [|[j v] l IH]; intros k Hk Hs.
  - cbn. by rewrite Nat.sub_diag.
  - inversion_clear Hk as [|? ? Hj _]. cbn in Hs. inversion_clear Hs as [|? ? Hs' Hjl]. cbn in Hj.
    assert (Hl : Forall (fun e => (S j <= fst e)%nat) l) by (by rewrite Forall_fmap in Hjl).
    cbn [on_grid map samples_loop]. rewrite (num_mul_Z _ 1000). fold (tick j).
    rewrite gap_before by done. cbn [mbind option_bind]. rewrite tick_next.
    fold (on_grid l). rewrite (IH (S j)) by done. cbn [mbind option_bind].
    change (end_tick k ((j, v) :: l)) with (end_tick (S j) l). do 2 f_equal.
    pose proof (end_tick_ge (S j) l Hl Hs').
    rewrite (seq_split k j (end_tick (S j) l)) by lia. rewrite map_app. f_equal.
    + symmetry. apply grid_points_absent. constructor; [cbn; lia|]. eapply Forall_impl; [exact Hl|]. cbn; lia.
    + replace (end_tick (S j) l - j)%nat with (S (end_tick (S j) l - S j)) by lia. cbn [seq map].
      rewrite grid_points_past by lia. f_equal. unfold grid_point, value_at. cbn. by rewrite Nat.eqb_refl.
Qed.

Lemma grid_points_after samples k n :
  Forall (fun e => (fst e < k)%nat) samples ->
  map (grid_point samples) (seq k n) = map empty_point (seq k n).
Proof using Type.
  intros Hl. apply map_ext_in. intros j Hj%in_seq. unfold grid_point, empty_point. f_equal.
  apply value_at_absent. eapply Forall_impl; [exact Hl|]. cbn. lia.
Qed.

Lemma before_end_tick k samples :
  Forall (fun e => (k <= fst e)%nat) samples -> StronglySorted lt (map fst samples) ->
  Forall (fun e => (fst e < end_tick k samples)%nat) samples.
Proof using Type.
  revert k. induction samples as [|[j v] l IH]; intros k Hk Hs; [done|]. cbn in *.
  inversion_clear Hk as [|? ? Hj _]. inversion_clear Hs as [|? ? Hs' Hjl].
  assert (Hl : Forall (fun e => (S j <= fst e)%nat) l) by (by rewrite Forall_fmap in Hjl).
  change (fold_left _ l (S j)) with (end_tick (S j) l). constructor.
  - cbn. pose proof (end_tick_ge (S j) l Hl Hs'). lia.
  - by apply IH.
Qed.
End Grid.

(** C39: processing the samples of a query ends, and gives exactly one point for
    every tick of the query from its start to its end, or to the last sample when
    that is later, in order: the value of the sample of that tick, null where
    there is none or where it is not a number. *)
Theorem raw_data_fills_grid (start step end_ : Z) (samples : list (nat * string)) :
  0 < step -> StronglySorted lt (map fst samples) ->
  processRawData (Matrix (on_grid start step samples))
    (mkOptions (num_of_Z step) (num_of_Z start) (num_of_Z end_)) =
  Some (Some (map (grid_point start step samples)
    (seq 0 (Nat.max (end_tick 0 samples) (ticks_to start step end_))))).
Proof.
  intros Hstep Hs. unfold processRawData. cbn [Metrics.start Metrics.step Metrics.end_].
  rewrite truthy_num_Z, (proj2 (Z.eqb_neq step 0)) by lia. cbn [negb].
  rewrite !(num_mul_Z _ 1000).
  replace (start * 1000) with (tick start step 0) by (unfold tick; lia).
  assert (H0 : Forall (fun e : nat * string => (0 <= fst e)%nat) samples)
    by (apply Forall_true; intros; lia).
  rewrite samples_loop_grid by done. cbn [mbind option_bind]. rewrite gap_to_end by done.
  cbn [mbind option_bind]. do 2 f_equal. rewrite Nat.sub_0_r.
  rewrite <-(grid_points_after _ _ samples) by (by apply before_end_tick). rewrite <-map_app. f_equal.
  rewrite <-(seq_app (end_tick 0 samples)). f_equal. lia.
Qed.

Lemma raw_data_fills_grid_witness :
  processRawData (Matrix (on_grid 0 30 [(1%nat, "2"); (3%nat, "+Inf")]))
    (mkOptions (num_of_Z 30) (num_of_Z 0) (num_of_Z 130)) =
  Some (Some [(num_of_Z 0, None); (num_of_Z 30000, Some (num_of_Z 2)); (num_of_Z 60000, None);
              (num_of_Z 90000, Some (Inf false)); (num_of_Z 120000, None)]).
Proof.
  rewrite (raw_data_fills_grid 0 30 130 [(1%nat, "2"); (3%nat, "+Inf")]); [vm_compute; reflexivity|lia|].
  repeat constructor.
Defined.

(** ** Alignment *)

Section Rounding.
Context (i : Q) (Hi : (0 < i)%Q).

Lemma floor_to_le x : (floor_to i x <= x)%Q.
Proof using Hi.
  unfold floor_to. pose proof (Qfloor_le (x / i)) as Hf.
  apply (Qmult_le_compat_r _ _ i) in Hf; [|lra].
  assert (He : (x / i * i == x)%Q) by (field; lra). by rewrite He in Hf.
Qed.

Lemma floor_to_gt x : (x < floor_to i x + i)%Q.
Proof using Hi.
  unfold floor_to. pose proof (Qlt_floor (x / i)) as Hf. rewrite inject_Z_plus in Hf.
  apply (Qmult_lt_compat_r _ _ i) in Hf; [|done].
  assert (He : (x / i * i == x)%Q) by (field; lra). rewrite He in Hf.
  assert (Hd : ((inject_Z (Qfloor (x / i)) + inject_Z 1) * i == inject_Z (Qfloor (x / i)) * i + i)%Q) by ring.
  by rewrite Hd in Hf.
Qed.

Lemma ceil_to_floor x : (ceil_to i x == - floor_to i (- x))%Q.
Proof using Type.
  unfold ceil_to, floor_to, Qceiling. rewrite inject_Z_opp.
  assert (He : (- (x / i) == - x / i)%Q) by (unfold Qdiv; ring). rewrite (Qfloor_comp _ _ He). ring.
Qed.

Lemma ceil_to_ge x : (x <= ceil_to i x)%Q.
Proof using Hi. rewrite ceil_to_floor. pose proof (floor_to_le (- x)). lra. Qed.

Lemma ceil_to_lt x : (ceil_to i x < x + i)%Q.
Proof using Hi. rewrite ceil_to_floor. pose proof (floor_to_gt (- x)). lra. Qed.
End Rounding.

(** A range is aligned outwards: it covers the given range, begins and ends
    at multiples of the interval, is not shorter than the minimal range, and each
    end moves by less than one interval beyond what that needs. *)
Theorem align_range_covers (a b i m : Q) :
  (0 < i)%Q -> (a <= b)%Q ->
  let r := alignRange (a, b) (Some i) (Some m) in
  (exists x y, fst r == inject_Z x * i /\ snd r == inject_Z y * i)%Q /\
  (fst r <= a /\ b <= snd r /\ m <= snd r - fst r)%Q /\
  (a - i < fst r \/ b - m - i < fst r)%Q /\ (snd r < b + i)%Q.
Proof.
  intros Hi Hab.
  change (alignRange (a, b) (Some i) (Some m)) with
    (floor_to i (if Qltb (b - a) m then b - m else a), ceil_to i b)%Q. cbn [fst snd].
  set (lo := if Qltb (b - a) m then (b - m)%Q else a).
  assert (Hlo : (lo <= a /\ m <= b - lo)%Q /\ (lo == a \/ lo == b - m)%Q).
  { unfold lo. destruct (Qltb (b - a) m) eqn:E; [apply Qltb_true in E|apply Qltb_false in E]; split; lra. }
  destruct Hlo as [[Hla Hm] He]. clearbody lo.
  pose proof (floor_to_le i Hi lo). pose proof (floor_to_gt i Hi lo).
  pose proof (ceil_to_ge i Hi b). pose proof (ceil_to_lt i Hi b).
  split; [by eexists _, _|]. split; [lra|]. split; [|lra].
  destruct He; [left|right]; lra.
Qed.

Lemma align_range_covers_witness :
  alignRange (100, 110)%Q (Some 30%Q) (Some 60%Q) = (30 # 1, 120 # 1)%Q /\
  (fst (alignRange (100, 110) (Some 30) (Some 60)) <= 100)%Q.
Proof.
  split; [by vm_compute|].
  apply (align_range_covers 100 110 30 60); [by vm_compute|by vm_compute].
Defined.

Lemma num_rem_pos x y :
  (0 <= x)%Q -> (0 < y)%Q -> exists z, num_rem (Fin x) (Fin y) = Fin z /\ (z == x - floor_to y x)%Q.
Proof.
  intros Hx Hy. unfold num_rem. destruct (Qeq_bool y 0) eqn:E; [apply Qeq_bool_eq in E; lra|].
  assert (Hq : (0 <= x / y)%Q) by (apply Qle_shift_div_l; lra).
  rewrite (proj2 (Qle_bool_iff _ _) Hq). eexists. split; [done|]. by rewrite Qred_correct.
Qed.

Lemma floor_to_comp i x y : (x == y)%Q -> (floor_to i x == floor_to i y)%Q.
Proof. intros He. unfold floor_to. assert (Hd : (x / i == y / i)%Q) by (by rewrite He). by rewrite (Qfloor_comp _ _ Hd). Qed.

Lemma fix_side x y :
  (0 <= x)%Q -> (0 < y)%Q ->
  exists z, num_sub (num_add (Fin x) (num_of_Z 0)) (num_rem (num_add (Fin x) (num_of_Z 0)) (Fin y)) = Fin z /\
    (z == floor_to y x)%Q.
Proof.
  intros Hx Hy. assert (Hs : (Qred (x + inject_Z 0) == x)%Q) by (rewrite Qred_correct; ring).
  change (num_add (Fin x) (num_of_Z 0)) with (Fin (Qred (x + inject_Z 0))).
  generalize dependent (Qred (x + inject_Z 0)). intros x' Hs.
  assert (Hx' : (0 <= x')%Q) by lra.
  destruct (num_rem_pos x' y Hx' Hy) as (z & -> & Hz).
  exists (Qred (x' + Qred (- z))). split; [done|].
  rewrite !Qred_correct. rewrite Hz, (floor_to_comp y _ _ Hs). lra.
Qed.

(** The step of a metric query is a positive multiple of the scrape interval
    for which the points of the range fit in the width of the chart, and the
    range that is queried begins and ends at multiples of the step, so that it
    has at most one point more. *)
Theorem query_points_fit (now : Z) (a b width scrape bin : Q) :
  (0 < width)%Q -> (0 < scrape)%Q -> (0 < bin)%Q -> (0 <= a)%Q -> (a < b)%Q ->
  let st := calcPromQueryStep (a, b) width (Some scrape) (Some bin) in
  (exists n, (0 < n)%Z /\ st == inject_Z n * scrape)%Q /\
  (b - a <= st * (width / bin))%Q /\
  exists qa qb, fixTimeRange now (V2.Absolute (Fin a, Fin b)) (Some (Fin st)) = (Fin qa, Fin qb) /\
    (qa == floor_to st a /\ qb == floor_to st b)%Q /\
    (qb - qa <= st * (width / bin + 1))%Q.
Proof.
  intros Hw Hs Hb Ha Hab st.
  assert (Hp : (0 < width / bin)%Q) by (apply Qlt_shift_div_l; lra).
  set (x := ((b - a) / (width / bin))%Q).
  assert (Hx : (0 < x)%Q) by (apply Qlt_shift_div_l; lra).
  assert (Hxe : (x * (width / bin) == b - a)%Q) by (unfold x; field; lra).
  assert (Hst : st = ceil_to scrape x).
  { unfold st, calcPromQueryStep.
    destruct (Qle_bool width 0) eqn:E; [apply Qle_bool_iff in E; lra|done]. }
  pose proof (ceil_to_ge scrape Hs x) as Hge. rewrite <-Hst in Hge.
  assert (Hpos : (0 < st)%Q) by lra.
  split; [|split].
  - exists (Qceiling (x / scrape)). split; [|by rewrite Hst].
    apply Z.lt_nge. intros Hn. rewrite Zle_Qle in Hn.
    apply (Qmult_le_compat_r _ _ scrape) in Hn; [|lra]. unfold ceil_to in Hst.
    rewrite <-Hst in Hn. change (inject_Z 0) with 0%Q in Hn. lra.
  - apply (Qmult_le_compat_r _ _ (width / bin)) in Hge; lra.
  - destruct (fix_side a st Ha Hpos) as (qa & Ea & Hqa).
    destruct (fix_side b st) as (qb & Eb & Hqb); [lra|done|].
    exists qa, qb. split; [exact (f_equal2 pair Ea Eb)|]. split; [done|].
    pose proof (floor_to_gt st Hpos a). pose proof (floor_to_le st Hpos b).
    apply (Qmult_le_compat_r _ _ (width / bin)) in Hge; lra.
Qed.

Lemma query_points_fit_witness :
  let st := calcPromQueryStep (100, 4000)%Q 400%Q (Some 30%Q) (Some 4%Q) in
  (st == 60)%Q /\
  exists qa qb, fixTimeRange 0 (V2.Absolute (Fin 100%Q, Fin 4000%Q)) (Some (Fin st)) = (Fin qa, Fin qb) /\
    (qb - qa <= st * (400 / 4 + 1))%Q.
Proof.
  split; [by vm_compute|].
  destruct (query_points_fit 0 100 4000 400 30 4) as (_ & _ & qa & qb & He & _ & Hl);
    [by vm_compute..|].
  by exists qa, qb.
Defined.

(** ** Values and names *)

Lemma transformStrVal_not_nan v nv x : transformStrVal v nv = Some x -> isNaN x = false.
Proof. unfold transformStrVal. destruct (isNaN (parseSampleValue v)) eqn:E; js_cases; by intros [= <-]. Qed.

(** A series always has a name, and its values are never NaN. *)
Lemma transform_named interpolate item tpl nv :
  let s := transformPromResultItem interpolate item tpl nv in
  series_name s <> "" /\ Forall (fun p => forall x, snd p = Some x -> isNaN x = false) (series_data s).
Proof.
  split.
  - unfold transformPromResultItem. cbn [series_name]. case_match eqn:E; [done|].
    by apply String.eqb_neq in E.
  - cbn. apply Forall_fmap, Forall_forall. intros [t v] _ x. cbn. apply transformStrVal_not_nan.
Qed.

(** ** Hidden charts *)

(** The hidden charts are read back on the next visit, but when none is
    hidden any more they are read back as one chart without a name. *)
Theorem hidden_charts_roundtrip (l : list string) (s : ChartsSelect) :
  Forall (fun c => has_char "," c = false) l ->
  hiddenCharts (initialSelect (stored_charts (setHiddenCharts l s))) = if decide (l = []) then [""] else l.
Proof.
  intros Hl. cbn. destruct (decide (l = [])) as [->|Hn]; [done|]. by apply js_split_join.
Qed.

Lemma hidden_charts_roundtrip_witness :
  hiddenCharts (initialSelect (stored_charts (setHiddenCharts [] (initialSelect None)))) = [""].
Proof. rewrite (hidden_charts_roundtrip [] (initialSelect None)); [reflexivity|constructor]. Defined.
