(* ===== verification/TableColumns.v ===== *)
(** * Columns of the tables (utils/tableColumnFactory.tsx,
      apps/Statement/utils/tableColumns.tsx, apps/SlowQuery/utils/tableColumns.tsx,
      components/ColumnsSelector, components/CardTable)

    Which columns a table has, which fields of a row each of them shows, which
    fields a list asks the backend for, and how the table filters and sorts.
    What a column renders is a value of [Cell]; the elements of React around it
    are left out. *)

From Stdlib Require Import QArith Lqa Sorted.
From S2P Require Import Prelude JsString JsNumber.
Local Open Scope Z_scope.

(** ** Rows *)

Inductive val := VNum (n : num) | VStr (s : string).

(** [rec[fieldName]]; [None] is undefined. *)
Definition Row := string -> option val.

(** [a < b]; a comparison with undefined is false. *)
Definition js_lt (a b : option val) : bool :=
  match a, b with
  | Some (VStr s), Some (VStr t) => String.ltb s t
  | Some (VNum x), Some (VNum y) => num_lt x y
  | Some (VNum x), Some (VStr t) => num_lt x (js_Number t)
  | Some (VStr s), Some (VNum y) => num_lt (js_Number s) y
  | _, _ => false
  end.

Definition is_num (v : option val) (n : Z) : bool :=
  match v with Some (VNum x) => num_le x (num_of_Z n) && num_le (num_of_Z n) x | _ => false end.

Definition truthy_val (v : option val) : bool :=
  match v with Some (VNum x) => truthy x | Some (VStr s) => truthy s | None => false end.

(** [a + b] on the fields of the rows, numbers by their types. *)
Definition js_plus (a b : option val) : option val :=
  match a, b with
  | Some (VNum x), Some (VNum y) => Some (VNum (num_add x y))
  | _, _ => Some (VNum NaN)
  end.

(** ** Columns *)

Inductive ColName := Plain (s : string) | TransKey (s : string).

Record DerivedBar := mkBar { tooltipPrefix : string; barField : string }.

(** What [onRender] does. *)
Inductive Render :=
| TextCell (f : string)
| SingleBar (f unit : string) (capacity : val)
| MultipleBar (avg max : DerivedBar) (min : option DerivedBar) (unit : string) (capacity : val)
| TimestampCell (f : string)
| SqlCell (f : string) (showFullSQL : option bool)
| ErrorsWarnings (capacity : val)
| Evicted (r : Render)
| ResultStatus
| InternalCell.

Record IColumn := mkColumn {
  name : ColName;
  key : string;
  fieldName : string;
  minWidth : Z;
  maxWidth : option Z;
  clickable : option bool; (* columnActionsMode *)
  isMultiline : option bool;
  onRender : Render
}.

Record Column := mkCol { config : IColumn; transPrefix : option string }.

Definition TranslatedColumnName (prefix field : string) : ColName :=
  TransKey (prefix +:+ "." +:+ field).

Definition name_text (n : ColName) : string :=
  match n with Plain s => s | TransKey _ => "[object Object]" end.

Definition getConfig (c : Column) : IColumn :=
  let i := config c in
  mkColumn (match transPrefix c with
            | Some p => if truthy p then TranslatedColumnName p (name_text (name i)) else name i
            | None => name i
            end)
    (key i) (fieldName i) (minWidth i) (maxWidth i) (clickable i) (isMultiline i) (onRender i).

Definition setConfig (i : IColumn) (c : Column) : Column := mkCol i (transPrefix c).

(** A partial configuration: what is absent is kept. *)
Record Patch := mkPatch {
  p_name : option ColName; p_minWidth : option Z; p_maxWidth : option Z;
  p_clickable : option bool; p_render : option Render
}.

Definition patchConfig (p : Patch) (c : Column) : Column :=
  let i := config c in
  setConfig (mkColumn (default (name i) (p_name p)) (key i) (fieldName i)
    (default (minWidth i) (p_minWidth p))
    (match p_maxWidth p with Some w => Some w | None => maxWidth i end)
    (match p_clickable p with Some b => Some b | None => clickable i end)
    (isMultiline i) (default (onRender i) (p_render p))) c.

Definition widths (lo hi : Z) : Patch := mkPatch None (Some lo) (Some hi) None None.
Definition clickable_widths (lo hi : Z) : Patch := mkPatch None (Some lo) (Some hi) (Some true) None.

(** An element of the array given to [columns]: a [Column] or a configuration. *)
Inductive control_config := IsColumn (c : Column) | IsConfig (i : IColumn).

Definition ColumnArray (l : list control_config) : list Column :=
  map (fun c => match c with IsColumn c => c | IsConfig i => mkCol i None end) l.

Definition array_getConfig (l : list Column) : list IColumn := map getConfig l.

Section Factory.
(** [max] of lodash, which skips undefined. *)
Context (max_ : list (option val) -> option val).

Record TableColumnFactory := mkFactory {
  tcfPrefix : string; allowColumns : list string; allowColumnsMap : gmap string bool
}.

Definition newFactory (prefix : string) (allow : list string) : TableColumnFactory :=
  mkFactory prefix allow (foldl (fun m f => <[f := true]> m) ∅ allow).

Definition control (tcf : TableColumnFactory) (i : IColumn) : Column := mkCol i (Some (tcfPrefix tcf)).

Definition columns (tcf : TableColumnFactory) (l : list control_config) : list IColumn :=
  let cs := array_getConfig (ColumnArray l) in
  match allowColumns tcf with
  | [] => cs
  | _ => filter (fun c => allowColumnsMap tcf !! fieldName c = Some true) cs
  end.

Definition capacity_of (value : Row -> option val) (rows : option (list Row)) : val :=
  match rows with
  | Some rows => default (VNum 0) (max_ (map value rows))
  | None => VNum 0
  end.

Definition textWithTooltip (tcf : TableColumnFactory) (f : string) : Column :=
  control tcf (mkColumn (Plain f) f f 100 (Some 150) None None (TextCell f)).

Definition singleBar (tcf : TableColumnFactory) (f unit : string) (rows : option (list Row)) : Column :=
  control tcf (mkColumn (Plain f) f f 140 (Some 200) (Some true) None
    (SingleBar f unit (capacity_of (fun v => v f) rows))).

(** The first three sources are shown; the code has at least two of them. *)
Definition multipleBar (tcf : TableColumnFactory) (displayTransKey : option string)
    (avg max : DerivedBar) (min : option DerivedBar) (unit : string) (rows : option (list Row)) : Column :=
  control tcf (mkColumn (Plain (js_or displayTransKey (barField avg))) (barField avg) (barField avg)
    140 (Some 200) (Some true) None
    (MultipleBar avg max min unit (capacity_of (fun v => v (barField max)) rows))).

Definition timestamp (tcf : TableColumnFactory) (f : string) : Column :=
  control tcf (mkColumn (Plain f) f f 100 (Some 150) (Some true) None (TimestampCell f)).

Definition sqlText (tcf : TableColumnFactory) (f : string) (showFullSQL : option bool) : Column :=
  control tcf (mkColumn (Plain f) f f 100 (Some 500) None showFullSQL (SqlCell f showFullSQL)).
End Factory.

(** ** What a cell shows *)

Inductive Cell :=
| Text (v : option val)
| Bar (value : list (option val)) (bar_max bar_min : option val) (capacity : val)
    (text : list string) (tooltip : list (string * string))
| Calendar (v : option val)
| HighlightSQL (full : bool) (v : option val)
| Others
| Badge (success : bool)
| YesNo (yes : bool).

Section Cells.
(** [getValueFormat] of the value formats library and what it returns. *)
Context (getValueFormat : string -> option val -> list Z -> string).

(** The default of [decimals] is 1. *)
Definition formatVal (v : option val) (unit : string) : string :=
  if String.eqb unit "short" then getValueFormat unit v [0; 1] else getValueFormat unit v [1].

(** The lines of the tooltip are given as label and value, without the padding
    between them. *)
Fixpoint render (r : Render) (rec : Row) : Cell :=
  match r with
  | TextCell f => Text (rec f)
  | SingleBar f unit capacity => Bar [rec f] None None capacity [formatVal (rec f) unit] []
  | MultipleBar avg max min unit capacity =>
      Bar [rec (barField avg)] (rec (barField max)) (min ≫= fun m => rec (barField m)) capacity
        [formatVal (rec (barField avg)) unit]
        (map (fun b => (tooltipPrefix b, formatVal (rec (barField b)) unit))
          ([avg] ++ option_list min ++ [max]))
  | TimestampCell f => Calendar (rec f)
  | SqlCell f full => HighlightSQL (default false full) (rec f)
  | ErrorsWarnings capacity =>
      let e := formatVal (rec "sum_errors") "short" in
      let w := formatVal (rec "sum_warnings") "short" in
      Bar [rec "sum_errors"; rec "sum_warnings"] None None capacity [e; w] [("Errors", e); ("Warnings", w)]
  | Evicted r => if truthy_val (rec "digest") then render r rec else Others
  | ResultStatus => Badge (is_num (rec "success") 1)
  | InternalCell => YesNo (is_num (rec "is_internal") 1)
  end.

(** The fields a cell depends on. *)
Fixpoint fields_read (r : Render) : list string :=
  match r with
  | TextCell f | SingleBar f _ _ | TimestampCell f | SqlCell f _ => [f]
  | MultipleBar avg max min _ _ => [barField avg; barField max] ++ option_list (barField <$> min)
  | ErrorsWarnings _ => ["sum_errors"; "sum_warnings"]
  | Evicted r => "digest" :: fields_read r
  | ResultStatus => ["success"]
  | InternalCell => ["is_internal"]
  end.

Lemma render_depends r rec rec' :
  (forall f, f ∈ fields_read r -> rec f = rec' f) -> render r rec = render r rec'.
Proof.
  induction r as [f|f u c|avg mx [mn|] u c|f|f o|c|r IH| |]; cbn; intros He;
    repeat match goal with |- context [rec ?f] => rewrite (He f) by set_solver end; try done.
  rewrite IH; [done|]. intros f Hf. apply He. by right.
Qed.
End Cells.

(** ** Fields to request *)

Inductive sources := BarSources (l : list DerivedBar) | ColSources (l : list string).

Definition genDerivedBarSources (avg max : string) (min : option string) : list DerivedBar :=
  [mkBar "mean" avg; mkBar "max" max] ++
  match min with Some m => if truthy m then [mkBar "min" m] else [] | None => [] end.

(** [isDerivedBarSources] tells the two kinds apart by the name of the first bar,
    which every list of bars has. *)
Definition source_fields (s : sources) : list string :=
  match s with BarSources l => map barField l | ColSources l => l end.

Definition lookup_field {A} (k : string) (o : list (string * A)) : option A :=
  snd <$> find (fun e => String.eqb (fst e) k) o.

(** [visibleColumnKeys] lists the keys of the object in order. *)
Definition getSelectedFields (visibleColumnKeys : list (string * bool))
    (derivedFields : list (string * sources)) : list string :=
  concat (map (fun '(columnKey, visible) =>
    if (visible : bool) then
      match lookup_field columnKey derivedFields with
      | Some s => source_fields s
      | None => [columnKey]
      end
    else []) visibleColumnKeys).

(** [bar.multiple] on the sources of a derived field: the first two are always
    there, a third one is optional. *)
Section Derived.
Context (max_ : list (option val) -> option val) (derivedFields : list (string * sources)).

Definition multiple_of (tcf : TableColumnFactory) (displayTransKey : option string)
    (l : option sources) (unit : string) (rows : option (list Row)) : option Column :=
  match l with
  | Some (BarSources (avg :: max :: rest)) =>
      Some (multipleBar max_ tcf displayTransKey avg max (head rest) unit rows)
  | _ => None
  end.
End Derived.

(** ** Statements *)

Module StatementColumns.
Definition TRANS_KEY_PREFIX : string := "statement.fields".

Definition derivedFields : list (string * sources) :=
  [("avg_latency", BarSources (genDerivedBarSources "avg_latency" "max_latency" (Some "min_latency")));
   ("parse_latency", BarSources (genDerivedBarSources "avg_parse_latency" "max_parse_latency" None));
   ("compile_latency", BarSources (genDerivedBarSources "avg_compile_latency" "max_compile_latency" None));
   ("process_time", BarSources (genDerivedBarSources "avg_cop_process_time" "max_cop_process_time" None));
   ("wait_time", BarSources (genDerivedBarSources "avg_cop_wait_time" "max_cop_wait_time" None));
   ("total_process_time", BarSources (genDerivedBarSources "avg_process_time" "max_process_time" None));
   ("total_wait_time", BarSources (genDerivedBarSources "avg_wait_time" "max_wait_time" None));
   ("backoff_time", BarSources (genDerivedBarSources "avg_backoff_time" "max_backoff_time" None));
   ("avg_write_keys", BarSources (genDerivedBarSources "avg_write_keys" "max_write_keys" None));
   ("avg_processed_keys", BarSources (genDerivedBarSources "avg_processed_keys" "max_processed_keys" None));
   ("avg_total_keys", BarSources (genDerivedBarSources "avg_total_keys" "max_total_keys" None));
   ("prewrite_time", BarSources (genDerivedBarSources "avg_prewrite_time" "max_prewrite_time" None));
   ("commit_time", BarSources (genDerivedBarSources "avg_commit_time" "max_commit_time" None));
   ("get_commit_ts_time", BarSources (genDerivedBarSources "avg_get_commit_ts_time" "max_get_commit_ts_time" None));
   ("commit_backoff_time", BarSources (genDerivedBarSources "avg_commit_backoff_time" "max_commit_backoff_time" None));
   ("resolve_lock_time", BarSources (genDerivedBarSources "avg_resolve_lock_time" "max_resolve_lock_time" None));
   ("local_latch_wait_time", BarSources (genDerivedBarSources "avg_local_latch_wait_time" "max_local_latch_wait_time" None));
   ("avg_write_size", BarSources (genDerivedBarSources "avg_write_size" "max_write_size" None));
   ("avg_prewrite_regions", BarSources (genDerivedBarSources "avg_prewrite_regions" "max_prewrite_regions" None));
   ("avg_txn_retry", BarSources (genDerivedBarSources "avg_txn_retry" "max_txn_retry" None));
   ("avg_mem", BarSources (genDerivedBarSources "avg_mem" "max_mem" None));
   ("avg_disk", BarSources (genDerivedBarSources "avg_disk" "max_disk" None));
   ("sum_errors", ColSources ["sum_errors"; "sum_warnings"]);
   ("related_schemas", ColSources ["table_names"]);
   ("avg_rocksdb_delete_skipped_count", BarSources (genDerivedBarSources "avg_rocksdb_delete_skipped_count" "max_rocksdb_delete_skipped_count" None));
   ("avg_rocksdb_key_skipped_count", BarSources (genDerivedBarSources "avg_rocksdb_key_skipped_count" "max_rocksdb_key_skipped_count" None));
   ("avg_rocksdb_block_cache_hit_count", BarSources (genDerivedBarSources "avg_rocksdb_block_cache_hit_count" "max_rocksdb_block_cache_hit_count" None));
   ("avg_rocksdb_block_read_count", BarSources (genDerivedBarSources "avg_rocksdb_block_read_count" "max_rocksdb_block_read_count" None));
   ("avg_rocksdb_block_read_byte", BarSources (genDerivedBarSources "avg_rocksdb_block_read_byte" "max_rocksdb_block_read_byte" None));
   ("avg_ru", BarSources (genDerivedBarSources "avg_ru" "max_ru" None));
   ("avg_time_queued_by_rc", BarSources (genDerivedBarSources "avg_time_queued_by_rc" "max_time_queued_by_rc" None))].

Section Columns.
Context (max_ : list (option val) -> option val).
#[local] Abbreviation single := (singleBar max_).

(** A derived field without bars makes [multipleBar] throw; the columns below
    only name derived fields that have them ([columns_total]). *)
Definition multiple (tcf : TableColumnFactory) (displayTransKey : option string) (field unit : string)
    (rows : option (list Row)) : Column :=
  default (textWithTooltip tcf field)
    (multiple_of max_ tcf displayTransKey (lookup_field field derivedFields) unit rows).

Definition avgMinMaxLatencyColumn (tcf : TableColumnFactory) (rows : option (list Row)) : Column :=
  multiple tcf None "avg_latency" "ns" rows.

Definition errorsWarningsColumn (tcf : TableColumnFactory) (rows : option (list Row)) : Column :=
  control tcf (mkColumn (Plain "errors_warnings") "sum_errors" "sum_errors" 140 (Some 200) (Some true) None
    (ErrorsWarnings (capacity_of max_ (fun v => js_plus (v "sum_errors") (v "sum_warnings")) rows))).

Definition avgMaxColumn (tcf : TableColumnFactory) (displayTransKey unit : string)
    (rows : option (list Row)) : Column :=
  multiple tcf (Some displayTransKey) displayTransKey unit rows.

Definition evictedRenderColumn (i : IColumn) : IColumn :=
  mkColumn (name i) (key i) (fieldName i) (minWidth i) (maxWidth i) (clickable i) (isMultiline i)
    (Evicted (onRender i)).

Definition statement_controls (tcf : TableColumnFactory) (showFullSQL : option bool)
    (rows : option (list Row)) : list control_config :=
    [IsConfig (evictedRenderColumn (getConfig (sqlText tcf "digest_text" showFullSQL)));
     IsConfig (evictedRenderColumn (getConfig (textWithTooltip tcf "digest")));
     IsColumn (single tcf "sum_latency" "ns" rows);
     IsColumn (avgMinMaxLatencyColumn tcf rows);
     IsColumn (single tcf "exec_count" "short" rows);
     IsColumn (patchConfig (clickable_widths 100 300) (textWithTooltip tcf "plan_count"));
     IsColumn (single tcf "plan_cache_hits" "short" rows);
     IsColumn (avgMaxColumn tcf "avg_mem" "bytes" rows);
     IsColumn (avgMaxColumn tcf "avg_disk" "bytes" rows);
     IsColumn (errorsWarningsColumn tcf rows);
     IsColumn (avgMaxColumn tcf "parse_latency" "ns" rows);
     IsColumn (avgMaxColumn tcf "compile_latency" "ns" rows);
     IsColumn (single tcf "sum_cop_task_num" "short" rows);
     IsColumn (avgMaxColumn tcf "process_time" "ns" rows);
     IsColumn (avgMaxColumn tcf "wait_time" "ns" rows);
     IsColumn (avgMaxColumn tcf "total_process_time" "ns" rows);
     IsColumn (avgMaxColumn tcf "total_wait_time" "ns" rows);
     IsColumn (avgMaxColumn tcf "backoff_time" "ns" rows);
     IsColumn (avgMaxColumn tcf "avg_write_keys" "short" rows);
     IsColumn (avgMaxColumn tcf "avg_processed_keys" "short" rows);
     IsColumn (avgMaxColumn tcf "avg_total_keys" "short" rows);
     IsColumn (avgMaxColumn tcf "prewrite_time" "ns" rows);
     IsColumn (avgMaxColumn tcf "commit_time" "ns" rows);
     IsColumn (avgMaxColumn tcf "get_commit_ts_time" "ns" rows);
     IsColumn (avgMaxColumn tcf "commit_backoff_time" "ns" rows);
     IsColumn (avgMaxColumn tcf "resolve_lock_time" "ns" rows);
     IsColumn (avgMaxColumn tcf "local_latch_wait_time" "ns" rows);
     IsColumn (avgMaxColumn tcf "avg_write_size" "bytes" rows);
     IsColumn (avgMaxColumn tcf "avg_prewrite_regions" "short" rows);
     IsColumn (avgMaxColumn tcf "avg_txn_retry" "short" rows);
     IsColumn (single tcf "sum_backoff_times" "short" rows);
     IsColumn (single tcf "avg_affected_rows" "short" rows);
     IsColumn (timestamp tcf "first_seen");
     IsColumn (timestamp tcf "last_seen");
     IsColumn (textWithTooltip tcf "sample_user");
     IsColumn (sqlText tcf "query_sample_text" showFullSQL);
     IsColumn (sqlText tcf "prev_sample_text" showFullSQL);
     IsColumn (textWithTooltip tcf "schema_name");
     IsColumn (textWithTooltip tcf "table_names");
     IsColumn (textWithTooltip tcf "index_names");
     IsColumn (textWithTooltip tcf "plan_digest");
     IsColumn (patchConfig (widths 160 240) (textWithTooltip tcf "related_schemas"));
     IsColumn (patchConfig (widths 220 250) (avgMaxColumn tcf "avg_rocksdb_delete_skipped_count" "short" rows));
     IsColumn (patchConfig (widths 220 250) (avgMaxColumn tcf "avg_rocksdb_key_skipped_count" "short" rows));
     IsColumn (patchConfig (widths 220 250) (avgMaxColumn tcf "avg_rocksdb_block_cache_hit_count" "short" rows));
     IsColumn (patchConfig (widths 220 250) (avgMaxColumn tcf "avg_rocksdb_block_read_count" "short" rows));
     IsColumn (patchConfig (widths 220 250) (avgMaxColumn tcf "avg_rocksdb_block_read_byte" "bytes" rows));
     IsColumn (textWithTooltip tcf "resource_group");
     IsColumn (avgMaxColumn tcf "avg_ru" "none" rows);
     IsColumn (patchConfig (clickable_widths 100 300) (textWithTooltip tcf "sum_ru"));
     IsColumn (avgMaxColumn tcf "avg_time_queued_by_rc" "ns" rows);
     IsColumn (single tcf "sum_unpacked_bytes_sent_tikv_total" "bytes" rows);
     IsColumn (single tcf "sum_unpacked_bytes_received_tikv_total" "bytes" rows);
     IsColumn (single tcf "sum_unpacked_bytes_sent_tikv_cross_zone" "bytes" rows);
     IsColumn (single tcf "sum_unpacked_bytes_received_tikv_cross_zone" "bytes" rows);
     IsColumn (single tcf "sum_unpacked_bytes_sent_tiflash_total" "bytes" rows);
     IsColumn (single tcf "sum_unpacked_bytes_received_tiflash_total" "bytes" rows);
     IsColumn (single tcf "sum_unpacked_bytes_sent_tiflash_cross_zone" "bytes" rows);
     IsColumn (single tcf "sum_unpacked_bytes_received_tiflash_cross_zone" "bytes" rows)].

Definition statementColumns (rows : list Row) (tableSchemaColumns : list string)
    (showFullSQL : option bool) : list IColumn :=
  let tcf := newFactory TRANS_KEY_PREFIX tableSchemaColumns in
  columns tcf (statement_controls tcf showFullSQL (Some rows)).

Definition planColumns (rows : list Row) : list IColumn :=
  let rows := Some rows in
  let tcf := newFactory TRANS_KEY_PREFIX [] in
  columns tcf
    [IsColumn (patchConfig (widths 100 300) (textWithTooltip tcf "plan_digest"));
     IsColumn (single tcf "sum_latency" "ns" rows);
     IsColumn (avgMinMaxLatencyColumn tcf rows);
     IsColumn (single tcf "exec_count" "short" rows);
     IsColumn (avgMaxColumn tcf "avg_mem" "bytes" rows)].
End Columns.
End StatementColumns.

(** ** Slow queries *)

Module SlowQueryColumns.
Definition TRANS_KEY_PREFIX : string := "slow_query.fields".

Definition derivedFields : list (string * sources) :=
  [("cop_proc_avg", BarSources [mkBar "mean" "cop_proc_avg"; mkBar "max" "cop_proc_max";
      mkBar "p90" "cop_proc_p90"]);
   ("cop_wait_avg", BarSources [mkBar "mean" "cop_wait_avg"; mkBar "max" "cop_wait_max";
      mkBar "p90" "cop_wait_p90"])].

Section Columns.
Context (max_ : list (option val) -> option val).
#[local] Abbreviation single := (singleBar max_).

Definition multiple (tcf : TableColumnFactory) (displayTransKey : option string) (field unit : string)
    (rows : option (list Row)) : Column :=
  default (textWithTooltip tcf field)
    (multiple_of max_ tcf displayTransKey (lookup_field field derivedFields) unit rows).

Definition slow_query_controls (tcf : TableColumnFactory) (showFullSQL : option bool)
    (rows : option (list Row)) : list control_config :=
    [IsColumn (sqlText tcf "query" showFullSQL);
     IsColumn (textWithTooltip tcf "digest");
     IsColumn (textWithTooltip tcf "instance");
     IsColumn (textWithTooltip tcf "db");
     IsColumn (textWithTooltip tcf "connection_id");
     IsColumn (timestamp tcf "timestamp");
     IsColumn (single tcf "query_time" "s" rows);
     IsColumn (single tcf "parse_time" "s" rows);
     IsColumn (single tcf "compile_time" "s" rows);
     IsColumn (single tcf "process_time" "s" rows);
     IsColumn (single tcf "memory_max" "bytes" rows);
     IsColumn (single tcf "disk_max" "bytes" rows);
     IsColumn (textWithTooltip tcf "txn_start_ts");
     IsColumn (patchConfig (mkPatch (Some (Plain "result")) (Some 50) (Some 100) None (Some ResultStatus)) (textWithTooltip tcf "success"));
     IsColumn (patchConfig (mkPatch None (Some 50) (Some 100) None (Some InternalCell)) (textWithTooltip tcf "is_internal"));
     IsColumn (textWithTooltip tcf "index_names");
     IsColumn (textWithTooltip tcf "stats");
     IsColumn (textWithTooltip tcf "backoff_types");
     IsColumn (textWithTooltip tcf "user");
     IsColumn (textWithTooltip tcf "host");
     IsColumn (single tcf "wait_time" "s" rows);
     IsColumn (single tcf "backoff_time" "s" rows);
     IsColumn (single tcf "get_commit_ts_time" "s" rows);
     IsColumn (single tcf "local_latch_wait_time" "s" rows);
     IsColumn (single tcf "prewrite_time" "s" rows);
     IsColumn (single tcf "commit_time" "s" rows);
     IsColumn (single tcf "commit_backoff_time" "s" rows);
     IsColumn (single tcf "resolve_lock_time" "s" rows);
     IsColumn (multiple tcf None "cop_proc_avg" "s" rows);
     IsColumn (multiple tcf None "cop_wait_avg" "s" rows);
     IsColumn (single tcf "request_count" "short" rows);
     IsColumn (single tcf "process_keys" "short" rows);
     IsColumn (single tcf "total_keys" "short" rows);
     IsColumn (textWithTooltip tcf "cop_proc_addr");
     IsColumn (textWithTooltip tcf "cop_wait_addr");
     IsColumn (single tcf "write_keys" "short" rows);
     IsColumn (single tcf "write_size" "bytes" rows);
     IsColumn (single tcf "prewrite_region" "short" rows);
     IsColumn (single tcf "txn_retry" "short" rows);
     IsColumn (patchConfig (widths 220 250) (single tcf "rocksdb_delete_skipped_count" "short" rows));
     IsColumn (patchConfig (widths 220 250) (single tcf "rocksdb_key_skipped_count" "short" rows));
     IsColumn (patchConfig (widths 220 250) (single tcf "rocksdb_block_cache_hit_count" "short" rows));
     IsColumn (patchConfig (widths 220 250) (single tcf "rocksdb_block_read_count" "short" rows));
     IsColumn (patchConfig (widths 220 250) (single tcf "rocksdb_block_read_byte" "bytes" rows));
     IsColumn (single tcf "ru" "none" rows);
     IsColumn (textWithTooltip tcf "resource_group");
     IsColumn (single tcf "time_queued_by_rc" "s" rows);
     IsColumn (single tcf "unpacked_bytes_sent_tikv_total" "bytes" rows);
     IsColumn (single tcf "unpacked_bytes_received_tikv_total" "bytes" rows);
     IsColumn (single tcf "unpacked_bytes_sent_tikv_cross_zone" "bytes" rows);
     IsColumn (single tcf "unpacked_bytes_received_tikv_cross_zone" "bytes" rows);
     IsColumn (single tcf "unpacked_bytes_sent_tiflash_total" "bytes" rows);
     IsColumn (single tcf "unpacked_bytes_received_tiflash_total" "bytes" rows);
     IsColumn (single tcf "unpacked_bytes_sent_tiflash_cross_zone" "bytes" rows);
     IsColumn (single tcf "unpacked_bytes_received_tiflash_cross_zone" "bytes" rows)].

Definition slowQueryColumns (rows : list Row) (tableSchemaColumns : list string)
    (showFullSQL : option bool) : list IColumn :=
  let tcf := newFactory TRANS_KEY_PREFIX tableSchemaColumns in
  columns tcf (slow_query_controls tcf showFullSQL (Some rows)).
End Columns.
End SlowQueryColumns.

(** ** Choosing the columns (components/ColumnsSelector) *)

(** Assignment to a property keeps its place among the keys. *)
Fixpoint obj_set {A} (k : string) (v : A) (o : list (string * A)) : list (string * A) :=
  match o with
  | [] => [(k, v)]
  | e :: o => if String.eqb (fst e) k then (k, v) :: o else e :: obj_set k v o
  end.

Definition IColumnKeys := list (string * bool).

Definition dummy_key : string := "dummy".

Definition filteredColumns (cs : list IColumn) : list IColumn :=
  filter (fun c => key c <> dummy_key) cs.

Definition set_all (b : bool) (cs : list IColumn) : IColumnKeys :=
  foldl (fun acc c => obj_set (key c) b acc) [] cs.

Definition visibleKeys (visible : option IColumnKeys) (cs : list IColumn) : IColumnKeys :=
  match visible with Some v => v | None => set_all true cs end.

(** [indeterminate] and [checkedAll]. *)
Definition updateCheckAllStatus (columnKeys : IColumnKeys) (cs : list IColumn) : bool * bool :=
  let n := length (filter (fun e => snd e = true /\ fst e <> dummy_key) columnKeys) in
  let m := length (filteredColumns cs) in
  (Nat.ltb 0 n && Nat.ltb n m, Nat.eqb n m).

(** The arguments given to [onChange]. *)
Definition handleCheckAllChange (checked : bool) (cs : list IColumn) : IColumnKeys := set_all checked cs.

Definition handleCheckChange (checked : bool) (c : IColumn) (keys : IColumnKeys) : IColumnKeys :=
  obj_set (key c) checked keys.

(** ** Showing the table (components/CardTable) *)

Record FinalColumn := mkFinal { col : option IColumn; isSorted : bool; isSortedDescending : bool }.

Definition shown (visible : option IColumnKeys) (c : IColumn) : bool :=
  match visible with Some v => default false (lookup_field (key c) v) | None => true end.

(** The last one is the dummy column. *)
Definition finalColumns (cs : list IColumn) (visible : option IColumnKeys) (orderBy : option string)
    (desc extendLastColumn : bool) : list FinalColumn :=
  map (fun c => mkFinal (Some c) (bool_decide (Some (key c) = orderBy)) desc)
    (filter (fun c => shown visible c = true) cs) ++
  (if extendLastColumn then [] else [mkFinal None false false]).

Section Sort.
Context {T : Type} (field : T -> option val).

(** The comparison given to [sort]: positive when [a] has to come after [b]. *)
Definition after (desc : bool) (a b : T) : bool :=
  if desc then js_lt (field a) (field b) else js_lt (field b) (field a).

(** Insertion before the first element that has to come after [x]. *)
Fixpoint insert_row (desc : bool) (x : T) (l : list T) : list T :=
  match l with
  | [] => [x]
  | y :: l => if after desc y x then x :: y :: l else y :: insert_row desc x l
  end.

(** [sort] with this comparison.  It never gives 0, so for rows with the same
    value the order is up to the engine; here such rows keep their order. *)
Definition copyAndSort (desc : bool) (items : list T) : list T :=
  foldl (fun acc x => insert_row desc x acc) [] items.
End Sort.

Definition find_sorted (cs : list FinalColumn) (orderBy : option string) : option (IColumn * bool) :=
  c ← find (fun c => match col c with
                     | Some i => bool_decide (Some (key i) = orderBy)
                     | None => bool_decide (Some dummy_key = orderBy)
                     end) cs;
  i ← col c; Some (i, isSortedDescending c).

Definition finalItems (items : list Row) (cs : list FinalColumn) (orderBy : option string)
    (visibleItemsCount : option nat) : list Row :=
  let items := match find_sorted cs orderBy with
               | Some (c, desc) => copyAndSort (fun r => r (fieldName c)) desc items
               | None => items
               end in
  match visibleItemsCount with Some n => take n items | None => items end.

(** The order asked for by a click on a column. *)
Definition onColumnClick (c : IColumn) (orderBy : option string) (desc : bool) : string * bool :=
  if bool_decide (Some (key c) = orderBy) then (key c, negb desc) else (key c, true).

(** The row to highlight; [clickedRowIndex || -1]. *)
Definition highlighted (clickedRowIndex : option Z) (itemIndex : Z) : bool :=
  js_or clickedRowIndex (-1) =? itemIndex.

(** ** Requested and shown fields *)

(** The fields one visible key adds to a request. *)
Definition requested (derived : list (string * sources)) (k : string) : list string :=
  match lookup_field k derived with Some s => source_fields s | None => [k] end.

Lemma selected_requested vis derived k f :
  lookup_field k vis = Some true -> f ∈ requested derived k -> f ∈ getSelectedFields vis derived.
Proof.
  unfold getSelectedFields, lookup_field. intros Hk Hf.
  destruct (find _ vis) as [[k' b]|] eqn:E; [|done]. injection Hk as ->.
  apply find_some in E as [Hin He]. cbn in He. apply String.eqb_eq in He as ->.
  apply list_elem_of_In, list_elem_of_split in Hin as (l1 & l2 & ->).
  rewrite map_app, concat_app. cbn. set_solver.
Qed.

Lemma columns_sub tcf l c :
  c ∈ columns tcf l -> c ∈ array_getConfig (ColumnArray l).
Proof. unfold columns. case_match; [done|]. rewrite list_elem_of_filter. tauto. Qed.

(** What the columns of a table read, in a form that is checked by computation. *)
Definition reads_requested (derived : list (string * sources)) (always : list string) (c : IColumn) : bool :=
  bool_decide (fields_read (onRender c) ⊆ requested derived (key c) ++ always).

Lemma render_agrees gvf vis derived always c rec rec' :
  lookup_field (key c) vis = Some true -> reads_requested derived always c = true ->
  (forall f, f ∈ getSelectedFields vis derived ++ always -> rec f = rec' f) ->
  render gvf (onRender c) rec = render gvf (onRender c) rec'.
Proof.
  unfold reads_requested. rewrite bool_decide_eq_true. intros Hv Hr He.
  apply render_depends. intros f Hf. apply He. apply Hr, elem_of_app in Hf as [Hf|Hf].
  - apply elem_of_app. left. by eapply selected_requested.
  - apply elem_of_app. by right.
Qed.

(** The backend gives the digest with every statement. *)
Definition always_given : list string := ["digest"].

(** The columns with bars whose derived field has another name than their key. *)
Definition unrequested : list string :=
  ["avg_parse_latency"; "avg_compile_latency"; "avg_cop_process_time"; "avg_cop_wait_time";
   "avg_process_time"; "avg_wait_time"; "avg_backoff_time"; "avg_prewrite_time"; "avg_commit_time";
   "avg_get_commit_ts_time"; "avg_commit_backoff_time"; "avg_resolve_lock_time";
   "avg_local_latch_wait_time"].

Definition statement_column_ok (c : IColumn) : bool :=
  bool_decide (key c ∈ "related_schemas" :: unrequested) || reads_requested StatementColumns.derivedFields always_given c.

Lemma statement_controls_ok max_ tcf full rows :
  forallb statement_column_ok
    (array_getConfig (ColumnArray (StatementColumns.statement_controls max_ tcf full rows))) = true.
Proof. vm_compute. reflexivity. Qed.

(** The fallback of [multiple] is never taken. *)
Lemma columns_total max_ tcf rows d u :
  Forall (fun k => is_Some (multiple_of max_ tcf d (lookup_field k StatementColumns.derivedFields) u rows))
    (filter (fun k => k <> "sum_errors" /\ k <> "related_schemas") (map fst StatementColumns.derivedFields)) /\
  Forall (fun k => is_Some (multiple_of max_ tcf d (lookup_field k SlowQueryColumns.derivedFields) u rows))
    (map fst SlowQueryColumns.derivedFields).
Proof. split; repeat (constructor; [by eexists|]); constructor. Qed.

(** Every one of these columns exists, and reads a field it does not request. *)
Definition missing_field (c : IColumn) : option string :=
  find (fun f => bool_decide (f ∉ getSelectedFields [(key c, true)] StatementColumns.derivedFields ++ always_given))
    (fields_read (onRender c)).

Definition misses (cs : list IColumn) (k : string) : bool :=
  match find (fun c => String.eqb (key c) k) cs with
  | Some c => bool_decide (is_Some (missing_field c))
  | None => false
  end.

Lemma misses_spec cs k :
  misses cs k = true -> exists c f, c ∈ cs /\ key c = k /\ f ∈ fields_read (onRender c) /\
    f ∉ getSelectedFields [(k, true)] StatementColumns.derivedFields ++ always_given.
Proof.
  unfold misses. destruct (find _ cs) as [c|] eqn:E; [|done]. rewrite bool_decide_eq_true.
  intros [f Hf]. apply find_some in E as [Hin He]. apply String.eqb_eq in He as <-.
  apply find_some in Hf as [Hf Hn]. apply bool_decide_eq_true in Hn.
  exists c, f. split_and!; try done; by apply list_elem_of_In.
Qed.

Lemma unrequested_misses max_ rows full :
  forallb (misses (StatementColumns.statementColumns max_ rows [] full)) unrequested = true.
Proof. vm_compute. reflexivity. Qed.

(** A statement column shows the same for two rows that agree on the fields
    the list requests and on the digest, so what it shows was asked for, except
    for the related schemas, which the backend works out from a field that is
    requested, and for thirteen columns with bars: [getSelectedFields] looks
    their sources up by the key of the column, under which they are not kept,
    and the maximum they show is not requested. *)
Theorem statement_columns_requested max_ gvf rows schema full (vis : IColumnKeys) :
  (forall c rec rec',
    c ∈ StatementColumns.statementColumns max_ rows schema full ->
    lookup_field (key c) vis = Some true -> key c ∉ "related_schemas" :: unrequested ->
    (forall f, f ∈ getSelectedFields vis StatementColumns.derivedFields ++ always_given -> rec f = rec' f) ->
    render gvf (onRender c) rec = render gvf (onRender c) rec') /\
  (lookup_field "related_schemas" vis = Some true ->
    "table_names" ∈ getSelectedFields vis StatementColumns.derivedFields) /\
  (forall k, k ∈ unrequested ->
    exists c f, c ∈ StatementColumns.statementColumns max_ rows [] full /\ key c = k /\
      f ∈ fields_read (onRender c) /\
      f ∉ getSelectedFields [(k, true)] StatementColumns.derivedFields ++ always_given).
Proof.
  split_and!.
  - intros c rec rec' Hc Hv Hk He. apply columns_sub in Hc.
    eapply forallb_elem in Hc; [|apply statement_controls_ok].
    apply orb_true_iff in Hc as [Hc|Hc]; [by apply bool_decide_eq_true in Hc|].
    by apply (render_agrees gvf vis _ _ c rec rec' Hv Hc).
  - intros Hv. eapply selected_requested; [done|]. by left.
  - intros k Hk. apply misses_spec. eapply forallb_elem; [apply unrequested_misses|done].
Qed.

Lemma statement_columns_requested_witness :
  let cs := StatementColumns.statementColumns (fun _ => None) [] [] None in
  let vis := [("avg_latency", true)] in
  let full := fun f : string => Some (VStr f) in
  let sent := fun f => if bool_decide (f ∈ ["avg_latency"; "max_latency"; "min_latency"; "digest"])
                       then full f else None in
  exists c, c ∈ cs /\ key c = "avg_latency" /\ forall gvf,
    render gvf (onRender c) full = render gvf (onRender c) sent.
Proof.
  set (cs := StatementColumns.statementColumns (fun _ => None) [] [] None). intros cs' vis full sent.
  destruct (find (fun c => String.eqb (key c) "avg_latency") cs) as [c|] eqn:E; [|vm_compute in E; done].
  apply find_some in E as [Hin Hk]. apply list_elem_of_In in Hin. apply String.eqb_eq in Hk.
  exists c. split_and!; [done|done|]. intros gvf.
  apply (statement_columns_requested (fun _ => None) gvf [] [] None vis); [done|by rewrite Hk| |].
  - rewrite Hk. intros Hin'. by apply (bool_decide_pack _) in Hin'.
  - intros f Hf. unfold sent. by rewrite bool_decide_true.
Defined.

(** The list of slow queries requests every field its columns show. *)
Theorem slow_query_columns_requested max_ gvf rows schema full (vis : IColumnKeys) c rec rec' :
  c ∈ SlowQueryColumns.slowQueryColumns max_ rows schema full ->
  lookup_field (key c) vis = Some true ->
  (forall f, f ∈ getSelectedFields vis SlowQueryColumns.derivedFields -> rec f = rec' f) ->
  render gvf (onRender c) rec = render gvf (onRender c) rec'.
Proof.
  intros Hc Hv He. apply columns_sub in Hc.
  assert (Hok : forallb (reads_requested SlowQueryColumns.derivedFields [])
    (array_getConfig (ColumnArray (SlowQueryColumns.slow_query_controls max_
      (newFactory SlowQueryColumns.TRANS_KEY_PREFIX schema) full (Some rows)))) = true)
    by (vm_compute; reflexivity).
  eapply forallb_elem in Hc; [|exact Hok].
  apply (render_agrees gvf vis SlowQueryColumns.derivedFields [] c rec rec' Hv Hc).
  intros f Hf. apply He. by rewrite app_nil_r in Hf.
Qed.

Lemma slow_query_columns_requested_witness :
  let cs := SlowQueryColumns.slowQueryColumns (fun _ => None) [] ["cop_proc_avg"] None in
  let full := fun f : string => Some (VStr f) in
  let sent := fun f => if bool_decide (f ∈ ["cop_proc_avg"; "cop_proc_max"; "cop_proc_p90"])
                       then full f else None in
  map key cs = ["cop_proc_avg"] /\
  forall gvf c, c ∈ cs -> render gvf (onRender c) full = render gvf (onRender c) sent.
Proof.
  intros cs full sent. split; [by vm_compute|]. intros gvf c Hc.
  assert (Hk : key c = "cop_proc_avg") by (vm_compute in Hc; set_solver).
  apply (slow_query_columns_requested (fun _ => None) gvf [] ["cop_proc_avg"] None
    [("cop_proc_avg", true)] c full sent Hc); [by rewrite Hk|].
  intros f Hf. unfold sent. by rewrite bool_decide_true.
Defined.

(** ** Sorting *)

Section Sorted.
Context {T : Type} (field : T -> option val) (q : T -> Q).

(** The value of [x] is the number [q x]. *)
Definition has_num (x : T) : Prop := field x = Some (VNum (Fin (q x))).

(** The strict order the rows are shown in. *)
Definition before (desc : bool) (a b : T) : Prop := if desc then (q b < q a)%Q else (q a < q b)%Q.

Definition distinct (a b : T) : Prop := ~ (q a == q b)%Q.

Lemma after_before desc a b :
  has_num a -> has_num b -> after field desc b a = true <-> before desc a b.
Proof.
  intros Ha Hb. unfold after, before. rewrite Ha, Hb. destruct desc; cbn; unfold num_lt; cbn;
    rewrite negb_true_iff, <-not_true_iff_false, Qle_bool_iff; lra.
Qed.

Lemma after_total desc a b :
  has_num a -> has_num b -> distinct a b -> after field desc b a = false -> before desc b a.
Proof.
  intros Ha Hb Hn Hf. apply not_true_iff_false in Hf. rewrite after_before in Hf by done.
  unfold before, distinct in *. destruct desc; lra.
Qed.

Lemma insert_row_perm desc x l : insert_row field desc x l ≡ₚ x :: l.
Proof.
  induction l as [|y l IH]; [done|]. cbn. case_match; [done|]. rewrite IH. constructor.
Qed.

Lemma insert_row_sorted desc x l :
  has_num x -> Forall has_num l -> Forall (distinct x) l -> StronglySorted (before desc) l ->
  StronglySorted (before desc) (insert_row field desc x l).
Proof.
  intros Hx Hl Hd Hs. revert Hl Hd. induction Hs as [|y l Hs IH Hy]; intros Hl Hd;
    [repeat constructor|].
  inversion_clear Hl as [|? ? Hny Hnl]. inversion_clear Hd as [|? ? Hdy Hdl].
  cbn. destruct (after field desc y x) eqn:E.
  - apply after_before in E; [|done..]. constructor; [by constructor|]. constructor; [done|].
    eapply Forall_impl; [exact Hy|]. unfold before in *. intros z. destruct desc; lra.
  - constructor; [by apply IH|]. rewrite insert_row_perm. constructor; [|done].
    by apply after_total.
Qed.

Lemma copyAndSort_from desc items acc :
  Forall has_num items -> Forall has_num acc ->
  ForallOrdPairs distinct items -> Forall (fun x => Forall (distinct x) acc) items ->
  StronglySorted (before desc) acc ->
  let r := foldl (fun acc x => insert_row field desc x acc) acc items in
  r ≡ₚ acc ++ items /\ StronglySorted (before desc) r.
Proof.
  intros Hn Hna Hp. revert acc Hn Hna.
  induction Hp as [|x l Hx Hp IH]; intros acc Hn Hna Ha Hs; cbn; [by rewrite app_nil_r|].
  inversion_clear Ha as [|? ? Hxa Hla]. inversion_clear Hn as [|? ? Hnx Hnl].
  destruct (IH (insert_row field desc x acc)) as [Hr Hsr]; [done| | | |].
  - rewrite insert_row_perm. by constructor.
  - rewrite Forall_forall in Hx, Hla |- *. intros z Hz. rewrite insert_row_perm.
    constructor; [|by apply Hla]. intros He. by apply (Hx z Hz).
  - by apply insert_row_sorted.
  - split; [|done]. rewrite Hr, insert_row_perm. apply (Permutation_middle acc l x).
Qed.

Lemma copyAndSort_sorted desc items :
  Forall has_num items -> ForallOrdPairs distinct items ->
  copyAndSort field desc items ≡ₚ items /\ StronglySorted (before desc) (copyAndSort field desc items).
Proof.
  intros Hn Hp. apply (copyAndSort_from desc items []); try done; [|constructor].
  by apply Forall_true.
Qed.
End Sorted.

Lemma find_sorted_col cs visible c desc ext :
  c ∈ cs -> NoDup (map key cs) -> shown visible c = true -> key c <> dummy_key ->
  find_sorted (finalColumns cs visible (Some (key c)) desc ext) (Some (key c)) = Some (c, desc).
Proof.
  intros Hc Hd Hs Hk. unfold find_sorted.
  rewrite (find_unique _ _ (mkFinal (Some c) true desc)); [done| | |].
  - unfold finalColumns. apply elem_of_app. left. apply list_elem_of_fmap. exists c.
    rewrite bool_decide_true by done. split; [done|]. by apply list_elem_of_filter.
  - cbn. by apply bool_decide_true.
  - intros y Hy. unfold finalColumns in Hy. apply elem_of_app in Hy as [Hy|Hy].
    + apply list_elem_of_fmap in Hy as (c' & -> & Hc'). cbn. intros He.
      apply bool_decide_eq_true in He. injection He as He.
      apply list_elem_of_filter in Hc' as [_ Hc'].
      assert (c' = c) as ->.
      { apply list_elem_of_lookup in Hc' as [i Hi], Hc as [j Hj].
        assert (i = j) as ->; [|congruence].
        apply (NoDup_lookup (map key cs) i j (key c) Hd); rewrite list_lookup_fmap.
        - rewrite Hi. cbn. by rewrite He.
        - by rewrite Hj. }
      by rewrite bool_decide_true.
    + destruct ext; [by apply elem_of_nil in Hy|]. apply list_elem_of_singleton in Hy as ->. cbn.
      intros He. apply bool_decide_eq_true in He. congruence.
Qed.

(** When the column the table is ordered by is shown and its values are
    distinct numbers, the table shows the first rows of the one strictly ordered
    arrangement of its rows. *)
Theorem card_table_sorted items cs visible c desc ext n (q : Row -> Q) :
  c ∈ cs -> NoDup (map key cs) -> shown visible c = true -> key c <> dummy_key ->
  Forall (has_num (fun r => r (fieldName c)) q) items -> ForallOrdPairs (distinct q) items ->
  exists l, l ≡ₚ items /\ StronglySorted (before q desc) l /\
    finalItems items (finalColumns cs visible (Some (key c)) desc ext) (Some (key c)) n =
      match n with Some n => take n l | None => l end.
Proof.
  intros Hc Hd Hs Hk Hn Hp. exists (copyAndSort (fun r => r (fieldName c)) desc items).
  destruct (copyAndSort_sorted _ q desc items Hn Hp) as [Hperm Hsort].
  split_and!; [done|done|]. unfold finalItems. by rewrite find_sorted_col.
Qed.

Lemma card_table_sorted_witness :
  let cs := StatementColumns.planColumns (fun _ => None) [] in
  let row (z : Z) : Row := fun f => if String.eqb f "sum_latency" then Some (VNum (num_of_Z z)) else None in
  let q := fun r : Row => match r "sum_latency" with Some (VNum (Fin x)) => x | _ => 0%Q end in
  let items := [row 1; row 3; row 2] in
  let r := finalItems items (finalColumns cs None (Some "sum_latency") true false) (Some "sum_latency")
    (Some 2%nat) in
  (exists l, l ≡ₚ items /\ StronglySorted (before q true) l /\ r = take 2 l) /\
  map (fun r : Row => r "sum_latency") r = [Some (VNum (num_of_Z 3)); Some (VNum (num_of_Z 2))].
Proof.
  intros cs row q items r. split; [|vm_compute; reflexivity].
  destruct (cs !! 1%nat) as [c|] eqn:E; [|vm_compute in E; done].
  assert (Hc : c ∈ cs) by (by eapply list_elem_of_lookup_2).
  assert (Hk : key c = "sum_latency") by (vm_compute in E; by injection E as <-).
  assert (Hf : fieldName c = "sum_latency") by (vm_compute in E; by injection E as <-).
  unfold r. rewrite <-Hk. apply (card_table_sorted items cs None c true false (Some 2%nat) q Hc).
  - by apply (bool_decide_unpack _); vm_compute.
  - done.
  - by rewrite Hk.
  - rewrite Hf. repeat constructor.
  - repeat constructor; intros H; vm_compute in H; done.
Defined.
