(* ===== verification/TableController.v ===== *)
(** * The list pages (apps/Statement, apps/SlowQuery: use*TableController.ts)

    The controller of a list: its query options, the requests it has in flight,
    the data it shows and the cache it shares with other pages.  [Table] is the
    part both lists have in common, Modules [Statement] and [SlowQuery] add the
    rest.  The cache is used through the interface [RowCache], which the class
    of useCache.ts implements.  Responses are events, so they may arrive in any
    order. *)

From stdpp Require Import sorting.
From S2P Require Import Prelude JsString JsNumber Cache TimeRange TableColumns.
Local Open Scope Z_scope.

(** ** What the lists need from a cache *)

Class RowCache (C V : Type) := {
  cache_get : Z -> string -> C -> option V * C;
  cache_set : Z -> string -> V -> C -> C;
  holds : C -> string -> V -> Prop
}.

Class RowCacheLaws (C V : Type) `{RowCache C V} := {
  get_holds now k c v : fst (cache_get now k c) = Some v -> holds c k v;
  get_sub now k c k' v : holds (snd (cache_get now k c)) k' v -> holds c k' v;
  set_sub now k v c k' v' : holds (cache_set now k v c) k' v' -> (k' = k /\ v' = v) \/ holds c k' v'
}.

#[export] Instance cacheMgr_cache {V} : RowCache (@CacheMgr.CacheMgr V) V := {
  cache_get := CacheMgr.get;
  cache_set now k v c := CacheMgr.set now k v None c;
  holds c k v := CacheMgr.data <$> CacheMgr.cache c !! k = Some v
}.

#[export] Instance cacheMgr_laws {V} : RowCacheLaws (@CacheMgr.CacheMgr V) V.
Proof.
  assert (Hdel : forall k (c : @CacheMgr.CacheMgr V) k' v,
    CacheMgr.data <$> CacheMgr.cache (CacheMgr.remove k c) !! k' = Some v ->
    CacheMgr.data <$> CacheMgr.cache c !! k' = Some v).
  { intros k c k' v. simpl. destruct (decide (k = k')) as [->|Hn].
    - by rewrite lookup_delete_eq.
    - by rewrite lookup_delete_ne. }
  split; simpl.
  - intros now k c v. unfold CacheMgr.get. destruct (CacheMgr.cache c !! k) eqn:E; [|done].
    case_match; [done|]. simpl. by intros [= ->].
  - intros now k c k' v. unfold CacheMgr.get. destruct (CacheMgr.cache c !! k); [|done].
    case_match; [|done]. apply Hdel.
  - intros now k v c k' v' Hs. unfold CacheMgr.set in Hs.
    assert (Hev : forall f d, CacheMgr.data <$> CacheMgr.cache (CacheMgr.evict f d) !! k' = Some v' ->
      CacheMgr.data <$> CacheMgr.cache d !! k' = Some v').
    { induction f as [|f IH]; intros d; [done|]. simpl. repeat case_match; try done.
      intros He. by apply IH, Hdel in He. }
    apply Hev in Hs. simpl in Hs. destruct (decide (k = k')) as [->|Hn].
    + rewrite lookup_insert_eq in Hs. injection Hs as <-. by left.
    + rewrite lookup_insert_ne in Hs by done. by right.
Qed.

(** ** The common part *)

Definition SLOW_DATA_LOAD_THRESHOLD : Z := 2000.

Section Table.
(** Options the cache key is built from, other inputs of a request, requests,
    results of the backend, and what is shown. *)
Context {Opts Extra Req Res Data Err C : Type} `{RowCache C (Data * bool)}.
Context (cacheKey : Opts -> string) (columns : Opts -> string)
  (build : Z -> Opts -> Extra -> Req) (pack : Req -> Res -> Data).

(** A call suspended at the [await] of the list request. *)
Record Pending := mkPending {
  p_opts : Opts; p_req : Req; requestBeginAt : Z
}.

Record Table := mkTable {
  opts : Opts;
  extra : Extra;
  data : option Data;
  isDataLoading : bool;
  isDataLoadedSlowly : option bool;
  errors : list Err;
  cacheMgr : option C;
  inflight : list Pending
}.

Implicit Types t : Table.

Definition set_cache (c : option C) t : Table :=
  mkTable (opts t) (extra t) (data t) (isDataLoading t) (isDataLoadedSlowly t) (errors t) c (inflight t).
Definition set_inputs (o : Opts) (x : Extra) t : Table :=
  mkTable o x (data t) (isDataLoading t) (isDataLoadedSlowly t) (errors t) (cacheMgr t) (inflight t).

(** [queryStatementList], [getSlowQueryList] up to the request. *)
Definition query_list (now : Z) t : Table :=
  let key := cacheKey (opts t) in
  let r := match cacheMgr t with
           | Some c => let r := cache_get now key c in (fst r, Some (snd r))
           | None => (None, None)
           end in
  let t := set_cache (snd r) t in
  match fst r with
  | Some (d, slowly) =>
      mkTable (opts t) (extra t) (Some d) false (Some slowly) (errors t) (cacheMgr t) (inflight t)
  | None =>
      if js_length (columns (opts t)) =? 0 then t
      else mkTable (opts t) (extra t) (data t) true (isDataLoadedSlowly t) (errors t) (cacheMgr t)
             (inflight t ++ [mkPending (opts t) (build now (opts t) (extra t)) now])
  end.

(** The rest, when the request of [p] has ended. *)
Definition list_response (now : Z) (p : Pending) (r : Err + Res) t : Table :=
  match r with
  | inr res =>
      let d := pack (p_req p) res in
      let isLoadSlow := SLOW_DATA_LOAD_THRESHOLD <=? now - requestBeginAt p in
      mkTable (opts t) (extra t) (Some d) false (Some isLoadSlow) []
        (cache_set now (cacheKey (p_opts p)) (d, isLoadSlow) <$> cacheMgr t) (inflight t)
  | inl e =>
      mkTable (opts t) (extra t) None false (isDataLoadedSlowly t) (errors t ++ [e]) (cacheMgr t)
        (inflight t)
  end.

(** Responses arrive in any order. *)
Definition take_response (now : Z) (i : nat) (r : Err + Res) t : option Table :=
  p ← inflight t !! i;
  Some (list_response now p r
    (mkTable (opts t) (extra t) (data t) (isDataLoading t) (isDataLoadedSlowly t) (errors t) (cacheMgr t)
       (delete i (inflight t)))).

(** ** What the list may show *)

(** The results the backend may give to a request. *)
Context (backend : Req -> Res -> Prop).

(** [d] answers a request built from the options [o]. *)
Definition answers (o : Opts) (d : Data) : Prop :=
  exists now x res, backend (build now o x) res /\ d = pack (build now o x) res.

(** The same up to the cache key, [JSON.stringify] of the options. *)
Definition answers_key (k : string) (d : Data) : Prop :=
  exists o, cacheKey o = k /\ answers o d.

Definition allowed (t : Table) (i : nat) (r : Err + Res) : Prop :=
  forall p res, inflight t !! i = Some p -> r = inr res -> backend (p_req p) res.

(** Any change of the inputs, and any response. *)
Inductive tstep : Table -> Table -> Prop :=
| t_query t now o x : tstep t (query_list now (set_inputs o x t))
| t_response t now i r t' : allowed t i r -> take_response now i r t = Some t' -> tstep t t'.

(** The same, when the inputs only change while no request is in flight and
    some column is requested. *)
Inductive tstep_quiet : Table -> Table -> Prop :=
| q_query t now o x :
    inflight t = [] -> js_length (columns o) <> 0 ->
    tstep_quiet t (query_list now (set_inputs o x t))
| q_response t now i r t' : allowed t i r -> take_response now i r t = Some t' -> tstep_quiet t t'.

Definition pending_ok (p : Pending) : Prop :=
  exists now x, p_req p = build now (p_opts p) x.

Definition cache_ok (t : Table) : Prop :=
  forall c k v, cacheMgr t = Some c -> holds c k v -> answers_key k (fst v).

Definition tinv (t : Table) : Prop :=
  cache_ok t /\ Forall pending_ok (inflight t) /\
  (forall d, data t = Some d -> exists o, answers o d).

Definition quiet (t : Table) : Prop :=
  match inflight t with
  | [] => forall d, data t = Some d -> answers_key (cacheKey (opts t)) d
  | [p] => p_opts p = opts t
  | _ => False
  end.
End Table.
Arguments Table : clear implicits.
Arguments Pending : clear implicits.

Section TableProperties.
Context {Opts Extra Req Res Data Err C : Type} `{RowCacheLaws C (Data * bool)}.
Context (cacheKey : Opts -> string) (columns : Opts -> string)
  (build : Z -> Opts -> Extra -> Req) (pack : Req -> Res -> Data) (backend : Req -> Res -> Prop).

#[local] Abbreviation tbl := (Table Opts Extra Req Data Err C).
#[local] Abbreviation query := (query_list (Err := Err) (C := C) cacheKey columns build).
#[local] Abbreviation ok := (tinv (Err := Err) (C := C) cacheKey build pack backend).

(** A query either takes a cached result for its options, sends nothing for want
    of columns, or sends a request built from the current inputs. *)
Lemma query_cases now (t : tbl) :
  let t' := query now t in
  opts t' = opts t /\ extra t' = extra t /\
  (forall c' k v, cacheMgr t' = Some c' -> holds c' k v -> exists c, cacheMgr t = Some c /\ holds c k v) /\
  ((exists c d s, cacheMgr t = Some c /\ holds c (cacheKey (opts t)) (d, s) /\
      data t' = Some d /\ inflight t' = inflight t) \/
   (js_length (columns (opts t)) = 0 /\ data t' = data t /\ inflight t' = inflight t) \/
   (data t' = data t /\ isDataLoading t' = true /\
    inflight t' = inflight t ++ [mkPending (opts t) (build now (opts t) (extra t)) now])).
Proof using Type*.
  unfold query_list. destruct (cacheMgr t) as [c|] eqn:Hc; cbn [fst snd].
  - destruct (fst (cache_get now (cacheKey (opts t)) c)) as [[d s]|] eqn:Hg.
    + split_and!; try done.
      * intros c' k v [= <-] Hh. exists c. split; [done|]. by eapply get_sub.
      * left. exists c, d, s. split_and!; try done. by eapply get_holds.
    + destruct (js_length (columns (opts t)) =? 0) eqn:E0; cbn; rewrite E0; split_and!; try done;
        try (intros c' k v [= <-] Hh; exists c; split; [done|]; by eapply get_sub); bool_to_prop; auto.
  - cbn. destruct (js_length (columns (opts t)) =? 0) eqn:E0; split_and!; try done; bool_to_prop; auto.
Qed.

Lemma set_inputs_ok o x (t : tbl) : ok t -> ok (set_inputs o x t).
Proof using Type. done. Qed.

Lemma query_ok now (t : tbl) : ok t -> ok (query now t).
Proof using Type*.
  intros (Hc & Hp & Hd). destruct (query_cases now t) as (Ho & Hx & Hsub & Hcase).
  assert (Hc' : cache_ok cacheKey build pack backend (query now t)).
  { intros c k v Hcm Hh. destruct (Hsub c k v Hcm Hh) as (c0 & Hc0 & Hh0). by apply (Hc c0 k v). }
  destruct Hcase as [(c & d & s & Hcm & Hh & Hd' & Hi)|[(_ & Hd' & Hi)|(Hd' & _ & Hi)]];
    split; [done| |done| |done|]; rewrite Hi, Hd'; (split; [|try done]).
  - done.
  - intros d' [= <-]. destruct (Hc c _ (d, s) Hcm Hh) as (o & _ & Ho'). by exists o.
  - done.
  - apply Forall_app. split; [done|]. repeat constructor. by exists now, (extra t).
Qed.

Lemma response_ok now i r (t t' : tbl) :
  allowed backend t i r -> take_response cacheKey pack now i r t = Some t' -> ok t ->
  ok t' /\ exists p, inflight t !! i = Some p /\ inflight t' = delete i (inflight t) /\ opts t' = opts t /\
    (forall d, data t' = Some d -> answers build pack backend (p_opts p) d).
Proof using Type*.
  intros Ha Ht (Hc & Hp & Hd). unfold take_response in Ht.
  destruct (inflight t !! i) as [p|] eqn:Hi; [|done]. injection Ht as <-.
  assert (Hpo : pending_ok build p) by (rewrite Forall_forall in Hp; apply Hp; by eapply list_elem_of_lookup_2).
  assert (Hpd : Forall (pending_ok build) (delete i (inflight t))) by (by apply Forall_delete).
  destruct r as [e|res]; cbn; [split; [by split_and!|by exists p]|].
  assert (Hans : answers build pack backend (p_opts p) (pack (p_req p) res)).
  { destruct Hpo as (now0 & x & Hreq). exists now0, x, res. rewrite <-Hreq. split; [|done].
    by apply (Ha p res). }
  split; [|exists p; split_and!; try done; by intros d [= <-]].
  split_and!; [|done|intros d [= <-]; by exists (p_opts p)].
  intros c k v Hcm Hh. cbn in Hcm. destruct (cacheMgr t) as [c0|] eqn:Hc0; [|done].
  injection Hcm as <-. apply set_sub in Hh as [[-> ->]|Hh].
  - by exists (p_opts p).
  - by apply (Hc c0 k v).
Qed.

Lemma tstep_ok (t t' : tbl) :
  tstep cacheKey columns build pack backend t t' -> ok t -> ok t'.
Proof using Type*.
  destruct 1 as [t now o x|t now i r t' Ha Ht]; intros Hok.
  - by apply query_ok.
  - by eapply response_ok.
Qed.

Lemma quiet_step (t t' : tbl) :
  tstep_quiet cacheKey columns build pack backend t t' -> ok t -> quiet cacheKey build pack backend t ->
  ok t' /\ quiet cacheKey build pack backend t'.
Proof using Type*.
  destruct 1 as [t now o x Hi Hcol|t now i r t' Ha Ht]; intros Hok Hq.
  - split; [by apply query_ok|]. destruct (query_cases now (set_inputs o x t)) as (Ho & _ & _ & Hcase).
    destruct Hok as (Hc & _). unfold quiet. rewrite Ho. cbn in Hcase |- *. rewrite Hi in Hcase.
    destruct Hcase as [(c & d & s & Hcm & Hh & -> & ->)|[(He & _)|(_ & _ & ->)]]; [|done|done].
    intros d' [= <-]. by apply (Hc c _ (d, s) Hcm Hh).
  - destruct (response_ok now i r t t' Ha Ht Hok) as (Hok' & p & Hp & Hi & Ho & Hd).
    split; [done|]. unfold quiet in *. rewrite Hi, Ho.
    destruct (inflight t) as [|p0 [|]]; [done| |done]. destruct i; [|done].
    injection Hp as ->. simpl. intros d' Hd'. exists (opts t). split; [done|]. rewrite <-Hq. by apply Hd.
Qed.
End TableProperties.

(** C7: the lists never mix up results: whatever the order of the responses,
    with any cache that keeps what it is given, the data shown is an answer of
    the backend to a request that was built from some options, and a cached entry
    answers options that have the key it is kept under. *)
Theorem table_data_sound {Opts Extra Req Res Data Err C : Type} `{RowCacheLaws C (Data * bool)}
    (cacheKey columns : Opts -> string) (build : Z -> Opts -> Extra -> Req) (pack : Req -> Res -> Data)
    (backend : Req -> Res -> Prop) (t t' : Table Opts Extra Req Data Err C) :
  tinv cacheKey build pack backend t ->
  rtc (tstep cacheKey columns build pack backend) t t' ->
  tinv cacheKey build pack backend t'.
Proof.
  intros Hok Hr. revert Hok. induction Hr as [|t1 t2 t3 Hs _ IH]; [done|].
  intros Hok. apply IH. by eapply tstep_ok.
Qed.

(** C8: starting in step with its options, as long as the options only change while no
    request is in flight and some column is requested each time, a list that is not
    loading shows an answer to the options it displays, up to the cache key.  With no
    column requested nothing is asked, and the data of the options before stays. *)
Theorem table_quiet_matches {Opts Extra Req Res Data Err C : Type} `{RowCacheLaws C (Data * bool)}
    (cacheKey columns : Opts -> string) (build : Z -> Opts -> Extra -> Req) (pack : Req -> Res -> Data)
    (backend : Req -> Res -> Prop) (t t' : Table Opts Extra Req Data Err C) :
  tinv cacheKey build pack backend t -> quiet cacheKey build pack backend t ->
  rtc (tstep_quiet cacheKey columns build pack backend) t t' ->
  inflight t' = [] -> forall d, data t' = Some d ->
  answers_key cacheKey build pack backend (cacheKey (opts t')) d.
Proof.
  intros Hok Hq Hr. revert Hok Hq. induction Hr as [t|t1 t2 t3 Hs _ IH]; intros Hok Hq.
  - unfold quiet in Hq. intros Hi. by rewrite Hi in Hq.
  - destruct (quiet_step cacheKey columns build pack backend t1 t2 Hs Hok Hq). by apply IH.
Qed.

(** Without such care the list can show the results of other options than
    the ones it displays: when the options change twice and the responses arrive
    in the opposite order, the page ends up, not loading, with the data of the
    first options under the second. *)
Theorem stale_response_shown {Opts Extra Req Res Data Err C : Type} `{RowCacheLaws C (Data * bool)}
    (cacheKey columns : Opts -> string) (build : Z -> Opts -> Extra -> Req) (pack : Req -> Res -> Data)
    (t : Table Opts Extra Req Data Err C) (o1 o2 : Opts) (x : Extra) (r1 r2 : Res) (n1 n2 n3 n4 : Z) :
  cacheMgr t = None -> inflight t = [] ->
  js_length (columns o1) <> 0 -> js_length (columns o2) <> 0 ->
  let t1 := query_list cacheKey columns build n1 (set_inputs o1 x t) in
  let t2 := query_list cacheKey columns build n2 (set_inputs o2 x t1) in
  exists t3 t4,
    take_response cacheKey pack n3 1 (inr r2) t2 = Some t3 /\
    take_response cacheKey pack n4 0 (inr r1) t3 = Some t4 /\
    opts t4 = o2 /\ isDataLoading t4 = false /\ inflight t4 = [] /\
    data t4 = Some (pack (build n1 o1 x) r1).
Proof.
  intros Hc Hi H1 H2 t1 t2.
  assert (E1 : t1 = mkTable o1 x (data t) true (isDataLoadedSlowly t) (errors t) None
    [mkPending o1 (build n1 o1 x) n1]).
  { subst t1. unfold query_list. cbn. rewrite Hc. cbn.
    rewrite (proj2 (Z.eqb_neq _ _) H1), Hi. done. }
  assert (E2 : t2 = mkTable o2 x (data t) true (isDataLoadedSlowly t) (errors t) None
    [mkPending o1 (build n1 o1 x) n1; mkPending o2 (build n2 o2 x) n2]).
  { subst t2. rewrite E1. unfold query_list. cbn. by rewrite (proj2 (Z.eqb_neq _ _) H2). }
  rewrite E2. cbn. eexists _, _. split; [done|]. cbn. split; [done|]. done.
Qed.

(** ** Order of a list (utils/useOrderState.ts) *)

Record IOrderOptions := mkOrder { orderBy : string; desc : bool }.

Record OrderState := mkOrderState { memoryOrderOptions : IOrderOptions; localOrderOptions : IOrderOptions }.

(** [stored] is the value kept in the local storage, under a key that carries the
    version of the program. *)
Definition storeKey (version prefix : string) : string :=
  "v" +:+ version +:+ "." +:+ prefix +:+ ".order_options".

Definition initOrder (options : IOrderOptions) (stored : option IOrderOptions) : OrderState :=
  mkOrderState options (default options stored).

Definition orderOptions (needSave : bool) (s : OrderState) : IOrderOptions :=
  if needSave then localOrderOptions s else memoryOrderOptions s.

Definition changeOrder (needSave : bool) (by_ : string) (d : bool) (s : OrderState) : OrderState :=
  if needSave then mkOrderState (memoryOrderOptions s) (mkOrder by_ d)
  else mkOrderState (mkOrder by_ d) (localOrderOptions s).

(** ** Query options kept in memory or in the session (useQueryOptions) *)

Record OptionsState (O : Type) := mkOptions { memoryQueryOptions : O; sessionQueryOptions : O }.
Arguments mkOptions {O}. Arguments memoryQueryOptions {O}. Arguments sessionQueryOptions {O}.

Definition initOptions {O} (def : O) (initial stored : option O) : OptionsState O :=
  mkOptions (default def initial) (default (default def initial) stored).

Definition queryOptions {O} (persistInSession : bool) (s : OptionsState O) : O :=
  if persistInSession then sessionQueryOptions s else memoryQueryOptions s.

Definition setQueryOptions {O} (persistInSession : bool) (v : O) (s : OptionsState O) : OptionsState O :=
  if persistInSession then mkOptions (memoryQueryOptions s) v else mkOptions v (sessionQueryOptions s).

(** ** The requests for the choices of the filters *)

(** [doRequest] sends several requests and ends when all have ended; a new round
    starts with every change of the options. *)
Inductive choice := Status | Schemas | Groups | StmtTypes.

#[export] Instance choice_eq_dec : EqDecision choice.
Proof. solve_decision. Defined.

Definition finish_choice (k : choice) (round : list choice) : list choice :=
  filter (fun k' => k' <> k) round.

Module Statement.
Section Statement.
Context {Row Err : Type}.

Record IStatementQueryOptions := mkQuery {
  visibleColumnKeys : list (string * bool);
  timeRange : V1.TimeRange;
  schemas : list string;
  groups : list string;
  stmtTypes : list string;
  searchText : string
}.

Definition DEF_STMT_COLUMN_KEYS : list (string * bool) :=
  [("digest_text", true); ("sum_latency", true); ("avg_latency", true); ("exec_count", true);
   ("plan_count", true)].

Definition DEF_ORDER_OPTIONS : IOrderOptions := mkOrder "sum_latency" true.

Definition DEF_STMT_QUERY_OPTIONS : IStatementQueryOptions :=
  mkQuery DEF_STMT_COLUMN_KEYS V1.DEFAULT_TIME_RANGE [] [] [] "".

Record IStatementList := mkList { list_ : list Row; list_range : num * num }.

(** The arguments of [ds.statementsListGet]. *)
Record ListReq := mkReq {
  req_range : num * num; req_columns : string; req_schemas : list string;
  req_groups : list string; req_types : list string; req_text : string
}.

(** Inputs of a request that the cache key leaves out. *)
Record Backend := mkBackend { windowSize : Z; oldBackend : bool }.

(** [stringify] is [JSON.stringify] of the options; its text also depends on the
    order in which the object got its properties, which the record leaves out. *)
Context (stringify : IStatementQueryOptions -> string).

Definition actualVisibleColumnKeys (o : IStatementQueryOptions) : string :=
  js_join "," (getSelectedFields (visibleColumnKeys o) StatementColumns.derivedFields).

(** The clock is in milliseconds. *)
Definition request_range (now : Z) (o : IStatementQueryOptions) (b : Backend) : num * num :=
  let r := V1.toTimeRangeValue (now / 1000) (Some (timeRange o)) 0 in
  if oldBackend b then (num_sub (fst r) (windowSize b), num_add (snd r) (windowSize b)) else r.

Definition build (now : Z) (o : IStatementQueryOptions) (b : Backend) : ListReq :=
  mkReq (request_range now o b) (actualVisibleColumnKeys o) (schemas o) (groups o) (stmtTypes o)
    (searchText o).

Definition pack (r : ListReq) (res : option (list Row)) : IStatementList :=
  mkList (default [] res) (req_range r).

Definition Cache := @CacheMgr.CacheMgr (IStatementList * bool).
Definition List_ := Table IStatementQueryOptions Backend ListReq IStatementList Err Cache.

Record Controller := mkController {
  table : List_;
  optionsState : OptionsState IStatementQueryOptions;
  order : OrderState;
  isEnabled : bool;
  allSchemas : list string;
  allGroups : list string;
  allStmtTypes : list string;
  isOptionsLoading : bool;
  rounds : list (list choice)
}.

Context (fetchSchemas fetchGroups fetchConfig persist : bool).

Definition with_table (t : List_) (s : Controller) : Controller :=
  mkController t (optionsState s) (order s) (isEnabled s) (allSchemas s) (allGroups s) (allStmtTypes s)
    (isOptionsLoading s) (rounds s).

Definition with_rounds (loading : bool) (r : list (list choice)) (s : Controller) : Controller :=
  mkController (table s) (optionsState s) (order s) (isEnabled s) (allSchemas s) (allGroups s)
    (allStmtTypes s) loading r.

Definition add_error (e : Err) (s : Controller) : Controller :=
  let t := table s in
  with_table (mkTable (opts t) (extra t) (data t) (isDataLoading t) (isDataLoadedSlowly t)
    (errors t ++ [e]) (cacheMgr t) (inflight t)) s.

Definition queryStatementList (now : Z) (s : Controller) : Controller :=
  with_table (query_list stringify actualVisibleColumnKeys build now (table s)) s.

Definition doRequest (s : Controller) : Controller :=
  let round := (if fetchConfig then [Status] else []) ++ (if fetchSchemas then [Schemas] else []) ++
    (if fetchGroups then [Groups] else []) ++ [StmtTypes] in
  with_rounds true (rounds s ++ [round]) s.

(** The effects that depend on the options, in order. *)
Definition options_effects (now : Z) (s : Controller) : Controller :=
  queryStatementList now (doRequest s).

Definition change_query (now : Z) (v : IStatementQueryOptions) (s : Controller) : Controller :=
  let os := setQueryOptions persist v (optionsState s) in
  let s := mkController (set_inputs (queryOptions persist os) (extra (table s)) (table s)) os (order s)
    (isEnabled s) (allSchemas s) (allGroups s) (allStmtTypes s) (isOptionsLoading s) (rounds s) in
  options_effects now s.

(** Setting an input of the list effect runs it when the value changes. *)
Definition set_backend (now : Z) (b : Backend) (s : Controller) : Controller :=
  let b0 := extra (table s) in
  if bool_decide (windowSize b0 = windowSize b) && Bool.eqb (oldBackend b0) (oldBackend b) then s
  else queryStatementList now (with_table (set_inputs (opts (table s)) b (table s)) s).

(** The probe of the old interface ended with an error of this status. *)
Definition time_ranges_failed (now : Z) (status : option Z) (s : Controller) : Controller :=
  if decide (status = Some 404) then
    set_backend now (mkBackend (windowSize (extra (table s))) false) s
  else s.

Inductive choice_result :=
| StatusOk (enable : bool) (refresh_interval : option Z)
| SchemasOk (l : option (list string))
| GroupsOk (l : option (list string))
| StmtTypesOk (l : option (list string))
| ChoiceFailed (k : choice) (e : Err).

Definition kind_of (r : choice_result) : choice :=
  match r with
  | StatusOk _ _ => Status | SchemasOk _ => Schemas | GroupsOk _ => Groups
  | StmtTypesOk _ => StmtTypes | ChoiceFailed k _ => k
  end.

Definition store_choice (now : Z) (r : choice_result) (s : Controller) : Controller :=
  let set en sc gr ty := mkController (table s) (optionsState s) (order s) en sc gr ty
    (isOptionsLoading s) (rounds s) in
  match r with
  | StatusOk enable refresh =>
      let s := set enable (allSchemas s) (allGroups s) (allStmtTypes s) in
      set_backend now (mkBackend (default 0 refresh) (oldBackend (extra (table s)))) s
  | SchemasOk l => set (isEnabled s) (default [] l) (allGroups s) (allStmtTypes s)
  | GroupsOk l => set (isEnabled s) (allSchemas s) (default [] l) (allStmtTypes s)
  | StmtTypesOk l => set (isEnabled s) (allSchemas s) (allGroups s) (merge_sort String.le (default [] l))
  | ChoiceFailed _ e => add_error e s
  end.

(** A request of round [i] ended; the round ends with its last request. *)
Definition choice_response (now : Z) (i : nat) (r : choice_result) (s : Controller) : option Controller :=
  round ← rounds s !! i;
  if bool_decide (kind_of r ∈ round) then
    let s := store_choice now r s in
    let round := finish_choice (kind_of r) round in
    Some (match round with
          | [] => with_rounds false (delete i (rounds s)) s
          | _ => with_rounds (isOptionsLoading s) (<[i := round]> (rounds s)) s
          end)
  else None.

Definition list_ended (now : Z) (i : nat) (r : Err + option (list Row)) (s : Controller) : option Controller :=
  t ← take_response stringify pack now i r (table s); Some (with_table t s).

Definition change_order (by_ : string) (d : bool) (s : Controller) : Controller :=
  mkController (table s) (optionsState s) (changeOrder persist by_ d (order s)) (isEnabled s)
    (allSchemas s) (allGroups s) (allStmtTypes s) (isOptionsLoading s) (rounds s).

Definition resetOrder (s : Controller) : Controller :=
  change_order (orderBy DEF_ORDER_OPTIONS) (desc DEF_ORDER_OPTIONS) s.

Definition mount (now : Z) (initial stored : option IStatementQueryOptions)
    (storedOrder : option IOrderOptions) (cache : option Cache) : Controller :=
  let os := initOptions DEF_STMT_QUERY_OPTIONS initial stored in
  options_effects now (mkController
    (mkTable (queryOptions persist os) (mkBackend 0 true) None true None [] cache [])
    os (initOrder DEF_ORDER_OPTIONS storedOrder) true [] [] [] true []).

Definition isLoading (isColumnsLoading : bool) (s : Controller) : bool :=
  isColumnsLoading || isDataLoading (table s) || isOptionsLoading s.
End Statement.
End Statement.

Module SlowQuery.
Section SlowQuery.
Context {Row Err : Type} (digest_of : Row -> string).

Record ISlowQueryOptions := mkQuery {
  visibleColumnKeys : list (string * bool);
  timeRange : V1.TimeRange;
  schemas : list string;
  groups : list string;
  searchText : string;
  limit : Z;
  showInternal : bool;
  digest : string;
  plans : list string
}.

Definition DEF_SLOW_QUERY_COLUMN_KEYS : list (string * bool) :=
  [("query", true); ("timestamp", true); ("query_time", true); ("memory_max", true)].

Definition DEF_ORDER_OPTIONS : IOrderOptions := mkOrder "timestamp" true.

Definition DEF_SLOW_QUERY_OPTIONS : ISlowQueryOptions :=
  mkQuery DEF_SLOW_QUERY_COLUMN_KEYS V1.DEFAULT_TIME_RANGE [] [] "" 100 false "" [].

(** What the cache key is built from. *)
Definition Inputs := (ISlowQueryOptions * IOrderOptions)%type.

(** The arguments of [ds.slowQueryListGet]. *)
Record ListReq := mkReq {
  begin_time : num; req_schemas : list string; req_desc : bool; req_digest : string; end_time : num;
  req_columns : string; req_limit : Z; req_orderBy : string; req_plans : list string;
  req_groups : list string; req_text : string; req_internal : bool
}.

Context (stringify : Inputs -> string).

Definition actualVisibleColumnKeys (i : Inputs) : string :=
  js_join "," (getSelectedFields (visibleColumnKeys (fst i)) SlowQueryColumns.derivedFields).

Definition build (now : Z) (i : Inputs) (_ : unit) : ListReq :=
  let o := fst i in
  let r := V1.toTimeRangeValue (now / 1000) (Some (timeRange o)) 0 in
  mkReq (fst r) (schemas o) (desc (snd i)) (digest o) (snd r) (actualVisibleColumnKeys i) (limit o)
    (orderBy (snd i)) (plans o) (groups o) (searchText o) (showInternal o).

Definition pack (r : ListReq) (res : option (list Row)) : list Row := default [] res.

Definition Cache := @CacheMgr.CacheMgr (list Row * bool).
Definition List_ := Table Inputs unit ListReq (list Row) Err Cache.

Record Controller := mkController {
  table : List_;
  optionsState : OptionsState ISlowQueryOptions;
  order : OrderState;
  allSchemas : list string;
  allGroups : list string;
  isOptionsLoading : bool;
  rounds : list (list choice)
}.

Context (fetchSchemas persist : bool).

Definition with_table (t : List_) (s : Controller) : Controller :=
  mkController t (optionsState s) (order s) (allSchemas s) (allGroups s) (isOptionsLoading s) (rounds s).

Definition with_rounds (loading : bool) (r : list (list choice)) (s : Controller) : Controller :=
  mkController (table s) (optionsState s) (order s) (allSchemas s) (allGroups s) loading r.

Definition getSlowQueryList (now : Z) (s : Controller) : Controller :=
  with_table (query_list stringify actualVisibleColumnKeys build now (table s)) s.

Definition doRequest (s : Controller) : Controller :=
  with_rounds true (rounds s ++ [(if fetchSchemas then [Schemas] else []) ++ [Groups]]) s.

Definition sync_inputs (s : Controller) : Controller :=
  with_table (set_inputs (queryOptions persist (optionsState s), orderOptions persist (order s)) tt (table s)) s.

Definition change_query (now : Z) (v : ISlowQueryOptions) (s : Controller) : Controller :=
  let s := mkController (table s) (setQueryOptions persist v (optionsState s)) (order s) (allSchemas s)
    (allGroups s) (isOptionsLoading s) (rounds s) in
  getSlowQueryList now (doRequest (sync_inputs s)).

(** A change of the order only runs the list effect. *)
Definition change_order (now : Z) (by_ : string) (d : bool) (s : Controller) : Controller :=
  let s := mkController (table s) (optionsState s) (changeOrder persist by_ d (order s)) (allSchemas s)
    (allGroups s) (isOptionsLoading s) (rounds s) in
  getSlowQueryList now (sync_inputs s).

Definition resetOrder (now : Z) (s : Controller) : Controller :=
  change_order now (orderBy DEF_ORDER_OPTIONS) (desc DEF_ORDER_OPTIONS) s.

Inductive choice_result :=
| SchemasOk (l : option (list string))
| GroupsOk (l : option (list string))
| SchemasFailed (e : Err)
| GroupsFailed.

Definition kind_of (r : choice_result) : choice :=
  match r with SchemasOk _ | SchemasFailed _ => Schemas | GroupsOk _ | GroupsFailed => Groups end.

(** Errors of the groups are ignored. *)
Definition store_choice (r : choice_result) (s : Controller) : Controller :=
  let set sc gr := mkController (table s) (optionsState s) (order s) sc gr (isOptionsLoading s) (rounds s) in
  match r with
  | SchemasOk l => set (default [] l) (allGroups s)
  | GroupsOk l => set (allSchemas s) (default [] l)
  | SchemasFailed e =>
      let t := table s in
      with_table (mkTable (opts t) (extra t) (data t) (isDataLoading t) (isDataLoadedSlowly t)
        (errors t ++ [e]) (cacheMgr t) (inflight t)) s
  | GroupsFailed => s
  end.

Definition choice_response (i : nat) (r : choice_result) (s : Controller) : option Controller :=
  round ← rounds s !! i;
  if bool_decide (kind_of r ∈ round) then
    let s := store_choice r s in
    let round := finish_choice (kind_of r) round in
    Some (match round with
          | [] => with_rounds false (delete i (rounds s)) s
          | _ => with_rounds (isOptionsLoading s) (<[i := round]> (rounds s)) s
          end)
  else None.

Definition list_ended (now : Z) (i : nat) (r : Err + option (list Row)) (s : Controller) : option Controller :=
  t ← take_response stringify pack now i r (table s); Some (with_table t s).

Definition mount (now : Z) (initial stored : option ISlowQueryOptions)
    (storedOrder : option IOrderOptions) (cache : option Cache) : Controller :=
  let os := initOptions DEF_SLOW_QUERY_OPTIONS initial stored in
  let ord := initOrder DEF_ORDER_OPTIONS storedOrder in
  getSlowQueryList now (doRequest (mkController
    (mkTable (queryOptions persist os, orderOptions persist ord) tt None false None [] cache [])
    os ord [] [] true [])).

(** The rows shown: those with one of the digests, when the page filters them. *)
Definition filteredData (filters : option (list string)) (s : Controller) : option (list Row) :=
  match filters with
  | None => data (table s)
  | Some ds => filter (fun d => bool_decide (digest_of d ∈ ds) = true) <$> data (table s)
  end.

Definition isLoading (isColumnsLoading : bool) (s : Controller) : bool :=
  isColumnsLoading || isDataLoading (table s) || isOptionsLoading s.
End SlowQuery.
End SlowQuery.

(** ** The cache hides the enlarged time range *)

Section Enlarged.
Context {Row Err : Type} (stringify : Statement.IStatementQueryOptions -> string).

Lemma query_cached (now : Z) (t : Statement.List_ (Row := Row) (Err := Err)) c item :
  cacheMgr t = Some c ->
  CacheMgr.cache c !! stringify (opts t) = Some item -> now <= CacheMgr.expireAt item ->
  let t' := query_list stringify Statement.actualVisibleColumnKeys
    Statement.build now t in
  inflight t' = inflight t /\ data t' = Some (fst (CacheMgr.data item)).
Proof.
  intros Hc Hi He. unfold query_list. rewrite Hc. cbn. unfold CacheMgr.get. rewrite Hi.
  rewrite (proj2 (Z.ltb_ge _ _) He). destruct (CacheMgr.data item) as [d s]. done.
Qed.
End Enlarged.

(** With an old backend, when the list is answered before the configuration,
    the window size that arrives then has no effect: its request is replaced by
    the cached list, whose time range was not enlarged. *)
Theorem enlarged_range_not_requested {Row Err : Type} (stringify : Statement.IStatementQueryOptions -> string)
    (s s1 : Statement.Controller (Row := Row) (Err := Err)) (c : Statement.Cache)
    (p : Pending Statement.IStatementQueryOptions Statement.ListReq)
    (res : option (list Row)) (n1 n2 w : Z) :
  cacheMgr (Statement.table s) = Some c -> CacheMgr.keys_ok c ->
  inflight (Statement.table s) = [p] -> p_opts p = opts (Statement.table s) ->
  extra (Statement.table s) = Statement.mkBackend 0 true ->
  Statement.list_ended stringify n1 0 (inr res) s = Some s1 ->
  n1 <= n2 <= n1 + CacheMgr.globalExpire c ->
  let s2 := Statement.set_backend stringify n2 (Statement.mkBackend w true) s1 in
  inflight (Statement.table s2) = [] /\
  data (Statement.table s2) = Some (Statement.mkList (default [] res) (Statement.req_range (p_req p))).
Proof.
  destruct s as [[o x d l sl es cm pend] os ord en sc gr ty ol rs].
  cbn -[Statement.set_backend]. intros -> Hk -> Ho -> Hs1 Hn.
  unfold Statement.list_ended, take_response in Hs1. cbn -[CacheMgr.set] in Hs1. injection Hs1 as <-.
  rewrite Ho. unfold Statement.set_backend. case_match; [done|].
  unfold Statement.queryStatementList, Statement.with_table, Statement.table.
  match goal with |- inflight (query_list _ _ _ _ ?t) = _ /\ _ =>
    destruct (@query_cached Row Err stringify n2 t _ _ eq_refl
      (CacheMgr.set_lookup n1 _ _ None c Hk)) as [Hin Hd] end; [cbn; lia|].
  split; [exact Hin|exact Hd].
Qed.

(** ** Concrete lists *)

(** A list whose options are one string, kept in a [CacheMgr], with a backend
    that answers with the request itself. *)
Module Sample.
Definition Cache := @CacheMgr.CacheMgr (string * bool).
Definition tbl := Table string unit string string unit Cache.
Definition build (_ : Z) (o : string) (_ : unit) : string := o.
Definition pack (r res : string) : string := res.
Definition backend (r res : string) : Prop := res = r.
Definition start : tbl :=
  mkTable "a" tt None false None [] (Some (CacheMgr.new (Some 2) None)) [].
Definition asked : tbl := query_list id id build 0 (set_inputs "a" tt start).
Definition answered : tbl :=
  default start (take_response id pack 5 0 (inr "a") asked).

Lemma start_ok : tinv id build pack backend start.
Proof. split_and!; [|constructor|done]. intros c k v [= <-] Hh. done. Qed.
End Sample.

Lemma table_data_sound_witness :
  data Sample.answered = Some "a" /\
  tinv id Sample.build Sample.pack Sample.backend Sample.answered.
Proof.
  split; [by vm_compute|].
  apply (table_data_sound id id Sample.build Sample.pack Sample.backend Sample.start).
  - apply Sample.start_ok.
  - eapply rtc_l; [apply (t_query id id Sample.build Sample.pack Sample.backend Sample.start 0 "a" tt)|].
    apply rtc_once. apply (t_response id id Sample.build Sample.pack Sample.backend _ 5 0 (inr "a")).
    + intros p res Hp Hr. vm_compute in Hp. by simplify_eq.
    + by vm_compute.
Defined.

Lemma table_quiet_matches_witness :
  answers_key id Sample.build Sample.pack Sample.backend "a" "a".
Proof.
  apply (table_quiet_matches id id Sample.build Sample.pack Sample.backend Sample.start Sample.answered).
  - apply Sample.start_ok.
  - done.
  - eapply rtc_l; [by apply (q_query id id Sample.build Sample.pack Sample.backend Sample.start 0 "a" tt)|].
    apply rtc_once. apply (q_response id id Sample.build Sample.pack Sample.backend _ 5 0 (inr "a")).
    + intros p res Hp Hr. vm_compute in Hp. by simplify_eq.
    + by vm_compute.
  - by vm_compute.
  - by vm_compute.
Defined.

Lemma stale_response_shown_witness :
  let t0 := set_cache None Sample.start in
  exists t3 t4 : Sample.tbl,
    take_response id Sample.pack 3 1 (inr "b")
      (query_list id id Sample.build 2 (set_inputs "b" tt
        (query_list id id Sample.build 1 (set_inputs "a" tt t0)))) = Some t3 /\
    take_response id Sample.pack 4 0 (inr "a") t3 = Some t4 /\ opts t4 = "b" /\ data t4 = Some "a".
Proof.
  destruct (stale_response_shown id id Sample.build Sample.pack (set_cache None Sample.start)
    "a" "b" tt "a" "b" 1 2 3 4 eq_refl eq_refl) as (t3 & t4 & H3 & H4 & Ho & _ & _ & Hd);
    [by vm_compute..|].
  exists t3, t4. split_and!; [exact H3|exact H4|exact Ho|exact Hd].
Defined.

Lemma enlarged_range_not_requested_witness :
  let key := fun _ : Statement.IStatementQueryOptions => "k" in
  let s := Statement.mount (Row := string) (Err := unit) key true true true false
    1700000000000 None None None (Some (CacheMgr.new (Some 2) None)) in
  exists s1, Statement.list_ended key 1700000000100 0 (inr (Some ["row"])) s = Some s1 /\
    data (Statement.table (Statement.set_backend key 1700000000200
      (Statement.mkBackend 1800 true) s1)) =
    Some (Statement.mkList ["row"] (num_of_Z 1699998200, num_of_Z 1700000001)).
Proof.
  intros key s. eexists. split; [reflexivity|].
  destruct (enlarged_range_not_requested (Row := string) (Err := unit) key s _
    (CacheMgr.new (Some 2) None) (hd (mkPending Statement.DEF_STMT_QUERY_OPTIONS
      (Statement.build 0 Statement.DEF_STMT_QUERY_OPTIONS (Statement.mkBackend 0 true)) 0)
      (inflight (Statement.table s))) (Some ["row"])
    1700000000100 1700000000200 1800 eq_refl (proj1 (CacheMgr.new_wf _ _)) eq_refl eq_refl eq_refl
    eq_refl ltac:(vm_compute; split; discriminate)) as [_ Hd].
  etransitivity; [exact Hd|]. vm_compute. reflexivity.
Defined.
