(* ===== verification/StoreLocation.v ===== *)
(** * The topology of the stores

    The short names and the tree that the page of store locations draws
    (apps/ClusterInfo/components/StoreLocationTree).  Module [Short] models the
    search for the common head and tail of the values of a label and the names
    that result, Module [Tree] the tree that is built from the location labels of
    the stores, the text of its nodes and the nodes a click hides.  Record access
    on a missing address or on missing labels raises a TypeError. *)

From Stdlib Require Import Ascii.
From S2P Require Import Prelude JsString InstanceTable.
From stdpp Require Import options.

Local Open Scope Z_scope.

(** The records of the API client. *)
Record TopologyStoreLabels := mkStore {
  address : option string;
  labels : option (gmap string string)
}.

Record TopologyStoreLocation := mkLocation {
  location_labels : option (list string);
  stores : option (list TopologyStoreLabels)
}.

(** What a call can end in besides a value. *)
Inductive failure := out_of_fuel | type_error.

Module Short.

Abbreviation ShortStrMap := (gmap string string).

(** [str[i]]: undefined outside the string. *)
Definition char_at (s : string) (i : Z) : option ascii :=
  if i <? 0 then None else String.get (Z.to_nat i) s.

(** [new Set(l)] and [set.add(x)], in the order of insertion. *)
Definition set_add {A} `{EqDecision A} (x : A) (set : list A) : list A :=
  if decide (x ∈ set) then set else set ++ [x].
Definition to_set {A} `{EqDecision A} (l : list A) : list A :=
  fold_left (fun set x => set_add x set) l [].

Definition is_separator (c : ascii) : bool := bool_decide (c = "."%char) || bool_decide (c = "-"%char).

(** The loop over the strings at one position: the character read last and the
    set of the characters read. *)
Fixpoint chars_at (read : string -> Z -> option ascii) (i : Z) (strSet : list string)
    (c : option ascii) (charSet : list ascii) : option ascii * list ascii :=
  match strSet with
  | [] => (c, charSet)
  | str :: rest =>
      match read str i with
      | None => (None, charSet)
      | Some a => chars_at read i rest (Some a) (set_add a charSet)
      end
  end.

(** The loop over the positions: the last one at which every string holds the
    same separator, -1 if there is none. *)
Fixpoint positions (fuel : nat) (read : string -> Z -> option ascii) (strSet : list string)
    (i pos : Z) : option Z :=
  match fuel with
  | O => None
  | S fuel' =>
      match chars_at read i strSet None [] with
      | (None, _) => Some pos
      | (Some c, charSet) =>
          if (1 <? length charSet)%nat then Some pos
          else positions fuel' read strSet (i + 1) (if is_separator c then i else pos)
      end
  end.

Definition enough (strSet : list string) : nat :=
  match strSet with [] => 1 | s :: _ => S (String.length s) end.

Definition head_pos (strSet : list string) : option Z :=
  positions (enough strSet) char_at strSet 0 (-1).

Definition tail_pos (strSet : list string) : option Z :=
  positions (enough strSet) (fun str i => char_at str (js_length str - 1 - i)) strSet 0 (-1).

Definition short_of (headPos tailPos : Z) (s : string) : string :=
  js_slice s (headPos + 1)
    (if tailPos =? -1 then js_length s else js_length s - 1 - tailPos).

Definition trimDuplicate (strArr : list string) : failure + ShortStrMap :=
  let strSet := to_set strArr in
  if (length strSet <? 2)%nat then inr ∅ else
  match head_pos strSet, tail_pos strSet with
  | Some h, Some t =>
      if (h =? -1) && (t =? -1) then inr ∅
      else inr (fold_left (fun m s => <[s := short_of h t s]> m) strSet ∅)
  | _, _ => inl out_of_fuel
  end.

(** [failure-domain.beta.kubernetes.io/region] is shortened to [region]. *)
Definition add_label (m : ShortStrMap) (label : string) : ShortStrMap :=
  if has_char "/" label then
    let shortStr := default "" (last (js_split "/" label)) in
    if truthy shortStr then <[label := shortStr]> m else m
  else m.

Definition label_values (ss : list TopologyStoreLabels) (label : string) : list string :=
  omap (fun store =>
    val ← labels store ≫= lookup label;
    if truthy val then Some val else None) ss.

Fixpoint add_values (ss : list TopologyStoreLabels) (ls : list string) (m : ShortStrMap)
    : failure + ShortStrMap :=
  match ls with
  | [] => inr m
  | label :: rest =>
      match trimDuplicate (label_values ss label) with
      | inl e => inl e
      | inr shorts => add_values ss rest (shorts ∪ m)
      end
  end.

Fixpoint add_addresses (ss : list TopologyStoreLabels) (m : ShortStrMap) : failure + ShortStrMap :=
  match ss with
  | [] => inr m
  | store :: rest =>
      match address store with
      | None => inl type_error
      | Some addr =>
          let shortStr := default "" (head (js_split "." addr)) in
          add_addresses rest
            (if js_startsWith addr "db-" && truthy shortStr then <[addr := shortStr]> m else m)
      end
  end.

Definition getShortStrMap (data : option TopologyStoreLocation) : failure + ShortStrMap :=
  match data with
  | None => inr ∅
  | Some d =>
      let ls := default [] (location_labels d) in
      let ss := default [] (stores d) in
      match add_values ss ls (fold_left add_label ls ∅) with
      | inl e => inl e
      | inr m => add_addresses ss m
      end
  end.

End Short.

Module Tree.

(** The value of a leaf is the address of its store, which may be missing. *)
Inductive TreeNode := Node (name : string) (value : option string) (children : list TreeNode).

Definition name (t : TreeNode) : string := match t with Node n _ _ => n end.
Definition value (t : TreeNode) : option string := match t with Node _ v _ => v end.
Definition children (t : TreeNode) : list TreeNode := match t with Node _ _ cs => cs end.

Section Tree.
Context (t : string -> string).

Definition NODE_STORES : string := "Stores".
Definition NODE_TIFLASH : string := instanceKindName t tiflash.
Definition NODE_TIKV : string := instanceKindName t tikv.

Definition is_node (n v : string) (el : TreeNode) : Prop := name el = n /\ value el = Some v.
#[export] Instance is_node_dec n v el : Decision (is_node n v el).
Proof. unfold is_node. apply _. Defined.

(** Follows the labels of a store from a node, adding the nodes that are missing,
    and pushes the leaf at the end.  The code walks with a reference to the current
    node and pushes into its array. *)
Fixpoint add_store (path : list (string * string)) (leaf : TreeNode) (curNode : TreeNode) : TreeNode :=
  match curNode with
  | Node n v cs =>
      match path with
      | [] => Node n v (cs ++ [leaf])
      | (curLabel, curLabelVal) :: rest =>
          match list_find (is_node curLabel curLabelVal) cs with
          | Some (i, _) => Node n v (alter (add_store rest leaf) i cs)
          | None => Node n v (cs ++ [add_store rest leaf (Node curLabel (Some curLabelVal) [])])
          end
      end
  end.

(** The labels of the store among the location labels, in their order. *)
Definition store_path (locationLabels : list string) (ls : gmap string string) : list (string * string) :=
  omap (fun curLabel => pair curLabel <$> ls !! curLabel) locationLabels.

Definition store_leaf (ls : gmap string string) (addr : option string) : TreeNode :=
  Node (if bool_decide (ls !! "engine" = Some "tiflash") then NODE_TIFLASH else NODE_TIKV) addr [].

Fixpoint add_stores (locationLabels : list string) (ss : list TopologyStoreLabels) (treeData : TreeNode)
    : failure + TreeNode :=
  match ss with
  | [] => inr treeData
  | store :: rest =>
      match labels store with
      | None => inl type_error
      | Some ls =>
          add_stores locationLabels rest
            (add_store (store_path locationLabels ls)
               (store_leaf ls (address store)) treeData)
      end
  end.

Definition buildTreeData (data : option TopologyStoreLocation) : failure + TreeNode :=
  let treeData := Node NODE_STORES (Some "") [] in
  let locationLabels := default [] (data ≫= location_labels) in
  if (0 <? length locationLabels)%nat
  then add_stores locationLabels (default [] (data ≫= stores)) treeData
  else inr treeData.

Definition MAX_STR_LENGTH : Z := 16.

(** The second line of the text of an inner node. *)
Definition middle_text (shortStrMap : gmap string string) (v : string) : string :=
  if js_length v <=? MAX_STR_LENGTH then v else
  let shortStr := default v (shortStrMap !! v) in
  if MAX_STR_LENGTH <? js_length shortStr then
    let midIdx := 8 - 1 in
    js_slice shortStr 0 midIdx +:+ ".." +:+
    js_slice shortStr (js_length shortStr - midIdx) (js_length shortStr)
  else shortStr.

(** The lines of text of a node: its kind decides which. *)
Definition node_text (shortStrMap : gmap string string) (n v : string) : list string :=
  let leaf := bool_decide (n = NODE_TIFLASH) || bool_decide (n = NODE_TIKV) in
  (if bool_decide (n = NODE_STORES) then [n] else []) ++
  (if negb (bool_decide (n = NODE_STORES)) && negb leaf
   then [default n (shortStrMap !! n); middle_text shortStrMap v] else []) ++
  (if leaf then [n; default v (shortStrMap !! v)] else []).

(** The tooltip shows the full name and value of a node with a short one. *)
Definition onMouseEnter (enable : bool) (shortStrMap : gmap string string) (n v : string)
    : option (string * string) :=
  if negb enable then None
  else match shortStrMap !! n, shortStrMap !! v with
       | None, None => None
       | _, _ => Some (n, v)
       end.

End Tree.
End Tree.

(** ** The short names *)

Section Strings.

Lemma str_get_drop n i s : String.get i (str_drop n s) = String.get (n + i) s.
Proof. revert i s; induction n; intros i [|a s]; simpl; done || by destruct i. Qed.

Lemma str_get_take n i s :
  String.get i (str_take n s) = if decide (i < n)%nat then String.get i s else None.
Proof.
  revert i s; induction n; intros i [|a s]; cbn [str_take String.get].
  1-3: repeat case_decide; done || lia.
  destruct i; [by rewrite decide_True by lia|]. rewrite IHn.
  repeat case_decide; try done; lia.
Qed.

Lemma str_get_app_r s s' i : String.get (String.length s + i) (s +:+ s') = String.get i s'.
Proof. revert i; induction s; intros i; js_simpl; done || apply IHs. Qed.

Lemma str_get_lt i s c : String.get i s = Some c -> (i < String.length s)%nat.
Proof. revert i; induction s; intros i; simpl; [done|]. destruct i; [lia|]. intros ?%IHs. lia. Qed.

Lemma str_get_ge i s : (String.length s <= i)%nat -> String.get i s = None.
Proof. revert i; induction s; intros i; simpl; [done|]. destruct i; [lia|]. intros. apply IHs. lia. Qed.

Lemma str_ext s s' : (forall i, String.get i s = String.get i s') -> s = s'.
Proof. apply String.get_correct. Qed.

Lemma take_then_drop n s : str_take n s +:+ str_drop n s = s.
Proof. revert s; induction n; intros [|a s]; simpl; try done. js_simpl. by rewrite IHn. Qed.

Lemma take_agree n s s' :
  (forall j, (j < n)%nat -> String.get j s = String.get j s') -> str_take n s = str_take n s'.
Proof.
  intros H. apply str_ext. intros i. rewrite !str_get_take. case_decide; [by apply H|done].
Qed.

Lemma drop_agree n s s' : (n <= String.length s)%nat -> (n <= String.length s')%nat ->
  (forall j, (j < n)%nat ->
     String.get (String.length s - 1 - j) s = String.get (String.length s' - 1 - j) s') ->
  str_drop (String.length s - n) s = str_drop (String.length s' - n) s'.
Proof.
  intros Hs Hs' H. apply str_ext. intros i. rewrite !str_get_drop.
  destruct (decide (i < n)%nat) as [Hi|Hi].
  - specialize (H (n - 1 - i)%nat).
    replace (String.length s - n + i)%nat with (String.length s - 1 - (n - 1 - i))%nat by lia.
    replace (String.length s' - n + i)%nat with (String.length s' - 1 - (n - 1 - i))%nat by lia.
    apply H. lia.
  - rewrite !str_get_ge by lia. done.
Qed.

End Strings.

Section Search.
Import Short.

Lemma set_add_elem {A} `{EqDecision A} (x y : A) set : y ∈ set_add x set <-> y = x \/ y ∈ set.
Proof. unfold set_add. case_decide; set_solver. Qed.

Lemma set_add_fresh {A} `{EqDecision A} (x : A) set : NoDup set -> NoDup (set_add x set).
Proof.
  unfold set_add. case_decide; [done|]. intros. apply NoDup_app.
  split_and!; [done|set_solver|apply NoDup_singleton].
Qed.

Lemma to_set_spec {A} `{EqDecision A} (l : list A) :
  NoDup (to_set l) /\ forall x, x ∈ to_set l <-> x ∈ l.
Proof.
  unfold to_set.
  enough (forall set, NoDup set -> NoDup (fold_left (fun s x => set_add x s) l set) /\
    forall x, x ∈ fold_left (fun s x => set_add x s) l set <-> x ∈ set \/ x ∈ l) as H.
  { destruct (H []) as [H1 H2]; [constructor|]. split; [done|]. intros x. rewrite H2. set_solver. }
  induction l as [|y l IH]; intros set Hs; simpl; [split; [done|set_solver]|].
  destruct (IH (set_add y set)) as [H1 H2]; [by apply set_add_fresh|].
  split; [done|]. intros x. rewrite H2, set_add_elem. set_solver.
Qed.

Context (read : string -> Z -> option ascii) (strSet : list string).

(** Every string holds the character [c] at position [i]. *)
Definition agree (i : Z) (c : ascii) : Prop := Forall (fun s => read s i = Some c) strSet.

Lemma agree_unique i c c' : strSet <> [] -> agree i c -> agree i c' -> c = c'.
Proof.
  unfold agree. destruct strSet as [|s l]; [done|]. rewrite !Forall_cons. intros _ [H1 _] [H2 _]. congruence.
Qed.

Lemma chars_at_spec i l c cs a cs' :
  chars_at read i l c cs = (Some a, cs') ->
  (forall x, x ∈ cs -> x ∈ cs') /\ (l <> [] -> a ∈ cs') /\
  Forall (fun s => exists b, read s i = Some b /\ b ∈ cs') l /\ (NoDup cs -> NoDup cs').
Proof.
  revert c cs; induction l as [|s l IH]; intros c cs; simpl.
  - intros [= -> ->]. split_and!; [done|done|constructor|done].
  - destruct (read s i) as [b|] eqn:E; [|done]. intros H.
    specialize (IH _ _ H) as (I1 & I2 & I3 & I4).
    assert (Hb : b ∈ cs') by (apply I1; rewrite set_add_elem; auto).
    split_and!.
    + intros x Hx. apply I1. rewrite set_add_elem. auto.
    + intros _. destruct l; [|by apply I2]. simpl in H. by simplify_eq.
    + constructor; eauto.
    + intros. by apply I4, set_add_fresh.
Qed.

Lemma chars_at_agree i l b c cs : l <> [] -> (forall x, x ∈ cs -> x = b) -> NoDup cs ->
  Forall (fun s => read s i = Some b) l -> chars_at read i l c cs = (Some b, [b]).
Proof.
  revert c cs; induction l as [|s l IH]; intros c cs Hl Hcs Hn Hf; [done|].
  apply Forall_cons in Hf as [Hs Hf]. simpl. rewrite Hs.
  assert (Hset : set_add b cs = [b]).
  { unfold set_add. destruct cs as [|x [|y cs]].
    - case_decide as Hd; [by apply elem_of_nil in Hd|done].
    - rewrite (Hcs x) by set_solver. case_decide as Hd; [done|]. destruct Hd. by left.
    - exfalso. rewrite (Hcs x), (Hcs y) in Hn by set_solver.
      apply NoDup_cons in Hn as [Hn _]. destruct Hn. by left. }
  rewrite Hset. destruct l; [done|]. apply IH; [done|set_solver|apply NoDup_singleton|done].
Qed.

(** The step of the search: it goes on exactly where the strings agree. *)
Lemma chars_at_cases i : strSet <> [] ->
  match chars_at read i strSet None [] with
  | (Some c, charSet) => if (1 <? length charSet)%nat then ~ exists c, agree i c else agree i c
  | (None, _) => ~ exists c, agree i c
  end.
Proof.
  intros Hne. destruct (chars_at read i strSet None []) as [[c|] cs] eqn:E.
  - destruct (chars_at_spec _ _ _ _ _ _ E) as (_ & Hc & Hf & Hn). specialize (Hc Hne).
    destruct (Nat.ltb_spec 1 (length cs)).
    + intros [b Hb]. rewrite (chars_at_agree i strSet b) in E; [|done|set_solver|constructor|done].
      simplify_eq. simpl in *. lia.
    + destruct cs as [|x [|]]; simpl in *; [set_solver| |lia].
      apply list_elem_of_singleton in Hc as ->. apply (Forall_impl _ _ _ Hf).
      intros s (b & Hb & ->%list_elem_of_singleton). done.
  - intros [b Hb]. by rewrite (chars_at_agree i strSet b) in E; [|done|set_solver|constructor|done].
Qed.

(** [p] is the last position holding the same separator in all strings, among
    those before the first position where they differ. *)
Definition last_separator (p : Z) : Prop :=
  -1 <= p /\ (forall j, 0 <= j <= p -> exists c, agree j c) /\
  (0 <= p -> exists c, is_separator c = true /\ agree p c) /\
  (forall k c, p < k -> (forall j, 0 <= j <= k -> exists c, agree j c) -> agree k c ->
     is_separator c = false).

Lemma positions_spec fuel : forall i pos p, strSet <> [] ->
  -1 <= pos < i -> (forall j, 0 <= j < i -> exists c, agree j c) ->
  (0 <= pos -> exists c, is_separator c = true /\ agree pos c) ->
  (forall k c, pos < k < i -> agree k c -> is_separator c = false) ->
  positions fuel read strSet i pos = Some p -> last_separator p.
Proof.
  induction fuel as [|fuel IH]; intros i pos p Hne Hpos Hag Hsep Hmax; [done|].
  simpl. pose proof (chars_at_cases i Hne) as Hc.
  assert (Hstop : (~ exists c, agree i c) -> last_separator pos).
  { intros Hno. split_and!; [lia|intros; apply Hag; lia|done|].
    intros k c Hk Hall Hkc. destruct (decide (k < i)); [apply (Hmax k c); [lia|done]|].
    destruct Hno. apply Hall. lia. }
  destruct (chars_at read i strSet None []) as [[c|] cs] eqn:E; [|intros [= <-]; auto].
  destruct (1 <? length cs)%nat; [intros [= <-]; auto|].
  apply IH; [done| | | |].
  - destruct (is_separator c); lia.
  - intros j Hj. destruct (decide (j = i)) as [->|]; [eauto|]. apply Hag. lia.
  - destruct (is_separator c) eqn:Es; eauto.
  - intros k c' Hk Hkc. assert (strSet <> []) as Hne' by done. destruct (decide (k = i)) as [->|].
    + rewrite (agree_unique _ _ _ Hne Hkc Hc). destruct (is_separator c) eqn:Es; [lia|done].
    + apply (Hmax k c'); [|done]. destruct (is_separator c); lia.
Qed.

Lemma positions_total fuel : forall i pos n, strSet <> [] -> 0 <= i <= n ->
  (forall j, n <= j -> ~ exists c, agree j c) -> n < i + Z.of_nat fuel ->
  is_Some (positions fuel read strSet i pos).
Proof.
  induction fuel as [|fuel IH]; intros i pos n Hne Hi Hend Hn; simpl; [lia|].
  pose proof (chars_at_cases i Hne) as Hc.
  destruct (chars_at read i strSet None []) as [[c|] cs] eqn:E; [|eauto].
  destruct (1 <? length cs)%nat; [eauto|].
  assert (i < n) by (destruct (decide (i < n)); [done|]; exfalso; apply (Hend i); [lia|eauto]).
  apply (IH _ _ n); [done|lia|done|lia].
Qed.

End Search.

Section Shorts.
Import Short.

(** What all values start with, up to a separator, and what they all end with,
    from a separator on. *)
Definition common_head (l : list string) (p : string) : Prop :=
  (p = "" \/ exists q c, p = q +:+ String c "" /\ is_separator c = true) /\
  Forall (fun s => exists r, s = p +:+ r) l.

Definition common_tail (l : list string) (p : string) : Prop :=
  (p = "" \/ exists c q, p = String c q /\ is_separator c = true) /\
  Forall (fun s => exists r, s = r +:+ p) l.

Definition longest (P : string -> Prop) (p : string) : Prop :=
  P p /\ forall q, P q -> (String.length q <= String.length p)%nat.

Lemma char_at_nat s (n : nat) : char_at s (Z.of_nat n) = String.get n s.
Proof. unfold char_at. rewrite (proj2 (Z.ltb_ge _ _)) by lia. by rewrite Nat2Z.id. Qed.

Lemma str_get_app_l s s' i : (i < String.length s)%nat -> String.get i (s +:+ s') = String.get i s.
Proof. revert i; induction s; intros i; js_simpl; [lia|]. destruct i; [done|]. intros. apply IHs. lia. Qed.

Lemma str_get_some i s : (i < String.length s)%nat -> is_Some (String.get i s).
Proof. revert i; induction s; intros i; simpl; [lia|]. destruct i; [eauto|]. intros. apply IHs. lia. Qed.

Lemma str_take_last n s c : String.get n s = Some c -> str_take (S n) s = str_take n s +:+ String c "".
Proof.
  revert n; induction s as [|a s IH]; intros [|n]; simpl; try done; [by intros [= ->]; destruct s|].
  intros H%IH. rewrite str_app_cons. by rewrite <- H.
Qed.

(** The strings agree on the first [n] positions iff they share that prefix. *)
Lemma agree_prefix l s0 n : s0 ∈ l ->
  (forall j, 0 <= j < Z.of_nat n -> exists c, agree char_at l j c) ->
  (n <= String.length s0)%nat /\ Forall (fun s => exists r, s = str_take n s0 +:+ r) l.
Proof.
  intros Hs0 Hag.
  assert (Hget : forall j s, s ∈ l -> (j < n)%nat ->
    exists c, String.get j s = Some c /\ String.get j s0 = Some c).
  { intros j s Hs Hj. destruct (Hag (Z.of_nat j) ltac:(lia)) as [c Hc]. exists c.
    unfold agree in Hc. rewrite Forall_forall in Hc. by rewrite <- !char_at_nat, !Hc. }
  split.
  - destruct n as [|n]; [lia|]. destruct (Hget n s0 Hs0 ltac:(lia)) as (c & Hc%str_get_lt & _). lia.
  - apply Forall_forall. intros s Hs. exists (str_drop n s).
    rewrite (take_agree n s0 s), take_then_drop; [done|].
    intros j Hj. destruct (Hget j s Hs Hj) as (c & -> & ->). done.
Qed.

Lemma prefix_agree l p : Forall (fun s => exists r, s = p +:+ r) l ->
  forall j, 0 <= j < js_length p -> exists c, agree char_at l j c /\ String.get (Z.to_nat j) p = Some c.
Proof.
  unfold js_length. intros Hp j Hj.
  destruct (str_get_some (Z.to_nat j) p ltac:(lia)) as [c Hc]. exists c. split; [|done].
  apply (Forall_impl _ _ _ Hp). intros s [r ->].
  rewrite <- (Z2Nat.id j), char_at_nat, str_get_app_l by lia. by rewrite Hc.
Qed.

(** The loop over the positions finds the longest common head. *)
Lemma head_search l s0 fuel h : s0 ∈ l -> positions fuel char_at l 0 (-1) = Some h ->
  -1 <= h /\ longest (common_head l) (str_take (Z.to_nat (h + 1)) s0) /\
  String.length (str_take (Z.to_nat (h + 1)) s0) = Z.to_nat (h + 1).
Proof.
  intros Hs0 Hh. assert (Hne : l <> []) by (by intros ->; apply elem_of_nil in Hs0).
  apply positions_spec in Hh as (H1 & Hag & Hsep & Hmax); [|done|lia|lia|lia|lia].
  destruct (agree_prefix l s0 (Z.to_nat (h + 1)) Hs0) as [Hlen Hpre]; [intros; apply Hag; lia|].
  assert (Hl0 := str_take_length _ _ Hlen).
  split; [done|]. split; [|done]. split; [split; [|done]|].
  - destruct (decide (h = -1)) as [->|]; [left; done|]. right.
    destruct (Hsep ltac:(lia)) as (c & Hc & Hagc). exists (str_take (Z.to_nat h) s0), c. split; [|done].
    replace (Z.to_nat (h + 1)) with (S (Z.to_nat h)) by lia. apply str_take_last.
    unfold agree in Hagc. rewrite Forall_forall in Hagc. rewrite <- char_at_nat, Z2Nat.id by lia. auto.
  - intros q [[->|(q' & c & -> & Hc)] Hq]; [simpl; lia|]. rewrite Hl0, str_length_app. simpl.
    destruct (decide (Z.of_nat (String.length q') <= h)); [lia|]. exfalso.
    pose proof (prefix_agree _ _ Hq) as Hp. unfold js_length in Hp. rewrite str_length_app in Hp. simpl in Hp.
    destruct (Hp (Z.of_nat (String.length q')) ltac:(lia)) as (c' & Hagc & Hc').
    rewrite Nat2Z.id, <- (Nat.add_0_r (String.length q')), str_get_app_r in Hc'. simplify_eq/=.
    rewrite (Hmax (Z.of_nat (String.length q')) c' ltac:(lia)) in Hc; [done| |exact Hagc].
    intros j Hj. destruct (Hp j ltac:(lia)) as (d & Hd & _). eauto.
Qed.

(** The tails are the heads of the reversed strings. *)
Fixpoint str_rev (s : string) : string :=
  match s with EmptyString => "" | String a s' => str_rev s' +:+ String a "" end.

Lemma str_rev_length s : String.length (str_rev s) = String.length s.
Proof. induction s; [done|]. simpl. rewrite str_length_app. simpl. lia. Qed.

Lemma str_rev_app s s' : str_rev (s +:+ s') = str_rev s' +:+ str_rev s.
Proof.
  induction s as [|a s IH]; [by rewrite str_app_nil_l, str_app_nil_r|].
  rewrite str_app_cons. simpl. by rewrite IH, str_app_assoc.
Qed.

Lemma str_rev_involutive s : str_rev (str_rev s) = s.
Proof. induction s as [|a s IH]; [done|]. simpl. by rewrite str_rev_app, IH. Qed.

Lemma str_get_rev s j : (j < String.length s)%nat ->
  String.get (String.length s - 1 - j) s = String.get j (str_rev s).
Proof.
  revert j; induction s as [|a s IH]; intros j; cbn [String.length str_rev]; [lia|]. intros Hj.
  destruct (decide (j = String.length s)) as [->|].
  - replace (S (String.length s) - 1 - String.length s)%nat with 0%nat by lia.
    pose proof (str_get_app_r (str_rev s) (String a "") 0) as Hr.
    rewrite str_rev_length, Nat.add_0_r in Hr. by rewrite Hr.
  - rewrite str_get_app_l by (rewrite str_rev_length; lia). rewrite <- IH by lia.
    by replace (S (String.length s) - 1 - j)%nat with (S (String.length s - 1 - j)) by lia.
Qed.

Lemma tail_char s i : 0 <= i -> char_at s (js_length s - 1 - i) = char_at (str_rev s) i.
Proof.
  intros Hi. unfold js_length. destruct (decide (i < Z.of_nat (String.length s))).
  - replace i with (Z.of_nat (Z.to_nat i)) at 2 by lia. rewrite char_at_nat, <- str_get_rev by lia.
    rewrite <- char_at_nat. f_equal. lia.
  - unfold char_at at 1. rewrite (proj2 (Z.ltb_lt _ _)) by lia.
    replace i with (Z.of_nat (Z.to_nat i)) by lia. rewrite char_at_nat, str_get_ge; [done|].
    rewrite str_rev_length. lia.
Qed.

Lemma positions_rev fuel l i pos : 0 <= i ->
  positions fuel (fun str i => char_at str (js_length str - 1 - i)) l i pos =
  positions fuel char_at (map str_rev l) i pos.
Proof.
  assert (Hchars : forall i l c cs, 0 <= i ->
    chars_at (fun str i => char_at str (js_length str - 1 - i)) i l c cs =
    chars_at char_at i (map str_rev l) c cs).
  { clear. intros i l. induction l as [|s l IH]; intros c cs Hi; [done|]. simpl.
    rewrite tail_char by done. destruct (char_at _ _); auto. }
  revert i pos; induction fuel as [|fuel IH]; intros i pos Hi; [done|]. simpl.
  rewrite Hchars by done. destruct (chars_at _ _ _ _ _) as [[c|] cs]; [|done].
  case_match; [done|]. apply IH. lia.
Qed.

Lemma common_tail_rev l p : common_head (map str_rev l) (str_rev p) <-> common_tail l p.
Proof.
  unfold common_head, common_tail. rewrite Forall_map. f_equiv.
  - split; (intros [H|H]; [left|right]).
    + by rewrite <- (str_rev_involutive p), H.
    + destruct H as (q & c & H & Hc). exists c, (str_rev q). split; [|done].
      by rewrite <- (str_rev_involutive p), H, str_rev_app.
    + by rewrite H.
    + destruct H as (c & q & -> & Hc). exists (str_rev q), c. done.
  - split; intros Hf; apply (Forall_impl _ _ _ Hf); intros s [r H]; exists (str_rev r).
    + by rewrite <- (str_rev_involutive s), H, str_rev_app, str_rev_involutive.
    + by rewrite H, str_rev_app.
Qed.

Lemma str_take_app_le n s s' : (n <= String.length s)%nat -> str_take n (s +:+ s') = str_take n s.
Proof.
  revert n; induction s as [|a s IH]; intros [|n]; js_simpl; try done; try lia.
  intros. by rewrite IH by lia.
Qed.

Lemma tail_search l s0 fuel t : s0 ∈ l ->
  positions fuel (fun str i => char_at str (js_length str - 1 - i)) l 0 (-1) = Some t ->
  -1 <= t /\ exists post, longest (common_tail l) post /\ js_length post = t + 1.
Proof.
  intros Hs0. rewrite positions_rev by lia. intros Ht.
  assert (Hs0' : str_rev s0 ∈ map str_rev l) by (apply list_elem_of_fmap; eauto).
  destruct (head_search _ _ _ _ Hs0' Ht) as (H1 & [Hh Hmax] & Hlen). split; [done|].
  set (pre := str_take _ _) in *. exists (str_rev pre). split; [split|].
  - apply common_tail_rev. by rewrite str_rev_involutive.
  - intros q Hq%common_tail_rev%Hmax. by rewrite !str_rev_length in *.
  - unfold js_length. rewrite str_rev_length, Hlen. lia.
Qed.

(** Both loops end within the length of the first string. *)
Lemma search_total l s0 rest pos : l = s0 :: rest ->
  is_Some (positions (enough l) char_at l 0 pos).
Proof.
  intros ->. apply (positions_total _ _ _ _ _ (js_length s0)); unfold js_length, enough; try lia; [done|].
  intros j Hj [c [Hc _]%Forall_cons].
  rewrite <- (Z2Nat.id j), char_at_nat, str_get_ge in Hc by lia. done.
Qed.

Lemma head_pos_total l : l <> [] -> is_Some (head_pos l).
Proof. destruct l; [done|]. intros _. by eapply search_total. Qed.

Lemma tail_pos_total l : l <> [] -> is_Some (tail_pos l).
Proof.
  destruct l as [|s l]; [done|]. intros _. unfold tail_pos. rewrite positions_rev by lia.
  replace (enough (s :: l)) with (enough (map str_rev (s :: l)))
    by (simpl; by rewrite str_rev_length).
  by eapply search_total.
Qed.

(** The name of a string between a head and a tail. *)
Lemma short_of_spec pre post s : (exists r, s = pre +:+ r) -> (exists r, s = r +:+ post) ->
  let short := short_of (js_length pre - 1) (js_length post - 1) s in
  (js_length pre + js_length post <= js_length s -> s = pre +:+ short +:+ post) /\
  (js_length s < js_length pre + js_length post -> short = "").
Proof.
  intros [r Hr] [r' Hr'] short.
  assert (Hshort : short = js_slice s (js_length pre) (js_length s - js_length post)).
  { unfold short, short_of. f_equal; [lia|].
    destruct (Z.eqb_spec (js_length post - 1) (-1)); lia. }
  split; intros Hle.
  - assert (exists mid, r' = pre +:+ mid) as [mid Hmid].
    { exists (str_drop (String.length pre) r'). rewrite <- (take_then_drop (String.length pre) r') at 1.
      f_equal. assert (Hl := f_equal String.length Hr').
      rewrite str_length_app in Hl. unfold js_length in Hle.
      transitivity (str_take (String.length pre) s); [by rewrite Hr', str_take_app_le by lia|].
      by rewrite Hr, str_take_app. }
    subst r'. rewrite <- str_app_assoc in Hr'. rewrite Hshort.
    replace (js_length s - js_length post) with (js_length pre + js_length mid)
      by (rewrite Hr'; unfold js_length; rewrite !str_length_app; lia).
    rewrite Hr' at 2. by rewrite js_slice_mid.
  - rewrite Hshort. unfold js_slice, js_clamp, js_length in *.
    assert (H : (String.length pre <= String.length s)%nat) by (rewrite Hr, str_length_app; lia).
    assert (H' : (String.length post <= String.length s)%nat) by (rewrite Hr', str_length_app; lia).
    rewrite !(proj2 (Z.ltb_ge _ _)) by lia. rewrite !Z.min_l by lia.
    rewrite (proj2 (Nat.sub_0_le _ _)) by lia. done.
Qed.

End Shorts.

Section ShortNames.
Import Short.

Lemma common_head_set (l : list string) p : common_head (to_set l) p <-> common_head l p.
Proof.
  unfold common_head. f_equiv. rewrite !Forall_forall.
  destruct (to_set_spec l) as [_ H]. by setoid_rewrite H.
Qed.

Lemma common_tail_set (l : list string) p : common_tail (to_set l) p <-> common_tail l p.
Proof.
  unfold common_tail. f_equiv. rewrite !Forall_forall.
  destruct (to_set_spec l) as [_ H]. by setoid_rewrite H.
Qed.

Lemma longest_ext (P Q : string -> Prop) p : (forall q, P q <-> Q q) -> longest P p <-> longest Q p.
Proof. intros H. unfold longest. by setoid_rewrite H. Qed.

Lemma fold_shorts (f : string -> string) l m s :
  fold_left (fun m s => <[s := f s]> m) l m !! s =
  if decide (s ∈ l) then Some (f s) else (m : gmap string string) !! s.
Proof.
  revert m; induction l as [|x l IH]; intros m; simpl fold_left.
  - rewrite decide_False; [done|apply not_elem_of_nil].
  - rewrite IH. destruct (decide (s ∈ l)).
    + rewrite decide_True; [done|by right].
    + destruct (decide (s = x)) as [->|].
      * rewrite decide_True, lookup_insert_eq; [done|by left].
      * rewrite decide_False, lookup_insert_ne; [done|done|]. by intros [?|?]%elem_of_cons.
Qed.

(** What the map of short names holds, for a head and a tail. *)
Definition shortens (strArr : list string) (pre post : string) (m : gmap string string) : Prop :=
  (forall s, is_Some (m !! s) <-> s ∈ strArr) /\
  (forall s short, m !! s = Some short ->
     (js_length pre + js_length post <= js_length s -> s = pre +:+ short +:+ post) /\
     (js_length s < js_length pre + js_length post -> short = "")) /\
  (forall s s' short, m !! s = Some short -> m !! s' = Some short -> short <> "" -> s = s').

Lemma shortens_fold (strArr : list string) pre post :
  common_head strArr pre -> common_tail strArr post ->
  shortens strArr pre post
    (fold_left (fun m s => <[s := short_of (js_length pre - 1) (js_length post - 1) s]> m) (to_set strArr) ∅).
Proof.
  intros [_ Hh] [_ Ht]. rewrite Forall_forall in Hh, Ht. destruct (to_set_spec strArr) as [_ Hset].
  set (m := fold_left _ _ _).
  assert (Hm : forall s short, m !! s = Some short ->
    s ∈ strArr /\ short = short_of (js_length pre - 1) (js_length post - 1) s).
  { intros s short. unfold m. rewrite fold_shorts. case_decide as Hs; [|done].
    intros [= <-]. by rewrite <- Hset. }
  assert (Hspec : forall s short, m !! s = Some short ->
     (js_length pre + js_length post <= js_length s -> s = pre +:+ short +:+ post) /\
     (js_length s < js_length pre + js_length post -> short = "")).
  { intros s short [Hs ->]%Hm. by apply short_of_spec; [apply Hh|apply Ht]. }
  split_and!; [|done|].
  - intros s. split; [intros [short [Hs _]%Hm]; done|]. intros Hs. unfold m. rewrite fold_shorts.
    rewrite decide_True; [eauto|by apply Hset].
  - intros s s' short Hs Hs' Hne.
    assert (Hlong : forall x, m !! x = Some short -> x = pre +:+ short +:+ post).
    { intros x [H1 H2]%Hspec. destruct (Z.le_gt_cases (js_length pre + js_length post) (js_length x)); auto.
      by rewrite H2 in Hne. }
    by rewrite (Hlong s Hs), (Hlong s' Hs').
Qed.

Lemma short_names_computed strArr : exists m, trimDuplicate strArr = inr m.
Proof.
  unfold trimDuplicate. destruct (Nat.ltb_spec (length (to_set strArr)) 2); [eauto|].
  assert (Hne : to_set strArr <> []) by (intros E; rewrite E in *; simpl in *; lia).
  destruct (head_pos_total _ Hne) as [h ->], (tail_pos_total _ Hne) as [t ->].
  case_match; eauto.
Qed.

(** C13: The short names of the values of a label are always computed: the two
    searches end within the length of the first value.  Without two distinct values,
    or when the values share neither a head nor a tail ending at a separator, there
    are no short names.  Otherwise every value, and nothing else, has one: it is what
    remains between the longest shared head and the longest shared tail, when the two
    do not overlap in the value, and empty when they do.  A name that is not empty
    belongs to one value. *)
Theorem short_names_total (strArr : list string) :
  exists m, trimDuplicate strArr = inr m /\
    ((m = ∅ /\ ((length (to_set strArr) < 2)%nat \/
                longest (common_head strArr) "" /\ longest (common_tail strArr) "")) \/
     (exists pre post, longest (common_head strArr) pre /\ longest (common_tail strArr) post /\
        (pre <> "" \/ post <> "") /\ shortens strArr pre post m)).
Proof.
  unfold trimDuplicate. destruct (Nat.ltb_spec (length (to_set strArr)) 2); [eauto 6|].
  destruct (to_set strArr) as [|s0 rest] eqn:E; [simpl in *; lia|]. rewrite <- E.
  assert (Hne : to_set strArr <> []) by (by rewrite E).
  assert (Hs0 : s0 ∈ to_set strArr) by (rewrite E; by left).
  destruct (head_pos_total _ Hne) as [h Hh], (tail_pos_total _ Hne) as [t Ht]. rewrite Hh, Ht.
  apply (head_search _ s0) in Hh as (Hh1 & Hpre & Hlen); [|done].
  apply (tail_search _ s0) in Ht as (Ht1 & post & Hpost & Htlen); [|done].
  set (pre := str_take _ s0) in *.
  rewrite (longest_ext _ _ _ (common_head_set strArr)) in Hpre.
  rewrite (longest_ext _ _ _ (common_tail_set strArr)) in Hpost.
  assert (Hhlen : js_length pre = h + 1) by (unfold js_length; lia).
  destruct ((h =? -1) && (t =? -1)) eqn:Eht; eexists; split; [done| |done|].
  - left. split; [done|]. right. bool_to_prop. subst.
    assert (pre = "" /\ post = "") as [-> ->] by (unfold js_length in *; destruct pre, post; simpl in *; split; done || lia).
    done.
  - right. exists pre, post. split_and!; [done|done| |].
    + destruct (decide (pre = "")) as [Hp|]; [|by left]. right. intros ->. rewrite Hp in Hhlen.
      unfold js_length in *. simpl in *. apply andb_false_iff in Eht as [?%Z.eqb_neq|?%Z.eqb_neq]; lia.
    + replace h with (js_length pre - 1) by lia. replace t with (js_length post - 1) by lia.
      apply shortens_fold; [apply Hpre|apply Hpost].
Qed.

(** ** The names of a page *)

Lemma add_values_total ss ls m : exists m', add_values ss ls m = inr m'.
Proof.
  revert m; induction ls as [|label ls IH]; intros m; simpl; [eauto|].
  destruct (short_names_computed (label_values ss label)) as [m' ->]. apply IH.
Qed.

(** The short names of a page fail exactly when a store has no address. *)
Theorem short_map_fails (data : TopologyStoreLocation) :
  (exists m, getShortStrMap (Some data) = inr m) <->
  Forall (fun s => address s <> None) (default [] (stores data)).
Proof.
  unfold getShortStrMap.
  destruct (add_values_total (default [] (stores data)) (default [] (location_labels data))
    (fold_left add_label (default [] (location_labels data)) ∅)) as [m ->].
  generalize (default [] (stores data)) as ss. clear. intros ss.
  revert m; induction ss as [|s ss IH]; intros m; simpl; [split; eauto|].
  destruct (address s) eqn:E.
  - rewrite IH, Forall_cons, E. naive_solver.
  - rewrite Forall_cons, E. naive_solver.
Qed.

End ShortNames.

(** ** The tree *)

Section TreeFacts.
Import Tree.
Context (t : string -> string).

Definition is_leaf_name (n : string) : Prop := n = NODE_TIFLASH t \/ n = NODE_TIKV t.

(** A well-formed node: the leaves are the nodes with the name of a kind of
    store; an inner node has children, and no two inner nodes among them have the
    same label and value. *)
Definition inner_key (el : TreeNode) : list (string * option string) :=
  match children el with [] => [] | _ => [(name el, value el)] end.

Definition siblings_ok (cs : list TreeNode) : Prop := NoDup (cs ≫= inner_key).

Inductive wf_node : TreeNode -> Prop :=
  | wf_leaf n v : is_leaf_name n -> wf_node (Node n v [])
  | wf_inner n v cs : ~ is_leaf_name n -> cs <> [] -> siblings_ok cs -> Forall wf_node cs ->
      wf_node (Node n (Some v) cs).

Definition wf_forest (cs : list TreeNode) : Prop := siblings_ok cs /\ Forall wf_node cs.

(** The stores below a node, each with the labels on the way to it. *)
Fixpoint entries (el : TreeNode) : list (list (string * string) * (string * option string)) :=
  match el with
  | Node n v [] => [([], (n, v))]
  | Node n v cs => map (fun e => ((n, default "" v) :: fst e, snd e)) (flat_map entries cs)
  end.

Definition forest_entries (cs : list TreeNode) := flat_map entries cs.

Lemma entries_inner n v cs : cs <> [] ->
  entries (Node n v cs) = map (fun e => ((n, default "" v) :: fst e, snd e)) (forest_entries cs).
Proof. by destruct cs. Qed.

(** The entry a store adds. *)
Definition entry_of (path : list (string * string)) (leaf : TreeNode) :=
  (path, (name leaf, value leaf)).

Lemma wf_node_inv el : wf_node el ->
  match el with Node n v cs => is_leaf_name n /\ cs = [] \/
    ~ is_leaf_name n /\ cs <> [] /\ (exists w, v = Some w) /\ wf_forest cs end.
Proof. destruct 1; [left|right]; unfold wf_forest; eauto 10. Qed.

Lemma add_store_children path leaf n v cs :
  exists cs', cs' <> [] /\ add_store path leaf (Node n v cs) = Node n v cs'.
Proof.
  destruct path as [|[l w] path]; simpl; [exists (cs ++ [leaf]); split; [by destruct cs|done]|].
  destruct (list_find (is_node l w) cs) as [[i el]|] eqn:E; eexists; (split; [|done]).
  - apply list_find_Some in E as (Hi%lookup_lt_Some & _). intros Hnil.
    apply (f_equal length) in Hnil. rewrite length_alter in Hnil. simpl in Hnil. lia.
  - by destruct cs.
Qed.

Lemma inner_key_node n v cs : cs <> [] -> inner_key (Node n v cs) = [(n, v)].
Proof. by destruct cs. Qed.

Lemma forest_app cs cs' : forest_entries (cs ++ cs') = forest_entries cs ++ forest_entries cs'.
Proof. apply flat_map_app. Qed.

(** Replacing one child by a node with the same key and one more entry. *)
Lemma forest_replace cs1 cs2 el el' e :
  inner_key el' = inner_key el -> wf_node el' -> entries el' ≡ₚ e :: entries el ->
  wf_forest (cs1 ++ el :: cs2) ->
  wf_forest (cs1 ++ el' :: cs2) /\
  forest_entries (cs1 ++ el' :: cs2) ≡ₚ e :: forest_entries (cs1 ++ el :: cs2).
Proof.
  intros Hk Hwf He [Hs Hf]. split; [split|].
  - revert Hs. unfold siblings_ok. by rewrite !bind_app, !bind_cons, Hk.
  - apply Forall_app in Hf as [H1 H2]. apply Forall_cons in H2 as [_ H2].
    apply Forall_app. split; [done|]. by constructor.
  - rewrite !forest_app. change (forest_entries (el' :: cs2)) with (entries el' ++ forest_entries cs2).
    change (forest_entries (el :: cs2)) with (entries el ++ forest_entries cs2).
    rewrite He. simpl. symmetry. apply Permutation_middle.
Qed.

(** Adding one child with a new key. *)
Lemma forest_push cs el :
  (forall k, k ∈ inner_key el -> k ∉ (cs ≫= inner_key)) -> wf_node el -> wf_forest cs ->
  wf_forest (cs ++ [el]) /\ forest_entries (cs ++ [el]) ≡ₚ entries el ++ forest_entries cs.
Proof.
  intros Hk Hwf [Hs Hf]. split; [split|].
  - unfold siblings_ok in *. rewrite bind_app, NoDup_app. split_and!; [done| |].
    + intros x Hx Hx'. apply (Hk x); [|done]. apply list_elem_of_bind in Hx' as (y & Hy & Hy').
      apply list_elem_of_singleton in Hy' as ->. done.
    + unfold inner_key. simpl. destruct (children el); simpl; [constructor|apply NoDup_singleton].
  - apply Forall_app. split; [done|]. by constructor.
  - rewrite forest_app. unfold forest_entries at 2. simpl. rewrite app_nil_r. apply Permutation_app_comm.
Qed.

(** Adding a store to well-formed children keeps them well formed and adds one
    entry, the path and the leaf of the store. *)
Lemma add_store_spec path leaf : Forall (fun e => ~ is_leaf_name (fst e)) path -> wf_node leaf ->
  children leaf = [] -> forall n v cs, wf_forest cs ->
  wf_forest (children (add_store path leaf (Node n v cs))) /\
  forest_entries (children (add_store path leaf (Node n v cs))) ≡ₚ
    entry_of path leaf :: forest_entries cs.
Proof.
  intros Hpath Hleaf Hnil. induction path as [|[l w] path IH]; intros n v cs Hcs.
  - simpl. destruct leaf as [ln lv lcs]. simpl in *. subst.
    apply (forest_push cs (Node ln lv [])); [|done|done]. intros k Hk. by apply elem_of_nil in Hk.
  - apply Forall_cons in Hpath as [Hl Hpath]. specialize (IH Hpath). simpl in Hl. cbn [add_store].
    destruct (list_find (is_node l w) cs) as [[i el]|] eqn:E; cbn [children].
    + apply list_find_Some in E as (Hi & [Hn Hv] & _).
      apply list_elem_of_split_length in Hi as (cs1 & cs2 & -> & ->).
      rewrite alter_app_r_alt, Nat.sub_diag by lia. cbn [alter list_alter].
      assert (Hel : wf_node el) by (destruct Hcs as [_ [_ [? _]%Forall_cons]%Forall_app]; done).
      destruct el as [ln lv lcs]. simpl in Hn, Hv. subst ln lv.
      apply wf_node_inv in Hel as [[]|(_ & Hne & _ & Hlcs)]; [done|].
      destruct (IH l (Some w) lcs Hlcs) as [IHw IHe].
      destruct (add_store_children path leaf l (Some w) lcs) as (cs' & Hcs' & Heq).
      rewrite Heq in *. cbn [children] in *. destruct IHw.
      apply forest_replace; [by rewrite !inner_key_node|by constructor| |done].
      rewrite !entries_inner, IHe by done. done.
    + destruct (IH l (Some w) [] ltac:(split; constructor)) as [[IHs IHf] IHe].
      destruct (add_store_children path leaf l (Some w) []) as (cs' & Hcs' & Heq).
      rewrite Heq in *. cbn [children] in *.
      destruct (forest_push cs (Node l (Some w) cs')) as [H1 H2]; [|by constructor|done|].
      * rewrite inner_key_node by done. intros k ->%list_elem_of_singleton (el & Hk & Hel)%list_elem_of_bind.
        apply list_find_None in E. rewrite Forall_forall in E. apply (E el Hel).
        unfold inner_key in Hk. destruct (children el); [by apply elem_of_nil in Hk|].
        apply list_elem_of_singleton in Hk. unfold is_node. by simplify_eq.
      * split; [done|]. rewrite H2, entries_inner, IHe by done. done.
Qed.

End TreeFacts.

Section TreeTheorems.
Import Tree.

(** The entry of a store: its labels, its kind and its address. *)
Definition store_entry (t : string -> string) (locationLabels : list string) (store : TopologyStoreLabels) :=
  let ls := default ∅ (labels store) in
  entry_of (store_path locationLabels ls) (store_leaf t ls (address store)).

Lemma store_path_names locationLabels ls e :
  e ∈ store_path locationLabels ls -> fst e ∈ locationLabels /\ ls !! fst e = Some (snd e).
Proof.
  intros (l & Hl & He)%list_elem_of_omap. destruct (ls !! l) as [w|] eqn:E; [|done].
  simpl in He. by simplify_eq/=.
Qed.

Lemma store_leaf_wf t ls addr : wf_node t (store_leaf t ls addr).
Proof. unfold store_leaf. constructor. unfold is_leaf_name. case_bool_decide; auto. Qed.

Lemma add_stores_spec t locationLabels ss : Forall (fun l => ~ is_leaf_name t l) locationLabels ->
  Forall (fun s => labels s <> None) ss -> forall n v cs, wf_forest t cs ->
  exists cs', add_stores t locationLabels ss (Node n v cs) = inr (Node n v cs') /\ wf_forest t cs' /\
    forest_entries cs' ≡ₚ map (store_entry t locationLabels) ss ++ forest_entries cs.
Proof.
  intros Hl. induction 1 as [|s ss Hs _ IH]; intros n v cs Hcs; simpl; [eauto|].
  destruct (labels s) as [ls|] eqn:E; [|done].
  destruct (add_store_spec t (store_path locationLabels ls) (store_leaf t ls (address s))) with n v cs
    as [Hw He]; [|apply store_leaf_wf|done|done|].
  { apply Forall_forall. intros e [He _]%store_path_names. rewrite Forall_forall in Hl. auto. }
  destruct (add_store_children (store_path locationLabels ls) (store_leaf t ls (address s)) n v cs)
    as (cs1 & _ & Heq). rewrite Heq in *. cbn [children] in *.
  destruct (IH n v cs1 Hw) as (cs' & H1 & H2 & H3). exists cs'. split; [done|]. split; [done|].
  rewrite H3, He. unfold store_entry at 2. rewrite E. symmetry. apply Permutation_middle.
Qed.

Lemma add_stores_fails t locationLabels ss : ~ Forall (fun s => labels s <> None) ss ->
  forall tree, add_stores t locationLabels ss tree = inl type_error.
Proof.
  induction ss as [|s ss IH]; intros Hs tree; simpl; [by destruct Hs|].
  destruct (labels s) eqn:E; [|done]. apply IH. intros H. apply Hs. constructor; [by rewrite E|done].
Qed.

(** C14: The tree of a page with location labels, none of which is the name of a leaf, fails
    exactly when a store has no labels.  Otherwise it shows every store exactly once, though not
    in the order in which they were given, below the nodes of its own labels in the order of the
    location labels, with its kind and its address; no two nodes below the same parent carry the
    same label and value. *)
Theorem store_tree_wf (t : string -> string) (data : TopologyStoreLocation) (ls : list string) :
  location_labels data = Some ls -> ls <> [] -> Forall (fun l => ~ is_leaf_name t l) ls ->
  let ss := default [] (stores data) in
  (Forall (fun s => labels s <> None) ss ->
     exists cs, buildTreeData t (Some data) = inr (Node NODE_STORES (Some "") cs) /\
       wf_forest t cs /\ forest_entries cs ≡ₚ map (store_entry t ls) ss) /\
  (~ Forall (fun s => labels s <> None) ss -> buildTreeData t (Some data) = inl type_error).
Proof.
  intros Hls Hne Hl ss. unfold buildTreeData. simpl. rewrite Hls. simpl.
  destruct (Nat.ltb_spec 0 (length ls)); [|destruct ls; simpl in *; [done|lia]].
  split; [|intros Hs; by apply add_stores_fails]. intros Hs.
  destruct (add_stores_spec t ls ss Hl Hs NODE_STORES (Some "") []) as (cs & H1 & H2 & H3);
    [split; constructor|]. exists cs. by rewrite app_nil_r in H3.
Qed.

Lemma store_tree_wf_witness :
  let data := mkLocation (Some ["zone"; "host"])
    (Some [mkStore (Some "a:1") (Some {[ "zone" := "z1"; "host" := "h1" ]});
           mkStore (Some "b:1") (Some {[ "zone" := "z2"; "engine" := "tiflash" ]});
           mkStore (Some "c:1") (Some {[ "zone" := "z1"; "host" := "h2" ]})]) in
  exists cs, buildTreeData id (Some data) = inr (Node NODE_STORES (Some "") cs) /\
    wf_forest id cs /\
    forest_entries cs ≡ₚ
      [([("zone", "z1"); ("host", "h1")], ("distro.tikv", Some "a:1"));
       ([("zone", "z2")], ("distro.tiflash", Some "b:1"));
       ([("zone", "z1"); ("host", "h2")], ("distro.tikv", Some "c:1"))].
Proof.
  intros data.
  assert (Hl : Forall (fun l => ~ is_leaf_name id l) ["zone"; "host"])
    by (repeat constructor; intros [H|H]; vm_compute in H; congruence).
  assert (Hs : Forall (fun s => labels s <> None) (default [] (stores data)))
    by (repeat constructor; done).
  destruct (proj1 (store_tree_wf id data ["zone"; "host"] eq_refl ltac:(done) Hl) Hs) as (cs & H1 & H2 & H3).
  exists cs. split; [exact H1|]. split; [exact H2|exact H3].
Defined.

(** The second line of an inner node has at most [MAX_STR_LENGTH] characters. *)
Lemma middle_text_fits (m : gmap string string) v : js_length (middle_text m v) <= MAX_STR_LENGTH.
Proof.
  unfold middle_text. destruct (Z.leb_spec (js_length v) MAX_STR_LENGTH); [done|].
  destruct (Z.ltb_spec MAX_STR_LENGTH (js_length (default v (m !! v)))) as [Hlt|Hge]; [|done].
  set (s := default v (m !! v)) in *. unfold MAX_STR_LENGTH in *.
  pose proof (js_slice_length s 0 7 ltac:(lia) ltac:(lia)).
  pose proof (js_slice_length s (js_length s - 7) (js_length s) ltac:(lia) ltac:(lia)).
  unfold js_length in *. rewrite !str_length_app. simpl. change (8 - 1) with 7. lia.
Qed.

End TreeTheorems.
