(* ===== verification/PlanTable.v ===== *)
(** * The tables of an execution plan

    components/BinaryPlanTable of ui/ (Module [V1]: the parser of the plan's text,
    the ten columns with what each cell shows, the choice of columns) and
    plan-table/index.tsx of ui-v2/ (Module [V2]), which shows both formats of
    [PlanParser]. *)

From Stdlib Require Import Ascii.
From S2P Require Import Prelude JsString JsNumber PlanParser.
From stdpp Require Import options.
Local Open Scope Z_scope.

(** [COLUM_KEYS] *)
Inductive ColKey := kid | estRows_ | estCost_ | actRows_ | task_ | accessObject_ | executionInfo_
  | operatorInfo_ | memory_ | disk_.
#[global] Instance ColKey_eq_dec : EqDecision ColKey.
Proof. solve_decision. Defined.

Definition COLUM_KEYS : list ColKey :=
  [kid; estRows_; estCost_; actRows_; task_; accessObject_; executionInfo_; operatorInfo_; memory_; disk_].

(** [row[key]] *)
Definition cell_of (k : ColKey) (row : PlanItem) : string :=
  match k with
  | kid => id row | estRows_ => estRows row | estCost_ => estCost row | actRows_ => actRows row
  | task_ => task row | accessObject_ => accessObject row | executionInfo_ => executionInfo row
  | operatorInfo_ => operatorInfo row | memory_ => memory row | disk_ => disk row
  end.

(** What a cell shows: its text, and the text of the tooltip over it. *)
Record Cell := mkCell { title : option string; text : string }.

(** Both tables cut the operator information off. *)
Definition truncate_at (n : Z) (suffix s : string) : string :=
  if n <? js_length s then js_slice s 0 n +:+ suffix else s.

Module V1.

(** [positions]: where the columns start and how long they are. *)
Definition column_positions (headers : list string) : list (Z * Z) :=
  positions 1 (map js_length (inner_parts headers)).

(** The loop over the lines, by their length: a line may hold line breaks. *)
Definition plan_lines (binaryPlanText : string) (headerLineLen : Z) (ps : list (Z * Z))
    : option (list PlanItem) :=
  v2_loop (S (String.length binaryPlanText)) binaryPlanText headerLineLen ps 1.

Definition convertBinaryPlanTextToArray (binaryPlanText : string) : option (list PlanItem) :=
  let headerEndPos := js_indexOf_char binaryPlanText LF 1 in
  let headerLine := js_slice binaryPlanText 1 headerEndPos in
  if negb (js_startsWith headerLine "| id") then Some []
  else
    let headers := js_split "|" headerLine in
    if negb (Nat.eqb (length headers) 12) then Some []
    else plan_lines binaryPlanText (js_length headerLine) (column_positions headers).

Record Column := mkColumn {
  key : ColKey; name : string; extra : string; minWidth : Z; maxWidth : Z; onRender : PlanItem -> Cell
}.

Definition plain (k : ColKey) (row : PlanItem) : Cell := mkCell None (cell_of k row).
Definition tip (k : ColKey) (row : PlanItem) : Cell := mkCell (Some (cell_of k row)) (cell_of k row).

Definition col_id : Column := mkColumn kid "id " "id" 200 600 (tip kid).
Definition col_estRows : Column := mkColumn estRows_ "estRows " "estRows" 100 120 (plain estRows_).
Definition col_estCost : Column := mkColumn estCost_ "estCost " "estCost" 100 120 (plain estCost_).
Definition col_actRows : Column := mkColumn actRows_ "actRows " "actRows" 100 120 (plain actRows_).
Definition col_task : Column := mkColumn task_ "task " "task" 60 100 (plain task_).
Definition col_accessObject : Column :=
  mkColumn accessObject_ "access object " "access object" 120 140 (tip accessObject_).
Definition col_executionInfo : Column :=
  mkColumn executionInfo_ "execution info " "execution info" 120 300 (tip executionInfo_).
Definition col_operatorInfo : Column :=
  mkColumn operatorInfo_ "operator info " "operator info" 120 300 (fun row =>
    mkCell
      (Some (truncate_at 2000 "...(too long to show, copy or download to analyze)" (operatorInfo row)))
      (truncate_at 100 "..." (operatorInfo row))).
Definition col_memory : Column := mkColumn memory_ "memory " "memory" 80 100 (plain memory_).
Definition col_disk : Column := mkColumn disk_ "disk " "disk" 60 100 (plain disk_).

Definition columns : list Column :=
  [col_id; col_estRows; col_estCost; col_actRows; col_task; col_accessObject; col_executionInfo;
   col_operatorInfo; col_memory; col_disk].

(** The state of the table: which columns are visible. *)
Abbreviation VisibleKeys := (ColKey -> bool).
Definition initialVisible : VisibleKeys := fun _ => true.

Definition set_key (k : ColKey) (checked : bool) (prev : VisibleKeys) : VisibleKeys :=
  fun k' => if decide (k' = k) then checked else prev k'.

(** The eye in a column's header. *)
Definition hideColumn (columnKey : ColKey) (prev : VisibleKeys) : VisibleKeys := set_key columnKey false prev.

(** A check box of the selector of columns. *)
Definition handleCheckChange (visibleColumnKeys : VisibleKeys) (checked : bool) (column : Column) : VisibleKeys :=
  set_key (key column) checked visibleColumnKeys.

(** The check boxes: what they say and whether they are checked. *)
Definition selector_boxes (visibleColumnKeys : VisibleKeys) : list (string * bool) :=
  map (fun c => (extra c, visibleColumnKeys (key c))) columns.

Definition filteredColumns (v : VisibleKeys) : list Column := filter (fun c => v (key c) = true) columns.

Inductive View :=
  | Failed (content : string)
  | Table (names : list string) (rows : list (list Cell)).

Definition BinaryPlanTable (data : string) (v : VisibleKeys) : option View :=
  arr ← convertBinaryPlanTextToArray data;
  Some (if (0 <? length arr)%nat
        then Table (map name (filteredColumns v))
               (map (fun row => map (fun c => onRender c row) (filteredColumns v)) arr)
        else Failed data).

(** What the user does to the columns. *)
Inductive Op := Hide (k : ColKey) | Check_ (k : ColKey) (checked : bool).

Definition run_op (v : VisibleKeys) (o : Op) : VisibleKeys :=
  match o with
  | Hide k => hideColumn k v
  | Check_ k checked =>
      match find (fun c => bool_decide (key c = k)) columns with
      | Some c => handleCheckChange v checked c
      | None => v
      end
  end.

End V1.

Module V2.

Record Column := mkColumn {
  key : ColKey; header : string; size : option Z; enableResizing : option bool; accessorFn : PlanItem -> Cell
}.

Definition plain (k : ColKey) (row : PlanItem) : Cell := mkCell None (cell_of k row).
Definition tip (k : ColKey) (row : PlanItem) : Cell := mkCell (Some (cell_of k row)) (cell_of k row).

Definition columns : list Column :=
  [ mkColumn kid "id" None None (tip kid);
    mkColumn estRows_ "estRows" (Some 120) (Some false) (plain estRows_);
    mkColumn estCost_ "estCost" (Some 120) (Some false) (plain estCost_);
    mkColumn actRows_ "actRows" (Some 120) (Some false) (plain actRows_);
    mkColumn task_ "task" (Some 100) (Some false) (plain task_);
    mkColumn accessObject_ "access object" (Some 120) None (tip accessObject_);
    mkColumn executionInfo_ "execution info" None (Some false) (tip executionInfo_);
    mkColumn operatorInfo_ "operator info" None (Some false) (fun row =>
      mkCell
        (Some (truncate_at 2000 "...(too long to show, copy or download to analyze)" (operatorInfo row)))
        (truncate_at 100 "..." (operatorInfo row)));
    mkColumn memory_ "memory" (Some 100) (Some false) (plain memory_);
    mkColumn disk_ "disk" (Some 100) (Some false) (plain disk_) ].

(** [initialState.columnVisibility]: the old format has no cost and no access object. *)
Definition columnVisibility (plan : string) (k : ColKey) : bool :=
  let isV2 := match getPlanTextType plan with v2 => true | _ => false end in
  match k with estCost_ | accessObject_ => isV2 | _ => true end.

Definition PlanTable (plan : string) : option (list string * list (list Cell)) :=
  planItems ← parsePlanTextToArray plan;
  let shown := filter (fun c => columnVisibility plan (key c) = true) columns in
  Some (map header shown, map (fun row => map (fun c => accessorFn c row) shown) planItems).

End V2.

(** ** The two tables *)

(** The cell of a column: the field of the row under it, with its full text over
    the columns that are wide; the operator information is cut off. *)
Definition show_cell (k : ColKey) (row : PlanItem) : Cell :=
  match k with
  | kid | accessObject_ | executionInfo_ => mkCell (Some (cell_of k row)) (cell_of k row)
  | operatorInfo_ =>
      mkCell (Some (truncate_at 2000 "...(too long to show, copy or download to analyze)" (operatorInfo row)))
        (truncate_at 100 "..." (operatorInfo row))
  | _ => mkCell None (cell_of k row)
  end.

Section Facts.

(** The last thing done to a column. *)
Definition op_on (k : ColKey) (o : V1.Op) : option bool :=
  match o with
  | V1.Hide k' => if decide (k = k') then Some false else None
  | V1.Check_ k' checked => if decide (k = k') then Some checked else None
  end.
Definition shown_after (ops : list V1.Op) (k : ColKey) : bool := default true (last (omap (op_on k) ops)).

Lemma run_op_spec v o k : V1.run_op v o k = default (v k) (op_on k o).
Proof.
  destruct o as [k'|k' checked]; cbn [V1.run_op op_on].
  - unfold V1.hideColumn, V1.set_key. by case_decide.
  - destruct (find (fun c => bool_decide (V1.key c = k')) V1.columns) as [c|] eqn:E.
    + apply find_some in E as [_ E%bool_decide_eq_true]. rewrite <- E.
      unfold V1.handleCheckChange, V1.set_key. by case_decide.
    + exfalso. destruct k'; discriminate E.
Qed.

Lemma run_ops_spec ops k : fold_left V1.run_op ops V1.initialVisible k = shown_after ops k.
Proof.
  unfold shown_after. induction ops as [|o ops IH] using rev_ind; [done|].
  rewrite fold_left_app, omap_app. simpl. rewrite run_op_spec, IH.
  destruct (op_on k o); simpl; [by rewrite last_snoc|by rewrite app_nil_r].
Qed.

Lemma v1_columns_cells v row :
  map (fun c => V1.onRender c row) (V1.filteredColumns v) =
  map (fun k => show_cell k row) (filter (fun k => v k = true) COLUM_KEYS).
Proof.
  unfold V1.filteredColumns, V1.columns, COLUM_KEYS. rewrite !filter_cons. cbn [V1.key V1.col_id V1.col_estRows
    V1.col_estCost V1.col_actRows V1.col_task V1.col_accessObject V1.col_executionInfo V1.col_operatorInfo
    V1.col_memory V1.col_disk].
  repeat case_decide; reflexivity.
Qed.

Lemma truncate_prefix n suffix s : 0 <= n ->
  js_length s <= n /\ truncate_at n suffix s = s \/
  exists p q, s = p +:+ q /\ js_length p = n /\ truncate_at n suffix s = p +:+ suffix.
Proof.
  intros Hn. unfold truncate_at. destruct (Z.ltb_spec n (js_length s)) as [H|H]; [right|by left].
  exists (str_take (Z.to_nat n) s), (str_drop (Z.to_nat n) s). unfold js_length in *.
  split_and!; [by rewrite str_take_drop|rewrite str_take_length; lia|].
  unfold js_slice, js_clamp, js_length. rewrite !(proj2 (Z.ltb_ge _ _)), !Z.min_l by lia.
  simpl. by rewrite Nat.sub_0_r.
Qed.

(** A line that fits the header has the ten cells of an item. *)
Lemma rows_items hs rows : header_ok hs = true -> forallb (v2_row_ok hs) rows = true -> exists items, mapM row_item rows = Some items.
Proof.
  intros ((Hl%Nat.eqb_eq & _)%andb_true_iff & _)%andb_true_iff Hr. induction rows as [|r rows IH]; [by eexists|].
  cbn [forallb] in Hr. apply andb_true_iff in Hr as [Hc%bool_decide_eq_true Hr]. destruct (IH Hr) as [items Hi].
  assert (Hlen : length r = 10%nat) by (rewrite <- (length_map js_length r), Hc, length_map; exact Hl).
  destruct r as [|c1 [|c2 [|c3 [|c4 [|c5 [|c6 [|c7 [|c8 [|c9 [|c10 [|]]]]]]]]]]]; try discriminate Hlen.
  cbn [mapM row_item mbind option_bind]. rewrite Hi. by eexists.
Qed.

(** C15: For a plan in the format of fixed width both generations of the table show
    the same: the rows of the parsed plan, which are those of the lines when the plan
    was printed from a header and lines of cells, and in each row the cells of the columns.
    The older table shows the columns whose last change did not hide them, and a
    message when the plan has no rows.  The text of a cell is the field of the row;
    only the operator information is cut, after 100 characters. *)
Theorem plan_tables_agree (plan : string) (ops : list V1.Op) :
  getPlanTextType plan = v2 ->
  let v := fold_left V1.run_op ops V1.initialVisible in
  exists items, parsePlanTextToArray plan = Some items /\
    (forall hs rows, header_ok hs = true -> forallb (v2_row_ok hs) rows = true -> plan = print_v2 hs rows ->
       mapM row_item rows = Some items) /\
    V2.PlanTable plan =
      Some (map V2.header V2.columns, map (fun row => map (fun k => show_cell k row) COLUM_KEYS) items) /\
    V1.BinaryPlanTable plan v =
      Some (if (0 <? length items)%nat
            then V1.Table (map V1.name (V1.filteredColumns v))
                   (map (fun row => map (fun k => show_cell k row)
                           (filter (fun k => shown_after ops k = true) COLUM_KEYS)) items)
            else V1.Failed plan) /\
    (forall k row, k <> operatorInfo_ -> text (show_cell k row) = cell_of k row) /\
    (forall row, let s := operatorInfo row in
       js_length s <= 100 /\ text (show_cell operatorInfo_ row) = s \/
       exists p q, s = p +:+ q /\ js_length p = 100 /\ text (show_cell operatorInfo_ row) = p +:+ "...").
Proof.
  intros Ht v. destruct (parse_v2_total plan) as [items Hi]. exists items.
  assert (Hp : parsePlanTextToArray plan = Some items) by (unfold parsePlanTextToArray; by rewrite Ht).
  split_and!; [done| | | | |].
  - intros hs rows Hh Hr ->. destruct (rows_items hs rows Hh Hr) as [items' Hm].
    destruct (printed_v2_parses hs rows items' Hh Hr Hm) as (_ & Hp' & _). by simplify_eq.
  - unfold V2.PlanTable, V2.columnVisibility. rewrite Ht, Hp. cbn [mbind option_bind].
    rewrite (filter_id _ V2.columns) by (repeat constructor). reflexivity.
  - unfold V1.BinaryPlanTable. change (V1.convertBinaryPlanTextToArray plan) with (parsePlanV2TextToArray plan).
    rewrite Hi. cbn [mbind option_bind]. f_equal.
    case_match; [|done]. f_equal. apply map_ext. intros row. rewrite v1_columns_cells. f_equal.
    apply filter_ext_elem. intros k _. unfold v. by rewrite run_ops_spec.
  - intros [] row Hk; done.
  - intros row. apply (truncate_prefix 100). lia.
Qed.

Lemma plan_tables_agree_witness :
  let plan := print_v2 demo_header [[" Scan_1 "; " 1 "; " 2 "; " 3 "; " r "; " o "; " x "; "a|b "; " m "; " d "]] in
  exists items, parsePlanTextToArray plan = Some items /\
    V1.BinaryPlanTable plan (fold_left V1.run_op [V1.Hide estCost_; V1.Hide task_; V1.Check_ task_ true] V1.initialVisible) =
      Some (V1.Table (map V1.name (V1.filteredColumns
              (fold_left V1.run_op [V1.Hide estCost_; V1.Hide task_; V1.Check_ task_ true] V1.initialVisible)))
             (map (fun row => map (fun k => show_cell k row)
                [kid; estRows_; actRows_; task_; accessObject_; executionInfo_; operatorInfo_; memory_; disk_]) items)).
Proof.
  intros plan.
  destruct (plan_tables_agree plan [V1.Hide estCost_; V1.Hide task_; V1.Check_ task_ true] ltac:(vm_compute; reflexivity))
    as (items & Hp & _ & _ & H1 & _).
  exists items. split; [exact Hp|]. rewrite H1. vm_compute in Hp. injection Hp as <-. reflexivity.
Defined.

End Facts.
