(* ===== verification/AutoRefresh.v ===== *)
(** * The buttons that refresh a page at intervals

    components/AutoRefreshButton of ui/ (Module [V1]) and auto-refresh-button of
    ui-v2/ (Module [V2]).  The state is that of the component; a step is an event:
    the timer, a click, a change of the interval or of the property [disabled].  A
    step of [V1] ends with React running the effects whose dependencies changed,
    which is where the timer is set again. *)

From S2P Require Import Prelude.
From stdpp Require Import options.
Local Open Scope Z_scope.

(** The intervals both menus offer, in seconds. *)
Definition DEFAULT_AUTO_REFRESH_OPTIONS : list Z :=
  [30; 60; 5 * 60; 15 * 60; 30 * 60; 1 * 60 * 60; 2 * 60 * 60].

Module V1.

(** [timer] is the timer that is running, with the seconds remaining when it was
    set; [refreshes] counts the calls of [onRefresh]. *)
Record Button := mkButton {
  interval : Z; disabled : bool; remaining : Z; timer : option Z; refreshes : nat
}.

Definition setInterval (n : Z) (b : Button) : Button :=
  mkButton n (disabled b) (remaining b) (timer b) (refreshes b).
Definition setDisabled (d : bool) (b : Button) : Button :=
  mkButton (interval b) d (remaining b) (timer b) (refreshes b).
Definition setRemaining (n : Z) (b : Button) : Button :=
  mkButton (interval b) (disabled b) n (timer b) (refreshes b).
Definition setTimer (t : option Z) (b : Button) : Button :=
  mkButton (interval b) (disabled b) (remaining b) t (refreshes b).
Definition onRefresh (b : Button) : Button :=
  mkButton (interval b) (disabled b) (remaining b) (timer b) (S (refreshes b)).

Definition resetTimer (b : Button) : Button := setRemaining (interval b) (setTimer None b).

(** The effect of a change of the interval. *)
Definition intervalChanged (b : Button) : Button :=
  let b := setTimer None b in
  if (interval b <? remaining b) || (remaining b =? 0) then setRemaining (interval b) b else b.

Definition handleRefresh (b : Button) : Button :=
  if disabled b then b else onRefresh (resetTimer b).

(** The effect that sets the timer. *)
Definition timerEffect (b : Button) : Button :=
  if negb (truthy (interval b)) || disabled b then setTimer None b
  else setTimer (Some (remaining b)) b.

(** The function the timer calls. *)
Definition timeout (r : Z) (b : Button) : Button :=
  if r =? 0 then handleRefresh (setRemaining (interval b) b)
  else setRemaining (remaining b - 1) b.

(** React compares the dependencies of the effects with those of the last time
    they ran: the old timer is cleared, the effects run in their order, and once
    more when the first of them changed the seconds remaining. *)
Definition commit (old b : Button) : Button :=
  let changed := negb (interval old =? interval b) in
  if changed || negb (Bool.eqb (disabled old) (disabled b)) || negb (remaining old =? remaining b)
  then timerEffect (if changed then intervalChanged b else b)
  else b.

Definition mount (i : Z) (d : bool) : Button := timerEffect (intervalChanged (mkButton i d 0 None 0)).

Inductive Event := Fire | Click | Interval (n : Z) | Disabled (d : bool).

Definition handle (e : Event) (b : Button) : Button :=
  match e with
  | Fire => match timer b with Some r => commit b (timeout r (setTimer None b)) | None => b end
  | Click => commit b (handleRefresh b)
  | Interval n => commit b (setInterval n b)
  | Disabled d => commit b (setDisabled d b)
  end.

(** The menu offers the intervals and off. *)
Definition allowed (e : Event) : Prop := match e with Interval n => 0 <= n | _ => True end.

Inductive reachable : Button -> Prop :=
  | reach_mount i d : 0 <= i -> reachable (mount i d)
  | reach_step b e : reachable b -> allowed e -> reachable (handle e b).

End V1.

Module V2.

Record Button := mkButton { autoRefreshValue : Z; disabled : bool; remaining : Z; refreshes : nat }.

Definition setRemaining (n : Z) (b : Button) : Button :=
  mkButton (autoRefreshValue b) (disabled b) n (refreshes b).

Definition mount (v : Z) (d : bool) : Button := mkButton v d v 0.

Definition handleRefresh (b : Button) : Button :=
  if disabled b then b
  else mkButton (autoRefreshValue b) (disabled b) (autoRefreshValue b) (S (refreshes b)).

(** The function called every second.  It sets the remaining seconds and, from
    within the update, calls [handleRefresh], whose own update comes after it. *)
Definition tick (b : Button) : Button :=
  if disabled b || (autoRefreshValue b =? 0) then b
  else
    let newRemaining := remaining b - 1 in
    let b := setRemaining newRemaining b in
    if newRemaining =? 0 then handleRefresh b else b.

(** The menu: the page that keeps the value stores it, the button the seconds. *)
Definition handleAutoRefreshChange (v : Z) (b : Button) : Button :=
  mkButton v (disabled b) v (refreshes b).

(** The page changes the value without the menu. *)
Definition setValue (v : Z) (b : Button) : Button := mkButton v (disabled b) (remaining b) (refreshes b).
Definition setDisabled (d : bool) (b : Button) : Button :=
  mkButton (autoRefreshValue b) d (remaining b) (refreshes b).

(** The ring in the button, in percent. *)
Definition progress (b : Button) : Z :=
  (autoRefreshValue b - remaining b) * 100 / autoRefreshValue b.

End V2.

(** ** The older button *)

Section Older.
Import V1.

(** The seconds remaining stay within the interval; a running timer was set with
    them, and only while the refresh is on. *)
Definition inv (b : Button) : Prop :=
  0 <= remaining b <= interval b /\
  match timer b with
  | Some r => r = remaining b /\ 0 < interval b /\ disabled b = false
  | None => True
  end.

Lemma timerEffect_inv b : 0 <= remaining b <= interval b -> inv (timerEffect b).
Proof.
  intros Hr. unfold timerEffect, inv, truthy, truthy_Z.
  destruct (Z.eqb_spec (interval b) 0), (disabled b) eqn:E; simpl; rewrite ?E; try tauto.
  split_and!; lia || done.
Qed.

Lemma intervalChanged_range b : 0 <= interval b -> 0 <= remaining b ->
  0 <= remaining (intervalChanged b) <= interval (intervalChanged b).
Proof.
  intros Hi Hr. unfold intervalChanged. simpl.
  destruct (Z.ltb_spec (interval b) (remaining b)); simpl; [lia|].
  destruct (Z.eqb_spec (remaining b) 0); simpl; lia.
Qed.

Lemma commit_inv old b : 0 <= interval b -> 0 <= remaining b ->
  (interval old = interval b -> remaining b <= interval b) ->
  (interval old = interval b -> disabled old = disabled b -> remaining old = remaining b -> inv b) ->
  inv (commit old b).
Proof.
  intros Hi Hr Hle Hb. unfold commit.
  destruct (Z.eqb_spec (interval old) (interval b)) as [Hio|]; simpl;
    [|by apply timerEffect_inv, intervalChanged_range].
  destruct (Bool.eqb (disabled old) (disabled b)) eqn:Ed; simpl; [|apply timerEffect_inv; auto].
  destruct (Z.eqb_spec (remaining old) (remaining b)); simpl; [|apply timerEffect_inv; auto].
  apply eqb_prop in Ed. auto.
Qed.

Lemma button_inv b : reachable b -> inv b.
Proof.
  induction 1 as [i d Hi|b e Hb [[Hr Hri] Ht] He].
  - by apply timerEffect_inv, intervalChanged_range.
  - destruct e as [| |n|d]; simpl.
    + destruct (timer b) as [r|] eqn:E; [|split; [done|by rewrite E]]. destruct Ht as (-> & Hi & Hd).
      unfold timeout. simpl. destruct (Z.eqb_spec (remaining b) 0).
      * unfold handleRefresh. simpl. rewrite Hd.
        apply commit_inv; simpl; lia.
      * apply commit_inv; simpl; try lia.
    + unfold handleRefresh. destruct (disabled b) eqn:Ed.
      * apply commit_inv; try lia. intros. split; [done|]. by rewrite Ed.
      * apply commit_inv; simpl; try lia. intros. unfold inv. simpl. lia.
    + simpl in He. apply commit_inv; simpl; try lia. intros <- _ _. split; simpl; [lia|]. done.
    + apply commit_inv; simpl; try lia. intros _ <- _. split; simpl; [lia|]. done.
Qed.

Lemma commit_remaining old b : interval old = interval b -> remaining old <> remaining b ->
  commit old b = timerEffect b.
Proof.
  intros Hi Hr. unfold commit. rewrite Hi, Z.eqb_refl. simpl.
  rewrite (proj2 (Z.eqb_neq _ _)) by done. by rewrite orb_true_r.
Qed.

Lemma timerEffect_on b : 0 < interval b -> disabled b = false ->
  timerEffect b = setTimer (Some (remaining b)) b.
Proof.
  intros Hi Hd. unfold timerEffect, truthy, truthy_Z. by rewrite Hd, (proj2 (Z.eqb_neq _ _)) by lia.
Qed.

(** One firing of a running timer: a second less, or a refresh and the whole
    interval again; the timer runs on. *)
Lemma fire_spec b : inv b -> is_Some (timer b) ->
  let b' := handle Fire b in
  inv b' /\ is_Some (timer b') /\ interval b' = interval b /\
  (if remaining b =? 0
   then remaining b' = interval b /\ refreshes b' = S (refreshes b)
   else remaining b' = remaining b - 1 /\ refreshes b' = refreshes b).
Proof.
  intros [Hr Ht] [r E]. rewrite E in Ht. destruct Ht as (-> & Hi & Hd).
  cbn [handle]. rewrite E. unfold timeout. simpl. destruct (Z.eqb_spec (remaining b) 0) as [H0|H0].
  - unfold handleRefresh. simpl. rewrite Hd.
    rewrite commit_remaining by (simpl; lia). rewrite timerEffect_on by (simpl; done).
    unfold inv. simpl. rewrite Hd. split_and!; eauto; lia.
  - rewrite commit_remaining by (simpl; lia). rewrite timerEffect_on by (simpl; done).
    unfold inv. simpl. rewrite Hd. split_and!; eauto; lia.
Qed.

Lemma fires_spec k : forall b, inv b -> is_Some (timer b) ->
  let b' := Nat.iter k (handle Fire) b in
  inv b' /\ is_Some (timer b') /\ interval b' = interval b /\
  Z.of_nat k + (interval b - remaining b) =
    (Z.of_nat (refreshes b') - Z.of_nat (refreshes b)) * (interval b + 1) + (interval b - remaining b').
Proof.
  induction k as [|k IH]; intros b Hb Ht; [simpl; split_and!; auto; lia|].
  change (Nat.iter (S k) (handle Fire) b) with (handle Fire (Nat.iter k (handle Fire) b)).
  destruct (IH b Hb Ht) as (Hb' & Ht' & Hi & Heq). set (b' := Nat.iter k (handle Fire) b) in *.
  destruct (fire_spec b' Hb' Ht') as (Hb'' & Ht'' & Hi' & Hcase).
  split_and!; [done|done|congruence|].
  destruct (Z.eqb_spec (remaining b') 0); destruct Hcase as [H1 H2]; rewrite H1, H2; nia.
Qed.

Lemma click_stops b : inv b -> disabled b = false -> remaining b = interval b ->
  timer (handle Click b) = None /\ refreshes (handle Click b) = S (refreshes b) /\
  remaining (handle Click b) = interval b /\ interval (handle Click b) = interval b /\
  disabled (handle Click b) = false.
Proof.
  intros Hb Hd Hr. cbn [handle]. unfold handleRefresh. rewrite Hd. unfold commit. simpl.
  rewrite Z.eqb_refl, Hd, Hr, Z.eqb_refl. done.
Qed.

End Older.

(** ** The newer button *)

Section Newer.
Import V2.

Lemma tick_on b : disabled b = false -> 0 < autoRefreshValue b -> 0 < remaining b <= autoRefreshValue b ->
  let b' := tick b in
  disabled b' = false /\ autoRefreshValue b' = autoRefreshValue b /\
  0 < remaining b' <= autoRefreshValue b /\
  (if remaining b =? 1
   then remaining b' = autoRefreshValue b /\ refreshes b' = S (refreshes b)
   else remaining b' = remaining b - 1 /\ refreshes b' = refreshes b).
Proof.
  intros Hd Hv Hr. unfold tick. rewrite Hd, (proj2 (Z.eqb_neq _ _)) by lia. simpl.
  destruct (Z.eqb_spec (remaining b) 1), (Z.eqb_spec (remaining b - 1) 0); try lia.
  - unfold handleRefresh. simpl. rewrite Hd. simpl. split_and!; auto; lia.
  - simpl. split_and!; auto; lia.
Qed.

Lemma ticks_spec k : forall b,
  disabled b = false -> 0 < autoRefreshValue b -> 0 < remaining b <= autoRefreshValue b ->
  let b' := Nat.iter k tick b in
  disabled b' = false /\ autoRefreshValue b' = autoRefreshValue b /\
  0 < remaining b' <= autoRefreshValue b /\
  Z.of_nat k + (autoRefreshValue b - remaining b) =
    (Z.of_nat (refreshes b') - Z.of_nat (refreshes b)) * autoRefreshValue b +
    (autoRefreshValue b - remaining b').
Proof.
  induction k as [|k IH]; intros b Hd Hv Hr; [simpl; split_and!; auto; lia|].
  change (Nat.iter (S k) tick b) with (tick (Nat.iter k tick b)).
  destruct (IH b Hd Hv Hr) as (Hd' & Hv' & Hr' & Heq). set (b' := Nat.iter k tick b) in *.
  destruct (tick_on b') as (Hd'' & Hv'' & Hr'' & Hcase); [done|lia|lia|].
  split_and!; [done|congruence|lia|lia|].
  destruct (Z.eqb_spec (remaining b') 1); destruct Hcase as [H1 H2]; rewrite H1, H2; nia.
Qed.

Lemma ticks_stuck k : forall b, remaining b <= 0 ->
  refreshes (Nat.iter k tick b) = refreshes b /\ remaining (Nat.iter k tick b) <= 0.
Proof.
  induction k as [|k IH]; intros b Hr; [done|]. simpl.
  destruct (IH b Hr) as [Hf Hr']. set (b' := Nat.iter k tick b) in *. unfold tick.
  destruct (disabled b' || _); [done|]. rewrite (proj2 (Z.eqb_neq _ _)) by lia. simpl. lia.
Qed.

End Newer.

(** How often the page is refreshed when nothing else happens.  The older button
    refreshes it once in [interval + 1] firings of its timer of one second, and its
    timer runs on; the newer one once in [autoRefreshValue] ticks, as long as the
    seconds remaining are positive, and never again once they are not. *)
Theorem refresh_count (k : nat) :
  (forall b : V1.Button, V1.reachable b -> is_Some (V1.timer b) ->
     let b' := Nat.iter k (V1.handle V1.Fire) b in
     Z.of_nat (V1.refreshes b') = Z.of_nat (V1.refreshes b) +
       (Z.of_nat k + (V1.interval b - V1.remaining b)) / (V1.interval b + 1) /\
     is_Some (V1.timer b')) /\
  (forall b : V2.Button, V2.disabled b = false -> 0 < V2.autoRefreshValue b ->
     let b' := Nat.iter k V2.tick b in
     (0 < V2.remaining b <= V2.autoRefreshValue b ->
      Z.of_nat (V2.refreshes b') = Z.of_nat (V2.refreshes b) +
        (Z.of_nat k + (V2.autoRefreshValue b - V2.remaining b)) / V2.autoRefreshValue b) /\
     (V2.remaining b <= 0 -> V2.refreshes b' = V2.refreshes b)).
Proof.
  split.
  - intros b Hb%button_inv Ht b'. destruct (fires_spec k b Hb Ht) as (Hb' & Ht' & Hi & Heq).
    fold b' in Hb', Ht', Hi, Heq. split; [|done]. destruct Hb' as [Hr' _].
    rewrite Heq, Z.div_add_l, Z.div_small by lia. lia.
  - intros b Hd Hv b'. split.
    + intros Hr. destruct (ticks_spec k b Hd Hv Hr) as (_ & _ & Hr' & Heq).
      fold b' in Hr', Heq. rewrite Heq, Z.div_add_l, Z.div_small by lia. lia.
    + intros Hr. by apply ticks_stuck.
Qed.

Lemma refresh_count_witness :
  V1.refreshes (Nat.iter 122 (V1.handle V1.Fire) (V1.mount 60 false)) = 2%nat /\
  V2.refreshes (Nat.iter 120 V2.tick (V2.mount 60 false)) = 2%nat.
Proof.
  destruct (refresh_count 122) as [H1 _]. destruct (refresh_count 120) as [_ H2].
  destruct (H1 (V1.mount 60 false)) as [H1' _]; [by apply V1.reach_mount|by eexists|].
  destruct (H2 (V2.mount 60 false)) as [H2' _]; [done|done|].
  specialize (H2' ltac:(simpl; lia)). vm_compute in H1', H2'. vm_compute. split; lia.
Defined.

(** A click on the older button while the whole interval remains, that is within
    a second after a refresh, refreshes the page and stops the automatic refresh:
    the seconds do not change, so React does not run the effect that would set the
    timer.  From then on nothing happens by itself, until the interval or the
    property [disabled] changes. *)
Theorem click_stops_refresh (b : V1.Button) (k : nat) :
  V1.reachable b -> is_Some (V1.timer b) -> V1.remaining b = V1.interval b ->
  let b' := V1.handle V1.Click b in
  V1.refreshes b' = S (V1.refreshes b) /\ V1.interval b' = V1.interval b /\
  Nat.iter k (V1.handle V1.Fire) b' = b' /\ V1.timer (V1.handle V1.Click b') = None.
Proof.
  intros Hb Ht Hr b'. assert (Hb' : V1.reachable b') by (by apply V1.reach_step).
  apply button_inv in Hb as Hi. destruct Hi as [_ Htm].
  destruct Ht as [r E]. rewrite E in Htm. destruct Htm as (_ & _ & Hd).
  destruct (click_stops b (button_inv b Hb) Hd Hr) as (H1 & H2 & H3 & H4 & H5). fold b' in H1, H2, H3, H4, H5.
  split_and!; [done|done| |].
  - induction k as [|k IH]; [done|]. simpl. rewrite IH. simpl. by rewrite H1.
  - apply click_stops; [by apply button_inv|done|congruence].
Qed.

Lemma click_stops_refresh_witness :
  Nat.iter 3600 (V1.handle V1.Fire) (V1.handle V1.Click (V1.mount 60 false)) =
  V1.handle V1.Click (V1.mount 60 false).
Proof.
  apply (click_stops_refresh (V1.mount 60 false) 3600); [by apply V1.reach_mount|by eexists|done].
Defined.
