(* ===== verification/TimePickers.v ===== *)
(** * The pickers of a time range

    components/LimitTimeRange of ui/ (Module [Limit]), which restricts the calendar
    to the longest of the recent ranges, and time-range-picker of ui-v2/ (Modules
    [Custom] and [Picker]).  Times are local times: seconds for dayjs objects of
    [Limit], milliseconds for the dates of [Custom]; days have 24 hours. *)

From S2P Require Import Prelude JsNumber TimeRange.
Local Open Scope Z_scope.

Module Limit.

Definition DEFAULT_RECENT_SECONDS : list Z :=
  [5 * 60; 15 * 60; 30 * 60; 60 * 60; 3 * 60 * 60; 6 * 60 * 60; 12 * 60 * 60; 24 * 60 * 60;
   2 * 24 * 60 * 60; 7 * 24 * 60 * 60; 30 * 24 * 60 * 60; 90 * 24 * 60 * 60].

Definition hoursRange : list Z := seqZ 0 24.
Definition minutesRange : list Z := seqZ 0 60.

(** What the calendar uses of dayjs, on times in seconds: the parts of a time, the start
    of its hour and its day, the end of its day, and a number of hours or days before
    it, that number given in seconds. *)
Class Dayjs := {
  hour : Z -> Z; minute : Z -> Z; startOfHour : Z -> Z; startOfDay : Z -> Z; endOfDay : Z -> Z;
  isSameDay : Z -> Z -> bool; subtract_hours : Z -> Z -> Z; subtract_days : Z -> Z -> Z
}.

(** Its documented behaviour where days have 24 hours; a number of days is rounded to the
    nearest integer, [Math.round(- n)]. *)
Class DayjsLaws `{Dayjs} : Prop := {
  hour_spec t : hour t = t mod 86400 / 3600;
  minute_spec t : minute t = t mod 3600 / 60;
  startOfHour_spec t : startOfHour t = t / 3600 * 3600;
  startOfDay_spec t : startOfDay t = t / 86400 * 86400;
  endOfDay_spec t : endOfDay t = startOfDay t + 86399;
  isSameDay_spec t t' : isSameDay t t' = (t / 86400 =? t' / 86400);
  subtract_hours_spec t n : subtract_hours t n = t - n;
  subtract_days_spec t n : subtract_days t n = t + 86400 * ((86400 - 2 * n) / 172800)
}.

(** [selectableHours], in seconds: the last of the ranges. *)
Definition selectable_seconds (recent_seconds : list Z) : Z := default 0 (last recent_seconds).

Section Limit.
Context `{Dayjs} (limit today : Z).

Definition tooEarly (current : Z) : bool :=
  (startOfHour current <? subtract_hours (startOfHour today) limit) &&
  (startOfDay current <? subtract_days (startOfDay today) limit).

Definition tooLate (current : Z) : bool :=
  (startOfHour today <? startOfHour current) && (endOfDay today <? endOfDay current).

Definition disabledDate (current : option Z) : bool :=
  match current with Some c => tooEarly c || tooLate c | None => false end.

(** The hours and the minutes that cannot be chosen. *)
Definition disabledTime (current : option Z) : list Z * list Z :=
  match current with
  | None => ([], [])
  | Some c =>
      if isSameDay c today then
        (drop (Z.to_nat (hour today + 1)) hoursRange,
         if hour c =? hour today then drop (Z.to_nat (minute today + 1)) minutesRange else [])
      else if isSameDay c (subtract_days today limit) then
        (take (Z.to_nat (hour today)) hoursRange,
         if hour c =? hour today then take (Z.to_nat (minute today)) minutesRange else [])
      else ([], [])
  end.

(** A time the picker lets the user choose. *)
Definition selectable (t : Z) : bool :=
  negb (disabledDate (Some t)) &&
  negb (bool_decide (hour t ∈ fst (disabledTime (Some t)))) &&
  negb (bool_decide (minute t ∈ snd (disabledTime (Some t)))).

End Limit.
End Limit.

Module Custom.

Record Props := mkProps {
  minDateTime : option Z; maxDateTime : option Z; maxDuration : option Z
}.

(** Start and end; [None] is an invalid date. *)
Record State := mkState { start : option Z; end_ : option Z }.

Definition init (value : Z * Z) : State := mkState (Some (fst value * 1000)) (Some (snd value * 1000)).

(** Comparisons with an invalid date are false. *)
Definition later (a b : option Z) : bool :=
  match a, b with Some a, Some b => b <? a | _, _ => false end.

Section Custom.
Context (p : Props).

Definition startAfterEnd (s : State) : bool := later (start s) (end_ s).
Definition beyondMin (s : State) : bool :=
  match minDateTime p with Some m => later (Some m) (start s) | None => false end.
Definition beyondMax (s : State) : bool :=
  match maxDateTime p with Some m => later (end_ s) (Some m) | None => false end.
Definition beyondDuration (s : State) : bool :=
  match maxDuration p with
  | Some d => later (a ← start s; b ← end_ s; Some (b - a)) (Some (d * 1000))
  | None => false
  end.

Definition apply_disabled (s : State) : bool :=
  startAfterEnd s || beyondMin s || beyondMax s || beyondDuration s.

(** [d.setHours(...)], [setMinutes], [setSeconds] with the time of another date. *)
Definition copy_time (d from : Z) : Z :=
  d / 86400000 * 86400000 + from mod 86400000 / 1000 * 1000 + d mod 1000.

(** A choice in the calendar: the dates change, the times stay. *)
Definition updateRangeDate (dates : option Z * option Z) (s : State) : State :=
  match fst dates with
  | None => s
  | Some d0 =>
      mkState (copy_time d0 <$> start s) (copy_time (default d0 (snd dates)) <$> end_ s)
  end.

(** A time typed in; [parsed] is the date dayjs reads from it. *)
Definition with_time (parsed : option Z) (old : option Z) : option Z :=
  d ← parsed; o ← old; Some (copy_time o d).
Definition updateTime (parsed : option Z) (is_end : bool) (s : State) : State :=
  if is_end then mkState (start s) (with_time parsed (end_ s))
  else mkState (with_time parsed (start s)) (end_ s).

(** [dayjs(d).unix()] *)
Definition unix (d : option Z) : num := match d with Some ms => num_of_Z (ms / 1000) | None => NaN end.

Definition apply (s : State) : option V2.TimeRange :=
  if apply_disabled s then None else Some (V2.Absolute (unix (start s), unix (end_ s))).

Inductive Edit := Dates (dates : option Z * option Z) | Time (parsed : option Z) (is_end : bool).

Definition edit (s : State) (e : Edit) : State :=
  match e with
  | Dates dates => updateRangeDate dates s
  | Time parsed is_end => updateTime parsed is_end s
  end.

End Custom.
End Custom.

Module Picker.

Definition DEFAULT_QUICK_RANGES : list Z :=
  [5 * 60; 15 * 60; 30 * 60; 60 * 60; 3 * 60 * 60; 12 * 60 * 60; 24 * 60 * 60; 2 * 24 * 60 * 60;
   3 * 24 * 60 * 60].

(** The menu, and the ranges it reported. *)
Record State := mkState { opened : bool; customMode : bool; reported : list V2.TimeRange }.

Inductive Event := Open | Close | CustomClick | ReturnClick | Cancel | Apply (v : V2.TimeRange) | Quick (seconds : Z).

Section Picker.
Context (quickRanges : list Z) (quickRangesType : V2.RelativeType) (disableAbsoluteRanges : bool).

(** An event does nothing where its button is not shown.  A quick range closes the
    menu, as its items do by default. *)
Definition step (s : State) (e : Event) : State :=
  match e with
  | Open => mkState true false (reported s)
  | Close => mkState false (customMode s) (reported s)
  | CustomClick =>
      if opened s && negb (customMode s) && negb disableAbsoluteRanges
      then mkState (opened s) true (reported s) else s
  | ReturnClick =>
      if opened s && customMode s then mkState (opened s) false (reported s) else s
  | Cancel => if opened s && customMode s then mkState false (customMode s) (reported s) else s
  | Apply v => if opened s && customMode s then mkState false (customMode s) (reported s ++ [v]) else s
  | Quick seconds =>
      if opened s && negb (customMode s) && bool_decide (seconds ∈ quickRanges)
      then mkState false (customMode s)
             (reported s ++ [V2.Relative quickRangesType (num_of_Z seconds)])
      else s
  end.

#[local] Instance relative_dec : EqDecision V2.RelativeType.
Proof. solve_decision. Defined.

(** The quick range that is marked. *)
Definition selectedRelativeItem (value : V2.TimeRange) : option Z :=
  match value with
  | V2.Absolute _ => None
  | V2.Relative type v =>
      find (fun it => bool_decide (num_of_Z it = v) && bool_decide (type = quickRangesType)) quickRanges
  end.

Definition isRelativeRange (value : V2.TimeRange) : bool :=
  match value with V2.Absolute _ => false | _ => true end.

End Picker.
End Picker.

(** ** The calendar of the older interface *)

Section LimitFacts.
Import Limit.
Context `{DayjsLaws}.

Lemma elem_drop_seqZ n m x : 0 <= n -> x ∈ drop (Z.to_nat n) (seqZ 0 m) <-> n <= x < m.
Proof.
  intros Hn. rewrite list_elem_of_lookup. setoid_rewrite lookup_drop. setoid_rewrite lookup_seqZ.
  split; [intros (i & Hi); lia|]. intros Hx. exists (Z.to_nat (x - n)). lia.
Qed.

Lemma elem_take_seqZ n m x : n <= m -> x ∈ take (Z.to_nat n) (seqZ 0 m) <-> 0 <= x < n.
Proof.
  intros Hn. rewrite list_elem_of_lookup. split.
  - intros (i & [Hi Hlt]%lookup_take_Some). apply lookup_seqZ in Hi. lia.
  - intros Hx. exists (Z.to_nat x). apply lookup_take_Some. rewrite lookup_seqZ. lia.
Qed.

Lemma parts t : 0 <= hour t < 24 /\ 0 <= minute t < 60 /\
  t / 60 = t / 86400 * 1440 + hour t * 60 + minute t.
Proof. rewrite hour_spec, minute_spec. Z.to_euclidean_division_equations. lia. Qed.

Lemma start_hour t : startOfHour t = t / 86400 * 86400 + hour t * 3600.
Proof. rewrite startOfHour_spec, hour_spec. Z.to_euclidean_division_equations. lia. Qed.

(** What is disabled, by the day and the time of day. *)
Lemma selectable_days limit k today t : limit = k * 86400 -> 0 <= k ->
  selectable limit today t = true <->
  today / 86400 - k <= t / 86400 <= today / 86400 /\
  (t / 86400 = today / 86400 -> hour t * 60 + minute t <= hour today * 60 + minute today) /\
  (t / 86400 = today / 86400 - k -> k <> 0 ->
     hour today * 60 + minute today <= hour t * 60 + minute t).
Proof.
  intros -> Hk. destruct (parts t) as (Ht1 & Ht2 & _), (parts today) as (Hd1 & Hd2 & _).
  unfold selectable, disabledDate, tooEarly, tooLate, disabledTime.
  rewrite !isSameDay_spec, !endOfDay_spec, !subtract_hours_spec.
  assert (Hsub : subtract_days today (k * 86400) / 86400 = today / 86400 - k).
  { rewrite subtract_days_spec. replace (86400 - 2 * (k * 86400)) with (172800 * (- k) + 86400) by lia.
    rewrite (Z.mul_comm 172800), Z.div_add_l by lia. change (86400 / 172800) with 0.
    replace (today + 86400 * (- k + 0)) with (today + (- k) * 86400) by lia.
    rewrite Z.div_add by lia. lia. }
  assert (Hsub' : subtract_days (startOfDay today) (k * 86400) = (today / 86400 - k) * 86400).
  { rewrite subtract_days_spec, startOfDay_spec. replace (86400 - 2 * (k * 86400)) with (172800 * (- k) + 86400) by lia.
    rewrite (Z.mul_comm 172800), Z.div_add_l by lia. change (86400 / 172800) with 0. lia. }
  rewrite Hsub, Hsub', !start_hour, !startOfDay_spec.
  rewrite !andb_true_iff, !negb_true_iff, !bool_decide_eq_false, orb_false_iff, !andb_false_iff,
    !Z.ltb_ge.
  destruct (Z.eqb_spec (t / 86400) (today / 86400)) as [E|E].
  - cbn [fst snd]. unfold hoursRange, minutesRange. rewrite elem_drop_seqZ by lia.
    destruct (Z.eqb_spec (hour t) (hour today)) as [Eh|Eh].
    + rewrite elem_drop_seqZ by lia. lia.
    + rewrite elem_of_nil. lia.
  - destruct (Z.eqb_spec (t / 86400) (today / 86400 - k)) as [E'|E'].
    + cbn [fst snd]. unfold hoursRange, minutesRange. rewrite elem_take_seqZ by lia.
      destruct (Z.eqb_spec (hour t) (hour today)) as [Eh|Eh].
      * rewrite elem_take_seqZ by lia. lia.
      * rewrite elem_of_nil. lia.
    + cbn [fst snd]. rewrite !elem_of_nil. lia.
Qed.

End LimitFacts.

Section LimitTheorem.
Import Limit.
Context `{DayjsLaws}.

Lemma selectable_short limit today t : 0 <= limit <= 43200 -> t / 86400 = today / 86400 ->
  hour t * 60 + minute t <= hour today * 60 + minute today -> selectable limit today t = true.
Proof.
  intros Hl Hd Ht. destruct (parts t) as (Ht1 & Ht2 & _), (parts today) as (Hd1 & Hd2 & _).
  unfold selectable, disabledDate, tooEarly, tooLate, disabledTime.
  rewrite !isSameDay_spec, !endOfDay_spec.
  assert (Hs : subtract_days (startOfDay today) limit = today / 86400 * 86400).
  { rewrite subtract_days_spec, startOfDay_spec. rewrite (Z.div_small (86400 - 2 * limit)) by lia. lia. }
  rewrite Hs, !startOfDay_spec.
  rewrite !andb_true_iff, !negb_true_iff, !bool_decide_eq_false, orb_false_iff, !andb_false_iff, !Z.ltb_ge.
  rewrite (proj2 (Z.eqb_eq _ _) Hd). cbn [fst snd]. unfold hoursRange, minutesRange.
  rewrite elem_drop_seqZ by lia.
  destruct (Z.eqb_spec (hour t) (hour today)); [rewrite elem_drop_seqZ by lia|rewrite elem_of_nil]; lia.
Qed.

(** When the longest range is a number of days, the calendar lets the user choose
    exactly the minutes from that long ago to the current one.  When it is twelve
    hours or less, the lower limit is lost: every minute of the current day up to the
    current one can be chosen. *)
Theorem calendar_window (limit k today t : Z) :
  (limit = k * 86400 -> 1 <= k ->
     selectable limit today t = true <-> (today - limit) / 60 <= t / 60 <= today / 60) /\
  (0 <= limit <= 43200 -> t / 86400 = today / 86400 -> t / 60 <= today / 60 ->
     selectable limit today t = true).
Proof.
  destruct (parts t) as (Ht1 & Ht2 & Ht3), (parts today) as (Hd1 & Hd2 & Hd3). split.
  - intros Hl Hk. rewrite (selectable_days limit k) by (done || lia).
    replace ((today - limit) / 60) with (today / 60 - k * 1440)
      by (subst limit; replace (today - k * 86400) with (today + (- (k * 1440)) * 60) by lia;
          rewrite Z.div_add; lia).
    lia.
  - intros Hl Hd Ht. apply selectable_short; lia.
Qed.

End LimitTheorem.

(** Days of 24 hours. *)
Definition plain_days : Limit.Dayjs := {|
  Limit.hour t := t mod 86400 / 3600; Limit.minute t := t mod 3600 / 60;
  Limit.startOfHour t := t / 3600 * 3600; Limit.startOfDay t := t / 86400 * 86400;
  Limit.endOfDay t := t / 86400 * 86400 + 86399; Limit.isSameDay t t' := t / 86400 =? t' / 86400;
  Limit.subtract_hours t n := t - n; Limit.subtract_days t n := t + 86400 * ((86400 - 2 * n) / 172800)
|}.
Lemma plain_days_laws : @Limit.DayjsLaws plain_days.
Proof. by split. Qed.

Lemma calendar_window_witness :
  Limit.selectable (H := plain_days) (2 * 86400) 1700000000 1699900000 = true /\ Limit.selectable (H := plain_days) 3600 1700000000 1699920060 = true.
Proof.
  split.
  - destruct (calendar_window (H0 := plain_days_laws) (2 * 86400) 2 1700000000 1699900000) as [H _].
    apply H; [reflexivity|lia|]. vm_compute. split; discriminate.
  - destruct (calendar_window (H0 := plain_days_laws) 3600 0 1700000000 1699920060) as [_ H].
    apply H; [lia|reflexivity|vm_compute; discriminate].
Defined.


(** ** The picker of the newer interface *)

Section CustomFacts.
Import Custom.

Lemma copy_time_day d from : copy_time d from / 86400000 = d / 86400000.
Proof. unfold copy_time. Z.to_euclidean_division_equations. lia. Qed.

Lemma copy_time_time d from : copy_time d from mod 86400000 / 1000 = from mod 86400000 / 1000.
Proof. unfold copy_time. Z.to_euclidean_division_equations. lia. Qed.

Lemma unix_mono a b : a <= b -> a / 1000 <= b / 1000.
Proof. intros. apply Z.div_le_mono; lia. Qed.

(** Whatever was edited, a range of valid dates that is applied is in order and, to
    the second, within the limits. *)
Lemma apply_within (p : Props) (s : State) (r : V2.TimeRange) (a b : Z) :
  apply p s = Some r -> start s = Some a -> end_ s = Some b ->
  r = V2.Absolute (num_of_Z (a / 1000), num_of_Z (b / 1000)) /\ a / 1000 <= b / 1000 /\
  (forall m, minDateTime p = Some m -> m / 1000 <= a / 1000) /\
  (forall m, maxDateTime p = Some m -> b / 1000 <= m / 1000) /\
  (forall d, maxDuration p = Some d -> b / 1000 - a / 1000 <= d).
Proof.
  unfold apply, apply_disabled, startAfterEnd, beyondMin, beyondMax, beyondDuration, later.
  intros H Ha Hb. rewrite Ha, Hb in H. cbn [mbind option_bind unix] in H.
  case_match eqn:E; [done|]. injection H as <-.
  apply orb_false_iff in E as [[[H1 H2]%orb_false_iff H3]%orb_false_iff H4].
  split; [done|]. apply Z.ltb_ge in H1. split; [by apply unix_mono|]. split_and!.
  - intros m Hm. rewrite Hm in H2. apply Z.ltb_ge in H2. by apply unix_mono.
  - intros m Hm. rewrite Hm in H3. apply Z.ltb_ge in H3. by apply unix_mono.
  - intros d Hd. rewrite Hd in H4. apply Z.ltb_ge in H4. Z.to_euclidean_division_equations. lia.
Qed.

Definition run (value : Z * Z) (es : list Edit) : State := fold_left edit es (init value).

(** The dates stay valid as long as every time typed in is. *)
Lemma run_valid value es : Forall (fun e => match e with Time None _ => False | _ => True end) es ->
  is_Some (start (run value es)) /\ is_Some (end_ (run value es)).
Proof.
  intros Hes. unfold run. assert (Hi : is_Some (start (init value)) /\ is_Some (end_ (init value)))
    by (split; by eexists).
  revert Hi. generalize (init value). induction Hes as [|e es He Hes IH]; intros s Hs; [done|].
  simpl. apply IH. destruct Hs as [[a Ha] [b Hb]], e as [[[d0|] d1]|[ms|] [|]]; try done;
    simpl; unfold updateRangeDate, with_time; simpl; rewrite ?Ha, ?Hb; simpl; split; done || by eexists.
Qed.

(** After any edits of the dates and times, if all the times typed in were valid, a
    range that can be applied starts no later than it ends and is, to the second,
    within the earliest and the latest time and the longest duration given.  When an
    invalid time was typed in for the start and nothing else is wrong, the button stays
    enabled and reports a range that starts at no number. *)
Theorem custom_range_within (p : Props) (value : Z * Z) (es : list Edit) :
  (Forall (fun e => match e with Time None _ => False | _ => True end) es ->
   forall r, apply p (run value es) = Some r ->
     exists a b, r = V2.Absolute (num_of_Z a, num_of_Z b) /\ a <= b /\
       (forall m, minDateTime p = Some m -> m / 1000 <= a) /\
       (forall m, maxDateTime p = Some m -> b <= m / 1000) /\
       (forall d, maxDuration p = Some d -> b - a <= d)) /\
  (let s := edit (run value es) (Time None false) in
   beyondMax p s = false -> apply p s = Some (V2.Absolute (NaN, unix (end_ s)))).
Proof.
  split.
  - intros Hes r Hr. destruct (run_valid value es Hes) as [[a Ha] [b Hb]].
    exists (a / 1000), (b / 1000). by apply (apply_within p (run value es)).
  - intros s Hmax. assert (Hs : start s = None) by done.
    unfold apply, apply_disabled. rewrite Hmax. unfold startAfterEnd, beyondMin, beyondDuration.
    rewrite Hs. simpl. by destruct (minDateTime p), (maxDuration p).
Qed.

Lemma custom_range_within_witness :
  let p := mkProps (Some 1000) (Some 90000000) (Some 86400) in
  exists a b, apply p (run (10, 20) [Dates (Some 0, Some 0); Time (Some 3600000) true]) =
      Some (V2.Absolute (num_of_Z a, num_of_Z b)) /\ a <= b /\ b - a <= 86400.
Proof.
  intros p.
  destruct (custom_range_within p (10, 20) [Dates (Some 0, Some 0); Time (Some 3600000) true]) as [H _].
  destruct (H ltac:(repeat constructor) (V2.Absolute (num_of_Z 10, num_of_Z 3600)) ltac:(vm_compute; reflexivity))
    as (a & b & Hr & Hle & _ & _ & Hd).
  exists a, b. rewrite <- Hr. split; [vm_compute; reflexivity|]. split; [done|]. by apply Hd.
Defined.

End CustomFacts.

Section PickerFacts.
Import Picker.
Context (quickRanges : list Z) (ty : V2.RelativeType) (noAbs : bool).

(** Without absolute ranges only quick ranges are reported, each of them offered. *)
Definition offered (r : V2.TimeRange) : Prop :=
  exists seconds, seconds ∈ quickRanges /\ r = V2.Relative ty (num_of_Z seconds).

Lemma picker_reports (es : list Event) :
  let s := fold_left (step quickRanges ty noAbs) es (mkState false false []) in
  noAbs = true -> customMode s = false /\ Forall offered (reported s).
Proof.
  intros s Hn. unfold s. clear s. induction es as [|e es IH] using rev_ind; [by split|].
  rewrite fold_left_app. cbn [fold_left]. destruct IH as [Hc Hr].
  set (s := fold_left _ es _) in *. destruct e; simpl; rewrite ?Hc, ?Hn, ?andb_false_r; try done.
  destruct (opened s); simpl; [|done]. case_bool_decide; [|done]. simpl. split; [done|].
  apply Forall_app. split; [done|]. repeat constructor. by eexists.
Qed.

(** Choosing a quick range marks it. *)
Lemma quick_is_marked seconds : seconds ∈ quickRanges ->
  selectedRelativeItem quickRanges ty (V2.Relative ty (num_of_Z seconds)) = Some seconds.
Proof.
  intros Hs. unfold selectedRelativeItem. apply find_unique; [done| |].
  - by rewrite !bool_decide_eq_true_2.
  - intros y _ [Hy _]%andb_true_iff. apply bool_decide_eq_true in Hy. by injection Hy.
Qed.

End PickerFacts.
