(* ===== verification/FilterPanels.v ===== *)
(** * The panels that choose filters, columns and charts

    advanced-filters of ui-v2/ (Module [Advanced]): the dialog with one row per
    filter, whose result goes to the URL ([UrlState.setAdvancedFilters]).
    cols-multi-select, charts-multi-select and filter-multi-select (Modules
    [Columns], [Charts], [Values]) are the lists with check boxes, state-filters.tsx
    (Module [Search]) the search box kept next to the URL. *)

From S2P Require Import Prelude JsString JsNumber Uri UrlState.
From stdpp Require Import options.
Local Open Scope Z_scope.

Module Advanced.

(** [AdvancedFilterSettingItem] and [AdvancedFilterInfo]. *)
Record SettingItem := mkItem { item : AdvancedFilterItem; createdAt : Z; deleted : bool }.
Record FilterInfo := mkInfo { info_name : string; type : string; unit : string; info_values : list string }.

Definition newFilterSettingItem (now : Z) : SettingItem := mkItem (mkFilter "" "" []) now false.

(** The controls of a row.  [None] is an empty selection. *)
Definition with_item (f : SettingItem) (i : AdvancedFilterItem) : SettingItem :=
  mkItem i (createdAt f) (deleted f).
Definition onName (v : option string) (f : SettingItem) : SettingItem :=
  with_item f (mkFilter (js_or v "") (operator (item f)) []).
Definition onOperator (fallback : string) (v : option string) (f : SettingItem) : SettingItem :=
  with_item f (mkFilter (name (item f)) (js_or v fallback) (values (item f))).
Definition onValues (v : list string) (f : SettingItem) : SettingItem :=
  with_item f (mkFilter (name (item f)) (js_or (Some (operator (item f))) "in") v).
Definition onText (v : string) (f : SettingItem) : SettingItem :=
  with_item f (mkFilter (name (item f)) (js_or (Some (operator (item f))) "=") [v]).
Definition onDelete (f : SettingItem) : SettingItem := mkItem (item f) (createdAt f) true.

(** Which controls a row shows once the information on its filter arrived, and the
    operators it offers. *)
Inductive Control := MultiSelect (data : list string) | TextInput | NumberInput (decimals : bool).

Definition find_info (filtersInfo : list FilterInfo) (n : string) : option FilterInfo :=
  find (fun f => bool_decide (info_name f = n)) filtersInfo.

Definition operators (info : FilterInfo) : list string :=
  if (0 <? length (info_values info))%nat then ["in"; "not in"] else ["="; "!="; ">"; ">="; "<"; "<="].

Definition control (info : FilterInfo) : Control :=
  if (0 <? length (info_values info))%nat then MultiSelect (info_values info)
  else if bool_decide (type info = "string") then TextInput
  else NumberInput (js_startsWith (type info) "float").

(** The effect of a new name: the information on it is requested unless it is there. *)
Definition requests (filtersInfo : list FilterInfo) (f : SettingItem) : option string :=
  if truthy (name (item f)) then
    match find_info filtersInfo (name (item f)) with None => Some (name (item f)) | Some _ => None end
  else None.

(** The dialog. *)
Record Dialog := mkDialog {
  opened : bool; settingItems : list SettingItem; filtersInfo : list FilterInfo
}.

Definition with_items (l : list SettingItem) (d : Dialog) : Dialog := mkDialog (opened d) l (filtersInfo d).

Definition handleOpen (now : Z) (advancedFilters : list AdvancedFilterItem) (d : Dialog) : Dialog :=
  mkDialog true
    (match advancedFilters with
     | [] => [newFilterSettingItem now]
     | _ => imap (fun i f => mkItem f (now - Z.of_nat i * 100) false) advancedFilters
     end) (filtersInfo d).

Definition handleAddItem (now : Z) (d : Dialog) : Dialog :=
  with_items (settingItems d ++ [newFilterSettingItem now]) d.

Definition handleUpdateItem (f : SettingItem) (d : Dialog) : Dialog :=
  with_items (map (fun i => if createdAt i =? createdAt f then f else i) (settingItems d)) d.

Definition activeItems (d : Dialog) : list SettingItem := filter (fun i => deleted i = false) (settingItems d).

Definition conditionLabel (i : nat) : string := match i with O => "WHEN" | _ => "AND" end.

Definition complete (i : SettingItem) : bool :=
  negb (deleted i) && truthy (name (item i)) && truthy (operator (item i)) &&
  truthy (head (values (item i))).

(** [handleSubmit]: the filters given to the page, and the closed dialog. *)
Definition submitted (d : Dialog) : list AdvancedFilterItem :=
  map item (filter (fun i => complete i = true) (settingItems d)).
Definition handleSubmit (d : Dialog) : list AdvancedFilterItem * Dialog :=
  (submitted d, mkDialog false (settingItems d) (filtersInfo d)).
Definition close (d : Dialog) : Dialog := mkDialog false (settingItems d) (filtersInfo d).

Definition infoArrived (info : FilterInfo) (d : Dialog) : Dialog :=
  mkDialog (opened d) (settingItems d) (filtersInfo d ++ [info]).

(** What the user does to the row at an index of the active rows. *)
Inductive Change := SetName (v : option string) | SetOperator (fallback : string) (v : option string)
  | SetValues (v : list string) | SetText (v : string) | Delete.

Definition apply_change (c : Change) (f : SettingItem) : SettingItem :=
  match c with
  | SetName v => onName v f | SetOperator fb v => onOperator fb v f | SetValues v => onValues v f
  | SetText v => onText v f | Delete => onDelete f
  end.

Definition change_row (i : nat) (c : Change) (d : Dialog) : Dialog :=
  match activeItems d !! i with
  | Some f => handleUpdateItem (apply_change c f) d
  | None => d
  end.

(** The dialog while it is open, with the clock of the last row added. *)
Inductive step : Dialog * Z -> Dialog * Z -> Prop :=
  | step_add d t now : t < now -> step (d, t) (handleAddItem now d, now)
  | step_change d t i c : step (d, t) (change_row i c d, t)
  | step_info d t info : step (d, t) (infoArrived info d, t).

Definition session (now : Z) (advancedFilters : list AdvancedFilterItem) (d0 d : Dialog) : Prop :=
  exists t, rtc step (handleOpen now advancedFilters d0, now) (d, t).

End Advanced.

Module Columns.

Record Column := mkColumn { label : string; val : string }.

Section Columns.
Context (data : list Column).

(** A column is checked if it is in the value, or all columns are. *)
Definition checked (value : list string) (v : string) : bool :=
  bool_decide (v ∈ value) || bool_decide ("all" ∈ value).

Definition selectedData (value : list string) : list Column :=
  filter (fun c => checked value (val c) = true) data.

Definition filteredData (showSelected : bool) (search : string) (value : list string) : list Column :=
  let d := filter (fun c => negb showSelected || checked value (val c) = true) data in
  let term := js_trim (js_toLowerCase search) in
  if truthy term
  then filter (fun c => js_includes (js_toLowerCase (val c)) term ||
                        js_includes (js_toLowerCase (label c)) term = true) d
  else d.

(** The new value of a click. *)
Definition handleOptionSelect (value : list string) (v : string) : list string :=
  let selected := map val (selectedData value) in
  if bool_decide (v ∈ selected) then filter (fun x => x <> v) selected else selected ++ [v].

Definition selectAll : list string := ["all"].

Definition footer (value : list string) : string :=
  show (Z.of_nat (length (selectedData value))) +:+ "/" +:+ show (Z.of_nat (length data)).

End Columns.
End Columns.

Module Charts.

Record Chart := mkChart { category : string; label : string; val : string }.

Section Charts.
Context (data : list Chart).

Definition selected (value : list string) (v : string) : bool :=
  bool_decide (v ∈ value) || bool_decide ("all" ∈ value).

Definition selectedData (value : list string) : list Chart :=
  filter (fun c => selected value (val c) = true) data.

Definition filteredData (showHidden : bool) (search : string) (value : list string) : list Chart :=
  let d := filter (fun c => negb showHidden ||
             (negb (bool_decide (val c ∈ value)) && negb (bool_decide ("all" ∈ value))) = true) data in
  let term := js_trim (js_toLowerCase search) in
  if truthy term
  then filter (fun c => js_includes (js_toLowerCase (val c)) term ||
                        js_includes (js_toLowerCase (label c)) term = true) d
  else d.

(** The categories in the order in which they appear, and the charts under them. *)
Definition categories (d : list Chart) : list string :=
  fold_left (fun set c => if decide (category c ∈ set) then set else set ++ [category c]) d [].

Definition options (d : list Chart) : list (string * list Chart) :=
  map (fun c => (c, filter (fun x => category x = c) d)) (categories d).

Inductive Call := Select (v : string) | UnSelect (v : string).
Definition handleCheckChange (checked : bool) (v : string) : Call := if checked then Select v else UnSelect v.

Definition target_text (value : list string) : string :=
  if (length data =? length (selectedData value))%nat then "All charts selected"
  else show (Z.of_nat (length (selectedData value))) +:+ "/" +:+ show (Z.of_nat (length data)) +:+
       " charts selected".

End Charts.
End Charts.

Module Values.

Section Values.
Context (kind : string) (fullResultCount : Z) (data : list string).

Definition options (search : string) : list string :=
  filter (fun i => js_includes (js_toLowerCase i) (js_trim (js_toLowerCase search)) = true) data.

Definition handleOptionSelect (value : list string) (v : string) : list string :=
  if bool_decide (v ∈ value) then filter (fun x => x <> v) value else value ++ [v].

Definition clear : list string := [].

(** The text of the closed box. *)
Definition selectResult (value : list string) : string :=
  if (length value =? 0)%nat then "Select " +:+ kind +:+ "..."
  else if Z.of_nat (length value) <? fullResultCount then js_join ", " value
  else show (Z.of_nat (length value)) +:+ " selected".

End Values.
End Values.

Module Search.

(** The text in the box and the term in the URL. *)
Record State := mkState { text : string; term : option string }.

Definition mount (t : option string) : State := mkState (default "" t) t.
Definition change (v : string) (s : State) : State := mkState v (term s).
Definition handleSearchSubmit (s : State) : State := mkState (text s) (Some (text s)).
Definition clearClick (s : State) : State := mkState "" None.
(** The effect of the reset counter, which starts at 0. *)
Definition resetEffect (resetVal : Z) (s : State) : State :=
  if 0 <? resetVal then mkState "" (term s) else s.
(** The URL changes by itself, as when the user goes back. *)
Definition navigate (t : option string) (s : State) : State := mkState (text s) t.

End Search.

(** ** The dialog of advanced filters *)

Section AdvancedFacts.
Import Advanced.

Definition keys (d : Dialog) : list Z := map createdAt (settingItems d).
Definition dialog_ok (dt : Dialog * Z) : Prop :=
  NoDup (keys (fst dt)) /\ Forall (fun k => k <= snd dt) (keys (fst dt)).

Lemma change_key c f : createdAt (apply_change c f) = createdAt f.
Proof. by destruct c. Qed.

Lemma open_keys now afs d0 : dialog_ok (handleOpen now afs d0, now).
Proof.
  unfold dialog_ok, keys, handleOpen. cbn [fst snd settingItems].
  destruct afs as [|a afs]; [split; [apply NoDup_singleton|repeat constructor; simpl; lia]|].
  generalize (a :: afs) as l. clear. intros l.
  assert (Heq : map createdAt (imap (fun i f => mkItem f (now - Z.of_nat i * 100) false) l) =
    map (fun i => now - Z.of_nat i * 100) (seq 0 (length l))).
  { apply list_eq. intros i. rewrite !list_lookup_fmap, list_lookup_imap.
    destruct (decide (i < length l)%nat) as [Hi|Hi].
    - destruct (lookup_lt_is_Some_2 _ _ Hi) as [x ->]. by rewrite lookup_seq_lt by done.
    - rewrite lookup_ge_None_2 by lia. by rewrite lookup_seq_ge by lia. }
  rewrite Heq. split.
  - apply NoDup_fmap_2; [|apply NoDup_seq]. intros i j H. lia.
  - apply Forall_fmap, Forall_forall. intros i _. simpl. lia.
Qed.

Lemma change_row_keys i c d : keys (change_row i c d) = keys d.
Proof.
  unfold change_row. destruct (activeItems d !! i) as [f|] eqn:E; [|done].
  unfold keys, handleUpdateItem. cbn [settingItems with_items]. rewrite map_map. apply map_ext.
  intros x. destruct (Z.eqb_spec (createdAt x) (createdAt (apply_change c f))); [congruence|done].
Qed.

Lemma dialog_step_ok dt dt' : step dt dt' -> dialog_ok dt -> dialog_ok dt'.
Proof.
  intros Hs [Hn Hf]. destruct Hs as [d t now Hlt|d t i c|d t info]; unfold dialog_ok in *; cbn [fst snd] in *.
  - unfold handleAddItem, keys in *. cbn [settingItems with_items]. rewrite map_app. cbn [map].
    assert (H : createdAt (newFilterSettingItem now) ∉ map createdAt (settingItems d)).
    { intros Hin. rewrite Forall_forall in Hf. apply Hf in Hin. simpl in Hin. lia. }
    split.
    + apply NoDup_app. split_and!; [done|set_solver|apply NoDup_singleton].
    + apply Forall_app. split; [eapply Forall_impl; [exact Hf|]; simpl; lia|repeat constructor; simpl; lia].
  - by rewrite change_row_keys.
  - done.
Qed.

Lemma session_ok now afs d0 d : session now afs d0 d -> NoDup (keys d).
Proof.
  intros [t Ht]. enough (dialog_ok (d, t)) as [H _] by done.
  pose proof (open_keys now afs d0) as H0. revert H0.
  induction Ht; eauto using dialog_step_ok.
Qed.

(** The position of an active row among all rows. *)
Lemma filter_lookup_split {A} (P : A -> Prop) `{!forall x, Decision (P x)} (l : list A) i x :
  filter P l !! i = Some x ->
  exists l1 l2, l = l1 ++ x :: l2 /\ length (filter P l1) = i /\ P x.
Proof.
  revert i; induction l as [|y l IH]; intros i; [done|]. rewrite filter_cons. case_decide as Hy.
  - destruct i as [|i]; cbn [lookup list_lookup].
    + intros [= ->]. by exists [], l.
    + intros (l1 & l2 & -> & <- & Hx)%IH. exists (y :: l1), l2.
      rewrite filter_cons_True by done. done.
  - intros (l1 & l2 & -> & <- & Hx)%IH. exists (y :: l1), l2. by rewrite filter_cons_False.
Qed.

Lemma update_others f l : ~ createdAt f ∈ map createdAt l ->
  map (fun i => if createdAt i =? createdAt f then f else i) l = l.
Proof.
  induction l as [|x l IH]; [done|]. cbn [map]. intros H.
  destruct (Z.eqb_spec (createdAt x) (createdAt f)) as [E|]; [rewrite E in H; set_solver|].
  by rewrite IH by set_solver.
Qed.

(** What an operation on a row does to the rows shown. *)
Definition rows_after (c : Change) (i : nat) (f : SettingItem) (rows : list SettingItem) : list SettingItem :=
  match c with Delete => base.delete i rows | _ => <[i := apply_change c f]> rows end.

Lemma change_row_spec d i c f : NoDup (keys d) -> activeItems d !! i = Some f ->
  activeItems (change_row i c d) = rows_after c i f (activeItems d).
Proof.
  intros Hn Hf. unfold change_row. rewrite Hf. unfold activeItems in *.
  destruct (filter_lookup_split _ _ _ _ Hf) as (l1 & l2 & Hl & Hi & Hp).
  unfold handleUpdateItem. cbn [settingItems with_items]. unfold keys in Hn. rewrite Hl in Hn |- *.
  rewrite map_app in Hn |- *. cbn [map] in Hn |- *.
  apply NoDup_app in Hn as (_ & Hd & [Hn _]%NoDup_cons).
  rewrite !update_others, change_key, Z.eqb_refl.
  2: { by rewrite change_key. }
  2: { rewrite change_key. intros Hin. apply (Hd _ Hin). by left. }
  rewrite !filter_app, (filter_cons_True _ f l2 Hp). subst i. unfold rows_after.
  destruct c; cbn [apply_change].
  1-4: rewrite filter_cons_True by done; by rewrite insert_app_r_alt, Nat.sub_diag by done.
  rewrite filter_cons_False by done. by rewrite delete_middle.
Qed.

(** Text the encoder accepts. *)
Definition filter_text_ok (f : AdvancedFilterItem) : bool :=
  utf8 (name f) && utf8 (operator f) && forallb utf8 (values f).

Lemma submitted_complete d f : f ∈ submitted d ->
  truthy (name f) = true /\ truthy (operator f) = true /\ read_filter f = f.
Proof.
  intros (i & -> & [Hc _]%list_elem_of_filter)%list_elem_of_fmap.
  unfold complete in Hc. apply andb_true_iff in Hc as [[[_ H1]%andb_true_iff H2]%andb_true_iff H3].
  split_and!; [done|done|]. unfold read_filter. destruct (item i) as [n o vs].
  cbn [values name operator] in *. by destruct vs.
Qed.

(** While the dialog is open its rows have different keys (the clock advances
    between two clicks), so a change of a row changes that row and no other, and
    deleting it removes it alone.  What is saved are the rows that are complete, in
    their order; written to the URL they are read back unchanged, and opening the
    dialog on them shows them again. *)
Theorem filters_dialog (now : Z) (afs : list AdvancedFilterItem) (d0 d : Dialog) :
  session now afs d0 d ->
  NoDup (keys d) /\
  (forall i c f, activeItems d !! i = Some f ->
     activeItems (change_row i c d) = rows_after c i f (activeItems d)) /\
  (forallb filter_text_ok (submitted d) = true ->
   forall q, advancedFilters (queryParams (setQueryParams (setAdvancedFilters (submitted d)) q)) = Some (submitted d) /\
     forall now', submitted d <> [] ->
       map item (activeItems (handleOpen now' (submitted d) d)) = submitted d).
Proof.
  intros Hs%session_ok. split; [done|]. split; [intros; by apply change_row_spec|].
  intros Hok q. split.
  - rewrite filters_read_back.
    + f_equal. rewrite <- (map_id (submitted d)) at 2. apply map_ext_in.
      intros f Hf%list_elem_of_In. by apply submitted_complete in Hf as (_ & _ & ->).
    + apply forallb_forall. intros f Hf. rewrite forallb_forall in Hok. specialize (Hok f Hf).
      apply list_elem_of_In, submitted_complete in Hf as (Hn & Ho & _).
      unfold filter_ok. unfold filter_text_ok in Hok. rewrite Hn, Ho. exact Hok.
  - intros now' Hne. unfold handleOpen, activeItems. cbn [settingItems].
    destruct (submitted d) as [|f l] eqn:E; [done|]. rewrite <- E. clear E Hne f l Hok.
    generalize (submitted d) as l. intros l. rewrite filter_id.
    + rewrite fmap_imap. apply list_eq. intros i. rewrite list_lookup_imap. by destruct (l !! i).
    + apply Forall_forall. intros x (i & y & -> & _)%elem_of_lookup_imap_1. done.
Qed.

Lemma filters_dialog_witness :
  let d0 := mkDialog false [] [] in
  let d := change_row 0 (SetValues ["a;b"]) (change_row 0 (SetName (Some "user, host"))
             (handleAddItem 200 (handleOpen 100 [] d0))) in
  session 100 [] d0 d /\
  advancedFilters (queryParams (setQueryParams (setAdvancedFilters (submitted d)) "")) = Some [mkFilter "user, host" "in" ["a;b"]].
Proof.
  intros d0 d.
  assert (Hs : session 100 [] d0 d).
  { exists 200. eapply rtc_l; [by apply (step_add _ _ 200)|].
    eapply rtc_l; [apply step_change|]. eapply rtc_l; [apply step_change|]. apply rtc_refl. }
  split; [exact Hs|].
  destruct (filters_dialog 100 [] d0 d Hs) as (_ & _ & H).
  destruct (H ltac:(vm_compute; reflexivity) "") as [H1 _]. exact H1.
Defined.

(** A new name keeps the operator chosen for the old one, so that a filter can be
    saved with an operator its row does not offer. *)
Lemma stale_operator :
  let numeric := mkItem (mkFilter "time" ">" ["1"]) 0 false in
  let info := mkInfo "db" "string" "" ["test"] in
  let renamed := onValues ["test"] (onName (Some "db") numeric) in
  complete renamed = true /\ operator (item renamed) = ">" /\ operators info = ["in"; "not in"].
Proof. done. Qed.

End AdvancedFacts.

(** ** The lists with check boxes *)

Section ListFacts.

Lemma elem_filter_ne (v x : string) (l : list string) : x ∈ filter (fun y => y <> v) l <-> x ∈ l /\ x <> v.
Proof. rewrite list_elem_of_filter. tauto. Qed.

Lemma columns_selected (data : list Columns.Column) value v :
  v ∈ map Columns.val (Columns.selectedData data value) <->
  v ∈ map Columns.val data /\ Columns.checked value v = true.
Proof.
  unfold Columns.selectedData. split.
  - intros (c & -> & [H1 H2]%list_elem_of_filter)%list_elem_of_fmap. split; [|done].
    apply list_elem_of_fmap. eauto.
  - intros [(c & -> & H1)%list_elem_of_fmap H2]. apply list_elem_of_fmap.
    exists c. split; [done|]. by apply list_elem_of_filter.
Qed.

Lemma bool_decide_is (P : Prop) `{!Decision P} b : (P <-> b = true) -> bool_decide P = b.
Proof. intros H. destruct b; [apply bool_decide_eq_true|apply bool_decide_eq_false]; intuition congruence. Qed.

Lemma checked_elem value v : "all" ∉ value -> Columns.checked value v = bool_decide (v ∈ value).
Proof. intros H. unfold Columns.checked. rewrite (bool_decide_eq_false_2 ("all" ∈ value)) by done. apply orb_false_r. Qed.

(** In the list of columns and in the list of values of a filter a click flips
    the entry clicked and no other, also when all columns are chosen by the word
    [all]: the columns are then listed one by one. *)
Theorem click_flips (data : list Columns.Column) (value : list string) (v x : string) :
  v ∈ map Columns.val data -> x ∈ map Columns.val data -> "all" ∉ map Columns.val data ->
  Columns.checked (Columns.handleOptionSelect data value v) x =
    xorb (Columns.checked value x) (bool_decide (x = v)) /\
  bool_decide (x ∈ Values.handleOptionSelect value v) =
    xorb (bool_decide (x ∈ value)) (bool_decide (x = v)).
Proof.
  intros Hv Hx Hall. split.
  - rewrite checked_elem.
    2: { unfold Columns.handleOptionSelect. case_bool_decide.
         - rewrite elem_filter_ne, columns_selected. tauto.
         - rewrite elem_of_app, columns_selected, list_elem_of_singleton. intros [[]| <-]; done. }
    apply bool_decide_is. unfold Columns.handleOptionSelect.
    case_bool_decide as Hs; rewrite columns_selected in Hs;
      [rewrite elem_filter_ne|rewrite elem_of_app, list_elem_of_singleton]; rewrite columns_selected;
      destruct (Columns.checked value x) eqn:Ex, (decide (x = v)) as [->|Hne];
      rewrite ?(bool_decide_eq_true_2 (v = v)), ?(bool_decide_eq_false_2 (x = v)) by done;
      simpl; intuition congruence.
  - apply bool_decide_is. unfold Values.handleOptionSelect.
    case_bool_decide as Hs; [rewrite elem_filter_ne|rewrite elem_of_app, list_elem_of_singleton];
      destruct (decide (x = v)) as [->|Hne];
      rewrite ?(bool_decide_eq_true_2 (v = v)), ?(bool_decide_eq_false_2 (x = v)) by done;
      case_bool_decide; simpl; intuition congruence.
Qed.

Lemma click_flips_witness :
  let data := [Columns.mkColumn "A" "a"; Columns.mkColumn "B" "b"] in
  Columns.checked (Columns.handleOptionSelect data ["all"] "a") "a" = false /\
  Columns.checked (Columns.handleOptionSelect data ["all"] "a") "b" = true.
Proof.
  intros data.
  assert (Ha : "a" ∈ map Columns.val data) by (by left).
  assert (Hb : "b" ∈ map Columns.val data) by (right; by left).
  assert (Hn : "all" ∉ map Columns.val data) by (apply (bool_decide_unpack _); vm_compute; exact I).
  split.
  - apply (click_flips data ["all"] "a" "a" Ha Ha Hn).
  - apply (click_flips data ["all"] "a" "b" Ha Hb Hn).
Defined.

(** The categories of the charts partition the charts that are listed. *)
Lemma categories_spec (d : list Charts.Chart) :
  NoDup (Charts.categories d) /\ forall c, c ∈ Charts.categories d <-> exists x, x ∈ d /\ Charts.category x = c.
Proof.
  unfold Charts.categories.
  enough (forall set, NoDup set ->
    let r := fold_left (fun set c => if decide (Charts.category c ∈ set) then set else set ++ [Charts.category c]) d set in
    NoDup r /\ forall c, c ∈ r <-> c ∈ set \/ exists x, x ∈ d /\ Charts.category x = c) as H.
  { destruct (H [] (NoDup_nil_2)) as [H1 H2]. split; [done|]. intros c. rewrite H2, elem_of_nil. naive_solver. }
  induction d as [|y d IH]; intros set Hs; cbn [fold_left]; [split; [done|]; set_solver|].
  destruct (IH (if decide (Charts.category y ∈ set) then set else set ++ [Charts.category y])) as [H1 H2].
  { case_decide; [done|]. apply NoDup_app. split_and!; [done|set_solver|apply NoDup_singleton]. }
  split; [done|]. intros c. rewrite H2. setoid_rewrite elem_of_cons.
  case_decide; [|rewrite elem_of_app, list_elem_of_singleton]; naive_solver.
Qed.

(** After a search was submitted the box and the URL agree; going back in the
    history changes only the URL. *)
Lemma search_follows s v t :
  Search.term (Search.handleSearchSubmit (Search.change v s)) = Some v /\
  Search.text (Search.handleSearchSubmit (Search.change v s)) = v /\
  Search.text (Search.navigate t (Search.handleSearchSubmit (Search.change v s))) = v.
Proof. done. Qed.

End ListFacts.
