(* ===== verification/QueryParams.v ===== *)
(** * Typed parameters of the address

    hooks/useQueryParams.ts, a hook that keeps an object of parameters in its state
    and writes it to the address (Module [Hook]), hooks/useURLTimeRange.ts, which
    keeps a time range with it (Module [Range]), and the two of them on one page, as
    the page of Top SQL uses them (Module [Page]). *)

From Stdlib Require Import Ascii.
From S2P Require Import Prelude JsString JsNumber Uri TimeRange.
From stdpp Require Import options.
Local Open Scope Z_scope.

(** The values a parameter can have, by the type of its default. *)
Inductive Value := PStr (s : string) | PNum (n : num) | PList (l : list string).

(** Objects: their keys in the order of insertion. *)
Abbreviation obj := (list (string * Value)).

Fixpoint obj_get (k : string) (o : obj) : option Value :=
  match o with
  | [] => None
  | (k', v) :: o => if decide (k' = k) then Some v else obj_get k o
  end.

Fixpoint obj_set (k : string) (v : Value) (o : obj) : obj :=
  match o with
  | [] => [(k, v)]
  | (k', v') :: o => if decide (k' = k) then (k, v) :: o else (k', v') :: obj_set k v o
  end.

(** [{ ...o, ...p }] *)
Definition spread (o p : obj) : obj := fold_left (fun o kv => obj_set (fst kv) (snd kv) o) p o.

(** [v + ''] *)
Definition text (v : Value) : string :=
  match v with PStr s => s | PNum n => num_show n | PList l => js_join "," l end.

Module Hook.

(** The value read from the address, of the type of the default. *)
Definition typed (defParams : obj) (key value : string) : Value :=
  match obj_get key defParams with
  | Some (PNum _) => PNum (js_Number value)
  | Some (PList _) => PList (if decide (value = "") then [] else js_split "," value)
  | _ => PStr value
  end.

Definition mount (defParams override : obj) (search : string) : obj :=
  fold_left (fun o kv => obj_set (fst kv) (typed defParams (fst kv) (snd kv)) o)
    (parse_query search) (spread defParams override).

Definition search_of (params : obj) : string :=
  String "?" (print_query (map (fun kv => (fst kv, text (snd kv))) params)).

(** The state and the address after [setQueryParams]. *)
Definition setQueryParams (p queryParams : obj) (search : string) : obj * string :=
  let params := spread queryParams p in
  let currentSearchStr := search_of params in
  (params, if decide (search = currentSearchStr) then search else currentSearchStr).

(** With overriding parameters the address is rewritten when the page is mounted. *)
Definition mount_effect (override queryParams : obj) (search : string) : obj * string :=
  match override with [] => (queryParams, search) | _ => setQueryParams queryParams queryParams search end.

End Hook.

Module Range.

Definition defParams : obj := [("from", PNum (num_of_Z (30 * 60))); ("to", PStr "now")].

Definition read_number (v : option Value) : num :=
  match parseInt (match v with Some v => text v | None => "undefined" end) with
  | Some z => num_of_Z z
  | None => NaN
  end.

Definition timeRange (queryParams : obj) : V1.TimeRange :=
  let from := obj_get "from" queryParams in
  let to := obj_get "to" queryParams in
  let isRecent := match to with Some (PStr s) => bool_decide (s = "now") | _ => false end in
  if isRecent then V1.Recent (read_number from)
  else V1.Absolute (read_number from, read_number to).

Definition range_params (tr : V1.TimeRange) : obj :=
  match tr with
  | V1.Recent v => [("from", PNum v); ("to", PStr "now")]
  | V1.Absolute (a, b) => [("from", PNum a); ("to", PNum b)]
  end.

Definition setTimeRange (tr : V1.TimeRange) (queryParams : obj) (search : string) : obj * string :=
  Hook.setQueryParams (range_params tr) queryParams search.

End Range.

Module Page.

(** The states of the two hooks of the page and the address they share. *)
Record Page := mkPage { instance_hook : obj; range_hook : obj; search : string }.

Definition instance_def : obj := [("instance", PStr "")].

Definition mount (search : string) : Page :=
  mkPage (Hook.mount instance_def [] search) (Hook.mount Range.defParams [] search) search.

Definition set_instance (i : string) (p : Page) : Page :=
  let '(h, s) := Hook.setQueryParams [("instance", PStr i)] (instance_hook p) (search p) in
  mkPage h (range_hook p) s.

Definition set_range (tr : V1.TimeRange) (p : Page) : Page :=
  let '(h, s) := Range.setTimeRange tr (range_hook p) (search p) in
  mkPage (instance_hook p) h s.

Definition shown_range (p : Page) : V1.TimeRange := Range.timeRange (range_hook p).
Definition shown_instance (p : Page) : option Value := obj_get "instance" (instance_hook p).
Definition reload (p : Page) : Page := mount (search p).

End Page.

(** ** Objects *)

Section Objects.

Lemma obj_get_set k v o k' : obj_get k' (obj_set k v o) = if decide (k = k') then Some v else obj_get k' o.
Proof.
  induction o as [|[k1 v1] o IH]; cbn [obj_set obj_get]; [done|].
  destruct (decide (k1 = k)) as [->|Hk]; cbn [obj_get]; [by case_decide|].
  rewrite IH. repeat case_decide; congruence.
Qed.

Lemma obj_get_none k o : k ∉ map fst o -> obj_get k o = None.
Proof.
  induction o as [|[k1 v1] o IH]; cbn [obj_get map fst]; [done|]. intros Hk.
  rewrite decide_False by set_solver. apply IH. set_solver.
Qed.

Lemma obj_set_keys k v o : map fst (obj_set k v o) = if decide (k ∈ map fst o) then map fst o else map fst o ++ [k].
Proof.
  induction o as [|[k1 v1] o IH]; cbn [obj_set map fst]; [done|].
  destruct (decide (k1 = k)) as [->|Hk]; cbn [map fst].
  - rewrite decide_True by (by left). done.
  - rewrite IH. destruct (decide (k ∈ map fst o)).
    + rewrite decide_True by (by right). done.
    + rewrite decide_False by set_solver. done.
Qed.

Lemma obj_set_NoDup k v o : NoDup (map fst o) -> NoDup (map fst (obj_set k v o)).
Proof.
  intros Ho. rewrite obj_set_keys. case_decide; [done|]. apply NoDup_app.
  split_and!; [done|set_solver|apply NoDup_singleton].
Qed.

(** The last value of a key in a list of pairs. *)
Definition last_value {A} (k : string) (l : list (string * A)) : option A :=
  snd <$> last (filter (fun p => fst p = k) l).

Lemma last_value_cons {A} k (p : string * A) l :
  last_value k (p :: l) =
    match last_value k l with
    | Some v => Some v
    | None => if decide (fst p = k) then Some (snd p) else None
    end.
Proof.
  unfold last_value. rewrite filter_cons. case_decide; [|by destruct (last _)].
  rewrite last_cons. by destruct (last _).
Qed.

Lemma fold_set_get {A} (f : string -> A -> Value) (l : list (string * A)) o k :
  obj_get k (fold_left (fun o kv => obj_set (fst kv) (f (fst kv) (snd kv)) o) l o) =
    match last_value k l with Some a => Some (f k a) | None => obj_get k o end.
Proof.
  revert o; induction l as [|[k1 a] l IH]; intros o; [done|]. cbn [fold_left].
  rewrite IH, last_value_cons, obj_get_set. cbn [fst snd].
  destruct (last_value k l); [done|]. by case_decide; subst.
Qed.

Lemma fold_set_NoDup {A} (f : string -> A -> Value) (l : list (string * A)) o :
  NoDup (map fst o) ->
  NoDup (map fst (fold_left (fun o kv => obj_set (fst kv) (f (fst kv) (snd kv)) o) l o)).
Proof. revert o; induction l as [|[k1 a] l IH]; intros o Ho; [done|]. cbn [fold_left]. apply IH, obj_set_NoDup, Ho. Qed.

Lemma spread_get o p k :
  obj_get k (spread o p) = match last_value k p with Some v => Some v | None => obj_get k o end.
Proof. exact (fold_set_get (fun _ v => v) p o k). Qed.

Lemma spread_NoDup o p : NoDup (map fst o) -> NoDup (map fst (spread o p)).
Proof. exact (fold_set_NoDup (fun _ v => v) p o). Qed.

Lemma last_value_obj o k : NoDup (map fst o) -> last_value k o = obj_get k o.
Proof.
  induction o as [|[k1 v] o IH]; [done|]. cbn [map fst]. intros [Hk Ho]%NoDup_cons.
  rewrite last_value_cons, IH by done. cbn [fst snd obj_get].
  destruct (decide (k1 = k)) as [->|]; [by rewrite obj_get_none|]. by destruct (obj_get k o).
Qed.

Lemma last_value_map {A B} (f : A -> B) k l :
  last_value k (map (fun kv => (fst kv, f (snd kv))) l) = f <$> last_value k l.
Proof.
  induction l as [|p l IH]; [done|]. cbn [map]. rewrite !last_value_cons, IH. cbn [fst snd].
  destruct (last_value k l); [done|]. by case_decide.
Qed.

End Objects.

(** ** One hook *)

Section OneHook.
Import Hook.

Lemma parse_search (l : list (string * string)) : parse_query (String "?" (print_query l)) = l.
Proof.
  rewrite <- (parse_print l) at 2. unfold parse_query. f_equal. f_equal. f_equal.
  assert (H : strip_question (print_query l) = print_query l); [|by rewrite H].
  destruct l as [|[k v] l]; [done|]. unfold print_query. cbn [map].
  assert (Hk : has_char "?" (form_encode k) = false) by (by apply has_char_form_encode).
  destruct (form_encode k) as [|c k'].
  - destruct l; [done|]. simpl. done.
  - cbn [has_char] in Hk. apply orb_false_iff in Hk as [Hc _]. apply bool_decide_eq_false in Hc.
    destruct l; simpl; by rewrite decide_False.
Qed.

Lemma mount_get defs ovr s k :
  obj_get k (mount defs ovr s) =
    match last_value k (parse_query s) with
    | Some v => Some (typed defs k v)
    | None => obj_get k (spread defs ovr)
    end.
Proof. apply (fold_set_get (typed defs)). Qed.

Lemma mount_NoDup defs ovr s : NoDup (map fst defs) -> NoDup (map fst (mount defs ovr s)).
Proof. intros. by apply (fold_set_NoDup (typed defs)), spread_NoDup. Qed.

Lemma set_search p qp s : snd (setQueryParams p qp s) = search_of (spread qp p).
Proof. unfold setQueryParams. simpl. by case_decide. Qed.

Lemma search_value params k : NoDup (map fst params) ->
  last_value k (parse_query (search_of params)) = text <$> obj_get k params.
Proof. intros Hn. unfold search_of. by rewrite parse_search, last_value_map, last_value_obj. Qed.

(** What a page mounted at the new address reads. *)
Lemma remount_get defs p qp s k : NoDup (map fst qp) ->
  obj_get k (mount defs [] (snd (setQueryParams p qp s))) =
    match obj_get k (spread qp p) with
    | Some v => Some (typed defs k (text v))
    | None => obj_get k defs
    end.
Proof.
  intros Hn. rewrite mount_get, set_search, search_value by (by apply spread_NoDup).
  by destruct (obj_get k (spread qp p)).
Qed.

(** A value that is read back as it is: of the type of its default, and, for a list,
    of names without commas and not one empty name. *)
Definition faithful (defs : obj) (k : string) (v : Value) : Prop :=
  match obj_get k defs, v with
  | Some (PNum _), PNum n => exists z, n = num_of_Z z
  | Some (PList _), PList l => Forall (fun x => has_char "," x = false) l /\ l <> [""]
  | Some (PStr _), PStr _ | None, PStr _ => True
  | _, _ => False
  end.

Lemma faithful_typed defs k v : faithful defs k v -> typed defs k (text v) = v.
Proof.
  unfold faithful, typed. destruct (obj_get k defs) as [[]|], v as [s'|n'|l']; try done.
  - intros [z ->]. cbn [text]. by rewrite num_show_Z, js_Number_show.
  - intros [Hc Hl]. cbn [text]. destruct (decide (js_join "," l' = "")) as [He|He].
    + destruct l' as [|x [|y l']]; [done| |by destruct x]. simpl in He. by subst.
    + rewrite js_split_join; [done|by intros ->|done].
Qed.

End OneHook.

(** After a hook wrote parameters, a page mounted at the address of then reads the
    same values for all of its parameters, those just written and those it had before,
    whenever each value has the type of its default (a whole number, or a list of
    names without commas that is not one empty name); the others have their default. *)
Theorem query_params_reload (defs p qp : obj) (search k : string) :
  NoDup (map fst qp) -> (forall k' v, obj_get k' (spread qp p) = Some v -> faithful defs k' v) ->
  let written := Hook.setQueryParams p qp search in
  obj_get k (fst written) = match last_value k p with Some v => Some v | None => obj_get k qp end /\
  obj_get k (Hook.mount defs [] (snd written)) =
    match obj_get k (fst written) with Some v => Some v | None => obj_get k defs end.
Proof.
  intros Hn Hf written. split; [apply spread_get|]. unfold written. rewrite remount_get by done.
  change (fst (Hook.setQueryParams p qp search)) with (spread qp p).
  destruct (obj_get k (spread qp p)) as [v|] eqn:E; [|done]. by rewrite faithful_typed by eauto.
Qed.

Lemma query_params_reload_witness :
  obj_get "types" (Hook.mount [("types", PList []); ("limit", PNum (num_of_Z 5))] []
    (snd (Hook.setQueryParams [("types", PList ["a b"; "c"])] [("limit", PNum (num_of_Z 20))] ""))) =
  Some (PList ["a b"; "c"]).
Proof.
  destruct (query_params_reload [("types", PList []); ("limit", PNum (num_of_Z 5))]
    [("types", PList ["a b"; "c"])] [("limit", PNum (num_of_Z 20))] "" "types") as [_ H].
  - apply NoDup_singleton.
  - intros k v. change (spread _ _) with [("limit", PNum (num_of_Z 20)); ("types", PList ["a b"; "c"])].
    cbn [obj_get]. case_decide as H1; [subst; intros [= <-]; by exists 20|].
    case_decide as H2; [subst; intros [= <-]|done]. split; [repeat constructor|done].
  - rewrite H. reflexivity.
Defined.

(** ** Two hooks on one page *)

Section TwoHooks.
Import Page.

Lemma instance_mount_get s k : k <> "instance" ->
  obj_get k (Hook.mount instance_def [] s) = PStr <$> last_value k (parse_query s).
Proof.
  intros Hk. rewrite mount_get. unfold Hook.typed, instance_def, spread. cbn [fold_left obj_get].
  rewrite decide_False by done. by destruct (last_value _ _).
Qed.

(** Selecting an instance writes the range the address had when the page was
    mounted, whatever was chosen since. *)
Lemma instance_search s i tr k : k <> "instance" ->
  last_value k (parse_query (search (set_instance i (set_range tr (mount s))))) =
    last_value k (parse_query s).
Proof.
  intros Hk. unfold set_instance, set_range, Range.setTimeRange. cbn [instance_hook mount].
  destruct (Hook.setQueryParams (Range.range_params tr) _ _) as [h s'] eqn:E. cbn [instance_hook search].
  destruct (Hook.setQueryParams _ (Hook.mount instance_def [] s) s') as [h2 s2] eqn:E2.
  apply (f_equal snd) in E2. rewrite set_search in E2. cbn [snd search] in *. subst s2.
  rewrite search_value by (apply spread_NoDup, mount_NoDup, NoDup_singleton).
  rewrite spread_get, last_value_cons. cbn [fst snd last_value filter list_filter last fmap option_fmap option_map].
  rewrite decide_False by done. rewrite instance_mount_get by done. by destruct (last_value k _).
Qed.

(** On a page with both hooks the later write loses the earlier one.  When the user
    chooses a time range and then an instance, the address names the instance but the
    range is again the one the page was opened with: the page still shows the chosen
    range, and a page opened at that address, by reloading or by sharing the link, does
    not. *)
Theorem range_lost (search0 i : string) (tr : V1.TimeRange) :
  let p := set_instance i (set_range tr (mount search0)) in
  shown_instance (reload p) = Some (PStr i) /\
  shown_range (reload p) = shown_range (mount search0) /\
  shown_range p = shown_range (set_range tr (mount search0)).
Proof.
  intros p. split_and!.
  - unfold p, reload, shown_instance, set_instance. cbn [instance_hook mount].
    destruct (Hook.setQueryParams [("instance", PStr i)] (instance_hook (set_range tr (mount search0)))
      (search (set_range tr (mount search0)))) as [h s'] eqn:E.
    apply (f_equal snd) in E. cbn [snd search] in *. rewrite <- E.
    assert (Hh : instance_hook (set_range tr (mount search0)) = Hook.mount instance_def [] search0).
    { unfold set_range. by destruct (Range.setTimeRange _ _ _). }
    rewrite Hh, remount_get by (apply mount_NoDup, NoDup_singleton). by rewrite spread_get.
  - unfold shown_range, reload, mount. cbn [range_hook].
    assert (H : forall k, k <> "instance" ->
      obj_get k (Hook.mount Range.defParams [] (search p)) = obj_get k (Hook.mount Range.defParams [] search0)).
    { intros k Hk. rewrite !mount_get. unfold p. by rewrite (instance_search search0 i tr k Hk). }
    unfold Range.timeRange. by rewrite !H.
  - unfold p, set_instance. by destruct (Hook.setQueryParams _ _ _).
Qed.

End TwoHooks.
