(* ===== verification/TopSql.v ===== *)
(** * The tables and the chart of Top SQL

    apps/TopSQL of ui/: what it shows of an answer.  Module [Data] cleans the answers of
    the server, Module [Special] tells the rows apart that need it, Module [Table] makes
    the tables of statements and plans and Module [Chart] the series of the chart. *)

From Stdlib Require Import Ascii QArith Qround Sorted Lqa.
From S2P Require Import Prelude JsString JsNumber TimeRange.
From stdpp Require Import options.
Local Open Scope Z_scope.

(** ** The answers of the server *)

(** The rates of a statement or a plan. *)
Record Rates := mkRates {
  exec_count_per_sec : option Q; scan_records_per_sec : option Q;
  scan_indexes_per_sec : option Q; duration_per_exec_ms : option Q
}.

Record PlanItem := mkPlan {
  plan_digest : option string; plan_text : option string;
  timestamp_sec : option (list Z); cpu_time_ms : option (list Z); plan_rates : Rates
}.

Record SummaryItem := mkItem {
  sql_digest : option string; sql_text : option string; is_other : bool;
  item_cpu : option Z; item_rates : Rates; plans : option (list PlanItem)
}.

Record SummaryByItem := mkBy {
  by_text : option string; by_timestamp : option (list Z); by_cpu : option (list Z);
  cpu_time_ms_sum : option Z
}.

Record SummaryResponse := mkResponse { data : option (list SummaryItem); data_by : option (list SummaryByItem) }.

(** The rows of the page: statements, or tables and schemas. *)
Inductive Rows := Statements (l : list SummaryItem) | Groups (l : list SummaryByItem).

Inductive AggLevel := Query | Table_ | Schema.
#[global] Instance AggLevel_eq_dec : EqDecision AggLevel.
Proof. solve_decision. Defined.

Definition agg_str (a : AggLevel) : string :=
  match a with Query => "query" | Table_ => "table" | Schema => "db" end.

Definition formatLabel (a : AggLevel) : string :=
  match a with
  | Schema => "DB"
  | _ => match agg_str a with
         | String c s => String (Ascii.ascii_of_nat (Ascii.nat_of_ascii c - 32)) s
         | s => s
         end
  end.

Module Data.

(** The points without CPU time are dropped, and seconds become milliseconds: the
    timestamps first, by the position of their value, then the values. *)
Definition kept_times (ts : option (list Z)) (cpu : option (list Z)) : option (list Z) :=
  (fun l => omap id (imap (fun i t =>
     if truthy (cpu ≫= (.!! i)) then Some t else None) l)) <$> ts.

Definition in_ms (ts : option (list Z)) : option (list Z) := map (fun t => t * 1000) <$> ts.
Definition kept_values (cpu : option (list Z)) : option (list Z) := filter (fun c => c <> 0) <$> cpu.

Definition clean_plan (p : PlanItem) : PlanItem :=
  mkPlan (plan_digest p) (plan_text p) (in_ms (kept_times (timestamp_sec p) (cpu_time_ms p)))
    (kept_values (cpu_time_ms p)) (plan_rates p).

Definition clean_by (d : SummaryByItem) : SummaryByItem :=
  mkBy (by_text d) (in_ms (kept_times (by_timestamp d) (by_cpu d))) (kept_values (by_cpu d))
    (cpu_time_ms_sum d).

Section Data.
(** The formatter of SQL texts, and the sort of [Array.prototype.sort] by digest with
    [localeCompare]. *)
Context (formatSql : option string -> option string) (sort_digest : list SummaryItem -> list SummaryItem).

Definition clean_item (d : SummaryItem) : SummaryItem :=
  mkItem (sql_digest d) (formatSql (sql_text d)) (is_other d) (item_cpu d) (item_rates d)
    (map clean_plan <$> plans d).

Definition statements (r : SummaryResponse) : Rows :=
  Statements (map clean_item (sort_digest (default [] (data r)))).
Definition groups (r : SummaryResponse) : Rows := Groups (map clean_by (default [] (data_by r))).

End Data.
End Data.

Module Special.

Definition OVERALL_IDENTIFIER : string := "__OVERALL_IDENTIFIER__".
Definition NO_PLAN_IDENTIFIER : string := "__NO_PLAN_IDENTIFIER__".

(** The rows of the table of statements: the fields of both kinds of answers and the
    CPU time.  [cpu_ms] is the field [cpu_time_ms] of the answer, a number for a
    statement. *)
Record SQLRecord := mkSQL {
  r_digest : option string; r_sql : option string; r_text : option string; r_other : bool;
  r_cpu_ms : option Z; r_sum : option Z; r_rates : Rates; r_plans : list PlanItem; cpuTime : Z
}.

Record PlanRecord := mkPlanRecord { rec_plan : PlanItem; rec_cpu : Z }.

Definition isOverallRecord (r : PlanRecord) : bool := bool_decide (plan_digest (rec_plan r) = Some OVERALL_IDENTIFIER).

Definition createOverallRecord (record : SQLRecord) : PlanRecord :=
  mkPlanRecord (mkPlan (Some OVERALL_IDENTIFIER) None None None (r_rates record)) (js_or (r_cpu_ms record) 0).

Definition isOthersRecord (r : SQLRecord) : bool := r_other r || bool_decide (r_text r = Some "other").
Definition isSummaryByRecord (r : SQLRecord) : bool := 0 <? js_length (default "" (r_text r)).
Definition isUnknownSQLRecord (r : SQLRecord) : bool := negb (truthy (r_sql r)) && negb (r_other r).

Definition isNoPlanRecord (r : PlanRecord) : bool :=
  negb (truthy (plan_digest (rec_plan r))) || bool_decide (plan_digest (rec_plan r) = Some NO_PLAN_IDENTIFIER).

Definition convertNoPlanRecord (r : PlanRecord) : PlanRecord :=
  if isNoPlanRecord r then
    mkPlanRecord (mkPlan (Some NO_PLAN_IDENTIFIER) (plan_text (rec_plan r)) (timestamp_sec (rec_plan r))
                    (cpu_time_ms (rec_plan r)) (plan_rates (rec_plan r))) (rec_cpu r)
  else r.

End Special.

(** ** Ordering *)

(** A stable sort, the largest key first: [Array.prototype.sort] with a comparison by
    difference. *)
Section SortDesc.
Context {A : Type} (key : A -> Z).

Fixpoint insert_desc (x : A) (l : list A) : list A :=
  match l with
  | [] => [x]
  | y :: l' => if key y <=? key x then x :: l else y :: insert_desc x l'
  end.

Definition sort_desc (l : list A) : list A := foldr insert_desc [] l.

End SortDesc.

(** The values of a series by their timestamp; after the cleaning every timestamp
    has a value. *)
Definition points (ts cpu : option (list Z)) : list (Z * Z) := zip (default [] ts) (default [] cpu).
Definition plan_points (p : PlanItem) : list (Z * Z) := points (timestamp_sec p) (cpu_time_ms p).
Definition sum_list (l : list Z) : Z := foldr Z.add 0 l.

Module Table.
Import Special.

(** The CPU time of a statement: the sum over its plans. *)
Definition plans_cpu (ps : list PlanItem) : Z := sum_list (map (fun p => sum_list (map snd (plan_points p))) ps).

Definition record_of_statement (r : SummaryItem) : SQLRecord :=
  mkSQL (sql_digest r) (sql_text r) None (is_other r) (item_cpu r) None (item_rates r)
    (default [] (plans r)) (plans_cpu (default [] (plans r))).

Definition no_rates : Rates := mkRates None None None None.

Definition record_of_group (r : SummaryByItem) : SQLRecord :=
  mkSQL None None (by_text r) false None (cpu_time_ms_sum r) no_rates []
    (if truthy (cpu_time_ms_sum r) && (0 <? js_length (default "" (by_text r)))
     then default 0 (cpu_time_ms_sum r) else 0).

Definition records (r : Rows) : list SQLRecord :=
  match r with Statements l => map record_of_statement l | Groups l => map record_of_group l end.

Definition capacity_of (l : list SQLRecord) : Z :=
  fold_left (fun capacity r => if capacity <? cpuTime r then cpuTime r else capacity) l 0.

Section Table.
(** The second call of [sort]: its comparison is not consistent (the row of the
    others is smaller than another row, which is not larger), so the language only
    guarantees a permutation. *)
Context (sort : (SQLRecord -> SQLRecord -> Z) -> list SQLRecord -> list SQLRecord).

Definition others_cmp (a b : SQLRecord) : Z := if r_other b then -1 else 0.

Definition useTableData (r : Rows) : list SQLRecord * Z :=
  let l := records r in
  (sort others_cmp (sort_desc cpuTime (filter (fun r => cpuTime r <> 0) l)), capacity_of l).

End Table.

(** The text of a row: the name of a table loses its number. *)
Definition isConvertNumber (value : string) : bool := negb (isNaN (js_Number value)).

Definition row_text (rec : SQLRecord) : string :=
  let text :=
    match r_text rec with
    | Some t => if truthy t then Some t else None
    | None => None
    end in
  let text := match text with
    | Some t => t
    | None =>
        if isUnknownSQLRecord rec
        then "(SQL " +:+ js_slice (default "undefined" (r_digest rec)) 0 8 +:+ ")"
        else default "" (r_sql rec)
    end in
  match js_split "-" text with
  | tid :: name :: _ =>
      if isConvertNumber tid then name +:+ " ( tid =" +:+ tid +:+ " )" else text
  | _ => text
  end.

Definition getKey (r : SQLRecord) : string :=
  match r_digest r with Some d => d | None => default "" (r_text r) end.

(** ** The plans of a statement *)

Definition plan_record (p : PlanItem) : PlanRecord := mkPlanRecord p (sum_list (default [] (cpu_time_ms p))).

Definition usePlanRecord (record : SQLRecord) : bool * list PlanRecord :=
  match r_plans record with
  | [] => (false, [])
  | ps =>
      let isMultiPlans := (1 <? length ps)%nat in
      let rs := map convertNoPlanRecord (sort_desc rec_cpu (map plan_record ps)) in
      (isMultiPlans, if isMultiPlans then createOverallRecord record :: rs else rs)
  end.

(** The plan whose details are shown, given the selected row. *)
Definition shown_plan (record : SQLRecord) (selectedRecord : option PlanRecord) : option PlanRecord :=
  let '(isMultiPlans, rs) := usePlanRecord record in
  if isMultiPlans then selectedRecord else head rs.

Inductive PlanColumn := CpuTime | PlanDigest | ExecCount | ScanRecords | ScanIndexes | Duration.

Definition plan_columns (instanceType : string) : list PlanColumn :=
  [CpuTime; PlanDigest; ExecCount] ++
  (if bool_decide (instanceType = "tikv") then [ScanRecords; ScanIndexes] else []) ++
  (if bool_decide (instanceType = "tidb") then [Duration] else []).

Definition canSelectPlan (r : PlanRecord) : bool := negb (isNoPlanRecord r) && negb (isOverallRecord r).
Definition canSelectStatement (r : SQLRecord) : bool := negb (isSummaryByRecord r).

End Table.

Module Chart.
Import Table.

Abbreviation dict A := (list (string * A)).

Fixpoint alter_key {K A} `{EqDecision K} (k : K) (f : option A -> A) (d : list (K * A)) : list (K * A) :=
  match d with
  | [] => [(k, f None)]
  | (k', a) :: d' => if decide (k' = k) then (k', f (Some a)) :: d' else (k', a) :: alter_key k f d'
  end.

(** [map[t] += v], also when there is nothing or zero at [t]. *)
Definition add_at {K} `{EqDecision K} (t : K) (v : Z) (d : list (K * Z)) : list (K * Z) :=
  alter_key t (fun old => default 0 old + v) d.

Definition add_points (ps : list (Z * Z)) (m : list (Z * Z)) : list (Z * Z) :=
  fold_left (fun m tv => add_at (fst tv) (snd tv) m) ps m.

Definition series_points (s : SummaryItem) : list (Z * Z) := default [] (plans s) ≫= plan_points.

(** One statement: its points and its sum are added under its digest. *)
Definition add_series (acc : dict (list (Z * Z)) * dict Z) (s : SummaryItem) : dict (list (Z * Z)) * dict Z :=
  let d := default "undefined" (sql_digest s) in
  (alter_key d (fun old => add_points (series_points s) (default [] old)) (fst acc),
   add_at d (sum_list (map snd (series_points s))) (snd acc)).

Section Chart.
(** [orderBy] of lodash on the second components, descending. *)
Context (orderBy : dict Z -> dict Z).

Definition statement_chart (l : list SummaryItem) : dict (list (Z * Z)) :=
  let '(valuesByDigestAndTs, sumValueByDigest) := fold_left add_series l ([], []) in
  let orderedDigests := map fst (filter (fun v => 0 < snd v) (orderBy sumValueByDigest)) in
  omap (fun digest =>
    pair digest <$> (snd <$> find (fun e => bool_decide (fst e = digest)) valuesByDigestAndTs)) orderedDigests.

Definition group_chart (l : list SummaryByItem) : dict (list (Z * Z)) :=
  fold_left (fun datumBy s =>
    alter_key (default "undefined" (by_text s))
      (fun old => default [] old ++ points (by_timestamp s) (by_cpu s)) datumBy) l [].

Definition isQueryAggLevel (groupBy : AggLevel) : bool :=
  negb (bool_decide (groupBy = Table_) || bool_decide (groupBy = Schema)).

(** The rows read as those of the other kind: the fields they do not have are missing. *)
Definition as_statement (d : SummaryByItem) : SummaryItem := mkItem None None false None no_rates None.
Definition as_group (d : SummaryItem) : SummaryByItem := mkBy None None None None.

(** The chart of rows under a grouping; [None] is the error that the number
    [cpu_time_ms] of a statement has no [forEach]. *)
Definition chartData (groupBy : AggLevel) (r : Rows) : option (dict (list (Z * Z))) :=
  match isQueryAggLevel groupBy, r with
  | true, Statements l => Some (statement_chart l)
  | true, Groups l => Some (statement_chart (map as_statement l))
  | false, Groups l => Some (group_chart l)
  | false, Statements l =>
      if existsb (fun s => bool_decide (is_Some (item_cpu s))) l then None else Some (group_chart (map as_group l))
  end.

End Chart.

Definition digestMap (groupBy : AggLevel) (r : Rows) : dict (option string) :=
  let add prev s := alter_key (default "undefined" (sql_digest s)) (fun _ => sql_text s) prev in
  match isQueryAggLevel groupBy, r with
  | false, _ => []
  | true, Statements l => fold_left add l []
  | true, Groups l => fold_left add (map as_statement l) []
  end.

(** The name of a series. *)
Definition series_name (others : string) (groupBy : AggLevel) (r : Rows) (originText : string) : string :=
  let sql := match find (fun e => bool_decide (fst e = originText)) (digestMap groupBy r) with
             | Some (_, Some t) => t | _ => "" end in
  if negb (truthy originText) then others
  else if negb (truthy sql) then
    if isQueryAggLevel groupBy then "(SQL " +:+ js_slice originText 0 8 +:+ ")" else originText
  else if 50 <? js_length sql then js_slice sql 0 50 +:+ "..." else sql.

End Chart.

(** ** The cleaned answers *)

Section DataFacts.
Import Data.

Definition kept_list (cpu ts : list Z) : list Z :=
  omap id (imap (fun i t => if truthy (cpu !! i) then Some t else None) ts).

Lemma kept_nil ts : kept_list [] ts = [].
Proof. unfold kept_list. induction ts as [|t ts IH]; [done|exact IH]. Qed.

Lemma kept_cons t c ts cpu :
  kept_list (c :: cpu) (t :: ts) = (if decide (c <> 0) then [t] else []) ++ kept_list cpu ts.
Proof.
  unfold kept_list.
  change (imap _ (t :: ts)) with
    ((if negb (c =? 0) then Some t else None) :: imap (fun i t => if truthy (cpu !! i) then Some t else None) ts).
  destruct (Z.eqb_spec c 0) as [->|Hc]; [rewrite decide_False by lia|rewrite decide_True by done]; reflexivity.
Qed.

Lemma kept_zip ts cpu :
  zip (kept_list cpu ts) (filter (fun c => c <> 0) cpu) =
  filter (fun tc : Z * Z => snd tc <> 0) (zip ts cpu) /\
  length (kept_list cpu ts) =
  length (filter (fun tc : Z * Z => snd tc <> 0) (zip ts cpu)).
Proof.
  revert cpu; induction ts as [|t ts IH]; intros cpu; [done|].
  destruct cpu as [|c cpu]; [rewrite kept_nil; done|].
  rewrite kept_cons. cbn [zip zip_with]. rewrite !filter_cons. cbn [snd].
  destruct (IH cpu) as [IH1 IH2].
  case_decide; [|split; [exact IH1|exact IH2]].
  cbn [app zip zip_with length]. split; [by rewrite <- IH1|by rewrite IH2].
Qed.

(** The cleaned points are the given ones with CPU time, in milliseconds; every
    timestamp that is left has its value. *)
Lemma clean_points (p : PlanItem) ts cpu :
  timestamp_sec p = Some ts -> cpu_time_ms p = Some cpu ->
  plan_points (clean_plan p) = map (fun tc : Z * Z => (fst tc * 1000, snd tc)) (filter (fun tc : Z * Z => snd tc <> 0) (zip ts cpu)) /\
  length (default [] (timestamp_sec (clean_plan p))) = length (plan_points (clean_plan p)).
Proof.
  intros Ht Hc. unfold plan_points, points, clean_plan. cbn [timestamp_sec cpu_time_ms].
  rewrite Ht, Hc.
  change (default [] (in_ms (kept_times (Some ts) (Some cpu)))) with
    (map (fun t => t * 1000) (kept_list cpu ts)).
  change (default [] (kept_values (Some cpu))) with (filter (fun c => c <> 0) cpu).
  destruct (kept_zip ts cpu) as [H1 H2].
  assert (E : forall a b : list Z, zip (map (fun t => t * 1000) a) b = map (fun tc : Z * Z => (fst tc * 1000, snd tc)) (zip a b)).
  { induction a as [|x a IHa]; intros [|y b]; [done..|]. cbn. by rewrite IHa. }
  rewrite E, H1. split; [done|]. by rewrite !length_map, H2.
Qed.

End DataFacts.

(** ** The chart and the table *)

Section DictFacts.
Import Chart.
Context {K : Type} `{EqDecision K}.

Definition get {A} (k : K) (d : list (K * A)) : option A := snd <$> find (fun e => bool_decide (fst e = k)) d.

Lemma get_cons {A} (k k' : K) (a : A) d : get k ((k', a) :: d) = if decide (k' = k) then Some a else get k d.
Proof. unfold get. cbn [find fst]. by case_bool_decide; case_decide. Qed.

Lemma alter_keys {A} (k : K) (f : option A -> A) d x :
  x ∈ map fst (alter_key k f d) <-> x = k \/ x ∈ map fst d.
Proof.
  induction d as [|[k' a] d IH]; cbn [alter_key map fst]; [set_solver|].
  case_decide; cbn [map fst]; rewrite ?elem_of_cons, ?IH; set_solver.
Qed.

Lemma alter_nodup {A} (k : K) (f : option A -> A) d : NoDup (map fst d) -> NoDup (map fst (alter_key k f d)).
Proof.
  induction d as [|[k' a] d IH]; cbn [alter_key map fst]; intros H; [apply NoDup_singleton|].
  apply NoDup_cons in H as [H1 H2]. case_decide as Hk; cbn [map fst]; apply NoDup_cons; [done|].
  split; [|by apply IH]. rewrite alter_keys. intros [?|?]; done.
Qed.

Lemma get_alter {A} (k k' : K) (f : option A -> A) d :
  get k (alter_key k' f d) = if decide (k' = k) then Some (f (get k d)) else get k d.
Proof.
  induction d as [|[k0 a] d IH]; cbn [alter_key]; [by rewrite get_cons; case_decide|].
  repeat (case_decide || rewrite !get_cons || rewrite IH); subst; done || congruence.
Qed.

Lemma get_elem {A} (k : K) (a : A) d : NoDup (map fst d) -> get k d = Some a <-> (k, a) ∈ d.
Proof.
  induction d as [|[k' a'] d IH]; cbn [map fst]; intros H; [by split; [|intros ?%elem_of_nil]|].
  apply NoDup_cons in H as [H1 H2]. rewrite get_cons, elem_of_cons. case_decide as Hk.
  - subst. split; [intros [= ->]; by left|]. intros [[= ->]|Hin]; [done|].
    destruct H1. change k with (fst (k, a)). by apply list_elem_of_fmap_2.
  - rewrite (IH H2). split; [by right|]. intros [[= -> ->]|?]; done.
Qed.

Definition total (d : list (K * Z)) : Z := sum_list (map snd d).

Lemma total_add (t : K) v d : total (add_at t v d) = total d + v.
Proof.
  unfold total, add_at, sum_list. induction d as [|[k a] d IH]; cbn [alter_key]; [cbn; lia|].
  case_decide; cbn [map snd foldr default from_option]; [unfold id; lia|rewrite IH; lia].
Qed.

End DictFacts.

Lemma sum_list_app l l' : sum_list (l ++ l') = sum_list l + sum_list l'.
Proof. unfold sum_list. induction l; cbn; lia. Qed.

#[global] Instance sum_list_perm : Proper (Permutation ==> eq) sum_list.
Proof. intros l l' H. unfold sum_list. induction H; cbn; lia. Qed.

Section SortFacts.
Context {A : Type} (key : A -> Z).

Lemma insert_desc_perm x l : Permutation (insert_desc key x l) (x :: l).
Proof.
  induction l as [|y l IH]; cbn [insert_desc]; [done|]. case_match; [done|].
  rewrite IH. apply Permutation_swap.
Qed.

Lemma sort_desc_perm l : Permutation (sort_desc key l) l.
Proof. induction l as [|x l IH]; [done|]. cbn. rewrite insert_desc_perm. by constructor. Qed.

Lemma sort_desc_sorted l : StronglySorted (fun x y => key y <= key x) (sort_desc key l).
Proof.
  induction l as [|x l IH]; [constructor|]. change (sort_desc key (x :: l)) with (insert_desc key x (sort_desc key l)).
  induction IH as [|y l' Hs IH' Hy]; cbn [insert_desc]; [repeat constructor|].
  destruct (Z.leb_spec (key y) (key x)) as [Hle|Hlt].
  - constructor; [by constructor|]. constructor; [done|]. eapply Forall_impl; [exact Hy|]. cbn. lia.
  - constructor; [done|]. rewrite insert_desc_perm. constructor; [lia|done].
Qed.

End SortFacts.

Section ChartFacts.
Import Chart Special Table.

Lemma add_points_total ps m : total (add_points ps m) = total m + sum_list (map snd ps).
Proof.
  revert m; induction ps as [|[t v] ps IH]; intros m; [symmetry; apply Z.add_0_r|].
  change (add_points _ m) with (add_points ps (add_at t v m)). rewrite IH, total_add.
  unfold sum_list. cbn. lia.
Qed.

Lemma add_points_nodup ps m : NoDup (map fst m) -> NoDup (map fst (add_points ps m)).
Proof.
  revert m; induction ps as [|[t v] ps IH]; intros m Hm; [done|].
  cbn. apply IH. by apply alter_nodup.
Qed.

Lemma series_cpu s : sum_list (map snd (series_points s)) = cpuTime (record_of_statement s).
Proof.
  cbn. unfold series_points, plans_cpu.
  induction (default [] (plans s)) as [|p l IH]; [done|]. cbn. rewrite map_app, sum_list_app. unfold sum_list in *. cbn. lia.
Qed.

(** The CPU time in the rows of a table of the statement with the digest [k]. *)
Definition row_digest (r : SQLRecord) : string := default "undefined" (r_digest r).
Definition cpu_of (k : string) (l : list SQLRecord) : Z :=
  sum_list (map cpuTime (filter (fun r => row_digest r = k) l)).

Lemma cpu_of_snoc k l r : cpu_of k (l ++ [r]) = cpu_of k l + (if decide (row_digest r = k) then cpuTime r else 0).
Proof.
  unfold cpu_of. rewrite filter_app, map_app, sum_list_app, filter_cons. f_equal.
  case_decide; cbn; lia.
Qed.

Lemma cpu_of_table sort l k :
  (forall cmp l, Permutation (sort cmp l) l) ->
  cpu_of k (fst (useTableData sort (Statements l))) = cpu_of k (map record_of_statement l).
Proof.
  intros Hp. unfold cpu_of. cbn [useTableData fst records]. rewrite Hp, sort_desc_perm.
  induction (map record_of_statement l) as [|r rs IH]; [done|].
  rewrite filter_cons. destruct (decide (cpuTime r <> 0)) as [Hr|Hr]; rewrite !filter_cons; case_decide; unfold sum_list in *; cbn [map foldr]; lia.
Qed.

(** What the two maps of the chart hold after the statements [l]. *)
Record charted (l : list SummaryItem) (vs : dict (list (Z * Z))) (ss : dict Z) : Prop := {
  charted_keys : NoDup (map fst vs); charted_sums : NoDup (map fst ss);
  charted_both k : total <$> get k vs = get k ss;
  charted_cpu k : default 0 (get k ss) = cpu_of k (map record_of_statement l);
  charted_times k ps : get k vs = Some ps -> NoDup (map fst ps)
}.

Lemma add_series_charted l vs ss s :
  charted l vs ss -> charted (l ++ [s]) (fst (add_series (vs, ss) s)) (snd (add_series (vs, ss) s)).
Proof.
  intros [H1 H2 H3 H4 H5]. unfold add_series. cbn [fst snd]. constructor.
  - by apply alter_nodup.
  - by apply alter_nodup.
  - intros k. unfold add_at. rewrite !get_alter, <- H3. case_decide; [|done].
    cbn [fmap option_fmap option_map]. rewrite add_points_total. f_equal. destruct (get k vs); done.
  - intros k. unfold add_at. rewrite get_alter, map_app. cbn [map]. rewrite cpu_of_snoc, <- H4, <- series_cpu.
    unfold row_digest. cbn [r_digest record_of_statement]. case_decide; cbn [default from_option]; unfold id; [reflexivity|symmetry; apply Z.add_0_r].
  - intros k ps. rewrite get_alter. case_decide; [|apply H5]. intros [= <-]. apply add_points_nodup.
    destruct (get k vs) eqn:E; [by apply (H5 k)|constructor].
Qed.

Lemma fold_charted l : charted l (fst (fold_left add_series l ([], []))) (snd (fold_left add_series l ([], []))).
Proof.
  induction l as [|s l IH] using rev_ind; [by split; try constructor|].
  rewrite fold_left_app. cbn [fold_left]. destruct (fold_left add_series l ([], [])) as [vs ss].
  by apply add_series_charted.
Qed.

Definition series_of (vs : dict (list (Z * Z))) (order : list (string * Z)) : dict (list (Z * Z)) :=
  omap (fun digest => pair digest <$> (snd <$> find (fun e => bool_decide (fst e = digest)) vs)) (map fst order).

Lemma series_keys vs order :
  (forall k v, (k, v) ∈ order -> is_Some (get k vs)) -> map fst (series_of vs order) = map fst order.
Proof.
  unfold series_of. induction order as [|[k v] order IH]; intros H; [done|]. cbn [map fst omap list_omap].
  destruct (H k v) as [ps Hps]; [by left|]. unfold get in Hps. rewrite Hps. cbn. f_equal. apply IH.
  intros k' v' Hin. apply (H k' v'). by right.
Qed.

Lemma sorted_keys (f : string -> Z) (l : list (string * Z)) :
  (forall k v, (k, v) ∈ l -> v = f k) -> StronglySorted (fun a b => snd b <= snd a) l ->
  StronglySorted (fun a b => f b <= f a) (map fst l).
Proof.
  intros H Hs. induction Hs as [|[k v] l Hs IH Hx]; [constructor|]. cbn [map fst]. constructor.
  - apply IH. intros k' v' Hin. apply H. by right.
  - apply Forall_forall. intros k' Hk'. pose proof (proj1 (Forall_forall _ _) Hx) as Hx'. apply list_elem_of_fmap in Hk' as [[k0 v0] [-> Hin]].
    cbn. rewrite <- (H k v) by (by left). rewrite <- (H k0 v0) by (by right). apply (Hx' _ Hin).
Qed.

Lemma strongly_filter {A} (R : A -> A -> Prop) (P : A -> Prop) `{!forall x, Decision (P x)} l :
  StronglySorted R l -> StronglySorted R (filter P l).
Proof.
  induction 1 as [|x l Hs IH Hx]; [constructor|]. rewrite filter_cons. case_decide; [|done].
  constructor; [done|]. apply Forall_forall. intros y [_ Hy]%list_elem_of_filter.
  by apply (proj1 (Forall_forall _ _) Hx).
Qed.

(** C16: The chart and the table of Top SQL show the same CPU time: each series of the
    chart has each timestamp once, sums to the time of the rows of its digest in the
    table, and the digests with time are those of the series, the largest first. *)
Theorem chart_and_table_agree sort orderBy l :
  (forall cmp l, Permutation (sort cmp l) l) ->
  (forall d, Permutation (orderBy d) d) ->
  (forall d : list (string * Z), StronglySorted (fun a b => snd b <= snd a) (orderBy d)) ->
  let rows := fst (useTableData sort (Statements l)) in
  let chart := statement_chart orderBy l in
  chartData orderBy Query (Statements l) = Some chart /\
  NoDup (map fst chart) /\
  (forall k ps, (k, ps) ∈ chart -> sum_list (map snd ps) = cpu_of k rows /\ NoDup (map fst ps)) /\
  (forall k, k ∈ map fst chart <-> 0 < cpu_of k rows) /\
  StronglySorted (fun a b => cpu_of b rows <= cpu_of a rows) (map fst chart).
Proof.
  intros Hp Ho1 Ho2 rows chart. destruct (fold_charted l) as [H1 H2 H3 H4 H5].
  split; [reflexivity|]. unfold chart, statement_chart.
  destruct (fold_left add_series l ([], [])) as [vs ss]. cbn [fst snd] in *.
  assert (Hc : forall k, default 0 (get k ss) = cpu_of k rows) by (intros k; rewrite H4; symmetry; by apply cpu_of_table).
  clearbody rows. set (order := filter _ _).
  assert (Hin : forall k v, (k, v) ∈ order <-> get k ss = Some v /\ 0 < v).
  { intros k v. unfold order. rewrite list_elem_of_filter, Ho1, (get_elem k v ss H2). cbn. tauto. }
  assert (Hnd : NoDup (map fst order)).
  { refine (sublist_NoDup _ (map fst (orderBy ss)) _ _); [by rewrite Ho1|].
    apply fmap_sublist, sublist_filter. }
  assert (Hk : map fst (series_of vs order) = map fst order) by (apply series_keys; intros k v Hkv; apply Hin in Hkv as [Hkv _]; rewrite <- H3 in Hkv; destruct (get k vs); [by eexists|done]).
  fold (series_of vs order). rewrite Hk.
  split; [done|]. split; [|split].
  - intros k ps Hin'. unfold series_of in Hin'. apply list_elem_of_omap in Hin' as [k' [_ E]].
    change (pair k' <$> get k' vs = Some (k, ps)) in E.
    destruct (get k' vs) as [ps'|] eqn:E'; [|done]. injection E as -> ->.
    rewrite <- Hc, <- H3, E'. split; [done|by apply (H5 k)].
  - intros k. rewrite <- Hc. split.
    + intros Hx. apply list_elem_of_fmap in Hx as [[k' v] [-> Hv]]. apply Hin in Hv as [Hv1 Hv2]. cbn. by rewrite Hv1.
    + intros Hx. destruct (get k ss) as [v|] eqn:E; cbn in Hx; [|lia].
      change k with (fst (k, v)). apply list_elem_of_fmap_2. by apply Hin.
  - apply sorted_keys; [|apply strongly_filter, Ho2].
    intros k v Hv. apply Hin in Hv as [Hv _]. rewrite <- Hc, Hv. done.
Qed.

Definition example_plan (d : string) (v : Z) : PlanItem := mkPlan (Some d) None (Some [1000; 2000]) (Some [v; v]) no_rates.
Definition example_statements : list SummaryItem :=
  [mkItem (Some "a") (Some "SELECT 1") false None no_rates (Some [example_plan "p" 1; example_plan "q" 2]);
   mkItem (Some "b") (Some "SELECT 2") false None no_rates (Some [example_plan "r" 5]);
   mkItem (Some "c") None true None no_rates (Some [])].

Lemma chart_and_table_agree_witness :
  map fst (statement_chart (sort_desc snd) example_statements) = ["b"; "a"] /\
  StronglySorted (fun a b => cpu_of b (fst (useTableData (fun _ l => l) (Statements example_statements))) <=
                             cpu_of a (fst (useTableData (fun _ l => l) (Statements example_statements))))
    (map fst (statement_chart (sort_desc snd) example_statements)).
Proof.
  split; [reflexivity|].
  destruct (chart_and_table_agree (fun _ l => l) (sort_desc snd) example_statements (fun _ l => Permutation_refl l)
    (sort_desc_perm snd) (sort_desc_sorted snd)) as (_ & _ & _ & _ & H).
  exact H.
Defined.

End ChartFacts.

(** ** The tables *)

Section TableFacts.
Import Special Table.

Lemma capacity_acc l c :
  c <= fold_left (fun capacity r => if capacity <? cpuTime r then cpuTime r else capacity) l c /\
  Forall (fun r => cpuTime r <= fold_left (fun capacity r => if capacity <? cpuTime r then cpuTime r else capacity) l c) l.
Proof.
  revert c; induction l as [|r l IH]; intros c; cbn [fold_left]; [split; [lia|constructor]|].
  destruct (IH (if c <? cpuTime r then cpuTime r else c)) as [H1 H2].
  revert H1 H2. destruct (Z.ltb_spec c (cpuTime r)); intros H1 H2; (split; [lia|constructor; [lia|done]]).
Qed.

(** The table has a row for each entry of the answer with CPU time, no row has more
    than the capacity its bar is drawn against, and unless the entry of the others is
    there the rows come with the largest first; tables and schemas never have that entry
    moved, whatever their text. *)
Theorem table_rows sort r :
  (forall cmp l, Permutation (sort cmp l) l) ->
  (forall cmp l, (forall a b, a ∈ l -> b ∈ l -> cmp a b = 0) -> sort cmp l = l) ->
  let '(rows, capacity) := useTableData sort r in
  Permutation rows (filter (fun x => cpuTime x <> 0) (records r)) /\
  Forall (fun x => cpuTime x <= capacity) rows /\
  (Forall (fun x => r_other x = false) (records r) -> StronglySorted (fun a b => cpuTime b <= cpuTime a) rows) /\
  (forall l, r = Groups l -> StronglySorted (fun a b => cpuTime b <= cpuTime a) rows).
Proof.
  intros Hp Hz. unfold useTableData.
  assert (Hs : Forall (fun x => r_other x = false) (records r) ->
    StronglySorted (fun a b => cpuTime b <= cpuTime a)
      (sort others_cmp (sort_desc cpuTime (filter (fun r => cpuTime r <> 0) (records r))))).
  { intros Ho. rewrite Hz; [apply sort_desc_sorted|]. intros a b _ Hb. unfold others_cmp.
    rewrite sort_desc_perm in Hb. apply list_elem_of_filter in Hb as [_ Hb].
    by rewrite (proj1 (Forall_forall _ _) Ho b Hb). }
  split; [by rewrite Hp, sort_desc_perm|]. split; [|split; [done|]].
  - rewrite Hp, sort_desc_perm. apply Forall_forall. intros x [_ Hx]%list_elem_of_filter.
    by apply (proj1 (Forall_forall _ _) (proj2 (capacity_acc (records r) 0))).
  - intros l ->. apply Hs. cbn [records]. apply Forall_forall. intros x Hx. by apply list_elem_of_fmap in Hx as [y [-> _]].
Qed.

Lemma table_rows_witness :
  Forall (fun x => cpuTime x <= 10) (fst (useTableData (fun _ l => l) (Statements example_statements))).
Proof.
  pose proof (table_rows (fun _ l => l) (Statements example_statements)
    (fun _ l => Permutation_refl l) (fun _ l _ => eq_refl)) as H.
  apply H.
Defined.

Lemma zip_values (ts cpu : list Z) : length ts = length cpu -> map snd (zip ts cpu) = cpu.
Proof.
  revert cpu; induction ts as [|t ts IH]; intros [|c cpu] H; try done. cbn. f_equal. apply IH. cbn in H. lia.
Qed.

(** A plan whose timestamps and values go together, as the page leaves them. *)
Definition aligned (p : PlanItem) : Prop :=
  length (default [] (timestamp_sec p)) = length (default [] (cpu_time_ms p)).

Lemma plan_cpu_sum ps : Forall aligned ps -> plans_cpu ps = sum_list (map rec_cpu (map plan_record ps)).
Proof.
  induction 1 as [|p ps Hp _ IH]; [done|].
  change (plans_cpu (p :: ps)) with (sum_list (map snd (plan_points p)) + plans_cpu ps).
  rewrite IH. unfold plan_points, points. by rewrite zip_values.
Qed.

Lemma convert_cpu r : rec_cpu (convertNoPlanRecord r) = rec_cpu r.
Proof. unfold convertNoPlanRecord. by case_match. Qed.

Lemma map_sorted {A B} (f : A -> B) (R : B -> B -> Prop) l :
  StronglySorted (fun a b => R (f a) (f b)) l -> StronglySorted R (map f l).
Proof.
  induction 1 as [|x l Hs IH Hx]; [constructor|]. cbn. constructor; [done|]. by apply Forall_map.
Qed.

Lemma strongly_mono {A} (R R' : A -> A -> Prop) l :
  (forall a b, R a b -> R' a b) -> StronglySorted R l -> StronglySorted R' l.
Proof.
  intros H. induction 1 as [|x l Hs IH Hx]; constructor; [done|].
  eapply Forall_impl; [exact Hx|]. auto.
Qed.

(** The table of the plans of a statement has a row for each plan, with a row for all
    of them before when there are several; the plans' times add up to the time of the
    statement and come largest first, and a statement with one plan shows the details of
    that plan whatever is selected. *)
Theorem plan_rows d :
  Forall aligned (default [] (plans d)) ->
  let record := record_of_statement d in
  let '(multi, rows) := usePlanRecord record in
  let own := if multi then tail rows else rows in
  length own = length (default [] (plans d)) /\
  sum_list (map rec_cpu own) = cpuTime record /\
  StronglySorted (fun a b => rec_cpu b <= rec_cpu a) own /\
  (multi = true -> exists o, head rows = Some o /\ isOverallRecord o = true /\ canSelectPlan o = false) /\
  (multi = false -> forall sel, shown_plan record sel = head rows).
Proof.
  intros Ha record.
  assert (Hu : usePlanRecord record =
    (bool_decide (1 < length (default [] (plans d)))%nat,
     (if bool_decide (1 < length (default [] (plans d)))%nat then [createOverallRecord record] else []) ++
     map convertNoPlanRecord (sort_desc rec_cpu (map plan_record (default [] (plans d)))))).
  { unfold record, usePlanRecord. cbn [r_plans record_of_statement]. destruct (default [] (plans d)) as [|p [|p' ps]]; done. }
  rewrite Hu. set (ps := default [] (plans d)) in *. set (rs := map convertNoPlanRecord _).
  assert (Hown : (if bool_decide (1 < length ps)%nat then tail ((if bool_decide (1 < length ps)%nat then [createOverallRecord record] else []) ++ rs)
    else (if bool_decide (1 < length ps)%nat then [createOverallRecord record] else []) ++ rs) = rs) by (by case_bool_decide).
  cbn zeta. rewrite Hown. unfold rs. repeat split.
  - by rewrite length_map, (Permutation_length (sort_desc_perm _ _)), length_map.
  - rewrite map_map, (map_ext _ _ convert_cpu), sort_desc_perm. symmetry. by apply plan_cpu_sum.
  - apply map_sorted. pose proof (sort_desc_sorted rec_cpu (map plan_record ps)) as Hs.
    revert Hs. apply strongly_mono. intros a b H. by rewrite !convert_cpu.
  - intros ->. exists (createOverallRecord record). done.
  - intros Hm sel. unfold shown_plan. rewrite Hu, Hm. by cbn [app].
Qed.

Lemma plan_rows_witness :
  sum_list (map rec_cpu (tail (snd (usePlanRecord (record_of_statement (List.hd
    (mkItem None None false None no_rates None) example_statements)))))) = 6.
Proof.
  pose proof (plan_rows (List.hd (mkItem None None false None no_rates None) example_statements)) as H.
  specialize (H ltac:(repeat constructor)). apply H.
Defined.

End TableFacts.
