(* ===== verification/TopSqlPage.v ===== *)
(** * The page of Top SQL

    apps/TopSQL of ui/: the state around the tables of TopSql.  Module [Request] is the
    request of the page with what its answer does, Module [Instances] the list of
    instances, Module [Brush] the range chosen in the chart and Module [Records] the
    selection of a row kept in the session storage. *)

From Stdlib Require Import Ascii QArith Qround Sorted Lqa.
From S2P Require Import Prelude JsString JsNumber TimeRange TopSql.
From stdpp Require Import options.
Local Open Scope Z_scope.

Module Request.

Record InstanceItem := mkInstance { instance : string; instance_type : string }.
#[global] Instance instanceItem_eq_dec : EqDecision InstanceItem.
Proof. solve_decision. Defined.

(** What is asked of the server. *)
Record Params := mkParams {
  p_end : num; p_group : AggLevel; p_instance : string; p_type : string; p_start : num; p_limit : Z; p_window : num
}.

(** A request in flight, with the grouping and the instance of the render it was sent
    from. *)
Record Flight := mkFlight { params : Params; groupBy_ : AggLevel; of_tidb : bool }.

(** [bundle] is what the chart draws: the rows with the grouping of the page when they
    last changed. *)
Record Page := mkPage {
  selected : option InstanceItem; groupBy : AggLevel; limit : Z; rows : Rows; isLoading : bool;
  flights : list Flight; bundle : Rows * AggLevel
}.

Definition RECENT_RANGE_OFFSET : num := num_of_Z (-60).

(** Recent ranges end a minute ago. *)
Definition toTimeRangeValue (now : Z) (v : V1.TimeRange) : TimeRangeValue :=
  V1.toTimeRangeValue now (Some v) (match v with V1.Recent _ => RECENT_RANGE_OFFSET | _ => num_of_Z 0 end).

(** The width in seconds of a bar of eight pixels; infinite without a width. *)
Definition computeTimeWindowSize (screenWidth : option Z) (min max : Z) : num :=
  let w := default 0 screenWidth in
  if w =? 0 then (if max - min =? 0 then NaN else if max - min <? 0 then Inf true else Inf false)
  else num_of_Z (- ((- (8 * (max - min))) / w)).

Section Request.
Context (formatSql : option string -> option string) (sort_digest : list SummaryItem -> list SummaryItem).

Definition is_tidb (i : InstanceItem) : bool := bool_decide (instance_type i = "tidb").

(** [updateTopSQLData] up to the request.  The limit is the one of the render, not the
    one passed. *)
Definition updateTopSQLData (i : option InstanceItem) (ts : TimeRangeValue) (_limit : Z) (window : num) (p : Page) : Page :=
  match i with
  | None => p
  | Some i =>
      mkPage (selected p) (groupBy p) (limit p) (rows p) true
        (flights p ++
           [mkFlight (mkParams (snd ts) (if is_tidb i then Query else groupBy p) (instance i)
                        (instance_type i) (fst ts) (limit p) window)
              (groupBy p) (match selected p with Some s => is_tidb s | None => false end)])
        (bundle p)
  end.

(** From the answer on: the rows are stored once or twice. *)
Definition answer (f : Flight) (r : SummaryResponse) (old : Rows) : Rows :=
  let shown := if bool_decide (groupBy_ f = Query) || of_tidb f
               then Data.statements formatSql sort_digest r else old in
  match groupBy_ f with Table_ | Schema => Data.groups r | Query => shown end.

Definition respond (k : nat) (r : option SummaryResponse) (p : Page) : Page :=
  match flights p !! k with
  | None => p
  | Some f =>
      let rest := base.delete k (flights p) in
      match r with
      | None => mkPage (selected p) (groupBy p) (limit p) (rows p) false rest (bundle p)
      | Some r =>
          let data := answer f r (rows p) in
          mkPage (selected p) (groupBy p) (limit p) data false rest (data, groupBy p)
      end
  end.

(** The instance chosen in the list, and the one the page selects by itself. *)
Definition onChangeInstance (i : InstanceItem) (p : Page) : Page :=
  mkPage (Some i) (if bool_decide (instance_type i = "tikv") then groupBy p else Query) (limit p) (rows p)
    (isLoading p) (flights p) (bundle p).

Definition selectInstance (instanceFromURL : string) (instances : list InstanceItem) (p : Page) : Page :=
  let set i := mkPage i (groupBy p) (limit p) (rows p) (isLoading p) (flights p) (bundle p) in
  let first := match selected p with Some _ => p | None => set (head instances) end in
  if truthy instanceFromURL then
    match find (fun i => bool_decide (instance i = instanceFromURL)) instances with
    | Some i => set (Some i)
    | None => first
    end
  else first.

Definition setGroupBy (g : AggLevel) (p : Page) : Page :=
  match selected p with
  | Some i => if bool_decide (instance_type i = "tikv")
              then mkPage (selected p) g (limit p) (rows p) (isLoading p) (flights p) (bundle p) else p
  | None => p
  end.

Definition setLimit (l : Z) (p : Page) : Page :=
  mkPage (selected p) (groupBy p) l (rows p) (isLoading p) (flights p) (bundle p).

End Request.

Definition LIMITS : list Z := [5; 20; 100].
Definition GROUP : list AggLevel := [Query; Table_; Schema].

End Request.

Module Instances.
Import Request.

(** The instances sorted by kind and address. *)
Definition instance_le (a b : InstanceItem) : Prop :=
  (instance_type a <> instance_type b /\ String.le (instance_type a) (instance_type b)) \/
  (instance_type a = instance_type b /\ String.le (instance a) (instance b)).
#[global] Instance instance_le_dec a b : Decision (instance_le a b).
Proof. unfold instance_le. apply _. Defined.

Record InstanceGroup := mkGroup { name : string; instances : list InstanceItem }.

(** An instance joins the last group if that has its kind. *)
Definition add_instance (prev : list InstanceGroup) (i : InstanceItem) : list InstanceGroup :=
  match last prev with
  | Some g =>
      if bool_decide (name g = instance_type i)
      then removelast prev ++ [mkGroup (name g) (instances g ++ [i])]
      else prev ++ [mkGroup (instance_type i) [i]]
  | None => prev ++ [mkGroup (instance_type i) [i]]
  end.

Definition instanceGroups (l : list InstanceItem) : list InstanceGroup := fold_left add_instance l [].

Definition splitter : string := " - ".

Definition combineSelectValue (item : option InstanceItem) : string :=
  match item with None => "" | Some i => instance_type i +:+ splitter +:+ instance i end.

(** [v.split(' - ')]: the parts between the separators, found from the left. *)
Fixpoint cut (sep s : string) : option (string * string) :=
  if js_startsWith s sep then Some ("", str_drop (String.length sep) s)
  else match s with
       | EmptyString => None
       | String a s' => (fun p => (String a (fst p), snd p)) <$> cut sep s'
       end.

Fixpoint split_on (fuel : nat) (sep s : string) : list string :=
  match fuel with
  | O => [s]
  | S fuel' => match cut sep s with Some (p, rest) => p :: split_on fuel' sep rest | None => [s] end
  end.

Definition splitSelectValue (v : string) : option string * option string :=
  let parts := split_on (S (String.length v)) splitter v in (parts !! 0%nat, parts !! 1%nat).

End Instances.

Module Brush.

(** The range chosen with the brush, in seconds: at least a minute. *)
Definition handleBrushEnd (x : option (Q * Q)) : option (Z * Z) :=
  match x with
  | None => None
  | Some (x0, x1) =>
      let a := (x0 / 1000)%Q in
      let b := (x1 / 1000)%Q in
      let delta := (b - a)%Q in
      if Qltb delta 60 then
        let offset := inject_Z (Qfloor (delta / 2)) in
        Some (Qceiling (a + offset - 30)%Q, Qfloor (b - offset + 30)%Q)
      else Some (Qceiling a, Qfloor b)
  end.

End Brush.

Module Records.

Section Records.
Context {T : Type} (getKey : T -> string) (canSelectItem : T -> bool).

(** The key in the session storage and the internal copy, the rows of the list and
    the key its selection holds.  The inner selection is that of the Fabric library
    for one row: [items] and the selected item, if any. *)
Record State := mkState { selectedRecordKey : option string; internalKey : option string;
  items : list T; inner : option T }.

Definition find_key (k : string) (l : list T) : option T := find (fun r => bool_decide (getKey r = k)) l.

Definition mount (stored : option string) : State := mkState stored stored [] None.

(** [selectToKey]: the row with the key, if it can be selected. *)
Definition selectToKey (k : string) (s : State) : State :=
  match find_key k (items s) with
  | Some r => if canSelectItem r
              then mkState (selectedRecordKey s) (internalKey s) (items s) (Some r) else s
  | None => s
  end.

(** [onSelectionChanged] *)
Definition onSelectionChanged (s : State) : State :=
  match inner s with
  | None =>
      match internalKey s with
      | Some k =>
          if truthy k then match find_key k (items s) with Some _ => selectToKey k s | None => s end else s
      | None => s
      end
  | Some r =>
      if decide (internalKey s = Some (getKey r)) then s
      else mkState (Some (getKey r)) (Some (getKey r)) (items s) (inner s)
  end.

(** A click on a row: the selection zone selects it, or clears the selection when the
    row cannot be selected. *)
Definition click (r : T) (s : State) : State :=
  onSelectionChanged (mkState (selectedRecordKey s) (internalKey s) (items s)
    (if canSelectItem r then Some r else None)).

(** New rows: the selection forgets its row, and the effect selects it again. *)
Definition setRows (l : list T) (s : State) : State :=
  let s := mkState (selectedRecordKey s) (internalKey s) l None in
  match selectedRecordKey s with
  | Some k => if truthy k then match find_key k l with Some _ => selectToKey k s | None => s end else s
  | None => s
  end.

Definition selectedRecord (s : State) : option T :=
  match selectedRecordKey s with Some k => find_key k (items s) | None => None end.

Inductive step : State -> State -> Prop :=
  | step_click s r : r ∈ items s -> step s (click r s)
  | step_rows s l : step s (setRows l s).

End Records.
End Records.

(** ** The list of instances *)

Section InstanceFacts.
Import Request Instances.

(** The groups of a list: together they are the list, none is empty, each holds the
    instances of its kind. *)
Definition groups_of (gs : list InstanceGroup) (l : list InstanceItem) : Prop :=
  (gs ≫= instances) = l /\ Forall (fun g => instances g <> [] /\ Forall (fun i => instance_type i = name g) (instances g)) gs.

Lemma last_snoc_eq {A} (l : list A) x : last l = Some x -> l = removelast l ++ [x].
Proof.
  induction l as [|y l IH]; [done|]. destruct l as [|z l]; [by intros [= ->]|].
  intros H. cbn [removelast app]. f_equal. by apply IH.
Qed.

Lemma add_instance_groups gs l i : groups_of gs l -> groups_of (add_instance gs i) (l ++ [i]).
Proof.
  intros [<- Hg]. unfold add_instance. destruct (last gs) as [g|] eqn:E.
  - apply last_snoc_eq in E. case_bool_decide as Hn.
    + rewrite E in Hg. apply Forall_app in Hg as [Hg1 Hg2]. apply Forall_singleton in Hg2 as [_ Hg2].
      split; [|].
      * rewrite E at 2. rewrite !bind_app. cbn. by rewrite !app_nil_r, app_assoc.
      * apply Forall_app_2; [done|]. apply Forall_singleton. cbn. split; [by destruct (instances g)|].
        apply Forall_app_2; [done|by apply Forall_singleton].
    + split; [by rewrite bind_app; cbn|]. apply Forall_app_2; [done|]. apply Forall_singleton. cbn.
      split; [done|by apply Forall_singleton].
  - split; [by rewrite bind_app; cbn|]. apply Forall_app_2; [done|]. apply Forall_singleton. cbn.
    split; [done|by apply Forall_singleton].
Qed.

Lemma last_name gs l i : groups_of gs (l ++ [i]) -> exists g, last gs = Some g /\ name g = instance_type i.
Proof.
  intros [Hl Hg]. destruct (last gs) as [g|] eqn:E; [|apply last_None in E as ->; by destruct l].
  exists g. split; [done|]. apply last_snoc_eq in E. rewrite E, bind_app in Hl. cbn in Hl. rewrite app_nil_r in Hl.
  rewrite E in Hg. apply Forall_app in Hg as [_ Hg]. apply Forall_singleton in Hg as [Hne Hg].
  destruct (instances g) as [|x xs _] using rev_ind; [done|].
  rewrite app_assoc in Hl. apply app_inj_tail in Hl as [_ ->].
  apply Forall_app in Hg as [_ Hg]. by apply Forall_singleton in Hg as ->.
Qed.

Lemma add_names gs i :
  map name (add_instance gs i) = map name gs \/
  map name (add_instance gs i) = map name gs ++ [instance_type i] /\
  forall g, last gs = Some g -> name g <> instance_type i.
Proof.
  unfold add_instance. destruct (last gs) as [g|] eqn:E; [|by right; rewrite map_app].
  case_bool_decide as Hn; [left|right; rewrite map_app; split; [done|by intros g' [= <-]]].
  rewrite map_app. cbn. apply last_snoc_eq in E. rewrite E at 2. by rewrite map_app.
Qed.

Lemma sorted_snoc {A} (R : A -> A -> Prop) l x :
  StronglySorted R (l ++ [x]) -> StronglySorted R l /\ Forall (fun y => R y x) l.
Proof.
  induction l as [|y l IH]; cbn; intros H; [by split; constructor|].
  apply StronglySorted_inv in H as [H1 H2]. apply IH in H1 as [H1 H1'].
  apply Forall_app in H2 as [H2 H2']. rewrite Forall_singleton in H2'. split; constructor; assumption.
Qed.

Lemma instance_le_type a b : instance_le a b -> String.le (instance_type a) (instance_type b).
Proof. intros [[_ H]|[-> _]]; [done|]. reflexivity. Qed.

Lemma instanceGroups_groups l : groups_of (instanceGroups l) l.
Proof.
  induction l as [|i l IH] using rev_ind; [split; [done|constructor]|].
  unfold instanceGroups. rewrite fold_left_app. by apply add_instance_groups.
Qed.

(** A kind that comes after a different last kind is new. *)
Lemma new_name gs l i :
  groups_of gs l -> StronglySorted instance_le (l ++ [i]) ->
  (forall g, last gs = Some g -> name g <> instance_type i) -> instance_type i ∉ map name gs.
Proof.
  intros Hgs Hs Hlast Hin. apply sorted_snoc in Hs as [Hs Hi].
  destruct l as [|j' l _] using rev_ind.
  - destruct Hgs as [Hl Hg]. destruct gs as [|g gs]; [by apply elem_of_nil in Hin|].
    apply Forall_cons in Hg as [[Hne _] _]. cbn in Hl. by destruct (instances g).
  - destruct (last_name _ _ _ Hgs) as [g' [Hg' Hn]]. specialize (Hlast _ Hg').
    apply sorted_snoc in Hs as [_ Hj']. apply Forall_app in Hi as [_ Hi]. apply Forall_singleton, instance_le_type in Hi.
    apply list_elem_of_fmap in Hin as [g [Hg Hin]]. destruct Hgs as [Hl Hall].
    destruct (proj1 (Forall_forall _ _) Hall g Hin) as [Hne Ht].
    destruct (instances g) as [|j js] eqn:E; [done|]. apply Forall_cons in Ht as [Ht _].
    assert (Hjin : j ∈ l ++ [j']).
    { rewrite <- Hl. apply list_elem_of_bind. exists g. split; [rewrite E; by left|done]. }
    apply elem_of_app in Hjin as [Hj|Hj%list_elem_of_singleton]; [|subst j; congruence].
    pose proof (instance_le_type _ _ (proj1 (Forall_forall _ _) Hj' j Hj)) as Hle. rewrite Ht, <- Hg in Hle.
    apply Hlast. rewrite Hn. by apply (anti_symm String.le).
Qed.

(** The list of instances groups them by kind: the groups together are the instances
    in their order, each group holds instances of its name, and of a list sorted by kind
    no kind has two groups. *)
Theorem instance_groups l :
  let gs := instanceGroups l in
  (gs ≫= instances) = l /\
  Forall (fun g => instances g <> [] /\ Forall (fun i => instance_type i = name g) (instances g)) gs /\
  (StronglySorted instance_le l -> NoDup (map name gs)).
Proof.
  destruct (instanceGroups_groups l) as [H1 H2]. split; [done|]. split; [done|]. clear H1 H2.
  induction l as [|i l IH] using rev_ind; intros Hs; [constructor|].
  unfold instanceGroups in *. rewrite fold_left_app. cbn [fold_left].
  destruct (add_names (fold_left add_instance l []) i) as [->|[-> Hl]].
  - exact (IH (proj1 (sorted_snoc _ _ _ Hs))).
  - apply NoDup_app. repeat split; [exact (IH (proj1 (sorted_snoc _ _ _ Hs)))| |apply NoDup_singleton].
    intros x Hx ->%list_elem_of_singleton. revert Hx. apply (new_name _ l); [apply instanceGroups_groups|done..].
Qed.

End InstanceFacts.

(** ** The selected row *)

Section RecordFacts.
Import Records.
Context {T : Type} (getKey : T -> string) (canSelectItem : T -> bool).

Record selection_ok (s : State (T := T)) : Prop := {
  keys_agree : selectedRecordKey s = internalKey s;
  inner_key r : inner s = Some r -> r ∈ items s /\ canSelectItem r = true /\ selectedRecordKey s = Some (getKey r);
  inner_none k r : inner s = None -> selectedRecordKey s = Some k -> k <> "" ->
    find_key getKey k (items s) = Some r -> canSelectItem r = false
}.

Lemma find_key_spec k l r : find_key getKey k l = Some r -> r ∈ l /\ getKey r = k.
Proof.
  unfold find_key. induction l as [|x l IH]; cbn [find]; [done|].
  case_bool_decide; [intros [= ->]; split; [by left|done]|]. intros [H1 H2]%IH. split; [by right|done].
Qed.

Lemma find_key_is_some l r : r ∈ l -> is_Some (find_key getKey (getKey r) l).
Proof.
  unfold find_key. induction 1 as [x l|x y l Hi IH]; cbn [find]; case_bool_decide; done || by eexists.
Qed.

Lemma selectToKey_ok k s :
  selectedRecordKey s = internalKey s -> inner s = None -> selectedRecordKey s = Some k ->
  selection_ok (selectToKey getKey canSelectItem k s).
Proof.
  intros Hk Hn Hs. unfold selectToKey. destruct (find_key getKey k (items s)) as [r|] eqn:E.
  - destruct (find_key_spec _ _ _ E) as [Hr Hr']. destruct (canSelectItem r) eqn:Ec; constructor; cbn; try congruence.
    + intros r' [= <-]. split; [done|split; [done|congruence]].
  - constructor; cbn; congruence.
Qed.

(** The selection made again after a change of the rows or a cleared selection. *)
Lemma reselect_ok s :
  selectedRecordKey s = internalKey s -> inner s = None ->
  selection_ok (match selectedRecordKey s with
    | Some k => if truthy k then match find_key getKey k (items s) with
                                 | Some _ => selectToKey getKey canSelectItem k s | None => s end else s
    | None => s end).
Proof.
  intros Hk Hn. destruct (selectedRecordKey s) as [k|] eqn:E.
  - destruct (truthy k) eqn:Et.
    + destruct (find_key getKey k (items s)) eqn:Ef; [apply selectToKey_ok; congruence|].
      constructor; congruence.
    + constructor; try congruence. intros k' r _ E' Hne. destruct k'; [done|]. replace k with (String a k') in Et by congruence. done.
  - constructor; congruence.
Qed.

Lemma select_step_ok s s' : selection_ok s -> step getKey canSelectItem s s' -> selection_ok s'.
Proof.
  intros Hok Hs. revert Hok. destruct Hs as [s0 r Hr|s0 l]; intros [H1 H2 H3].
  - unfold click. destruct (canSelectItem r) eqn:Ec; unfold onSelectionChanged; cbn [inner internalKey].
    + case_decide as Hd; constructor; cbn; try done.
      * intros r' [= <-]. split; [done|split; [done|congruence]].
      * intros r' [= <-]. split; [done|by split].
    + destruct s0 as [ki0 ki l0 i0]. cbn [selectedRecordKey internalKey items] in *. subst ki0.
      exact (reselect_ok (mkState ki ki l0 None) eq_refl eq_refl).
  - unfold setRows. cbn [selectedRecordKey]. by apply (reselect_ok (mkState (selectedRecordKey s0) (internalKey s0) l None)).
Qed.

(** The selected row of a table of Top SQL, whatever rows are clicked and come from
    the server: the key in the session storage is that of the selection, the row the list
    marks has the key of the row whose details are shown, nothing is selected only when
    no row has the key or that row cannot be selected, and a click on a row that cannot be
    selected leaves the details as they are. *)
Theorem record_selection stored s :
  rtc (step getKey canSelectItem) (mount stored) s ->
  selectedRecordKey s = internalKey s /\
  (forall r, inner s = Some r -> canSelectItem r = true /\
     exists r', selectedRecord getKey s = Some r' /\ getKey r' = getKey r) /\
  (forall k r, inner s = None -> selectedRecordKey s = Some k -> k <> "" ->
     selectedRecord getKey s = Some r -> canSelectItem r = false) /\
  (forall r, canSelectItem r = false -> selectedRecord getKey (click getKey canSelectItem r s) = selectedRecord getKey s).
Proof.
  intros Hr. assert (Hok : selection_ok s).
  { assert (H0 : selection_ok (mount stored)) by (by constructor).
    revert H0. induction Hr as [|x y z Hxy _ IH]; intros H0; [done|]. apply IH. by apply (select_step_ok x). }
  destruct Hok as [H1 H2 H3]. split; [done|]. split; [|split].
  - intros r Hin. destruct (H2 r Hin) as (Hi & Hc & Hk). split; [done|]. unfold selectedRecord. rewrite Hk.
    destruct (find_key_is_some _ _ Hi) as [r' E]. rewrite E. exists r'. by destruct (find_key_spec _ _ _ E).
  - intros k r Hn Hk Hne. unfold selectedRecord. rewrite Hk. by apply (H3 k r).
  - intros r Hc. unfold click. rewrite Hc. unfold onSelectionChanged. cbn [inner internalKey items].
    destruct (internalKey s) as [k|] eqn:Ek; [|done]. destruct (truthy k); [|done].
    destruct (find_key getKey k (items s)) eqn:Ef; [|done].
    unfold selectToKey. cbn [items]. rewrite Ef. by destruct (canSelectItem t).
Qed.

End RecordFacts.

Lemma record_selection_witness :
  let s := Records.click id (fun k => bool_decide (k <> "other")) "other"
             (Records.click id (fun k => bool_decide (k <> "other")) "b"
               (Records.setRows id (fun k => bool_decide (k <> "other")) ["a"; "b"; "other"] (Records.mount (Some "a")))) in
  Records.selectedRecord id s = Some "b" /\ Records.selectedRecordKey s = Records.internalKey s.
Proof.
  split; [reflexivity|].
  refine (proj1 (record_selection id (fun k => bool_decide (k <> "other")) (Some "a") _ _)).
  eapply rtc_l; [apply (Records.step_rows _ _ _ ["a"; "b"; "other"])|].
  eapply rtc_l; [apply (Records.step_click _ _ _ "b"); cbn; right; left|].
  eapply rtc_l; [apply (Records.step_click _ _ _ "other"); cbn; right; right; left|]. apply rtc_refl.
Defined.

(** ** The request and its answer *)

Section PageFacts.
Import Request.
Context (formatSql : option string -> option string) (sort_digest : list SummaryItem -> list SummaryItem).

(** The page with the refreshes that wait for the list of instances: a refresh asks for the instance of the
    render it was clicked in. *)
Record Run := mkRun { page : Page; refreshing : list (option InstanceItem) }.

(** What happens on the page. *)
Inductive Op :=
  | Choose (i : InstanceItem)
  | Pick (instanceFromURL : string) (instances : list InstanceItem)
  | Group (g : AggLevel)
  | SetLimit (l : Z)
  | Send (ts : TimeRangeValue) (window : num)
  | Refresh
  | Refreshed (k : nat) (ts : TimeRangeValue) (window : num)
  | Answer (k : nat) (r : option SummaryResponse).

(** The effect asks for the instance of its own render; [onRefresh] first waits for the instances. *)
Definition run_op (s : Run) (o : Op) : Run :=
  let p := page s in let at_ p := mkRun p (refreshing s) in
  match o with
  | Choose i => at_ (onChangeInstance i p)
  | Pick url l => at_ (selectInstance url l p)
  | Group g => at_ (setGroupBy g p)
  | SetLimit l => at_ (setLimit l p)
  | Send ts w => at_ (updateTopSQLData (selected p) ts (limit p) w p)
  | Refresh => mkRun p (refreshing s ++ [selected p])
  | Refreshed k ts w =>
      match refreshing s !! k with
      | Some i => mkRun (updateTopSQLData i ts (limit p) w p) (base.delete k (refreshing s))
      | None => s
      end
  | Answer k r => at_ (respond formatSql sort_digest k r p)
  end.

Definition opened (stored : option InstanceItem) : Run := mkRun (mkPage stored Query 5 (Statements []) false [] (Statements [], Query)) [].

(** The runs of the page in which every operation keeps a discipline. *)
Inductive reach (ok : Run -> Op -> bool) (stored : option InstanceItem) : Run -> Prop :=
  | reach_open : reach ok stored (opened stored)
  | reach_op s o : reach ok stored s -> ok s o = true -> reach ok stored (run_op s o).

Fixpoint allowed (ok : Run -> Op -> bool) (s : Run) (ops : list Op) : bool :=
  match ops with [] => true | o :: ops => ok s o && allowed ok (run_op s o) ops end.

Lemma reach_run ok stored s ops : reach ok stored s -> allowed ok s ops = true -> reach ok stored (fold_left run_op ops s).
Proof.
  revert s. induction ops as [|o ops IH]; intros s Hs; [done|]. cbn [allowed fold_left]. intros [Ho Ha]%andb_true_iff. apply IH; [|done]. by constructor.
Qed.

(** The rows the answer has for the grouping that was asked for. *)
Definition as_asked (f : Flight) (r : SummaryResponse) : Rows :=
  match p_group (params f) with Query => Data.statements formatSql sort_digest r | _ => Data.groups r end.

Definition flight_ok (f : Flight) : Prop := forall r old, answer formatSql sort_digest f r old = as_asked f r.

Definition tidb (i : option InstanceItem) : bool := from_option is_tidb false i.

Record page_ok (s : Run) : Prop := {
  ok_none : selected (page s) = None -> groupBy (page s) = Query;
  ok_tidb : tidb (selected (page s)) = true -> groupBy (page s) = Query;
  ok_refreshing : existsb tidb (refreshing s) = true -> groupBy (page s) = Query;
  ok_flights : Forall flight_ok (flights (page s))
}.

Definition none_ {A} (l : list A) : bool := match l with [] => true | _ => false end.
Lemma none_nil {A} (l : list A) : none_ l = true -> l = [].
Proof. by destruct l. Qed.

(** The grouping does not change while a refresh waits that was clicked for a TiDB instance, and the address
    selects no other instance but while the page groups by statement. *)
Definition steady (s : Run) (o : Op) : bool :=
  match o with
  | Group _ => negb (existsb tidb (refreshing s))
  | Pick url l => bool_decide (groupBy (page s) = Query) || bool_decide (selected (selectInstance url l (page s)) = selected (page s))
  | _ => true
  end.

(** And no grouping changes while an answer is out. *)
Definition calm (s : Run) (o : Op) : bool :=
  steady s o &&
  match o with
  | Group _ | Choose _ => none_ (flights (page s)) || bool_decide (groupBy (page (run_op s o)) = groupBy (page s))
  | _ => true
  end.

(** What a request adds to those that are out. *)
Lemma sent_flights i ts lim w p : flights (updateTopSQLData i ts lim w p) = flights p \/
  exists f, flights (updateTopSQLData i ts lim w p) = flights p ++ [f] /\ p_group (params f) = (if tidb i then Query else groupBy p) /\
    groupBy_ f = groupBy p /\ of_tidb f = tidb (selected p).
Proof.
  destruct i as [i|]; [right|by left]. eexists. split; [reflexivity|]. cbn. by destruct (selected p).
Qed.

Lemma sent_ok i ts lim w p : (tidb i = true -> groupBy p = Query) -> (tidb (selected p) = true -> groupBy p = Query) -> Forall flight_ok (flights p) ->
  Forall flight_ok (flights (updateTopSQLData i ts lim w p)).
Proof.
  intros Hi Hs Hf. destruct (sent_flights i ts lim w p) as [->|(f & -> & Hg & Hb & Ht)]; [done|]. apply Forall_app_2; [done|]. apply Forall_singleton.
  intros r old. unfold answer, as_asked. rewrite Hg, Hb, Ht. destruct (tidb i); [by rewrite Hi|]. destruct (tidb (selected p)); [by rewrite Hs|].
  by destruct (groupBy p).
Qed.

Lemma update_frame i ts lim w p : selected (updateTopSQLData i ts lim w p) = selected p /\ groupBy (updateTopSQLData i ts lim w p) = groupBy p.
Proof. by destruct i. Qed.

Lemma respond_frame k r p : selected (respond formatSql sort_digest k r p) = selected p /\ groupBy (respond formatSql sort_digest k r p) = groupBy p /\
  (flights (respond formatSql sort_digest k r p) = flights p \/ flights (respond formatSql sort_digest k r p) = base.delete k (flights p)).
Proof. unfold respond. destruct (flights p !! k); [|by repeat split; left]. by destruct r; repeat split; right. Qed.

Lemma select_frame url l p : groupBy (selectInstance url l p) = groupBy p /\ flights (selectInstance url l p) = flights p.
Proof. unfold selectInstance. destruct (truthy url); [destruct (find _ _)|]; try destruct (selected p); done. Qed.

Lemma group_frame g p : flights (setGroupBy g p) = flights p.
Proof. unfold setGroupBy. destruct (selected p); [case_bool_decide|]; done. Qed.

Lemma existsb_delete k (l : list (option InstanceItem)) : existsb tidb (base.delete k l) = true -> existsb tidb l = true.
Proof.
  rewrite !existsb_exists. intros (x & Hx & Ht). exists x. split; [|done]. apply list_elem_of_In. apply list_elem_of_In in Hx.
  eapply elem_of_submseteq; [exact Hx|]. apply sublist_submseteq, sublist_delete.
Qed.

Lemma run_op_ok s o : page_ok s -> steady s o = true -> page_ok (run_op s o).
Proof.
  intros [H1 H2 H3 H4] Hb. destruct o as [i|url l|g|l|ts w| |k ts w|k r]; cbn [run_op].
  - constructor; cbn [page refreshing onChangeInstance selected groupBy flights]; [done| | |done].
    + unfold tidb, is_tidb. cbn. intros Ht%bool_decide_eq_true. by rewrite Ht.
    + intros Hr. rewrite (H3 Hr). by destruct (bool_decide _).
  - destruct (select_frame url l (page s)) as [Hg Hf]. cbn [steady] in Hb.
    apply orb_true_iff in Hb as [Hb%bool_decide_eq_true|Hb%bool_decide_eq_true]; constructor; cbn [page refreshing]; rewrite ?Hg, ?Hf, ?Hb; done.
  - unfold setGroupBy. cbn [steady] in Hb. apply negb_true_iff in Hb. destruct (selected (page s)) as [i|] eqn:Es; [|constructor; cbn; rewrite ?Es in *; done].
    case_bool_decide as Hi; [|constructor; cbn; rewrite ?Es in *; done]. constructor; cbn [page refreshing selected groupBy flights]; rewrite ?Es; [done| | |done].
    + cbn. unfold is_tidb. by rewrite Hi.
    + by rewrite Hb.
  - by constructor.
  - destruct (update_frame (selected (page s)) ts (limit (page s)) w (page s)) as [Hs Hg]. constructor; cbn [page refreshing]; rewrite ?Hs, ?Hg; [done..|by apply sent_ok].
  - constructor; cbn [page refreshing]; [done|done| |done]. rewrite existsb_app. intros [Hr|Hr]%orb_true_iff; [by apply H3|]. apply H2. cbn in Hr. by rewrite orb_false_r in Hr.
  - destruct (refreshing s !! k) as [i|] eqn:Ek; [|done]. destruct (update_frame i ts (limit (page s)) w (page s)) as [Hs Hg].
    constructor; cbn [page refreshing]; rewrite ?Hs, ?Hg; [done|done|by intros Hd%existsb_delete; apply H3|]. apply sent_ok; [|done|done].
    intros Ht. apply H3. apply existsb_exists. exists i. split; [|done]. apply list_elem_of_In. by apply (list_elem_of_lookup_2 _ k).
  - destruct (respond_frame k r (page s)) as (Hs & Hg & Hf). constructor; cbn [page refreshing]; rewrite ?Hs, ?Hg; [done..|].
    destruct Hf as [->| ->]; [done|by apply Forall_delete].
Qed.

Lemma reach_ok stored s : reach steady stored s -> page_ok s.
Proof. induction 1 as [|s o _ IH Ho]; [by constructor; cbn; [..|constructor]|]. by apply run_op_ok. Qed.

Lemma calm_steady stored s : reach calm stored s -> reach steady stored s.
Proof. induction 1 as [|s o _ IH Ho]; [constructor|]. apply andb_true_iff in Ho as [Ho _]. by constructor. Qed.

(** No grouping changes while an answer is out, so that the answers are those for the grouping of the page. *)
Lemma calm_groups stored s : reach calm stored s -> Forall (fun f => p_group (params f) = groupBy (page s)) (flights (page s)).
Proof.
  induction 1 as [|s o Hr IH Ho]; [constructor|]. pose proof (reach_ok _ _ (calm_steady _ _ Hr)) as [H1 H2 H3 H4]. apply andb_true_iff in Ho as [_ Ho].
  assert (Hsend : forall i ts lim w, (tidb i = true -> groupBy (page s) = Query) ->
    Forall (fun f => p_group (params f) = groupBy (page s)) (flights (updateTopSQLData i ts lim w (page s)))).
  { intros i ts lim w Hi. destruct (sent_flights i ts lim w (page s)) as [->|(f & -> & Hg & _)]; [done|]. apply Forall_app_2; [done|]. apply Forall_singleton. rewrite Hg.
    destruct (tidb i); [by rewrite Hi|done]. }
  destruct o as [i|url l|g|l|ts w| |k ts w|k r]; cbn [run_op page refreshing] in *.
  - apply orb_true_iff in Ho as [Ho%none_nil|Ho%bool_decide_eq_true]; [cbn; rewrite Ho; constructor|]. rewrite Ho. exact IH.
  - destruct (select_frame url l (page s)) as [-> ->]. exact IH.
  - assert (Hf : flights (setGroupBy g (page s)) = flights (page s)) by apply group_frame.
    rewrite Hf. apply orb_true_iff in Ho as [Ho%none_nil|Ho%bool_decide_eq_true]; [rewrite Ho; constructor|]. rewrite Ho. exact IH.
  - exact IH.
  - destruct (update_frame (selected (page s)) ts (limit (page s)) w (page s)) as [_ ->]. by apply Hsend.
  - exact IH.
  - destruct (refreshing s !! k) as [i|] eqn:Ek; [|exact IH]. cbn [page]. destruct (update_frame i ts (limit (page s)) w (page s)) as [_ ->]. apply Hsend.
    intros Ht. apply H3. apply existsb_exists. exists i. split; [|done]. apply list_elem_of_In. by apply (list_elem_of_lookup_2 _ k).
  - destruct (respond_frame k r (page s)) as (_ & -> & Hf). destruct Hf as [->| ->]; [exact IH|by apply Forall_delete].
Qed.

Definition asked_for_statements (f : Flight) : Prop := p_group (params f) = Query /\ forall r old, data_by r = None -> answer formatSql sort_digest f r old = Groups [].


Lemma cpu_given_clean l :
  (forall l, Permutation (sort_digest l) l) ->
  existsb (fun s => bool_decide (is_Some (item_cpu s))) (map (Data.clean_item formatSql) (sort_digest l)) = true <->
  Exists (fun s => is_Some (item_cpu s)) l.
Proof.
  intros Hp. rewrite existsb_exists, Exists_exists. split.
  - intros (s & Hs & Hc). apply list_elem_of_In, list_elem_of_fmap in Hs as [s0 [-> Hs]]. rewrite Hp in Hs.
    exists s0. split; [done|]. by apply bool_decide_eq_true in Hc.
  - intros (s & Hs & Hc). exists (Data.clean_item formatSql s). split; [|by apply bool_decide_eq_true].
    apply list_elem_of_In, list_elem_of_fmap_2. by rewrite Hp.
Qed.

(** The chart of the page breaks exactly when an answer that was asked for by
    statement, with the CPU time of some statement, arrives while the page groups by
    table or schema. *)
Theorem late_answer_breaks_chart orderBy p k f r :
  (forall l, Permutation (sort_digest l) l) ->
  flights p !! k = Some f -> flight_ok f ->
  let p' := respond formatSql sort_digest k (Some r) p in
  Chart.chartData orderBy (snd (bundle p')) (fst (bundle p')) = None <->
  p_group (params f) = Query /\ groupBy p <> Query /\ Exists (fun s => is_Some (item_cpu s)) (default [] (data r)).
Proof.
  intros Hp Hf Hok p'. unfold p', respond. rewrite Hf. cbn [bundle fst snd]. rewrite Hok. unfold as_asked.
  assert (Hq : Chart.isQueryAggLevel (groupBy p) = true <-> groupBy p = Query) by (destruct (groupBy p); done).
  unfold Chart.chartData. destruct (p_group (params f)).
  - unfold Data.statements. destruct (Chart.isQueryAggLevel (groupBy p)).
    + split; [done|]. intros (_ & Hn & _). by destruct Hn; apply Hq.
    + rewrite <- (cpu_given_clean (default [] (data r)) Hp). split.
      * intros H. repeat split; [intros E; by apply Hq in E|]. by destruct (existsb _ _).
      * intros (_ & _ & ->). done.
  - split; [by case_match|]. by intros [H _].
  - split; [by case_match|]. by intros [H _].
Qed.

End PageFacts.

Definition example_late : list Op := [Choose (Request.mkInstance "kv:20180" "tikv"); Send (NaN, NaN) NaN; Group Table_].
Definition example_flight : Request.Flight :=
  Request.mkFlight (Request.mkParams NaN Query "kv:20180" "tikv" NaN 5 NaN) Query false.
Definition example_answer : SummaryResponse := mkResponse (Some [mkItem (Some "d") None false (Some 7) Table.no_rates None]) None.


Lemma late_answer_breaks_chart_witness :
  let p := page (fold_left (run_op id id) example_late (opened None)) in
  let p' := Request.respond id id 0 (Some example_answer) p in
  Chart.chartData id (snd (Request.bundle p')) (fst (Request.bundle p')) = None.
Proof.
  refine (proj2 (late_answer_breaks_chart id id id (page (fold_left (run_op id id) example_late (opened None))) 0 example_flight example_answer (fun l => Permutation_refl l) eq_refl _) _).
  - intros r old. reflexivity.
  - split; [reflexivity|]. split; [discriminate|]. constructor. by eexists.
Defined.

(** ** Values of the list of instances *)

Section SelectFacts.
Import Request Instances.

Fixpoint has_blank (s : string) : bool :=
  match s with EmptyString => false | String a s' => bool_decide (a = " "%char) || has_blank s' end.

Lemma not_splitter a s : a <> " "%char -> js_startsWith (String a s) splitter = false.
Proof. intros Ha. unfold js_startsWith, splitter, String.prefix.
  destruct (Ascii.ascii_dec " "%char a) as [E|E]; [congruence|reflexivity]. Qed.

Lemma cut_blank s rest : has_blank s = false -> cut splitter (s +:+ splitter +:+ rest) = Some (s, rest).
Proof.
  induction s as [|a s IH]; [intros _|].
  { change (cut splitter ("" +:+ splitter +:+ rest)) with
      (if js_startsWith (splitter +:+ rest) splitter then Some ("", str_drop (String.length splitter) (splitter +:+ rest))
       else (fun p => (String " "%char (fst p), snd p)) <$> cut splitter ("- " +:+ rest)).
    rewrite str_drop_app. by destruct rest. } cbn [has_blank]. intros [Ha Hs]%orb_false_iff.
  apply bool_decide_eq_false in Ha.
  change (cut splitter (String a s +:+ splitter +:+ rest)) with
    (if js_startsWith (String a (s +:+ splitter +:+ rest)) splitter
     then Some ("", str_drop 3 (String a (s +:+ splitter +:+ rest)))
     else (fun p => (String a (fst p), snd p)) <$> cut splitter (s +:+ splitter +:+ rest)).
  rewrite not_splitter, IH by done. done.
Qed.

Lemma cut_none s : has_blank s = false -> cut splitter s = None.
Proof.
  induction s as [|a s IH]; [done|]. cbn [has_blank]. intros [Ha Hs]%orb_false_iff.
  apply bool_decide_eq_false in Ha. cbn [cut]. rewrite not_splitter, IH by done. done.
Qed.

Lemma split_combine i :
  has_blank (instance_type i) = false -> has_blank (instance i) = false ->
  splitSelectValue (combineSelectValue (Some i)) = (Some (instance_type i), Some (instance i)).
Proof.
  intros Ht Hi. unfold splitSelectValue, combineSelectValue.
  assert (H : exists n, String.length (instance_type i +:+ splitter +:+ instance i) = S n).
  { destruct (instance_type i) as [|a s]; [by eexists|]. cbn. by eexists. }
  destruct H as [n ->]. cbn [split_on]. rewrite cut_blank, cut_none by done. done.
Qed.
End SelectFacts.

(** ** The range of the brush *)

Section BrushFacts.
Import Brush.

Lemma floor_bounds q : (inject_Z (Qfloor q) <= q)%Q /\ (q < inject_Z (Qfloor q) + 1)%Q.
Proof.
  split; [apply Qfloor_le|]. pose proof (Qlt_floor q) as H. rewrite inject_Z_plus in H. exact H.
Qed.

Lemma ceiling_bounds q : (q <= inject_Z (Qceiling q))%Q /\ (inject_Z (Qceiling q) < q + 1)%Q.
Proof.
  split; [apply Qle_ceiling|]. pose proof (Qceiling_lt q) as H. unfold Z.sub in H.
  rewrite inject_Z_plus in H. change (inject_Z (- (1))) with (-1)%Q in H. Lqa.lra.
Qed.

Lemma inject_Z_sub a b : (inject_Z (a - b) == inject_Z a - inject_Z b)%Q.
Proof. unfold Z.sub, Qminus. by rewrite inject_Z_plus, inject_Z_opp. Qed.

Lemma whole_range a b (c : Z) :
  ((inject_Z c - 1 < inject_Z b - inject_Z a)%Q -> c <= b - a) /\ ((inject_Z b - inject_Z a < inject_Z c + 1)%Q -> b - a <= c).
Proof.
  rewrite <- inject_Z_sub. change 1%Q with (inject_Z 1). rewrite <- inject_Z_plus, <- inject_Z_sub, <- !Zlt_Qlt. lia.
Qed.

Lemma range_inj (a b c d : Z) : Some (a, b) = Some (c, d) -> c = a /\ d = b.
Proof. intros [= -> ->]. done. Qed.

(** A range chosen in the chart is at least 59 seconds long: a brush of a minute or
    more is kept up to whole seconds inside it, and a shorter one gives the minute around
    its middle. *)
Theorem brush_minute x0 x1 a b :
  (x0 <= x1)%Q -> handleBrushEnd (Some (x0, x1)) = Some (a, b) ->
  59 <= b - a /\
  ((60 <= x1 / 1000 - x0 / 1000)%Q -> (x0 / 1000 <= inject_Z a)%Q /\ (inject_Z b <= x1 / 1000)%Q) /\
  ((x1 / 1000 - x0 / 1000 < 60)%Q -> b - a <= 61 /\ (inject_Z a <= x0 / 1000)%Q /\ (x1 / 1000 <= inject_Z b)%Q).
Proof.
  intros Hx. cbn [handleBrushEnd]. set (t0 := (x0 / 1000)%Q). set (t1 := (x1 / 1000)%Q).
  assert (Ht : (t0 <= t1)%Q) by (unfold t0, t1, Qdiv; apply Qmult_le_compat_r; [done|by compute]).
  clearbody t0 t1. destruct (Qltb (t1 - t0) 60) eqn:E.
  - apply Qltb_true in E. intros H. apply range_inj in H as [Ha Hb]. subst a b.
    pose proof (floor_bounds ((t1 - t0) / 2)) as [F1 F2].
    change ((t1 - t0) / 2)%Q with ((t1 - t0) * (1 # 2))%Q in *.
    assert (F3 : (inject_Z (Qfloor ((t1 - t0) * (1 # 2))) <= 29)%Q).
    { change 29%Q with (inject_Z 29). rewrite <- Zle_Qle. apply Z.lt_succ_r. rewrite Zlt_Qlt.
      change (inject_Z (Z.succ 29)) with 30%Q. Lqa.lra. }
    revert F1 F2 F3. generalize (inject_Z (Qfloor ((t1 - t0) * (1 # 2)))) as off. intros off F1 F2 F3.
    pose proof (ceiling_bounds (t0 + off - 30)) as [A1 A2]. pose proof (floor_bounds (t1 - off + 30)) as [B1 B2].
    revert A1 A2 B1 B2. generalize (Qceiling (t0 + off - 30)) as a', (Qfloor (t1 - off + 30)) as b'. intros a' b' A1 A2 B1 B2.
    split; [apply (whole_range _ _ 59); change (inject_Z 59) with 59%Q; Lqa.lra|].
    split; [intros; exfalso; Lqa.lra|]. intros _.
    split; [apply (whole_range _ _ 61); change (inject_Z 61) with 61%Q; Lqa.lra|].
    split; Lqa.lra.
  - apply Qltb_false in E. intros H. apply range_inj in H as [Ha Hb]. subst a b.
    pose proof (ceiling_bounds t0) as [A1 A2]. pose proof (floor_bounds t1) as [B1 B2].
    split; [apply (whole_range _ _ 59); change (inject_Z 59) with 59%Q; Lqa.lra|]. split; [done|]. intros. exfalso. Lqa.lra.
Qed.

Lemma brush_minute_witness : handleBrushEnd (Some (100500 # 1, 110200 # 1)) = Some (75, 136) /\ 59 <= 136 - 75.
Proof.
  split; [vm_compute; reflexivity|].
  refine (proj1 (brush_minute (100500 # 1) (110200 # 1) 75 136 _ _)); [by compute|vm_compute; reflexivity].
Defined.

End BrushFacts.
