(* ===== verification/PromQL.v ===== *)
(** * The query language of the metrics

    The part of PromQL that the tables of metric queries use (MetricTables): its
    syntax, a parser and the documented typing rules, with the labels that the series
    of a result carry.  It is the yardstick the tables are measured with; nothing here
    translates code. *)

From Stdlib Require Import Ascii.
From S2P Require Import Prelude JsString.
From stdpp Require Import options.
Local Open Scope string_scope.

(** ** Syntax *)

Inductive expr :=
  | Num (value : string)
  | Selector (metric : string) (matchers : list (string * string * string)) (range : option string)
  | Call (f : string) (args : list expr)
  | Aggregate (op : string) (e : expr) (by_ : list string)
  | Binary (op : string) (a b : expr).

Inductive token := TName (s : string) | TNum (s : string) | TStr (s : string) | TRange (s : string) | TOp (s : string).

Definition dquote : ascii := ascii_of_nat 34.
Definition code (a : ascii) : nat := nat_of_ascii a.
Definition is_digit (a : ascii) : bool := (48 <=? code a)%nat && (code a <=? 57)%nat.
Definition is_name (a : ascii) : bool :=
  ((97 <=? code a)%nat && (code a <=? 122)%nat) || ((65 <=? code a)%nat && (code a <=? 90)%nat) ||
  is_digit a || bool_decide (a = "_"%char).

(** The longest prefix of characters that satisfy [f], and the rest. *)
Fixpoint span (f : ascii -> bool) (s : string) : string * string :=
  match s with
  | String a s' => if f a then let '(p, r) := span f s' in (String a p, r) else ("", s)
  | EmptyString => ("", "")
  end.

(** Up to a closing character, which is dropped. *)
Definition until (c : ascii) (s : string) : option (string * string) :=
  match span (fun a => negb (bool_decide (a = c))) s with
  | (p, String _ r) => Some (p, r)
  | _ => None
  end.

Fixpoint lex (fuel : nat) (s : string) : option (list token) :=
  match fuel, s with
  | O, _ => None
  | _, EmptyString => Some []
  | S fuel', String a s' =>
      if bool_decide (a = " "%char) then lex fuel' s'
      else if bool_decide (a = "["%char) then
        '(r, s'') ← until "]" s'; ts ← lex fuel' s''; Some (TRange r :: ts)
      else if bool_decide (a = dquote) || bool_decide (a = "'"%char) then
        '(r, s'') ← until a s'; ts ← lex fuel' s''; Some (TStr r :: ts)
      else if is_digit a then
        let '(r, s'') := span (fun a => is_digit a || bool_decide (a = "."%char)) s in
        ts ← lex fuel' s''; Some (TNum r :: ts)
      else if is_name a then
        let '(r, s'') := span is_name s in
        ts ← lex fuel' s''; Some (TName r :: ts)
      else if bool_decide (a ∈ ["="%char; "!"%char]) then
        let '(r, s'') := span (fun a => bool_decide (a ∈ ["="%char; "!"%char; "~"%char])) s in
        ts ← lex fuel' s''; Some (TOp r :: ts)
      else if bool_decide (a ∈ ["("; ")"; "{"; "}"; ","; "+"; "-"; "*"; "/"]%char) then
        ts ← lex fuel' s'; Some (TOp (String a "") :: ts)
      else None
  end.

Definition tokens (s : string) : option (list token) := lex (S (String.length s)) s.

(** The operators of a level, the loosest first. *)
Definition operators (level : nat) : list string :=
  match level with O => ["or"] | 1%nat => ["+"; "-"] | _ => ["*"; "/"] end.

Definition operator (level : nat) (t : token) : option string :=
  match t with
  | TOp s | TName s => if bool_decide (s ∈ operators level) then Some s else None
  | _ => None
  end.

Definition aggregations : list string := ["sum"; "avg"; "max"; "min"; "count"].

(** [a, b)] *)
Fixpoint names (ts : list token) : option (list string * list token) :=
  match ts with
  | TName a :: TOp "," :: ts' => '(l, r) ← names ts'; Some (a :: l, r)
  | TName a :: TOp ")" :: ts' => Some ([a], ts')
  | _ => None
  end.

(** [a="x", b=~"y"}] *)
Fixpoint matchers_of (ts : list token) : option (list (string * string * string) * list token) :=
  match ts with
  | TName a :: TOp op :: TStr v :: TOp "," :: ts' =>
      if bool_decide (op ∈ ["="; "!="; "=~"; "!~"]) then '(l, r) ← matchers_of ts'; Some ((a, op, v) :: l, r) else None
  | TName a :: TOp op :: TStr v :: TOp "}" :: ts' =>
      if bool_decide (op ∈ ["="; "!="; "=~"; "!~"]) then Some ([(a, op, v)], ts') else None
  | _ => None
  end.

Definition selector (metric : string) (ts : list token) : option (expr * list token) :=
  '(m, ts) ← (match ts with TOp "{" :: ts' => matchers_of ts' | _ => Some ([], ts) end);
  match ts with
  | TRange r :: ts' => Some (Selector metric m (Some r), ts')
  | _ => Some (Selector metric m None, ts)
  end.

Definition by_labels (ts : list token) : option (list string * list token) :=
  match ts with TName "by" :: TOp "(" :: ts' => names ts' | _ => Some ([], ts) end.

(** Levels 0 to 2 are those of the operators, level 3 is an operand. *)
Fixpoint parse (fuel level : nat) (ts : list token) : option (expr * list token) :=
  match fuel with
  | O => None
  | S fuel' =>
      if (level <? 3)%nat then
        '(e, r) ← parse fuel' (S level) ts; parse_rest fuel' level e r
      else
        match ts with
        | TOp "(" :: ts' =>
            '(e, r) ← parse fuel' 0 ts';
            match r with TOp ")" :: r' => Some (e, r') | _ => None end
        | TNum v :: ts' => Some (Num v, ts')
        | TName f :: TOp "(" :: ts' =>
            '(args, r) ← (match ts' with TOp ")" :: r => Some ([], r) | _ => parse_args fuel' ts' end);
            if bool_decide (f ∈ aggregations) then
              match args with
              | [e] => '(l, r') ← by_labels r; Some (Aggregate f e l, r')
              | _ => None
              end
            else Some (Call f args, r)
        | TName m :: ts' => selector m ts'
        | _ => None
        end
  end
with parse_rest (fuel level : nat) (e : expr) (ts : list token) : option (expr * list token) :=
  match fuel with
  | O => None
  | S fuel' =>
      match ts with
      | t :: ts' =>
          match operator level t with
          | Some op => '(e', r) ← parse fuel' (S level) ts'; parse_rest fuel' level (Binary op e e') r
          | None => Some (e, ts)
          end
      | [] => Some (e, [])
      end
  end
with parse_args (fuel : nat) (ts : list token) : option (list expr * list token) :=
  match fuel with
  | O => None
  | S fuel' =>
      '(e, r) ← parse fuel' 0 ts;
      match r with
      | TOp "," :: r' => '(l, r'') ← parse_args fuel' r'; Some (e :: l, r'')
      | TOp ")" :: r' => Some ([e], r')
      | _ => None
      end
  end.

(** A whole query. *)
Definition parse_query (s : string) : option expr :=
  ts ← tokens s;
  '(e, r) ← parse (10 * S (length ts)) 0 ts;
  match r with [] => Some e | _ => None end.

(** ** Types *)

(** The series of a vector carry the given labels; [None] are those of the stored
    series, which are not known here. *)
Inductive ty := Scalar | Vector (labels : option (list string)) | Range.

(** A window: the variable of the tables or a number of seconds, minutes or hours. *)
Definition valid_range (r : string) : bool :=
  bool_decide (r = "$__rate_interval") ||
  (let '(d, u) := span is_digit r in negb (bool_decide (d = "")) && bool_decide (u ∈ ["s"; "m"; "h"])).

Definition same_labels (a b : list string) : bool :=
  forallb (fun x => bool_decide (x ∈ b)) a && forallb (fun x => bool_decide (x ∈ a)) b.

(** Operands are matched on all their labels. *)
Definition join (a b : ty) : option ty :=
  match a, b with
  | Scalar, Scalar => Some Scalar
  | Scalar, Vector l | Vector l, Scalar => Some (Vector l)
  | Vector (Some l), Vector (Some l') => if same_labels l l' then Some (Vector (Some l)) else None
  | Vector None, Vector None => Some (Vector None)
  | _, _ => None
  end.

Definition rates : list string := ["rate"; "irate"; "increase"].

Fixpoint infer (e : expr) : option ty :=
  match e with
  | Num _ => Some Scalar
  | Selector _ _ None => Some (Vector None)
  | Selector _ _ (Some r) => if valid_range r then Some Range else None
  | Call f args =>
      if bool_decide (f = "time") then match args with [] => Some Scalar | _ => None end
      else if bool_decide (f ∈ rates) then
        match args with
        | [a] => t ← infer a; match t with Range => Some (Vector None) | _ => None end
        | _ => None
        end
      else if bool_decide (f = "histogram_quantile") then
        match args with
        | [q; a] =>
            tq ← infer q; t ← infer a;
            match tq, t with
            | Scalar, Vector None => Some (Vector None)
            | Scalar, Vector (Some l) =>
                if bool_decide ("le" ∈ l) then Some (Vector (Some (filter (fun x => x <> "le") l))) else None
            | _, _ => None
            end
        | _ => None
        end
      else None
  | Aggregate _ a l =>
      t ← infer a;
      match t with
      | Vector None => Some (Vector (Some l))
      | Vector (Some l') => if forallb (fun x => bool_decide (x ∈ l')) l then Some (Vector (Some l)) else None
      | _ => None
      end
  | Binary op a b =>
      ta ← infer a; tb ← infer b;
      if bool_decide (op = "or")
      then match ta, tb with Vector _, Vector _ => join ta tb | _, _ => None end
      else join ta tb
  end.

(** ** Names of series *)

(** The labels a name mentions, in braces. *)
Fixpoint mentioned (fuel : nat) (s : string) : list string :=
  match fuel, s with
  | S fuel', String a s' =>
      if bool_decide (a = "{"%char) then
        match until "}" s' with Some (l, r) => l :: mentioned fuel' r | None => [] end
      else mentioned fuel' s'
  | _, _ => []
  end.

Definition mentions (s : string) : list string := mentioned (String.length s) s.

(** The query has a vector as its result, and the name only mentions labels its series
    carry. *)
Definition well_named (query name : string) : bool :=
  match parse_query query ≫= infer with
  | Some (Vector None) => true
  | Some (Vector (Some l)) => forallb (fun x => bool_decide (x ∈ l)) (mentions name)
  | _ => false
  end.

(** Series with different labels get different names. *)
Definition telling (query name : string) : bool :=
  match parse_query query ≫= infer with
  | Some (Vector (Some l)) => forallb (fun x => bool_decide (x ∈ mentions name)) l
  | _ => true
  end.

Example sum_by : parse_query "sum(rate(requests_total[30s])) by (type) / 2" =
  Some (Binary "/" (Aggregate "sum" (Call "rate" [Selector "requests_total" [] (Some "30s")]) ["type"]) (Num "2")).
Proof. reflexivity. Qed.

Example sums_apart : well_named "sum(a) by (x) / sum(b)" "ratio" = false.
Proof. reflexivity. Qed.
