(* ===== verification/MetricTypes.v ===== *)
(** * Metric queries and their charts

    The data of the tables of metric queries (MetricTablesOp, MetricTablesClinic): the
    charts of the pages of Monitoring, Overview and Resource Manager, and the colours of
    their series. *)

From Stdlib Require Import Ascii.
From S2P Require Import Prelude JsString Metrics.
From stdpp Require Import options.
Local Open Scope string_scope.

Inductive ColorType :=
  | BLUE_1 | BLUE_2 | BLUE_3 | BLUE_4 | GREEN_1 | GREEN_2 | GREEN_3 | GREEN_4
  | RED_1 | RED_2 | RED_3 | RED_4 | RED_5 | PURPLE | ORANGE | YELLOW | PINK.

Definition color_hex (c : ColorType) : string :=
  match c with
  | BLUE_1 => "#C0D8FF" | BLUE_2 => "#8AB8FF" | BLUE_3 => "#3274D9" | BLUE_4 => "#1F60C4"
  | GREEN_1 => "#C8F2C2" | GREEN_2 => "#96D98D" | GREEN_3 => "#56A64B" | GREEN_4 => "#37872D"
  | RED_1 => "#FFA6B0" | RED_2 => "#FF7383" | RED_3 => "#E02F44" | RED_4 => "#C4162A" | RED_5 => "#701313"
  | PURPLE => "#8778ee" | ORANGE => "#FF9830" | YELLOW => "#FADE2A" | PINK => "#F2495C"
  end.

(** The colour of a query: none, one, or one by the name of the series. *)
Inductive Color := NoColor | Fixed (c : ColorType) | ByName (f : string -> option ColorType).

(** A [switch] on the name. *)
Definition color_table (l : list (string * ColorType)) (legendLabel : string) : option ColorType :=
  snd <$> find (fun e => bool_decide (fst e = legendLabel)) l.

Inductive ChartType := line | bar_stacked | area_stack.

Record Query := mkQuery { promql : string; name : string; color : Color; type : ChartType }.
Record Metric := mkMetric {
  title : string; queries : list Query; nullValue : option TransformNullValue; unit_ : string
}.
Record Category := mkCategory { category : string; metrics : list Metric }.

(** Double quotes, written as back quotes. *)
Fixpoint dq (s : string) : string :=
  match s with
  | EmptyString => ""
  | String a s' => String (if bool_decide (a = "`"%char) then ascii_of_nat 34 else a) (dq s')
  end.

(** [pdVersion.replace('v', '')] drops the first. *)
Fixpoint replace_v (s : string) : string :=
  match s with
  | EmptyString => ""
  | String a s' => if bool_decide (a = "v"%char) then s' else String a (replace_v s')
  end.
