(* ===== verification/MetricTablesClinic.v ===== *)
(** * The tables of metric queries of the clinic distribution

    Modules [Monitoring] and [Overview] of tidb-dashboard-for-clinic-cloud.  A definition
    per chart, with its title as its name. *)

From S2P Require Import Prelude JsString Metrics MetricTypes.
From stdpp Require Import options.
Local Open Scope string_scope.

Module Monitoring.

Definition transformColorBySQLType : string -> option ColorType := color_table
  [("Select", BLUE_3); ("Commit", GREEN_2); ("Insert", GREEN_3); ("Update", GREEN_4); ("general", PINK)].

Definition transformColorByExecTimeOverview : string -> option ColorType := color_table
  [("tso_wait", RED_5); ("Commit", GREEN_4); ("Prewrite", GREEN_3); ("PessimisticLock", RED_4); ("Get", BLUE_3); ("BatchGet", BLUE_4); ("Cop", BLUE_1); ("ScanLock", PURPLE); ("Scan", PURPLE); ("execute time", YELLOW)].

(** The sizes of the stores have another name before version 5.4.1. *)
Definition loadTiKVStoragePromql (compare : string -> string -> string -> bool) (pdVersion : option string) : string :=
  let PDVersion := replace_v <$> pdVersion in
  if truthy PDVersion && bool_decide (PDVersion <> Some "N/A") && compare (default "" PDVersion) "5.4.1" "<"
  then "sum(tikv_engine_size_bytes) by (instance)"
  else dq "sum(tikv_store_size_bytes{type=`used`}) by (instance)".

Section Charts.
Context (compare : string -> string -> string -> bool) (pdVersion : option string).

Definition database_time_by_sql_types : Metric := mkMetric "Database Time by SQL Types"
  [mkQuery (dq "sum(rate(tidb_server_handle_query_duration_seconds_sum{sql_type!=`internal`}[$__rate_interval]))") "database time" (Fixed YELLOW) line;
   mkQuery (dq "sum(rate(tidb_server_handle_query_duration_seconds_sum{sql_type!=`internal`}[$__rate_interval])) by (sql_type)") "{sql_type}" (ByName transformColorBySQLType) bar_stacked]
  (Some AS_ZERO) "s".

Definition database_time_by_sql_phase : Metric := mkMetric "Database Time by SQL Phase"
  [mkQuery (dq "sum(rate(tidb_server_handle_query_duration_seconds_sum{sql_type!=`internal`}[$__rate_interval]))") "database time" (Fixed YELLOW) line;
   mkQuery (dq "sum(rate(tidb_session_parse_duration_seconds_sum{sql_type=`general`}[$__rate_interval]))") "parse" (Fixed RED_2) bar_stacked;
   mkQuery (dq "sum(rate(tidb_session_compile_duration_seconds_sum{sql_type=`general`}[$__rate_interval]))") "compile" (Fixed ORANGE) bar_stacked;
   mkQuery (dq "sum(rate(tidb_session_execute_duration_seconds_sum{sql_type=`general`}[$__rate_interval]))") "execute" (Fixed GREEN_3) bar_stacked;
   mkQuery "sum(rate(tidb_server_get_token_duration_seconds_sum[$__rate_interval]))/1000000" "get token" (Fixed RED_3) bar_stacked]
  (Some AS_ZERO) "s".

Definition sql_execute_time_overview : Metric := mkMetric "SQL Execute Time Overview"
  [mkQuery (dq "sum(rate(tidb_tikvclient_request_seconds_sum{store!=`0`}[$__rate_interval])) by (type)") "{type}" (ByName transformColorByExecTimeOverview) bar_stacked;
   mkQuery (dq "sum(rate(pd_client_cmd_handle_cmds_duration_seconds_sum{type=`wait`}[$__rate_interval]))") "tso_wait" (Fixed RED_5) bar_stacked]
  None "s".

Definition category_database_time : Category := mkCategory "database_time"
  [database_time_by_sql_types; database_time_by_sql_phase; sql_execute_time_overview].

Definition connection_count : Metric := mkMetric "Connection Count"
  [mkQuery "sum(tidb_server_connections)" "Total" NoColor line;
   mkQuery "sum(tidb_server_tokens)" "active connections" NoColor line]
  (Some AS_ZERO) "short".

Definition disconnection : Metric := mkMetric "Disconnection"
  [mkQuery "sum(rate(tidb_server_disconnection_total[$__rate_interval])) by (instance, result)" "{instance}-{result}" NoColor area_stack]
  (Some AS_ZERO) "short".

Definition category_application_connection : Category := mkCategory "application_connection"
  [connection_count; disconnection].

Definition query_per_second : Metric := mkMetric "Query Per Second"
  [mkQuery "sum(rate(tidb_executor_statement_total[$__rate_interval]))" "Total" NoColor line;
   mkQuery "sum(rate(tidb_executor_statement_total[$__rate_interval])) by (type)" "{type}" NoColor line]
  (Some AS_ZERO) "short".

Definition failed_queries : Metric := mkMetric "Failed Queries"
  [mkQuery "sum(rate(tidb_server_execute_error_total[$__rate_interval]))" "{type} @ {instance}" NoColor line]
  (Some AS_ZERO) "short".

Definition command_per_second : Metric := mkMetric "Command Per Second"
  [mkQuery "sum(rate(tidb_server_query_total[$__rate_interval])) by (type)" "{type}" NoColor line]
  (Some AS_ZERO) "short".

Definition queries_using_plan_cache_ops : Metric := mkMetric "Queries Using Plan Cache OPS"
  [mkQuery "sum(rate(tidb_server_plan_cache_total[$__rate_interval]))" "avg - hit" NoColor line;
   mkQuery "sum(rate(tidb_server_plan_cache_miss_total[$__rate_interval]))" "avg - miss" NoColor line]
  (Some AS_ZERO) "short".

Definition category_sql_count : Category := mkCategory "sql_count"
  [query_per_second; failed_queries; command_per_second; queries_using_plan_cache_ops].

Definition query_duration : Metric := mkMetric "Query Duration"
  [mkQuery (dq "sum(rate(tidb_server_handle_query_duration_seconds_sum{sql_type!=`internal`}[$__rate_interval])) / sum(rate(tidb_server_handle_query_duration_seconds_count{sql_type!=`internal`}[$__rate_interval]))") "avg" NoColor line;
   mkQuery (dq "histogram_quantile(0.99, sum(rate(tidb_server_handle_query_duration_seconds_bucket{sql_type!=`internal`}[$__rate_interval])) by (le))") "99" NoColor line;
   mkQuery (dq "sum(rate(tidb_server_handle_query_duration_seconds_sum{sql_type!=`internal`}[$__rate_interval])) by (sql_type) / sum(rate(tidb_server_handle_query_duration_seconds_count{sql_type!=`internal`}[$__rate_interval])) by (sql_type)") "avg-{sql_type}" NoColor line;
   mkQuery "histogram_quantile(0.99, sum(rate(tidb_server_handle_query_duration_seconds_bucket[$__rate_interval])) by (le,sql_type))" "99-{sql_type}" NoColor line]
  (Some AS_ZERO) "s".

Definition average_idle_connection_duration : Metric := mkMetric "Average Idle Connection Duration"
  [mkQuery "(sum(rate(tidb_server_conn_idle_duration_seconds_sum{in_txn='1'}[$__rate_interval])) / sum(rate(tidb_server_conn_idle_duration_seconds_count{in_txn='1'}[$__rate_interval])))" "avg-in-txn" NoColor line;
   mkQuery "(sum(rate(tidb_server_conn_idle_duration_seconds_sum{in_txn='0'}[$__rate_interval])) / sum(rate(tidb_server_conn_idle_duration_seconds_count{in_txn='0'}[$__rate_interval])))" "avg-not-in-txn" NoColor line]
  (Some AS_ZERO) "s".

Definition get_token_duration : Metric := mkMetric "Get Token Duration"
  [mkQuery "sum(rate(tidb_server_get_token_duration_seconds_sum[$__rate_interval])) / sum(rate(tidb_server_get_token_duration_seconds_count[$__rate_interval]))" "avg" NoColor line;
   mkQuery "histogram_quantile(0.99, sum(rate(tidb_server_get_token_duration_seconds_bucket[$__rate_interval])) by (le))" "99" NoColor line]
  (Some AS_ZERO) "µs".

Definition parse_duration : Metric := mkMetric "Parse Duration"
  [mkQuery (dq "(sum(rate(tidb_session_parse_duration_seconds_sum{sql_type=`general`}[$__rate_interval])) / sum(rate(tidb_session_parse_duration_seconds_count{sql_type=`general`}[$__rate_interval])))") "avg" NoColor line;
   mkQuery (dq "histogram_quantile(0.99, sum(rate(tidb_session_parse_duration_seconds_bucket{sql_type=`general`}[$__rate_interval])) by (le))") "99" NoColor line]
  (Some AS_ZERO) "s".

Definition compile_duration : Metric := mkMetric "Compile Duration"
  [mkQuery (dq "(sum(rate(tidb_session_compile_duration_seconds_sum{sql_type=`general`}[$__rate_interval])) / sum(rate(tidb_session_compile_duration_seconds_count{sql_type=`general`}[$__rate_interval])))") "avg" NoColor line;
   mkQuery (dq "histogram_quantile(0.99, sum(rate(tidb_session_compile_duration_seconds_bucket{sql_type=`general`}[$__rate_interval])) by (le))") "99" NoColor line]
  (Some AS_ZERO) "s".

Definition execute_duration : Metric := mkMetric "Execute Duration"
  [mkQuery (dq "(sum(rate(tidb_session_execute_duration_seconds_sum{sql_type=`general`}[$__rate_interval])) / sum(rate(tidb_session_execute_duration_seconds_count{sql_type=`general`}[$__rate_interval])))") "avg" NoColor line;
   mkQuery (dq "histogram_quantile(0.99, sum(rate(tidb_session_execute_duration_seconds_bucket{sql_type=`general`}[$__rate_interval])) by (le))") "99" NoColor line]
  (Some AS_ZERO) "s".

Definition category_latency_break_down : Category := mkCategory "latency_break_down"
  [query_duration; average_idle_connection_duration; get_token_duration; parse_duration; compile_duration; execute_duration].

Definition transaction_per_second : Metric := mkMetric "Transaction Per Second"
  [mkQuery (dq "sum(rate(tidb_session_transaction_duration_seconds_count{scope=~`general`}[$__rate_interval])) by (type, txn_mode)") "{type}-{txn_mode}" NoColor line]
  (Some AS_ZERO) "short".

Definition transaction_duration : Metric := mkMetric "Transaction Duration"
  [mkQuery (dq "sum(rate(tidb_session_transaction_duration_seconds_sum{scope=~`general`}[$__rate_interval])) by (txn_mode)/ sum(rate(tidb_session_transaction_duration_seconds_count{scope=~`general`}[$__rate_interval])) by (txn_mode)") "avg-{txn_mode}" NoColor line;
   mkQuery "histogram_quantile(0.99, sum(rate(tidb_session_transaction_duration_seconds_bucket[$__rate_interval])) by (le, txn_mode))" "99-{txn_mode}" NoColor line]
  None "s".

Definition category_transaction : Category := mkCategory "transaction"
  [transaction_per_second; transaction_duration].

Definition avg_tidb_kv_request_duration : Metric := mkMetric "Avg TiDB KV Request Duration"
  [mkQuery (dq "sum(rate(tidb_tikvclient_request_seconds_sum{store!=`0`}[$__rate_interval])) by (type)/ sum(rate(tidb_tikvclient_request_seconds_count{store!=`0`}[$__rate_interval])) by (type)") "{type}" NoColor line]
  (Some AS_ZERO) "s".

Definition avg_tikv_grpc_duration : Metric := mkMetric "Avg TiKV GRPC Duration"
  [mkQuery (dq "sum(rate(tikv_grpc_msg_duration_seconds_sum{store!=`0`}[$__rate_interval])) by (type)/ sum(rate(tikv_grpc_msg_duration_seconds_count{store!=`0`}[$__rate_interval])) by (type)") "{type}" NoColor line]
  (Some AS_ZERO) "s".

Definition average_p99_pd_tso_wait_rpc_duration : Metric := mkMetric "Average / P99 PD TSO Wait/RPC Duration"
  [mkQuery (dq "(sum(rate(pd_client_cmd_handle_cmds_duration_seconds_sum{type=`wait`}[$__rate_interval])) / sum(rate(pd_client_cmd_handle_cmds_duration_seconds_count{type=`wait`}[$__rate_interval])))") "wait - avg" NoColor line;
   mkQuery (dq "histogram_quantile(0.99, sum(rate(pd_client_cmd_handle_cmds_duration_seconds_bucket{type=`wait`}[$__rate_interval])) by (le))") "wait - 99" NoColor line;
   mkQuery (dq "(sum(rate(pd_client_request_handle_requests_duration_seconds_sum{type=`tso`}[$__rate_interval])) / sum(rate(pd_client_request_handle_requests_duration_seconds_count{type=`tso`}[$__rate_interval])))") "rpc - avg" NoColor line;
   mkQuery (dq "histogram_quantile(0.99, sum(rate(pd_client_request_handle_requests_duration_seconds_bucket{type=`tso`}[$__rate_interval])) by (le))") "rpc - 99" NoColor line]
  (Some AS_ZERO) "s".

Definition average_p99_storage_async_write_duration : Metric := mkMetric "Average / P99 Storage Async Write Duration"
  [mkQuery (dq "sum(rate(tikv_storage_engine_async_request_duration_seconds_sum{type=`write`}[$__rate_interval])) / sum(rate(tikv_storage_engine_async_request_duration_seconds_count{type=`write`}[$__rate_interval]))") "avg" NoColor line;
   mkQuery (dq "histogram_quantile(0.99, sum(rate(tikv_storage_engine_async_request_duration_seconds_bucket{type=`write`}[$__rate_interval])) by (le))") "99" NoColor line]
  (Some AS_ZERO) "s".

Definition average_p99_store_duration : Metric := mkMetric "Average / P99 Store Duration"
  [mkQuery "sum(rate(tikv_raftstore_store_duration_secs_sum[$__rate_interval])) / sum(rate(tikv_raftstore_store_duration_secs_count[$__rate_interval]))" "avg" NoColor line;
   mkQuery "histogram_quantile(0.99, sum(rate(tikv_raftstore_store_duration_secs_bucket[$__rate_interval])) by (le))" "99" NoColor line]
  (Some AS_ZERO) "s".

Definition average_p99_apply_duration : Metric := mkMetric "Average / P99 Apply Duration"
  [mkQuery "(sum(rate(tikv_raftstore_apply_duration_secs_sum[$__rate_interval])) / sum(rate(tikv_raftstore_apply_duration_secs_count[$__rate_interval])))" "avg" NoColor line;
   mkQuery "histogram_quantile(0.99, sum(rate(tikv_raftstore_apply_duration_secs_bucket[$__rate_interval])) by (le))" "99" NoColor line]
  (Some AS_ZERO) "s".

Definition average_p99_append_log_duration : Metric := mkMetric "Average / P99 Append Log Duration"
  [mkQuery "(sum(rate(tikv_raftstore_append_log_duration_seconds_sum[$__rate_interval])) / sum(rate(tikv_raftstore_append_log_duration_seconds_count[$__rate_interval])))" "avg" NoColor line;
   mkQuery "histogram_quantile(0.99, sum(rate(tikv_raftstore_append_log_duration_seconds_bucket[$__rate_interval])) by (le))" "99" NoColor line]
  (Some AS_ZERO) "s".

Definition average_p99_commit_log_duration : Metric := mkMetric "Average / P99 Commit Log Duration"
  [mkQuery "(sum(rate(tikv_raftstore_commit_log_duration_seconds_sum[$__rate_interval])) / sum(rate(tikv_raftstore_commit_log_duration_seconds_count[$__rate_interval])))" "avg" NoColor line;
   mkQuery "histogram_quantile(0.99, sum(rate(tikv_raftstore_commit_log_duration_seconds_bucket[$__rate_interval])) by (le))" "99" NoColor line]
  (Some AS_ZERO) "s".

Definition average_p99_apply_log_duration : Metric := mkMetric "Average / P99 Apply Log Duration"
  [mkQuery "(sum(rate(tikv_raftstore_apply_log_duration_seconds_sum[$__rate_interval])) / sum(rate(tikv_raftstore_apply_log_duration_seconds_count[$__rate_interval])))" "avg" NoColor line;
   mkQuery "histogram_quantile(0.99, sum(rate(tikv_raftstore_apply_log_duration_seconds_bucket[$__rate_interval])) by (le))" "99" NoColor line]
  (Some AS_ZERO) "s".

Definition category_core_path_duration : Category := mkCategory "core_path_duration"
  [avg_tidb_kv_request_duration; avg_tikv_grpc_duration; average_p99_pd_tso_wait_rpc_duration; average_p99_storage_async_write_duration; average_p99_store_duration; average_p99_apply_duration; average_p99_append_log_duration; average_p99_commit_log_duration; average_p99_apply_log_duration].

Definition tidb_uptime : Metric := mkMetric "TiDB Uptime"
  [mkQuery (dq "(time() - process_start_time_seconds{component=`tidb`})") "{instance}" NoColor line]
  (Some AS_ZERO) "s".

Definition tidb_cpu_usage : Metric := mkMetric "TiDB CPU Usage"
  [mkQuery (dq "irate(process_cpu_seconds_total{component=`tidb`}[$__rate_interval])") "{instance}" NoColor line]
  (Some AS_ZERO) "percentunit".

Definition tidb_memory_usage : Metric := mkMetric "TiDB Memory Usage"
  [mkQuery (dq "process_resident_memory_bytes{component=`tidb`}") "{instance}" NoColor line]
  (Some AS_ZERO) "bytes".

Definition tikv_uptime : Metric := mkMetric "TiKV Uptime"
  [mkQuery (dq "(time() - process_start_time_seconds{component=`tikv`})") "{instance}" NoColor line]
  None "s".

Definition tikv_cpu_usage : Metric := mkMetric "TiKV CPU Usage"
  [mkQuery "sum(rate(tikv_thread_cpu_seconds_total[$__rate_interval])) by (instance)" "{instance}" NoColor line]
  None "percentunit".

Definition tikv_memory_usage : Metric := mkMetric "TiKV Memory Usage"
  [mkQuery (dq "avg(process_resident_memory_bytes{component=`tikv`}) by (instance)") "{instance}" NoColor line]
  None "bytes".

Definition tikv_io_mbps : Metric := mkMetric "TiKV IO MBps"
  [mkQuery (dq "sum(rate(tikv_engine_flow_bytes{db=`kv`, type=`wal_file_bytes`}[$__rate_interval])) by (instance) + (sum(rate(tikv_engine_flow_bytes{db=`raft`, type=`wal_file_bytes`}[$__rate_interval])) by (instance) or (0 * sum(rate(raft_engine_write_size_sum[$__rate_interval])) by (instance))) + (sum(rate(raft_engine_write_size_sum[$__rate_interval])) by (instance) or (0 * sum(rate(tikv_engine_flow_bytes{db=`raft`, type=`wal_file_bytes`}[$__rate_interval])) by (instance)))") "{instance}-write" NoColor line;
   mkQuery (dq "sum(rate(tikv_engine_flow_bytes{db=`kv`, type=~`bytes_read|iter_bytes_read`}[$__rate_interval])) by (instance)") "{instance}-read" NoColor line]
  None "Bps".

Definition tikv_storage_usage : Metric := mkMetric "TiKV Storage Usage"
  [mkQuery (loadTiKVStoragePromql compare pdVersion) "{instance}" NoColor area_stack]
  None "bytes".

Definition tiflash_uptime : Metric := mkMetric "TiFlash Uptime"
  [mkQuery "tiflash_system_asynchronous_metric_Uptime" "{instance}" NoColor line]
  (Some AS_ZERO) "s".

Definition tiflash_cpu_usage : Metric := mkMetric "TiFlash CPU Usage"
  [mkQuery (dq "rate(tiflash_proxy_process_cpu_seconds_total{component=`tiflash`}[$__rate_interval])") "{instance}" NoColor line]
  (Some AS_ZERO) "percentunit".

Definition tiflash_memory : Metric := mkMetric "TiFlash Memory"
  [mkQuery (dq "tiflash_proxy_process_resident_memory_bytes{component=`tiflash`}") "{instance}" NoColor line]
  (Some AS_ZERO) "bytes".

Definition tiflash_io_mbps : Metric := mkMetric "TiFlash IO MBps"
  [mkQuery "sum(rate(tiflash_system_profile_event_WriteBufferFromFileDescriptorWriteBytes[$__rate_interval])) by (instance) + sum(rate(tiflash_system_profile_event_PSMWriteBytes[$__rate_interval])) by (instance) + sum(rate(tiflash_system_profile_event_WriteBufferAIOWriteBytes[$__rate_interval])) by (instance)" "{instance}-write" NoColor line;
   mkQuery "sum(rate(tiflash_system_profile_event_ReadBufferFromFileDescriptorReadBytes[$__rate_interval])) by (instance) + sum(rate(tiflash_system_profile_event_PSMReadBytes[$__rate_interval])) by (instance) + sum(rate(tiflash_system_profile_event_ReadBufferAIOReadBytes[$__rate_interval])) by (instance)" "{instance}-read" NoColor line]
  None "Bps".

Definition tiflash_storage_usage : Metric := mkMetric "TiFlash Storage Usage"
  [mkQuery "sum(tiflash_system_current_metric_StoreSizeUsed) by (instance)" "{instance}" NoColor area_stack]
  None "bytes".

Definition category_server : Category := mkCategory "server"
  [tidb_uptime; tidb_cpu_usage; tidb_memory_usage; tikv_uptime; tikv_cpu_usage; tikv_memory_usage; tikv_io_mbps; tikv_storage_usage; tiflash_uptime; tiflash_cpu_usage; tiflash_memory; tiflash_io_mbps; tiflash_storage_usage].

Definition getMonitoringItems : list Category :=
  [category_database_time;
   category_application_connection;
   category_sql_count;
   category_latency_break_down;
   category_transaction;
   category_core_path_duration;
   category_server].

End Charts.

End Monitoring.

Module Overview.

Definition total_requests : Metric := mkMetric "total_requests"
  [mkQuery "sum(rate(tidb_executor_statement_total[$__rate_interval]))" "Total" NoColor line;
   mkQuery "sum(rate(tidb_executor_statement_total[$__rate_interval])) by (type)" "{type}" NoColor line]
  (Some AS_ZERO) "short".

Definition latency : Metric := mkMetric "latency"
  [mkQuery (dq "sum(rate(tidb_server_handle_query_duration_seconds_sum{sql_type!=`internal`}[$__rate_interval])) / sum(rate(tidb_server_handle_query_duration_seconds_count{sql_type!=`internal`}[$__rate_interval]))") "avg" NoColor line;
   mkQuery (dq "histogram_quantile(0.99, sum(rate(tidb_server_handle_query_duration_seconds_bucket{sql_type!=`internal`}[$__rate_interval])) by (le))") "99" NoColor line;
   mkQuery (dq "sum(rate(tidb_server_handle_query_duration_seconds_sum{sql_type!=`internal`}[$__rate_interval])) by (sql_type) / sum(rate(tidb_server_handle_query_duration_seconds_count{sql_type!=`internal`}[$__rate_interval])) by (sql_type)") "avg-{sql_type}" NoColor line;
   mkQuery (dq "histogram_quantile(0.99, sum(rate(tidb_server_handle_query_duration_seconds_bucket{sql_type!=`internal`}[$__rate_interval])) by (le,sql_type))") "99-{sql_type}" NoColor line]
  (Some AS_ZERO) "s".

Definition cpu : Metric := mkMetric "cpu"
  [mkQuery (dq "irate(process_cpu_seconds_total{component=`tidb`}[$__rate_interval])") "{instance}" NoColor line]
  (Some AS_ZERO) "percentunit".

Definition memory : Metric := mkMetric "memory"
  [mkQuery (dq "process_resident_memory_bytes{component=`tidb`}") "{instance}" NoColor line]
  (Some AS_ZERO) "bytes".

Definition io : Metric := mkMetric "io"
  [mkQuery (dq "sum(rate(tikv_engine_flow_bytes{db=`kv`, type=`wal_file_bytes`}[$__rate_interval])) by (instance) + (sum(rate(tikv_engine_flow_bytes{db=`raft`, type=`wal_file_bytes`}[$__rate_interval])) by (instance) or (0 * sum(rate(raft_engine_write_size_sum[$__rate_interval])) by (instance))) + (sum(rate(raft_engine_write_size_sum[$__rate_interval])) by (instance) or (0 * sum(rate(tikv_engine_flow_bytes{db=`raft`, type=`wal_file_bytes`}[$__rate_interval])) by (instance)))") "{instance}-write" NoColor line;
   mkQuery (dq "sum(rate(tikv_engine_flow_bytes{db=`kv`, type=~`bytes_read|iter_bytes_read`}[$__rate_interval])) by (instance)") "{instance}-read" NoColor line]
  None "Bps".

Definition overviewMetrics : list Metric :=
  [total_requests; latency; cpu; memory; io].

End Overview.
