(* ===== verification/Monitoring.v ===== *)
(** * The pages of metrics and of the resource manager

    Module [Loading] is the switch that tells a page some chart is loading
    (apps/Monitoring, apps/Overview, apps/ResourceManager), Module [Nodes] the counts of
    instances of the overview, Module [Resource] what the page of the resource manager
    computes and keeps in its URL and Module [Calibrate] its estimates, over the hook of
    ClientRequest.  The theorems on the tables of queries (MetricTablesOp,
    MetricTablesClinic) measure them with PromQL. *)

From S2P Require Import Prelude JsString JsNumber ClientRequest TimeRange UrlStateV1 PromQL Metrics MetricTypes MetricTablesOp MetricTablesClinic.
Local Open Scope Z_scope.

(** ** Is some chart loading? *)

Module Loading.

(** A group of charts (a category of the page) has a counter of its own, and a debounced
    setter of the page's switch: a call is made at once or kept, the last one kept is made
    later.  [charts] are the charts that are loading. *)
Record Wrapper := mkWrapper { loadingCounter : Z; kept : option bool; charts : list bool }.
Record Page := mkPage { isSomeLoading : bool; wrappers : list Wrapper }.

(** [onLoadingStateChange] up to the setter. *)
Definition count (loading : bool) (counter : Z) : Z :=
  if loading then counter + 1 else if 0 <? counter then counter - 1 else counter.

Inductive step : Page -> Page -> Prop :=
  | step_report p i w c b (now : bool) :
      wrappers p !! i = Some w -> charts w !! c = Some (negb b) ->
      let n := count b (loadingCounter w) in
      step p (mkPage (if now then 0 <? n else isSomeLoading p)
                (<[i := mkWrapper n (if now then None else Some (0 <? n)) (<[c := b]> (charts w))]> (wrappers p)))
  | step_deliver p i w b :
      wrappers p !! i = Some w -> kept w = Some b ->
      step p (mkPage b (<[i := mkWrapper (loadingCounter w) None (charts w)]> (wrappers p))).

(** No call is kept. *)
Definition settled (p : Page) : Prop := Forall (fun w => kept w = None) (wrappers p).

Definition some_chart (w : Wrapper) : bool := existsb id (charts w).

Definition opened (sizes : list nat) : Page :=
  mkPage false (map (fun n => mkWrapper 0 None (replicate n false)) sizes).

End Loading.

(** ** The instances of the overview *)

Module Nodes.

Definition STATUS_UNREACHABLE : Z := 0.
Definition STATUS_UP : Z := 1.
Definition STATUS_TOMBSTONE : Z := 2.
Definition STATUS_OFFLINE : Z := 3.
Definition STATUS_DOWN : Z := 4.

Definition is_up (status : option Z) : bool :=
  bool_decide (status = Some STATUS_UP) || bool_decide (status = Some STATUS_TOMBSTONE) ||
  bool_decide (status = Some STATUS_OFFLINE).

(** [upNums] and [allNums] *)
Definition counts (data : option (list (option Z))) : Z * Z :=
  match data with
  | None => (0, 0)
  | Some l => fold_left (fun '(up, all) s => (if is_up s then up + 1 else up, all + 1)) l (0, 0)
  end.

Inductive View := Skeleton | Numbers (up all : Z) (danger : bool) | Failed | Nothing.

(** The error is its HTTP status, if it has one. *)
Definition ComponentItem (isLoading : bool) (data : option (list (option Z))) (error : option (option Z)) : View :=
  if isLoading then Skeleton
  else match error with
       | None => let '(up, all) := counts data in Numbers up all (negb (up =? all))
       | Some s => if bool_decide (s = Some 404) then Nothing else Failed
       end.

End Nodes.

(** ** The resource manager *)

Module Resource.

Definition TIME_WINDOW_RECENT_SECONDS : list Z := [15 * 60; 30 * 60; 60 * 60; 3 * 60 * 60; 6 * 60 * 60; 12 * 60 * 60; 24 * 60 * 60].
Definition DEFAULT_TIME_WINDOW : V1.TimeRange := V1.Recent (num_of_Z (nth 1 TIME_WINDOW_RECENT_SECONDS 0)).
Definition WORKLOAD_TYPES : list string := ["oltp_read_write"; "oltp_read_only"; "oltp_write_only"; "tpcc"].

Record Group := mkGroup { group_name : string; ru_per_sec : string }.

(** The limits of the groups other than the default one that are numbers. *)
Definition totalRU (info : option (list Group)) : num :=
  fold_left (fun acc cur =>
    let ru := js_Number (ru_per_sec cur) in if isNaN ru then acc else num_add acc ru)
    (filter (fun item => group_name item <> "default") (default [] info)) (num_of_Z 0).

Definition CapacityWarning (totalRU estimatedRU : num) : bool :=
  num_lt (num_of_Z 0) estimatedRU && num_lt estimatedRU totalRU.

(** What the URL holds. *)
Definition timeRange (q : queryParams) : V1.TimeRange := read_range DEFAULT_TIME_WINDOW q.
Definition setTimeRange (now : Z) (r : V1.TimeRange) : changes := write_range now r.
Definition workload (q : queryParams) : string := js_or (q !! "workload") (hd "" WORKLOAD_TYPES).
Definition setWorkload (w : string) : changes := [("workload", if truthy w then Some w else None)].

End Resource.

Module Calibrate.

Section Calibrate.
Context {P D E : Type}.

(** An estimate with the workload or the time window it was asked for.  The world of the
    hook is the choice on the page and the one the last request was made with. *)
Abbreviation Component := (Hook (option P * D) E (P * option P)).
Definition ask (w : P * option P) : P * option P := (fst w, Some (fst w)).
Definition send (h : Component) : Component := sendRequest true ask id h.

(** The hook sends a request at the mount, and so does the effect of the component. *)
Definition mount (p : P) : Component := send (ClientRequest.mount true true ask id id (new true (p, None))).

(** A new choice, and the effect that follows it. *)
Definition choose (p : P) (h : Component) : Component := send (on_world (fun w => (p, snd w)) h).

Definition answer (r : D + E) (h : Component) : Component :=
  match cancelTokenSource h with
  | Some t => resume id t (match r with inl d => inl (snd (world h), d) | inr e => inr e end) h
  | None => h
  end.

Inductive step (quiet : Prop) : Component -> Component -> Prop :=
  | step_choose p h : p <> fst (world h) -> (quiet -> isLoading (state h) = false) -> step quiet h (choose p h)
  | step_answer r h : step quiet h (answer r h).

End Calibrate.
End Calibrate.

(** ** The tables of queries *)

Section Tables.

Definition all_queries (l : list Metric) : list Query := l ≫= queries.
Definition category_metrics (l : list Category) : list Metric := l ≫= metrics.

Definition badly_named (l : list Metric) : list (string * string) :=
  map (fun q => (promql q, name q)) (filter (fun q => well_named (promql q) (name q) = false) (all_queries l)).
Definition not_telling (l : list Metric) : list (string * string) :=
  map (fun q => (promql q, name q)) (filter (fun q => telling (promql q) (name q) = false) (all_queries l)).

(** The names of a chart's series are told apart by their queries. *)
Definition names_apart (l : list Metric) : bool :=
  forallb (fun m => bool_decide (NoDup (map name (queries m)))) l.

Lemma badly_named_app l l' : badly_named (l ++ l') = badly_named l ++ badly_named l'.
Proof. unfold badly_named, all_queries. by rewrite bind_app, filter_app, map_app. Qed.

Lemma not_telling_app l l' : not_telling (l ++ l') = not_telling l ++ not_telling l'.
Proof. unfold not_telling, all_queries. by rewrite bind_app, filter_app, map_app. Qed.

Lemma names_apart_app l l' : names_apart (l ++ l') = names_apart l && names_apart l'.
Proof. apply forallb_app. Qed.

Lemma op_store_size compare v :
  MetricTablesOp.Monitoring.loadTiKVStoragePromql compare v = "sum(tikv_engine_size_bytes) by (instance)" \/
  MetricTablesOp.Monitoring.loadTiKVStoragePromql compare v = dq "sum(tikv_store_size_bytes{type=`used`}) by (instance)".
Proof. unfold MetricTablesOp.Monitoring.loadTiKVStoragePromql. destruct (_ && _); auto. Qed.

Lemma clinic_store_size compare v :
  MetricTablesClinic.Monitoring.loadTiKVStoragePromql compare v = "sum(tikv_engine_size_bytes) by (instance)" \/
  MetricTablesClinic.Monitoring.loadTiKVStoragePromql compare v = dq "sum(tikv_store_size_bytes{type=`used`}) by (instance)".
Proof. unfold MetricTablesClinic.Monitoring.loadTiKVStoragePromql. destruct (_ && _); auto. Qed.

Ltac by_store_size H :=
  unfold MetricTablesOp.Monitoring.getMonitoringItems, MetricTablesOp.Monitoring.category_server,
    MetricTablesOp.Monitoring.tikv_storage_usage, MetricTablesClinic.Monitoring.getMonitoringItems,
    MetricTablesClinic.Monitoring.category_server, MetricTablesClinic.Monitoring.tikv_storage_usage;
  destruct H as [-> | ->]; (split; [|split]); vm_compute; reflexivity.

Lemma op_monitoring compare v :
  let l := category_metrics (MetricTablesOp.Monitoring.getMonitoringItems compare v) in
  badly_named l = [] /\
  not_telling l = [("sum(rate(tidb_server_plan_cache_total[$__rate_interval])) by (type)", "avg - hit")] /\
  names_apart l = true.
Proof. by_store_size (op_store_size compare v). Qed.

Lemma clinic_monitoring compare v :
  let l := category_metrics (MetricTablesClinic.Monitoring.getMonitoringItems compare v) in
  badly_named l = [("sum(rate(tidb_server_execute_error_total[$__rate_interval]))", "{type} @ {instance}")] /\
  not_telling l = [] /\ names_apart l = true.
Proof. by_store_size (clinic_store_size compare v). Qed.

(** Every query of the pages of metrics is a well-typed query for a vector whose name
    only mentions labels its series carry and tells them apart, with two exceptions: the
    failed queries of the clinic distribution are named by labels that their sum drops,
    and the plan cache hits of the on-premise one are grouped by a type that their name
    does not show.  The names within a chart differ. *)
Theorem metric_queries_typed compare v :
  let op := category_metrics (MetricTablesOp.Monitoring.getMonitoringItems compare v) ++
            MetricTablesOp.Overview.overviewMetrics ++ MetricTablesOp.ResourceManager.metrics in
  let clinic := category_metrics (MetricTablesClinic.Monitoring.getMonitoringItems compare v) ++
                MetricTablesClinic.Overview.overviewMetrics in
  badly_named op = [] /\
  badly_named clinic = [("sum(rate(tidb_server_execute_error_total[$__rate_interval]))", "{type} @ {instance}")] /\
  not_telling op = [("sum(rate(tidb_server_plan_cache_total[$__rate_interval])) by (type)", "avg - hit")] /\
  not_telling clinic = [] /\
  names_apart op = true /\ names_apart clinic = true.
Proof.
  destruct (op_monitoring compare v) as (H1 & H2 & H3). destruct (clinic_monitoring compare v) as (H4 & H5 & H6).
  cbv zeta.
  rewrite !badly_named_app, !not_telling_app, !names_apart_app, H1, H2, H3, H4, H5, H6.
  repeat split; vm_compute; reflexivity.
Qed.

(** What the two distributions show: titles and units. *)
Definition shown (l : list Metric) : list (string * string) := map (fun m => (title m, unit_ m)) l.

(** The distributions show the same charts with the same units, but for those of TiProxy,
    which the on-premise one adds, and the unit of the storage usage. *)
Theorem distributions_agree compare v :
  let op := MetricTablesOp.Monitoring.getMonitoringItems compare v in
  let clinic := MetricTablesClinic.Monitoring.getMonitoringItems compare v in
  map category op = map category clinic /\
  shown (category_metrics clinic) =
    map (fun e => if bool_decide (fst e = "TiKV Storage Usage") then (fst e, "bytes") else e)
      (filter (fun e => js_startsWith (fst e) "TiProxy" = false) (shown (category_metrics op))) /\
  shown MetricTablesOp.Overview.overviewMetrics = shown MetricTablesClinic.Overview.overviewMetrics.
Proof. repeat split; vm_compute; reflexivity. Qed.

End Tables.

(** ** Loading charts *)

Section LoadingFacts.
Import Loading.

Definition loading_charts (w : Wrapper) : Z := Z.of_nat (length (filter (fun b => b = true) (charts w))).

Lemma filter_flip l c b :
  l !! c = Some (negb b) ->
  Z.of_nat (length (filter (fun b => b = true) (<[c:=b]> l))) =
  Z.of_nat (length (filter (fun b => b = true) l)) + (if b then 1 else -1).
Proof.
  revert c; induction l as [|x l IH]; intros [|c] Hc; [done|done| |].
  - injection Hc as ->. change (<[0%nat:=b]> (negb b :: l)) with (b :: l). rewrite !filter_cons. destruct b; cbn [negb];
      rewrite ?(decide_True (P := true = true)), ?(decide_False (P := false = true)) by done; cbn [length]; lia.
  - specialize (IH c Hc). change (<[S c:=b]> (x :: l)) with (x :: <[c:=b]> l). rewrite !filter_cons.
    destruct (decide (x = true)); cbn [length]; lia.
Qed.

Lemma count_charts w c b :
  loadingCounter w = loading_charts w -> charts w !! c = Some (negb b) ->
  count b (loadingCounter w) = Z.of_nat (length (filter (fun b => b = true) (<[c:=b]> (charts w)))).
Proof.
  unfold loading_charts. intros Hn Hc. rewrite (filter_flip _ _ _ Hc), <- Hn. unfold count. destruct b; [done|].
  assert (H : 0 < loadingCounter w).
  { rewrite Hn. cut (true ∈ filter (fun b => b = true) (charts w)).
    - intros Hin. destruct (filter _ (charts w)); [by apply elem_of_nil in Hin|cbn; lia].
    - apply list_elem_of_filter. split; [done|]. by apply list_elem_of_lookup_2 in Hc. }
  destruct (Z.ltb_spec 0 (loadingCounter w)); lia.
Qed.

Lemma some_chart_count w : some_chart w = (0 <? loading_charts w).
Proof.
  unfold some_chart, loading_charts. induction (charts w) as [|b l IH]; [done|]. rewrite filter_cons. cbn [existsb id].
  destruct b; cbn [orb]; [|exact IH]. rewrite decide_True by done. cbn [length]. symmetry. apply Z.ltb_lt. lia.
Qed.

(** Each counter counts, and the last call of a group is that of its counter. *)
Definition wrapper_ok (w : Wrapper) : Prop :=
  loadingCounter w = loading_charts w /\ forall b, kept w = Some b -> b = (0 <? loadingCounter w).

Lemma step_wrappers p p' : step p p' -> Forall wrapper_ok (wrappers p) -> Forall wrapper_ok (wrappers p').
Proof.
  intros [p0 i w c b now Hw Hc n|p0 i w b Hw Hk] H; cbn [wrappers]; apply Forall_insert; [done| |done|];
    destruct (Forall_lookup_1 _ _ _ _ H Hw) as [Hn Hk'].
  - split; cbn; [by apply count_charts|]. destruct now; [done|]. by intros b' [= <-].
  - by split.
Qed.

(** With one group the switch follows its counter. *)
Definition switch_ok (p : Page) : Prop :=
  exists w, wrappers p = [w] /\ (kept w = None -> isSomeLoading p = (0 <? loadingCounter w)).

Lemma step_switch p p' : step p p' -> Forall wrapper_ok (wrappers p) -> switch_ok p -> switch_ok p'.
Proof.
  intros [p0 i w c b now Hw Hc n|p0 i w b Hw Hk] Hall (w0 & Hw0 & Hs); rewrite Hw0 in *;
    destruct i as [|i]; try done; injection Hw as ->.
  - eexists. split; [reflexivity|]. cbn. by destruct now.
  - eexists. split; [reflexivity|]. cbn. intros _. apply Forall_singleton in Hall as [_ H]. by apply H.
Qed.

Lemma opened_ok sizes : Forall wrapper_ok (wrappers (opened sizes)).
Proof.
  cbn. apply Forall_forall. intros w Hw. apply list_elem_of_fmap in Hw as (n & -> & _). split; [|done].
  unfold loading_charts. cbn. induction n as [|n IH]; [done|]. cbn [replicate]. by rewrite filter_cons_False by done.
Qed.

Lemma loading_reachable sizes p : rtc step (opened sizes) p ->
  Forall wrapper_ok (wrappers p) /\ (length sizes = 1%nat -> switch_ok p).
Proof.
  intros Hr. assert (H0 : Forall wrapper_ok (wrappers (opened sizes)) /\ (length sizes = 1%nat -> switch_ok (opened sizes))).
  { split; [apply opened_ok|]. destruct sizes as [|n [|]]; try done. intros _. eexists. split; [reflexivity|done]. }
  revert H0. induction Hr as [|p1 p2 p3 Hs _ IH]; [done|]. intros [H1 H2].
  apply IH. split; [by apply (step_wrappers p1)|]. intros Hl. apply (step_switch p1); auto.
Qed.

(** When no call is kept back, a page with a single group of charts shows that some
    chart is loading exactly when one is.  With several groups the last one to report
    decides: the page can show that nothing is loading, and accept a refresh, while a
    chart of another group is. *)
Theorem loading_switch :
  (forall n p, rtc step (opened [n]) p -> settled p -> isSomeLoading p = existsb some_chart (wrappers p)) /\
  (exists p, rtc step (opened [1%nat; 1%nat]) p /\ settled p /\ isSomeLoading p = false /\ existsb some_chart (wrappers p) = true).
Proof.
  split.
  - intros n p Hr Hs. destruct (loading_reachable [n] p Hr) as [Hall Hsw]. destruct (Hsw eq_refl) as (w & Hw & Hk).
    unfold settled in Hs. rewrite Hw in *. rewrite Forall_singleton in Hs, Hall. destruct Hall as [Hn _].
    cbn. rewrite some_chart_count, <- Hn, orb_false_r. auto.
  - eexists. split.
    + eapply rtc_l; [eapply (step_report _ 0 _ 0 true true); reflexivity|].
      eapply rtc_l; [eapply (step_report _ 1 _ 0 true true); reflexivity|].
      eapply rtc_l; [eapply (step_report _ 1 _ 0 false true); reflexivity|]. apply rtc_refl.
    + split; [by repeat constructor|done].
Qed.

End LoadingFacts.

(** ** Instances and resources *)

Section NodeFacts.
Import Nodes.

Lemma counts_spec l : counts (Some l) =
  (Z.of_nat (length (filter (fun s => is_up s = true) l)), Z.of_nat (length l)).
Proof.
  unfold counts. cut (forall up all, fold_left (fun '(up, all) s => (if is_up s then up + 1 else up, all + 1)) l (up, all) =
    (up + Z.of_nat (length (filter (fun s => is_up s = true) l)), all + Z.of_nat (length l))).
  { intros ->. f_equal; lia. }
  induction l as [|s l IH]; intros up all; cbn [fold_left]; [cbn; f_equal; lia|].
  rewrite IH, filter_cons. destruct (is_up s) eqn:Hs;
    rewrite ?(decide_True (P := true = true)), ?(decide_False (P := false = true)) by done; cbn [length]; f_equal; lia.
Qed.

Lemma all_up l : (Z.of_nat (length (filter (fun s => is_up s = true) l)) =? Z.of_nat (length l)) = forallb is_up l.
Proof.
  induction l as [|s l IH]; [done|]. rewrite filter_cons. cbn [forallb].
  pose proof (length_filter (fun s => is_up s = true) l). destruct (is_up s) eqn:Hs;
    rewrite ?(decide_True (P := true = true)), ?(decide_False (P := false = true)) by done; cbn [length andb].
  - rewrite <- IH. apply eq_true_iff_eq. rewrite !Z.eqb_eq. lia.
  - apply Z.eqb_neq. lia.
Qed.

(** The numbers of a component are marked exactly when one of its instances is not up,
    tombstone or offline. *)
Lemma instances_marked l :
  exists up all, ComponentItem false (Some l) None = Numbers up all (negb (forallb is_up l)) /\ 0 <= up <= all.
Proof.
  unfold ComponentItem. rewrite counts_spec, all_up. eexists _, _. split; [reflexivity|].
  pose proof (length_filter (fun s => is_up s = true) l). lia.
Qed.

End NodeFacts.

(** ** Estimates *)

Section CalibrateFacts.
Context {P D E : Type}.
Import Calibrate.
#[local] Abbreviation Component := (Hook (option P * D) E (P * option P)).
Implicit Types h : Component.

(** The page is mounted, it is loading exactly while a request is in flight, and an
    estimate is of the choice the last request was made with. *)
Definition asking h : Prop :=
  mounted h = true /\ isLoading (state h) = bool_decide (is_Some (cancelTokenSource h)) /\
  (cancelTokenSource h = None -> forall d, data (state h) = Some d -> fst d = snd (world h)).

(** And the last request was made with the current choice. *)
Definition current h : Prop := asking h /\ snd (world h) = Some (fst (world h)).

Lemma send_rest h : mounted h = true -> cancelTokenSource h = None ->
  let h' := send h in mounted h' = true /\ cancelTokenSource h' = Some (fresh h) /\
  state h' = mkState true (data (state h)) None /\ world h' = ask (world h).
Proof.
  intros Hm Hc. unfold send. destruct (send_cases true ask id h) as [Hs|(_ & _ & _ & H1 & _ & _ & _ & H2 & H3 & H4)]; [|done].
  exfalso. assert (Hc' : cancelTokenSource (sendRequest true ask id h) = Some (fresh h)).
  { unfold sendRequest. by rewrite Hm, Hc. }
  rewrite Hs in Hc'. congruence.
Qed.

Lemma send_busy h t : cancelTokenSource h = Some t -> send h = h.
Proof. unfold send, sendRequest. intros ->. by destruct (mounted h). Qed.

Lemma send_current h : mounted h = true -> cancelTokenSource h = None -> current (send h).
Proof.
  intros Hm Hc. destruct (send_rest h Hm Hc) as (H1 & H2 & H3 & H4). repeat split; [done| | |].
  - by rewrite H3, H2, bool_decide_eq_true_2 by eauto.
  - rewrite H2. done.
  - by rewrite H4.
Qed.

Lemma answer_asking r h : asking h -> asking (answer r h) /\ world (answer r h) = world h.
Proof.
  unfold answer. intros (Hm & Hl & Hd). destruct (cancelTokenSource h) as [t|] eqn:Hc; [|unfold asking; by rewrite Hc].
  destruct (resume_frame id t (match r with inl d => inl (snd (world h), d) | inr e => inr e end) h) as (H1 & H2 & _ & H3 & H4).
  specialize (H4 Hm). unfold asking. rewrite H1, H2, H3, H4. split; [|done]. split; [done|].
  rewrite bool_decide_eq_false_2 by (by intros []). destruct r; split; try done. by intros _ d0 [= <-].
Qed.

Lemma mount_current p : current (mount p).
Proof.
  unfold mount. set (h := set_mounted true Mounted (new true (p, None)) : Component).
  destruct (send_rest h eq_refl eq_refl) as (H1 & H2 & H3 & H4).
  change (current (send (on_world id (send h)))).
  replace (on_world id (send h)) with (send h) by (by destruct (send h)).
  rewrite (send_busy (send h) _ H2). by apply send_current.
Qed.

Lemma quiet_current h h' : step True h h' -> current h -> current h'.
Proof.
  intros [p h0 _ Hq|r h0] [Ha Hc].
  - specialize (Hq I). destruct Ha as (Hm & Hl & _). rewrite Hq in Hl. symmetry in Hl. apply bool_decide_eq_false in Hl.
    apply send_current; [done|]. cbn. destruct (cancelTokenSource h0); [by destruct Hl; eauto|done].
  - destruct (answer_asking r h0 Ha) as [Ha' Hw]. split; [done|]. by rewrite Hw.
Qed.

Lemma quiet_reachable p h : rtc (step True) (mount p) h -> current h.
Proof.
  intros Hr. pose proof (mount_current p) as H0. revert H0.
  induction Hr as [|h1 h2 h3 Hs _ IH]; [done|]. eauto using quiet_current.
Qed.

(** As long as the workload or time window is changed only while nothing is loading,
    an estimate that is shown at rest was asked for the choice on the page.  A change
    while a request is in flight sends none: the estimate of the former choice is then
    shown, at rest, next to the new one. *)
Theorem estimate_current (p q : P) (d : D) : p <> q ->
  (forall h : Component, rtc (step True) (mount p) h -> isLoading (state h) = false ->
     forall e, data (state h) = Some e -> fst e = Some (fst (world h))) /\
  (exists h : Component, rtc (step False) (mount p) h /\ isLoading (state h) = false /\
     data (state h) = Some (Some p, d) /\ fst (world h) = q).
Proof.
  intros Hpq. split.
  - intros h Hr Hl e He. destruct (quiet_reachable p h Hr) as [(_ & Hb & Hd) <-]. apply Hd; [|done].
    rewrite Hl in Hb. symmetry in Hb. apply bool_decide_eq_false in Hb. destruct (cancelTokenSource h); [by destruct Hb; eauto|done].
  - exists (answer (inl d) (choose q (mount p))). split; [|done].
    eapply rtc_l; [|eapply rtc_l; [apply step_answer|apply rtc_refl]]. apply step_choose; [|done]. cbn. congruence.
Qed.

End CalibrateFacts.

Lemma estimate_current_witness :
  (forall h : Hook (option string * Z) unit (string * option string), rtc (Calibrate.step True) (Calibrate.mount "tpcc") h ->
     isLoading (state h) = false -> forall e, data (state h) = Some e -> fst e = Some (fst (world h))) /\
  (exists h : Hook (option string * Z) unit (string * option string), rtc (Calibrate.step False) (Calibrate.mount "tpcc") h /\
     isLoading (state h) = false /\ data (state h) = Some (Some "tpcc", 7) /\ fst (world h) = "oltp_read_only").
Proof. apply (estimate_current "tpcc" "oltp_read_only" 7). discriminate. Defined.


(** ** The resource manager *)

Section ResourceFacts.
Import Resource.

(** The page reads back the time window and the workload it wrote, and the one does not
    disturb the other. *)
Theorem resource_state_roundtrip `{UrlHookLaws} (now : Z) (q : queryParams) :
  (forall r, whole1 r -> timeRange (setQueryParams (setTimeRange now r) q) = r /\
     workload (setQueryParams (setTimeRange now r) q) = workload q) /\
  (forall w, w <> "" -> workload (setQueryParams (setWorkload w) q) = w /\
     timeRange (setQueryParams (setWorkload w) q) = timeRange q) /\
  workload (setQueryParams (setWorkload "") q) = "oltp_read_write".
Proof.
  assert (Hw : forall v, setQueryParams (setWorkload v) q !! "workload" = (if truthy v then Some v else None)).
  { intros v. by erewrite after_change by reflexivity. }
  split_and!.
  - intros r Hr. split; [by apply range_back|]. unfold workload. by rewrite set_lookup.
  - intros [|a w] Hn; [done|]. unfold workload. rewrite Hw. split; [done|].
    unfold timeRange, read_range. by rewrite !set_lookup.
  - unfold workload. by rewrite Hw.
Qed.

(** The default group and the limits that are no numbers do not count. *)
Lemma totalRU_filter info :
  totalRU (Some info) = totalRU (Some (filter (fun g => isNaN (js_Number (ru_per_sec g)) = false /\ group_name g <> "default") info)).
Proof.
  unfold totalRU. cbn [default]. unfold id. generalize (num_of_Z 0). induction info as [|g l IH]; intros acc; [done|].
  rewrite !filter_cons. destruct (decide (group_name g <> "default")) as [Hd|Hd].
  - destruct (isNaN (js_Number (ru_per_sec g))) eqn:Hn.
    + rewrite (decide_False (P := true = false /\ _)) by by intros []. cbn [fold_left]. rewrite Hn. apply IH.
    + rewrite (decide_True (P := false = false /\ _)) by done.
      rewrite filter_cons, (decide_True (P := group_name g <> "default")) by done. cbn [fold_left]. rewrite Hn. apply IH.
  - rewrite (decide_False (P := _ /\ _)) by by intros []. apply IH.
Qed.

End ResourceFacts.
