(* ===== verification/PollPage.v ===== *)
(** * Pages that poll until an answer is final

    A page that opens with a request of useClientRequestWithPolling and asks again as long
    as its answers are not finished: the detail pages of profiling (Profiling) and of the
    log search (SearchLogs).  The requests the page makes are counted. *)

From S2P Require Import Prelude ClientRequest.

Section Page.
Context {D E : Type} (finished : D -> bool).

Abbreviation Page := (Hook D E (Poll D E unit)).
Definition shouldPoll : option (D -> bool) := Some (fun d => negb (finished d)).

(** The page as it opens; the answer to the request in flight; the end of the timer, if it
    runs.  The effects of a render run after the code that follows the request. *)
Definition open : Page :=
  run_effects (mount true true (myBeforeRequest id) (myAfterRequest shouldPoll id) poll_onMount
    (new true (new_poll true tt))).

Definition answered (r : D + E) (h : Page) : Page :=
  match cancelTokenSource h with
  | Some t => run_effects (resume (myAfterRequest shouldPoll id) t r h)
  | None => h
  end.

Definition timer (h : Page) : Page :=
  if pollingTimer (world h) then run_effects (fire shouldPoll id id h) else h.

(** The answers that arrive one after the other, each with the timer after it. *)
Definition visit (answers : list D) : Page :=
  fold_left (fun h d => timer (answered (inl d) h)) answers open.

Definition requests (h : Page) : nat := fresh h.
End Page.

Section Facts.
Context {D E : Type} (finished : D -> bool).
#[local] Abbreviation Page := (Hook D E (Poll D E unit)).
Implicit Types h : Page.

(** A request of the page is in flight after [n] requests, and the last answer was [d]. *)
Definition waiting (n : nat) (d : option D) h : Prop :=
  mounted h = true /\ fresh h = n /\ is_Some (cancelTokenSource h) /\ state h = mkState true d None /\
  retRef (world h) = mkState true d None /\ pollingTimer (world h) = false /\ poll_mounted (world h) = true.

(** Nothing is in flight and no timer runs. *)
Definition resting (n : nat) h : Prop :=
  fresh h = n /\ cancelTokenSource h = None /\ pollingTimer (world h) = false.

Lemma open_waiting : waiting 1 None (open finished).
Proof. by repeat split; eauto. Qed.

Definition goes_on (d : option D) : bool := match d with Some d => negb (finished d) | None => true end.

Lemma round n d d' h : waiting n d h ->
  let h' := timer finished (answered finished (inl d') h) in
  if goes_on d then waiting (S n) (Some d') h' else resting n h' /\ state h' = mkState false (Some d') None.
Proof.
  destruct h as [st c m ph pe ca fr [rt pt pm u]]. unfold waiting, resting. cbn. intros (-> & -> & [t Ht] & -> & -> & -> & ->).
  cbn in Ht. subst c. unfold answered, timer. cbn. unfold resume. cbn.
  destruct d as [d|]; cbn; [destruct (finished d) eqn:Hf|]; unfold myAfterRequest; cbn; rewrite ?Hf; cbn; repeat split; eauto.
Qed.

Lemma rest n r h : resting n h -> timer finished (answered finished r h) = h.
Proof. intros (_ & Hc & Ht). unfold answered. rewrite Hc. unfold timer. by rewrite Ht. Qed.

Lemma rest_visit n ds h : resting n h -> fold_left (fun h d => timer finished (answered finished (inl d) h)) ds h = h.
Proof. intros Hr. induction ds as [|d ds IH]; [done|]. cbn [fold_left]. by rewrite (rest n). Qed.

Lemma visit_unfinished ds : forall n d h, waiting n d h -> goes_on d = true -> Forall (fun d => finished d = false) ds ->
  waiting (n + length ds) (from_option Some d (last ds)) (fold_left (fun h d => timer finished (answered finished (inl d) h)) ds h).
Proof.
  induction ds as [|d' ds IH]; intros n d h Hw Hd Hf; [by rewrite Nat.add_0_r|].
  apply Forall_cons in Hf as [Hf' Hf]. cbn [fold_left length]. pose proof (round n d d' h Hw) as Hr. rewrite Hd in Hr.
  replace (n + S (length ds))%nat with (S n + length ds)%nat by lia.
  assert (Hg : goes_on (Some d') = true) by (cbn; by rewrite Hf').
  specialize (IH _ _ _ Hr Hg Hf). rewrite last_cons. by destruct (last ds).
Qed.

Lemma visit_waiting ds : Forall (fun d => finished d = false) ds ->
  waiting (S (length ds)) (from_option Some None (last ds)) (visit (E := E) finished ds).
Proof. intros Hf. by apply (visit_unfinished ds 1 None (open finished) open_waiting). Qed.

(** One more request is in flight after the first finished answer, and the answer to it is
    the last. *)
Lemma visit_finished pre d d' : Forall (fun d => finished d = false) pre -> finished d = true ->
  waiting (S (S (length pre))) (Some d) (visit (E := E) finished (pre ++ [d])) /\
  resting (S (S (length pre))) (visit (E := E) finished (pre ++ [d; d'])) /\
  state (visit (E := E) finished (pre ++ [d; d'])) = mkState false (Some d') None.
Proof.
  intros Hf Hd. pose proof (visit_waiting pre Hf) as H. unfold visit in *. rewrite !fold_left_app. cbn [fold_left].
  set (h := fold_left _ pre (open finished)) in *.
  assert (Hg : goes_on (from_option Some None (last pre)) = true).
  { destruct (last pre) as [p|] eqn:Hl; [|done]. cbn. apply last_Some_elem_of in Hl. rewrite Forall_forall in Hf. by rewrite Hf. }
  pose proof (round _ _ d h H) as H1. cbv zeta in H1. rewrite Hg in H1. split; [done|].
  pose proof (round _ _ d' _ H1) as H2. cbv zeta in H2. cbn [goes_on] in H2. rewrite Hd in H2. exact H2.
Qed.

Lemma visit_rest pre d d' post : Forall (fun d => finished d = false) pre -> finished d = true ->
  visit (E := E) finished (pre ++ d :: d' :: post) = visit finished (pre ++ [d; d']).
Proof.
  intros Hf Hd. destruct (visit_finished pre d d' Hf Hd) as (_ & Hr & _). unfold visit in *.
  change (pre ++ d :: d' :: post) with (pre ++ [d; d'] ++ post). rewrite app_assoc, fold_left_app. by apply (rest_visit _ _ _ Hr).
Qed.
End Facts.
