(* ===== verification/Profiling.v ===== *)
(** * The pages of profiling

    Module [Group] is the page of a group of profiling tasks
    (apps/InstanceProfiling/pages/Detail.tsx): the progress and the results of its
    tasks, its table, and its polling over the hook of ClientRequest.  Module [Start] is
    the form that starts one (pages/List.tsx).  Modules [Profiles], [History] and
    [Settings] are the pages of continuous profiling (apps/ContinuousProfiling/pages). *)

From Stdlib Require Import Ascii QArith Qround Lqa.
From stdpp Require Import sorting.
From S2P Require Import Prelude JsString JsNumber InstanceTable ClientRequest PollPage Uri TimeRange.
Local Open Scope Z_scope.

(** ** Numbers *)

(** [a / b] *)
Definition js_div (a b : Z) : num :=
  if b =? 0 then (if a =? 0 then NaN else Inf (a <? 0))
  else Fin (Qred (inject_Z a / inject_Z b)).

(** [Math.round] *)
Definition js_round (x : num) : num :=
  match x with Fin q => num_of_Z (Qfloor (q + (1 # 2))) | _ => x end.

(** ** Tables of targets by kind *)

Record KindGroup := mkKindGroup { kg_kind : InstanceKind; kg_name : string; kg_start : nat; kg_count : nat }.

Record Rows (A : Type) := mkRows { newRows : list A; newGroups : list KindGroup; rows_start : nat }.
Arguments mkRows {A}. Arguments newRows {A}. Arguments newGroups {A}. Arguments rows_start {A}.

Section ByKind.
Context {A : Type} (t : string -> string) (kind_of : A -> option string).

Definition of_kind (kind : InstanceKind) (items : list A) : list A :=
  filter (fun a => kind_of a = Some (kind_str kind)) items.

(** One round of the loop: the rows of a kind, then its group unless there are none. *)
Definition push_rows (items : list A) (s : Rows A) (kind : InstanceKind) : Rows A :=
  let rows := newRows s ++ of_kind kind items in
  if (0 <? Z.of_nat (length rows) - Z.of_nat (rows_start s))
  then mkRows rows (newGroups s ++ [mkKindGroup kind (instanceKindName t kind) (rows_start s) (length rows - rows_start s)])
         (length rows)
  else mkRows rows (newGroups s) (rows_start s).

Definition rows_by_kind (items : list A) : list A * list KindGroup :=
  let s := fold_left (push_rows items) InstanceKinds (mkRows [] [] 0) in (newRows s, newGroups s).

End ByKind.

(** ** A group of profiling tasks *)

Module Group.

Inductive ViewOptions := FlameGraph | Graph | Download | Text.

Global Instance ViewOptions_eq_dec : EqDecision ViewOptions.
Proof. solve_decision. Defined.

Definition view_str (v : ViewOptions) : string :=
  match v with FlameGraph => "flamegraph" | Graph => "graph" | Download => "download" | Text => "text" end.

(** [taskState] *)
Definition Error : Z := 0.
Definition Running : Z := 1.
Definition Success : Z := 2.
Definition Skipped : Z := 4.

Record Target := mkTarget { kind : option string; display_name : option string }.
Record Task := mkTask {
  task_id : Z; task_state : Z; started_at : Z; raw_data_type : option string; profiling_type : option string;
  target : Target; task_error : string;
  progress : option num; view_options : option (list ViewOptions)
}.
Record Response := mkResponse {
  server_time : Z; group_state : option Z; profile_duration_secs : Z; tasks_status : list Task
}.

(** The progress of a running task. *)
Definition progress_of (server_time started_at duration : Z) : num :=
  let progress := js_div (server_time - started_at) duration in
  let progress := if num_lt (Fin (99 # 100)) progress then Fin (99 # 100) else progress in
  if num_lt progress (num_of_Z 0) then num_of_Z 0 else progress.

Definition options_of (task : Task) : option (list ViewOptions) :=
  if bool_decide (raw_data_type task = Some "protobuf") then Some [FlameGraph; Graph; Download]
  else if bool_decide (raw_data_type task = Some "jeprof") then Some [FlameGraph; Graph; Download]
  else if bool_decide (raw_data_type task = Some "text") then Some [Text]
  else if negb (truthy (raw_data_type task)) then
    if bool_decide (kind (target task) = Some "tidb") || bool_decide (kind (target task) = Some "pd") then Some [Graph]
    else if bool_decide (kind (target task) = Some "tikv") || bool_decide (kind (target task) = Some "tiflash") then Some [FlameGraph]
    else view_options task
  else view_options task.

Definition mapTask (data : Response) (task : Task) : Task :=
  let p := if task_state task =? 1 then Some (progress_of (server_time data) (started_at task) (profile_duration_secs data))
           else progress task in
  mkTask (task_id task) (task_state task) (started_at task) (raw_data_type task) (profiling_type task) (target task) (task_error task)
    p (options_of task).

Definition mapData (data : option Response) : option Response :=
  (fun d => mkResponse (server_time d) (group_state d) (profile_duration_secs d) (map (mapTask d) (tasks_status d))) <$> data.

Definition isFinished (data : option Response) : bool :=
  let groupState := d ← data; group_state d in
  bool_decide (groupState = Some 2) || bool_decide (groupState = Some 3).

(** The answer to the request for a token. *)
Definition getActionToken (data : option string) : option string := if truthy data then data else None.

(** What a click leads to. *)
Inductive Leads := ToLocation (url : string) | NewTab (url : string).

(** The link to speedscope, which reads the profile from another URL. *)
Definition speedscope (publicPathBase profileURL title : string) : string :=
  publicPathBase +:+ "/speedscope/#profileURL=" +:+ encodeURIComponent profileURL +:+ "&title=" +:+ title.

(** A missing value in a template. *)
Definition tpl (s : option string) : string := default "undefined" s.

Definition openResult (apiPathBase publicPathBase : string) (openAs : ViewOptions) (rec : Task)
    (answer : option string) : option Leads :=
  token ← getActionToken answer;
  let single := apiPathBase +:+ "/profiling/single/" in
  match openAs with
  | Download => Some (ToLocation (single +:+ "download?token=" +:+ token))
  | FlameGraph =>
      let profileURL := single +:+ "view?token=" +:+ token in
      let titleOnTab := tpl (kind (target rec)) +:+ "_" +:+ tpl (display_name (target rec)) in
      let type := if bool_decide (raw_data_type rec = Some "protobuf") then "protobuf" else "text" in
      Some (NewTab (speedscope publicPathBase (profileURL +:+ "&output_type=" +:+ type) titleOnTab))
  | Graph | Text =>
      Some (NewTab (single +:+ "view?token=" +:+ token +:+ "&output_type=" +:+ view_str openAs))
  end.

(** The type of token that is asked for. *)
Definition tokenType (openAs : ViewOptions) : string :=
  match openAs with Download => "single_download" | _ => "single_view" end.

Definition handleDownloadGroup (apiPathBase : string) (answer : option string) : option Leads :=
  token ← getActionToken answer; Some (ToLocation (apiPathBase +:+ "/profiling/group/download?token=" +:+ token)).

(** The cells of a row. *)
Section Cells.
Context (upperFirst : option string -> string).

Definition content (profileDuration : Z) (rec : Task) : string :=
  if bool_decide (profiling_type rec = Some "cpu") then "CPU - " +:+ show profileDuration +:+ "s"
  else upperFirst (profiling_type rec).

Definition status (rec : Task) : string :=
  if task_state rec =? Running then "running" else if task_state rec =? Error then "error"
  else if task_state rec =? Skipped then "skipped" else "finished".

(** The last column; without options a finished task cannot be rendered. *)
Inductive ViewAs := ErrorLink (e : string) | Progress (percent : num) | NoView | Links (l : list ViewOptions) | Throws.

Definition view_as (rec : Task) : ViewAs :=
  if task_state rec =? Error then ErrorLink (task_error rec)
  else if task_state rec =? Running then
    Progress (js_round (num_mul (default NaN (progress rec)) (num_of_Z 100)))
  else if negb (task_state rec =? Success) then NoView
  else match view_options rec with Some l => Links l | None => Throws end.
End Cells.

(** The table. *)
Definition table (t : string -> string) (data : option Response) : list Task * list KindGroup :=
  rows_by_kind t (fun task => kind (target task)) (default [] (tasks_status <$> data)).

(** The page over the polling hook, after its answers. *)
Definition visit {E} (answers : list Response) :=
  PollPage.visit (E := E) (fun d => isFinished (Some d)) answers.

End Group.

(** ** Starting a group *)

Module Start.

Definition profilingDurationsSec : list Z := [10; 30; 60; 120].
Definition defaultProfilingDuration : Z := 30.
Definition profilingTypeOptions : list string := ["CPU"; "Heap"; "Goroutine"; "Mutex"].

(** An instance with the port of its status, if it has one. *)
Abbreviation Item := (@IInstanceTableItem (option Z)).

Record FieldsValue := mkFields { instances : option (list string); type : option (list string); duration : Z }.
Record TargetNode := mkNode { node_kind : InstanceKind; node_name : string; node_ip : string; node_port : Z }.
Record StartRequest := mkRequest { targets : list TargetNode; duration_secs : Z; requsted_profiling_types : list string }.

Definition port_of (i : Item) : option Z :=
  match instanceKind i with
  | pd | tso | scheduling => Some (port (instance i))
  | tidb | tikv | tiflash | ticdc | tiproxy => info (instance i)
  end.

Definition target_of (i : Item) : option TargetNode :=
  p ← port_of i; Some (mkNode (instanceKind i) (key i) (ip (instance i)) p).

Inductive Outcome :=
  | MissingFields
  | NotReady
  | Start (req : StartRequest)
  (* an instance that is not in the list of instances *)
  | Throws.

Definition handleFinish (instanceSelect : option (list string -> list (option Item))) (v : FieldsValue) : Outcome :=
  match instances v with
  | None | Some [] => MissingFields
  | Some keys =>
      match instanceSelect with
      | None => NotReady
      | Some getInstanceByKeys =>
          match mapM id (getInstanceByKeys keys) with
          | None => Throws
          | Some items =>
              let types := match type v with None | Some [] => profilingTypeOptions | Some l => l end in
              Start (mkRequest (omap target_of items) (duration v) (map js_toLowerCase types))
          end
      end
  end.

(** The table of former groups. *)
Definition types_text (upperFirst : string -> string) (types : option (list string)) : string :=
  js_join "," (map (fun p => if bool_decide (p = "cpu") then "CPU" else upperFirst p) (default ["cpu"] types)).

Definition status (state : Z) : string :=
  if state =? 0 then "failed" else if state =? 1 then "running" else if state =? 2 then "finished" else "partial_finished".

End Start.

(** ** Continuous profiling: the profiles of a moment *)

Module Profiles.

Inductive Action := VIEW_FLAMEGRAPH | VIEW_GRAPH | VIEW_TEXT | DOWNLOAD.

Record Profile := mkProfile {
  profile_type : string; state : string; error : string; component : string; address : string
}.

Definition profileTypeSortOrder (s : string) : option Z :=
  if bool_decide (s = "profile") then Some 1 else if bool_decide (s = "heap") then Some 2
  else if bool_decide (s = "goroutine") then Some 3 else if bool_decide (s = "mutex") then Some 4 else None.

(** The comparison of the rows. *)
Definition compare (a b : Profile) : Z :=
  if String.ltb (component b) (component a) then 1
  else default 0 (profileTypeSortOrder (profile_type a)) - default 0 (profileTypeSortOrder (profile_type b)).

(** The table; the rows come sorted by [compare]. *)
Definition table (t : string -> string) (sort : (Profile -> Profile -> Z) -> list Profile -> list Profile)
    (profiles : option (list Profile)) : list Profile * list KindGroup :=
  rows_by_kind t (fun p => Some (component p)) (sort compare (default [] profiles)).

Definition dataFormat (action : Action) (rec : Profile) : string :=
  if (bool_decide (component rec = "tikv") && bool_decide (profile_type rec = "heap"))
     || (bool_decide (component rec = "tiflash") && bool_decide (profile_type rec = "heap"))
  then match action with VIEW_FLAMEGRAPH => "text" | VIEW_GRAPH => "svg" | DOWNLOAD => "jeprof" | VIEW_TEXT => "" end
  else match action with VIEW_GRAPH => "svg" | VIEW_TEXT => "text" | VIEW_FLAMEGRAPH | DOWNLOAD => "protobuf" end.

(** The argument of the request for a token. *)
Definition tokenQuery (ts : string) (action : Action) (rec : Profile) : string :=
  "ts=" +:+ ts +:+ "&profile_type=" +:+ profile_type rec +:+ "&component=" +:+ component rec +:+
  "&address=" +:+ address rec +:+ "&data_format=" +:+ dataFormat action rec.

Definition groupQuery (ts : string) : string := "ts=" +:+ ts +:+ "&data_format=protobuf".

Definition handleClick (apiPathBase publicPathBase : string) (action : Action) (rec : Profile)
    (answer : option string) : option Group.Leads :=
  token ← Group.getActionToken answer;
  let view := apiPathBase +:+ "/continuous_profiling/single_profile/view?token=" +:+ token in
  match action with
  | VIEW_GRAPH | VIEW_TEXT => Some (Group.NewTab view)
  | VIEW_FLAMEGRAPH =>
      let title := component rec +:+ "_" +:+ address rec +:+ "_" +:+ profile_type rec in
      Some (Group.NewTab (Group.speedscope publicPathBase (view +:+ "&output_type=" +:+ dataFormat action rec) title))
  | DOWNLOAD => Some (Group.ToLocation (apiPathBase +:+ "/continuous_profiling/download?token=" +:+ token))
  end.

Definition handleDownloadGroup (apiPathBase : string) (answer : option string) : option Group.Leads :=
  token ← Group.getActionToken answer;
  Some (Group.ToLocation (apiPathBase +:+ "/continuous_profiling/download?token=" +:+ token)).

Record Config := mkConfig { enableDotGraph : bool; enablePreviewGoroutine : bool }.

Definition actionsKey (c : Config) (rec : Profile) : list Action :=
  if bool_decide (profile_type rec = "goroutine")
  then (if enablePreviewGoroutine c then [VIEW_TEXT] else [DOWNLOAD])
  else if enableDotGraph c then [VIEW_FLAMEGRAPH; VIEW_GRAPH; DOWNLOAD] else [VIEW_FLAMEGRAPH; DOWNLOAD].

Definition succeeded (rec : Profile) : bool :=
  bool_decide (state rec = "finished") || bool_decide (state rec = "success").

Inductive ViewAs := ErrorLink (e : string) | NoView | Links (l : list Action).

Definition view_as (c : Config) (rec : Profile) : ViewAs :=
  if bool_decide (state rec = "failed") then ErrorLink (error rec)
  else if negb (succeeded rec) then NoView else Links (actionsKey c rec).

Definition status (rec : Profile) : string :=
  if succeeded rec then "finished" else if bool_decide (state rec = "failed") then "error" else "unknown".

Definition content (upperFirst : string -> string) (profileDuration : Z) (rec : Profile) : string :=
  if bool_decide (profile_type rec = "profile") || bool_decide (profile_type rec = "cpu")
  then "CPU - " +:+ show profileDuration +:+ "s" else upperFirst (profile_type rec).

End Profiles.

(** ** Continuous profiling: the history *)

Module History.

(** The end of the range of the URL, as the page computes it; a date is its seconds. *)
Definition endTime (timeRange : V1.TimeRange) : string :=
  match timeRange with V1.Recent _ => "" | V1.Absolute (_, e) => num_show e end.

Definition setEndTime (durationHour : Z) (v : option Z) : V1.TimeRange :=
  match v with
  | None => V1.Recent (num_of_Z (durationHour * 60 * 60))
  | Some endUnix => V1.Absolute (num_of_Z (endUnix - durationHour * 60 * 60), num_of_Z endUnix)
  end.

(** No date, or one that may be invalid. *)
Definition rangeEndTime (timeRange : V1.TimeRange) : option (option Z) :=
  if bool_decide (endTime timeRange = "") then None else Some (parseInt (endTime timeRange)).

(** The arguments of the request for the groups. *)
Definition request (durationHour now : Z) (timeRange : V1.TimeRange) : option (Z * Z) :=
  e ← default (Some now) (rangeEndTime timeRange); Some (e - durationHour * 60 * 60, e).

Record ComponentNum := mkNum { n_tikv : Z; n_tidb : Z; n_pd : Z; n_tiflash : Z; n_ticdc : option Z; n_tiproxy : option Z }.

Definition targets_text (t : string -> string) (c : ComponentNum) : string :=
  let part n k := show n +:+ " " +:+ instanceKindName t k in
  let s := part (n_tikv c) tikv +:+ ", " +:+ part (n_tidb c) tidb +:+ ", " +:+ part (n_pd c) pd +:+ ", " +:+ part (n_tiflash c) tiflash in
  let s := match n_ticdc c with Some n => s +:+ ", " +:+ part n ticdc | None => s end in
  match n_tiproxy c with Some n => s +:+ ", " +:+ part n tiproxy | None => s end.

Definition status (state : string) : string :=
  if bool_decide (state = "running") then "running"
  else if bool_decide (state = "finished") || bool_decide (state = "success") then "finished"
  else if bool_decide (state = "finished_with_error") || bool_decide (state = "partial failed") then "partial_finished"
  else if bool_decide (state = "failed") then "failed" else "unknown".

(** Whether profiling is off, by the configuration once it is there. *)
Definition conprofIsDisabled (enable : option (option bool)) : bool :=
  bool_decide (enable = Some (Some false)).

Inductive View := DisabledResult | HistoryTable (alert : bool).

Definition view (disabled : bool) (groups : option nat) : View :=
  if disabled && bool_decide (groups = Some O) then DisabledResult
  else HistoryTable (disabled && match groups with Some n => (0 <? n)%nat | None => false end).

End History.

(** ** Continuous profiling: the settings *)

Module Settings.

Definition ONE_DAY_SECONDS : Z := 24 * 60 * 60.
Definition RETENTION_SECONDS : list Z := [3 * ONE_DAY_SECONDS; 5 * ONE_DAY_SECONDS; 10 * ONE_DAY_SECONDS].

(** [sort()] without a comparison sorts by the texts. *)
Fixpoint insert_text (x : Z) (l : list Z) : list Z :=
  match l with
  | [] => [x]
  | y :: l' => if String.ltb (show x) (show y) then x :: l else y :: insert_text x l'
  end.
Definition sort_text (l : list Z) : list Z := fold_left (fun acc x => insert_text x acc) l [].

Definition dataRetentionSeconds (cur : option Z) : list Z :=
  match cur with
  | Some c => if truthy c && negb (existsb (Z.eqb c) RETENTION_SECONDS) && (Z.rem c ONE_DAY_SECONDS =? 0)
              then sort_text (RETENTION_SECONDS ++ [c]) else RETENTION_SECONDS
  | None => RETENTION_SECONDS
  end.

(** The option of a duration: its days. *)
Definition translateSecToDay (t : num -> string) (seconds : Z) : string := t (js_div seconds ONE_DAY_SECONDS).

(** The form: saved at once, or after a confirmation when profiling is switched off. *)
Record Values := mkValues { enable : bool; data_retention_seconds : Z }.
Inductive Form := Editing | Confirming (v : Values) | Submitting (v : Values) | Closed (saved : Values).

Definition handleSubmit (v : Values) : Form := if enable v then Submitting v else Confirming v.
Definition confirm (ok : bool) (f : Form) : Form :=
  match f with Confirming v => if ok then Submitting v else Editing | _ => f end.
Definition posted (success : bool) (f : Form) : Form :=
  match f with Submitting v => if success then Closed v else Editing | _ => f end.

End Settings.

(** ** Tables of targets by kind *)

Section RowsFacts.
Context {A : Type} (t : string -> string) (kind_of : A -> option string).
#[local] Abbreviation of_kind := (of_kind kind_of).

Lemma kind_str_inj k k' : kind_str k = kind_str k' -> k = k'.
Proof. by destruct k, k'. Qed.

(** The rows under the kinds, and the groups the loop makes of them. *)
Definition kind_rows (items : list A) (ks : list InstanceKind) : list A := ks ≫= fun k => of_kind k items.

Fixpoint kind_groups (items : list A) (start : nat) (ks : list InstanceKind) : list KindGroup :=
  match ks with
  | [] => []
  | k :: ks =>
      let n := length (of_kind k items) in
      (if decide (n = 0%nat) then [] else [mkKindGroup k (instanceKindName t k) start n]) ++ kind_groups items (start + n) ks
  end.

Lemma push_rows_spec items s k : rows_start s = length (newRows s) ->
  push_rows t kind_of items s k =
    mkRows (newRows s ++ of_kind k items)
      (newGroups s ++ if decide (length (of_kind k items) = 0%nat) then []
                      else [mkKindGroup k (instanceKindName t k) (rows_start s) (length (of_kind k items))])
      (length (newRows s ++ of_kind k items)).
Proof.
  intros Hs. unfold push_rows. cbv zeta. rewrite length_app, Hs.
  destruct (decide (length (of_kind k items) = 0%nat)) as [E|E].
  - destruct (Z.ltb_spec 0 (Z.of_nat (length (newRows s) + length (of_kind k items)) - Z.of_nat (length (newRows s)))); [lia|].
    by rewrite app_nil_r, E, Nat.add_0_r.
  - destruct (Z.ltb_spec 0 (Z.of_nat (length (newRows s) + length (of_kind k items)) - Z.of_nat (length (newRows s)))); [|lia].
    by replace (length (newRows s) + length (of_kind k items) - length (newRows s))%nat with (length (of_kind k items)) by lia.
Qed.

Lemma fold_rows_spec items ks : forall s, rows_start s = length (newRows s) ->
  let s' := fold_left (push_rows t kind_of items) ks s in
  newRows s' = newRows s ++ kind_rows items ks /\ newGroups s' = newGroups s ++ kind_groups items (rows_start s) ks.
Proof.
  induction ks as [|k ks IH]; intros s Hs; cbn [fold_left kind_groups]; [by rewrite !app_nil_r|].
  rewrite push_rows_spec by done. destruct (IH (mkRows (newRows s ++ of_kind k items)
    (newGroups s ++ if decide (length (of_kind k items) = 0%nat) then []
                    else [mkKindGroup k (instanceKindName t k) (rows_start s) (length (of_kind k items))])
    (length (newRows s ++ of_kind k items))) eq_refl) as [-> ->].
  cbn [newRows newGroups rows_start]. rewrite length_app, Hs, <- !app_assoc. done.
Qed.

(** The groups tile the rows: each covers its rows, all of the items of its kind. *)
Fixpoint tile (items : list A) (start : nat) (gs : list KindGroup) (rows : list A) : Prop :=
  match gs with
  | [] => rows = []
  | g :: gs =>
      kg_start g = start /\ (0 < kg_count g)%nat /\ kg_name g = instanceKindName t (kg_kind g) /\
      take (kg_count g) rows = of_kind (kg_kind g) items /\ length (of_kind (kg_kind g) items) = kg_count g /\
      tile items (start + kg_count g) gs (drop (kg_count g) rows)
  end.

Lemma kind_groups_tile items ks : forall start, tile items start (kind_groups items start ks) (kind_rows items ks).
Proof.
  induction ks as [|k ks IH]; intros start; [done|]. cbn [kind_groups].
  change (kind_rows items (k :: ks)) with (of_kind k items ++ kind_rows items ks).
  destruct (decide (length (of_kind k items) = 0%nat)) as [E|E]; cbn [app].
  - apply nil_length_inv in E. rewrite E. cbn. rewrite Nat.add_0_r. apply IH.
  - cbn [tile kg_start kg_count kg_name kg_kind]. rewrite take_app_length, drop_app_length.
    split_and!; try done. lia.
Qed.

Lemma kind_groups_kinds items ks : forall start, map kg_kind (kind_groups items start ks) = filter (fun k => of_kind k items <> []) ks.
Proof.
  induction ks as [|k ks IH]; intros start; [done|]. cbn [kind_groups]. rewrite map_app, IH, filter_cons.
  destruct (of_kind k items); [by rewrite decide_True, decide_False by auto|by rewrite decide_False, decide_True by done].
Qed.

(** The kinds of the targets that the page knows. *)
Definition known (a : A) : Prop := exists k, kind_of a = Some (kind_str k).

Lemma kind_rows_elem items a : a ∈ kind_rows items InstanceKinds <-> a ∈ items /\ known a.
Proof.
  unfold kind_rows. rewrite list_elem_of_bind. split.
  - intros (k & [Hk Ha]%list_elem_of_filter & _). split; [done|by exists k].
  - intros (Ha & k & Hk). exists k. split; [by apply list_elem_of_filter|apply InstanceKinds_all].
Qed.
End RowsFacts.

(** The tables of both pages of profiles have the targets of the known kinds, those of
    a kind together in the order they came in, and a group for each kind that has some;
    the groups tile the rows in the order of the kinds. *)
Theorem profiling_tables {A} (t : string -> string) (kind_of : A -> option string) (items : list A) :
  let r := rows_by_kind t kind_of items in
  tile t kind_of items 0 (snd r) (fst r) /\
  sublist (map kg_kind (snd r)) InstanceKinds /\
  (forall k, filter (fun a => kind_of a = Some (kind_str k)) (fst r) = filter (fun a => kind_of a = Some (kind_str k)) items) /\
  (forall a, a ∈ fst r <-> a ∈ items /\ known kind_of a).
Proof.
  unfold rows_by_kind. cbv zeta.
  destruct (fold_rows_spec t kind_of items InstanceKinds (mkRows [] [] 0) eq_refl) as [-> ->]. cbn [newRows newGroups rows_start app fst snd].
  split_and!.
  - apply kind_groups_tile.
  - rewrite kind_groups_kinds. apply sublist_filter.
  - intros k. assert (H : forall ks, NoDup ks -> filter (fun a => kind_of a = Some (kind_str k)) (kind_rows kind_of items ks) =
      if decide (k ∈ ks) then of_kind kind_of k items else []); [|rewrite H, decide_True; auto using InstanceKinds_all, InstanceKinds_NoDup].
    induction ks as [|k' ks IH]; intros Hnd; [by rewrite decide_False by apply not_elem_of_nil|].
    apply NoDup_cons in Hnd as [Hk Hnd]. change (kind_rows kind_of items (k' :: ks)) with (of_kind kind_of k' items ++ kind_rows kind_of items ks).
    rewrite filter_app, IH by done. destruct (decide (k = k')) as [->|Hne].
    + rewrite decide_False, decide_True, app_nil_r by (done || by left). apply filter_id, Forall_forall. by intros a [? _]%list_elem_of_filter.
    + rewrite (filter_none (fun a => kind_of a = Some (kind_str k)) (of_kind kind_of k' items)).
      * destruct (decide (k ∈ ks)); [by rewrite decide_True by by right|]. rewrite decide_False; [done|]. by intros [?|?]%elem_of_cons.
      * apply Forall_forall. intros a [Ha _]%list_elem_of_filter. rewrite Ha. intros [= He%kind_str_inj]. congruence.
  - apply kind_rows_elem.
Qed.

(** ** Progress *)

Section ProgressFacts.
Import Group.

(** The rounded percentage of a rational progress. *)
Definition pct (q : Q) : Z := Qfloor (Qred (q * inject_Z 100) + (1 # 2)).

Lemma pct_mono a b : (a <= b)%Q -> pct a <= pct b.
Proof. intros H. unfold pct. apply Qfloor_resp_le. rewrite !Qred_correct. apply Qplus_le_compat; [|apply Qle_refl]. apply Qmult_le_compat_r; [done|discriminate]. Qed.

Definition clamp (q : Q) : Q :=
  let q := if Qltb (99 # 100) q then (99 # 100)%Q else q in if Qltb q (inject_Z 0) then inject_Z 0 else q.

Lemma clamp_cases q :
  (99 # 100 < q /\ clamp q = 99 # 100)%Q \/ (q < 0 /\ clamp q = inject_Z 0)%Q \/ (0 <= q /\ q <= 99 # 100 /\ clamp q = q)%Q.
Proof.
  unfold clamp. destruct (Qltb (99 # 100) q) eqn:H1.
  - apply Qltb_true in H1. by left.
  - apply Qltb_false in H1. destruct (Qltb q (inject_Z 0)) eqn:H2; right.
    + apply Qltb_true in H2. by left.
    + apply Qltb_false in H2. by right.
Qed.

Lemma clamp_bounds q : (0 <= clamp q)%Q /\ (clamp q <= 99 # 100)%Q.
Proof. destruct (clamp_cases q) as [[? ->]|[[? ->]|(? & ? & ->)]]; unfold inject_Z; lra. Qed.

Lemma clamp_mono a b : (a <= b)%Q -> (clamp a <= clamp b)%Q.
Proof.
  intros H. destruct (clamp_cases a) as [[? ->]|[[? ->]|(? & ? & ->)]], (clamp_cases b) as [[? ->]|[[? ->]|(? & ? & ->)]];
    unfold inject_Z in *; lra.
Qed.

Lemma progress_of_fin now start d : 0 < d ->
  progress_of now start d = Fin (clamp (Qred (inject_Z (now - start) / inject_Z d))).
Proof.
  intros Hd. unfold progress_of, js_div. destruct (Z.eqb_spec d 0); [lia|]. cbv zeta.
  set (q := Qred _). unfold clamp. change (num_lt (Fin (99 # 100)) (Fin q)) with (Qltb (99 # 100) q).
  destruct (Qltb (99 # 100) q); [done|]. change (num_lt (Fin q) (num_of_Z 0)) with (Qltb q (inject_Z 0)). by destruct (Qltb q _).
Qed.

Definition percent (now start d : Z) : num := js_round (num_mul (progress_of now start d) (num_of_Z 100)).

(** The percentage of a running task lies between 0 and 99 and does not go back as the
    time of the server goes on.  It is no number for a task without a duration that has
    just started. *)
Lemma progress_percent now start d : 0 < d ->
  exists p, percent now start d = num_of_Z p /\ 0 <= p <= 99 /\
    forall now', now <= now' -> exists p', percent now' start d = num_of_Z p' /\ p <= p'.
Proof.
  intros Hd. set (q now := Qred (inject_Z (now - start) / inject_Z d)).
  assert (H : forall now, percent now start d = num_of_Z (pct (clamp (q now)))).
  { intros n. unfold percent. by rewrite progress_of_fin. }
  exists (pct (clamp (q now))). split; [apply H|]. destruct (clamp_bounds (q now)) as [H0 H1]. split.
  - split; [exact (pct_mono 0 _ H0)|exact (pct_mono _ (99 # 100) H1)].
  - intros now' Hn. exists (pct (clamp (q now'))). split; [apply H|]. apply pct_mono, clamp_mono. unfold q. rewrite !Qred_correct.
    apply Qmult_le_compat_r; [rewrite <- Zle_Qle; lia|]. apply Qinv_le_0_compat. change 0%Q with (inject_Z 0). rewrite <- Zle_Qle. lia.
Qed.

Lemma percent_nothing : percent 5 5 0 = NaN.
Proof. reflexivity. Qed.

(** ** Results of a task *)

(** The kinds of results the page knows how to show. *)
Definition viewable (task : Task) : bool :=
  if truthy (raw_data_type task)
  then bool_decide (raw_data_type task ∈ [Some "protobuf"; Some "jeprof"; Some "text"])
  else bool_decide (kind (target task) ∈ [Some "tidb"; Some "pd"; Some "tikv"; Some "tiflash"]).

Lemma options_viewable task : view_options task = None -> is_Some (options_of task) <-> viewable task = true.
Proof.
  intros Hn. unfold options_of, viewable. rewrite Hn. destruct (raw_data_type task) as [[|a r]|].
  - cbn. repeat case_bool_decide; set_solver.
  - cbn -[bool_decide]. repeat case_bool_decide; set_solver.
  - cbn. repeat case_bool_decide; set_solver.
Qed.

(** A task of an answer cannot be shown exactly when it succeeded with results of a kind
    the page does not know: then the whole table fails to render. *)
Lemma view_as_throws d task : view_options task = None ->
  view_as (mapTask d task) = Throws <-> task_state task = Success /\ viewable task = false.
Proof.
  intros Hn. unfold view_as. cbn [task_state mapTask view_options progress].
  unfold Error, Running, Success.
  destruct (Z.eqb_spec (task_state task) 0) as [E|E]; [by split; [|lia]|].
  destruct (Z.eqb_spec (task_state task) 1) as [E'|E']; [by split; [|lia]|].
  destruct (Z.eqb_spec (task_state task) 2) as [E''|E'']; cbn [negb]; [|by split; [|lia]].
  pose proof (options_viewable task Hn) as [Hv Hv']. destruct (viewable task), (options_of task).
  - by split; [|intros []].
  - by destruct (Hv' eq_refl).
  - by specialize (Hv (mk_is_Some _ _ eq_refl)).
  - done.
Qed.

(** The link to speedscope carries the address of the profile: up to the title it can be
    read back. *)
Lemma speedscope_link pub u title : utf8 u = true ->
  exists e, speedscope pub u title = pub +:+ "/speedscope/#profileURL=" +:+ e +:+ "&title=" +:+ title /\
    has_char "&" e = false /\ has_char "#" e = false /\ decodeURIComponent e = Some u.
Proof.
  intros Hu. exists (encodeURIComponent u). split_and!; [done| | |by apply decode_encode].
  - by apply has_char_encode.
  - by apply has_char_encode.
Qed.

End ProgressFacts.

(** ** Polling *)

Section PollFacts.
Context {E : Type}.
Import Group.

(** The group succeeded, or some of its tasks did. *)
Definition ended (d : Response) : Prop := group_state d = Some 2 \/ group_state d = Some 3.
#[local] Abbreviation unfinished := (Forall (fun d => ~ ended d)).

Lemma finished_ended d : isFinished (Some d) = true <-> ended d.
Proof. unfold isFinished, ended. cbn. by rewrite orb_true_iff, !bool_decide_eq_true. Qed.

Lemma unfinished_ended ds : unfinished ds -> Forall (fun d => isFinished (Some d) = false) ds.
Proof.
  intros Hu. eapply Forall_impl; [exact Hu|]. intros d Hd. apply not_true_iff_false. by rewrite finished_ended.
Qed.

(** C37: While a group of tasks is not finished the page asks for it again after every
    answer; after the first answer that says it is finished, with success or with a part
    of its tasks, there is exactly one more request, which was decided on before, and none
    after it.  A group whose tasks all failed, of state 0, counts as unfinished: it is
    asked for as long as the page is open. *)
Theorem group_polls :
  (forall ds, unfinished ds -> requests (visit (E := E) ds) = S (length ds) /\ is_Some (cancelTokenSource (visit (E := E) ds))) /\
  (forall pre d d' post, unfinished pre -> ended d ->
     requests (visit (E := E) (pre ++ [d])) = S (S (length pre)) /\
     visit (E := E) (pre ++ d :: d' :: post) = visit (pre ++ [d; d']) /\
     resting (S (S (length pre))) (visit (E := E) (pre ++ [d; d']))) /\
  (forall d n, group_state d = Some 0 -> requests (visit (E := E) (replicate n d)) = S n).
Proof.
  split_and!.
  - intros ds Hf%unfinished_ended. by destruct (visit_waiting (E := E) _ ds Hf) as (_ & Hn & Hc & _).
  - intros pre d d' post Hf%unfinished_ended Hd%finished_ended.
    destruct (visit_finished (E := E) _ pre d d' Hf Hd) as ((_ & H1 & _) & H2 & _).
    split_and!; [done|by apply visit_rest|done].
  - intros d n Hd. destruct (visit_waiting (E := E) (fun d => isFinished (Some d)) (replicate n d)) as (_ & Hn & _).
    + apply unfinished_ended, Forall_replicate. unfold ended. rewrite Hd. intros [Hx|Hx]; discriminate Hx.
    + by rewrite length_replicate in Hn.
Qed.

End PollFacts.

(** ** Starting a group *)

Section StartFacts.
Import Start.

(** An instance is profiled at its own port or at that of its status by its kind, one
    without such a port is left out, and no type chosen stands for all of them. *)
Theorem start_request f keys items ty d :
  keys <> [] -> mapM id (f keys) = Some items ->
  exists req, handleFinish (Some f) (mkFields (Some keys) ty d) = Start.Start req /\
    duration_secs req = d /\
    requsted_profiling_types req = map js_toLowerCase (match ty with None | Some [] => profilingTypeOptions | Some l => l end) /\
    requsted_profiling_types req <> [] /\
    (forall n, n ∈ targets req <-> exists i, i ∈ items /\ target_of i = Some n) /\
    (forall n, n ∈ targets req -> node_kind n ∈ [pd; tso; scheduling] ->
       exists i, i ∈ items /\ node_name n = key i /\ node_port n = port (instance i)).
Proof.
  intros Hk Hf. destruct keys as [|k keys]; [done|]. cbn [handleFinish instances type duration]. rewrite Hf.
  eexists. split; [reflexivity|]. cbn [duration_secs requsted_profiling_types targets].
  assert (Ht : forall n, n ∈ omap target_of items <-> exists i, i ∈ items /\ target_of i = Some n).
  { intros n. rewrite list_elem_of_omap. done. }
  split_and!; try done.
  - destruct ty as [[|]|]; done.
  - intros n (i & Hi & Hn)%Ht Hkind. exists i. split; [done|]. unfold target_of, port_of in Hn.
    destruct (instanceKind i) eqn:Hki; cbn in Hn;
      try (destruct (info (instance i)); cbn in Hn; [|done]); injection Hn as <-; cbn in *; try done; set_solver.
Qed.

Lemma start_request_witness :
  let i := mkItem "tikv-0:20160" tikv (mkInstance "10.0.1.1" 20160 (Some 20180)) in
  exists req, handleFinish (Some (fun _ => [Some i])) (mkFields (Some ["tikv-0:20160"]) None 30) = Start.Start req /\
    targets req = [mkNode tikv "tikv-0:20160" "10.0.1.1" 20180].
Proof.
  cbv zeta. destruct (start_request (fun _ => [Some (mkItem "tikv-0:20160" tikv (mkInstance "10.0.1.1" 20160 (Some 20180)))])
    ["tikv-0:20160"] [mkItem "tikv-0:20160" tikv (mkInstance "10.0.1.1" 20160 (Some 20180))] None 30) as (req & Hr & _); [done|done|].
  exists req. split; [done|]. injection Hr as <-. done.
Defined.

End StartFacts.

(** ** Continuous profiling *)

Section ProfilesFacts.
Import Profiles.

(** The comparison of the rows is none: a heap profile of TiKV and a mutex profile of TiDB
    both come after the other, so that the order within a kind depends on the engine. *)
Lemma compare_inconsistent : exists a b, 0 < compare a b /\ 0 < compare b a.
Proof.
  exists (mkProfile "mutex" "success" "" "tidb" "a:1"), (mkProfile "heap" "success" "" "tikv" "b:2"). by vm_compute.
Qed.

Definition plain (s : string) : Prop := forall c, c ∈ ["&"; "+"; "%"]%char -> has_char c s = false.

Lemma parse_plain (l : list (string * string)) :
  Forall (fun p => (forall c, c ∈ ["&"; "+"; "%"; "="; "?"]%char -> has_char c (fst p) = false) /\ plain (snd p)) l ->
  parse_query (js_join "&" (map (fun p => fst p +:+ "=" +:+ snd p) l)) = l.
Proof.
  intros Hl. apply (parse_joined id). eapply Forall_impl; [exact Hl|]. intros p [Hk Hv]. cbn [id].
  split_and!; [intros c Hc; apply Hk; set_solver|apply Hv; set_solver| |];
    apply form_decode_plain; solve [apply Hk; set_solver|apply Hv; set_solver].
Qed.

(** The profiles whose formats differ. *)
Definition heap_of_tikv (rec : Profile) : bool :=
  (bool_decide (component rec = "tikv") && bool_decide (profile_type rec = "heap"))
  || (bool_decide (component rec = "tiflash") && bool_decide (profile_type rec = "heap")).

Lemma heap_spec rec : heap_of_tikv rec = true <-> profile_type rec = "heap" /\ (component rec = "tikv" \/ component rec = "tiflash").
Proof. unfold heap_of_tikv. rewrite orb_true_iff, !andb_true_iff, !bool_decide_eq_true. tauto. Qed.

Lemma text_of_goroutine c rec : VIEW_TEXT ∈ actionsKey c rec -> profile_type rec = "goroutine".
Proof.
  unfold actionsKey. case_bool_decide as Hg; [done|]. intros Ha%list_elem_of_In.
  destruct (enableDotGraph c); cbn in Ha; intuition discriminate.
Qed.

Lemma data_format_set c rec a : a ∈ actionsKey c rec ->
  In (dataFormat a rec) ["text"; "svg"; "jeprof"; "protobuf"] /\ (heap_of_tikv rec = true -> dataFormat a rec <> "protobuf").
Proof.
  intros Ha. unfold dataFormat. fold (heap_of_tikv rec). destruct (heap_of_tikv rec) eqn:Hh.
  - apply heap_spec in Hh as [Hh _]. destruct a; try (by split; cbn; [tauto|]).
    apply text_of_goroutine in Ha. congruence.
  - destruct a; split; cbn; try tauto; done.
Qed.

(** Every action a profile is offered with asks for a format that is set, and the
    server reads the moment, the type, the component, the address and that format out of
    the query, if they are plain texts; the format of the heap profiles of TiKV and
    TiFlash, which are not protobuf, is another one. *)
Theorem offered_formats (c : Config) (ts : string) (rec : Profile) (l : list Action) (a : Action) :
  view_as c rec = Links l -> a ∈ l ->
  plain ts -> plain (profile_type rec) -> plain (component rec) -> plain (address rec) ->
  dataFormat a rec <> "" /\
  (profile_type rec = "heap" -> component rec = "tikv" \/ component rec = "tiflash" -> dataFormat a rec <> "protobuf") /\
  parse_query (tokenQuery ts a rec) =
    [("ts", ts); ("profile_type", profile_type rec); ("component", component rec); ("address", address rec);
     ("data_format", dataFormat a rec)].
Proof.
  intros Hv Ha H1 H2 H3 H4.
  assert (Hl : l = actionsKey c rec).
  { unfold view_as in Hv. case_bool_decide; [done|]. destruct (negb _); [done|]. by injection Hv. }
  subst l. destruct (data_format_set c rec a Ha) as [Hd Hp]. split_and!.
  - cbn in Hd. intuition congruence.
  - intros ??. apply Hp, heap_spec. done.
  - refine (parse_plain [("ts", ts); ("profile_type", profile_type rec); ("component", component rec); ("address", address rec);
     ("data_format", dataFormat a rec)] _).
    assert (Hf : plain (dataFormat a rec)).
    { cbn in Hd. intros x Hx%list_elem_of_In. cbn in Hx. by destruct Hd as [<-|[<-|[<-|[<-|[]]]]], Hx as [<-|[<-|[<-|[]]]]. }
    repeat constructor; cbn [fst snd]; try done; intros x Hx%list_elem_of_In; cbn in Hx;
      by destruct Hx as [<-|[<-|[<-|[<-|[<-|[]]]]]].
Qed.

End ProfilesFacts.

Lemma offered_formats_witness :
  let rec := Profiles.mkProfile "heap" "success" "" "tikv" "10.0.1.1:20180" in
  parse_query (Profiles.tokenQuery "1667264400" Profiles.DOWNLOAD rec) =
    [("ts", "1667264400"); ("profile_type", "heap"); ("component", "tikv"); ("address", "10.0.1.1:20180"); ("data_format", "jeprof")].
Proof.
  apply (offered_formats (Profiles.mkConfig true true) "1667264400" (Profiles.mkProfile "heap" "success" "" "tikv" "10.0.1.1:20180")
    [Profiles.VIEW_FLAMEGRAPH; Profiles.VIEW_GRAPH; Profiles.DOWNLOAD] Profiles.DOWNLOAD); [reflexivity| | | | |].
  - right; right; left.
  - intros c Hc%list_elem_of_In; cbn in Hc; by destruct Hc as [<-|[<-|[<-|[]]]].
  - intros c Hc%list_elem_of_In; cbn in Hc; by destruct Hc as [<-|[<-|[<-|[]]]].
  - intros c Hc%list_elem_of_In; cbn in Hc; by destruct Hc as [<-|[<-|[<-|[]]]].
  - intros c Hc%list_elem_of_In; cbn in Hc; by destruct Hc as [<-|[<-|[<-|[]]]].
Defined.

Section HistoryFacts.
Import History.

(** The page asks for the hours before the date of the form, or before now, and the range
    it writes to the URL is the one it asks for. *)
Lemma history_request h now v :
  request h now (setEndTime h v) = Some (default now v - h * 60 * 60, default now v) /\
  (forall e, v = Some e -> setEndTime h v = V1.Absolute (num_of_Z (e - h * 60 * 60), num_of_Z e)).
Proof.
  split; [|by intros e ->]. destruct v as [e|]; [|done]. unfold request, rangeEndTime, endTime, setEndTime.
  rewrite num_show_Z, bool_decide_eq_false_2 by apply show_nonempty. cbn [default]. unfold id. by rewrite parseInt_show'.
Qed.

(** With profiling off the history is only replaced by the hint when it is known to be
    empty, and with a hint above it when it is known not to be. *)
Lemma history_view d g : view d g = DisabledResult <-> d = true /\ g = Some O.
Proof. unfold view. destruct d, g as [[|]|]; cbn; repeat case_bool_decide; naive_solver. Qed.

End HistoryFacts.

Section SettingsFacts.
Import Settings.

Lemma insert_text_perm x l : insert_text x l ≡ₚ x :: l.
Proof.
  induction l as [|y l IH]; [done|]. cbn [insert_text]. destruct (String.ltb _ _); [done|].
  rewrite IH. apply Permutation_swap.
Qed.

Lemma sort_text_perm l : sort_text l ≡ₚ l.
Proof.
  unfold sort_text. cut (forall acc, fold_left (fun acc x => insert_text x acc) l acc ≡ₚ l ++ acc).
  { intros H. by rewrite H, app_nil_r. }
  induction l as [|x l IH]; intros acc; [done|]. cbn [fold_left]. rewrite IH, insert_text_perm. symmetry. apply Permutation_middle.
Qed.

(** The options of the retention are the three, and the present one when it is a whole
    number of days; they sort by their texts, so that one day comes after five. *)
Lemma retention_options c :
  (c ∈ dataRetentionSeconds (Some c) <-> c ∈ RETENTION_SECONDS \/ (c <> 0 /\ Z.rem c ONE_DAY_SECONDS = 0)) /\
  RETENTION_SECONDS ⊆ dataRetentionSeconds (Some c).
Proof.
  unfold dataRetentionSeconds. destruct (_ && _) eqn:E.
  - apply andb_true_iff in E as [[Ht _]%andb_true_iff Hr%Z.eqb_eq].
    assert (Hc : c <> 0) by (intros ->; done). split.
    + rewrite sort_text_perm. set_solver.
    + intros x Hx. rewrite sort_text_perm. set_solver.
  - split; [|done]. split; [by left|]. intros [H|[H0 Hr]]; [done|]. destruct (existsb (Z.eqb c) RETENTION_SECONDS) eqn:Ex.
    + apply existsb_exists in Ex as (x & Hx & ->%Z.eqb_eq). by apply list_elem_of_In.
    + exfalso. unfold truthy, truthy_Z in E. rewrite Hr in E. cbn in E. destruct (Z.eqb_spec c 0); done.
Qed.

Lemma retention_order : map (fun s => s / ONE_DAY_SECONDS) (dataRetentionSeconds (Some ONE_DAY_SECONDS)) = [3; 5; 1; 10].
Proof. by vm_compute. Qed.

(** Profiling is not switched off without a confirmation. *)
Lemma switched_off_confirmed v ok success w :
  posted success (confirm ok (handleSubmit v)) = Closed w -> w = v /\ success = true /\ (enable v = false -> ok = true).
Proof. unfold handleSubmit. destruct (enable v) eqn:He, ok, success; cbn; try done; intros [= <-]; by rewrite ?He. Qed.

End SettingsFacts.
