(* ===== verification/Selects.v ===== *)
(** * Selects of ui

    Module [Base] is the drop-down of all selects (components/BaseSelect).  Module [Value]
    is what a select with several values does with the selection of Selection: it reports
    the selected keys as its value and takes the value back.  Modules [Multi]
    (components/MultiSelect) and [Instances] (components/InstanceSelect) are the two
    selects, the second over the table of InstanceTable. *)

From S2P Require Import Prelude JsString JsNumber InstanceTable Selection Profiling.

(** ** The drop-down *)

Module Base.

(** [late] is the call the debounced handler of the focus has kept. *)
Record State := mkState { disabled : bool; dropdownVisible : bool; isFocused : bool; late : option bool }.

Definition set_visible (b : bool) (s : State) : State := mkState (disabled s) b (isFocused s) (late s).

Definition toggleDropdownVisible (s : State) : State :=
  if disabled s then s else set_visible (negb (dropdownVisible s)) s.

Inductive Key := ENTER | ESC | OtherKey.
Inductive Event :=
  | FocusOrBlur (isFocus : bool) | Late | KeyDown (k : Key) | SelectorMouseDown
  (* a mouse button pressed anywhere: on the overlay or the container, or elsewhere *)
  | DocumentMouseDown (inside : bool)
  | SetDisabled (b : bool).

Definition handleContainerKeyDown (k : Key) (s : State) : State :=
  match k with ENTER => toggleDropdownVisible s | ESC => set_visible false s | OtherKey => s end.

(** The effect that follows a change of [disabled]. *)
Definition disabledEffect (s : State) : State :=
  set_visible (if dropdownVisible s && negb (disabled s) then false else dropdownVisible s) s.

Definition handle (s : State) (e : Event) : State :=
  match e with
  | FocusOrBlur b => mkState (disabled s) (dropdownVisible s) (isFocused s) (Some b)
  | Late =>
      match late s with
      | Some true => mkState (disabled s) (dropdownVisible s) true None
      | Some false => mkState (disabled s) false false None
      | None => s
      end
  | KeyDown k => handleContainerKeyDown k s
  | SelectorMouseDown => toggleDropdownVisible s
  | DocumentMouseDown inside => if dropdownVisible s && negb inside then set_visible false s else s
  | SetDisabled b =>
      if bool_decide (b = disabled s) then s
      else disabledEffect (mkState b (dropdownVisible s) (isFocused s) (late s))
  end.

Definition opened (disabled : bool) : State := mkState disabled false false None.

(** What is shown: the value, or the placeholder when there is none to show. *)
Definition shown {A} (renderedValue : option A) (placeholder : A) : A := default placeholder renderedValue.

End Base.

(** ** A value over a selection *)

Module Value.
Section Value.
Context {T Sel : Type} `{InnerSelection T Sel} (key_of : T -> string).

Record Select := mkSelect { selection : SelectionWithFilter (T := T) (Sel := Sel); internalVal : option (list string) }.

(** [onSelectionChanged]: the handler of a change reads the selection and sets the value. *)
Definition onSelectionChanged (before : Select) (s : SelectionWithFilter) : Select :=
  if (changes (selection before) <? changes s)%nat
  then let '(l, s') := getAllSelection s in mkSelect s' (Some (map key_of l))
  else mkSelect s (internalVal before).

(** A method of the selection is called. *)
Definition call (f : SelectionWithFilter -> SelectionWithFilter) (p : Select) : Select :=
  onSelectionChanged p (f (selection p)).

(** The effect that follows a change of the value. *)
Definition valueEffect (p : Select) : Select := call (resetAllSelection (default [] (internalVal p))) p.

Definition setValue (v : option (list string)) (p : Select) : Select := valueEffect (mkSelect (selection p) v).
End Value.
Arguments Select : clear implicits.
End Value.

(** ** The select of several items *)

Module Multi.
Import Value.

Record IItem := mkIItem { item_key : string; label : option string }.

Section Multi.
Context {Sel : Type} `{InnerSelection IItem Sel}.

(** The effect that follows a change of the items; [v] is the value that was rendered. *)
Definition itemsEffect (v : option (list string)) (items : option (list IItem)) (p : Select IItem Sel) : Select IItem Sel :=
  let p := call item_key (setAllItems (default [] items)) p in
  call item_key (resetAllSelection (default [] v)) p.

(** The first effects: the value, then the items. *)
Definition mount (inner : Sel) (v : option (list string)) (items : option (list IItem)) : Select IItem Sel :=
  itemsEffect v items (valueEffect item_key (mkSelect (new inner) v)).

Definition cell (node : IItem) : option string :=
  match label node with Some l => Some l | None => Some (item_key node) end.

(** Nothing, for the placeholder, or the number of selected values. *)
Definition renderValue (placeholder : bool) (v : option (list string)) : option nat :=
  if placeholder && match v with None | Some [] => true | Some _ => false end then None
  else Some (length (default [] v)).

Definition filteredItems (keyword : string) (items : list IItem) (filterFn : option (string -> IItem -> bool)) : list IItem :=
  if bool_decide (keyword = "") then items
  else
    let kw := js_toLowerCase keyword in
    filter (fun it => match filterFn with
      | None => js_includes (js_toLowerCase (item_key it)) kw || js_includes (js_toLowerCase (default "" (label it))) kw
      | Some f => f keyword it
      end = true) items.

(** [Plain]: the items are their keys. *)
Definition objectItems (items : option (list string)) : list IItem :=
  default [] (map (fun v => mkIItem v None) <$> items).
End Multi.
End Multi.

(** ** The select of instances *)

Module Instances.
Import Value.

Section Instances.
Context {Info Sel : Type} `{InnerSelection (@IInstanceTableItem Info) Sel}.
#[local] Abbreviation Item := (@IInstanceTableItem Info).
Context (t : string -> string).

(** The rows, once every answer is there. *)
Definition tableItems (loading : list bool) (p : @IBuildInstanceTableProps Info) : list Item :=
  if existsb id loading then [] else fst (buildInstanceTable t p).

Record State := mkState { select : Select Item Sel; dataHasLoaded : bool }.

Definition tableEffect (defaultSelectAll : bool) (items : list Item) (s : State) : State :=
  if dataHasLoaded s then s
  else match items with
  | [] => s
  | _ =>
      let p := select s in
      let p := call key (on_inner (inner_setChangeEvents false None)) p in
      let p := call key (setAllItems items) p in
      let p := match internalVal (select s) with
               | Some (k :: ks) => call key (resetAllSelection (k :: ks)) p
               | _ => if defaultSelectAll then call key (setAllSelectionSelected true) p else p
               end in
      let p := call key (on_inner (inner_setChangeEvents true None)) p in
      mkState p true
  end.

Definition keyToItemMap (items : list Item) : list (string * Item) :=
  fold_left (fun m i => map_set (key i) i m) items [].

Definition getInstanceByKeys (items : list Item) (keys : list string) : list (option Item) :=
  map (fun k => snd <$> find (fun e => bool_decide (fst e = k)) (keyToItemMap items)) keys.

Definition getInstanceByKey (items : list Item) (k : string) : option Item :=
  default None (head (getInstanceByKeys items [k])).

(** The text of the value. *)
Record InstanceStat := mkStat { all : nat; selected : nat }.

Definition stat_of (items : list Item) (selectedKeys : list string) (k : InstanceKind) : InstanceStat :=
  fold_left (fun s i =>
    if decide (instanceKind i = k)
    then mkStat (S (all s)) (if bool_decide (key i ∈ selectedKeys) then S (selected s) else selected s)
    else s) items (mkStat 0 0).

Inductive Part := AllOf (k : InstanceKind) | SomeOf (n : nat) (k : InstanceKind).
Inductive Text := AllInstances | Parts (l : list Part).

(** The kinds in the order in which their statistics are made. *)
Definition stat_kinds : list InstanceKind := [pd; tidb; tikv; tiflash; ticdc; tiproxy; tso; scheduling].

Definition stats (items : list Item) (selectedKeys : list string) : list (InstanceKind * InstanceStat) :=
  map (fun k => (k, stat_of items selectedKeys k)) stat_kinds.

Definition parts (items : list Item) (selectedKeys : list string) : list Part :=
  omap (fun '(k, s) =>
    if (0 <? selected s)%nat
    then Some (if Nat.eqb (all s) (selected s) then AllOf k else SomeOf (selected s) k) else None)
    (stats items selectedKeys).

Definition text (items : list Item) (selectedKeys : list string) : Text :=
  if existsb (fun '(_, s) => negb (Nat.eqb (selected s) (all s))) (stats items selectedKeys)
  then Parts (parts items selectedKeys) else AllInstances.

Definition renderValue (items : list Item) (selectedKeys : option (list string)) : option Text :=
  match items, selectedKeys with
  | [], _ | _, None | _, Some [] => None
  | _, Some l => Some (text items l)
  end.
End Instances.
End Instances.

(** ** The drop-down *)

Section BaseFacts.
Import Base.

Lemma keeps_disabled s e : (forall b, e <> SetDisabled b) -> disabled (handle s e) = disabled s.
Proof.
  destruct e as [b| |k| |i|b]; intros H; try done.
  - cbn. by destruct (late s) as [[]|].
  - destruct k; cbn; [|done..]. unfold toggleDropdownVisible. by destruct (disabled s) eqn:E.
  - cbn. unfold toggleDropdownVisible. by destruct (disabled s) eqn:E.
  - cbn. by destruct (_ && _).
  - by destruct (H b).
Qed.

Lemma stays_closed s e : (forall b, e <> SetDisabled b) -> disabled s = true -> dropdownVisible s = false ->
  dropdownVisible (handle s e) = false.
Proof.
  destruct e as [b| |k| |i|b]; intros H Hd Hv; cbn; try done.
  - by destruct (late s) as [[]|].
  - destruct k; cbn; [|done..]. unfold toggleDropdownVisible. by rewrite Hd.
  - unfold toggleDropdownVisible. by rewrite Hd.
  - by rewrite Hv.
  - by destruct (H b).
Qed.

(** A select that is disabled and closed stays closed until it is enabled.  One that
    is disabled while it is open stays open, and the mouse on it does not close it: the
    effect that should close it acts when the select is enabled, and closes nothing then
    that is not open. *)
Theorem disabled_select :
  (forall es s, Forall (fun e => forall b, e <> SetDisabled b) es -> disabled s = true -> dropdownVisible s = false ->
     dropdownVisible (fold_left handle es s) = false) /\
  (let s := fold_left handle [SelectorMouseDown; SetDisabled true; SelectorMouseDown; KeyDown ENTER] (opened false) in
   disabled s = true /\ dropdownVisible s = true /\ dropdownVisible (handle s (SetDisabled false)) = false).
Proof.
  split; [|done]. intros es. induction es as [|e es IH]; intros s Hes Hd Hv; [done|].
  apply Forall_cons in Hes as [He Hes]. apply IH; [done|by rewrite keeps_disabled|by apply stays_closed].
Qed.

End BaseFacts.

(** ** The selection of a select *)

Section Coherent.
Context {T Sel : Type} `{InnerLaws T Sel}.
Implicit Types s : SelectionWithFilter (T := T) (Sel := Sel).

(** The keys of all selected items agree with the inner object, and what was read last is
    what is selected. *)
Definition coherent s : Prop :=
  wf s /\ synced s /\ NoDup (_allSelectedKeysSet s) /\
  (forall l, _allSelectionCache s = Some l ->
     l = collect s /\ _allSelectedKeysSet s = fold_left (fun ks i => set_add (getKey i) ks) l []).

Lemma coherent_uncached s : wf s -> synced s -> NoDup (_allSelectedKeysSet s) -> _allSelectionCache s = None -> coherent s.
Proof. intros ??? Hc. split_and!; [done..|]. by rewrite Hc. Qed.

Lemma coherent_get s : coherent s -> fst (getAllSelection s) = collect s.
Proof. intros (_ & _ & _ & Hl). unfold getAllSelection. destruct (_allSelectionCache s) as [l|]; [|done]. by apply Hl. Qed.

Lemma coherent_read s : coherent s ->
  let s' := snd (getAllSelection s) in
  coherent s' /\ collect s' = collect s /\ _allItemsMap s' = _allItemsMap s /\ is_Some (_allSelectionCache s').
Proof.
  intros Hco. pose proof Hco as (Hw & Hs & Hn & Hl). cbv zeta. destruct (_allSelectionCache s) as [l|] eqn:Hc.
  - unfold getAllSelection. rewrite Hc. cbn. by rewrite Hc.
  - destruct (getAllSelection_sync s Hw Hc) as (_ & H1 & H2 & H3 & _ & H5). split_and!; [|done| |by rewrite H3; eauto].
    + split_and!; [by apply getAllSelection_wf|done..|]. rewrite H3. intros l [= <-]. split; [done|].
      unfold getAllSelection. by rewrite Hc.
    + unfold getAllSelection. by rewrite Hc.
Qed.

Lemma coherent_new (inner : Sel) : inner_getItems inner = [] -> coherent (new inner).
Proof.
  intros Hi. apply coherent_uncached; [by apply selection_new_wf| |apply NoDup_nil_2|done].
  intros k Hk. by apply elem_of_nil in Hk.
Qed.

Lemma coherent_events b c s : coherent s ->
  coherent (on_inner (inner_setChangeEvents b c) s) /\ collect (on_inner (inner_setChangeEvents b c) s) = collect s /\
  _allItemsMap (on_inner (inner_setChangeEvents b c) s) = _allItemsMap s.
Proof.
  intros (Hw & Hs & Hn & Hl). set (s' := on_inner _ s).
  destruct (on_inner_frame (inner_setChangeEvents b c) s) as (H1 & _ & H3 & H4 & H5 & _). fold s' in H1, H3, H4, H5.
  assert (Hk : forall k, inner_isKeySelected (_inner s') k = inner_isKeySelected (_inner s) k) by (intros k; by rewrite H1, events_selected).
  assert (Hc : collect s' = collect s).
  { unfold collect. rewrite H3, H4, H5. f_equal. apply list_filter_iff. intros [k x]. by rewrite Hk. }
  split_and!; [|done|done]. split_and!.
  - apply wf_frame; [|done]. intros. apply events_items.
  - intros k. rewrite H4, H5, Hk. apply Hs.
  - by rewrite H4.
  - intros l Hl'. rewrite Hc, H4. apply Hl. subst s'. unfold on_inner in Hl'. by destruct (snd _).
Qed.

Lemma coherent_setAllItems items s : coherent s -> coherent (setAllItems items s) /\
  _allItemsMap (setAllItems items s) = fold_left (fun m i => map_set (getKey i) i m) items [].
Proof.
  intros (Hw & Hs & Hn & _). pose proof (setAllItems_wf items s Hw) as Hw'. revert Hw'. unfold setAllItems. cbv zeta.
  set (s1 := with_all_items _ _ _). destruct (Nat.eqb _ _) eqn:E; intros Hw'.
  - split; [|done]. by apply coherent_uncached.
  - destruct (setItems_state (filter (fun i => map_has (getKey i) (_allItemsMap s1) = true) (inner_getItems (_inner s1))) s1)
      as (Hm & Hsel & _ & _ & _ & Hc). split; [|by rewrite Hm].
    apply coherent_uncached; [done|apply setItems_synced|by rewrite Hsel|done].
Qed.

Lemma coherent_reset keys s : coherent s -> NoDup keys ->
  coherent (resetAllSelection keys s) /\ collect (resetAllSelection keys s) = chosen keys (_allItemsMap s) /\
  _allItemsMap (resetAllSelection keys s) = _allItemsMap s.
Proof.
  intros (Hw & Hs & Hn & Hl) Hk. destruct (unChanged keys s) eqn:Hu.
  - unfold resetAllSelection. rewrite Hu. split_and!; [done| |done].
    rewrite collect_synced by done. apply chosen_ext. by apply unChanged_keys.
  - destruct (resetAllSelection_update keys s Hw Hu) as (Hc & Hs' & Hm & Hk'). split_and!; [| |done].
    + apply coherent_uncached; [by apply resetAllSelection_wf|done| |done].
      unfold resetAllSelection. rewrite Hu. cbn. rewrite on_inner_selected, select_keys_sel, !on_inner_selected. cbn.
      cut (forall acc, NoDup acc -> NoDup (fold_left (fun l k => if map_has k (_allItemsMap s) then set_add k l else l) keys acc));
        [intros Hf; apply Hf, NoDup_nil_2|]. clear. induction keys as [|k keys IH]; intros acc Ha; [done|]. cbn [fold_left].
      apply IH. destruct (map_has _ _); [by apply set_add_NoDup|done].
    + rewrite collect_synced, Hm by done. by apply chosen_ext.
Qed.

(** What was read last is what is selected, so that taking it back changes nothing. *)
Lemma reset_read s l : coherent s -> _allSelectionCache s = Some l -> resetAllSelection (map getKey l) s = s.
Proof.
  intros (Hw & Hs & Hn & Hl) Hc. destruct (Hl l Hc) as [-> Hset]. unfold resetAllSelection.
  assert (Hin : Forall (fun k => k ∈ map fst (_allItemsMap s) /\ k ∈ _allSelectedKeysSet s) (map getKey (collect s))).
  { apply Forall_forall. intros k Hk. split; [by apply collect_keys in Hk as [? _]|].
    rewrite Hset. apply fold_set_add_elem. by right. }
  assert (Hnd : NoDup (map getKey (collect s))).
  { destruct Hw as (Hnd & Hk & _). unfold collect. rewrite map_map.
    eapply sublist_NoDup; [exact Hnd|]. rewrite (map_ext_in _ fst).
    - apply (fmap_sublist fst), sublist_filter.
    - intros [k x] Hi. apply list_elem_of_In, list_elem_of_filter in Hi as [_ Hi]. rewrite Forall_forall in Hk. by apply Hk in Hi. }
  assert (Hlen : length (_allSelectedKeysSet s) = length (map getKey (collect s))).
  { rewrite Hset. revert Hnd. generalize (collect s). intros l Hnd.
    cut (forall acc, NoDup (acc ++ map getKey l) -> length (fold_left (fun ks i => set_add (getKey i) ks) l acc) = (length acc + length (map getKey l))%nat);
      [intros Hf; by apply (Hf [])|]. clear. induction l as [|i l IH]; intros acc Hn; [cbn; lia|]. cbn [fold_left map length].
    cbn [map] in Hn. assert (Hi : getKey i ∉ acc) by (apply NoDup_app in Hn as (_ & Hd & _); intros Hi; apply (Hd _ Hi); by left).
    unfold set_add at 2. rewrite decide_False by done. rewrite IH; [rewrite length_app; cbn; lia|]. by rewrite <- app_assoc. }
  assert (Hun : unChanged (map getKey (collect s)) s = true); [|by rewrite Hun].
  unfold unChanged. revert Hin Hlen. generalize (map getKey (collect s)). intros ks Hin Hlen.
  cut (forall n, unchanged_loop ks n s = (true, n + length ks)%nat); [intros Hf; rewrite Hf; cbn; by apply Nat.eqb_eq|].
  clear Hlen. induction Hin as [|k ks [Hk1 Hk2] _ IH]; intros n; cbn [unchanged_loop length]; [by rewrite Nat.add_0_r|].
  unfold map_has. rewrite bool_decide_eq_true_2 by done. unfold has. rewrite bool_decide_eq_true_2 by done. rewrite IH. f_equal. lia.
Qed.

End Coherent.

(** ** The value of a select *)

Section ValueFacts.
Context {T Sel : Type} `{InnerLaws T Sel} (key_of : T -> string).
Hypothesis key_getKey : forall i : T, getKey i = key_of i.
Import Value.
Implicit Types p : Select T Sel.

Definition keys_of p : list string := map key_of (collect (selection p)).

(** A call reports the selection, or it leaves the value as it is. *)
Lemma call_spec f p : coherent (f (selection p)) ->
  let p' := call key_of f p in
  coherent (selection p') /\ collect (selection p') = collect (f (selection p)) /\
  _allItemsMap (selection p') = _allItemsMap (f (selection p)) /\
  (internalVal p' = internalVal p \/ internalVal p' = Some (keys_of p')) /\
  ((changes (selection p) < changes (f (selection p)))%nat ->
     internalVal p' = Some (keys_of p') /\ is_Some (_allSelectionCache (selection p'))).
Proof.
  intros Hco. unfold call, onSelectionChanged. destruct (Nat.ltb_spec (changes (selection p)) (changes (f (selection p)))) as [Hlt|Hge].
  - pose proof (coherent_get _ Hco) as Hg. destruct (coherent_read _ Hco) as (H1 & H2 & H3 & H4).
    destruct (getAllSelection (f (selection p))) as [l s']. cbn in *. subst l. unfold keys_of. cbn. rewrite H2. by split_and!; auto.
  - cbn. split_and!; auto. lia.
Qed.

(** The value that was reported can be given back: nothing changes. *)
Lemma value_stable p : coherent (selection p) -> is_Some (_allSelectionCache (selection p)) -> internalVal p = Some (keys_of p) ->
  valueEffect key_of p = p.
Proof.
  intros Hco [l Hl] Hv. unfold valueEffect. rewrite Hv. cbn [default]. unfold id, keys_of.
  assert (Hc : l = collect (selection p)) by (destruct Hco as (_ & _ & _ & Hx); by apply Hx).
  assert (Hm : map key_of (collect (selection p)) = map getKey l) by (subst l; apply map_ext; intros i; by rewrite key_getKey).
  unfold call. rewrite Hm, reset_read by done. unfold onSelectionChanged. rewrite Nat.ltb_irrefl. unfold keys_of in Hv. destruct p as [s v]. cbn in Hv |- *. by rewrite Hv.
Qed.

Lemma on_inner_changes f (s : SelectionWithFilter (T := T) (Sel := Sel)) : (changes s <= changes (on_inner f s))%nat.
Proof. unfold on_inner. destruct (snd _); cbn; lia. Qed.

Lemma select_keys_changes test ks : forall s : SelectionWithFilter (T := T) (Sel := Sel), (changes s <= changes (select_keys test ks s))%nat.
Proof.
  induction ks as [|k ks IH]; intros s; [done|]. rewrite select_keys_cons. etrans; [|apply IH].
  destruct (test k); [apply on_inner_changes|done].
Qed.

(** An update of the selection is reported unless it is avoided. *)
Lemma reset_changes keys (s : SelectionWithFilter (T := T) (Sel := Sel)) :
  unChanged keys s = false -> (changes s < changes (resetAllSelection keys s))%nat.
Proof.
  intros Hu. unfold resetAllSelection. rewrite Hu. cbn -[on_inner select_keys]. apply Nat.lt_succ_r.
  etrans; [|apply on_inner_changes]. etrans; [|apply select_keys_changes]. etrans; [|apply on_inner_changes].
  exact (on_inner_changes _ (with_selected _ s)).
Qed.

Lemma reset_all_changes b (s : SelectionWithFilter (T := T) (Sel := Sel)) : (changes s < changes (setAllSelectionSelected b s))%nat.
Proof.
  unfold setAllSelectionSelected. cbn -[on_inner]. apply Nat.lt_succ_r. etrans; [|apply on_inner_changes].
  destruct b; (etrans; [|apply on_inner_changes]); cbn -[on_inner]; exact (on_inner_changes _ s).
Qed.

Lemma reset_call keys p : coherent (selection p) -> NoDup keys ->
  let p' := call key_of (resetAllSelection keys) p in
  coherent (selection p') /\ collect (selection p') = chosen keys (_allItemsMap (selection p)) /\
  _allItemsMap (selection p') = _allItemsMap (selection p) /\
  ((unChanged keys (selection p) = true /\ p' = p) \/ (internalVal p' = Some (keys_of p') /\ is_Some (_allSelectionCache (selection p')))).
Proof.
  intros Hco Hk. destruct (coherent_reset keys _ Hco Hk) as (H1 & H2 & H3).
  destruct (call_spec (resetAllSelection keys) p H1) as (G1 & G2 & G3 & _ & G5).
  cbv zeta. rewrite G2, G3, H2, H3. split_and!; [done..|].
  destruct (unChanged keys (selection p)) eqn:Hu; [left|right; by apply G5, reset_changes].
  split; [done|]. unfold call, resetAllSelection. rewrite Hu. unfold onSelectionChanged. rewrite Nat.ltb_irrefl. by destruct p.
Qed.

Lemma setAllItems_selected items (s : SelectionWithFilter (T := T) (Sel := Sel)) :
  _allSelectedKeysSet (setAllItems items s) = _allSelectedKeysSet s.
Proof.
  unfold setAllItems. cbv zeta. destruct (Nat.eqb _ _); [done|].
  match goal with |- _ (setItems ?l None ?x) = _ => by destruct (setItems_state l x) as (_ & -> & _) end.
Qed.

Lemma items_call items p : coherent (selection p) ->
  let p' := call key_of (setAllItems items) p in
  coherent (selection p') /\ _allItemsMap (selection p') = fold_left (fun m i => map_set (getKey i) i m) items [] /\
  (p' = mkSelect (setAllItems items (selection p)) (internalVal p) \/ internalVal p' = Some (keys_of p')).
Proof.
  intros Hco. destruct (coherent_setAllItems items _ Hco) as (H1 & H2).
  destruct (call_spec (setAllItems items) p H1) as (G1 & _ & G3 & _ & G5). cbv zeta. rewrite G3, H2. split_and!; [done..|].
  unfold call, onSelectionChanged in *. destruct (Nat.ltb_spec (changes (selection p)) (changes (setAllItems items (selection p)))); [right|by left].
  by apply G5.
Qed.

Lemma events_call b c p : coherent (selection p) ->
  let p' := call key_of (on_inner (inner_setChangeEvents b c)) p in
  coherent (selection p') /\ collect (selection p') = collect (selection p) /\
  _allItemsMap (selection p') = _allItemsMap (selection p) /\
  (internalVal p' = internalVal p \/ internalVal p' = Some (keys_of p')).
Proof.
  intros Hco. destruct (coherent_events b c _ Hco) as (H1 & H2 & H3).
  destruct (call_spec (on_inner (inner_setChangeEvents b c)) p H1) as (G1 & G2 & G3 & G4 & _).
  cbv zeta. rewrite G2, G3, H2, H3. done.
Qed.

(** The dictionary of items with different keys lists them in their order. *)
Lemma items_map (items : list T) : NoDup (map getKey items) ->
  fold_left (fun m i => map_set (getKey i) i m) items [] = map (fun i => (getKey i, i)) items.
Proof.
  intros Hn. cut (forall m, NoDup (map fst m ++ map getKey items) ->
    fold_left (fun m i => map_set (getKey i) i m) items m = m ++ map (fun i => (getKey i, i)) items); [intros Hf; by apply (Hf [])|].
  clear Hn. induction items as [|i items IH]; intros m Hn; [by rewrite app_nil_r|]. cbn [fold_left map].
  cbn [map] in Hn. assert (Hm : map_set (getKey i) i m = m ++ [(getKey i, i)]).
  { apply NoDup_app in Hn as (_ & Hd & _). assert (Hi : getKey i ∉ map fst m) by (intros Hi; apply (Hd _ Hi); by left).
    clear Hd IH. induction m as [|[k x] m IH]; [done|]. cbn [map_set]. cbn in Hi.
    rewrite decide_False by (intros ->; apply Hi; left). cbn. f_equal. apply IH. intros ?. apply Hi. by right. }
  rewrite Hm, IH; rewrite <- ?app_assoc; [done|]. by rewrite map_app, <- app_assoc.
Qed.

Lemma chosen_items keys (items : list T) :
  chosen keys (map (fun i => (getKey i, i)) items) = filter (fun i => key_of i ∈ keys) items.
Proof.
  unfold chosen. induction items as [|i items IH]; [done|]. cbn [map]. rewrite !filter_cons. cbn [fst].
  destruct (decide (key_of i ∈ keys)) as [Hi|Hi].
  - rewrite decide_True by (by apply has_true; rewrite key_getKey). cbn [map snd]. by rewrite IH.
  - rewrite decide_False by (by rewrite has_true, key_getKey). apply IH.
Qed.
End ValueFacts.

(** ** The select of several items *)

Section MultiFacts.
Context {Sel : Type} `{InnerLaws Multi.IItem Sel}.
Import Value Multi.
Hypothesis key_getKey : forall i : IItem, getKey i = item_key i.

(** When the items of a select change, the items of the value that was rendered are
    selected, also those that were not there before, in the order of the items; the value
    stays or is their keys, which can be given back without an effect.  When the items
    become empty, as while they are asked for again, the value is lost. *)
Theorem multi_select_items (v : option (list string)) (items : option (list IItem)) (p : Select IItem Sel) :
  coherent (selection p) -> NoDup (default [] v) -> NoDup (map item_key (default [] items)) ->
  let p' := itemsEffect v items p in
  fst (getAllSelection (selection p')) = filter (fun i => item_key i ∈ default [] v) (default [] items) /\
  (internalVal p' = internalVal p \/ internalVal p' = Some (map item_key (fst (getAllSelection (selection p'))))) /\
  (internalVal p' = Some (map item_key (fst (getAllSelection (selection p')))) -> is_Some (_allSelectionCache (selection p')) ->
     valueEffect item_key p' = p') /\
  (items = None -> _allSelectedKeysSet (selection p) <> [] -> internalVal p' = Some []).
Proof.
  intros Hco Hv Hi. unfold itemsEffect. cbv zeta.
  destruct (items_call item_key (default [] items) p Hco) as (H1 & H2 & H3).
  set (p1 := call item_key (setAllItems (default [] items)) p) in *.
  assert (Hk : map getKey (default [] items) = map item_key (default [] items)) by (apply map_ext, key_getKey).
  rewrite items_map in H2 by (by rewrite Hk).
  destruct (reset_call item_key (default [] v) p1 H1 Hv) as (G1 & G2 & G3 & G4). rewrite H2, (chosen_items item_key key_getKey) in G2.
  rewrite (coherent_get _ G1). split_and!; [done| | |].
  - destruct G4 as [[_ ->]|[-> _]]; [|by right]. destruct H3 as [->|H3]; [by left|by right].
  - intros Hval Hc. by apply value_stable.
  - intros -> Hset. destruct G4 as [[Hu ->]|[-> _]]; [|unfold keys_of; by rewrite G2].
    destruct H3 as [H3| ->].
    + exfalso. rewrite H3 in Hu, H2. cbn in Hu, H2. apply Hset. rewrite <- (setAllItems_selected [] (selection p)).
      apply nil_length_inv. unfold unChanged in Hu. destruct (unchanged_loop _ _ _) as [u n] eqn:Hl.
      apply andb_true_iff in Hu as [-> Hn%Nat.eqb_eq]. apply unchanged_loop_true in Hl as [-> _]. rewrite <- Hn.
      rewrite filter_none; [done|]. apply Forall_forall. intros k _. by rewrite H2.
    + unfold keys_of, collect. by rewrite H2.
Qed.
End MultiFacts.

(** ** The select of instances *)

Section InstancesFacts.
Context {Info Sel : Type} `{InnerLaws (@IInstanceTableItem Info) Sel}.
Import Value Instances.
#[local] Abbreviation Item := (@IInstanceTableItem Info).
Hypothesis key_getKey : forall i : Item, getKey i = key i.

(** The value is that of the selection and can be given back. *)
Definition settled (p : Select Item Sel) : Prop :=
  coherent (selection p) /\ is_Some (_allSelectionCache (selection p)) /\ internalVal p = Some (keys_of key p).

Lemma settled_events b c p : settled p ->
  settled (call key (on_inner (inner_setChangeEvents b c)) p) /\
  collect (selection (call key (on_inner (inner_setChangeEvents b c)) p)) = collect (selection p).
Proof.
  intros (Hco & Hc & Hv). destruct (events_call key b c p Hco) as (H1 & H2 & _). split; [|done].
  destruct (coherent_events b c _ Hco) as (E1 & E2 & _). destruct (call_spec key _ p E1) as (_ & _ & _ & _ & G).
  unfold settled, keys_of. rewrite H2. split; [done|]. destruct (Nat.ltb_spec (changes (selection p)) (changes (on_inner (inner_setChangeEvents b c) (selection p)))) as [Hlt|Hge].
  - destruct (G Hlt) as [-> G']. unfold keys_of. by rewrite H2.
  - unfold call, onSelectionChanged. destruct (Nat.ltb_spec (changes (selection p)) (changes (on_inner (inner_setChangeEvents b c) (selection p)))); [lia|].
    cbn. split; [|done]. unfold on_inner in *. destruct (snd _); [cbn in Hge; lia|done].
Qed.

(** The effect of the rendered value on a new selection. *)
Lemma value_new (inner : Sel) v : valueEffect key (mkSelect (new inner) v) = mkSelect (new inner) v.
Proof.
  unfold valueEffect, call. cbn [selection internalVal]. assert (Hu : unChanged (T := Item) (default [] v) (new inner) = true).
  { unfold unChanged. cut (forall ks n, unchanged_loop (T := Item) ks n (new inner) = (true, n)); [intros ->; done|].
    induction ks as [|k ks IH]; intros n; [done|]. cbn [unchanged_loop]. apply IH. }
  unfold resetAllSelection. rewrite Hu. unfold onSelectionChanged. by rewrite Nat.ltb_irrefl.
Qed.

(** Nothing is selected. *)
Definition nothing (s : SelectionWithFilter (T := Item) (Sel := Sel)) : Prop := coherent s /\ _allSelectedKeysSet s = [].

Lemma nothing_collect s : nothing s -> collect s = [].
Proof.
  intros [(_ & Hs & _) Hset]. rewrite collect_synced, Hset by done. unfold chosen. rewrite filter_none; [done|].
  apply Forall_forall. intros e _. by apply not_true_iff_false.
Qed.

Lemma nothing_call f p : nothing (f (Value.selection p)) -> nothing (Value.selection (call key f p)).
Proof.
  intros Hn. pose proof (nothing_collect _ Hn) as Hc. destruct Hn as [Hco Hset].
  destruct (call_spec key f p Hco) as (H1 & _). split; [done|]. unfold call, onSelectionChanged.
  destruct (Nat.ltb _ _); [|done]. unfold getAllSelection. destruct (_allSelectionCache _); [done|]. cbn. by rewrite Hc.
Qed.

Lemma nothing_loading (inner : Sel) v items : inner_getItems inner = [] ->
  nothing (Value.selection (call key (setAllItems items) (call key (on_inner (inner_setChangeEvents false None)) (mkSelect (new inner) v)))).
Proof.
  intros Hin. assert (H1 : nothing (Value.selection (call key (on_inner (inner_setChangeEvents false None)) (mkSelect (new inner) v)))).
  { apply nothing_call. split; [by apply coherent_events, coherent_new|]. cbn [Value.selection]. by rewrite on_inner_selected. }
  apply nothing_call. destruct H1 as [H1 H2]. split; [by apply coherent_setAllItems|by rewrite setAllItems_selected].
Qed.

Lemma select_all_call p : coherent (selection p) ->
  let p' := call key (setAllSelectionSelected true) p in
  settled p' /\ collect (selection p') = map snd (_allItemsMap (selection p)).
Proof.
  intros Hco. pose proof Hco as (Hw & _). pose proof (setAllSelectionSelected_selects _ true Hw) as Hsel. cbv iota in Hsel.
  assert (Hc : _allSelectionCache (setAllSelectionSelected true (selection p)) = None) by done.
  assert (Hw' : wf (setAllSelectionSelected true (selection p))) by (by apply setAllSelectionSelected_wf).
  rewrite getAllSelection_none in Hsel by done. destruct (getAllSelection_sync _ Hw' Hc) as (F1 & F2 & F3 & F4 & _ & F6).
  unfold call, onSelectionChanged. pose proof (reset_all_changes true (selection p)) as Hlt. apply Nat.ltb_lt in Hlt as ->.
  rewrite (surjective_pairing (getAllSelection _)). cbv zeta. unfold settled, keys_of. cbn [selection internalVal].
  rewrite F3, F1, <- Hsel. split_and!; [|by rewrite F4; eauto|done|done].
  split_and!; [by apply getAllSelection_wf|done|done|]. rewrite F4. intros l [= <-]. split; [done|].
  unfold getAllSelection. by rewrite Hc.
Qed.

Lemma filter_keys_lookup (items : list Item) (l : list Item) : NoDup (map key items) -> (forall i, i ∈ l -> i ∈ items) ->
  getInstanceByKeys items (map key l) = map Some l.
Proof.
  intros Hn Hl. unfold getInstanceByKeys, keyToItemMap. rewrite map_map. apply map_ext_in. intros i Hi%list_elem_of_In%Hl.
  assert (Hg : map getKey items = map key items) by (apply map_ext, key_getKey).
  replace (fold_left (fun m i => map_set (key i) i m) items []) with (fold_left (fun m i => map_set (getKey i) i m) items []).
  2: { generalize (@nil (string * Item)). clear -key_getKey. induction items as [|j items IH]; intros m; [done|]. cbn [fold_left]. by rewrite key_getKey, IH. }
  rewrite items_map by (by rewrite Hg). clear Hl Hg. induction items as [|j items IH]; [by apply elem_of_nil in Hi|].
  cbn [map find fst] in *. apply NoDup_cons in Hn as [Hj Hn]. rewrite key_getKey. case_bool_decide as E; [|apply elem_of_cons in Hi as [->|Hi]; [done|by apply IH]].
  apply elem_of_cons in Hi as [->|Hi]; [done|]. destruct Hj. rewrite E. by apply list_elem_of_fmap_2.
Qed.

(** What the table of instances does when it is there. *)
Lemma loaded_spec (inner : Sel) (v : option (list string)) (dsa : bool) (items : list Item) :
  inner_getItems inner = [] -> NoDup (default [] v) -> NoDup (map key items) -> items <> [] ->
  let s := tableEffect dsa items (mkState (valueEffect key (mkSelect (new inner) v)) false) in
  let l := fst (getAllSelection (Value.selection (select s))) in
  l = (if bool_decide (default [] v = []) then if dsa then items else [] else filter (fun i => key i ∈ default [] v) items) /\
  (l <> [] -> internalVal (select s) = Some (map key l) /\ valueEffect key (select s) = select s /\
              getInstanceByKeys items (map key l) = map Some l) /\
  (forall items', tableEffect dsa items' s = s).
Proof.
  intros Hin Hv Hn Hi. rewrite value_new. unfold tableEffect at 1 2. cbn [dataHasLoaded select internalVal]. destruct items as [|i0 items0]; [done|].
  set (items := i0 :: items0) in *. set (p0 := mkSelect (new inner) v).
  destruct (events_call key false None p0 (coherent_new inner Hin)) as (A1 & _ & A3 & _).
  set (p1 := call key (on_inner (inner_setChangeEvents false None)) p0) in *.
  destruct (items_call key items p1 A1) as (B1 & B2 & _). set (p2 := call key (setAllItems items) p1) in *.
  assert (Hg : map getKey items = map key items) by (apply map_ext, key_getKey). rewrite items_map in B2 by (by rewrite Hg).
  set (p3 := match v with Some (k :: ks) => call key (resetAllSelection (k :: ks)) p2 | _ => if dsa then call key (setAllSelectionSelected true) p2 else p2 end).
  set (l := if bool_decide (default [] v = []) then if dsa then items else [] else filter (fun i => key i ∈ default [] v) items).
  assert (H3 : coherent (Value.selection p3) /\ collect (Value.selection p3) = l /\ (l <> [] -> settled p3)).
  { assert (Hall : map snd (_allItemsMap (Value.selection p2)) = items).
    { rewrite B2, map_map. transitivity (map id items); [by apply map_ext|apply map_id]. }
    assert (Hnone : nothing (Value.selection p2)) by (by apply nothing_loading).
    assert (Hempty : coherent (Value.selection (if dsa then call key (setAllSelectionSelected true) p2 else p2)) /\
      collect (Value.selection (if dsa then call key (setAllSelectionSelected true) p2 else p2)) = (if dsa then items else []) /\
      ((if dsa then items else []) <> [] -> settled (if dsa then call key (setAllSelectionSelected true) p2 else p2))).
    { destruct dsa; [|split_and!; [done|by apply nothing_collect|done]].
      destruct (select_all_call p2 B1) as [F1 F2]. rewrite F2, Hall. split_and!; [apply F1|done|done]. }
    destruct v as [[|k ks]|]; [exact Hempty| |exact Hempty].
    destruct (reset_call key (k :: ks) p2 B1 Hv) as (F1 & F2 & _ & F4). rewrite B2, (chosen_items key key_getKey) in F2.
    split_and!; [done|done|]. intros Hl. destruct F4 as [[_ F4]|[F4 F5]]; [|done].
    exfalso. apply Hl. unfold l. cbn [default]. unfold id. rewrite <- F2, F4. by apply nothing_collect. }
  destruct H3 as (C1 & C2 & C3). destruct (events_call key true None p3 C1) as (D1 & D2 & _).
  cbn [select]. rewrite (coherent_get _ D1), D2, C2. split_and!; [done| |done].
  intros Hl. destruct (settled_events true None p3 (C3 Hl)) as [(E1 & E2 & E3) E4]. split_and!.
  - rewrite E3. unfold keys_of. by rewrite E4, C2.
  - by apply value_stable.
  - apply filter_keys_lookup; [done|]. intros i. unfold l. repeat case_bool_decide; destruct dsa; rewrite ?list_elem_of_filter; set_solver.
Qed.
Lemma Instances_loaded_all (inner : Sel) (items : list Item) :
  inner_getItems inner = [] -> NoDup (map key items) -> items <> [] ->
  let s := tableEffect true items (mkState (valueEffect key (mkSelect (new inner) None)) false) in
  internalVal (select s) = Some (map key items) /\ getInstanceByKeys items (map key items) = map Some items.
Proof.
  intros Hin Hn Hi. destruct (loaded_spec inner None true items Hin (NoDup_nil_2) Hn Hi) as (H1 & H2 & _).
  rewrite H1 in H2. rewrite bool_decide_eq_true_2 in H2 by done. by destruct (H2 Hi) as (H3 & _ & H4).
Qed.

(** When the table of instances is there, the instances of the given value are
    selected, or all of them when there is none and the select asks for it.  The value
    becomes their keys, unless the given one has none of them; it can be given back
    without an effect, every one of its keys finds its instance, and a later table
    changes nothing any more. *)
Theorem instance_select_loaded (inner : Sel) (v : option (list string)) (dsa : bool) (items : list Item) :
  inner_getItems inner = [] -> NoDup (default [] v) -> NoDup (map key items) -> items <> [] ->
  let s := tableEffect dsa items (mkState (valueEffect key (mkSelect (new inner) v)) false) in
  let l := fst (getAllSelection (Value.selection (select s))) in
  l = (if bool_decide (default [] v = []) then if dsa then items else [] else filter (fun i => key i ∈ default [] v) items) /\
  (l <> [] -> internalVal (select s) = Some (map key l) /\ valueEffect key (select s) = select s /\
              getInstanceByKeys items (map key l) = map Some l) /\
  (forall items', tableEffect dsa items' s = s).
Proof. apply loaded_spec. Qed.
End InstancesFacts.

(** ** The text of the value *)

Section TextFacts.
Context {Info : Type}.
Import Instances.
#[local] Abbreviation Item := (@IInstanceTableItem Info).

Definition of_kind (k : InstanceKind) (items : list Item) : list Item := filter (fun i => instanceKind i = k) items.

Lemma stat_of_spec (items : list Item) ks k :
  stat_of items ks k = mkStat (length (of_kind k items)) (length (filter (fun i => key i ∈ ks) (of_kind k items))).
Proof.
  unfold stat_of, of_kind. cut (forall s, fold_left (fun s i => if decide (instanceKind i = k)
      then mkStat (S (all s)) (if bool_decide (key i ∈ ks) then S (selected s) else selected s) else s) items s =
    mkStat (all s + length (filter (fun i => instanceKind i = k) items))
      (selected s + length (filter (fun i => key i ∈ ks) (filter (fun i => instanceKind i = k) items)))); [intros ->; done|].
  induction items as [|i items IH]; intros s; cbn [fold_left].
  - rewrite !filter_nil. cbn [length]. rewrite !Nat.add_0_r. by destruct s.
  - rewrite IH. rewrite (filter_cons (fun i => instanceKind i = k)). destruct (decide (instanceKind i = k)); [|done].
    rewrite filter_cons. case_bool_decide as Hk; [rewrite decide_True by done|rewrite decide_False by done]; cbn [all selected length]; f_equal; lia.
Qed.

Lemma stat_le (items : list Item) ks k : (selected (stat_of items ks k) <= all (stat_of items ks k))%nat.
Proof. rewrite stat_of_spec. apply length_filter. Qed.

Lemma stat_full (items : list Item) ks k :
  selected (stat_of items ks k) = all (stat_of items ks k) <-> forall i, i ∈ items -> instanceKind i = k -> key i ∈ ks.
Proof.
  rewrite stat_of_spec. cbn [selected all]. split.
  - intros Hl i Hi Hk. apply filter_full_length in Hl. rewrite Forall_forall in Hl. apply Hl. by apply list_elem_of_filter.
  - intros Hf. rewrite filter_id; [done|]. apply Forall_forall. intros i [Hk Hi]%list_elem_of_filter. by apply Hf.
Qed.

Lemma stat_kinds_all k : k ∈ stat_kinds.
Proof. apply list_elem_of_In. destruct k; cbn; tauto. Qed.

Lemma part_elem (items : list Item) keys x : x ∈ parts items keys <->
  exists k, let s := stat_of items keys k in
    (0 < selected s)%nat /\ x = (if Nat.eqb (all s) (selected s) then AllOf k else SomeOf (selected s) k).
Proof.
  unfold parts. rewrite list_elem_of_omap. split.
  - intros ([k s] & Hin & Hx). apply list_elem_of_fmap in Hin as (k' & [= -> ->] & _). exists k'.
    destruct (Nat.ltb_spec 0 (selected (stat_of items keys k'))); [|done]. by injection Hx as <-.
  - intros (k & Hpos & ->). exists (k, stat_of items keys k). split; [apply list_elem_of_fmap; exists k; split; [done|apply stat_kinds_all]|].
    by apply Nat.ltb_lt in Hpos as ->.
Qed.

Lemma all_part (items : list Item) keys k :
  AllOf k ∈ parts items keys <-> of_kind k items <> [] /\ forall i, i ∈ of_kind k items -> key i ∈ keys.
Proof.
  rewrite part_elem. split.
  - intros (k' & Hpos & Hx). destruct (Nat.eqb_spec (all (stat_of items keys k')) (selected (stat_of items keys k'))) as [He|]; [|done].
    injection Hx as <-. symmetry in He. rewrite stat_full in He. split.
    + intros Hn. rewrite stat_of_spec, Hn in Hpos. cbn in Hpos. lia.
    + intros i [Hk Hi]%list_elem_of_filter. by apply He.
  - intros [Hne Hk]. exists k. assert (He : selected (stat_of items keys k) = all (stat_of items keys k)).
    { apply stat_full. intros i Hi Hik. apply Hk. by apply list_elem_of_filter. }
    cbv zeta. rewrite He, Nat.eqb_refl. split; [|done]. rewrite stat_of_spec. cbn. destruct (of_kind k items); [done|cbn; lia].
Qed.

Lemma some_part (items : list Item) keys n k : SomeOf n k ∈ parts items keys <->
  n = length (filter (fun i => key i ∈ keys) (of_kind k items)) /\ (0 < n < length (of_kind k items))%nat.
Proof.
  rewrite part_elem. split.
  - intros (k' & Hpos & Hx). destruct (Nat.eqb_spec (all (stat_of items keys k')) (selected (stat_of items keys k'))) as [|He]; [done|].
    injection Hx as -> ->. pose proof (stat_le items keys k'). rewrite stat_of_spec in *. cbn in *. split; [done|]. lia.
  - intros [-> Hn]. exists k. cbv zeta. rewrite stat_of_spec. cbn. split; [lia|].
    destruct (Nat.eqb_spec (length (of_kind k items)) (length (filter (fun i => key i ∈ keys) (of_kind k items)))); [lia|done].
Qed.

(** The text of a select of instances says all instances exactly when every one of
    them is selected; otherwise it lists the kinds with a selected instance, as all of
    their kind or with the number that is selected. *)
Theorem instance_select_text (items : list Item) (keys : list string) :
  (text items keys = AllInstances <-> forall i, i ∈ items -> key i ∈ keys) /\
  (forall l, text items keys = Parts l ->
     (forall k, AllOf k ∈ l <-> of_kind k items <> [] /\ forall i, i ∈ of_kind k items -> key i ∈ keys) /\
     (forall n k, SomeOf n k ∈ l <-> n = length (filter (fun i => key i ∈ keys) (of_kind k items)) /\ (0 < n < length (of_kind k items))%nat)).
Proof.
  unfold text. destruct (existsb _ _) eqn:E.
  - split; [|intros l [= <-]; auto using all_part, some_part]. split; [done|]. intros Hall. exfalso.
    apply existsb_exists in E as ([k s] & Hin & Hs). apply list_elem_of_In, list_elem_of_fmap in Hin as (k' & [= -> ->] & _).
    apply negb_true_iff, Nat.eqb_neq in Hs. apply Hs, stat_full. auto.
  - split; [|done]. split; [|done]. intros _ i Hi. apply not_true_iff_false in E.
    destruct (decide (key i ∈ keys)) as [|Hn]; [done|]. destruct E. apply existsb_exists.
    exists (instanceKind i, stat_of items keys (instanceKind i)). split.
    + apply list_elem_of_In, list_elem_of_fmap. eexists. split; [done|apply stat_kinds_all].
    + apply negb_true_iff, Nat.eqb_neq. intros He. rewrite stat_full in He. by apply Hn, He.
Qed.
End TextFacts.

(** ** A concrete selection of items *)

Section ItemSelection.
Context {T : Type} (kf : T -> string).

Record ItemSel := mkItemSel { sel_rows : list T; sel_marked : list string }.

Definition item_set (k : string) (b : bool) (x : ItemSel) : ItemSel :=
  if bool_decide (k ∈ map kf (sel_rows x)) then
    mkItemSel (sel_rows x) (if b then set_add k (sel_marked x) else filter (fun k' => k' <> k) (sel_marked x))
  else x.

#[local] Instance item_selection : InnerSelection T ItemSel := {
  getKey := kf;
  inner_getItems := sel_rows;
  inner_isKeySelected x k := bool_decide (k ∈ sel_marked x);
  inner_isAllSelected x := bool_decide (map kf (sel_rows x) ⊆ sel_marked x);
  inner_setItems l c x :=
    (mkItemSel l (if default true c then [] else filter (fun k => k ∈ map kf l /\ k ∈ map kf (sel_rows x)) (sel_marked x)), true);
  inner_setKeySelected k b x := (item_set k b x, true);
  inner_gesture g x := match g with ToggleKey k => (item_set k (negb (bool_decide (k ∈ sel_marked x))) x, true) | _ => (x, false) end;
  inner_setAllSelected b x := (mkItemSel (sel_rows x) (if b then map kf (sel_rows x) else []), true);
  inner_setChangeEvents _ _ x := (x, false)
}.

Lemma item_selection_laws : InnerLaws T ItemSel.
Proof.
  split; unfold item_keys; simpl; try done.
  - intros l [[]|] s k Hc; simpl; [done|congruence|done].
  - intros l s k Hl Hs. apply bool_decide_ext. rewrite list_elem_of_filter. tauto.
  - intros k b s. unfold item_set. by destruct (bool_decide _).
  - intros k b s Hk. unfold item_set. rewrite (bool_decide_eq_true_2 (k ∈ map kf (sel_rows s))) by done.
    destruct b; simpl; [rewrite bool_decide_eq_true|rewrite bool_decide_eq_false];
      [rewrite elem_of_set_add; naive_solver|rewrite list_elem_of_filter; naive_solver].
  - intros k b s k' Hk. unfold item_set. destruct (bool_decide (k ∈ map kf (sel_rows s))); [|done]. simpl.
    apply bool_decide_ext. destruct b; [rewrite elem_of_set_add|rewrite list_elem_of_filter]; naive_solver.
  - intros [] s; try done. unfold item_set. by destruct (bool_decide _).
  - intros [] s k Hk; [by apply bool_decide_eq_true|done].
Qed.
End ItemSelection.

Definition abc : list Multi.IItem := [Multi.mkIItem "a" None; Multi.mkIItem "b" (Some "B"); Multi.mkIItem "c" None].

(** The items come after the value, and then are gone. *)
Lemma multi_select_items_witness :
  let H := item_selection Multi.item_key in
  let p := Value.mkSelect (new (mkItemSel [] [])) (Some ["c"; "a"]) in
  fst (getAllSelection (Value.selection (Multi.itemsEffect (Some ["c"; "a"]) (Some abc) p))) =
    [Multi.mkIItem "a" None; Multi.mkIItem "c" None].
Proof.
  intros H p. pose (L := item_selection_laws Multi.item_key).
  destruct (multi_select_items (Sel := ItemSel) (H := H) (H0 := L) (fun _ => eq_refl) (Some ["c"; "a"]) (Some abc) p) as [-> _].
  - apply coherent_new. reflexivity.
  - apply (bool_decide_unpack _). vm_compute. exact I.
  - apply (bool_decide_unpack _). vm_compute. exact I.
  - reflexivity.
Defined.

Definition two_instances : list (@IInstanceTableItem (option Z)) :=
  [mkItem "10.0.1.1:2379" pd (mkInstance "10.0.1.1" 2379 None); mkItem "10.0.1.2:20160" tikv (mkInstance "10.0.1.2" 20160 (Some 20180%Z))].

Lemma instance_select_loaded_witness :
  let H := item_selection (@key (option Z)) in
  Value.internalVal (Instances.select (Instances.tableEffect true two_instances
    (Instances.mkState (Value.valueEffect key (Value.mkSelect (new (mkItemSel [] [])) None)) false))) =
  Some ["10.0.1.1:2379"; "10.0.1.2:20160"].
Proof.
  intros H. pose (L := item_selection_laws (@key (option Z))).
  destruct (instance_select_loaded (Info := option Z) (H := H) (H0 := L) (fun _ => eq_refl) (mkItemSel [] []) None true two_instances) as (H1 & H2 & _).
  - reflexivity.
  - apply NoDup_nil_2.
  - apply (bool_decide_unpack _). vm_compute. exact I.
  - discriminate.
  - destruct H2 as [H2 _]; rewrite H1 in *; [discriminate|]. rewrite H2. reflexivity.
Defined.

(** The form that starts profiling, as it opens: every instance is selected, and those
    with a port are profiled, each at its own, in the order of the table. *)
Theorem all_instances_profiled {Sel} `{InnerLaws (@IInstanceTableItem (option Z)) Sel} (inner : Sel)
    (items : list (@IInstanceTableItem (option Z))) (ty : option (list string)) (d : Z) :
  (forall i, getKey i = key i) -> inner_getItems inner = [] -> NoDup (map key items) -> items <> [] ->
  let s := Instances.tableEffect true items (Instances.mkState (Value.valueEffect key (Value.mkSelect (new inner) None)) false) in
  exists req, Start.handleFinish (Some (Instances.getInstanceByKeys items))
      (Start.mkFields (Value.internalVal (Instances.select s)) ty d) = Start.Start req /\
    Start.targets req = omap Start.target_of items.
Proof.
  intros Hk Hi Hn Hne. cbv zeta. destruct (Instances_loaded_all Hk inner items Hi Hn Hne) as [-> Hg].
  destruct items as [|i items]; [done|]. unfold Start.handleFinish. cbn [Start.instances map]. change (key i :: map key items) with (map key (i :: items)).
  assert (Hm : forall l : list (@IInstanceTableItem (option Z)), mapM id (map Some l) = Some l).
  { intros l. induction l as [|x l IH]; [done|]. cbn. by rewrite IH. }
  rewrite Hg, Hm. eexists. split; reflexivity.
Qed.
