(* ===== verification/SearchLogs.v ===== *)
(** * The log search

    apps/SearchLogs: Module [Form] is the form of a search and its way back from a saved
    search (components/SearchHeader.tsx), [Progress] the tree of tasks with its buttons
    (SearchProgress.tsx), [Preview] the components of the lines (SearchResult.tsx),
    [Detail] the page over the polling hook (pages/LogSearchDetail.tsx) and [History] the
    list of former searches (pages/LogSearchHistory.tsx). *)

From Stdlib Require Import Ascii QArith Qround.
From S2P Require Import Prelude JsString JsNumber InstanceTable ClientRequest PollPage TimeRange Profiling.
Local Open Scope Z_scope.

(** ** Levels and states *)

Inductive LogLevel := LUnknown | LDebug | LInfo | LWarn | LTrace | LCritical | LError.

Definition level_code (l : LogLevel) : Z :=
  match l with LUnknown => 0 | LDebug => 1 | LInfo => 2 | LWarn => 3 | LTrace => 4 | LCritical => 5 | LError => 6 end.

Definition LogLevelText (code : Z) : option string :=
  if code <? 0 then None else nth_error ["UNKNOWN"; "DEBUG"; "INFO"; "WARN"; "TRACE"; "CRITICAL"; "ERROR"] (Z.to_nat code).

Definition ValidLogLevels : list Z := map level_code [LDebug; LInfo; LWarn; LCritical; LError].

(** [TaskState] *)
Definition Running : Z := 1.
Definition Finished : Z := 2.
Definition Error_ : Z := 3.

(** [s.split(/\s+/)]: one cut per run of white space. *)
Fixpoint split_ws (skip : bool) (s : string) : list string :=
  match s with
  | EmptyString => [""]
  | String a s' =>
      if is_ws a then (if skip then split_ws true s' else "" :: split_ws true s')
      else match split_ws false s' with
           | [] => [String a ""]
           | p :: ps => String a p :: ps
           end
  end.

(** ** The form *)

Module Form.

Abbreviation Item := (@IInstanceTableItem (option Z)).

Record FormProps := mkForm {
  timeRange : option V1.TimeRange; logLevel : option Z; instances : option (list string); keywords : option string
}.

(** A search: the times are milliseconds. *)
Record SearchRequest := mkSearch { start_time : num; end_time : num; min_level : Z; patterns : list string }.
Record CreateRequest := mkCreate { targets : list Start.TargetNode; request : SearchRequest }.

Definition initialValues : FormProps := mkForm None (Some 2) (Some []) None.

Definition port_of (i : Item) : option Z :=
  match instanceKind i with
  | pd | tikv | tiflash | ticdc | tso | scheduling => Some (port (instance i))
  | tidb | tiproxy => info (instance i)
  end.

Definition target_of (i : Item) : option Start.TargetNode :=
  p ← port_of i; Some (Start.mkNode (instanceKind i) (key i) (ip (instance i)) p).

Inductive Outcome := MissingFields | NotReady | Search (req : CreateRequest) | Throws.

Definition handleSearch (now : Z) (instanceSelect : option (list string -> list (option Item))) (v : FormProps) : Outcome :=
  match instances v, timeRange v with
  | Some (k :: keys), Some range =>
      if negb (truthy (logLevel v)) then MissingFields
      else match instanceSelect with
      | None => NotReady
      | Some getInstanceByKeys =>
          match mapM id (getInstanceByKeys (k :: keys)) with
          | None => Throws
          | Some items =>
              let '(startTime, endTime) := V1.calcTimeRange now (Some range) in
              Search (mkCreate (omap target_of items)
                (mkSearch (num_mul startTime (num_of_Z 1000)) (num_mul endTime (num_of_Z 1000)) (default 0 (logLevel v))
                   (split_ws false (default "" (keywords v)))))
          end
      end
  | _, _ => MissingFields
  end.

(** A number by a thousand. *)
Definition by_1000 (x : num) : num :=
  match x with Fin q => Fin (Qred (q / inject_Z 1000)) | _ => x end.

(** The form of a saved search; the names are those of the targets of its tasks. *)
Definition fieldsValue (r : SearchRequest) (names : list (option string)) : FormProps :=
  mkForm (Some (V1.Absolute (by_1000 (start_time r), by_1000 (end_time r))))
    (Some (if truthy (min_level r) then min_level r else 2))
    (Some (omap (fun n => if truthy n then n else None) names))
    (Some (js_join " " (patterns r))).

(** Where the page goes after the answer. *)
Definition created (id : option Z) : option string :=
  if truthy id then (fun i => "/search_logs/detail?id=" +:+ show i) <$> id else None.

End Form.

(** ** The tree of tasks *)

Module Progress.

Record Task := mkTask { task_id : Z; task_kind : option string; display_name : option string; task_state : option Z; size : option Z }.

Inductive Icon := LoadingIcon | SuccessIcon | FailIcon.

Definition taskStateIcons (s : Z) : option Icon :=
  if s =? Running then Some LoadingIcon else if s =? Finished then Some SuccessIcon
  else if s =? Error_ then Some FailIcon else None.

Record Leaf := mkLeaf { leaf_key : string; leaf_name : string; leaf_icon : option Icon; leaf_disabled : bool }.

Definition is_state (s : Z) (task : Task) : bool := bool_decide (task_state task = Some s).

Definition leaf_of (task : Task) : Leaf :=
  mkLeaf (show (task_id task)) (default "" (display_name task)) (taskStateIcons (js_or (task_state task) Error_))
    (negb (truthy (size task)) || negb (is_state Finished task)).

Definition getLeafNodes (tasks : list Task) : list Leaf := map leaf_of tasks.

Definition parentNodeIcon (tasks : list Task) : Icon :=
  if existsb (is_state Running) tasks then LoadingIcon
  else if negb (existsb (fun task => negb (is_state Finished task)) tasks) then SuccessIcon
  else FailIcon.

Definition sizes (tasks : list Task) : Z := fold_left (fun acc task => acc + js_or (size task) 0) tasks 0.

Definition parentNodeCheckable (tasks : list Task) : bool :=
  existsb (is_state Finished) tasks && (0 <? sizes tasks).

(** The counts of the finished and the failed tasks; those that run are not shown.  The
    states are the three of [TaskState]. *)
Definition describeProgress (format : Z -> string) (success failed : string) (tasks : list Task) : string :=
  let count s := Z.of_nat (length (filter (fun task => is_state s task = true) tasks)) in
  let shown n text := if n <=? 0 then [] else [show n +:+ " " +:+ text] in
  js_join ", " (shown (count Finished) success ++ shown (count Error_) failed) +:+ " (" +:+ format (sizes tasks) +:+ ")".

Record Node := mkNode { node_key : InstanceKind; node_icon : Icon; node_disabled : bool; children : list Leaf }.

Definition of_kind (ik : InstanceKind) (tasks : list Task) : list Task :=
  filter (fun task => task_kind task = Some (kind_str ik)) tasks.

Definition treeData (tasks : list Task) : list Node :=
  omap (fun ik => match of_kind ik tasks with
    | [] => None
    | l => Some (mkNode ik (parentNodeIcon l) (negb (parentNodeCheckable l)) (getLeafNodes l))
    end) InstanceKinds.

(** The tasks to download: the checked keys that are no parents. *)
Definition download_keys (checkedKeys : list string) : list string :=
  filter (fun k => Forall (fun ik => kind_str ik <> k) InstanceKinds) checkedKeys.

Record Buttons := mkButtons { download : bool; cancel : bool; retry : bool }.

(** Which buttons are enabled. *)
Definition buttons (checkedKeys : list string) (tasks : list Task) : Buttons :=
  mkButtons (negb (Z.of_nat (length checkedKeys) <? 1)) (existsb (is_state Running) tasks)
    (negb (existsb (is_state Running) tasks || negb (existsb (is_state Error_) tasks))).

End Progress.

(** ** The lines *)

Module Preview.

Record Component := mkComponent { target : option string * option string; sortIndex : Q; taskId : option Z }.

(** The components in the order of their names, each with its place in it. *)
Definition components (sortBy : (option string * option string -> string) -> list (option string * option string * option Z) ->
      list (option string * option string * option Z)) (tasks : list (option string * option string * option Z)) : list Component :=
  let name '(k, n) := Group.tpl k +:+ " " +:+ Group.tpl n in
  let sorted := sortBy name tasks in
  imap (fun idx '(t, id) => mkComponent t (Qred (inject_Z (Z.of_nat idx) / inject_Z (Z.of_nat (length sorted)))) id) sorted.

Definition componentByTaskId (l : list Component) : gmap Z Component :=
  fold_left (fun m c => <[default (-1) (taskId c) := c]> m) l ∅.

(** The name of a line's component. *)
Definition component_text (t : string -> string) (kind_of : string -> option InstanceKind) (c : Component) : string :=
  (match fst (target c) with
   | Some k => if truthy k then match kind_of k with Some ik => instanceKindName t ik | None => t ("distro." +:+ k) end else "?"
   | None => "?"
   end) +:+ " " +:+ default "" (snd (target c)).

(** The widest a cell of a line gets. *)
Definition maxWidth (calculatedWidth : option Z) (columnIdx : nat) (left right : option Z) : option Z :=
  w ← calculatedWidth;
  if w =? 0 then None
  else Some (let m := w + default 0 left + default 0 right in if (columnIdx =? 0)%nat then m - 48 else m).

End Preview.

(** ** The page of a search *)

Module Detail.
Import Progress.

Record Answer := mkAnswer { tasks : list Task }.

Definition taskGroupID (id : option string) : num := match id with None => num_of_Z 0 | Some s => js_Number s end.

Definition isFinished (taskGroupID : num) (data : option Answer) : bool :=
  if num_lt taskGroupID (num_of_Z 0) then true
  else match data with
  | None => false
  | Some d => negb (existsb (is_state Running) (tasks d))
  end.

Section Page.
Context {E : Type} (group : num).

Record Page := mkPage {
  hook : Hook Answer E (Poll Answer E unit); reloadKey : bool; taskWasUnfinished : bool; sidebarOpen : option bool
}.

Definition opened : Page := mkPage (open (fun d => isFinished group (Some d))) false false None.

(** The effect that follows an answer. *)
Definition unfinished (d : option Answer) : bool :=
  match d with Some d => existsb (fun task => negb (is_state Finished task)) (tasks d) | None => false end.

Inductive Event := Answered (r : Answer + E) | Timer | ShowSidebar | CloseSidebar
  (* the request is sent without waiting for it, then the progress is mounted again *)
  | Cancel | Retry.

Definition on_hook (h : Hook Answer E (Poll Answer E unit)) (p : Page) : Page :=
  mkPage h (reloadKey p) (taskWasUnfinished p || unfinished (data (state h))) (sidebarOpen p).

Definition handle (p : Page) (e : Event) : Page :=
  let finished := fun d => isFinished group (Some d) in
  match e with
  | Answered r => on_hook (answered finished r (hook p)) p
  | Timer => on_hook (timer finished (hook p)) p
  | ShowSidebar => mkPage (hook p) (reloadKey p) (taskWasUnfinished p) (Some true)
  | CloseSidebar => mkPage (hook p) (reloadKey p) (taskWasUnfinished p) (Some false)
  | Cancel | Retry => mkPage (hook p) (negb (reloadKey p)) (taskWasUnfinished p) (sidebarOpen p)
  end.

Definition visible (p : Page) : bool := default (taskWasUnfinished p) (sidebarOpen p).
End Page.
End Detail.

(** ** The history *)

Module History.

Record TargetStats := mkStats { num_tidb_nodes : option Z; num_tikv_nodes : option Z; num_pd_nodes : option Z }.

Definition componentRender (t : string -> string) (s : option TargetStats) : string :=
  let one n text := if truthy n then [show (default 0 n) +:+ " " +:+ t text] else [] in
  js_join ", " (match s with
    | None => []
    | Some s => one (num_tidb_nodes s) "distro.tidb" ++ one (num_tikv_nodes s) "distro.tikv" ++ one (num_pd_nodes s) "distro.pd"
    end).

Definition patternRender (patterns : option (list string)) : string := js_join " " (default [] patterns).

Definition stateRender (state : Z) : option string :=
  if state =? 1 then Some "running" else if state =? 2 then Some "finished" else None.

Definition actionRender (id : option Z) : option string :=
  if bool_decide (id = Some 0) then None
  else Some ("/search_logs/detail?id=" +:+ match id with Some i => show i | None => "undefined" end).

(** The deletions one after the other, up to the first that fails; then the list is asked
    for.  [delete] is the server. *)
Section Delete.
Context {S : Type} (delete : string -> S -> option S) (list_of : S -> list (option Z)).

Fixpoint deleteEach (keys : list string) (s : S) : S * bool :=
  match keys with
  | [] => (s, true)
  | k :: keys => match delete k s with Some s' => deleteEach keys s' | None => (s, false) end
  end.

Definition deleteAndReload (keys : list string) (s : S) (shown : list (option Z)) : S * list (option Z) :=
  let '(s', ok) := deleteEach keys s in (s', if ok then list_of s' else shown).

Definition handleDeleteAll (taskGroups : list (option Z)) (s : S) : S * list (option Z) :=
  deleteAndReload (omap (fun k => show <$> k) taskGroups) s taskGroups.
End Delete.
End History.

(** ** Keywords *)

Definition no_ws (s : string) : Prop := str_forall (fun a => negb (is_ws a)) s = true.

(** The pieces of a split: without white space, and empty at most at the ends. *)
Fixpoint inner_ok (l : list string) : Prop :=
  match l with
  | [] => False
  | [p] => no_ws p
  | p :: l => no_ws p /\ p <> "" /\ inner_ok l
  end.

Definition pieces_ok (l : list string) : Prop :=
  match l with
  | [] => False
  | [p] => no_ws p
  | p :: l => no_ws p /\ inner_ok l
  end.

Lemma split_ws_ok s : pieces_ok (split_ws false s) /\ inner_ok (split_ws true s).
Proof.
  induction s as [|a s [IH1 IH2]]; [done|]. cbn [split_ws]. destruct (is_ws a) eqn:Ha.
  - split; [|done]. destruct (split_ws true s); done.
  - assert (H : forall p ps, split_ws false s = p :: ps -> no_ws p -> no_ws (String a p)).
    { intros p ps _ Hp. unfold no_ws. cbn. by rewrite Ha. }
    destruct (split_ws false s) as [|p ps] eqn:E; [done|]. destruct ps as [|q ps].
    + split; cbn in *; eauto.
    + destruct IH1 as [Hp Hq]. split; (split; [eauto|]); [done|]. by split.
Qed.

Lemma no_ws_app_split s t skip : no_ws s -> (skip = true -> s <> "") ->
  split_ws skip (s +:+ String " " t) = s :: split_ws true t.
Proof.
  revert skip; induction s as [|a s IH]; intros skip Hs Hk.
  - destruct skip; [by destruct Hk|done].
  - unfold no_ws in *. cbn in Hs. apply andb_true_iff in Hs as [Ha Hs]. apply negb_true_iff in Ha.
    rewrite str_app_cons. cbn [split_ws]. by rewrite Ha, IH.
Qed.

Lemma no_ws_split s skip : no_ws s -> split_ws skip s = [s].
Proof.
  revert skip; induction s as [|a s IH]; intros skip Hs; [done|]. unfold no_ws in *. cbn in Hs.
  apply andb_true_iff in Hs as [Ha Hs]. apply negb_true_iff in Ha. cbn [split_ws]. by rewrite Ha, IH.
Qed.

Lemma split_inner l : inner_ok l -> split_ws true (js_join " " l) = l.
Proof.
  induction l as [|p l IH]; [done|]. destruct l as [|q l]; [by apply no_ws_split|]. intros (Hp & Hne & Hl).
  change (js_join " " (p :: q :: l)) with (p +:+ String " " (js_join " " (q :: l))). by rewrite no_ws_app_split, IH.
Qed.

(** The pieces joined by single spaces split into themselves. *)
Lemma split_join_ws s : split_ws false (js_join " " (split_ws false s)) = split_ws false s.
Proof.
  destruct (split_ws_ok s) as [H _]. destruct (split_ws false s) as [|p [|q l]]; [done|by apply no_ws_split|].
  destruct H as [Hp Hl]. change (js_join " " (p :: q :: l)) with (p +:+ String " " (js_join " " (q :: l))).
  by rewrite no_ws_app_split, split_inner.
Qed.

(** ** A search that is opened again *)

Section FormFacts.
Import Form.

Lemma times_back x : num_mul (num_add (by_1000 (num_mul x (num_of_Z 1000))) (num_of_Z 0)) (num_of_Z 1000) = num_mul x (num_of_Z 1000).
Proof.
  destruct x as [|b|q]; [done| |].
  - cbn. by destruct b.
  - cbn. f_equal. apply Qred_complete. rewrite !Qred_correct. field.
Qed.

Context (lookup : string -> option Item).
Hypothesis lookup_key : forall k i, lookup k = Some i -> key i = k /\ k <> "".

Lemma mapM_all {A} (l : list (option A)) items : mapM id l = Some items <-> l = map Some items.
Proof.
  revert items; induction l as [|x l IH]; intros items.
  - cbn. split; [by intros [= <-]|]. by destruct items.
  - cbn. destruct x as [x|]; cbn; [|by split; [|destruct items]]. destruct (mapM id l) as [l'|] eqn:E.
    + cbn. pose proof (proj1 (IH l') eq_refl) as ->. split; [by intros [= <-]|]. destruct items as [|y items]; [done|].
      intros [= -> H]. apply (proj2 (IH items)) in H. by injection H as ->.
    + cbn. split; [done|]. destruct items as [|y items]; [done|]. intros [= -> H]. apply (proj2 (IH items)) in H. done.
Qed.

Lemma target_name i n : target_of i = Some n -> Start.node_name n = key i.
Proof. unfold target_of. destruct (port_of i); [|done]. by intros [= <-]. Qed.

Lemma lookup_targets keys items : map lookup keys = map Some items ->
  map lookup (map Start.node_name (omap target_of items)) = map Some (filter (fun i => is_Some (target_of i)) items) /\
  omap target_of (filter (fun i => is_Some (target_of i)) items) = omap target_of items /\
  omap (fun n => if truthy n then n else None) (map (fun n => Some (Start.node_name n)) (omap target_of items)) = map Start.node_name (omap target_of items).
Proof.
  revert keys; induction items as [|i items IH]; intros [|k keys]; [done..|]. cbn [map]. intros [= Hk Hl].
  destruct (IH keys Hl) as (H1 & H2 & H3). destruct (lookup_key k i Hk) as [Hki Hne].
  rewrite filter_cons. cbn [omap list_omap]. destruct (target_of i) as [n|] eqn:Hn.
  - rewrite decide_True by eauto. cbn [map omap list_omap]. unfold omap in *. cbn [list_omap]. apply target_name in Hn as Hname.
    rewrite Hname, Hki, Hk, H1, Hn, H2, H3. by destruct k.
  - rewrite decide_False by by intros []. done.
Qed.

(** C34: A search opened again shows the form it can be sent from once more: the same
    times, level, keywords and instances with a port, whatever the form of the first one
    looked like. *)
Theorem search_reopened (now now' : Z) (v : FormProps) (req : CreateRequest) :
  handleSearch now (Some (map lookup)) v = Search req -> targets req <> [] ->
  handleSearch now' (Some (map lookup)) (fieldsValue (request req) (map (fun n => Some (Start.node_name n)) (targets req))) = Search req.
Proof.
  unfold handleSearch. destruct (instances v) as [[|k keys]|]; [done| |done]. destruct (timeRange v) as [r|]; [|done].
  destruct (truthy (logLevel v)) eqn:Hlvl; [|done]. cbn [negb]. destruct (mapM id (map lookup (k :: keys))) as [items|] eqn:Hm; [|done]. apply mapM_all in Hm.
  destruct (V1.calcTimeRange now (Some r)) as [s e] eqn:Hr. intros [= <-]. cbn [targets request]. intros Hne.
  destruct (lookup_targets _ _ Hm) as (H1 & H2 & H3).
  unfold fieldsValue. cbn [instances timeRange logLevel keywords start_time end_time min_level patterns].
  rewrite H3. destruct (map Start.node_name (omap target_of items)) as [|n ns] eqn:Hns; [by destruct (omap target_of items)|].
  destruct (logLevel v) as [lvl|]; [|done]. change (truthy lvl = true) in Hlvl. change (default 0 (Some lvl)) with lvl. rewrite Hlvl.
  change (truthy (Some lvl)) with (truthy lvl). rewrite Hlvl. cbn [negb]. rewrite (proj2 (mapM_all _ _) H1).
  unfold V1.calcTimeRange, V1.toTimeRangeValue. cbn [default]. unfold id.
  rewrite !times_back, H2, split_join_ws. done.
Qed.
End FormFacts.

Definition pd_item : Form.Item := mkItem "10.0.1.1:2379" pd (mkInstance "10.0.1.1" 2379 None).

Lemma search_reopened_witness :
  let lookup k := if bool_decide (k = "10.0.1.1:2379") then Some pd_item else None in
  let f := Form.mkForm (Some (V1.Absolute (num_of_Z 1667264400, num_of_Z 1667268000))) (Some 2) (Some ["10.0.1.1:2379"]) (Some " foo  boo") in
  exists req, Form.handleSearch 0 (Some (map lookup)) f = Form.Search req /\
    Form.handleSearch 5 (Some (map lookup)) (Form.fieldsValue (Form.request req) (map (fun n => Some (Start.node_name n)) (Form.targets req))) = Form.Search req /\
    Form.patterns (Form.request req) = [""; "foo"; "boo"].
Proof.
  intros lookup f. eexists. split; [reflexivity|]. split; [|reflexivity].
  apply (search_reopened lookup) with (now := 0) (v := f); [|reflexivity|discriminate].
  intros k i. unfold lookup. case_bool_decide as Hk; [|done]. subst k. by intros [= <-].
Defined.

(** ** The tree of tasks *)

Section ProgressFacts.
Import Progress.

(** The states and sizes a server answers with. *)
Definition task_ok (task : Task) : Prop :=
  (exists s, task_state task = Some s /\ s ∈ [Running; Finished; Error_]) /\ 0 <= js_or (size task) 0.

Lemma sizes_acc l : forall acc, fold_left (fun acc task => acc + js_or (size task) 0) l acc = acc + sizes l.
Proof.
  induction l as [|task l IH]; intros acc; [cbn; lia|]. unfold sizes in *. cbn [fold_left]. rewrite IH, (IH (0 + _)). lia.
Qed.

Lemma sizes_nonneg l : Forall task_ok l -> 0 <= sizes l.
Proof.
  induction 1 as [|task l [_ Hs] _ IH]; [done|]. unfold sizes in *. cbn [fold_left]. rewrite sizes_acc. unfold sizes. lia.
Qed.

Lemma size_nonzero task : truthy (size task) = true -> js_or (size task) 0 <> 0.
Proof.
  destruct (size task) as [n|]; [|done]. change (truthy (Some n)) with (truthy n). intros Ht. rewrite js_or_some by done.
  intros ->. done.
Qed.

Lemma sizes_pos l task : Forall task_ok l -> task ∈ l -> truthy (size task) = true -> 0 < sizes l.
Proof.
  intros Hl. induction Hl as [|x l [_ Hx] Hl IH]; intros Hin Ht; [by apply elem_of_nil in Hin|].
  pose proof (sizes_nonneg l Hl). unfold sizes in *. cbn [fold_left]. rewrite sizes_acc. unfold sizes.
  apply elem_of_cons in Hin as [->|Hin]; [|specialize (IH Hin Ht); lia]. apply size_nonzero in Ht. lia.
Qed.

Lemma leaf_icon_state task : task_ok task ->
  (leaf_icon (leaf_of task) = Some LoadingIcon <-> is_state Running task = true) /\
  (leaf_icon (leaf_of task) = Some SuccessIcon <-> is_state Finished task = true) /\
  (leaf_icon (leaf_of task) = Some FailIcon <-> is_state Error_ task = true).
Proof.
  intros [(s & Hs & Hin) _]. unfold leaf_of, is_state. cbn [leaf_icon]. rewrite Hs.
  apply list_elem_of_In in Hin. destruct Hin as [<-|[<-|[<-|[]]]]; cbn; rewrite !bool_decide_eq_true; split_and!; split; done.
Qed.

Lemma existsb_elem {A} (p : A -> bool) l : existsb p l = true <-> exists x, x ∈ l /\ p x = true.
Proof. rewrite existsb_exists. split; intros (x & Hx & Hp); exists x; (split; [by apply list_elem_of_In|done]). Qed.

(** A component is loading while one of its tasks is, is a success when all of them are,
    and can be checked when one of them can.  It can be checked although none of them can,
    when the finished ones found nothing. *)
Theorem progress_node l : Forall task_ok l ->
  (parentNodeIcon l = LoadingIcon <-> exists n, n ∈ getLeafNodes l /\ leaf_icon n = Some LoadingIcon) /\
  (parentNodeIcon l = SuccessIcon <-> forall n, n ∈ getLeafNodes l -> leaf_icon n = Some SuccessIcon) /\
  ((exists n, n ∈ getLeafNodes l /\ leaf_disabled n = false) -> parentNodeCheckable l = true).
Proof.
  intros Hl. rewrite Forall_forall in Hl. unfold parentNodeIcon, getLeafNodes.
  assert (Hrun : existsb (is_state Running) l = true <-> exists n, n ∈ map leaf_of l /\ leaf_icon n = Some LoadingIcon).
  { rewrite existsb_elem. split.
    - intros (x & Hx & Hs). exists (leaf_of x). split; [by apply list_elem_of_fmap_2|]. by apply leaf_icon_state; [apply Hl|].
    - intros (n & (x & -> & Hx)%list_elem_of_fmap & Hs). exists x. split; [done|]. by apply leaf_icon_state; [apply Hl|]. }
  assert (Hfin : existsb (fun task => negb (is_state Finished task)) l = false <-> forall n, n ∈ map leaf_of l -> leaf_icon n = Some SuccessIcon).
  { rewrite <- not_true_iff_false, existsb_elem. split.
    - intros Hno n (x & -> & Hx)%list_elem_of_fmap. apply leaf_icon_state; [by apply Hl|]. apply not_false_iff_true. intros Hf. apply Hno. exists x. by rewrite Hf.
    - intros Hall (x & Hx & Hf). apply negb_true_iff in Hf. apply not_true_iff_false in Hf. apply Hf. apply leaf_icon_state; [by apply Hl|]. by apply Hall, list_elem_of_fmap_2. }
  split_and!.
  - rewrite <- Hrun. destruct (existsb (is_state Running) l); [by split|]. destruct (negb _); by split.
  - destruct (existsb (is_state Running) l) eqn:E.
    + split; [done|]. intros Hall. exfalso. destruct (proj1 Hrun eq_refl) as (n & Hn & Hi).
      rewrite (Hall n Hn) in Hi. done.
    + rewrite <- Hfin. destruct (existsb (fun task => negb _) l); cbn; by split.
  - intros (n & (x & -> & Hx)%list_elem_of_fmap & Hd). unfold leaf_of in Hd. cbn [leaf_disabled] in Hd.
    apply orb_false_iff in Hd as [Hsz%negb_false_iff Hst%negb_false_iff]. unfold parentNodeCheckable. apply andb_true_iff. split.
    + apply existsb_elem. eauto.
    + apply Z.ltb_lt. apply (sizes_pos l x); [by apply Forall_forall|done|done].
Qed.

Lemma checkable_without_leaf :
  let l := [mkTask 1 (Some "tidb") None (Some Finished) (Some 0); mkTask 2 (Some "tidb") None (Some Error_) (Some 5)] in
  parentNodeCheckable l = true /\ forallb leaf_disabled (getLeafNodes l) = true /\ download_keys ["tidb"] = [].
Proof. by vm_compute. Qed.

(** What is downloaded are the checked tasks. *)
Lemma download_tasks (checked : list string) k :
  k ∈ download_keys checked <-> k ∈ checked /\ forall ik, kind_str ik <> k.
Proof.
  unfold download_keys. rewrite list_elem_of_filter, Forall_forall. split.
  - intros [Hf Hk]. split; [done|]. intros ik. apply Hf, InstanceKinds_all.
  - intros [Hk Hf]. by split.
Qed.

(** A search cannot be cancelled and retried at the same time. *)
Lemma buttons_exclusive keys l : cancel (buttons keys l) = true -> retry (buttons keys l) = false.
Proof. cbn. by intros ->. Qed.

End ProgressFacts.

(** ** The page of a search *)

Section DetailFacts.
Context {E : Type} (group : num).
Import Detail Progress.
Implicit Types p : Page (E := E).

(** The page at rest. *)
Definition at_rest (n : nat) p : Prop := resting n (hook p).

Lemma at_rest_handle n p e : at_rest n p -> hook (handle group p e) = hook p.
Proof.
  intros (_ & Hc & Ht). destruct e; try done; cbn.
  - unfold answered. by rewrite Hc.
  - unfold timer. by rewrite Ht.
Qed.

(** The page asks for the tasks until an answer without a running one, once more after
    it, and never again: when a search that failed is retried the page goes on to show
    the former states of its tasks, whatever happens on it. *)
Theorem retry_not_followed (failed : Task) : task_state failed = Some Error_ -> num_lt group (num_of_Z 0) = false ->
  let d := mkAnswer [failed] in
  let p := fold_left (handle group) [Answered (inl d); Timer; Answered (inl d); Timer] (opened (E := E) group) in
  requests (hook p) = 2%nat /\ data (state (hook p)) = Some d /\ retry (buttons [] (tasks d)) = true /\
  forall es, hook (fold_left (handle group) (Retry :: es) p) = hook p.
Proof.
  intros Hs Hg. cbv zeta. set (d := mkAnswer [failed]). set (p := fold_left _ _ _).
  assert (Hd : isFinished group (Some d) = true).
  { unfold isFinished. rewrite Hg. cbn. unfold is_state. by rewrite Hs. }
  destruct (visit_finished (E := E) (fun d => isFinished group (Some d)) [] d d (Forall_nil_2 _) Hd) as (_ & Hr & Hst).
  assert (Hh : visit (E := E) (fun d => isFinished group (Some d)) ([] ++ [d; d]) = hook p).
  { unfold p, visit. cbn [app fold_left handle on_hook hook opened]. reflexivity. }
  rewrite Hh in Hr, Hst. clear Hh. clearbody p. split_and!.
  - apply Hr.
  - by rewrite Hst.
  - cbn. unfold is_state. by rewrite Hs.
  - assert (H : forall es q, at_rest 2 q -> hook (fold_left (handle group) es q) = hook q).
    { intros es. induction es as [|e es IH]; intros q Hq; [done|]. cbn [fold_left]. pose proof (at_rest_handle 2 q e Hq) as He.
      rewrite IH, He; [done|]. unfold at_rest. by rewrite He. }
    intros es. by apply H.
Qed.

(** The bar of the progress opens by itself as soon as an answer has a task that is not
    finished, and stays as it was put by hand. *)
Lemma sidebar_by_hand p b es : sidebarOpen p = Some b ->
  Forall (fun e => match e with ShowSidebar | CloseSidebar => False | _ => True end) es ->
  visible (fold_left (handle group) es p) = b.
Proof.
  revert p; induction es as [|e es IH]; intros p Hp He; [cbn [fold_left]; unfold visible; by rewrite Hp|].
  apply Forall_cons in He as [He1 He2]. apply IH; [|done]. by destruct e.
Qed.

End DetailFacts.

Lemma retry_not_followed_witness :
  let failed := Progress.mkTask 7 (Some "tidb") None (Some Error_) None in
  let d := Detail.mkAnswer [failed] in
  let p := fold_left (Detail.handle (num_of_Z 3)) [Detail.Answered (inl d); Detail.Timer; Detail.Answered (inl d); Detail.Timer]
    (Detail.opened (E := unit) (num_of_Z 3)) in
  Detail.hook (fold_left (Detail.handle (num_of_Z 3)) [Detail.Retry; Detail.Timer] p) = Detail.hook p.
Proof.
  intros failed d p. destruct (retry_not_followed (E := unit) (num_of_Z 3) failed) as (_ & _ & _ & H); [reflexivity..|].
  apply (H [Detail.Timer]).
Defined.

(** ** The lines *)

(** The colours of the components are spread over the circle, a different one each. *)
Lemma sort_indices sortBy (tasks : list (option string * option string * option Z)) (i j : nat) c c' :
  Preview.components sortBy tasks !! i = Some c -> Preview.components sortBy tasks !! j = Some c' ->
  (0 <= Preview.sortIndex c < 1)%Q /\ ((i < j)%nat -> (Preview.sortIndex c < Preview.sortIndex c')%Q).
Proof.
  unfold Preview.components. cbv zeta. set (l := sortBy _ tasks). rewrite !list_lookup_imap.
  intros (x & Hi & ->)%fmap_Some (y & Hj & ->)%fmap_Some. destruct x as [x ix], y as [y iy]. cbn.
  apply lookup_lt_Some in Hi, Hj. rewrite !Qred_correct.
  assert (Hn : (0 < inject_Z (Z.of_nat (length l)))%Q) by (change 0%Q with (inject_Z 0); rewrite <- Zlt_Qlt; lia).
  split; [split|].
  - apply Qle_shift_div_l; [done|]. rewrite Qmult_0_l. change 0%Q with (inject_Z 0). rewrite <- Zle_Qle. lia.
  - apply Qlt_shift_div_r; [done|]. rewrite Qmult_1_l, <- Zlt_Qlt. lia.
  - intros Hij. apply Qmult_lt_compat_r; [by apply Qinv_lt_0_compat|]. rewrite <- Zlt_Qlt. lia.
Qed.
