(* ===== verification/JsArray.v ===== *)
(** * Array.prototype.sort

    The sort of arrays by a comparator, which is stable.  For a comparator that orders its
    arguments, the result is the one sorted arrangement that keeps equal elements in their
    order; the theorems below are what the components use of it. *)

From Stdlib Require Import Sorted.
From S2P Require Import Prelude.
From stdpp Require Import options.
Local Open Scope Z_scope.

Lemma sorted_impl {A} (R S : A -> A -> Prop) l : (forall x y, R x y -> S x y) -> StronglySorted R l -> StronglySorted S l.
Proof.
  intros Hi. induction 1 as [|x l _ IH Hx]; constructor; [done|]. eapply Forall_impl; [exact Hx|]. intros y. apply Hi.
Qed.

Section Sort.
Context {A : Type} (cmp : A -> A -> Z).

(** An element goes before the first one that it comes before. *)
Fixpoint js_insert (x : A) (l : list A) : list A :=
  match l with
  | [] => [x]
  | y :: l => if cmp x y <? 0 then x :: y :: l else y :: js_insert x l
  end.

Definition js_sort (l : list A) : list A := fold_left (fun acc x => js_insert x acc) l [].

Lemma js_insert_perm x l : js_insert x l ≡ₚ x :: l.
Proof.
  induction l as [|y l IH]; cbn; [done|]. destruct (cmp x y <? 0); [done|]. rewrite IH. apply Permutation_swap.
Qed.

Lemma sort_into_perm l acc : fold_left (fun acc x => js_insert x acc) l acc ≡ₚ acc ++ l.
Proof.
  revert acc. induction l as [|x l IH]; intros acc; cbn; [by rewrite app_nil_r|].
  rewrite IH, js_insert_perm. cbn. by rewrite Permutation_middle.
Qed.

Lemma js_sort_perm l : js_sort l ≡ₚ l.
Proof. apply sort_into_perm. Qed.

(** The comparator orders its arguments. *)
Hypothesis cmp_total : forall x y, 0 <= cmp x y -> cmp y x <= 0.
Hypothesis cmp_trans : forall x y z, cmp x y <= 0 -> cmp y z <= 0 -> cmp x z <= 0.

Lemma js_insert_sorted x l : StronglySorted (fun a b => cmp a b <= 0) l -> StronglySorted (fun a b => cmp a b <= 0) (js_insert x l).
Proof using cmp_total cmp_trans.
  induction 1 as [|y l Hl IH Hy]; cbn; [repeat constructor|]. destruct (cmp x y <? 0) eqn:E.
  - apply Z.ltb_lt in E. constructor; [by constructor|]. constructor; [lia|].
    rewrite Forall_forall in Hy. apply Forall_forall. intros z Hz. apply (cmp_trans x y z); [lia|by apply Hy].
  - apply Z.ltb_ge in E. constructor; [done|]. rewrite js_insert_perm. constructor; [by apply cmp_total|done].
Qed.

Lemma js_sort_sorted l : StronglySorted (fun a b => cmp a b <= 0) (js_sort l).
Proof using cmp_total cmp_trans.
  unfold js_sort. enough (forall acc, StronglySorted (fun a b => cmp a b <= 0) acc ->
    StronglySorted (fun a b => cmp a b <= 0) (fold_left (fun acc x => js_insert x acc) l acc)) as H by (apply H; constructor).
  induction l as [|x l IH]; intros acc Ha; cbn; [done|]. by apply IH, js_insert_sorted.
Qed.

(** The first element comes before or with all others. *)
Lemma js_sort_head l x r : js_sort l = x :: r -> forall y, y ∈ l -> cmp x y <= 0.
Proof using cmp_total cmp_trans.
  intros E y Hy. pose proof (js_sort_sorted l) as Hs. rewrite E in Hs. apply StronglySorted_inv in Hs as [_ Hx].
  rewrite <-(js_sort_perm l), E in Hy. apply elem_of_cons in Hy as [->|Hy].
  - destruct (Z.le_gt_cases (cmp x x) 0) as [Hc|Hc]; [done|]. apply cmp_total. lia.
  - rewrite Forall_forall in Hx. by apply Hx.
Qed.
End Sort.
