(* ===== verification/Bar.v ===== *)
(** * The bars inside tables

    components/Bar of ui/: one or several parts from the left, cut at the capacity, and the
    two error bars from the value to the minimum and the maximum.  [clamp] and [sum] of
    lodash are parameters with what their documentation says of finite numbers. *)

From Stdlib Require Import QArith Qminmax Lqa.
From S2P Require Import Prelude JsString JsNumber.
Local Open Scope Q_scope.

(** The value is an array or a number, which may be missing. *)
Inductive Value := Many (l : list num) | One (v : option num).

(** The offset and the width of a part. *)
Definition Part : Type := num * num.

(** The step of the loop over the values: the sum so far and the parts. *)
Definition push_part (capacity : num) (st : num * list Part) (value : num) : num * list Part :=
  let '(sum, r) := st in
  let v := if num_le (num_add sum value) capacity then value
           else if num_lt sum capacity then num_sub capacity sum else num_of_Z 0%Z in
  (num_add sum v, r ++ [(sum, v)]).

Definition parts_of (capacity : num) (values : list num) : list Part :=
  snd (fold_left (push_part capacity) values (num_of_Z 0%Z, [])).

(** [${(x / capacity) * 100}%] *)
Definition percent (capacity x : num) : num := num_mul (num_div x capacity) (num_of_Z 100%Z).

(** A part as it is drawn: the offset and the width in percent. *)
Record Strip := mkStrip { left : num; width : num }.
Record Drawn := mkDrawn { strips : list Strip; min_bar : option Strip; max_bar : option Strip }.

Section Bar.
Context (clamp : num -> num -> num -> num) (sum : list num -> num).

Definition clampedValues (capacity : num) (value : Value) : list Part :=
  match value with
  | Many l => parts_of capacity l
  | One v => [(num_of_Z 0%Z, clamp (default NaN v) (num_of_Z 0%Z) capacity)]
  end.

Definition too_small (d capacity : num) : bool := num_lt (num_div d capacity) (Fin (1 # 100)).

Definition min_of (capacity valuesSum : num) (min : option num) : option num :=
  m ← min;
  let m := clamp m (num_of_Z 0%Z) valuesSum in
  if too_small (num_sub valuesSum m) capacity then None else Some m.

Definition max_of (capacity valuesSum : num) (max : option num) : option num :=
  m ← max;
  let m := clamp m valuesSum capacity in
  if too_small (num_sub m valuesSum) capacity then None else Some m.

Definition draw (value : Value) (capacity : num) (min max : option num) : Drawn :=
  let clamped := clampedValues capacity value in
  let valuesSum := sum (map snd clamped) in
  let pc := percent capacity in
  mkDrawn (map (fun p => mkStrip (pc (fst p)) (pc (snd p))) clamped)
    ((fun m => mkStrip (pc m) (pc (num_sub valuesSum m))) <$> min_of capacity valuesSum min)
    ((fun m => mkStrip (pc valuesSum) (pc (num_sub m valuesSum))) <$> max_of capacity valuesSum max).
End Bar.

(** ** The geometry of a bar *)

Fixpoint total (l : list Q) : Q := match l with [] => 0 | v :: l => v + total l end.

(** Strips that lie side by side from [x] to [y], in percent. *)
Inductive tiles : Q -> Q -> list Strip -> Prop :=
| tiles_nil x y : (x == y)%Q -> tiles x y []
| tiles_cons x y w d l : fin (left d) x -> fin (width d) w -> (0 <= w)%Q -> tiles (x + w) y l -> tiles x y (d :: l).

#[export] Instance tiles_proper : Proper (Qeq ==> Qeq ==> eq ==> iff) tiles.
Proof.
  assert (forall x y l, tiles x y l -> forall x' y', (x == x')%Q -> (y == y')%Q -> tiles x' y' l) as Hp.
  { induction 1 as [x y Hxy|x y w d l Hl Hw H0 _ IH]; intros x' y' Hx Hy.
    - constructor. lra.
    - apply (tiles_cons x' y' w); [by rewrite <-Hx|done|done|]. apply IH; [lra|done]. }
  intros x x' Hx y y' Hy l _ <-. split; intros Ht; [by apply (Hp x y)|apply (Hp x' y'); [done|by symmetry..]].
Qed.

Lemma total_nonneg l : Forall (Qle 0) l -> 0 <= total l.
Proof. induction 1; cbn; lra. Qed.

Section Geometry.
Context (capacity : num) (c : Q).
Hypothesis capacity_fin : fin capacity c.
Hypothesis capacity_pos : 0 < c.

Definition pct (x : Q) : Q := x / c * 100.

#[local] Instance pct_proper : Proper (Qeq ==> Qeq) pct.
Proof. intros x y Hxy. unfold pct. by rewrite Hxy. Qed.

Lemma percent_fin x q : fin x q -> fin (percent capacity x) (pct q).
Proof.
  intros Hx. apply fin_mul; [|apply fin_Z]. apply fin_div; [done..|]. intros H. lra.
Qed.

Lemma pct_add x y : pct x + pct y == pct (x + y).
Proof. unfold pct. field. lra. Qed.

Lemma pct_sub x y : pct x - pct y == pct (x - y).
Proof. unfold pct. field. lra. Qed.

Lemma pct_nonneg x : 0 <= x -> 0 <= pct x.
Proof. intros Hx. unfold pct. apply Qmult_le_0_compat; [|done]. by apply Qle_shift_div_l; [|lra]. Qed.

Lemma pct_full : pct c == 100.
Proof. unfold pct. field. lra. Qed.

Lemma pct_le x y : x <= y -> pct x <= pct y.
Proof.
  intros Hxy. pose proof (pct_nonneg (y - x)) as Hd. pose proof (pct_add x (y - x)) as Ha.
  assert (x + (y - x) == y) as He by lra. rewrite He in Ha. lra.
Qed.

Definition strip (p : Part) : Strip := mkStrip (percent capacity (fst p)) (percent capacity (snd p)).

Lemma push_part_spec sum r v s q : fin sum s -> fin v q -> 0 <= q -> s <= c ->
  exists sum' v', push_part capacity (sum, r) v = (sum', r ++ [(sum, v')]) /\
    fin sum' (Qmin (s + q) c) /\ fin v' (Qmin (s + q) c - s).
Proof.
  intros Hs Hv Hq Hsc. unfold push_part. rewrite (fin_le _ _ (s + q) c), (fin_lt _ _ s c); eauto using fin_add.
  destruct (Qle_bool (s + q) c) eqn:E; [apply Qle_bool_iff in E|apply not_true_iff_false in E; rewrite Qle_bool_iff in E].
  - eexists _, _. split; [done|]. rewrite Q.min_l by done. split; [by apply fin_add|].
    assert (s + q - s == q) as -> by lra. done.
  - assert (c <= s + q) as Hc by lra. destruct (Qltb s c) eqn:E2; [apply Qltb_true in E2|apply Qltb_false in E2].
    + eexists _, _. split; [done|]. rewrite Q.min_r by done. split; [|by apply fin_sub].
      assert (c == s + (c - s)) as -> by lra. apply fin_add; [done|by apply fin_sub].
    + eexists _, _. split; [done|]. rewrite Q.min_r by done. assert (c - s == 0) as -> by lra. split; [|apply fin_Z].
      assert (c == s + 0) as -> by lra. apply fin_add; [done|apply fin_Z].
Qed.

Lemma min_total s q t : 0 <= t -> Qmin (Qmin (s + q) c + t) c == Qmin (s + (q + t)) c.
Proof.
  intros Ht. destruct (Q.min_spec (s + q) c) as [[Hc ->]|[Hc ->]].
  - apply Q.min_compat; lra.
  - rewrite !Q.min_r by lra. lra.
Qed.

Lemma parts_tile values qs : Forall2 fin values qs -> Forall (Qle 0) qs -> forall sum r s, fin sum s -> 0 <= s -> s <= c ->
  exists r' ws, snd (fold_left (push_part capacity) values (sum, r)) = r ++ r' /\
    tiles (pct s) (pct (Qmin (s + total qs) c)) (map strip r') /\
    Forall2 fin (map snd r') ws /\ s + total ws == Qmin (s + total qs) c.
Proof.
  induction 1 as [|v q values qs Hv _ IH]; intros Hq sum r s Hs H0 Hc.
  - exists [], []. cbn [total map]. rewrite Q.min_l by lra. split_and!; [by rewrite app_nil_r| |done|lra].
    constructor. apply pct_proper. lra.
  - apply Forall_cons in Hq as [Hq Hqs]. cbn [fold_left].
    destruct (push_part_spec sum r v s q Hs Hv Hq Hc) as (sum' & v' & -> & Hs' & Hv').
    assert (s <= Qmin (s + q) c) as Hle by (apply Q.min_glb; lra).
    destruct (IH Hqs sum' (r ++ [(sum, v')]) (Qmin (s + q) c) Hs') as (r' & ws & -> & Ht & Hw & He); [lra|apply Q.le_min_r|].
    cbn [total]. rewrite min_total in Ht, He by (by apply total_nonneg).
    exists ((sum, v') :: r'), ((Qmin (s + q) c - s) :: ws). split_and!; [by rewrite <-app_assoc| |by constructor|cbn [total]; lra].
    apply (tiles_cons _ _ (pct (Qmin (s + q) c - s))); [by apply percent_fin..|apply pct_nonneg; lra|].
    rewrite pct_add. by assert (s + (Qmin (s + q) c - s) == Qmin (s + q) c) as -> by lra.
Qed.

(** ** What is drawn *)

Context (clamp : num -> num -> num -> num) (sum : list num -> num).
Hypothesis clamp_fin : forall x lo hi a b d, fin x a -> fin lo b -> fin hi d -> b <= d ->
  fin (clamp x lo hi) (Qmax b (Qmin a d)).
Hypothesis sum_fin : forall l qs, Forall2 fin l qs -> fin (sum l) (total qs).

(** The length of the bar of a value: the sum of the values, or the value, within the
    capacity. *)
Inductive reads : Value -> Q -> Prop :=
| reads_many l qs : Forall2 fin l qs -> Forall (Qle 0) qs -> reads (Many l) (Qmin (total qs) c)
| reads_one v a : fin v a -> reads (One (Some v)) (Qmax 0 (Qmin a c)).

Lemma reads_bounds value t : reads value t -> 0 <= t /\ t <= c.
Proof.
  destruct 1 as [l qs _ Hq|v a _].
  - split; [apply Q.min_glb; [by apply total_nonneg|lra]|apply Q.le_min_r].
  - split; [apply Q.le_max_l|]. apply Q.max_lub; [lra|apply Q.le_min_r].
Qed.

Lemma clamped_spec value t : reads value t ->
  tiles 0 (pct t) (map strip (clampedValues clamp capacity value)) /\
  fin (sum (map snd (clampedValues clamp capacity value))) t.
Proof.
  intros Hr. pose proof (reads_bounds value t Hr) as [H0 _]. destruct Hr as [l qs Hl Hq|v a Hv]; cbn [clampedValues].
  - destruct (parts_tile l qs Hl Hq (num_of_Z 0%Z) [] 0) as (r & ws & Hr & Ht & Hw & He); [apply fin_Z|lra..|].
    unfold parts_of. rewrite Hr. rewrite (Qplus_0_l (total qs)) in Ht, He. rewrite (Qplus_0_l (total ws)) in He. split.
    + revert Ht. rewrite app_nil_l. assert (pct 0 == 0) as -> by (unfold pct; field; lra). done.
    + rewrite app_nil_l, <-He. by apply sum_fin.
  - assert (fin (clamp v (num_of_Z 0%Z) capacity) (Qmax 0 (Qmin a c))) as Hc by (apply clamp_fin; [done|apply fin_Z|done|lra]).
    cbn [map snd default]. split.
    + apply (tiles_cons _ _ (pct (Qmax 0 (Qmin a c)))).
      * cbn [left strip fst]. assert (0 == pct 0) as -> by (unfold pct; field; lra). apply percent_fin, fin_Z.
      * by apply percent_fin.
      * by apply pct_nonneg.
      * constructor. lra.
    + rewrite <-(Qplus_0_r (Qmax 0 (Qmin a c))). apply (sum_fin _ [Qmax 0 (Qmin a c)]). by constructor.
Qed.

Lemma too_small_pct x q : fin x q -> too_small x capacity = Qltb (pct q) 1.
Proof.
  intros Hx. unfold too_small. rewrite (fin_lt _ _ (q / c) (1 # 100)); [|apply fin_div; [done..|lra]|done].
  unfold pct. apply eq_true_iff_eq. rewrite !Qltb_true. lra.
Qed.

(** The part of an error bar: none, or a strip from [a] to [b]. *)
Definition error_strip (o : option Strip) (missing : bool) (a b : Q) : Prop :=
  if missing || Qltb (pct b - pct a) 1 then o = None else exists d, o = Some d /\ tiles (pct a) (pct b) [d].

Definition value_of (o : option num) : Q := match o with Some (Fin q) => q | _ => 0 end.

Lemma short_sub x y : Qltb (pct x - pct y) 1 = Qltb (pct (x - y)) 1.
Proof. by rewrite pct_sub. Qed.

Lemma min_bar_spec value t mx mn : reads value t -> (forall m, mn = Some m -> exists q, m = Fin q) ->
  error_strip (min_bar (draw clamp sum value capacity mn mx)) (bool_decide (mn = None)) (Qmax 0 (Qmin (value_of mn) t)) t.
Proof.
  intros Hr Hm. destruct (clamped_spec value t Hr) as [_ Ht]. pose proof (reads_bounds value t Hr) as [H0 _].
  destruct mn as [m|]; [|done]. destruct (Hm m eq_refl) as [q ->]. unfold error_strip, draw. cbn [min_bar value_of].
  rewrite bool_decide_false by done. unfold min_of. cbn [mbind option_bind orb].
  set (S := sum _) in *. assert (fin (clamp (Fin q) (num_of_Z 0%Z) S) (Qmax 0 (Qmin q t))) as Hc by (apply clamp_fin; [apply Qeq_refl|apply fin_Z|done|lra]).
  rewrite (too_small_pct _ (t - Qmax 0 (Qmin q t))) by (by apply fin_sub).
  rewrite (short_sub t). destruct (Qltb _ 1); [done|]. eexists. split; [done|].
  assert (Qmax 0 (Qmin q t) <= t) as Hle by (apply Q.max_lub; [lra|apply Q.le_min_r]).
  apply (tiles_cons _ _ (pct (t - Qmax 0 (Qmin q t)))); [by apply percent_fin|by apply percent_fin, fin_sub|apply pct_nonneg; lra|].
  constructor. rewrite <-pct_sub. lra.
Qed.

Lemma max_bar_spec value t mn mx : reads value t -> (forall m, mx = Some m -> exists q, m = Fin q) ->
  error_strip (max_bar (draw clamp sum value capacity mn mx)) (bool_decide (mx = None)) t (Qmax t (Qmin (value_of mx) c)).
Proof.
  intros Hr Hm. destruct (clamped_spec value t Hr) as [_ Ht]. pose proof (reads_bounds value t Hr) as [_ Hc'].
  destruct mx as [m|]; [|done]. destruct (Hm m eq_refl) as [q ->]. unfold error_strip, draw. cbn [max_bar value_of].
  rewrite bool_decide_false by done. unfold max_of. cbn [mbind option_bind orb].
  set (S := sum _) in *. assert (fin (clamp (Fin q) S capacity) (Qmax t (Qmin q c))) as Hc by (by apply clamp_fin).
  rewrite (too_small_pct _ (Qmax t (Qmin q c) - t)) by (by apply fin_sub).
  rewrite (short_sub (Qmax t _)). destruct (Qltb _ 1); [done|]. eexists. split; [done|].
  assert (t <= Qmax t (Qmin q c)) as Hle by apply Q.le_max_l.
  apply (tiles_cons _ _ (pct (Qmax t (Qmin q c) - t))); [by apply percent_fin|by apply percent_fin, fin_sub|apply pct_nonneg; lra|].
  constructor. rewrite <-pct_sub. lra.
Qed.

End Geometry.

(** The functions of lodash on finite numbers. *)
Definition clamp_of (x lo hi : num) : num :=
  match x, lo, hi with Fin a, Fin b, Fin d => Fin (Qmax b (Qmin a d)) | _, _, _ => NaN end.
Definition sum_of (l : list num) : num := fold_right num_add (num_of_Z 0%Z) l.

Lemma clamp_of_fin x lo hi a b d : fin x a -> fin lo b -> fin hi d -> b <= d -> fin (clamp_of x lo hi) (Qmax b (Qmin a d)).
Proof. destruct x, lo, hi; unfold fin, clamp_of; try done. intros H1 H2 H3 _. by rewrite H1, H2, H3. Qed.

Lemma sum_of_fin l qs : Forall2 fin l qs -> fin (sum_of l) (total qs).
Proof. induction 1; [apply fin_Z|]. by apply fin_add. Qed.

