(* ===== verification/DetailTabs.v ===== *)
(** * The tabs of the detail pages

    The rows that the detail pages of statements and slow queries show of one record, in ui
    (Modules [Statement] and [SlowQuery], with the columns of utils/tableColumns.tsx in
    Module [Columns]) and in ui-v2 (Modules [StatementV2] and [SlowQueryV2], with
    formatNumByUnit of 1-utils/format.ts).  A row is a function of the record; the theorems
    compare the two generations and the bars of the time tabs with their scale. *)

From Stdlib Require Import Ascii QArith Qminmax Lqa.
From S2P Require Import Prelude JsString JsNumber Bar.
Local Open Scope Z_scope.
Local Open Scope string_scope.

(** A record of a list: its fields that hold numbers and those that hold text. *)
Record Model := mkModel { nums : string -> option num; strs : string -> option string }.

(** ** The rows of ui *)

(** What the value of a row shows: the value as it is, a number in a unit with one decimal,
    as [ValueWithTooltip.Short] or [ScaledBytes], or a date. *)
Inductive Shown :=
| RawNum (n : option num) | RawStr (s : option string) | Formatted (unit : string) (n : num)
| Short (n : option num) | ScaledBytes (n : option num) | Calendar (ms : num).

(** [x && <DateTime.Calendar unixTimestampMs={x * 1000} />] *)
Definition seen (n : option num) : Shown :=
  match n with Some x => if truthy x then Calendar (num_mul x (num_of_Z 1000)) else RawNum n | None => RawNum None end.

(** [x! * 10e8] *)
Definition nano (n : option num) : num := num_mul (default NaN n) (num_of_Z 1000000000).

Record Item := mkItem { i_key : string; i_value : Shown }.
Record TimeItem := mkTime {
  t_key : string; strong : bool; avg : option num; min : option num; max : option num; value : option num;
  indentLevel : option Z
}.

Module Statement.

Definition tabBasicItems (data : Model) : list Item :=
  [mkItem "table_names" (RawStr (strs data "table_names"));
   mkItem "index_names" (RawStr (strs data "index_names"));
   mkItem "first_seen" (seen (nums data "first_seen"));
   mkItem "last_seen" (seen (nums data "last_seen"));
   mkItem "exec_count" (Short (nums data "exec_count"));
   mkItem "plan_cache_hits" (Short (nums data "plan_cache_hits"));
   mkItem "sum_latency" (Formatted "ns" (js_or (nums data "sum_latency") (num_of_Z 0)));
   mkItem "sample_user" (RawStr (strs data "sample_user"));
   mkItem "sum_errors" (Short (nums data "sum_errors"));
   mkItem "sum_warnings" (Short (nums data "sum_warnings"));
   mkItem "avg_mem" (Formatted "bytes" (js_or (nums data "avg_mem") (num_of_Z 0)));
   mkItem "max_mem" (Formatted "bytes" (js_or (nums data "max_mem") (num_of_Z 0)));
   mkItem "avg_disk" (Formatted "bytes" (js_or (nums data "avg_disk") (num_of_Z 0)));
   mkItem "max_disk" (Formatted "bytes" (js_or (nums data "max_disk") (num_of_Z 0)));
   mkItem "avg_ru" (Formatted "short" (js_or (nums data "avg_ru") (num_of_Z 0)));
   mkItem "max_ru" (Formatted "short" (js_or (nums data "max_ru") (num_of_Z 0)));
   mkItem "resource_group" (RawStr (strs data "resource_group"))].

Definition tabTimeItems (data : Model) : list TimeItem :=
  [mkTime "parse_latency" false (nums data "avg_parse_latency") None (nums data "max_parse_latency") None None;
   mkTime "compile_latency" false (nums data "avg_compile_latency") None (nums data "max_compile_latency") None None;
   mkTime "wait_time" false (nums data "avg_wait_time") None (nums data "max_wait_time") None None;
   mkTime "process_time" false (nums data "avg_process_time") None (nums data "max_process_time") None None;
   mkTime "backoff_time" false (nums data "avg_backoff_time") None (nums data "max_backoff_time") None None;
   mkTime "get_commit_ts_time" false (nums data "avg_get_commit_ts_time") None (nums data "max_get_commit_ts_time") None None;
   mkTime "local_latch_wait_time" false (nums data "avg_local_latch_wait_time") None (nums data "max_local_latch_wait_time") None None;
   mkTime "resolve_lock_time" false (nums data "avg_resolve_lock_time") None (nums data "max_resolve_lock_time") None None;
   mkTime "prewrite_time" false (nums data "avg_prewrite_time") None (nums data "max_prewrite_time") None None;
   mkTime "commit_time" false (nums data "avg_commit_time") None (nums data "max_commit_time") None None;
   mkTime "commit_backoff_time" false (nums data "avg_commit_backoff_time") None (nums data "max_commit_backoff_time") None None;
   mkTime "rc_wait_time" false (nums data "avg_time_queued_by_rc") None (nums data "max_time_queued_by_rc") None None;
   mkTime "query_time2" true (nums data "avg_latency") (nums data "min_latency") (nums data "max_latency") None None].

Definition tabCoprItems (data : Model) : list Item :=
  [mkItem "sum_cop_task_num" (RawNum (nums data "sum_cop_task_num"));
   mkItem "avg_processed_keys" (Short (nums data "avg_processed_keys"));
   mkItem "max_processed_keys" (Short (nums data "max_processed_keys"));
   mkItem "avg_total_keys" (Short (nums data "avg_total_keys"));
   mkItem "max_total_keys" (Short (nums data "max_total_keys"));
   mkItem "avg_rocksdb_block_cache_hit_count" (Short (nums data "avg_rocksdb_block_cache_hit_count"));
   mkItem "max_rocksdb_block_cache_hit_count" (Short (nums data "max_rocksdb_block_cache_hit_count"));
   mkItem "avg_rocksdb_block_read_byte" (ScaledBytes (nums data "avg_rocksdb_block_read_byte"));
   mkItem "max_rocksdb_block_read_byte" (ScaledBytes (nums data "max_rocksdb_block_read_byte"));
   mkItem "avg_rocksdb_block_read_count" (Short (nums data "avg_rocksdb_block_read_count"));
   mkItem "max_rocksdb_block_read_count" (Short (nums data "max_rocksdb_block_read_count"));
   mkItem "avg_rocksdb_delete_skipped_count" (Short (nums data "avg_rocksdb_delete_skipped_count"));
   mkItem "max_rocksdb_delete_skipped_count" (Short (nums data "max_rocksdb_delete_skipped_count"));
   mkItem "avg_rocksdb_key_skipped_count" (Short (nums data "avg_rocksdb_key_skipped_count"));
   mkItem "max_rocksdb_key_skipped_count" (Short (nums data "max_rocksdb_key_skipped_count"));
   mkItem "sum_unpacked_bytes_sent_tikv_total" (ScaledBytes (nums data "sum_unpacked_bytes_sent_tikv_total"));
   mkItem "sum_unpacked_bytes_received_tikv_total" (ScaledBytes (nums data "sum_unpacked_bytes_received_tikv_total"));
   mkItem "sum_unpacked_bytes_sent_tikv_cross_zone" (ScaledBytes (nums data "sum_unpacked_bytes_sent_tikv_cross_zone"));
   mkItem "sum_unpacked_bytes_received_tikv_cross_zone" (ScaledBytes (nums data "sum_unpacked_bytes_received_tikv_cross_zone"));
   mkItem "sum_unpacked_bytes_sent_tiflash_total" (ScaledBytes (nums data "sum_unpacked_bytes_sent_tiflash_total"));
   mkItem "sum_unpacked_bytes_received_tiflash_total" (ScaledBytes (nums data "sum_unpacked_bytes_received_tiflash_total"));
   mkItem "sum_unpacked_bytes_sent_tiflash_cross_zone" (ScaledBytes (nums data "sum_unpacked_bytes_sent_tiflash_cross_zone"));
   mkItem "sum_unpacked_bytes_received_tiflash_cross_zone" (ScaledBytes (nums data "sum_unpacked_bytes_received_tiflash_cross_zone"))].

Definition tabTxnItems (data : Model) : list Item :=
  [mkItem "avg_affected_rows" (Short (nums data "avg_affected_rows"));
   mkItem "sum_backoff_times" (Short (nums data "sum_backoff_times"));
   mkItem "avg_write_keys" (Short (nums data "avg_write_keys"));
   mkItem "max_write_keys" (Short (nums data "max_write_keys"));
   mkItem "avg_write_size" (Formatted "bytes" (js_or (nums data "avg_write_size") (num_of_Z 0)));
   mkItem "max_write_size" (Formatted "bytes" (js_or (nums data "max_write_size") (num_of_Z 0)));
   mkItem "avg_prewrite_regions" (Short (nums data "avg_prewrite_regions"));
   mkItem "max_prewrite_regions" (Short (nums data "max_prewrite_regions"));
   mkItem "avg_txn_retry" (Short (nums data "avg_txn_retry"));
   mkItem "max_txn_retry" (Short (nums data "max_txn_retry"))].

End Statement.

Module SlowQuery.

Definition tabBasicItems (data : Model) : list Item :=
  [mkItem "timestamp" (Calendar (num_mul (default (num_of_Z 0) (nums data "timestamp")) (num_of_Z 1000)));
   mkItem "digest" (RawStr (strs data "digest"));
   mkItem "is_internal" (RawNum (nums data "is_internal"));
   mkItem "is_success" (RawNum (nums data "success"));
   mkItem "is_prepared" (RawNum (nums data "prepared"));
   mkItem "is_plan_from_cache" (RawNum (nums data "plan_from_cache"));
   mkItem "is_plan_from_binding" (RawNum (nums data "plan_from_binding"));
   mkItem "db" (RawStr (strs data "db"));
   mkItem "index_names" (RawStr (strs data "index_names"));
   mkItem "stats" (RawStr (strs data "stats"));
   mkItem "backoff_types" (RawStr (strs data "backoff_types"));
   mkItem "memory_max" (Formatted "bytes" (js_or (nums data "memory_max") (num_of_Z 0)));
   mkItem "disk_max" (Formatted "bytes" (js_or (nums data "disk_max") (num_of_Z 0)));
   mkItem "instance" (RawStr (strs data "instance"));
   mkItem "connection_id" (RawStr (strs data "connection_id"));
   mkItem "user" (RawStr (strs data "user"));
   mkItem "host" (RawStr (strs data "host"));
   mkItem "ru" (RawNum (nums data "ru"));
   mkItem "resource_group" (RawStr (strs data "resource_group"))].

Definition tabTimeItems (data : Model) : list TimeItem :=
  [mkTime "query_time2" true None None None (Some (nano (nums data "query_time"))) (Some 0);
   mkTime "parse_time" false None None None (Some (nano (nums data "parse_time"))) (Some 1);
   mkTime "compile_time" false None None None (Some (nano (nums data "compile_time"))) (Some 1);
   mkTime "rewrite_time" false None None None (Some (nano (nums data "rewrite_time"))) (Some 2);
   mkTime "preproc_subqueries_time" false None None None (Some (nano (nums data "preproc_subqueries_time"))) (Some 3);
   mkTime "optimize_time" false None None None (Some (nano (nums data "optimize_time"))) (Some 2);
   mkTime "cop_time" false None None None (Some (nano (nums data "cop_time"))) (Some 1);
   mkTime "wait_time" false None None None (Some (nano (nums data "wait_time"))) (Some 2);
   mkTime "process_time" false None None None (Some (nano (nums data "process_time"))) (Some 2);
   mkTime "local_latch_wait_time" false None None None (Some (nano (nums data "local_latch_wait_time"))) (Some 1);
   mkTime "lock_keys_time" false None None None (Some (nano (nums data "lock_keys_time"))) (Some 1);
   mkTime "resolve_lock_time" false None None None (Some (nano (nums data "resolve_lock_time"))) (Some 1);
   mkTime "wait_ts" false None None None (Some (nano (nums data "wait_ts"))) (Some 1);
   mkTime "get_commit_ts_time" false None None None (Some (nano (nums data "get_commit_ts_time"))) (Some 1);
   mkTime "prewrite_time" false None None None (Some (nano (nums data "prewrite_time"))) (Some 1);
   mkTime "commit_time" false None None None (Some (nano (nums data "commit_time"))) (Some 1);
   mkTime "backoff_time" false None None None (Some (nano (nums data "backoff_time"))) (Some 1);
   mkTime "commit_backoff_time" false None None None (Some (nano (nums data "commit_backoff_time"))) (Some 1);
   mkTime "exec_retry_time" false None None None (Some (nano (nums data "exec_retry_time"))) (Some 1);
   mkTime "write_sql_response_total" false None None None (Some (nano (nums data "write_sql_response_total"))) (Some 1);
   mkTime "wait_prewrite_binlog_time" false None None None (Some (nano (nums data "wait_prewrite_binlog_time"))) (Some 1);
   mkTime "time_queued_by_rc" false None None None (Some (nano (nums data "time_queued_by_rc"))) (Some 1)].

Definition tabCoprItems (data : Model) : list Item :=
  [mkItem "request_count" (Short (nums data "request_count"));
   mkItem "process_keys" (Short (nums data "process_keys"));
   mkItem "total_keys" (Short (nums data "total_keys"));
   mkItem "cop_proc_addr" (RawStr (strs data "cop_proc_addr"));
   mkItem "cop_wait_addr" (RawStr (strs data "cop_wait_addr"));
   mkItem "rocksdb_block_cache_hit_count" (Short (nums data "rocksdb_block_cache_hit_count"));
   mkItem "rocksdb_block_read_byte" (ScaledBytes (nums data "rocksdb_block_read_byte"));
   mkItem "rocksdb_block_read_count" (Short (nums data "rocksdb_block_read_count"));
   mkItem "rocksdb_delete_skipped_count" (Short (nums data "rocksdb_delete_skipped_count"));
   mkItem "rocksdb_key_skipped_count" (Short (nums data "rocksdb_key_skipped_count"));
   mkItem "unpacked_bytes_sent_tikv_total" (ScaledBytes (nums data "unpacked_bytes_sent_tikv_total"));
   mkItem "unpacked_bytes_received_tikv_total" (ScaledBytes (nums data "unpacked_bytes_received_tikv_total"));
   mkItem "unpacked_bytes_sent_tikv_cross_zone" (ScaledBytes (nums data "unpacked_bytes_sent_tikv_cross_zone"));
   mkItem "unpacked_bytes_received_tikv_cross_zone" (ScaledBytes (nums data "unpacked_bytes_received_tikv_cross_zone"));
   mkItem "unpacked_bytes_sent_tiflash_total" (ScaledBytes (nums data "unpacked_bytes_sent_tiflash_total"));
   mkItem "unpacked_bytes_received_tiflash_total" (ScaledBytes (nums data "unpacked_bytes_received_tiflash_total"));
   mkItem "unpacked_bytes_sent_tiflash_cross_zone" (ScaledBytes (nums data "unpacked_bytes_sent_tiflash_cross_zone"));
   mkItem "unpacked_bytes_received_tiflash_cross_zone" (ScaledBytes (nums data "unpacked_bytes_received_tiflash_cross_zone"))].

Definition tabTxnItems (data : Model) : list Item :=
  [mkItem "txn_start_ts" (RawStr (strs data "txn_start_ts"));
   mkItem "write_keys" (Short (nums data "write_keys"));
   mkItem "write_size" (Formatted "bytes" (js_or (nums data "write_size") (num_of_Z 0)));
   mkItem "prewrite_region" (Short (nums data "prewrite_region"));
   mkItem "txn_retry" (Short (nums data "txn_retry"))].

End SlowQuery.

Module Columns.

(** The cell of the name: its padding and the key that is translated. *)
Definition fieldsKeyColumn (transKeyPrefix : string) (key : string) (indentLevel : option Z) : Z * string :=
  (js_or indentLevel 0 * 24, transKeyPrefix +:+ key).

Definition fieldsDescriptionColumn (transKeyPrefix : string) (key : string) : string :=
  transKeyPrefix +:+ key +:+ "_tooltip".

Section Time.
(** [max] of lodash, and a number of nanoseconds with one decimal. *)
Context (max_ : list (option num) -> option num) (ns : option num -> string).

Definition capacity_of (rows : option (list TimeItem)) : num :=
  match rows with
  | Some rows => default (num_of_Z 0) (max_ (map (fun v => max_ [max v; min v; avg v; value v]) rows))
  | None => num_of_Z 0
  end.

Definition line (label : string) (v : option num) : list string := if truthy v then [label +:+ ns v] else [].

Definition tooltip (rec : TimeItem) : option string :=
  match (line "Mean: " (avg rec) ++ line "Min:  " (min rec) ++ line "Max:  " (max rec))%list with
  | [] => None
  | l => Some (js_trim (js_join (String (ascii_of_nat 10) "") l))
  end.

Definition text (rec : TimeItem) : string := match avg rec with Some _ => ns (avg rec) | None => ns (value rec) end.

Definition bar_value (rec : TimeItem) : option num := match avg rec with Some a => Some a | None => value rec end.

Definition bar (clamp : num -> num -> num -> num) (sum : list num -> num) (rows : list TimeItem) (rec : TimeItem) : Drawn :=
  draw clamp sum (One (bar_value rec)) (capacity_of (Some rows)) (min rec) (max rec).
End Time.

(** The rows of the tab of the coprocessor: those the backend has a column for. *)
Definition schemaColumns (data : option (list string)) : list string := map js_toLowerCase (default [] data).

Definition coprRows (columns : list string) (items : list Item) : list Item :=
  filter (fun item => i_key item ∈ columns) items.

End Columns.

(** ** The rows of ui-v2 *)

Record InfoModel := mkInfo { name : string; level : option Z; info : option string; desc : option string }.

(** The cell of the name: bold or not, and its padding. *)
Definition nameCell (row : InfoModel) : bool * option Z :=
  (bool_decide (level row = Some 0), (fun l => l * 24) <$> level row).

Section V2.
Context (getValueFormat : string -> option (num -> Z -> option Z -> string)) (formatTime : num -> string) (tk : string -> string).

Definition formatNumByUnit (value : num) (unit : string) (precision : Z) : string :=
  if isNaN value then ""
  else match getValueFormat unit with
  | None => num_show value
  | Some formatFn => if bool_decide (unit = "short") then formatFn value 0 (Some precision) else formatFn value precision None
  end.

Definition fmt (value : num) (unit : string) : string := formatNumByUnit value unit 1.

Definition seen_text (n : option num) : string :=
  match n with Some x => if truthy x then formatTime (num_mul x (num_of_Z 1000)) else "-" | None => "-" end.

Definition yes_no (n : option num) : string :=
  match n with Some (Fin q) => if Qeq_bool q 1 then "Yes" else "No" | _ => "No" end.

End V2.

Module StatementV2.
Section Rows.
Context (fmt : num -> string -> string) (formatTime : num -> string) (tk : string -> string).
#[local] Abbreviation seen_text := (seen_text formatTime).

Definition basic (data : Model) : list InfoModel :=
  [mkInfo (tk "fields.table_names") None (Some (js_or (strs data "table_names") "-")) None;
   mkInfo (tk "fields.index_names") None (Some (js_or (strs data "index_names") "-")) (Some (tk "fields.index_names.desc"));
   mkInfo (tk "fields.first_seen") None (Some (seen_text (nums data "first_seen"))) None;
   mkInfo (tk "fields.last_seen") None (Some (seen_text (nums data "last_seen"))) None;
   mkInfo (tk "fields.exec_count") None (Some (fmt (default (num_of_Z 0) (nums data "exec_count")) "short")) (Some (tk "fields.exec_count.desc"));
   mkInfo (tk "fields.sum_latency") None (Some (fmt (default (num_of_Z 0) (nums data "sum_latency")) "ns")) (Some (tk "fields.sum_latency.desc"));
   mkInfo (tk "fields.avg_latency") None (Some (fmt (default (num_of_Z 0) (nums data "avg_latency")) "ns")) (Some (tk "fields.avg_latency.desc"));
   mkInfo (tk "fields.sample_user") None (Some (js_or (strs data "sample_user") "-")) (Some (tk "fields.sample_user.desc"));
   mkInfo (tk "fields.sum_errors") None (Some (fmt (default (num_of_Z 0) (nums data "sum_errors")) "short")) None;
   mkInfo (tk "fields.sum_warnings") None (Some (fmt (default (num_of_Z 0) (nums data "sum_warnings")) "short")) None;
   mkInfo (tk "fields.avg_mem") None (Some (fmt (default (num_of_Z 0) (nums data "avg_mem")) "bytes")) (Some (tk "fields.avg_mem.desc"));
   mkInfo (tk "fields.max_mem") None (Some (fmt (default (num_of_Z 0) (nums data "max_mem")) "bytes")) (Some (tk "fields.max_mem.desc"));
   mkInfo (tk "fields.avg_disk") None (Some (fmt (default (num_of_Z 0) (nums data "avg_disk")) "bytes")) (Some (tk "fields.avg_disk.desc"));
   mkInfo (tk "fields.max_disk") None (Some (fmt (default (num_of_Z 0) (nums data "max_disk")) "bytes")) (Some (tk "fields.max_disk.desc"))].

Definition time (data : Model) : list InfoModel :=
  [mkInfo (tk "fields.query_time_2") (Some 0) (Some (fmt (default (num_of_Z 0) (nums data "avg_latency")) "ns")) (Some (tk "fields.query_time_2.desc"));
   mkInfo (tk "fields.avg_parse_latency") (Some 1) (Some (fmt (default (num_of_Z 0) (nums data "avg_parse_latency")) "ns")) None;
   mkInfo (tk "fields.avg_compile_latency") (Some 1) (Some (fmt (default (num_of_Z 0) (nums data "avg_compile_latency")) "ns")) None;
   mkInfo (tk "fields.avg_wait_time") (Some 1) (Some (fmt (default (num_of_Z 0) (nums data "avg_wait_time")) "ns")) None;
   mkInfo (tk "fields.avg_process_time") (Some 1) (Some (fmt (default (num_of_Z 0) (nums data "avg_process_time")) "ns")) None;
   mkInfo (tk "fields.avg_backoff_time") (Some 1) (Some (fmt (default (num_of_Z 0) (nums data "avg_backoff_time")) "ns")) None;
   mkInfo (tk "fields.avg_get_commit_ts_time") (Some 1) (Some (fmt (default (num_of_Z 0) (nums data "avg_get_commit_ts_time")) "ns")) None;
   mkInfo (tk "fields.avg_local_latch_wait_time") (Some 1) (Some (fmt (default (num_of_Z 0) (nums data "avg_local_latch_wait_time")) "ns")) None;
   mkInfo (tk "fields.avg_resolve_lock_time") (Some 1) (Some (fmt (default (num_of_Z 0) (nums data "avg_resolve_lock_time")) "ns")) None;
   mkInfo (tk "fields.avg_prewrite_time") (Some 1) (Some (fmt (default (num_of_Z 0) (nums data "avg_prewrite_time")) "ns")) None;
   mkInfo (tk "fields.avg_commit_time") (Some 1) (Some (fmt (default (num_of_Z 0) (nums data "avg_commit_time")) "ns")) None;
   mkInfo (tk "fields.avg_commit_backoff_time") (Some 1) (Some (fmt (default (num_of_Z 0) (nums data "avg_commit_backoff_time")) "ns")) None].

Definition copr (data : Model) : list InfoModel :=
  [mkInfo (tk "fields.sum_cop_task_num") None (Some (fmt (default (num_of_Z 0) (nums data "sum_cop_task_num")) "short")) None;
   mkInfo (tk "fields.avg_processed_keys") None (Some (fmt (default (num_of_Z 0) (nums data "avg_processed_keys")) "short")) None;
   mkInfo (tk "fields.max_processed_keys") None (Some (fmt (default (num_of_Z 0) (nums data "max_processed_keys")) "short")) None;
   mkInfo (tk "fields.avg_total_keys") None (Some (fmt (default (num_of_Z 0) (nums data "avg_total_keys")) "short")) (Some (tk "fields.avg_total_keys.desc"));
   mkInfo (tk "fields.max_total_keys") None (Some (fmt (default (num_of_Z 0) (nums data "max_total_keys")) "short")) None;
   mkInfo (tk "fields.avg_rocksdb_block_cache_hit_count") None (Some (fmt (default (num_of_Z 0) (nums data "avg_rocksdb_block_cache_hit_count")) "short")) (Some (tk "fields.avg_rocksdb_block_cache_hit_count.desc"));
   mkInfo (tk "fields.max_rocksdb_block_cache_hit_count") None (Some (fmt (default (num_of_Z 0) (nums data "max_rocksdb_block_cache_hit_count")) "short")) None;
   mkInfo (tk "fields.avg_rocksdb_block_read_byte") None (Some (fmt (default (num_of_Z 0) (nums data "avg_rocksdb_block_read_byte")) "short")) (Some (tk "fields.avg_rocksdb_block_read_byte.desc"));
   mkInfo (tk "fields.max_rocksdb_block_read_byte") None (Some (fmt (default (num_of_Z 0) (nums data "max_rocksdb_block_read_byte")) "short")) None;
   mkInfo (tk "fields.avg_rocksdb_block_read_count") None (Some (fmt (default (num_of_Z 0) (nums data "avg_rocksdb_block_read_count")) "short")) (Some (tk "fields.avg_rocksdb_block_read_count.desc"));
   mkInfo (tk "fields.max_rocksdb_block_read_count") None (Some (fmt (default (num_of_Z 0) (nums data "max_rocksdb_block_read_count")) "short")) None;
   mkInfo (tk "fields.avg_rocksdb_delete_skipped_count") None (Some (fmt (default (num_of_Z 0) (nums data "avg_rocksdb_delete_skipped_count")) "short")) (Some (tk "fields.avg_rocksdb_delete_skipped_count.desc"));
   mkInfo (tk "fields.max_rocksdb_delete_skipped_count") None (Some (fmt (default (num_of_Z 0) (nums data "max_rocksdb_delete_skipped_count")) "short")) None;
   mkInfo (tk "fields.avg_rocksdb_key_skipped_count") None (Some (fmt (default (num_of_Z 0) (nums data "avg_rocksdb_key_skipped_count")) "short")) None;
   mkInfo (tk "fields.max_rocksdb_key_skipped_count") None (Some (fmt (default (num_of_Z 0) (nums data "max_rocksdb_key_skipped_count")) "short")) None].

Definition txn (data : Model) : list InfoModel :=
  [mkInfo (tk "fields.avg_affected_rows") None (Some (fmt (default (num_of_Z 0) (nums data "avg_affected_rows")) "short")) None;
   mkInfo (tk "fields.sum_backoff_times") None (Some (fmt (default (num_of_Z 0) (nums data "sum_backoff_times")) "short")) None;
   mkInfo (tk "fields.avg_write_keys") None (Some (fmt (default (num_of_Z 0) (nums data "avg_write_keys")) "short")) None;
   mkInfo (tk "fields.max_write_keys") None (Some (fmt (default (num_of_Z 0) (nums data "max_write_keys")) "short")) None;
   mkInfo (tk "fields.avg_write_size") None (Some (fmt (default (num_of_Z 0) (nums data "avg_write_size")) "bytes")) None;
   mkInfo (tk "fields.max_write_size") None (Some (fmt (default (num_of_Z 0) (nums data "max_write_size")) "bytes")) None;
   mkInfo (tk "fields.avg_prewrite_regions") None (Some (fmt (default (num_of_Z 0) (nums data "avg_prewrite_regions")) "short")) None;
   mkInfo (tk "fields.max_prewrite_regions") None (Some (fmt (default (num_of_Z 0) (nums data "max_prewrite_regions")) "short")) None;
   mkInfo (tk "fields.avg_txn_retry") None (Some (fmt (default (num_of_Z 0) (nums data "avg_txn_retry")) "short")) None;
   mkInfo (tk "fields.max_txn_retry") None (Some (fmt (default (num_of_Z 0) (nums data "max_txn_retry")) "short")) None].

End Rows.
End StatementV2.

Module SlowQueryV2.
Section Rows.
Context (fmt : num -> string -> string) (formatTime : num -> string) (tk : string -> string).
#[local] Abbreviation seen_text := (seen_text formatTime).

Definition basic (data : Model) : list InfoModel :=
  [mkInfo (tk "fields.timestamp") None (Some (formatTime (num_mul (default NaN (nums data "timestamp")) (num_of_Z 1000)))) (Some (tk "fields.timestamp.desc"));
   mkInfo (tk "fields.digest") None (strs data "digest") (Some (tk "fields.digest.desc"));
   mkInfo (tk "fields.is_internal") None (Some (yes_no (nums data "is_internal"))) (Some (tk "fields.is_internal.desc"));
   mkInfo (tk "fields.success") None (Some (yes_no (nums data "success"))) (Some (tk "fields.success.desc"));
   mkInfo (tk "fields.prepared") None (Some (yes_no (nums data "prepared"))) (Some (tk "fields.prepared.desc"));
   mkInfo (tk "fields.plan_from_cache") None (Some (yes_no (nums data "plan_from_cache"))) None;
   mkInfo (tk "fields.plan_from_binding") None (Some (yes_no (nums data "plan_from_binding"))) None;
   mkInfo (tk "fields.db") None (Some (js_or (strs data "db") "-")) (Some (tk "fields.db.desc"));
   mkInfo (tk "fields.index_names") None (Some (js_or (strs data "index_names") "-")) (Some (tk "fields.index_names.desc"));
   mkInfo (tk "fields.stats") None (Some (js_or (strs data "stats") "-")) None;
   mkInfo (tk "fields.backoff_types") None (Some (js_or (strs data "backoff_types") "-")) None;
   mkInfo (tk "fields.memory_max") None (Some (fmt (js_or (nums data "memory_max") (num_of_Z 0)) "bytes")) (Some (tk "fields.memory_max.desc"));
   mkInfo (tk "fields.disk_max") None (Some (fmt (js_or (nums data "disk_max") (num_of_Z 0)) "bytes")) (Some (tk "fields.disk_max.desc"));
   mkInfo (tk "fields.instance") None (Some (js_or (strs data "instance") "-")) (Some (tk "fields.instance.desc"));
   mkInfo (tk "fields.connection_id") None (Some (js_or (strs data "connection_id") "-")) (Some (tk "fields.connection_id.desc"));
   mkInfo (tk "fields.user") None (Some (js_or (strs data "user") "-")) (Some (tk "fields.user.desc"));
   mkInfo (tk "fields.host") None (Some (js_or (strs data "host") "-")) (Some (tk "fields.host.desc"))].

Definition time (data : Model) : list InfoModel :=
  [mkInfo (tk "fields.query_time_2") (Some 0) (Some (fmt (num_mul (default NaN (nums data "query_time")) (num_of_Z 1000000000)) "ns")) (Some (tk "fields.query_time_2.desc"));
   mkInfo (tk "fields.parse_time") (Some 1) (Some (fmt (num_mul (default NaN (nums data "parse_time")) (num_of_Z 1000000000)) "ns")) (Some (tk "fields.parse_time.desc"));
   mkInfo (tk "fields.compile_time") (Some 1) (Some (fmt (num_mul (default NaN (nums data "compile_time")) (num_of_Z 1000000000)) "ns")) (Some "");
   mkInfo (tk "fields.rewrite_time") (Some 2) (Some (fmt (num_mul (default NaN (nums data "rewrite_time")) (num_of_Z 1000000000)) "ns")) (Some "");
   mkInfo (tk "fields.preproc_subqueries_time") (Some 3) (Some (fmt (num_mul (default NaN (nums data "preproc_subqueries_time")) (num_of_Z 1000000000)) "ns")) (Some (tk "fields.preproc_subqueries_time.desc"));
   mkInfo (tk "fields.optimize_time") (Some 2) (Some (fmt (num_mul (default NaN (nums data "optimize_time")) (num_of_Z 1000000000)) "ns")) (Some (tk "fields.optimize_time.desc"));
   mkInfo (tk "fields.cop_time") (Some 1) (Some (fmt (num_mul (default NaN (nums data "cop_time")) (num_of_Z 1000000000)) "ns")) (Some (tk "fields.cop_time.desc"));
   mkInfo (tk "fields.wait_time") (Some 2) (Some (fmt (num_mul (default NaN (nums data "wait_time")) (num_of_Z 1000000000)) "ns")) (Some (tk "fields.wait_time.desc"));
   mkInfo (tk "fields.process_time") (Some 2) (Some (fmt (num_mul (default NaN (nums data "process_time")) (num_of_Z 1000000000)) "ns")) (Some (tk "fields.process_time.desc"));
   mkInfo (tk "fields.local_latch_wait_time") (Some 1) (Some (fmt (num_mul (default NaN (nums data "local_latch_wait_time")) (num_of_Z 1000000000)) "ns")) (Some (tk "fields.local_latch_wait_time.desc"));
   mkInfo (tk "fields.lock_keys_time") (Some 1) (Some (fmt (num_mul (default NaN (nums data "lock_keys_time")) (num_of_Z 1000000000)) "ns")) (Some (tk "fields.lock_keys_time.desc"));
   mkInfo (tk "fields.resolve_lock_time") (Some 1) (Some (fmt (num_mul (default NaN (nums data "resolve_lock_time")) (num_of_Z 1000000000)) "ns")) (Some (tk "fields.resolve_lock_time.desc"));
   mkInfo (tk "fields.wait_ts") (Some 1) (Some (fmt (num_mul (default NaN (nums data "wait_ts")) (num_of_Z 1000000000)) "ns")) (Some (tk "fields.wait_ts.desc"));
   mkInfo (tk "fields.get_commit_ts_time") (Some 1) (Some (fmt (num_mul (default NaN (nums data "get_commit_ts_time")) (num_of_Z 1000000000)) "ns")) (Some (tk "fields.get_commit_ts_time.desc"));
   mkInfo (tk "fields.prewrite_time") (Some 1) (Some (fmt (num_mul (default NaN (nums data "prewrite_time")) (num_of_Z 1000000000)) "ns")) (Some (tk "fields.prewrite_time.desc"));
   mkInfo (tk "fields.commit_time") (Some 1) (Some (fmt (num_mul (default NaN (nums data "commit_time")) (num_of_Z 1000000000)) "ns")) (Some (tk "fields.commit_time.desc"));
   mkInfo (tk "fields.backoff_time") (Some 1) (Some (fmt (num_mul (default NaN (nums data "backoff_time")) (num_of_Z 1000000000)) "ns")) (Some (tk "fields.backoff_time.desc"));
   mkInfo (tk "fields.commit_backoff_time") (Some 1) (Some (fmt (num_mul (default NaN (nums data "commit_backoff_time")) (num_of_Z 1000000000)) "ns")) (Some (tk "fields.commit_backoff_time.desc"));
   mkInfo (tk "fields.exec_retry_time") (Some 1) (Some (fmt (num_mul (default NaN (nums data "exec_retry_time")) (num_of_Z 1000000000)) "ns")) (Some (tk "fields.exec_retry_time.desc"));
   mkInfo (tk "fields.write_sql_response_total") (Some 1) (Some (fmt (num_mul (default NaN (nums data "write_sql_response_total")) (num_of_Z 1000000000)) "ns")) (Some (tk "fields.write_sql_response_total.desc"));
   mkInfo (tk "fields.wait_prewrite_binlog_time") (Some 1) (Some (fmt (num_mul (default NaN (nums data "wait_prewrite_binlog_time")) (num_of_Z 1000000000)) "ns")) (Some (tk "fields.wait_prewrite_binlog_time.desc"))].

Definition copr (data : Model) : list InfoModel :=
  [mkInfo (tk "fields.request_count") None (Some (fmt (js_or (nums data "request_count") (num_of_Z 0)) "short")) None;
   mkInfo (tk "fields.process_keys") None (Some (fmt (js_or (nums data "process_keys") (num_of_Z 0)) "short")) None;
   mkInfo (tk "fields.total_keys") None (Some (fmt (js_or (nums data "total_keys") (num_of_Z 0)) "short")) None;
   mkInfo (tk "fields.cop_proc_addr") None (Some (js_or (strs data "cop_proc_addr") "-")) (Some (tk "fields.cop_proc_addr.desc"));
   mkInfo (tk "fields.cop_wait_addr") None (Some (js_or (strs data "cop_wait_addr") "-")) (Some (tk "fields.cop_wait_addr.desc"));
   mkInfo (tk "fields.rocksdb_block_cache_hit_count") None (Some (fmt (js_or (nums data "rocksdb_block_cache_hit_count") (num_of_Z 0)) "short")) (Some (tk "fields.rocksdb_block_cache_hit_count.desc"));
   mkInfo (tk "fields.rocksdb_block_read_byte") None (Some (fmt (js_or (nums data "rocksdb_block_read_byte") (num_of_Z 0)) "bytes")) (Some (tk "fields.rocksdb_block_read_byte.desc"));
   mkInfo (tk "fields.rocksdb_block_read_count") None (Some (fmt (js_or (nums data "rocksdb_block_read_count") (num_of_Z 0)) "short")) (Some (tk "fields.rocksdb_block_read_count.desc"));
   mkInfo (tk "fields.rocksdb_delete_skipped_count") None (Some (fmt (js_or (nums data "rocksdb_delete_skipped_count") (num_of_Z 0)) "short")) (Some (tk "fields.rocksdb_delete_skipped_count.desc"));
   mkInfo (tk "fields.rocksdb_key_skipped_count") None (Some (fmt (js_or (nums data "rocksdb_key_skipped_count") (num_of_Z 0)) "short")) (Some (tk "fields.rocksdb_key_skipped_count.desc"))].

Definition txn (data : Model) : list InfoModel :=
  [mkInfo (tk "fields.txn_start_ts") None (strs data "txn_start_ts") (Some (tk "fields.txn_start_ts.desc"));
   mkInfo (tk "fields.write_keys") None (Some (fmt (js_or (nums data "write_keys") (num_of_Z 0)) "short")) None;
   mkInfo (tk "fields.write_size") None (Some (fmt (js_or (nums data "write_size") (num_of_Z 0)) "bytes")) None;
   mkInfo (tk "fields.prewrite_region") None (Some (fmt (js_or (nums data "prewrite_region") (num_of_Z 0)) "short")) None;
   mkInfo (tk "fields.txn_retry") None (Some (fmt (js_or (nums data "txn_retry") (num_of_Z 0)) "short")) None].

End Rows.
End SlowQueryV2.

(** ** The rows agree *)

(** Numbers as JSON gives them. *)
Definition plain (data : Model) : Prop := forall f x, nums data f = Some x -> exists q, x = Fin q /\ Qred q = q.

Lemma js_or_zero (o : option num) : (forall x, o = Some x -> exists q, x = Fin q /\ Qred q = q) ->
  js_or o (num_of_Z 0) = default (num_of_Z 0) o.
Proof.
  destruct o as [x|]; [|done]. intros Hx. destruct (Hx x eq_refl) as (q & -> & Hq). unfold js_or. cbn.
  destruct (Qeq_bool q 0) eqn:E; [|done]. apply Qeq_bool_iff, Qred_complete in E. rewrite Hq in E. by subst q.
Qed.

Lemma plain_or data f : plain data -> js_or (nums data f) (num_of_Z 0) = default (num_of_Z 0) (nums data f).
Proof. intros Hp. apply js_or_zero. apply Hp. Qed.

Section Agree.
Context (fmt : num -> string -> string) (formatTime : num -> string) (tk : string -> string).

(** A newer row shows what an older one shows: the same number in the same unit, or the same
    text.  A number that is shown as it is has no unit. *)
Definition same_value (v : Shown) (t : option string) : Prop :=
  match v with
  | RawNum _ => False
  | Short n => t = Some (fmt (default (num_of_Z 0) n) "short")
  | ScaledBytes n => t = Some (fmt (default (num_of_Z 0) n) "bytes")
  | Formatted u n => t = Some (fmt n u)
  | RawStr s => t = s
  | Calendar ms => t = Some (formatTime ms)
  end.

Definition same_row (i : Item) (r : InfoModel) : Prop :=
  name r = tk ("fields." +:+ i_key i) /\ same_value (i_value i) (info r).

(** The number of bytes that the newer page of statements shows without a unit. *)
Definition unitless_row (i : Item) (r : InfoModel) : Prop :=
  exists n, i_value i = ScaledBytes n /\ name r = tk ("fields." +:+ i_key i) /\
    info r = Some (fmt (default (num_of_Z 0) n) "short").

(** The number that the older page shows as it is, and the newer one shortened. *)
Definition shortened_row (i : Item) (r : InfoModel) : Prop :=
  exists n, i_value i = RawNum n /\ name r = tk ("fields." +:+ i_key i) /\
    info r = Some (fmt (default (num_of_Z 0) n) "short").

(** The text for which the newer page shows a dash when it is missing or empty. *)
Definition dashed_row (i : Item) (r : InfoModel) : Prop :=
  exists s, i_value i = RawStr s /\ name r = tk ("fields." +:+ i_key i) /\ info r = Some (js_or s "-").

Definition statement_copr_row (i : Item) (r : InfoModel) : Prop :=
  if decide (i_key i = "avg_rocksdb_block_read_byte" \/ i_key i = "max_rocksdb_block_read_byte") then unitless_row i r
  else if decide (i_key i = "sum_cop_task_num") then shortened_row i r else same_row i r.
Definition slow_query_copr_row (i : Item) (r : InfoModel) : Prop :=
  if decide (i_key i = "cop_proc_addr" \/ i_key i = "cop_wait_addr") then dashed_row i r else same_row i r.

(** The average, or the value, of an older row of the time. *)
Definition same_time (prefix : string) (i : TimeItem) (r : InfoModel) : Prop :=
  name r = tk ("fields." +:+ prefix +:+ t_key i) /\ info r = Some (fmt (default (num_of_Z 0) (avg i)) "ns").

Definition same_nested (i : TimeItem) (r : InfoModel) : Prop :=
  name r = tk ("fields." +:+ t_key i) /\ level r = indentLevel i /\ info r = Some (fmt (default NaN (value i)) "ns").

(** The rows of the network traffic. *)
Definition traffic_keys : list string :=
  ["unpacked_bytes_sent_tikv_total"; "unpacked_bytes_received_tikv_total"; "unpacked_bytes_sent_tikv_cross_zone"; "unpacked_bytes_received_tikv_cross_zone";
   "unpacked_bytes_sent_tiflash_total"; "unpacked_bytes_received_tiflash_total"; "unpacked_bytes_sent_tiflash_cross_zone"; "unpacked_bytes_received_tiflash_cross_zone"].

(** Goes through two lists row by row. *)
Local Ltac row_by_row tac := repeat (apply List.Forall2_cons; [by tac|]); apply List.Forall2_nil.

Local Ltac row Hp :=
  repeat match goal with |- context [decide ?P] => first [rewrite (decide_True (P := P)) by tauto|rewrite (decide_False (P := P)) by (cbn; first [discriminate|intros [?|?]; discriminate])] end;
  first [split_and!; reflexivity|split; [reflexivity|]; cbn [info i_value same_value]; rewrite ?(plain_or _ _ Hp); first [reflexivity|left; reflexivity|right; reflexivity]
        |eexists; split_and!; reflexivity].

End Agree.

(** A record with numbers in all fields. *)
Definition sample : Model := mkModel (fun f => Some (num_of_Z (Z.of_nat (String.length f)))) (fun f => Some f).


(** ** The bars of the time *)

Section Scale.
Context (max_ : list (option num) -> option num) (clamp : num -> num -> num -> num) (sum : list num -> num).

(** Every value that is there is a number. *)
Definition numbers (l : list (option num)) : Prop := forall x, Some x ∈ l -> exists q, x = Fin q.

(** [max] of lodash: a largest element of those that are there, if there is one. *)
Hypothesis max_spec : forall l, numbers l ->
  match max_ l with
  | None => forall x, Some x ∉ l
  | Some m => Some m ∈ l /\ forall x, Some x ∈ l -> num_le x m = true
  end.
Hypothesis clamp_fin : forall x lo hi a b d, fin x a -> fin lo b -> fin hi d -> (b <= d)%Q ->
  fin (clamp x lo hi) (Qmax b (Qmin a d)).
Hypothesis sum_fin : forall l qs, Forall2 fin l qs -> fin (sum l) (total qs).

Definition times (i : TimeItem) : list (option num) := [max i; min i; avg i; value i].

Lemma num_le_trans x y z : num_le x y = true -> num_le y z = true -> num_le x z = true.
Proof.
  destruct x as [|[]|a], y as [|[]|b], z as [|[]|c]; cbn; try done.
  rewrite !Qle_bool_iff. apply Qle_trans.
Qed.

Lemma capacity_largest rows i x : Forall (fun i => numbers (times i)) rows -> i ∈ rows -> Some x ∈ times i ->
  num_le x (Columns.capacity_of max_ (Some rows)) = true.
Proof.
  intros Hn Hi Hx. rewrite Forall_forall in Hn. unfold Columns.capacity_of.
  pose proof (max_spec (times i) (Hn i Hi)) as Hm. unfold times in Hm, Hx.
  destruct (max_ [max i; min i; avg i; value i]) as [m|] eqn:E; [|by destruct (Hm x)].
  destruct Hm as [_ Hm]. specialize (Hm x Hx).
  set (f := fun v : TimeItem => max_ [max v; min v; avg v; value v]).
  assert (numbers (map f rows)) as Hnum.
  { intros y Hy. apply list_elem_of_fmap in Hy as (v & Hv & Hin). pose proof (max_spec (times v) (Hn v Hin)) as Hs.
    unfold f in Hv. unfold times in Hs at 1. rewrite <-Hv in Hs. destruct Hs as [Hs _]. by apply (Hn v Hin). }
  pose proof (max_spec _ Hnum) as Hmax. assert (Some m ∈ map f rows) as Him.
  { apply list_elem_of_fmap. exists i. split; [by unfold f|done]. }
  destruct (max_ (map f rows)) as [M|]; [|by destruct (Hmax m)].
  apply (num_le_trans _ m); [done|]. by apply Hmax.
Qed.

Lemma error_strip_eq c o missing a a' b b' : (a == a')%Q -> (b == b')%Q ->
  error_strip c o missing a b -> error_strip c o missing a' b'.
Proof.
  intros Ha Hb. unfold error_strip, pct.
  assert (Qltb (b / c * 100 - a / c * 100) 1 = Qltb (b' / c * 100 - a' / c * 100) 1) as -> by (by rewrite Ha, Hb).
  destruct (missing || _); [done|]. intros (d & -> & Ht). exists d. split; [done|]. by rewrite <-Ha, <-Hb.
Qed.

Lemma in_range c a : (0 <= a)%Q -> (a <= c)%Q -> (Qmax 0 (Qmin a c) == a)%Q.
Proof. intros H0 Hc. rewrite Q.min_l by done. by apply Q.max_r. Qed.

(** The rows of a tab of the time are drawn to one scale: the bar of a row ends where its
    average, or its value, lies between zero and the largest time of all rows, and its error
    bars start at its minimum and end at its maximum; no row is cut off. *)
Theorem time_rows_to_scale (rows : list TimeItem) (i : TimeItem) (c a : Q) (v : num) :
  Forall (fun i => numbers (times i)) rows -> i ∈ rows -> Columns.bar_value i = Some v -> fin v a -> (0 <= a)%Q ->
  (forall m q, min i = Some m -> fin m q -> (0 <= q /\ q <= a)%Q) -> (forall m q, max i = Some m -> fin m q -> (a <= q)%Q) ->
  fin (Columns.capacity_of max_ (Some rows)) c -> (0 < c)%Q ->
  let d := Columns.bar max_ clamp sum rows i in
  tiles 0 (a / c * 100) (strips d) /\ (a <= c)%Q /\
  error_strip c (min_bar d) (bool_decide (min i = None)) (value_of (min i)) a /\
  error_strip c (max_bar d) (bool_decide (max i = None)) a (match max i with Some m => value_of (max i) | None => a end).
Proof.
  intros Hn Hi Hv Ha H0 Hmin Hmax Hc Hpos. set (cap := Columns.capacity_of max_ (Some rows)) in *.
  assert (forall x q, Some x ∈ times i -> fin x q -> (q <= c)%Q) as Hle.
  { intros x q Hx Hq. apply Qle_bool_iff. rewrite <-(fin_le x cap q c Hq Hc). by apply (capacity_largest rows i). }
  assert (Some v ∈ times i) as Hvi.
  { unfold Columns.bar_value in Hv. unfold times. destruct (avg i); rewrite <-Hv; set_solver. }
  assert (forall o m, o = Some m -> Some m ∈ times i -> exists q, m = Fin q) as Hfin.
  { intros o m _ Hm. rewrite Forall_forall in Hn. by apply (Hn i Hi). }
  assert (forall m, min i = Some m -> exists q, m = Fin q) as Hfmin.
  { intros m Hm. apply (Hfin (min i) m Hm). unfold times. rewrite Hm. set_solver. }
  assert (forall m, max i = Some m -> exists q, m = Fin q) as Hfmax.
  { intros m Hm. apply (Hfin (max i) m Hm). unfold times. rewrite Hm. set_solver. }
  pose proof (Hle v a Hvi Ha) as Hac. pose proof (in_range c a H0 Hac) as Ht.
  assert (reads c (One (Columns.bar_value i)) (Qmax 0 (Qmin a c))) as Hr by (rewrite Hv; by constructor).
  unfold Columns.bar. fold cap. split_and!; [|done| |].
  - rewrite <-Ht at 1. exact (proj1 (clamped_spec cap c Hc Hpos clamp sum clamp_fin sum_fin _ _ Hr)).
  - eapply error_strip_eq; [|exact Ht|by apply (min_bar_spec cap c)].
    destruct (min i) as [m|] eqn:E; [|cbn; rewrite Ht; by rewrite Q.min_l, Q.max_l].
    destruct (Hfmin m eq_refl) as [q ->]. destruct (Hmin (Fin q) q eq_refl ltac:(apply Qeq_refl)) as [Hq0 Hqa].
    cbn [value_of]. rewrite Ht. rewrite Q.min_l by done. by apply Q.max_r.
  - eapply error_strip_eq; [exact Ht| |by apply (max_bar_spec cap c)].
    destruct (max i) as [m|] eqn:E.
    + destruct (Hfmax m eq_refl) as [q ->]. cbn [value_of]. rewrite Ht. pose proof (Hmax (Fin q) q eq_refl ltac:(apply Qeq_refl)).
      assert (q <= c)%Q as Hqc by (apply (Hle (Fin q)); [unfold times; rewrite E; set_solver|apply Qeq_refl]).
      rewrite Q.min_l by done. by apply Q.max_r.
    + rewrite Ht. cbn [value_of]. rewrite Q.min_l by lra. by apply Q.max_l.
Qed.
End Scale.

(** The maximum of lodash on finite numbers. *)
Definition largest (l : list (option num)) : option num :=
  fold_right (fun o acc => match o, acc with
    | Some x, Some m => Some (if num_le m x then x else m) | Some x, None => Some x | None, acc => acc end) None l.

Lemma largest_spec l : numbers l ->
  match largest l with
  | None => forall x, Some x ∉ l
  | Some m => Some m ∈ l /\ forall x, Some x ∈ l -> num_le x m = true
  end.
Proof.
  induction l as [|o l IH]; intros Hn; cbn [largest fold_right]; [intros x; apply not_elem_of_nil|].
  assert (numbers l) as Hl by (intros x Hx; apply Hn; by right). specialize (IH Hl). fold (largest l).
  destruct o as [x|].
  - destruct (Hn x ltac:(by left)) as [q ->]. destruct (largest l) as [m|].
    + destruct IH as [Hm Hle]. destruct (Hl m Hm) as [p ->]. cbn [num_le]. destruct (Qle_bool p q) eqn:E.
      * split; [by left|]. intros x [[= ->]|Hx]%elem_of_cons; [apply Qle_bool_iff, Qle_refl|].
        apply (num_le_trans _ (Fin p)); [by apply Hle|done].
      * split; [by right|]. intros x [[= ->]|Hx]%elem_of_cons; [|by apply Hle]. apply Qle_bool_iff.
        apply not_true_iff_false in E. rewrite Qle_bool_iff in E. by apply Qlt_le_weak, Qnot_le_lt.
    + split; [by left|]. intros x [[= ->]|Hx]%elem_of_cons; [apply Qle_bool_iff, Qle_refl|by destruct (IH x)].
  - destruct (largest l) as [m|].
    + destruct IH as [Hm Hle]. split; [by right|]. intros x [Hx|Hx]%elem_of_cons; [discriminate|by apply Hle].
    + intros x [Hx|Hx]%elem_of_cons; [discriminate|by apply (IH x)].
Qed.

Lemma time_rows_to_scale_witness :
  let row := mkTime "total" false (Some (num_of_Z 40)) (Some (num_of_Z 10)) (Some (num_of_Z 80)) None None in
  let d := Columns.bar largest clamp_of sum_of [row] row in
  tiles 0 (40 / 80 * 100) (strips d) /\ (left <$> min_bar d, width <$> max_bar d) = (Some (Fin (25 # 2)), Some (num_of_Z 50)).
Proof.
  intros row. split; [|reflexivity].
  refine (proj1 (time_rows_to_scale largest clamp_of sum_of largest_spec clamp_of_fin sum_of_fin [row] row 80 40
    (num_of_Z 40) _ _ eq_refl (Qeq_refl _) _ _ _ _ _)); [|by left|done| | |done|done].
  - apply Forall_singleton. intros x Hx. unfold times, row in Hx. cbn in Hx. apply list_elem_of_In in Hx.
    repeat destruct Hx as [[= <-]|Hx]; [eexists; reflexivity..|done].
  - intros m q [= <-] Hq. cbn in Hq. split; rewrite <-Hq; done.
  - intros m q [= <-] Hq. cbn in Hq. by rewrite <-Hq.
Defined.
