(* ===== verification/StatementDetail.v ===== *)
(** * The detail page of a statement

    apps/Statement/pages/Detail: Module [Bind] is the binding of a plan (PlanBind.tsx), the
    page, its dialog and the table in it against a server that keeps the binding; Module
    [Plans] is the page around the list of plans (index.tsx, PlanDetail.tsx).  Module
    [BindV2] is the cell that binds a plan in ui-v2
    (plans-list/bind-sql-cell.tsx). *)

From Stdlib Require Import Sorted.
From S2P Require Import Prelude JsString JsNumber JsArray.
Local Open Scope Z_scope.

(** The fields of a plan the page reads. *)
Record Plan := mkPlan {
  plan_digest : option string; plan_can_be_bound : bool; exec_count : Z; avg_latency : Z; digest_text : string
}.

(** [findIndex] *)
Fixpoint find_index {A} (p : A -> bool) (l : list A) (i : Z) : Z :=
  match l with [] => -1 | x :: l => if p x then i else find_index p l (i + 1) end.

(** ** Binding a plan *)

Module Bind.

(** What the page tells the selection of the table. *)
Inductive Command := SelectIndex (i : Z) | SelectNone.

(** The table as it was mounted: the handlers of its selection keep the binding they were
    made with. *)
Record Table := mkTable { mountedWith : option string }.

Record State := mkState {
  boundPlanDigest : option string; showPlanBindModal : bool; selectedPlan : option string; isLoading : bool;
  table : option Table
}.

Definition set_bound (v : option string) (s : State) : State :=
  mkState v (showPlanBindModal s) (selectedPlan s) (isLoading s) (table s).
Definition set_shown (v : bool) (s : State) : State :=
  mkState (boundPlanDigest s) v (selectedPlan s) (isLoading s) (table s).
Definition set_selected (v : option string) (s : State) : State :=
  mkState (boundPlanDigest s) (showPlanBindModal s) v (isLoading s) (table s).
Definition set_loading (v : bool) (s : State) : State :=
  mkState (boundPlanDigest s) (showPlanBindModal s) (selectedPlan s) v (table s).
Definition set_table (v : option Table) (s : State) : State :=
  mkState (boundPlanDigest s) (showPlanBindModal s) (selectedPlan s) (isLoading s) v.

Section Bind.
Context (plans : list Plan).

Definition boundIndex (bound : option string) : Z := find_index (fun v => bool_decide (plan_digest v = bound)) plans 0.

Definition canSelectItem (t : Table) (item : Plan) : bool :=
  negb (truthy (mountedWith t)) || bool_decide (plan_digest item = mountedWith t).

Definition handleSelectedPlanChange (plan : list Plan) (s : State) : State :=
  set_selected (match plan with [] => None | p :: _ => plan_digest p end) s.

Definition onSelectionChanged (t : Table) (sel : list Plan) (s : State) : State * option Command :=
  let s := handleSelectedPlanChange sel s in
  if negb (truthy (mountedWith t)) then (s, None)
  else (s, match sel with [] => Some (SelectIndex (boundIndex (mountedWith t))) | _ => None end).

(** The effect of the table, when it is mounted and when the binding changed. *)
Definition tableEffect (bound : option string) : option Command :=
  if truthy bound && (0 <? length plans)%nat then Some (SelectIndex (boundIndex bound))
  else if negb (truthy bound) then Some SelectNone else None.

(** React takes over the state [s'] after [s]: the table is in the dialog while nothing is
    loading, and the effect runs for a new table or another binding. *)
Definition commit (s s' : State) : State * option Command :=
  if showPlanBindModal s' && negb (isLoading s')
  then match table s with
       | None => (set_table (Some (mkTable (boundPlanDigest s'))) s', tableEffect (boundPlanDigest s'))
       | Some t => (set_table (Some t) s',
                    if bool_decide (boundPlanDigest s = boundPlanDigest s') then None else tableEffect (boundPlanDigest s'))
       end
  else (set_table None s', None).

Definition statusEffect (planBindingStatus : option (option string)) (s : State) : State :=
  match planBindingStatus with Some d => set_bound d s | None => s end.

Definition hasPlanToBind : bool := match plans with p :: _ => plan_can_be_bound p | [] => false end.

(** The badge of the page and the button of the dialog. *)
Inductive Badge := Unavailable | Bound | NotBound.
Definition badge (s : State) : Badge :=
  if negb hasPlanToBind then Unavailable else if truthy (boundPlanDigest s) then Bound else NotBound.

Inductive Button := DropButton (disabled : bool) | BindButton (disabled : bool).
Definition button (s : State) : Button :=
  if truthy (boundPlanDigest s) then DropButton (isLoading s)
  else BindButton (isLoading s || negb (truthy (selectedPlan s))).

(** The two handlers, up to their request and after it. *)
Definition handleStart (s : State) : State := set_loading true s.

Definition handlePlanBind (selected : option string) (ok : bool) (s : State) : State :=
  set_loading false (if ok then set_bound selected s else s).

Definition handleDropPlan (ok : bool) (s : State) : State :=
  set_loading false (if ok then set_bound None (set_selected None s) else s).

Definition opened : State := mkState None false None false None.

(** ** The page and the server *)

Inductive Op := BindOp (digest : option string) | DropOp.
Inductive Status := Asked | Served (d : option (option string)) | Answered | Failed.

(** The requests in flight with what the server made of them, if it had them already. *)
Record World := mkWorld { page : State; server : option string; status : Status; ops : list (Op * option bool) }.

Definition applied (op : Op) : option string := match op with BindOp d => d | DropOp => None end.

Definition render (s' : State) (w : World) : State := fst (commit (page w) s').

Definition with_page (s : State) (w : World) : World := mkWorld (render s w) (server w) (status w) (ops w).

Definition ended (op : Op) (ok : bool) : State -> State :=
  match op with BindOp d => handlePlanBind d ok | DropOp => handleDropPlan ok end.

(** The operations of the user need the status when [quiet] holds. *)
Inductive step (quiet : Prop) : World -> World -> Prop :=
| serve_status w : status w = Asked ->
    step quiet w (mkWorld (page w) (server w) (Served (Some <$> server w)) (ops w))
| answer_status w d : status w = Served d ->
    step quiet w (mkWorld (render (statusEffect d (page w)) w) (server w) Answered (ops w))
| fail_status w : status w = Asked ->
    step quiet w (mkWorld (page w) (server w) Failed (ops w))
| open_modal w : hasPlanToBind = true -> step quiet w (with_page (set_shown true (page w)) w)
| close_modal w : step quiet w (with_page (set_shown false (page w)) w)
| select w t sel : table (page w) = Some t -> Forall (fun p => p ∈ plans /\ canSelectItem t p = true) sel ->
    step quiet w (with_page (fst (onSelectionChanged t sel (page w))) w)
| click_bind w : showPlanBindModal (page w) = true -> button (page w) = BindButton false -> (quiet -> status w = Answered) ->
    step quiet w (mkWorld (render (handleStart (page w)) w) (server w) (status w) (ops w ++ [(BindOp (selectedPlan (page w)), None)]))
| click_drop w : showPlanBindModal (page w) = true -> button (page w) = DropButton false -> (quiet -> status w = Answered) ->
    step quiet w (mkWorld (render (handleStart (page w)) w) (server w) (status w) (ops w ++ [(DropOp, None)]))
| serve_op w pre op post (ok : bool) : ops w = pre ++ (op, None) :: post ->
    step quiet w (mkWorld (page w) (if ok then applied op else server w) (status w) (pre ++ (op, Some ok) :: post))
| answer_op w pre op ok post : ops w = pre ++ (op, Some ok) :: post ->
    step quiet w (mkWorld (render (ended op ok (page w)) w) (server w) (status w) (pre ++ post)).

Definition start (bound : option string) : World := mkWorld opened bound Asked [].
End Bind.

End Bind.

(** ** The page of the plans *)

Module Plans.

(** Plans by their executions, those executed as often by their latency. *)
Definition compareFn (a b : Plan) : Z :=
  if exec_count a =? exec_count b then avg_latency b - avg_latency a else exec_count b - exec_count a.

Record Page := mkPage { plans : option (list Plan); selectedPlans : list string }.

Definition opened : Page := mkPage None [].

Definition onSelectionChanged (s : list Plan) (p : Page) : Page :=
  mkPage (plans p) (map (fun v => js_or (plan_digest v) "") s).

(** The effect of an answer: all plans are selected, which reports them in the order
    [reported] of the table, and the plans are sorted in place. *)
Definition plansEffect (answer : list Plan) (reported : list Plan) (p : Page) : Page :=
  match answer with
  | [] => mkPage (Some []) (selectedPlans p)
  | _ => let p := onSelectionChanged reported (mkPage (Some answer) (selectedPlans p)) in
         mkPage (Some (js_sort compareFn answer)) (selectedPlans p)
  end.

(** The plan whose text the head shows, with whether the formatted text can be copied. *)
Definition head_of (p : Page) : option (string * bool) :=
  match plans p with Some (q :: _) => Some (digest_text q, js_length (digest_text q) <? 10000) | _ => None end.

Definition tableShown (p : Page) : bool := match plans p with Some l => (1 <? length l)%nat | None => false end.

(** The part below asks for the details of the selected plans; another selection mounts it
    again. *)
Record Detail := mkDetail { d_plans : list string; allPlans : nat }.

Definition detail_of (p : Page) : option Detail :=
  match selectedPlans p, plans p with
  | _ :: _, Some ((_ :: _) as l) => Some (mkDetail (selectedPlans p) (length l))
  | _, _ => None
  end.

Inductive TitleKey := one_for_all | all | some.
Definition titleKey (d : Detail) : TitleKey :=
  if (allPlans d =? 1)%nat then one_for_all else if (length (d_plans d) =? allPlans d)%nat then all else some.

Definition planBindShown (enablePlanBinding supportPlanBinding : bool) (p : Page) : bool :=
  enablePlanBinding && supportPlanBinding && match plans p with Some (_ :: _) => true | _ => false end.

(** What the part shows of an answer. *)
Record PlanData := mkData { binary_plan : option string; binary_plan_json : option string; binary_plan_text : option string; plan : option string }.

(** The plan in JSON: its main part, which can say that it was too long. *)
Record BinaryPlan := mkBinary { main : option (option bool) }.

Inductive Tab := binary_plan_table | text_plan | binary_plan_.

Inductive PlanView := Throws | NoPlan | TabsOf (active : Tab) (l : list Tab).

Section View.
(** [JSON.parse], without a value when it throws. *)
Context (parse : string -> option BinaryPlan).

Definition binaryPlanObj (data : PlanData) : option (option BinaryPlan) :=
  let json := match binary_plan_json data with Some j => Some j | None => binary_plan data end in
  match json with Some j => if truthy j then Some <$> parse j else Some None | None => Some None end.

(** Access to the main part of a plan without one throws. *)
Definition view (data : PlanData) : PlanView :=
  match binaryPlanObj data with
  | None => Throws
  | Some obj =>
      if truthy (binary_plan_text data) || truthy (plan data)
      then
        let table := if truthy (binary_plan_text data) then [binary_plan_table] else [] in
        match obj with
        | None => TabsOf (if truthy (binary_plan_text data) then binary_plan_table else text_plan) (table ++ [text_plan])
        | Some o =>
            match main o with
            | None => Throws
            | Some discardedDueToTooLong =>
                TabsOf (if truthy (binary_plan_text data) then binary_plan_table else text_plan)
                  (table ++ [text_plan] ++ if truthy discardedDueToTooLong then [] else [binary_plan_])
            end
        end
      else NoPlan
  end.

Definition planText (data : PlanData) : string :=
  if truthy (binary_plan_text data) then default "" (binary_plan_text data) else js_or (plan data) "".
End View.

End Plans.

(** ** The cell of ui-v2 *)

Module BindV2.

Inductive Cell := Nothing | DisabledOld | DisabledPlan | Unbind | Bind.

Definition SqlPlanBindActionCell (isSupport canBind : bool) (bindPlanDigests : list string) (curPlanDigest : string) : Cell :=
  if negb (truthy curPlanDigest) || bool_decide (curPlanDigest = "all") then Nothing
  else if negb isSupport then DisabledOld
  else if negb canBind then DisabledPlan
  else if (0 <? length bindPlanDigests)%nat
       then if bool_decide (curPlanDigest ∈ bindPlanDigests) then Unbind else Nothing
       else Bind.

(** What a click on the cell, once confirmed, does to what is bound. *)
Definition confirmed (cell : Cell) (curPlanDigest : string) (ok : bool) (bound : list string) : list string :=
  match cell with
  | Bind => if ok then [curPlanDigest] else bound
  | Unbind => if ok then [] else bound
  | _ => bound
  end.

End BindV2.

(** ** The binding shown *)

Section BindFacts.
Import Bind.
Context (plans : list Plan).
#[local] Abbreviation step := (step plans).
#[local] Abbreviation render := (render plans).

(** The digest a missing or empty digest stands for. *)
Definition norm (o : option string) : option string := if truthy o then o else None.

Definition digest_of_plan (o : option string) : Prop := o ∈ map plan_digest plans.

Lemma render_fields s' w :
  boundPlanDigest (render s' w) = boundPlanDigest s' /\ selectedPlan (render s' w) = selectedPlan s' /\
  isLoading (render s' w) = isLoading s' /\ showPlanBindModal (render s' w) = showPlanBindModal s' /\
  (is_Some (table (render s' w)) -> showPlanBindModal s' = true /\ isLoading s' = false).
Proof.
  unfold Bind.render, commit. destruct (showPlanBindModal s') eqn:Es; [destruct (isLoading s') eqn:El|]; cbn.
  - split_and!; try done; by intros [? [=]].
  - destruct (table (page w)); cbn; by split_and!.
  - split_and!; try done; by intros [? [=]].
Qed.

(** What the requests in flight say of the page and the server. *)
Definition in_flight_ok (w : World) : Prop :=
  match ops w with
  | [] => isLoading (page w) = false /\
      match status w with
      | Answered => norm (boundPlanDigest (page w)) = norm (server w)
      | Asked | Failed => boundPlanDigest (page w) = None
      | Served d => boundPlanDigest (page w) = None /\ d = Some <$> server w
      end
  | [(op, r)] => isLoading (page w) = true /\ status w = Answered /\
      (forall d, op = BindOp d -> digest_of_plan d /\ truthy d = true) /\
      match r with Some true => server w = applied op | _ => norm (boundPlanDigest (page w)) = norm (server w) end
  | _ => False
  end.

Definition selected_ok (w : World) : Prop := truthy (selectedPlan (page w)) = true -> digest_of_plan (selectedPlan (page w)).

Definition table_ok (w : World) : Prop := is_Some (table (page w)) -> showPlanBindModal (page w) = true /\ isLoading (page w) = false.

Definition sync_inv (w : World) : Prop := in_flight_ok w /\ selected_ok w /\ table_ok w.

(** A change of the page that leaves what is bound and what is loading. *)
Lemma in_flight_page w s' : isLoading s' = isLoading (page w) -> boundPlanDigest s' = boundPlanDigest (page w) ->
  in_flight_ok w -> in_flight_ok (with_page plans s' w).
Proof.
  intros Hl Hb. destruct (render_fields s' w) as (Hb' & _ & Hl' & _ & _). unfold in_flight_ok, with_page. cbn.
  by rewrite Hb', Hl', Hb, Hl.
Qed.

Lemma render_table w s' : table_ok (mkWorld (render s' w) (server w) (status w) (ops w)).
Proof. destruct (render_fields s' w) as (_ & _ & Hl & Hs & Ht). unfold table_ok. cbn. by rewrite Hl, Hs. Qed.

Lemma one_op w pre op r post : in_flight_ok w -> ops w = pre ++ (op, r) :: post -> pre = [] /\ post = [].
Proof.
  unfold in_flight_ok. intros Hi E. rewrite E in Hi. destruct pre as [|x [|y pre]]; [destruct post; [done|by destruct Hi]|by destruct x, Hi|by destruct x].
Qed.

Lemma click_ok w op : button (page w) = BindButton false /\ op = BindOp (selectedPlan (page w)) \/ button (page w) = DropButton false /\ op = DropOp ->
  status w = Answered -> sync_inv w ->
  sync_inv (mkWorld (render (handleStart (page w)) w) (server w) (status w) (ops w ++ [(op, None)])).
Proof.
  intros Hb Hs (Hi & Hsel & Ht). destruct (render_fields (handleStart (page w)) w) as (Hb' & Hs' & Hl' & Hm' & Ht').
  assert (isLoading (page w) = false /\ (forall d, op = BindOp d -> digest_of_plan d /\ truthy d = true)) as [Hl Hop].
  { unfold button in Hb. destruct Hb as [[Hb ->]|[Hb ->]]; destruct (truthy (boundPlanDigest (page w))); try done.
    - injection Hb as Hb. apply orb_false_iff in Hb as [Hl Hb]. apply negb_false_iff in Hb. split; [done|].
      intros d [= <-]. split; [by apply Hsel|done].
    - injection Hb as Hb. by split. }
  unfold in_flight_ok in Hi. destruct (ops w) as [|[op' r] [|]] eqn:Eo; [|destruct Hi as [Hi _]; congruence|done].
  split_and!.
  - unfold in_flight_ok. cbn. rewrite Hl', Hb'. split_and!; [done|done|done|]. rewrite Hs in Hi. apply Hi.
  - unfold selected_ok. cbn. rewrite Hs'. apply Hsel.
  - unfold table_ok. cbn. rewrite Hl', Hm'. apply Ht'.
Qed.

Lemma answered_op w op (ok : bool) : ops w = [(op, Some ok)] -> sync_inv w ->
  sync_inv (mkWorld (render (ended op ok (page w)) w) (server w) (status w) []).
Proof.
  intros Eo (Hi & Hsel & _). unfold in_flight_ok in Hi. rewrite Eo in Hi. destruct Hi as (_ & Hs & Hop & Hr).
  destruct (render_fields (ended op ok (page w)) w) as (Hb' & Hs' & Hl' & _ & _).
  split_and!; [|unfold selected_ok; cbn; rewrite Hs'|apply render_table].
  - unfold in_flight_ok. cbn. rewrite Hb', Hl', Hs. destruct op as [d|]; (split; [done|]); destruct ok; cbn in *; by rewrite ?Hr.
  - destruct op as [d|]; [destruct ok; apply Hsel|]. by destruct ok; [|apply Hsel].
Qed.

Lemma with_page_ok w s' : isLoading s' = isLoading (page w) -> boundPlanDigest s' = boundPlanDigest (page w) ->
  (truthy (selectedPlan s') = true -> digest_of_plan (selectedPlan s')) -> sync_inv w -> sync_inv (with_page plans s' w).
Proof.
  intros Hl Hb Hs (Hi & _ & _). split_and!; [by apply in_flight_page| |apply render_table].
  unfold selected_ok, with_page. cbn [page]. destruct (render_fields s' w) as (_ & -> & _). done.
Qed.

Lemma sync_step w w' : step True w w' -> sync_inv w -> sync_inv w'.
Proof.
  intros Hstep Hinv. pose proof Hinv as (Hi & Hsel & Ht).
  destruct Hstep as [w Hs|w d Hs|w Hs|w Hp|w|w t sel Htab Hall|w Hm Hb Hq|w Hm Hb Hq|w pre op post ok Eo|w pre op ok post Eo].
  - split_and!; [|done|done]. unfold in_flight_ok in *. cbn. rewrite Hs in Hi.
    destruct (ops w) as [|[op r] [|]]; [by destruct Hi|by destruct Hi as (_ & ? & _)|done].
  - destruct (render_fields (statusEffect d (page w)) w) as (Hb' & Hs' & Hl' & _ & _).
    split_and!; [|unfold selected_ok; cbn; rewrite Hs'; by destruct d|apply render_table].
    unfold in_flight_ok in *. cbn. rewrite Hb', Hl'. rewrite Hs in Hi.
    destruct (ops w) as [|[op r] [|]]; [|by destruct Hi as (_ & ? & _)|done].
    destruct Hi as (Hl & Hb & ->). destruct (server w); cbn; [done|]. by rewrite Hb.
  - split_and!; [|done|done]. unfold in_flight_ok in *. cbn. rewrite Hs in Hi.
    destruct (ops w) as [|[op r] [|]]; [done|by destruct Hi as (_ & ? & _)|done].
  - by apply with_page_ok.
  - by apply with_page_ok.
  - assert (fst (onSelectionChanged plans t sel (page w)) = handleSelectedPlanChange sel (page w)) as ->.
    { unfold onSelectionChanged. by destruct (negb _). }
    apply with_page_ok; [done|done| |done]. cbn. destruct sel as [|p sel]; [done|].
    intros _. apply Forall_cons in Hall as [[Hp _] _]. unfold digest_of_plan. by apply list_elem_of_fmap_2.
  - apply click_ok; [by left|by apply Hq|done].
  - apply click_ok; [by right|by apply Hq|done].
  - destruct (one_op w pre op None post Hi Eo) as [-> ->]. split_and!; [|done|done].
    unfold in_flight_ok in *. cbn. rewrite Eo in Hi. destruct Hi as (Hl & Hs & Hop & Hr). by destruct ok.
  - destruct (one_op w pre op (Some ok) post Hi Eo) as [-> ->]. by apply answered_op.
Qed.

Lemma sync_reachable b w : rtc (step True) (start b) w -> sync_inv w.
Proof.
  apply (rtc_ind_r (fun w => sync_inv w)).
  - split_and!; [done|done|]. by intros [? [=]].
  - intros y z _ Hs Hi. by apply (sync_step y z).
Qed.

(** C19: While plans are bound and unbound only after the answer to the request for the
    current binding, at most one such request is in flight, the table of plans is shown only
    when none is, a plan is bound only while none is shown as bound and only if it is one of
    the plans of the page, and whenever nothing is in flight the page shows as bound what is
    bound at the server, whatever succeeded or failed before. *)
Theorem binding_in_sync (b : option string) (w : World) : rtc (step True) (start b) w ->
  (length (ops w) <= 1)%nat /\ (isLoading (page w) = true <-> ops w <> []) /\
  (is_Some (table (page w)) -> ops w = []) /\
  (forall d r, (BindOp d, r) ∈ ops w -> truthy d = true /\ d ∈ map plan_digest plans) /\
  (status w = Answered -> ops w = [] -> norm (boundPlanDigest (page w)) = norm (server w)).
Proof.
  intros Hr. destruct (sync_reachable b w Hr) as (Hi & _ & Ht). unfold in_flight_ok in Hi.
  destruct (ops w) as [|[op r] [|]] eqn:Eo; [| |done].
  - destruct Hi as [Hl Hi]. split_and!; [cbn; lia|by rewrite Hl|done|by intros d r Hd%elem_of_nil|]. intros Hs _. by rewrite Hs in Hi.
  - destruct Hi as (Hl & Hs & Hop & _). split_and!; [done|by rewrite Hl| | |done].
    + intros Hs'. destruct (Ht Hs') as [_ Hl']. congruence.
    + intros d r' Hd%list_elem_of_singleton. injection Hd as <- <-. by destruct (Hop d eq_refl).
Qed.
End BindFacts.

Definition two_plans : list Plan := [mkPlan (Some "p1") true 5 10 "select 1"; mkPlan (Some "p2") true 3 20 "select 1"].

(** The run of a page that binds the first plan. *)
Local Ltac bind_step tac := eapply rtc_l; [tac; first [reflexivity|done]|].
Local Ltac choose_p1 := eapply rtc_l; [eapply (Bind.select two_plans); [reflexivity|];
  apply (Forall_cons_2 _ (mkPlan (Some "p1") true 5 10 "select 1") []); [split; [by left|reflexivity]|constructor]|].

Lemma binding_in_sync_witness :
  let w := Bind.mkWorld (Bind.mkState (Some "p1") true (Some "p1") false (Some (Bind.mkTable (Some "p1")))) (Some "p1") Bind.Answered [] in
  rtc (Bind.step two_plans True) (Bind.start None) w /\
  norm (Bind.boundPlanDigest (Bind.page w)) = norm (Bind.server w).
Proof.
  intros w. assert (rtc (Bind.step two_plans True) (Bind.start None) w) as Hr.
  - bind_step ltac:(eapply Bind.serve_status). bind_step ltac:(eapply Bind.answer_status).
    bind_step ltac:(eapply Bind.open_modal). choose_p1.
    bind_step ltac:(eapply Bind.click_bind). 
    eapply rtc_l; [eapply (Bind.serve_op _ _ _ [] _ [] true); reflexivity|].
    eapply rtc_l; [eapply (Bind.answer_op _ _ _ [] _ _ []); reflexivity|].
    apply rtc_refl.
  - split; [exact Hr|].
    apply (proj2 (proj2 (proj2 (proj2 (binding_in_sync two_plans None _ Hr))))); reflexivity.
Defined.

(** Without waiting for the answer, the page can show as bound a plan that is not bound any
    more: the answer to the first request replaces what was bound since. *)
Lemma late_status_replaces :
  rtc (Bind.step two_plans False) (Bind.start (Some "p2"))
    (Bind.mkWorld (Bind.mkState (Some "p2") true (Some "p1") false (Some (Bind.mkTable (Some "p1")))) (Some "p1") Bind.Answered []).
Proof.
  bind_step ltac:(eapply Bind.serve_status). bind_step ltac:(eapply Bind.open_modal). choose_p1.
  bind_step ltac:(eapply Bind.click_bind).
  eapply rtc_l; [eapply (Bind.serve_op _ _ _ [] _ [] true); reflexivity|].
  eapply rtc_l; [eapply (Bind.answer_op _ _ _ [] _ _ []); reflexivity|].
  bind_step ltac:(eapply Bind.answer_status). apply rtc_refl.
Qed.

(** A plan that was chosen stays chosen when its binding fails, while the table that is
    mounted again starts with no plan selected: the dialog offers to bind a plan that its
    table does not show as selected. *)
Lemma failed_binding_keeps_choice :
  let s := Bind.mkState None true (Some "p1") false (Some (Bind.mkTable None)) in
  rtc (Bind.step two_plans True) (Bind.start None) (Bind.mkWorld s None Bind.Answered []) /\
  snd (Bind.commit two_plans (Bind.set_table None s) s) = Some Bind.SelectNone /\ Bind.button s = Bind.BindButton false.
Proof.
  intros s. split_and!; [|reflexivity..].
  bind_step ltac:(eapply Bind.serve_status). bind_step ltac:(eapply Bind.answer_status).
  bind_step ltac:(eapply Bind.open_modal). choose_p1. bind_step ltac:(eapply Bind.click_bind).
  eapply rtc_l; [eapply (Bind.serve_op _ _ _ [] _ [] false); reflexivity|].
  eapply rtc_l; [eapply (Bind.answer_op _ _ _ [] _ _ []); reflexivity|].
  apply rtc_refl.
Qed.

(** ** The plans of the page *)

Section PlansFacts.
Import Plans.

Lemma compare_total x y : 0 <= compareFn x y -> compareFn y x <= 0.
Proof. unfold compareFn. destruct (exec_count x =? exec_count y) eqn:E, (exec_count y =? exec_count x) eqn:E'; js_lia. Qed.

Lemma compare_trans x y z : compareFn x y <= 0 -> compareFn y z <= 0 -> compareFn x z <= 0.
Proof.
  unfold compareFn.
  destruct (exec_count x =? exec_count y) eqn:E1, (exec_count y =? exec_count z) eqn:E2, (exec_count x =? exec_count z) eqn:E3; js_lia.
Qed.

(** When the plans of a statement arrive, the page shows all of them ordered by how often
    they were executed and then by their latency, the first being one executed most often;
    with one plan it speaks of the only plan, with several and all selected of all; the
    details asked for are those of the plans the table reports as selected. *)
Theorem plans_shown (answer reported : list Plan) : answer <> [] -> reported ≡ₚ answer ->
  let p := plansEffect answer reported opened in
  (exists first l, plans p = Some (first :: l) /\ first :: l ≡ₚ answer /\
     StronglySorted (fun a b => exec_count b < exec_count a \/ (exec_count a = exec_count b /\ avg_latency b <= avg_latency a)) (first :: l) /\
     head_of p = Some (digest_text first, js_length (digest_text first) <? 10000)) /\
  exists d, detail_of p = Some d /\ d_plans d = map (fun v => js_or (plan_digest v) "") reported /\
    titleKey d = if (length answer =? 1)%nat then one_for_all else all.
Proof.
  intros Ha Hr p. assert (plans p = Some (js_sort compareFn answer)) as Hp by (unfold p; by destruct answer).
  assert (selectedPlans p = map (fun v => js_or (plan_digest v) "") reported) as Hs by (unfold p; by destruct answer).
  pose proof (js_sort_perm compareFn answer) as Hperm. pose proof (js_sort_sorted compareFn compare_total compare_trans answer) as Hsort.
  unfold head_of, detail_of. rewrite Hp, Hs. destruct (js_sort compareFn answer) as [|x l] eqn:E.
  - by apply Permutation_nil in Hperm.
  - split.
    + exists x, l. split_and!; [done|done| |done]. eapply sorted_impl; [|exact Hsort].
      intros a b. unfold compareFn. destruct (exec_count a =? exec_count b) eqn:E'; js_lia.
    + set (ks := map _ reported). assert (length ks = length (x :: l)) as Hk.
      { unfold ks. by rewrite length_map, (Permutation_length Hr), (Permutation_length Hperm). }
      clearbody ks. assert (ks <> []) as Hne by (by destruct ks). exists (mkDetail ks (length (x :: l))).
      split_and!; [by destruct ks|done|]. unfold titleKey. cbn [allPlans d_plans].
      by rewrite Hk, Nat.eqb_refl, (Permutation_length Hperm).
Qed.

Lemma plans_shown_witness :
  let a := mkPlan (Some "a") true 3 7 "select" in let b := mkPlan (Some "b") true 5 1 "select" in
  let p := plansEffect [a; b] [b; a] opened in
  plans p = Some [b; a] /\ exists d, detail_of p = Some d /\ d_plans d = ["b"; "a"] /\ titleKey d = all.
Proof.
  intros a b. split; [reflexivity|].
  exact (proj2 (plans_shown [a; b] [b; a] ltac:(discriminate) (Permutation_swap _ _ _))).
Defined.

(** The view throws exactly when the JSON cannot be read, or when a plan is shown whose JSON
    has no main part; else the tab that is active is one of the tabs. *)
Lemma view_tabs parse data :
  match view parse data with
  | Throws => binaryPlanObj parse data = None \/
      exists o, binaryPlanObj parse data = Some (Some o) /\ main o = None
  | NoPlan => truthy (binary_plan_text data) = false /\ truthy (plan data) = false
  | TabsOf active l => active ∈ l /\ text_plan ∈ l /\ truthy (planText data) = true
  end.
Proof.
  unfold view, planText. destruct (binaryPlanObj parse data) as [obj|]; [|by left].
  destruct (truthy (binary_plan_text data)) eqn:Eb; cbn [orb].
  - assert (truthy (default "" (binary_plan_text data)) = true) as Ht by (by destruct (binary_plan_text data)).
    destruct obj as [o|]; [destruct (main o) eqn:Em; [|right; eauto]|]; cbn [app]; split_and!; try done; set_solver.
  - destruct (truthy (plan data)) eqn:Ep; [|done].
    assert (truthy (js_or (plan data) "") = true) as Ht.
    { destruct (plan data); [|done]. unfold js_or. cbn in Ep |- *. by rewrite Ep. }
    destruct obj as [o|]; [destruct (main o) eqn:Em; [|right; eauto]|]; cbn [app]; split_and!; try done; set_solver.
Qed.
End PlansFacts.

(** A plan is offered to be bound only while none is bound; a bound one can be unbound. *)
Lemma cell_offers cur bound : truthy cur = true -> cur <> "all" -> 
  let cell := BindV2.SqlPlanBindActionCell true true bound cur in
  (cell = BindV2.Bind <-> bound = []) /\ (cell = BindV2.Unbind <-> cur ∈ bound) /\
  (forall ok other, truthy other = true -> other <> "all" -> other <> cur -> cell = BindV2.Bind ->
     BindV2.SqlPlanBindActionCell true true (BindV2.confirmed cell cur ok bound) other = if ok then BindV2.Nothing else BindV2.Bind).
Proof.
  intros Ht Ha. unfold BindV2.SqlPlanBindActionCell. rewrite Ht, bool_decide_false by done. cbn.
  destruct bound as [|b bound]; cbn.
  - split_and!; [done|by split; [|intros ?%elem_of_nil]|]. intros ok other Ho Hoa Hne _. rewrite Ho, bool_decide_false by done. cbn.
    destruct ok; [|done]. cbn. rewrite bool_decide_false; [done|]. by intros ?%list_elem_of_singleton.
  - case_bool_decide; split_and!; done.
Qed.
