(* ===== verification/StatementList.v ===== *)
(** * The list page of statements

    apps/Statement/pages/List: Module [Range] is the time range of the rows, Module
    [Settings] the form of the settings (StatementSettingForm.tsx), Module [Page] the page
    (index.tsx): its filters and when they become the options of the controller of
    [TableController].  The delay of a query is the event of a timer. *)

From Stdlib Require Import QArith Qround.
From S2P Require Import Prelude JsString JsNumber TimeRange TableColumns TableController.
From S2P Require Import Cache.
Local Open Scope Z_scope.
Local Open Scope string_scope.

(** ** The range of the rows *)

Module Range.

Record Row := mkRow { summary_begin_time : option Z; summary_end_time : option Z }.

Definition begin_of (r : Row) : Z := default 0 (summary_begin_time r).
Definition end_of (r : Row) : Z := default 0 (summary_end_time r).

Definition getDataTimeRange (list : option (list Row)) : option (Z * Z) :=
  match list with
  | None | Some [] => None
  | Some ((first :: _) as l) =>
      let min := fold_left (fun m item => if (begin_of item <? m)%Z then begin_of item else m) l (begin_of first) in
      let max := fold_left (fun m item => if (m <? end_of item)%Z then end_of item else m) l (end_of first) in
      if (min =? 0)%Z || (max =? 0)%Z then None else Some (min, max)
  end.

End Range.

(** ** The settings *)

Module Settings.

Record Config := mkConfig {
  enable : option bool; max_size : option Z; refresh_interval : option num; history_size : option Z; internal_query : option bool
}.

(** The values of the form as it is opened. *)
Definition initialValues (initialConfig : Config) : Config :=
  mkConfig (enable initialConfig) (max_size initialConfig)
    (Some (match default (num_of_Z 0) (refresh_interval initialConfig) with
           | Fin q => num_of_Z (Qfloor (q / 60))
           | x => x
           end))
    (history_size initialConfig) (internal_query initialConfig).

(** The form hands over the fields it shows; all but the first are shown while it is
    switched on. *)
Definition finished (values : Config) : Config :=
  if truthy (enable values) then values else mkConfig (enable values) None None None None.

Definition newConfig (values : Config) : Config :=
  mkConfig (enable values) (max_size values) (Some (num_mul (default NaN (refresh_interval values)) (num_of_Z 60)))
    (history_size values) (internal_query values).

(** The drawer: closed, the form, the question whether to switch off, the request. *)
Inductive Drawer := Closed | Form (v : Config) | Confirming (v : Config) | Submitting (request : Config).

Definition handleSubmit (initialConfig : option Config) (values : Config) : Drawer :=
  if negb (truthy (enable values)) && default true (initialConfig ≫= enable) then Confirming values else Submitting (newConfig values).

Definition confirm (ok : bool) (d : Drawer) : Drawer :=
  match d with Confirming v => if ok then Submitting (newConfig v) else Form v | _ => d end.

(** The answer closes the drawer; after an error the form is there again.  The second part
    says whether the list is queried again. *)
Definition updated (v : Config) (ok : bool) (d : Drawer) : Drawer * bool :=
  match d with Submitting _ => if ok then (Closed, true) else (Form v, false) | _ => (d, false) end.

(** How long statements are kept, in days, hours and minutes. *)
Definition keepDuration (refreshInterval historySize : option Z) : Z * Z * Z :=
  let totalMins := js_or refreshInterval 0 * js_or historySize 0 in
  let day := totalMins / (24 * 60) in
  let hour := (totalMins - day * 24 * 60) / 60 in
  let min := totalMins - day * 24 * 60 - hour * 60 in
  (day, hour, min).

End Settings.

(** ** The page *)

Module Page.
Import Statement.

Record Filters := mkFilters {
  timeRange : V1.TimeRange; filterSchema : list string; filterGroup : list string; filterStmtType : list string;
  filterText : string; visibleColumnKeys : list (string * bool)
}.

#[export] Instance range_eq_dec : EqDecision V1.TimeRange.
Proof. solve_decision. Defined.

#[export] Instance filters_eq_dec : EqDecision Filters.
Proof. solve_decision. Defined.

Section Page.
Context {Row Err : Type} (stringify : IStatementQueryOptions -> string).
Context (fetchSchemas fetchGroups fetchConfig : bool) (instantQuery : option bool).

#[local] Abbreviation Controller := (Controller (Row := Row) (Err := Err)).

Record Page := mkPage { controller : Controller; filters : Filters; debounced : bool; downloading : bool }.

Definition options_of (f : Filters) : IStatementQueryOptions :=
  mkQuery (visibleColumnKeys f) (timeRange f) (filterSchema f) (filterGroup f) (filterStmtType f) (filterText f).

(** The filters are those of the controller, the range that of the address and the columns
    those of the local storage. *)
Definition opened (now : Z) (tr : V1.TimeRange) (columns : list (string * bool)) (stored : option IStatementQueryOptions)
    (storedOrder : option IOrderOptions) (cache : option (Statement.Cache (Row := Row))) : Page :=
  let initial := mkQuery columns tr (schemas DEF_STMT_QUERY_OPTIONS) (groups DEF_STMT_QUERY_OPTIONS)
                   (stmtTypes DEF_STMT_QUERY_OPTIONS) (searchText DEF_STMT_QUERY_OPTIONS) in
  let c := mount stringify fetchSchemas fetchGroups fetchConfig true now (Some initial) stored storedOrder cache in
  let o := queryOptions true (optionsState c) in
  mkPage c (mkFilters tr (schemas o) (groups o) (stmtTypes o) (searchText o) columns) false false.

(** The cache is cleared and the options are set. *)
Definition sendQueryNow (now : Z) (p : Page) : Page :=
  let c := controller p in
  let c := with_table (set_cache (CacheMgr.clear <$> cacheMgr (table c)) (table c)) c in
  mkPage (change_query stringify fetchSchemas fetchGroups fetchConfig true now (options_of (filters p)) c)
    (filters p) (debounced p) (downloading p).

Definition follows (p : Page) : bool :=
  negb (bool_decide (instantQuery = Some false)) && bool_decide (isDataLoadedSlowly (table (controller p)) = Some false).

(** Another filter, range or column; an equal one is no change. *)
Definition change_filters (f : Filters) (p : Page) : Page :=
  if decide (f = filters p) then p
  else mkPage (controller p) f (debounced p || follows p) (downloading p).

(** The choice of columns also takes the order back to its default when its column goes. *)
Definition updateVisibleColumnKeys (v : list (string * bool)) (p : Page) : Page :=
  let f := filters p in
  let p := change_filters (mkFilters (timeRange f) (filterSchema f) (filterGroup f) (filterStmtType f) (filterText f) v) p in
  let by_ := orderBy (orderOptions true (order (controller p))) in
  if bool_decide (lookup_field by_ v = Some true) then p
  else mkPage (resetOrder true (controller p)) (filters p) (debounced p) (downloading p).

(** The timer of the delay ends. *)
Definition timeout (now : Z) (p : Page) : Page :=
  let p := mkPage (controller p) (filters p) false (downloading p) in sendQueryNow now p.

(** The request for a token to download, with the options last in effect. *)
Record TokenRequest := mkToken {
  tok_range : num * num; tok_fields : string; tok_schemas : list string; tok_groups : list string;
  tok_types : list string; tok_text : string
}.

Definition downloadCSV (now : Z) (p : Page) : TokenRequest :=
  let o := queryOptions true (optionsState (controller p)) in
  mkToken (V1.toTimeRangeValue (now / 1000) (Some (Statement.timeRange o)) 0) "*" (schemas o) (groups o) (stmtTypes o) (searchText o).

Definition download_link (apiPathBase : string) (token : option string) : option string :=
  if truthy token then (fun t => apiPathBase +:+ "/statements/download?token=" +:+ t) <$> token else None.

End Page.
End Page.

(** ** The range of the rows *)

Lemma fold_least {A} (f : A -> Z) (l : list A) : forall m,
  let r := fold_left (fun m x => if (f x <? m)%Z then f x else m) l m in
  r <= m /\ Forall (fun x => r <= f x) l /\ (r = m \/ exists x, x ∈ l /\ r = f x).
Proof.
  induction l as [|x l IH]; intros m; cbn; [split_and!; [lia|constructor|by left]|].
  destruct (IH (if (f x <? m)%Z then f x else m)) as (Hm & Hl & Hr). destruct (f x <? m)%Z eqn:E; bool_to_prop.
  - split_and!; [lia|by constructor|]. right. destruct Hr as [->|(y & Hy & ->)]; [exists x|exists y]; (split; [|done]); [by left|by right].
  - split_and!; [done|constructor; [lia|done]|]. destruct Hr as [->|(y & Hy & ->)]; [by left|right; exists y; split; [by right|done]].
Qed.

Lemma fold_greatest {A} (f : A -> Z) (l : list A) : forall m,
  let r := fold_left (fun m x => if (m <? f x)%Z then f x else m) l m in
  m <= r /\ Forall (fun x => f x <= r) l /\ (r = m \/ exists x, x ∈ l /\ r = f x).
Proof.
  induction l as [|x l IH]; intros m; cbn; [split_and!; [lia|constructor|by left]|].
  destruct (IH (if (m <? f x)%Z then f x else m)) as (Hm & Hl & Hr). destruct (m <? f x)%Z eqn:E; bool_to_prop.
  - split_and!; [lia|by constructor|]. right. destruct Hr as [->|(y & Hy & ->)]; [exists x|exists y]; (split; [|done]); [by left|by right].
  - split_and!; [done|constructor; [lia|done]|]. destruct Hr as [->|(y & Hy & ->)]; [by left|right; exists y; split; [by right|done]].
Qed.

(** The actual range shown runs from the earliest begin to the latest end of the rows; none
    is shown when there are no rows, or when the earliest begin or the latest end is
    missing. *)
Lemma data_range_spec (l : list Range.Row) : l <> [] ->
  exists a b, a ∈ map Range.begin_of l /\ b ∈ map Range.end_of l /\
    Forall (fun r => a <= Range.begin_of r /\ Range.end_of r <= b) l /\
    Range.getDataTimeRange (Some l) = if (a =? 0)%Z || (b =? 0)%Z then None else Some (a, b).
Proof.
  destruct l as [|r l]; [done|]. intros _. unfold Range.getDataTimeRange.
  destruct (fold_least Range.begin_of (r :: l) (Range.begin_of r)) as (_ & Ha & Hr).
  destruct (fold_greatest Range.end_of (r :: l) (Range.end_of r)) as (_ & Hb & Hs).
  eexists _, _. split_and!; [| | |reflexivity].
  - destruct Hr as [->|(y & Hy & ->)]; apply list_elem_of_fmap_2; [by left|done].
  - destruct Hs as [->|(y & Hy & ->)]; apply list_elem_of_fmap_2; [by left|done].
  - by apply Forall_and.
Qed.

(** ** The settings *)

Section SettingsFacts.
Import Settings.

Lemma keep_duration_spec r h d hr mn : keepDuration r h = (d, hr, mn) ->
  js_or r 0 * js_or h 0 = d * 1440 + hr * 60 + mn /\ 0 <= hr < 24 /\ 0 <= mn < 60.
Proof.
  unfold keepDuration. intros [= <- <- <-]. set (x := js_or r 0 * js_or h 0).
  pose proof (Z.div_mod x (24 * 60) ltac:(lia)) as H1. pose proof (Z.mod_pos_bound x (24 * 60) ltac:(lia)) as H2.
  set (d := x / (24 * 60)) in *. assert (x - d * 24 * 60 = x mod (24 * 60)) as -> by lia.
  set (y := x mod (24 * 60)) in *. pose proof (Z.div_mod y 60 ltac:(lia)) as H3. pose proof (Z.mod_pos_bound y 60 ltac:(lia)) as H4.
  split_and!; lia.
Qed.

Lemma floor_minutes k r : 0 <= r < 60 -> Qfloor (inject_Z (60 * k + r) / 60) = k.
Proof.
  intros Hr. unfold Qdiv, Qfloor, inject_Z, Qmult, Qinv. cbn [Qnum Qden]. rewrite Z.mul_1_r.
  change (Z.pos (1 * 60)) with 60. symmetry. apply (Z.div_unique _ _ k r); lia.
Qed.

(** Opening the settings of statements and saving them changes nothing but the seconds of
    the refresh interval, which is saved in whole minutes; switching off asks first and
    then sends no other field, its interval not a number; after an error the form is back
    with the values, and the list is queried again only after a success. *)
Theorem settings_saved (c : Config) (k r : Z) : refresh_interval c = Some (num_of_Z (60 * k + r)) -> 0 <= r < 60 ->
  (enable c = Some true ->
     handleSubmit (Some c) (finished (initialValues c)) =
       Submitting (mkConfig (enable c) (max_size c) (Some (num_of_Z (60 * k))) (history_size c) (internal_query c))) /\
  (let off := finished (mkConfig (Some false) (max_size c) (refresh_interval c) (history_size c) (internal_query c)) in
   let request := mkConfig (Some false) None (Some NaN) None None in
   handleSubmit (Some c) off = (if default true (enable c) then Confirming off else Submitting request) /\
   confirm true (Confirming off) = Submitting request /\ confirm false (Confirming off) = Form off) /\
  (forall v request, updated v true (Submitting request) = (Closed, true) /\ updated v false (Submitting request) = (Form v, false)).
Proof.
  intros Hi Hr. split_and!; try done.
  intros He. assert (initialValues c = mkConfig (Some true) (max_size c) (Some (num_of_Z k)) (history_size c) (internal_query c)) as ->.
    { unfold initialValues. rewrite He, Hi. f_equal. f_equal.
      change (num_of_Z (Qfloor (inject_Z (60 * k + r) / 60)) = num_of_Z k). by rewrite floor_minutes. }
    rewrite He. unfold handleSubmit, finished, newConfig. cbn [truthy truthy_option truthy_bool enable negb andb].
    f_equal. f_equal. f_equal. change (num_mul (num_of_Z k) (num_of_Z 60) = num_of_Z (60 * k)). by rewrite num_mul_Z, Z.mul_comm.
Qed.

Lemma settings_saved_witness :
  let c := mkConfig (Some true) (Some 3000) (Some (num_of_Z 1830)) (Some 24) (Some false) in
  handleSubmit (Some c) (finished (initialValues c)) =
    Submitting (mkConfig (Some true) (Some 3000) (Some (num_of_Z 1800)) (Some 24) (Some false)).
Proof.
  intros c. exact (proj1 (settings_saved c 30 30 eq_refl ltac:(lia)) eq_refl).
Defined.
End SettingsFacts.

(** ** The filters and the options *)

Section PageFacts.
Import Statement Page.
Context {Row Err : Type} (stringify : IStatementQueryOptions -> string).
Context (fetchSchemas fetchGroups fetchConfig : bool) (instantQuery : option bool).
#[local] Abbreviation Page := (Page (Row := Row) (Err := Err)).
#[local] Abbreviation sendQueryNow := (sendQueryNow stringify fetchSchemas fetchGroups fetchConfig).
#[local] Abbreviation timeout := (timeout stringify fetchSchemas fetchGroups fetchConfig).
#[local] Abbreviation change_filters := (change_filters (Row := Row) (Err := Err) instantQuery).
#[local] Abbreviation follows := (follows (Row := Row) (Err := Err) instantQuery).
Implicit Types p : Page.

(** The options the list was last asked for. *)
Definition asked p : IStatementQueryOptions := opts (table (controller p)).

Lemma query_list_opts now (t : List_ (Row := Row) (Err := Err)) :
  opts (query_list stringify actualVisibleColumnKeys build now t) = opts t.
Proof.
  unfold query_list. destruct (cacheMgr t) as [c|]; [destruct (cache_get now _ c) as [[[d b]|] c']|]; cbn; try done;
    by destruct (js_length _ =? 0)%Z.
Qed.

Lemma send_asked now p : asked (sendQueryNow now p) = options_of (filters p).
Proof. unfold asked, sendQueryNow. etrans; [apply query_list_opts|done]. Qed.

(** Without cached rows a query is sent, unless no column is chosen. *)
Lemma query_list_sends now (t : List_ (Row := Row) (Err := Err)) :
  match cacheMgr t with Some c => CacheMgr.cache c = ∅ | None => True end ->
  (js_length (actualVisibleColumnKeys (opts t)) =? 0)%Z = false ->
  let t' := query_list stringify actualVisibleColumnKeys build now t in
  inflight t' = (inflight t ++ [mkPending (opts t) (build now (opts t) (extra t)) now])%list /\ isDataLoading t' = true.
Proof.
  intros Hc Hl. unfold query_list. destruct (cacheMgr t) as [c|] eqn:E; cbn.
  - unfold CacheMgr.get. rewrite Hc, lookup_empty. cbn. by rewrite Hl.
  - by rewrite Hl.
Qed.

Lemma send_sends now p : (js_length (actualVisibleColumnKeys (options_of (filters p))) =? 0)%Z = false ->
  let t := table (controller p) in let t' := table (controller (sendQueryNow now p)) in
  inflight t' = (inflight t ++ [mkPending (options_of (filters p)) (build now (options_of (filters p)) (extra t)) now])%list /\
  isDataLoading t' = true.
Proof.
  intros Hl t t'. unfold t', sendQueryNow, change_query, options_effects, queryStatementList.
  set (t0 := set_inputs _ _ _).
  assert (inflight t0 = inflight t /\ extra t0 = extra t /\ opts t0 = options_of (filters p)) as (Hi & He & Ho) by done.
  rewrite <-Hi, <-He, <-Ho. apply query_list_sends; [|by rewrite Ho]. unfold t0. cbn.
  by destruct (cacheMgr (table (controller p))).
Qed.

(** What happens on the page while the list is fast, or after a query by hand: filters
    change while the last rows came quickly, timers end, queries are sent by hand, answers
    arrive. *)
Inductive step : Page -> Page -> Prop :=
| change p f : follows p = true -> step p (change_filters f p)
| ended p now : debounced p = true -> step p (timeout now p)
| search p now : step p (sendQueryNow now p)
| list_answer p c now i r : list_ended stringify now i r (controller p) = Some c ->
    step p (mkPage c (filters p) (debounced p) (downloading p))
| choice_answer p c now i r : choice_response stringify now i r (controller p) = Some c ->
    step p (mkPage c (filters p) (debounced p) (downloading p))
| columns p v : follows p = true -> step p (updateVisibleColumnKeys instantQuery v p).

Definition in_step p : Prop := debounced p = true \/ asked p = options_of (filters p).

Lemma list_ended_opts now i r (c c' : Controller (Row := Row) (Err := Err)) : list_ended stringify now i r c = Some c' ->
  opts (table c') = opts (table c).
Proof.
  unfold list_ended, take_response. destruct (inflight (table c) !! i); [|done]. cbn. intros [= <-]. by destruct r.
Qed.

Lemma set_backend_opts now b (c : Controller (Row := Row) (Err := Err)) : opts (table (set_backend stringify now b c)) = opts (table c).
Proof. unfold set_backend. destruct (_ && _); [done|]. etrans; [apply query_list_opts|done]. Qed.

Lemma choice_opts now i r (c c' : Controller (Row := Row) (Err := Err)) : choice_response stringify now i r c = Some c' ->
  opts (table c') = opts (table c).
Proof.
  unfold choice_response. destruct (rounds c !! i) as [round|]; [|done]. cbn [mbind option_bind].
  destruct (bool_decide _); [|done].
  assert (opts (table (store_choice stringify now r c)) = opts (table c)) as Hs.
  { destruct r; [unfold store_choice; by rewrite set_backend_opts|done..]. }
  rewrite <-Hs. by destruct (finish_choice _ _); intros [= <-].
Qed.

Lemma change_filters_step f p : in_step p -> follows p = true -> in_step (change_filters f p).
Proof.
  intros Hi Hf. unfold change_filters. destruct (decide (f = filters p)); [done|]. left. cbn. by rewrite Hf, orb_true_r.
Qed.

Lemma step_in_step p p' : step p p' -> in_step p -> in_step p'.
Proof.
  destruct 1 as [p f Hf|p now _|p now|p c now i r Hc|p c now i r Hc|p v Hf]; intros Hi.
  - by apply change_filters_step.
  - right. unfold Page.timeout. by rewrite send_asked.
  - right. by rewrite send_asked.
  - destruct Hi as [Hi|Hi]; [by left|right]. unfold asked in *. cbn. by rewrite (list_ended_opts _ _ _ _ _ Hc).
  - destruct Hi as [Hi|Hi]; [by left|right]. unfold asked in *. cbn. by rewrite (choice_opts _ _ _ _ _ Hc).
  - unfold updateVisibleColumnKeys. match goal with |- context [change_filters ?f p] => pose proof (change_filters_step f p Hi Hf) as H end.
    destruct (bool_decide _); [done|]. exact H.
Qed.

Lemma last_default {A} (l : list A) x a b : List.last (x :: l) a = List.last (x :: l) b.
Proof. revert x. induction l as [|y l IH]; intros x; [done|]. cbn [List.last] in *. apply IH. Qed.

Lemma in_step_reachable p p' : rtc step p p' -> in_step p -> in_step p'.
Proof. induction 1; eauto using step_in_step. Qed.

(** Filters that change one after the other, before the timer ends. *)
Lemma changes_keep fs : forall p, follows p = true ->
  controller (fold_left (fun p f => change_filters f p) fs p) = controller p /\
  (fs <> [] -> List.last fs (filters p) <> filters p -> debounced (fold_left (fun p f => change_filters f p) fs p) = true) /\
  filters (fold_left (fun p f => change_filters f p) fs p) = List.last fs (filters p).
Proof.
  assert (forall f p, controller (change_filters f p) = controller p /\ filters (change_filters f p) = f) as Hc.
  { intros f p. unfold Page.change_filters. destruct (decide (f = filters p)) as [->|]; by split. }
  assert (forall gs p, debounced p = true -> debounced (fold_left (fun p f => change_filters f p) gs p) = true) as Hd.
  { induction gs as [|f gs IH]; intros p Hp; [exact Hp|]. apply IH. unfold Page.change_filters.
    destruct (decide _); [exact Hp|]. cbn. by rewrite Hp. }
  induction fs as [|f fs IH]; intros p Hf; [by split_and!|]. cbn [fold_left]. destruct (Hc f p) as [Hc1 Hc2].
  assert (follows (change_filters f p) = true) as Hf' by (unfold Page.follows in *; by rewrite Hc1).
  destruct (IH _ Hf') as (IH1 & IH2 & IH3). rewrite Hc2 in IH2, IH3. split_and!.
  - by rewrite IH1.
  - intros _ Hl. destruct (decide (f = filters p)) as [E|E].
    + destruct fs as [|g fs]; [by destruct Hl|]. apply IH2; [done|]. intros Hx. apply Hl. rewrite E in Hx. exact Hx.
    + apply Hd. unfold change_filters. rewrite decide_False by done. cbn. by rewrite Hf, orb_true_r.
  - rewrite IH3. destruct fs as [|g fs]; [done|]. cbn [List.last]. apply last_default.
Qed.

End PageFacts.


(** A page that is opened again in the session shows the range of its address, while the
    list is asked for with the range kept in the session, and stays so. *)
Lemma stored_range_wins {Row Err : Type} stringify fs fg fc now tr cols o so cache :
  let p := Page.opened (Row := Row) (Err := Err) stringify fs fg fc now tr cols (Some o) so cache in
  Page.timeRange (Page.filters p) = tr /\ Statement.timeRange (asked p) = Statement.timeRange o /\
  Page.debounced p = false.
Proof.
  intros p. split_and!; [done| |done]. unfold asked, p, Page.opened. cbn [Page.controller].
  exact (f_equal Statement.timeRange (query_list_opts (Row := Row) (Err := Err) stringify now _)).
Qed.
