(* ===== verification/Links.v ===== *)
(** * Links between pages of ui/ (utils/openLink.ts)

    A click on a row opens the address of another page in the same tab, in another one or in
    another window.  The router keeps the address of a page in the hash; the page that opens
    reads its parameters from the search part of this address. *)

From Stdlib Require Import Ascii.
From S2P Require Import Prelude JsString JsNumber Uri UrlStateV1.
Local Open Scope Z_scope.

(** What the router and the URL hook read from the search part of an address. *)
Class SearchParse := parse_search : string -> queryParams.

(** Texts that are written and read as they are. *)
Definition plain_char (a : ascii) : bool := form_safe a || bool_decide (a = ","%char).
Definition plain (s : string) : bool := str_forall plain_char s.

Definition print_plain (l : list (string * string)) : string :=
  js_join "&" (map (fun p => fst p +:+ "=" +:+ snd p) l).

Class SearchParseLaws `{SearchParse} := parse_plain (l : list (string * string)) :
  NoDup (map fst l) -> Forall (fun p => plain (fst p) = true /\ plain (snd p) = true) l ->
  parse_search (print_plain l) = list_to_map l.

Module Link.
Record Mouse := mkMouse { metaKey : bool; altKey : bool; ctrlKey : bool; shiftKey : bool }.

Inductive Opened := NewTab (url : string) | NewWindow (url : string) | SamePage (url : string) (historyBack : bool).

(** [base] is the address of the page up to its hash. *)
Definition openLink (base url : string) (ev : Mouse) : Opened :=
  let fullUrl := base +:+ "#" +:+ url in
  if metaKey ev || altKey ev || ctrlKey ev then NewTab fullUrl
  else if shiftKey ev then NewWindow fullUrl
  else SamePage url true.

Definition after (c : ascii) (s : string) : string :=
  match find_char c s with Some n => str_drop (S n) s | None => "" end.

(** The search part of the location, which the router keeps in the hash. *)
Definition search_of (o : Opened) : string :=
  after "?" (match o with NewTab u | NewWindow u => after "#" u | SamePage u _ => u end).

Definition opened_params `{SearchParse} (o : Opened) : queryParams := parse_search (search_of o).

(** Where the link back of a page leads, by the state of its location. *)
Inductive Back := InHistory | To (route : string).

Definition back (route : string) (o : Opened) : Back :=
  match o with SamePage _ true => InHistory | _ => To route end.
End Link.

(** ** URLSearchParams reads plain texts in this way *)

#[export] Instance query_params_parse : SearchParse := fun s => params_object (parse_query s).

Lemma plain_no_char c s : plain_char c = false -> plain s = true -> has_char c s = false.
Proof. intros Hc Hs. by apply (str_forall_has_char plain_char). Qed.

Lemma params_object_map (l : list (string * string)) (m : gmap string string) :
  NoDup (map fst l) -> Forall (fun p => m !! fst p = None) l ->
  fold_left (fun m p => <[fst p := snd p]> m) l m = list_to_map l ∪ m.
Proof.
  revert m. induction l as [|[k v] l IH]; intros m Hn Hm; cbn; [symmetry; apply map_empty_union|].
  apply NoDup_cons in Hn as [Hk Hn]. apply Forall_cons in Hm as [Hm Hl]. cbn in Hm. rewrite IH; [|done|].
  - rewrite <- insert_union_l, <- insert_union_r; [done|]. apply not_elem_of_list_to_map_1. exact Hk.
  - rewrite Forall_forall in Hl |- *. intros p Hp. assert (k <> fst p) as Hne by (intros ->; apply Hk; apply (list_elem_of_fmap_2 fst _ _ Hp)).
    rewrite lookup_insert_ne by exact Hne. exact (Hl p Hp).
Qed.

Definition plain_pair (p : string * string) : Prop := plain (fst p) = true /\ plain (snd p) = true.

Lemma parse_query_plain l : Forall plain_pair l -> parse_query (print_plain l) = l.
Proof.
  intros Hl. apply (parse_joined id). eapply Forall_impl; [exact Hl|]. intros p [Hk Hv]. cbn [id].
  split_and!; try (apply form_decode_plain); try (by apply plain_no_char).
  intros c Hc%list_elem_of_In; cbn in Hc; destruct Hc as [<-|[<-|[<-|[]]]]; by apply plain_no_char.
Qed.

#[export] Instance query_params_laws : SearchParseLaws.
Proof.
  intros l Hn Hl. unfold parse_search, query_params_parse. rewrite parse_query_plain by done.
  unfold params_object. rewrite params_object_map; [apply map_union_empty|done|].
  apply Forall_forall. intros. apply lookup_empty.
Qed.

(** ** Plain texts *)

Lemma plain_app s t : plain s = true -> plain t = true -> plain (s +:+ t) = true.
Proof.
  unfold plain. induction s as [|a s IH]; [done|]. rewrite str_app_cons. cbn [str_forall].
  intros [Ha Hs]%andb_true_iff Ht. by rewrite Ha, IH.
Qed.

Lemma plain_join l : Forall (fun s => plain s = true) l -> plain (js_join "," l) = true.
Proof.
  induction 1 as [|x l Hx Hl IH]; [done|]. destruct l as [|y l]; [done|]. rewrite js_join_cons by done.
  apply plain_app; [done|]. by apply (plain_app ",").
Qed.

Lemma digit_plain a : is_digit a = true -> plain_char a = true.
Proof. destruct a as [[] [] [] [] [] [] [] []]; vm_compute; done. Qed.

Lemma show_plain z : plain (show z) = true.
Proof.
  destruct (Z.lt_ge_cases z 0) as [Hz|Hz]; [rewrite show_neg by done|rewrite show_nonneg by done].
  - change (plain_char "-" && plain (pretty (Z.to_N (- z))) = true). apply andb_true_iff. split; [done|].
    eapply str_forall_impl; [exact digit_plain|]. apply pretty_N_digits.
  - eapply str_forall_impl; [exact digit_plain|]. apply pretty_N_digits.
Qed.

Lemma frac_digits_plain fuel n d : 0 <= n < d -> plain (frac_digits fuel n d) = true.
Proof.
  revert n. induction fuel as [|fuel IH]; intros n Hn; [done|]. cbn [frac_digits]. destruct (n =? 0); [done|].
  unfold plain. cbn [str_forall]. rewrite digit_plain.
  - apply IH. apply Z.mod_pos_bound. lia.
  - unfold is_digit. rewrite digit_val_pretty; [done|]. assert (n * 10 / d < 10) by (apply Z.div_lt_upper_bound; lia).
    pose proof (Z.div_pos (n * 10) d). lia.
Qed.

Lemma decimal_plain q : decimal q -> plain (num_show (Fin q)) = true.
Proof.
  intros _. unfold num_show. destruct (_ =? 1); [apply show_plain|].
  apply plain_app; [by destruct (_ <? 0)|]. apply plain_app; [apply show_plain|]. apply (plain_app "."); [done|].
  apply frac_digits_plain. apply Z.mod_pos_bound. lia.
Qed.

(** ** The page that opens reads the parameters of the link *)

Lemma after_sep c s t : has_char c s = false -> Link.after c (s +:+ String c t) = t.
Proof.
  intros Hs. unfold Link.after. rewrite find_char_app_sep by done.
  replace (S (String.length s)) with (String.length (s +:+ String c "")) by (rewrite str_length_app; cbn; lia).
  replace (s +:+ String c t) with ((s +:+ String c "") +:+ t) by (by rewrite <- str_app_assoc). apply str_drop_app.
Qed.

Lemma search_of_open base path query ev : has_char "#" base = false -> has_char "?" path = false ->
  Link.search_of (Link.openLink base (path +:+ String "?" query) ev) = query.
Proof.
  intros Hb Hp. unfold Link.search_of, Link.openLink. destruct (_ || _ || _); [|destruct (Link.shiftKey ev)].
  3: by apply after_sep.
  all: change (base +:+ "#" +:+ ?u) with (base +:+ String "#" u); rewrite after_sep by done; by apply after_sep.
Qed.

Lemma opened_params_open `{SearchParseLaws} base path l ev : has_char "#" base = false -> has_char "?" path = false ->
  NoDup (map fst l) -> Forall plain_pair l ->
  Link.opened_params (Link.openLink base (path +:+ String "?" (print_plain l)) ev) = list_to_map l.
Proof. intros Hb Hp Hn Hl. unfold Link.opened_params. rewrite search_of_open by done. by apply parse_plain. Qed.

(** The link back returns to the list exactly when the page opened in the same tab. *)
Lemma back_in_history base url route ev :
  Link.back route (Link.openLink base url ev) = Link.InHistory <->
  Link.metaKey ev || Link.altKey ev || Link.ctrlKey ev || Link.shiftKey ev = false.
Proof. unfold Link.openLink. destruct (Link.metaKey ev), (Link.altKey ev), (Link.ctrlKey ev), (Link.shiftKey ev); done. Qed.
