(* ===== verification/SlowQueryPages.v ===== *)
(** * The pages of slow queries (apps/SlowQuery/pages of ui/, apps/SlowQuery/context.ts of
      the distributions)

    The list asks for what its address says; a row of it opens the page of a query, which
    reads from its own address what to ask for.  In the clinic a row that was clicked can be
    kept and be the answer to the next request for details.  A dialog downloads the records
    of a day or of an hour. *)

From Stdlib Require Import Ascii QArith.
From S2P Require Import Prelude JsString JsNumber Uri TimeRange UrlStateV1 TableColumns StatementDetail Links.
Local Open Scope Z_scope.

(** ** From a row to the page of a query *)

Module Rows.
Record Row := mkRow { digest : option string; connection_id : option string; timestamp : option num }.

(** A value in a template string. *)
Definition text (s : option string) : string := default "undefined" s.
Definition number (n : option num) : string := match n with Some n => num_show n | None => "undefined" end.

Definition detail_params (rec : Row) : list (string * string) :=
  [("digest", text (digest rec)); ("connection_id", text (connection_id rec)); ("timestamp", number (timestamp rec))].

Definition detail_link (rec : Row) : string :=
  "/slow_query/detail?digest=" +:+ text (digest rec) +:+ "&connection_id=" +:+ text (connection_id rec) +:+
  "&timestamp=" +:+ number (timestamp rec).

Record DetailKey := mkKey { k_digest : string; k_connectionId : string; k_timestamp : num }.

(** A parameter that is missing is [undefined], whose number is [NaN]. *)
Definition useSlowQueryDetailUrlState (q : queryParams) : DetailKey :=
  mkKey (default "" (q !! "digest")) (default "" (q !! "connection_id")) (parseFloat (text (q !! "timestamp"))).

Definition opened_key `{SearchParse} (o : Link.Opened) : DetailKey := useSlowQueryDetailUrlState (Link.opened_params o).

Definition back (o : Link.Opened) : Link.Back := Link.back "/slow_query" o.
End Rows.

(** ** The list *)

Module QueryList.
Import UrlStateV1.SlowQueryList.

Record Cfg := mkCfg { showTopSlowQueryLink : bool; showDBFilter : bool; showResourceGroupFilter : bool; showDigestFilter : bool }.

(** The databases: the arguments of the request, and whether it is made. *)
Definition dbs_request (cfg : Cfg) (now : Z) (q : queryParams) : num * num :=
  if showTopSlowQueryLink cfg then V1.toTimeRangeValue now (Some (timeRange q)) 0 else (num_of_Z 0, num_of_Z 0).
Definition dbs_enabled (cfg : Cfg) (now : Z) (q : queryParams) : bool :=
  showDBFilter cfg && truthy (fst (V1.toTimeRangeValue now (Some (timeRange q)) 0)).

Definition finalDbs (defDbs : list string) (dbsData : option (list string)) : list string :=
  match dbsData with Some ((_ :: _) as l) => l | _ => defDbs end.

(** The arguments of [slowQueryListGet]. *)
Record ListRequest := mkRequest {
  beginTime : num; db : list string; desc : bool; req_digest : string; endTime : num; fields : string;
  req_limit : option Z; orderBy : string; plans : list string; resourceGroup : list string; text : string; internal : bool
}.

Definition is_desc (o : order_type) : bool := match o with Desc => true | Asc => false end.

(** [now] is when the page was rendered. *)
Definition list_request (now : Z) (visibleColumnKeys : list (string * bool)) (q : queryParams) : ListRequest :=
  let v := V1.toTimeRangeValue now (Some (timeRange q)) 0 in
  mkRequest (fst v) (dbs q) (is_desc (type (order q))) (digest q) (snd v)
    (js_join "," (getSelectedFields visibleColumnKeys SlowQueryColumns.derivedFields))
    (limit q) (col (order q)) [] (ruGroups q) (term q) (showInternal q).

(** What the answers are kept by. *)
Definition queryKey (visibleColumnKeys : list (string * bool)) (q : queryParams) :=
  (timeRange q, dbs q, order q, digest q, visibleColumnKeys, limit q, ruGroups q, term q, showInternal q).

Record TokenRequest := mkToken {
  t_fields : string; t_begin_time : num; t_end_time : num; t_db : list string; t_resource_group : list string;
  t_text : string; t_orderBy : string; t_desc : bool; t_limit : Z; t_digest : string; t_plans : list string
}.

Definition downloadCSV (now : Z) (q : queryParams) : TokenRequest :=
  let v := V1.toTimeRangeValue now (Some (timeRange q)) 0 in
  mkToken "*" (fst v) (snd v) (dbs q) (ruGroups q) (term q) (col (order q)) (is_desc (type (order q))) 10000 (digest q) [].

(** The address the browser is sent to, if there is one. *)
Definition download_of (apiPathBase token : string) : option string :=
  if truthy token then Some (apiPathBase +:+ "/slow_query/download?token=" +:+ token) else None.

Definition csvHeaders (visibleColumnKeys : list (string * bool)) (cs : list IColumn) : list string :=
  map key (filter (fun c => lookup_field (key c) visibleColumnKeys = Some true) cs).

Definition resetsOrder (v : list (string * bool)) (q : queryParams) : bool :=
  negb (bool_decide (lookup_field (col (order q)) v = Some true)).

Definition updateVisibleColumnKeys `{UrlHook} (v : list (string * bool)) (q : queryParams) : list (string * bool) * queryParams :=
  (v, if resetsOrder v q then setQueryParams resetOrder q else q).

(** The values of a form have no digest when it has no field for it. *)
Definition handleFormSubmit `{UrlHook} (cfg : Cfg) (term digest : string) (q : queryParams) : queryParams :=
  setQueryParams [("term", Some term); ("digest", if showDigestFilter cfg then Some digest else None)] q.

Definition onChangeOrder (col_ : string) (d : bool) : changes := setOrder (mkOrder col_ (if d then Desc else Asc)).

Definition clusterInfo (orgName clusterName : option string) : string :=
  js_join " | " ((if truthy orgName then ["Org: " +:+ default "" orgName] else []) ++
                 (if truthy clusterName then ["Cluster: " +:+ default "" clusterName] else []))%list.

Definition getKey (r : Rows.Row) : string := Rows.text (Rows.digest r) +:+ "_" +:+ Rows.number (Rows.timestamp r).
End QueryList.

(** ** The data source of the clinic *)

Module Clinic.
Import QueryList.

(** A value of a parameter. *)
Inductive Value := One (s : string) | Many (l : list string).

Definition set_field (l : params) (f : string * Value) : params :=
  match snd f with
  | Many vs => (params_delete (fst f) l ++ map (pair (fst f)) vs)%list
  | One s => params_set (fst f) s l
  end.

Definition bool_text (b : bool) : string := if b then "true" else "false".

Definition list_fields (r : ListRequest) : list (string * Value) :=
  [("begin_time", One (num_show (beginTime r))); ("db", Many (db r)); ("desc", One (bool_text (desc r)));
   ("digest", One (req_digest r)); ("end_time", One (num_show (endTime r))); ("fields", One (fields r));
   ("limit", One (match req_limit r with Some n => show n | None => "NaN" end)); ("orderBy", One (orderBy r));
   ("plans", Many (plans r)); ("resource_group", Many (resourceGroup r)); ("text", One (text r));
   ("show_internal", One (bool_text (internal r)))].

Definition slowQueryListGet (r : ListRequest) : string :=
  "/slow_query/list?" +:+ print_query (fold_left set_field (list_fields r) []).

Section Cache.
Context {Item : Type}.

(** A request for details: answered by an item that was kept, or sent. *)
Inductive Answer := Kept (i : Item) | Sent (k : Rows.DetailKey).

Definition selectSlowQueryItem (listApiReturnDetail : bool) (i : Item) (cache : list Item) : list Item :=
  if listApiReturnDetail then cache ++ [i] else cache.

(** [cache.pop()] *)
Definition slowQueryDetailGet (k : Rows.DetailKey) (cache : list Item) : Answer * list Item :=
  match last cache with
  | Some i => (Kept i, take (Nat.pred (length cache)) cache)
  | None => (Sent k, cache)
  end.

(** A row is clicked and its page opens here or in another tab; a page opens by its address;
    an opened page asks again. *)
Inductive Event := Click (i : Item) (k : Rows.DetailKey) | ClickAway (i : Item) | Visit (k : Rows.DetailKey).

Definition event (listApiReturnDetail : bool) (e : Event) (s : list Item * list (Rows.DetailKey * Answer)) :
    list Item * list (Rows.DetailKey * Answer) :=
  let '(cache, shown) := s in
  match e with
  | Click i k =>
      let '(a, cache) := slowQueryDetailGet k (selectSlowQueryItem listApiReturnDetail i cache) in (cache, shown ++ [(k, a)])
  | ClickAway i => (selectSlowQueryItem listApiReturnDetail i cache, shown)
  | Visit k => let '(a, cache) := slowQueryDetailGet k cache in (cache, shown ++ [(k, a)])
  end%list.

Definition session (listApiReturnDetail : bool) (l : list Event) : list Item * list (Rows.DetailKey * Answer) :=
  fold_left (fun s e => event listApiReturnDetail e s) l ([], []).
End Cache.
Arguments Answer : clear implicits.
Arguments Event : clear implicits.
End Clinic.

(** ** The records of a day or an hour *)

Module Download.
Inductive RangeType := by_day | by_hour.

(** [dateVal] is a moment in seconds, the one the picker gives for a date: some time of that
    day where the browser is, [utcOffset] seconds ahead of UTC. *)
Definition hour_of (hourVal : Z) : Z := if (hourVal <? 0) || (23 <? hourVal) then Z.rem hourVal 24 else hourVal.

Definition downloadDBFile (dateVal hourVal : Z) (t : RangeType) : Z * Z :=
  let hourVal := hour_of hourVal in
  let offset := match t with by_day => 86400 | by_hour => 3600 end in
  let dateAlignedUnix := dateVal - Z.rem dateVal 86400 in
  let begin_time := dateAlignedUnix + (match t with by_hour => hourVal * 3600 | by_day => 0 end) in
  (begin_time, begin_time + offset).

Definition fileName (begin_time : Z) : string := show begin_time +:+ ".db".

Definition hoursRange : list Z := map Z.of_nat (seq 0 24).
Definition hourLabel (i : Z) : string := show i +:+ ":00~" +:+ show (Z.rem (i + 1) 24) +:+ ":00".

(** What the dialog says will be downloaded, in UTC: the number of the day and the hours. *)
Definition labelled (utcOffset dateVal hourVal : Z) (t : RangeType) : Z * (Z * Z) :=
  ((dateVal + utcOffset) / 86400, match t with by_day => (0, 24) | by_hour => (hourVal, hourVal + 1) end).

Definition label_range (l : Z * (Z * Z)) : Z * Z :=
  (fst l * 86400 + fst (snd l) * 3600, fst l * 86400 + snd (snd l) * 3600).

(** The button does nothing without a date or while something is downloaded. *)
Definition click (downloading : bool) (dateVal : option Z) (hourVal : Z) (t : RangeType) : option (Z * Z) :=
  if downloading then None else (fun d => downloadDBFile d hourVal t) <$> dateVal.
End Download.

(** ** The page of a query *)

Module DetailPage.
Import StatementDetail.Plans.

(** The plan in JSON as both pages read it: the mark of a plan that was too long to be kept,
    and the main part with a mark of its own. *)
Record PlanJson := mkJson { discardedDueToTooLong : option bool; main_mark : option (option bool) }.

(** What the server sends (formatBinaryPlanJSON): a plan that was discarded has the mark and no
    main part. *)
Definition generated (discarded : bool) : PlanJson :=
  if discarded then mkJson (Some true) None else mkJson (Some false) (Some None).

Section View.
Context (parse : string -> option PlanJson).

Definition binaryPlanObj (data : PlanData) : option (option PlanJson) :=
  let json := match binary_plan_json data with Some j => Some j | None => binary_plan data end in
  match json with Some j => if truthy j then Some <$> parse j else Some None | None => Some None end.

Definition view (data : PlanData) : PlanView :=
  match binaryPlanObj data with
  | None => Throws
  | Some obj =>
      if truthy (binary_plan_text data) || truthy (plan data) then
        TabsOf (if truthy (binary_plan_text data) then binary_plan_table else text_plan)
          ((if truthy (binary_plan_text data) then [binary_plan_table] else []) ++ [text_plan] ++
           match obj with
           | Some o => if truthy (discardedDueToTooLong o) then [] else [binary_plan_]
           | None => []
           end)
      else NoPlan
  end.

(** The page of a statement reads the same JSON. *)
Definition statement_view (data : PlanData) : PlanView :=
  Plans.view (fun s => (fun j => mkBinary (main_mark j)) <$> parse s) data.
End View.

(** The text that was queried before, shown if there is one, with its two links to copy. *)
Definition prevShown (prev_stmt : option string) : bool := truthy prev_stmt.
Definition formattedCopyShown (query : string) : bool := js_length query <? 10000.

Record Expand := mkExpand { prev_query : bool; query_ : bool; plan_ : bool }.
Definition defExpand : Expand := mkExpand false false false.
Definition togglePrevQuery (e : Expand) : Expand := mkExpand (negb (prev_query e)) (query_ e) (plan_ e).
Definition toggleQuery (e : Expand) : Expand := mkExpand (prev_query e) (negb (query_ e)) (plan_ e).
End DetailPage.

(** ** The way from a row to its page *)

Lemma detail_link_params rec : Rows.detail_link rec = "/slow_query/detail" +:+ String "?" (print_plain (Rows.detail_params rec)).
Proof.
  unfold Rows.detail_link, print_plain, Rows.detail_params. cbn [map js_join fst snd].
  change ("/slow_query/detail?digest=" +:+ ?u) with ("/slow_query/detail" +:+ String "?" ("digest=" +:+ u)).
  by rewrite <- !str_app_assoc.
Qed.

Section Properties.

(** C32: the page that opens for a row, in the same tab or in another one, asks for that row:
    for its digest and its connection, when these are texts that need no encoding, and for its
    time, when this is not negative and has at most seventeen digits after the point.  Its link
    back returns to the list as it was exactly when it opened in the same tab. *)
Theorem row_link_opens_row `{SearchParseLaws} (base d c : string) (q : Q) (ev : Link.Mouse) :
  has_char "#" base = false -> plain d = true -> plain c = true -> decimal q ->
  let o := Link.openLink base (Rows.detail_link (Rows.mkRow (Some d) (Some c) (Some (Fin q)))) ev in
  let k := Rows.opened_key o in
  Rows.k_digest k = d /\ Rows.k_connectionId k = c /\ fin (Rows.k_timestamp k) q /\
  (Rows.back o = Link.InHistory <->
   Link.metaKey ev || Link.altKey ev || Link.ctrlKey ev || Link.shiftKey ev = false).
Proof.
  intros Hb Hd Hc Hq o k. subst k o. unfold Rows.opened_key. rewrite detail_link_params, opened_params_open; [|done|done|..].
  - cbn. split_and!; [done|done|by apply parseFloat_show_decimal|]. apply back_in_history.
  - repeat constructor; set_solver.
  - repeat constructor; cbn; try done. by apply decimal_plain.
Qed.
End Properties.

Lemma row_link_opens_row_witness :
  let o := Link.openLink "http://h/d/" (Rows.detail_link (Rows.mkRow (Some "ab12") (Some "7") (Some (Fin (16094 # 100)))))
    (Link.mkMouse false false true false) in
  Link.search_of o = "digest=ab12&connection_id=7&timestamp=160.94" /\ Rows.k_digest (Rows.opened_key o) = "ab12".
Proof.
  intros o. split; [vm_compute; reflexivity|].
  apply (row_link_opens_row "http://h/d/" "ab12" "7" (16094 # 100) (Link.mkMouse false false true false));
    [reflexivity|reflexivity|reflexivity|]. split; [done|]. exists (2 * 10 ^ 15). reflexivity.
Defined.

(** ** The clinic *)

(** What each event shows when rows are only opened in place. *)
Definition expected {Item} (b : bool) (e : Clinic.Event Item) : list (Rows.DetailKey * Clinic.Answer Item) :=
  match e with
  | Clinic.Click i k => [(k, if b then Clinic.Kept i else Clinic.Sent k)]
  | Clinic.ClickAway _ => []
  | Clinic.Visit k => [(k, Clinic.Sent k)]
  end.

Definition in_place {Item} (b : bool) (e : Clinic.Event Item) : Prop :=
  match e with Clinic.ClickAway _ => b = false | _ => True end.

Lemma session_snoc {Item} b (l : list (Clinic.Event Item)) e :
  Clinic.session b (l ++ [e]) = Clinic.event b e (Clinic.session b l).
Proof. unfold Clinic.session. by rewrite fold_left_app. Qed.

Lemma session_expected {Item} b (l : list (Clinic.Event Item)) : Forall (in_place b) l ->
  Clinic.session b l = ([], concat (map (expected b) l)).
Proof.
  induction l as [|e l IH] using rev_ind; intros Hl; [done|]. apply Forall_app in Hl as [Hl He]. apply Forall_inv in He.
  rewrite session_snoc, IH by done. rewrite map_app, concat_app. cbn [map concat]. rewrite app_nil_r.
  destruct e as [i k|i|k]; [by destruct b| |done]. cbn in He. subst b. cbn. by rewrite app_nil_r.
Qed.

(** C33: in the clinic the page of a query shows what it asks for as long as every row that is
    clicked opens in the same tab, or the list does not give all the fields of a row: then the
    page that opens for a row shows this row, taken from the list if it gives all the fields, and
    every other page asks the server with its own key; nothing is kept in between.  A row that
    was opened in another tab is kept, and is shown as the answer of the next page opened by its
    address, whatever the page asks for. *)
Theorem detail_answers {Item} (b : bool) (l : list (Clinic.Event Item)) :
  Forall (in_place b) l ->
  Clinic.session b l = ([], concat (map (expected b) l)) /\
  (b = true -> forall i k, snd (Clinic.session b (l ++ [Clinic.ClickAway i; Clinic.Visit k])) =
     snd (Clinic.session b l) ++ [(k, Clinic.Kept i)])%list.
Proof.
  intros Hl. split; [by apply session_expected|]. intros -> i k.
  change [Clinic.ClickAway i; Clinic.Visit k] with ([Clinic.ClickAway i] ++ [Clinic.Visit k])%list.
  rewrite app_assoc, !session_snoc, session_expected by done. done.
Qed.

Lemma detail_answers_witness :
  let k d := Rows.mkKey d "1" (num_of_Z 5) in
  snd (Clinic.session true [Clinic.Click "row a" (k "a"); Clinic.Visit (k "b"); Clinic.ClickAway "row c"; Clinic.Visit (k "d")]) =
  [(k "a", Clinic.Kept "row a"); (k "b", Clinic.Sent (k "b")); (k "d", Clinic.Kept "row c")].
Proof.
  intros k. destruct (detail_answers true [Clinic.Click "row a" (k "a"); Clinic.Visit (k "b")]) as [Hs Ha].
  - repeat constructor.
  - rewrite (Ha eq_refl "row c" (k "d") : snd (Clinic.session true [_; _; _; _]) = _), Hs. reflexivity.
Defined.

(** The values of one name, as [getAll] gives them. *)
Definition getAll (k : string) (l : params) : list string := map snd (filter (fun p => fst p = k) l).

Definition values (v : Clinic.Value) : list string := match v with Clinic.One s => [s] | Clinic.Many vs => vs end.

Lemma getAll_app k l l' : getAll k (l ++ l')%list = (getAll k l ++ getAll k l')%list.
Proof. unfold getAll. by rewrite filter_app, map_app. Qed.

Lemma getAll_delete k k' l : getAll k (params_delete k' l) = if decide (k' = k) then [] else getAll k l.
Proof.
  unfold getAll, params_delete. induction l as [|[x v] l IH]; [by case_decide|]. rewrite !filter_cons. cbn [fst].
  repeat (case_decide; rewrite ?filter_cons; cbn [fst map snd]); simplify_eq; try done; by rewrite IH.
Qed.

Lemma getAll_set k k' v l : getAll k (params_set k' v l) = if decide (k' = k) then [v] else getAll k l.
Proof.
  induction l as [|[x w] l IH]; cbn [params_set].
  - unfold getAll. rewrite filter_cons. cbn [fst]. by case_decide.
  - destruct (decide (x = k')) as [->|Hx].
    + pose proof (getAll_delete k k' l) as Hd. unfold getAll, params_delete in *. rewrite !filter_cons. cbn [fst].
      case_decide as Hk; cbn [map snd]; rewrite Hd; [|done]. done.
    + unfold getAll in *. rewrite !filter_cons. cbn [fst]. destruct (decide (x = k)) as [->|]; cbn [map snd]; rewrite IH; [|done].
      by rewrite !decide_False by congruence.
Qed.

Lemma getAll_field k l f : getAll k (Clinic.set_field l f) = if decide (fst f = k) then values (snd f) else getAll k l.
Proof.
  destruct f as [k' [s|vs]]; cbn [Clinic.set_field fst snd values]; [apply getAll_set|].
  rewrite getAll_app, getAll_delete. unfold getAll. case_decide as Hk.
  - subst. cbn [app]. rewrite filter_id; [by rewrite map_map, map_id|]. apply Forall_map, Forall_forall. by intros.
  - rewrite (filter_none _ (map _ _)); [apply app_nil_r|]. apply Forall_map, Forall_forall. by intros.
Qed.

Lemma getAll_fields k v fs : forall l, NoDup (map fst fs) -> (k, v) ∈ fs ->
  getAll k (fold_left Clinic.set_field fs l) = values v.
Proof.
  assert (Hother : forall fs l, k ∉ map fst fs -> getAll k (fold_left Clinic.set_field fs l) = getAll k l).
  { induction fs0 as [|f fs0 IH]; intros l Hk; [done|]. cbn [fold_left map] in *. apply not_elem_of_cons in Hk as [Hk Hk'].
    rewrite IH by done. rewrite getAll_field. by rewrite decide_False by congruence. }
  induction fs as [|f fs IH]; intros l Hn Hin; [by apply elem_of_nil in Hin|]. cbn [fold_left map] in *.
  apply NoDup_cons in Hn as [Hf Hn]. apply elem_of_cons in Hin as [<-|Hin]; [|by apply IH].
  rewrite Hother by done. rewrite getAll_field. by rewrite decide_True.
Qed.

(** The address of the list in the clinic carries every setting, in whatever characters: each
    name is read back with its values in their order. *)
Lemma clinic_list_params (r : QueryList.ListRequest) k v : (k, v) ∈ Clinic.list_fields r ->
  Clinic.slowQueryListGet r = "/slow_query/list?" +:+ print_query (fold_left Clinic.set_field (Clinic.list_fields r) []) /\
  getAll k (parse_query (print_query (fold_left Clinic.set_field (Clinic.list_fields r) []))) = values v.
Proof.
  intros Hin. split; [done|]. rewrite parse_print. apply getAll_fields; [|done]. cbn. repeat constructor; set_solver.
Qed.

(** ** The list *)

(** The answers kept under one key were asked for alike, at the same time. *)
Lemma key_covers_request now v v' q q' : QueryList.queryKey v q = QueryList.queryKey v' q' ->
  QueryList.list_request now v q = QueryList.list_request now v' q'.
Proof. unfold QueryList.queryKey, QueryList.list_request. by intros [= -> -> -> -> -> -> -> -> ->]. Qed.

(** After the columns were chosen the list is ordered by one of them, or as it is by default. *)
Lemma order_among_columns `{UrlHookLaws} v q :
  let '(v', q') := QueryList.updateVisibleColumnKeys v q in
  lookup_field (SlowQueryList.col (SlowQueryList.order q')) v' = Some true \/
  SlowQueryList.order q' = SlowQueryList.mkOrder "timestamp" SlowQueryList.Desc.
Proof.
  unfold QueryList.updateVisibleColumnKeys, QueryList.resetsOrder. case_bool_decide as Hc; cbn [negb]; [by left|right].
  unfold SlowQueryList.order. by erewrite after_change by reflexivity.
Qed.

(** Without a field for the digest a query takes the digest of the address away. *)
Lemma query_drops_digest `{UrlHookLaws} cfg term digest q : QueryList.showDigestFilter cfg = false ->
  SlowQueryList.digest (QueryList.handleFormSubmit cfg term digest q) = "" /\
  SlowQueryList.term (QueryList.handleFormSubmit cfg term digest q) = term.
Proof.
  intros Hc. unfold SlowQueryList.digest, SlowQueryList.term, QueryList.handleFormSubmit. rewrite Hc.
  by rewrite !set_lookup.
Qed.

(** ** The records of a day *)

(** What is downloaded is what the dialog says exactly when the date of the moment is the same
    in UTC: for a moment at a time of the day before the distance from UTC it is the day before. *)
Lemma download_labelled utcOffset dateVal hourVal t : 0 <= dateVal -> hourVal ∈ Download.hoursRange ->
  let r := Download.downloadDBFile dateVal hourVal t in
  fst r < snd r /\ Z.rem (fst r) 3600 = 0 /\
  (r = Download.label_range (Download.labelled utcOffset dateVal hourVal t) <->
   dateVal / 86400 = (dateVal + utcOffset) / 86400).
Proof.
  intros Hd Hh. assert (0 <= hourVal <= 23) as Hr.
  { unfold Download.hoursRange in Hh. apply list_elem_of_fmap in Hh as (n & -> & Hn). apply elem_of_seq in Hn. lia. }
  unfold Download.downloadDBFile, Download.hour_of, Download.label_range, Download.labelled.
  rewrite (proj2 (Z.ltb_ge hourVal 0)), (proj2 (Z.ltb_ge 23 hourVal)) by lia. cbn [orb].
  rewrite Z.rem_mod_nonneg by lia. pose proof (Z.div_mod dateVal 86400 ltac:(lia)) as Hm.
  set (a := dateVal / 86400) in *. set (b := (dateVal + utcOffset) / 86400). replace (dateVal - dateVal mod 86400) with (a * 86400) by lia.
  assert (0 <= a) by (apply Z.div_pos; lia).
  destruct t; cbn [fst snd]; split_and!; try lia.
  - rewrite Z.add_0_r, Z.rem_mod_nonneg by lia. replace (a * 86400) with (a * 24 * 3600) by lia. apply Z.mod_mul. lia.
  - split; [intros [= H1 H2]; lia|intros <-; f_equal; lia].
  - rewrite Z.rem_mod_nonneg by lia. replace (a * 86400 + hourVal * 3600) with ((a * 24 + hourVal) * 3600) by lia. apply Z.mod_mul. lia.
  - split; [intros [= H1 H2]; lia|intros <-; f_equal; lia].
Qed.

(** ** The plan of a query *)

(** The page of a slow query and the page of a statement show the plan of the same record by
    the same tabs with the same one open, unless the plan was too long and was discarded: then the
    page of a slow query leaves the drawing out, while the page of a statement looks for the mark
    in the main part, which is missing, and fails.  A record without a text of a plan has no tabs on
    either page. *)
Theorem plan_views_agree (parse : string -> option DetailPage.PlanJson) (data : Plans.PlanData) (discarded : bool) :
  (forall s j, parse s = Some j -> j = DetailPage.generated discarded) ->
  let planned := truthy (Plans.binary_plan_text data) || truthy (Plans.plan data) in
  match DetailPage.binaryPlanObj parse data with
  | Some (Some _) =>
      if discarded && planned then
        DetailPage.statement_view parse data = Plans.Throws /\
        (exists active l, DetailPage.view parse data = Plans.TabsOf active l /\ active ∈ l /\ Plans.binary_plan_ ∉ l)
      else DetailPage.statement_view parse data = DetailPage.view parse data
  | _ => DetailPage.statement_view parse data = DetailPage.view parse data
  end.
Proof.
  intros Hp planned. unfold DetailPage.statement_view, DetailPage.view, Plans.view, DetailPage.binaryPlanObj, Plans.binaryPlanObj.
  destruct (match Plans.binary_plan_json data with Some j => Some j | None => Plans.binary_plan data end) as [j|]; [destruct (truthy j)|].
  - destruct (parse j) as [o|] eqn:Ho; cbn [fmap option_fmap option_map]; [|done]. rewrite (Hp j o Ho). fold planned.
    destruct planned, discarded; cbn; try done. split; [done|].
    eexists _, _. split; [done|]. destruct (truthy (Plans.binary_plan_text data)); cbn; split; set_solver.
  - fold planned. by destruct planned.
  - fold planned. by destruct planned.
Qed.

Lemma plan_views_agree_witness :
  let parse (s : string) := Some (DetailPage.generated true) in
  let data := Plans.mkData (Some "{}") None (Some "text") None in
  DetailPage.statement_view parse data = Plans.Throws /\
  DetailPage.view parse data = Plans.TabsOf Plans.binary_plan_table [Plans.binary_plan_table; Plans.text_plan].
Proof.
  intros parse data. split; [|reflexivity].
  exact (proj1 (plan_views_agree parse data true ltac:(by intros s j [= <-]))).
Defined.
