(* ===== verification/TopSlowPage.v ===== *)
(** * The page of the top slow queries (apps/TopSlowQuery/pages of ui/)

    The page asks for the windows of time there are, shows the one its address names, counts the
    slow queries in it and lists the ten first ones.  A row opens the list of slow queries
    ([SlowQueryPages]) for its window, its digest and the databases that were chosen. *)

From Stdlib Require Import Ascii QArith Qround Lqa.
From S2P Require Import Prelude JsString JsNumber TimeRange UrlStateV1 Links SlowQueryPages.
Local Open Scope Z_scope.

Module Windows.
Import UrlStateV1.TopSlowQuery.

Record Window := mkWindow { begin_time : Z; end_time : Z }.

#[export] Instance Window_eq_dec : EqDecision Window.
Proof. solve_decision. Defined.

(** The value of a window in the address and in the select. *)
Definition window_text (w : Window) : string := show (begin_time w) +:+ "-" +:+ show (end_time w).

Definition is_tw (t : Z * Z) (w : Window) : bool := (begin_time w =? fst t) && (end_time w =? snd t).

(** The arguments of the request, and the key of its answer beside the cluster. *)
Definition windows_request (now : Z) (q : queryParams) : num * num * Z :=
  (V1.toTimeRangeValue now (Some (timeRange q)) 0, duration q).
Definition windows_key (q : queryParams) : Z * V1.TimeRange := (duration q, timeRange q).

Section Url.
Context `{UrlHook}.

Definition set_window (w : Window) (q : queryParams) : queryParams := setQueryParams (setTw (window_text w)) q.

(** An answer: the first window, unless the one of the address is there. *)
Definition onSuccess (data : list Window) (q : queryParams) : queryParams :=
  match data with
  | [] => q
  | w :: _ => if existsb (is_tw (tw q)) data then q else set_window w q
  end.

Fixpoint findIndex (p : Window -> bool) (l : list Window) : option nat :=
  match l with
  | [] => None
  | w :: l => if p w then Some O else S <$> findIndex p l
  end.

(** The newest window is the first. *)
Definition newerTw (available : option (list Window)) (q : queryParams) : queryParams :=
  match available with
  | None => q
  | Some l =>
      match findIndex (is_tw (tw q)) l with
      | None | Some O => q
      | Some (S i) => match l !! i with Some w => set_window w q | None => q end
      end
  end.

Definition olderTw (available : option (list Window)) (q : queryParams) : queryParams :=
  match available with
  | None => q
  | Some l =>
      match findIndex (is_tw (tw q)) l with
      | None => q
      | Some i =>
          if (i =? length l - 1)%nat then q
          else match l !! S i with Some w => set_window w q | None => q end
      end
  end.

Definition changeDuration (v : Z) (q : queryParams) : queryParams :=
  setQueryParams [("duration", Some (show v));
    ("from", Some (match DEFAULT_TIME_RANGE with V1.Recent n => num_show n | V1.Absolute _ => "" end)); ("to", Some "now")] q.
End Url.

(** The value the select shows. *)
Definition selected (q : queryParams) : string :=
  if fst (tw q) =? 0 then "" else show (fst (tw q)) +:+ "-" +:+ show (snd (tw q)).

Section Label.
(** Of a moment: its day of the month, and its text in a format. *)
Context (date : Z -> Z) (format : string -> Z -> string).

Definition label (w : Window) : string :=
  if date (begin_time w) =? date (end_time w)
  then format "MM-DD HH:mm" (begin_time w) +:+ "~" +:+ format "HH:mm" (end_time w)
  else format "MM-DD HH:mm" (begin_time w) +:+ "~" +:+ format "MM-DD HH:mm" (end_time w).
End Label.
End Windows.

Module Count.
Import UrlStateV1.TopSlowQuery.

(** The requests of the chart and of the databases are made for a window. *)
Definition window_request (q : queryParams) : option (Z * Z) := if truthy (fst (tw q)) then Some (tw q) else None.

Definition convertedData (data : option (list (Z * Z))) : list (Z * Z) :=
  map (fun '(time, count) => (time * 1000, count)) (default [] data).

(** [e] is what was brushed, in milliseconds. *)
Definition onBrushEnd (e : option (Q * Q)) : option (Z * Z) :=
  match e with
  | None => None
  | Some (x0, x1) =>
      let tr0 := (x0 / 1000)%Q in
      let tr1 := (x1 / 1000)%Q in
      let delta := (tr1 - tr0)%Q in
      if Qltb delta 60 then
        let offset := inject_Z (Qfloor (delta / 2)) in
        Some (Qceiling (tr0 + offset - 30), Qfloor (tr1 - offset + 30))
      else Some (Qceiling tr0, Qfloor tr1)
  end.

Definition duration_of (delta : Z) : Z :=
  if delta <? 60 * 60 then 60 * 60
  else if delta <? 3 * 60 * 60 then 3 * 60 * 60
  else if delta <? 6 * 60 * 60 then 6 * 60 * 60
  else if delta <? 12 * 60 * 60 then 12 * 60 * 60
  else if delta <? 24 * 60 * 60 then 24 * 60 * 60
  else if delta <? 7 * 24 * 60 * 60 then 7 * 24 * 60 * 60
  else 60 * 60.

Definition onSelectTimeRange `{UrlHook} (timeRange : Z * Z) (q : queryParams) : queryParams :=
  setQueryParams [("duration", Some (show (duration_of (snd timeRange - fst timeRange))));
    ("from", Some (show (fst timeRange))); ("to", Some (show (fst timeRange)))] q.
End Count.

Module Table.
Import UrlStateV1.TopSlowQuery.

Definition STMT_KINDS : list string :=
  ["AlterTable"; "AnalyzeTable"; "Begin"; "Change"; "Insert"; "Update"; "Commit"; "Delete"; "Select"; "Show"; "Set"; "Others"].

Record ListRequest := mkRequest {
  start : Z; end_ : Z; req_order : string; req_dbs : list string; req_internal : string; req_stmtKinds : list string
}.

Definition list_request (q : queryParams) : option ListRequest :=
  if truthy (fst (tw q)) then Some (mkRequest (fst (tw q)) (snd (tw q)) (order q) (dbs q) (internal q) (stmtKinds q)) else None.

Definition row_params (sql_digest : string) (q : queryParams) : list (string * string) :=
  [("from", show (fst (tw q))); ("to", show (snd (tw q))); ("digest", sql_digest); ("dbs", js_join "," (dbs q))].

Definition row_link (sql_digest : string) (q : queryParams) : string :=
  "/slow_query?from=" +:+ show (fst (tw q)) +:+ "&to=" +:+ show (snd (tw q)) +:+ "&digest=" +:+ sql_digest +:+
  "&dbs=" +:+ js_join "," (dbs q).

Inductive Format := HighlightedText | PlainText | Value (unit : string) (digits : list Z).

Record Col := mkCol {
  name : string; key : string; fieldName : option string; clickable : bool; sorts : bool; cell : Format
}.

Definition value_col (name key unit : string) (digits : list Z) : Col :=
  mkCol name key (Some key) true true (Value unit digits).

(** [sorts]: the header is marked when the list is ordered by the column. *)
Definition columns : list Col :=
  [mkCol "Query" "sql_text" None false false HighlightedText;
   mkCol "SQL Digest" "sql_digest" None false false PlainText;
   value_col "Total Latency" "sum_latency" "s" [1];
   value_col "Max Latency" "max_latency" "s" [1];
   value_col "Avg Latency" "avg_latency" "s" [1];
   value_col "Total Memory" "sum_memory" "bytes" [1];
   value_col "Max Memory" "max_memory" "bytes" [1];
   value_col "Avg Memory" "avg_memory" "bytes" [1];
   value_col "Total Count" "count" "short" [0; 1];
   mkCol "Total Disk" "sum_disk" (Some "sum_disk") false false (Value "bytes" [1])].

Definition marked (order : string) (c : Col) : bool := sorts c && String.eqb order (key c).

Definition csvHeaders : list (string * string) := map (fun c => (name c, key c)) columns.

(** The order that is asked for; the direction the table reports is left out. *)
Definition onChangeOrder (col : string) (desc : bool) : changes := setOrder col.

(** The hint that the data takes long: whether a timer runs, whether the hint is shown. *)
Record Hint := mkHint { isFetching : bool; timer : bool; loadSlow : bool }.

Definition fetching_changes (b : bool) (h : Hint) : Hint :=
  if b then mkHint true true (loadSlow h) else mkHint false false false.
Definition timeout (h : Hint) : Hint := if timer h then mkHint (isFetching h) false true else h.
End Table.

(** ** The window of the address *)

Section Url.
Context `{UrlHookLaws}.
Import Windows.

(** Windows from the epoch on. *)
Definition from_epoch (w : Window) : Prop := 0 <= begin_time w /\ 0 <= end_time w.

Definition pair_of (w : Window) : Z * Z := (begin_time w, end_time w).

Lemma tw_set_window w q : from_epoch w -> TopSlowQuery.tw (set_window w q) = pair_of w.
Proof.
  intros [H1 H2]. destruct (top_state_roundtrip 0 q) as (_ & _ & Ht & _). exact (Ht _ _ H1 H2).
Qed.

Lemma is_tw_pair w w' : is_tw (pair_of w) w' = bool_decide (w' = w).
Proof.
  unfold is_tw, pair_of. cbn. destruct w as [a b], w' as [c d]. cbn. case_bool_decide as Hd.
  - injection Hd as -> ->. by rewrite !Z.eqb_refl.
  - apply andb_false_iff. destruct (Z.eqb_spec c a); [|by left]. destruct (Z.eqb_spec d b); [|by right]. congruence.
Qed.

Lemma findIndex_nodup l i w : NoDup l -> l !! i = Some w -> findIndex (is_tw (pair_of w)) l = Some i.
Proof.
  revert i. induction l as [|x l IH]; intros i Hn Hi; [done|]. apply NoDup_cons in Hn as [Hx Hn]. cbn [findIndex].
  rewrite is_tw_pair. destruct i as [|i]; cbn in Hi.
  - injection Hi as ->. by rewrite bool_decide_eq_true_2.
  - rewrite bool_decide_eq_false_2; [by rewrite (IH i)|]. intros ->. apply Hx. by eapply list_elem_of_lookup_2.
Qed.

(** When an answer names windows, the address names one of them: the one it named if it still is
    there, and the newest else.  From there the two buttons move by one window, stay at the ends,
    and undo each other. *)
Lemma window_navigation (l : list Window) (q : queryParams) : NoDup l -> Forall from_epoch l -> l <> [] ->
  (exists i w, l !! i = Some w /\ TopSlowQuery.tw (onSuccess l q) = pair_of w /\
     ((exists w', w' ∈ l /\ TopSlowQuery.tw q = pair_of w') -> TopSlowQuery.tw q = pair_of w)) /\
  (forall i w, l !! i = Some w -> TopSlowQuery.tw q = pair_of w ->
     (i = O -> newerTw (Some l) q = q) /\ (S i = length l -> olderTw (Some l) q = q) /\
     (forall w', l !! S i = Some w' -> TopSlowQuery.tw (olderTw (Some l) q) = pair_of w' /\
        TopSlowQuery.tw (newerTw (Some l) (olderTw (Some l) q)) = pair_of w)).
Proof.
  intros Hn Hl Hne. split.
  - destruct l as [|w0 l0] eqn:E; [done|]. rewrite <- E in *. unfold onSuccess. rewrite E, <- E.
    destruct (existsb (is_tw (TopSlowQuery.tw q)) l) eqn:Ex.
    + apply existsb_exists in Ex as (w & Hw & Ht). apply list_elem_of_In, list_elem_of_lookup in Hw as [i Hi].
      exists i, w. unfold is_tw in Ht. apply andb_true_iff in Ht as [H1%Z.eqb_eq H2%Z.eqb_eq].
      assert (TopSlowQuery.tw q = pair_of w) as Hq by (unfold pair_of; rewrite H1, H2; by destruct (TopSlowQuery.tw q)).
      by split_and!.
    + exists O, w0. split; [by rewrite E|]. split.
      * apply tw_set_window. rewrite E in Hl. by apply Forall_cons in Hl as [? _].
      * intros (w' & Hw' & Hq). exfalso. assert (existsb (is_tw (TopSlowQuery.tw q)) l = true); [|congruence].
        apply existsb_exists. exists w'. split; [by apply list_elem_of_In|]. rewrite Hq, is_tw_pair. by apply bool_decide_eq_true.
  - intros i w Hi Hq. pose proof (findIndex_nodup l i w Hn Hi) as Hfi. split_and!.
    + intros ->. unfold newerTw. by rewrite Hq, Hfi.
    + intros Hlast. unfold olderTw. rewrite Hq, Hfi. destruct (Nat.eqb_spec i (length l - 1)); [done|lia].
    + intros w' Hi'. assert (from_epoch w') as He by (rewrite Forall_lookup in Hl; by eapply Hl).
      assert (olderTw (Some l) q = set_window w' q) as Ho.
      { unfold olderTw. rewrite Hq, Hfi, Hi'. apply lookup_lt_Some in Hi'. destruct (Nat.eqb_spec i (length l - 1)); [lia|done]. }
      rewrite Ho, tw_set_window by done. split; [done|]. unfold newerTw. rewrite tw_set_window by done.
      rewrite (findIndex_nodup l (S i) w' Hn Hi'), Hi. apply tw_set_window. rewrite Forall_lookup in Hl. by eapply Hl.
Qed.

(** A range brushed in the chart is written as one that ends where it begins, and for a day or
    longer with a duration that is read back as an hour. *)
Lemma brushed_range_empty t q :
  TopSlowQuery.timeRange (Count.onSelectTimeRange t q) = V1.Absolute (num_of_Z (fst t), num_of_Z (fst t)) /\
  (24 * 60 * 60 <= snd t - fst t -> TopSlowQuery.duration (Count.onSelectTimeRange t q) = 60 * 60).
Proof.
  split.
  - unfold TopSlowQuery.timeRange, read_range. set (q' := Count.onSelectTimeRange t q).
    assert (q' !! "from" = Some (show (fst t)) /\ q' !! "to" = Some (show (fst t))) as [-> ->] by (split; apply set_lookup).
    cbv beta iota. rewrite !(proj2 (truthy_string_spec _) (show_nonempty _)). cbn [andb]. unfold V1.urlToTimeRange. cbn [from to].
    rewrite decide_False by apply show_not_now. by rewrite js_Number_show.
  - intros Hd. unfold TopSlowQuery.duration. set (q' := Count.onSelectTimeRange t q).
    assert (q' !! "duration" = Some (show (Count.duration_of (snd t - fst t)))) as -> by apply set_lookup.
    cbn [mbind option_bind]. rewrite parseInt_show'.
    unfold Count.duration_of. repeat (destruct (_ <? _) eqn:?; bool_to_prop; try lia); reflexivity.
Qed.
End Url.

(** ** Brushing the chart *)

(** A brush of a minute or more gives whole seconds inside of it, in their order; a shorter one
    gives about the minute around its middle. *)
Lemma brush_seconds (x0 x1 : Q) a b : (x0 <= x1)%Q -> Count.onBrushEnd (Some (x0, x1)) = Some (a, b) ->
  let t0 := (x0 / 1000)%Q in let t1 := (x1 / 1000)%Q in
  if Qltb (t1 - t0) 60 then 57 <= b - a <= 62 /\ (inject_Z a <= t1 + 30)%Q /\ (t0 - 30 <= inject_Z b)%Q
  else (t0 <= inject_Z a)%Q /\ (inject_Z b <= t1)%Q /\ a <= b.
Proof.
  intros Hx. unfold Count.onBrushEnd. cbv zeta. set (t0 := (x0 / 1000)%Q). set (t1 := (x1 / 1000)%Q).
  assert (t0 <= t1)%Q as Ht by (unfold t0, t1, Qdiv; apply Qmult_le_compat_r; [done|discriminate]).
  destruct (Qltb (t1 - t0) 60) eqn:E; intros Hab; apply (inj Some), pair_eq in Hab as [<- <-].
  - set (o := inject_Z (Qfloor ((t1 - t0) / 2))).
    pose proof (Qfloor_le ((t1 - t0) / 2)) as H1. pose proof (Qlt_floor ((t1 - t0) / 2)) as H2. rewrite inject_Z_plus in H2. fold o in H1, H2.
    pose proof (Qle_ceiling (t0 + o - 30)) as H3. pose proof (Qceiling_lt (t0 + o - 30)) as H4.
    pose proof (Qfloor_le (t1 - o + 30)) as H5. pose proof (Qlt_floor (t1 - o + 30)) as H6.
    rewrite inject_Z_plus in H6. unfold Z.sub in H4. rewrite inject_Z_plus in H4.
    set (a := Qceiling (t0 + o - 30)) in *. set (b := Qfloor (t1 - o + 30)) in *.
    assert ((t1 - t0) / 2 == (t1 - t0) * (1 # 2))%Q as Hh by (unfold Qdiv; reflexivity). rewrite Hh in H1, H2. clearbody a b o t0 t1.
    change (inject_Z 1) with 1%Q in *. change (inject_Z (- (1))) with (-1)%Q in *.
    split; [|split; lra].
    assert (inject_Z (a + 58) < inject_Z (b + 1))%Q by (rewrite !inject_Z_plus; change (inject_Z 58) with 58%Q; change (inject_Z 1) with 1%Q; lra).
    assert (inject_Z b < inject_Z (a + 62 + 1))%Q by (rewrite !inject_Z_plus; change (inject_Z 62) with 62%Q; change (inject_Z 1) with 1%Q; lra).
    rewrite <- !Zlt_Qlt in *. lia.
  - apply Qltb_false in E. pose proof (Qle_ceiling t0) as H3. pose proof (Qceiling_lt t0) as H4. pose proof (Qfloor_le t1) as H5. pose proof (Qlt_floor t1) as H6.
    rewrite inject_Z_plus in H6. unfold Z.sub in H4. rewrite inject_Z_plus in H4.
    change (inject_Z 1) with 1%Q in *. change (inject_Z (- (1))) with (-1)%Q in *. split_and!; [done|done|].
    rewrite Zle_Qle. lra.
Qed.

(** ** From a row to the list *)

Section Rows.
Context `{SearchParseLaws}.

Lemma row_link_params d q : Table.row_link d q = "/slow_query" +:+ String "?" (print_plain (Table.row_params d q)).
Proof.
  unfold Table.row_link, print_plain, Table.row_params. cbn [map js_join fst snd].
  change ("/slow_query?from=" +:+ ?u) with ("/slow_query" +:+ String "?" ("from=" +:+ u)).
  by rewrite <- !str_app_assoc.
Qed.

Lemma read_list_pieces v : read_list v <> [""] /\ Forall (fun s => has_char "," s = false) (read_list v).
Proof.
  destruct v as [s|]; [|by split]. cbn [read_list]. destruct (truthy s) eqn:Ht; [|by split]. split; [|apply js_split_pieces].
  intros Hs. pose proof (js_join_split "," s) as Hj. rewrite Hs in Hj. cbn in Hj. by subst s.
Qed.

(** The list that opens for a row of the top slow queries, in whatever tab, asks for the
    window of the page, for the digest of the row and for the databases that were chosen, and is
    otherwise as it is by default: the latest first, a hundred at most, without a text, groups or
    internal queries.  The names of the databases and the digest need no encoding. *)
Theorem top_row_opens_list (base d : string) (q : queryParams) (ev : Link.Mouse) (now : Z) (keys : list (string * bool)) :
  has_char "#" base = false -> plain d = true -> Forall (fun s => plain s = true) (TopSlowQuery.dbs q) ->
  let q' := Link.opened_params (Link.openLink base (Table.row_link d q) ev) in
  let '(b, e) := TopSlowQuery.tw q in
  QueryList.list_request now keys q' =
    QueryList.mkRequest (num_of_Z b) (TopSlowQuery.dbs q) true d (num_of_Z e)
      (QueryList.fields (QueryList.list_request now keys ∅)) (Some 100) "timestamp" [] [] "" false.
Proof.
  intros Hb Hd Hdb q'. destruct (TopSlowQuery.tw q) as [b e] eqn:Htw.
  assert (Hq : q' = list_to_map (Table.row_params d q)).
  { subst q'. rewrite row_link_params, opened_params_open; [done|done|done|repeat constructor; set_solver|].
    repeat constructor; cbn; try done; try apply show_plain. by apply plain_join. }
  clearbody q'. subst q'. unfold Table.row_params. rewrite Htw. cbn [fst snd].
  set (m := list_to_map _ : queryParams).
  assert (Hr : SlowQueryList.timeRange m = V1.Absolute (num_of_Z b, num_of_Z e)).
  { unfold SlowQueryList.timeRange, read_range. change (m !! "from") with (Some (show b)). change (m !! "to") with (Some (show e)).
    cbv beta iota. rewrite !(proj2 (truthy_string_spec _) (show_nonempty _)). cbn [andb]. unfold V1.urlToTimeRange. cbn [from to].
    rewrite decide_False by apply show_not_now. by rewrite !js_Number_show. }
  assert (Hdbs : SlowQueryList.dbs m = TopSlowQuery.dbs q).
  { unfold SlowQueryList.dbs. change (m !! "dbs") with (Some (js_join "," (TopSlowQuery.dbs q))). 
    destruct (read_list_pieces (q !! "dbs")). by apply (list_back ","). }
  assert (Hv : V1.toTimeRangeValue now (Some (V1.Absolute (num_of_Z b, num_of_Z e))) 0 = (num_of_Z b, num_of_Z e)).
  { unfold V1.toTimeRangeValue. cbn [default from_option id]. by rewrite !num_add_Z, !Z.add_0_r. }
  unfold QueryList.list_request. rewrite Hr, Hdbs, Hv. reflexivity.
Qed.

End Rows.

Lemma top_row_opens_list_witness :
  let q : queryParams := list_to_map [("tw", "100-200"); ("dbs", "a,b")] in
  let o := Link.openLink "http://h/" (Table.row_link "d1" q) (Link.mkMouse false false false false) in
  Link.search_of o = "from=100&to=200&digest=d1&dbs=a,b" /\
  QueryList.db (QueryList.list_request 7 [] (Link.opened_params o)) = ["a"; "b"].
Proof.
  intros q o. split; [vm_compute; reflexivity|].
  pose proof (top_row_opens_list "http://h/" "d1" q (Link.mkMouse false false false false) 7 [] eq_refl eq_refl) as Ht.
  assert (Forall (fun s => plain s = true) (TopSlowQuery.dbs q)) as Hq by (vm_compute; repeat constructor).
  specialize (Ht Hq). change (TopSlowQuery.tw q) with (100, 200) in Ht. cbv beta iota zeta in Ht.
  exact (f_equal QueryList.db Ht).
Defined.
