(* ===== verification/KeyVizPage.v ===== *)
(** * The page of the key visualizer (apps/KeyViz/components: KeyViz.tsx, KeyVizToolbar.tsx,
      KeyVizSettingForm.tsx)

    The page asks for the heat map of a range, the last hours or a part that was chosen in the
    chart, and of a metric, whenever one of them or the configuration changes.  Effects run after
    the events that change what they depend on, as React runs them; answers arrive in any
    order. *)

From Stdlib Require Import QArith Qround.
From S2P Require Import Prelude JsString JsNumber KeyVizAxis KeyVizChart.
Local Open Scope Z_scope.

Module Page.

(** What a request for a heat map asks for. *)
Record Fetch := mkFetch {
  startkey : option string; endkey : option string; starttime : option Z; endtime : option Z; type : string
}.

Record Config := mkConfig { auto_collection_disabled : option bool }.

(** What the request depends on.  A selection and a configuration are objects, of which two are
    the same only if one was made from the other: each has a number. *)
Record Inputs := mkInputs {
  config : option (nat * Config);
  selection : option (nat * HeatmapRange);
  dateRange : Z;
  metricType : string
}.

#[export] Instance HeatmapRange_eq_dec : EqDecision HeatmapRange.
Proof. solve_decision. Defined.
#[export] Instance Config_eq_dec : EqDecision Config.
Proof. solve_decision. Defined.
#[export] Instance Inputs_eq_dec : EqDecision Inputs.
Proof. solve_decision. Defined.

Record State := mkState {
  inputs : Inputs;
  chartState : option (HeatmapData * string);   (* the data drawn and its metric *)
  isLoading : bool;
  autoRefreshSeconds : Z;
  isOnBrush : bool;
  brightLevel : Q;
  shouldShowSettings : bool;
  chart : option (Q * bool);  (* the chart of the module: its brightness and whether it brushes *)
  fetches : list (Fetch * Inputs);  (* in flight, with what they were made from *)
  config_fetches : nat;             (* in flight *)
  objects : nat                     (* objects made so far *)
}.
Implicit Types s : State.

Definition set_inputs (i : Inputs) s : State :=
  mkState i (chartState s) (isLoading s) (autoRefreshSeconds s) (isOnBrush s) (brightLevel s) (shouldShowSettings s)
    (chart s) (fetches s) (config_fetches s) (objects s).
Definition set_chartState (d : HeatmapData * string) s : State :=
  mkState (inputs s) (Some d) (isLoading s) (autoRefreshSeconds s) (isOnBrush s) (brightLevel s) (shouldShowSettings s)
    (chart s) (fetches s) (config_fetches s) (objects s).
Definition setLoading (b : bool) s : State :=
  mkState (inputs s) (chartState s) b (autoRefreshSeconds s) (isOnBrush s) (brightLevel s) (shouldShowSettings s)
    (chart s) (fetches s) (config_fetches s) (objects s).
Definition setAutoRefreshSeconds (n : Z) s : State :=
  mkState (inputs s) (chartState s) (isLoading s) n (isOnBrush s) (brightLevel s) (shouldShowSettings s)
    (chart s) (fetches s) (config_fetches s) (objects s).
Definition setOnBrush (b : bool) s : State :=
  mkState (inputs s) (chartState s) (isLoading s) (autoRefreshSeconds s) b (brightLevel s) (shouldShowSettings s)
    (chart s) (fetches s) (config_fetches s) (objects s).
Definition setBrightLevel (q : Q) s : State :=
  mkState (inputs s) (chartState s) (isLoading s) (autoRefreshSeconds s) (isOnBrush s) q (shouldShowSettings s)
    (chart s) (fetches s) (config_fetches s) (objects s).
Definition setSettings (b : bool) s : State :=
  mkState (inputs s) (chartState s) (isLoading s) (autoRefreshSeconds s) (isOnBrush s) (brightLevel s) b
    (chart s) (fetches s) (config_fetches s) (objects s).
Definition set_chart (c : option (Q * bool)) s : State :=
  mkState (inputs s) (chartState s) (isLoading s) (autoRefreshSeconds s) (isOnBrush s) (brightLevel s) (shouldShowSettings s)
    c (fetches s) (config_fetches s) (objects s).
Definition set_fetches (l : list (Fetch * Inputs)) s : State :=
  mkState (inputs s) (chartState s) (isLoading s) (autoRefreshSeconds s) (isOnBrush s) (brightLevel s) (shouldShowSettings s)
    (chart s) l (config_fetches s) (objects s).
Definition set_config_fetches (n : nat) s : State :=
  mkState (inputs s) (chartState s) (isLoading s) (autoRefreshSeconds s) (isOnBrush s) (brightLevel s) (shouldShowSettings s)
    (chart s) (fetches s) n (objects s).
Definition new_object s : State :=
  mkState (inputs s) (chartState s) (isLoading s) (autoRefreshSeconds s) (isOnBrush s) (brightLevel s) (shouldShowSettings s)
    (chart s) (fetches s) (config_fetches s) (S (objects s)).

Definition setSelection (r : option (nat * HeatmapRange)) s : State :=
  let i := inputs s in set_inputs (mkInputs (config i) r (dateRange i) (metricType i)) s.
Definition setDateRange (n : Z) s : State :=
  let i := inputs s in set_inputs (mkInputs (config i) (selection i) n (metricType i)) s.
Definition setMetricType (m : string) s : State :=
  let i := inputs s in set_inputs (mkInputs (config i) (selection i) (dateRange i) m) s.
Definition setConfig (c : Config) s : State :=
  let i := inputs s in new_object (set_inputs (mkInputs (Some (objects s, c)) (selection i) (dateRange i) (metricType i)) s).

(** [config?.auto_collection_disabled !== true] *)
Definition enabled (i : Inputs) : bool :=
  match config i with Some (_, c) => negb (bool_decide (auto_collection_disabled c = Some true)) | None => true end.

Section Handlers.
(** [showSetting] of the context; the time in milliseconds is an argument. *)
Context (showSetting : option bool).

(** ** Requests *)

Definition updateServiceStatus s : State :=
  match showSetting with Some false => s | _ => set_config_fetches (S (config_fetches s)) (setLoading true s) end.

Definition range_of (now : Z) (i : Inputs) : Fetch :=
  match selection i with
  | Some (_, r) => mkFetch (Some (KeyVizChart.startkey r)) (Some (KeyVizChart.endkey r))
      (KeyVizChart.starttime r) (KeyVizChart.endtime r) (metricType i)
  | None =>
      let endTime := Qceiling (now # 1000) in
      mkFetch None None (Some (endTime - dateRange i)) (Some endTime) (metricType i)
  end.

Definition updateHeatmap (now : Z) s : State :=
  let s := setOnBrush false (setLoading true s) in
  set_fetches (fetches s ++ [(range_of now (inputs s), inputs s)]) s.

(** The rest, for the request at place [i]; the axis of the keys is turned round. *)
Definition heatmap_response (i : nat) (r : option HeatmapData) s : State :=
  match fetches s !! i with
  | None => s
  | Some (f, _) =>
      let s := set_fetches (delete i (fetches s)) s in
      setLoading false (match r with Some d => set_chartState (reverse d, type f) s | None => s end)
  end.

(** ** Effects *)

Definition onResetZoom s : State := setSelection None s.

Definition refreshEffect (old s : State) : State :=
  if negb (bool_decide (autoRefreshSeconds old = autoRefreshSeconds s)) && (0 <? autoRefreshSeconds s)
  then setOnBrush false (onResetZoom s) else s.

(** The effect of the inputs [i] that were drawn before, those drawn now being [j]. *)
Definition inputsEffect (now : Z) (i j : Inputs) s : State :=
  if negb (bool_decide (i = j)) && enabled j then updateHeatmap now s else s.

(** The effects after a change from [old]: those of the first drawing, and of another one if
    these changed the inputs again. *)
Definition commit (now : Z) (old s : State) : State :=
  let s1 := refreshEffect old s in
  let s2 := inputsEffect now (inputs old) (inputs s) s1 in
  inputsEffect now (inputs s) (inputs s2) s2.

(** ** The page, as it is mounted; [left] is the chart of a former visit. *)

Definition new (left : option (Q * bool)) : State :=
  mkState (mkInputs None None (3600 * 6) "written_bytes") None true 0 false 1 false left [] 0 0.

Definition mount (now : Z) (left : option (Q * bool)) : State :=
  let s := updateServiceStatus (new left) in
  if enabled (inputs s) then updateHeatmap now s else s.

(** Both states are set before the effects of the new configuration run. *)
Definition config_response (now : Z) (r : option Config) s : State :=
  let s := set_config_fetches (Nat.pred (config_fetches s)) s in
  match r with
  | Some c => commit now s (setLoading false (setConfig c s))
  | None => setLoading false s
  end.

(** ** Events *)

Definition onChangeBrightLevel (v : Q) s : State :=
  match chart s with Some (_, b) => set_chart (Some (v, b)) (setBrightLevel v s) | None => s end.

Definition onChangeDateRange (v : Z) s : State := setSelection None (setDateRange v s).

(** Without a chart the call of its method throws, after the state was set. *)
Definition onToggleBrush s : State :=
  let newOnBrush := negb (isOnBrush s) in
  let s := setOnBrush newOnBrush (setAutoRefreshSeconds 0 s) in
  match chart s with Some (q, _) => set_chart (Some (q, newOnBrush)) s | None => s end.

(** The chart ends a brush: it does not brush any more. *)
Definition onBrush (r : HeatmapRange) s : State :=
  let s := match chart s with Some (q, _) => set_chart (Some (q, false)) s | None => s end in
  new_object (setSelection (Some (objects s, r)) (setAutoRefreshSeconds 0 (setOnBrush false s))).

Definition onZoom s : State := setAutoRefreshSeconds 0 s.

(** A new chart, which does not brush. *)
Definition onChartInit s : State := set_chart (Some (brightLevel s, false)) (setLoading false s).

Inductive Event :=
| Bright (v : Q) | DateRange (v : Z) | Metric (m : string) | ResetZoom | ToggleBrush | Brush (r : HeatmapRange) | Zoom
| ChartInit | AutoRefresh (n : Z) | OpenSettings | CloseSettings.

Definition handler (e : Event) s : State :=
  match e with
  | Bright v => onChangeBrightLevel v s
  | DateRange v => onChangeDateRange v s
  | Metric m => setMetricType m s
  | ResetZoom => onResetZoom s
  | ToggleBrush => onToggleBrush s
  | Brush r => onBrush r s
  | Zoom => onZoom s
  | ChartInit => onChartInit s
  | AutoRefresh n => setAutoRefreshSeconds n s
  | OpenSettings => setSettings true s
  | CloseSettings => setSettings false s
  end.

Definition handle (now : Z) (e : Event) s : State := commit now s (handler e s).

(** What is below the toolbar. *)
Inductive Main := Nothing | Disabled | HeatmapOf (d : HeatmapData) (tag : string).

Definition mainPart s : Main :=
  if enabled (inputs s) then match chartState s with Some (d, m) => HeatmapOf d m | None => Nothing end
  else if isLoading s then Nothing else Disabled.

(** ** Runs.  [backend] is what the server answers. *)
Context (backend : Fetch -> HeatmapData -> Prop).

Definition answers (s : State) (i : nat) (r : option HeatmapData) : Prop :=
  forall f x d, fetches s !! i = Some (f, x) -> r = Some d -> backend f d.

Inductive step : State -> State -> Prop :=
| s_event s now e : step s (handle now e s)
| s_refresh s now : enabled (inputs s) = true -> step s (updateHeatmap now s)
| s_answer s i r : answers s i r -> step s (heatmap_response i r s)
| s_config s now r : (0 < config_fetches s)%nat -> step s (config_response now r s)
| s_updated s : step s (updateServiceStatus s).

(** What is asked for changes only while no heat map is, and every answer is one. *)
Inductive step_quiet : State -> State -> Prop :=
| q_event s now e : fetches s = [] \/ inputs (handle now e s) = inputs s -> step_quiet s (handle now e s)
| q_refresh s now : enabled (inputs s) = true -> step_quiet s (updateHeatmap now s)
| q_answer s i d : answers s i (Some d) -> step_quiet s (heatmap_response i (Some d) s)
| q_config s now r : (0 < config_fetches s)%nat -> step_quiet s (config_response now r s)
| q_updated s : step_quiet s (updateServiceStatus s).
End Handlers.

(** What two inputs ask for is the same but for the time. *)
Definition same_key (i j : Inputs) : Prop :=
  snd <$> selection i = snd <$> selection j /\ dateRange i = dateRange j /\ metricType i = metricType j.
End Page.

(** ** The toolbar *)

Module Toolbar.
(** In hours; the value of an option is in seconds. *)
Definition dateRangeOptions : list Z := [1; 6; 12; 24; 24 * 7].
Definition dateRangeValues : list Z := map (fun hour => hour * 60 * 60) dateRangeOptions.

(** The names of the translations, with the values. *)
Definition MetricOptions : list (string * string) :=
  [("read_bytes", "read_bytes"); ("write_bytes", "written_bytes"); ("read_keys", "read_keys");
   ("write_keys", "written_keys"); ("all", "integration")].

(** The position of the slider, beside the page. *)
Record State := mkState { exp : Q; page : Page.State }.

(** [pow2] is [Math.pow(2, exp)]. *)
Definition handleBrightLevel (pow2 : Q -> Q) (now : Z) (exp_ : Q) (s : State) : State :=
  mkState exp_ (Page.handle now (Page.Bright (pow2 exp_)) (page s)).

(** The menu opens or closes. *)
Definition handleBrightnessDropdown (pow2 : Q -> Q) (now : Z) (s : State) : State := handleBrightLevel pow2 now (exp s) s.

(** The button that refreshes is disabled without the service and while the page loads. *)
Definition refreshDisabled (s : Page.State) : bool := negb (Page.enabled (Page.inputs s)) || Page.isLoading s.
End Toolbar.

(** ** The form of the settings *)

Module Settings.
Record Values := mkValues { auto_collection_disabled : option bool; policy : option string; policy_kv_separator : option string }.

(** Which field was changed, to what. *)
Inductive Change := ToDisabled (b : bool) | ToPolicy (p : string) | ToSeparator (s : string).

Definition change (c : Change) (v : Values) : Values :=
  match c with
  | ToDisabled b => mkValues (Some b) (policy v) (policy_kv_separator v)
  | ToPolicy p => mkValues (auto_collection_disabled v) (Some p) (policy_kv_separator v)
  | ToSeparator s => mkValues (auto_collection_disabled v) (policy v) (Some s)
  end.

(** The switch shows the opposite of its field. *)
Definition switch_checked (v : option bool) : bool := negb (bool_decide (v = Some true)).
Definition switch_changed (checked : bool) : Change := ToDisabled (negb checked).

(** [values] are those after the change. *)
Definition onValuesChange (config : Values) (c : Change) (values : Values) : Values :=
  let v1 := if negb (match c with ToDisabled true => true | _ => false end) && negb (truthy (policy values))
            then mkValues (auto_collection_disabled values) (Some "db") (policy_kv_separator values) else values in
  if negb (bool_decide (policy config = Some "kv")) && (match c with ToPolicy p => String.eqb p "kv" | _ => false end) &&
     negb (truthy (policy_kv_separator values))
  then mkValues (auto_collection_disabled v1) (policy v1) (Some "/") else v1.

Definition edit (config : Values) (c : Change) (v : Values) : Values := onValuesChange config c (change c v).

Definition separatorWarns (v : option string) : bool := negb (truthy v).

Inductive Submitted := Asks (values : Values) | Puts (values : Values).

(** Turning the service off is asked for first. *)
Definition onSubmit (config values : Values) : Submitted :=
  if negb (bool_decide (auto_collection_disabled config = Some true)) && bool_decide (auto_collection_disabled values = Some true)
  then Asks values else Puts values.

(** After the request: the drawer is closed and the page asks for the configuration, or the
    form only stops submitting. *)
Definition updated (showSetting : option bool) (now : Z) (ok : bool) (s : Page.State) : Page.State :=
  if ok then Page.updateServiceStatus showSetting (Page.handle now Page.CloseSettings s) else s.
End Settings.

(** ** What the page shows *)

Section Facts.
Context (showSetting : option bool) (backend : Page.Fetch -> HeatmapData -> Prop).
Import Page.
Implicit Types (s : State) (i j : Inputs).

#[local] Abbreviation step := (Page.step showSetting backend).
#[local] Abbreviation step_quiet := (Page.step_quiet showSetting backend).

(** *** Refreshing by itself is for the latest hours only *)

Definition refresh_ok s : Prop := 0 < autoRefreshSeconds s -> selection (inputs s) = None /\ isOnBrush s = false.

Lemma inputsEffect_cases now i j s : inputsEffect now i j s = s \/ inputsEffect now i j s = updateHeatmap now s.
Proof. unfold inputsEffect. destruct (_ && _); auto. Qed.

Lemma update_refresh now s : refresh_ok s -> refresh_ok (updateHeatmap now s).
Proof. unfold refresh_ok. cbn. naive_solver. Qed.

Lemma inputsEffect_refresh now i j s : refresh_ok s -> refresh_ok (inputsEffect now i j s).
Proof. destruct (inputsEffect_cases now i j s) as [->| ->]; auto using update_refresh. Qed.

Lemma commit_refresh now old s : refresh_ok (refreshEffect old s) -> refresh_ok (commit now old s).
Proof. intros H. unfold commit. by apply inputsEffect_refresh, inputsEffect_refresh. Qed.

Lemma refreshEffect_ok old s : (autoRefreshSeconds s = autoRefreshSeconds old -> refresh_ok s) -> refresh_ok (refreshEffect old s).
Proof.
  intros H. unfold refreshEffect. case_bool_decide as Hc; cbn [negb andb]; [by apply H|].
  destruct (0 <? autoRefreshSeconds s) eqn:Hz; [done|]. unfold refresh_ok. js_lia.
Qed.

Lemma step_refresh s s' : step s s' -> refresh_ok s -> refresh_ok s'.
Proof.
  intros Hs Hr. destruct Hs as [s now e|s now _|s i r _|s now r _|s].
  - apply commit_refresh, refreshEffect_ok. intros He. destruct e; try exact Hr; cbn in He |- *; unfold refresh_ok in *; cbn; try naive_solver lia.
    + unfold onChangeBrightLevel. by destruct (chart s) as [[]|].
    + unfold onToggleBrush. cbn. destruct (chart s) as [[]|]; cbn; intros; exfalso; lia.
  - by apply update_refresh.
  - unfold heatmap_response. destruct (fetches s !! i) as [[f x]|]; [|done]. by destruct r.
  - unfold config_response. destruct r as [c|]; [|done]. apply commit_refresh, refreshEffect_ok. done.
  - unfold updateServiceStatus. by destruct showSetting as [[]|].
Qed.

(** *** What is drawn was asked for *)

Definition made (x : Fetch * Inputs) : Prop := exists n, fst x = range_of n (snd x).

Definition shown_ok s : Prop :=
  Forall made (fetches s) /\ forall d m, chartState s = Some (d, m) -> exists f d', backend f d' /\ d = reverse d' /\ type f = m.

Lemma shown_same s s' : fetches s' = fetches s -> chartState s' = chartState s -> shown_ok s -> shown_ok s'.
Proof. unfold shown_ok. by intros -> ->. Qed.

Lemma update_shown now s : shown_ok s -> shown_ok (updateHeatmap now s).
Proof.
  intros [Hf Hd]. split; [|exact Hd]. cbn. apply Forall_app. split; [done|]. apply Forall_singleton. by exists now.
Qed.

Lemma handler_fetches e s : fetches (handler e s) = fetches s /\ chartState (handler e s) = chartState s.
Proof.
  destruct e; cbn; try done; [unfold onChangeBrightLevel|unfold onToggleBrush|unfold onBrush]; cbn; by destruct (chart s) as [[]|].
Qed.

Lemma refreshEffect_fetches old s :
  fetches (refreshEffect old s) = fetches s /\ chartState (refreshEffect old s) = chartState s.
Proof. unfold refreshEffect. by destruct (_ && _). Qed.

Lemma inputsEffect_shown now i j s : shown_ok s -> shown_ok (inputsEffect now i j s).
Proof. destruct (inputsEffect_cases now i j s) as [->| ->]; auto using update_shown. Qed.

Lemma commit_shown now old s : shown_ok s -> shown_ok (commit now old s).
Proof.
  intros H. unfold commit. apply inputsEffect_shown, inputsEffect_shown.
  destruct (refreshEffect_fetches old s). by apply (shown_same s).
Qed.

Lemma step_shown s s' : step s s' -> shown_ok s -> shown_ok s'.
Proof.
  intros Hs Hr. destruct Hs as [s now e|s now _|s i r Ha|s now r _|s].
  - apply commit_shown. destruct (handler_fetches e s). by apply (shown_same s).
  - by apply update_shown.
  - unfold heatmap_response. destruct (fetches s !! i) as [[f x]|] eqn:Hi; [|done]. destruct Hr as [Hf Hd].
    split; [destruct r; cbn; by apply Forall_delete|]. destruct r as [d|]; cbn; [|exact Hd].
    intros d0 m [= <- <-]. exists f, d. split_and!; [|done|done]. by apply (Ha f x d Hi).
  - unfold config_response. destruct r as [c|]; [apply commit_shown|]; by apply (shown_same s).
  - unfold updateServiceStatus. by destruct showSetting as [[]|].
Qed.

(** *** At rest what is drawn is what the page says *)

Lemma range_same n i j : same_key i j -> range_of n i = range_of n j.
Proof.
  intros (Hs & Hd & Hm). unfold range_of. rewrite Hd, Hm. destruct (selection i) as [[a r]|], (selection j) as [[b r']|]; try done.
  by injection Hs as ->.
Qed.

Lemma same_refl i : same_key i i.
Proof. done. Qed.

Lemma same_trans i j k : same_key i j -> same_key j k -> same_key i k.
Proof. unfold same_key. intuition congruence. Qed.

Definition current s : Prop :=
  exists d n, chartState s = Some (reverse d, metricType (inputs s)) /\ backend (range_of n (inputs s)) d.

Definition quiet_ok s : Prop :=
  Forall (fun x => same_key (snd x) (inputs s)) (fetches s) /\ Forall made (fetches s) /\
  (enabled (inputs s) = true -> fetches s <> [] \/ current s).

Lemma current_same s s' : same_key (inputs s) (inputs s') -> chartState s' = chartState s -> current s -> current s'.
Proof.
  intros Hk Hc (d & n & Hd & Hb). exists d, n. rewrite Hc, Hd, <- (range_same n _ _ Hk). destruct Hk as (_ & _ & ->). by split.
Qed.

(** A request made for the inputs on the page. *)
Lemma update_quiet now s : Forall (fun x => same_key (snd x) (inputs s)) (fetches s) -> Forall made (fetches s) ->
  quiet_ok (updateHeatmap now s).
Proof.
  intros Hf Hm. split_and!; cbn.
  - apply Forall_app. split; [done|]. by apply Forall_singleton.
  - apply Forall_app. split; [done|]. apply Forall_singleton. by exists now.
  - intros _. left. by destruct (fetches s).
Qed.

Lemma quiet_same s s' : inputs s' = inputs s -> fetches s' = fetches s -> chartState s' = chartState s -> quiet_ok s -> quiet_ok s'.
Proof. unfold quiet_ok, current. by intros -> -> ->. Qed.

(** The effects run with nothing in flight, or for inputs that ask for the same. *)
Lemma inputsEffect_quiet now i s : Forall (fun x => same_key (snd x) (inputs s)) (fetches s) -> Forall made (fetches s) ->
  (enabled (inputs s) = true -> i = inputs s -> fetches s <> [] \/ current s) ->
  quiet_ok (inputsEffect now i (inputs s) s).
Proof.
  intros Hf Hm He. unfold inputsEffect. case_bool_decide as Hi; cbn [negb andb].
  - split_and!; auto.
  - destruct (enabled (inputs s)) eqn:Hen; [by apply update_quiet|]. split_and!; [done|done|]. congruence.
Qed.

Lemma refreshEffect_inputs old s : enabled (inputs (refreshEffect old s)) = enabled (inputs s).
Proof. unfold refreshEffect. by destruct (_ && _). Qed.

Lemma commit_quiet now old s : quiet_ok old -> fetches s = fetches old -> chartState s = chartState old ->
  fetches old = [] \/ same_key (inputs old) (inputs (refreshEffect old s)) -> quiet_ok (commit now old s).
Proof.
  intros (Hf & Hm & He) Efs Ecs Hk. destruct (refreshEffect_fetches old s) as [F1 C1].
  pose proof (refreshEffect_inputs old s) as En. unfold commit. set (s1 := refreshEffect old s) in *. clearbody s1.
  assert (Forall (fun x => same_key (snd x) (inputs s1)) (fetches s1)) as Hf1.
  { rewrite F1, Efs. destruct Hk as [->|Hk]; [constructor|]. eapply Forall_impl; [exact Hf|]. intros x Hx. exact (same_trans _ _ _ Hx Hk). }
  assert (Forall made (fetches s1)) as Hm1 by (by rewrite F1, Efs).
  assert (Hsame : inputs old = inputs s -> inputs s = inputs s1 -> enabled (inputs s1) = true -> fetches s1 <> [] \/ current s1).
  { intros E1 E2 E3. rewrite F1, Efs. rewrite <- E2, <- E1 in E3. destruct (He E3) as [Hn|Hc]; [by left|right].
    apply (current_same old); [rewrite E1, E2; apply same_refl|congruence|done]. }
  destruct (inputsEffect_cases now (inputs old) (inputs s) s1) as [E| E].
  - rewrite E. apply inputsEffect_quiet; [done|done|]. intros Hen Hs. apply Hsame; [|done|done].
    unfold inputsEffect in E. rewrite <- En, Hen, andb_true_r in E. case_bool_decide as Hi; [done|]. cbn in E.
    apply (f_equal fetches) in E. cbn in E. apply (f_equal length) in E. rewrite length_app in E. cbn in E. lia.
  - rewrite E. pose proof (update_quiet now s1 Hf1 Hm1) as (Q1 & Q2 & Q3).
    apply inputsEffect_quiet; [done|done|]. intros _ _. left. cbn. by destruct (fetches s1).
Qed.

Lemma map_quiet_step s s' : step_quiet s s' -> quiet_ok s -> quiet_ok s'.
Proof.
  intros Hs Hq. destruct Hs as [s now e Hk|s now _|s i d Ha|s now r _|s].
  - destruct (handler_fetches e s) as [E1 E2]. apply commit_quiet; [done|done|done|]. destruct Hk as [Hk|Hk]; [by left|right].
    rewrite <- Hk. unfold handle, commit. set (s1 := refreshEffect s (handler e s)).
    assert (Hu : forall n i j q, inputs (inputsEffect n i j q) = inputs q) by (intros; unfold inputsEffect; by destruct (_ && _)).
    rewrite !Hu. apply same_refl.
  - destruct Hq as (Hf & Hm & _). by apply update_quiet.
  - unfold heatmap_response. destruct (fetches s !! i) as [[f x]|] eqn:Hi; [|done]. destruct Hq as (Hf & Hm & He).
    pose proof (proj1 (Forall_lookup _ _) Hf i _ Hi) as Hx. pose proof (proj1 (Forall_lookup _ _) Hm i _ Hi) as [n Hn].
    cbn in Hx, Hn. split_and!; [by apply Forall_delete..|]. intros _. right. exists d, n. split.
    + cbn. rewrite Hn. destruct Hx as (_ & _ & <-). unfold range_of. by destruct (selection x) as [[]|].
    + cbn. rewrite <- (range_same n _ _ Hx), <- Hn. by apply (Ha f x d Hi).
  - unfold config_response. destruct r as [c|]; [|by apply (quiet_same s)].
    apply commit_quiet; [by apply (quiet_same s)|done|done|]. right. unfold refreshEffect. cbn.
    rewrite bool_decide_eq_true_2 by done. cbn. by split_and!.
  - unfold updateServiceStatus. destruct showSetting as [[]|]; by apply (quiet_same s).
Qed.
End Facts.

Section Properties.
Context (showSetting : option bool) (backend : Page.Fetch -> HeatmapData -> Prop).
Import Page.

(** C31: what the page of the key visualizer draws is always an answer to a request for the metric
    it is drawn as, and it refreshes by itself only while no part of the map is chosen.  As long as
    what is asked for changes only while no map is in flight and no request fails, a page at rest
    draws an answer for the metric and for the part or the hours the toolbar says. *)
Theorem map_as_asked (now : Z) (left : option (Q * bool)) (s : State) :
  (rtc (step showSetting backend) (mount showSetting now left) s ->
     (0 < autoRefreshSeconds s -> selection (inputs s) = None /\ isOnBrush s = false) /\
     forall d m, chartState s = Some (d, m) -> exists f d', backend f d' /\ d = reverse d' /\ type f = m) /\
  (rtc (step_quiet showSetting backend) (mount showSetting now left) s ->
     fetches s = [] -> enabled (inputs s) = true ->
     exists d n, mainPart s = HeatmapOf (reverse d) (metricType (inputs s)) /\ backend (range_of n (inputs s)) d).
Proof.
  split.
  - intros Hs. assert (Hi : refresh_ok (mount showSetting now left) /\ shown_ok backend (mount showSetting now left)).
    { unfold mount, updateServiceStatus. destruct showSetting as [[]|]; (split; [intros ?; cbn in *; lia|]); apply update_shown; by split. }
    assert (refresh_ok s /\ shown_ok backend s) as (? & _ & ?); [|done].
    induction Hs as [|p q r Hpq _ IH]; [done|]. destruct Hi. apply IH. split; [by eapply step_refresh|by eapply step_shown].
  - intros Hs Hf He. assert (Hi : quiet_ok backend (mount showSetting now left)).
    { unfold mount, updateServiceStatus. destruct showSetting as [[]|]; by apply update_quiet. }
    assert (quiet_ok backend s) as (_ & _ & Hc).
    { clear Hf He. induction Hs as [|p q r Hpq _ IH]; [done|]. apply IH. by eapply map_quiet_step. }
    destruct (Hc He) as [Hn|(d & n & Hd & Hb)]; [done|]. exists d, n. split; [|done]. unfold mainPart. by rewrite He, Hd.
Qed.
End Properties.

Section Samples.
Import Page.
Definition map_of (n : Z) : HeatmapData := mkHeatmap [n] [] [].

Lemma map_as_asked_witness :
  let backend f d := type f = "written_bytes" /\ d = map_of 7 in
  let s := heatmap_response 0 (Some (map_of 7)) (mount (Some false) 5000 None) in
  exists d n, mainPart s = HeatmapOf (reverse d) "written_bytes" /\ backend (range_of n (inputs s)) d.
Proof.
  intros backend s. apply (map_as_asked (Some false) backend 5000 None s); [|reflexivity|reflexivity].
  apply rtc_once. apply (q_answer (Some false) backend (mount (Some false) 5000 None) 0 (map_of 7)).
  intros f x d [= <- <-] [= <-]. by split.
Defined.

(** The metric is changed before the first answer; the second request is answered first. *)
Lemma late_map_shown :
  let s := heatmap_response 0 (Some (map_of 1)) (heatmap_response 1 (Some (map_of 2))
    (handle 6000 (Metric "read_keys") (mount (Some false) 5000 None))) in
  metricType (inputs s) = "read_keys" /\ mainPart s = HeatmapOf (map_of 1) "written_bytes" /\
  fetches s = [] /\ isLoading s = false.
Proof. vm_compute. repeat split. Qed.

(** A refresh while a part is being chosen: the button says that nothing is, the chart goes on,
    and when the request fails it stays like that. *)
Lemma brush_out_of_step :
  let s := handle 5000 ChartInit (heatmap_response 0 (Some (map_of 1)) (mount (Some false) 5000 None)) in
  let s := heatmap_response 0 None (updateHeatmap 6000 (handle 5500 ToggleBrush s)) in
  isOnBrush s = false /\ chart s = Some (1%Q, true).
Proof. vm_compute. by split. Qed.
End Samples.

(** The service is never turned off without a question, and a form whose service is on and that
    was edited has a policy. *)
Lemma settings_safe (config values : Settings.Values) :
  (Settings.onSubmit config values = Settings.Puts values -> Settings.auto_collection_disabled values = Some true ->
   Settings.auto_collection_disabled config = Some true) /\
  (forall c, c <> Settings.ToDisabled true -> truthy (Settings.policy (Settings.edit config c values)) = true).
Proof.
  split.
  - unfold Settings.onSubmit. do 2 case_bool_decide; done.
  - intros c Hc. unfold Settings.edit, Settings.onValuesChange.
    assert (Hd : (match c with Settings.ToDisabled true => true | _ => false end) = false) by (destruct c as [[]| |]; done).
    rewrite Hd. cbn [negb andb]. destruct (truthy (Settings.policy (Settings.change c values))) eqn:E; cbn [negb];
      destruct (_ && _); cbn [Settings.policy]; exact E || reflexivity.
Qed.

(** Nothing runs when nothing that effects depend on has changed. *)
Lemma commit_same now (old s : Page.State) : Page.inputs s = Page.inputs old ->
  Page.autoRefreshSeconds s = Page.autoRefreshSeconds old -> Page.commit now old s = s.
Proof.
  intros Hi Ha. assert (He : forall i q, Page.inputsEffect now i i q = q).
  { intros i q. unfold Page.inputsEffect. by rewrite bool_decide_eq_true_2. }
  unfold Page.commit, Page.refreshEffect. rewrite Ha, (bool_decide_eq_true_2 (Page.autoRefreshSeconds old = _)) by done.
  cbn [negb andb]. by rewrite Hi, !He, Hi, He.
Qed.

(** When the menu of the brightness opens the chart has the brightness of the slider. *)
Lemma brightness_in_step pow2 now s : Page.chart (Toolbar.page s) <> None ->
  let s' := Toolbar.handleBrightnessDropdown pow2 now s in
  fst <$> Page.chart (Toolbar.page s') = Some (pow2 (Toolbar.exp s)) /\
  Page.brightLevel (Toolbar.page s') = pow2 (Toolbar.exp s).
Proof.
  intros Hc s'. subst s'. unfold Toolbar.handleBrightnessDropdown, Toolbar.handleBrightLevel, Page.handle. cbn [Toolbar.page Page.handler].
  rewrite commit_same; unfold Page.onChangeBrightLevel; by destruct (Page.chart (Toolbar.page s)) as [[q b]|].
Qed.
