(* ===== verification/Configuration.v ===== *)
(** * The configuration page (apps/Configuration: index.tsx, InlineEditor.tsx)

    A table of the configuration of the cluster in four groups, with a filter, whose
    editable values are changed in place.  Module [Editor] is one value's editor, Module
    [Table] the rows and groups, Module [Page] the page: it asks for the configuration through
    [ClientRequest], again after every change, while several changes can be on their way. *)

From Stdlib Require Import Ascii.
From S2P Require Import Prelude JsString JsNumber ClientRequest.
Local Open Scope Z_scope.

(** ** Values *)

(** A value of the answer, which is JSON; of those that are no text, number or truth value
    (lists, objects, null, a missing field) only the text [String(v)] makes of them matters. *)
Inductive Value := VStr (s : string) | VNum (n : num) | VBool (b : bool) | VOther (shown : string).

Definition js_String (v : Value) : string :=
  match v with
  | VStr s => s
  | VNum n => num_show n
  | VBool b => if b then "true" else "false"
  | VOther s => s
  end.

Module Editor.
(** None: it throws. *)
Definition valueWithSameType (newValue : string) (oldValue : Value) : option Value :=
  match oldValue with
  | VStr _ => Some (VStr newValue)
  | VNum _ =>
      let v := js_Number newValue in
      if isNaN v then None else Some (VNum v)
  | VBool _ =>
      let s := js_trim (js_toLowerCase newValue) in
      if bool_decide (s ∈ ["true"; "yes"; "1"]) then Some (VBool true)
      else if bool_decide (s ∈ ["false"; "no"; "0"]) then Some (VBool false)
      else None
  | VOther _ => Some (VStr newValue)
  end.

Record State := mkState { isVisible : bool; inputVal : string; isPosting : bool }.

Definition mount (displayValue : string) : State := mkState false displayValue false.

Definition setIsVisible (b : bool) (s : State) : State := mkState b (inputVal s) (isPosting s).
Definition setInputVal (t : string) (s : State) : State := mkState (isVisible s) t (isPosting s).
Definition setIsPosting (b : bool) (s : State) : State := mkState (isVisible s) (inputVal s) b.

Definition handleCancel (displayValue : string) (s : State) : State :=
  setInputVal displayValue (setIsVisible false s).

(** The effect that runs when [displayValue] was another one. *)
Definition displayEffect (old displayValue : string) (s : State) : State :=
  if bool_decide (old = displayValue) then s else setInputVal displayValue s.

(** [handleSave] up to the call of [onSave], with the value it is called with. *)
Definition handleSave (onSave : bool) (value : Value) (displayValue : string) (s : State) : State * option Value :=
  if negb onSave then (setIsVisible false s, None)
  else
    let s := setIsPosting true s in
    match valueWithSameType (inputVal s) value with
    | Some v => (s, Some v)
    | None => (setIsPosting false (setIsVisible false (setInputVal displayValue s)), None)
    end.

(** The rest, with the result of [onSave]; [displayValue] is the one of the render the button
    was clicked in. *)
Definition handleSaved (r : option bool) (displayValue : string) (s : State) : State :=
  setIsPosting false
    (match r with
     | Some false => setInputVal displayValue s
     | _ => setIsVisible false s
     end).
End Editor.

(** ** The table *)

Record Item := mkItem {
  id : option string; is_editable : option bool; is_multi_value : option bool; value : Value
}.
Record Config := mkConfig { errors : option (list string); items : option (gmap string (list Item)) }.
Record Row := mkRow { kind : string; item : Item }.

(** What the page renders for a value. *)
Inductive Cell := Multiple (text : string) | Plain (text : string) | Editable (text : string) (title : option string).

Definition Value_cell (i : Item) : Cell :=
  let stringValue := js_String (value i) in
  if default false (is_multi_value i) then Multiple stringValue
  else if negb (default false (is_editable i)) then Plain stringValue
  else Editable stringValue (id i).

Definition has_editor (r : Row) : bool := match Value_cell (item r) with Editable _ _ => true | _ => false end.
Definition display (r : Row) : string := js_String (value (item r)).

Module Table.
Definition getKey (r : Row) : string := kind r +:+ "." +:+ default "undefined" (id (item r)).

(** [isCollapsed] is the field that DetailsList adds to the group. *)
Record Group := mkGroup { key : string; name : string; startIndex : Z; count : Z; isCollapsed : option bool }.

Global Instance Group_eq_dec : EqDecision Group.
Proof. solve_decision. Defined.

Definition kinds : list string := ["tidb_variable"; "pd_config"; "tikv_config"; "tidb_config"].

(** Whether an item is kept; an item without a name is, whatever is searched for, since
    [undefined === -1] is false. *)
Definition keeps (debouncedFilterValue : string) (i : Item) : bool :=
  negb (truthy debouncedFilterValue) ||
  negb ((match id i with Some n => negb (js_includes (js_toLowerCase n) debouncedFilterValue) | None => false end) &&
        negb (js_includes (js_toLowerCase (js_String (value i))) debouncedFilterValue)).

Definition items_of (d : Config) (configKind : string) : list Item :=
  match items d with Some m => default [] (m !! configKind) | None => [] end.

(** One turn of the outer loop. *)
Definition add_kind (translate : string -> string) (d : Config) (f : string) (acc : list Row * list Group * Z) (configKind : string)
  : list Row * list Group * Z :=
  let '(newRows, newGroups, startIndex) := acc in
  let newRows' := fold_left (fun rs i => if keeps f i then rs ++ [mkRow configKind i] else rs) (items_of d configKind) newRows in
  (newRows',
   newGroups ++ [mkGroup configKind (translate ("configuration.common.kind." +:+ configKind)) startIndex
                   (Z.of_nat (length newRows') - startIndex) None],
   Z.of_nat (length newRows')).

Definition fill (translate : string -> string) (d : Config) (f : string) : list Row * list Group :=
  fst (fold_left (add_kind translate d f) kinds ([], [], 0)).
#[global] Arguments fill : simpl never.
End Table.

(** ** The page *)

Module Page.
Section Page.
Context {Err : Type} (translate : string -> string).

Record EditRequest := mkRequest { req_id : option string; req_kind : string; new_value : Value }.

(** A mounted editor; [number] tells it from the others React has mounted. *)
Record Instance_ := mkInstance { number : nat; displayed : string; editor : Editor.State }.

(** A change on its way: whose it is, the text its editor showed, and whether the server has
    made it. *)
Record Edit := mkEdit { from : nat; body : EditRequest; shown_then : string; accepted : bool }.

Record State := mkState {
  hook : Hook Config Err unit;
  filterValueLower : string; debouncedFilterValue : string;
  rows : list Row; groups : list Table.Group; lastSavedGroups : list Table.Group;
  editors : gmap string Instance_; fresh_editor : nat;
  edits : list Edit;
  warnings : list string;       (* the texts of the modals *)
  changes : nat;                (* how often the server has changed the configuration *)
  asked : nat                   (* the same, when the last request for it was sent *)
}.

Definition on_hook h s := mkState h (filterValueLower s) (debouncedFilterValue s) (rows s) (groups s) (lastSavedGroups s)
  (editors s) (fresh_editor s) (edits s) (warnings s) (changes s) (asked s).
Definition on_filter f d s := mkState (hook s) f d (rows s) (groups s) (lastSavedGroups s)
  (editors s) (fresh_editor s) (edits s) (warnings s) (changes s) (asked s).
Definition on_table r g l s := mkState (hook s) (filterValueLower s) (debouncedFilterValue s) r g l
  (editors s) (fresh_editor s) (edits s) (warnings s) (changes s) (asked s).
Definition on_editors e n s := mkState (hook s) (filterValueLower s) (debouncedFilterValue s) (rows s) (groups s)
  (lastSavedGroups s) e n (edits s) (warnings s) (changes s) (asked s).
Definition on_edits es s := mkState (hook s) (filterValueLower s) (debouncedFilterValue s) (rows s) (groups s)
  (lastSavedGroups s) (editors s) (fresh_editor s) es (warnings s) (changes s) (asked s).
Definition on_warnings w s := mkState (hook s) (filterValueLower s) (debouncedFilterValue s) (rows s) (groups s)
  (lastSavedGroups s) (editors s) (fresh_editor s) (edits s) w (changes s) (asked s).
Definition on_server c a s := mkState (hook s) (filterValueLower s) (debouncedFilterValue s) (rows s) (groups s)
  (lastSavedGroups s) (editors s) (fresh_editor s) (edits s) (warnings s) c a.

Definition data_of (s : State) : option Config := data (ClientRequest.state (hook s)).
Definition at_rest (s : State) : Prop := pending (hook s) = [].

(** [sendRequest] of the page. *)
Definition sendRequest (s : State) : State :=
  let h := ClientRequest.sendRequest true (fun _ => tt) (fun _ => tt) (hook s) in
  on_server (changes s) (match cancelTokenSource (hook s) with Some _ => asked s | None => changes s end) (on_hook h s).

Definition initial : State :=
  mkState (ClientRequest.mount true true (fun _ => tt) (fun _ => tt) (fun _ => tt) (new true tt)) "" "" [] [] [] ∅ 0 [] [] 0 0.

(** ** The rows *)

Definition find_row (k : string) (rs : list Row) : option Row :=
  find (fun r => bool_decide (Table.getKey r = k)) rs.

(** What becomes of an editor when rows are rendered: it goes with its row, or its effect runs. *)
Definition render_editor (rs : list Row) (k : string) (i : Instance_) : option Instance_ :=
  match find_row k rs with
  | Some r =>
      if has_editor r then Some (mkInstance (number i) (display r) (Editor.displayEffect (displayed i) (display r) (editor i)))
      else None
  | None => None
  end.

Definition setRows (rs : list Row) (g l : list Table.Group) (s : State) : State :=
  on_editors (map_imap (render_editor rs) (editors s)) (fresh_editor s) (on_table rs g l s).

(** The effect that runs when the data or the filter is another. *)
Definition rowsEffect (s : State) : State :=
  match data_of s with
  | None => setRows [] [] [] s
  | Some d =>
      let '(newRows, newGroups) := Table.fill translate d (debouncedFilterValue s) in
      if bool_decide (lastSavedGroups s = newGroups) then setRows newRows (groups s) (lastSavedGroups s) s
      else setRows newRows newGroups newGroups s
  end.

(** The answer to the request for the configuration. *)
Definition answer (t : nat) (r : Config + Err) (s : State) : State :=
  rowsEffect (on_hook (resume (fun _ => tt) t r (hook s)) s).

Definition handleFilterChange (t : string) (s : State) : State :=
  on_filter (js_toLowerCase t) (debouncedFilterValue s) s.

(** The filter has not changed for a while. *)
Definition debounce (s : State) : State := rowsEffect (on_filter (filterValueLower s) (filterValueLower s) s).

(** DetailsList folds or unfolds a group. *)
Definition toggle (n : nat) (b : bool) (s : State) : State :=
  on_table (rows s)
    (alter (fun g => Table.mkGroup (Table.key g) (Table.name g) (Table.startIndex g) (Table.count g) (Some b)) n (groups s))
    (lastSavedGroups s) s.

(** ** The editors *)

(** The list draws a row, or stops drawing it. *)
Definition appear (k : string) (s : State) : State :=
  match find_row k (rows s), editors s !! k with
  | Some r, None =>
      if has_editor r
      then on_editors (<[k := mkInstance (fresh_editor s) (display r) (Editor.mount (display r))]> (editors s)) (S (fresh_editor s)) s
      else s
  | _, _ => s
  end.
Definition vanish (k : string) (s : State) : State := on_editors (delete k (editors s)) (fresh_editor s) s.

Definition on_editor (k : string) (i : Instance_) (e : Editor.State) (s : State) : State :=
  on_editors (<[k := mkInstance (number i) (displayed i) e]> (editors s)) (fresh_editor s) s.

Inductive Event := Popup (b : bool) | Input (t : string) | Cancel | Save.

(** What the user does with an editor: the input and the buttons are in the popup, and disabled
    while a change is on its way. *)
Definition handle (k : string) (ev : Event) (s : State) : State :=
  match editors s !! k, find_row k (rows s) with
  | Some i, Some r =>
      let e := editor i in
      let usable := Editor.isVisible e && negb (Editor.isPosting e) in
      match ev with
      | Popup b => on_editor k i (Editor.setIsVisible b e) s
      | Input t => if usable then on_editor k i (Editor.setInputVal t e) s else s
      | Cancel => if usable then on_editor k i (Editor.handleCancel (display r) e) s else s
      | Save =>
          if usable then
            let '(e', v) := Editor.handleSave true (value (item r)) (display r) e in
            let s := on_editor k i e' s in
            match v with
            | Some v => on_edits (edits s ++ [mkEdit (number i) (mkRequest (id (item r)) (kind r) v) (display r) false]) s
            | None => s
            end
          else s
      end
  | _, _ => s
  end.

Definition saved_in (n : nat) (r : option bool) (was : string) (i : Instance_) : Instance_ :=
  if bool_decide (number i = n) then mkInstance (number i) (displayed i) (Editor.handleSaved r was (editor i)) else i.

(** The answer to the n-th change on its way: warnings, or an error. *)
Definition edit_answer (n : nat) (r : option (list (option string))) (s : State) : State :=
  match edits s !! n with
  | None => s
  | Some x =>
      let s := on_edits (delete n (edits s)) s in
      match r with
      | Some w =>
          let s := if bool_decide (w = []) then s
                   else on_warnings (warnings s ++ [js_join (String "010"%char (String "010"%char "")) (map (default "") w)]) s in
          let s := sendRequest s in
          on_editors (saved_in (from x) None (shown_then x) <$> editors s) (fresh_editor s) s
      | None => on_editors (saved_in (from x) (Some false) (shown_then x) <$> editors s) (fresh_editor s) s
      end
  end.

(** The server makes the n-th change. *)
Definition accept (n : nat) (s : State) : State :=
  match edits s !! n with
  | Some x =>
      if accepted x then s
      else on_edits (<[n := mkEdit (from x) (body x) (shown_then x) true]> (edits s)) (on_server (S (changes s)) (asked s) s)
  | None => s
  end.

Definition errors_shown (show : Err -> string) (s : State) : list string :=
  match error (ClientRequest.state (hook s)) with
  | Some e => [show e]
  | None => match data_of s with Some d => default [] (errors d) | None => [] end
  end.

(** ** Runs *)

(** The configuration after so many changes. *)
Context (serves : nat -> Config).

(** With [quiet], changes are answered only while the configuration is not being asked for,
    and a change is not both made and answered with an error. *)
Inductive step (quiet : bool) : State -> State -> Prop :=
| step_filter s t : step quiet s (handleFilterChange t s)
| step_debounce s : step quiet s (debounce s)
| step_toggle s n b : step quiet s (toggle n b s)
| step_appear s k : step quiet s (appear k s)
| step_vanish s k : step quiet s (vanish k s)
| step_handle s k ev : step quiet s (handle k ev s)
| step_accept s n : step quiet s (accept n s)
| step_saved s n w x : edits s !! n = Some x -> accepted x = true -> (quiet = true -> at_rest s) ->
    step quiet s (edit_answer n (Some w) s)
| step_failed s n x : edits s !! n = Some x -> (quiet = true -> accepted x = false) -> step quiet s (edit_answer n None s)
| step_answer s t v : t ∈ pending (hook s) -> (asked s <= v <= changes s)%nat -> step quiet s (answer t (inl (serves v)) s)
| step_error s t e : t ∈ pending (hook s) -> step quiet s (answer t (inr e) s).
End Page.
End Page.

(** ** The table and what it is made of *)

Section TableFacts.
Context (translate : string -> string).
Import Table.
Implicit Types d : Config.

(** The rows of a kind that the filter keeps. *)
Definition kept d (f configKind : string) : list Row := map (mkRow configKind) (filter (fun i => keeps f i = true) (items_of d configKind)).

(** The rows that are drawn under a group. *)
Definition under (rs : list Row) (g : Group) : list Row := take (Z.to_nat (count g)) (drop (Z.to_nat (startIndex g)) rs).

Lemma fold_kept f k l rs :
  fold_left (fun rs i => if keeps f i then rs ++ [mkRow k i] else rs) l rs = rs ++ map (mkRow k) (filter (fun i => keeps f i = true) l).
Proof.
  revert rs. induction l as [|i l IH]; intros rs; cbn [fold_left]; [by rewrite app_nil_r|]. rewrite IH, filter_cons.
  destruct (keeps f i); [by rewrite decide_True, <- app_assoc by done|by rewrite decide_False by done].
Qed.

Definition filled d f (ks : list string) (acc : list Row * list Group * Z) : Prop :=
  let '(rs, gs, z) := acc in
  rs = concat (map (kept d f) ks) /\ z = Z.of_nat (length rs) /\ map key gs = ks /\
  Forall (fun g => 0 <= startIndex g /\ 0 <= count g /\ startIndex g + count g <= z /\ under rs g = kept d f (key g) /\
    isCollapsed g = None) gs.

Lemma under_app rs rs' g : 0 <= startIndex g -> 0 <= count g -> startIndex g + count g <= Z.of_nat (length rs) ->
  under (rs ++ rs') g = under rs g.
Proof. intros. unfold under. rewrite drop_app_le, take_app_le; [done| |lia]. rewrite length_drop. lia. Qed.

Lemma add_kind_filled d f ks acc k : filled d f ks acc -> filled d f (ks ++ [k]) (add_kind translate d f acc k).
Proof.
  destruct acc as [[rs gs] z]. intros (Hr & -> & Hk & Hg). cbn [add_kind filled]. rewrite fold_kept. fold (kept d f k).
  split_and!; [by rewrite Hr, map_app, concat_app; cbn [map concat]; rewrite app_nil_r|done|by rewrite map_app, Hk|].
  rewrite length_app. apply Forall_app. split; [|apply Forall_singleton].
  - eapply Forall_impl; [exact Hg|]. intros g (H1 & H2 & H3 & H4 & H5). split_and!; try lia; [|done]. by rewrite under_app.
  - cbn [startIndex count key isCollapsed]. split_and!; try lia; [|done]. unfold under. cbn [startIndex count].
    rewrite Nat2Z.id, drop_app_length, take_ge; [done|]. lia.
Qed.

Lemma fill_filled d f : filled d f kinds (fill translate d f, Z.of_nat (length (fst (fill translate d f)))).
Proof.
  assert (H : filled d f kinds (fold_left (add_kind translate d f) kinds ([], [], 0))).
  { cut (forall ks ks' acc, filled d f ks acc -> filled d f (ks ++ ks') (fold_left (add_kind translate d f) ks' acc)).
    - intros H. apply (H []). split_and!; [done|done|done|constructor].
    - intros ks ks'. revert ks. induction ks' as [|k ks' IH]; intros ks acc Ha; cbn [fold_left]; [by rewrite app_nil_r|].
      change (k :: ks') with ([k] ++ ks'). rewrite app_assoc. by apply IH, add_kind_filled. }
  unfold fill. destruct (fold_left _ _ _) as [[rs gs] z]. cbn [fst]. destruct H as (H1 & -> & H3 & H4). by split_and!.
Qed.
End TableFacts.

Definition plain_group (g : Table.Group) : Table.Group :=
  Table.mkGroup (Table.key g) (Table.name g) (Table.startIndex g) (Table.count g) None.

Section PageFacts.
Context {Err : Type} (translate : string -> string) (serves : nat -> Config) (quiet : bool).
Import Page.
#[local] Abbreviation State := (Page.State (Err := Err)).
#[local] Abbreviation step := (Page.step (Err := Err) translate serves quiet).
Implicit Types s : State.

(** What the table should be made of. *)
Definition wanted s : list Row * list Table.Group :=
  match data_of s with Some d => Table.fill translate d (debouncedFilterValue s) | None => ([], []) end.

Definition table_ok s : Prop := (rows s, map plain_group (groups s)) = wanted s /\ lastSavedGroups s = snd (wanted s).

Lemma fill_plain d f : map plain_group (snd (Table.fill translate d f)) = snd (Table.fill translate d f).
Proof.
  pose proof (fill_filled translate d f) as H. destruct (Table.fill translate d f) as [rs gs]. destruct H as (_ & _ & _ & H). cbn [snd].
  induction H as [|g gs0 (_ & _ & _ & _ & Hc) _ IH]; [done|]. cbn. rewrite IH. f_equal. destruct g. cbn in *. by subst.
Qed.

Lemma rowsEffect_ok s : map plain_group (groups s) = lastSavedGroups s -> table_ok (rowsEffect translate s).
Proof.
  intros Hg. unfold rowsEffect, table_ok, wanted. destruct (data_of s) as [d|] eqn:Hd.
  - pose proof (fill_plain d (debouncedFilterValue s)) as Hp.
    destruct (Table.fill translate d (debouncedFilterValue s)) as [rs gs] eqn:Hf. cbn [snd] in Hp.
    case_bool_decide as He; unfold data_of in *; cbn; rewrite Hd, Hf; cbn; [|by rewrite Hp]. by rewrite Hg, He.
  - unfold data_of in *. cbn. by rewrite Hd.
Qed.

Lemma table_groups s : table_ok s -> map plain_group (groups s) = lastSavedGroups s.
Proof. intros [Ht ->]. by rewrite <- Ht. Qed.

Lemma table_same s s' : rows s' = rows s -> map plain_group (groups s') = map plain_group (groups s) ->
  lastSavedGroups s' = lastSavedGroups s -> data_of s' = data_of s -> debouncedFilterValue s' = debouncedFilterValue s ->
  table_ok s -> table_ok s'.
Proof. intros E1 E2 E3 E4 E5 [H1 H2]. unfold table_ok, wanted. rewrite E1, E2, E3, E4, E5. by split. Qed.

Lemma send_data s : data_of (sendRequest s) = data_of s.
Proof.
  unfold data_of, sendRequest. cbn. set (h := hook s). destruct (send_cases true (fun _ => tt) (fun _ => tt) h) as [->|(_ & _ & _ & _ & _ & _ & _ & _ & -> & _)]; done.
Qed.

Lemma toggle_plain n b (gs : list Table.Group) :
  map plain_group (alter (fun g => Table.mkGroup (Table.key g) (Table.name g) (Table.startIndex g) (Table.count g) (Some b)) n gs) = map plain_group gs.
Proof. revert n. induction gs as [|g gs IH]; intros [|n]; cbn; [done..|]. f_equal. apply IH. Qed.

(** Handling an editor touches only the editors and the changes on their way. *)
Lemma handle_frame k ev s : exists es xs, handle k ev s = on_edits xs (on_editors es (fresh_editor s) s).
Proof.
  unfold handle. assert (H : exists es xs, s = on_edits xs (on_editors es (fresh_editor s) s)).
  { exists (editors s), (edits s). by destruct s. }
  destruct (editors s !! k) as [i|]; [|done]. destruct (find_row k (rows s)) as [r|]; [|done].
  assert (He : forall e, exists es xs, on_editor k i e s = on_edits xs (on_editors es (fresh_editor s) s)).
  { intros e. exists (<[k := mkInstance (number i) (displayed i) e]> (editors s)), (edits s). done. }
  destruct ev; [done| | |]; (destruct (_ && _); [|done]); [done|done|].
  destruct (Editor.handleSave _ _ _ _) as [e [v|]]; [|done]. eexists _, _. reflexivity.
Qed.

Lemma answer_frame n r s : data_of (edit_answer n r s) = data_of s /\ rows (edit_answer n r s) = rows s /\
  groups (edit_answer n r s) = groups s /\ lastSavedGroups (edit_answer n r s) = lastSavedGroups s /\
  debouncedFilterValue (edit_answer n r s) = debouncedFilterValue s.
Proof.
  unfold edit_answer. destruct (edits s !! n) as [x|]; [|done]. destruct r as [w|]; [|done].
  split_and!; [|by case_bool_decide..]. case_bool_decide; exact (send_data _).
Qed.

Lemma step_table s s' : step s s' -> table_ok s -> table_ok s'.
Proof.
  intros Hs Ht. destruct Hs as [s t|s|s n b|s k|s k|s k ev|s n|s n w x _ _ _|s n x _ _|s t v _ _|s t e _].
  - by apply (table_same s).
  - apply rowsEffect_ok. exact (table_groups s Ht).
  - apply (table_same s); try done. apply toggle_plain.
  - unfold appear. destruct (find_row k (rows s)) as [r|], (editors s !! k); try done. destruct (has_editor r); [|done]. by apply (table_same s).
  - by apply (table_same s).
  - destruct (handle_frame k ev s) as (es & xs & ->). by apply (table_same s).
  - unfold accept. destruct (edits s !! n) as [x|]; [|done]. destruct (accepted x); [done|]. by apply (table_same s).
  - destruct (answer_frame n (Some w) s) as (E1 & E2 & E3 & E4 & E5). apply (table_same s); try done. by rewrite E3.
  - destruct (answer_frame n None s) as (E1 & E2 & E3 & E4 & E5). apply (table_same s); try done. by rewrite E3.
  - apply rowsEffect_ok. exact (table_groups s Ht).
  - apply rowsEffect_ok. exact (table_groups s Ht).
Qed.

(** ** The editors *)

Definition editors_fit (rs : list Row) (es : gmap string Instance_) (n : nat) (xs : list Edit) : Prop :=
  (forall k i, es !! k = Some i -> (number i < n)%nat /\
     (exists r, find_row k rs = Some r /\ has_editor r = true /\ displayed i = display r) /\
     (Editor.isPosting (editor i) = true <-> number i ∈ map from xs)) /\
  (forall k k' i i', es !! k = Some i -> es !! k' = Some i' -> number i = number i' -> k = k') /\
  NoDup (map from xs) /\ Forall (fun x => (from x < n)%nat) xs.

Lemma render_number rs k i j : render_editor rs k i = Some j ->
  number j = number i /\ Editor.isPosting (editor j) = Editor.isPosting (editor i) /\
  exists r, find_row k rs = Some r /\ has_editor r = true /\ displayed j = display r.
Proof.
  unfold render_editor. destruct (find_row k rs) as [r|]; [|done]. destruct (has_editor r) eqn:He; [|done]. intros [= <-]. cbn.
  split_and!; [done| |by exists r]. unfold Editor.displayEffect. by case_bool_decide.
Qed.

Lemma fit_rows rs rs' es n xs : editors_fit rs es n xs -> editors_fit rs' (map_imap (render_editor rs') es) n xs.
Proof.
  intros (H1 & H2 & H3). split_and!; [| |apply H3..].
  - intros k j. rewrite map_lookup_imap. destruct (es !! k) as [i|] eqn:Hi; [|done]. cbn. intros Hj.
    destruct (render_number _ _ _ _ Hj) as (-> & -> & Hr). destruct (H1 k i Hi) as (? & _ & ?). by split_and!.
  - intros k k' j j'. rewrite !map_lookup_imap. destruct (es !! k) as [i|] eqn:Hi, (es !! k') as [i'|] eqn:Hi'; try done. cbn.
    intros Hj Hj'. destruct (render_number _ _ _ _ Hj) as (-> & _), (render_number _ _ _ _ Hj') as (-> & _). by apply H2.
Qed.

Lemma fit_delete rs es n xs k : editors_fit rs es n xs -> editors_fit rs (delete k es) n xs.
Proof.
  intros (H1 & H2 & H3). split_and!; [| |apply H3..].
  - intros k' i [_ Hi]%lookup_delete_Some. by apply H1.
  - intros k1 k2 i i' [_ Hi]%lookup_delete_Some [_ Hi']%lookup_delete_Some. by apply H2.
Qed.

Lemma fit_appear rs es n xs k r : find_row k rs = Some r -> has_editor r = true -> editors_fit rs es n xs ->
  editors_fit rs (<[k := mkInstance n (display r) (Editor.mount (display r))]> es) (S n) xs.
Proof.
  intros Hr He (H1 & H2 & H3 & H4). split_and!; [| |done|eapply Forall_impl; [exact H4|]; cbn; lia].
  - intros k' i [[<- <-]|[_ Hi]]%lookup_insert_Some.
    + cbn. split_and!; [lia|by exists r|]. split; [done|]. intros (x & Hx & Hin)%list_elem_of_fmap.
      rewrite Forall_forall in H4. specialize (H4 x Hin). lia.
    + destruct (H1 k' i Hi) as (? & ?). split; [lia|done].
  - intros k1 k2 i i' [[<- <-]|[_ Hi]]%lookup_insert_Some [[<- <-]|[_ Hi']]%lookup_insert_Some; cbn; [done| | |by apply H2].
    + intros E. destruct (H1 k2 i' Hi'). lia.
    + intros E. destruct (H1 k1 i Hi). lia.
Qed.

(** One editor changes, as React keeps it. *)
Lemma fit_insert rs es n xs xs' k i e : es !! k = Some i -> editors_fit rs es n xs ->
  (Editor.isPosting e = true <-> number i ∈ map from xs') ->
  (forall m, m <> number i -> m ∈ map from xs' <-> m ∈ map from xs) ->
  NoDup (map from xs') -> Forall (fun x => (from x < n)%nat) xs' ->
  editors_fit rs (<[k := mkInstance (number i) (displayed i) e]> es) n xs'.
Proof.
  intros Hk (H1 & H2 & H3 & H4) He Hm Hn Hf. split_and!; [| |done|done].
  - intros k' j [[<- <-]|[Hne Hj]]%lookup_insert_Some; cbn.
    + destruct (H1 k i Hk) as (? & ? & _). by split_and!.
    + destruct (H1 k' j Hj) as (? & ? & Hp). split_and!; [done|done|]. rewrite Hp, Hm; [done|].
      intros E. apply Hne. by apply (H2 k k' i j Hk Hj).
  - assert (Hl : forall k' j, <[k := mkInstance (number i) (displayed i) e]> es !! k' = Some j -> exists j', es !! k' = Some j' /\ number j' = number j).
    { intros k' j [[<- <-]|[_ Hj]]%lookup_insert_Some; eauto. }
    intros k1 k2 i1 i2 (j1 & Hj1 & E1)%Hl (j2 & Hj2 & E2)%Hl E. apply (H2 k1 k2 j1 j2 Hj1 Hj2). congruence.
Qed.

Lemma fit_answer rs es n xs m x r : xs !! m = Some x -> editors_fit rs es n xs ->
  editors_fit rs (saved_in (from x) r (shown_then x) <$> es) n (delete m xs).
Proof.
  intros Hx (H1 & H2 & H3 & H4). pose proof (delete_Permutation _ _ _ Hx) as Hp.
  rewrite Hp in H3, H4. cbn [map] in H3. apply NoDup_cons in H3 as [Hn H3]. apply Forall_cons in H4 as [Hx4 H4].
  assert (Hs : forall i, number (saved_in (from x) r (shown_then x) i) = number i).
  { intros i. unfold saved_in. by case_bool_decide. }
  split_and!; [| |done|done].
  - intros k j. rewrite lookup_fmap. destruct (es !! k) as [i|] eqn:Hi; [|done]. intros [= <-]. rewrite Hs.
    destruct (H1 k i Hi) as (Hlt & Hr & Hpost). split_and!; [done| |].
    + unfold saved_in. by case_bool_decide.
    + rewrite Hp in Hpost. cbn [map] in Hpost. unfold saved_in. case_bool_decide as Hid; cbn.
      * rewrite Hid. split; [by destruct r as [[]|]|done].
      * rewrite Hpost, elem_of_cons. naive_solver.
  - intros k k' j j'. rewrite !lookup_fmap. destruct (es !! k) as [i|] eqn:Hi, (es !! k') as [i'|] eqn:Hi'; try done.
    intros [= <-] [= <-]. rewrite !Hs. by apply H2.
Qed.

Definition fit s : Prop := editors_fit (rows s) (editors s) (fresh_editor s) (edits s).

Lemma rowsEffect_fit s : fit s -> fit (rowsEffect translate s).
Proof.
  intros Hf. unfold rowsEffect. destruct (data_of s) as [d|]; [|exact (fit_rows _ _ _ _ _ Hf)].
  destruct (Table.fill translate d _) as [rs gs]. case_bool_decide; exact (fit_rows _ _ _ _ _ Hf).
Qed.

Lemma fit_same rs es n xs k i e : es !! k = Some i -> Editor.isPosting e = Editor.isPosting (editor i) ->
  editors_fit rs es n xs -> editors_fit rs (<[k := mkInstance (number i) (displayed i) e]> es) n xs.
Proof.
  intros Hi He Hf. apply (fit_insert _ _ _ xs); [done|done| |done|apply Hf|apply Hf].
  rewrite He. by apply (proj1 Hf k i).
Qed.

Lemma handle_fit k ev s : fit s -> fit (handle k ev s).
Proof.
  intros Hf. unfold handle. destruct (editors s !! k) as [i|] eqn:Hi; [|done]. destruct (find_row k (rows s)) as [r|]; [|done].
  destruct ev as [b|t| |]; [by apply fit_same| | |]; (destruct (Editor.isVisible _ && _) eqn:Hu; [|done]); [by apply fit_same..|].
  apply andb_true_iff in Hu as [_ Hu%negb_true_iff]. unfold Editor.handleSave. cbn [negb].
  destruct (Editor.valueWithSameType _ _) as [v|].
  - destruct Hf as (H1 & H2 & H3 & H4). pose proof (H1 k i Hi) as (Hlt & _ & Hp).
    assert (Hn : number i ∉ map from (edits s)) by (intros Hin; apply Hp in Hin; congruence).
    apply (fit_insert _ _ _ (edits s)); [done|done| | | |]; cbn [edits on_edits on_editor on_editors]; rewrite ?map_app; cbn [map from].
    + split; [|done]. intros _. apply elem_of_app. right. by left.
    + intros m Hm. rewrite elem_of_app, list_elem_of_singleton. naive_solver.
    + apply NoDup_app. split_and!; [done| |apply NoDup_singleton]. intros m Hm Hs. apply list_elem_of_singleton in Hs. by subst m.
    + apply Forall_app. split; [done|]. by apply Forall_singleton.
  - by apply fit_same.
Qed.

Lemma accept_fit n s : fit s -> fit (accept n s).
Proof.
  intros Hf. unfold accept. destruct (edits s !! n) as [x|] eqn:Hx; [|done]. destruct (accepted x); [done|].
  unfold fit. cbn. set (y := mkEdit _ _ _ _).
  assert (Hm : map from (<[n := y]> (edits s)) = map from (edits s)).
  { rewrite list_fmap_insert. apply list_insert_id. by rewrite list_lookup_fmap, Hx. }
  destruct Hf as (H1 & H2 & H3 & H4). split_and!; rewrite ?Hm; [done|done|done|].
  apply Forall_insert; [done|]. cbn. by apply (Forall_lookup_1 _ _ _ _ H4 Hx).
Qed.

Lemma edit_answer_fit n r s : fit s -> fit (edit_answer n r s).
Proof.
  intros Hf. unfold edit_answer. destruct (edits s !! n) as [x|] eqn:Hx; [|done].
  destruct r as [w|]; [case_bool_decide|]; exact (fit_answer _ _ _ _ _ _ _ Hx Hf).
Qed.

Lemma step_fit s s' : step s s' -> fit s -> fit s'.
Proof.
  intros Hs Hf. destruct Hs as [s t|s|s n b|s k|s k|s k ev|s n|s n w x _ _ _|s n x _ _|s t v _ _|s t e _]; try done.
  - by apply rowsEffect_fit.
  - unfold appear. destruct (find_row k (rows s)) as [r|] eqn:Hr, (editors s !! k); try done.
    destruct (has_editor r) eqn:He; [|done]. by apply (fit_appear _ _ _ _ k r).
  - by apply fit_delete.
  - by apply handle_fit.
  - by apply accept_fit.
  - by apply edit_answer_fit.
  - by apply edit_answer_fit.
  - by apply rowsEffect_fit.
  - by apply rowsEffect_fit.
Qed.

Lemma page_initial_ok : table_ok initial /\ fit initial.
Proof.
  split; [done|]. split_and!; [done|done|constructor|constructor].
Qed.

Lemma page_reachable_ok s : rtc step initial s -> table_ok s /\ fit s.
Proof.
  intros Hs. destruct page_initial_ok as [H1 H2].
  induction Hs as [|p q r Hpq _ IH]; [done|]. apply IH; [by eapply step_table|by eapply step_fit].
Qed.
End PageFacts.

(** ** How new the configuration is *)

Section Quiet.
Context {Err : Type} (translate : string -> string) (serves : nat -> Config).
Import Page.
#[local] Abbreviation State := (Page.State (Err := Err)).
#[local] Abbreviation step := (Page.step (Err := Err) translate serves true).
Implicit Types s : State.

(** The changes that are made and not yet answered. *)
Definition unanswered s : nat := length (filter (fun x => accepted x = true) (edits s)).

Definition new_enough s : Prop :=
  ClientRequest.inv (hook s) /\ phase (hook s) = Mounted /\ (asked s <= changes s)%nat /\
  (~ at_rest s -> (changes s <= asked s + unanswered s)%nat) /\
  (at_rest s -> is_Some (error (ClientRequest.state (hook s))) \/
     exists v, data_of s = Some (serves v) /\ (v <= changes s <= v + unanswered s)%nat).

Lemma new_enough_same s s' : hook s' = hook s -> asked s' = asked s -> changes s' = changes s -> unanswered s' = unanswered s ->
  new_enough s -> new_enough s'.
Proof. unfold new_enough, at_rest, data_of. by intros -> -> -> ->. Qed.

Lemma rowsEffect_frame s : hook (rowsEffect translate s) = hook s /\ asked (rowsEffect translate s) = asked s /\
  changes (rowsEffect translate s) = changes s /\ edits (rowsEffect translate s) = edits s.
Proof.
  unfold rowsEffect. destruct (data_of s) as [d|]; [|done]. destruct (Table.fill translate d _) as [rs gs]. by case_bool_decide.
Qed.

Lemma handle_rest k ev s : hook (handle k ev s) = hook s /\ asked (handle k ev s) = asked s /\ changes (handle k ev s) = changes s /\
  unanswered (handle k ev s) = unanswered s.
Proof.
  destruct (handle_frame k ev s) as (es & xs & Hf). split_and!; [by rewrite Hf..|]. clear es xs Hf. unfold handle.
  destruct (editors s !! k) as [i|]; [|done]. destruct (find_row k (rows s)) as [r|]; [|done].
  destruct ev; [done| | |]; (destruct (_ && _); [|done]); [done|done|]. destruct (Editor.handleSave _ _ _ _) as [e [v|]]; [|done].
  unfold unanswered. cbn [edits on_edits]. rewrite filter_app, length_app, (filter_cons_False _ (mkEdit _ _ _ _)) by done. cbn. lia.
Qed.

Lemma unanswered_delete n x (xs : list Edit) : xs !! n = Some x ->
  length (filter (fun x => accepted x = true) xs) =
    ((if accepted x then 1 else 0) + length (filter (fun x => accepted x = true) (delete n xs)))%nat.
Proof.
  intros Hx. rewrite (delete_Permutation _ _ _ Hx) at 1. rewrite filter_cons. destruct (accepted x); [by rewrite decide_True|by rewrite decide_False].
Qed.

Lemma accept_new n s : new_enough s -> new_enough (accept n s).
Proof.
  intros (Hi & Hp & Ha & Hn & Hr). unfold accept. destruct (edits s !! n) as [x|] eqn:Hx; [|done]. destruct (accepted x) eqn:Hac; [done|].
  assert (Hu : length (filter (fun x => accepted x = true) (<[n := mkEdit (from x) (body x) (shown_then x) true]> (edits s))) = S (unanswered s)).
  { unfold unanswered. pose proof (lookup_lt_Some _ _ _ Hx) as Hl. rewrite <- (take_drop_middle _ _ _ Hx) at 2.
    rewrite insert_take_drop by done. rewrite !filter_app, !filter_cons, !length_app, decide_True, decide_False by (cbn; congruence).
    cbn [length]. lia. }
  unfold new_enough, at_rest, unanswered, data_of in *. cbn. rewrite Hu. split_and!; [done|done|lia| |].
  - intros Hne. specialize (Hn Hne). unfold unanswered in *. lia.
  - intros He. destruct (Hr He) as [H|(v & Hv & ?)]; [by left|right]. exists v. split; [done|]. unfold unanswered in *. lia.
Qed.

Lemma answer_new t r s : t ∈ pending (hook s) -> (forall d, r = inl d -> exists v, d = serves v /\ (asked s <= v <= changes s)%nat) ->
  new_enough s -> new_enough (answer translate t r s).
Proof.
  intros Ht Hd (Hi & Hp & Ha & Hn & Hr). unfold answer. set (s1 := on_hook (resume (fun _ => tt) t r (hook s)) s).
  destruct (rowsEffect_frame s1) as (E1 & E2 & E3 & E4). apply (new_enough_same s1); [done|done|done|unfold unanswered; by rewrite E4|].
  assert (Hne : ~ at_rest s) by (unfold at_rest; intros E; rewrite E in Ht; by apply elem_of_nil in Ht).
  destruct (resume_frame (fun _ => tt) t r (hook s)) as (_ & _ & Hph & _ & Hst).
  unfold s1, new_enough, at_rest, data_of, unanswered in *. cbn.
  assert (Hm : mounted (hook s) = true) by (destruct Hi as (-> & _); by apply bool_decide_eq_true).
  pose proof (resume_inv (fun _ => tt) t r _ Ht Hi) as Hi'.
  split_and!; [done|by rewrite Hph|done|intros _; by apply Hn|]. intros _. rewrite (Hst Hm).
  destruct r as [d|e]; [right|left; by eexists]. destruct (Hd d eq_refl) as (v & -> & Hv). exists v. split; [done|].
  specialize (Hn Hne). lia.
Qed.

Lemma send_new s : at_rest s -> ClientRequest.inv (hook s) -> phase (hook s) = Mounted -> new_enough (sendRequest s).
Proof.
  intros Hr Hi Hp. pose proof (send_inv true (fun _ => tt) (fun _ => tt) _ Hi) as Hi'. destruct Hi as (Hm & _ & Hpe). rewrite Hp in *.
  assert (Hc : cancelTokenSource (hook s) = None) by (unfold at_rest in Hr; rewrite Hr in Hpe; by destruct (cancelTokenSource (hook s))).
  unfold new_enough, at_rest, sendRequest, data_of, unanswered in *. cbn. rewrite Hc. cbn.
  destruct (send_cases true (fun _ => tt) (fun _ => tt) (hook s)) as [Hs|(_ & _ & Hph & _ & _ & _ & Hq & _)].
  { exfalso. apply (f_equal cancelTokenSource) in Hs. unfold ClientRequest.sendRequest in Hs. rewrite Hm, bool_decide_eq_true_2, Hc in Hs by done. done. }
  split_and!; [done|by rewrite Hph|done|intros _; lia|]. rewrite Hq, Hr. done.
Qed.

Lemma edit_answer_new n w s x : edits s !! n = Some x -> at_rest s -> new_enough s -> new_enough (edit_answer n (Some w) s).
Proof.
  intros Hx Hr (Hi & Hp & _). unfold edit_answer. rewrite Hx.
  set (s1 := if bool_decide (w = []) then _ else _).
  apply (new_enough_same (sendRequest s1)); try done. apply send_new; unfold s1, at_rest; by case_bool_decide.
Qed.

Lemma config_step_new s s' : step s s' -> new_enough s -> new_enough s'.
Proof.
  intros Hs Hn. destruct Hs as [s t|s|s n b|s k|s k|s k ev|s n|s n w x Hx _ Hq|s n x Hx Hac|s t v Ht Hv|s t e Ht].
  - by apply (new_enough_same s).
  - unfold debounce. set (s1 := on_filter _ _ s). destruct (rowsEffect_frame s1) as (E1 & E2 & E3 & E4).
    apply (new_enough_same s); [done|done|done|unfold unanswered; by rewrite E4|done].
  - by apply (new_enough_same s).
  - unfold appear. destruct (find_row k (rows s)), (editors s !! k); try done. destruct (has_editor _); [|done]. by apply (new_enough_same s).
  - by apply (new_enough_same s).
  - destruct (handle_rest k ev s) as (E1 & E2 & E3 & E4). by apply (new_enough_same s).
  - by apply accept_new.
  - apply (edit_answer_new n w s x); auto.
  - unfold edit_answer. rewrite Hx. apply (new_enough_same s); try done. unfold unanswered. cbn.
    rewrite (unanswered_delete n x (edits s) Hx), Hac by done. done.
  - apply answer_new; [done| |done]. intros d [= <-]. by exists v.
  - apply answer_new; [done| |done]. done.
Qed.

Lemma initial_new : new_enough initial.
Proof.
  split_and!; [split_and!; cbn; [done| |done]|done|done|cbn; lia|done]. intros t Ht%list_elem_of_singleton. lia.
Qed.
End Quiet.

(** ** Editing in place *)

Definition same_type (old new : Value) : Prop :=
  match old, new with
  | VStr _, VStr _ | VBool _, VBool _ | VOther _, VStr _ => True
  | VNum _, VNum n => isNaN n = false
  | _, _ => False
  end.

(** Values whose text says all of them. *)
Definition readable_value (v : Value) : Prop :=
  match v with VStr _ | VBool _ => True | VNum n => exists z, n = num_of_Z z | VOther _ => False end.

Lemma valueWithSameType_type t old v : Editor.valueWithSameType t old = Some v -> same_type old v.
Proof.
  unfold Editor.valueWithSameType. destruct old as [s|n|b|s]; [by intros [= <-]| | |by intros [= <-]].
  - destruct (isNaN (js_Number t)) eqn:Hn; [done|]. by intros [= <-].
  - repeat case_bool_decide; by intros [= <-].
Qed.

Lemma valueWithSameType_same v : readable_value v -> Editor.valueWithSameType (js_String v) v = Some v.
Proof.
  destruct v as [s|n|b|s]; cbn; [done| |by destruct b|done]. intros [z ->]. by rewrite num_show_Z, js_Number_show.
Qed.

Section Properties.
Context {Err : Type} (translate : string -> string) (serves : nat -> Config).
Import Page.
Implicit Types s : Page.State (Err := Err).

(** C28: The table is always made of the configuration that was fetched last: under each of the
    four groups, in the order of the groups, are the items of its kind that the filter keeps, also
    after the list has folded groups.  If a change is answered only while the configuration is not
    being asked for, and no change is made that is answered with an error, then a page at rest
    shows the configuration as the last change has left it, or an error. *)
Theorem config_table (quiet : bool) s : rtc (step translate serves quiet) initial s ->
  (forall d, data_of s = Some d ->
     rows s = concat (map (kept d (debouncedFilterValue s)) Table.kinds) /\ map Table.key (groups s) = Table.kinds /\
     Forall (fun g => under (rows s) g = kept d (debouncedFilterValue s) (Table.key g)) (groups s)) /\
  (data_of s = None -> rows s = [] /\ groups s = []) /\
  (quiet = true -> at_rest s -> edits s = [] ->
     is_Some (error (ClientRequest.state (hook s))) \/ data_of s = Some (serves (changes s))).
Proof.
  intros Hs. destruct (proj1 (page_reachable_ok translate serves quiet s Hs)) as [Ht _]. unfold wanted in Ht. split_and!.
  - intros d Hd. rewrite Hd in Ht. pose proof (fill_filled translate d (debouncedFilterValue s)) as Hf. rewrite <- Ht in Hf.
    destruct Hf as (H1 & _ & H3 & H4). rewrite map_map in H3. split_and!; [done|exact H3|].
    apply Forall_map in H4. eapply Forall_impl; [exact H4|]. by intros g (_ & _ & _ & H & _).
  - intros Hd. rewrite Hd in Ht. injection Ht as Hr Hg. split; [done|]. by destruct (groups s).
  - intros -> Hr He. assert (Hn : new_enough serves s).
    { clear Ht Hr He. pose proof (initial_new (Err := Err) serves) as Hi. revert Hi.
      induction Hs as [|p q r Hpq _ IH]; [done|]. intros Hi. apply IH. by eapply config_step_new. }
    destruct Hn as (_ & _ & _ & _ & Hn). destruct (Hn Hr) as [H|(v & Hv & Hc)]; [by left|right].
    unfold unanswered in Hc. rewrite He in Hc. cbn in Hc. rewrite Hv. do 2 f_equal. lia.
Qed.

(** An editor on the page belongs to a row whose value can be edited, and is locked exactly
    while one change of its own is on its way.  Its button, when it can be clicked, sends one
    change of its row, to a value of the type the row has (to the same one if nothing was typed),
    or closes the popup and restores the text; an answer unlocks it and closes the popup, except
    that an error keeps the popup open and restores the text of the time the button was
    clicked. *)
Theorem edits_in_place (quiet : bool) s k i : rtc (step translate serves quiet) initial s -> editors s !! k = Some i ->
  exists r, find_row k (rows s) = Some r /\ has_editor r = true /\
    NoDup (map from (edits s)) /\ (Editor.isPosting (editor i) = true <-> number i ∈ map from (edits s)) /\
    let usable := Editor.isVisible (editor i) && negb (Editor.isPosting (editor i)) in
    let after e := <[k := mkInstance (number i) (displayed i) e]> (editors s) in
    let sent v s' := same_type (value (item r)) v /\
      edits s' = edits s ++ [mkEdit (number i) (mkRequest (id (item r)) (kind r) v) (display r) false] /\
      editors s' = after (Editor.mkState true (Editor.inputVal (editor i)) true) in
    (usable = false -> handle k Save s = s) /\
    (usable = true -> (exists v, sent v (handle k Save s)) \/
       edits (handle k Save s) = edits s /\ editors (handle k Save s) = after (Editor.mkState false (display r) false)) /\
    (usable = true -> Editor.inputVal (editor i) = display r -> readable_value (value (item r)) ->
       sent (value (item r)) (handle k Save s)) /\
    (forall n x, edits s !! n = Some x -> from x = number i ->
       (forall w, editor <$> editors (edit_answer n (Some w) s) !! k = Some (Editor.mkState false (Editor.inputVal (editor i)) false)) /\
       editor <$> editors (edit_answer n None s) !! k = Some (Editor.mkState (Editor.isVisible (editor i)) (shown_then x) false)).
Proof.
  intros Hs Hk. destruct (proj2 (page_reachable_ok translate serves quiet s Hs)) as (H1 & _ & H3 & _).
  destruct (H1 k i Hk) as (_ & (r & Hr & He & _) & Hp). exists r. do 4 (split; [done|]). cbv zeta.
  unfold handle. rewrite Hk, Hr. split_and!.
  - by intros ->.
  - intros Hu. rewrite Hu. apply andb_true_iff in Hu as [Hv Hq%negb_true_iff]. unfold Editor.handleSave. cbn [negb].
    destruct (Editor.valueWithSameType _ _) as [v|] eqn:E.
    + left. exists v. split; [by apply (valueWithSameType_type (Editor.inputVal (editor i)))|]. split; [done|]. cbn. unfold Editor.setIsPosting. by rewrite Hv.
    + right. done.
  - intros Hu Hi Hv. rewrite Hu. apply andb_true_iff in Hu as [Hvis Hq%negb_true_iff]. unfold Editor.handleSave. cbn [negb Editor.setIsPosting].
    cbn. rewrite Hi. pose proof (valueWithSameType_same _ Hv) as E. unfold display. rewrite E. cbn. split; [|split; [done|unfold Editor.setIsPosting; by rewrite Hvis, Hi]].
    by apply (valueWithSameType_type _ _ _ E).
  - intros n x Hx Hf. unfold edit_answer. rewrite Hx. split.
    + intros w. case_bool_decide; cbn; rewrite lookup_fmap, Hk; cbn; unfold saved_in; by rewrite Hf, bool_decide_eq_true_2.
    + cbn. rewrite lookup_fmap, Hk. cbn. unfold saved_in. by rewrite Hf, bool_decide_eq_true_2.
Qed.
End Properties.

(** ** Samples *)

Section Samples.
Import Page.
#[local] Abbreviation State := (Page.State (Err := unit)).

Definition en (key : string) : string := key.

(** A server whose log level and limit are set by the first and the second change. *)
Definition sample_config (n : nat) : Config :=
  mkConfig None (Some {[ "pd_config" :=
    [mkItem (Some "log.level") (Some true) None (VStr (if (n <? 1)%nat then "info" else "warn"));
     mkItem (Some "limit") (Some true) None (VNum (num_of_Z (if (n <? 2)%nat then 4 else 8)));
     mkItem None None None (VBool true)] ]}).

Definition level : string := "pd_config.log.level".
Definition limit : string := "pd_config.limit".

(** The two values are edited and sent. *)
Definition sample_edits : list (State -> State) :=
  [answer en 0 (inl (sample_config 0)); appear level; appear limit;
   handle level (Popup true); handle level (Input "warn"); handle level Save;
   handle limit (Popup true); handle limit (Input " 8 "); handle limit Save].
Definition run (l : list (State -> State)) (s : State) : State := fold_left (fun s f => f s) l s.
Definition sample : State := run sample_edits initial.

Lemma sample_reachable quiet : rtc (step en sample_config quiet) initial sample.
Proof.
  unfold sample, run, sample_edits. cbn [fold_left].
  do 8 (eapply rtc_r; [|first [apply step_handle|apply step_appear]]).
  eapply rtc_r; [apply rtc_refl|apply (step_answer en sample_config quiet initial 0 0)]; [by left|cbn; lia].
Qed.

(** A change is answered while the configuration is asked for again after another one: the
    page does not ask once more, and shows what was there before the change. *)
Lemma overlapping_saves :
  exists s : State, rtc (step en sample_config false) initial s /\ at_rest s /\ edits s = [] /\
    changes s = 2%nat /\ data_of s = Some (sample_config 1) /\ sample_config 1 <> sample_config 2.
Proof.
  set (s1 := edit_answer 0 (Some []) (accept 0 sample)). set (s2 := edit_answer 0 (Some []) (accept 0 s1)).
  exists (answer en 1 (inl (sample_config 1)) s2).
  split_and!; try by vm_compute.
  eapply rtc_r; [|apply (step_answer en sample_config false s2 1 1)]; [|by vm_compute; left|vm_compute; lia].
  do 2 (eapply rtc_r; [eapply rtc_r; [|apply step_accept]|eapply step_saved; [by vm_compute|done|done]]). apply sample_reachable.
Qed.

Definition sample_rest : State :=
  run [accept 0; edit_answer 0 (Some [Some "restart"]); answer en 1 (inl (sample_config 1));
       accept 0; edit_answer 0 (Some []); answer en 2 (inl (sample_config 2)); handleFilterChange "LIM"; debounce en] sample.

Lemma sample_rest_reachable : rtc (step en sample_config true) initial sample_rest.
Proof.
  unfold sample_rest, run. cbn [fold_left].
  eapply rtc_r; [eapply rtc_r; [|apply step_filter]|apply step_debounce].
  eapply rtc_r; [|apply (step_answer en sample_config true _ 2 2)]; [|by vm_compute; left|vm_compute; lia].
  eapply rtc_r; [eapply rtc_r; [|apply step_accept]|eapply step_saved; [by vm_compute|done|by vm_compute]].
  eapply rtc_r; [|apply (step_answer en sample_config true _ 1 1)]; [|by vm_compute; left|vm_compute; lia].
  eapply rtc_r; [eapply rtc_r; [|apply step_accept]|eapply step_saved; [by vm_compute|done|by vm_compute]].
  apply sample_reachable.
Qed.

Lemma config_table_witness :
  data_of sample_rest = Some (sample_config 2) /\ map (fun r => id (item r)) (rows sample_rest) = [Some "limit"; None].
Proof.
  split; [|by vm_compute].
  destruct (proj2 (proj2 (config_table en sample_config true sample_rest sample_rest_reachable)) eq_refl) as [[e He]|H];
    [by vm_compute|by vm_compute|by vm_compute in He|exact H].
Defined.

Lemma edits_in_place_witness :
  let s := run (take 8 sample_edits) initial in
  exists r, find_row limit (rows s) = Some r /\ edits (handle limit Save s) =
    edits s ++ [mkEdit 1 (mkRequest (Some "limit") "pd_config" (VNum (num_of_Z 8))) "4" false].
Proof.
  cbv zeta. set (s := run (take 8 sample_edits) initial).
  assert (Hs : rtc (step en sample_config true) initial s).
  { unfold s, run, sample_edits. cbn [take fold_left].
    do 7 (eapply rtc_r; [|first [apply step_handle|apply step_appear]]).
    eapply rtc_r; [apply rtc_refl|apply (step_answer en sample_config true initial 0 0)]; [by left|cbn; lia]. }
  destruct (edits_in_place en sample_config true s limit (mkInstance 1 "4" (Editor.mkState true " 8 " false)) Hs) as (r & Hr & _);
    [by vm_compute|]. exists r. split; [exact Hr|]. by vm_compute.
Defined.
End Samples.
