(* ===== verification/FormLib.v ===== *)
(** * The forms of antd

    The library is not part of the repository: what the pages use of it is the class [FormLib], what
    its documentation says of these operations the class [FormLaws].  Forms as their values and
    their fields are an instance. *)

From S2P Require Import Prelude.

(** What is used of a form: the values of all fields, the fields that are on the page (which React
    renders after an effect or a handler has ended, not within it), writing some values, reading
    the values of the fields on the page, and the user changing a field. *)
Class FormLib (V : Type) := {
  form : Type; useForm : form;
  getFieldValue : string -> form -> option V;
  mounted_fields : form -> list string;
  setFieldsValue : list (string * option V) -> form -> form;
  render : list string -> form -> form;
  user_sets : string -> option V -> form -> form
}.
#[global] Arguments form V {_}.

(** [getFieldsValue] without arguments reads the fields on the page; [setFieldsValue] writes all
    it is given. *)
Definition getFieldsValue {V} `{FormLib V} (f : form V) : list (string * option V) :=
  map (fun k => (k, getFieldValue k f)) (mounted_fields f).

Definition assoc {A} (k : string) (l : list (string * A)) : option A := snd <$> find (fun p => bool_decide (fst p = k)) l.

Class FormLaws (V : Type) `{FormLib V} : Prop := {
  get_new k : getFieldValue k useForm = None;
  get_set k l f : getFieldValue k (setFieldsValue l f) = match assoc k l with Some v => v | None => getFieldValue k f end;
  get_render k ks f : getFieldValue k (render ks f) = getFieldValue k f;
  get_user k k' v f : getFieldValue k (user_sets k' v f) = if bool_decide (k = k') then v else getFieldValue k f;
  fields_set l f : mounted_fields (setFieldsValue l f) = mounted_fields f;
  fields_render ks f : mounted_fields (render ks f) = ks;
  fields_user k v f : mounted_fields (user_sets k v f) = mounted_fields f
}.

(** Forms as their values and their fields. *)
Definition plain_forms V : FormLib V := {|
  form := (string -> option V) * list string; useForm := (fun _ => None, []);
  getFieldValue k f := fst f k; mounted_fields := snd;
  setFieldsValue l f := (fun k => match assoc k l with Some v => v | None => fst f k end, snd f);
  render ks f := (fst f, ks);
  user_sets k v f := (fun k' => if bool_decide (k' = k) then v else fst f k', snd f)
|}.
Lemma plain_form_laws V : FormLaws V (H := plain_forms V).
Proof. by split. Qed.

