(* ===== verification/UserProfile.v ===== *)
(** * The page of the user profile (apps/UserProfile/components)

    Module [Share] is the dialog that shares the session, Module [SignOut] its end, Module
    [Prometheus] the form of the address of Prometheus and Module [SSO] that of single sign-on.
    The two forms keep what a click on Cancel restores; they are written over the class [FormLib]
    of what they use of the forms of antd, and the second asks through [ClientRequest]. *)

From Stdlib Require Import QArith.
From S2P Require Import Prelude JsString JsNumber ClientRequest FormLib Session.
Local Open Scope Z_scope.

(** ** Sharing the session *)

Module Share.
(** What the dialog uses of dayjs, on times in milliseconds. *)
Class DayEnd := endOfDay : Z -> Z.

(** The end of a day is its last millisecond. *)
Class DayEndLaws `{DayEnd} : Prop := {
  endOfDay_ge t : t <= endOfDay t;
  endOfDay_last t : endOfDay t mod 1000 = 999
}.

Definition unix (t : Z) : Z := t / 1000.
Definition dayjs_unix (s : Z) : Z := s * 1000.

Definition SHARE_SESSION_EXPIRY_HOURS : list Q :=
  [(1#4)%Q; (1#2)%Q; 1%Q; 2%Q; 3%Q; 6%Q; 12%Q; 24%Q; inject_Z (24 * 3); inject_Z (24 * 7); inject_Z (24 * 30); inject_Z (24 * 365)].

Definition expire_options : list Q := SHARE_SESSION_EXPIRY_HOURS ++ [0%Q; (-1)%Q].

Record Values := mkValues { expire : option Q; expireCustom : option Z; read_only : option bool }.
Definition initialValues : Values := mkValues (Some 3%Q) None (Some true).

Record CodeShareRequest := mkRequest { expire_in_sec : Q; revoke_write_priv : bool }.

Section Share.
Context `{DayEnd}.

Definition disabledDate (now date : Z) : bool := dayjs_unix (unix date) <? endOfDay now.

(** The rules of the fields: the date is on the form only if a date is to be chosen. *)
Definition valid (v : Values) : bool :=
  match expire v with
  | None => false
  | Some q => if Qeq_bool q 0 then bool_decide (is_Some (expireCustom v)) else true
  end.

(** None: there is no date to take the end of. *)
Definition expireInSec (now : Z) (v : Values) : option Q :=
  match expire v with
  | Some q =>
      if Qeq_bool q 0 then
        (fun date => inject_Z (unix (endOfDay (dayjs_unix (unix date))) - unix now)) <$> expireCustom v
      else if Qeq_bool q (-1) then Some (inject_Z (100 * 365 * 24 * 60 * 60))
      else Some (q * 60 * 60)%Q
  | None => None
  end.

Record WhoAmI := mkWho { is_shareable : option bool }.
Definition button_enabled (whoAmI : option WhoAmI) : bool :=
  match whoAmI with Some w => default false (is_shareable w) | None => false end.

Record State := mkState {
  visible : bool; isPosting : bool; code : option string; isCopied : bool;
  requests : list CodeShareRequest    (* in flight *)
}.
Definition initial : State := mkState false false None false [].

Definition handleOpen (whoAmI : option WhoAmI) (s : State) : State :=
  if button_enabled whoAmI then mkState true (isPosting s) (code s) (isCopied s) (requests s) else s.
Definition handleClose (s : State) : State := mkState false false None false (requests s).
Definition handleCopy (s : State) : State := mkState (visible s) (isPosting s) (code s) true (requests s).

(** The form is in the dialog, and its button cannot be clicked while it is loading. *)
Definition handleFinish (now : Z) (v : Values) (s : State) : State :=
  if visible s && negb (isPosting s) && valid v then
    match expireInSec now v with
    | Some e => mkState (visible s) true (code s) (isCopied s) (requests s ++ [mkRequest e (default false (read_only v))])
    | None => s
    end
  else s.

(** The answer to the n-th request in flight, or None for an error. *)
Definition share_response (n : nat) (r : option (option string)) (s : State) : State :=
  match requests s !! n with
  | None => s
  | Some _ =>
      let s := mkState (visible s) (isPosting s) (match r with Some c => c | None => code s end) (isCopied s) (delete n (requests s)) in
      mkState (visible s) false (code s) (isCopied s) (requests s)
  end.

Definition code_dialog (s : State) : option string :=
  match code s with Some c => if truthy c then Some c else None | None => None end.

(** Values that the fields offer: an option of the list and a date that is not disabled. *)
Definition offered (now : Z) (v : Values) : Prop :=
  (forall q, expire v = Some q -> q ∈ expire_options) /\ (forall d, expireCustom v = Some d -> disabledDate now d = false).

Inductive step : State -> State -> Prop :=
| step_open s who : step s (handleOpen who s)
| step_close s : step s (handleClose s)
| step_copy s : step s (handleCopy s)
| step_finish s now v : offered now v -> step s (handleFinish now v s)
| step_response s n r : step s (share_response n r s).
End Share.

(** The button that revokes what was shared, and the message after it. *)
Definition revoke_enabled := button_enabled.
Definition revoke (ok : bool) (success_message : string) : option string := if ok then Some success_message else None.
End Share.

(** ** Signing out *)

Module SignOut.
Inductive Leave := Href (url : string) | Reload.

(** The request of [handleLogout]. *)
Definition request (protocol host pathname : string) : string := getBaseURL protocol host pathname.

(** The rest, with the answer, or None for an error. *)
Definition handleLogout {User} (resp : option (option string)) (s : Session User) : Session User * Leave :=
  let signOutURL := match resp with Some end_session_url => end_session_url | None => None end in
  (clearAuthToken s,
   match signOutURL with Some u => if truthy u then Href u else Reload | None => Reload end).
End SignOut.

(** ** The address of Prometheus *)

Module Prometheus.
Record Addr := mkAddr { customized_addr : option string; deployed_addr : option string }.

Section Form.
Context `{FormLib string}.

Record State := mkState {
  fm : form string; isChanged : bool; isPosting : bool;
  loading : bool; data : option Addr;
  isInitialLoad : bool; initialForm : option (list (string * option string));
  posting : list string          (* the addresses of the requests in flight *)
}.

Definition on_form (f : form string) (s : State) : State :=
  mkState f (isChanged s) (isPosting s) (loading s) (data s) (isInitialLoad s) (initialForm s) (posting s).
Definition setIsChanged (b : bool) (s : State) : State :=
  mkState (fm s) b (isPosting s) (loading s) (data s) (isInitialLoad s) (initialForm s) (posting s).
Definition set_posting (b : bool) (l : list string) (s : State) : State :=
  mkState (fm s) (isChanged s) b (loading s) (data s) (isInitialLoad s) (initialForm s) l.
Definition set_initial (s : State) : State :=
  mkState (fm s) (isChanged s) (isPosting s) (loading s) (data s) (isInitialLoad s) (Some (getFieldsValue (fm s))) (posting s).
Definition on_load (d : option Addr) (b : bool) (s : State) : State :=
  mkState (fm s) (isChanged s) (isPosting s) false d b (initialForm s) (posting s).

(** The fields the page renders for the values of the form. *)
Definition fields (f : form string) : list string :=
  "sourceType" :: (if bool_decide (getFieldValue "sourceType" f = Some "custom") then ["customAddr"] else []).
Definition rerender (s : State) : State := on_form (render (fields (fm s)) (fm s)) s.

Definition initial : State := rerender (mkState useForm false false true None true None []).

(** The answer to the request for the address, and the effect after it. *)
Definition load (r : option Addr) (s : State) : State :=
  if negb (loading s) then s
  else
    match r with
    | None => on_load None (isInitialLoad s) s
    | Some d =>
        if negb (isInitialLoad s) then on_load r false s
        else
          let s := on_load r false s in
          let addr := default "" (customized_addr d) in
          let s := on_form (setFieldsValue
            [("sourceType", Some (if 0 <? js_length addr then "custom" else "deployment")); ("customAddr", customized_addr d)] (fm s)) s in
          rerender (set_initial s)
    end.

(** The user changes a field. *)
Definition field_enabled (isWriteable : bool) (k : string) (s : State) : bool :=
  isWriteable && (bool_decide (k = "customAddr") || negb (loading s) && bool_decide (is_Some (data s))).
Definition change (isWriteable : bool) (k : string) (v : option string) (s : State) : State :=
  if field_enabled isWriteable k s && bool_decide (k ∈ mounted_fields (fm s))
  then rerender (setIsChanged true (on_form (user_sets k v (fm s)) s)) else s.

(** The address of a custom source is required. *)
Definition valid (f : form string) : bool :=
  negb (bool_decide ("customAddr" ∈ mounted_fields f)) || truthy (default "" (getFieldValue "customAddr" f)).

Definition handleFinish (s : State) : State :=
  if isChanged s && negb (isPosting s) && valid (fm s) then
    let values := getFieldsValue (fm s) in
    let address :=
      match assoc "sourceType" values with
      | Some (Some "custom") => match assoc "customAddr" values with Some (Some a) => a | _ => "" end
      | _ => ""
      end in
    set_posting true (posting s ++ [address]) s
  else s.

(** The answer to the n-th request in flight: the address as the server writes it, or an error. *)
Definition saved (n : nat) (r : option (option string)) (s : State) : State :=
  match posting s !! n with
  | None => s
  | Some _ =>
      let s := set_posting (isPosting s) (delete n (posting s)) s in
      match r with
      | None => set_posting false (posting s) s
      | Some normalized_address =>
          let s := on_form (setFieldsValue [("customAddr", Some (default "" normalized_address))] (fm s)) s in
          rerender (set_posting false (posting s) (setIsChanged false (set_initial s)))
      end
  end.

Definition handleCancel (s : State) : State :=
  if isChanged s then rerender (setIsChanged false (on_form (setFieldsValue (default [] (initialForm s)) (fm s)) s)) else s.

(** The source the server uses: an address, or the deployed one. *)
Definition source (a : string) : string := if truthy a then "custom" else "deployment".
Definition shows (a : string) (f : form string) : Prop :=
  getFieldValue "sourceType" f = Some (source a) /\ (a <> "" -> getFieldValue "customAddr" f = Some a).

(** Steps of the form with the address the server has customized ("" for none), while nothing is
    changed on the form as long as a change is on its way, and Cancel is only clicked where it
    has an address to restore. *)
Inductive step : State * string -> State * string -> Prop :=
| step_load s a d : default "" (customized_addr d) = a -> step (s, a) (load (Some d) s, a)
| step_load_failed s a : step (s, a) (load None s, a)
| step_source s a w v : posting s = [] -> v ∈ ["custom"; "deployment"] -> step (s, a) (change w "sourceType" (Some v) s, a)
| step_address s a w v : posting s = [] -> step (s, a) (change w "customAddr" v s, a)
| step_finish s a : step (s, a) (handleFinish s, a)
| step_saved s a n : (forall x, posting s = [x] -> x = "" <-> n = "") -> posting s <> [] -> step (s, a) (saved 0 (Some (Some n)) s, n)
| step_failed s a n : step (s, a) (saved n None s, a)
| step_cancel s a : posting s = [] -> a = "" \/ is_Some (initialForm s ≫= assoc "customAddr") -> step (s, a) (handleCancel s, a).
End Form.
End Prometheus.

(** ** The form of the address shows what the server uses *)

Section PrometheusFacts.
Context `{FormLaws string}.
Import Prometheus.
Implicit Types (s : State) (a : string) (f : form string).

Lemma source_custom a : source a = "custom" <-> a <> "".
Proof. unfold source. destruct (truthy a) eqn:Ha; [rewrite <- truthy_string_spec; done|]. split; [done|]. intros Hn%truthy_string_spec. congruence. Qed.

(** What is kept for Cancel, the values of the fields on the page. *)
Definition restores a (l : list (string * option string)) : Prop :=
  assoc "sourceType" l = Some (Some (source a)) /\ (forall v, assoc "customAddr" l = Some v -> a <> "" -> v = Some a).

Definition loaded_ok s a : Prop :=
  loading s = false /\ (exists l, initialForm s = Some l /\ restores a l) /\
  (exists t, getFieldValue "sourceType" (fm s) = Some t /\ t ∈ ["custom"; "deployment"]) /\
  (isChanged s = false -> shows a (fm s)) /\
  (forall x, posting s = [x] -> isChanged s = true /\ (x = "" <-> getFieldValue "sourceType" (fm s) = Some "deployment")).

Definition unloaded_ok s : Prop :=
  data s = None /\ isChanged s = false /\ posting s = [] /\ initialForm s = None /\ getFieldValue "sourceType" (fm s) = None.

Definition prom_ok (p : State * string) : Prop :=
  mounted_fields (fm (fst p)) = fields (fm (fst p)) /\ (length (posting (fst p)) <= 1)%nat /\
  isPosting (fst p) = bool_decide (posting (fst p) <> []) /\
  if isInitialLoad (fst p) then unloaded_ok (fst p) else loaded_ok (fst p) (snd p).

Lemma fields_get f f' : getFieldValue "sourceType" f = getFieldValue "sourceType" f' -> fields f = fields f'.
Proof. unfold fields. by intros ->. Qed.

Lemma rerender_get k s : getFieldValue k (fm (rerender s)) = getFieldValue k (fm s).
Proof. apply get_render. Qed.

Lemma rerender_fields s : mounted_fields (fm (rerender s)) = fields (fm (rerender s)).
Proof. cbn. rewrite fields_render. apply fields_get. symmetry. apply get_render. Qed.

Lemma values_on_page f : mounted_fields f = fields f ->
  assoc "sourceType" (getFieldsValue f) = Some (getFieldValue "sourceType" f) /\
  assoc "customAddr" (getFieldsValue f) =
    if bool_decide (getFieldValue "sourceType" f = Some "custom") then Some (getFieldValue "customAddr" f) else None.
Proof. intros Hm. unfold getFieldsValue. rewrite Hm. unfold fields. by case_bool_decide. Qed.

Lemma initial_prom a : prom_ok (initial, a).
Proof.
  split_and!; [apply rerender_fields|cbn; lia|done|]. split_and!; try done. unfold initial. cbn [fst]. rewrite rerender_get. apply get_new.
Qed.

Lemma load_prom s a d : default "" (customized_addr d) = a -> prom_ok (s, a) -> prom_ok (load (Some d) s, a).
Proof.
  intros Ha Hp. unfold load. destruct (loading s) eqn:Hl; [|done]. cbn [negb].
  destruct Hp as (Hm & Hn & Hq & Hi). cbn [fst snd] in *. destruct (isInitialLoad s) eqn:Hil; cbn [negb].
  2:{ destruct Hi as (Hl' & _). congruence. }
  destruct Hi as (Hd & Hc & Hpo & _ & Hg). unfold prom_ok. cbn [fst snd]. split_and!.
  - apply rerender_fields.
  - by cbn.
  - by cbn.
  - set (s1 := on_form _ _).
    assert (Hsrc : getFieldValue "sourceType" (fm s1) = Some (source a)).
    { cbn. rewrite get_set. cbn. rewrite Ha. do 2 f_equal. by destruct a. }
    assert (Hpage : assoc "sourceType" (getFieldsValue (fm s1)) = Some (Some (source a)) /\ assoc "customAddr" (getFieldsValue (fm s1)) = None).
    { unfold getFieldsValue. replace (mounted_fields (fm s1)) with ["sourceType"]; [by rewrite <- Hsrc|].
      cbn. rewrite fields_set, Hm. unfold fields. by rewrite Hg. }
    destruct Hpage as [P1 P2]. split_and!; [done| | | |].
    + exists (getFieldsValue (fm s1)). split; [done|]. split; [done|]. rewrite P2. done.
    + exists (source a). rewrite rerender_get. split; [done|]. unfold source. destruct (truthy a); set_solver.
    + intros _. split; [by rewrite rerender_get|]. intros Hne. rewrite rerender_get. cbn. rewrite get_set. cbn.
      rewrite <- Ha in Hne |- *. by destruct (customized_addr d).
    + cbn. rewrite Hpo. done.
Qed.

Lemma change_prom s a w k v : posting s = [] -> (k = "sourceType" -> exists t, v = Some t /\ t ∈ ["custom"; "deployment"]) ->
  k ∈ ["sourceType"; "customAddr"] -> prom_ok (s, a) -> prom_ok (change w k v s, a).
Proof.
  intros Hpo Hv Hk (Hm & Hn & Hq & Hi). unfold change. destruct (_ && _) eqn:Hg; [|done]. cbn [fst snd] in *.
  apply andb_true_iff in Hg as [He Hmt%bool_decide_eq_true]. split_and!; [apply rerender_fields|done|done|]. cbn [fst snd].
  cbn [isInitialLoad rerender on_form setIsChanged]. destruct (isInitialLoad s).
  - exfalso. destruct Hi as (Hd & _ & _ & _ & Hs). unfold field_enabled in He. rewrite Hd in He.
    rewrite Hm in Hmt. unfold fields in Hmt. rewrite Hs in Hmt. cbn in Hmt. apply list_elem_of_singleton in Hmt. subst k.
    rewrite (bool_decide_eq_false_2 (is_Some None)) in He by (by intros [? ?]). by rewrite !andb_false_r in He.
  - destruct Hi as (Hl & Hr & (t & Ht & Hin) & _ & _). split_and!; [done|done| |done|].
    + cbn. rewrite get_render, get_user. destruct (decide ("sourceType" = k)) as [<-|Hne]; [by apply Hv|].
      rewrite bool_decide_eq_false_2 by done. by exists t.
    + cbn. intros x Hx. rewrite Hpo in Hx. done.
Qed.

Lemma finish_prom s a : prom_ok (s, a) -> prom_ok (handleFinish s, a).
Proof.
  intros (Hm & Hn & Hq & Hi). unfold handleFinish. destruct (_ && _) eqn:Hg; [|done]. cbn [fst snd] in *.
  apply andb_true_iff in Hg as [[Hc Hpo%negb_true_iff]%andb_true_iff Hv].
  rewrite Hpo in Hq. symmetry in Hq. apply bool_decide_eq_false, dec_stable in Hq. rewrite Hq in *. cbn [app].
  split_and!; [done|done|done|]. cbn [fst snd isInitialLoad set_posting].
  destruct (isInitialLoad s); [destruct Hi as (_ & Hf & _); congruence|].
  destruct Hi as (Hl & Hr & (t & Ht & Hin) & Hsh & _). split_and!; [done|done|by exists t|done|].
  intros x [= <-]. split; [done|]. destruct (values_on_page _ Hm) as [-> ->]. cbn [fm set_posting]. rewrite Ht.
  unfold valid in Hv. rewrite Hm in Hv. unfold fields in Hv. rewrite Ht in Hv.
  rewrite !elem_of_cons, elem_of_nil in Hin. destruct Hin as [->|[->|[]]]; [|done]. cbn in Hv |- *.
  destruct (getFieldValue "customAddr" (fm s)) as [x|]; [|done]. cbn in Hv. apply truthy_string_spec in Hv. split; [done|]. by intros [=].
Qed.

Lemma saved_prom s a n : (forall x, posting s = [x] -> x = "" <-> n = "") -> posting s <> [] -> prom_ok (s, a) ->
  prom_ok (saved 0 (Some (Some n)) s, n).
Proof.
  intros Hx Hne (Hm & Hn & Hq & Hi). cbn [fst snd] in *. unfold saved. destruct (posting s) as [|x [|y l]] eqn:Hpo; [done| |cbn in Hn; lia].
  cbn [lookup list_lookup delete list_delete]. specialize (Hx x eq_refl).
  destruct (isInitialLoad s) eqn:Hil; [destruct Hi as (_ & _ & Hp & _); congruence|].
  destruct Hi as (Hl & _ & (t & Ht & Hin) & _ & Hp). destruct (Hp x Hpo) as [_ Hsrc].
  assert (Hs : Some t = Some (source n)).
  { rewrite Ht in Hsrc. rewrite !elem_of_cons, elem_of_nil in Hin.
    destruct (decide (n = "")) as [->|Hnn]; [destruct Hin as [->|[->|[]]]; [|done]; by pose proof (proj1 Hsrc (proj2 Hx eq_refl))|].
    rewrite (proj2 (source_custom n) Hnn). destruct Hin as [->|[->|[]]]; [done|]. destruct Hnn. by apply Hx, Hsrc. }
  unfold prom_ok. cbn [fst snd]. split_and!; [apply rerender_fields|cbn; lia|done|]. cbn [isInitialLoad rerender on_form set_posting setIsChanged set_initial]. rewrite Hil.
  set (f := setFieldsValue [("customAddr", Some (default "" (Some n)))] (fm s)).
  assert (Hf : getFieldValue "sourceType" f = Some (source n) /\ getFieldValue "customAddr" f = Some n).
  { unfold f. rewrite !get_set. cbn. by rewrite Ht, Hs. }
  destruct Hf as [F1 F2].
  destruct (values_on_page f) as [P1 P2].
  { unfold f. rewrite fields_set, Hm. apply fields_get. unfold f. rewrite get_set. by cbn. }
  split_and!; [done| | | |done].
  - exists (getFieldsValue f). split; [done|]. split; [by rewrite P1, F1|]. rewrite P2, F2. by case_bool_decide; intros v [= <-].
  - exists (source n). cbn. rewrite get_render. split; [done|]. unfold source. destruct (truthy n); set_solver.
  - intros _. split; intros; cbn; by rewrite get_render.
Qed.

Lemma failed_prom s a n : prom_ok (s, a) -> prom_ok (saved n None s, a).
Proof.
  intros (Hm & Hn & Hq & Hi). cbn [fst snd] in *. unfold saved. destruct (posting s !! n) as [x|] eqn:Hx; [|done].
  assert (Hd : delete n (posting s) = []).
  { pose proof (length_delete (posting s) n ltac:(by eexists)) as Hl. pose proof (lookup_lt_Some _ _ _ Hx). apply nil_length_inv. lia. }
  rewrite Hd. split_and!; [done|cbn; lia|done|]. cbn [fst snd isInitialLoad set_posting]. destruct (isInitialLoad s).
  - by destruct Hi as (? & ? & ? & ? & ?).
  - destruct Hi as (? & ? & ? & ? & ?). by split_and!.
Qed.

Lemma cancel_prom s a : posting s = [] -> a = "" \/ is_Some (initialForm s ≫= assoc "customAddr") ->
  prom_ok (s, a) -> prom_ok (handleCancel s, a).
Proof.
  intros Hpo Hc (Hm & Hn & Hq & Hi). cbn [fst snd] in *. unfold handleCancel. destruct (isChanged s) eqn:Hch; [|done].
  split_and!; [apply rerender_fields|done|done|]. cbn [fst snd isInitialLoad rerender on_form setIsChanged].
  destruct (isInitialLoad s); [destruct Hi as (_ & Hf & _); congruence|].
  destruct Hi as (Hl & (l & Hil & R1 & R2) & _). rewrite Hil in *. cbn [default].
  assert (Hs : getFieldValue "sourceType" (setFieldsValue l (fm s)) = Some (source a)) by (by rewrite get_set, R1).
  split_and!; [done|by exists l| | |].
  - exists (source a). cbn. rewrite get_render. split; [done|]. unfold source. destruct (truthy a); set_solver.
  - intros _. split; cbn; [by rewrite get_render|]. intros Hne. destruct Hc as [?|[v Hv]]; [done|]. cbn in Hv.
    rewrite get_render, get_set, Hv. by apply R2.
  - cbn. intros x Hx. rewrite Hpo in Hx. done.
Qed.

Lemma prom_step_ok p p' : step p p' -> prom_ok p -> prom_ok p'.
Proof.
  intros Hs Hp. destruct Hs as [s a d Ha|s a|s a w v Hpo Hv|s a w v Hpo|s a|s a n Hx Hne|s a n|s a Hpo Hc].
  - by apply load_prom.
  - unfold load. destruct (loading s) eqn:Hl; [|done]. destruct Hp as (Hm & Hn & Hq & Hi). cbn [negb fst snd] in *.
    split_and!; [done|done|done|]. cbn [fst snd isInitialLoad on_load]. destruct (isInitialLoad s); [by destruct Hi as (? & ? & ? & ? & ?)|].
    destruct Hi as (? & ?). congruence.
  - apply change_prom; [done| |set_solver|done]. intros _. eauto.
  - apply change_prom; [done|done|set_solver|done].
  - by apply finish_prom.
  - by apply (saved_prom s a).
  - by apply failed_prom.
  - by apply cancel_prom.
Qed.

(** The form of the address of Prometheus: once the address has been loaded, a form without changes
    shows the source the server uses and its address, after any number of changes that were
    saved, refused or cancelled; at most one change is on its way and the button is locked exactly
    then; and before that nothing can be changed.  Nothing is changed while a change is on its way,
    and Cancel is clicked where an address is kept for it. *)
Theorem prometheus_form_in_step a0 s a : rtc step (initial, a0) (s, a) ->
  (length (posting s) <= 1)%nat /\ (isPosting s = true <-> posting s <> []) /\
  (isInitialLoad s = true -> isChanged s = false /\ posting s = []) /\
  (isInitialLoad s = false -> isChanged s = false -> shows a (fm s)).
Proof.
  intros Hs. assert (Hp : prom_ok (s, a)).
  { pose proof (initial_prom a0) as Hi. revert Hi. induction Hs as [|p q r Hpq _ IH]; [done|]. intros Hi. apply IH. by eapply prom_step_ok. }
  destruct Hp as (_ & Hn & Hq & Hi). cbn [fst snd] in *. split_and!; [done|by rewrite Hq, bool_decide_eq_true| |].
  - intros E. rewrite E in Hi. by destruct Hi as (_ & ? & ? & _).
  - intros E. rewrite E in Hi. by destruct Hi as (_ & _ & _ & ? & _).
Qed.

(** Where the address was customized before the page was opened, what is kept for Cancel has no
    address, since its field was not yet on the page: Cancel leaves the text that was typed. *)
Lemma cancel_keeps_address d a t : customized_addr d = Some a -> a <> "" -> t <> a ->
  let s := handleCancel (change true "customAddr" (Some t) (load (Some d) initial)) in
  isChanged s = false /\ getFieldValue "sourceType" (fm s) = Some "custom" /\ getFieldValue "customAddr" (fm s) = Some t.
Proof.
  intros Ha Hne Ht. set (s1 := load (Some d) initial).
  destruct a as [|c0 a0]; [done|]. set (a := String c0 a0) in *. assert (Hl : (0 <? js_length a) = true) by done. clearbody a.
  assert (H1 : fm s1 = render ["sourceType"; "customAddr"] (setFieldsValue [("sourceType", Some "custom"); ("customAddr", Some a)] (fm initial)) /\
    initialForm s1 = Some [("sourceType", Some "custom")]).
  { unfold s1, load. cbn -[js_length]. rewrite Ha. cbn -[js_length]. rewrite Hl. unfold fields, getFieldsValue. rewrite !get_set, fields_set, !get_render, get_new.
    cbn. rewrite fields_render. cbn. by rewrite get_set. }
  destruct H1 as [F1 I1]. assert (Hd : loading s1 = false /\ data s1 = Some d) by (unfold s1; cbn; done).
  destruct Hd as [L1 D1]. clearbody s1.
  assert (Hc : change true "customAddr" (Some t) s1 = rerender (setIsChanged true (on_form (user_sets "customAddr" (Some t) (fm s1)) s1))).
  { unfold change. rewrite F1, fields_render. reflexivity. }
  rewrite Hc. unfold handleCancel. cbn. rewrite I1, F1. split; [done|]. rewrite !get_render, !get_set. cbn. split; [done|].
  by rewrite get_render, get_user.
Qed.
End PrometheusFacts.

(** ** Single sign-on *)

Module SSO.
Record Impersonation := mkImp { sql_user : option string; last_impersonate_status : option string }.

(** The values of the fields. *)
Inductive V := VText (s : string) | VBool (b : bool) | VUser (u : Impersonation).

Definition isImpersonationNotFailed (imp : option Impersonation) : bool :=
  match imp with
  | Some i => negb (bool_decide (last_impersonate_status i = Some "auth_fail")) &&
              negb (bool_decide (last_impersonate_status i = Some "insufficient_privileges"))
  | None => false
  end.

(** What the input of the user shows. *)
Inductive Status := Ok | AuthFailed | InsufficientPrivileges.
Definition status (value : option Impersonation) : option Status :=
  match value with
  | None => None
  | Some i =>
      if isImpersonationNotFailed value then Some Ok
      else if bool_decide (last_impersonate_status i = Some "auth_fail") then Some AuthFailed
      else if bool_decide (last_impersonate_status i = Some "insufficient_privileges") then Some InsufficientPrivileges
      else None
  end.

(** The user in the dialog that authenticates one: the one there is, or root. *)
Definition initial_user (value : option Impersonation) : string :=
  match value with Some i => js_or (sql_user i) "root" | None => "root" end.

Section Form.
Context `{FormLib V} {E : Type}.

Abbreviation Values := (list (string * option V)).

Record State := mkState {
  fm : form V; isChanged : bool; isPosting : bool;
  config : Hook Values E unit;               (* userSSOGetConfig *)
  imp : Hook (list Impersonation) E unit;    (* userSSOListImpersonations *)
  initialForm : option Values;
  posting : list Values;                     (* userSSOSetConfig in flight *)
  modalVisible : bool; authPosting : bool    (* the dialog of the user *)
}.

Definition on_form f s := mkState f (isChanged s) (isPosting s) (config s) (imp s) (initialForm s) (posting s) (modalVisible s) (authPosting s).
Definition setIsChanged b s := mkState (fm s) b (isPosting s) (config s) (imp s) (initialForm s) (posting s) (modalVisible s) (authPosting s).
Definition set_posting b l s := mkState (fm s) (isChanged s) b (config s) (imp s) (initialForm s) l (modalVisible s) (authPosting s).
Definition on_config h s := mkState (fm s) (isChanged s) (isPosting s) h (imp s) (initialForm s) (posting s) (modalVisible s) (authPosting s).
Definition on_imp h s := mkState (fm s) (isChanged s) (isPosting s) (config s) h (initialForm s) (posting s) (modalVisible s) (authPosting s).
Definition set_initial l s := mkState (fm s) (isChanged s) (isPosting s) (config s) (imp s) (Some l) (posting s) (modalVisible s) (authPosting s).
Definition on_modal v p s := mkState (fm s) (isChanged s) (isPosting s) (config s) (imp s) (initialForm s) (posting s) v p.

Definition config_of (s : State) : option Values := data (ClientRequest.state (config s)).
Definition send {D} (h : Hook D E unit) : Hook D E unit := ClientRequest.sendRequest true (fun _ => tt) (fun _ => tt) h.

Definition enabled (f : form V) : bool :=
  match getFieldValue "enabled" f with Some (VBool b) => b | Some (VText t) => truthy t | Some (VUser _) => true | None => false end.

(** The fields the page renders: the switch, and the others while it is on.  The fields are on the
    page while the configuration is loaded, too: [loading] is not the property that hides them. *)
Definition fields (c : option Values) (f : form V) : list string :=
  "enabled" ::
  (if enabled f then
     ["client_id"] ++
     (match c with Some l => match assoc "client_secret" l with Some (Some _) => ["client_secret"] | _ => [] end | None => [] end) ++
     ["scopes"; "discovery_url"; "user_authenticated"; "is_read_only"]
   else []).
Definition rerender (s : State) : State := on_form (render (fields (config_of s) (fm s)) (fm s)) s.

Definition mount_hook {D} : Hook D E unit := ClientRequest.mount true true (fun _ => tt) (fun _ => tt) (fun _ => tt) (new true tt).
Definition initial : State := rerender (mkState useForm false false mount_hook mount_hook None [] false false).

(** The effect of a changed configuration, and that of a changed list of users. *)
Definition configEffect (s : State) : State :=
  match config_of s with
  | Some c => set_initial c (on_form (setFieldsValue c (fm s)) s)
  | None => s
  end.
Definition impEffect (s : State) : State :=
  match data (ClientRequest.state (imp s)) with
  | Some impData =>
      let update := [("user_authenticated", VUser <$> head impData)] in
      (* [{ ...initialForm.current, ...update }] *)
      set_initial (update ++ default [] (initialForm s)) (on_form (setFieldsValue update (fm s)) s)
  | None => s
  end.

Definition config_answer (t : nat) (r : Values + E) (s : State) : State :=
  rerender (configEffect (rerender (on_config (resume (fun _ => tt) t r (config s)) s))).
Definition imp_answer (t : nat) (r : list Impersonation + E) (s : State) : State :=
  rerender (impEffect (rerender (on_imp (resume (fun _ => tt) t r (imp s)) s))).

Definition handleCancel (s : State) : State :=
  if isChanged s then rerender (setIsChanged false (on_form (setFieldsValue (default [] (initialForm s)) (fm s)) s)) else s.

(** The user changes a field other than the one of the user. *)
Definition change (isWriteable : bool) (k : string) (v : option V) (s : State) : State :=
  if isWriteable && bool_decide (k ∈ mounted_fields (fm s))
  then rerender (setIsChanged true (on_form (user_sets k v (fm s)) s)) else s.

Definition filled (k : string) (f : form V) : bool :=
  match getFieldValue k f with Some (VText t) => truthy t | Some _ => true | None => false end.

(** The rules of the fields on the page. *)
Definition valid (f : form V) : bool :=
  forallb (fun k => negb (bool_decide (k ∈ mounted_fields f)) || filled k f) ["client_id"; "discovery_url"; "user_authenticated"].

Definition handleFinish (s : State) : State :=
  if isChanged s && negb (isPosting s) && valid (fm s) then set_posting true (posting s ++ [getFieldsValue (fm s)]) s else s.

(** The answer to the n-th change on its way. *)
Definition saved (n : nat) (ok : bool) (s : State) : State :=
  match posting s !! n with
  | None => s
  | Some _ =>
      let s := set_posting (isPosting s) (delete n (posting s)) s in
      let s := if ok then rerender (setIsChanged false (on_config (send (config s)) s)) else s in
      set_posting false (posting s) s
  end.

(** The dialog of the user: opened, closed, sent, and answered. *)
Definition handleAuthnClick (isWriteable : bool) (s : State) : State := if isWriteable then on_modal true (authPosting s) s else s.
Definition handleClose (s : State) : State := on_modal false (authPosting s) s.
Definition auth_finish (s : State) : State := if modalVisible s && negb (authPosting s) then on_modal true true s else s.
Definition auth_answer (r : option Impersonation) (s : State) : State :=
  if negb (authPosting s) then s
  else
    match r with
    | Some u =>
        let s := on_modal false (authPosting s) s in
        let s := setIsChanged true (on_form (user_sets "user_authenticated" (Some (VUser u)) (fm s)) s) in
        rerender (on_modal (modalVisible s) false (on_imp (send (imp s)) s))
    | None => on_modal (modalVisible s) false s
    end.

Inductive step : State -> State -> Prop :=
| step_config s t r : t ∈ pending (config s) -> step s (config_answer t r s)
| step_imp s t r : t ∈ pending (imp s) -> step s (imp_answer t r s)
| step_cancel s : step s (handleCancel s)
| step_change s w k v : k <> "user_authenticated" -> step s (change w k v s)
| step_finish s : step s (handleFinish s)
| step_saved s n ok : step s (saved n ok s)
| step_open s w : step s (handleAuthnClick w s)
| step_close s : step s (handleClose s)
| step_auth s : step s (auth_finish s)
| step_answer s r : step s (auth_answer r s).
End Form.
End SSO.

(** ** The form of single sign-on shows the configuration *)

Lemma assoc_app {A} k (l l' : list (string * A)) : assoc k (l ++ l') = match assoc k l with Some v => Some v | None => assoc k l' end.
Proof. unfold assoc. induction l as [|[k' v] l IH]; [done|]. cbn. case_bool_decide; [done|exact IH]. Qed.

Section SSOFacts.
Context `{FormLaws SSO.V} {E : Type}.
Import SSO.
#[local] Abbreviation State := (SSO.State (E := E)).
Implicit Types s : State.

(** The values of the configuration; the field of the user is not one. *)
Definition agrees (c : list (string * option V)) (get : string -> option (option V)) : Prop :=
  forall k v, k <> "user_authenticated" -> assoc k c = Some v -> get k = Some v.

Definition in_step s : Prop :=
  pending (config s) = [] -> isChanged s = false ->
  forall c, config_of s = Some c -> agrees c (fun k => Some (getFieldValue k (fm s))).

Definition sso_ok s : Prop :=
  ClientRequest.inv (config s) /\ phase (config s) = Mounted /\
  (forall c, config_of s = Some c -> exists l, initialForm s = Some l /\ agrees c (fun k => assoc k l)) /\ in_step s.

(** What the invariant depends on. *)
Lemma sso_same s s' : config s' = config s -> initialForm s' = initialForm s ->
  (isChanged s' = false -> isChanged s = false /\ forall k, k <> "user_authenticated" -> getFieldValue k (fm s') = getFieldValue k (fm s)) ->
  sso_ok s -> sso_ok s'.
Proof.
  intros E1 E2 E3 (Hi & Hp & Hl & Hs). unfold sso_ok, in_step, config_of in *. rewrite E1, E2. split_and!; [done|done|done|].
  intros Hr Hc c Hd k v Hk Ha. destruct (E3 Hc) as [Hc' Hg]. rewrite Hg by done. by apply (Hs Hr Hc' c Hd k v).
Qed.

Lemma rerender_sso s : sso_ok s -> sso_ok (rerender s).
Proof. apply sso_same; [done|done|]. intros Hc. split; [exact Hc|]. intros k _. apply get_render. Qed.

Lemma configEffect_sso s : ClientRequest.inv (config s) -> phase (config s) = Mounted -> sso_ok (configEffect s).
Proof.
  intros Hi Hp. unfold configEffect. destruct (config_of s) as [c|] eqn:Hc.
  - unfold sso_ok, in_step, config_of in *. cbn. split_and!; [done|done| |].
    + intros c' Hc'. rewrite Hc in Hc'. injection Hc' as <-. exists c. split; [done|]. by intros k v _ Hk.
    + intros _ _ c' Hc' k v _ Hk. rewrite Hc in Hc'. injection Hc' as <-. by rewrite get_set, Hk.
  - unfold sso_ok, in_step. rewrite Hc. by split_and!.
Qed.

Lemma impEffect_sso s : sso_ok s -> sso_ok (impEffect s).
Proof.
  intros (Hi & Hp & Hl & Hs). unfold impEffect. destruct (data (ClientRequest.state (imp s))) as [d|]; [|done].
  set (update := [("user_authenticated", VUser <$> head d)]).
  assert (Hu : forall k, k <> "user_authenticated" -> assoc k update = None).
  { intros k Hk. unfold update, assoc. cbn. by rewrite bool_decide_eq_false_2. }
  unfold sso_ok, in_step, config_of in *. cbn -[update]. split_and!; [done|done| |].
  - intros c Hc. destruct (Hl c Hc) as (l & -> & Hal). exists (update ++ l). split; [done|]. intros k v Hk Hv. rewrite assoc_app, Hu by done.
    by apply Hal.
  - intros Hr Hch c Hc k v Hk Hv. rewrite get_set, Hu by done. by apply (Hs Hr Hch c Hc).
Qed.

Lemma sso_send {D} (h : Hook D E unit) : ClientRequest.inv h -> phase h = Mounted ->
  ClientRequest.inv (send h) /\ phase (send h) = Mounted /\ pending (send h) <> [] /\
  data (ClientRequest.state (send h)) = data (ClientRequest.state h).
Proof.
  intros Hi Hp. pose proof (send_inv true (fun _ => tt) (fun _ => tt) h Hi) as Hi'. destruct Hi as (Hm & _ & Hpe). rewrite Hp in *.
  split; [exact Hi'|]. unfold send.
  destruct (send_cases true (fun _ => tt) (fun _ => tt) h) as [Hs|(_ & _ & Hph & _ & _ & _ & Hq & _ & Hst & _)].
  - rewrite Hs. split_and!; [done| |done]. intros Hn. rewrite Hn in Hpe.
    destruct (cancelTokenSource h) eqn:Hc; [done|]. apply (f_equal cancelTokenSource) in Hs. unfold ClientRequest.sendRequest in Hs.
    rewrite Hm, bool_decide_eq_true_2, Hc in Hs by done. done.
  - rewrite Hph, Hq, Hst. split_and!; [done|by destruct (pending h)|done].
Qed.

Lemma cancel_sso s : sso_ok s -> sso_ok (handleCancel s).
Proof.
  intros (Hi & Hp & Hl & Hs). unfold handleCancel. destruct (isChanged s); [|by split_and!]. apply rerender_sso.
  unfold sso_ok, in_step, config_of in *. cbn. split_and!; [done|done|done|].
  intros _ _ c Hc k v Hk Hv. destruct (Hl c Hc) as (l & -> & Hal). cbn. specialize (Hal k v Hk Hv). cbn in Hal. by rewrite get_set, Hal.
Qed.

Lemma saved_sso n ok s : sso_ok s -> sso_ok (saved n ok s).
Proof.
  intros Hs. unfold saved. destruct (posting s !! n) as [x|]; [|done]. destruct ok; [|by apply (sso_same s)].
  set (s1 := rerender _). apply (sso_same s1); [done|done|done|]. apply rerender_sso. destruct Hs as (Hi & Hp & Hl & _).
  destruct (sso_send (config s) Hi Hp) as (S1 & S2 & S3 & S4). unfold sso_ok, in_step, config_of in *. cbn. rewrite S4.
  split_and!; [done|done|done|]. intros Hr. by destruct S3.
Qed.

Lemma sso_step_ok s s' : step s s' -> sso_ok s -> sso_ok s'.
Proof.
  intros Hs Hk. destruct Hs as [s t r Ht|s t r Ht|s|s w k v Hne|s|s n ok|s w|s|s|s r].
  - destruct Hk as (Hi & Hp & _). apply rerender_sso, configEffect_sso; cbn.
    + by apply resume_inv.
    + destruct (resume_frame (fun _ => tt) t r (config s)) as (_ & _ & -> & _). done.
  - by apply rerender_sso, impEffect_sso, rerender_sso, (sso_same s).
  - by apply cancel_sso.
  - unfold change. destruct (_ && _); [|done]. apply rerender_sso, (sso_same s); done.
  - unfold handleFinish. destruct (_ && _); [|done]. by apply (sso_same s).
  - by apply saved_sso.
  - unfold handleAuthnClick. destruct w; [|done]. by apply (sso_same s).
  - by apply (sso_same s).
  - unfold auth_finish. destruct (_ && _); [|done]. by apply (sso_same s).
  - unfold auth_answer. destruct (authPosting s); [|done]. cbn [negb]. destruct r as [u|]; [|by apply (sso_same s)].
    apply rerender_sso. by apply (sso_same s).
Qed.

Lemma initial_sso : sso_ok initial.
Proof.
  apply rerender_sso. unfold sso_ok, in_step, config_of. cbn. split_and!; [split_and!; cbn; [done| |done]|done|done|done].
  intros t Ht%list_elem_of_singleton. lia.
Qed.

(** The form of single sign-on: whatever happens on the page, while its configuration is not being
    asked for and nothing is changed on the form, it shows every value of the configuration that
    was loaded last. *)
Theorem sso_form_in_step s c : rtc step initial s -> pending (config s) = [] -> isChanged s = false -> config_of s = Some c ->
  forall k v, k <> "user_authenticated" -> assoc k c = Some v -> getFieldValue k (fm s) = v.
Proof.
  intros Hs Hr Hc Hd k v Hk Ha. assert (Hok : sso_ok s).
  { clear Hr Hc Hd. pose proof initial_sso as Hi. revert Hi. induction Hs as [|p q r Hpq _ IH]; [done|].
    intros Hi. apply IH. by eapply sso_step_ok. }
  destruct Hok as (_ & _ & _ & Hin). specialize (Hin Hr Hc c Hd k v Hk Ha). by injection Hin.
Qed.

(** A change that is saved while the configuration is being asked for is not followed by a request. *)
Lemma save_during_load s n t : cancelTokenSource (config s) = Some t -> config (saved n true s) = config s.
Proof.
  intros Hc. unfold saved. destruct (posting s !! n); [|done]. cbn. unfold send, ClientRequest.sendRequest. rewrite Hc.
  by destruct (mounted (config s)).
Qed.

(** With the switch off, nothing but the switch is sent: the other fields are not on the page. *)
Lemma disabled_sends_switch s : mounted_fields (fm s) = fields (config_of s) (fm s) -> enabled (fm s) = false ->
  getFieldsValue (fm s) = [("enabled", getFieldValue "enabled" (fm s))] /\ valid (fm s) = true.
Proof. intros Hm He. unfold getFieldsValue, valid. rewrite Hm. unfold fields. rewrite He. by split. Qed.
End SSOFacts.

(** ** Sharing *)

Section ShareFacts.
Import Share.
Context `{DayEndLaws}.

Lemma hours_positive q : q ∈ SHARE_SESSION_EXPIRY_HOURS -> (0 < q)%Q /\ (q <= 24 * 365)%Q /\ Qeq_bool q 0 = false /\ Qeq_bool q (-1) = false /\
  exists z, (q * 60 * 60 == inject_Z z)%Q.
Proof.
  intros Hq. unfold SHARE_SESSION_EXPIRY_HOURS in Hq. rewrite !elem_of_cons, elem_of_nil in Hq.
  repeat (destruct Hq as [->|Hq]; [split_and!; try reflexivity; try (by vm_compute);
    first [by exists 900|by exists 1800|by exists 3600|by exists 7200|by exists 10800|by exists 21600|by exists 43200|by exists 86400
          |by exists 259200|by exists 604800|by exists 2592000|by exists 31536000]|]). done.
Qed.

(** What is asked for when the form is sent: a whole number of seconds, at least one; a hundred
    years if there is to be no end; and otherwise the hours chosen, or up to the end of the day
    chosen. *)
Theorem share_lifetime now v : offered now v -> valid v = true ->
  exists e, expireInSec now v = Some e /\ (0 < e)%Q /\ (exists z, e == inject_Z z)%Q /\
    match expire v with
    | Some q =>
        if Qeq_bool q 0 then exists d, expireCustom v = Some d /\ (inject_Z (unix now) + e == inject_Z (unix (endOfDay (dayjs_unix (unix d)))))%Q
        else if Qeq_bool q (-1) then (e == inject_Z (100 * 365 * 86400))%Q
        else (e == q * 3600)%Q
    | None => False
    end.
Proof.
  intros [Ho Hd] Hv. unfold valid, expireInSec in *. destruct (expire v) as [q|]; [|done]. specialize (Ho q eq_refl).
  unfold expire_options in Ho. apply elem_of_app in Ho as [Hq|Hq].
  - destruct (hours_positive q Hq) as (H1 & _ & H2 & H3 & z & Hz). rewrite H2, H3 in *. eexists. split; [done|]. split_and!.
    + by repeat apply Qmult_lt_0_compat.
    + by exists z.
    + ring.
  - rewrite !elem_of_cons, elem_of_nil in Hq. destruct Hq as [->|[->|[]]]; cbn [Qeq_bool] in *.
    + change (Qeq_bool 0 0) with true in *. cbn in Hv |- *. apply bool_decide_eq_true in Hv as [d Hd']. rewrite Hd'. cbn.
      specialize (Hd d Hd'). unfold disabledDate in Hd. apply Z.ltb_ge in Hd. set (t := dayjs_unix (unix d)) in *.
      pose proof (endOfDay_ge t). pose proof (endOfDay_ge now). pose proof (endOfDay_last now).
      eexists. split; [done|]. split_and!; [|by eexists|exists d; split; [done|]].
      * change 0%Q with (inject_Z 0). rewrite <- Zlt_Qlt. unfold unix.
        assert (now / 1000 < endOfDay t / 1000); [|lia].
        assert (t mod 1000 = 0) by (unfold t, dayjs_unix; apply Z.mod_mul; lia).
        pose proof (Z.div_mod now 1000). pose proof (Z.div_mod (endOfDay now) 1000). pose proof (Z.div_mod t 1000).
        pose proof (Z.div_le_mono t (endOfDay t) 1000). pose proof (Z.mod_pos_bound now 1000). lia.
      * rewrite <- inject_Z_plus. apply inject_Z_injective. unfold t. lia.
    + change (Qeq_bool (-1) 0) with false in *. change (Qeq_bool (-1) (-1)) with true in *. cbn. eexists. split; [done|].
      split_and!; [reflexivity|by eexists|reflexivity].
Qed.

(** Whatever happens with the dialog, a share on its way ends after it was asked for. *)
Lemma shares_end s : rtc step initial s -> Forall (fun r => (0 < expire_in_sec r)%Q) (requests s).
Proof.
  intros Hs. cut (Forall (fun r => (0 < expire_in_sec r)%Q) (requests initial)); [|constructor].
  induction Hs as [|p q r Hpq _ IH]; [done|]. intros Hp. apply IH. clear IH. destruct Hpq as [s who|s|s|s now v Ho|s n a].
  - unfold handleOpen. by destruct (button_enabled who).
  - done.
  - done.
  - unfold handleFinish. destruct (_ && valid v) eqn:Hg; [|done]. apply andb_true_iff in Hg as [_ Hv].
    destruct (share_lifetime now v Ho Hv) as (e & -> & He & _). cbn. apply Forall_app. split; [done|]. by apply Forall_singleton.
  - unfold share_response. destruct (requests s !! n); [|done]. cbn. by apply Forall_delete.
Qed.

(** A code that arrives after the dialog was closed is shown. *)
Lemma late_code_shown s c x : requests s = [x] -> truthy c = true -> code_dialog (share_response 0 (Some (Some c)) (handleClose s)) = Some c.
Proof. intros Hr Hc. unfold share_response. cbn. rewrite Hr. cbn. unfold code_dialog. cbn. by rewrite Hc. Qed.
End ShareFacts.

(** ** Signing out *)

(** Signing out forgets the token and the user whatever the server answers, and leaves for the
    address in the answer if there is one. *)
Lemma signed_out {User} (resp : option (option string)) (s : Session User) :
  getAuthToken (fst (SignOut.handleLogout resp s)) = None \/ getAuthToken s = Some "" /\ fst (SignOut.handleLogout resp s) = s.
Proof.
  unfold SignOut.handleLogout, clearAuthToken, getAuthToken. cbn. destruct (token s) as [t|] eqn:Ht; cbn; [|by left].
  destruct (truthy t) eqn:Htr; [by left|]. right. split; [|done]. destruct (decide (t = "")) as [->|Hn]; [done|].
  apply truthy_string_spec in Hn. congruence.
Qed.

(** A form that was saved is restored by Cancel, address included. *)
Example saved_and_cancelled :
  let _ := plain_forms string in
  let s := Prometheus.load (Some (Prometheus.mkAddr (Some "http://a:1") None)) Prometheus.initial in
  let s := Prometheus.handleFinish (Prometheus.change true "customAddr" (Some "b:2") s) in
  let s := Prometheus.change true "customAddr" (Some "c") (Prometheus.saved 0 (Some (Some "http://b:2")) s) in
  getFieldValue "customAddr" (Prometheus.fm s) = Some "c" /\
  getFieldValue "customAddr" (Prometheus.fm (Prometheus.handleCancel s)) = Some "http://b:2".
Proof. by vm_compute. Qed.
