(* ===== verification/ClusterInfo.v ===== *)
(** * The pages of the cluster (apps/ClusterInfo: HostTable.tsx, DiskTable.tsx, InstanceTable.tsx,
      Statistics.tsx, List.tsx)

    The hosts with the instances on them, counted by kind (Module [Hosts]); their partitions with
    the same count (Module [Disks]); the list of instances over [InstanceTable] with its requests
    (Module [Instances]); the numbers of the whole (Module [Statistics]). *)

From Stdlib Require Import QArith Qround.
From S2P Require Import Prelude JsString JsNumber InstanceTable ClientRequest.
Local Open Scope Z_scope.

(** ** The answer of the server *)

Record CPUInfo := mkCPU { arch : option string; logical_cores : option num; physical_cores : option num }.
Record CPUUsage := mkCPUUsage { idle : option num; system : option num }.
Record MemoryUsage := mkMemory { mem_total : option num; mem_used : option num }.
Record InstanceInfo := mkInstance { partition_path_lower : option string; type : option string }.
Record Partition := mkPartition { free : option num; fstype : option string; path : option string; part_total : option num }.

(** Objects used as dictionaries are lists in the order of their keys; an instance can be null. *)
Record HostInfo := mkHost {
  cpu_info : option CPUInfo; cpu_usage : option CPUUsage; host : option string;
  instances : option (list (string * option InstanceInfo));
  memory_usage : option MemoryUsage;
  partitions : option (list (string * Partition))
}.

(** ** Counting instances *)

(** A record of one number for each kind. *)
Definition Counts : Type := InstanceKind -> nat.
Definition no_instances : Counts := fun _ => 0%nat.

Definition kind_of (i : InstanceInfo) : option InstanceKind :=
  find (fun k => bool_decide (type i = Some (kind_str k))) InstanceKinds.

(** [instancesCount[i.type!]++]; of a type that is no kind, a property is set that nobody reads. *)
Definition count_one (c : Counts) (i : InstanceInfo) : Counts :=
  match kind_of i with
  | Some k => fun k' => if bool_decide (k' = k) then S (c k') else c k'
  | None => c
  end.

(** The column of the instances. *)
Definition instances_text (t : string -> string) (c : Counts) : string :=
  js_join ", " (filter (fun v => 0 <? js_length v = true)
    (map (fun ik => if (0 <? c ik)%nat then show (Z.of_nat (c ik)) +:+ " " +:+ instanceKindName t ik else "") InstanceKinds)).

(** [+x.toFixed(3)] *)
Definition toFixed3 (x : num) : num :=
  match x with Fin q => Fin (inject_Z (Qfloor (q * 1000 + (1 # 2))%Q) / 1000)%Q | _ => x end.

(** What a cell shows; a bar has the values and the capacity of [Bar]. *)
Inductive Cell :=
  Nothing | Text (s : string) | Warning (s : option string) | Name (s : option string) | Usage (tooltip : string) (values : list num) (capacity : num).

Section Tables.
Context (t : string -> string) (valueFormat : string -> num -> option Z -> string).

Definition show_opt (o : option num) : string := match o with Some n => num_show n | None => "undefined" end.
Definition nan_or (o : option num) : num := default NaN o.

(** ** The hosts *)

Record HostRow := mkHostRow { host_key : string; host_counts : Counts; row : HostInfo }.

Definition expandHostItems (rows : list HostInfo) : list HostRow :=
  fold_left (fun expanded r =>
    let instancesCount :=
      fold_left (fun c i => match i with Some i => count_one c i | None => c end) (map snd (default [] (instances r))) no_instances in
    expanded ++ [mkHostRow (default "" (host r)) instancesCount r]) rows [].

Definition host_cell (r : HostInfo) : Cell := match cpu_info r with None => Warning (host r) | Some _ => Name (host r) end.

Definition cpu_cell (r : HostInfo) : Cell :=
  match cpu_info r with
  | None => Nothing
  | Some c => Text (show_opt (physical_cores c) +:+ " (" +:+ show_opt (logical_cores c) +:+ " vCore)")
  end.

Definition arch_cell (r : HostInfo) : Cell :=
  match cpu_info r with
  | Some c => match arch c with Some a => if truthy a then Text a else Text "Unknow" | None => Text "Unknow" end
  | None => Text "Unknow"
  end.

Definition cpu_usage_cell (r : HostInfo) : Cell :=
  match cpu_usage r with
  | None => Nothing
  | Some u =>
      let system := default (num_of_Z 0) (system u) in
      let idle := default (num_of_Z 1) (idle u) in
      let user := num_sub (num_sub (num_of_Z 1) system) idle in
      Usage ("User:   " +:+ valueFormat "percentunit" user None +:+ String (Ascii.ascii_of_nat 10) ("System: " +:+ valueFormat "percentunit" system None))
        [user; system] (num_of_Z 1)
  end.

Definition memory_cell (r : HostInfo) : Cell :=
  match memory_usage r with
  | None => Nothing
  | Some m => Text (valueFormat "bytes" (default (num_of_Z 0) (mem_total m)) (Some 1))
  end.

Definition used_text (used total : num) : string :=
  "Used: " +:+ valueFormat "bytes" used (Some 1) +:+ " (" +:+ valueFormat "percentunit" (toFixed3 (num_div used total)) (Some 1) +:+ ")".

Definition memory_usage_cell (r : HostInfo) : Cell :=
  match memory_usage r with
  | None => Nothing
  | Some m => Usage (used_text (nan_or (mem_used m)) (nan_or (mem_total m))) [nan_or (mem_used m)] (nan_or (mem_total m))
  end.

(** ** The partitions *)

Record DiskRow := mkDiskRow { disk_key : string; disk_host : option string; disk_counts : Counts; partition : option Partition }.

Definition path_of (i : InstanceInfo) : string := default "undefined" (partition_path_lower i).

Definition per_partition (l : list (option InstanceInfo)) : gmap string Counts :=
  fold_left (fun m i =>
    match i with
    | None => m
    | Some i => <[path_of i := count_one (default no_instances (m !! path_of i)) i]> m
    end) l ∅.

Definition host_str (r : HostInfo) : string := default "undefined" (host r).

(** The rows of a host: its partitions with instances, or one row without a partition. *)
Definition disk_rows (r : HostInfo) : list DiskRow :=
  let instancesPerPartition := per_partition (map snd (default [] (instances r))) in
  let pushed :=
    fold_left (fun acc (p : string * Partition) =>
      match instancesPerPartition !! fst p with
      | None => acc
      | Some instancesCount => acc ++ [mkDiskRow (host_str r +:+ " " +:+ fst p) (host r) instancesCount (Some (snd p))]
      end) (default [] (partitions r)) [] in
  if bool_decide (length pushed = 0%nat) then [mkDiskRow (default "" (host r)) (host r) no_instances None] else pushed.

Definition expandDisksItems (rows : list HostInfo) : list DiskRow := fold_left (fun expanded r => expanded ++ disk_rows r) rows [].

Definition opt_truthy (o : option num) : bool := match o with Some n => truthy n | None => false end.
Definition of_partition {A} (f : Partition -> option A) (d : DiskRow) : option A := partition d ≫= f.

Definition disk_host_cell (d : DiskRow) : Cell :=
  if negb (opt_truthy (of_partition free d)) then Warning (disk_host d) else Name (disk_host d).

Definition mount_dir_cell (d : DiskRow) : Cell :=
  match of_partition path d with Some p => if truthy p then Text p else Nothing | None => Nothing end.

Definition fs_cell (toUpperCase : string -> string) (d : DiskRow) : Cell :=
  Text (match of_partition fstype d with Some f => toUpperCase f | None => "" end).

Definition disk_size_cell (d : DiskRow) : Cell :=
  match of_partition part_total d with
  | Some n => if truthy n then Text (valueFormat "bytes" n (Some 1)) else Nothing
  | None => Nothing
  end.

Definition disk_usage_cell (d : DiskRow) : Cell :=
  match of_partition part_total d, of_partition free d with
  | Some total, Some free =>
      if truthy total && truthy free then
        let used := num_sub total free in Usage (used_text used total) [used] total
      else Nothing
  | _, _ => Nothing
  end.
End Tables.

(** ** The instances *)

Module Instances.
Section Page.
Context {Info E : Type}.

(** The TiDB instances with their request, and the addresses that are being removed from the list. *)
Record State := mkState { tidb_request : Hook (list (Instance_ (Info := Info))) E unit; removing : list string }.

(** The column of the status: which instances can be removed, with the status of the topology. *)
Definition removable (node : IInstanceTableItem (Info := Info)) (status : option Z) : bool :=
  bool_decide (instanceKind node = tidb) && negb (bool_decide (status = Some (status_code Up))).

Definition handleHideTiDB (node : IInstanceTableItem (Info := Info)) (s : State) : State :=
  mkState (tidb_request s) (removing s ++ [ip (instance node) +:+ ":" +:+ show (port (instance node))]).

(** The answer to the n-th removal. *)
Definition removed (n : nat) (ok : bool) (s : State) : State :=
  match removing s !! n with
  | None => s
  | Some _ =>
      mkState (if ok then ClientRequest.sendRequest true (fun _ => tt) (fun _ => tt) (tidb_request s) else tidb_request s)
        (delete n (removing s))
  end.
End Page.

(** The errors that are shown: [status] is that of the response of an error, if it has one. *)
Definition shown_errors {E} (status : E -> option Z) (errors : list (option E)) : list (option E) :=
  filter (fun e => match e with Some e => negb (bool_decide (status e = Some 404)) | None => true end = true) errors.
End Instances.

(** ** The statistics *)

Module Statistics.
Record Partial := mkPartial {
  number_of_hosts : option num; number_of_instances : option num; total_logical_cores : option num;
  total_memory_capacity_bytes : option num; total_physical_cores : option num
}.
Record Stats := mkStats {
  probe_failure_hosts : option num; stats_by_instance_kind : option (gmap string Partial);
  total_stats : option Partial; versions : option (list string)
}.

(** The items of a card: instances, hosts, memory, physical and logical cores. *)
Definition PartialInfo (valueFormat : string -> num -> option Z -> string) (data : option Partial) : list string :=
  let shown f := match data ≫= f with Some n => num_show n | None => "Unknown" end in
  [shown number_of_instances; shown number_of_hosts;
   valueFormat "bytes" (default (num_of_Z 0) (data ≫= total_memory_capacity_bytes)) (Some 1);
   shown total_physical_cores; shown total_logical_cores].

Definition warns (d : Stats) : bool := num_lt (num_of_Z 0) (default (num_of_Z 0) (probe_failure_hosts d)).
Definition version_text (d : Stats) : string := js_join ", " (default [] (versions d)).

(** The kinds that have a card of their own. *)
Definition kind_cards (d : Stats) : list InstanceKind :=
  filter (fun ik =>
    num_lt (num_of_Z 0) (default (num_of_Z 0) (default ∅ (stats_by_instance_kind d) !! kind_str ik ≫= number_of_instances)) = true) InstanceKinds.
End Statistics.

(** The tabs of the page, and the route a tab leads to. *)
Definition tabs : list string := ["instance"; "host"; "disk"; "store_topology"; "statistics"].
Definition tab_route (key : string) : string := "/cluster_info/" +:+ key.

(** ** Both tables count the same instances *)

Section Facts.
Implicit Types (r : HostInfo) (k : InstanceKind).

Definition of_kind k (i : InstanceInfo) : bool := bool_decide (kind_of i = Some k).

Lemma kind_of_spec (i : InstanceInfo) k : kind_of i = Some k <-> type i = Some (kind_str k).
Proof.
  unfold kind_of. split.
  - intros Hf. apply find_some in Hf as [_ Hf]. by apply bool_decide_eq_true in Hf.
  - intros ->. by destruct k.
Qed.

Lemma count_one_spec c (i : InstanceInfo) k : count_one c i k = ((if of_kind k i then 1 else 0) + c k)%nat.
Proof.
  unfold count_one, of_kind. destruct (kind_of i) as [k'|]; [|by rewrite bool_decide_eq_false_2].
  destruct (decide (k = k')) as [->|Hne]; [by rewrite !bool_decide_eq_true_2|].
  rewrite !bool_decide_eq_false_2; [done|congruence|done].
Qed.

(** The instances of a host that are known. *)
Definition known r : list InstanceInfo := omap id (map snd (default [] (instances r))).

(** How many instances of a kind satisfy a condition. *)
Definition counted (p : InstanceInfo -> bool) k (l : list InstanceInfo) : nat := length (filter (fun i => p i && of_kind k i = true) l).

Lemma counted_cons p k i l : counted p k (i :: l) = ((if p i && of_kind k i then 1 else 0) + counted p k l)%nat.
Proof. unfold counted. rewrite filter_cons. destruct (p i && of_kind k i); [by rewrite decide_True|by rewrite decide_False]. Qed.

Lemma counted_ext p q k l : (forall i, i ∈ l -> p i = q i) -> counted p k l = counted q k l.
Proof.
  induction l as [|i l IH]; intros Hpq; [done|]. rewrite !counted_cons, (Hpq i) by (by left). f_equal. apply IH.
  intros j Hj. apply Hpq. by right.
Qed.

Lemma counted_le p q k l : (forall i, p i = true -> q i = true) -> (counted p k l <= counted q k l)%nat.
Proof.
  intros Hpq. induction l as [|i l IH]; [done|]. rewrite !counted_cons.
  destruct (p i) eqn:Hp; [rewrite (Hpq i Hp)|]; destruct (of_kind k i), (q i); cbn; lia.
Qed.

Lemma host_counts_fold (l : list (option InstanceInfo)) c k :
  fold_left (fun c i => match i with Some i => count_one c i | None => c end) l c k = (counted (fun _ => true) k (omap id l) + c k)%nat.
Proof.
  revert c. induction l as [|[i|] l IH]; intros c; cbn [fold_left]; [done| |apply IH].
  change (omap id (Some i :: l)) with (i :: omap id l). rewrite IH, count_one_spec, counted_cons. cbn. lia.
Qed.

Lemma expandHostItems_map rows :
  expandHostItems rows = map (fun r => mkHostRow (default "" (host r))
    (fold_left (fun c i => match i with Some i => count_one c i | None => c end) (map snd (default [] (instances r))) no_instances) r) rows.
Proof.
  unfold expandHostItems. cut (forall acc, fold_left (fun expanded r => expanded ++ [mkHostRow (default "" (host r))
    (fold_left (fun c i => match i with Some i => count_one c i | None => c end) (map snd (default [] (instances r))) no_instances) r]) rows acc =
    acc ++ map (fun r => mkHostRow (default "" (host r))
    (fold_left (fun c i => match i with Some i => count_one c i | None => c end) (map snd (default [] (instances r))) no_instances) r) rows).
  { intros H. apply (H []). }
  induction rows as [|r rows IH]; intros acc; cbn; [by rewrite app_nil_r|]. by rewrite IH, <- app_assoc.
Qed.

Lemma per_partition_spec (l : list (option InstanceInfo)) (m : gmap string Counts) q k :
  let m' := fold_left (fun m i => match i with None => m | Some i => <[path_of i := count_one (default no_instances (m !! path_of i)) i]> m end) l m in
  default no_instances (m' !! q) k = (counted (fun i => bool_decide (path_of i = q)) k (omap id l) + default no_instances (m !! q) k)%nat /\
  (is_Some (m' !! q) <-> is_Some (m !! q) \/ exists i, i ∈ omap id l /\ path_of i = q).
Proof.
  revert m. induction l as [|[i|] l IH]; intros m; cbn [fold_left].
  - split; [done|]. split; [by left|]. intros [?|(? & Hin & _)]; [done|]. by apply elem_of_nil in Hin.
  - change (omap id (Some i :: l)) with (i :: omap id l). destruct (IH (<[path_of i := count_one (default no_instances (m !! path_of i)) i]> m)) as [I1 I2]. clear IH. split.
    + rewrite I1, counted_cons. destruct (decide (path_of i = q)) as [<-|Hne].
      * rewrite lookup_insert_eq, bool_decide_eq_true_2 by done. cbn. rewrite count_one_spec. lia.
      * rewrite lookup_insert_ne, bool_decide_eq_false_2 by done. done.
    + rewrite I2. destruct (decide (path_of i = q)) as [<-|Hne].
      * rewrite lookup_insert_eq. split; [intros _; right; exists i; split; [by left|done]|by left; eexists].
      * rewrite lookup_insert_ne by done. setoid_rewrite elem_of_cons. naive_solver.
  - apply IH.
Qed.

(** The rows of the partitions that have instances. *)
Definition partition_rows r : list DiskRow :=
  omap (fun p => (fun c => mkDiskRow (host_str r +:+ " " +:+ fst p) (host r) c (Some (snd p))) <$>
                 per_partition (map snd (default [] (instances r))) !! fst p) (default [] (partitions r)).

Lemma disk_rows_eq r : disk_rows r = if bool_decide (length (partition_rows r) = 0%nat)
  then [mkDiskRow (default "" (host r)) (host r) no_instances None] else partition_rows r.
Proof.
  unfold disk_rows. set (f := fold_left _ _ _). assert (Hf : f = partition_rows r); [|by rewrite Hf].
  unfold f, partition_rows. generalize (default [] (partitions r)) as l.
  cut (forall (acc : list DiskRow) l, fold_left (fun acc (p : string * Partition) =>
      match per_partition (map snd (default [] (instances r))) !! fst p with
      | None => acc
      | Some instancesCount => acc ++ [mkDiskRow (host_str r +:+ " " +:+ fst p) (host r) instancesCount (Some (snd p))]
      end) l acc = acc ++ omap (fun p => (fun c => mkDiskRow (host_str r +:+ " " +:+ fst p) (host r) c (Some (snd p))) <$>
                 per_partition (map snd (default [] (instances r))) !! fst p) l).
  { intros Hc l. apply (Hc []). }
  intros acc l. revert acc. induction l as [|p l IH]; intros acc; cbn; [by rewrite app_nil_r|]. rewrite IH.
  destruct (_ !! fst p); cbn; [by rewrite <- app_assoc|done].
Qed.

Lemma disk_row_host r d : d ∈ disk_rows r -> disk_host d = host r.
Proof.
  rewrite disk_rows_eq. case_bool_decide.
  - intros ->%list_elem_of_singleton. done.
  - unfold partition_rows. intros (p & _ & Hp)%list_elem_of_omap. destruct (_ !! fst p); [|done]. by injection Hp as <-.
Qed.

Lemma disk_row_in rows r d : r ∈ rows -> d ∈ disk_rows r -> d ∈ expandDisksItems rows.
Proof.
  intros Hr Hd. unfold expandDisksItems. cut (forall acc, d ∈ acc \/ r ∈ rows -> d ∈ fold_left (fun expanded r => expanded ++ disk_rows r) rows acc).
  { intros H. apply H. by right. }
  clear Hr. induction rows as [|r' rows IH]; intros acc Ha; cbn.
  - destruct Ha as [Ha|Ha]; [done|by apply elem_of_nil in Ha].
  - apply IH. destruct Ha as [Ha|[->|Ha]%elem_of_cons]; [left; apply elem_of_app; by left|left; apply elem_of_app; by right|by right].
Qed.

Definition sum_of k (l : list DiskRow) : nat := sum_list (map (fun d => disk_counts d k) l).

Definition on_partitions r (i : InstanceInfo) : bool := bool_decide (path_of i ∈ map fst (default [] (partitions r))).

Lemma partition_rows_sum r k : NoDup (map fst (default [] (partitions r))) ->
  sum_of k (partition_rows r) = counted (on_partitions r) k (known r).
Proof.
  unfold partition_rows, on_partitions, sum_of. generalize (default [] (partitions r)) as l. induction l as [|p l IH]; intros Hn.
  - cbn. unfold counted. induction (known r) as [|i l IH]; [done|]. rewrite filter_cons. by rewrite decide_False.
  - cbn [map] in Hn. apply NoDup_cons in Hn as [Hp Hn]. specialize (IH Hn). cbn [omap list_omap].
    destruct (per_partition_spec (map snd (default [] (instances r))) ∅ (fst p) k) as [P1 P2]. fold (known r) in P1, P2.
    fold (per_partition (map snd (default [] (instances r)))) in P1, P2. rewrite lookup_empty in P1, P2. cbn [default] in P1.
    assert (Hc : counted (fun i => bool_decide (path_of i ∈ map fst (p :: l))) k (known r) =
      (counted (fun i => bool_decide (path_of i = fst p)) k (known r) + counted (fun i => bool_decide (path_of i ∈ map fst l)) k (known r))%nat).
    { clear P1 P2 IH. induction (known r) as [|i kn IHk]; [done|]. rewrite !counted_cons, IHk. cbn [map].
      destruct (decide (path_of i = fst p)) as [E|E].
      - rewrite (bool_decide_eq_true_2 (path_of i = fst p)), (bool_decide_eq_false_2 (path_of i ∈ map fst l)) by congruence.
        rewrite bool_decide_eq_true_2 by (rewrite E; by left). destruct (of_kind k i); cbn; lia.
      - rewrite (bool_decide_eq_false_2 (path_of i = fst p)) by done. rewrite (bool_decide_ext (path_of i ∈ fst p :: map fst l) (path_of i ∈ map fst l)); [destruct (_ && _); cbn; lia|].
        rewrite elem_of_cons. naive_solver. }
    rewrite Hc. destruct (per_partition _ !! fst p) as [c|]; cbn [fmap option_fmap option_map]; cbn in P1.
    + cbn. fold (sum_list_with (fun d => disk_counts d k)). rewrite P1. unfold no_instances. rewrite IH. lia.
    + rewrite IH. unfold no_instances in P1. lia.
Qed.

(** The table of the hosts has one row for each host, which counts its instances by kind.  The table
    of the partitions has at least one row for each host; its rows count, together, the instances
    that are on a partition the answer names, so that both tables show the same if all of them are,
    and otherwise the second shows less. *)
Theorem tables_count_same rows r : r ∈ rows -> NoDup (map fst (default [] (partitions r))) ->
  exists c, mkHostRow (default "" (host r)) c r ∈ expandHostItems rows /\
    (forall d, d ∈ disk_rows r -> d ∈ expandDisksItems rows /\ disk_host d = host r) /\ disk_rows r <> [] /\
    forall k, c k = counted (fun _ => true) k (known r) /\
      sum_of k (disk_rows r) = counted (on_partitions r) k (known r) /\ (sum_of k (disk_rows r) <= c k)%nat /\
      ((forall i, i ∈ known r -> on_partitions r i = true) -> sum_of k (disk_rows r) = c k).
Proof.
  intros Hr Hn. eexists. split; [rewrite expandHostItems_map; by apply (list_elem_of_fmap_2 (fun r => mkHostRow (default "" (host r))
    (fold_left (fun c i => match i with Some i => count_one c i | None => c end) (map snd (default [] (instances r))) no_instances) r))|].
  assert (Hs : forall k, sum_of k (disk_rows r) = counted (on_partitions r) k (known r)).
  { intros k. rewrite disk_rows_eq, <- (partition_rows_sum r k Hn). case_bool_decide as Hl; [|done].
    apply nil_length_inv in Hl. by rewrite Hl. }
  split_and!.
  - intros d Hd. split; [by apply disk_row_in with r|]. by apply disk_row_host.
  - rewrite disk_rows_eq. case_bool_decide as Hl; [done|]. by destruct (partition_rows r).
  - intros k. cbn beta. rewrite host_counts_fold, Nat.add_0_r. fold (known r). split_and!; [done|done| |].
    + rewrite Hs. by apply counted_le.
    + intros Hall. rewrite Hs. apply counted_ext. exact Hall.
Qed.

(** A partition without any space left is shown as one that could not be read, without its usage. *)
Lemma full_disk_unknown vf d p : partition d = Some p -> free p = Some (num_of_Z 0) ->
  disk_host_cell d = Warning (disk_host d) /\ disk_usage_cell vf d = Nothing.
Proof.
  intros Hd Hf. unfold disk_host_cell, disk_usage_cell, of_partition. rewrite Hd. cbn. rewrite Hf. split; [done|].
  destruct (part_total p); [|done]. by rewrite andb_false_r.
Qed.

(** An instance that is removed while the list is being asked for stays in it. *)
Lemma removal_not_followed {Info E} (s : Instances.State (Info := Info) (E := E)) n t :
  cancelTokenSource (Instances.tidb_request s) = Some t -> Instances.tidb_request (Instances.removed n true s) = Instances.tidb_request s.
Proof.
  intros Hc. unfold Instances.removed. destruct (Instances.removing s !! n); [|done]. cbn. unfold sendRequest. rewrite Hc.
  by destruct (mounted _).
Qed.
End Facts.

Example hosts_example :
  let i p t := Some (mkInstance (Some p) (Some t)) in
  let part := mkPartition (Some (num_of_Z 5)) (Some "ext4") (Some "/data") (Some (num_of_Z 10)) in
  let h := mkHost None None (Some "10.0.1.1") (Some [("a", i "/data" "tikv"); ("b", i "/data" "tikv"); ("c", i "/" "pd"); ("d", None)]) None
             (Some [("/data", part); ("/home", part)]) in
  map (fun x => instances_text (fun s => s) (host_counts x)) (expandHostItems [h]) = ["1 distro.pd, 2 distro.tikv"] /\
  map (fun x => (disk_key x, instances_text (fun s => s) (disk_counts x))) (expandDisksItems [h]) = [("10.0.1.1 /data", "2 distro.tikv")].
Proof. by vm_compute. Qed.
