(* ===== verification/SQLAdvisor.v ===== *)
(** * The SQL advisor (apps/SQLAdvisor: component, pages/Detail, utils/suggestedCommandMaps.tsx)

    Module [Page] is the list of insights with the task that makes them: the page asks for the last
    task again and again until it is done, while the user starts and cancels tasks, and shows the
    pages of the list.  Module [Register] is the page before it, Module [Detail] what the detail of
    an insight shows, and Module [Tables] the table of the list and the panels of the detail. *)

From S2P Require Import Prelude JsString JsNumber.
Local Open Scope Z_scope.

Inductive TaskStatus := succeeded | created | running | failed.
#[export] Instance TaskStatus_eq_dec : EqDecision TaskStatus.
Proof. solve_decision. Defined.

Record Task := mkTask { task_id : Z; task_status : TaskStatus; last_failed_message : option string }.

Module Page.
Section Page.
(** A page of the list. *)
Context {Tuned : Type}.

Definition pageNumber_default : Z := 1.
Definition pageSize_default : Z := 20.

(** What the notifications say. *)
Inductive Notice := Succeeded | TaskError (description : string) | Failure (message : string).

(** A call of [checkStatusLoop] that waits for the last task: by the timer, or not. *)
Inductive Check := ByTimer | Direct.

(** A request of the user: for a new task, with the start and the end of its data, or for the end
    of one, and whether the dialog is closed after it. *)
Inductive Action := CreateTask (startTime endTime : Z) (closes : bool) | CancelTask (id : Z).

Record State := mkState {
  mounted : bool;
  taskStatus : option TaskStatus; latestTask : option Task;
  timer : nat;                 (* the number in the ref; 0 is no timer *)
  armed : list nat;            (* the timers that will fire *)
  fresh : nat;
  checks : list Check;         (* in flight *)
  actions : list Action;       (* in flight *)
  tuned : option Tuned; loading : bool; pages : list (Z * Z);   (* the list, and its requests *)
  showCheckUpModal : bool; dontRemind : bool; showSetting : bool; showDeactivateModal : bool;
  notices : list Notice
}.

Definition set_status (st : option TaskStatus) (s : State) : State :=
  mkState (mounted s) (if mounted s then st else taskStatus s) (latestTask s) (timer s) (armed s) (fresh s) (checks s) (actions s) (tuned s) (loading s) (pages s)
    (showCheckUpModal s) (dontRemind s) (showSetting s) (showDeactivateModal s) (notices s).
Definition set_latest (t : option Task) (s : State) : State :=
  mkState (mounted s) (taskStatus s) t (timer s) (armed s) (fresh s) (checks s) (actions s) (tuned s) (loading s) (pages s)
    (showCheckUpModal s) (dontRemind s) (showSetting s) (showDeactivateModal s) (notices s).
Definition set_timer (t : nat) (a : list nat) (f : nat) (s : State) : State :=
  mkState (mounted s) (taskStatus s) (latestTask s) t a f (checks s) (actions s) (tuned s) (loading s) (pages s)
    (showCheckUpModal s) (dontRemind s) (showSetting s) (showDeactivateModal s) (notices s).
Definition set_checks (c : list Check) (s : State) : State :=
  mkState (mounted s) (taskStatus s) (latestTask s) (timer s) (armed s) (fresh s) c (actions s) (tuned s) (loading s) (pages s)
    (showCheckUpModal s) (dontRemind s) (showSetting s) (showDeactivateModal s) (notices s).
Definition set_actions (a : list Action) (s : State) : State :=
  mkState (mounted s) (taskStatus s) (latestTask s) (timer s) (armed s) (fresh s) (checks s) a (tuned s) (loading s) (pages s)
    (showCheckUpModal s) (dontRemind s) (showSetting s) (showDeactivateModal s) (notices s).
Definition set_list (t : option Tuned) (l : bool) (p : list (Z * Z)) (s : State) : State :=
  mkState (mounted s) (taskStatus s) (latestTask s) (timer s) (armed s) (fresh s) (checks s) (actions s) t l p
    (showCheckUpModal s) (dontRemind s) (showSetting s) (showDeactivateModal s) (notices s).
Definition set_dialogs (c d st de : bool) (s : State) : State :=
  mkState (mounted s) (taskStatus s) (latestTask s) (timer s) (armed s) (fresh s) (checks s) (actions s) (tuned s) (loading s) (pages s)
    c d st de (notices s).
Definition notify (n : Notice) (s : State) : State :=
  mkState (mounted s) (taskStatus s) (latestTask s) (timer s) (armed s) (fresh s) (checks s) (actions s) (tuned s) (loading s) (pages s)
    (showCheckUpModal s) (dontRemind s) (showSetting s) (showDeactivateModal s) (notices s ++ [n]).

(** ** The list *)

(** [sqlTunedListGet] up to its request. *)
Definition sqlTunedListGet (pageNumber pageSize : option Z) (s : State) : State :=
  set_list (tuned s) true (pages s ++ [(js_or pageNumber pageNumber_default, js_or pageSize pageSize_default)]) s.

(** The answer to the n-th request, or an error. *)
Definition list_response (n : nat) (r : option Tuned) (s : State) : State :=
  match pages s !! n with
  | None => s
  | Some _ => set_list (match r with Some t => Some t | None => tuned s end) false (delete n (pages s)) s
  end.

(** ** The task *)

Definition clearTimeout (t : nat) (s : State) : State := set_timer (timer s) (filter (fun i => i <> t) (armed s)) (fresh s) s.

(** [checkStatusLoop] up to its request. *)
Definition checkStatusLoop (c : Check) (s : State) : State :=
  let s := clearTimeout (timer s) s in set_checks (checks s ++ [c]) s.

Definition isTaskRunning (s : State) : bool := bool_decide (taskStatus s = Some running) || bool_decide (taskStatus s = Some created).
Definition finished (t : Task) : bool := bool_decide (task_status t = succeeded) || bool_decide (task_status t = failed).

Definition setTimeout (s : State) : State := set_timer (fresh s) (armed s ++ [fresh s]) (S (fresh s)) s.

(** The answer to the n-th check in flight: a task, no task, or an error. *)
Definition check_response (n : nat) (r : option (option Task)) (s : State) : State :=
  match checks s !! n with
  | None => s
  | Some c =>
      let s := set_checks (delete n (checks s)) s in
      match r with
      | None => set_status (Some failed) (set_latest None s)
      | Some None => set_latest None s
      | Some (Some t) =>
          let s := set_status (Some (task_status t)) (set_latest (Some t) s) in
          let s := if bool_decide (task_status t = failed) then notify (TaskError (js_or (last_failed_message t) "Unknown error")) s else s in
          let s := if finished t then s else setTimeout s in
          (* the timer that made the call looks at its result *)
          match c with
          | ByTimer => if bool_decide (task_status t = succeeded) then sqlTunedListGet None None s else s
          | Direct => s
          end
      end
  end.

(** A timer fires. *)
Definition fire (i : nat) (s : State) : State :=
  if bool_decide (i ∈ armed s) then checkStatusLoop ByTimer (set_timer (timer s) (filter (fun j => j <> i) (armed s)) (fresh s) s) else s.

(** The effects of the first render: the task and the list are asked for. *)
Definition initial (stored : bool) : State :=
  checkStatusLoop Direct (sqlTunedListGet None None
    (mkState true None None 0 [] 1 [] [] None false [] false stored false false [])).

Definition unmount (s : State) : State :=
  let s := clearTimeout (timer s) s in
  mkState false (taskStatus s) (latestTask s) (timer s) (armed s) (fresh s) (checks s) (actions s) (tuned s) (loading s) (pages s)
    (showCheckUpModal s) (dontRemind s) (showSetting s) (showDeactivateModal s) (notices s).

(** ** What the user does *)

Definition handleCheckUpTask (now now' : Z) (closes : bool) (s : State) : State :=
  set_actions (actions s ++ [CreateTask ((now - 3 * 60 * 60) * 1000) (now' * 1000) closes]) s.

(** None: there is no last task, and reading its id throws within the [try]. *)
Definition handleCancelTask (type_error : string) (s : State) : State :=
  match latestTask s with
  | Some t => set_actions (actions s ++ [CancelTask (task_id t)]) s
  | None => checkStatusLoop Direct (notify (Failure type_error) s)
  end.

Definition action_response (n : nat) (r : option string) (s : State) : State :=
  match actions s !! n with
  | None => s
  | Some a =>
      let s := set_actions (delete n (actions s)) s in
      let s := notify (match r with None => Succeeded | Some message => Failure message end) s in
      let s := checkStatusLoop Direct s in
      match a with
      | CreateTask _ _ true => set_dialogs false (dontRemind s) (showSetting s) (showDeactivateModal s) s
      | _ => s
      end
  end.

Inductive Event := ClickCheckUp (now now' : Z) | Confirm (now now' : Z) | Remind (checked : bool) | CloseNotice
  | ClickCancel | OpenSetting | CloseSetting | ClickDeactivate | Deactivate | CancelDeactivate | Paginate (pageNumber pageSize : Z).

Definition handle (type_error : string) (e : Event) (s : State) : State :=
  if negb (mounted s) then s else
  match e with
  | ClickCheckUp now now' =>
      if isTaskRunning s then s
      else if negb (dontRemind s) then set_dialogs true (dontRemind s) (showSetting s) (showDeactivateModal s) s
      else handleCheckUpTask now now' false s
  | Confirm now now' => if showCheckUpModal s then handleCheckUpTask now now' true s else s
  | Remind checked => if showCheckUpModal s then set_dialogs true checked (showSetting s) (showDeactivateModal s) s else s
  | CloseNotice => set_dialogs false (dontRemind s) (showSetting s) (showDeactivateModal s) s
  | ClickCancel => if isTaskRunning s then handleCancelTask type_error s else s
  | OpenSetting => set_dialogs (showCheckUpModal s) (dontRemind s) true (showDeactivateModal s) s
  | CloseSetting => set_dialogs (showCheckUpModal s) (dontRemind s) false (showDeactivateModal s) s
  | ClickDeactivate => if showSetting s then set_dialogs (showCheckUpModal s) (dontRemind s) (showSetting s) true s else s
  | Deactivate | CancelDeactivate => set_dialogs (showCheckUpModal s) (dontRemind s) false false s
  | Paginate pageNumber pageSize => sqlTunedListGet (Some pageNumber) (Some pageSize) s
  end.

(** ** Runs *)

(** A server that has answered with a task does not answer later that there is none. *)
Inductive step (type_error : string) : State -> State -> Prop :=
| step_handle s e : step type_error s (handle type_error e s)
| step_list s n r : step type_error s (list_response n r s)
| step_check s n r : (r = Some None -> taskStatus s = None \/ taskStatus s = Some failed) -> step type_error s (check_response n r s)
| step_fire s i : step type_error s (fire i s)
| step_action s n r : step type_error s (action_response n r s)
| step_unmount s : step type_error s (unmount s).

(** ** A task is followed until it is done *)

Implicit Types s : State.

Definition polling s : Prop :=
  (mounted s = true -> isTaskRunning s = true -> armed s <> [] \/ checks s <> []) /\
  (mounted s = true -> forall i, i ∈ armed s -> (i < fresh s)%nat) /\
  (mounted s = true -> (timer s < fresh s)%nat).

Lemma clear_other t s i : i ∈ armed (clearTimeout t s) <-> i ∈ armed s /\ i <> t.
Proof. cbn. rewrite list_elem_of_filter. naive_solver. Qed.

(** Any state with a check in flight and sane timers. *)
Lemma checking_polls c s : polling s -> polling (checkStatusLoop c s).
Proof.
  intros (_ & Hf & Ht). split_and!; cbn.
  - intros _ _. right. by destruct (checks s).
  - intros Hm i [_ Hi]%list_elem_of_filter. by apply Hf.
  - exact Ht.
Qed.

(** What the statement depends on. *)
Lemma polling_same s s' : mounted s' = mounted s -> taskStatus s' = taskStatus s -> armed s' = armed s -> checks s' = checks s ->
  fresh s' = fresh s -> timer s' = timer s -> polling s -> polling s'.
Proof. unfold polling, isTaskRunning. by intros -> -> -> -> -> ->. Qed.

Lemma list_polls a b s : polling s -> polling (sqlTunedListGet a b s).
Proof. by apply polling_same. Qed.

Lemma timer_polls s : (mounted s = true -> forall i, i ∈ armed s -> (i < fresh s)%nat) -> (mounted s = true -> (timer s < fresh s)%nat) ->
  polling (setTimeout s).
Proof.
  intros Hf Ht. split_and!; cbn.
  - intros _ _. left. by destruct (armed s).
  - intros Hm i [Hi|Hi%list_elem_of_singleton]%elem_of_app; [specialize (Hf Hm i Hi); lia|lia].
  - intros _. lia.
Qed.

Lemma response_polls n r s : (r = Some None -> taskStatus s = None \/ taskStatus s = Some failed) -> polling s -> polling (check_response n r s).
Proof.
  intros Hr (Hp & Hf & Ht). unfold check_response. destruct (checks s !! n) as [c|]; [|done].
  destruct r as [[t|]|].
  - set (s1 := if bool_decide (task_status t = failed) then _ else _).
    assert (H1 : mounted s1 = mounted s /\ armed s1 = armed s /\ fresh s1 = fresh s /\ timer s1 = timer s /\
      (mounted s = true -> taskStatus s1 = Some (task_status t))).
    { unfold s1. case_bool_decide; cbn; split_and!; try done; by intros ->. }
    destruct H1 as (E1 & E2 & E3 & E4 & E5). set (s2 := if finished t then s1 else setTimeout s1).
    assert (H2 : polling s2).
    { unfold s2. destruct (finished t) eqn:Hfin.
      - split_and!; rewrite E1, ?E2, ?E3, ?E4; [|done|done]. intros Hm. unfold isTaskRunning. rewrite E5 by done.
        unfold finished in Hfin. destruct (task_status t); cbn in *; by repeat case_bool_decide.
      - apply timer_polls; rewrite E1, ?E2, ?E3, ?E4; done. }
    destruct c; [case_bool_decide; [by apply list_polls|done]|done].
  - split_and!; cbn; [|done|done]. intros Hm. unfold isTaskRunning. cbn. destruct (Hr eq_refl) as [-> | ->]; by repeat case_bool_decide.
  - split_and!; cbn; [|done|done]. intros Hm. unfold isTaskRunning. cbn. rewrite Hm. by repeat case_bool_decide.
Qed.

Lemma handle_polls te e s : polling s -> polling (handle te e s).
Proof.
  intros Hp. unfold handle. destruct (mounted s); [cbn [negb]|done].
  destruct e; try (by apply (polling_same s)).
  - destruct (isTaskRunning s); [done|]. destruct (negb _); by apply (polling_same s).
  - destruct (showCheckUpModal s); [by apply (polling_same s)|done].
  - destruct (showCheckUpModal s); [by apply (polling_same s)|done].
  - destruct (isTaskRunning s); [|done]. unfold handleCancelTask. destruct (latestTask s); [by apply (polling_same s)|].
    apply checking_polls. by apply (polling_same s).
  - destruct (showSetting s); [by apply (polling_same s)|done].
Qed.

Lemma advisor_step te s s' : step te s s' -> polling s -> polling s'.
Proof.
  intros Hs Hp. destruct Hs as [s e|s n r|s n r Hr|s i|s n r|s].
  - by apply handle_polls.
  - unfold list_response. destruct (pages s !! n); [|done]. by apply (polling_same s).
  - by apply response_polls.
  - unfold fire. case_bool_decide; [|done]. destruct Hp as (_ & Hf & Ht). split_and!; cbn.
    + intros _ _. right. by destruct (checks s).
    + intros Hm j [_ [_ Hj]%list_elem_of_filter]%list_elem_of_filter. by apply Hf.
    + exact Ht.
  - unfold action_response. destruct (actions s !! n) as [a|]; [|done].
    assert (Hc : polling (checkStatusLoop Direct (notify (match r with None => Succeeded | Some message => Failure message end) (set_actions (delete n (actions s)) s)))).
    { apply checking_polls. by apply (polling_same s). }
    by destruct a as [? ? []|].
  - split_and!; cbn; congruence.
Qed.

(** While the page shows a task that is not done, in any order of answers, timers and clicks, a
    timer is set or the task is being asked for: the page finds out when the task is done. *)
Theorem task_followed te stored s : rtc (step te) (initial stored) s -> mounted s = true -> isTaskRunning s = true ->
  armed s <> [] \/ checks s <> [].
Proof.
  intros Hs Hm Hr. assert (Hp : polling s); [|by apply Hp].
  clear Hm Hr. assert (Hi : polling (initial stored)).
  { split_and!; cbn; [by right| |lia]. intros _ i Hi. by apply elem_of_nil in Hi. }
  revert Hi. induction Hs as [|p q r Hpq _ IH]; [done|]. intros Hi. apply IH. by eapply advisor_step.
Qed.

(** An answer that arrives after the page was left sets a timer: the page goes on asking. *)
Lemma polls_after_leaving s t : checks s = [Direct] -> finished t = false ->
  let s' := check_response 0 (Some (Some t)) (unmount s) in mounted s' = false /\ armed s' <> [] /\
  checks (fire (timer s') s') = [ByTimer].
Proof.
  intros Hc Hf. unfold check_response. cbn. rewrite Hc. cbn. rewrite Hf.
  assert (Hn : bool_decide (task_status t = failed) = false).
  { unfold finished in Hf. by apply orb_false_iff in Hf as [_ ?]. }
  rewrite Hn. cbn. split_and!; [done|by destruct (filter _ _)|]. unfold fire. cbn.
  rewrite bool_decide_eq_true_2; [done|]. apply elem_of_app. right. by left.
Qed.

(** The end of a task that is found out after a click does not refresh the list. *)
Lemma direct_check_keeps_list s t : checks s = [Direct] -> pages (check_response 0 (Some (Some t)) s) = pages s.
Proof.
  intros Hc. unfold check_response. rewrite Hc. cbn. by destruct (bool_decide _), (finished t).
Qed.

(** A page of the list that arrives late replaces the one asked for after it. *)
Lemma late_page_shown s a b t u : pages s = [a; b] ->
  tuned (list_response 0 (Some t) (list_response 1 (Some u) s)) = Some t /\ loading (list_response 1 (Some u) s) = false.
Proof. intros Hp. unfold list_response. rewrite Hp. cbn. by split. Qed.
End Page.
End Page.

(** ** The connection the advisor needs *)

Module Register.
Record State := mkState { isLoading : bool; isUserDBRegistered : bool; isDeactivating : bool; isPosting : bool; notices : list (bool * string) }.
Definition initial : State := mkState true false false false [].

Definition status_response (r : option bool) (s : State) : State :=
  mkState false (default false r) (isDeactivating s) (isPosting s) (notices s).

Definition handleDeactivate (s : State) : State := mkState (isLoading s) (isUserDBRegistered s) true (isPosting s) (notices s).
Definition deactivate_response (r : string + string) (s : State) : State :=
  match r with
  | inl res => mkState (isLoading s) false false (isPosting s) (notices s ++ [(true, res)])
  | inr message => mkState (isLoading s) (isUserDBRegistered s) false (isPosting s) (notices s ++ [(false, message)])
  end.

Definition handleOnFinish (username : string) (s : State) : State :=
  if truthy username && negb (isPosting s) then mkState (isLoading s) (isUserDBRegistered s) (isDeactivating s) true (notices s) else s.
Definition activate_response (r : string + string) (s : State) : State :=
  match r with
  | inl res => mkState (isLoading s) true (isDeactivating s) false (notices s ++ [(true, res)])
  | inr message => mkState (isLoading s) (isUserDBRegistered s) (isDeactivating s) false (notices s ++ [(false, message)])
  end.

Inductive Shown := Skeleton | IndexInsightList | UnRegisteredUserDB.
Definition shown (s : State) : Shown :=
  if isLoading s then Skeleton else if isUserDBRegistered s then IndexInsightList else UnRegisteredUserDB.
End Register.

(** ** The detail of an insight *)

Module Detail.
Record Explanation := mkExplanation { fields : option (list string); table_name : string }.
Record Command := mkCommand { cmd_explanation : Explanation; suggestion_key : string; params : list string }.

Definition param (l : list string) : string := default "undefined" (head l).

Definition getSuggestedCommand (c : Command) : string :=
  if bool_decide (suggestion_key c = "execute_command") then js_join "," (params c)
  else if bool_decide (suggestion_key c = "table_without_where_condition") then param (params c) +:+ " without where condition in the query"
  else if bool_decide (suggestion_key c = "table_where_condition_with_func") then
    "Where conditions of the " +:+ param (params c) +:+ "  using funcs, it would cause index invalid"
  else if bool_decide (suggestion_key c = "query_cannot_be_tuned_find_other_help") then "The query can't be tuned. Please ask DBA for help"
  else if bool_decide (suggestion_key c = "Found_index_in_table") then "Foud correct index in the table"
  else suggestion_key c.

(** What the copy button copies. *)
Definition suggestedCommandsCopyData (l : list Command) : string := js_join (String (Ascii.ascii_of_nat 10) "") (map getSuggestedCommand l).

(** The explanations, of the commands that name fields and a table. *)
Definition suggestedCMDExplanation (l : list Command) : list (list string * string) :=
  omap (fun c =>
    match fields (cmd_explanation c) with
    | Some fs => if truthy (table_name (cmd_explanation c)) then Some (fs, table_name (cmd_explanation c)) else None
    | None => None
    end) l.

Inductive Impact := HighImpact | MiddleImpact | LowImpact.
Definition impact_class (IMPACT : string) : Impact :=
  if bool_decide (IMPACT = "HIGH") then HighImpact else if bool_decide (IMPACT = "MEDIUM") then MiddleImpact else LowImpact.

(** The indexes of all tables, and whether their panel is shown. *)
Definition existingIndexes {Index} (table_clauses : option (list (list Index))) : list Index := concat (default [] table_clauses).
Definition indexes_shown {Index} (table_clauses : option (list (list Index))) : bool := negb (bool_decide (length (existingIndexes table_clauses) = 0%nat)).

(** The links of the list lead to the detail, and the detail back. *)
Definition detail_link (id : Z) : string := "/sql_advisor/detail?id=" +:+ show id.
Definition time_zone_title (name : string) (timeZone : Z) : string :=
  name +:+ " (UTC" +:+ (if timeZone <? 0 then "-" else "+") +:+ show timeZone +:+ ")".

(** A sign is written before that of the number: west of Greenwich the title has two. *)
Lemma west_has_two_signs : time_zone_title "Check Up Time" (-5) = "Check Up Time (UTC--5)".
Proof. reflexivity. Qed.
End Detail.

(** ** The table of the list, and the page of an insight *)

Module Tables.
Import Detail.
Record Index := mkIndex { index_table : string; columns : string; index_name : string; clusterd : bool; visible : bool }.
Record Healthy := mkHealthy { healthy_table : string; healthy : string; analyzed_time : string }.
Record Insight := mkInsight {
  insight_id : Z; impact : string; insight_type : string; sql_statement : string; sql_digest : string; plan_digest : string; checked_time : Z;
  suggested_command : option (list Command); table_clauses : option (list (list Index)); table_healthies : option (list Healthy) }.

Section Tables.
(** The time zone of the server, and dayjs, which writes a time in it. *)
Context (timeZone : Z) (format : Z -> string).

Inductive Cell := Text (s : string) | Commands (l : list string) | Sql (s : string) | DetailLink (to : string).
(** A column: its title, its key, and what it shows of a row. *)
Record Column (Row : Type) := mkColumn { title : string; key : string; render : Row -> Cell }.
Arguments mkColumn {Row}. Arguments title {Row}. Arguments key {Row}. Arguments render {Row}.

Definition commands_of (r : Insight) : list string := map getSuggestedCommand (default [] (suggested_command r)).
Definition list_columns : list (Column Insight) :=
  [mkColumn "Impact" "impact" (fun r => Text (impact r));
   mkColumn "Type" "type" (fun r => Text (insight_type r));
   mkColumn "Suggested Command" "suggested_command" (fun r => Commands (commands_of r));
   mkColumn "Related Slow SQL" "related_slow_sql" (fun r => Sql (sql_statement r));
   mkColumn (time_zone_title "Check Up Time" timeZone) "check_up_time" (fun r => Text (format (checked_time r)));
   mkColumn "Results" "detail" (fun r => DetailLink (detail_link (insight_id r)))].

Definition yes_no (b : bool) : string := if b then "Yes" else "No".
Definition tableClausesColumns : list (Column Index) :=
  [mkColumn "Table" "table_name" (fun r => Text (index_table r));
   mkColumn "Index Name" "index_name" (fun r => Text (index_name r));
   mkColumn "Column" "columns" (fun r => Text (columns r));
   mkColumn "Clustered" "clusterd" (fun r => Text (yes_no (clusterd r)));
   mkColumn "Visible" "visible" (fun r => Text (yes_no (visible r)))].

(** The time of a table is that of the insight. *)
Definition tableHealthiesColumns (d : Insight) : list (Column Healthy) :=
  [mkColumn "Table" "table_name" (fun r => Text (healthy_table r));
   mkColumn "Healthy" "healthy" (fun r => Text (healthy r));
   mkColumn (time_zone_title "Analyzed Time" timeZone) "checked_time" (fun _ => Text (format (checked_time d)))].
Definition rows_of {Row} (cs : list (Column Row)) (rows : list Row) : list (list Cell) := map (fun r => map (fun c => render c r) cs) rows.

(** The panels of the page: the insight with its digests, explanations, impact and commands with the text
    of the copy button; the indexes; and the health of the tables. *)
Inductive Panel :=
| BasicInformation (sql digest plan : string) (explanations : option (list (string * string) * Impact)) (commands : option (list string * string))
| ExistingIndexes (rows : list (list Cell))
| TableHealthies (rows : list (list Cell)).

Definition explanation_lines (d : Insight) (upper : string -> string) : option (list (string * string) * Impact) :=
  match suggested_command d with
  | Some l => match suggestedCMDExplanation l with
              | [] => None
              | es => Some (map (fun e => (js_join ", " (fst e), snd e)) es, impact_class (upper (impact d)))
              end
  | None => None
  end.
Definition panels (upper : string -> string) (d : Insight) : list Panel :=
  BasicInformation (sql_statement d) (sql_digest d) (plan_digest d) (explanation_lines d upper)
    ((fun l => (map getSuggestedCommand l, suggestedCommandsCopyData l)) <$> suggested_command d) ::
  (if indexes_shown (table_clauses d) then [ExistingIndexes (rows_of tableClausesColumns (existingIndexes (table_clauses d)))] else []) ++
  match table_healthies d with Some (h :: hs) => [TableHealthies (rows_of (tableHealthiesColumns d) (h :: hs))] | _ => [] end.

(** The page: loading, and the insight once it is there; [None] is a request that failed. *)
Record State := mkState { sqlTunedDetail : option Insight; loading : bool }.
Definition initial : State := mkState None true.
Definition answered (r : option Insight) (s : State) : State := mkState (match r with Some d => Some d | None => sqlTunedDetail s end) false.
Definition page_title (s : State) : string :=
  match sqlTunedDetail s with Some d => "Performance Insight Detail - " +:+ insight_type d | None => "Performance Insight Detail" end.
Definition shown (upper : string -> string) (s : State) : list Panel := from_option (panels upper) [] (sqlTunedDetail s).

(** The page of an insight lists every index of every table, and a panel only where it has a row. *)
Theorem indexes_listed upper d rows : ExistingIndexes rows ∈ panels upper d ->
  rows <> [] /\ forall t i, t ∈ default [] (table_clauses d) -> i ∈ t ->
    [Text (index_table i); Text (index_name i); Text (columns i); Text (yes_no (clusterd i)); Text (yes_no (visible i))] ∈ rows.
Proof.
  unfold panels. rewrite elem_of_cons, elem_of_app. intros [H|[H|H]]; [done| |].
  - unfold indexes_shown in H. case_bool_decide as E; cbn in H; [by apply elem_of_nil in H|]. apply list_elem_of_singleton in H as [= ->]. split.
    + unfold rows_of. by destruct (existingIndexes _).
    + intros t i Ht Hi. unfold rows_of. apply (list_elem_of_fmap_2' _ _ i); [|done]. unfold existingIndexes.
      apply list_elem_of_In, in_concat. exists t. by rewrite <- !list_elem_of_In.
  - destruct (table_healthies d) as [[|h hs]|]; [by apply elem_of_nil in H| |by apply elem_of_nil in H]. by apply list_elem_of_singleton in H.
Qed.

(** Whenever their statistics were analyzed, all tables of an insight show the time of its check. *)
Theorem same_analyzed_time upper d rows r : TableHealthies rows ∈ panels upper d -> r ∈ rows -> last r = Some (Text (format (checked_time d))).
Proof.
  unfold panels. rewrite elem_of_cons, elem_of_app. intros [H|[H|H]] Hr; [done| |].
  - destruct (indexes_shown _); [by apply list_elem_of_singleton in H|by apply elem_of_nil in H].
  - destruct (table_healthies d) as [[|h hs]|]; [by apply elem_of_nil in H| |by apply elem_of_nil in H]. apply list_elem_of_singleton in H as [= ->].
    apply elem_of_cons in Hr as [->|Hr]; [done|]. by apply list_elem_of_fmap in Hr as (x & -> & _).
Qed.

(** A failed request ends the loading and leaves the page empty. *)
Theorem failed_shows_nothing upper : let s := answered None initial in loading s = false /\ shown upper s = [] /\ page_title s = "Performance Insight Detail".
Proof. done. Qed.
End Tables.
End Tables.

(** ** What the page before says *)

Module Instructions.
(** The statements that make the user of the advisor, and the text of their copy button. *)
Definition sql : list string :=
  ["CREATE user 'yourusername'@'%' IDENTIFIED by 'yourpassword';"; "GRANT SELECT ON information_schema.* TO 'yourusername'@'%';";
   "GRANT SELECT ON mysql.* TO 'yourusername'@'%';"; "GRANT PROCESS, REFERENCES ON *.* TO 'yourusername'@'%';"; "FLUSH PRIVILEGES;"].
Definition copied : string := js_join (String (Ascii.ascii_of_nat 10) "") sql.

(** The form has a user name, which is required, and a password; address and port have no field. *)
Record Form := mkForm { username : string; password : option string }.
Record Params := mkParams { userName : string; addr : option string; port : option Z; pass : option string }.
Definition can_submit (f : Form) : bool := truthy (username f).
Definition params_of (f : Form) : Params := mkParams (username f) None None (password f).

(** What is copied holds the statements, one in a line. *)
Lemma copied_lines : js_split (Ascii.ascii_of_nat 10) copied = sql.
Proof. by vm_compute. Qed.
End Instructions.
