(* ===== verification/DebugAPI.v ===== *)
(** * The page of the debug API (apps/DebugAPI/apilist: ApiList.tsx, ApiForm.tsx, widgets)

    Module [List] is the list of endpoints with its filter and groups, Module [Form] the form of one
    endpoint and the request it makes, Module [Widgets] the fields that ask the server for their
    choices. *)

From Stdlib Require Import Ascii.
From S2P Require Import Prelude JsString JsNumber Uri.
Local Open Scope Z_scope.

Record Param := mkParam { name : string; required : bool; ui_kind : option string; default_val : option string }.

Record Endpoint := mkEndpoint {
  id : option string; component : option string; path : option string;
  path_params : option (list Param); query_params : option (list Param)
}.

(** ** The list *)

Module List.
Section List.
Context (t : string -> string).

Definition getEndpointTranslationKey (e : Endpoint) : string :=
  "debug_api." +:+ default "undefined" (component e) +:+ ".endpoints." +:+ default "undefined" (id e).

(** The effect of [useFilterEndpoints]. *)
Definition filterEndpoints (keywords : string) (endpoints : option (list Endpoint)) : list Endpoint :=
  let nonNullEndpoints := default [] endpoints in
  let k := js_trim keywords in
  if truthy k then
    filter (fun e =>
      match id e with Some i => js_includes i k | None => false end || match path e with Some p => js_includes p k | None => false end ||
      js_includes (t (getEndpointTranslationKey e)) k = true) nonNullEndpoints
  else nonNullEndpoints.

(** The groups, in a dictionary by component. *)
Definition groups (endpoints : list Endpoint) : gmap string (list Endpoint) :=
  fold_left (fun prev e =>
    let groupName := default "undefined" (component e) in
    <[groupName := default [] (prev !! groupName) ++ [e]]> prev) endpoints ∅.

Definition sort_keys : list string := ["tidb"; "tikv"; "tiflash"; "pd"; "tiproxy"].
Definition sortedGroups (endpoints : list Endpoint) : list (list Endpoint) := omap (fun k => groups endpoints !! k) sort_keys.

Inductive Shown := Groups (l : list (list Endpoint)) | Empty.
Definition shown (endpoints : list Endpoint) : Shown :=
  if bool_decide (length endpoints = 0%nat) then Empty else Groups (sortedGroups endpoints).

Definition buildQueryString (params : list Param) : string :=
  fst (fold_left (fun acc p => (fst acc +:+ (if bool_decide (snd acc = 0%nat) then "?" else "&") +:+ name p +:+ "={" +:+ name p +:+ "}", S (snd acc)))
    params ("", 0%nat)).

(** The schema below the name; [distro] is the dictionary of product names. *)
Definition distro_name (distro : string -> option string) (e : Endpoint) : string :=
  match component e ≫= distro with Some d => js_toLowerCase d | None => "undefined" end.
Definition schema (distro : string -> option string) (e : Endpoint) : string :=
  "http://{" +:+ distro_name distro e +:+ "_instance}" +:+ default "undefined" (path e) +:+ buildQueryString (default [] (query_params e)).
End List.
End List.

(** ** The form of an endpoint *)

Module Form.
Section Form.
Context (distro : string -> option string).

Definition endpointHostParamKey (e : Endpoint) : string := List.distro_name distro e +:+ "_instance".

(** Parameters of the path are required. *)
Definition params (e : Endpoint) : list Param :=
  map (fun p => mkParam (name p) true (ui_kind p) (default_val p)) (default [] (path_params e)) ++ default [] (query_params e).

(** The values of the form: undefined is None. *)
Abbreviation Values := (list (string * option string)).

Record Request := mkRequest { api_id : option string; req_host : string; req_port : num; param_values : list (string * string) }.

(** The value that is sent for a field, if any. *)
Definition filled (e : Endpoint) (k : string) (v : option string) : option string :=
  match v with
  | Some s => if truthy s then Some s else
      match find (fun p => bool_decide (name p = k)) (params e) ≫= default_val with Some d => if truthy d then Some d else None | None => None end
  | None =>
      match find (fun p => bool_decide (name p = k)) (params e) ≫= default_val with Some d => if truthy d then Some d else None | None => None end
  end.

(** The request of [download]; None: there is no host, and splitting it throws. *)
Definition download (e : Endpoint) (values : Values) : option Request :=
  let host := snd <$> find (fun p => bool_decide (fst p = endpointHostParamKey e)) values in
  match host with
  | Some (Some host) =>
      let pieces := js_split ":"%char host in
      let hostname := default "undefined" (pieces !! 0%nat) in
      let port := match pieces !! 1%nat with Some p => js_Number p | None => NaN end in
      Some (mkRequest (id e) hostname port
        (omap (fun p => (fun v => (fst p, v)) <$> filled e (fst p) (snd p)) (filter (fun p => fst p <> endpointHostParamKey e) values)))
  | _ => None
  end.

(** Where the answer, a token, leads. *)
Definition download_url (apiPathBase token : string) : string := apiPathBase +:+ "/debug_api/download?token=" +:+ token.

(** The fields that are required and empty keep the form from being sent. *)
Definition valid (e : Endpoint) (values : Values) : bool :=
  forallb (fun p => negb (required p) || match find (fun q => bool_decide (fst q = name p)) values with Some (_, Some s) => truthy s | _ => false end)
    (mkParam (endpointHostParamKey e) true (Some "host") None :: params e).

(** The button is loading, and not clicked, while a request is in flight. *)
Record State := mkState { loading : bool; sent : list Request; location : option string }.
Definition submit (isWriteable : bool) (e : Endpoint) (values : Values) (s : State) : State :=
  if isWriteable && negb (loading s) && valid e values then
    match download e values with
    | Some r => mkState true (sent s ++ [r]) (location s)
    | None => s
    end
  else s.
Definition response (apiPathBase : string) (r : option string) (s : State) : State :=
  mkState false (tail (sent s)) (match r with Some token => Some (download_url apiPathBase token) | None => location s end).

(** ** What is sent *)

(** The choice of an instance is taken apart into its host and its port, if the host has no colon. *)
Lemma host_taken_apart e ip (port : Z) values : has_char ":"%char ip = false ->
  find (fun p => bool_decide (fst p = endpointHostParamKey e)) values = Some (endpointHostParamKey e, Some (ip +:+ ":" +:+ show port)) ->
  exists l, download e values = Some (mkRequest (id e) ip (num_of_Z port) l) /\
    forall k v, (k, v) ∈ l <-> exists o, (k, o) ∈ values /\ k <> endpointHostParamKey e /\ filled e k o = Some v.
Proof.
  intros Hip Hf. unfold download. rewrite Hf. cbn [fmap option_fmap option_map snd].
  change (":" +:+ show port) with (String ":"%char (show port)). rewrite (js_split_app_sep ":"%char ip (show port) Hip), (js_split_no_sep ":"%char (show port)) by (by apply has_char_show).
  cbn [lookup list_lookup]. rewrite js_Number_show. eexists. split; [done|]. intros k v. rewrite list_elem_of_omap. split.
  - intros ([k' o] & [Hne Hin]%list_elem_of_filter & Hv). cbn in *. destruct (filled e k' o) as [v'|] eqn:E; [|done]. injection Hv as <- <-.
    by exists o.
  - intros (o & Hin & Hne & Hv). exists (k, o). rewrite list_elem_of_filter. cbn. by rewrite Hv.
Qed.

(** A value that was left empty is sent as its default, and not at all without one; every other as
    it is. *)
Lemma filled_spec e k v : filled e k v =
  match v with
  | Some s => if truthy s then Some s else filled e k None
  | None => match find (fun p => bool_decide (name p = k)) (params e) ≫= default_val with Some d => if truthy d then Some d else None | None => None end
  end.
Proof. by destruct v. Qed.
End Form.

(** An address of version 6 is cut at its first colon. *)
Lemma ipv6_cut : let e := mkEndpoint (Some "pd_config") (Some "pd") None None None in
  download (fun _ => Some "PD") e [("pd_instance", Some "fd00::1:2379")] = Some (mkRequest (Some "pd_config") "fd00" (num_of_Z 0) []).
Proof. by vm_compute. Qed.
End Form.

(** ** The fields *)

Module Widgets.
(** [useLimitSelection]: what is emitted for the items of the select, and whether it loses the focus. *)
Definition onSelectChange (limit : Z) (items : list string) : list string * bool :=
  let items := if limit <? Z.of_nat (length items) then tail items else items in
  (items, Z.of_nat (length items) =? limit).

(** The value of the field: the first of them. *)
Definition memoOnChange (items : list string) : option string := head items.
Definition select (value : option string) (item : string) : option string :=
  memoOnChange (fst (onSelectChange 1 (match value with Some v => if truthy v then [v] else [] | None => [] end ++ [item]))).

(** Choosing another item replaces the value. *)
Lemma select_replaces value item : select value item = Some item.
Proof. unfold select. destruct value as [v|]; [destruct (truthy v)|]; done. Qed.

(** The databases, and the tables by their numbers: asked for when there are none. *)
Module Options.
Record State := mkState { loading : bool; options : list string; pending : nat }.
Definition onFocus (s : State) : State := if bool_decide (length (options s) = 0%nat) then mkState true (options s) (S (pending s)) else s.
Definition response (r : option (list string)) (s : State) : State :=
  match pending s with O => s | S n => mkState false (match r with Some l => l | None => options s end) n end.
Definition table_label (table_name table_id : string) : string := table_name +:+ ": " +:+ table_id.
End Options.

(** The tables of the database that is chosen in another field. *)
Module Tables.
Record State := mkState { loading : bool; options : list string; prevDBValue : option string; requests : list string }.
Definition initial : State := mkState false [] (Some "") [].

Definition onFocus (dbValue : option string) (s : State) : State :=
  if bool_decide (prevDBValue s = dbValue) then s
  else
    match dbValue with
    | Some db => if truthy db then mkState true (options s) dbValue (requests s ++ [db]) else mkState (loading s) [] dbValue (requests s)
    | None => mkState (loading s) [] dbValue (requests s)
    end.

Definition response (n : nat) (r : option (list string)) (s : State) : State :=
  match requests s !! n with
  | None => s
  | Some _ => mkState false (match r with Some l => l | None => options s end) (prevDBValue s) (delete n (requests s))
  end.

Section Facts.
(** The tables a server has in a database. *)
Context (tables_of : string -> list string).

(** A focus answered before the next one. *)
Definition focus (dbValue : option string) (s : State) : State :=
  let s := onFocus dbValue s in
  match requests s with db :: _ => response 0 (Some (tables_of db)) s | [] => s end.

(** As long as every request is answered before the field is focused again, the choices are the
    tables of the database that is chosen. *)
Lemma choices_of_database (l : list (option string)) db :
  let s := fold_left (fun s d => focus d s) (l ++ [Some db]) initial in
  db <> "" -> options s = tables_of db /\ requests s = [].
Proof.
  set (ok := fun s : State => requests s = [] /\ forall d, prevDBValue s = Some d -> d <> "" -> options s = tables_of d).
  assert (Hstep : forall s d, ok s -> ok (focus d s) /\ prevDBValue (focus d s) = d).
  { intros s d [Hr Ho]. unfold focus, onFocus. case_bool_decide as Hd; [by rewrite Hr|].
    destruct d as [d|]; [destruct (truthy d) eqn:Ht|].
    - unfold response. cbn. rewrite Hr. cbn. split; [|done]. split; [done|]. by intros d' [= <-].
    - cbn. rewrite Hr. split; [|done]. split; [done|]. cbn. intros d' [= <-] Hne. apply truthy_string_spec in Hne. congruence.
    - cbn. rewrite Hr. split; [|done]. by split. }
  cbn zeta. intros Hne. rewrite fold_left_app. cbn [fold_left]. set (s := fold_left _ l initial).
  assert (Hs : ok s).
  { unfold s. cut (ok initial); [|by split; intros; cbn in *; simplify_eq]. generalize initial as s0.
    induction l as [|d l IH]; intros s0 H0; cbn; [done|]. apply IH. by apply Hstep. }
  destruct (Hstep s (Some db) Hs) as [[Hr Ho] Hp]. split; [by apply Ho|done].
Qed.

(** The tables of the database before, which arrive late, are offered for the one that is chosen;
    and a request that fails is not made again. *)
Lemma late_tables db db' : db <> "" -> db' <> "" -> db <> db' ->
  let s := onFocus (Some db') (onFocus (Some db) initial) in
  options (response 0 (Some (tables_of db)) (response 1 (Some (tables_of db')) s)) = tables_of db /\
  requests (onFocus (Some db) (response 0 None (onFocus (Some db) initial))) = [].
Proof.
  intros H1 H2 H3. unfold onFocus, response. cbn. apply truthy_string_spec in H1 as T1, H2 as T2.
  rewrite (bool_decide_eq_false_2 (Some "" = Some db)) by congruence. rewrite T1. cbn.
  rewrite (bool_decide_eq_false_2 (Some db = Some db')) by congruence. rewrite T2. cbn. split; [done|].
  by rewrite bool_decide_eq_true_2.
Qed.
End Facts.
End Tables.

(** The widget of a kind; None: there is no such function, and calling it throws. *)
Inductive Widget := Host | Text | Enum | Database | Table | TableID.
Definition createFormWidget (p : Param) : option Widget :=
  match default "text" (ui_kind p) with
  | "host" => Some Host | "text" => Some Text | "dropdown" => Some Enum
  | "db_dropdown" => Some Database | "table_dropdown" => Some Table | "table_id_dropdown" => Some TableID
  | _ => None
  end.

Definition enum_label (value display_as : string) : string := if truthy display_as then value +:+ " (" +:+ display_as +:+ ")" else value.

(** The port of an instance that is used: PD has one for everything. *)
Definition host_option (component ip : string) (port status_port : Z) : string :=
  ip +:+ ":" +:+ show (if bool_decide (component = "pd") then port else status_port).
End Widgets.

(** ** The groups *)

Section ListFacts.
Context (t : string -> string).
Import List.

Lemma groups_spec l k : default [] (groups l !! k) = filter (fun e => default "undefined" (component e) = k) l.
Proof.
  unfold groups. cut (forall m : gmap string (list Endpoint), default [] (fold_left (fun prev e => <[default "undefined" (component e) := default [] (prev !! default "undefined" (component e)) ++ [e]]> prev) l m !! k) =
    default [] (m !! k) ++ filter (fun e => default "undefined" (component e) = k) l).
  { intros H. rewrite H, lookup_empty. done. }
  induction l as [|e l IH]; intros m; cbn [fold_left]; [by rewrite app_nil_r|]. rewrite IH, filter_cons.
  destruct (decide (default "undefined" (component e) = k)) as [<-|Hne].
  - rewrite lookup_insert_eq. cbn [default]. unfold Datatypes.id at 1. by rewrite <- app_assoc.
  - by rewrite lookup_insert_ne.
Qed.

Lemma groups_nonempty l k g : groups l !! k = Some g -> g <> [].
Proof.
  unfold groups. cut (forall m : gmap string (list Endpoint), (forall k g, m !! k = Some g -> g <> []) ->
    forall g, fold_left (fun prev e => <[default "undefined" (component e) := default [] (prev !! default "undefined" (component e)) ++ [e]]> prev) l m !! k = Some g -> g <> []).
  { intros H. by apply H. }
  induction l as [|e l IH]; intros m Hm g'; cbn [fold_left]; [by apply Hm|]. apply IH.
  intros k' g'' [[<- <-]|[_ Hg]]%lookup_insert_Some; [|by eapply Hm]. by destruct (default [] _).
Qed.

(** The endpoints on the page are those that the filter keeps, of the five components that are
    shown, one group after the other, each in the order of the answer; those of another component
    are not shown. *)
Theorem groups_shown keywords endpoints :
  let l := filterEndpoints t keywords endpoints in
  concat (sortedGroups l) = concat (map (fun k => filter (fun e => default "undefined" (component e) = k) l) sort_keys) /\
  Forall (fun g => g <> []) (sortedGroups l) /\
  (forall e, e ∈ l <-> e ∈ default [] endpoints /\ (truthy (js_trim keywords) = false \/
     match id e with Some i => js_includes i (js_trim keywords) | None => false end = true \/
     match path e with Some p => js_includes p (js_trim keywords) | None => false end = true \/
     js_includes (t (getEndpointTranslationKey e)) (js_trim keywords) = true)).
Proof.
  cbn zeta. split_and!.
  - generalize (filterEndpoints t keywords endpoints) as l. intros l. unfold sortedGroups. induction sort_keys as [|k ks IH]; [done|].
    cbn [omap list_omap map concat]. rewrite <- (groups_spec l k), <- IH. by destruct (groups l !! k).
  - unfold sortedGroups. apply Forall_forall. intros g (k & _ & Hg)%list_elem_of_omap. by eapply groups_nonempty.
  - intros e. unfold filterEndpoints. destruct (truthy (js_trim keywords)) eqn:Ht; [|naive_solver].
    rewrite list_elem_of_filter, !orb_true_iff. naive_solver.
Qed.
End ListFacts.
