(* ===== verification/OptimizerTrace.v ===== *)
(** * The trace of the optimizer (apps/OptimizerTrace)

    Module [CostTree] is the tree of the costs of an operator (PhysicalCostTree.tsx).  The code
    builds it by changing the objects of the file that was read: costs that refer to another
    operator come to share its parameters, and every visit numbers an object anew.  The objects are
    therefore modelled as a store.  Module [Operators] are the trees of operators and the candidates
    of one (index.tsx, LogicalOperatorTree.tsx, PhysicalOperatorTree.tsx), Module [Page] the file
    that is shown. *)

From Stdlib Require Import Sorted.
From stdpp Require Import fin_maps.
From S2P Require Import Prelude JsString JsNumber.
Local Open Scope Z_scope.

Definition quote : string := String (Ascii.ascii_of_nat 34) "".

(** [createLabels]: the attributes of a node or a line in the language of graphviz. *)
Definition createLabels (labels : list (string * string)) : string :=
  let ls := filter (fun p => truthy (snd p) = true) labels in
  if bool_decide (length ls = 0%nat) then ""
  else "[" +:+ js_join " " (map (fun p => fst p +:+ "=" +:+ quote +:+ snd p +:+ quote) ls) +:+ "]".

Definition newline : string := String (Ascii.ascii_of_nat 10) "".

(** A value is written as it is: one with a quote ends early, and the text is not of the language. *)
Lemma labels_unquoted : createLabels [("tooltip", "info: eq(" +:+ quote +:+ "a" +:+ quote +:+ ")")] =
  "[tooltip=" +:+ quote +:+ "info: eq(" +:+ quote +:+ "a" +:+ quote +:+ ")" +:+ quote +:+ "]".
Proof. vm_compute. reflexivity. Qed.

Module CostTree.
Abbreviation loc := nat.

(** The field [params]: null, undefined, or an object. *)
Inductive Params := PNull | PUndefined | PObj (d : loc).

(** [PhyscialCostParam]; [id] is undefined until the tree is built. *)
Record Param := mkParam { id : option Z; name : string; desc : string; cost : num; params : Params }.

(** The values of an object of parameters: a number, or a reference. *)
Inductive Entry := ENum (v : num) | EParam (l : loc).

(** [PhysicalCostRoot] *)
Record Root := mkRoot { root_id : Z; type : string; root_cost : num; root_desc : string; root_params : loc }.

(** The objects, and the variable [globalId]. *)
Record Heap := mkHeap {
  param_at : gmap loc Param; dict_at : gmap loc (list (string * Entry)); fresh : loc; globalId : Z
}.

Inductive Result := Ok (h : Heap) | Throw (message : string) | OutOfFuel.

Definition bind (r : Result) (f : Heap -> Result) : Result := match r with Ok h => f h | e => e end.

Definition set_param (l : loc) (p : Param) (h : Heap) : Heap := mkHeap (<[l := p]> (param_at h)) (dict_at h) (fresh h) (globalId h).
Definition set_dict (d : loc) (es : list (string * Entry)) (h : Heap) : Heap := mkHeap (param_at h) (<[d := es]> (dict_at h)) (fresh h) (globalId h).
Definition next_id (h : Heap) : Heap := mkHeap (param_at h) (dict_at h) (fresh h) (globalId h + 1).

Definition entries (h : Heap) (d : loc) : list (string * Entry) := default [] (dict_at h !! d).

(** [params[k] = v] for a key of the object. *)
Definition assign (k : string) (v : Entry) (es : list (string * Entry)) : list (string * Entry) :=
  map (fun e => if bool_decide (fst e = k) then (k, v) else e) es.
Definition get (k : string) (es : list (string * Entry)) : option Entry := snd <$> find (fun e => bool_decide (fst e = k)) es.

Section Build.
Context (costs : gmap string Root).

(** [buildCostParam], over [buildCostParams]. *)
Definition buildCostParam (build : loc -> Heap -> Result) (l : loc) (h : Heap) : Result :=
  match param_at h !! l with
  | None => Ok h
  | Some p =>
      let numbered := mkParam (Some (globalId h)) (name p) (desc p) (cost p) (params p) in
      let h := next_id (set_param l numbered h) in
      match params p with
      | PNull =>
          match costs !! name p with
          | None => Throw ("cost for " +:+ name p +:+ " not exist")
          | Some root =>
              build (root_params root)
                (set_param l (mkParam (id numbered) (name p) (root_desc root) (cost p) (PObj (root_params root))) h)
          end
      | PUndefined => Ok h
      | PObj d => build d h
      end
  end.

(** One turn of the loop of [buildCostParams]. *)
Definition build_key (build : loc -> Heap -> Result) (d : loc) (h : Heap) (k : string) : Result :=
  match get k (entries h d) with
  | Some (ENum v) =>
      let leaf := mkParam (Some (globalId h)) k "" v PUndefined in
      Ok (mkHeap (<[fresh h := leaf]> (param_at h)) (<[d := assign k (EParam (fresh h)) (entries h d)]> (dict_at h))
            (S (fresh h)) (globalId h + 1))
  | Some (EParam l) => buildCostParam build l h
  | None => Ok h
  end.

Fixpoint buildCostParams (fuel : nat) (d : loc) (h : Heap) : Result :=
  match fuel with
  | O => OutOfFuel
  | S fuel =>
      fold_left (fun r k => bind r (fun h => build_key (buildCostParams fuel) d h k)) (map fst (entries h d)) (Ok h)
  end.

Definition buildCostTree (fuel : nat) (root : Root) (h : Heap) : Result :=
  buildCostParams fuel (root_params root) (mkHeap (param_at h) (dict_at h) (fresh h) (root_id root + 1)).
End Build.

(** ** What is drawn *)

Record Node := mkNode { node_id : Z; label : string; fillcolor : string }.
Record Line := mkLine { source : Z; target : Z }.

Definition pid (p : Param) : Z := default 0 (id p).

Section Draw.
(** [toFixed(4)] of a cost. *)
Context (toFixed4 : num -> string) (h : Heap) (expands : gmap Z bool).

Definition expanded (i : Z) : bool := default false (expands !! i).

Definition param_node (p : Param) : Node :=
  match params p with
  | PUndefined => mkNode (pid p) (name p +:+ newline +:+ toFixed4 (cost p)) "#cffafe"
  | _ => mkNode (pid p) (name p +:+ newline +:+ "cost: " +:+ toFixed4 (cost p) +:+ newline +:+ "desc: " +:+ desc p) "white"
  end.

(** The parameters of an object that are objects. *)
Definition objects (d : loc) : list Param :=
  omap (fun e => match snd e with EParam l => param_at h !! l | ENum _ => None end) (entries h d).

(** [genGraphvizNodeParams], with [genGraphvizNodeParam] for each. *)
Fixpoint nodes_below (fuel : nat) (d : loc) : option (list Node) :=
  match fuel with
  | O => None
  | S fuel =>
      (@concat Node) <$> mapM (fun p =>
        match params p with
        | PObj d' => if expanded (pid p) then cons (param_node p) <$> nodes_below fuel d' else Some [param_node p]
        | _ => Some [param_node p]
        end) (objects d)
  end.

Definition genGraphvizNodes (fuel : nat) (root : Root) : option (list Node) :=
  let n := mkNode (root_id root)
    (type root +:+ "_" +:+ show (root_id root) +:+ newline +:+ "cost: " +:+ toFixed4 (root_cost root) +:+ newline +:+ "desc: " +:+ root_desc root) "white" in
  if expanded (root_id root) then cons n <$> nodes_below fuel (root_params root) else Some [n].

(** [genGraphvizLineParams], with [genGraphvizLineParam] for each. *)
Fixpoint lines_below (fuel : nat) (parentId : Z) (d : loc) : option (list Line) :=
  match fuel with
  | O => None
  | S fuel =>
      (@concat Line) <$> mapM (fun p =>
        if negb (expanded parentId) then Some []
        else
          match params p with
          | PObj d' => cons (mkLine parentId (pid p)) <$> lines_below fuel (pid p) d'
          | _ => Some [mkLine parentId (pid p)]
          end) (objects d)
  end.

Definition genGraphvizLines (fuel : nat) (root : Root) : option (list Line) := lines_below fuel (root_id root) (root_params root).
End Draw.

Definition node_text (n : Node) : string :=
  show (node_id n) +:+ " " +:+ createLabels [("label", label n); ("fillcolor", fillcolor n); ("tooltip", show (node_id n))] +:+ ";" +:+ newline.
Definition line_text (l : Line) : string := show (source l) +:+ " -> " +:+ show (target l) +:+ ";" +:+ newline.

(** A click on a node. *)
Definition toggle (i : Z) (expands : gmap Z bool) : gmap Z bool := <[i := negb (default false (expands !! i))]> expands.

(** ** Building ends, and numbers the objects *)

Lemma get_assign k v es k' : get k' (assign k v es) = if decide (k' = k) then (if decide (k ∈ map fst es) then Some v else None) else get k' es.
Proof.
  unfold get, assign. destruct (decide (k' = k)) as [->|Hne]; induction es as [|[k1 e1] es IH]; [done| |done|]; cbn [map find fst].
  - destruct (decide (k1 = k)) as [->|Hk1]; [rewrite (bool_decide_eq_true_2 (k = k)) by done|rewrite (bool_decide_eq_false_2 (k1 = k)) by done]; cbn [fst find].
    + rewrite bool_decide_eq_true_2 by done. by rewrite decide_True by by left.
    + rewrite bool_decide_eq_false_2 by done. rewrite IH. destruct (decide (k ∈ map fst es)).
      * by rewrite decide_True by by right.
      * by rewrite decide_False by by intros [?|?]%elem_of_cons.
  - destruct (decide (k1 = k)) as [->|Hk1]; [rewrite (bool_decide_eq_true_2 (k = k)) by done|rewrite (bool_decide_eq_false_2 (k1 = k)) by done]; cbn [fst find].
    + by rewrite bool_decide_eq_false_2 by done.
    + by destruct (bool_decide (k1 = k')).
Qed.

Lemma keys_assign k v es : map fst (assign k v es) = map fst es.
Proof. unfold assign. rewrite map_map. apply map_ext. intros [k1 e1]. cbn. by case_bool_decide; subst. Qed.

Lemma get_key k es v : get k es = Some v -> k ∈ map fst es.
Proof.
  unfold get. destruct (find _ es) as [[k' v']|] eqn:Hf; [|done]. intros _. apply find_some in Hf as [Hin Hk].
  apply bool_decide_eq_true_1 in Hk. cbn in Hk. subst. apply list_elem_of_fmap. exists (k, v'). split; [done|by apply list_elem_of_In].
Qed.

Lemma key_get k es : k ∈ map fst es -> is_Some (get k es).
Proof.
  unfold get. intros ([k' v] & -> & Hin)%list_elem_of_fmap. cbn. destruct (find _ es) as [?|] eqn:Hf; [by eexists|].
  apply list_elem_of_In in Hin. apply find_none with (x := (k', v)) in Hf; [|done]. by rewrite bool_decide_eq_true_2 in Hf.
Qed.

Section Ends.
Context (costs : gmap string Root) (rank : loc -> nat).

(** The entry [k] of the object [d] is the object [l]. *)
Definition points (h : Heap) (d : loc) (k : string) (l : loc) : Prop := get k (entries h d) = Some (EParam l).

(** No operator is, at any depth, a part of its own cost: the objects can be ranked. *)
Record ranked (h : Heap) : Prop := {
  ranked_down d k l p : points h d k l -> param_at h !! l = Some p ->
    match params p with
    | PObj d' => (rank d' < rank d)%nat
    | PNull => forall root, costs !! name p = Some root -> (rank (root_params root) < rank d)%nat
    | PUndefined => True
    end;
  ranked_fresh l : (fresh h <= l)%nat -> param_at h !! l = None;
  ranked_there d k l : points h d k l -> is_Some (param_at h !! l)
}.

(** What building keeps: an entry that is an object stays that object, an object that is not a
    reference keeps its parameters. *)
Record grows (h h' : Heap) : Prop := {
  grows_keys d : map fst (entries h' d) = map fst (entries h d);
  grows_points d k l : points h d k l -> points h' d k l;
  grows_params l p : param_at h !! l = Some p -> params p <> PNull ->
    exists p', param_at h' !! l = Some p' /\ params p' = params p
}.

#[export] Instance grows_preorder : PreOrder grows.
Proof.
  split.
  - intros h. split; [done|done|by eauto].
  - intros h1 h2 h3 [K1 P1 D1] [K2 P2 D2]. split; [intros d; by rewrite K2|by eauto|]. intros l p Hl Hp.
    destruct (D1 l p Hl Hp) as (p2 & Hl2 & Hp2). destruct (D2 l p2 Hl2) as (p3 & Hl3 & Hp3); [congruence|]. exists p3. split; [done|congruence].
Qed.

(** What building does to the references: an object keeps its name, and its parameters unless it is
    a reference to an operator, whose parameters it takes; there are no new references. *)
Record resolves (h h' : Heap) : Prop := {
  resolves_old l p : param_at h !! l = Some p -> exists p', param_at h' !! l = Some p' /\ name p' = name p /\
    (params p' = params p \/ (params p = PNull /\ exists root, costs !! name p = Some root /\ params p' = PObj (root_params root)));
  resolves_new l p' : param_at h' !! l = Some p' -> params p' = PNull -> exists p, param_at h !! l = Some p /\ params p = PNull /\ name p = name p'
}.

#[export] Instance resolves_preorder : PreOrder resolves.
Proof.
  split.
  - intros h. split; [intros l p Hp; exists p; split_and!; [done|done|by left]|by eauto].
  - intros h1 h2 h3 [O1 N1] [O2 N2]. split.
    + intros l p Hp. destruct (O1 l p Hp) as (p2 & Hp2 & Hn2 & Hc2), (O2 l p2 Hp2) as (p3 & Hp3 & Hn3 & Hc3). exists p3. split_and!; [done|congruence|].
      destruct Hc2 as [E2|(E2 & root & Hr & Er)], Hc3 as [E3|(E3 & root' & Hr' & Er')]; [left|right|right|congruence].
      * congruence.
      * split; [congruence|]. exists root'. split; [congruence|done].
      * split; [done|]. exists root. split; [done|congruence].
    + intros l p3 Hp3 H3. destruct (N2 l p3 Hp3 H3) as (p2 & Hp2 & H2 & E2), (N1 l p2 Hp2 H2) as (p & Hp & H1 & E1). exists p. split_and!; [done|done|congruence].
Qed.

(** An object refers to an operator that the file does not have, which is what the message says. *)
Definition missing (h : Heap) (message : string) : Prop :=
  exists l p, param_at h !! l = Some p /\ params p = PNull /\ costs !! name p = None /\ message = "cost for " +:+ name p +:+ " not exist".

Lemma missing_before h h' m : resolves h h' -> missing h' m -> missing h m.
Proof.
  intros [_ Hn] (l & p & Hp & Hnull & Hc & ->). destruct (Hn l p Hp Hnull) as (q & Hq & Hqn & E). exists l, q. by rewrite E.
Qed.

(** Every object below [d] is one of [V], and no number is left. *)
Inductive built (V : gset loc) (h : Heap) (d : loc) : Prop :=
  | built_intro :
      (forall k, k ∈ map fst (entries h d) -> exists l p, points h d k l /\ l ∈ V /\ param_at h !! l = Some p /\ params p <> PNull) ->
      (forall k l p d', points h d k l -> param_at h !! l = Some p -> params p = PObj d' -> built V h d') -> built V h d.

Lemma built_grows V V' h h' d : grows h h' -> V ⊆ V' -> built V h d -> built V' h' d.
Proof.
  intros Hg HV Hb. induction Hb as [d Hall _ IH]. assert (Hk : forall k, k ∈ map fst (entries h' d) -> exists l p p', points h d k l /\
    points h' d k l /\ l ∈ V /\ param_at h !! l = Some p /\ params p <> PNull /\ param_at h' !! l = Some p' /\ params p' = params p).
  { intros k Hk. rewrite (grows_keys _ _ Hg) in Hk. destruct (Hall k Hk) as (l & p & Hp & Hl & Hlp & Hn).
    destruct (grows_params _ _ Hg l p Hlp Hn) as (p' & ? & ?). pose proof (grows_points _ _ Hg d k l Hp). by exists l, p, p'. }
  constructor.
  - intros k (l & p & p' & ? & ? & Hl & ? & ? & ? & Hpp)%Hk. exists l, p'. split_and!; [done|by apply HV|done|congruence].
  - intros k l p1 d' Hpt Hp1 Hd. destruct (Hk k) as (l2 & p & p' & H1 & H2 & _ & Hp & _ & Hp' & Hpp); [by apply get_key in Hpt|].
    assert (l2 = l) as -> by (unfold points in *; congruence). eapply (IH k l p d'); [done|done|congruence].
Qed.

(** The objects of [V] were numbered since [s], each with a number of its own. *)
Definition id_at (h : Heap) (l : loc) : option Z := param_at h !! l ≫= id.
Definition tagged (s : Z) (V : gset loc) (h : Heap) : Prop :=
  s <= globalId h /\ (forall l, l ∈ V -> exists i, id_at h l = Some i /\ s <= i < globalId h) /\
  (forall l l', l ∈ V -> l' ∈ V -> id_at h l = id_at h l' -> l = l').

Lemma tagged_tag s V h l p f g : tagged s V h -> id p = Some (globalId h) ->
  tagged s ({[l]} ∪ V) (mkHeap (<[l := p]> (param_at h)) f g (globalId h + 1)).
Proof.
  intros (H0 & H1 & H2) Hp. set (h' := mkHeap _ _ _ _). assert (Hn : id_at h' l = Some (globalId h)).
  { unfold id_at, h'. cbn. by rewrite lookup_insert_eq. }
  assert (Ho : forall m, m <> l -> id_at h' m = id_at h m). { intros m Hm. unfold id_at, h'. cbn. by rewrite lookup_insert_ne. }
  assert (Hlt : forall m, m ∈ V -> id_at h m <> Some (globalId h)). { intros m Hm Hi. destruct (H1 m Hm) as (i & ? & ?). rewrite Hi in *. simplify_eq. lia. }
  assert (Hw : forall m, m ∈ {[l]} ∪ V -> m <> l -> m ∈ V) by set_solver.
  split_and!; [cbn; lia| |].
  - intros m Hm. destruct (decide (m = l)) as [->|Hne]; [exists (globalId h); cbn; split; [done|lia]|].
    destruct (H1 m (Hw m Hm Hne)) as (i & Hi & ?). exists i. rewrite Ho by done. cbn. split; [done|lia].
  - intros m m' Hm Hm'. destruct (decide (m = l)) as [->|Hne], (decide (m' = l)) as [->|Hne']; [done| | |].
    + rewrite Hn, Ho by done. intros He. destruct (Hlt m'); [by apply Hw|done].
    + rewrite Hn, Ho by done. intros He. destruct (Hlt m); [by apply Hw|done].
    + rewrite !Ho by done. apply H2; by apply Hw.
Qed.

(** A step of the building that leaves the objects of [P]. *)
Definition builds (s : Z) (P : gset loc -> Heap -> Prop) (h : Heap) (r : Result) : Prop :=
  match r with
  | Ok h' => ranked h' /\ grows h h' /\ resolves h h' /\ forall V, tagged s V h -> exists V', V ⊆ V' /\ tagged s V' h' /\ P V' h'
  | Throw m => missing h m
  | OutOfFuel => False
  end.

Lemma points_other h d es f g i d' : entries (mkHeap f (<[d := es]> (dict_at h)) g i) d' = if decide (d' = d) then es else entries h d'.
Proof. unfold entries. cbn. destruct (decide (d' = d)) as [->|Hne]; [by rewrite lookup_insert_eq|by rewrite lookup_insert_ne]. Qed.

Lemma renumber h l p p' : ranked h -> param_at h !! l = Some p ->
  params p' = params p /\ name p' = name p \/
    params p = PNull /\ (exists root, costs !! name p = Some root /\ params p' = PObj (root_params root)) ->
  name p' = name p ->
  let h' := mkHeap (<[l := p']> (param_at h)) (dict_at h) (fresh h) (globalId h + 1) in ranked h' /\ grows h h' /\ resolves h h'.
Proof.
  intros Hr Hl Hp Hname. split_and!; split.
  - intros d k m q Hin. cbn [param_at]. intros [[<- <-]|[_ Hq]]%lookup_insert_Some; [|by eapply (ranked_down h Hr)].
    pose proof (ranked_down h Hr d k l p Hin Hl) as H1. destruct Hp as [[-> ->]|[Hn (root & Hc & ->)]]; [done|].
    rewrite Hn in H1. by apply H1.
  - intros m Hm. cbn in *. rewrite lookup_insert_ne; [by apply (ranked_fresh h Hr)|]. intros ->. by rewrite (ranked_fresh h Hr m Hm) in Hl.
  - intros d k m Hm. cbn. destruct (decide (l = m)) as [->|]; [by rewrite lookup_insert_eq; eexists|].
    rewrite lookup_insert_ne by done. by eapply (ranked_there h Hr).
  - done.
  - done.
  - intros m q Hm Hq. cbn. destruct (decide (l = m)) as [->|]; [|rewrite lookup_insert_ne by done; by eexists].
    rewrite lookup_insert_eq. exists p'. split; [done|]. assert (p = q) as -> by congruence. by destruct Hp as [[-> _]|[? _]].
  - intros m q Hm. cbn. destruct (decide (l = m)) as [->|]; [|rewrite lookup_insert_ne by done; exists q; split_and!; [done|done|by left]].
    rewrite lookup_insert_eq. exists p'. assert (p = q) as -> by congruence. split_and!; [done|done|]. destruct Hp as [[? _]|Hp]; [by left|by right].
  - intros m q. cbn. intros [[<- <-]|[_ Hq]]%lookup_insert_Some Hnull; [|by exists q]. exists p. destruct Hp as [[E _]|(_ & root & _ & E)]; [|congruence].
    split_and!; [done|congruence|done].
Qed.

Lemma leaf h d k v : ranked h -> get k (entries h d) = Some (ENum v) ->
  let h' := mkHeap (<[fresh h := mkParam (Some (globalId h)) k "" v PUndefined]> (param_at h))
    (<[d := assign k (EParam (fresh h)) (entries h d)]> (dict_at h)) (S (fresh h)) (globalId h + 1) in
  ranked h' /\ grows h h' /\ resolves h h' /\ points h' d k (fresh h).
Proof.
  intros Hr Hg h'. assert (Hpt : forall d' k' l, points h' d' k' l -> l = fresh h \/ points h d' k' l).
  { intros d' k' l. unfold points, h'. rewrite points_other. destruct (decide (d' = d)) as [->|]; [|by right]. rewrite get_assign.
    destruct (decide (k' = k)); [|by right]. destruct (decide (k ∈ _)); [|done]. intros [= ->]. by left. }
  assert (Hold : forall d' k' l, points h d' k' l -> points h' d' k' l).
  { intros d' k' l. unfold points, h'. rewrite points_other. destruct (decide (d' = d)) as [->|]; [|done]. rewrite get_assign.
    destruct (decide (k' = k)) as [->|]; [|done]. intros Hc. congruence. }
  assert (Hne : forall l p, param_at h !! l = Some p -> fresh h <> l).
  { intros l p Hl <-. by rewrite (ranked_fresh h Hr) in Hl. }
  split_and!; [split|split|split|].
  - intros d' k' l p Hp. cbn. intros [[<- <-]|[Hn Hq]]%lookup_insert_Some; [done|].
    destruct (Hpt d' k' l Hp) as [->|]; [done|]. by eapply (ranked_down h Hr).
  - cbn. intros l Hl. rewrite lookup_insert_ne by lia. apply (ranked_fresh h Hr). lia.
  - intros d' k' l Hp. cbn. destruct (Hpt d' k' l Hp) as [->|Ho]; [by rewrite lookup_insert_eq; eexists|].
    destruct (ranked_there h Hr d' k' l Ho) as [p Hl]. rewrite lookup_insert_ne by by eapply Hne. by eexists.
  - intros d'. unfold h'. rewrite points_other. destruct (decide (d' = d)) as [->|]; [apply keys_assign|done].
  - exact Hold.
  - intros l p Hl _. exists p. cbn. by rewrite lookup_insert_ne by by eapply Hne.
  - intros l p Hl. exists p. cbn. rewrite lookup_insert_ne by by eapply Hne. split_and!; [done|done|by left].
  - intros l p'. cbn. intros [[<- <-]|[_ Hq]]%lookup_insert_Some Hnull; [done|by exists p'].
  - unfold points, h'. rewrite points_other, decide_True, get_assign, decide_True by done. by rewrite decide_True by by eapply get_key.
Qed.

(** The entry [k] was dealt with. *)
Definition key_built (d : loc) (k : string) (V : gset loc) (h : Heap) : Prop :=
  exists l p, points h d k l /\ l ∈ V /\ param_at h !! l = Some p /\ params p <> PNull /\ forall d', params p = PObj d' -> built V h d'.

Lemma key_built_grows V V' h h' d k : grows h h' -> V ⊆ V' -> key_built d k V h -> key_built d k V' h'.
Proof.
  intros Hg HV (l & p & Hp & Hl & Hlp & Hn & Hb). destruct (grows_params _ _ Hg l p Hlp Hn) as (p' & Hl' & Hpp).
  exists l, p'. split_and!; [by apply (grows_points _ _ Hg)|by apply HV|done|congruence|]. intros d' Hd.
  eapply built_grows; [done|done|]. apply Hb. congruence.
Qed.

Lemma keys_built V h d : (forall k, k ∈ map fst (entries h d) -> key_built d k V h) -> built V h d.
Proof.
  intros Hk. constructor.
  - intros k (l & p & ? & ? & ? & ? & _)%Hk. by exists l, p.
  - intros k l p d' Hp Hl Hd. destruct (Hk k) as (l2 & p2 & Hp2 & _ & Hl2 & _ & Hb); [by eapply get_key|].
    assert (l2 = l) as -> by (unfold points in *; congruence). assert (p2 = p) as -> by congruence. by apply Hb.
Qed.

Section Step.
Context (s : Z) (build : loc -> Heap -> Result) (d : loc).
Context (Hbuild : forall d' h', (rank d' < rank d)%nat -> ranked h' -> builds s (fun V h => built V h d') h' (build d' h')).

(** Dealing with an object that is left with the parameters [d']. *)
Lemma param_builds h k l p p' d' : ranked h -> points h d k l -> param_at h !! l = Some p -> id p' = Some (globalId h) ->
  params p' = PObj d' -> (rank d' < rank d)%nat ->
  params p' = params p /\ name p' = name p \/
    params p = PNull /\ (exists root, costs !! name p = Some root /\ params p' = PObj (root_params root)) ->
  name p' = name p ->
  builds s (key_built d k) h (build d' (mkHeap (<[l := p']> (param_at h)) (dict_at h) (fresh h) (globalId h + 1))).
Proof.
  intros Hr Hpt Hl Hi Hd Hrk Hp Hname. destruct (renumber h l p p' Hr Hl Hp Hname) as (Hr1 & Hg1 & Hs1). set (h1 := mkHeap _ _ _ _) in *.
  pose proof (Hbuild d' h1 Hrk Hr1) as Hb.
  destruct (build d' h1) as [h'| |]; [|by apply (missing_before h h1)|done]. destruct Hb as (Hr' & Hg' & Hs' & HV).
  split_and!; [done|by transitivity h1|by transitivity h1|]. intros V Ht.
  destruct (HV _ (tagged_tag s V h l p' _ _ Ht Hi)) as (V' & Hsub & Ht' & Hb).
  exists V'. split_and!; [set_solver|done|]. destruct (grows_params _ _ Hg' l p') as (q & Hq & Hqp); [by apply lookup_insert_eq|congruence|].
  exists l, q. split_and!; [by apply (grows_points _ _ Hg')|set_solver|done|congruence|]. intros d2 Hd2. by assert (d2 = d') as -> by congruence.
Qed.

Lemma build_key_builds h k : ranked h -> k ∈ map fst (entries h d) -> builds s (key_built d k) h (build_key costs build d h k).
Proof.
  intros Hr Hk. unfold build_key. destruct (key_get k _ Hk) as [[v|l] Hg]; rewrite Hg.
  - destruct (leaf h d k v Hr Hg) as (Hr' & Hg' & Hs' & Hp). split_and!; [done|done|done|]. intros V Ht.
    exists ({[fresh h]} ∪ V). split_and!; [set_solver|by apply tagged_tag|].
    eexists (fresh h), _. split_and!; [exact Hp|set_solver|by apply lookup_insert_eq|done|done].
  - destruct (ranked_there h Hr d k l Hg) as [p Hl]. pose proof (ranked_down h Hr d k l p Hg Hl) as Hrk.
    unfold buildCostParam. rewrite Hl. unfold set_param, next_id. cbn [param_at dict_at fresh globalId id].
    destruct (params p) as [| |d'] eqn:Hp.
    + destruct (costs !! name p) as [root|] eqn:Hc; [|by exists l, p]. rewrite insert_insert_eq.
      apply (param_builds h k l p); [done|done|done|done|done|by apply Hrk| |done]. right. split; [done|by eexists].
    + set (p' := mkParam _ _ _ _ _). destruct (renumber h l p p' Hr Hl) as (Hr' & Hg' & Hs'); [by left|done|]. split_and!; [done|done|done|]. intros V Ht.
      exists ({[l]} ∪ V). split_and!; [set_solver|by apply tagged_tag|]. exists l, p'.
      split_and!; [exact Hg|set_solver|by apply lookup_insert_eq|done|done].
    + apply (param_builds h k l p); [done|done|done|done|done|by apply Hrk|by left|done].
Qed.

Lemma throws m ks : fold_left (fun r k => bind r (fun h => build_key costs build d h k)) ks (Throw m) = Throw m.
Proof. by induction ks. Qed.

Lemma keys_builds ks h : ranked h -> (forall k, k ∈ ks -> k ∈ map fst (entries h d)) ->
  builds s (fun V h' => forall k, k ∈ ks -> key_built d k V h') h
    (fold_left (fun r k => bind r (fun h => build_key costs build d h k)) ks (Ok h)).
Proof.
  revert h. induction ks as [|k ks IH]; intros h Hr Hin.
  - split_and!; [done|done|done|]. intros V Ht. exists V. split_and!; [done|done|]. by intros k ?%not_elem_of_nil.
  - cbn [fold_left bind]. pose proof (build_key_builds h k Hr) as H1.
    specialize (H1 ltac:(by apply Hin; left)). destruct (build_key costs build d h k) as [h1|m|]; [| |done].
    + destruct H1 as (Hr1 & Hg1 & Hs1 & HV1).
      pose proof (IH h1 Hr1 ltac:(intros k' Hk'; rewrite (grows_keys _ _ Hg1); apply Hin; by right)) as H2.
      destruct (fold_left _ ks (Ok h1)) as [h'| |]; [|by apply (missing_before h h1)|done].
      * destruct H2 as (Hr' & Hg' & Hs' & HV').
        split_and!; [done|by transitivity h1|by transitivity h1|]. intros V Ht. destruct (HV1 V Ht) as (V1 & ? & Ht1 & Hk).
        destruct (HV' V1 Ht1) as (V' & ? & ? & Hks). exists V'. split_and!; [set_solver|done|].
        intros k' [->|Hk']%elem_of_cons; [by eapply key_built_grows|by apply Hks].
    + by rewrite throws.
Qed.
End Step.

Lemma buildCostParams_builds s fuel d h : (rank d < fuel)%nat -> ranked h -> builds s (fun V h' => built V h' d) h (buildCostParams costs fuel d h).
Proof.
  revert d h. induction fuel as [|fuel IH]; intros d h Hf Hr; [lia|]. cbn [buildCostParams].
  pose proof (keys_builds s (buildCostParams costs fuel) d) as Hk. specialize (Hk ltac:(intros d' h' ?; apply IH; lia) (map fst (entries h d)) h Hr ltac:(done)).
  destruct (fold_left _ _ _) as [h'| |]; [|done|done]. destruct Hk as (Hr' & Hg & Hs & HV). split_and!; [done|done|done|]. intros V Ht.
  destruct (HV V Ht) as (V' & ? & ? & Hall). exists V'. split_and!; [done|done|]. apply keys_built. intros k.
  rewrite (grows_keys _ _ Hg). apply Hall.
Qed.

(** The objects below those of [d]. *)
Inductive below (h : Heap) (d l : loc) : Prop :=
  | below_here k : points h d k l -> below h d l
  | below_in k m p d' : points h d k m -> param_at h !! m = Some p -> params p = PObj d' -> below h d' l -> below h d l.

Lemma built_below V h d l : built V h d -> below h d l -> l ∈ V.
Proof.
  intros Hb Hl. induction Hl as [d l k Hp|d l k m p d' Hp Hm Hd _ IH]; destruct Hb as [Hall Hsub].
  - destruct (Hall k) as (l2 & p & Hp2 & ? & _); [by eapply get_key|]. by assert (l2 = l) as -> by (unfold points in *; congruence).
  - apply IH. by eapply Hsub.
Qed.

Lemma built_param V h d l : built V h d -> below h d l -> exists p, param_at h !! l = Some p /\ params p <> PNull.
Proof.
  intros Hb Hl. induction Hl as [d l k Hp|d l k m p d' Hp Hm Hd _ IH]; destruct Hb as [Hall Hsub].
  - destruct (Hall k) as (l2 & p & Hp2 & ? & ? & ?); [by eapply get_key|]. assert (l2 = l) as -> by (unfold points in *; congruence). by exists p.
  - apply IH. by eapply Hsub.
Qed.

(** C30: When no operator is a part of its own cost, building the tree ends.  It ends with an error
    only because some reference names no operator of the file, which the message names.  Otherwise
    every object that the drawing can reach has a number of its own, none that of the root, whatever
    numbers were left by the trees that were built before, and no reference is left among them: each
    has the parameters of the operator it names. *)
Theorem numbers_distinct fuel root h : ranked h -> (rank (root_params root) < fuel)%nat ->
  match buildCostTree costs fuel root h with
  | Ok h' => (forall l l', below h' (root_params root) l -> below h' (root_params root) l' ->
      (exists i, id_at h' l = Some i /\ root_id root < i) /\ (id_at h' l = id_at h' l' -> l = l')) /\
      (forall l, below h' (root_params root) l -> exists p', param_at h' !! l = Some p' /\ params p' <> PNull /\
         forall p, param_at h !! l = Some p -> name p' = name p /\
           (params p = PNull -> exists r, costs !! name p = Some r /\ params p' = PObj (root_params r)))
  | Throw m => exists l p, param_at h !! l = Some p /\ params p = PNull /\ costs !! name p = None /\ m = "cost for " +:+ name p +:+ " not exist"
  | OutOfFuel => False
  end.
Proof.
  intros Hr Hf. unfold buildCostTree. set (h0 := mkHeap _ _ _ _). assert (Hr0 : ranked h0) by (destruct Hr; by split).
  pose proof (buildCostParams_builds (root_id root + 1) fuel _ h0 Hf Hr0) as Hb.
  destruct (buildCostParams _ _ _ _) as [h'| |]; [|exact Hb|done]. destruct Hb as (_ & _ & Hs & HV).
  destruct (HV ∅) as (V & _ & (_ & Hid & Hinj) & Hb); [split_and!; [cbn; lia|set_solver|set_solver]|]. split.
  - intros l l' Hl Hl'. pose proof (built_below V h' _ l Hb Hl) as Hin. split.
    + destruct (Hid l Hin) as (i & ? & ?). exists i. split; [done|lia].
    + apply Hinj; [done|]. by eapply built_below.
  - intros l Hl. destruct (built_param V h' _ l Hb Hl) as (p' & Hp' & Hn). exists p'. split_and!; [done|done|]. intros p Hp.
    destruct (resolves_old _ _ Hs l p Hp) as (q & Hq & Hqn & Hc). assert (q = p') as -> by congruence. split; [done|]. intros Hnull.
    destruct Hc as [Hc|(_ & Hc)]; [congruence|done].
Qed.
End Ends.

(** A reader of two costs, the second of which refers to an operator with one cost of its own. *)
Definition scan : Root := mkRoot 7 "TableScan" (num_of_Z 4) "rows" 1.
Definition reader : Root := mkRoot 9 "Reader" (num_of_Z 6) "net + scan" 0.
Definition file : Heap := mkHeap {[ 0%nat := mkParam None "TableScan_7" "" (num_of_Z 4) PNull ]}
  {[ 0%nat := [("net", ENum (num_of_Z 2)); ("scan", EParam 0)]; 1%nat := [("rows", ENum (num_of_Z 4))] ]} 1 1.

Lemma numbers_distinct_witness :
  let rank := fun d : loc => if decide (d = 0)%nat then 1%nat else 0%nat in
  ranked {[ "TableScan_7" := scan ]} rank file /\
  exists h', buildCostTree {[ "TableScan_7" := scan ]} 2 reader file = Ok h' /\ id_at h' 0 = Some 11 /\ id_at h' 2 = Some 12 /\
    forall l l', below h' 0 l -> below h' 0 l' -> id_at h' l = id_at h' l' -> l = l'.
Proof.
  cbv zeta. set (rank := fun d : loc => _).
  assert (Hp : forall d k l, points file d k l -> d = 0%nat /\ l = 0%nat).
  { intros d k l. unfold points, entries, file. cbn [dict_at]. destruct (decide (d = 0%nat)) as [->|H0]; [|destruct (decide (d = 1%nat)) as [->|H1]].
    - rewrite lookup_insert_eq. unfold get. cbn. repeat case_bool_decide; cbn; try done. by intros [= <-].
    - rewrite lookup_insert_ne, lookup_singleton_eq by done. unfold get. cbn. by case_bool_decide.
    - by rewrite lookup_insert_ne, lookup_singleton_ne by done. }
  assert (Hr : ranked {[ "TableScan_7" := scan ]} rank file).
  { split.
    - intros d k l p [-> ->]%Hp. unfold file. cbn [param_at]. rewrite lookup_singleton_eq. intros [= <-]. cbn [params name].
      intros root. rewrite lookup_singleton_eq. intros [= <-]. vm_compute. lia.
    - intros l Hl. cbn [file fresh param_at] in *. by rewrite lookup_singleton_ne by lia.
    - intros d k l [-> ->]%Hp. by eexists. }
  split; [exact Hr|]. pose proof (numbers_distinct {[ "TableScan_7" := scan ]} rank 2 reader file Hr) as H.
  eexists. split; [vm_compute; reflexivity|]. split; [vm_compute; reflexivity|]. split; [vm_compute; reflexivity|].
  intros l l' Hl Hl'. apply (proj1 (H ltac:(vm_compute; lia)) l l' Hl Hl').
Defined.

(** ** The drawing is a graph *)

Section Graph.
Context (toFixed4 : num -> string) (h : Heap) (expands : gmap Z bool).
#[local] Abbreviation nodes := (nodes_below toFixed4 h expands).
#[local] Abbreviation lines := (lines_below h expands).

Lemma mapM_some {A B} (f : A -> option B) l k : mapM f l = Some k <-> Forall2 (fun x y => f x = Some y) l k.
Proof. apply mapM_Some. Qed.

Lemma param_node_id p : node_id (param_node toFixed4 p) = pid p.
Proof. unfold param_node. by destruct (params p). Qed.

(** What joins the nodes below an object to its parent. *)
Definition joins (parentId : Z) (ns : list Node) (ls : list Line) : Prop :=
  map target ls = map node_id ns /\
  Forall (fun l => (source l = parentId \/ source l ∈ map node_id ns) /\ expanded expands (source l) = true) ls.

Lemma joins_app i ns ns' ls ls' : joins i ns ls -> joins i ns' ls' -> joins i (ns ++ ns') (ls ++ ls').
Proof.
  intros [H1 H2] [H3 H4]. split; [by rewrite !map_app, H1, H3|]. rewrite map_app. apply Forall_app. split.
  - eapply Forall_impl; [exact H2|]. intros l [[?|?] ?]; (split; [|done]); [by left|right; apply elem_of_app; by left].
  - eapply Forall_impl; [exact H4|]. intros l [[?|?] ?]; (split; [|done]); [by left|right; apply elem_of_app; by right].
Qed.

Lemma closed_lines fuel i d : expanded expands i = false -> lines (S fuel) i d = Some [].
Proof.
  intros Hi. cbn [lines_below]. rewrite Hi. cbn [negb]. generalize (objects h d) as ps.
  induction ps as [|p ps IH]; [done|]. cbn. destruct (mapM _ ps) as [x|]; [|done]. cbn in *. by injection IH as ->.
Qed.

Lemma lines_join fuel i d ns : expanded expands i = true -> nodes fuel d = Some ns -> exists ls, lines (S fuel) i d = Some ls /\ joins i ns ls.
Proof.
  revert i d ns. induction fuel as [|fuel IH]; intros i d ns Hi Hn; [done|]. cbn [nodes_below] in Hn.
  change (lines (S (S fuel)) i d) with ((@concat Line) <$> mapM (fun p =>
        if negb (expanded expands i) then Some []
        else
          match params p with
          | PObj d' => cons (mkLine i (pid p)) <$> lines (S fuel) (pid p) d'
          | _ => Some [mkLine i (pid p)]
          end) (objects h d)).
  rewrite Hi. cbn [negb]. revert ns Hn. generalize (objects h d) as ps.
  induction ps as [|p ps IHp]; intros ns Hn; [injection Hn as <-; exists []; by repeat constructor|].
  cbn -[lines_below nodes_below] in Hn |- *. apply bind_Some in Hn as (nss & Hm & [= <-]). apply bind_Some in Hm as (n0 & Hn0 & Hm).
  apply bind_Some in Hm as (nr & Hnr & [= <-]).
  destruct (IHp (concat nr)) as (lr & Hlr & Hj); [by rewrite Hnr|]. apply fmap_Some in Hlr as (lss & Hls & ->).
  assert (Hone : exists l0, match params p with PObj d' => cons (mkLine i (pid p)) <$> lines (S fuel) (pid p) d' | _ => Some [mkLine i (pid p)] end = Some l0 /\ joins i n0 l0).
  { assert (Hleaf : joins i [param_node toFixed4 p] [mkLine i (pid p)]).
    { split; [cbn; by rewrite param_node_id|]. apply Forall_singleton. split; [by left|done]. }
    destruct (params p) as [| |d'] eqn:Hp; [injection Hn0 as <-; by eexists|injection Hn0 as <-; by eexists|].
    destruct (expanded expands (pid p)) eqn:He.
    - apply fmap_Some in Hn0 as (nb & Hnb & ->). destruct (IH (pid p) d' nb He Hnb) as (lb & -> & H1 & H2). eexists. split; [done|].
      split; [cbn; by rewrite H1, param_node_id|]. constructor; [split; [by left|done]|]. eapply Forall_impl; [exact H2|].
      intros l [[->|Hin] ?]; (split; [|done]); right; cbn; [rewrite param_node_id; by left|by right].
    - injection Hn0 as <-. rewrite closed_lines by done. by eexists. }
  destruct Hone as (l0 & -> & Hj0). cbn -[lines_below]. rewrite Hls. cbn -[lines_below]. eexists. split; [done|]. by apply joins_app.
Qed.

(** Whatever is unfolded, the lines join nodes that are drawn: each leads from one that is unfolded,
    and, one by one in the order in which they are drawn, to every node but the first, the root. *)
Theorem graph_joined fuel root ns : genGraphvizNodes toFixed4 h expands fuel root = Some ns -> (0 < fuel)%nat ->
  exists n rest ls, ns = n :: rest /\ node_id n = root_id root /\ genGraphvizLines h expands (S fuel) root = Some ls /\
    map target ls = map node_id rest /\ Forall (fun l => source l ∈ map node_id ns /\ expanded expands (source l) = true) ls.
Proof.
  intros Hn Hf. unfold genGraphvizNodes, genGraphvizLines in *. destruct (expanded expands (root_id root)) eqn:He.
  - apply fmap_Some in Hn as (rest & Hr & ->). destruct (lines_join fuel _ _ rest He Hr) as (ls & Hl & H1 & H2).
    eexists _, rest, ls. split_and!; [done|done|done|done|]. eapply Forall_impl; [exact H2|]. intros l [[->|Hin] ?]; (split; [|done]); cbn.
    + by left.
    + by right.
  - injection Hn as <-. rewrite closed_lines by done. eexists _, [], []. split_and!; done.
Qed.
End Graph.
End CostTree.

Module Operators.
(** [LogicalOperatorNode]; a node without children has none. *)
Record LogicalNode := mkLogical { lid : Z; lchildren : list Z; ltype : string; linfo : string }.

(** [PhysicalOperatorNode], as it is in the file. *)
Record Candidate := mkCandidate {
  cid : Z; cchildren : list Z; ctype : string; ccost : num; cselected : bool; cmapping : string; cinfo : string
}.

(** What a drawing is told: a node with its attributes, or a line with its own. *)
Definition node_def (i : Z) (labels : list (string * string)) : string := show i +:+ " " +:+ createLabels labels +:+ ";" +:+ newline.
Definition link_def (i c : Z) (labels : list (string * string)) : string :=
  show i +:+ " -> " +:+ show c +:+ " " +:+ createLabels labels +:+ ";" +:+ newline.
Definition nodeName (type : string) (i : Z) : string := type +:+ "_" +:+ show i.

(** The effect of [LogicalOperatorTree]; [color] is [labels.color], when it is given. *)
Definition LogicalOperatorTree (data : list LogicalNode) (color : option string) (selected : option string) : list string * list string :=
  (map (fun n => node_def (lid n) [("label", nodeName (ltype n) (lid n)); ("color", default "" color);
      ("fillcolor", if bool_decide (Some (nodeName (ltype n) (lid n)) = selected) then "#bfdbfe" else "white");
      ("tooltip", "info: " +:+ linfo n)]) data,
   flat_map (fun n => map (fun c => link_def (lid n) c match color with Some c => [("color", c)] | None => [] end) (lchildren n)) data).

(** ** Candidates *)

(** An object whose keys are the ids of operators: its entries are in the order of the keys. *)
Fixpoint put {A} (k : Z) (v : A) (o : list (Z * A)) : list (Z * A) :=
  match o with
  | [] => [(k, v)]
  | (k', v') :: r => if k <? k' then (k, v) :: o else if k =? k' then (k, v) :: r else (k', v') :: put k v r
  end.
Definition lookup_id {A} (o : list (Z * A)) (k : Z) : option A := snd <$> find (fun e => fst e =? k) o.

(** The fields [physical.candidates] (new format), or [selected_candidates] and
    [discarded_candidates] (old format), and [physical.costs]. *)
Inductive Format := NewFormat (candidates : list (Z * Candidate)) | OldFormat (selected discarded : list Candidate).

Section Candidates.
Context (costs : gmap string CostTree.Root).

Definition allCandidates (f : Format) : list (Z * Candidate) :=
  match f with
  | NewFormat candidates => candidates
  | OldFormat selected discarded => fold_left (fun acc c => put (cid c) c acc) (selected ++ discarded) []
  end.

(** The assignment of [c.cost]. *)
Definition fix_cost (c : Candidate) : Candidate :=
  mkCandidate (cid c) (cchildren c) (ctype c)
    (match costs !! nodeName (ctype c) (cid c) with Some r => CostTree.root_cost r | None => ccost c end)
    (cselected c) (cmapping c) (cinfo c).

Definition allCandidatesMap (f : Format) : list (Z * Candidate) := map (fun e => (fst e, fix_cost (snd e))) (allCandidates f).

(** The groups by the logical operator. *)
Definition add_to_group (acc : gmap string (list Candidate)) (c : Candidate) : gmap string (list Candidate) :=
  if bool_decide (cmapping c = "") then acc else <[cmapping c := default [] (acc !! cmapping c) ++ [c]]> acc.
Definition operatorCandidates (f : Format) : gmap string (list Candidate) :=
  fold_left add_to_group (map snd (allCandidatesMap f)) ∅.

(** [OperatorCandidates]: the selected candidates and the others; a TypeError when the operator has
    no group. *)
Definition OperatorCandidates (f : Format) (logicalNodeName : string) : option (list Candidate * list Candidate) :=
  cs ← operatorCandidates f !! logicalNodeName;
  Some (filter (fun c => cselected c = true) cs, filter (fun c => cselected c = false) cs).

(** [convertTreeToArry] from the candidate of the key [i]; a child that is none of the candidates is
    undefined, and the walk a TypeError. *)
Inductive Walk := Walked (arr : list Candidate) | TypeError | Endless.

Definition wapp (w1 w2 : Walk) : Walk :=
  match w1, w2 with
  | Walked a, Walked b => Walked (a ++ b)
  | Walked _, e => e
  | e, _ => e
  end.

Fixpoint convertTreeToArry (fuel : nat) (cs : list (Z * Candidate)) (i : Z) : Walk :=
  match fuel with
  | O => Endless
  | S fuel =>
      match lookup_id cs i with
      | None => TypeError
      | Some c => wapp (Walked [c]) (foldr (fun ch w => wapp (convertTreeToArry fuel cs ch) w) (Walked []) (cchildren c))
      end
  end.
End Candidates.

(** The effect of [PhysicalOperatorTree]. *)
Definition PhysicalOperatorTree (toFixed4 : num -> string) (allDatas : list Candidate) (selected : string) : list string * list string :=
  let color n := ("color", if cselected n then "#4169E1" else "") in
  (map (fun n => node_def (cid n) [("label", nodeName (ctype n) (cid n) +:+ newline +:+ "cost: " +:+ toFixed4 (ccost n)); color n;
      ("fillcolor", if bool_decide (nodeName (ctype n) (cid n) = selected) then "#7dd3fc" else "white");
      ("tooltip", "info: " +:+ cinfo n)]) allDatas,
   flat_map (fun n => map (fun c => link_def (cid n) c [color n]) (cchildren n)) allDatas).

(** ** What is shown for an operator *)

Section Groups.
Context (costs : gmap string CostTree.Root).

Lemma groups_lookup cs acc name : name <> "" ->
  fold_left add_to_group cs acc !! name =
  match acc !! name, filter (fun c => cmapping c = name) cs with
  | None, [] => None
  | o, l => Some (default [] o ++ l)
  end.
Proof.
  intros Hname. revert acc. induction cs as [|c cs IH]; intros acc; cbn [fold_left].
  - cbn. destruct (acc !! name) as [l|]; [by rewrite app_nil_r|done].
  - rewrite IH, filter_cons. unfold add_to_group at 1. case_bool_decide as Hm.
    + rewrite decide_False by congruence. done.
    + destruct (decide (cmapping c = name)) as [<-|Hne]; [|by rewrite lookup_insert_ne by done].
      rewrite lookup_insert_eq. destruct (acc !! cmapping c) as [l|]; cbn; by rewrite <- ?app_assoc.
Qed.

(** For an operator that was clicked, every candidate for it is shown, the selected ones first and
    each part in the order of the file; for one that has no candidate the component fails. *)
Theorem candidates_shown f name : name <> "" ->
  OperatorCandidates costs f name =
    let cs := filter (fun c => cmapping c = name) (map snd (allCandidatesMap costs f)) in
    if bool_decide (cs = []) then None
    else Some (filter (fun c => cselected c = true) cs, filter (fun c => cselected c = false) cs).
Proof.
  intros Hname. unfold OperatorCandidates, operatorCandidates. rewrite groups_lookup by done. rewrite lookup_empty. cbn zeta.
  destruct (filter (fun c => cmapping c = name) _) as [|c l]; [by rewrite bool_decide_eq_true_2|by rewrite bool_decide_eq_false_2].
Qed.

(** In the old format a candidate is found under its own id. *)
Lemma lookup_put {A} k (v : A) o k' : StronglySorted Z.lt (map fst o) -> lookup_id (put k v o) k' = if k' =? k then Some v else lookup_id o k'.
Proof.
  unfold lookup_id. induction o as [|[k1 v1] o IH]; intros Hs; cbn [put map fst] in *.
  - cbn. rewrite (Z.eqb_sym k' k). by destruct (k =? k').
  - apply StronglySorted_inv in Hs as [Hs Hall]. destruct (k <? k1) eqn:H1, (k' =? k) eqn:H2; cbn [find fst snd].
    + apply Z.eqb_eq in H2. subst. by rewrite Z.eqb_refl.
    + by replace (k =? k') with false by lia.
    + apply Z.eqb_eq in H2. subst. destruct (k =? k1) eqn:H3; cbn [find fst]; [by replace (k =? k) with true by lia|].
      replace (k1 =? k) with false by lia. by apply IH.
    + destruct (k =? k1) eqn:H3; cbn [find fst].
      * replace (k =? k') with false by lia. by replace (k1 =? k') with false by lia.
      * destruct (k1 =? k'); [done|]. by apply IH.
Qed.

Lemma put_keys {A} k (v : A) o k' : k' ∈ map fst (put k v o) <-> k' = k \/ k' ∈ map fst o.
Proof.
  induction o as [|[k1 v1] o IH]; cbn [put]; [cbn; set_solver|]. destruct (k <? k1); [cbn; set_solver|].
  destruct (k =? k1) eqn:He; [|cbn in *; set_solver]. apply Z.eqb_eq in He. subst. cbn. set_solver.
Qed.

Lemma put_sorted {A} k (v : A) o : StronglySorted Z.lt (map fst o) -> StronglySorted Z.lt (map fst (put k v o)).
Proof.
  induction o as [|[k1 v1] o IH]; intros Hs; [repeat constructor|]. cbn [put]. pose proof Hs as Hs0.
  cbn in Hs. apply StronglySorted_inv in Hs as [Hs Hall]. destruct (k <? k1) eqn:H1; [|destruct (k =? k1) eqn:H2].
  - cbn. constructor; [done|]. constructor; [lia|]. eapply Forall_impl; [exact Hall|]. cbn. lia.
  - cbn. assert (k = k1) as -> by lia. by constructor.
  - cbn. constructor; [by apply IH|]. apply Forall_forall. intros k' [->|Hin]%put_keys; [lia|]. rewrite Forall_forall in Hall. by apply Hall.
Qed.

Definition keyed (o : list (Z * Candidate)) : Prop := forall i c, lookup_id o i = Some c -> cid c = i.

Lemma old_keyed selected discarded : keyed (allCandidates (OldFormat selected discarded)).
Proof.
  cbn. generalize (selected ++ discarded) as cs. intros cs.
  assert (H : StronglySorted Z.lt (map fst (@nil (Z * Candidate))) /\ keyed []) by (split; [constructor|done]).
  revert H. generalize (@nil (Z * Candidate)) as o. induction cs as [|c cs IH]; intros o [Hs Hk]; [done|].
  cbn [fold_left]. apply IH. split; [by apply put_sorted|]. intros i c' Hc. rewrite lookup_put in Hc by done.
  destruct (i =? cid c) eqn:He; [injection Hc as <-; lia|by apply Hk].
Qed.

Lemma map_keyed f : keyed (allCandidates f) -> keyed (allCandidatesMap costs f).
Proof.
  unfold keyed, allCandidatesMap, lookup_id. intros Hk i c.
  assert (Hf : forall o : list (Z * Candidate), find (fun e => fst e =? i) (map (fun e => (fst e, fix_cost costs (snd e))) o) =
    (fun e => (fst e, fix_cost costs (snd e))) <$> find (fun e => fst e =? i) o).
  { induction o as [|e o IH]; [done|]. cbn. by destruct (fst e =? i). }
  rewrite Hf. specialize (Hk i). destruct (find _ _) as [[k c0]|]; [|done]. cbn in *. intros [= <-]. cbn. by apply Hk.
Qed.

Lemma walk_children cs fuel chs arr : foldr (fun ch w => wapp (convertTreeToArry fuel cs ch) w) (Walked []) chs = Walked arr ->
  exists parts, arr = concat parts /\ Forall2 (fun ch p => convertTreeToArry fuel cs ch = Walked p) chs parts.
Proof.
  revert arr. induction chs as [|ch chs IH]; intros arr Hw; cbn in Hw; [injection Hw as <-; by exists []|].
  destruct (convertTreeToArry fuel cs ch) as [p| |] eqn:Hp; [|done|done].
  destruct (foldr _ _ chs) as [r| |] eqn:Hr; [|done|done]. injection Hw as <-.
  destruct (IH r eq_refl) as (parts & -> & Hf). exists (p :: parts). split; [done|by constructor].
Qed.

Lemma walk_head cs fuel i arr : convertTreeToArry fuel cs i = Walked arr -> exists c r, arr = c :: r /\ lookup_id cs i = Some c.
Proof.
  destruct fuel as [|fuel]; [done|]. cbn. destruct (lookup_id cs i) as [c|]; [|done].
  destruct (foldr _ _ _) as [a| |]; [|done|done]. intros [= <-]. by eexists _, _.
Qed.

(** When a tree of operators is drawn, every line leads to a node of the drawing, and the nodes are
    candidates of the file. *)
Theorem physical_tree_closed f fuel i arr : keyed (allCandidates f) ->
  convertTreeToArry fuel (allCandidatesMap costs f) i = Walked arr ->
  (exists c r, arr = c :: r /\ cid c = i) /\
  Forall (fun n => lookup_id (allCandidatesMap costs f) (cid n) = Some n /\ forall ch, ch ∈ cchildren n -> exists m, m ∈ arr /\ cid m = ch) arr.
Proof.
  intros Hk%map_keyed. revert Hk. generalize (allCandidatesMap costs f) as cs. intros cs Hk. revert i arr.
  induction fuel as [|fuel IH]; intros i arr Hw; [done|].
  destruct (walk_head cs (S fuel) i arr Hw) as (c & r & -> & Hc). split; [exists c, r; split; [done|by apply Hk]|].
  cbn in Hw. rewrite Hc in Hw. destruct (foldr _ _ _) as [a| |] eqn:Hf; [|done|done]. injection Hw as <-.
  apply walk_children in Hf as (parts & -> & Hf). constructor.
  - split; [by rewrite (Hk i c Hc)|]. intros ch Hch. apply list_elem_of_lookup in Hch as [j Hj].
    destruct (Forall2_lookup_l _ _ _ _ _ Hf Hj) as (p & Hp & Hw). destruct (IH ch p Hw) as [(m & q & -> & Hm) _].
    exists m. split; [|done]. right. apply list_elem_of_In, in_concat. exists (m :: q). split; [by eapply list_elem_of_In, list_elem_of_lookup_2|by left].
  - apply Forall_concat, Forall_forall. intros p Hp. apply list_elem_of_lookup in Hp as [j Hj].
    destruct (Forall2_lookup_r _ _ _ _ _ Hf Hj) as (ch & _ & Hw). destruct (IH ch p Hw) as [_ Hall].
    eapply Forall_impl; [exact Hall|]. cbn. intros n [Hn Hchs]. split; [done|]. intros ch' Hch'. destruct (Hchs ch' Hch') as (m & Hm & ?).
    exists m. split; [|done]. right. apply list_elem_of_In, in_concat. exists p. split; [by eapply list_elem_of_In, list_elem_of_lookup_2|by apply list_elem_of_In].
Qed.
End Groups.
End Operators.

Module Page.
Section Page.
(** The content of a file that is well-formed JSON, and [JSON.parse]. *)
Context {Data : Type} (parse : string -> option Data) (oldFormatTrace newFormatTrace : Data).

(** The state of [OptimizerTrace]; [reading] are the files whose text was asked for. *)
Record State := mkState { importedData : option Data; errorMsg : string; fileName : string; reading : list string }.
Definition init : State := mkState None "" "" [].

Inductive Event :=
  | Upload (name text : string)    (** [handleBeforeUpload], up to the text of the file *)
  | TextRead (n : nat)             (** the rest of it, for the [n]-th file that is read *)
  | ChooseExample (key : string)   (** [menuItemClick] *)
  | RenderError (message : string) (** the fallback of the [ErrorBoundary] *).

Definition step (s : State) (e : Event) : State :=
  match e with
  | Upload name text => mkState (importedData s) "" name (reading s ++ [text])
  | TextRead n =>
      match reading s !! n with
      | None => s
      | Some t =>
          mkState (match parse t with Some d => Some d | None => importedData s end) (errorMsg s) (fileName s) (delete n (reading s))
      end
  | ChooseExample key =>
      mkState (if bool_decide (key = "old") then Some oldFormatTrace else if bool_decide (key = "new") then Some newFormatTrace else importedData s)
        (errorMsg s) key (reading s)
  | RenderError message => mkState None message (fileName s) (reading s)
  end.
Definition run (s : State) (es : list Event) : State := fold_left step es s.

(** The key of what is shown, and what is shown. *)
Definition shown (s : State) : option (string * Data) := pair (fileName s) <$> importedData s.

(** A file that is chosen when no other is being read is shown once it was read, if it is JSON; *)
Lemma upload_shown s name text d : reading s = [] -> parse text = Some d ->
  shown (run s [Upload name text; TextRead 0]) = Some (name, d) /\ errorMsg (run s [Upload name text; TextRead 0]) = "".
Proof. intros Hr Hp. cbn. rewrite Hr. cbn. by rewrite Hp. Qed.

(** if it is not, what was shown before stays, under the name of the new file and without an error. *)
Lemma bad_file_keeps_data s name text : reading s = [] -> parse text = None ->
  run s [Upload name text; TextRead 0] = mkState (importedData s) "" name [].
Proof. intros Hr Hp. cbn. rewrite Hr. cbn. by rewrite Hp. Qed.

(** Of two files that are read at a time the one that is read last is shown, under the name of the
    one that was chosen last. *)
Lemma read_last_shown s n1 t1 n2 t2 d1 d2 : reading s = [] -> parse t1 = Some d1 -> parse t2 = Some d2 ->
  shown (run s [Upload n1 t1; Upload n2 t2; TextRead 1; TextRead 0]) = Some (n2, d1).
Proof. intros Hr H1 H2. cbn. rewrite Hr. cbn. rewrite H2. cbn. by rewrite H1. Qed.

(** An error of the drawing takes the file away; an example that is chosen then is shown below the
    error. *)
Lemma error_stays s m : run s [RenderError m; ChooseExample "old"] = mkState (Some oldFormatTrace) m "old" (reading s).
Proof. done. Qed.
End Page.
End Page.
