(* ===== verification/Diagnosis.v ===== *)
(** * Diagnosis of the cluster (apps/Diagnose)

    Module [Rows] are the rows of a table with their sub rows (DiagnosisTable.tsx,
    utils/tableColumns.tsx), Module [Table] the range a table asks for, over [ClientRequest], and
    Module [Generator] the form the range is chosen with (DiagnoseGenerator.tsx), over [FormLib]. *)

From S2P Require Import Prelude JsString JsNumber ClientRequest FormLib.
(** ** Rows *)

Module Rows.
(** [DiagnoseTableRowDef] and [DiagnoseTableDef]; [toLocaleLowerCase] is an argument. *)
Record RowDef := mkRowDef { values : option (list string); sub_values : option (list (list string)) }.
Record TableDef := mkTableDef { column : option (list string); rows : option (list RowDef) }.

(** The fields of a row that come from the answer. *)
Abbreviation Fields := (gmap string string).

(** A row object, but for [is_sub]: the objects of sub rows are the fields in [sub_rows]. *)
Record Row := mkRow { row_idx : nat; fields : Fields; show_sub : bool; sub_rows : list Fields }.

(** [_newRow[key] = v] for the values from left to right; beyond the headers the key is undefined. *)
Definition assign_values (headers values : list string) : Fields :=
  fold_left (fun f p => <[nth (fst p) headers "undefined" := snd p]> f) (imap pair values) ∅.

Section Build.
Context (lower : string -> string).

Definition allRows (data : option TableDef) : list Row :=
  let columnHeaders := map lower (default [] (data ≫= column)) in
  imap (fun rowIdx row =>
    mkRow rowIdx (assign_values columnHeaders (default [] (values row))) false
      (map (assign_values columnHeaders) (default [] (sub_values row))))
    (default [] (data ≫= rows)).
End Build.

(** The elements of the list that is shown are references: to a row, or to a sub row of one. *)
Inductive Item := Main (rowIdx : nat) | Sub (rowIdx sub : nat).

Global Instance item_eq_dec : EqDecision Item.
Proof. solve_decision. Defined.

(** The row objects and [items]. *)
Record State := mkState { objects : list Row; items : list Item }.

(** The effect that runs when there are new rows. *)
Definition load (rows : list Row) : State := mkState rows (map (fun r => Main (row_idx r)) rows).

Definition set_show (b : bool) (r : Row) : Row := mkRow (row_idx r) (fields r) b (sub_rows r).
Definition subs_of (i : nat) (r : Row) : list Item := map (Sub i) (seq 0 (length (sub_rows r))).

(** [newRows.splice(pos, n, ...new)] *)
Definition splice {A} (pos n : nat) (new l : list A) : list A := take pos l ++ new ++ drop (pos + n) l.

Definition toggleShowSub (rowIdx : nat) (showSub : bool) (s : State) : State :=
  match list_find (fun it => it = Main rowIdx) (items s), objects s !! rowIdx with
  | Some (pos, _), Some curRow =>
      let rows := <[rowIdx := set_show showSub curRow]> (objects s) in
      if showSub then mkState rows (splice (pos + 1) 0 (subs_of rowIdx curRow) (items s))
      else mkState rows (splice (pos + 1) (length (sub_rows curRow)) [] (items s))
  | _, _ => s
  end.

(** [ruleColumn]: the icon of a row, of a row without sub rows none. *)
Inductive Icon := Plus | Minus.
Definition icon (s : State) (it : Item) : option Icon :=
  match it with
  | Sub _ _ => None
  | Main i => r ← objects s !! i; if (0 <? length (sub_rows r))%nat then Some (if show_sub r then Minus else Plus) else None
  end.

(** A click on the icon of the item that is shown at the position [pos]. *)
Definition click (pos : nat) (s : State) : State :=
  match items s !! pos with
  | Some (Main i) =>
      match icon s (Main i) with
      | Some Plus => toggleShowSub i true s
      | Some Minus => toggleShowSub i false s
      | None => s
      end
  | _ => s
  end.

(** [diagnosisColumns] *)
Definition diagnosisColumns (s : State) : list string :=
  match items s with
  | Main i :: _ =>
      if truthy (default "" (objects s !! i ≫= fun r => fields r !! "error")) then ["category"; "table"; "error"]
      else ["rule"; "item"; "type"; "instance"; "status_address"; "value"; "reference"; "severity"; "details"]
  | _ => ["rule"; "item"; "type"; "instance"; "status_address"; "value"; "reference"; "severity"; "details"]
  end.

(** ** What is shown *)

(** The rows in their order, the sub rows after those that are open. *)
Definition layout (rows : list Row) (open : nat -> bool) : list Item :=
  concat (imap (fun i r => Main i :: if open i then subs_of i r else []) rows).

(** The rows that are open after clicks: each click on the icon of a row opens or closes it. *)
Definition click_open (rows : list Row) (pos : nat) (open : gset nat) : gset nat :=
  match layout rows (fun i => bool_decide (i ∈ open)) !! pos with
  | Some (Main i) =>
      match rows !! i with
      | Some r => if (0 <? length (sub_rows r))%nat then if decide (i ∈ open) then open ∖ {[i]} else open ∪ {[i]} else open
      | None => open
      end
  | _ => open
  end.

Definition numbered (rows : list Row) : Prop := forall i r, rows !! i = Some r -> row_idx r = i /\ show_sub r = false.

(** The objects are the rows, open or not. *)
Definition shown (rows : list Row) (open : gset nat) (s : State) : Prop :=
  objects s = imap (fun i r => set_show (bool_decide (i ∈ open)) r) rows /\
  items s = layout rows (fun i => bool_decide (i ∈ open)).

Lemma allRows_numbered lower data : numbered (allRows lower data).
Proof. intros i r. unfold allRows. rewrite list_lookup_imap. by intros (d & _ & ->)%fmap_Some. Qed.

(** The part of the list before a row, and the part after it. *)
Lemma layout_split rows open i r : rows !! i = Some r ->
  layout rows open = layout (take i rows) open ++ (Main i :: if open i then subs_of i r else []) ++
    concat (imap (fun j r => Main (S i + j) :: if open (S i + j) then subs_of (S i + j) r else []) (drop (S i) rows)).
Proof.
  intros Hr. unfold layout. rewrite <- (take_drop_middle rows i r Hr) at 1. rewrite imap_app, concat_app. f_equal.
  rewrite length_take_le by (apply lookup_lt_Some in Hr; lia). cbn [imap concat]. rewrite Nat.add_0_r. f_equal. f_equal.
  apply imap_ext. intros j x _. cbn. by replace (i + S j)%nat with (S (i + j)) by lia.
Qed.

Lemma layout_ext rows f g : (forall i, (i < length rows)%nat -> f i = g i) -> layout rows f = layout rows g.
Proof. intros H. unfold layout. f_equal. apply imap_ext. intros i r Hi. rewrite H; [done|]. by apply lookup_lt_Some in Hi. Qed.

Lemma layout_before rows open i : (length rows <= i)%nat -> Main i ∉ layout rows open.
Proof.
  intros Hi Hin. unfold layout in Hin. apply list_elem_of_In, in_concat in Hin as (l & Hl & Hin). apply list_elem_of_In in Hl, Hin.
  apply elem_of_lookup_imap in Hl as (j & r & -> & Hr). apply lookup_lt_Some in Hr.
  apply elem_of_cons in Hin as [[= ->]|Hin]; [lia|]. destruct (open j); [|by apply elem_of_nil in Hin].
  by apply list_elem_of_fmap in Hin as (? & ? & _).
Qed.

Lemma find_row rows open i r : rows !! i = Some r ->
  list_find (fun it => it = Main i) (layout rows open) = Some (length (layout (take i rows) open), Main i).
Proof.
  intros Hr. apply list_find_Some. rewrite (layout_split rows open i r Hr). split_and!; [|done|].
  - by rewrite lookup_app_r, Nat.sub_diag.
  - intros j y Hy Hj ->. rewrite lookup_app_l in Hy by done. apply list_elem_of_lookup_2 in Hy.
    apply layout_before in Hy; [done|]. rewrite length_take. lia.
Qed.

Lemma row_there rows open i pos : layout rows open !! pos = Some (Main i) -> is_Some (rows !! i).
Proof.
  intros Hp. apply lookup_lt_is_Some. apply list_elem_of_lookup_2 in Hp. destruct (decide (i < length rows)%nat); [done|].
  destruct (layout_before rows open i); [lia|done].
Qed.

Lemma objects_set rows open i b r : rows !! i = Some r ->
  <[i := set_show b (set_show (bool_decide (i ∈ open)) r)]> (imap (fun j r => set_show (bool_decide (j ∈ open)) r) rows) =
  imap (fun j r => set_show (bool_decide (j ∈ (if b then open ∪ {[i]} else open ∖ {[i]} : gset nat))) r) rows.
Proof.
  intros Hr. apply list_eq. intros j. rewrite list_lookup_imap. destruct (decide (j = i)) as [->|Hne].
  - rewrite list_lookup_insert_eq by (rewrite length_imap; by apply lookup_lt_Some in Hr). rewrite Hr. cbn. unfold set_show. cbn.
    do 2 f_equal. destruct b; symmetry; [apply bool_decide_eq_true_2|apply bool_decide_eq_false_2]; set_solver.
  - rewrite list_lookup_insert_ne by done. rewrite list_lookup_imap. destruct (rows !! j) as [q|]; [|done]. cbn. do 2 f_equal.
    apply bool_decide_ext. destruct b; set_solver.
Qed.

Lemma layout_toggle rows open i r b : rows !! i = Some r -> bool_decide (i ∈ open) = negb b ->
  layout rows (fun j => bool_decide (j ∈ (if b then open ∪ {[i]} else open ∖ {[i]} : gset nat))) =
    let l := layout rows (fun j => bool_decide (j ∈ open)) in
    let pos := length (layout (take i rows) (fun j => bool_decide (j ∈ open))) in
    if b then splice (pos + 1) 0 (subs_of i r) l else splice (pos + 1) (length (sub_rows r)) [] l.
Proof.
  intros Hr Hb. set (f := fun j => bool_decide (j ∈ open)). set (g := fun j => bool_decide _).
  assert (Hg : forall j, j <> i -> g j = f j). { intros j Hj. unfold f, g. apply bool_decide_ext. destruct b; set_solver. }
  assert (Hgi : g i = b). { unfold g. destruct b; [apply bool_decide_eq_true_2|apply bool_decide_eq_false_2]; set_solver. }
  rewrite (layout_split rows g i r Hr), (layout_split rows f i r Hr). cbv zeta.
  rewrite (layout_ext (take i rows) g f) by (intros j; rewrite length_take; intros; apply Hg; lia).
  rewrite (imap_ext _ (fun j r => Main (S i + j) :: if f (S i + j)%nat then subs_of (S i + j) r else []) (drop (S i) rows))
    by (intros j x _; by rewrite Hg by lia).
  set (pre := layout (take i rows) f). set (post := concat _). rewrite Hgi. change (f i) with (bool_decide (i ∈ open)). rewrite Hb. unfold splice.
  destruct b; cbn [negb app].
  - rewrite Nat.add_0_r. rewrite take_app_add, drop_app_add. by rewrite <- app_assoc.
  - assert (Hl : length (subs_of i r) = length (sub_rows r)) by (unfold subs_of; by rewrite length_map, length_seq).
    rewrite <- Nat.add_assoc. rewrite take_app_add, drop_app_add. cbn [app take drop Nat.add]. rewrite <- Hl, drop_app_length.
    by rewrite <- app_assoc.
Qed.

Lemma toggle_shown rows open s i r b : shown rows open s -> rows !! i = Some r -> bool_decide (i ∈ open) = negb b ->
  shown rows (if b then open ∪ {[i]} else open ∖ {[i]}) (toggleShowSub i b s).
Proof.
  intros [Ho Hi] Hr Hb. unfold toggleShowSub. rewrite Hi, (find_row rows _ i r Hr), Ho, list_lookup_imap, Hr. cbn [fmap option_fmap option_map].
  rewrite (objects_set rows open i b r Hr). change (subs_of i (set_show _ r)) with (subs_of i r). change (sub_rows (set_show _ r)) with (sub_rows r).
  pose proof (layout_toggle rows open i r b Hr Hb) as Hl. cbv zeta in Hl. destruct b; (split; [done|]); by rewrite Hl.
Qed.

Lemma click_shown rows open pos s : shown rows open s -> shown rows (click_open rows pos open) (click pos s).
Proof.
  intros Hs. pose proof Hs as [Ho Hi]. unfold click, click_open. rewrite <- Hi. destruct (items s !! pos) as [[i|i j]|] eqn:Hp; [|done|done].
  rewrite Hi in Hp. destruct (row_there _ _ _ _ Hp) as [r Hr]. cbn [icon]. rewrite Ho, list_lookup_imap, Hr. cbn.
  destruct (length (sub_rows r)) as [|n] eqn:Hn; [done|]. cbn. destruct (decide (i ∈ open)) as [Hin|Hin].
  - rewrite bool_decide_eq_true_2 by done. apply (toggle_shown rows open s i r false); [done|done|by apply bool_decide_eq_true_2].
  - rewrite bool_decide_eq_false_2 by done. apply (toggle_shown rows open s i r true); [done|done|by apply bool_decide_eq_false_2].
Qed.

Lemma load_shown rows : numbered rows -> shown rows ∅ (load rows).
Proof.
  intros Hn. split.
  - cbn. apply list_eq. intros i. rewrite list_lookup_imap. destruct (rows !! i) as [r|] eqn:Hr; [|done]. cbn.
    destruct (Hn i r Hr) as [_ Hs]. rewrite bool_decide_eq_false_2 by set_solver. destruct r. cbn in *. by subst.
  - cbn. unfold layout. rewrite (imap_ext _ (fun i r => [Main (row_idx r)]) rows).
    + change (imap _ rows) with (imap (const (fun r => [Main (row_idx r)])) rows). rewrite imap_const. clear. by induction rows as [|r rows IH]; [done|]; cbn; f_equal.
    + intros i r Hr. cbn. destruct (Hn i r Hr) as [-> _]. by rewrite bool_decide_eq_false_2 by set_solver.
Qed.

(** C29: Whatever is clicked, the table shows the rows of the answer in their order, and after each row
    that was opened and not closed again all its sub rows: the list that is cut and joined at every
    click is at each moment the one laid out anew from the set of open rows, and the icon of a row
    tells whether it is one of them. *)
Theorem rows_refine_open lower data clicks :
  let rows := allRows lower data in
  let s := fold_left (fun s p => click p s) clicks (load rows) in
  let open := fold_left (fun o p => click_open rows p o) clicks ∅ in
  items s = layout rows (fun i => bool_decide (i ∈ open)) /\
  forall i r, rows !! i = Some r -> sub_rows r <> [] -> icon s (Main i) = Some (if decide (i ∈ open) then Minus else Plus).
Proof.
  cbv zeta. set (rows := allRows lower data). assert (Hs : shown rows ∅ (load rows)) by apply load_shown, allRows_numbered.
  assert (Hf : shown rows (fold_left (fun o p => click_open rows p o) clicks ∅) (fold_left (fun s p => click p s) clicks (load rows))).
  { revert Hs. generalize (load rows) as s. generalize (∅ : gset nat) as o. induction clicks as [|p cs IH]; intros o s Hs; [done|].
    cbn. by apply IH, click_shown. }
  destruct Hf as [Ho Hi]. split; [done|]. intros i r Hr Hsub. cbn. rewrite Ho, list_lookup_imap, Hr. cbn.
  destruct (sub_rows r); [done|]. cbn. case_decide as Hin; [by rewrite bool_decide_eq_true_2|by rewrite bool_decide_eq_false_2].
Qed.

(** A table of two rows, of which the second has two sub rows; it is opened, closed and opened. *)
Lemma rows_refine_open_witness :
  let data := Some (mkTableDef (Some ["RULE"]) (Some [mkRowDef (Some ["a"]) None; mkRowDef (Some ["b"]) (Some [["c"]; ["d"]])])) in
  let s := fold_left (fun s p => click p s) [0; 1; 1; 1] (load (allRows (fun s => s) data)) in
  items s = [Main 0; Main 1; Sub 1 0; Sub 1 1] /\ icon s (Main 1) = Some Minus.
Proof.
  cbv zeta. set (data := Some _). destruct (rows_refine_open (fun s => s) data [0; 1; 1; 1]) as [Hi Hicon]. split.
  - rewrite Hi. vm_compute. reflexivity.
  - rewrite (Hicon 1 _ eq_refl); [vm_compute; reflexivity|]. vm_compute. discriminate.
Defined.
End Rows.

Local Open Scope Z_scope.

(** ** The range a table asks for *)

Module Table.
(** A range is an array: [obj] is its identity, by which React compares. *)
Record Range := mkRange { obj : nat; start_time : Z; end_time : Z }.

Section Table.
Context {D E : Type}.

(** A table: its props, the state [internalTimeRange], the values of [stableTimeRange] and of
    [internalTimeRange] the effects ran for last, the ref [reqFn] (a request is the range it is
    for), the request that the hook got when the table was last rendered, and the hook, with the
    requests that were sent. *)
Record State := mkState {
  stable : Range; unstable : Range; internal : Range;
  seen_stable : option nat; seen_internal : option nat;
  reqFn : option Range; factory : option Range;
  hook : Hook D E (list Range)
}.

Definition on_hook (f : Hook D E (list Range) -> Hook D E (list Range)) (s : State) : State :=
  mkState (stable s) (unstable s) (internal s) (seen_stable s) (seen_internal s) (reqFn s) (factory s) (f (hook s)).

(** [sendRequest] of the last render. *)
Definition send (s : State) : State :=
  on_hook (sendRequest (bool_decide (is_Some (factory s))) (fun asked => asked ++ option_list (factory s)) Datatypes.id) s.

(** Rendering: [useClientRequest(reqFn.current!, ...)]. *)
Definition render (s : State) : State :=
  mkState (stable s) (unstable s) (internal s) (seen_stable s) (seen_internal s) (reqFn s) (reqFn s) (hook s).

(** The effects of a render, in their order: the first sets [internalTimeRange], which takes place
    when all have run; the hook is mounted between the second and the third.  A request that is
    sent renders the table anew. *)
Definition effects (s : State) : State * option Range :=
  let next := if bool_decide (seen_stable s = Some (obj (stable s))) then None else Some (stable s) in
  let changed := negb (bool_decide (seen_internal s = Some (obj (internal s)))) in
  let s := mkState (stable s) (unstable s) (internal s) (Some (obj (stable s))) (Some (obj (internal s)))
    (if changed then Some (internal s) else reqFn s) (factory s) (hook s) in
  let s := if bool_decide (phase (hook s) = Created) then on_hook (set_mounted true Mounted) s else s in
  let s' := if changed && negb (start_time (internal s) =? 0) then send s else s in
  (if bool_decide (fresh (hook s') = fresh (hook s)) then s' else render s', next).

Definition set_internal (r : Range) (s : State) : State :=
  mkState (stable s) (unstable s) r (seen_stable s) (seen_internal s) (reqFn s) (factory s) (hook s).

(** A render with all that follows: setting the state to the array it has is no change. *)
Definition commit (s : State) : State :=
  let (s, next) := effects (render s) in
  match next with
  | Some r => if bool_decide (obj r = obj (internal s)) then s else fst (effects (render (set_internal r s)))
  | None => s
  end.

Inductive Event :=
  | Props (stable unstable : Range)    (** the form around the tables is rendered *)
  | Start                              (** [handleStart] *)
  | Settle (r : D + E)                 (** the request in flight ends *).

Definition step (s : State) (e : Event) : State :=
  match e with
  | Props stable unstable =>
      commit (mkState stable unstable (internal s) (seen_stable s) (seen_internal s) (reqFn s) (factory s) (hook s))
  | Start => if bool_decide (obj (unstable s) = obj (internal s)) then s else commit (set_internal (unstable s) s)
  | Settle r =>
      match cancelTokenSource (hook s) with
      | Some t => commit (on_hook (resume Datatypes.id t r) s)
      | None => s
      end
  end.

(** The table as it opens: its own range is an array of zeros. *)
Definition open (zero stable unstable : Range) : State :=
  commit (mkState stable unstable zero None None None None (new false [])).
Definition run (s : State) (es : list Event) : State := fold_left step es s.

Definition asked (s : State) : list Range := world (hook s).

(** [timeChanged], the button of [cardExtra] and the range of [subTitle]. *)
Definition timeChanged (s : State) : bool :=
  negb ((start_time (internal s) =? start_time (unstable s)) && (end_time (internal s) =? end_time (unstable s))).
Definition start_button (s : State) : bool :=
  negb (isLoading (state (hook s))) && (timeChanged s || bool_decide (is_Some (error (state (hook s))))).
Definition subTitle (s : State) : option (Z * Z) :=
  if 0 <? start_time (internal s) then Some (start_time (internal s), end_time (internal s)) else None.

(** ** What is asked for *)

(** Between events: the ref is for the range that is set. *)
Definition quiet (s : State) : Prop :=
  phase (hook s) = Mounted /\ mounted (hook s) = true /\
  seen_stable s = Some (obj (stable s)) /\ seen_internal s = Some (obj (internal s)) /\ reqFn s = Some (internal s).

(** When nothing is in flight, a request was sent; it is for the range [r]. *)
Definition sends (r : Range) (s s' : State) : Prop :=
  asked s' = asked s ++ (if bool_decide (cancelTokenSource (hook s) = None) then [r] else []).

Lemma send_frame s : let s' := send s in
  stable s' = stable s /\ unstable s' = unstable s /\ internal s' = internal s /\ seen_stable s' = seen_stable s /\
  seen_internal s' = seen_internal s /\ reqFn s' = reqFn s /\ factory s' = factory s.
Proof. done. Qed.

Lemma send_asks s r : mounted (hook s) = true -> factory s = Some r ->
  phase (hook (send s)) = phase (hook s) /\ mounted (hook (send s)) = true /\ sends r s (send s).
Proof.
  intros Hm Hf. unfold sends, asked, send, on_hook. rewrite Hf. cbn [hook]. rewrite bool_decide_eq_true_2 by by eexists.
  unfold sendRequest. rewrite Hm. cbn [negb]. destruct (cancelTokenSource (hook s)) as [t|] eqn:Hc.
  - rewrite bool_decide_eq_false_2 by done. by rewrite app_nil_r.
  - rewrite bool_decide_eq_true_2 by done. done.
Qed.

(** The effects of a render in which the range [r] was set. *)
Lemma effects_new s r : quiet s -> obj r <> obj (internal s) ->
  let s' := fst (effects (render (set_internal r s))) in
  quiet s' /\ stable s' = stable s /\ unstable s' = unstable s /\ internal s' = r /\
  (if start_time r =? 0 then hook s' = hook s else sends (internal s) s s').
Proof.
  intros (Hp & Hm & Hs & Hi & Hr) Hne. unfold effects. cbn [render set_internal internal stable seen_stable seen_internal reqFn hook factory unstable].
  rewrite Hi, Hr. rewrite (bool_decide_eq_false_2 (Some _ = Some (obj r))) by congruence.
  rewrite (bool_decide_eq_false_2 (phase (hook s) = Created)) by congruence. cbn [negb andb].
  set (s1 := mkState _ _ _ _ _ _ _ _). change (internal s1) with r. destruct (start_time r =? 0); cbn [negb].
  - rewrite (bool_decide_eq_true_2 (fresh _ = fresh _)) by done. unfold quiet. cbn. by split_and!.
  - destruct (send_asks s1 (internal s) Hm eq_refl) as (H1 & H2 & H3). rewrite (Hp : phase (hook s1) = Mounted) in H1. cbn [fst].
    destruct (bool_decide (fresh _ = fresh _)); unfold quiet; cbn [render stable unstable internal hook phase seen_stable seen_internal reqFn].
    + by split_and!; try exact H1; try exact H2; try exact H3.
    + by split_and!; try exact H1; try exact H2; try exact H3.
Qed.

(** Those in which it was not; the effect of new props sets the range when all have run. *)
Lemma effects_old s st un h : quiet s -> phase h = Mounted ->
  let s0 := render (mkState st un (internal s) (seen_stable s) (seen_internal s) (reqFn s) (factory s) h) in
  effects s0 = (mkState st un (internal s) (Some (obj st)) (Some (obj (internal s))) (Some (internal s)) (Some (internal s)) h,
    if bool_decide (seen_stable s = Some (obj st)) then None else Some st).
Proof.
  intros (Hp & Hm & Hs & Hi & Hr) Hh. unfold effects. cbn [render set_internal internal stable seen_stable seen_internal reqFn hook factory unstable].
  rewrite Hi, Hr. rewrite (bool_decide_eq_true_2 (Some (obj (internal s)) = _)) by done. cbn [negb andb].
  rewrite (bool_decide_eq_false_2 (phase h = Created)) by congruence. by rewrite (bool_decide_eq_true_2 (fresh _ = fresh _)).
Qed.

(** A step of a table at rest. *)
Definition quiet_step (s s' : State) : Prop :=
  quiet s' /\
  if bool_decide (obj (internal s') = obj (internal s)) then internal s' = internal s /\ asked s' = asked s
  else if start_time (internal s') =? 0 then asked s' = asked s else sends (internal s) s s'.

Lemma commit_old s st un h : quiet s -> phase h = Mounted -> mounted h = true -> world h = asked s -> cancelTokenSource h = cancelTokenSource (hook s) ->
  quiet_step s (commit (mkState st un (internal s) (seen_stable s) (seen_internal s) (reqFn s) (factory s) h)).
Proof.
  intros Hq Hh Hmh Hw Hc. unfold commit. rewrite (effects_old s st un h Hq Hh).
  set (s1 := mkState st un (internal s) _ _ _ _ h). assert (Hq1 : quiet s1) by done.
  assert (H1 : quiet_step s s1) by (split; [done|]; by rewrite bool_decide_eq_true_2).
  case_bool_decide; [exact H1|]. change (internal s1) with (internal s). case_bool_decide as Hobj; [exact H1|].
  destruct (effects_new s1 st Hq1 Hobj) as (Hq2 & _ & _ & Hi & Hs). split; [done|]. rewrite Hi. rewrite bool_decide_eq_false_2 by done.
  destruct (start_time st =? 0); [unfold asked; rewrite Hs; exact Hw|]. unfold sends in *. rewrite Hs.
  change (hook s1) with h. change (asked s1) with (world h). by rewrite Hw, Hc.
Qed.

(** Every request is for the range that was set before the one that it is sent for. *)
Lemma step_lags s e : quiet s -> (forall r, e <> Settle r) -> quiet_step s (step s e).
Proof.
  intros Hq He. pose proof Hq as (Hp & Hm & Hs & Hi & Hr). destruct e as [st un| |r]; [| |by destruct (He r)]; cbn [step].
  - by apply commit_old.
  - case_bool_decide as Hobj; [split; [done|]; by rewrite bool_decide_eq_true_2|].
    destruct (effects_new s (unstable s) Hq Hobj) as (Hq2 & Hst & _ & Hi2 & Hs2). unfold commit.
    assert (He2 : snd (effects (render (set_internal (unstable s) s))) = None).
    { unfold effects. cbn [render set_internal seen_stable stable snd]. by rewrite Hs, bool_decide_eq_true_2. }
    destruct (effects _) as [s2 n2]. cbn in He2, Hq2, Hi2, Hs2. subst n2. split; [done|]. rewrite Hi2, bool_decide_eq_false_2 by done.
    destruct (start_time (unstable s) =? 0); [|done]. unfold asked. by rewrite Hs2.
Qed.

Lemma settle_rests s r t : quiet s -> cancelTokenSource (hook s) = Some t ->
  let s' := step s (Settle r) in quiet s' /\ internal s' = internal s /\ asked s' = asked s.
Proof.
  intros Hq Hc. pose proof Hq as (Hp & Hm & Hs & _). cbn [step]. rewrite Hc. set (h := resume Datatypes.id t r (hook s)).
  assert (Hf : world h = world (hook s) /\ mounted h = mounted (hook s) /\ phase h = phase (hook s)).
  { destruct (resume_frame Datatypes.id t r (hook s)) as (? & ? & ? & _). done. }
  destruct Hf as (Hw & Hmh & Hph). rewrite Hm in Hmh. rewrite Hp in Hph. unfold commit.
  change (on_hook _ s) with (mkState (stable s) (unstable s) (internal s) (seen_stable s) (seen_internal s) (reqFn s) (factory s) h).
  rewrite (effects_old s _ _ h Hq Hph). rewrite bool_decide_eq_true_2 by done. by split_and!.
Qed.

Lemma open_quiet zero st un : start_time zero = 0 -> quiet (open zero st un).
Proof.
  intros H0. unfold open, commit, effects at 1. cbn. rewrite !(bool_decide_eq_false_2 (None = Some _)) by done.
  rewrite (bool_decide_eq_true_2 (Created = Created)) by done. cbn. rewrite H0. cbn. rewrite (bool_decide_eq_true_2 (0%nat = 0%nat)) by done.
  set (s := on_hook (set_mounted true Mounted) _).
  assert (Hq : quiet s) by done. case_bool_decide as Hobj; [done|]. exact (proj1 (effects_new s st Hq Hobj)).
Qed.

(** Whatever happens around a table that was opened with zeros: when its range changes and it asks,
    it asks for the range it had before, and it never asks otherwise. *)
Theorem asks_for_range_before zero st un es e : start_time zero = 0 ->
  let s := run (open zero st un) es in quiet_step s (step s e).
Proof.
  intros H0. cbv zeta. assert (Hstep : forall s e, quiet s -> quiet_step s (step s e)).
  { intros s e' Hq. destruct e' as [st' un'| |r]; [by apply step_lags|by apply step_lags|].
    destruct (cancelTokenSource (hook s)) as [t|] eqn:Hc.
    - destruct (settle_rests s r t Hq Hc) as (H1 & H2 & H3). split; [done|]. rewrite H2. by rewrite bool_decide_eq_true_2.
    - cbn [step]. rewrite Hc. split; [done|]. by rewrite bool_decide_eq_true_2. }
  apply Hstep. unfold run. pose proof (open_quiet zero st un H0) as Hq. revert Hq. generalize (open zero st un) as s.
  induction es as [|e' es IH]; intros s Hq; [done|]. cbn. apply IH. by apply Hstep.
Qed.

(** The button that offers to try again after an error does nothing while the form is as it was. *)
Lemma retry_does_nothing s : obj (unstable s) = obj (internal s) -> step s Start = s.
Proof. intros Ho. cbn. by rewrite bool_decide_eq_true_2. Qed.
End Table.
Arguments State : clear implicits.
Arguments Event : clear implicits.

(** The second diagnosis is one of the range of the first. *)
Lemma asks_for_range_before_witness :
  let zero := mkRange 0 0 0 in let first := mkRange 3 1000 1600 in let second := mkRange 4 2000 2600 in
  let s := run (D := unit) (E := unit) (open zero (mkRange 1 0 0) (mkRange 2 900 1500)) [Props first first; Settle (inl tt)] in
  start_time zero = 0 /\ quiet_step s (step s (Props second second)) /\ asked (step s (Props second second)) = asked s ++ [first].
Proof.
  cbv zeta. split_and!; [reflexivity| |vm_compute; reflexivity].
  apply (asks_for_range_before (D := unit) (E := unit) (mkRange 0 0 0) (mkRange 1 0 0) (mkRange 2 900 1500)
    [Props (mkRange 3 1000 1600) (mkRange 3 1000 1600); Settle (inl tt)] (Props (mkRange 4 2000 2600) (mkRange 4 2000 2600))).
  reflexivity.
Defined.

(** The first diagnosis that is started is one of the empty range, under the range of the form. *)
Lemma first_diagnosis :
  let zero := mkRange 0 0 0 in let form := mkRange 3 1000 1600 in
  let s := run (D := unit) (E := unit) (open zero (mkRange 1 0 0) (mkRange 2 900 1500)) [Props (mkRange 1 0 0) form; Props form form] in
  map (fun r => (start_time r, end_time r)) (asked s) = [(0, 0)] /\ subTitle s = Some (1000, 1600) /\ start_button s = false /\
  let s' := run s [Settle (inr tt); Start] in start_button s' = true /\ asked s' = asked s.
Proof. vm_compute. done. Qed.
End Table.

(** ** The form *)

Module Generator.
Definition DURATION_MINS : list Z := [5; 10; 30; 60; 24 * 60].
Definition DEF_DURATION_MINS : Z := 10.

(** Milliseconds. *)
Definition minsAgo (now mins : Z) : Z := now - mins * 60000.
Definition unix (t : Z) : Z := t / 1000.

Section Form.
Context `{FormLib Z}.

(** [fm] are the fields of the form; [duration] is null when the number was deleted; the two ranges
    are arrays, [timeRange] the one that was computed last. *)
Record State := mkState { fm : form Z; duration : option Z; startTime : Z; timeRange : Table.Range; stableTimeRange : Table.Range; fresh : nat }.

(** The fields that are rendered. *)
Definition fields_of (f : form Z) : list string :=
  "rangeDuration" :: (if bool_decide (getFieldValue "rangeDuration" f = Some 0) then ["rangeDurationCustom"] else []).
Definition rendered (f : form Z) : form Z := FormLib.render (fields_of f) f.

(** [timeRange], which depends on [startTime] and [duration]. *)
Definition range_of (n : nat) (start : Z) (duration : option Z) : Table.Range :=
  Table.mkRange n (unix start) (unix start + default 0 duration * 60).

Definition initialValues : list (string * option Z) := [("rangeDuration", Some DEF_DURATION_MINS); ("rangeDurationCustom", Some DEF_DURATION_MINS)].

Definition init (now : Z) : State :=
  let start := minsAgo now DEF_DURATION_MINS in
  mkState (rendered (setFieldsValue initialValues useForm)) (Some DEF_DURATION_MINS) start
    (range_of 0 start (Some DEF_DURATION_MINS)) (Table.mkRange 1 0 0) 2.

Definition set_form (f : form Z) (s : State) : State := mkState (rendered f) (duration s) (startTime s) (timeRange s) (stableTimeRange s) (fresh s).
Definition setDuration (d : option Z) (s : State) : State :=
  if bool_decide (d = duration s) then s
  else mkState (fm s) d (startTime s) (range_of (fresh s) (startTime s) d) (stableTimeRange s) (S (fresh s)).
Definition setStartTime (t : Z) (s : State) : State :=
  mkState (fm s) (duration s) t (range_of (fresh s) t (duration s)) (stableTimeRange s) (S (fresh s)).

(** [timeChanged], which decides whether there is a button. *)
Definition timeChanged (s : State) : bool :=
  negb ((Table.start_time (timeRange s) =? Table.start_time (stableTimeRange s)) && (Table.end_time (timeRange s) =? Table.end_time (stableTimeRange s))).

(** Every field of the page is required. *)
Definition valid (s : State) : bool := forallb (fun k => bool_decide (is_Some (getFieldValue k (fm s)))) (mounted_fields (fm s)).

Inductive Event :=
  | SelectDuration (val : Z)
  | CustomDuration (val : option Z)
  | PickStart (now : Z) (val : option Z)
  | Submit.

Definition step (s : State) (e : Event) : State :=
  match e with
  | SelectDuration val =>
      setDuration (Some (if val =? 0 then DEF_DURATION_MINS else val)) (set_form (user_sets "rangeDuration" (Some val) (fm s)) s)
  | CustomDuration val =>
      if bool_decide ("rangeDurationCustom" ∈ mounted_fields (fm s)) then
        setDuration val (set_form (user_sets "rangeDurationCustom" val (fm s)) s)
      else s
  | PickStart now val => setStartTime (default (minsAgo now (default 0 (duration s))) val) s
  | Submit =>
      if timeChanged s && valid s then mkState (fm s) (duration s) (startTime s) (timeRange s) (timeRange s) (fresh s) else s
  end.
Definition run (s : State) (es : list Event) : State := fold_left step es s.

(** What the tables below are rendered with. *)
Definition props (s : State) : Table.Event unit unit := Table.Props (stableTimeRange s) (timeRange s).
End Form.

Section Facts.
Context `{FormLaws Z}.

(** The length of the range is the one that is chosen in the list. *)
Definition in_step (s : State) : Prop :=
  timeRange s = range_of (Table.obj (timeRange s)) (startTime s) (duration s) /\
  (forall d, getFieldValue "rangeDuration" (fm s) = Some d -> d <> 0 -> duration s = Some d) /\
  mounted_fields (fm s) = fields_of (fm s).

Lemma get_rendered k f : getFieldValue k (rendered f) = getFieldValue k f.
Proof. unfold rendered. by rewrite get_render. Qed.

Lemma fields_rendered f : mounted_fields (rendered f) = fields_of (rendered f).
Proof. unfold rendered at 1. rewrite fields_render. unfold fields_of. by rewrite get_rendered. Qed.

Lemma set_duration_fm d s : fm (setDuration d s) = fm s /\ duration (setDuration d s) = d /\
  (in_step s \/ timeRange s = range_of (Table.obj (timeRange s)) (startTime s) (duration s) ->
   timeRange (setDuration d s) = range_of (Table.obj (timeRange (setDuration d s))) (startTime (setDuration d s)) d).
Proof.
  unfold setDuration. case_bool_decide as Hd; [|done]. split_and!; [done|done|]. intros [[Ht _]|Ht]; by rewrite Hd.
Qed.

Lemma fm_set d s : fm (setDuration d s) = fm s.
Proof. apply set_duration_fm. Qed.
Lemma duration_set d s : duration (setDuration d s) = d.
Proof. apply set_duration_fm. Qed.

Lemma init_in_step now : in_step (init now).
Proof.
  split_and!; [done| |apply fields_rendered]. cbn. intros d. rewrite get_rendered, get_set. cbn. by intros [= <-].
Qed.

Lemma form_step s e : in_step s -> in_step (step s e).
Proof.
  intros (Ht & Hd & Hm). destruct e as [v|v|now v|]; cbn [step].
  - set (s1 := set_form _ s). destruct (set_duration_fm (Some (if v =? 0 then DEF_DURATION_MINS else v)) s1) as (Hf & Hdu & Hr).
    unfold in_step. rewrite Hf, Hdu. split_and!; [by apply Hr; right| |apply fields_rendered].
    intros d. cbn. rewrite get_rendered, get_user, bool_decide_eq_true_2 by done. intros [= <-] Hv. by destruct (Z.eqb_spec v 0).
  - case_bool_decide as Hc; [|done]. set (s1 := set_form _ s). destruct (set_duration_fm v s1) as (Hf & Hdu & Hr).
    unfold in_step. rewrite Hf, Hdu. split_and!; [by apply Hr; right| |apply fields_rendered].
    intros d. cbn. rewrite get_rendered, get_user, bool_decide_eq_false_2 by done. intros Hg Hne.
    rewrite Hm in Hc. unfold fields_of in Hc. rewrite Hg in Hc. rewrite bool_decide_eq_false_2 in Hc by congruence.
    by apply list_elem_of_singleton in Hc.
  - done.
  - by destruct (timeChanged s && valid s).
Qed.

Lemma run_in_step now es : in_step (run (init now) es).
Proof.
  unfold run. pose proof (init_in_step now) as Hi. revert Hi. generalize (init now) as s. induction es as [|e es IH]; intros s Hi; [done|].
  cbn. by apply IH, form_step.
Qed.

(** Whatever is entered, the range of the form begins at the time that is shown and has the length
    that is chosen in the list, if one of its lengths is. *)
Theorem range_as_chosen now es :
  let s := run (init now) es in
  Table.start_time (timeRange s) = unix (startTime s) /\
  forall d, getFieldValue "rangeDuration" (fm s) = Some d -> d <> 0 ->
    Table.end_time (timeRange s) - Table.start_time (timeRange s) = 60 * d.
Proof.
  cbv zeta. pose proof (run_in_step now es) as Hi.
  destruct Hi as (Ht & Hd & _). rewrite Ht. split; [done|]. intros d Hg Hne. rewrite (Hd d Hg Hne). cbn. lia.
Qed.

(** A number of minutes that is entered, left for a length of the list and returned to is shown
    again, and the range is of ten minutes. *)
Lemma custom_forgotten now :
  let s := run (init now) [SelectDuration 0; CustomDuration (Some 20); SelectDuration 5; SelectDuration 0] in
  getFieldValue "rangeDurationCustom" (fm s) = Some 20 /\ Table.end_time (timeRange s) - Table.start_time (timeRange s) = 600.
Proof.
  cbv zeta. destruct (run_in_step now [SelectDuration 0; CustomDuration (Some 20); SelectDuration 5; SelectDuration 0]) as (-> & _ & _).
  unfold run. cbn [fold_left step]. rewrite (bool_decide_eq_true_2 ("rangeDurationCustom" ∈ _)).
  - rewrite duration_set. split; [|unfold range_of; cbn [Table.end_time Table.start_time]; by rewrite Z.add_simpl_l]. repeat (rewrite ?fm_set; cbn [set_form fm]; rewrite ?get_rendered, ?get_user). done.
  - rewrite fm_set. cbn [set_form fm]. rewrite fields_rendered. unfold fields_of. rewrite get_rendered, get_user. by right; left.
Qed.

(** Submitting takes the button away, and gives the tables one array as both their ranges. *)
Lemma submit_stable s : timeChanged s = true -> valid s = true ->
  let s' := step s Submit in timeChanged s' = false /\ Table.obj (stableTimeRange s') = Table.obj (timeRange s').
Proof. intros Ht Hv. cbn. rewrite Ht, Hv. cbn. unfold timeChanged. cbn. by rewrite !Z.eqb_refl. Qed.
End Facts.
End Generator.
