(* ===== verification/SystemReport.v ===== *)
(** * Reports on the cluster (apps/SystemReport)

    Module [Generator] is the form a report is asked for with, and the button for the relations of
    metrics (ReportGenerator.tsx); Module [Status] the page of a report over [PollPage]
    (ReportStatus.tsx); Module [History] the list of reports, whose rows open that page
    (ReportHistory.tsx). *)

From Stdlib Require Import Ascii.
From S2P Require Import Prelude JsString JsNumber Uri UrlStateV1 Links ClientRequest PollPage.
Local Open Scope Z_scope.

(** ** Asking for a report *)

Module Generator.
Definition DURATIONS : list Z := [5; 10; 30; 60; 24 * 60].

(** The values of the form; times in milliseconds, durations in minutes. *)
Record Values := mkValues {
  rangeBegin : option Z; rangeDuration : option Z; rangeDurationCustom : option Z;
  isCompare : option bool; compareRangeBegin : option Z
}.
Definition initialValues : Values := mkValues None (Some 10) (Some 10) None None.

Definition unix (t : Z) : Z := t / 1000.

(** The fields that are on the page and required have a value. *)
Definition valid (v : Values) : bool :=
  bool_decide (is_Some (rangeBegin v)) && bool_decide (is_Some (rangeDuration v)) &&
  (negb (bool_decide (rangeDuration v = Some 0)) || bool_decide (is_Some (rangeDurationCustom v))) &&
  (negb (bool_decide (isCompare v = Some true)) || bool_decide (is_Some (compareRangeBegin v))).

(** [DiagnoseGenerateReportRequest] *)
Record Request := mkRequest { start_time : Z; end_time : Z; compare_start_time : Z; compare_end_time : Z }.

Definition range_duration (v : Values) : option Z :=
  if bool_decide (rangeDuration v = Some 0) then rangeDurationCustom v else rangeDuration v.

(** [useFinishHandler] up to the request; None where a value is missing. *)
Definition handleFinish (v : Values) : option Request :=
  start_time ← unix <$> rangeBegin v;
  duration ← range_duration v;
  compare_start ← (if bool_decide (isCompare v = Some true) then unix <$> compareRangeBegin v else Some 0);
  Some (mkRequest start_time (start_time + duration * 60) compare_start
    (if bool_decide (isCompare v = Some true) then compare_start + duration * 60 else 0)).

(** After it: the page of the report that was begun. *)
Definition navigated (id : string) : string := "/system_report/detail?id=" +:+ id.

(** [value.replace(/[^\d]/g, '')] *)
Fixpoint digits_of (s : string) : string :=
  match s with
  | EmptyString => ""
  | String a r => if is_digit a then String a (digits_of r) else digits_of r
  end.

(** The number of minutes that is typed, None for NaN. *)
Definition parser (value : string) : option Z := parseInt (digits_of value).
Definition formatter (value : Z) : string := show value +:+ " min".

(** A form that can be submitted is a request for the minutes that are chosen, and one for as many
    of the time it is compared with, or none. *)
Theorem report_as_chosen v : valid v = true -> exists r d b,
  handleFinish v = Some r /\ range_duration v = Some d /\ rangeBegin v = Some b /\
  start_time r = unix b /\ end_time r - start_time r = 60 * d /\
  if bool_decide (isCompare v = Some true)
  then exists c, compareRangeBegin v = Some c /\ compare_start_time r = unix c /\ compare_end_time r - compare_start_time r = end_time r - start_time r
  else compare_start_time r = 0 /\ compare_end_time r = 0.
Proof.
  unfold valid. rewrite !andb_true_iff, !orb_true_iff, !negb_true_iff, !bool_decide_eq_true, !bool_decide_eq_false.
  intros [[[[b Hb] [d0 Hd0]] Hd] Hc].
  assert (exists d, range_duration v = Some d) as [d Hdur].
  { unfold range_duration. case_bool_decide as H0; [|by exists d0]. by destruct Hd as [Hd|[d Hd]]; [|exists d]. }
  unfold handleFinish. rewrite Hb, Hdur. cbn. case_bool_decide as Hcmp.
  - destruct Hc as [Hc|[c Hc]]; [done|]. rewrite Hc. cbn. eexists _, d, b. split_and!; try done; cbn; [lia|]. exists c. split_and!; [done|done|lia].
  - eexists _, d, b. split_and!; try done; cbn; lia.
Qed.

Lemma digits_of_app s t : digits_of (s +:+ t) = digits_of s +:+ digits_of t.
Proof. induction s as [|a s IH]; [done|]. change (String a s +:+ t) with (String a (s +:+ t)). cbn [digits_of]. rewrite IH. by destruct (is_digit a). Qed.

Lemma digits_of_digits s : str_forall is_digit s = true -> digits_of s = s.
Proof. induction s as [|a s IH]; [done|]. cbn [str_forall digits_of]. destruct (is_digit a); [|done]. cbn [andb]. intros Hs. by rewrite IH. Qed.

(** What is shown of a number is read as that number. *)
Lemma minutes_read n : 0 <= n -> parser (formatter n) = Some n.
Proof.
  intros Hn. unfold parser, formatter. rewrite digits_of_app. change (digits_of " min") with "". rewrite str_app_nil_r.
  rewrite digits_of_digits; [apply parseInt_show'|]. rewrite show_nonneg by done. apply pretty_N_digits.
Qed.

(** *** The relations of metrics *)

(** What is shown then. *)
Inductive Modal := Success (href : string) | Error (message : string).

Section Relation.
Context (apiPathBase : string).

(** The button, and the requests in flight; a button that is loading takes no click. *)
Record Relation := mkRelation { isGenerateRelationPosting : bool; posted : list (Z * Z) }.

Definition handleMetricsRelation (v : Values) (s : Relation) : Relation :=
  if isGenerateRelationPosting s then s
  else if valid v then
    match rangeBegin v, range_duration v with
    | Some b, Some d => mkRelation true (posted s ++ [(unix b, unix b + d * 60)])
    | _, _ => s
    end
  else s.

(** The rest: the token of the picture, or the message of the server if there is one and else that of the error. *)
Definition relation_answer (r : string + (option string * string)) (s : Relation) : Relation * Modal :=
  (mkRelation false (posted s),
   match r with
   | inl token => Success (apiPathBase +:+ "/diagnose/metrics_relation/view?token=" +:+ encodeURIComponent token)
   | inr (Some m, _) => Error m
   | inr (None, m) => Error m
   end).

(** At most one request of the button is in flight, and when it ends the button is free, whatever
    the answer is. *)
Lemma relation_once v v' s : isGenerateRelationPosting s = false -> valid v = true ->
  let s1 := handleMetricsRelation v s in
  length (posted s1) = S (length (posted s)) /\ handleMetricsRelation v' s1 = s1 /\
  forall r, isGenerateRelationPosting (fst (relation_answer r s1)) = false.
Proof.
  intros Hp Hv. destruct (report_as_chosen v Hv) as (r & d & b & _ & Hd & Hb & _).
  cbv zeta. unfold handleMetricsRelation. rewrite Hp, Hv, Hd, Hb. cbn. rewrite length_app. cbn. split_and!; [lia|done|done].
Qed.
End Relation.
End Generator.

(** ** The page of a report *)

(** [DiagnoseReport] *)
Record Report := mkReport { id : option string; created_at : option Z; progress : option num; start_time : option Z; end_time : option Z; compare_start_time : option Z; compare_end_time : option Z }.

Module Status.
(** [progress < 100]; a comparison with undefined is false. *)
Definition running (d : Report) : bool := match progress d with Some p => num_lt p (num_of_Z 100) | None => false end.

Abbreviation finished := (fun d => negb (running d)).

(** The button for the report, with whether it is disabled, and the bar. *)
Definition view_button (report : option Report) : option bool := running <$> report.
Definition percent (d : Report) : num := match progress d with Some p => if truthy p then p else num_of_Z 0 | None => num_of_Z 0 end.

Definition showSkeleton {E} (s : State Report E) : bool := isLoading s && bool_decide (data s = None).

Section Polls.
Context {E : Type}.

(** The page asks for a report as long as it is made, and once more; a report without progress
    counts as made. *)
Theorem report_followed :
  (forall ds, Forall (fun d => running d = true) ds ->
     requests (visit (E := E) finished ds) = S (length ds) /\ is_Some (cancelTokenSource (visit (E := E) finished ds))) /\
  (forall pre d d' post, Forall (fun d => running d = true) pre -> running d = false ->
     requests (visit (E := E) finished (pre ++ [d])) = S (S (length pre)) /\
     visit (E := E) finished (pre ++ d :: d' :: post) = visit finished (pre ++ [d; d']) /\
     resting (S (S (length pre))) (visit (E := E) finished (pre ++ [d; d']))).
Proof.
  assert (Hu : forall ds, Forall (fun d => running d = true) ds -> Forall (fun d => finished d = false) ds).
  { intros ds Hf. eapply Forall_impl; [exact Hf|]. cbn. by intros d ->. }
  split.
  - intros ds Hf%Hu. by destruct (visit_waiting (E := E) _ ds Hf) as (_ & Hn & Hc & _).
  - intros pre d d' post Hf%Hu Hd. assert (Hd' : finished d = true) by (cbn; by rewrite Hd).
    destruct (visit_finished (E := E) _ pre d d' Hf Hd') as ((_ & H1 & _) & H2 & _).
    split_and!; [done|by apply visit_rest|done].
Qed.
End Polls.
End Status.

(** ** The list *)

Module History.
Inductive Cell := Nothing | Text (s : string) | Calendar (ms : Z) | Badge (status text : string) | Range (from to : Z).

Section Columns.
Context (t : string -> string).

(** A time is shown to the second. *)
Definition seconds (ms : option Z) : Z := default 0 ms / 1000 * 1000.

(** [tableColumns]: the key of a column and what it shows. *)
Definition tableColumns : list (string * (Report -> Cell)) :=
  [("id", fun rec => match id rec with Some i => Text i | None => Nothing end);
   ("created_at", fun rec => Calendar (seconds (created_at rec)));
   ("progress", fun rec => if Status.running rec then Badge "processing" (t "system_report.list_table.status_running")
      else Badge "success" (t "system_report.list_table.status_finish"));
   ("start_time", fun rec => Range (seconds (start_time rec)) (seconds (end_time rec)));
   ("compare_start_time", fun rec => match compare_start_time rec with Some _ => Range (seconds (compare_start_time rec)) (seconds (compare_end_time rec)) | None => Nothing end)].
End Columns.

Definition handleRowClick (base : string) (rec : Report) (ev : Link.Mouse) : Link.Opened :=
  Link.openLink base ("/system_report/detail" +:+ String "?"%char ("id=" +:+ default "undefined" (id rec))) ev.

(** The report the page asks for. *)
Definition opened_id `{SearchParse} (o : Link.Opened) : option string := Link.opened_params o !! "id".

(** A row opens the page of its report, however it is clicked. *)
Lemma row_opens_report `{SearchParseLaws} base rec i ev : has_char "#" base = false -> id rec = Some i -> plain i = true ->
  opened_id (handleRowClick base rec ev) = Some i.
Proof.
  intros Hb Hi Hp. unfold opened_id, handleRowClick. rewrite Hi. cbn [default from_option].
  rewrite (opened_params_open base "/system_report/detail" [("id", i)] ev); [by apply lookup_insert_eq|done|done| |].
  - apply NoDup_singleton.
  - by repeat constructor.
Qed.
End History.
