(* ===== verification/MetricPage.v ===== *)
(** * The metric pages of ui-v2 (4-apps/src/metric)

    Module [Chart] is the body of a chart, which asks for its data when it is seen
    (components/chart-body.tsx over utils/use-data.ts), over [Metrics]; Module [Visible] the charts
    that are hidden (components/charts-select.tsx, chart-header.tsx, pages/azores-cluster), over the
    memory state in [Metrics] and the select in [FilterPanels]; Module [Toolbar] the switch of the
    panels and the refresh button (pages/azores-cluster/filters.tsx, pages/normal), over [UrlState];
    Module [Detail] the drill-down drawer (pages/azores-metric-detail). *)

From Stdlib Require Import QArith.
From S2P Require Import Prelude JsString JsNumber TimeRange UrlState Metrics FilterPanels.
Local Open Scope Z_scope.

(** ** The body of a chart *)

Module Chart.
(** The key of a query of a chart: the name of the metric is fixed. *)
Record Key := mkKey { k_range : V2.TimeRange; k_label : option string }.

(** A chart: its props and the parameter [refresh], the ref [isVisible], the state [isFetched], and
    the keys it has asked for.  [since] counts those that were asked for before the range or the
    label changed last, or all charts were refreshed last. *)
Record State := mkState { key : Key; refresh : string; isVisible : bool; isFetched : bool; asked : list Key; since : nat }.

Section Chart.
Context (metricName : string).

Definition refetch (s : State) : State := mkState (key s) (refresh s) (isVisible s) (isFetched s) (asked s ++ [key s]) (since s).
Definition setIsFetched (b : bool) (s : State) : State := mkState (key s) (refresh s) (isVisible s) b (asked s) (since s).

(** The callback of the observer: the chart comes into view or leaves it. *)
Definition observed (isIntersecting : bool) (s : State) : State :=
  let s := mkState (key s) (refresh s) isIntersecting (isFetched s) (asked s) (since s) in
  if isIntersecting && negb (isFetched s) then setIsFetched true (refetch s) else s.

Definition ask_if_seen (s : State) : State :=
  if isVisible s then setIsFetched true (refetch s) else setIsFetched false s.

(** The effect of a new range or label. *)
Definition key_effect (k : Key) (s : State) : State :=
  ask_if_seen (mkState k (refresh s) (isVisible s) (isFetched s) (asked s) (length (asked s))).

(** A refresh of one chart, and of this one. *)
Definition of_one (r : string) : bool := js_startsWith r "_".
Definition of_this (r : string) : bool := js_startsWith r ("_" +:+ metricName).

(** The effect of a new value of [refresh]. *)
Definition refresh_effect (r : string) (s : State) : State :=
  let s := mkState (key s) r (isVisible s) (isFetched s) (asked s) (since s) in
  if of_one r then
    if negb (of_this r) then s
    else if isVisible s then refetch s else s
  else ask_if_seen (mkState (key s) r (isVisible s) (isFetched s) (asked s) (length (asked s))).

(** The chart as it opens: no part of it was seen; both effects run. *)
Definition open (k : Key) (r : string) : State := refresh_effect r (key_effect k (mkState k r false false [] 0)).

Inductive Event := Observed (isIntersecting : bool) | Rekey (k : Key) | Refresh (r : string).

Definition step (s : State) (e : Event) : State :=
  match e with
  | Observed b => observed b s
  | Rekey k => key_effect k s
  | Refresh r => if bool_decide (r = refresh s) then s else refresh_effect r s
  end.
Definition run (s : State) (es : list Event) : State := fold_left step es s.

(** The chart has asked for what it is to show, since that changed. *)
Definition up_to_date (s : State) : Prop := exists n, (since s <= n)%nat /\ asked s !! n = Some (key s).

Definition chart_ok (s : State) : Prop := (isVisible s || isFetched s = true -> up_to_date s) /\ (since s <= length (asked s))%nat.

Lemma refetch_up_to_date s : (since s <= length (asked s))%nat -> up_to_date (refetch s).
Proof. intros Hs. exists (length (asked s)). split; [exact Hs|]. cbn. by rewrite lookup_app_r, Nat.sub_diag. Qed.

Lemma refetch_ok s : chart_ok s -> chart_ok (refetch s).
Proof. intros [_ Hs]. split; [intros _; by apply refetch_up_to_date|]. cbn. rewrite length_app. lia. Qed.

Lemma ask_ok s : (since s <= length (asked s))%nat -> chart_ok (ask_if_seen s).
Proof.
  intros Hs. unfold ask_if_seen. destruct (isVisible s) eqn:Hv.
  - split; [intros _; by apply refetch_up_to_date|]. cbn. rewrite length_app. lia.
  - split; [cbn; by rewrite Hv|exact Hs].
Qed.

Lemma chart_refresh_ok r s : chart_ok s -> chart_ok (refresh_effect r s).
Proof.
  intros [Hu Hs]. unfold refresh_effect. destruct (of_one r); [|by apply ask_ok]. cbn [isVisible].
  destruct (of_this r); cbn [negb]; [|done]. destruct (isVisible s) eqn:Hv; [|done]. by apply refetch_ok.
Qed.

Lemma chart_step_ok s e : chart_ok s -> chart_ok (step s e).
Proof.
  intros Hok. pose proof Hok as [Hu Hs]. destruct e as [b|k|r]; cbn [step].
  - unfold observed. cbn. destruct b, (isFetched s) eqn:Hf; cbn.
    + split; [|exact Hs]. intros _. apply Hu. by rewrite orb_true_r.
    + split; [|cbn; rewrite length_app; lia]. intros _. by apply (refetch_up_to_date (mkState (key s) (refresh s) true false (asked s) (since s))).
    + split; [|exact Hs]. intros _. apply Hu. by rewrite orb_true_r.
    + by split.
  - unfold key_effect. by apply ask_ok.
  - case_bool_decide; [done|]. by apply chart_refresh_ok.
Qed.

Lemma chart_open_ok k r : chart_ok (open k r).
Proof. apply chart_refresh_ok. unfold key_effect. by apply ask_ok. Qed.

(** What a step asks for. *)
Lemma step_asks s e : asked (step s e) = asked s \/ (asked (step s e) = asked s ++ [key (step s e)] /\ isVisible (step s e) = true).
Proof.
  assert (Ha : forall s, asked (ask_if_seen s) = asked s \/ asked (ask_if_seen s) = asked s ++ [key (ask_if_seen s)] /\ isVisible (ask_if_seen s) = true).
  { intros s'. unfold ask_if_seen. destruct (isVisible s') eqn:Hv; [by right|by left]. }
  destruct e as [b|k|r]; cbn [step].
  - unfold observed. cbn. destruct b; [|by left]. destruct (isFetched s); [by left|by right].
  - apply (Ha (mkState k _ _ _ _ _)).
  - case_bool_decide; [by left|]. unfold refresh_effect. destruct (of_one r); [|apply (Ha (mkState _ r _ _ _ _))].
    cbn. destruct (of_this r); [|by left]. cbn. destruct (isVisible s) eqn:Hv; [by right|by left].
Qed.

(** A chart that is in view, or was when it asked last, has asked for the data of its range and its
    label since one of them changed and since all charts were refreshed, whatever came into view
    when; and it asks for nothing while it is out of view. *)
Theorem seen_chart_asked k r es :
  let s := run (open k r) es in
  (isVisible s = true -> up_to_date s) /\ (isFetched s = true -> up_to_date s) /\
  forall e, asked (step s e) = asked s \/ (asked (step s e) = asked s ++ [key (step s e)] /\ isVisible (step s e) = true).
Proof.
  cbv zeta. assert (Hok : chart_ok (run (open k r) es)).
  { unfold run. pose proof (chart_open_ok k r) as Hok. revert Hok. generalize (open k r) as s. induction es as [|e es IH]; intros s Hok; [done|]. by apply IH, chart_step_ok. }
  destruct Hok as [Hu _]. split_and!; [intros Hv; apply Hu; by rewrite Hv|intros Hf; apply Hu; rewrite Hf; apply orb_true_r|].
  intros e. apply step_asks.
Qed.
End Chart.

(** The refresh of one chart, as its header writes it. *)
Definition refresh_of (now : Z) (name : string) : string := "_" +:+ name +:+ "_" +:+ show now.

Lemma header_refresh now name : Metric.setRefresh now (Some ("_" +:+ name +:+ "_")) = [("refresh", Some (refresh_of now name))].
Proof. unfold Metric.setRefresh, refresh_of. rewrite js_or_some by done. by rewrite <- !str_app_assoc. Qed.

(** It reaches its chart, and every chart whose name is a beginning of that name. *)
Lemma refresh_reaches name name' now : String.prefix name' name = true -> of_one (refresh_of now name) = true /\ of_this name' (refresh_of now name) = true.
Proof.
  intros (t & ->)%prefix_inv. unfold of_one, of_this, refresh_of, js_startsWith. split; [apply (prefix_app "_")|].
  rewrite <- !str_app_assoc. rewrite str_app_assoc. apply prefix_app.
Qed.

Lemma refresh_reaches_another : of_this "cpu" (refresh_of 1 "cpu_usage") = true.
Proof. reflexivity. Qed.

(** [queryFn] of [useMetricDataByMetricName]: the width of the chart is None when there is none. *)
Record Request := mkRequest { metricName : string; beginTime : num; endTime : num; rq_step : num; rq_label : option string }.

Definition getStep (now : Z) (timeRange : V2.TimeRange) (offsetWidth scrapeInterval : option Q) : num :=
  match offsetWidth, V2.toTimeRangeValue now timeRange 0 with
  | Some w, (Fin a, Fin b) => Fin (calcPromQueryStep (a, b) (w - 200) scrapeInterval None)
  | Some _, _ => NaN
  | None, _ => num_of_Z 0
  end.

Definition queryFn (now : Z) (name : string) (k : Key) (offsetWidth scrapeInterval : option Q) : Request :=
  let step := getStep now (k_range k) offsetWidth scrapeInterval in
  let tr := fixTimeRange now (k_range k) (Some step) in
  mkRequest name (fst tr) (snd tr) step (k_label k).

(** The address that is kept with the data. *)
Definition promAddr {R} (addr_of : R -> option string) (d : list R) : option string := head d ≫= addr_of.
Definition addr_effect {Config} (name : string) (addr : option string) (s : ChartState Config) : ChartState Config :=
  match addr with Some a => if truthy a then setMetricPromAddrs name a s else s | None => s end.
End Chart.

(** ** The charts that are hidden *)

Module Visible.
(** [SingleChartConfig] and [SinglePanelConfig] *)
Record Config := mkConfig { metricName : string; title : string }.
Record Panel := mkPanel { group : string; category : string; charts : list Config }.

(** [useCurPanelConfigsData] *)
Definition curPanels (panel : string) (config : option (list Panel)) : option (list Panel) :=
  (filter (fun p => group p = (if truthy panel then panel else "basic"))) <$> config.

(** [chartsSelectData], with the translation of a category. *)
Section Select.
Context (tk : string -> string).

Definition chartsSelectData (panels : option (list Panel)) : list Charts.Chart :=
  flat_map (fun p => map (fun c => Charts.mkChart (tk (category p)) (title c) (metricName c)) (charts p)) (default [] panels).

Definition chartsSelectValue (panels : option (list Panel)) (s : ChartsSelect) : list string :=
  filter (fun v => v ∉ hiddenCharts s) (map Charts.val (chartsSelectData panels)).

Definition onReset (panels : option (list Panel)) (s : ChartsSelect) : ChartsSelect :=
  let allData := map Charts.val (chartsSelectData panels) in
  setHiddenCharts (filter (fun v => v ∉ allData) (hiddenCharts s)) s.
Definition onSelect (val : string) (s : ChartsSelect) : ChartsSelect := setHiddenCharts (filter (fun v => v <> val) (hiddenCharts s)) s.
Definition onUnSelect (val : string) (s : ChartsSelect) : ChartsSelect := setHiddenCharts (hiddenCharts s ++ [val]) s.
(** [handleHide] of the header of a chart. *)
Definition handleHide (c : Config) (s : ChartsSelect) : ChartsSelect := setHiddenCharts (hiddenCharts s ++ [metricName c]) s.

(** [AzoresClusterMetricsPanel]: a panel without a visible chart is not drawn. *)
Definition visibleCharts (s : ChartsSelect) (p : Panel) : list Config := filter (fun c => metricName c ∉ hiddenCharts s) (charts p).
Definition drawn (s : ChartsSelect) (panels : option (list Panel)) : list (string * list Config) :=
  filter (fun pc => snd pc <> []) (map (fun p => (category p, visibleCharts s p)) (filter (fun p => charts p <> []) (default [] panels))).

(** What is drawn, chart by chart. *)
Definition charts_drawn (s : ChartsSelect) (panels : option (list Panel)) : list string :=
  map metricName (concat (map snd (drawn s panels))).

(** The page draws the charts that are checked in the select, in the order of the select. *)
Lemma drawn_selected panels s : charts_drawn s panels = chartsSelectValue panels s.
Proof.
  unfold charts_drawn, drawn, chartsSelectValue, chartsSelectData. induction (default [] panels) as [|p ps IH]; [done|].
  cbn [flat_map]. rewrite map_app, filter_app, <- IH, map_map. cbn [Charts.val]. rewrite filter_cons.
  assert (Hv : forall l, map metricName (filter (fun c => metricName c ∉ hiddenCharts s) l) = filter (fun v => v ∉ hiddenCharts s) (map metricName l)).
  { induction l as [|c l IHl]; [done|]. cbn [map]. rewrite !filter_cons. case_decide; cbn; by rewrite IHl. }
  assert (Hm : map (fun x => metricName x) (charts p) = map metricName (charts p)) by done. rewrite Hm, <- Hv.
  case_decide as Hc; cbn [map].
  - rewrite filter_cons. case_decide as Hs; cbn [snd] in *; [by cbn; rewrite map_app|].
    unfold visibleCharts in Hs. by rewrite Hs.
  - by rewrite Hc.
Qed.

Inductive Event := Reset | Select (val : string) | UnSelect (val : string) | Hide (c : Config).
Definition step (panels : option (list Panel)) (s : ChartsSelect) (e : Event) : ChartsSelect :=
  match e with Reset => onReset panels s | Select v => onSelect v s | UnSelect v => onUnSelect v s | Hide c => handleHide c s end.

(** Whether a chart is drawn after an event: resetting brings back those of the panels that are
    open, and no others; the others concern the chart they name. *)
Theorem drawn_after panels panels' s e v : v ∈ charts_drawn (step panels s e) panels' <->
  v ∈ map Charts.val (chartsSelectData panels') /\
  match e with
  | Reset => v ∈ map Charts.val (chartsSelectData panels) \/ v ∉ hiddenCharts s
  | Select w => v = w \/ v ∉ hiddenCharts s
  | UnSelect w => v <> w /\ v ∉ hiddenCharts s
  | Hide c => v <> metricName c /\ v ∉ hiddenCharts s
  end.
Proof.
  rewrite drawn_selected. unfold chartsSelectValue. rewrite list_elem_of_filter, (Logic.and_comm (_ ∉ _)). apply and_iff_compat_l.
  destruct e as [|w|w|c]; cbn [step hiddenCharts onReset onSelect onUnSelect handleHide setHiddenCharts].
  - rewrite list_elem_of_filter. destruct (decide (v ∈ map Charts.val (chartsSelectData panels))), (decide (v ∈ hiddenCharts s)); naive_solver.
  - rewrite list_elem_of_filter. destruct (decide (v = w)), (decide (v ∈ hiddenCharts s)); naive_solver.
  - rewrite elem_of_app, list_elem_of_singleton. naive_solver.
  - rewrite elem_of_app, list_elem_of_singleton. naive_solver.
Qed.
End Select.
End Visible.

(** ** The toolbar *)

Module Toolbar.
(** The state [loading], and the timers that are to end it. *)
Record State := mkState { loading : bool; timers : nat }.

(** [handleRefresh]: besides, all charts are refreshed. *)
Definition handleRefresh (now : Z) (s : State) : State * update := (mkState true (S (timers s)), Metric.setRefresh now None).
Definition timeout (s : State) : State := match timers s with O => s | S n => mkState false n end.

(** [handlePanelChange] *)
Definition handlePanelChange (now : Z) (newPanel : string) : update :=
  [("panel", if truthy newPanel then Some newPanel else None); ("refresh", Some (show now))].

(** The panel that is marked, and the panel of the normal page. *)
Definition selected_tab (tabs : list string) (panel : string) : option string := if truthy panel then Some panel else head tabs.
Definition panelConfig (panel : string) (config : option (list Visible.Panel)) : option Visible.Panel :=
  config ← config;
  match find (fun p => bool_decide (Visible.category p = panel)) config with Some p => Some p | None => head config end.

(** Both refresh all charts: the value is no refresh of one chart. *)
Lemma show_all now : 0 <= now -> Chart.of_one (show now) = false.
Proof.
  intros Hn. unfold Chart.of_one, js_startsWith. rewrite show_nonneg by done. pose proof (pretty_N_digits (Z.to_N now)) as Hd.
  destruct (pretty (Z.to_N now)) as [|a s]; [done|]. cbn in Hd. apply andb_prop in Hd as [Ha _]. rewrite prefix_cons.
  rewrite bool_decide_eq_false_2; [done|]. intros <-. done.
Qed.

(** Neither the button nor the switch of the panels refreshes one chart alone. *)
Lemma toolbar_refreshes_all now panel s : 0 <= now -> exists r, Chart.of_one r = false /\
  snd (handleRefresh now s) = [("refresh", Some r)] /\ In ("refresh", Some r) (handlePanelChange now panel).
Proof. intros Hn. exists (show now). split_and!; [by apply show_all|done|by right; left]. Qed.

(** A second refresh within the second of the first is no longer shown when that second is over. *)
Lemma loading_ends_early now s :
  loading (timeout (fst (handleRefresh (now + 500) (fst (handleRefresh now s))))) = false.
Proof. done. Qed.
End Toolbar.

(** ** The drill-down drawer *)

Module Detail.
Section Detail.
Context {Config : Type} (name_of : Config -> string).

(** A click on the icon of a chart: the range of the page goes along. *)
Definition drillDown (c : Config) (r : V2.TimeRange) (s : ChartState Config) : ChartState Config := setSelectedChart (Some c) (setTimeRange r s).

(** [Filters]: the select of the instance can be cleared. *)
Definition selectInstance (v : option string) (s : ChartState Config) : ChartState Config :=
  setSelectedInstance (match v with Some i => if truthy i then Some i else None | None => None end) s.
Definition brush (v : TimeRangeValue) (s : ChartState Config) : ChartState Config := setTimeRange (V2.Absolute v) s.

(** The charts of the drawer, with the label they ask for; without a chart it is closed. *)
Definition drawer (s : ChartState Config) : list (string * option string) :=
  match selectedChart s with
  | None => []
  | Some c => (name_of c, None) :: match selectedInstance s with Some i => [(name_of c, Some ("instance=" +:+ String (Ascii.ascii_of_nat 34) (i +:+ String (Ascii.ascii_of_nat 34) "")))] | None => [] end
  end.

(** [diagnosisLinkId] *)
Definition diagnosisLinkId (s : ChartState Config) : string :=
  let u := V2.toURLTimeRange (timeRange s) in from u +:+ "," +:+ to u.

Inductive Event := Drill (c : Config) (r : V2.TimeRange) | Instance (v : option string) | Range (r : V2.TimeRange) | Brush (v : TimeRangeValue) | Close.
Definition step (s : ChartState Config) (e : Event) : ChartState Config :=
  match e with
  | Drill c r => drillDown c r s | Instance v => selectInstance v s | Range r => setTimeRange r s | Brush v => brush v s | Close => resetChart s
  end.

(** A closed drawer keeps nothing of the chart it showed, and the next one opens with all instances
    and the range of the page. *)
Lemma reopened s c r : drawer (step s Close) = [] /\
  drawer (step (step s Close) (Drill c r)) = [(name_of c, None)] /\ timeRange (step (step s Close) (Drill c r)) = r.
Proof. done. Qed.
End Detail.
End Detail.
