(* ===== verification/QueryData.v ===== *)
(** * The data hooks of ui-v2 (4-apps/src, the files utils/use-data.ts)

    The hooks of the statement, slow query and metric apps and of the cards they share name their
    data by keys of react-query, a library that is not part of the repository: its cache is the
    class [QueryCache], what its documentation says of it [QueryCacheLaws], and a cache as a function
    of the key an instance.  [key] is the key of a query, [ask] its request, [clip_effect] what it
    notes of the time range, [sent] the request of a mutation and [prefix] what it invalidates; a
    [Hook] is one on a page, with the query that it shows while the present one has no answer.
    [Lists] reads the queries of the list pages off [UrlState]. *)

From Stdlib Require Import QArith.
From S2P Require Import Prelude JsString JsNumber TimeRange UrlState Metrics.
Local Open Scope Z_scope.

(** ** Values, and their JSON text *)

Inductive Value := VUndefined | VNull | VNum (n : num) | VBool (b : bool) | VStr (s : string) | VArr (l : list Value) | VObj (l : list (string * Value)).

#[global] Instance value_eq_dec : EqDecision Value.
Proof.
  refine (fix go (x y : Value) : Decision (x = y) :=
    let _ : EqDecision Value := go in
    match x, y with
    | VUndefined, VUndefined | VNull, VNull => left eq_refl
    | VNum a, VNum b => cast_if (decide (a = b))
    | VBool a, VBool b => cast_if (decide (a = b))
    | VStr a, VStr b => cast_if (decide (a = b))
    | VArr a, VArr b => cast_if (decide (a = b))
    | VObj a, VObj b => cast_if (decide (a = b))
    | _, _ => right _
    end); congruence.
Defined.

(** [JSON.stringify] writes what is no finite number, and what is undefined in an array, as null,
    and leaves out what is undefined in an object. *)
Fixpoint json (v : Value) : Value :=
  match v with
  | VUndefined | VNull => VNull
  | VNum (Fin q) => VNum (Fin q)
  | VNum _ => VNull
  | VArr l => VArr (map json l)
  | VObj l => VObj (fold_right (fun '(k, v) acc => match v with VUndefined => acc | _ => (k, json v) :: acc end) [] l)
  | VBool b => VBool b
  | VStr s => VStr s
  end.
Definition hash (k : list Value) : list Value := map json k.

(** ** The cache of the library *)

(** An entry is what was asked for, and whether it was not invalidated since. *)
Class QueryCache (D : Type) := {
  cache : Type; no_cache : cache;
  lookup_query : list Value -> cache -> option (D * bool);
  store_query : list Value -> D -> cache -> cache;
  invalidateQueries : list Value -> cache -> cache
}.
#[global] Arguments cache D {_}.

Definition outdated {D} (e : D * bool) : D * bool := (fst e, false).

(** Keys with the same text are one, and an invalidation reaches the keys that begin with its own. *)
Class QueryCacheLaws (D : Type) `{QueryCache D} : Prop := {
  lookup_no_cache k : lookup_query k no_cache = None;
  lookup_stored k k' d c : hash k = hash k' -> lookup_query k (store_query k' d c) = Some (d, true);
  lookup_stored_ne k k' d c : hash k <> hash k' -> lookup_query k (store_query k' d c) = lookup_query k c;
  lookup_invalidated k p c : hash p `prefix_of` hash k -> lookup_query k (invalidateQueries p c) = outdated <$> lookup_query k c;
  lookup_invalidated_ne k p c : ~ hash p `prefix_of` hash k -> lookup_query k (invalidateQueries p c) = lookup_query k c
}.

Definition plain_cache D : QueryCache D := {|
  cache := list Value -> option (D * bool); no_cache := fun _ => None;
  lookup_query k c := c (hash k);
  store_query k d c := fun k' => if decide (k' = hash k) then Some (d, true) else c k';
  invalidateQueries p c := fun k => if decide (hash p `prefix_of` k) then outdated <$> c k else c k
|}.
Lemma plain_cache_laws D : QueryCacheLaws D (H := plain_cache D).
Proof. split; cbn; intros; try case_decide; done. Qed.

(** ** Keys and requests *)

Definition VStrs (l : list string) : Value := VArr (map VStr l).
Definition VZ (z : Z) : Value := VNum (num_of_Z z).
Definition VOpt {A} (f : A -> Value) (o : option A) : Value := match o with Some a => f a | None => VUndefined end.

Definition type_text (t : V2.RelativeType) : string :=
  match t with V2.relative => "relative" | V2.before_to_now => "before-to-now" | V2.now_to_future => "now-to-future" end.
Definition VRange (r : V2.TimeRange) : Value :=
  match r with
  | V2.Relative t v => VObj [("type", VStr (type_text t)); ("value", VNum v)]
  | V2.Absolute (a, b) => VObj [("type", VStr "absolute"); ("value", VArr [VNum a; VNum b])]
  end.
Definition VFilter (f : AdvancedFilterItem) : Value :=
  VObj [("name", VStr (name f)); ("operator", VStr (operator f)); ("values", VStrs (UrlState.values f))].
Definition sort_fields (r : SortRule) : list (string * Value) := [("orderBy", VStr (orderBy r)); ("desc", VBool (desc r))].
Definition page_fields (p : Pagination) : list (string * Value) := [("pageIndex", VNum (pageIndex p)); ("pageSize", VNum (pageSize p))].

(** What a context gives the hooks besides the API; the history of a statement and its limits have
    a digest, and the history of slow queries a longest range. *)
Record Ctx := mkCtx { ctxId : string; ctx_digest : string; timeRangeMaxDuration : option Z; scrapeInterval : option Z }.

Record StmtList := mkStmtList {
  st_range : V2.TimeRange; st_dbs : list string; st_ruGroups : list string; st_kinds : list string; st_term : string;
  st_filters : list AdvancedFilterItem; st_cols : list string; st_sort : SortRule; st_page : Pagination }.
Record SlowList := mkSlowList {
  sl_range : V2.TimeRange; sl_dbs : list string; sl_ruGroups : list string; sl_digest : string; sl_limit : Z; sl_term : string;
  sl_sort : SortRule; sl_filters : list AdvancedFilterItem; sl_cols : list string; sl_page : Pagination }.
Record HistoryMetricItem := mkItem { item_name : string; item_unit : string }.

(** The hooks of each file with what they are given. *)
Inductive StmtQuery :=
  | StmtConfig | StmtDbs | StmtRuGroups | StmtKinds | StmtListOf (l : StmtList) | PlansList (id : string) | PlanDetail (id plan : string)
  | PlanBindSupport | PlanBindStatus (sqlDigest : string) (beginTime endTime : num)
  | StmtFilterNames | StmtFilterInfo (name : string) | StmtFields.
Inductive SlowQuery :=
  | SlowDbs | SlowRuGroups | SlowListOf (l : SlowList) | SlowDetail (id : string)
  | SlowFilterNames | SlowFilterInfo (name : string) | SlowFields.
Inductive HistoryQuery := HistoryNames | HistoryData (metric : option HistoryMetricItem) (timeRange : option V2.TimeRange).
Inductive LimitQuery := LimitRuGroups | LimitSupport | LimitStatus.
Inductive MetricQuery :=
  | MetricQueriesConfig (kind : string) | MetricConfig | MetricLabelValues (metricName labelName : string) (r : V2.TimeRange)
  | MetricData (metricName : string) (r : V2.TimeRange) (label : option string) | MetricPromQLs (promQLs : list string) (r : V2.TimeRange).
Inductive Query := Stmt (q : StmtQuery) | Slow (q : SlowQuery) | History (q : HistoryQuery) | Limit (q : LimitQuery) | Metric (q : MetricQuery).
Coercion Stmt : StmtQuery >-> Query.
Coercion Slow : SlowQuery >-> Query.
Coercion History : HistoryQuery >-> Query.
Coercion Limit : LimitQuery >-> Query.
Coercion Metric : MetricQuery >-> Query.

Definition VItem (m : HistoryMetricItem) : Value := VObj [("name", VStr (item_name m)); ("unit", VStr (item_unit m))].

(** The keys of the hooks, without the id of the context. *)
Definition stmt_key (q : StmtQuery) : list Value :=
  match q with
  | StmtConfig => [VStr "statement"; VStr "config"]
  | StmtDbs => [VStr "statement"; VStr "dbs"]
  | StmtRuGroups => [VStr "statement"; VStr "ru-groups"]
  | StmtKinds => [VStr "statement"; VStr "stmt-kinds"]
  | StmtListOf l => [VStr "statement"; VStr "list"; VRange (st_range l); VStrs (st_dbs l); VStrs (st_ruGroups l); VStrs (st_kinds l);
      VStr (st_term l); VArr (map VFilter (st_filters l)); VStrs (st_cols l); VObj (sort_fields (st_sort l)); VObj (page_fields (st_page l))]
  | PlansList id => [VStr "statement"; VStr "plans-list"; VStr id]
  | PlanDetail id plan => [VStr "statement"; VStr "plan-detail"; VStr id; VStr plan]
  | PlanBindSupport => [VStr "statement"; VStr "plan-bind-support"]
  | PlanBindStatus d b e => [VStr "statement"; VStr "plan-bind-status"; VStr d; VNum b; VNum e]
  | StmtFilterNames => [VStr "statement"; VStr "advanced-filter-names"]
  | StmtFilterInfo n => [VStr "statement"; VStr "advanced-filter-info"; VStr n]
  | StmtFields => [VStr "statement"; VStr "available-fields"]
  end.
Definition slow_key (q : SlowQuery) : list Value :=
  match q with
  | SlowDbs => [VStr "slow-query"; VStr "dbs"]
  | SlowRuGroups => [VStr "slow-query"; VStr "ru-groups"]
  | SlowListOf l => [VStr "slow-query"; VStr "list"; VRange (sl_range l); VStrs (sl_dbs l); VStrs (sl_ruGroups l); VStr (sl_digest l);
      VStr (sl_term l); VArr (map VFilter (sl_filters l)); VStrs (sl_cols l); VZ (sl_limit l); VObj (sort_fields (sl_sort l)); VObj (page_fields (sl_page l))]
  | SlowDetail id => [VStr "slow-query"; VStr "detail"; VStr id]
  | SlowFilterNames => [VStr "slow-query"; VStr "advanced-filter-names"]
  | SlowFilterInfo n => [VStr "slow-query"; VStr "advanced-filter-info"; VStr n]
  | SlowFields => [VStr "slow-query"; VStr "available-fields"]
  end.
Definition history_key (c : Ctx) (q : HistoryQuery) : list Value :=
  match q with
  | HistoryNames => [VStr "sql-history"; VStr "metric-names"]
  | HistoryData m r => [VStr "sql-history"; VStr "metric-data"; VStr (ctx_digest c); VOpt VItem m; VOpt VRange r]
  end.
Definition limit_key (c : Ctx) (q : LimitQuery) : list Value :=
  match q with
  | LimitRuGroups => [VStr "sql-limit"; VStr "ru-groups"]
  | LimitSupport => [VStr "sql-limit-support"]
  | LimitStatus => [VStr "sql-limit-status"; VStr (ctx_digest c)]
  end.
Definition metric_key (q : MetricQuery) : list Value :=
  match q with
  | MetricQueriesConfig k => [VStr "metric-queries-config"; VStr k]
  | MetricConfig => [VStr "metric-config"]
  | MetricLabelValues m l r => [VStr "metric-label-values"; VStr m; VStr l; VRange r]
  | MetricData m r l => [VStr "metric-data-by-metric-name"; VStr m; VRange r; VOpt VStr l]
  | MetricPromQLs ps r => [VStr "metric-data-by-promqls"; VStrs ps; VRange r]
  end.
Definition key_of (c : Ctx) (q : Query) : list Value :=
  match q with Stmt q => stmt_key q | Slow q => slow_key q | History q => history_key c q | Limit q => limit_key c q | Metric q => metric_key q end.
Definition key (c : Ctx) (q : Query) : list Value := VStr (ctxId c) :: key_of c q.

(** Whether the hook asks by itself: the charts ask when they are seen. *)
Definition enabled (q : Query) : bool :=
  match q with
  | Stmt (StmtFilterInfo n) | Slow (SlowFilterInfo n) => truthy n
  | History (HistoryData m r) => match m, r with Some _, Some _ => true | _, _ => false end
  | Metric (MetricLabelValues m _ _) => truthy m
  | Metric (MetricData _ _ _) | Metric (MetricPromQLs _ _) => false
  | _ => true
  end.

(** Whether it shows the answer to its query before while there is none to the present one
    ([keepPreviousData]): the charts do. *)
Definition keepsPrevious (q : Query) : bool :=
  match q with Metric (MetricData _ _ _) | Metric (MetricPromQLs _ _) => true | _ => false end.

(** ** Requests *)

(** The range that is asked for, cut to a longest one, and whether it was cut. *)
Definition clip (longest : Z) (tr : TimeRangeValue) : TimeRangeValue * bool :=
  let '(beginTime, endTime) := tr in
  if num_lt longest (num_sub endTime beginTime) then ((beginTime, num_add beginTime longest), true) else ((beginTime, endTime), false).

Definition MAX_TIME_RANGE_DURATION_SECONDS : Z := 24 * 60 * 60.

(** A longest range of 0 is none. *)
Definition history_range (c : Ctx) (tr : TimeRangeValue) : TimeRangeValue * option bool :=
  match timeRangeMaxDuration c with
  | Some m => if truthy m then let '(tr, beyond) := clip m tr in (tr, Some beyond) else (tr, None)
  | None => (tr, None)
  end.

(** A call of the API: its name and its parameters. *)
Definition Call : Type := string * list (string * Value).
Definition range_fields (tr : TimeRangeValue) : list (string * Value) := [("beginTime", VNum (fst tr)); ("endTime", VNum (snd tr))].
Definition no_empty (cols : list string) : list string := filter (fun c => c <> "empty") cols.

(** The requests of a hook, by the second of the clock and the step of the chart that asks. *)
Definition stmt_ask (now : Z) (q : StmtQuery) : list Call :=
  match q with
  | StmtConfig => [("getStmtConfig", [])]
  | StmtDbs => [("getDbs", [])]
  | StmtRuGroups => [("getRuGroups", [])]
  | StmtKinds => [("getStmtKinds", [])]
  | StmtListOf l => [("getStmtList", range_fields (V2.toTimeRangeValue now (st_range l) 0) ++
      [("dbs", VStrs (st_dbs l)); ("ruGroups", VStrs (st_ruGroups l)); ("stmtKinds", VStrs (st_kinds l)); ("term", VStr (st_term l));
       ("advancedFilters", VArr (map VFilter (st_filters l))); ("fields", VStrs (no_empty (st_cols l)))] ++ sort_fields (st_sort l) ++ page_fields (st_page l))]
  | PlansList id => [("getStmtPlans", [("id", VStr id)])]
  | PlanDetail id plan => [("getStmtPlansDetail", [("id", VStr id); ("plans", VStrs [plan])])]
  | PlanBindSupport => [("checkPlanBindSupport", [])]
  | PlanBindStatus d b e => [("getPlanBindStatus", ("sqlDigest", VStr d) :: range_fields (b, e))]
  | StmtFilterNames => [("getAdvancedFilterNames", [])]
  | StmtFilterInfo n => [("getAdvancedFilterInfo", [("name", VStr n)])]
  | StmtFields => [("getAvailableFields", [])]
  end.
Definition slow_ask (now : Z) (q : SlowQuery) : list Call :=
  match q with
  | SlowDbs => [("getDbs", [])]
  | SlowRuGroups => [("getRuGroups", [])]
  | SlowListOf l => [("getSlowQueries", range_fields (fst (clip MAX_TIME_RANGE_DURATION_SECONDS (V2.toTimeRangeValue now (sl_range l) 0))) ++
      [("dbs", VStrs (sl_dbs l)); ("ruGroups", VStrs (sl_ruGroups l)); ("sqlDigest", VStr (sl_digest l)); ("limit", VZ (sl_limit l)); ("term", VStr (sl_term l));
       ("advancedFilters", VArr (map VFilter (sl_filters l))); ("fields", VStrs (no_empty (sl_cols l)))] ++ sort_fields (sl_sort l) ++ page_fields (sl_page l))]
  | SlowDetail id => [("getSlowQuery", [("id", VStr id)])]
  | SlowFilterNames => [("getAdvancedFilterNames", [])]
  | SlowFilterInfo n => [("getAdvancedFilterInfo", [("name", VStr n)])]
  | SlowFields => [("getAvailableFields", [])]
  end.
Definition history_ask (now : Z) (c : Ctx) (q : HistoryQuery) : list Call :=
  match q with
  | HistoryNames => [("getHistoryMetricNames", [])]
  | HistoryData (Some m) (Some r) => [("getHistoryMetricData", [("sqlDigest", VStr (ctx_digest c)); ("metricName", VStr (item_name m))] ++
      range_fields (fst (history_range c (V2.toTimeRangeValue now r 0))))]
  | HistoryData _ _ => []
  end.
Definition limit_ask (c : Ctx) (q : LimitQuery) : list Call :=
  match q with
  | LimitRuGroups => [("getRuGroups", [])]
  | LimitSupport => [("checkSqlLimitSupport", [])]
  | LimitStatus => [("getSqlLimitStatus", [("watchText", VStr (ctx_digest c))])]
  end.
Definition metric_ask (now step : Z) (c : Ctx) (q : MetricQuery) : list Call :=
  match q with
  | MetricQueriesConfig k => [("getMetricQueriesConfig", [("kind", VStr k)])]
  | MetricConfig => [("getMetricConfig", [])]
  | MetricLabelValues m l r => [("getMetricLabelValues", [("metricName", VStr m); ("labelName", VStr l)] ++ range_fields (fixTimeRange now r None))]
  | MetricData m r l => [("getMetricDataByMetricName", ("metricName", VStr m) :: range_fields (fixTimeRange now r (Some (num_of_Z step))) ++ [("step", VZ step); ("label", VOpt VStr l)])]
  | MetricPromQLs ps r => map (fun p => ("getMetricDataByPromQL", ("promQL", VStr (resolvePromQLTemplate p step (scrapeInterval c))) ::
      range_fields (fixTimeRange now r (Some (num_of_Z step))) ++ [("step", VZ step)])) ps
  end.
Definition ask (now step : Z) (c : Ctx) (q : Query) : list Call :=
  match q with Stmt q => stmt_ask now q | Slow q => slow_ask now q | History q => history_ask now c q | Limit q => limit_ask c q | Metric q => metric_ask now step c q end.

(** ** Mutations *)

Inductive Mutation :=
  | UpdateStmtConfig (params : list (string * Value)) | CreatePlanBind (sqlDigest planDigest : string) | DeletePlanBind (sqlDigest : string)
  | CreateSqlLimit (ruGroup action : string) | DeleteSqlLimit (id : string).

Definition sent (c : Ctx) (m : Mutation) : Call :=
  match m with
  | UpdateStmtConfig ps => ("updateStmtConfig", ps)
  | CreatePlanBind _ p => ("createPlanBind", [("planDigest", VStr p)])
  | DeletePlanBind d => ("deletePlanBind", [("sqlDigest", VStr d)])
  | CreateSqlLimit g a => ("createSqlLimit", [("watchText", VStr (ctx_digest c)); ("ruGroup", VStr g); ("action", VStr a)])
  | DeleteSqlLimit id => ("deleteSqlLimit", [("watchText", VStr (ctx_digest c)); ("id", VStr id)])
  end.

Definition invalidated_key (c : Ctx) (m : Mutation) : list Value :=
  VStr (ctxId c) ::
  match m with
  | UpdateStmtConfig _ => [VStr "statement"; VStr "config"]
  | CreatePlanBind d _ | DeletePlanBind d => [VStr "statement"; VStr "plan-bind-status"; VStr d]
  | CreateSqlLimit _ _ | DeleteSqlLimit _ => [VStr "sql-limit-status"; VStr (ctx_digest c)]
  end.

(** ** The queries of the list pages *)

Module Lists.
(** [useListUrlState] of both apps; None when a parameter is malformed. *)
Definition statement (q : gmap string string) : option StmtList :=
  t ← Statement.list_term q; fs ← advancedFilters q;
  Some (mkStmtList (UrlState.timeRange None q) (Statement.dbs q) (Statement.ruGroups q) (Statement.kinds q) t fs (Statement.cols q) (Statement.list_sortRule q) (pagination 15 q)).
Definition slow_query (q : gmap string string) : option SlowList :=
  t ← term q; fs ← advancedFilters q;
  Some (mkSlowList (UrlState.timeRange None q) (SlowQuery.dbs q) (SlowQuery.ruGroups q) (SlowQuery.sqlDigest q) (SlowQuery.limit q) t (SlowQuery.list_sortRule q) fs (SlowQuery.cols q) (pagination 15 q)).
End Lists.

(** ** Facts on keys *)

(** The numbers of a query. *)
Definition range_numbers (r : V2.TimeRange) : list num := match r with V2.Relative _ v => [v] | V2.Absolute (a, b) => [a; b] end.
Definition page_numbers (p : Pagination) : list num := [pageIndex p; pageSize p].
Definition numbers (q : Query) : list num :=
  match q with
  | Stmt (StmtListOf l) => range_numbers (st_range l) ++ page_numbers (st_page l)
  | Stmt (PlanBindStatus _ b e) => [b; e]
  | Slow (SlowListOf l) => range_numbers (sl_range l) ++ page_numbers (sl_page l)
  | History (HistoryData _ (Some r)) | Metric (MetricLabelValues _ _ r) | Metric (MetricData _ r _) | Metric (MetricPromQLs _ r) => range_numbers r
  | _ => []
  end.
Definition finite (n : num) : Prop := match n with Fin _ => True | _ => False end.
Definition finite_query (q : Query) : Prop := Forall finite (numbers q).

Section Keys.
Lemma json_str s : json (VStr s) = VStr s.
Proof. done. Qed.

Lemma json_num_inj n n' : finite n -> finite n' -> json (VNum n) = json (VNum n') -> n = n'.
Proof. destruct n, n'; cbn; intros; try done. congruence. Qed.

Lemma json_strs_inj l l' : json (VStrs l) = json (VStrs l') -> l = l'.
Proof.
  cbn. intros [= E]. revert l' E. induction l as [|x l IH]; intros [|y l'] E; [done|done|done|]. cbn in E. injection E as -> E. f_equal. by apply IH.
Qed.

Lemma json_filter_inj f f' : json (VFilter f) = json (VFilter f') -> f = f'.
Proof.
  destruct f as [n o vs], f' as [n' o' vs']. unfold VFilter. cbn. intros E. injection E as -> -> E. f_equal. apply json_strs_inj. cbn. by f_equal.
Qed.

Lemma json_filters_inj l l' : json (VArr (map VFilter l)) = json (VArr (map VFilter l')) -> l = l'.
Proof.
  cbn [json]. rewrite !map_map. intros E. assert (Hi : Inj (=) (=) (fun f => json (VFilter f))) by (intros ? ?; apply json_filter_inj).
  apply (@list_fmap_eq_inj _ _ (fun f => json (VFilter f)) Hi). assert (Hm : forall v w, VArr v = VArr w -> v = w) by congruence. by apply Hm.
Qed.

Lemma json_range_inj r r' : Forall finite (range_numbers r) -> Forall finite (range_numbers r') -> json (VRange r) = json (VRange r') -> r = r'.
Proof.
  destruct r as [t v|[a b]], r' as [t' v'|[a' b']]; cbn; rewrite ?Forall_cons; intros Hr Hr' E; try (by destruct t); try (by destruct t').
  - destruct Hr as [Hv _], Hr' as [Hv' _]. destruct v, v'; try done. destruct t, t'; cbn in E; congruence.
  - destruct Hr as (Ha & Hb & _), Hr' as (Ha' & Hb' & _). destruct a, b, a', b'; try done. congruence.
Qed.

Lemma json_opt_range_inj o o' : Forall finite (from_option range_numbers [] o) -> Forall finite (from_option range_numbers [] o') -> json (VOpt VRange o) = json (VOpt VRange o') -> o = o'.
Proof.
  destruct o as [r|], o' as [r'|]; cbn [VOpt from_option]; intros Hr Hr' E; [by f_equal; apply json_range_inj| | |done];
    exfalso; [destruct r as [? ?|[? ?]]|destruct r' as [? ?|[? ?]]]; discriminate E.
Qed.

Lemma json_opt_item_inj o o' : json (VOpt VItem o) = json (VOpt VItem o') -> o = o'.
Proof. destruct o as [[n u]|], o' as [[n' u']|]; cbn; intros; congruence. Qed.

Lemma json_opt_str_inj o o' : json (VOpt VStr o) = json (VOpt VStr o') -> o = o'.
Proof. destruct o, o'; cbn; intros; congruence. Qed.

Lemma json_sort_inj r r' : json (VObj (sort_fields r)) = json (VObj (sort_fields r')) -> r = r'.
Proof. destruct r, r'. cbn. intros; congruence. Qed.

Lemma json_page_inj p p' : Forall finite (page_numbers p) -> Forall finite (page_numbers p') -> json (VObj (page_fields p)) = json (VObj (page_fields p')) -> p = p'.
Proof.
  destruct p as [a b], p' as [a' b']. unfold page_numbers. rewrite !Forall_cons. intros (Ha & Hb & _) (Ha' & Hb' & _).
  cbn in *. destruct a, b, a', b'; try done. congruence.
Qed.

Lemma json_Z_inj z z' : json (VZ z) = json (VZ z') -> z = z'.
Proof. cbn. unfold inject_Z. intros; congruence. Qed.
End Keys.

Ltac split_parts :=
  repeat match goal with
  | H : json (VRange _) = json (VRange _) |- _ => apply json_range_inj in H; [|assumption|assumption]
  | H : json (VOpt VRange _) = json (VOpt VRange _) |- _ => apply json_opt_range_inj in H; [|assumption|assumption]
  | H : json (VObj (page_fields _)) = json _ |- _ => apply json_page_inj in H; [|assumption|assumption]
  | H : json (VNum _) = json (VNum _) |- _ => apply json_num_inj in H; [|assumption|assumption]
  | H : json _ = json _ |- _ => first [apply json_strs_inj in H | apply json_filters_inj in H | apply json_opt_item_inj in H | apply json_opt_str_inj in H | apply json_sort_inj in H | apply json_Z_inj in H]
  end.

(** The queries of a card that knows a digest. *)
Definition by_digest (q : Query) : bool := match q with History (HistoryData _ _) | Limit LimitStatus => true | _ => false end.

(** Two queries with the same key are the same, of the same context. *)
Lemma same_query c c' q q' : finite_query q -> finite_query q' -> hash (key c q) = hash (key c' q') ->
  ctxId c = ctxId c' /\ q = q' /\ (by_digest q = true -> ctx_digest c = ctx_digest c').
Proof.
  unfold hash, key, finite_query. cbn [map]. rewrite !json_str. intros Hq Hq' [= Hc E]. split; [done|]. clear Hc.
  destruct q as [q|q|q|q|q], q' as [q'|q'|q'|q'|q']; destruct q, q'; cbn [key_of stmt_key slow_key history_key limit_key metric_key map] in E;
    rewrite ?json_str in E; try discriminate E; cbn [numbers] in *.
  all: try (remember json as j eqn:Hj in E; injection E; clear E; intros; subst j); try discriminate.
  all: repeat match goal with H : Forall _ (_ ++ _) |- _ => apply Forall_app in H as [? ?] | H : Forall _ (_ :: _) |- _ => apply Forall_cons in H as [? ?] end.
  all: split_parts; simplify_eq/=; try done.
  all: match goal with l : _, l' : _ |- _ => by destruct l, l'; simplify_eq/= end.
Qed.

(** What a mutation changes. *)
Definition changes (c : Ctx) (m : Mutation) (c' : Ctx) (q : Query) : Prop :=
  ctxId c = ctxId c' /\
  match m with
  | UpdateStmtConfig _ => q = Stmt StmtConfig
  | CreatePlanBind d _ | DeletePlanBind d => exists b e, q = Stmt (PlanBindStatus d b e)
  | CreateSqlLimit _ _ | DeleteSqlLimit _ => q = Limit LimitStatus /\ ctx_digest c = ctx_digest c'
  end.

Lemma prefix_cons_str s s' (l l' : list Value) : VStr s :: l `prefix_of` VStr s' :: l' <-> s = s' /\ l `prefix_of` l'.
Proof. split; [intros H; split; [apply prefix_cons_inv_1 in H; congruence|by eapply prefix_cons_inv_2]|intros [-> H]; by apply list.prefix_cons]. Qed.

(** A mutation invalidates the queries that it changes, and no others. *)
Lemma invalidated_exactly c m c' q : hash (invalidated_key c m) `prefix_of` hash (key c' q) <-> changes c m c' q.
Proof.
  unfold hash, invalidated_key, key, changes. cbn [map]. rewrite !json_str, prefix_cons_str. apply and_iff_compat_l.
  assert (Hnil : forall (x : Value) l, ~ x :: l `prefix_of` []) by (intros x l [? [=]]).
  destruct q as [q|q|q|q|q]; destruct m, q; cbn [key_of stmt_key slow_key history_key limit_key metric_key map]; rewrite ?json_str, ?prefix_cons_str.
  all: split; intros H; try (by naive_solver).
  all: destruct H as (? & ? & [= -> -> ->]); split_and!; try done; apply list.prefix_nil.
Qed.

(** ** The cache while the pages are used *)

Section Pages.
Context `{QueryCache (list Call)} `{!QueryCacheLaws (list Call)}.

(** A hook has asked and is answered, or a mutation succeeds. *)
Inductive Event := Fetched (c : Ctx) (q : Query) (now step : Z) | Mutated (c : Ctx) (m : Mutation).
Definition step (s : cache (list Call)) (e : Event) : cache (list Call) :=
  match e with
  | Fetched c q now st => store_query (key c q) (ask now st c q) s
  | Mutated c m => invalidateQueries (invalidated_key c m) s
  end.
Definition run (es : list Event) : cache (list Call) := fold_left step es no_cache.

(** A hook on a page: the query of its last render, and the last of its queries for which there were
    data.  It is given the data of its query, or those of the last query that had some as a
    placeholder, or none. *)
Record Hook := mkHook { current : Ctx * Query; lastWithData : option (Ctx * Query) }.
Inductive Given := Data (calls : list Call) (fresh : bool) | Placeholder (calls : list Call) | Pending.
Definition cached (cq : Ctx * Query) (s : cache (list Call)) : option (list Call * bool) := lookup_query (key (fst cq) (snd cq)) s.
Definition useQuery (h : Hook) (s : cache (list Call)) : Given :=
  match cached (current h) s with
  | Some (calls, fresh) => Data calls fresh
  | None =>
      if keepsPrevious (snd (current h)) then
        match lastWithData h with
        | Some cq => match cached cq s with Some (calls, _) => Placeholder calls | None => Pending end
        | None => Pending
        end
      else Pending
  end.

(** What happens while the hook is mounted: events of the pages, and renders of the hook with other
    parameters; it takes notice whenever there are data for its query. *)
Inductive Action := Happens (e : Event) | Render (c : Ctx) (q : Query).
Definition observe (s : cache (list Call)) (h : Hook) : Hook :=
  match cached (current h) s with Some _ => mkHook (current h) (Some (current h)) | None => h end.
Definition act (st : cache (list Call) * Hook) (a : Action) : cache (list Call) * Hook :=
  match a with
  | Happens e => let s := step (fst st) e in (s, observe s (snd st))
  | Render c q => (fst st, observe (fst st) (mkHook (c, q) (lastWithData (snd st))))
  end.
(** The hook is mounted when some events have happened. *)
Definition session (es : list Event) (c : Ctx) (q : Query) (acts : list Action) : cache (list Call) * Hook :=
  fold_left act acts (run es, observe (run es) (mkHook (c, q) None)).
Definition events_of (acts : list Action) : list Event := omap (fun a => match a with Happens e => Some e | Render _ _ => None end) acts.
Definition renders_of (acts : list Action) : list (Ctx * Query) := omap (fun a => match a with Render c q => Some (c, q) | Happens _ => None end) acts.

(** Contexts with the same id have the same limits. *)
Definition same_limits (c c' : Ctx) : Prop :=
  ctxId c = ctxId c' -> timeRangeMaxDuration c = timeRangeMaxDuration c' /\ scrapeInterval c = scrapeInterval c'.

(** The event is a fetch of this query. *)
Definition fetches (c : Ctx) (q : Query) (e : Event) : Prop :=
  match e with Fetched c' q' _ _ => hash (key c q) = hash (key c' q') | Mutated _ _ => False end.
Definition changed_by (c : Ctx) (q : Query) (e : Event) : Prop := match e with Mutated c' m => changes c' m c q | Fetched _ _ _ _ => False end.

(** The calls a hook is given, and whether they are fresh: those of the last fetch of its key. *)
Definition given (c : Ctx) (q : Query) (es : list Event) (calls : list Call) (fresh : bool) : Prop :=
  exists es1 c' q' now st es2, es = es1 ++ Fetched c' q' now st :: es2 /\ hash (key c q) = hash (key c' q') /\ calls = ask now st c' q' /\
    Forall (fun e => ~ fetches c q e) es2 /\ (fresh = true <-> Forall (fun e => ~ changed_by c q e) es2).

Lemma given_snoc c q es e calls fresh : ~ fetches c q e -> given c q es calls fresh ->
  (changed_by c q e -> given c q (es ++ [e]) calls false) /\ (~ changed_by c q e -> given c q (es ++ [e]) calls fresh).
Proof.
  intros Hf (es1 & c' & q' & now & st & es2 & -> & Hk & -> & H2 & Hfr). split; intros Hc;
    exists es1, c', q', now, st, (es2 ++ [e]); rewrite <- app_assoc; split_and!; try done; rewrite ?Forall_app, ?Forall_singleton; naive_solver.
Qed.

Lemma given_by_last_fetch c q es : match cached (c, q) (run es) with
  | Some (calls, fresh) => given c q es calls fresh
  | None => Forall (fun e => ~ fetches c q e) es
  end.
Proof.
  induction es as [|e es IH] using rev_ind; [unfold cached, run; cbn; by rewrite lookup_no_cache|].
  unfold run. rewrite fold_left_app. cbn [fold_left]. fold (run es). unfold cached in *. cbn [fst snd] in *. destruct e as [c' q' now st|c' m]; cbn [step].
  - destruct (decide (hash (key c q) = hash (key c' q'))) as [E|E].
    + rewrite lookup_stored by done. exists es, c', q', now, st, []. split_and!; try done; by constructor.
    + rewrite lookup_stored_ne by done. destruct (lookup_query (key c q) (run es)) as [[calls fresh]|].
      * by destruct (given_snoc c q es (Fetched c' q' now st) calls fresh) as [_ Hg]; [done|done|apply Hg; intros []].
      * rewrite Forall_app, Forall_singleton. by split.
  - destruct (decide (hash (invalidated_key c' m) `prefix_of` hash (key c q))) as [E|E].
    + rewrite lookup_invalidated by done. apply invalidated_exactly in E. destruct (lookup_query (key c q) (run es)) as [[calls fresh]|]; cbn [fmap option_fmap option_map outdated fst].
      * by destruct (given_snoc c q es (Mutated c' m) calls fresh) as [Hg _]; [intros []|done|apply Hg].
      * rewrite Forall_app, Forall_singleton. by split; [|intros []].
    + rewrite lookup_invalidated_ne by done. rewrite invalidated_exactly in E. destruct (lookup_query (key c q) (run es)) as [[calls fresh]|].
      * by destruct (given_snoc c q es (Mutated c' m) calls fresh) as [_ Hg]; [intros []|done|apply Hg].
      * rewrite Forall_app, Forall_singleton. by split; [|intros []].
Qed.

Lemma ask_same c c' q now st : same_limits c c' -> ctxId c = ctxId c' -> (by_digest q = true -> ctx_digest c = ctx_digest c') -> ask now st c q = ask now st c' q.
Proof.
  intros Hl Hc Hd. destruct (Hl Hc) as [Hm Hs]. destruct q as [q|q|[|[m|] [r|]]|[| |]|q]; cbn [by_digest] in Hd; try done; cbn [ask history_ask limit_ask]; unfold history_range, metric_ask;
    rewrite ?Hm, ?Hs, ?Hd by done; done.
Qed.

(** The contexts and queries of a session. *)
Definition fetch_ok (c : Ctx) (e : Event) : Prop := match e with Fetched c' q' _ _ => same_limits c c' /\ finite_query q' | Mutated _ _ => True end.

(** The calls are those of the last fetch of this query, at some time, with its own parameters; they
    count as fresh exactly as long as no mutation has changed them since. *)
Definition answered (c : Ctx) (q : Query) (es : list Event) (calls : list Call) (fresh : bool) : Prop :=
  exists es1 es2 e now st, es = es1 ++ e :: es2 /\ fetches c q e /\ calls = ask now st c q /\
    Forall (fun e => ~ fetches c q e) es2 /\ (fresh = true <-> Forall (fun e => ~ changed_by c q e) es2).

Lemma cached_answered c q es calls fresh : finite_query q -> Forall (fetch_ok c) es -> cached (c, q) (run es) = Some (calls, fresh) ->
  answered c q es calls fresh.
Proof.
  intros Hq Hes E. pose proof (given_by_last_fetch c q es) as Hg. rewrite E in Hg.
  destruct Hg as (es1 & c' & q' & now & st & es2 & -> & Hk & -> & Hn & Hf). rewrite Forall_app, Forall_cons in Hes. destruct Hes as (_ & [Hl Hq'] & _).
  destruct (same_query c c' q q' Hq Hq' Hk) as (Hc & <- & Hd). exists es1, es2, (Fetched c' q now st), now, st. split_and!; [done|done| |done|done].
  symmetry. by apply ask_same.
Qed.

Lemma run_events acts : forall st, fst (fold_left act acts st) = fold_left step (events_of acts) (fst st).
Proof. induction acts as [|[e|c q] acts IH]; intros st; [done| |]; cbn [fold_left]; by rewrite IH. Qed.

(** The queries of the hook are among those it was rendered with. *)
Lemma hook_queries es c q acts : let h := snd (session es c q acts) in
  current h ∈ (c, q) :: renders_of acts /\ forall cq, lastWithData h = Some cq -> cq ∈ (c, q) :: renders_of acts.
Proof.
  assert (Ho : forall s h (l : list (Ctx * Query)), current h ∈ l /\ (forall cq, lastWithData h = Some cq -> cq ∈ l) ->
    current (observe s h) ∈ l /\ (forall cq, lastWithData (observe s h) = Some cq -> cq ∈ l)).
  { intros s h l [Hc Hl]. unfold observe. destruct (cached _ _); [|done]. cbn. split; [done|]. by intros cq [= <-]. }
  cbv zeta. induction acts as [|a acts IH] using rev_ind; [apply Ho; cbn; split; [by left|done]|].
  unfold session in *. rewrite fold_left_app. cbn [fold_left]. unfold renders_of in *. rewrite omap_app. destruct a as [e|c' q']; cbn [act snd omap list_omap].
  - rewrite app_nil_r. by apply Ho.
  - apply Ho. cbn. rewrite !elem_of_cons, elem_of_app. split; [right; right; by left|].
    intros cq Hcq. apply IH in Hcq. rewrite elem_of_cons in *. rewrite elem_of_app. naive_solver.
Qed.

(** C21: While the pages are used, a hook is given the answer to its own query, made at some time with
    its own parameters, and this counts as fresh exactly as long as no mutation has changed it
    since; when its query was not answered yet it is given nothing, or, if it is one of the two
    hooks of the charts, as a placeholder the answer to a query it was rendered with before.  All
    this as long as contexts with the same id have the same limits. *)
Theorem own_answer es c q acts :
  let events := es ++ events_of acts in
  Forall (fun cq => finite_query (snd cq) /\ Forall (fetch_ok (fst cq)) events) ((c, q) :: renders_of acts) ->
  let '(s, h) := session es c q acts in
  let '(c', q') := current h in
  (c', q') ∈ (c, q) :: renders_of acts /\
  match useQuery h s with
  | Data calls fresh => answered c' q' events calls fresh
  | Placeholder calls => keepsPrevious q' = true /\ Forall (fun e => ~ fetches c' q' e) events /\
      exists c2 q2 fresh, (c2, q2) ∈ (c, q) :: renders_of acts /\ answered c2 q2 events calls fresh
  | Pending => Forall (fun e => ~ fetches c' q' e) events
  end.
Proof.
  intros events Hok. pose proof (hook_queries es c q acts) as [Hc Hl]. pose proof (run_events acts (run es, observe (run es) (mkHook (c, q) None))) as Hs.
  change (fold_left act acts _) with (session es c q acts) in Hs. cbn [fst] in Hs.
  assert (Hrun : fold_left step (events_of acts) (run es) = run events) by (unfold run, events; by rewrite fold_left_app). rewrite Hrun in Hs.
  destruct (session es c q acts) as [s h]. cbn [fst snd] in *. subst s. destruct (current h) as [c' q'] eqn:Ec. split; [done|].
  rewrite Forall_forall in Hok. unfold useQuery. rewrite Ec. cbn [snd]. pose proof (given_by_last_fetch c' q' events) as Hg.
  destruct (cached (c', q') (run events)) as [[calls fresh]|] eqn:E.
  - destruct (Hok _ Hc) as [Hf He]. by apply cached_answered.
  - destruct (keepsPrevious q'); [|done]. destruct (lastWithData h) as [[c2 q2]|]; [|done].
    destruct (cached (c2, q2) (run events)) as [[calls fresh]|] eqn:E2; [|done]. split_and!; [done|done|].
    pose proof (Hl _ eq_refl) as Hin. destruct (Hok _ Hin) as [Hf He]. exists c2, q2, fresh. split; [done|]. by apply cached_answered.
Qed.
End Pages.

Example page_ctx : Ctx := mkCtx "statement-1" "" None None.
(** A chart that is rendered for another label while the first one is answered. *)
Example chart (label : string) : Query := MetricData "cpu" (V2.Absolute (num_of_Z 0, num_of_Z 60)) (Some label).
Lemma own_answer_witness :
  let acts := [Happens (Fetched page_ctx (chart "a") 70 15); Render page_ctx (chart "b")] in
  let '(s, h) := @session (plain_cache _) [] page_ctx (chart "a") acts in
  useQuery (H := plain_cache _) h s = Placeholder (ask 70 15 page_ctx (chart "a")) /\
  exists c2 q2 fresh, (c2, q2) ∈ [(page_ctx, chart "a"); (page_ctx, chart "b")] /\
    answered c2 q2 [Fetched page_ctx (chart "a") 70 15] (ask 70 15 page_ctx (chart "a")) fresh.
Proof.
  pose proof (plain_cache_laws (list Call)) as Hl. cbv zeta.
  pose proof (@own_answer (plain_cache _) Hl [] page_ctx (chart "a") [Happens (Fetched page_ctx (chart "a") 70 15); Render page_ctx (chart "b")]) as H.
  cbv zeta in H. specialize (H ltac:(repeat constructor; by eexists)).
  split; [reflexivity|]. exact (proj2 (proj2 (proj2 H))).
Defined.

(** Contexts of both apps may be given the id of the cluster, as the comment on [ctxId] has it; then
    the history of a statement and of its slow queries share a key, but not the request. *)
Lemma history_shares_key : let st := mkCtx "1" "d" None None in let sl := mkCtx "1" "d" (Some MAX_TIME_RANGE_DURATION_SECONDS) None in
  let q := HistoryData (Some (mkItem "m" "s")) (Some (V2.Absolute (num_of_Z 0, num_of_Z 100000))) in
  key st q = key sl q /\ ask 0 0 st q <> ask 0 0 sl q.
Proof. split; [done|]. vm_compute. congruence. Qed.

(** ** The range that was cut (shared-state/memory-state.ts, time-range-clip-alert.tsx) *)

Module Clip.
Record State := mkState { trv : TimeRangeValue; beyondMax : bool }.
Definition init : State := mkState (num_of_Z 0, num_of_Z 0) false.
Definition setTRV (r : TimeRangeValue) (b : bool) (s : State) : State := mkState r b.

(** What the hooks of the list and of the history note when they ask; each has a store of its own. *)
Definition list_asks (now : Z) (l : SlowList) (s : State) : State :=
  let '(r, b) := clip MAX_TIME_RANGE_DURATION_SECONDS (V2.toTimeRangeValue now (sl_range l) 0) in setTRV r b s.
Definition history_asks (now : Z) (c : Ctx) (r : V2.TimeRange) (s : State) : State :=
  match history_range c (V2.toTimeRangeValue now r 0) with (r, Some b) => setTRV r b s | (_, None) => s end.

(** The alert names the range. *)
Definition alert (s : State) : option TimeRangeValue := if beyondMax s then Some (trv s) else None.

(** On whole seconds: what is asked for begins where the chosen range does and ends where that does
    or after the longest time, and the alert is due exactly when it was cut. *)
Lemma clip_Z (m a b : Z) : clip m (num_of_Z a, num_of_Z b) = ((num_of_Z a, num_of_Z (if m <? b - a then a + m else b)), m <? b - a).
Proof. unfold clip. rewrite num_sub_Z, num_lt_Z, num_add_Z. by destruct (m <? b - a). Qed.

(** The history of a statement has no longest range and leaves the note of a slow query before it:
    its alert names a range that it did not ask for. *)
Lemma stale_alert : exists now slow stmt r, timeRangeMaxDuration stmt = None /\
  alert (history_asks now stmt r (history_asks now slow (V2.Absolute (num_of_Z 0, num_of_Z 100000)) init)) = Some (num_of_Z 0, num_of_Z 86400) /\
  r = V2.Absolute (num_of_Z 200000, num_of_Z 200060).
Proof. exists 0, (mkCtx "1" "d" (Some MAX_TIME_RANGE_DURATION_SECONDS) None), (mkCtx "1" "d" None None). eexists. by split_and!. Qed.
End Clip.
