(* ===== verification/ListTables.v ===== *)
(** * The tables of the list pages of ui-v2 (4-apps/src/statement/pages/list, slow-query/pages/list)

    Module [Factory] makes a column (_shared/cols-factory.tsx); [Cols] are the columns of both tables
    (cols.tsx), [Choice] which of them are shown and asked for (cols-select.tsx, table.tsx), over
    [UrlState] and [QueryData]; [Click] what a click on the SQL text of a row does, which row is
    marked, and how the pages that open read the id; [Fix] the alert on the time range of the rows
    (time-range-fix-alert.tsx); [Filters] which filters are shown (filters.tsx). *)

From Stdlib Require Import Ascii QArith.
From S2P Require Import Prelude JsString JsNumber TimeRange UrlState DetailTabs QueryData.
Local Open Scope Z_scope.

(** The two apps. *)
Inductive App := StatementApp | SlowQueryApp.

(** ** The columns *)

Module Factory.
(** What a cell shows: the number or time of a field, its text, the SQL text of a row that can be
    clicked, or yes or no. *)
Inductive Kind := Number (unit : string) | Timestamp | Text | StatementSql | SlowQuerySql | YesNo.
Record Col := mkCol { id : string; enableSorting : bool; enableResizing : bool; minSize : option Z; kind : Kind }.

Definition number (f unit : string) : Col := mkCol f true false None (Number unit).
Definition timestamp (f : string) : Col := mkCol f true false None Timestamp.
Definition text (f : string) : Col := mkCol f false true None Text.
(** [patchConfig] *)
Definition patched (size : Z) (k : Kind) (c : Col) : Col := mkCol (id c) (enableSorting c) (enableResizing c) (Some size) k.
Definition yes_or_no (c : Col) : Col := mkCol (id c) (enableSorting c) (enableResizing c) (minSize c) YesNo.

(** A cell; the SQL text of a row that was evicted is missing. *)
Inductive Cell := Shown (s : string) | Sql (s : option string) | Evicted.

Section Cells.
Context (getValueFormat : string -> option (num -> Z -> option Z -> string)) (formatTime : num -> string) (tk : string -> string).

Definition header (c : Col) : string := tk ("fields." +:+ id c).

(** [accessorFn]: a field that is missing is no number. *)
Definition accessorFn (c : Col) (row : Model) : Cell :=
  let n := default NaN (nums row (id c)) in
  match kind c with
  | Number unit => Shown (js_or (Some (formatNumByUnit getValueFormat n unit 1)) "-")
  | Timestamp => Shown (formatTime (num_mul n (num_of_Z 1000)))
  | Text => Shown (js_or (strs row (id c)) "-")
  | StatementSql => if truthy (strs row (id c)) then Sql (strs row (id c)) else Evicted
  | SlowQuerySql => Sql (strs row (id c))
  | YesNo => Shown (yes_no (nums row (id c)))
  end.
End Cells.
End Factory.

Module Cols.
Import Factory.
Definition statement : list Col := [
    patched 600 StatementSql (text "digest_text"); text "digest"; number "sum_latency" "ns";
    number "avg_latency" "ns"; number "max_latency" "ns"; number "min_latency" "ns"; number "exec_count" "short";
    number "plan_count" "short"; number "plan_cache_hits" "short"; number "avg_mem" "bytes"; number "max_mem" "bytes";
    number "avg_disk" "bytes"; number "max_disk" "bytes"; number "sum_errors" "short"; number "sum_warnings" "short";
    number "avg_parse_latency" "ns"; number "max_parse_latency" "ns"; number "avg_compile_latency" "ns";
    number "max_compile_latency" "ns"; number "sum_cop_task_num" "short"; number "avg_cop_process_time" "ns";
    number "max_cop_process_time" "ns"; number "avg_cop_wait_time" "ns"; number "max_cop_wait_time" "ns";
    number "avg_process_time" "ns"; number "max_process_time" "ns"; number "avg_wait_time" "ns";
    number "max_wait_time" "ns"; number "avg_backoff_time" "ns"; number "max_backoff_time" "ns";
    number "avg_write_keys" "short"; number "max_write_keys" "short"; number "avg_processed_keys" "short";
    number "max_processed_keys" "short"; number "avg_total_keys" "short"; number "max_total_keys" "short";
    number "avg_prewrite_time" "ns"; number "max_prewrite_time" "ns"; number "avg_commit_time" "ns";
    number "max_commit_time" "ns"; number "avg_get_commit_ts_time" "ns"; number "max_get_commit_ts_time" "ns";
    number "avg_commit_backoff_time" "ns"; number "max_commit_backoff_time" "ns"; number "avg_resolve_lock_time" "ns";
    number "max_resolve_lock_time" "ns"; number "avg_local_latch_wait_time" "ns";
    number "max_local_latch_wait_time" "ns"; number "avg_write_size" "bytes"; number "max_write_size" "bytes";
    number "avg_prewrite_regions" "short"; number "max_prewrite_regions" "short"; number "avg_txn_retry" "short";
    number "max_txn_retry" "short"; number "sum_backoff_times" "short"; number "avg_affected_rows" "short";
    timestamp "first_seen"; timestamp "last_seen"; text "sample_user"; text "schema_name"; text "table_names";
    text "index_names"; text "plan_digest"; text "related_schemas"; number "avg_rocksdb_delete_skipped_count" "short";
    number "max_rocksdb_delete_skipped_count" "short"; number "avg_rocksdb_key_skipped_count" "short";
    number "max_rocksdb_key_skipped_count" "short"; number "avg_rocksdb_block_cache_hit_count" "short";
    number "max_rocksdb_block_cache_hit_count" "short"; number "avg_rocksdb_block_read_count" "short";
    number "max_rocksdb_block_read_count" "short"; number "avg_rocksdb_block_read_byte" "bytes";
    number "max_rocksdb_block_read_byte" "bytes"; text "resource_group"; number "avg_ru" "short";
    number "max_ru" "short"; number "avg_time_queued_by_rc" "ns"; number "max_time_queued_by_rc" "ns"].

Definition slow_query : list Col := [
    patched 600 SlowQuerySql (text "query"); text "digest"; text "instance"; text "db"; text "connection_id";
    timestamp "timestamp"; number "query_time" "s"; number "parse_time" "s"; number "compile_time" "s";
    number "process_time" "s"; number "memory_max" "bytes"; number "disk_max" "bytes"; text "txn_start_ts";
    yes_or_no (text "success"); yes_or_no (text "is_internal"); yes_or_no (text "prepared"); text "index_names";
    text "stats"; text "backoff_types"; text "user"; text "host"; number "wait_time" "s"; number "backoff_time" "s";
    number "get_commit_ts_time" "s"; number "local_latch_wait_time" "s"; number "prewrite_time" "s";
    number "commit_time" "s"; number "commit_backoff_time" "s"; number "resolve_lock_time" "s";
    number "cop_proc_avg" "s"; number "cop_proc_max" "s"; number "cop_proc_p90" "s"; number "cop_wait_avg" "s";
    number "cop_wait_max" "s"; number "cop_wait_p90" "s"; number "request_count" "short";
    number "process_keys" "short"; number "total_keys" "short"; text "cop_proc_addr"; text "cop_wait_addr";
    number "write_keys" "short"; number "write_size" "bytes"; number "prewrite_region" "short";
    number "txn_retry" "short"; number "rocksdb_delete_skipped_count" "short";
    number "rocksdb_key_skipped_count" "short"; number "rocksdb_block_cache_hit_count" "short";
    number "rocksdb_block_read_count" "short"; number "rocksdb_block_read_byte" "bytes"; number "ru" "short";
    text "resource_group"; number "time_queued_by_rc" "s"].

Definition columns (a : App) : list Col := match a with StatementApp => statement | SlowQueryApp => slow_query end.
Definition ids (a : App) : list string := map id (columns a).

(** The columns that are shown when none were chosen. *)
Definition defaults (a : App) : list string :=
  match a with StatementApp => ["digest_text"; "sum_latency"; "avg_latency"; "exec_count"; "plan_count"] | SlowQueryApp => ["query"; "timestamp"; "query_time"; "memory_max"] end.
End Cols.

(** ** The columns that are chosen *)

Module Choice.
Import Factory Cols.

Definition cols (a : App) (q : gmap string string) : list string := match a with StatementApp => Statement.cols q | SlowQueryApp => SlowQuery.cols q end.
Definition setCols (a : App) (v : list string) : update := match a with StatementApp => Statement.setCols v | SlowQueryApp => SlowQuery.setCols v end.

(** [columnVisibility] of the table. *)
Definition visible (visibleCols : list string) (c : string) : bool := bool_decide (c ∈ visibleCols) || bool_decide ("all" ∈ visibleCols).
Definition columnVisibility (a : App) (visibleCols : list string) : gmap string bool :=
  fold_left (fun acc c => <[c := visible visibleCols c]> acc) (ids a) ∅.

(** The columns of the table that are shown, in its order. *)
Definition shown (a : App) (visibleCols : list string) : list string :=
  filter (fun c => columnVisibility a visibleCols !! c = Some true) (ids a).

(** The select: the columns whose field the server knows. *)
Definition colsData (tk : string -> string) (a : App) (availableFields : option (list string)) : list (string * string) :=
  match availableFields with
  | Some l => map (fun c => (header tk c, id c)) (filter (fun c => id c ∈ l) (columns a))
  | None => []
  end.

Definition handleColsChange (a : App) (newCols : list string) : update :=
  match newCols with [] => setCols a ["empty"] | _ => setCols a newCols end.
Definition onReset (a : App) : update := setCols a [].

Lemma fold_visibility (f : string -> bool) l (m : gmap string bool) c : fold_left (fun acc c => <[c := f c]> acc) l m !! c = if bool_decide (c ∈ l) then Some (f c) else m !! c.
Proof.
  revert m. induction l as [|x l IH]; intros m; [done|]. cbn [fold_left]. rewrite IH. destruct (decide (c = x)) as [->|Hx].
  - rewrite lookup_insert_eq. rewrite (bool_decide_eq_true_2 (x ∈ x :: l)) by (by left). by case_bool_decide.
  - rewrite lookup_insert_ne by done. by rewrite (bool_decide_ext (c ∈ x :: l) (c ∈ l)) by (rewrite elem_of_cons; naive_solver).
Qed.

Lemma shown_visible a v : shown a v = filter (fun c => c ∈ v \/ "all" ∈ v) (ids a).
Proof.
  unfold shown, columnVisibility. apply filter_ext_elem. intros c Hc. rewrite fold_visibility.
  rewrite (bool_decide_eq_true_2 (c ∈ ids a)) by done. unfold visible.
  split; [intros [= H%orb_true_iff]; rewrite !bool_decide_eq_true in H; done|intros H; f_equal; apply orb_true_iff; by rewrite !bool_decide_eq_true].
Qed.

Lemma setCols_read {Q} `{UrlStore Q} a v (q : Q) : v <> [] -> v <> [""] -> Forall (fun x => has_char "," x = false) v ->
  cols a (queryParams (setQueryParams (setCols a v) q)) = v.
Proof.
  intros Hn Hv Hc. assert (Hr : read_list (stored (Some (js_join "," v))) = v) by (by apply read_write_list).
  unfold stored in Hr. destruct (truthy (Some (js_join "," v))) eqn:Ht; [|by destruct v].
  destruct a; cbn [cols setCols]; unfold Statement.cols, SlowQuery.cols; rewrite get_set by store_nodup;
    change (update_at _ "cols") with (Some (Some (js_join "," v))); cbv iota beta; unfold stored; rewrite Ht, js_or_some by done; exact Hr.
Qed.

Lemma setCols_other {Q} `{UrlStore Q} a v (q : Q) k : k <> "cols" -> queryParams (setQueryParams (setCols a v) q) !! k = queryParams q !! k.
Proof. intros Hk. rewrite get_set by (destruct a; store_nodup). destruct a; cbn [setCols]; unfold Statement.setCols, SlowQuery.setCols, write_list; cbn [update_at]; by rewrite decide_False. Qed.

(** C25: The table shows the columns that are checked in the select and asks for their fields, in every
    state of the page: when none is left it shows and asks for none, a reset brings back the columns
    of the first visit, and no other parameter of the page changes. *)
Theorem columns_follow_choice {Q} `{UrlStore Q} a (q : Q) newCols :
  newCols <> [""] -> Forall (fun x => has_char "," x = false) newCols ->
  let q' := queryParams (setQueryParams (handleColsChange a newCols) q) in
  shown a (cols a q') = filter (fun c => c ∈ newCols \/ "all" ∈ newCols) (ids a) /\ no_empty (cols a q') = no_empty newCols /\
  (forall k, k <> "cols" -> q' !! k = queryParams q !! k) /\
  let q0 := queryParams (setQueryParams (onReset a) q) in
  shown a (cols a q0) = filter (fun c => c ∈ defaults a) (ids a) /\ (forall k, k <> "cols" -> q0 !! k = queryParams q !! k).
Proof.
  intros Hv Hc. cbv zeta.
  assert (Hd : cols a (queryParams (setQueryParams (onReset a) q)) = defaults a).
  { destruct a; cbn [cols onReset setCols]; unfold Statement.cols, SlowQuery.cols; by rewrite get_set by store_nodup. }
  assert (Hr : newCols <> [] -> cols a (queryParams (setQueryParams (setCols a newCols) q)) = newCols) by (intros; by apply setCols_read).
  assert (Hr0 : cols a (queryParams (setQueryParams (setCols a ["empty"]) q)) = ["empty"]) by (apply setCols_read; by repeat constructor).
  split_and!.
  - rewrite shown_visible. destruct newCols; cbn [handleColsChange]; [rewrite Hr0; by destruct a|by rewrite Hr].
  - destruct newCols; cbn [handleColsChange]; [by rewrite Hr0|by rewrite Hr].
  - intros k Hk. destruct newCols; by apply setCols_other.
  - rewrite Hd, shown_visible. by destruct a.
  - intros k Hk. by apply setCols_other.
Qed.

Lemma columns_follow_choice_witness : shown StatementApp (cols StatementApp (queryParams (setQueryParams (handleColsChange StatementApp ["digest"]) "?pageIndex=2"))) = ["digest"].
Proof.
  destruct (columns_follow_choice StatementApp "?pageIndex=2" ["digest"]) as [H _]; [done|by repeat constructor|].
  etransitivity; [exact H|reflexivity].
Defined.
End Choice.

(** ** A click on the SQL text of a row *)

Module Click.
(** The selected row, which the pages share, and the item of the local storage. *)
Record Store := mkStore { selected : string; remember : option string }.

(** [openDetail], and whether the tip is shown. *)
Record Opened := mkOpened { opened_id : string; newTab : bool; tip : bool }.

(** What is undefined is joined as an empty text, but printed as its name. *)
Definition num_text (row : Model) (f : string) : option string := num_show <$> nums row f.
Definition joined (l : list (option string)) : string := js_join "," (map (default "") l).
Definition printed (l : list (option string)) : string := js_join "," (map (default "undefined") l).

Definition parts (a : App) (row : Model) : list (option string) :=
  match a with StatementApp => [strs row "digest"; strs row "schema_name"] | SlowQueryApp => [strs row "digest"; strs row "connection_id"; num_text row "timestamp"] end.

Definition detail_parts (a : App) (trv : TimeRangeValue) (row : Model) : list (option string) :=
  match a with
  | StatementApp => [num_text row "summary_begin_time"; num_text row "summary_end_time"; strs row "digest"; strs row "schema_name"]
  | SlowQueryApp => [Some (joined (parts a row)); Some (num_show (fst trv)); Some (num_show (snd trv))]
  end.

(** [handleClick]: the tip is shown until the user has got it. *)
Definition handleClick (a : App) (trv : TimeRangeValue) (row : Model) (ctrl meta shift alt : bool) (s : Store) : Store * Opened :=
  let newTab := ctrl || meta || shift || alt in
  (mkStore (joined (parts a row)) (remember s),
   mkOpened (joined (detail_parts a trv row)) newTab (negb newTab && bool_decide (remember s <> Some "true"))).
Definition got_it (s : Store) : Store := mkStore (selected s) (Some "true").

(** The row with a border. *)
Definition marked (a : App) (s : Store) (row : Model) : bool := bool_decide (selected s = printed (parts a row)).

(** A row with all parts is marked after it was clicked, in the same list; the tip is shown to who
    presses no key and has not got it. *)
Lemma clicked_marked a trv row c m h t s : Forall is_Some (parts a row) -> marked a (fst (handleClick a trv row c m h t s)) row = true.
Proof.
  intros Hp. apply bool_decide_eq_true_2. cbn [handleClick fst selected]. unfold joined, printed. f_equal. apply map_ext_in. intros o Ho.
  rewrite Forall_forall in Hp. apply list_elem_of_In in Ho. by destruct (Hp o Ho) as [x ->].
Qed.

Lemma tip_until_got a trv row s c m h t : tip (snd (handleClick a trv row c m h t (got_it s))) = false /\
  (c || m || h || t = true -> tip (snd (handleClick a trv row c m h t s)) = false).
Proof. split; cbn; [by destruct (c || m || h || t)|by intros ->]. Qed.

(** A statement without a schema is opened, but not marked. *)
Lemma unmarked_without_schema trv d s :
  let row := mkModel (fun _ => None) (fun f => if bool_decide (f = "digest") then Some d else None) in
  marked StatementApp (fst (handleClick StatementApp trv row false false false false s)) row = false.
Proof.
  cbv zeta. apply bool_decide_eq_false_2. unfold parts, joined, printed. cbn -[js_join]. intros E%(f_equal String.length). cbn in E.
  rewrite !str_length_app in E. rewrite (bool_decide_eq_true_2 ("digest" = "digest")), (bool_decide_eq_false_2 ("schema_name" = "digest")) in E by done. cbn in E. lia.
Qed.

(** ** What the pages read of the id *)

Definition part (i : nat) (id : string) : option string := js_split "," id !! i.
Definition number_part (i : nat) (id : string) : num := number_of (part i id).

(** [initialTimeRange] of the history. *)
Definition initialTimeRange (a : App) (id : string) : V2.TimeRange :=
  match a with StatementApp => V2.Absolute (number_part 0 id, number_part 1 id) | SlowQueryApp => V2.Absolute (number_part 3 id, number_part 4 id) end.

(** [RelatedStatementButton], and [SlowQueryCell] of a plan. *)
Definition statementId (id : string) (db : option string) : string := joined [part 3 id; part 4 id; part 0 id; db].
Definition slowQueryId (id planDigest : string) : string := id +:+ "," +:+ (if bool_decide (planDigest = "all") then "" else planDigest).

Definition no_comma (o : option string) : Prop := has_char "," (default "" o) = false.

Lemma split_joined l : l <> [] -> Forall no_comma l -> js_split "," (joined l) = map (default "") l.
Proof. intros Hn Hl. unfold joined. apply (js_split_join ","); [by destruct l|]. by apply Forall_fmap. Qed.

Lemma js_join_nested sep l1 l2 : l1 <> [] -> js_join sep (js_join sep l1 :: l2) = js_join sep (l1 ++ l2).
Proof.
  intros H1. induction l1 as [|x l1 IH]; [done|]. destruct l1 as [|y l1]; [done|]. destruct l2 as [|z l2]; [by rewrite app_nil_r|].
  specialize (IH ltac:(done)). rewrite js_join_cons in IH by done. cbn [app] in *. rewrite (js_join_cons sep x (y :: l1 ++ z :: l2)) by done.
  rewrite <- IH, !js_join_cons by done. by rewrite !str_app_assoc.
Qed.

Lemma joined_app l1 l2 : l1 <> [] -> joined (Some (joined l1) :: l2) = joined (l1 ++ l2).
Proof. intros H1. unfold joined. cbn [map default from_option]. rewrite map_app. apply js_join_nested. by destruct l1. Qed.

Lemma part_joined i l : l <> [] -> Forall no_comma l -> part i (joined l) = default "" <$> l !! i.
Proof. intros Hn Hl. unfold part. by rewrite split_joined, list_lookup_fmap. Qed.

Lemma number_part_joined i l z : Forall no_comma l -> l !! i = Some (Some (show z)) -> number_part i (joined l) = num_of_Z z.
Proof. intros Hl Hi. unfold number_part. rewrite part_joined, Hi by (try done; by intros ->). apply js_Number_show. Qed.

Lemma no_comma_show z : no_comma (Some (show z)).
Proof. by apply has_char_show. Qed.

(** The ids that are opened, as their parts. *)
Lemma statement_id trv row b e : nums row "summary_begin_time" = Some (num_of_Z b) -> nums row "summary_end_time" = Some (num_of_Z e) ->
  detail_parts StatementApp trv row = [Some (show b); Some (show e); strs row "digest"; strs row "schema_name"].
Proof. intros Hb He. cbn [detail_parts]. unfold num_text. rewrite Hb, He. cbn [fmap option_fmap option_map]. by rewrite !num_show_Z. Qed.

Lemma slow_query_id f t row : joined (detail_parts SlowQueryApp (num_of_Z f, num_of_Z t) row) = joined (parts SlowQueryApp row ++ [Some (show f); Some (show t)]).
Proof. cbn [detail_parts fst snd]. rewrite !num_show_Z. by apply joined_app. Qed.

Lemma slowQueryId_joined l p : l <> [] -> slowQueryId (joined l) p = joined (l ++ [Some (if bool_decide (p = "all") then "" else p)]).
Proof. intros Hl. by rewrite <- joined_app. Qed.

(** C27: If the times of the summary are there and the texts that ids are made of (the plan, the
    database, the digest, the schema, the connection and the timestamp) have no comma, at which ids
    are cut, then a click on a row opens a page that knows what the list knew: the history of a statement begins
    with the time window of its row, that of a slow query with the range the list asked for; the
    statement of a slow query is opened by its digest in this range, and the slow queries of a plan
    by the id of the statement and the plan. *)
Theorem ids_carry_over (row : Model) (b e f t : Z) db planDigest c m h a s :
  nums row "summary_begin_time" = Some (num_of_Z b) -> nums row "summary_end_time" = Some (num_of_Z e) ->
  Forall no_comma (Some planDigest :: db :: [strs row "digest"; strs row "schema_name"; strs row "connection_id"; num_text row "timestamp"]) ->
  let trv := (num_of_Z f, num_of_Z t) in
  let id := opened_id (snd (handleClick StatementApp trv row c m h a s)) in
  let id' := opened_id (snd (handleClick SlowQueryApp trv row c m h a s)) in
  initialTimeRange StatementApp id = V2.Absolute (num_of_Z b, num_of_Z e) /\ part 2 id = Some (default "" (strs row "digest")) /\
  initialTimeRange SlowQueryApp id' = V2.Absolute trv /\
  initialTimeRange StatementApp (statementId id' db) = V2.Absolute trv /\ part 2 (statementId id' db) = Some (default "" (strs row "digest")) /\
  part 3 (statementId id' db) = Some (default "" db) /\
  part 4 (slowQueryId id planDigest) = Some (if bool_decide (planDigest = "all") then "" else planDigest).
Proof.
  intros Hb He Hc. rewrite !Forall_cons in Hc. destruct Hc as (Hp & Hdb & Hd & Hs & Hcn & Ht & _). cbv zeta. cbn [handleClick snd opened_id].
  rewrite (statement_id _ _ b e Hb He), slow_query_id. set (ss := [_; _; _; _]). set (sq := parts SlowQueryApp row ++ _).
  assert (Hss : Forall no_comma ss) by (repeat constructor; try done; apply no_comma_show).
  assert (Hsq : Forall no_comma sq) by (repeat constructor; try done; apply no_comma_show).
  assert (Hst : statementId (joined sq) db = joined [Some (show f); Some (show t); Some (default "" (strs row "digest")); db]) by (unfold statementId; by rewrite !part_joined).
  assert (Hst' : Forall no_comma [Some (show f); Some (show t); Some (default "" (strs row "digest")); db]) by (repeat constructor; try done; apply no_comma_show).
  rewrite Hst, slowQueryId_joined by done. cbn [initialTimeRange].
  rewrite (number_part_joined 0 ss b), (number_part_joined 1 ss e), (number_part_joined 3 sq f), (number_part_joined 4 sq t), (number_part_joined 0 _ f Hst'), (number_part_joined 1 _ t Hst') by done.
  assert (Hss' : Forall no_comma (ss ++ [Some (if bool_decide (planDigest = "all") then "" else planDigest)])) by (apply Forall_app; split; [done|]; repeat constructor; by case_bool_decide).
  rewrite !part_joined by done. by split_and!.
Qed.

Example clicked_row : Model := mkModel (fun k => if bool_decide (k = "summary_begin_time") then Some (num_of_Z 60) else if bool_decide (k = "summary_end_time") then Some (num_of_Z 120) else None)
  (fun k => if bool_decide (k = "digest") then Some "d" else None).
Lemma ids_carry_over_witness : initialTimeRange StatementApp "60,120,d," = V2.Absolute (num_of_Z 60, num_of_Z 120) /\ part 4 (slowQueryId "60,120,d," "p") = Some "p".
Proof.
  destruct (ids_carry_over clicked_row 60 120 7 9 None "p" false false false false (mkStore "" None) eq_refl eq_refl ltac:(by repeat constructor)) as (H1 & _ & _ & _ & _ & _ & H2).
  split; [exact H1|exact H2].
Defined.
End Click.

(** ** The time range of the rows *)

Module Fix.
(** The time window of a row: its begin and its end in seconds. *)
Definition maxTime (rows : list (Z * Z)) : Z := fold_left (fun m d => if m <? snd d then snd d else m) rows 0.
Definition minTime (rows : list (Z * Z)) : Z := fold_left (fun m d => if fst d <? m then fst d else m) rows (maxTime rows).
Definition alert (data : option (list (Z * Z))) : option (Z * Z) :=
  let rows := default [] data in if minTime rows =? maxTime rows then None else Some (minTime rows, maxTime rows).

Lemma fold_pick {A} (test : Z -> A -> bool) (g : A -> Z) l m : fold_left (fun m d => if test m d then g d else m) l m ∈ m :: map g l.
Proof.
  revert m. induction l as [|d l IH]; intros m; [by left|]. cbn [fold_left map]. specialize (IH (if test m d then g d else m)).
  rewrite elem_of_cons in IH. destruct (test m d); rewrite !elem_of_cons; naive_solver.
Qed.

Lemma max_bound l m : m <= fold_left (fun m (d : Z * Z) => if m <? snd d then snd d else m) l m /\
  forall d, d ∈ l -> snd d <= fold_left (fun m (d : Z * Z) => if m <? snd d then snd d else m) l m.
Proof.
  revert m. induction l as [|x l IH]; intros m; [split; [done|intros d Hd; by apply elem_of_nil in Hd]|]. cbn [fold_left].
  destruct (IH (if m <? snd x then snd x else m)) as [H1 H2]. revert H1 H2. destruct (Z.ltb_spec m (snd x)); intros H1 H2; (split; [lia|]); intros d [->|Hd]%elem_of_cons; auto; lia.
Qed.

Lemma min_bound l m : fold_left (fun m (d : Z * Z) => if fst d <? m then fst d else m) l m <= m /\
  forall d, d ∈ l -> fold_left (fun m (d : Z * Z) => if fst d <? m then fst d else m) l m <= fst d.
Proof.
  revert m. induction l as [|x l IH]; intros m; [split; [done|intros d Hd; by apply elem_of_nil in Hd]|]. cbn [fold_left].
  destruct (IH (if fst x <? m then fst x else m)) as [H1 H2]. revert H1 H2. destruct (Z.ltb_spec (fst x) m); intros H1 H2; (split; [lia|]); intros d [->|Hd]%elem_of_cons; auto; lia.
Qed.

(** The alert names the earliest begin and the latest end of the windows. *)
Lemma alert_covers rows b e : Forall (fun d => 0 <= fst d <= snd d) rows -> alert (Some rows) = Some (b, e) ->
  (forall d, d ∈ rows -> b <= fst d /\ snd d <= e) /\ b ∈ map fst rows /\ e ∈ map snd rows.
Proof.
  rewrite Forall_forall. intros Hr. unfold alert. cbv zeta. change (default [] (Some rows)) with rows. destruct (Z.eqb_spec (minTime rows) (maxTime rows)) as [He0|Hne]; [intros [=]|]. intros [= <- <-].
  destruct (max_bound rows 0) as [_ Hmax], (min_bound rows (maxTime rows)) as [_ Hmin]. fold (maxTime rows) in Hmax. fold (minTime rows) in Hmin.
  pose proof (fold_pick (fun m (d : Z * Z) => fst d <? m) fst rows (maxTime rows)) as Hb. change (minTime rows ∈ maxTime rows :: map fst rows) in Hb. apply elem_of_cons in Hb as [Hb|Hb]; [done|].
  pose proof (fold_pick (fun m (d : Z * Z) => m <? snd d) snd rows 0) as He. change (maxTime rows ∈ 0 :: map snd rows) in He. split_and!; [by auto|done|].
  apply elem_of_cons in He as [He|He]; [|done]. exfalso. apply list_elem_of_fmap in Hb as (d & Hb & Hd). specialize (Hr d Hd). specialize (Hmax d Hd). lia.
Qed.

(** Without rows, or while they are asked for, there is none. *)
Lemma no_rows_no_alert : alert None = None /\ alert (Some []) = None.
Proof. done. Qed.
End Fix.

(** ** The filters that are shown *)

Module Filters.
Definition more_than (n : nat) (data : option (list string)) : bool := match data with Some l => Nat.ltb n (length l) | None => false end.
Definition DBsSelect := more_than 0.
Definition StmtKindsSelect := more_than 0.
(** There is always the group that is named default. *)
Definition RuGroupsSelect := more_than 1.
Definition SqlDigestInput (sqlDigest : string) : option string := if truthy sqlDigest then Some sqlDigest else None.

Definition SLOW_QUERY_LIMIT : list string := map show [100; 200; 500; 1000].
Definition LimitSelect {Q} `{UrlStore Q} (v : string) (q : Q) : Q := setQueryParams (SlowQuery.setLimit v) q.

(** The limit that is chosen is the one that is asked for. *)
Lemma limit_chosen {Q} `{UrlStore Q} (v : string) (q : Q) : v ∈ SLOW_QUERY_LIMIT -> show (SlowQuery.limit (queryParams (LimitSelect v q))) = v.
Proof.
  intros Hv. unfold LimitSelect, SlowQuery.limit. rewrite get_set by store_nodup. cbn -[show parseInt].
  repeat (apply elem_of_cons in Hv as [->|Hv]; [reflexivity|]). by apply elem_of_nil in Hv.
Qed.
End Filters.
