(* ===== verification/StatementDetailV2.v ===== *)
(** * The detail page of a statement of ui-v2 (4-apps/src/statement/pages, _shared/sql-limit, _shared/sql-history)

    Module [Plans] is the table of the execution plans and the plan that is selected
    (plans-list/table.tsx, plan-check-cell.tsx), [Bind] the cell that binds a plan
    (bind-sql-cell.tsx), [PlanDetail] the part below the table (plan-detail/index.tsx), [Limit] the
    form and the table of the limits of a statement (sql-limit), [History] the card of its history
    (sql-history) and [Setting] the drawer of the settings (setting/index.tsx).  Requests and
    mutations are those of [QueryData]. *)

From Stdlib Require Import Ascii QArith Sorted.
From S2P Require Import Prelude JsString JsNumber TimeRange JsArray DetailTabs QueryData.
Local Open Scope Z_scope.

(** ** The table of the plans *)

Module Plans.
(** [sorted.sort]: the comparator never says that two rows are alike. *)
Definition val (id : string) (row : Model) : num := default (num_of_Z 0) (nums row id).
Definition compare (id : string) (desc : bool) (a b : Model) : Z :=
  if desc then if num_lt (val id b) (val id a) then -1 else 1
  else if num_lt (val id b) (val id a) then 1 else -1.

Definition sortedData (data : list Model) (sorting : list (string * bool)) : list Model :=
  match sorting with [] => data | (id, desc) :: _ => js_sort (compare id desc) data end.

(** The row of all plans is the last one, when there are several. *)
Definition all_row (detailData : Model) : Model := mkModel (nums detailData) (fun k => if bool_decide (k = "plan_digest") then Some "all" else strs detailData k).
Definition finalData (sorted : list Model) (detailData : Model) : list Model :=
  if Nat.ltb 1 (length sorted) then sorted ++ [all_row detailData] else sorted.

(** The URL has the plan, the table its sorting and the rows. *)
Record State := mkState { plan : string; sorting : list (string * bool); data : list Model }.
Definition digest_of (row : Model) : string := default "" (strs row "plan_digest").

(** The first plan is selected when there is none. *)
Definition select_effect (s : State) : State :=
  if truthy (plan s) then s else
  match sortedData (data s) (sorting s) with [] => s | row :: _ => mkState (digest_of row) (sorting s) (data s) end.

Definition open (p : string) : State := mkState p [("exec_count", true)] [].

Inductive Event := Answer (rows : list Model) | Sort (l : list (string * bool)) | Check (planDigest : string) (checked : bool).
Definition step (s : State) (e : Event) : State :=
  select_effect match e with
  | Answer rows => mkState (plan s) (sorting s) rows
  | Sort l => mkState (plan s) l (data s)
  | Check p checked => if checked then mkState p (sorting s) (data s) else s
  end.

(** [PlanCheckCell] and the columns that are hidden. *)
Definition is_checked (s : State) (row : Model) : bool := bool_decide (Some (plan s) = strs row "plan_digest").
Definition columnVisibility (s : State) (support status : bool) : list (string * bool) :=
  [("check", Nat.ltb 1 (length (data s))); ("action", support && status)].

(** *** The order *)

(** Insertion keeps a list in the order that the comparator decides between two rows. *)
Section Rel.
Context {A : Type} (cmp : A -> A -> Z) (P : A -> Prop) (R : A -> A -> Prop).
Hypothesis cmp_neg : forall x y, P x -> P y -> cmp x y < 0 -> R x y.
Hypothesis cmp_pos : forall x y, P x -> P y -> 0 <= cmp x y -> R y x.
Hypothesis R_trans : forall x y z, R x y -> R y z -> R x z.

Lemma insert_in_order x l : P x -> Forall P l -> StronglySorted R l -> StronglySorted R (js_insert cmp x l).
Proof.
  intros Hx Hl Hs. revert Hl. induction Hs as [|y l Hs IH Hy]; intros Hl; cbn; [by repeat constructor|]. apply Forall_cons in Hl as [Hpy Hl].
  destruct (Z.ltb_spec (cmp x y) 0).
  - constructor; [by constructor|]. constructor; [auto|]. eapply Forall_impl; [exact Hy|]. intros z. by apply R_trans, cmp_neg.
  - constructor; [by apply IH|]. rewrite js_insert_perm. constructor; [auto|done].
Qed.

Lemma sort_in_order l : Forall P l -> StronglySorted R (js_sort cmp l).
Proof.
  intros Hl. unfold js_sort. enough (forall acc, Forall P acc -> StronglySorted R acc -> StronglySorted R (fold_left (fun acc x => js_insert cmp x acc) l acc)) as H by (apply H; constructor).
  induction Hl as [|x l Hx Hl IH]; intros acc Hp Ha; cbn; [done|]. apply IH; [rewrite js_insert_perm; by constructor|by apply insert_in_order].
Qed.
End Rel.

Definition finite_val (id : string) (row : Model) : Prop := exists q, val id row = Fin q.
Definition in_order (id : string) (desc : bool) (a b : Model) : Prop :=
  exists x y, val id a = Fin x /\ val id b = Fin y /\ (if desc then y <= x else x <= y)%Q.

Lemma sorted_in_order id desc data : Forall (finite_val id) data -> StronglySorted (in_order id desc) (js_sort (compare id desc) data).
Proof.
  intros Hd. apply (sort_in_order _ (finite_val id)); [| | |done].
  - intros a b [x Ha] [y Hb]. unfold compare, in_order. rewrite Ha, Hb. rewrite (fin_lt (Fin y) (Fin x) y x) by done. intros Hc. exists x, y. split_and!; [done|done|].
    destruct desc, (Qltb y x) eqn:E; try lia; [apply Qltb_true in E; by apply Qlt_le_weak|by apply Qltb_false in E].
  - intros a b [x Ha] [y Hb]. unfold compare, in_order. rewrite Ha, Hb. rewrite (fin_lt (Fin y) (Fin x) y x) by done. intros Hc. exists y, x. split_and!; [done|done|].
    destruct desc, (Qltb y x) eqn:E; try lia; [by apply Qltb_false in E|apply Qltb_true in E; by apply Qlt_le_weak].
  - intros a b c (x & y & Ha & Hb & Hxy) (y' & z & Hb' & Hc & Hyz). rewrite Hb in Hb'. injection Hb' as <-. exists x, z. split_and!; [done|done|].
    destruct desc; by eapply Qle_trans.
Qed.

(** C26: The rows of the table are those of the answer, in the order of the column that is chosen, with
    one row for all plans that comes last however they are sorted, and only when there are several;
    a page that opens without a plan selects one that was executed most often, and the plan that is
    selected is changed by nothing but a check. *)
Theorem plans_in_order detailData id desc rest s rows :
  Forall (finite_val id) rows -> Forall (finite_val "exec_count") rows ->
  let sorted := sortedData rows ((id, desc) :: rest) in
  (exists footer, finalData sorted detailData = sorted ++ footer /\ sorted ≡ₚ rows /\ StronglySorted (in_order id desc) sorted /\
    (if Nat.ltb 1 (length rows) then footer = [all_row detailData] else footer = [])) /\
  (forall row, row ∈ rows -> exists first, first ∈ rows /\ plan (step (open "") (Answer rows)) = digest_of first /\ in_order "exec_count" true first row) /\
  (forall l, truthy (plan s) = true -> plan (step s (Sort l)) = plan s /\ plan (step s (Answer rows)) = plan s) /\
  (forall p, truthy p = true -> plan (step s (Check p true)) = p).
Proof.
  intros Hid Hex. cbv zeta. pose proof (js_sort_perm (compare id desc) rows) as Hp. split_and!.
  - unfold sortedData, finalData. exists (if Nat.ltb 1 (length rows) then [all_row detailData] else []).
    rewrite (Permutation_length Hp). destruct (Nat.ltb 1 (length rows)); rewrite ?app_nil_r; (split_and!; [done|done|by apply sorted_in_order|done]).
  - intros row Hr. unfold step, open, select_effect, sortedData. cbn [plan data sorting truthy truthy_string].
    pose proof (sorted_in_order "exec_count" true rows Hex) as Hs. pose proof (js_sort_perm (compare "exec_count" true) rows) as Hq.
    destruct (js_sort (compare "exec_count" true) rows) as [|first l] eqn:E; [rewrite <- Hq in Hr; by apply elem_of_nil in Hr|].
    exists first. split_and!; [rewrite <- Hq; by left|done|]. apply StronglySorted_inv in Hs as [_ Hs]. rewrite Forall_forall in Hs.
    rewrite <- Hq in Hr. apply elem_of_cons in Hr as [->|Hr]; [|by apply Hs]. rewrite Forall_forall in Hex. assert (Hf : first ∈ rows) by (rewrite <- Hq; by left).
    destruct (Hex first Hf) as [x Hx]. exists x, x. split_and!; [done|done|apply Qle_refl].
  - intros l Ht. unfold step, select_effect. cbn [plan]. by rewrite Ht.
  - intros p Ht. unfold step, select_effect. cbn [plan]. by rewrite Ht.
Qed.

Example plan_row (d : string) (n : Z) : Model := mkModel (fun k => if bool_decide (k = "exec_count") then Some (num_of_Z n) else None) (fun k => if bool_decide (k = "plan_digest") then Some d else None).
Lemma plans_in_order_witness : plan (step (open "") (Answer [plan_row "a" 1; plan_row "b" 2])) = "b" /\ StronglySorted (in_order "exec_count" false) (sortedData [plan_row "b" 2; plan_row "a" 1] [("exec_count", false)]).
Proof.
  assert (Hf : forall d n, finite_val "exec_count" (plan_row d n)) by (intros d n; by exists (inject_Z n)).
  destruct (plans_in_order (plan_row "" 3) "exec_count" false [] (open "") [plan_row "b" 2; plan_row "a" 1] ltac:(by repeat constructor) ltac:(by repeat constructor)) as [(f & _ & _ & Hs & _) _].
  split; [reflexivity|exact Hs].
Defined.
End Plans.

(** ** Binding a plan *)

Module Bind.
Inductive Cell := NoCell | Disabled (why : string) | BindButton | UnbindButton.

Definition cell (isSupport canBind : bool) (bindPlanDigests : list string) (curPlanDigest : string) : Cell :=
  if negb (truthy curPlanDigest) || bool_decide (curPlanDigest = "all") then NoCell
  else if negb isSupport then Disabled "Bind plan feature is only available in and above {{distro.tidb}} 6.6.0"
  else if negb canBind then Disabled "This plan can not be bound"
  else if Nat.ltb 0 (length bindPlanDigests) then
    if bool_decide (curPlanDigest ∈ bindPlanDigests) then UnbindButton else NoCell
  else BindButton.

(** What is sent when the question of the button is confirmed. *)
Definition confirmed (c : Cell) (sqlDigest curPlanDigest : string) : option Mutation :=
  match c with BindButton => Some (CreatePlanBind sqlDigest curPlanDigest) | UnbindButton => Some (DeletePlanBind sqlDigest) | _ => None end.

(** The note on how it ended. *)
Definition short (d : string) : string := str_take 8 d +:+ "...".
Inductive Note := Success (text : string) | Failure (text : string).
Definition bindPlan (curPlanDigest : string) (failed : option string) : Note :=
  match failed with
  | None => Success ("Bind plan " +:+ short curPlanDigest +:+ " successfully!")
  | Some reason => Failure ("Bind plan " +:+ short curPlanDigest +:+ " failed, reason: " +:+ reason)
  end.
Definition unbindPlan (failed : option string) : Note :=
  match failed with None => Success "Unbind plans successfully!" | Some reason => Failure ("Unbind plans failed, reason: " +:+ reason) end.

(** A plan is bound only where this is supported and no other is, and what is bound can be unbound;
    either makes the page ask for the bound plans of the statement anew. *)
Lemma bind_spec isSupport canBind bound cur d c c' b e : ctxId c = ctxId c' -> cur <> "" -> cur <> "all" -> isSupport = true -> canBind = true ->
  (cell isSupport canBind bound cur = BindButton <-> bound = []) /\ (cell isSupport canBind bound cur = UnbindButton <-> cur ∈ bound) /\
  forall m, confirmed (cell isSupport canBind bound cur) d cur = Some m -> changes c m c' (PlanBindStatus d b e).
Proof.
  intros Hc Hn Ha -> ->. unfold cell. rewrite (proj2 (truthy_string_spec cur) Hn), (bool_decide_eq_false_2 (cur = "all")) by done. cbn [negb orb].
  destruct bound as [|x l]; cbn [length Nat.ltb Nat.leb].
  - split_and!; [done|split; [done|by intros ?%elem_of_nil]|]. intros m [= <-]. split; [done|by exists b, e].
  - case_bool_decide as Hin; (split_and!; [done|done|]); intros m Hm; [|discriminate Hm]. injection Hm as <-. split; [done|by exists b, e].
Qed.
End Bind.

(** ** The detail of the selected plan *)

Module PlanDetail.
Definition realPlan (plan : string) : string := if truthy plan && negb (bool_decide (plan = "all")) then plan else "".
Definition title (plan : string) : string :=
  if bool_decide (plan = "all") then "Execution Detail of All Plans" else if truthy plan then "Execution Detail of " +:+ plan else "Execution Detail".
(** The query of this part, and that of the page. *)
Definition query (id plan : string) : Query := QueryData.PlanDetail id (realPlan plan).
Definition page_query (id : string) : Query := QueryData.PlanDetail id "".
Definition shows_sample (data : Model) : bool := truthy (strs data "query_sample_text").
Definition shows_plan (plan : string) (data : Model) : bool := truthy (strs data "plan") && negb (bool_decide (plan = "all")).

(** The sum of all plans is what the page has asked for already: both read one entry of the cache. *)
Lemma all_plans_shared c id : key c (query id "all") = key c (page_query id) /\ key c (query id "") = key c (page_query id).
Proof. done. Qed.
End PlanDetail.

(** ** The limits of a statement *)

Module Limit.
Record Form := mkForm { visible : bool; resourceGroup : string; action : string }.
Definition open (f : Form) : Form := mkForm true (resourceGroup f) (action f).
Definition close (f : Form) : Form := mkForm false (resourceGroup f) (action f).
Definition setResourceGroup (v : option string) (f : Form) : Form := mkForm (visible f) (js_or v "") (action f).
Definition setAction (v : option string) (f : Form) : Form := mkForm (visible f) (resourceGroup f) (js_or v "").
Definition ACTIONS : list string := ["DRYRUN"; "COOLDOWN"; "KILL"].

(** [handleSubmit], up to the answer, and with it. *)
Definition handleSubmit (f : Form) : option Mutation := if negb (truthy (resourceGroup f)) || negb (truthy (action f)) then None else Some (CreateSqlLimit (resourceGroup f) (action f)).
Definition submitted (ok : bool) (f : Form) : Form := if ok then close f else f.

(** The body of the dialog. *)
Inductive Body := Loading | Nothing | NoGroups | Fields (disabled : bool).
Definition body (isLoading : bool) (ruGroups : option (list string)) (f : Form) : Body :=
  if isLoading then Loading else
  match ruGroups with None => Nothing | Some [] => NoGroups | Some _ => Fields (negb (truthy (resourceGroup f)) || negb (truthy (action f))) end.

(** The table: its rows and what a confirmed deletion sends. *)
Record Item := mkItem { id : string; ru_group : string; item_action : string; start_time : string }.
Definition handleDelete (i : Item) : Mutation := DeleteSqlLimit (id i).
(** The card shows the button and the table where the feature is supported. *)
Inductive Card := CardLoading | Unsupported | Supported.
Definition card (support : option bool) : Card := match support with None => CardLoading | Some b => if b then Supported else Unsupported end.

(** The form is sent when its button is not disabled, and every change of the limits makes the table
    ask anew. *)
Lemma limit_spec c f isLoading groups m i : (handleSubmit f = Some m -> m = CreateSqlLimit (resourceGroup f) (action f) /\ resourceGroup f <> "" /\ action f <> "" /\ changes c m c LimitStatus) /\
  (body isLoading groups f = Fields true -> handleSubmit f = None) /\ changes c (handleDelete i) c LimitStatus.
Proof.
  unfold handleSubmit, body. split; [|split; [|by repeat split]].
  - destruct (truthy (resourceGroup f)) eqn:E1, (truthy (action f)) eqn:E2; cbn; intros [= <-]. apply truthy_string_spec in E1, E2. by repeat split.
  - destruct isLoading; [done|]. destruct groups as [[|g l]|]; [done| |done]. intros [= E]. by rewrite E.
Qed.
End Limit.

(** ** The history of a statement *)

Module History.
Record State := mkState { timeRange : option V2.TimeRange; metric : option HistoryMetricItem }.
Definition init : State := mkState None None.
Definition reset (s : State) : State := init.

(** The effect of the names of the metrics, and that of the range. *)
Definition names_effect (metrics : option (list HistoryMetricItem)) (s : State) : State :=
  match metrics, metric s with Some l, None => mkState (timeRange s) (head l) | _, _ => s end.
Definition range_effect (initialTimeRange : V2.TimeRange) (s : State) : State :=
  match timeRange s with None => mkState (Some initialTimeRange) (metric s) | Some _ => s end.

Definition handleMetricChange (metrics : option (list HistoryMetricItem)) (v : option string) (s : State) : State :=
  mkState (timeRange s) (find (fun m => bool_decide (Some (item_name m) = v)) (default [] metrics)).
Definition setTimeRange (r : V2.TimeRange) (s : State) : State := mkState (Some r) (metric s).
Definition brush (v : TimeRangeValue) (s : State) : State := setTimeRange (V2.Absolute v) s.

(** The card: the names that have arrived, and the shared state. *)
Definition Card : Type := option (list HistoryMetricItem) * State.
Inductive Event := Names (l : list HistoryMetricItem) | Metric (v : option string) | Range (r : V2.TimeRange) | Brush (v : TimeRangeValue).
Definition mount (r : V2.TimeRange) (metrics : option (list HistoryMetricItem)) (s : State) : Card := (metrics, range_effect r (names_effect metrics s)).
Definition step (c : Card) (e : Event) : Card :=
  match e with
  | Names l => (Some l, names_effect (Some l) (snd c))
  | Metric v => (fst c, handleMetricChange (fst c) v (snd c))
  | Range r => (fst c, setTimeRange r (snd c))
  | Brush v => (fst c, brush v (snd c))
  end.
Definition unmount (c : Card) : State := reset (snd c).

(** What the chart asks for, and its range. *)
Definition query (s : State) : Query := HistoryData (metric s) (timeRange s).
Definition chart_range (now : Z) (s : State) : TimeRangeValue := match timeRange s with Some r => V2.toTimeRangeValue now r 0 | None => (num_of_Z 0, num_of_Z 0) end.
Definition seriesData {D} (metricData : option (list D)) (s : State) : list (string * list D) :=
  match metricData with None => [] | Some d => [(from_option item_name "" (metric s), d)] end.

(** The card asks for the first metric over the range of the page as soon as the names are there, and
    from then on for the metric and the range that were chosen last; it leaves nothing behind. *)
Lemma history_asks r m l : enabled (query (snd (mount r None init))) = false /\
  query (snd (step (mount r None init) (Names (m :: l)))) = HistoryData (Some m) (Some r) /\
  query (snd (mount r (Some (m :: l)) init)) = HistoryData (Some m) (Some r) /\
  forall c, unmount c = init.
Proof. done. Qed.

Lemma range_stays c e : is_Some (timeRange (snd c)) -> is_Some (timeRange (snd (step c e))).
Proof. destruct c as [ms s]. intros H. destruct e; cbn; [unfold names_effect; by destruct (metric s)|done|by eexists|by eexists]. Qed.

Lemma metric_chosen c l m e : fst c = Some l -> NoDup (map item_name l) -> m ∈ l -> metric (snd (step c (Metric (Some (item_name m))))) = Some m /\
  (match e with Range _ | Brush _ | Names _ => metric (snd c) = Some m -> metric (snd (step c e)) = Some m | Metric _ => True end).
Proof.
  destruct c as [ms s]. cbn [fst]. intros -> Hn Hm. split; [|destruct e; try done; cbn; unfold names_effect; intros E; rewrite ?E; done].
  cbn. clear s. induction l as [|x l IH]; [by apply elem_of_nil in Hm|]. cbn in Hn. apply NoDup_cons in Hn as [Hx Hn]. cbn [find].
  apply elem_of_cons in Hm as [->|Hm]; [by rewrite bool_decide_eq_true_2|]. rewrite bool_decide_eq_false_2; [by apply IH|].
  intros [= E]. apply Hx. rewrite E. by apply (list_elem_of_fmap_2 item_name).
Qed.

(** A metric that is cleared stays cleared: nothing is asked for until another one is chosen. *)
Lemma cleared_metric c : enabled (query (snd (step c (Metric None)))) = false.
Proof.
  destruct c as [ms s]. cbn. replace (find _ _) with (@None HistoryMetricItem); [by destruct (timeRange s)|].
  induction (default [] ms) as [|x l IH]; [done|]. cbn [find]. by rewrite bool_decide_eq_false_2.
Qed.
End History.

(** ** The settings *)

Module Setting.
(** [StatementConfigModel] *)
Record Config := mkConfig { enable : bool; max_size : num; refresh_interval : num; history_size : num; internal_query : bool }.

Definition MAX_SIZE_OPTIONS : list string := map (fun i => show ((Z.of_nat i + 2) * 100)) (seq 0 49).
Definition WINDOW_SIZE_OPTIONS : list (string * string) := map (fun i => (show (i * 60), show i)) [1; 5; 15; 30; 60].
Definition WINDOWS_NUMBER_OPTIONS : list string := map (fun i => show (Z.of_nat i + 1)) (seq 0 255).

(** A select gives its value, or nothing when it was cleared; [Number(null)] is 0. *)
Definition chosen (v : option string) : num := match v with Some v => js_Number v | None => num_of_Z 0 end.

Inductive Change := Enable (b : bool) | MaxSize (v : option string) | WindowSize (v : option string) | WindowsNumber (v : option string) | InternalQuery (b : bool).
Definition change (c : Config) (e : Change) : Config :=
  match e with
  | Enable b => mkConfig b (max_size c) (refresh_interval c) (history_size c) (internal_query c)
  | MaxSize v => mkConfig (enable c) (chosen v) (refresh_interval c) (history_size c) (internal_query c)
  | WindowSize v => mkConfig (enable c) (max_size c) (chosen v) (history_size c) (internal_query c)
  | WindowsNumber v => mkConfig (enable c) (max_size c) (refresh_interval c) (chosen v) (internal_query c)
  | InternalQuery b => mkConfig (enable c) (max_size c) (refresh_interval c) (history_size c) b
  end.

(** The body opens with the settings of the server; the other fields are shown when it is enabled. *)
Definition total (formatDuration : num -> string) (c : Config) : string := formatDuration (num_mul (refresh_interval c) (history_size c)).
Definition fields_shown (c : Config) : bool := enable c.

Definition params (c : Config) : list (string * Value) :=
  [("enable", VBool (enable c)); ("max_size", VNum (max_size c)); ("refresh_interval", VNum (refresh_interval c)); ("history_size", VNum (history_size c)); ("internal_query", VBool (internal_query c))].
Definition handleUpdate (c : Config) : Mutation := UpdateStmtConfig (params c).

(** Saving asks first when it disables the feature. *)
Inductive Saved := Confirm (then_sent : Mutation) | Sent (m : Mutation).
Definition handleSave (config c : Config) : Saved := if negb (enable c) && enable config then Confirm (handleUpdate c) else Sent (handleUpdate c).

(** The drawer closes when the server has taken it. *)
Definition updated (ok : bool) (visible : bool) : bool := if ok then false else visible.

(** What is saved is what is shown: the value of an option is the number that it is labelled with,
    in seconds for the length of a window. *)
Lemma options_saved : (forall v, v ∈ MAX_SIZE_OPTIONS ++ WINDOWS_NUMBER_OPTIONS -> exists z, 1 <= z <= 5000 /\ v = show z /\ chosen (Some v) = num_of_Z z) /\
  (forall v l, (v, l) ∈ WINDOW_SIZE_OPTIONS -> exists z, l = show z /\ chosen (Some v) = num_of_Z (z * 60)).
Proof.
  split.
  - intros v [Hv|Hv]%elem_of_app; apply list_elem_of_fmap in Hv as (i & -> & Hi%elem_of_seq); eexists; (split_and!; [| |done|apply js_Number_show]); lia.
  - intros v l Hv. apply list_elem_of_fmap in Hv as (z & [= -> ->] & _). exists z. split; [done|apply js_Number_show].
Qed.

(** The feature is disabled only after a question, and every update makes the page ask for the
    settings anew. *)
Lemma save_spec config c ctx : (enable config = true -> enable c = false -> handleSave config c = Confirm (handleUpdate c)) /\
  (handleSave config c = Sent (handleUpdate c) <-> ~ (enable config = true /\ enable c = false)) /\ changes ctx (handleUpdate c) ctx StmtConfig.
Proof. unfold handleSave. destruct (enable config), (enable c); cbn; split_and!; try done; naive_solver. Qed.

(** A select that was cleared saves 0. *)
Lemma cleared_saves_zero c : max_size (change c (MaxSize None)) = num_of_Z 0.
Proof. done. Qed.
End Setting.
