(* ===== verification/Deadlock.v ===== *)
(** * The deadlock pages (apps/Deadlock)

    Module [Rows] is what both pages keep of the rows: the cache of [Cache], shared by the pages, maps a
    deadlock to an array, which the pages change in place; the arrays are in a heap.  Module [List] is
    the list page (pages/List.tsx), [Detail] the page of one deadlock (pages/Detail.tsx) and [Graph]
    the chain that it draws (components/DeadlockChainGraph.tsx), without the geometry of the circle. *)

From Stdlib Require Import Ascii.
From S2P Require Import Prelude JsString JsNumber Cache UrlStateV1.
Local Open Scope Z_scope.

(** ** The rows of a deadlock in the cache *)

Module Rows.
(** [DeadlockModel], the fields the pages use *)
Record Item := mkItem {
  id : option Z; instance : option string; occur_time : option string; current_sql : option string;
  lock_key : option string; try_lock_trx_id : option Z; trx_holding_lock : option Z }.

(** A template prints what is undefined by its name. *)
Definition printed (o : option string) : string := default "undefined" o.
Definition cache_key (instance id : string) : string := "deadlock-" +:+ instance +:+ "-" +:+ id.
Definition key_of (it : Item) : string := cache_key (printed (instance it)) (printed (show <$> id it)).

(** The cache holds places of arrays. *)
Record Store := mkStore { cache : CacheMgr.CacheMgr nat; arrays : list (list Item) }.

Definition new : Store := mkStore (CacheMgr.new (Some 32) None) [].
Definition clear (s : Store) : Store := mkStore (CacheMgr.clear (cache s)) (arrays s).

(** [cache.get(key) || []], [push], [cache.set]: a row goes to the array of its deadlock. *)
Definition push (now : Z) (s : Store) (it : Item) : Store :=
  match CacheMgr.get now (key_of it) (cache s) with
  | (Some l, c) => mkStore (CacheMgr.set now (key_of it) l None c) (alter (fun a => a ++ [it]) l (arrays s))
  | (None, c) => mkStore (CacheMgr.set now (key_of it) (length (arrays s)) None c) (arrays s ++ [[it]])
  end.
Definition fill (now : Z) (data : list Item) (s : Store) : Store := fold_left (push now) data s.

(** What is cached for a key. *)
Definition cached (now : Z) (k : string) (s : Store) : option (list Item) :=
  match fst (CacheMgr.get now k (cache s)) with Some l => arrays s !! l | None => None end.

Definition rows_of (k : string) (data : list Item) : list Item := filter (fun it => key_of it = k) data.

(** *** The cache after it was filled *)

Lemma set_fits {V} now k (v : V) e (c : CacheMgr.CacheMgr V) :
  CacheMgr.over_capacity (CacheMgr.write now k v e c) = false -> CacheMgr.set now k v e c = CacheMgr.write now k v e c.
Proof. intros Ho. unfold CacheMgr.set. destruct (length _); [done|]. cbn [CacheMgr.evict]. by rewrite Ho. Qed.

(** The cache holds the rows that were pushed, each deadlock in an array of its own. *)
Record filled (now : Z) (pushed : list Item) (s : Store) : Prop := mkFilled {
  f_wf : CacheMgr.keys_ok (cache s);
  f_cap : CacheMgr.capacity (cache s) = 32 /\ 0 <= CacheMgr.globalExpire (cache s);
  f_in k : is_Some (CacheMgr.cache (cache s) !! k) <-> k ∈ map key_of pushed;
  f_rows k item : CacheMgr.cache (cache s) !! k = Some item -> CacheMgr.expireAt item = now + CacheMgr.globalExpire (cache s) /\ arrays s !! CacheMgr.data item = Some (rows_of k pushed);
  f_own k k' i i' : CacheMgr.cache (cache s) !! k = Some i -> CacheMgr.cache (cache s) !! k' = Some i' -> CacheMgr.data i = CacheMgr.data i' -> k = k' }.

Lemma rows_snoc k data it : rows_of k (data ++ [it]) = if decide (key_of it = k) then rows_of k data ++ [it] else rows_of k data.
Proof. unfold rows_of. rewrite filter_app, filter_cons. destruct (decide (key_of it = k)); [done|]. by rewrite filter_nil, app_nil_r. Qed.

(** The number of keys stays below the capacity. *)
Lemma write_fits now k v pushed s (all : list Item) : filled now pushed s -> (forall k', k' ∈ k :: map key_of pushed -> k' ∈ map key_of all) ->
  (length (remove_dups (map key_of all)) <= 32)%nat -> CacheMgr.over_capacity (CacheMgr.write now k v None (cache s)) = false.
Proof.
  intros Hf Hall Hlen. unfold CacheMgr.over_capacity. cbn [CacheMgr.write CacheMgr.capacity CacheMgr.cacheItemKeys]. destruct (f_cap _ _ _ Hf) as [-> _].
  pose proof (CacheMgr.write_keys_ok now k v None (cache s) (f_wf _ _ _ Hf)) as [Hnd Hk]. cbn [CacheMgr.write CacheMgr.cacheItemKeys CacheMgr.cache] in Hnd, Hk.
  set (ks := filter _ _ ++ [k]) in *. assert (Hle : (length ks <= length (remove_dups (map key_of all)))%nat).
  { apply submseteq_length, NoDup_submseteq; [exact Hnd|]. intros x Hx. apply elem_of_remove_dups, Hall. apply Hk in Hx.
    destruct (decide (x = k)) as [->|Hne]; [by left|]. right. rewrite lookup_insert_ne in Hx by done. by apply (f_in _ _ _ Hf). }
  cbn. apply Z.ltb_ge. lia.
Qed.

Lemma keys_none {A} (P : A -> Prop) `{!forall x, Decision (P x)} l : (forall x, x ∈ l -> ~ P x) -> filter P l = [].
Proof. intros Hl. induction l as [|x l IH]; [done|]. rewrite filter_cons, decide_False by (apply Hl; by left). apply IH. intros y Hy. apply Hl. by right. Qed.

Lemma rows_of_none k pushed : k ∉ map key_of pushed -> rows_of k pushed = [].
Proof. intros Hk. apply keys_none. intros x Hx <-. apply Hk. by apply (list_elem_of_fmap_2 key_of). Qed.

Lemma key_snoc k it pushed : k ∈ map key_of (pushed ++ [it]) <-> k = key_of it \/ k ∈ map key_of pushed.
Proof. rewrite map_app, elem_of_app. cbn. rewrite list_elem_of_singleton. tauto. Qed.

Section Push.
Context (now : Z) (pushed : list Item) (s : Store) (it : Item).
Hypothesis Hf : filled now pushed s.
Let k := key_of it.

(** A row of a deadlock that is cached goes to its array, one of another to a new one. *)
Lemma push_old item : CacheMgr.cache (cache s) !! k = Some item ->
  push now s it = mkStore (CacheMgr.set now k (CacheMgr.data item) None (cache s)) (alter (fun a => a ++ [it]) (CacheMgr.data item) (arrays s)).
Proof. intros E. unfold push, CacheMgr.get. fold k. rewrite E. destruct (f_rows _ _ _ Hf k item E) as [Hn _], (f_cap _ _ _ Hf) as [_ Hg]. by rewrite Hn, (proj2 (Z.ltb_ge _ _)) by lia. Qed.
Lemma push_new : CacheMgr.cache (cache s) !! k = None -> push now s it = mkStore (CacheMgr.set now k (length (arrays s)) None (cache s)) (arrays s ++ [[it]]).
Proof. intros E. unfold push, CacheMgr.get. fold k. by rewrite E. Qed.

(** The place the row is written to, and the arrays after it. *)
Lemma write_filled v as' : (forall k0 item0, k0 <> k -> CacheMgr.cache (cache s) !! k0 = Some item0 -> CacheMgr.data item0 <> v /\ as' !! CacheMgr.data item0 = arrays s !! CacheMgr.data item0) ->
  as' !! v = Some (rows_of k pushed ++ [it]) -> filled now (pushed ++ [it]) (mkStore (CacheMgr.write now k v None (cache s)) as').
Proof using Hf.
  intros Hold Hnew. split; cbn [cache arrays].
  - apply CacheMgr.write_keys_ok, Hf.
  - apply Hf.
  - intros k0. rewrite key_snoc. cbn [CacheMgr.write CacheMgr.cache]. destruct (decide (k0 = k)) as [->|Hne].
    + rewrite lookup_insert_eq. split; [by left|by eexists].
    + rewrite lookup_insert_ne by done. rewrite (f_in _ _ _ Hf). unfold k in Hne. naive_solver.
  - intros k0 item0. cbn [CacheMgr.write CacheMgr.cache]. rewrite rows_snoc. destruct (decide (k0 = k)) as [->|Hne].
    + rewrite lookup_insert_eq, decide_True by done. intros [= <-]. by split.
    + rewrite lookup_insert_ne, decide_False by done. intros E. destruct (f_rows _ _ _ Hf k0 item0 E) as [Hn Ha]. split; [done|]. by rewrite (proj2 (Hold k0 item0 Hne E)).
  - intros k1 k2 i1 i2. cbn [CacheMgr.write CacheMgr.cache]. destruct (decide (k1 = k)) as [->|H1], (decide (k2 = k)) as [->|H2]; rewrite ?lookup_insert_eq, ?lookup_insert_ne by done; intros E1 E2 Hd.
    + done.
    + injection E1 as <-. cbn in Hd. by destruct (Hold k2 i2 H2 E2).
    + injection E2 as <-. cbn in Hd. by destruct (Hold k1 i1 H1 E1).
    + by apply (f_own _ _ _ Hf k1 k2 i1 i2).
Qed.

Lemma push_filled (all : list Item) : (forall k', k' ∈ map key_of (pushed ++ [it]) -> k' ∈ map key_of all) -> (length (remove_dups (map key_of all)) <= 32)%nat ->
  filled now (pushed ++ [it]) (push now s it).
Proof using Hf.
  intros Hall Hlen. assert (Hfit : forall v, CacheMgr.over_capacity (CacheMgr.write now k v None (cache s)) = false).
  { intros v. apply (write_fits now k v pushed s all); [done| |done]. intros k' Hk'. apply Hall, key_snoc. by apply elem_of_cons in Hk'. }
  destruct (CacheMgr.cache (cache s) !! k) as [item|] eqn:E.
  - rewrite (push_old item) by done. rewrite set_fits by done. destruct (f_rows _ _ _ Hf k item E) as [_ Ha]. apply write_filled.
    + intros k0 item0 Hne E0. assert (CacheMgr.data item0 <> CacheMgr.data item) as Hd by (intros Hd; apply Hne; by apply (f_own _ _ _ Hf k0 k item0 item)).
      split; [done|]. by rewrite list_lookup_alter_ne by done.
    + by rewrite list_lookup_alter_eq, Ha.
  - rewrite push_new by done. rewrite set_fits by done. apply write_filled.
    + intros k0 item0 _ E0. destruct (f_rows _ _ _ Hf k0 item0 E0) as [_ Ha]. pose proof (lookup_lt_Some _ _ _ Ha) as Hl. split; [lia|]. by rewrite lookup_app_l.
    + rewrite lookup_app_r, Nat.sub_diag by done. cbn. f_equal. rewrite rows_of_none; [done|]. rewrite <- (f_in _ _ _ Hf), E. by intros [? [=]].
Qed.
End Push.

Lemma fill_is_filled now data s : filled now [] s -> (length (remove_dups (map key_of data)) <= 32)%nat -> filled now data (fill now data s).
Proof.
  intros Hs Hlen. assert (Hg : forall done todo s, done ++ todo = data -> filled now done s -> filled now data (fill now todo s)); [|by apply (Hg [] data)].
  clear Hs s. intros pre todo. revert pre. induction todo as [|it todo IH]; intros pre s Hd Hf; [by rewrite app_nil_r in Hd; subst|].
  cbn [fill fold_left]. apply (IH (pre ++ [it])); [by rewrite <- app_assoc|]. apply (push_filled now pre s it Hf data); [|done].
  intros k' Hk. rewrite <- Hd, !map_app, !elem_of_app in *. cbn in Hk |- *. rewrite list_elem_of_singleton in Hk. rewrite elem_of_cons. tauto.
Qed.

Lemma clear_filled now s : CacheMgr.capacity (cache s) = 32 -> 0 <= CacheMgr.globalExpire (cache s) -> filled now [] (clear s).
Proof.
  intros Hc Hg. split; cbn; [|done| | |].
  - split; [constructor|]. intros k. cbn. rewrite lookup_empty. split; [by intros ?%elem_of_nil|by intros [? [=]]].
  - intros k. rewrite lookup_empty. split; [by intros [? [=]]|by intros ?%elem_of_nil].
  - intros k item. by rewrite lookup_empty.
  - intros k k' i i'. by rewrite lookup_empty.
Qed.

Lemma set_expire {V} now k (v : V) e c : CacheMgr.globalExpire (CacheMgr.set now k v e c) = CacheMgr.globalExpire c.
Proof. unfold CacheMgr.set. by destruct (CacheMgr.evict_params (length (CacheMgr.cacheItemKeys (CacheMgr.write now k v e c))) (CacheMgr.write now k v e c)) as [_ ->]. Qed.

Lemma fill_expire now data s e : CacheMgr.globalExpire (cache s) = e -> CacheMgr.globalExpire (cache (fill now data s)) = e.
Proof.
  revert s. induction data as [|it data IH]; intros s He; [done|]. cbn [fill fold_left]. apply IH. unfold push, CacheMgr.get.
  destruct (_ !! key_of it) as [item|]; [destruct (_ <? _)|]; cbn [cache]; by rewrite set_expire.
Qed.
End Rows.

(** ** The list page *)

Module List.
Import Rows.
(** A row of the table: the rows of one deadlock, with the time of the first. *)
Record Entry := mkEntry { e_id : option Z; e_instance : option string; e_occur_time : option string; e_items : list Item }.
Definition summary_key (it : Item) : string := printed (instance it) +:+ "-" +:+ printed (show <$> id it).

(** [summary]: a Map keeps its keys in the order they were set first. *)
Fixpoint add (it : Item) (m : list (string * Entry)) : list (string * Entry) :=
  match m with
  | [] => [(summary_key it, mkEntry (id it) (instance it) (occur_time it) [it])]
  | (k, e) :: m => if bool_decide (k = summary_key it) then (k, mkEntry (e_id e) (e_instance e) (e_occur_time e) (e_items e ++ [it])) :: m else (k, e) :: add it m
  end.
Definition summary_map (items : list Item) : list (string * Entry) := fold_left (fun m it => add it m) items [].
Definition summary (items : list Item) : list Entry := map snd (summary_map items).

(** The columns of the table, which show nothing for what is missing, and the page a row opens. *)
Definition cells (date : option string -> string) (e : Entry) : list (string * string) :=
  [("instance", default "" (e_instance e)); ("id", default "" (show <$> e_id e)); ("deadlock.fields.count", show (Z.of_nat (length (e_items e)))); ("deadlock.fields.occur_time", date (e_occur_time e))].
Definition detail_url (e : Entry) : string := "/deadlock/detail?id=" +:+ printed (show <$> e_id e) +:+ "&instance=" +:+ printed (e_instance e).

(** The page over the store: what it shows, and whether it waits for an answer. *)
Record State := mkState { isLoading : bool; items : list Item; store : Store }.

(** It clears the cache when it opens or is refreshed; an error ends the first request only, as that
    of a refresh is not caught. *)
Definition open (s : Store) : State := mkState true [] (clear s).
Definition pullItems (s : State) : State := mkState true (items s) (clear (store s)).
Definition answered (now : Z) (data : list Item) (s : State) : State := mkState false data (fill now data (store s)).
Inductive Request := First | Refresh.
Definition failed (r : Request) (s : State) : State := match r with First => mkState false (items s) (store s) | Refresh => s end.
Definition refresh_disabled (s : State) : bool := isLoading s.

(** After a refresh that failed the page shows that it is loading, and its button stays disabled. *)
Lemma failed_refresh_loads s : refresh_disabled (failed Refresh (pullItems s)) = true.
Proof. done. Qed.

(** Every entry holds the rows of its deadlock in their order, each deadlock has one. *)
Definition entries_ok (pushed : list Item) (m : list (string * Entry)) : Prop :=
  NoDup (map fst m) /\ (forall k e, (k, e) ∈ m -> e_items e = filter (fun it => summary_key it = k) pushed /\ e_items e <> []) /\
  forall it, it ∈ pushed -> summary_key it ∈ map fst m.

Lemma add_keys it m : map fst (add it m) = if decide (summary_key it ∈ map fst m) then map fst m else map fst m ++ [summary_key it].
Proof.
  induction m as [|[k e] m IH]; [done|]. cbn [add map fst]. case_bool_decide as Hk; [rewrite decide_True; [done|rewrite Hk; by left]|].
  cbn [map fst]. rewrite IH. destruct (decide (summary_key it ∈ map fst m)) as [Hin|Hin].
  - by rewrite decide_True by (by right).
  - rewrite decide_False; [done|]. intros [E|E]%elem_of_cons; [by apply Hk|done].
Qed.

Lemma add_entries it m k e : NoDup (map fst m) -> (k, e) ∈ add it m ->
  if decide (k = summary_key it) then exists l, e_items e = l ++ [it] /\ ((exists e0, (k, e0) ∈ m /\ e_items e0 = l) \/ (k ∉ map fst m /\ l = [])) else (k, e) ∈ m.
Proof.
  induction m as [|[k' e'] m IH]; cbn [add map fst]; intros Hn Hin.
  - apply list_elem_of_singleton in Hin as [= -> ->]. rewrite decide_True by done. exists []. split; [done|]. right. split; [apply not_elem_of_nil|done].
  - apply NoDup_cons in Hn as [Hk' Hn]. case_bool_decide as Hk.
    + apply elem_of_cons in Hin as [[= -> ->]|Hin].
      * rewrite decide_True by done. exists (e_items e'). split; [done|]. left. exists e'. split; [by left|done].
      * rewrite decide_False; [by right|]. intros ->. apply Hk'. rewrite Hk. by apply (list_elem_of_fmap_2 fst _ (summary_key it, e)).
    + apply elem_of_cons in Hin as [[= -> ->]|Hin]; [rewrite decide_False by done; by left|]. specialize (IH Hn Hin). destruct (decide (k = summary_key it)) as [->|Hne]; [|by right].
      destruct IH as (l & He & [(e0 & H0 & Hl)|[H0 Hl]]); exists l; (split; [done|]); [left; exists e0; split; [by right|done]|right; split; [|done]].
      by intros [E|E]%elem_of_cons.
Qed.

Lemma summary_ok items : entries_ok items (summary_map items).
Proof.
  unfold summary_map. induction items as [|it items IH] using rev_ind; [split_and!; [constructor|by intros k e ?%elem_of_nil|by intros it ?%elem_of_nil]|].
  rewrite fold_left_app. cbn [fold_left]. set (m := fold_left _ items []) in *. destruct IH as (Hn & He & Hk). split_and!.
  - rewrite add_keys. case_decide as Hd; [done|]. apply NoDup_app. split_and!; [done| |apply NoDup_singleton]. intros x Hx. rewrite list_elem_of_singleton. by intros ->.
  - intros k e Hin. apply add_entries in Hin; [|done]. rewrite filter_app, filter_cons. destruct (decide (k = summary_key it)) as [->|Hne].
    + rewrite decide_True by done. destruct Hin as (l & -> & [(e0 & H0 & <-)|[H0 ->]]).
      * destruct (He _ _ H0) as [-> _]. split; [done|by destruct (filter _ _)].
      * split; [|done]. rewrite (keys_none (fun x => summary_key x = summary_key it)); [done|]. intros x Hx E. apply H0. rewrite <- E. by apply Hk.
    + rewrite decide_False by (by intros <-). rewrite app_nil_r. by apply He.
  - intros x. rewrite elem_of_app, list_elem_of_singleton, add_keys. intros [Hx| ->]; case_decide; rewrite ?elem_of_app, ?list_elem_of_singleton; auto.
Qed.

(** The table counts the rows of each deadlock once. *)
Lemma count_column items e : e ∈ summary items -> exists it, it ∈ items /\ e_items e = filter (fun x => summary_key x = summary_key it) items.
Proof.
  intros ([k e'] & -> & Hin)%list_elem_of_fmap. destruct (summary_ok items) as (_ & He & _). destruct (He k e' Hin) as [E Hne]. cbn [snd].
  destruct (e_items e') as [|x l] eqn:El; [done|]. assert (Hx : x ∈ filter (fun it => summary_key it = k) items) by (rewrite <- E; by left).
  apply list_elem_of_filter in Hx as [<- Hx]. by exists x.
Qed.
End List.

(** ** The page of a deadlock *)

Module Detail.
Import Rows.
(** The parameters of the address; a missing one is read as null. *)
Definition param (o : option string) : string := default "null" o.

(** [it.id?.toString() === id]: what is undefined is not null. *)
Definition equals (x p : option string) : Prop := is_Some x /\ x = p.
#[export] Instance equals_dec x p : Decision (equals x p).
Proof. unfold equals. apply _. Defined.

(** The rows the page shows, of the cache or of a new answer. *)
Definition open (now : Z) (instance_ id_ : option string) (data : list Item) (s : Store) : list Item * Store :=
  match cached now (cache_key (param instance_) (param id_)) s with
  | Some rows => (rows, s)
  | None => (filter (fun it => equals (show <$> id it) id_ /\ equals (instance it) instance_) data, fill now data s)
  end.

Lemma cache_key_inj i n i' n' : has_char "-" n = false -> has_char "-" n' = false -> cache_key i n = cache_key i' n' -> i = i' /\ n = n'.
Proof.
  unfold cache_key. intros Hn Hn'. change ("deadlock-" +:+ i +:+ "-" +:+ n) with ("deadlock-" +:+ (i +:+ String "-" n)). change ("deadlock-" +:+ i' +:+ "-" +:+ n') with ("deadlock-" +:+ (i' +:+ String "-" n')).
  intros E. assert (E' : i +:+ String "-" n = i' +:+ String "-" n') by (by apply (inj (String.append "deadlock-"))). clear E.
  revert i' E'. induction i as [|a i IH]; intros [|b i'] E; rewrite ?str_app_nil_l, ?str_app_cons in E.
  - by injection E as ->.
  - injection E as _ ->. rewrite has_char_app in Hn. cbn in Hn. by rewrite orb_true_r in Hn.
  - injection E as _ <-. rewrite has_char_app in Hn'. cbn in Hn'. by rewrite orb_true_r in Hn'.
  - injection E as -> E. destruct (IH i' E) as [-> ->]. done.
Qed.

(** Rows as the server gives them: with an instance and a number. *)
Definition complete (it : Item) : Prop := exists n i, id it = Some n /\ 0 <= n /\ instance it = Some i.

Definition rows (i : string) (n : Z) (data : list Item) : list Item := filter (fun it => id it = Some n /\ instance it = Some i) data.

Lemma rows_of_key i n data : 0 <= n -> Forall complete data -> rows_of (cache_key i (show n)) data = rows i n data.
Proof.
  intros Hn Hd. apply filter_ext_elem. intros it Hit. rewrite Forall_forall in Hd. destruct (Hd it Hit) as (n' & i' & Hid & Hn' & Hi). unfold key_of. rewrite Hid, Hi. cbn.
  split; [|by intros [[= ->] [= ->]]]. intros E. apply cache_key_inj in E as [-> E]; [|by apply show_no_minus..]. split; [|done].
  f_equal. by apply (inj show).
Qed.

Lemma fetched_rows i n data : filter (fun it => equals (show <$> id it) (Some (show n)) /\ equals (instance it) (Some i)) data = rows i n data.
Proof.
  apply filter_ext_elem. intros it _. unfold equals. split.
  - intros [[_ Hn] [_ ->]]. split; [|done]. destruct (id it) as [n'|]; [|done]. injection Hn as E. f_equal. by apply (inj show).
  - intros [-> ->]. split_and!; [by eexists|done|by eexists|done].
Qed.

(** The page of a deadlock shows the rows of this deadlock in the order of the list, and no others:
    within an hour those that the list page was given, however its rows were mixed, as long as it was
    given no more deadlocks than the cache has places; after that, and in a tab that has not opened
    the list, those of a new answer. *)
Theorem detail_shows s0 now now' data data' i n : CacheMgr.capacity (cache s0) = 32 -> CacheMgr.globalExpire (cache s0) = CacheMgr.ONE_HOUR_TIME -> 0 <= n ->
  Forall complete data -> (length (remove_dups (map key_of data)) <= 32)%nat -> rows i n data <> [] ->
  let listed := fill now data (clear s0) in
  fst (open now' (Some i) (Some (show n)) data' listed) = (if now' <=? now + CacheMgr.ONE_HOUR_TIME then rows i n data else rows i n data') /\
  fst (open now' (Some i) (Some (show n)) data' (clear s0)) = rows i n data'.
Proof.
  intros Hc Hg Hn Hd Hlen Hne listed. pose proof (fill_is_filled now data (clear s0) (clear_filled now s0 Hc ltac:(rewrite Hg; done)) Hlen) as Hf. fold listed in Hf.
  assert (Hgl : CacheMgr.globalExpire (cache listed) = CacheMgr.ONE_HOUR_TIME) by (by apply fill_expire).
  assert (Hk : is_Some (CacheMgr.cache (cache listed) !! cache_key i (show n))).
  { apply (f_in _ _ _ Hf). destruct (rows i n data) as [|x l] eqn:E; [done|]. assert (Hx : x ∈ rows i n data) by (rewrite E; by left).
    apply list_elem_of_filter in Hx as [[Hid Hi] Hx]. replace (cache_key i (show n)) with (key_of x) by (unfold key_of; by rewrite Hid, Hi). by apply (list_elem_of_fmap_2 key_of). }
  destruct Hk as [item Hk]. destruct (f_rows _ _ _ Hf _ _ Hk) as [Hex Ha]. split.
  - unfold open, cached, CacheMgr.get. change (param (Some ?x)) with x. rewrite Hk, Hex, Hgl. destruct (Z.ltb_spec (now + CacheMgr.ONE_HOUR_TIME) now').
    + cbn [fst]. rewrite (proj2 (Z.leb_gt _ _)) by done. apply fetched_rows.
    + cbn [fst]. rewrite Ha, (proj2 (Z.leb_le _ _)) by done. cbn [fst]. by apply rows_of_key.
  - unfold open, cached, CacheMgr.get. cbn [clear cache CacheMgr.clear CacheMgr.cache]. rewrite lookup_empty. cbn [fst]. apply fetched_rows.
Qed.

Example deadlock_row (i : string) (n t h : Z) : Item := mkItem (Some n) (Some i) None None None (Some t) (Some h).
Lemma detail_shows_witness : fst (open 5 (Some "a:4000") (Some (show 2)) [] (fill 0 [deadlock_row "a:4000" 1 7 8; deadlock_row "a:4000" 2 8 9; deadlock_row "a:4000" 1 8 7] (clear new))) = [deadlock_row "a:4000" 2 8 9].
Proof.
  destruct (detail_shows new 0 5 [deadlock_row "a:4000" 1 7 8; deadlock_row "a:4000" 2 8 9; deadlock_row "a:4000" 1 8 7] [] "a:4000" 2) as [H _].
  - reflexivity.
  - reflexivity.
  - done.
  - repeat constructor; eexists; eexists; split_and!; done.
  - apply Nat.leb_le. vm_compute. reflexivity.
  - vm_compute. discriminate.
  - etransitivity; [exact H|reflexivity].
Defined.
End Detail.

(** ** The chain *)

Module Graph.
Import Rows.
(** The nodes are the transactions that wait; a link leads from one to the first row whose lock it
    holds; [findIndex] gives -1 when there is none. *)
Definition nodes (chain : list Item) : list (option Z) := map try_lock_trx_id chain.
Definition target (chain : list Item) (d : Item) : option nat := fst <$> list_find (fun it => trx_holding_lock it = try_lock_trx_id d) chain.
Definition links (chain : list Item) : list (nat * option nat) := imap (fun i d => (i, target chain d)) chain.

(** The paths from place to place of the layout, which has one for each node; a place that is
    missing is a TypeError. *)
Definition paths (chain : list Item) : option (list (nat * nat)) := mapM (fun '(i, t) => match t with Some j => Some (i, j) | None => None end) (links chain).

(** The text of a node: [slice] counts a negative start from the end. *)
Definition node_text (trx : option Z) : option string :=
  match trx with Some n => let s := show n in Some (js_slice_from s (js_length s - 6)) | None => None end.

Lemma links_lookup chain i : links chain !! i = (fun d => (i, target chain d)) <$> chain !! i.
Proof. unfold links. apply list_lookup_imap. Qed.

Lemma target_spec chain d j : target chain d = Some j -> exists it, chain !! j = Some it /\ trx_holding_lock it = try_lock_trx_id d.
Proof. unfold target. intros E. destruct (list_find _ chain) as [[j' it]|] eqn:El; [|done]. injection E as ->. apply list_find_Some in El as (Hj & Hh & _). by exists it. Qed.

Lemma target_exists chain d : try_lock_trx_id d ∈ map trx_holding_lock chain -> exists j, target chain d = Some j.
Proof.
  intros (it & Hit & Hin)%list_elem_of_fmap. unfold target. destruct (list_find _ chain) as [[j x]|] eqn:E; [by exists j|].
  rewrite list_find_None, Forall_forall in E. exfalso. by apply (E it Hin).
Qed.

(** The path of every place. *)
Lemma paths_lookup chain ps i : paths chain = Some ps -> ps !! i = (chain !! i ≫= fun d => pair i <$> target chain d).
Proof.
  unfold paths. intros H%mapM_Some. pose proof (Forall2_length _ _ _ H) as Hlen. destruct (links chain !! i) as [[i' t]|] eqn:E.
  - destruct (Forall2_lookup_l _ _ _ _ _ H E) as (p & Hp & Ht). rewrite Hp. rewrite links_lookup in E. destruct (chain !! i) as [d|]; [|done]. cbn in E. injection E as <- <-. cbn.
    destruct (target chain d); [by injection Ht as <-|done].
  - pose proof (lookup_ge_None_1 _ _ E) as Hge. rewrite (lookup_ge_None_2 ps) by lia. rewrite links_lookup in E. by destruct (chain !! i).
Qed.

Lemma paths_some chain : Forall (fun d => is_Some (target chain d)) chain -> is_Some (paths chain).
Proof.
  intros Hc. apply mapM_is_Some_2. rewrite Forall_forall in Hc. apply Forall_forall. intros x (i & d & -> & Hd)%elem_of_lookup_imap_1. cbn.
  destruct (Hc d (list_elem_of_lookup_2 _ _ _ Hd)) as [j ->]. by eexists.
Qed.

(** When every transaction of a deadlock waits for exactly one other, the graph is drawn, and it is a
    union of rings: every node has one link that leaves it, to the one that waits for it, and one
    that arrives. *)
Theorem rings_drawn chain : NoDup (nodes chain) -> map trx_holding_lock chain ≡ₚ nodes chain ->
  exists ps, paths chain = Some ps /\ map fst ps = seq 0 (length chain) /\ map snd ps ≡ₚ seq 0 (length chain) /\
    forall i j, (i, j) ∈ ps -> exists d it, chain !! i = Some d /\ chain !! j = Some it /\ trx_holding_lock it = try_lock_trx_id d.
Proof.
  intros Hnd Hperm. assert (Ht : forall d, d ∈ chain -> exists j, target chain d = Some j).
  { intros d Hd. apply target_exists. rewrite Hperm. by apply (list_elem_of_fmap_2 try_lock_trx_id). }
  destruct (paths_some chain) as [ps Hps]; [apply Forall_forall; intros d Hd; destruct (Ht d Hd) as [j ->]; by eexists|]. exists ps.
  assert (Hl : forall i, ps !! i = (chain !! i ≫= fun d => pair i <$> target chain d)) by (intros i; by apply paths_lookup).
  assert (Hin : forall i j, (i, j) ∈ ps -> exists d it, chain !! i = Some d /\ target chain d = Some j /\ chain !! j = Some it /\ trx_holding_lock it = try_lock_trx_id d).
  { intros i j (i' & Hi)%list_elem_of_lookup. rewrite Hl in Hi. destruct (chain !! i') as [d|] eqn:E; [|done]. cbn in Hi. destruct (target chain d) as [j'|] eqn:Et; [|done]. injection Hi as -> ->.
    destruct (target_spec chain d j Et) as (it & Hj & Hh). by exists d, it. }
  assert (Hfst : map fst ps = seq 0 (length chain)).
  { apply list_eq. intros i. rewrite list_lookup_fmap, Hl. destruct (chain !! i) as [d|] eqn:E.
    - destruct (Ht d (list_elem_of_lookup_2 _ _ _ E)) as [j Hj]. cbn. rewrite Hj. cbn. symmetry. apply lookup_seq. split; [done|]. by apply lookup_lt_Some in E.
    - cbn. symmetry. apply lookup_ge_None_2. rewrite length_seq. by apply lookup_ge_None_1. }
  split_and!; [done|done| |intros i j Hij; destruct (Hin i j Hij) as (d & it & H1 & _ & H2 & H3); by exists d, it].
  apply submseteq_length_Permutation; [|by rewrite <- Hfst, !length_map]. apply NoDup_submseteq; [|intros j ([i j'] & -> & Hij)%list_elem_of_fmap; destruct (Hin i j' Hij) as (d & it & _ & _ & Hj & _); apply elem_of_seq; apply lookup_lt_Some in Hj; cbn; lia].
  apply NoDup_alt. intros i i' j Hi Hi'. rewrite list_lookup_fmap in Hi, Hi'. destruct (ps !! i) as [[a j1]|] eqn:E; [|done]. destruct (ps !! i') as [[a' j2]|] eqn:E'; [|done].
  cbn in Hi, Hi'. injection Hi as ->. injection Hi' as ->. assert (Ha : a = i /\ a' = i') by (rewrite Hl in E, E'; destruct (chain !! i), (chain !! i'); cbn in E, E'; repeat destruct (target chain _); by simplify_eq/=). destruct Ha as [-> ->].
  destruct (Hin i j (list_elem_of_lookup_2 _ _ _ E)) as (d & it & Hd & _ & Hj & Hh), (Hin i' j (list_elem_of_lookup_2 _ _ _ E')) as (d' & it' & Hd' & _ & Hj' & Hh').
  rewrite Hj in Hj'. injection Hj' as <-. apply (NoDup_lookup (nodes chain) i i' (try_lock_trx_id d)); [done| |]; unfold nodes; rewrite list_lookup_fmap; [by rewrite Hd|rewrite Hd'; cbn; by rewrite <- Hh', Hh].
Qed.

Lemma rings_drawn_witness : exists ps, paths [Detail.deadlock_row "a" 1 7 8; Detail.deadlock_row "a" 1 8 7] = Some ps /\ map fst ps = [0; 1]%nat /\ map snd ps ≡ₚ [0; 1]%nat.
Proof.
  destruct (rings_drawn [Detail.deadlock_row "a" 1 7 8; Detail.deadlock_row "a" 1 8 7]) as (ps & H1 & H2 & H3 & _).
  - apply (bool_decide_unpack _). vm_compute. exact I.
  - cbn. apply perm_swap.
  - exists ps. split_and!; [exact H1|exact H2|exact H3].
Defined.

(** A row that no other waits for has nothing to be linked to, and the page fails. *)
Lemma broken_chain chain d : d ∈ chain -> try_lock_trx_id d ∉ map trx_holding_lock chain -> paths chain = None.
Proof.
  intros Hd Hn. destruct (paths chain) as [ps|] eqn:E; [|done]. exfalso. apply list_elem_of_lookup in Hd as [i Hi].
  pose proof (paths_lookup chain ps i E) as Hp. rewrite Hi in Hp. cbn in Hp. destruct (target chain d) as [j|] eqn:Et.
  - destruct (target_spec chain d j Et) as (it & Hj & Hh). apply Hn. rewrite <- Hh. apply (list_elem_of_fmap_2 trx_holding_lock). by apply list_elem_of_lookup_2 in Hj.
  - unfold paths in E. apply mapM_Some, Forall2_length in E. unfold links in E. rewrite length_imap in E. apply lookup_ge_None_1 in Hp. apply lookup_lt_Some in Hi. lia.
Qed.

(** Numbers of four or five digits lose most of them. *)
Lemma short_text : node_text (Some 12345) = Some "5" /\ node_text (Some 426812829645406216) = Some "406216".
Proof. done. Qed.
End Graph.
