(* ===== verification/ApiClient.v ===== *)
(** * The client of the API (ui/packages/tidb-dashboard-client)

    The operations of the client are generated from one pattern: the parameters that are required are
    asserted, the path is filled in, and the query, the headers and the body are put together.  Module
    [Client] is this pattern over a description of an operation (client/api/common.ts and the parts
    that all operations of client/api/api/default-api.ts share), [Endpoints] has the description of
    every operation.  [Url] is what the client uses of the URL class. *)

From Stdlib Require Import Ascii.
From S2P Require Import Prelude JsString JsNumber Uri.
Local Open Scope Z_scope.

(** ** Paths of URLs *)

Module Url.
(** [new URL(path, base).pathname] of a path that starts with a slash and has none of the characters
    that end it or are encoded: the segments of one and two dots are resolved. *)
Fixpoint dots (acc l : list string) : list string :=
  match l with
  | [] => rev acc
  | s :: l =>
      let acc' := if bool_decide (s = "..") then tail acc else if bool_decide (s = ".") then acc else s :: acc in
      match l with
      | [] => rev (if bool_decide (s = "..") || bool_decide (s = ".") then "" :: acc' else acc')
      | _ => dots acc' l
      end
  end.

Definition pathname (path : string) : string := "/" +:+ js_join "/" (dots [] (js_split "/" (str_drop 1 path))).

Definition no_dots (s : string) : Prop := s <> "." /\ s <> "..".

Lemma dots_plain acc l : Forall no_dots l -> dots acc l = rev acc ++ l.
Proof.
  revert acc. induction l as [|s l IH]; intros acc Hl; [by rewrite app_nil_r|]. apply Forall_cons in Hl as [[H1 H2] Hl]. cbn [dots].
  rewrite !(bool_decide_eq_false_2 (s = _)) by done. destruct l as [|s' l]; [done|]. rewrite IH by done. cbn [rev]. by rewrite <- app_assoc.
Qed.

Lemma pathname_plain l : l <> [] -> Forall no_dots l -> Forall (fun s => has_char "/" s = false) l ->
  pathname ("/" +:+ js_join "/" l) = "/" +:+ js_join "/" l.
Proof. intros Hne Hd Hs. unfold pathname. change (str_drop 1 ("/" +:+ js_join "/" l)) with (js_join "/" l). by rewrite js_split_join, dots_plain. Qed.
End Url.

(** ** The pattern *)

Module Client.
(** The arguments of an operation; one that is not given is undefined.  The client does not look into
    what a request carries in its body. *)
Inductive Value := VStr (s : string) | VNum (n : num) | VBool (b : bool) | VArr (l : list string) | VNull.
Abbreviation Args := (gmap string Value).

(** [String(v)] *)
Definition text (v : Value) : string :=
  match v with
  | VStr s => s | VNum n => num_show n | VBool b => if b then "true" else "false"
  | VArr l => js_join "," l | VNull => "null"
  end.

(** A segment of a path, and how an argument is added to the query: a single one unless it is
    undefined, an array unless it is missing, or its items joined. *)
Inductive Segment := Lit (s : string) | Arg (a : string).
Inductive Kind := One | Many | Csv.
Record Endpoint := mkEndpoint {
  method : string; path : list Segment; query : list (string * string * Kind); required : list string; body : option string; auth : bool }.

#[global] Instance segment_eq_dec : EqDecision Segment.
Proof. solve_decision. Defined.
#[global] Instance kind_eq_dec : EqDecision Kind.
Proof. solve_decision. Defined.
#[global] Instance endpoint_eq_dec : EqDecision Endpoint.
Proof. solve_decision. Defined.

(** [assertParamExists] *)
Definition exists_ (v : option Value) : bool := match v with Some VNull | None => false | _ => true end.
Definition assertParamExists (e : Endpoint) (args : Args) (has_body : bool) : option string :=
  find (fun a => negb (if bool_decide (body e = Some a) then has_body else exists_ (args !! a))) (required e).

Definition segment (args : Args) (s : Segment) : string :=
  match s with Lit s => s | Arg a => encodeURIComponent (from_option text "undefined" (args !! a)) end.
Definition localVarPath (e : Endpoint) (args : Args) : string := "/" +:+ js_join "/" (map (segment args) (path e)).

(** [localVarQueryParameter], in the order of its names. *)
Definition query_value (k : Kind) (v : option Value) : option Value :=
  match k, v with
  | One, _ => v
  | _, None | _, Some VNull => None
  | Many, Some v => Some v
  | Csv, Some v => Some (VStr (text v))
  end.
Definition localVarQueryParameter (e : Endpoint) (args : Args) : list (string * Value) :=
  omap (fun '(n, a, k) => pair n <$> query_value k (args !! a)) (query e).

(** [setSearchParams] for a URL without parameters *)
Definition setSearchParam (l : params) (p : string * Value) : params :=
  match snd p with
  | VArr xs => params_delete (fst p) l ++ map (pair (fst p)) xs
  | v => params_set (fst p) (text v) l
  end.
Definition setSearchParams (obj : list (string * Value)) : params := fold_left setSearchParam obj [].

(** [url.search], [toPathString] *)
Definition search (l : params) : string := let s := print_query l in if bool_decide (s = "") then "" else "?" +:+ s.
Definition toPathString (pathname search : string) : string := pathname +:+ search.

(** [configuration.apiKey]: a text or a function; the rest of the options is what all requests have. *)
Inductive ApiKey := KeyText (s : string) | KeyOf (f : string -> string).
Record Configuration := mkConfiguration { apiKey : option ApiKey; base_headers : gmap string string; base_rest : gmap string string }.
Record Options := mkOptions { headers : gmap string string; rest : gmap string string }.

Definition setApiKeyToObject (name : string) (c : option Configuration) : gmap string string :=
  match c ≫= apiKey with
  | Some (KeyOf f) => {[ name := f name ]}
  | Some (KeyText s) => if truthy s then {[ name := s ]} else ∅
  | None => ∅
  end.

(** [isJsonMime]: application/json or a type that ends with +json, blanks, and what follows a semicolon. *)
Definition blank (a : ascii) : bool := bool_decide (a = " "%char) || bool_decide (a = ascii_of_nat 9).
Fixpoint trim_end (s : string) : string :=
  match s with
  | EmptyString => EmptyString
  | String a s => let t := trim_end s in if blank a && bool_decide (t = "") then "" else String a t
  end.
Definition blank_in (s : string) : bool := has_char " " s || has_char (ascii_of_nat 9) s.
Definition ends_json (s : string) : bool := bool_decide (str_drop (String.length s - 5) s = "+json") && (5 <? js_length s).
Definition isJsonMime (mime : string) : bool :=
  let m := js_toLowerCase mime in
  let '(b, more) := match find_char ";" m with Some n => (str_take n m, str_drop n m) | None => (m, "") end in
  let b := trim_end b in
  (negb (has_char (ascii_of_nat 10) more || has_char (ascii_of_nat 13) more) &&
   (bool_decide (b = "application/json") ||
    match js_split "/" b with [t; s] => truthy t && negb (blank_in t) && ends_json s && negb (blank_in s) | _ => false end)) ||
  bool_decide (m = "application/json-patch+json").

(** The body: a text goes as it is, anything else is written as JSON. *)
Section Body.
Context {Json : Type} (stringify : Json -> string).
Inductive Data := DText (s : string) | DRaw (j : Json).
Definition serializeDataIfNeeded (value : string + Json) (hs : gmap string string) (c : option Configuration) : Data :=
  match value with
  | inl s => DText s
  | inr j => if match c with Some _ => isJsonMime (default "" (hs !! "Content-Type")) | None => true end then DText (stringify j) else DRaw j
  end.

Record RequestArgs := mkRequest { r_method : string; r_url : string; r_headers : gmap string string; r_rest : gmap string string; r_data : option Data }.

(** An operation: the name of a parameter that is missing, or its request. *)
Definition request (c : option Configuration) (e : Endpoint) (args : Args) (b : option (string + Json)) (o : Options) : string + RequestArgs :=
  match assertParamExists e args (bool_decide (is_Some b)) with
  | Some a => inl a
  | None =>
      let own := (if auth e then setApiKeyToObject "Authorization" c else ∅) in
      let own := match body e with Some _ => <["Content-Type" := "application/json"]> own | None => own end in
      let hs := headers o ∪ (from_option base_headers ∅ c ∪ own) in
      inr (mkRequest (method e) (toPathString (Url.pathname (localVarPath e args)) (search (setSearchParams (localVarQueryParameter e args))))
        hs (rest o ∪ from_option base_rest ∅ c)
        (match body e with Some _ => (fun v => serializeDataIfNeeded v hs c) <$> b | None => None end))
  end.
End Body.
Arguments Data : clear implicits.
Arguments RequestArgs : clear implicits.

(** The request goes to the base path of the client. *)
Definition axios_url {Json} (basePath : string) (r : RequestArgs Json) : string := basePath +:+ r_url r.

(** *** What the query of a request says *)

(** The pairs of an argument. *)
Definition pairs (p : string * Value) : params := match snd p with VArr xs => map (pair (fst p)) xs | v => [(fst p, text v)] end.
Definition given (e : Endpoint) (args : Args) : params := flat_map pairs (localVarQueryParameter e args).
Definition names (e : Endpoint) : list string := map (fun q => fst (fst q)) (query e).

Lemma set_new k v l : k ∉ map fst l -> params_set k v l = l ++ [(k, v)].
Proof.
  induction l as [|[k' v'] l IH]; [done|]. cbn [map fst params_set]. intros [H1 H2]%not_elem_of_cons. rewrite decide_False by done. by rewrite IH.
Qed.

Lemma delete_new k l : k ∉ map fst l -> params_delete k l = l.
Proof.
  intros Hk. apply filter_id, Forall_forall. intros p Hp E. apply Hk. rewrite <- E. by apply (list_elem_of_fmap_2 fst).
Qed.

Lemma set_param_new l p : fst p ∉ map fst l -> setSearchParam l p = l ++ pairs p.
Proof. intros Hk. unfold setSearchParam, pairs. destruct (snd p); rewrite ?set_new, ?delete_new by done; done. Qed.

Lemma pairs_name p x : x ∈ map fst (pairs p) -> x = fst p.
Proof. unfold pairs. destruct (snd p); cbn; rewrite ?list_elem_of_singleton; try done. rewrite map_map. cbn. by intros (y & -> & _)%list_elem_of_fmap. Qed.

Lemma set_params_flat obj : NoDup (map fst obj) -> setSearchParams obj = flat_map pairs obj.
Proof.
  unfold setSearchParams. assert (Hg : forall obj l, NoDup (map fst obj) -> (forall x, x ∈ map fst obj -> x ∉ map fst l) -> fold_left setSearchParam obj l = l ++ flat_map pairs obj).
  { clear obj. induction obj as [|p obj IH]; intros l Hn Hl; cbn [fold_left flat_map]; [by rewrite app_nil_r|]. cbn [map] in Hn, Hl. apply NoDup_cons in Hn as [Hp Hn].
    rewrite set_param_new by (apply Hl; by left). rewrite IH; [by rewrite app_assoc|done|]. intros x Hx. rewrite map_app, elem_of_app. intros [Hin|Hin].
    - by apply (Hl x); [by right|].
    - apply pairs_name in Hin as ->. done. }
  intros Hn. rewrite Hg; [done..|]. intros x _. apply not_elem_of_nil.
Qed.

Lemma query_names e args : map fst (localVarQueryParameter e args) `sublist_of` names e.
Proof.
  unfold localVarQueryParameter, names. induction (query e) as [|[[n a] k] l IH]; [done|]. cbn. destruct (query_value k (args !! a)); cbn; [by apply sublist_skip|by apply sublist_cons].
Qed.

Lemma print_query_empty l : print_query l = "" -> l = [].
Proof.
  destruct l as [|[k v] l]; [done|]. unfold print_query. cbn [map]. intros E%(f_equal String.length). exfalso. revert E.
  destruct l as [|p l]; [cbn [map js_join]|rewrite js_join_cons by done]; rewrite !str_length_app; cbn; lia.
Qed.

Lemma parse_question l : parse_query ("?" +:+ print_query l) = l.
Proof.
  rewrite <- (parse_print l) at 2. unfold parse_query. do 3 f_equal. change (strip_question ("?" +:+ print_query l)) with (print_query l).
  assert (Hp : print_query l = js_join "&" (map (fun p => form_encode (fst p) +:+ "=" +:+ form_encode (snd p)) l)) by (unfold print_query; f_equal; apply map_ext; by intros []).
  rewrite Hp. symmetry. apply (strip_joined form_encode), Forall_forall. intros p _. split_and!; try apply form_decode_encode; [|by apply has_char_form_encode].
  intros c Hc%list_elem_of_In; cbn in Hc; destruct Hc as [<-|[<-|[<-|[]]]]; by apply has_char_form_encode.
Qed.

Lemma search_parsed l : parse_query (search l) = l.
Proof. unfold search. case_bool_decide as E; [by apply print_query_empty in E as ->|apply parse_question]. Qed.

Lemma given_name e args n v : (n, v) ∈ given e args -> n ∈ names e.
Proof.
  unfold given. intros Hin. apply list_elem_of_In, in_flat_map in Hin as (p & Hp & Hin). apply list_elem_of_In, (list_elem_of_fmap_2 fst) in Hin. apply pairs_name in Hin as E. cbn in E. subst.
  eapply elem_of_submseteq; [|apply sublist_submseteq, (query_names e args)]. apply list_elem_of_In in Hp. by apply (list_elem_of_fmap_2 fst).
Qed.

(** A query says what was given, under the names of the operation. *)
Lemma query_given e args : NoDup (names e) -> parse_query (search (setSearchParams (localVarQueryParameter e args))) = given e args.
Proof. intros Hn. rewrite search_parsed. apply set_params_flat. eapply sublist_NoDup; [exact Hn|apply query_names]. Qed.
End Client.

(** ** The operations *)

Module Endpoints.
Import Client.
Definition cancelProfilingGroup : Endpoint := mkEndpoint "POST" [Lit "profiling"; Lit "group"; Lit "cancel"; Arg "groupId"] [] ["groupId"] None true.
Definition clusterInfoGetHostsInfo : Endpoint := mkEndpoint "GET" [Lit "host"; Lit "all"] [] [] None true.
Definition clusterInfoGetStatistics : Endpoint := mkEndpoint "GET" [Lit "host"; Lit "statistics"] [] [] None true.
Definition configurationEdit : Endpoint := mkEndpoint "POST" [Lit "configuration"; Lit "edit"] [] ["request"] (Some "request") true.
Definition configurationGetAll : Endpoint := mkEndpoint "GET" [Lit "configuration"; Lit "all"] [] [] None true.
Definition continuousProfilingActionTokenGet : Endpoint := mkEndpoint "GET" [Lit "continuous_profiling"; Lit "action_token"] [("q", "q", One)] ["q"] None true.
Definition continuousProfilingComponentsGet : Endpoint := mkEndpoint "GET" [Lit "continuous_profiling"; Lit "components"] [] [] None true.
Definition continuousProfilingConfigGet : Endpoint := mkEndpoint "GET" [Lit "continuous_profiling"; Lit "config"] [] [] None true.
Definition continuousProfilingConfigPost : Endpoint := mkEndpoint "POST" [Lit "continuous_profiling"; Lit "config"] [] ["request"] (Some "request") true.
Definition continuousProfilingDownloadGet : Endpoint := mkEndpoint "GET" [Lit "continuous_profiling"; Lit "download"] [("ts", "ts", One)] ["ts"] None true.
Definition continuousProfilingEstimateSizeGet : Endpoint := mkEndpoint "GET" [Lit "continuous_profiling"; Lit "estimate_size"] [] [] None true.
Definition continuousProfilingGroupProfileDetailGet : Endpoint := mkEndpoint "GET" [Lit "continuous_profiling"; Lit "group_profile"; Lit "detail"] [("ts", "ts", One)] ["ts"] None true.
Definition continuousProfilingGroupProfilesGet : Endpoint := mkEndpoint "GET" [Lit "continuous_profiling"; Lit "group_profiles"] [("begin_time", "beginTime", One); ("end_time", "endTime", One)] [] None true.
Definition continuousProfilingSingleProfileViewGet : Endpoint := mkEndpoint "GET" [Lit "continuous_profiling"; Lit "single_profile"; Lit "view"] [("address", "address", One); ("component", "component", One); ("profile_type", "profileType", One); ("ts", "ts", One)] [] None true.
Definition deadlockListGet : Endpoint := mkEndpoint "GET" [Lit "deadlock"; Lit "list"] [] [] None true.
Definition debugAPIGetEndpoints : Endpoint := mkEndpoint "GET" [Lit "debug_api"; Lit "endpoints"] [] [] None true.
Definition debugAPIRequestEndpoint : Endpoint := mkEndpoint "POST" [Lit "debug_api"; Lit "endpoint"] [] ["req"] (Some "req") true.
Definition debugApiDownloadGet : Endpoint := mkEndpoint "GET" [Lit "debug_api"; Lit "download"] [("token", "token", One)] ["token"] None false.
Definition deleteProfilingGroup : Endpoint := mkEndpoint "DELETE" [Lit "profiling"; Lit "group"; Lit "delete"; Arg "groupId"] [] ["groupId"] None true.
Definition diagnoseDiagnosisPost : Endpoint := mkEndpoint "POST" [Lit "diagnose"; Lit "diagnosis"] [] ["request"] (Some "request") true.
Definition diagnoseGenerateMetricsRelationship : Endpoint := mkEndpoint "POST" [Lit "diagnose"; Lit "metrics_relation"; Lit "generate"] [] ["request"] (Some "request") true.
Definition diagnoseMetricsRelationViewGet : Endpoint := mkEndpoint "GET" [Lit "diagnose"; Lit "metrics_relation"; Lit "view"] [("token", "token", One)] ["token"] None false.
Definition diagnoseReportsGet : Endpoint := mkEndpoint "GET" [Lit "diagnose"; Lit "reports"] [] [] None true.
Definition diagnoseReportsIdDataJsGet : Endpoint := mkEndpoint "GET" [Lit "diagnose"; Lit "reports"; Arg "id"; Lit "data.js"] [] ["id"] None false.
Definition diagnoseReportsIdDetailGet : Endpoint := mkEndpoint "GET" [Lit "diagnose"; Lit "reports"; Arg "id"; Lit "detail"] [] ["id"] None false.
Definition diagnoseReportsIdStatusGet : Endpoint := mkEndpoint "GET" [Lit "diagnose"; Lit "reports"; Arg "id"; Lit "status"] [] ["id"] None true.
Definition diagnoseReportsPost : Endpoint := mkEndpoint "POST" [Lit "diagnose"; Lit "reports"] [] ["request"] (Some "request") true.
Definition downloadProfilingGroup : Endpoint := mkEndpoint "GET" [Lit "profiling"; Lit "group"; Lit "download"] [("token", "token", One)] ["token"] None true.
Definition downloadProfilingSingle : Endpoint := mkEndpoint "GET" [Lit "profiling"; Lit "single"; Lit "download"] [("token", "token", One)] ["token"] None true.
Definition getActionToken : Endpoint := mkEndpoint "GET" [Lit "profiling"; Lit "action_token"] [("id", "id", One); ("action", "action", One)] [] None true.
Definition getAlertManagerCounts : Endpoint := mkEndpoint "GET" [Lit "topology"; Lit "alertmanager"; Arg "address"; Lit "count"] [] ["address"] None true.
Definition getAlertManagerTopology : Endpoint := mkEndpoint "GET" [Lit "topology"; Lit "alertmanager"] [] [] None true.
Definition getGrafanaTopology : Endpoint := mkEndpoint "GET" [Lit "topology"; Lit "grafana"] [] [] None true.
Definition getPDTopology : Endpoint := mkEndpoint "GET" [Lit "topology"; Lit "pd"] [] [] None true.
Definition getProfilingGroupDetail : Endpoint := mkEndpoint "GET" [Lit "profiling"; Lit "group"; Lit "detail"; Arg "groupId"] [] ["groupId"] None true.
Definition getProfilingGroups : Endpoint := mkEndpoint "GET" [Lit "profiling"; Lit "group"; Lit "list"] [] [] None true.
Definition getSchedulingTopology : Endpoint := mkEndpoint "GET" [Lit "topology"; Lit "scheduling"] [] [] None true.
Definition getStoreLocationTopology : Endpoint := mkEndpoint "GET" [Lit "topology"; Lit "store_location"] [] [] None true.
Definition getStoreTopology : Endpoint := mkEndpoint "GET" [Lit "topology"; Lit "store"] [] [] None true.
Definition getTSOTopology : Endpoint := mkEndpoint "GET" [Lit "topology"; Lit "tso"] [] [] None true.
Definition getTiCDCTopology : Endpoint := mkEndpoint "GET" [Lit "topology"; Lit "ticdc"] [] [] None true.
Definition getTiDBTopology : Endpoint := mkEndpoint "GET" [Lit "topology"; Lit "tidb"] [] [] None true.
Definition getTiProxyTopology : Endpoint := mkEndpoint "GET" [Lit "topology"; Lit "tiproxy"] [] [] None true.
Definition infoGet : Endpoint := mkEndpoint "GET" [Lit "info"; Lit "info"] [] [] None true.
Definition infoListDatabases : Endpoint := mkEndpoint "GET" [Lit "info"; Lit "databases"] [] [] None true.
Definition infoListTables : Endpoint := mkEndpoint "GET" [Lit "info"; Lit "tables"] [("database_name", "databaseName", One)] [] None true.
Definition infoWhoami : Endpoint := mkEndpoint "GET" [Lit "info"; Lit "whoami"] [] [] None true.
Definition keyvisualConfigGet : Endpoint := mkEndpoint "GET" [Lit "keyvisual"; Lit "config"] [] [] None true.
Definition keyvisualConfigPut : Endpoint := mkEndpoint "PUT" [Lit "keyvisual"; Lit "config"] [] ["request"] (Some "request") true.
Definition keyvisualHeatmapsGet : Endpoint := mkEndpoint "GET" [Lit "keyvisual"; Lit "heatmaps"] [("startkey", "startkey", One); ("endkey", "endkey", One); ("starttime", "starttime", One); ("endtime", "endtime", One); ("type", "type", One)] [] None true.
Definition logsDownloadAcquireTokenGet : Endpoint := mkEndpoint "GET" [Lit "logs"; Lit "download"; Lit "acquire_token"] [("id", "id", Csv)] [] None true.
Definition logsDownloadGet : Endpoint := mkEndpoint "GET" [Lit "logs"; Lit "download"] [("token", "token", One)] ["token"] None false.
Definition logsTaskgroupPut : Endpoint := mkEndpoint "PUT" [Lit "logs"; Lit "taskgroup"] [] ["request"] (Some "request") true.
Definition logsTaskgroupsGet : Endpoint := mkEndpoint "GET" [Lit "logs"; Lit "taskgroups"] [] [] None true.
Definition logsTaskgroupsIdCancelPost : Endpoint := mkEndpoint "POST" [Lit "logs"; Lit "taskgroups"; Arg "id"; Lit "cancel"] [] ["id"] None true.
Definition logsTaskgroupsIdDelete : Endpoint := mkEndpoint "DELETE" [Lit "logs"; Lit "taskgroups"; Arg "id"] [] ["id"] None true.
Definition logsTaskgroupsIdGet : Endpoint := mkEndpoint "GET" [Lit "logs"; Lit "taskgroups"; Arg "id"] [] ["id"] None true.
Definition logsTaskgroupsIdPreviewGet : Endpoint := mkEndpoint "GET" [Lit "logs"; Lit "taskgroups"; Arg "id"; Lit "preview"] [] ["id"] None true.
Definition logsTaskgroupsIdRetryPost : Endpoint := mkEndpoint "POST" [Lit "logs"; Lit "taskgroups"; Arg "id"; Lit "retry"] [] ["id"] None true.
Definition metricsGetPromAddress : Endpoint := mkEndpoint "GET" [Lit "metrics"; Lit "prom_address"] [] [] None true.
Definition metricsQueryGet : Endpoint := mkEndpoint "GET" [Lit "metrics"; Lit "query"] [("end_time_sec", "endTimeSec", One); ("query", "query", One); ("start_time_sec", "startTimeSec", One); ("step_sec", "stepSec", One)] [] None true.
Definition metricsSetCustomPromAddress : Endpoint := mkEndpoint "PUT" [Lit "metrics"; Lit "prom_address"] [] ["request"] (Some "request") true.
Definition profilingConfigGet : Endpoint := mkEndpoint "GET" [Lit "profiling"; Lit "config"] [] [] None true.
Definition profilingConfigPut : Endpoint := mkEndpoint "PUT" [Lit "profiling"; Lit "config"] [] ["request"] (Some "request") true.
Definition queryEditorRun : Endpoint := mkEndpoint "POST" [Lit "query_editor"; Lit "run"] [] ["request"] (Some "request") true.
Definition resourceManagerCalibrateActualGet : Endpoint := mkEndpoint "GET" [Lit "resource_manager"; Lit "calibrate"; Lit "actual"] [("end_time", "endTime", One); ("start_time", "startTime", One)] [] None true.
Definition resourceManagerCalibrateHardwareGet : Endpoint := mkEndpoint "GET" [Lit "resource_manager"; Lit "calibrate"; Lit "hardware"] [("workload", "workload", One)] ["workload"] None true.
Definition resourceManagerConfigGet : Endpoint := mkEndpoint "GET" [Lit "resource_manager"; Lit "config"] [] [] None true.
Definition resourceManagerInformationGet : Endpoint := mkEndpoint "GET" [Lit "resource_manager"; Lit "information"] [] [] None true.
Definition resourceManagerInformationGroupNamesGet : Endpoint := mkEndpoint "GET" [Lit "resource_manager"; Lit "information"; Lit "group_names"] [] [] None true.
Definition slowQueryAvailableFieldsGet : Endpoint := mkEndpoint "GET" [Lit "slow_query"; Lit "available_fields"] [] [] None true.
Definition slowQueryDetailGet : Endpoint := mkEndpoint "GET" [Lit "slow_query"; Lit "detail"] [("connect_id", "connectId", One); ("digest", "digest", One); ("timestamp", "timestamp", One)] [] None true.
Definition slowQueryDownloadGet : Endpoint := mkEndpoint "GET" [Lit "slow_query"; Lit "download"] [("token", "token", One)] ["token"] None false.
Definition slowQueryDownloadTokenPost : Endpoint := mkEndpoint "POST" [Lit "slow_query"; Lit "download"; Lit "token"] [] ["request"] (Some "request") true.
Definition slowQueryListGet : Endpoint := mkEndpoint "GET" [Lit "slow_query"; Lit "list"] [("begin_time", "beginTime", One); ("db", "db", Many); ("desc", "desc", One); ("digest", "digest", One); ("end_time", "endTime", One); ("fields", "fields", One); ("limit", "limit", One); ("orderBy", "orderBy", One); ("plans", "plans", Many); ("resource_group", "resourceGroup", Many); ("text", "text", One)] [] None true.
Definition startProfiling : Endpoint := mkEndpoint "POST" [Lit "profiling"; Lit "group"; Lit "start"] [] ["req"] (Some "req") true.
Definition statementsAvailableFieldsGet : Endpoint := mkEndpoint "GET" [Lit "statements"; Lit "available_fields"] [] [] None true.
Definition statementsConfigGet : Endpoint := mkEndpoint "GET" [Lit "statements"; Lit "config"] [] [] None true.
Definition statementsConfigPost : Endpoint := mkEndpoint "POST" [Lit "statements"; Lit "config"] [] ["request"] (Some "request") true.
Definition statementsDownloadGet : Endpoint := mkEndpoint "GET" [Lit "statements"; Lit "download"] [("token", "token", One)] ["token"] None false.
Definition statementsDownloadTokenPost : Endpoint := mkEndpoint "POST" [Lit "statements"; Lit "download"; Lit "token"] [] ["request"] (Some "request") true.
Definition statementsListGet : Endpoint := mkEndpoint "GET" [Lit "statements"; Lit "list"] [("begin_time", "beginTime", One); ("end_time", "endTime", One); ("fields", "fields", One); ("resource_groups", "resourceGroups", Many); ("schemas", "schemas", Many); ("stmt_types", "stmtTypes", Many); ("text", "text", One)] [] None true.
Definition statementsPlanBindingDelete : Endpoint := mkEndpoint "DELETE" [Lit "statements"; Lit "plan"; Lit "binding"] [("sql_digest", "sqlDigest", One)] ["sqlDigest"] None true.
Definition statementsPlanBindingGet : Endpoint := mkEndpoint "GET" [Lit "statements"; Lit "plan"; Lit "binding"] [("sql_digest", "sqlDigest", One); ("begin_time", "beginTime", One); ("end_time", "endTime", One)] ["sqlDigest"; "beginTime"; "endTime"] None true.
Definition statementsPlanBindingPost : Endpoint := mkEndpoint "POST" [Lit "statements"; Lit "plan"; Lit "binding"] [("plan_digest", "planDigest", One)] ["planDigest"] None true.
Definition statementsPlanDetailGet : Endpoint := mkEndpoint "GET" [Lit "statements"; Lit "plan"; Lit "detail"] [("begin_time", "beginTime", One); ("digest", "digest", One); ("end_time", "endTime", One); ("plans", "plans", Many); ("schema_name", "schemaName", One)] [] None true.
Definition statementsPlansGet : Endpoint := mkEndpoint "GET" [Lit "statements"; Lit "plans"] [("begin_time", "beginTime", One); ("digest", "digest", One); ("end_time", "endTime", One); ("schema_name", "schemaName", One)] [] None true.
Definition statementsStmtTypesGet : Endpoint := mkEndpoint "GET" [Lit "statements"; Lit "stmt_types"] [] [] None true.
Definition topologyTidbAddressDelete : Endpoint := mkEndpoint "DELETE" [Lit "topology"; Lit "tidb"; Arg "address"] [] ["address"] None true.
Definition topsqlConfigGet : Endpoint := mkEndpoint "GET" [Lit "topsql"; Lit "config"] [] [] None true.
Definition topsqlConfigPost : Endpoint := mkEndpoint "POST" [Lit "topsql"; Lit "config"] [] ["request"] (Some "request") true.
Definition topsqlInstancesGet : Endpoint := mkEndpoint "GET" [Lit "topsql"; Lit "instances"] [("end", "end", One); ("start", "start", One)] [] None true.
Definition topsqlSummaryGet : Endpoint := mkEndpoint "GET" [Lit "topsql"; Lit "summary"] [("end", "end", One); ("group_by", "groupBy", One); ("instance", "instance", One); ("instance_type", "instanceType", One); ("start", "start", One); ("top", "top", One); ("window", "window", One)] [] None true.
Definition userGetLoginInfo : Endpoint := mkEndpoint "GET" [Lit "user"; Lit "login_info"] [] [] None false.
Definition userGetSignOutInfo : Endpoint := mkEndpoint "GET" [Lit "user"; Lit "sign_out_info"] [("redirect_url", "redirectUrl", One)] [] None true.
Definition userLogin : Endpoint := mkEndpoint "POST" [Lit "user"; Lit "login"] [] ["message"] (Some "message") false.
Definition userRevokeSession : Endpoint := mkEndpoint "POST" [Lit "user"; Lit "share"; Lit "revoke"] [] [] None true.
Definition userSSOCreateImpersonation : Endpoint := mkEndpoint "POST" [Lit "user"; Lit "sso"; Lit "impersonation"] [] ["request"] (Some "request") true.
Definition userSSOGetAuthURL : Endpoint := mkEndpoint "GET" [Lit "user"; Lit "sso"; Lit "auth_url"] [("code_verifier", "codeVerifier", One); ("redirect_url", "redirectUrl", One); ("state", "state", One)] [] None false.
Definition userSSOGetConfig : Endpoint := mkEndpoint "GET" [Lit "user"; Lit "sso"; Lit "config"] [] [] None true.
Definition userSSOListImpersonations : Endpoint := mkEndpoint "GET" [Lit "user"; Lit "sso"; Lit "impersonations"; Lit "list"] [] [] None true.
Definition userSSOSetConfig : Endpoint := mkEndpoint "PUT" [Lit "user"; Lit "sso"; Lit "config"] [] ["request"] (Some "request") true.
Definition userShareSession : Endpoint := mkEndpoint "POST" [Lit "user"; Lit "share"; Lit "code"] [] ["request"] (Some "request") true.
Definition viewProfilingSingle : Endpoint := mkEndpoint "GET" [Lit "profiling"; Lit "single"; Lit "view"] [("token", "token", One)] ["token"] None true.

(** All of them. *)
Definition all : list Endpoint := [cancelProfilingGroup; clusterInfoGetHostsInfo; clusterInfoGetStatistics; configurationEdit; configurationGetAll; continuousProfilingActionTokenGet; continuousProfilingComponentsGet; continuousProfilingConfigGet; continuousProfilingConfigPost; continuousProfilingDownloadGet; continuousProfilingEstimateSizeGet; continuousProfilingGroupProfileDetailGet; continuousProfilingGroupProfilesGet; continuousProfilingSingleProfileViewGet; deadlockListGet; debugAPIGetEndpoints; debugAPIRequestEndpoint; debugApiDownloadGet; deleteProfilingGroup; diagnoseDiagnosisPost; diagnoseGenerateMetricsRelationship; diagnoseMetricsRelationViewGet; diagnoseReportsGet; diagnoseReportsIdDataJsGet; diagnoseReportsIdDetailGet; diagnoseReportsIdStatusGet; diagnoseReportsPost; downloadProfilingGroup; downloadProfilingSingle; getActionToken; getAlertManagerCounts; getAlertManagerTopology; getGrafanaTopology; getPDTopology; getProfilingGroupDetail; getProfilingGroups; getSchedulingTopology; getStoreLocationTopology; getStoreTopology; getTSOTopology; getTiCDCTopology; getTiDBTopology; getTiProxyTopology; infoGet; infoListDatabases; infoListTables; infoWhoami; keyvisualConfigGet; keyvisualConfigPut; keyvisualHeatmapsGet; logsDownloadAcquireTokenGet; logsDownloadGet; logsTaskgroupPut; logsTaskgroupsGet; logsTaskgroupsIdCancelPost; logsTaskgroupsIdDelete; logsTaskgroupsIdGet; logsTaskgroupsIdPreviewGet; logsTaskgroupsIdRetryPost; metricsGetPromAddress; metricsQueryGet; metricsSetCustomPromAddress; profilingConfigGet; profilingConfigPut; queryEditorRun; resourceManagerCalibrateActualGet; resourceManagerCalibrateHardwareGet; resourceManagerConfigGet; resourceManagerInformationGet; resourceManagerInformationGroupNamesGet; slowQueryAvailableFieldsGet; slowQueryDetailGet; slowQueryDownloadGet; slowQueryDownloadTokenPost; slowQueryListGet; startProfiling; statementsAvailableFieldsGet; statementsConfigGet; statementsConfigPost; statementsDownloadGet; statementsDownloadTokenPost; statementsListGet; statementsPlanBindingDelete; statementsPlanBindingGet; statementsPlanBindingPost; statementsPlanDetailGet; statementsPlansGet; statementsStmtTypesGet; topologyTidbAddressDelete; topsqlConfigGet; topsqlConfigPost; topsqlInstancesGet; topsqlSummaryGet; userGetLoginInfo; userGetSignOutInfo; userLogin; userRevokeSession; userSSOCreateImpersonation; userSSOGetAuthURL; userSSOGetConfig; userSSOListImpersonations; userSSOSetConfig; userShareSession; viewProfilingSingle].

(** The literal parts of a path need no encoding, and no name is used twice in a query. *)
Definition literal (s : Segment) : bool := match s with Lit s => bool_decide (encodeURIComponent s = s) && utf8 s && negb (bool_decide (s = "")) && negb (bool_decide (s = "..")) && negb (bool_decide (s = ".")) | Arg _ => true end.
Lemma all_ok : Forall (fun e => NoDup (names e) /\ forallb literal (path e) = true /\ path e <> []) all.
Proof. apply (bool_decide_unpack _). vm_compute. exact I. Qed.
End Endpoints.

(** ** The path of a request *)

Module Paths.
Import Client.
(** What the segments say. *)
Definition said (args : Args) (s : Segment) : string := match s with Lit s => s | Arg a => from_option text "undefined" (args !! a) end.

(** An argument of a path has to be a segment of its own. *)
Definition segment_text (s : string) : Prop := s <> "" /\ Url.no_dots s /\ has_char "/" s = false /\ utf8 s = true.
Definition path_ok (e : Endpoint) (args : Args) : Prop := forall a, Arg a ∈ path e -> exists v, args !! a = Some v /\ segment_text (text v).

Lemma decode_app st s t : high st -> utf8_go st s = true -> decode_go st (encodeURIComponent s +:+ t) = String.append s <$> decode_go [] t.
Proof.
  revert st. induction s as [|a s IH]; intros st Hh; cbn [encodeURIComponent utf8_go];
    [destruct st; [|done]; intros _; rewrite str_app_nil_l; by destruct (decode_go [] t)|].
  destruct (utf8_byte st a) as [st'|] eqn:Hst; [|done]. intros Hs. pose proof (utf8_byte_high _ _ _ Hh Hst) as Hh'. destruct (is_unreserved a) eqn:Ha.
  - apply unreserved_ascii, andb_true_iff in Ha as [Ha%Z.ltb_lt Hp]. destruct (utf8_byte_ascii _ _ _ Hh Ha Hst) as [-> ->].
    apply negb_true_iff, bool_decide_eq_false in Hp. rewrite str_app_cons. simpl. rewrite decide_False by done. rewrite IH by done. by destruct (decode_go [] t).
  - change (escape a (encodeURIComponent s) +:+ t) with (escape a (encodeURIComponent s +:+ t)). rewrite decode_escape, Hst. simpl. rewrite IH by done. by destruct (decode_go [] t).
Qed.

(** The server decodes a path before it looks at its segments. *)
Lemma decode_joined l : Forall (fun s => utf8 s = true) l -> decodeURIComponent (js_join "/" (map encodeURIComponent l)) = Some (js_join "/" l).
Proof.
  induction 1 as [|s l Hs Hl IH]; [done|]. destruct l as [|s' l]; [cbn; by apply decode_encode|].
  change (map encodeURIComponent (s :: s' :: l)) with (encodeURIComponent s :: map encodeURIComponent (s' :: l)). rewrite !js_join_cons by done.
  unfold decodeURIComponent in *. rewrite decode_app; [|constructor|done]. rewrite str_app_cons. cbn [decode_go]. rewrite decide_False by done. rewrite str_app_nil_l, IH. done.
Qed.

Lemma encode_dots s : utf8 s = true -> Url.no_dots s -> Url.no_dots (encodeURIComponent s).
Proof. intros Hu [H1 H2]. split; intros E; apply (f_equal decodeURIComponent) in E; rewrite decode_encode in E by done; by injection E. Qed.

Section Path.
Context (e : Endpoint) (args : Args).
Hypotheses (Hlit : forallb Endpoints.literal (path e) = true) (Hne : path e <> []) (Hok : path_ok e args).

Lemma literal_said s : Lit s ∈ path e -> encodeURIComponent s = s /\ segment_text s.
Proof using Hlit.
  intros Hs. pose proof (proj1 (forallb_forall _ _) Hlit (Lit s) (proj1 (list_elem_of_In _ _) Hs)) as H. cbn in H.
  apply andb_true_iff in H as [[[[H1 H2]%andb_true_iff H3]%andb_true_iff H4]%andb_true_iff H5]. apply bool_decide_eq_true in H1.
  apply negb_true_iff, bool_decide_eq_false in H3, H4, H5. split; [done|]. split_and!; [done|by split| |done]. rewrite <- H1. by apply has_char_encode.
Qed.

Lemma said_ok : Forall segment_text (map (said args) (path e)).
Proof using Hlit Hok.
  apply Forall_map, Forall_forall. intros [s|a] Hs; cbn; [by apply literal_said|]. destruct (Hok a Hs) as (v & -> & Hv). exact Hv.
Qed.

Lemma segments_encoded : map (segment args) (path e) = map encodeURIComponent (map (said args) (path e)).
Proof using Hlit. rewrite map_map. apply map_ext_in. intros [s|a] Hs; cbn; [|done]. symmetry. by apply literal_said, list_elem_of_In. Qed.

Lemma pathname_said : Url.pathname (localVarPath e args) = "/" +:+ js_join "/" (map encodeURIComponent (map (said args) (path e))).
Proof using Hlit Hne Hok.
  unfold localVarPath. rewrite segments_encoded. pose proof said_ok as Hs. apply Url.pathname_plain; [by destruct (path e)| |]; rewrite !Forall_map; rewrite Forall_map in Hs; eapply Forall_impl; try exact Hs.
  - intros s (_ & Hd & _ & Hu). by apply encode_dots.
  - intros s _. by apply has_char_encode.
Qed.
End Path.
End Paths.
