(* ===== verification/ApiServer.v ===== *)
(** * The server of the API, as its clients see it (pkg/apiserver, pkg/keyvisual)

    Module [Router] has the registration of routes, with the router itself, a library, as an interface,
    [Routes] the routes of every service and what their handlers read from a request.  The theorems
    say that the requests of [ApiClient] reach the handlers they are meant for. *)

From Stdlib Require Import Ascii.
From S2P Require Import Prelude JsString JsNumber Uri ApiClient.
Local Open Scope Z_scope.

(** ** Registering routes *)

Module Router.
(** What a handler reads: its path parameters, the names of its query, and whether a JSON body. *)
Record Handler := mkHandler { h_name : string; h_path : list string; h_query : list string; h_json : bool }.

(** A request may also be passed on to NgMonitoring. *)
Inductive Target := Func (h : Handler) | Proxy (path : string).
Inductive Middleware := MWAuthRequired | MWRequireSharePriv | MWRequireWritePriv | MWConnectTiDB | VersionGuard | MWForbidByExperimentalFlag | MWHandleStopped | parseJWTToken.
Inductive Seg := Lit (s : string) | Param (name : string).

(** The statements of a function that registers routes. *)
Inductive Reg :=
  | Use (ms : list Middleware)
  | Handle (method : string) (path : list Seg) (ms : list Middleware) (t : Target)
  | Sub (path : list string) (l : list Reg).
Record Group := mkGroup { prefix : list string; regs : list Reg }.
Record Route := mkRoute { r_method : string; r_pattern : list Seg; r_chain : list Middleware; r_target : Target }.

#[export] Instance handler_eq_dec : EqDecision Handler.
Proof. solve_decision. Defined.
#[export] Instance target_eq_dec : EqDecision Target.
Proof. solve_decision. Defined.
#[export] Instance middleware_eq_dec : EqDecision Middleware.
Proof. solve_decision. Defined.
#[export] Instance seg_eq_dec : EqDecision Seg.
Proof. solve_decision. Defined.
#[export] Instance route_eq_dec : EqDecision Route.
Proof. solve_decision. Defined.

(** The routes of a group: what is used applies to the routes that are registered later. *)
Fixpoint routes_of (pre : list Seg) (chain : list Middleware) (l : list Reg) : list Route :=
  match l with
  | [] => []
  | Use ms :: l => routes_of pre (chain ++ ms) l
  | Handle m p ms t :: l => mkRoute m (pre ++ p) (chain ++ ms) t :: routes_of pre chain l
  | Sub p l' :: l =>
      (fix sub (chain : list Middleware) (l : list Reg) : list Route :=
        match l with
        | [] => []
        | Use ms :: l => sub (chain ++ ms) l
        | Handle m p' ms t :: l => mkRoute m (pre ++ map Lit p ++ p') (chain ++ ms) t :: sub chain l
        | Sub _ _ :: l => sub chain l
        end) chain l' ++ routes_of pre chain l
  end.
Definition routes (root : list string) (gs : list Group) : list Route := flat_map (fun g => routes_of (map Lit (root ++ prefix g)) [] (regs g)) gs.

(** A parameter stands for one segment that is not empty. *)
Fixpoint bind (p : list Seg) (l : list string) : option params :=
  match p, l with
  | [], [] => Some []
  | Lit s :: p, s' :: l => if bool_decide (s = s') then bind p l else None
  | Param n :: p, s :: l => if truthy s then cons (n, s) <$> bind p l else None
  | _, _ => None
  end.

(** The router: the middlewares and the handler of a request with its parameters. *)
Class Gin := serve : list string -> list Group -> string -> string -> option (list Middleware * Target * params).

(** A request whose path matches one route only is served by this route. *)
Class GinLaws `{Gin} := serve_match root gs m p segs r binds :
  decodeURIComponent p = Some ("/" +:+ js_join "/" segs) -> segs <> [] -> Forall (fun s => has_char "/" s = false) segs ->
  r ∈ routes root gs -> r_method r = m -> bind (r_pattern r) segs = Some binds ->
  (forall r', r' ∈ routes root gs -> r_method r' = m -> bind (r_pattern r') segs <> None -> r' = r) ->
  serve root gs m p = Some (r_chain r, r_target r, binds).

(** A router that takes the first route that matches. *)
Definition first_match : Gin := fun root gs m p =>
  match decodeURIComponent p with
  | None => None
  | Some d =>
      let segs := js_split "/" (str_drop 1 d) in
      head (omap (fun r => if bool_decide (r_method r = m) then (fun b => (r_chain r, r_target r, b)) <$> bind (r_pattern r) segs else None) (routes root gs))
  end.

Lemma head_omap {A B} (f : A -> option B) (l : list A) x y : x ∈ l -> f x = Some y -> (forall x', x' ∈ l -> f x' <> None -> x' = x) -> head (omap f l) = Some y.
Proof.
  induction l as [|a l IH]; intros Hx Hf Hu; [by apply elem_of_nil in Hx|]. cbn. destruct (f a) as [b|] eqn:Ea.
  - assert (a = x) as -> by (apply Hu; [by left|by rewrite Ea]). cbn. congruence.
  - apply IH; [apply elem_of_cons in Hx as [->|Hx]; [congruence|done]|done|]. intros x' Hx'. apply Hu. by right.
Qed.

#[export] Instance first_match_laws : @GinLaws first_match.
Proof.
  intros root gs m p segs r binds Hp Hne Hs Hr Hm Hb Hu. unfold serve, first_match. rewrite Hp.
  change (str_drop 1 ("/" +:+ js_join "/" segs)) with (js_join "/" segs). rewrite js_split_join by done.
  apply (head_omap _ _ r); [done|by rewrite bool_decide_eq_true_2, Hb|]. intros r' Hr'. case_bool_decide as Hm'; [|done]. intros Hb'. apply Hu; [done..|]. intros E. by rewrite E in Hb'.
Qed.

(** Two patterns that no path matches both. *)
Fixpoint apart (p q : list Seg) : bool :=
  match p, q with
  | [], [] => false
  | Lit s :: p, Lit s' :: q => negb (bool_decide (s = s')) || apart p q
  | _ :: p, _ :: q => apart p q
  | _, _ => true
  end.

Lemma apart_spec p q l : apart p q = true -> bind p l <> None -> bind q l = None.
Proof.
  revert q l. induction p as [|a p IH]; intros q l H Hb.
  - destruct l as [|s l]; [|done]. destruct q as [|b q]; [done|by destruct b].
  - destruct l as [|s l]; [by destruct a|]. destruct q as [|b q]; [done|].
    assert (Hp : bind p l <> None) by (intros E; apply Hb; destruct a; cbn; rewrite E; by repeat case_match).
    assert (Hq : apart p q = true -> bind q l = None) by (intros H'; by apply IH).
    destruct a as [s1|n1], b as [s2|n2]; cbn in H, Hb |- *; try (rewrite Hq by done; by repeat case_match).
    destruct (decide (s1 = s)) as [->|Hne]; [|by rewrite bool_decide_eq_false_2 in Hb].
    destruct (decide (s2 = s)) as [->|Hne]; [|by rewrite bool_decide_eq_false_2].
    rewrite bool_decide_eq_true_2 in H |- * by done. by apply Hq.
Qed.
End Router.

(** ** The services *)

Module Routes.
Import Router.

Definition logs_DownloadLogs : Handler := mkHandler "DownloadLogs" [] ["token"] false.
Definition logs_GetDownloadToken : Handler := mkHandler "GetDownloadToken" [] ["id"] false.
Definition logs_CreateTaskGroup : Handler := mkHandler "CreateTaskGroup" [] [] true.
Definition logs_GetAllTaskGroups : Handler := mkHandler "GetAllTaskGroups" [] [] false.
Definition logs_GetTaskGroup : Handler := mkHandler "GetTaskGroup" ["id"] [] false.
Definition logs_GetTaskGroupPreview : Handler := mkHandler "GetTaskGroupPreview" ["id"] [] false.
Definition logs_RetryTask : Handler := mkHandler "RetryTask" ["id"] [] false.
Definition logs_CancelTask : Handler := mkHandler "CancelTask" ["id"] [] false.
Definition logs_DeleteTaskGroup : Handler := mkHandler "DeleteTaskGroup" ["id"] [] false.
Definition share_ShareHandler : Handler := mkHandler "ShareHandler" [] [] true.
Definition share_RevokeHandler : Handler := mkHandler "RevokeHandler" [] [] false.
Definition sso_getAuthURLHandler : Handler := mkHandler "getAuthURLHandler" [] ["redirect_url"; "code_verifier"; "state"] false.
Definition sso_listImpersonationHandler : Handler := mkHandler "listImpersonationHandler" [] [] false.
Definition sso_createImpersonationHandler : Handler := mkHandler "createImpersonationHandler" [] [] true.
Definition sso_getConfig : Handler := mkHandler "getConfig" [] [] false.
Definition sso_setConfig : Handler := mkHandler "setConfig" [] [] true.
Definition user_GetLoginInfoHandler : Handler := mkHandler "GetLoginInfoHandler" [] [] false.
Definition user_LoginHandler : Handler := mkHandler "LoginHandler" [] [] true.
Definition user_getSignOutInfoHandler : Handler := mkHandler "getSignOutInfoHandler" [] ["redirect_url"] false.
Definition profiling_getGroupList : Handler := mkHandler "getGroupList" [] [] false.
Definition profiling_handleStartGroup : Handler := mkHandler "handleStartGroup" [] [] true.
Definition profiling_getGroupDetail : Handler := mkHandler "getGroupDetail" ["groupId"] [] false.
Definition profiling_handleCancelGroup : Handler := mkHandler "handleCancelGroup" ["groupId"] [] false.
Definition profiling_deleteGroup : Handler := mkHandler "deleteGroup" ["groupId"] [] false.
Definition profiling_getActionToken : Handler := mkHandler "getActionToken" [] ["id"; "action"] false.
Definition profiling_downloadGroup : Handler := mkHandler "downloadGroup" [] ["token"] false.
Definition profiling_downloadSingle : Handler := mkHandler "downloadSingle" [] ["token"] false.
Definition profiling_viewSingle : Handler := mkHandler "viewSingle" [] ["token"; "output_type"] false.
Definition profiling_getDynamicConfig : Handler := mkHandler "getDynamicConfig" [] [] false.
Definition profiling_setDynamicConfig : Handler := mkHandler "setDynamicConfig" [] [] true.
Definition metrics_queryMetrics : Handler := mkHandler "queryMetrics" [] ["start_time_sec"; "end_time_sec"; "step_sec"; "query"] false.
Definition metrics_getPromAddressConfig : Handler := mkHandler "getPromAddressConfig" [] [] false.
Definition metrics_putCustomPromAddress : Handler := mkHandler "putCustomPromAddress" [] [] true.
Definition slow_query_downloadHandler : Handler := mkHandler "downloadHandler" [] ["token"] false.
Definition slow_query_getList : Handler := mkHandler "getList" [] ["begin_time"; "end_time"; "db"; "resource_group"; "limit"; "text"; "orderBy"; "desc"; "plans"; "digest"; "fields"] false.
Definition slow_query_getDetails : Handler := mkHandler "getDetails" [] ["digest"; "timestamp"; "connect_id"] false.
Definition slow_query_downloadTokenHandler : Handler := mkHandler "downloadTokenHandler" [] [] true.
Definition slow_query_getAvailableFields : Handler := mkHandler "getAvailableFields" [] [] false.
Definition topology_getTiDBTopology : Handler := mkHandler "getTiDBTopology" [] [] false.
Definition topology_getTiCDCTopology : Handler := mkHandler "getTiCDCTopology" [] [] false.
Definition topology_getTiProxyTopology : Handler := mkHandler "getTiProxyTopology" [] [] false.
Definition topology_deleteTiDBTopology : Handler := mkHandler "deleteTiDBTopology" ["address"] [] false.
Definition topology_getStoreTopology : Handler := mkHandler "getStoreTopology" [] [] false.
Definition topology_getPDTopology : Handler := mkHandler "getPDTopology" [] [] false.
Definition topology_getTSOTopology : Handler := mkHandler "getTSOTopology" [] [] false.
Definition topology_getSchedulingTopology : Handler := mkHandler "getSchedulingTopology" [] [] false.
Definition topology_getAlertManagerTopology : Handler := mkHandler "getAlertManagerTopology" [] [] false.
Definition topology_getAlertManagerCounts : Handler := mkHandler "getAlertManagerCounts" ["address"] [] false.
Definition topology_getGrafanaTopology : Handler := mkHandler "getGrafanaTopology" [] [] false.
Definition topology_getStoreLocationTopology : Handler := mkHandler "getStoreLocationTopology" [] [] false.
Definition host_getHostsInfo : Handler := mkHandler "getHostsInfo" [] [] false.
Definition host_getStatistics : Handler := mkHandler "getStatistics" [] [] false.
Definition resource_manager_GetConfig : Handler := mkHandler "GetConfig" [] [] false.
Definition resource_manager_GetInformation : Handler := mkHandler "GetInformation" [] [] false.
Definition resource_manager_resourceGroupNamesHandler : Handler := mkHandler "resourceGroupNamesHandler" [] [] false.
Definition resource_manager_GetCalibrateByHardware : Handler := mkHandler "GetCalibrateByHardware" [] ["workload"] false.
Definition resource_manager_GetCalibrateByActual : Handler := mkHandler "GetCalibrateByActual" [] ["start_time"; "end_time"] false.
Definition topsql_GetConfig : Handler := mkHandler "GetConfig" [] [] false.
Definition topsql_UpdateConfig : Handler := mkHandler "UpdateConfig" [] [] true.
Definition configuration_getHandler : Handler := mkHandler "getHandler" [] [] false.
Definition configuration_editHandler : Handler := mkHandler "editHandler" [] [] true.
Definition query_editor_runHandler : Handler := mkHandler "runHandler" [] [] true.
Definition debug_api_Download : Handler := mkHandler "Download" [] ["token"] false.
Definition debug_api_GetEndpoints : Handler := mkHandler "GetEndpoints" [] [] false.
Definition debug_api_RequestEndpoint : Handler := mkHandler "RequestEndpoint" [] [] true.
Definition deadlock_getList : Handler := mkHandler "getList" [] [] false.
Definition statements_downloadHandler : Handler := mkHandler "downloadHandler" [] ["token"] false.
Definition statements_downloadTokenHandler : Handler := mkHandler "downloadTokenHandler" [] [] true.
Definition statements_configHandler : Handler := mkHandler "configHandler" [] [] false.
Definition statements_modifyConfigHandler : Handler := mkHandler "modifyConfigHandler" [] [] true.
Definition statements_stmtTypesHandler : Handler := mkHandler "stmtTypesHandler" [] [] false.
Definition statements_listHandler : Handler := mkHandler "listHandler" [] ["schemas"; "resource_groups"; "stmt_types"; "begin_time"; "end_time"; "text"; "fields"] false.
Definition statements_plansHandler : Handler := mkHandler "plansHandler" [] ["schema_name"; "digest"; "begin_time"; "end_time"] false.
Definition statements_planDetailHandler : Handler := mkHandler "planDetailHandler" [] ["schema_name"; "digest"; "begin_time"; "end_time"; "plans"] false.
Definition statements_getAvailableFields : Handler := mkHandler "getAvailableFields" [] [] false.
Definition statements_getPlanBindingHandler : Handler := mkHandler "getPlanBindingHandler" [] ["sql_digest"; "begin_time"; "end_time"] false.
Definition statements_createPlanBindingHandler : Handler := mkHandler "createPlanBindingHandler" [] ["plan_digest"] false.
Definition statements_dropPlanBindingHandler : Handler := mkHandler "dropPlanBindingHandler" [] ["sql_digest"] false.
Definition diagnose_reportsHandler : Handler := mkHandler "reportsHandler" [] [] false.
Definition diagnose_genReportHandler : Handler := mkHandler "genReportHandler" [] [] true.
Definition diagnose_reportHTMLHandler : Handler := mkHandler "reportHTMLHandler" [] [] false.
Definition diagnose_reportDataHandler : Handler := mkHandler "reportDataHandler" ["id"] [] false.
Definition diagnose_reportStatusHandler : Handler := mkHandler "reportStatusHandler" ["id"] [] false.
Definition diagnose_metricsRelationHandler : Handler := mkHandler "metricsRelationHandler" [] [] true.
Definition diagnose_metricsRelationViewHandler : Handler := mkHandler "metricsRelationViewHandler" [] ["token"] false.
Definition diagnose_genDiagnosisHandler : Handler := mkHandler "genDiagnosisHandler" [] [] true.
Definition info_infoHandler : Handler := mkHandler "infoHandler" [] [] false.
Definition info_WhoamiHandler : Handler := mkHandler "WhoamiHandler" [] [] false.
Definition info_databasesHandler : Handler := mkHandler "databasesHandler" [] [] false.
Definition info_tablesHandler : Handler := mkHandler "tablesHandler" [] ["database_name"] false.
Definition visualplan_GenerateVisualPlan : Handler := mkHandler "GenerateVisualPlan" [] [] true.
Definition continuous_profiling_GenConprofActionToken : Handler := mkHandler "GenConprofActionToken" [] ["q"] false.
Definition keyvisual_getDynamicConfig : Handler := mkHandler "getDynamicConfig" [] [] false.
Definition keyvisual_setDynamicConfig : Handler := mkHandler "setDynamicConfig" [] [] true.
Definition keyvisual_heatmaps : Handler := mkHandler "heatmaps" [] ["startkey"; "endkey"; "starttime"; "endtime"; "type"] false.

Definition logs : Group := mkGroup ["logs"]
  [Handle "GET" [Lit "download"] [] (Func logs_DownloadLogs);
   Use [MWAuthRequired];
   Handle "GET" [Lit "download"; Lit "acquire_token"] [] (Func logs_GetDownloadToken);
   Handle "PUT" [Lit "taskgroup"] [] (Func logs_CreateTaskGroup);
   Handle "GET" [Lit "taskgroups"] [] (Func logs_GetAllTaskGroups);
   Handle "GET" [Lit "taskgroups"; Param "id"] [] (Func logs_GetTaskGroup);
   Handle "GET" [Lit "taskgroups"; Param "id"; Lit "preview"] [] (Func logs_GetTaskGroupPreview);
   Handle "POST" [Lit "taskgroups"; Param "id"; Lit "retry"] [] (Func logs_RetryTask);
   Handle "POST" [Lit "taskgroups"; Param "id"; Lit "cancel"] [] (Func logs_CancelTask);
   Handle "DELETE" [Lit "taskgroups"; Param "id"] [] (Func logs_DeleteTaskGroup)].
Definition share : Group := mkGroup ["user"; "share"]
  [Use [MWAuthRequired];
   Handle "POST" [Lit "code"] [MWRequireSharePriv] (Func share_ShareHandler);
   Handle "POST" [Lit "revoke"] [MWRequireSharePriv] (Func share_RevokeHandler)].
Definition sso : Group := mkGroup ["user"; "sso"]
  [Handle "GET" [Lit "auth_url"] [] (Func sso_getAuthURLHandler);
   Use [MWAuthRequired];
   Handle "GET" [Lit "impersonations"; Lit "list"] [] (Func sso_listImpersonationHandler);
   Handle "POST" [Lit "impersonation"] [MWRequireWritePriv] (Func sso_createImpersonationHandler);
   Handle "GET" [Lit "config"] [] (Func sso_getConfig);
   Handle "PUT" [Lit "config"] [MWRequireWritePriv] (Func sso_setConfig)].
Definition user : Group := mkGroup ["user"]
  [Handle "GET" [Lit "login_info"] [] (Func user_GetLoginInfoHandler);
   Handle "POST" [Lit "login"] [] (Func user_LoginHandler);
   Handle "GET" [Lit "sign_out_info"] [MWAuthRequired] (Func user_getSignOutInfoHandler)].
Definition profiling : Group := mkGroup ["profiling"]
  [Handle "GET" [Lit "group"; Lit "list"] [MWAuthRequired] (Func profiling_getGroupList);
   Handle "POST" [Lit "group"; Lit "start"] [MWAuthRequired] (Func profiling_handleStartGroup);
   Handle "GET" [Lit "group"; Lit "detail"; Param "groupId"] [MWAuthRequired] (Func profiling_getGroupDetail);
   Handle "POST" [Lit "group"; Lit "cancel"; Param "groupId"] [MWAuthRequired] (Func profiling_handleCancelGroup);
   Handle "DELETE" [Lit "group"; Lit "delete"; Param "groupId"] [MWAuthRequired] (Func profiling_deleteGroup);
   Handle "GET" [Lit "action_token"] [MWAuthRequired] (Func profiling_getActionToken);
   Handle "GET" [Lit "group"; Lit "download"] [] (Func profiling_downloadGroup);
   Handle "GET" [Lit "single"; Lit "download"] [] (Func profiling_downloadSingle);
   Handle "GET" [Lit "single"; Lit "view"] [] (Func profiling_viewSingle);
   Handle "GET" [Lit "config"] [MWAuthRequired] (Func profiling_getDynamicConfig);
   Handle "PUT" [Lit "config"] [MWAuthRequired; MWRequireWritePriv] (Func profiling_setDynamicConfig)].
Definition metrics : Group := mkGroup ["metrics"]
  [Use [MWAuthRequired];
   Handle "GET" [Lit "query"] [] (Func metrics_queryMetrics);
   Handle "GET" [Lit "prom_address"] [] (Func metrics_getPromAddressConfig);
   Handle "PUT" [Lit "prom_address"] [MWRequireWritePriv] (Func metrics_putCustomPromAddress)].
Definition slow_query : Group := mkGroup ["slow_query"]
  [Handle "GET" [Lit "download"] [] (Func slow_query_downloadHandler);
   Use [MWAuthRequired];
   Use [MWConnectTiDB];
   Handle "GET" [Lit "list"] [] (Func slow_query_getList);
   Handle "GET" [Lit "detail"] [] (Func slow_query_getDetails);
   Handle "POST" [Lit "download"; Lit "token"] [] (Func slow_query_downloadTokenHandler);
   Handle "GET" [Lit "available_fields"] [] (Func slow_query_getAvailableFields)].
Definition topology : Group := mkGroup ["topology"]
  [Use [MWAuthRequired];
   Handle "GET" [Lit "tidb"] [] (Func topology_getTiDBTopology);
   Handle "GET" [Lit "ticdc"] [] (Func topology_getTiCDCTopology);
   Handle "GET" [Lit "tiproxy"] [] (Func topology_getTiProxyTopology);
   Handle "DELETE" [Lit "tidb"; Param "address"] [] (Func topology_deleteTiDBTopology);
   Handle "GET" [Lit "store"] [] (Func topology_getStoreTopology);
   Handle "GET" [Lit "pd"] [] (Func topology_getPDTopology);
   Handle "GET" [Lit "tso"] [] (Func topology_getTSOTopology);
   Handle "GET" [Lit "scheduling"] [] (Func topology_getSchedulingTopology);
   Handle "GET" [Lit "alertmanager"] [] (Func topology_getAlertManagerTopology);
   Handle "GET" [Lit "alertmanager"; Param "address"; Lit "count"] [] (Func topology_getAlertManagerCounts);
   Handle "GET" [Lit "grafana"] [] (Func topology_getGrafanaTopology);
   Handle "GET" [Lit "store_location"] [] (Func topology_getStoreLocationTopology)].
Definition host : Group := mkGroup ["host"]
  [Use [MWAuthRequired];
   Use [MWConnectTiDB];
   Handle "GET" [Lit "all"] [] (Func host_getHostsInfo);
   Handle "GET" [Lit "statistics"] [] (Func host_getStatistics)].
Definition resource_manager : Group := mkGroup ["resource_manager"]
  [Use [MWAuthRequired; VersionGuard; MWConnectTiDB];
   Handle "GET" [Lit "config"] [] (Func resource_manager_GetConfig);
   Handle "GET" [Lit "information"] [] (Func resource_manager_GetInformation);
   Handle "GET" [Lit "information"; Lit "group_names"] [] (Func resource_manager_resourceGroupNamesHandler);
   Handle "GET" [Lit "calibrate"; Lit "hardware"] [] (Func resource_manager_GetCalibrateByHardware);
   Handle "GET" [Lit "calibrate"; Lit "actual"] [] (Func resource_manager_GetCalibrateByActual)].
Definition topsql : Group := mkGroup ["topsql"]
  [Use [MWAuthRequired; VersionGuard; MWConnectTiDB];
   Handle "GET" [Lit "config"] [] (Func topsql_GetConfig);
   Handle "POST" [Lit "config"] [MWRequireWritePriv] (Func topsql_UpdateConfig);
   Handle "GET" [Lit "instances"] [] (Proxy "/topsql/v1/instances");
   Handle "GET" [Lit "summary"] [] (Proxy "/topsql/v1/summary")].
Definition configuration : Group := mkGroup ["configuration"]
  [Use [MWAuthRequired];
   Use [MWConnectTiDB];
   Use [MWForbidByExperimentalFlag];
   Handle "GET" [Lit "all"] [] (Func configuration_getHandler);
   Handle "POST" [Lit "edit"] [MWRequireWritePriv] (Func configuration_editHandler)].
Definition query_editor : Group := mkGroup ["query_editor"]
  [Use [MWAuthRequired];
   Use [MWConnectTiDB];
   Use [MWForbidByExperimentalFlag];
   Handle "POST" [Lit "run"] [MWRequireWritePriv] (Func query_editor_runHandler)].
Definition debug_api : Group := mkGroup ["debug_api"]
  [Handle "GET" [Lit "download"] [] (Func debug_api_Download);
   Use [MWAuthRequired];
   Handle "GET" [Lit "endpoints"] [] (Func debug_api_GetEndpoints);
   Handle "POST" [Lit "endpoint"] [] (Func debug_api_RequestEndpoint)].
Definition deadlock : Group := mkGroup ["deadlock"]
  [Use [MWAuthRequired; MWConnectTiDB];
   Handle "GET" [Lit "list"] [] (Func deadlock_getList)].
Definition statements : Group := mkGroup ["statements"]
  [Handle "GET" [Lit "download"] [] (Func statements_downloadHandler);
   Use [MWAuthRequired];
   Use [MWConnectTiDB];
   Handle "POST" [Lit "download"; Lit "token"] [] (Func statements_downloadTokenHandler);
   Handle "GET" [Lit "config"] [] (Func statements_configHandler);
   Handle "POST" [Lit "config"] [MWRequireWritePriv] (Func statements_modifyConfigHandler);
   Handle "GET" [Lit "stmt_types"] [] (Func statements_stmtTypesHandler);
   Handle "GET" [Lit "list"] [] (Func statements_listHandler);
   Handle "GET" [Lit "plans"] [] (Func statements_plansHandler);
   Handle "GET" [Lit "plan"; Lit "detail"] [] (Func statements_planDetailHandler);
   Handle "GET" [Lit "available_fields"] [] (Func statements_getAvailableFields);
   Sub ["plan"; "binding"] [Use [VersionGuard]; Handle "GET" [] [] (Func statements_getPlanBindingHandler); Handle "POST" [] [] (Func statements_createPlanBindingHandler); Handle "DELETE" [] [] (Func statements_dropPlanBindingHandler)]].
Definition diagnose : Group := mkGroup ["diagnose"]
  [Handle "GET" [Lit "reports"] [MWAuthRequired] (Func diagnose_reportsHandler);
   Handle "POST" [Lit "reports"] [MWAuthRequired; MWConnectTiDB] (Func diagnose_genReportHandler);
   Handle "GET" [Lit "reports"; Param "id"; Lit "detail"] [] (Func diagnose_reportHTMLHandler);
   Handle "GET" [Lit "reports"; Param "id"; Lit "data.js"] [] (Func diagnose_reportDataHandler);
   Handle "GET" [Lit "reports"; Param "id"; Lit "status"] [MWAuthRequired] (Func diagnose_reportStatusHandler);
   Handle "POST" [Lit "metrics_relation"; Lit "generate"] [MWAuthRequired] (Func diagnose_metricsRelationHandler);
   Handle "GET" [Lit "metrics_relation"; Lit "view"] [] (Func diagnose_metricsRelationViewHandler);
   Handle "POST" [Lit "diagnosis"] [MWAuthRequired; MWConnectTiDB] (Func diagnose_genDiagnosisHandler)].
Definition info : Group := mkGroup ["info"]
  [Handle "GET" [Lit "info"] [] (Func info_infoHandler);
   Use [MWAuthRequired];
   Handle "GET" [Lit "whoami"] [] (Func info_WhoamiHandler);
   Use [MWConnectTiDB];
   Handle "GET" [Lit "databases"] [] (Func info_databasesHandler);
   Handle "GET" [Lit "tables"] [] (Func info_tablesHandler)].
Definition visualplan : Group := mkGroup ["visualplan"]
  [Use [MWAuthRequired; VersionGuard];
   Handle "POST" [Lit "generate"] [] (Func visualplan_GenerateVisualPlan)].
Definition continuous_profiling : Group := mkGroup ["continuous_profiling"]
  [Use [VersionGuard];
   Handle "GET" [Lit "config"] [MWAuthRequired] (Proxy "/config");
   Handle "POST" [Lit "config"] [MWAuthRequired; MWRequireWritePriv] (Proxy "/config");
   Handle "GET" [Lit "components"] [MWAuthRequired] (Proxy "/continuous_profiling/components");
   Handle "GET" [Lit "estimate_size"] [MWAuthRequired] (Proxy "/continuous_profiling/estimate_size");
   Handle "GET" [Lit "group_profiles"] [MWAuthRequired] (Proxy "/continuous_profiling/group_profiles");
   Handle "GET" [Lit "group_profile"; Lit "detail"] [MWAuthRequired] (Proxy "/continuous_profiling/group_profile/detail");
   Handle "GET" [Lit "action_token"] [MWAuthRequired] (Func continuous_profiling_GenConprofActionToken);
   Handle "GET" [Lit "download"] [parseJWTToken] (Proxy "/continuous_profiling/download");
   Handle "GET" [Lit "single_profile"; Lit "view"] [parseJWTToken] (Proxy "/continuous_profiling/single_profile/view")].
Definition keyvisual : Group := mkGroup ["keyvisual"]
  [Use [MWAuthRequired];
   Handle "GET" [Lit "config"] [] (Func keyvisual_getDynamicConfig);
   Handle "PUT" [Lit "config"] [MWRequireWritePriv] (Func keyvisual_setDynamicConfig);
   Use [MWHandleStopped];
   Handle "GET" [Lit "heatmaps"] [] (Func keyvisual_heatmaps)].

(** All of them, and where they are mounted. *)
Definition api : list Group := [logs; share; sso; user; profiling; metrics; slow_query; topology; host; resource_manager; topsql; configuration; query_editor; debug_api; deadlock; statements; diagnose; info; visualplan; continuous_profiling; keyvisual].
Definition root : list string := ["dashboard"; "api"].

(** The operations of the client and the handlers that are documented for them. *)
Definition contract : list (Client.Endpoint * Target) :=
  [(Endpoints.cancelProfilingGroup, Func profiling_handleCancelGroup);
   (Endpoints.clusterInfoGetHostsInfo, Func host_getHostsInfo);
   (Endpoints.clusterInfoGetStatistics, Func host_getStatistics);
   (Endpoints.configurationEdit, Func configuration_editHandler);
   (Endpoints.configurationGetAll, Func configuration_getHandler);
   (Endpoints.continuousProfilingActionTokenGet, Func continuous_profiling_GenConprofActionToken);
   (Endpoints.continuousProfilingComponentsGet, Proxy "/continuous_profiling/components");
   (Endpoints.continuousProfilingConfigGet, Proxy "/config");
   (Endpoints.continuousProfilingConfigPost, Proxy "/config");
   (Endpoints.continuousProfilingDownloadGet, Proxy "/continuous_profiling/download");
   (Endpoints.continuousProfilingEstimateSizeGet, Proxy "/continuous_profiling/estimate_size");
   (Endpoints.continuousProfilingGroupProfileDetailGet, Proxy "/continuous_profiling/group_profile/detail");
   (Endpoints.continuousProfilingGroupProfilesGet, Proxy "/continuous_profiling/group_profiles");
   (Endpoints.continuousProfilingSingleProfileViewGet, Proxy "/continuous_profiling/single_profile/view");
   (Endpoints.deadlockListGet, Func deadlock_getList);
   (Endpoints.debugAPIGetEndpoints, Func debug_api_GetEndpoints);
   (Endpoints.debugAPIRequestEndpoint, Func debug_api_RequestEndpoint);
   (Endpoints.debugApiDownloadGet, Func debug_api_Download);
   (Endpoints.deleteProfilingGroup, Func profiling_deleteGroup);
   (Endpoints.diagnoseDiagnosisPost, Func diagnose_genDiagnosisHandler);
   (Endpoints.diagnoseGenerateMetricsRelationship, Func diagnose_metricsRelationHandler);
   (Endpoints.diagnoseMetricsRelationViewGet, Func diagnose_metricsRelationViewHandler);
   (Endpoints.diagnoseReportsGet, Func diagnose_reportsHandler);
   (Endpoints.diagnoseReportsIdDataJsGet, Func diagnose_reportDataHandler);
   (Endpoints.diagnoseReportsIdDetailGet, Func diagnose_reportHTMLHandler);
   (Endpoints.diagnoseReportsIdStatusGet, Func diagnose_reportStatusHandler);
   (Endpoints.diagnoseReportsPost, Func diagnose_genReportHandler);
   (Endpoints.downloadProfilingGroup, Func profiling_downloadGroup);
   (Endpoints.downloadProfilingSingle, Func profiling_downloadSingle);
   (Endpoints.getActionToken, Func profiling_getActionToken);
   (Endpoints.getAlertManagerCounts, Func topology_getAlertManagerCounts);
   (Endpoints.getAlertManagerTopology, Func topology_getAlertManagerTopology);
   (Endpoints.getGrafanaTopology, Func topology_getGrafanaTopology);
   (Endpoints.getPDTopology, Func topology_getPDTopology);
   (Endpoints.getProfilingGroupDetail, Func profiling_getGroupDetail);
   (Endpoints.getProfilingGroups, Func profiling_getGroupList);
   (Endpoints.getSchedulingTopology, Func topology_getSchedulingTopology);
   (Endpoints.getStoreLocationTopology, Func topology_getStoreLocationTopology);
   (Endpoints.getStoreTopology, Func topology_getStoreTopology);
   (Endpoints.getTSOTopology, Func topology_getTSOTopology);
   (Endpoints.getTiCDCTopology, Func topology_getTiCDCTopology);
   (Endpoints.getTiDBTopology, Func topology_getTiDBTopology);
   (Endpoints.getTiProxyTopology, Func topology_getTiProxyTopology);
   (Endpoints.infoGet, Func info_infoHandler);
   (Endpoints.infoListDatabases, Func info_databasesHandler);
   (Endpoints.infoListTables, Func info_tablesHandler);
   (Endpoints.infoWhoami, Func info_WhoamiHandler);
   (Endpoints.keyvisualConfigGet, Func keyvisual_getDynamicConfig);
   (Endpoints.keyvisualConfigPut, Func keyvisual_setDynamicConfig);
   (Endpoints.keyvisualHeatmapsGet, Func keyvisual_heatmaps);
   (Endpoints.logsDownloadAcquireTokenGet, Func logs_GetDownloadToken);
   (Endpoints.logsDownloadGet, Func logs_DownloadLogs);
   (Endpoints.logsTaskgroupPut, Func logs_CreateTaskGroup);
   (Endpoints.logsTaskgroupsGet, Func logs_GetAllTaskGroups);
   (Endpoints.logsTaskgroupsIdCancelPost, Func logs_CancelTask);
   (Endpoints.logsTaskgroupsIdDelete, Func logs_DeleteTaskGroup);
   (Endpoints.logsTaskgroupsIdGet, Func logs_GetTaskGroup);
   (Endpoints.logsTaskgroupsIdPreviewGet, Func logs_GetTaskGroupPreview);
   (Endpoints.logsTaskgroupsIdRetryPost, Func logs_RetryTask);
   (Endpoints.metricsGetPromAddress, Func metrics_getPromAddressConfig);
   (Endpoints.metricsQueryGet, Func metrics_queryMetrics);
   (Endpoints.metricsSetCustomPromAddress, Func metrics_putCustomPromAddress);
   (Endpoints.profilingConfigGet, Func profiling_getDynamicConfig);
   (Endpoints.profilingConfigPut, Func profiling_setDynamicConfig);
   (Endpoints.queryEditorRun, Func query_editor_runHandler);
   (Endpoints.resourceManagerCalibrateActualGet, Func resource_manager_GetCalibrateByActual);
   (Endpoints.resourceManagerCalibrateHardwareGet, Func resource_manager_GetCalibrateByHardware);
   (Endpoints.resourceManagerConfigGet, Func resource_manager_GetConfig);
   (Endpoints.resourceManagerInformationGet, Func resource_manager_GetInformation);
   (Endpoints.resourceManagerInformationGroupNamesGet, Func resource_manager_resourceGroupNamesHandler);
   (Endpoints.slowQueryAvailableFieldsGet, Func slow_query_getAvailableFields);
   (Endpoints.slowQueryDetailGet, Func slow_query_getDetails);
   (Endpoints.slowQueryDownloadGet, Func slow_query_downloadHandler);
   (Endpoints.slowQueryDownloadTokenPost, Func slow_query_downloadTokenHandler);
   (Endpoints.slowQueryListGet, Func slow_query_getList);
   (Endpoints.startProfiling, Func profiling_handleStartGroup);
   (Endpoints.statementsAvailableFieldsGet, Func statements_getAvailableFields);
   (Endpoints.statementsConfigGet, Func statements_configHandler);
   (Endpoints.statementsConfigPost, Func statements_modifyConfigHandler);
   (Endpoints.statementsDownloadGet, Func statements_downloadHandler);
   (Endpoints.statementsDownloadTokenPost, Func statements_downloadTokenHandler);
   (Endpoints.statementsListGet, Func statements_listHandler);
   (Endpoints.statementsPlanBindingDelete, Func statements_dropPlanBindingHandler);
   (Endpoints.statementsPlanBindingGet, Func statements_getPlanBindingHandler);
   (Endpoints.statementsPlanBindingPost, Func statements_createPlanBindingHandler);
   (Endpoints.statementsPlanDetailGet, Func statements_planDetailHandler);
   (Endpoints.statementsPlansGet, Func statements_plansHandler);
   (Endpoints.statementsStmtTypesGet, Func statements_stmtTypesHandler);
   (Endpoints.topologyTidbAddressDelete, Func topology_deleteTiDBTopology);
   (Endpoints.topsqlConfigGet, Func topsql_GetConfig);
   (Endpoints.topsqlConfigPost, Func topsql_UpdateConfig);
   (Endpoints.topsqlInstancesGet, Proxy "/topsql/v1/instances");
   (Endpoints.topsqlSummaryGet, Proxy "/topsql/v1/summary");
   (Endpoints.userGetLoginInfo, Func user_GetLoginInfoHandler);
   (Endpoints.userGetSignOutInfo, Func user_getSignOutInfoHandler);
   (Endpoints.userLogin, Func user_LoginHandler);
   (Endpoints.userRevokeSession, Func share_RevokeHandler);
   (Endpoints.userSSOCreateImpersonation, Func sso_createImpersonationHandler);
   (Endpoints.userSSOGetAuthURL, Func sso_getAuthURLHandler);
   (Endpoints.userSSOGetConfig, Func sso_getConfig);
   (Endpoints.userSSOListImpersonations, Func sso_listImpersonationHandler);
   (Endpoints.userSSOSetConfig, Func sso_setConfig);
   (Endpoints.userShareSession, Func share_ShareHandler);
   (Endpoints.viewProfilingSingle, Func profiling_viewSingle)].
End Routes.

(** ** Every request reaches its handler *)

Module Contract.
Import Router Routes.
#[local] Abbreviation Endpoint := Client.Endpoint.

(** The base path of the client (client/api/base.ts). *)
Definition BASE_PATH : string := "/dashboard/api".

(** The pattern of an operation and the parameters of its path. *)
Definition pattern (e : Endpoint) : list Seg := map Lit root ++ map (fun s => match s with Client.Lit s => Lit s | Client.Arg a => Param a end) (Client.path e).
Definition path_args (e : Endpoint) (args : Client.Args) : params := omap (fun s => match s with Client.Lit _ => None | Client.Arg a => Some (a, Paths.said args s) end) (Client.path e).
Definition arg_names (e : Endpoint) : list string := omap (fun s => match s with Client.Lit _ => None | Client.Arg a => Some a end) (Client.path e).

(** *** What is checked of every operation *)

Definition unique (r : Route) : bool :=
  forallb (fun r' => negb (bool_decide (r_method r' = r_method r)) || apart (r_pattern r') (r_pattern r) || bool_decide (r' = r)) (routes root api).
Definition reads (e : Endpoint) (t : Target) : bool :=
  match t with
  | Func h => forallb (fun n => bool_decide (n ∈ h_query h)) (Client.names e) && forallb (fun n => bool_decide (n ∈ arg_names e)) (h_path h) && Bool.eqb (h_json h) (bool_decide (is_Some (Client.body e)))
  | Proxy _ => true
  end.
Definition served_by (e : Endpoint) (t : Target) (r : Route) : bool :=
  bool_decide (r_method r = Client.method e) && bool_decide (r_pattern r = pattern e) && bool_decide (r_target r = t) && (negb (bool_decide (MWAuthRequired ∈ r_chain r)) || Client.auth e).
Definition asserted (e : Endpoint) : bool := match Client.body e with Some a => bool_decide (a ∈ Client.required e) | None => true end.
Definition agrees (p : Endpoint * Target) : bool :=
  existsb (served_by (fst p) (snd p)) (routes root api) && reads (fst p) (snd p) && asserted (fst p) && bool_decide (NoDup (Client.names (fst p))) &&
  forallb Endpoints.literal (Client.path (fst p)) && bool_decide (Client.path (fst p) <> []).

(** *** What a handler gets *)

Section Handling.
(** The library of tokens: the issuer and the data of a token that is valid. *)
Context (verified : string -> option (string * string)).

Definition ParseJWTString (requiredIssuer tokenStr : string) : option string :=
  match verified tokenStr with Some (issuer, data) => if bool_decide (issuer = requiredIssuer) then Some data else None | None => None end.
(** The first value of a name in the query, or nothing. *)
Definition Query (name query : string) : string := from_option snd "" (find (fun p => bool_decide (fst p = name)) (parse_query query)).

(** [parseJWTToken] replaces the query by the data of the token in it, or ends the request; a proxy
    passes the query on, once the address of the other server is known. *)
Inductive Outcome := Handled (h : Handler) (query : string) | Forwarded (path query : string) | Aborted.
Definition handled_query (chain : list Middleware) (query : string) : option string :=
  if bool_decide (parseJWTToken ∈ chain) then ParseJWTString "conprof" (Query "token" query) else Some query.
Definition dispatch (chain : list Middleware) (t : Target) (query : string) : Outcome :=
  match handled_query chain query, t with
  | None, _ => Aborted
  | Some query, Func h => Handled h query
  | Some query, Proxy path => Forwarded path query
  end.
End Handling.

(** The operations whose routes ask for a token, which they have no parameter for. *)
Definition tokenless : list Endpoint := [Endpoints.continuousProfilingDownloadGet; Endpoints.continuousProfilingSingleProfileViewGet].
Definition passes (p : Endpoint * Target) : bool :=
  forallb (fun r => negb (served_by (fst p) (snd p) r) || negb (bool_decide (parseJWTToken ∈ r_chain r)) ||
                    (bool_decide (fst p ∈ tokenless) && bool_decide ("token" ∉ Client.names (fst p)))) (routes root api) &&
  (match snd p with Func _ => bool_decide (fst p ∉ tokenless) | Proxy _ => true end).

Lemma routes_unique : forallb unique (routes root api) = true.
Proof. vm_compute. reflexivity. Qed.
Lemma contract_agrees : forallb agrees contract = true.
Proof. vm_compute. reflexivity. Qed.

Lemma contract_passes : forallb passes contract = true.
Proof. vm_compute. reflexivity. Qed.

(** Every operation of the client is documented. *)
Lemma contract_total : map fst contract = Endpoints.all.
Proof. reflexivity. Qed.

Lemma agrees_spec e t : (e, t) ∈ contract -> exists r,
  r ∈ routes root api /\ r_method r = Client.method e /\ r_pattern r = pattern e /\ r_target r = t /\ (MWAuthRequired ∈ r_chain r -> Client.auth e = true) /\
  reads e t = true /\ asserted e = true /\ NoDup (Client.names e) /\ forallb Endpoints.literal (Client.path e) = true /\ Client.path e <> [].
Proof.
  intros Hc. pose proof (proj1 (forallb_forall _ _) contract_agrees (e, t) (proj1 (list_elem_of_In _ _) Hc)) as H. unfold agrees in H. cbn [fst snd] in H.
  apply andb_true_iff in H as [[[[[H Hr]%andb_true_iff Ha]%andb_true_iff Hn]%andb_true_iff Hl]%andb_true_iff Hp].
  apply existsb_exists in H as (r & Hin & H). unfold served_by in H. apply andb_true_iff in H as [[[H1 H2]%andb_true_iff H3]%andb_true_iff H4].
  apply bool_decide_eq_true in Hn, Hp, H1, H2, H3. exists r. split_and!; try done; [by apply list_elem_of_In|].
  intros Hm. by rewrite bool_decide_eq_true_2 in H4.
Qed.

Lemma only_route r r' segs : r ∈ routes root api -> r' ∈ routes root api -> r_method r' = r_method r -> bind (r_pattern r) segs <> None -> bind (r_pattern r') segs <> None -> r' = r.
Proof.
  intros Hr Hr' Hm Hb Hb'. pose proof (proj1 (forallb_forall _ _) routes_unique r (proj1 (list_elem_of_In _ _) Hr)) as H. unfold unique in H.
  pose proof (proj1 (forallb_forall _ _) H r' (proj1 (list_elem_of_In _ _) Hr')) as H'. cbn beta in H'. rewrite (bool_decide_eq_true_2 _ Hm) in H'. cbn in H'.
  apply orb_true_iff in H' as [Ha|He]; [|by apply bool_decide_eq_true in He]. by rewrite (apart_spec _ _ _ Ha Hb') in Hb.
Qed.

Lemma bind_lits l p segs : bind (map Lit l ++ p) (l ++ segs) = bind p segs.
Proof. induction l as [|s l IH]; [done|]. cbn. by rewrite bool_decide_eq_true_2. Qed.

Lemma bind_said e args : Forall Paths.segment_text (map (Paths.said args) (Client.path e)) ->
  bind (pattern e) (root ++ map (Paths.said args) (Client.path e)) = Some (path_args e args).
Proof.
  intros Hs. unfold pattern. rewrite bind_lits. unfold path_args. induction (Client.path e) as [|[s|a] l IH]; [done| |]; cbn [map omap list_omap bind];
    apply Forall_cons in Hs as [(Hne & _) Hs]; specialize (IH Hs).
  - by rewrite bool_decide_eq_true_2.
  - cbn [Paths.said] in Hne |- *. rewrite (proj2 (truthy_string_spec _)) by done. unfold omap in IH. by rewrite IH.
Qed.

(** The path as the server sees it. *)
Lemma path_decoded l : Forall Paths.segment_text l -> l <> [] ->
  decodeURIComponent (BASE_PATH +:+ ("/" +:+ js_join "/" (map encodeURIComponent l))) = Some ("/" +:+ js_join "/" (root ++ l)).
Proof.
  intros Hl Hne. pose proof (Paths.decode_joined (root ++ l)) as H. rewrite map_app in H.
  assert (E : js_join "/" (map encodeURIComponent root ++ map encodeURIComponent l) = "dashboard/api/" +:+ js_join "/" (map encodeURIComponent l)) by (by destruct l).
  assert (E' : BASE_PATH +:+ ("/" +:+ js_join "/" (map encodeURIComponent l)) = String "/" ("dashboard/api/" +:+ js_join "/" (map encodeURIComponent l))) by done.
  rewrite E', <- E. unfold decodeURIComponent in *. cbn [decode_go]. rewrite decide_False by done. rewrite H; [done|].
  apply Forall_app. split; [by repeat constructor|]. eapply Forall_impl; [exact Hl|]. by intros s (_ & _ & _ & Hu).
Qed.

Lemma path_arg_given e args n : n ∈ arg_names e -> is_Some (list_to_map (M := gmap string string) (path_args e args) !! n).
Proof.
  unfold arg_names, path_args. induction (Client.path e) as [|[s|a] l IH]; cbn; [by intros ?%elem_of_nil|exact IH|].
  intros [->|Hn]%elem_of_cons; [by rewrite lookup_insert_eq|]. destruct (decide (n = a)) as [->|Hne]; [by rewrite lookup_insert_eq|]. rewrite lookup_insert_ne by done. by apply IH.
Qed.

(** A request of an operation. *)
Lemma request_shape {Json} (stringify : Json -> string) c e args b o r : Client.request stringify c e args b o = inr r ->
  Client.r_method r = Client.method e /\
  Client.r_url r = Url.pathname (Client.localVarPath e args) +:+ Client.search (Client.setSearchParams (Client.localVarQueryParameter e args)) /\
  (asserted e = true -> is_Some (Client.body e) -> is_Some (Client.r_data r)) /\
  (Client.auth e = true -> forall cfg f, c = Some cfg -> Client.apiKey cfg = Some (Client.KeyOf f) ->
    Client.headers o !! "Authorization" = None -> Client.base_headers cfg !! "Authorization" = None -> Client.r_headers r !! "Authorization" = Some (f "Authorization")).
Proof.
  unfold Client.request. destruct (Client.assertParamExists _ _ _) as [|] eqn:Ha; [done|]. intros [= <-]. cbn [Client.r_method Client.r_url Client.r_data Client.r_headers]. split_and!; [done|done| |].
  - unfold asserted. intros Hb [a Ea]. rewrite Ea in *. apply bool_decide_eq_true in Hb. unfold Client.assertParamExists in Ha.
    pose proof (find_none _ _ Ha a (proj1 (list_elem_of_In _ _) Hb)) as H. cbn beta in H. rewrite Ea, bool_decide_eq_true_2 in H by done.
    destruct b as [v|]; [by eexists|done].
  - intros -> cfg f -> Hk Ho Hh. rewrite lookup_union_r by done. cbn [from_option]. rewrite lookup_union_r by done.
    unfold Client.setApiKeyToObject. cbn [mbind option_bind]. rewrite Hk. destruct (Client.body e); [rewrite lookup_insert_ne by done|]; by rewrite lookup_singleton_eq.
Qed.

(** A request is served by its route and no other. *)
Lemma request_route `{GinLaws} {Json} (stringify : Json -> string) c e t args b o r ro :
  ro ∈ routes root api -> r_method ro = Client.method e -> r_pattern ro = pattern e -> r_target ro = t -> forallb Endpoints.literal (Client.path e) = true -> Client.path e <> [] ->
  Paths.path_ok e args -> Client.request stringify c e args b o = inr r ->
  serve root api (Client.r_method r) (BASE_PATH +:+ Url.pathname (Client.localVarPath e args)) = Some (r_chain ro, t, path_args e args).
Proof.
  intros Hin Hm Hpat Ht Hlit Hne Hp Hr. destruct (request_shape _ _ _ _ _ _ _ Hr) as (Rm & _). pose proof (Paths.said_ok e args Hlit Hp) as Hs.
  rewrite Rm, <- Ht. assert (Hb : bind (r_pattern ro) (root ++ map (Paths.said args) (Client.path e)) = Some (path_args e args)) by (rewrite Hpat; by apply bind_said).
  apply (serve_match root api _ _ (root ++ map (Paths.said args) (Client.path e)) ro); try done.
  - rewrite Paths.pathname_said by done. apply path_decoded; [done|]. by destruct (Client.path e).
  - apply Forall_app. split; [by repeat constructor|]. eapply Forall_impl; [exact Hs|]. by intros s (_ & _ & Hs' & _).
  - intros r' Hr' Hm' Hb'. apply (only_route ro r' _ Hin Hr' ltac:(congruence) ltac:(by rewrite Hb) Hb').
Qed.

(** What a served request says. *)
Lemma request_served `{GinLaws} {Json} (stringify : Json -> string) c e t args b o r :
  (e, t) ∈ contract -> Paths.path_ok e args -> Client.request stringify c e args b o = inr r ->
  exists path query chain, Client.r_url r = path +:+ query /\
    serve root api (Client.r_method r) (BASE_PATH +:+ path) = Some (chain, t, path_args e args) /\ parse_query query = Client.given e args.
Proof.
  intros Hc Hp Hr. destruct (agrees_spec e t Hc) as (ro & Hin & Hm & Hpat & Ht & _ & _ & _ & Hnd & Hlit & Hne). destruct (request_shape _ _ _ _ _ _ _ Hr) as (_ & Ru & _).
  eexists _, _, _. split_and!; [exact Ru|by eapply request_route|by apply Client.query_given].
Qed.

Lemma passes_spec e t ro : (e, t) ∈ contract -> ro ∈ routes root api -> r_method ro = Client.method e -> r_pattern ro = pattern e -> r_target ro = t ->
  (MWAuthRequired ∈ r_chain ro -> Client.auth e = true) ->
  (parseJWTToken ∈ r_chain ro -> e ∈ tokenless /\ "token" ∉ Client.names e) /\ (forall h, t = Func h -> e ∉ tokenless).
Proof.
  intros Hc Hin Hm Hpat Ht Hauth. pose proof (proj1 (forallb_forall _ _) contract_passes (e, t) (proj1 (list_elem_of_In _ _) Hc)) as H. unfold passes in H. cbn [fst snd] in H.
  apply andb_true_iff in H as [H Hf]. pose proof (proj1 (forallb_forall _ _) H ro (proj1 (list_elem_of_In _ _) Hin)) as H'. cbn beta in H'. split.
  - intros Hj. assert (Hs : served_by e t ro = true).
    { unfold served_by. rewrite (bool_decide_eq_true_2 _ Hm), (bool_decide_eq_true_2 _ Hpat), (bool_decide_eq_true_2 _ Ht). cbn.
      destruct (bool_decide (MWAuthRequired ∈ _)) eqn:Ha; [|done]. apply bool_decide_eq_true in Ha. by apply Hauth. }
    rewrite Hs, (bool_decide_eq_true_2 _ Hj) in H'. cbn in H'. apply andb_true_iff in H' as [H1%bool_decide_eq_true H2%bool_decide_eq_true]. done.
  - intros h ->. by apply bool_decide_eq_true in Hf.
Qed.

Lemma no_value n query l : parse_query query = l -> n ∉ map fst l -> Query n query = "".
Proof.
  intros <- Hn. unfold Query. destruct (find _ _) as [p|] eqn:E; [|done]. apply find_some in E as [Hp E]. apply bool_decide_eq_true in E.
  exfalso. apply Hn. rewrite <- E. apply (list_elem_of_fmap_2 fst). by apply list_elem_of_In.
Qed.



End Contract.
