(* ===== verification/DataSources.v ===== *)
(** * The data sources of the distributions (src/apps/*/context.ts of tidb-dashboard-for-op and
      tidb-dashboard-for-clinic-cloud)

    A page asks for its data by the methods of a data source, with arguments by position; the methods
    of the two distributions put them under names into a call of the client.  Module [Call] is such a
    method, [Op] and [Cloud] have all of those that are a call of the client and nothing else, and
    [Handled] follows the arguments to the handlers of the server.  [SlowQuery] has the methods of the
    clinic that answer from a list that the page keeps, choose what they call or write their requests
    themselves; [TopSlowQuery] and [TimeRanges] write theirs, too. *)

From Stdlib Require Import Ascii.
From S2P Require Import Prelude JsString JsNumber Uri SlowQueryPages ApiClient ApiServer.
Import Client.
Local Open Scope Z_scope.

(** ** A method of a data source *)

Module Call.
(** The options of the page, or those of the method. *)
Inductive Passing := Passed | Custom.
(** [adds]: the fields of the body that are said once more, under other names. *)
Record Method := mkMethod { params_ : list string; op : Endpoint; passed : list string; options : Passing; adds : list (string * string) }.

#[global] Instance passing_eq_dec : EqDecision Passing.
Proof. solve_decision. Defined.
#[global] Instance method_eq_dec : EqDecision Method.
Proof. solve_decision. Defined.

(** The arguments by their names, and those that are passed on. *)
Definition arguments (m : Method) (vals : list (option Value)) : Args := list_to_map (omap (fun p => pair (fst p) <$> snd p) (zip (params_ m) vals)).
Definition requestParameters (m : Method) (vals : list (option Value)) : Args := filter (fun p => fst p ∈ passed m) (arguments m vals).
Definition lost (m : Method) : list string := filter (fun p => p ∉ passed m) (params_ m).

Definition options_of (m : Method) (o : Options) : Options :=
  match options m with Passed => o | Custom => mkOptions ∅ {[ "handleError" := "custom" ]} end.

Definition call {Json} (stringify : Json -> string) (c : option Configuration) (m : Method) (vals : list (option Value)) (b : option (string + Json)) (o : Options) : string + RequestArgs Json :=
  request stringify c (op m) (requestParameters m vals) b (options_of m o).

(** What a page gives for a parameter: a plain value, or the object that is sent as the body.  A field
    of an object may be undefined. *)
Section Bodies.
Context {J : Type}.
Definition Fields : Type := list (string * option J).
Inductive Argument := Plain (v : Value) | Object (f : Fields).

Fixpoint set_field (n : string) (x : option J) (f : Fields) : Fields :=
  match f with
  | [] => [(n, x)]
  | (n', y) :: f => if bool_decide (n' = n) then (n, x) :: f else (n', y) :: set_field n x f
  end.
Definition field (n : string) (f : Fields) : option J := find (fun p => bool_decide (fst p = n)) f ≫= snd.
(** [{ ...req, id: req.api_id, params: req.param_values }] *)
Definition extended (l : list (string * string)) (req : Fields) : Fields := fold_left (fun f '(n, from) => set_field n (field from req) f) l req.

Definition values (args : list (option Argument)) : list (option Value) :=
  map (fun a => match a with Some (Plain v) => Some v | _ => None end) args.
Definition object (m : Method) (p : string) (a : option Argument) : option Fields :=
  match a with Some (Object f) => if bool_decide (body (op m) = Some p /\ p ∈ passed m) then Some (extended (adds m) f) else None | _ => None end.
Definition body_given (m : Method) (args : list (option Argument)) : option Fields :=
  head (omap (fun p => object m (fst p) (snd p)) (zip (params_ m) args)).

Definition invoke (stringify : Fields -> string) (c : option Configuration) (m : Method) (args : list (option Argument)) (o : Options) : string + RequestArgs Fields :=
  call stringify c m (values args) (inr <$> body_given m args) o.

(** The types of the methods: an object is given for the body and for nothing else. *)
Definition fits (m : Method) (args : list (option Argument)) : bool :=
  forallb (fun p => match snd p with
                    | Some (Object _) => bool_decide (body (op m) = Some (fst p))
                    | Some (Plain _) => negb (bool_decide (body (op m) = Some (fst p)))
                    | None => true end) (zip (params_ m) args).

Lemma values_lookup args i v : args !! i = Some (Some (Plain v)) -> values args !! i = Some (Some v).
Proof. intros H. unfold values. by rewrite list_lookup_fmap, H. Qed.

Lemma fits_lookup m args i p a : fits m args = true -> params_ m !! i = Some p -> args !! i = Some (Some a) ->
  match a with Plain _ => body (op m) <> Some p | Object _ => body (op m) = Some p end.
Proof.
  unfold fits. intros H Hp Ha. assert (Hin : (p, Some a) ∈ zip (params_ m) args) by (apply list_elem_of_lookup; exists i; rewrite lookup_zip_with, Hp; cbn; by rewrite Ha).
  pose proof (proj1 (forallb_forall _ _) H _ (proj1 (list_elem_of_In _ _) Hin)) as Hx. cbn in Hx. destruct a; [apply negb_true_iff, bool_decide_eq_false in Hx|apply bool_decide_eq_true in Hx]; done.
Qed.

Lemma body_given_lookup m args i p f : NoDup (params_ m) -> body (op m) = Some p -> p ∈ passed m -> params_ m !! i = Some p -> args !! i = Some (Some (Object f)) ->
  body_given m args = Some (extended (adds m) f).
Proof.
  unfold body_given. intros Hn Hb Hin. revert args i. assert (Hg : forall ps args i, NoDup ps -> ps !! i = Some p -> args !! i = Some (Some (Object f)) ->
    head (omap (fun q => object m (fst q) (snd q)) (zip ps args)) = Some (extended (adds m) f)); [|intros; by eapply Hg].
  clear Hn. induction ps as [|q ps IH]; intros args i Hn Hp Ha; [done|]. apply NoDup_cons in Hn as [Hq Hn]. destruct args as [|a args]; [done|]. destruct i as [|i]; cbn in Hp, Ha.
  - injection Hp as ->. injection Ha as ->. cbn. by rewrite bool_decide_eq_true_2.
  - assert (Hne : q <> p) by (intros ->; by apply list_elem_of_lookup_2 in Hp). specialize (IH args i Hn Hp Ha).
    cbn. destruct a as [[v|g]|]; cbn; try exact IH. rewrite bool_decide_eq_false_2; [exact IH|]. intros [E _]. congruence.
Qed.

Lemma extended_none f : extended [] f = f.
Proof. done. Qed.
End Bodies.
Arguments Fields : clear implicits.
Arguments Argument : clear implicits.

Lemma arguments_lookup m vals i p v : NoDup (params_ m) -> params_ m !! i = Some p -> vals !! i = Some (Some v) -> arguments m vals !! p = Some v.
Proof.
  unfold arguments. revert vals i. induction (params_ m) as [|q l IH]; intros vals i Hn Hp Hv; [done|]. apply NoDup_cons in Hn as [Hq Hn].
  destruct vals as [|v0 vals]; [done|]. destruct i as [|i]; cbn in Hp, Hv.
  - injection Hp as ->. injection Hv as ->. cbn. apply lookup_insert_eq.
  - assert (Hne : q <> p) by (intros ->; apply Hq; by apply list_elem_of_lookup_2 in Hp). specialize (IH vals i Hn Hp Hv).
    destruct v0 as [v0|]; cbn; [by rewrite lookup_insert_ne|exact IH].
Qed.

Lemma passed_lookup m vals i p v : NoDup (params_ m) -> params_ m !! i = Some p -> vals !! i = Some (Some v) -> p ∉ lost m -> requestParameters m vals !! p = Some v.
Proof.
  intros Hn Hp Hv Hl. unfold requestParameters. apply map_lookup_filter_Some. split; [by apply (arguments_lookup m vals i)|]. cbn.
  destruct (decide (p ∈ passed m)) as [|Hne]; [done|]. exfalso. apply Hl. apply list_elem_of_filter. split; [done|]. by apply list_elem_of_lookup_2 in Hp.
Qed.

(** Methods send the same when they are given the same for all that is passed on. *)
Lemma same_passed m vals vals' : Forall2 (fun p vv => p ∈ passed m -> fst vv = snd vv) (params_ m) (zip vals vals') -> length vals = length vals' ->
  requestParameters m vals = requestParameters m vals'.
Proof.
  unfold requestParameters, arguments. revert vals vals'. induction (params_ m) as [|p l IH]; intros vals vals' Hf Hl; [done|].
  destruct vals as [|v vals], vals' as [|v' vals']; try done; try by inversion Hf. apply Forall2_cons in Hf as [Hp Hf]. specialize (IH vals vals' Hf ltac:(by injection Hl)). cbn [fst snd] in Hp.
  assert (Hskip : forall x (a : Args), p ∉ passed m -> filter (fun q : string * Value => fst q ∈ passed m) (<[p:=x]> a) = filter (fun q : string * Value => fst q ∈ passed m) a).
  { intros x a Hn. by apply map_filter_insert_not. }
  destruct (decide (p ∈ passed m)) as [Hin|Hn].
  - rewrite (Hp Hin). destruct v' as [x|]; cbn; [|exact IH]. rewrite !map_filter_insert_True by done. f_equal. exact IH.
  - destruct v, v'; cbn; rewrite ?Hskip by done; exact IH.
Qed.
End Call.

(** ** tidb-dashboard-for-op *)

Module Op.
Import Call.
Definition ClusterInfo_clusterInfoGetHostsInfo : Method := mkMethod [] Endpoints.clusterInfoGetHostsInfo [] Passed [].
Definition ClusterInfo_getStoreLocationTopology : Method := mkMethod [] Endpoints.getStoreLocationTopology [] Passed [].
Definition ClusterInfo_getTiDBTopology : Method := mkMethod [] Endpoints.getTiDBTopology [] Passed [].
Definition ClusterInfo_getStoreTopology : Method := mkMethod [] Endpoints.getStoreTopology [] Passed [].
Definition ClusterInfo_getPDTopology : Method := mkMethod [] Endpoints.getPDTopology [] Passed [].
Definition ClusterInfo_getTiCDCTopology : Method := mkMethod [] Endpoints.getTiCDCTopology [] Passed [].
Definition ClusterInfo_getTiProxyTopology : Method := mkMethod [] Endpoints.getTiProxyTopology [] Passed [].
Definition ClusterInfo_getTSOTopology : Method := mkMethod [] Endpoints.getTSOTopology [] Passed [].
Definition ClusterInfo_getSchedulingTopology : Method := mkMethod [] Endpoints.getSchedulingTopology [] Passed [].
Definition ClusterInfo_topologyTidbAddressDelete : Method := mkMethod ["address"] Endpoints.topologyTidbAddressDelete ["address"] Passed [].
Definition ClusterInfo_clusterInfoGetStatistics : Method := mkMethod [] Endpoints.clusterInfoGetStatistics [] Passed [].
Definition Configuration_configurationEdit : Method := mkMethod ["request"] Endpoints.configurationEdit ["request"] Passed [].
Definition Configuration_configurationGetAll : Method := mkMethod [] Endpoints.configurationGetAll [] Passed [].
Definition ContinuousProfiling_continuousProfilingActionTokenGet : Method := mkMethod ["q"] Endpoints.continuousProfilingActionTokenGet ["q"] Passed [].
Definition ContinuousProfiling_continuousProfilingComponentsGet : Method := mkMethod [] Endpoints.continuousProfilingComponentsGet [] Passed [].
Definition ContinuousProfiling_continuousProfilingConfigGet : Method := mkMethod [] Endpoints.continuousProfilingConfigGet [] Passed [].
Definition ContinuousProfiling_continuousProfilingConfigPost : Method := mkMethod ["request"] Endpoints.continuousProfilingConfigPost ["request"] Passed [].
Definition ContinuousProfiling_continuousProfilingDownloadGet : Method := mkMethod ["ts"] Endpoints.continuousProfilingDownloadGet ["ts"] Passed [].
Definition ContinuousProfiling_continuousProfilingEstimateSizeGet : Method := mkMethod [] Endpoints.continuousProfilingEstimateSizeGet [] Passed [].
Definition ContinuousProfiling_continuousProfilingGroupProfileDetailGet : Method := mkMethod ["ts"] Endpoints.continuousProfilingGroupProfileDetailGet ["ts"] Passed [].
Definition ContinuousProfiling_continuousProfilingGroupProfilesGet : Method := mkMethod ["beginTime"; "endTime"] Endpoints.continuousProfilingGroupProfilesGet ["beginTime"; "endTime"] Passed [].
Definition ContinuousProfiling_continuousProfilingSingleProfileViewGet : Method := mkMethod ["address"; "component"; "profileType"; "ts"] Endpoints.continuousProfilingSingleProfileViewGet ["address"; "component"; "profileType"; "ts"] Passed [].
Definition ContinuousProfiling_getTiDBTopology : Method := mkMethod [] Endpoints.getTiDBTopology [] Passed [].
Definition ContinuousProfiling_getStoreTopology : Method := mkMethod [] Endpoints.getStoreTopology [] Passed [].
Definition ContinuousProfiling_getPDTopology : Method := mkMethod [] Endpoints.getPDTopology [] Passed [].
Definition Deadlock_deadlockListGet : Method := mkMethod [] Endpoints.deadlockListGet [] Passed [].
Definition DebugAPI_debugAPIGetEndpoints : Method := mkMethod [] Endpoints.debugAPIGetEndpoints [] Passed [].
Definition DebugAPI_debugAPIRequestEndpoint : Method := mkMethod ["req"] Endpoints.debugAPIRequestEndpoint ["req"] Passed [("id", "api_id"); ("params", "param_values")].
Definition DebugAPI_infoListDatabases : Method := mkMethod [] Endpoints.infoListDatabases [] Passed [].
Definition DebugAPI_infoListTables : Method := mkMethod ["databaseName"] Endpoints.infoListTables ["databaseName"] Passed [].
Definition DebugAPI_getTiDBTopology : Method := mkMethod [] Endpoints.getTiDBTopology [] Passed [].
Definition DebugAPI_getStoreTopology : Method := mkMethod [] Endpoints.getStoreTopology [] Passed [].
Definition DebugAPI_getPDTopology : Method := mkMethod [] Endpoints.getPDTopology [] Passed [].
Definition DebugAPI_getTiProxyTopology : Method := mkMethod [] Endpoints.getTiProxyTopology [] Passed [].
Definition Diagnose_diagnoseDiagnosisPost : Method := mkMethod ["request"] Endpoints.diagnoseDiagnosisPost ["request"] Passed [].
Definition InstanceProfiling_getActionToken : Method := mkMethod ["id"; "action"] Endpoints.getActionToken ["id"; "action"] Passed [].
Definition InstanceProfiling_getProfilingGroupDetail : Method := mkMethod ["groupId"] Endpoints.getProfilingGroupDetail ["groupId"] Passed [].
Definition InstanceProfiling_getProfilingGroups : Method := mkMethod [] Endpoints.getProfilingGroups [] Passed [].
Definition InstanceProfiling_startProfiling : Method := mkMethod ["req"] Endpoints.startProfiling ["req"] Passed [].
Definition InstanceProfiling_continuousProfilingConfigGet : Method := mkMethod [] Endpoints.continuousProfilingConfigGet [] Passed [].
Definition InstanceProfiling_getTiDBTopology : Method := mkMethod [] Endpoints.getTiDBTopology [] Passed [].
Definition InstanceProfiling_getStoreTopology : Method := mkMethod [] Endpoints.getStoreTopology [] Passed [].
Definition InstanceProfiling_getPDTopology : Method := mkMethod [] Endpoints.getPDTopology [] Passed [].
Definition InstanceProfiling_getTiCDCTopology : Method := mkMethod [] Endpoints.getTiCDCTopology [] Passed [].
Definition InstanceProfiling_getTiProxyTopology : Method := mkMethod [] Endpoints.getTiProxyTopology [] Passed [].
Definition InstanceProfiling_getTSOTopology : Method := mkMethod [] Endpoints.getTSOTopology [] Passed [].
Definition InstanceProfiling_getSchedulingTopology : Method := mkMethod [] Endpoints.getSchedulingTopology [] Passed [].
Definition KeyViz_keyvisualConfigGet : Method := mkMethod [] Endpoints.keyvisualConfigGet [] Passed [].
Definition KeyViz_keyvisualConfigPut : Method := mkMethod ["request"] Endpoints.keyvisualConfigPut ["request"] Passed [].
Definition KeyViz_keyvisualHeatmapsGet : Method := mkMethod ["startkey"; "endkey"; "starttime"; "endtime"; "type"] Endpoints.keyvisualHeatmapsGet ["startkey"; "endkey"; "starttime"; "type"] Passed [].
Definition Monitoring_metricsQueryGet : Method := mkMethod ["endTimeSec"; "query"; "startTimeSec"; "stepSec"] Endpoints.metricsQueryGet ["endTimeSec"; "query"; "startTimeSec"; "stepSec"] Custom [].
Definition Overview_getTiDBTopology : Method := mkMethod [] Endpoints.getTiDBTopology [] Passed [].
Definition Overview_getStoreTopology : Method := mkMethod [] Endpoints.getStoreTopology [] Passed [].
Definition Overview_getPDTopology : Method := mkMethod [] Endpoints.getPDTopology [] Passed [].
Definition Overview_getTiCDCTopology : Method := mkMethod [] Endpoints.getTiCDCTopology [] Passed [].
Definition Overview_getTiProxyTopology : Method := mkMethod [] Endpoints.getTiProxyTopology [] Passed [].
Definition Overview_getTSOTopology : Method := mkMethod [] Endpoints.getTSOTopology [] Passed [].
Definition Overview_getSchedulingTopology : Method := mkMethod [] Endpoints.getSchedulingTopology [] Passed [].
Definition Overview_metricsQueryGet : Method := mkMethod ["endTimeSec"; "query"; "startTimeSec"; "stepSec"] Endpoints.metricsQueryGet ["endTimeSec"; "query"; "startTimeSec"; "stepSec"] Custom [].
Definition Overview_getGrafanaTopology : Method := mkMethod [] Endpoints.getGrafanaTopology [] Passed [].
Definition Overview_getAlertManagerTopology : Method := mkMethod [] Endpoints.getAlertManagerTopology [] Passed [].
Definition Overview_getAlertManagerCounts : Method := mkMethod ["address"] Endpoints.getAlertManagerCounts ["address"] Passed [].
Definition QueryEditor_queryEditorRun : Method := mkMethod ["request"] Endpoints.queryEditorRun ["request"] Passed [].
Definition ResourceManager_getConfig : Method := mkMethod [] Endpoints.resourceManagerConfigGet [] Passed [].
Definition ResourceManager_getInformation : Method := mkMethod [] Endpoints.resourceManagerInformationGet [] Passed [].
Definition ResourceManager_getCalibrateByHardware : Method := mkMethod ["workload"] Endpoints.resourceManagerCalibrateHardwareGet ["workload"] Passed [].
Definition ResourceManager_getCalibrateByActual : Method := mkMethod ["startTime"; "endTime"] Endpoints.resourceManagerCalibrateActualGet ["startTime"; "endTime"] Passed [].
Definition ResourceManager_metricsQueryGet : Method := mkMethod ["endTimeSec"; "query"; "startTimeSec"; "stepSec"] Endpoints.metricsQueryGet ["endTimeSec"; "query"; "startTimeSec"; "stepSec"] Custom [].
Definition SearchLogs_logsDownloadAcquireTokenGet : Method := mkMethod ["id"] Endpoints.logsDownloadAcquireTokenGet ["id"] Passed [].
Definition SearchLogs_logsTaskgroupPut : Method := mkMethod ["request"] Endpoints.logsTaskgroupPut ["request"] Passed [].
Definition SearchLogs_logsTaskgroupsGet : Method := mkMethod [] Endpoints.logsTaskgroupsGet [] Passed [].
Definition SearchLogs_logsTaskgroupsIdCancelPost : Method := mkMethod ["id"] Endpoints.logsTaskgroupsIdCancelPost ["id"] Passed [].
Definition SearchLogs_logsTaskgroupsIdDelete : Method := mkMethod ["id"] Endpoints.logsTaskgroupsIdDelete ["id"] Passed [].
Definition SearchLogs_logsTaskgroupsIdGet : Method := mkMethod ["id"] Endpoints.logsTaskgroupsIdGet ["id"] Passed [].
Definition SearchLogs_logsTaskgroupsIdPreviewGet : Method := mkMethod ["id"] Endpoints.logsTaskgroupsIdPreviewGet ["id"] Passed [].
Definition SearchLogs_logsTaskgroupsIdRetryPost : Method := mkMethod ["id"] Endpoints.logsTaskgroupsIdRetryPost ["id"] Passed [].
Definition SearchLogs_getTiDBTopology : Method := mkMethod [] Endpoints.getTiDBTopology [] Passed [].
Definition SearchLogs_getStoreTopology : Method := mkMethod [] Endpoints.getStoreTopology [] Passed [].
Definition SearchLogs_getPDTopology : Method := mkMethod [] Endpoints.getPDTopology [] Passed [].
Definition SearchLogs_getTiCDCTopology : Method := mkMethod [] Endpoints.getTiCDCTopology [] Passed [].
Definition SearchLogs_getTiProxyTopology : Method := mkMethod [] Endpoints.getTiProxyTopology [] Passed [].
Definition SearchLogs_getTSOTopology : Method := mkMethod [] Endpoints.getTSOTopology [] Passed [].
Definition SearchLogs_getSchedulingTopology : Method := mkMethod [] Endpoints.getSchedulingTopology [] Passed [].
Definition SlowQuery_getDatabaseList : Method := mkMethod ["beginTime"; "endTime"] Endpoints.infoListDatabases [] Passed [].
Definition SlowQuery_infoListResourceGroupNames : Method := mkMethod [] Endpoints.resourceManagerInformationGroupNamesGet [] Passed [].
Definition SlowQuery_slowQueryAvailableFieldsGet : Method := mkMethod [] Endpoints.slowQueryAvailableFieldsGet [] Passed [].
Definition SlowQuery_slowQueryListGet : Method := mkMethod ["beginTime"; "db"; "desc"; "digest"; "endTime"; "fields"; "limit"; "orderBy"; "plans"; "resourceGroup"; "text"; "showInternal"] Endpoints.slowQueryListGet ["beginTime"; "db"; "desc"; "digest"; "endTime"; "fields"; "limit"; "orderBy"; "plans"; "resourceGroup"; "text"] Passed [].
Definition SlowQuery_slowQueryDetailGet : Method := mkMethod ["connectId"; "digest"; "timestamp"] Endpoints.slowQueryDetailGet ["connectId"; "digest"; "timestamp"] Passed [].
Definition SlowQuery_slowQueryDownloadTokenPost : Method := mkMethod ["request"] Endpoints.slowQueryDownloadTokenPost ["request"] Passed [].
Definition Statement_getDatabaseList : Method := mkMethod ["beginTime"; "endTime"] Endpoints.infoListDatabases [] Passed [].
Definition Statement_infoListResourceGroupNames : Method := mkMethod [] Endpoints.resourceManagerInformationGroupNamesGet [] Passed [].
Definition Statement_statementsAvailableFieldsGet : Method := mkMethod [] Endpoints.statementsAvailableFieldsGet [] Passed [].
Definition Statement_statementsConfigGet : Method := mkMethod [] Endpoints.statementsConfigGet [] Passed [].
Definition Statement_statementsConfigPost : Method := mkMethod ["request"] Endpoints.statementsConfigPost ["request"] Passed [].
Definition Statement_statementsDownloadGet : Method := mkMethod ["token"] Endpoints.statementsDownloadGet ["token"] Passed [].
Definition Statement_statementsDownloadTokenPost : Method := mkMethod ["request"] Endpoints.statementsDownloadTokenPost ["request"] Passed [].
Definition Statement_statementsListGet : Method := mkMethod ["beginTime"; "endTime"; "fields"; "schemas"; "resourceGroups"; "stmtTypes"; "text"] Endpoints.statementsListGet ["beginTime"; "endTime"; "fields"; "schemas"; "resourceGroups"; "stmtTypes"; "text"] Passed [].
Definition Statement_statementsPlanDetailGet : Method := mkMethod ["beginTime"; "digest"; "endTime"; "plans"; "schemaName"] Endpoints.statementsPlanDetailGet ["beginTime"; "digest"; "endTime"; "plans"; "schemaName"] Passed [].
Definition Statement_statementsPlansGet : Method := mkMethod ["beginTime"; "digest"; "endTime"; "schemaName"] Endpoints.statementsPlansGet ["beginTime"; "digest"; "endTime"; "schemaName"] Passed [].
Definition Statement_statementsStmtTypesGet : Method := mkMethod [] Endpoints.statementsStmtTypesGet [] Passed [].
Definition Statement_statementsPlanBindStatusGet : Method := mkMethod ["sqlDigest"; "beginTime"; "endTime"] Endpoints.statementsPlanBindingGet ["sqlDigest"; "beginTime"; "endTime"] Passed [].
Definition Statement_statementsPlanBindCreate : Method := mkMethod ["planDigest"] Endpoints.statementsPlanBindingPost ["planDigest"] Passed [].
Definition Statement_statementsPlanBindDelete : Method := mkMethod ["sqlDigest"] Endpoints.statementsPlanBindingDelete ["sqlDigest"] Passed [].
Definition Statement_slowQueryAvailableFieldsGet : Method := mkMethod [] Endpoints.slowQueryAvailableFieldsGet [] Passed [].
Definition Statement_slowQueryListGet : Method := mkMethod ["beginTime"; "db"; "desc"; "digest"; "endTime"; "fields"; "limit"; "orderBy"; "plans"; "resourceGroup"; "text"; "showInternal"] Endpoints.slowQueryListGet ["beginTime"; "db"; "desc"; "digest"; "endTime"; "fields"; "limit"; "orderBy"; "plans"; "resourceGroup"; "text"] Passed [].
Definition Statement_slowQueryDetailGet : Method := mkMethod ["connectId"; "digest"; "timestamp"] Endpoints.slowQueryDetailGet ["connectId"; "digest"; "timestamp"] Passed [].
Definition Statement_slowQueryDownloadTokenPost : Method := mkMethod ["request"] Endpoints.slowQueryDownloadTokenPost ["request"] Passed [].
Definition SystemReport_diagnoseReportsGet : Method := mkMethod [] Endpoints.diagnoseReportsGet [] Passed [].
Definition SystemReport_diagnoseReportsPost : Method := mkMethod ["request"] Endpoints.diagnoseReportsPost ["request"] Passed [].
Definition SystemReport_diagnoseGenerateMetricsRelationship : Method := mkMethod ["request"] Endpoints.diagnoseGenerateMetricsRelationship ["request"] Passed [].
Definition SystemReport_diagnoseReportsIdStatusGet : Method := mkMethod ["id"] Endpoints.diagnoseReportsIdStatusGet ["id"] Passed [].
Definition TopSQL_topsqlConfigGet : Method := mkMethod [] Endpoints.topsqlConfigGet [] Passed [].
Definition TopSQL_topsqlConfigPost : Method := mkMethod ["request"] Endpoints.topsqlConfigPost ["request"] Passed [].
Definition TopSQL_topsqlInstancesGet : Method := mkMethod ["end"; "start"] Endpoints.topsqlInstancesGet ["start"; "end"] Passed [].
Definition TopSQL_topsqlSummaryGet : Method := mkMethod ["end"; "groupBy"; "instance"; "instanceType"; "start"; "top"; "window"] Endpoints.topsqlSummaryGet ["end"; "groupBy"; "instance"; "instanceType"; "start"; "top"; "window"] Passed [].
Definition UserProfile_userGetSignOutInfo : Method := mkMethod ["redirectUrl"] Endpoints.userGetSignOutInfo ["redirectUrl"] Passed [].
Definition UserProfile_userSSOCreateImpersonation : Method := mkMethod ["request"] Endpoints.userSSOCreateImpersonation ["request"] Passed [].
Definition UserProfile_userSSOGetConfig : Method := mkMethod [] Endpoints.userSSOGetConfig [] Passed [].
Definition UserProfile_userSSOListImpersonations : Method := mkMethod [] Endpoints.userSSOListImpersonations [] Passed [].
Definition UserProfile_userSSOSetConfig : Method := mkMethod ["request"] Endpoints.userSSOSetConfig ["request"] Passed [].
Definition UserProfile_userShareSession : Method := mkMethod ["request"] Endpoints.userShareSession ["request"] Passed [].
Definition UserProfile_userRevokeSession : Method := mkMethod [] Endpoints.userRevokeSession [] Passed [].
Definition UserProfile_metricsGetPromAddress : Method := mkMethod [] Endpoints.metricsGetPromAddress [] Passed [].
Definition UserProfile_metricsSetCustomPromAddress : Method := mkMethod ["request"] Endpoints.metricsSetCustomPromAddress ["request"] Passed [].

Definition all : list Method :=
  [ClusterInfo_clusterInfoGetHostsInfo;
   ClusterInfo_getStoreLocationTopology;
   ClusterInfo_getTiDBTopology;
   ClusterInfo_getStoreTopology;
   ClusterInfo_getPDTopology;
   ClusterInfo_getTiCDCTopology;
   ClusterInfo_getTiProxyTopology;
   ClusterInfo_getTSOTopology;
   ClusterInfo_getSchedulingTopology;
   ClusterInfo_topologyTidbAddressDelete;
   ClusterInfo_clusterInfoGetStatistics;
   Configuration_configurationEdit;
   Configuration_configurationGetAll;
   ContinuousProfiling_continuousProfilingActionTokenGet;
   ContinuousProfiling_continuousProfilingComponentsGet;
   ContinuousProfiling_continuousProfilingConfigGet;
   ContinuousProfiling_continuousProfilingConfigPost;
   ContinuousProfiling_continuousProfilingDownloadGet;
   ContinuousProfiling_continuousProfilingEstimateSizeGet;
   ContinuousProfiling_continuousProfilingGroupProfileDetailGet;
   ContinuousProfiling_continuousProfilingGroupProfilesGet;
   ContinuousProfiling_continuousProfilingSingleProfileViewGet;
   ContinuousProfiling_getTiDBTopology;
   ContinuousProfiling_getStoreTopology;
   ContinuousProfiling_getPDTopology;
   Deadlock_deadlockListGet;
   DebugAPI_debugAPIGetEndpoints;
   DebugAPI_debugAPIRequestEndpoint;
   DebugAPI_infoListDatabases;
   DebugAPI_infoListTables;
   DebugAPI_getTiDBTopology;
   DebugAPI_getStoreTopology;
   DebugAPI_getPDTopology;
   DebugAPI_getTiProxyTopology;
   Diagnose_diagnoseDiagnosisPost;
   InstanceProfiling_getActionToken;
   InstanceProfiling_getProfilingGroupDetail;
   InstanceProfiling_getProfilingGroups;
   InstanceProfiling_startProfiling;
   InstanceProfiling_continuousProfilingConfigGet;
   InstanceProfiling_getTiDBTopology;
   InstanceProfiling_getStoreTopology;
   InstanceProfiling_getPDTopology;
   InstanceProfiling_getTiCDCTopology;
   InstanceProfiling_getTiProxyTopology;
   InstanceProfiling_getTSOTopology;
   InstanceProfiling_getSchedulingTopology;
   KeyViz_keyvisualConfigGet;
   KeyViz_keyvisualConfigPut;
   KeyViz_keyvisualHeatmapsGet;
   Monitoring_metricsQueryGet;
   Overview_getTiDBTopology;
   Overview_getStoreTopology;
   Overview_getPDTopology;
   Overview_getTiCDCTopology;
   Overview_getTiProxyTopology;
   Overview_getTSOTopology;
   Overview_getSchedulingTopology;
   Overview_metricsQueryGet;
   Overview_getGrafanaTopology;
   Overview_getAlertManagerTopology;
   Overview_getAlertManagerCounts;
   QueryEditor_queryEditorRun;
   ResourceManager_getConfig;
   ResourceManager_getInformation;
   ResourceManager_getCalibrateByHardware;
   ResourceManager_getCalibrateByActual;
   ResourceManager_metricsQueryGet;
   SearchLogs_logsDownloadAcquireTokenGet;
   SearchLogs_logsTaskgroupPut;
   SearchLogs_logsTaskgroupsGet;
   SearchLogs_logsTaskgroupsIdCancelPost;
   SearchLogs_logsTaskgroupsIdDelete;
   SearchLogs_logsTaskgroupsIdGet;
   SearchLogs_logsTaskgroupsIdPreviewGet;
   SearchLogs_logsTaskgroupsIdRetryPost;
   SearchLogs_getTiDBTopology;
   SearchLogs_getStoreTopology;
   SearchLogs_getPDTopology;
   SearchLogs_getTiCDCTopology;
   SearchLogs_getTiProxyTopology;
   SearchLogs_getTSOTopology;
   SearchLogs_getSchedulingTopology;
   SlowQuery_getDatabaseList;
   SlowQuery_infoListResourceGroupNames;
   SlowQuery_slowQueryAvailableFieldsGet;
   SlowQuery_slowQueryListGet;
   SlowQuery_slowQueryDetailGet;
   SlowQuery_slowQueryDownloadTokenPost;
   Statement_getDatabaseList;
   Statement_infoListResourceGroupNames;
   Statement_statementsAvailableFieldsGet;
   Statement_statementsConfigGet;
   Statement_statementsConfigPost;
   Statement_statementsDownloadGet;
   Statement_statementsDownloadTokenPost;
   Statement_statementsListGet;
   Statement_statementsPlanDetailGet;
   Statement_statementsPlansGet;
   Statement_statementsStmtTypesGet;
   Statement_statementsPlanBindStatusGet;
   Statement_statementsPlanBindCreate;
   Statement_statementsPlanBindDelete;
   Statement_slowQueryAvailableFieldsGet;
   Statement_slowQueryListGet;
   Statement_slowQueryDetailGet;
   Statement_slowQueryDownloadTokenPost;
   SystemReport_diagnoseReportsGet;
   SystemReport_diagnoseReportsPost;
   SystemReport_diagnoseGenerateMetricsRelationship;
   SystemReport_diagnoseReportsIdStatusGet;
   TopSQL_topsqlConfigGet;
   TopSQL_topsqlConfigPost;
   TopSQL_topsqlInstancesGet;
   TopSQL_topsqlSummaryGet;
   UserProfile_userGetSignOutInfo;
   UserProfile_userSSOCreateImpersonation;
   UserProfile_userSSOGetConfig;
   UserProfile_userSSOListImpersonations;
   UserProfile_userSSOSetConfig;
   UserProfile_userShareSession;
   UserProfile_userRevokeSession;
   UserProfile_metricsGetPromAddress;
   UserProfile_metricsSetCustomPromAddress].
End Op.

(** ** tidb-dashboard-for-clinic-cloud *)

Module Cloud.
Import Call.
Definition ClusterInfo_clusterInfoGetHostsInfo : Method := mkMethod [] Endpoints.clusterInfoGetHostsInfo [] Passed [].
Definition ClusterInfo_getStoreLocationTopology : Method := mkMethod [] Endpoints.getStoreLocationTopology [] Passed [].
Definition ClusterInfo_getTiDBTopology : Method := mkMethod [] Endpoints.getTiDBTopology [] Passed [].
Definition ClusterInfo_getStoreTopology : Method := mkMethod [] Endpoints.getStoreTopology [] Passed [].
Definition ClusterInfo_getPDTopology : Method := mkMethod [] Endpoints.getPDTopology [] Passed [].
Definition ClusterInfo_getTiCDCTopology : Method := mkMethod [] Endpoints.getTiCDCTopology [] Passed [].
Definition ClusterInfo_getTiProxyTopology : Method := mkMethod [] Endpoints.getTiProxyTopology [] Passed [].
Definition ClusterInfo_getTSOTopology : Method := mkMethod [] Endpoints.getTSOTopology [] Passed [].
Definition ClusterInfo_getSchedulingTopology : Method := mkMethod [] Endpoints.getSchedulingTopology [] Passed [].
Definition ClusterInfo_topologyTidbAddressDelete : Method := mkMethod ["address"] Endpoints.topologyTidbAddressDelete ["address"] Passed [].
Definition ClusterInfo_clusterInfoGetStatistics : Method := mkMethod [] Endpoints.clusterInfoGetStatistics [] Passed [].
Definition Configuration_configurationEdit : Method := mkMethod ["request"] Endpoints.configurationEdit ["request"] Passed [].
Definition Configuration_configurationGetAll : Method := mkMethod [] Endpoints.configurationGetAll [] Passed [].
Definition ContinuousProfiling_continuousProfilingActionTokenGet : Method := mkMethod ["q"] Endpoints.continuousProfilingActionTokenGet ["q"] Passed [].
Definition ContinuousProfiling_continuousProfilingComponentsGet : Method := mkMethod [] Endpoints.continuousProfilingComponentsGet [] Passed [].
Definition ContinuousProfiling_continuousProfilingConfigGet : Method := mkMethod [] Endpoints.continuousProfilingConfigGet [] Passed [].
Definition ContinuousProfiling_continuousProfilingConfigPost : Method := mkMethod ["request"] Endpoints.continuousProfilingConfigPost ["request"] Passed [].
Definition ContinuousProfiling_continuousProfilingDownloadGet : Method := mkMethod ["ts"] Endpoints.continuousProfilingDownloadGet ["ts"] Passed [].
Definition ContinuousProfiling_continuousProfilingEstimateSizeGet : Method := mkMethod [] Endpoints.continuousProfilingEstimateSizeGet [] Passed [].
Definition ContinuousProfiling_continuousProfilingGroupProfileDetailGet : Method := mkMethod ["ts"] Endpoints.continuousProfilingGroupProfileDetailGet ["ts"] Passed [].
Definition ContinuousProfiling_continuousProfilingGroupProfilesGet : Method := mkMethod ["beginTime"; "endTime"] Endpoints.continuousProfilingGroupProfilesGet ["beginTime"; "endTime"] Passed [].
Definition ContinuousProfiling_continuousProfilingSingleProfileViewGet : Method := mkMethod ["address"; "component"; "profileType"; "ts"] Endpoints.continuousProfilingSingleProfileViewGet ["address"; "component"; "profileType"; "ts"] Passed [].
Definition ContinuousProfiling_getTiDBTopology : Method := mkMethod [] Endpoints.getTiDBTopology [] Passed [].
Definition ContinuousProfiling_getStoreTopology : Method := mkMethod [] Endpoints.getStoreTopology [] Passed [].
Definition ContinuousProfiling_getPDTopology : Method := mkMethod [] Endpoints.getPDTopology [] Passed [].
Definition Deadlock_deadlockListGet : Method := mkMethod [] Endpoints.deadlockListGet [] Passed [].
Definition DebugAPI_debugAPIGetEndpoints : Method := mkMethod [] Endpoints.debugAPIGetEndpoints [] Passed [].
Definition DebugAPI_debugAPIRequestEndpoint : Method := mkMethod ["req"] Endpoints.debugAPIRequestEndpoint ["req"] Passed [("id", "api_id"); ("params", "param_values")].
Definition DebugAPI_infoListDatabases : Method := mkMethod [] Endpoints.infoListDatabases [] Passed [].
Definition DebugAPI_infoListTables : Method := mkMethod ["databaseName"] Endpoints.infoListTables ["databaseName"] Passed [].
Definition DebugAPI_getTiDBTopology : Method := mkMethod [] Endpoints.getTiDBTopology [] Passed [].
Definition DebugAPI_getStoreTopology : Method := mkMethod [] Endpoints.getStoreTopology [] Passed [].
Definition DebugAPI_getPDTopology : Method := mkMethod [] Endpoints.getPDTopology [] Passed [].
Definition DebugAPI_getTiProxyTopology : Method := mkMethod [] Endpoints.getTiProxyTopology [] Passed [].
Definition Diagnose_diagnoseDiagnosisPost : Method := mkMethod ["request"] Endpoints.diagnoseDiagnosisPost ["request"] Passed [].
Definition InstanceProfiling_getActionToken : Method := mkMethod ["id"; "action"] Endpoints.getActionToken ["id"; "action"] Passed [].
Definition InstanceProfiling_getProfilingGroupDetail : Method := mkMethod ["groupId"] Endpoints.getProfilingGroupDetail ["groupId"] Passed [].
Definition InstanceProfiling_getProfilingGroups : Method := mkMethod [] Endpoints.getProfilingGroups [] Passed [].
Definition InstanceProfiling_startProfiling : Method := mkMethod ["req"] Endpoints.startProfiling ["req"] Passed [].
Definition InstanceProfiling_continuousProfilingConfigGet : Method := mkMethod [] Endpoints.continuousProfilingConfigGet [] Passed [].
Definition InstanceProfiling_getTiDBTopology : Method := mkMethod [] Endpoints.getTiDBTopology [] Passed [].
Definition InstanceProfiling_getStoreTopology : Method := mkMethod [] Endpoints.getStoreTopology [] Passed [].
Definition InstanceProfiling_getPDTopology : Method := mkMethod [] Endpoints.getPDTopology [] Passed [].
Definition InstanceProfiling_getTiCDCTopology : Method := mkMethod [] Endpoints.getTiCDCTopology [] Passed [].
Definition InstanceProfiling_getTiProxyTopology : Method := mkMethod [] Endpoints.getTiProxyTopology [] Passed [].
Definition InstanceProfiling_getTSOTopology : Method := mkMethod [] Endpoints.getTSOTopology [] Passed [].
Definition InstanceProfiling_getSchedulingTopology : Method := mkMethod [] Endpoints.getSchedulingTopology [] Passed [].
Definition KeyViz_keyvisualConfigGet : Method := mkMethod [] Endpoints.keyvisualConfigGet [] Passed [].
Definition KeyViz_keyvisualConfigPut : Method := mkMethod ["request"] Endpoints.keyvisualConfigPut ["request"] Passed [].
Definition KeyViz_keyvisualHeatmapsGet : Method := mkMethod ["startkey"; "endkey"; "starttime"; "endtime"; "type"] Endpoints.keyvisualHeatmapsGet ["startkey"; "endkey"; "starttime"; "type"] Passed [].
Definition Monitoring_metricsQueryGet : Method := mkMethod ["endTimeSec"; "query"; "startTimeSec"; "stepSec"] Endpoints.metricsQueryGet ["endTimeSec"; "query"; "startTimeSec"; "stepSec"] Custom [].
Definition Overview_getTiDBTopology : Method := mkMethod [] Endpoints.getTiDBTopology [] Passed [].
Definition Overview_getStoreTopology : Method := mkMethod [] Endpoints.getStoreTopology [] Passed [].
Definition Overview_getPDTopology : Method := mkMethod [] Endpoints.getPDTopology [] Passed [].
Definition Overview_getTiCDCTopology : Method := mkMethod [] Endpoints.getTiCDCTopology [] Passed [].
Definition Overview_getTiProxyTopology : Method := mkMethod [] Endpoints.getTiProxyTopology [] Passed [].
Definition Overview_getTSOTopology : Method := mkMethod [] Endpoints.getTSOTopology [] Passed [].
Definition Overview_getSchedulingTopology : Method := mkMethod [] Endpoints.getSchedulingTopology [] Passed [].
Definition Overview_metricsQueryGet : Method := mkMethod ["endTimeSec"; "query"; "startTimeSec"; "stepSec"] Endpoints.metricsQueryGet ["endTimeSec"; "query"; "startTimeSec"; "stepSec"] Custom [].
Definition Overview_getGrafanaTopology : Method := mkMethod [] Endpoints.getGrafanaTopology [] Passed [].
Definition Overview_getAlertManagerTopology : Method := mkMethod [] Endpoints.getAlertManagerTopology [] Passed [].
Definition Overview_getAlertManagerCounts : Method := mkMethod ["address"] Endpoints.getAlertManagerCounts ["address"] Passed [].
Definition QueryEditor_queryEditorRun : Method := mkMethod ["request"] Endpoints.queryEditorRun ["request"] Passed [].
Definition ResourceManager_getConfig : Method := mkMethod [] Endpoints.resourceManagerConfigGet [] Passed [].
Definition ResourceManager_getInformation : Method := mkMethod [] Endpoints.resourceManagerInformationGet [] Passed [].
Definition ResourceManager_getCalibrateByHardware : Method := mkMethod ["workload"] Endpoints.resourceManagerCalibrateHardwareGet ["workload"] Passed [].
Definition ResourceManager_getCalibrateByActual : Method := mkMethod ["startTime"; "endTime"] Endpoints.resourceManagerCalibrateActualGet ["startTime"; "endTime"] Passed [].
Definition ResourceManager_metricsQueryGet : Method := mkMethod ["endTimeSec"; "query"; "startTimeSec"; "stepSec"] Endpoints.metricsQueryGet ["endTimeSec"; "query"; "startTimeSec"; "stepSec"] Custom [].
Definition SearchLogs_logsDownloadAcquireTokenGet : Method := mkMethod ["id"] Endpoints.logsDownloadAcquireTokenGet ["id"] Passed [].
Definition SearchLogs_logsTaskgroupPut : Method := mkMethod ["request"] Endpoints.logsTaskgroupPut ["request"] Passed [].
Definition SearchLogs_logsTaskgroupsGet : Method := mkMethod [] Endpoints.logsTaskgroupsGet [] Passed [].
Definition SearchLogs_logsTaskgroupsIdCancelPost : Method := mkMethod ["id"] Endpoints.logsTaskgroupsIdCancelPost ["id"] Passed [].
Definition SearchLogs_logsTaskgroupsIdDelete : Method := mkMethod ["id"] Endpoints.logsTaskgroupsIdDelete ["id"] Passed [].
Definition SearchLogs_logsTaskgroupsIdGet : Method := mkMethod ["id"] Endpoints.logsTaskgroupsIdGet ["id"] Passed [].
Definition SearchLogs_logsTaskgroupsIdPreviewGet : Method := mkMethod ["id"] Endpoints.logsTaskgroupsIdPreviewGet ["id"] Passed [].
Definition SearchLogs_logsTaskgroupsIdRetryPost : Method := mkMethod ["id"] Endpoints.logsTaskgroupsIdRetryPost ["id"] Passed [].
Definition SearchLogs_getTiDBTopology : Method := mkMethod [] Endpoints.getTiDBTopology [] Passed [].
Definition SearchLogs_getStoreTopology : Method := mkMethod [] Endpoints.getStoreTopology [] Passed [].
Definition SearchLogs_getPDTopology : Method := mkMethod [] Endpoints.getPDTopology [] Passed [].
Definition SearchLogs_getTiCDCTopology : Method := mkMethod [] Endpoints.getTiCDCTopology [] Passed [].
Definition SearchLogs_getTiProxyTopology : Method := mkMethod [] Endpoints.getTiProxyTopology [] Passed [].
Definition SearchLogs_getTSOTopology : Method := mkMethod [] Endpoints.getTSOTopology [] Passed [].
Definition SearchLogs_getSchedulingTopology : Method := mkMethod [] Endpoints.getSchedulingTopology [] Passed [].
Definition SlowQuery_infoListResourceGroupNames : Method := mkMethod [] Endpoints.resourceManagerInformationGroupNamesGet [] Passed [].
Definition SlowQuery_slowQueryAvailableFieldsGet : Method := mkMethod [] Endpoints.slowQueryAvailableFieldsGet [] Passed [].
Definition SlowQuery_slowQueryDownloadTokenPost : Method := mkMethod ["request"] Endpoints.slowQueryDownloadTokenPost ["request"] Passed [].
Definition Statement_getDatabaseList : Method := mkMethod ["beginTime"; "endTime"] Endpoints.infoListDatabases [] Passed [].
Definition Statement_infoListResourceGroupNames : Method := mkMethod [] Endpoints.resourceManagerInformationGroupNamesGet [] Passed [].
Definition Statement_statementsAvailableFieldsGet : Method := mkMethod [] Endpoints.statementsAvailableFieldsGet [] Passed [].
Definition Statement_statementsConfigGet : Method := mkMethod [] Endpoints.statementsConfigGet [] Passed [].
Definition Statement_statementsConfigPost : Method := mkMethod ["request"] Endpoints.statementsConfigPost ["request"] Passed [].
Definition Statement_statementsDownloadGet : Method := mkMethod ["token"] Endpoints.statementsDownloadGet ["token"] Passed [].
Definition Statement_statementsDownloadTokenPost : Method := mkMethod ["request"] Endpoints.statementsDownloadTokenPost ["request"] Passed [].
Definition Statement_statementsListGet : Method := mkMethod ["beginTime"; "endTime"; "fields"; "schemas"; "resourceGroups"; "stmtTypes"; "text"] Endpoints.statementsListGet ["beginTime"; "endTime"; "fields"; "schemas"; "resourceGroups"; "stmtTypes"; "text"] Passed [].
Definition Statement_statementsPlanDetailGet : Method := mkMethod ["beginTime"; "digest"; "endTime"; "plans"; "schemaName"] Endpoints.statementsPlanDetailGet ["beginTime"; "digest"; "endTime"; "plans"; "schemaName"] Passed [].
Definition Statement_statementsPlansGet : Method := mkMethod ["beginTime"; "digest"; "endTime"; "schemaName"] Endpoints.statementsPlansGet ["beginTime"; "digest"; "endTime"; "schemaName"] Passed [].
Definition Statement_statementsStmtTypesGet : Method := mkMethod [] Endpoints.statementsStmtTypesGet [] Passed [].
Definition Statement_slowQueryAvailableFieldsGet : Method := mkMethod [] Endpoints.slowQueryAvailableFieldsGet [] Passed [].
Definition Statement_slowQueryListGet : Method := mkMethod ["beginTime"; "db"; "desc"; "digest"; "endTime"; "fields"; "limit"; "orderBy"; "plans"; "resourceGroup"; "text"; "showInternal"] Endpoints.slowQueryListGet ["beginTime"; "db"; "desc"; "digest"; "endTime"; "fields"; "limit"; "orderBy"; "plans"; "resourceGroup"; "text"] Passed [].
Definition Statement_slowQueryDetailGet : Method := mkMethod ["connectId"; "digest"; "timestamp"] Endpoints.slowQueryDetailGet ["connectId"; "digest"; "timestamp"] Passed [].
Definition Statement_slowQueryDownloadTokenPost : Method := mkMethod ["request"] Endpoints.slowQueryDownloadTokenPost ["request"] Passed [].
Definition SystemReport_diagnoseReportsGet : Method := mkMethod [] Endpoints.diagnoseReportsGet [] Passed [].
Definition SystemReport_diagnoseReportsPost : Method := mkMethod ["request"] Endpoints.diagnoseReportsPost ["request"] Passed [].
Definition SystemReport_diagnoseGenerateMetricsRelationship : Method := mkMethod ["request"] Endpoints.diagnoseGenerateMetricsRelationship ["request"] Passed [].
Definition SystemReport_diagnoseReportsIdStatusGet : Method := mkMethod ["id"] Endpoints.diagnoseReportsIdStatusGet ["id"] Passed [].
Definition TopSQL_topsqlConfigGet : Method := mkMethod [] Endpoints.topsqlConfigGet [] Passed [].
Definition TopSQL_topsqlConfigPost : Method := mkMethod ["request"] Endpoints.topsqlConfigPost ["request"] Passed [].
Definition TopSQL_topsqlInstancesGet : Method := mkMethod ["end"; "start"] Endpoints.topsqlInstancesGet ["start"; "end"] Passed [].
Definition TopSQL_topsqlSummaryGet : Method := mkMethod ["end"; "groupBy"; "instance"; "instanceType"; "start"; "top"; "window"] Endpoints.topsqlSummaryGet ["end"; "groupBy"; "instance"; "instanceType"; "start"; "top"; "window"] Passed [].
Definition UserProfile_userGetSignOutInfo : Method := mkMethod ["redirectUrl"] Endpoints.userGetSignOutInfo ["redirectUrl"] Passed [].
Definition UserProfile_userSSOCreateImpersonation : Method := mkMethod ["request"] Endpoints.userSSOCreateImpersonation ["request"] Passed [].
Definition UserProfile_userSSOGetConfig : Method := mkMethod [] Endpoints.userSSOGetConfig [] Passed [].
Definition UserProfile_userSSOListImpersonations : Method := mkMethod [] Endpoints.userSSOListImpersonations [] Passed [].
Definition UserProfile_userSSOSetConfig : Method := mkMethod ["request"] Endpoints.userSSOSetConfig ["request"] Passed [].
Definition UserProfile_userShareSession : Method := mkMethod ["request"] Endpoints.userShareSession ["request"] Passed [].
Definition UserProfile_userRevokeSession : Method := mkMethod [] Endpoints.userRevokeSession [] Passed [].
Definition UserProfile_metricsGetPromAddress : Method := mkMethod [] Endpoints.metricsGetPromAddress [] Passed [].
Definition UserProfile_metricsSetCustomPromAddress : Method := mkMethod ["request"] Endpoints.metricsSetCustomPromAddress ["request"] Passed [].

Definition all : list Method :=
  [ClusterInfo_clusterInfoGetHostsInfo;
   ClusterInfo_getStoreLocationTopology;
   ClusterInfo_getTiDBTopology;
   ClusterInfo_getStoreTopology;
   ClusterInfo_getPDTopology;
   ClusterInfo_getTiCDCTopology;
   ClusterInfo_getTiProxyTopology;
   ClusterInfo_getTSOTopology;
   ClusterInfo_getSchedulingTopology;
   ClusterInfo_topologyTidbAddressDelete;
   ClusterInfo_clusterInfoGetStatistics;
   Configuration_configurationEdit;
   Configuration_configurationGetAll;
   ContinuousProfiling_continuousProfilingActionTokenGet;
   ContinuousProfiling_continuousProfilingComponentsGet;
   ContinuousProfiling_continuousProfilingConfigGet;
   ContinuousProfiling_continuousProfilingConfigPost;
   ContinuousProfiling_continuousProfilingDownloadGet;
   ContinuousProfiling_continuousProfilingEstimateSizeGet;
   ContinuousProfiling_continuousProfilingGroupProfileDetailGet;
   ContinuousProfiling_continuousProfilingGroupProfilesGet;
   ContinuousProfiling_continuousProfilingSingleProfileViewGet;
   ContinuousProfiling_getTiDBTopology;
   ContinuousProfiling_getStoreTopology;
   ContinuousProfiling_getPDTopology;
   Deadlock_deadlockListGet;
   DebugAPI_debugAPIGetEndpoints;
   DebugAPI_debugAPIRequestEndpoint;
   DebugAPI_infoListDatabases;
   DebugAPI_infoListTables;
   DebugAPI_getTiDBTopology;
   DebugAPI_getStoreTopology;
   DebugAPI_getPDTopology;
   DebugAPI_getTiProxyTopology;
   Diagnose_diagnoseDiagnosisPost;
   InstanceProfiling_getActionToken;
   InstanceProfiling_getProfilingGroupDetail;
   InstanceProfiling_getProfilingGroups;
   InstanceProfiling_startProfiling;
   InstanceProfiling_continuousProfilingConfigGet;
   InstanceProfiling_getTiDBTopology;
   InstanceProfiling_getStoreTopology;
   InstanceProfiling_getPDTopology;
   InstanceProfiling_getTiCDCTopology;
   InstanceProfiling_getTiProxyTopology;
   InstanceProfiling_getTSOTopology;
   InstanceProfiling_getSchedulingTopology;
   KeyViz_keyvisualConfigGet;
   KeyViz_keyvisualConfigPut;
   KeyViz_keyvisualHeatmapsGet;
   Monitoring_metricsQueryGet;
   Overview_getTiDBTopology;
   Overview_getStoreTopology;
   Overview_getPDTopology;
   Overview_getTiCDCTopology;
   Overview_getTiProxyTopology;
   Overview_getTSOTopology;
   Overview_getSchedulingTopology;
   Overview_metricsQueryGet;
   Overview_getGrafanaTopology;
   Overview_getAlertManagerTopology;
   Overview_getAlertManagerCounts;
   QueryEditor_queryEditorRun;
   ResourceManager_getConfig;
   ResourceManager_getInformation;
   ResourceManager_getCalibrateByHardware;
   ResourceManager_getCalibrateByActual;
   ResourceManager_metricsQueryGet;
   SearchLogs_logsDownloadAcquireTokenGet;
   SearchLogs_logsTaskgroupPut;
   SearchLogs_logsTaskgroupsGet;
   SearchLogs_logsTaskgroupsIdCancelPost;
   SearchLogs_logsTaskgroupsIdDelete;
   SearchLogs_logsTaskgroupsIdGet;
   SearchLogs_logsTaskgroupsIdPreviewGet;
   SearchLogs_logsTaskgroupsIdRetryPost;
   SearchLogs_getTiDBTopology;
   SearchLogs_getStoreTopology;
   SearchLogs_getPDTopology;
   SearchLogs_getTiCDCTopology;
   SearchLogs_getTiProxyTopology;
   SearchLogs_getTSOTopology;
   SearchLogs_getSchedulingTopology;
   SlowQuery_infoListResourceGroupNames;
   SlowQuery_slowQueryAvailableFieldsGet;
   SlowQuery_slowQueryDownloadTokenPost;
   Statement_getDatabaseList;
   Statement_infoListResourceGroupNames;
   Statement_statementsAvailableFieldsGet;
   Statement_statementsConfigGet;
   Statement_statementsConfigPost;
   Statement_statementsDownloadGet;
   Statement_statementsDownloadTokenPost;
   Statement_statementsListGet;
   Statement_statementsPlanDetailGet;
   Statement_statementsPlansGet;
   Statement_statementsStmtTypesGet;
   Statement_slowQueryAvailableFieldsGet;
   Statement_slowQueryListGet;
   Statement_slowQueryDetailGet;
   Statement_slowQueryDownloadTokenPost;
   SystemReport_diagnoseReportsGet;
   SystemReport_diagnoseReportsPost;
   SystemReport_diagnoseGenerateMetricsRelationship;
   SystemReport_diagnoseReportsIdStatusGet;
   TopSQL_topsqlConfigGet;
   TopSQL_topsqlConfigPost;
   TopSQL_topsqlInstancesGet;
   TopSQL_topsqlSummaryGet;
   UserProfile_userGetSignOutInfo;
   UserProfile_userSSOCreateImpersonation;
   UserProfile_userSSOGetConfig;
   UserProfile_userSSOListImpersonations;
   UserProfile_userSSOSetConfig;
   UserProfile_userShareSession;
   UserProfile_userRevokeSession;
   UserProfile_metricsGetPromAddress;
   UserProfile_metricsSetCustomPromAddress].
End Cloud.

(** ** The arguments reach the handlers *)

Module Handled.
Import Call Router Routes Contract.

(** What is checked of every method. *)
Definition taken (m : Method) (p : string) : bool :=
  bool_decide (p ∈ arg_names (op m)) || existsb (fun q => bool_decide (snd (fst q) = p)) (query (op m)) || bool_decide (body (op m) = Some p).
Definition well_made (m : Method) : bool := bool_decide (NoDup (params_ m)) && forallb (taken m) (passed m).

Lemma all_well_made : forallb well_made (Op.all ++ Cloud.all) = true.
Proof. vm_compute. reflexivity. Qed.

(** The arguments that are not passed on: the end of the range of a heatmap, the range of a list of
    databases, and whether slow queries of the system are listed, which the client has no name for. *)
Definition unsent : list (Endpoint * string) :=
  [(Endpoints.keyvisualHeatmapsGet, "endtime"); (Endpoints.infoListDatabases, "beginTime"); (Endpoints.infoListDatabases, "endTime"); (Endpoints.slowQueryListGet, "showInternal")].
Lemma all_lost : forallb (fun m => forallb (fun p => bool_decide ((op m, p) ∈ unsent)) (lost m)) (Op.all ++ Cloud.all) = true.
Proof. vm_compute. reflexivity. Qed.

Lemma sent_not_lost m p : m ∈ Op.all ++ Cloud.all -> (op m, p) ∉ unsent -> p ∉ lost m.
Proof.
  intros Hm Hu Hl. pose proof (proj1 (forallb_forall _ _) all_lost m (proj1 (list_elem_of_In _ _) Hm)) as Hp. cbn beta in Hp.
  pose proof (proj1 (forallb_forall _ _) Hp p (proj1 (list_elem_of_In _ _) Hl)) as Hq. by apply bool_decide_eq_true in Hq.
Qed.

Lemma taken_spec m p : taken m p = true -> p ∈ arg_names (op m) \/ (exists n k, (n, p, k) ∈ query (op m)) \/ body (op m) = Some p.
Proof.
  unfold taken. intros [[H|H]%orb_true_iff|H]%orb_true_iff.
  - left. by apply bool_decide_eq_true in H.
  - right; left. apply existsb_exists in H as ([[n a] k] & Hin & H). apply bool_decide_eq_true in H. cbn in H. subst. exists n, k. by apply list_elem_of_In.
  - right; right. by apply bool_decide_eq_true in H.
Qed.

Lemma given_pairs e args n a k v x : (n, a, k) ∈ query e -> args !! a = Some v -> query_value k (Some v) = Some x -> pairs (n, x) ⊆ given e args.
Proof.
  intros Hq Ha Hx y Hy. apply list_elem_of_In, in_flat_map. exists (n, x). split; [|by apply list_elem_of_In]. apply list_elem_of_In.
  unfold localVarQueryParameter. apply list_elem_of_omap. exists (n, a, k). split; [done|]. by rewrite Ha, Hx.
Qed.

Lemma path_args_said e args a : a ∈ arg_names e -> (a, Paths.said args (Arg a)) ∈ path_args e args.
Proof.
  unfold arg_names, path_args. intros (s & Hs & Ha)%list_elem_of_omap. apply list_elem_of_omap. exists s. split; [done|]. destruct s as [l|a']; [done|]. by injection Ha as ->.
Qed.

(** What is sent as the body. *)
Lemma request_data {Json} (stringify : Json -> string) c e args p v o r : body e = Some p -> request stringify c e args (Some v) o = inr r ->
  r_data r = Some (serializeDataIfNeeded stringify v (Client.r_headers r) c).
Proof. unfold request. intros Hb. destruct (assertParamExists _ _ _); [done|]. rewrite Hb. cbn. intros [= <-]. done. Qed.

Lemma passed_of m p : m ∈ Op.all ++ Cloud.all -> p ∈ params_ m -> (op m, p) ∉ unsent -> p ∈ passed m.
Proof.
  intros Hm Hp Hu. destruct (decide (p ∈ passed m)) as [|Hne]; [done|]. exfalso. apply (sent_not_lost m p Hm Hu), list_elem_of_filter. done.
Qed.

Lemma method_made m : m ∈ Op.all ++ Cloud.all -> NoDup (params_ m) /\ forall p, p ∈ passed m -> taken m p = true.
Proof.
  intros Hm. pose proof (proj1 (forallb_forall _ _) all_well_made m (proj1 (list_elem_of_In _ _) Hm)) as Hw. unfold well_made in Hw.
  apply andb_true_iff in Hw as [Hn Ht]. apply bool_decide_eq_true in Hn. split; [done|]. intros p Hp. exact (proj1 (forallb_forall _ _) Ht p (proj1 (list_elem_of_In _ _) Hp)).
Qed.

(** C23: What a page passes to a method that is a call of the client reaches the handler that is documented
    for the operation, when the request is made (nothing that is required is missing) and what stands in the
    path is no dot: a plain value is a parameter of the path or stands in the query under the name that the
    operation has for it, but for four arguments that are not sent; the object for the body is the data of
    the request, with the fields that the method says once more. *)
Theorem call_handled `{GinLaws} {J} (stringify : Fields J -> string) c m t args o r :
  m ∈ Op.all ++ Cloud.all -> fits m args = true -> (op m, t) ∈ contract -> Paths.path_ok (op m) (requestParameters m (values args)) ->
  invoke stringify c m args o = inr r ->
  exists path_ query_ chain binds, r_url r = path_ +:+ query_ /\
    serve root api (Client.r_method r) (BASE_PATH +:+ path_) = Some (chain, t, binds) /\
    forall i p a, params_ m !! i = Some p -> args !! i = Some (Some a) -> (op m, p) ∉ unsent ->
      match a with
      | Plain v => (p, text v) ∈ binds \/ exists n k, (n, p, k) ∈ query (op m) /\ forall x, query_value k (Some v) = Some x -> pairs (n, x) ⊆ parse_query query_
      | Object f => r_data r = Some (serializeDataIfNeeded stringify (inr (extended (adds m) f)) (Client.r_headers r) c)
      end.
Proof.
  intros Hm Hf Hc Hp Hr. destruct (method_made m Hm) as [Hn Ht]. unfold invoke, call in Hr.
  destruct (request_served stringify c (op m) t _ _ _ r Hc Hp Hr) as (path_ & query_ & chain & Hu & Hs & Hq).
  exists path_, query_, chain, (path_args (op m) (requestParameters m (values args))). split_and!; [done|done|]. intros i p a Hi Ha Hun.
  pose proof (passed_of m p Hm (list_elem_of_lookup_2 _ _ _ Hi) Hun) as Hpass. pose proof (fits_lookup m args i p a Hf Hi Ha) as Hb.
  destruct a as [v|f]; [|by rewrite (body_given_lookup m args i p f Hn Hb Hpass Hi Ha) in Hr; apply (request_data _ _ _ _ _ _ _ _ Hb Hr)].
  pose proof (passed_lookup m _ i p v Hn Hi (values_lookup _ _ _ Ha) (sent_not_lost m p Hm Hun)) as Hlook.
  destruct (taken_spec m p (Ht p Hpass)) as [Hx|[(n & k & Hin)|Hx]]; [left|right|by destruct Hb].
  - pose proof (path_args_said (op m) (requestParameters m (values args)) p Hx) as Hy. cbn [Paths.said] in Hy. by rewrite Hlook in Hy.
  - exists n, k. split; [done|]. intros x Hx'. rewrite Hq. by apply (given_pairs _ _ n p k v).
Qed.

Definition shown_fields (f : Fields string) : string := "{" +:+ js_join "," (omap (fun p => (fun v => fst p +:+ ":" +:+ v) <$> snd p) f) +:+ "}".

Lemma call_handled_witness : (exists path_ query_ chain binds, path_ +:+ query_ = "/slow_query/detail?connect_id=7&digest=d%26&timestamp=12" /\
    @serve first_match root api "GET" (BASE_PATH +:+ path_) = Some (chain, Func slow_query_getDetails, binds)) /\
  exists r, invoke shown_fields None Op.DebugAPI_debugAPIRequestEndpoint [Some (Object [("api_id", Some "a")])] (mkOptions ∅ ∅) = inr r /\
    r_data r = Some (serializeDataIfNeeded shown_fields (inr [("api_id", Some "a"); ("id", Some "a"); ("params", None)]) (Client.r_headers r) None) /\
    r_data r = Some (DText "{api_id:a,id:a}").
Proof.
  split.
  - destruct (@call_handled first_match first_match_laws string shown_fields None Op.SlowQuery_slowQueryDetailGet (Func slow_query_getDetails)
      [Some (Plain (VStr "7")); Some (Plain (VStr "d&")); Some (Plain (VNum (num_of_Z 12)))] (mkOptions ∅ ∅)
      (mkRequest "GET" "/slow_query/detail?connect_id=7&digest=d%26&timestamp=12" ∅ ∅ None)) as (path_ & query_ & chain & binds & Hu & Hs & _).
    + apply (bool_decide_unpack _). vm_compute. exact I.
    + vm_compute. reflexivity.
    + apply (bool_decide_unpack _). vm_compute. exact I.
    + intros a Ha. apply list_elem_of_In in Ha as [E|[E|[]]]; discriminate E.
    + vm_compute. reflexivity.
    + exists path_, query_, chain, binds. split; [symmetry; exact Hu|exact Hs].
  - eexists. split; [vm_compute; reflexivity|]. split; [|reflexivity].
    refine (_ (@call_handled first_match first_match_laws string shown_fields None Op.DebugAPI_debugAPIRequestEndpoint (Func debug_api_RequestEndpoint)
      [Some (Object [("api_id", Some "a")])] (mkOptions ∅ ∅) _ _ _ _ _ eq_refl)).
    + intros (path_ & query_ & chain & binds & Hu & Hs & Hd). refine (Hd 0%nat "req" (Object [("api_id", Some "a")]) eq_refl eq_refl _). apply (bool_decide_unpack _). vm_compute. exact I.
    + apply (bool_decide_unpack _). vm_compute. exact I.
    + reflexivity.
    + apply (bool_decide_unpack _). vm_compute. exact I.
    + intros a Ha. apply list_elem_of_In in Ha. destruct Ha as [E|[E|[]]]; discriminate E.
Defined.
End Handled.

(** ** The key visualizer *)

Module KeyViz.
Import Call.
(** The range that the server answers for (pkg/keyvisual/service.go): it ends now unless the request says otherwise. *)
Definition heatmaps_range (now : Z) (start end_ : option Z) : Z * Z := (default (now - 360 * 60) start, default now end_).

Definition end_name (m : Method) : Prop := m = Op.KeyViz_keyvisualHeatmapsGet \/ m = Cloud.KeyViz_keyvisualHeatmapsGet.

(** The end of the range that was selected is in no request: the answer reaches until now. *)
Lemma end_not_sent {Json} (stringify : Json -> string) c m k1 k2 s e e' ty b o : end_name m ->
  call stringify c m [k1; k2; s; e; ty] b o = call stringify c m [k1; k2; s; e'; ty] b o.
Proof.
  intros Hm. unfold call. f_equal. apply same_passed; [|done].
  destruct Hm as [-> | ->]; cbn; repeat apply Forall2_cons_2; try apply Forall2_nil_2; cbn [fst snd]; try done; intros Hin; exfalso; revert Hin; apply (bool_decide_unpack _); exact I.
Qed.
Lemma selection_reaches_now now s e : snd (heatmaps_range now (Some s) None) = now /\ snd (heatmaps_range now (Some s) (Some e)) = e.
Proof. done. Qed.
End KeyViz.

(** ** The slow queries of the clinic *)

Module SlowQuery.
Import Call.
(** [slowQueryListGet] writes its query itself, as the client does. *)
Definition names : list (string * string * Kind) :=
  [("begin_time", "beginTime", One); ("db", "db", Many); ("desc", "desc", One); ("digest", "digest", One); ("end_time", "endTime", One); ("fields", "fields", One);
   ("limit", "limit", One); ("orderBy", "orderBy", One); ("plans", "plans", Many); ("resource_group", "resourceGroup", Many); ("text", "text", One);
   ("show_internal", "showInternal", One)].
Definition parameters (a : Args) : list (string * Value) := omap (fun '(n, p, k) => pair n <$> query_value k (a !! p)) names.
Definition slowQueryListGet (vals : list (option Value)) : string :=
  "/slow_query/list?" +:+ print_query (setSearchParams (parameters (arguments Op.SlowQuery_slowQueryListGet vals))).

(** What a method asks: a call of the client, or a request of its own.  The list of databases is that of
    PD, or of a range. *)
Inductive Sent := Called (m : Method) (vals : list (option Value)) | Raw (url : string).
Definition getDatabaseList (beginTime endTime : num) : Sent :=
  if num_le beginTime (num_of_Z 0) && num_le (num_of_Z 0) beginTime then Called Op.SlowQuery_getDatabaseList [Some (VNum beginTime); Some (VNum endTime)]
  else Raw ("/slow_query/databases?begin_time=" +:+ num_show beginTime +:+ "&end_time=" +:+ num_show endTime).
Definition slowQueryAnalyze (start end_ : num) : string := "/slow_query/analyze?begin_time=" +:+ num_show start +:+ "&end_time=" +:+ num_show end_.
Definition slowQueryDownloadDBFile (begin_time end_time : num) : string := "/slow_query/files?begin_time=" +:+ num_show begin_time +:+ "&end_time=" +:+ num_show end_time.
Definition promqlQuery (query : string) (time : num) (timeout : string) : string :=
  "/slow_query/vm_query?query=" +:+ query +:+ "&time=" +:+ num_show time +:+ "&timeout=" +:+ timeout.
Definition promqlQueryRange (query : string) (start end_ : num) (step : string) : string :=
  "/slow_query/vm_query_range?query=" +:+ query +:+ "&start=" +:+ num_show start +:+ "&end=" +:+ num_show end_ +:+ "&step=" +:+ step.

(** What the page of a query asks, unless it is answered by a query that was kept from the list: the list
    that is kept is modelled in [SlowQueryPages.Clinic]. *)
Definition detail_sent {Item} (a : Clinic.Answer Item) : option Sent :=
  match a with
  | Clinic.Kept _ => None
  | Clinic.Sent k => Some (Called Op.SlowQuery_slowQueryDetailGet [Some (VStr (Rows.k_connectionId k)); Some (VStr (Rows.k_digest k)); Some (VNum (Rows.k_timestamp k))])
  end.

(** A query that was selected is answered without a request, once. *)
Lemma selected_not_sent {Item} listApiReturnDetail (item : Item) k :
  let '(a, cache) := Clinic.slowQueryDetailGet k (Clinic.selectSlowQueryItem listApiReturnDetail item []) in
  (detail_sent a = None <-> listApiReturnDetail = true) /\ is_Some (detail_sent (fst (Clinic.slowQueryDetailGet k cache))).
Proof. destruct listApiReturnDetail; cbn; (split; [done|by eexists]). Qed.

(** What the clinic calls of the client is among the methods of the other distribution. *)
Lemma called_known beginTime endTime {Item} (answer : Clinic.Answer Item) m vals :
  getDatabaseList beginTime endTime = Called m vals \/ detail_sent answer = Some (Called m vals) -> m ∈ Op.all.
Proof.
  intros [Hg|Hd].
  - unfold getDatabaseList in Hg. destruct (_ && _); [|done]. injection Hg as <- <-. apply (bool_decide_unpack _). vm_compute. exact I.
  - destruct answer as [i|k]; [done|]. injection Hd as <- <-. apply (bool_decide_unpack _). vm_compute. exact I.
Qed.

Lemma requestParameters_passed m vals p : p ∈ passed m -> requestParameters m vals !! p = arguments m vals !! p.
Proof. intros Hp. apply option_eq. intros v. unfold requestParameters. rewrite map_lookup_filter_Some. cbn. naive_solver. Qed.

(** The clinic asks for whether system queries are listed, too. *)
Lemma names_client : names = query Endpoints.slowQueryListGet ++ [("show_internal", "showInternal", One)].
Proof. reflexivity. Qed.

Definition internal (a : Args) : params := match a !! "showInternal" with Some v => pairs ("show_internal", v) | None => [] end.

Lemma parameters_given vals : let m := Op.SlowQuery_slowQueryListGet in
  flat_map pairs (parameters (arguments m vals)) = given Endpoints.slowQueryListGet (requestParameters m vals) ++ internal (arguments m vals).
Proof.
  cbv zeta. unfold parameters. rewrite names_client, omap_app, flat_map_app. f_equal.
  - unfold given, localVarQueryParameter. f_equal. apply list_omap_ext, Forall_Forall2_diag, Forall_forall. intros [[n p] k] Hq. rewrite requestParameters_passed; [done|].
    assert (Hall : forallb (fun q : string * string * Kind => bool_decide (snd (fst q) ∈ passed Op.SlowQuery_slowQueryListGet)) (query Endpoints.slowQueryListGet) = true) by (vm_compute; reflexivity).
    pose proof (proj1 (forallb_forall _ _) Hall _ (proj1 (list_elem_of_In _ _) Hq)) as H. by apply bool_decide_eq_true in H.
  - unfold internal. cbn. destruct (_ !! "showInternal"); cbn; [|done]. apply app_nil_r.
Qed.

(** C24: The clinic writes the query of its list of slow queries itself; it says what the client of the other
    distribution says for the same arguments, and whether the queries of the system are listed. *)
Theorem list_agrees {Json} (stringify : Json -> string) c vals b o : exists r q q',
  call stringify c Op.SlowQuery_slowQueryListGet vals b o = inr r /\ r_url r = "/slow_query/list" +:+ q /\
  slowQueryListGet vals = "/slow_query/list" +:+ q' /\ parse_query q' = parse_query q ++ internal (arguments Op.SlowQuery_slowQueryListGet vals).
Proof.
  eexists _, _, _. split_and!; [reflexivity|reflexivity|unfold slowQueryListGet; change ("/slow_query/list?" +:+ ?x) with ("/slow_query/list" +:+ ("?" +:+ x)); reflexivity|].
  rewrite (query_given Endpoints.slowQueryListGet) by (apply (bool_decide_unpack _); vm_compute; exact I). rewrite <- parameters_given, <- set_params_flat.
  - apply parse_question.
  - eapply sublist_NoDup; [|exact (query_names (mkEndpoint "GET" [] names [] None true) (arguments Op.SlowQuery_slowQueryListGet vals))]. apply (bool_decide_unpack _). vm_compute. exact I.
Qed.

(** A query is not encoded, so that a sum is read as another query. *)
Lemma sum_not_encoded : head (parse_query (str_drop (String.length "/slow_query/vm_query?") (promqlQuery "a+b" (num_of_Z 1) "5s"))) = Some ("query", "a b").
Proof. reflexivity. Qed.
End SlowQuery.

(** ** The top slow queries of the clinic *)

Module TopSlowQuery.
Definition hours (start end_ : num) : num := num_div (num_sub end_ start) (num_of_Z 3600).
Definition getAvailableTimeWindows (from to duration : num) : string :=
  "/slow_query/stats/time_windows?begin_time=" +:+ num_show from +:+ "&end_time=" +:+ num_show to +:+ "&hours=" +:+ num_show (num_div duration (num_of_Z 3600)).
Definition getMetrics (start end_ : num) : string :=
  "/slow_query/stats/metric?begin_time=" +:+ num_show start +:+ "&hours=" +:+ num_show (hours start end_) +:+ "&metric_name=count_per_minute".
Definition getDatabaseList (start end_ : num) : string :=
  "/slow_query/stats/databases?begin_time=" +:+ num_show start +:+ "&hours=" +:+ num_show (hours start end_).

Record Query := mkQuery { start : num; end_ : num; order : string; dbs : list string; internal : string; stmtKinds : list string }.
Definition getTopSlowQueries (q : Query) : string :=
  "/slow_query/stats?" +:+ print_query
    ([("begin_time", num_show (start q)); ("hours", num_show (hours (start q) (end_ q))); ("order_by", order q); ("limit", "10")] ++
     map (pair "databases") (dbs q) ++ map (pair "statement_types") (stmtKinds q)).

(** The request says which databases and kinds were chosen, whatever their names, but not whether
    queries of the system are wanted. *)
Lemma top_request q : exists query, getTopSlowQueries q = "/slow_query/stats" +:+ query /\
  map snd (filter (fun p => fst p = "databases") (parse_query query)) = dbs q /\ map snd (filter (fun p => fst p = "statement_types") (parse_query query)) = stmtKinds q.
Proof.
  eexists. split; [unfold getTopSlowQueries; change ("/slow_query/stats?" +:+ ?x) with ("/slow_query/stats" +:+ ("?" +:+ x)); reflexivity|].
  rewrite parse_question. assert (Hall : forall n l, filter (fun p : string * string => fst p = n) (map (pair n) l) = map (pair n) l).
  { intros n l. apply filter_id, Forall_map, Forall_forall. done. }
  assert (Hno : forall n n' l, n <> n' -> filter (fun p : string * string => fst p = n) (map (pair n') l) = []).
  { intros n n' l Hn. apply filter_none, Forall_map, Forall_forall. intros x _ E. by apply Hn. }
  assert (Hmap : forall (n : string) l, map snd (map (pair n) l) = (l : list string)) by (intros n l; rewrite map_map; apply map_id).
  split; rewrite !filter_app, !Hall, Hno by done; cbn [filter app]; rewrite ?app_nil_r; apply Hmap.
Qed.

Lemma internal_not_sent s e o d i i' k : getTopSlowQueries (mkQuery s e o d i k) = getTopSlowQueries (mkQuery s e o d i' k).
Proof. done. Qed.
End TopSlowQuery.

(** ** The ranges of statements *)

Module TimeRanges.
(** The headers of the request: the key of the session is added by hand, as this request does not go
    through the client. *)
Definition headers_op (token : option string) (o : Options) : gmap string string := <["Authorization" := default "" token]> (headers o).
Definition headers_cloud (o : Options) : gmap string string := headers o.
Definition url : string := "/statements/time_ranges".
End TimeRanges.

(** ** The slow queries of the other clinic (tidb-dashboard-for-clinic-op) *)

Module ClinicOp.
(** What the address of the page says, and the query that was selected last. *)
Record DsExtra := mkExtra { oid : string; cid : string; itemID : string; beginTime : option Z; endTime : option Z; curQueryID : string }.

Definition get (l : params) (k : string) : string := default "" (snd <$> find (fun p => String.eqb (fst p) k) l).
Definition js_or_zero (s : string) : string := if truthy s then s else "0".
(** [hash.slice(hash.indexOf('?'))]: without one the last character is left. *)
Definition hash_query (hash : string) : string := match find_char "?" hash with Some n => str_drop n hash | None => str_drop (String.length hash - 1) hash end.
Definition getDsExtra (search hash : string) : DsExtra :=
  let s := parse_query search in let p := parse_query (hash_query hash) in
  mkExtra (get s "oid") (get s "cid") (get s "item_id") (parseInt (js_or_zero (get p "from"))) (parseInt (js_or_zero (get p "to"))) "".

(** The requests, by the names of the arguments. *)
Definition slowQueryListGet (token : string) (x : DsExtra) (a : Args) : list (string * option Value) :=
  [("xCsrfToken", Some (VStr token)); ("oid", Some (VStr (oid x))); ("itemID", Some (VStr (itemID x))); ("cid", Some (VStr (cid x)))] ++
  map (fun n => (n, a !! n)) ["beginTime"; "endTime"; "db"; "limit"; "text"; "orderBy"; "desc"; "plans"; "digest"].
Definition slowQueryDetailGet (token : string) (x : DsExtra) : list (string * Value) :=
  [("xCsrfToken", VStr token); ("oid", VStr (oid x)); ("itemID", VStr (itemID x)); ("cid", VStr (cid x)); ("queryid", VStr (curQueryID x))].
Definition selectSlowQueryItem (item_id : string) (x : DsExtra) : DsExtra :=
  mkExtra (oid x) (cid x) (itemID x) (beginTime x) (endTime x) item_id.

(** The filters that are shown. *)
Definition shown_filters : list (string * bool) := [("db", false); ("digest", false); ("resourceGroup", true)].

(** The page of a query asks for the query that was selected last, whatever its address says; the
    filter on resource groups is shown, but has no effect. *)
Lemma detail_asks_last token x l id : slowQueryDetailGet token (fold_left (fun x i => selectSlowQueryItem i x) (l ++ [id]) x) =
  [("xCsrfToken", VStr token); ("oid", VStr (oid x)); ("itemID", VStr (itemID x)); ("cid", VStr (cid x)); ("queryid", VStr id)].
Proof.
  rewrite fold_left_app. cbn. unfold slowQueryDetailGet. cbn. set (y := fold_left _ l x). assert (oid y = oid x /\ itemID y = itemID x /\ cid y = cid x) as (-> & -> & ->); [|done].
  subst y. revert x. induction l as [|i l IH]; intros x; [done|]. cbn [fold_left]. destruct (IH (selectSlowQueryItem i x)) as (-> & -> & ->). done.
Qed.

Lemma group_not_sent token x a v : slowQueryListGet token x (<["resourceGroup" := v]> a) = slowQueryListGet token x a.
Proof. unfold slowQueryListGet. f_equal. apply map_ext_in. intros n Hn. f_equal. apply lookup_insert_ne. intros <-. apply list_elem_of_In in Hn. revert Hn. apply (bool_decide_unpack _). exact I. Qed.
End ClinicOp.
