(* ===== verification/ClinicShell.v ===== *)
(** * The shell of the dashboard in the clinic (tidb-dashboard-for-clinic-cloud: utils/registry.ts,
      client/index.tsx, dashboardApp/) and the menus of both distributions

    Module [Apps] is the registry, which leaves out the applications that the options name, and [Menu]
    the menus made of it (layout/main/Sider/index.tsx); [Client] the headers of all requests and what
    an error does, [Start] the first steps of the page, [Banner] the version that is shown, and
    [Layout] the place of the content.  The locations and the registered applications are those of
    [Session]. *)

From Stdlib Require Import Ascii QArith.
From S2P Require Import Prelude JsString JsNumber Uri Session.
Local Open Scope Z_scope.

(** ** The applications *)

Module Apps.
Import Registry.
(** The options that choose applications (utils/globalConfig.ts); the disabled ones have priority. *)
Record Chosen := mkChosen { appsDisabled : option (list string); appsEnabled : option (list string) }.

Definition allowed (c : Chosen) (a : App) : bool :=
  match appsDisabled c with
  | Some l => if bool_decide (id a ∈ l) then false else match appsEnabled c with Some e => bool_decide (id a ∈ e) | None => true end
  | None => match appsEnabled c with Some e => bool_decide (id a ∈ e) | None => true end
  end.
Definition register (c : Chosen) (r : AppRegistry) (a : App) : AppRegistry := if allowed c a then Registry.register r a else r.

(** In the order [webPageStart] registers them. *)
Definition cloud_apps : list App :=
  [meta "user_profile" "/user_profile"; mkApp "overview" "/overview" None true;
   meta "cluster_info" "/cluster_info"; meta "keyviz" "/keyviz"; meta "topsql" "/topsql";
   meta "statement" "/statement"; meta "system_report" "/system_report"; meta "slow_query" "/slow_query";
   meta "diagnose" "/diagnose"; meta "monitoring" "/monitoring"; meta "search_logs" "/search_logs";
   meta "instance_profiling" "/instance_profiling"; meta "conprof" "/continuous_profiling";
   meta "query_editor" "/query_editor"; meta "configuration" "/configuration";
   meta "debug_api" "/debug_api"; meta "optimizer_trace" "/optimizer_trace"; meta "deadlock" "/deadlock";
   meta "resource_manager" "/resource_manager"; meta "top_slowquery" "/top_slowquery"].
Definition registry (c : Chosen) : AppRegistry := fold_left (register c) cloud_apps new.

(** What single-spa activates at a location. *)
Definition active_apps (c : Chosen) (hash : string) : list App := filter (fun a => active hash a = true) (filter (fun a => allowed c a = true) cloud_apps).

(** *** The registry after a list of applications *)

Lemma registered_fold c l r : fold_left (register c) l r = fold_left Registry.register (filter (fun a => allowed c a = true) l) r.
Proof. revert r. induction l as [|a l IH]; intros r; [done|]. cbn [fold_left]. rewrite IH, filter_cons. unfold register. destruct (allowed c a); [by rewrite decide_True|by rewrite decide_False]. Qed.

Lemma apps_fold l r k : NoDup (map id l) -> apps (fold_left Registry.register l r) !! k =
  match find (fun a => bool_decide (id a = k)) l with Some a => Some (mkApp (id a) (routerPrefix a) (Some (js_or (indexRoute a) (routerPrefix a))) (isDefaultRouter a)) | None => apps r !! k end.
Proof.
  revert r. induction l as [|a l IH]; intros r Hn; [done|]. cbn [map] in Hn. apply NoDup_cons in Hn as [Ha Hn]. cbn [fold_left find]. rewrite IH by done. case_bool_decide as Hk.
  - destruct (find _ l) as [b|] eqn:E; [|cbn; by rewrite Hk, lookup_insert_eq]. exfalso. apply find_some in E as [Hb E]. apply bool_decide_eq_true in E. apply Ha. rewrite Hk, <- E. by apply (list_elem_of_fmap_2 id), list_elem_of_In.
  - destruct (find _ l); [done|]. cbn. by rewrite lookup_insert_ne.
Qed.

(** The first route, unless an application claims the default. *)
Fixpoint first_route (l : list App) (d : string) : string :=
  match l with [] => d | a :: l => first_route l (if negb (truthy d) || isDefaultRouter a then js_or (indexRoute a) (routerPrefix a) else d) end.
Lemma default_fold l r : defaultRouter (fold_left Registry.register l r) = first_route l (defaultRouter r).
Proof. revert r. induction l as [|a l IH]; intros r; [done|]. cbn [fold_left first_route]. by rewrite IH. Qed.

Lemma first_route_plain l d : truthy d = true -> Forall (fun a => isDefaultRouter a = false) l -> first_route l d = d.
Proof. revert d. induction l as [|a l IH]; intros d Hd Hl; [done|]. apply Forall_cons in Hl as [Ha Hl]. cbn [first_route]. rewrite Hd, Ha. by apply IH. Qed.

Lemma filter_apart l c : all_apart (map routerPrefix l) = true -> all_apart (map routerPrefix (filter (fun a => allowed c a = true) l)) = true.
Proof.
  induction l as [|a l IH]; [done|]. cbn [map all_apart]. intros [Ha Hl]%andb_true_iff. rewrite filter_cons. case_decide; [|by apply IH]. cbn [map all_apart]. rewrite IH by done.
  apply andb_true_iff. split; [|done]. apply forallb_forall. intros p Hp. apply (proj1 (forallb_forall _ _) Ha). apply list_elem_of_In in Hp. apply list_elem_of_In.
  apply list_elem_of_fmap in Hp as (b & -> & Hb). apply list_elem_of_filter in Hb as [_ Hb]. by apply (list_elem_of_fmap_2 routerPrefix).
Qed.

Lemma ids_apart : NoDup (map id cloud_apps).
Proof. apply (bool_decide_unpack _). vm_compute. exact I. Qed.

Lemma same_id x y : x ∈ cloud_apps -> y ∈ cloud_apps -> id x = id y -> x = y.
Proof.
  intros [i Hi]%list_elem_of_lookup [j Hj]%list_elem_of_lookup Hid. assert (i = j) as ->; [|congruence].
  apply (NoDup_lookup (map id cloud_apps) i j (id x)); [exact ids_apart| |]; rewrite list_lookup_fmap; [by rewrite Hi|by rewrite Hj, Hid].
Qed.

Lemma registry_lookup c k : is_Some (apps (registry c) !! k) <-> exists a, a ∈ cloud_apps /\ allowed c a = true /\ id a = k.
Proof.
  assert (Hl : NoDup (map id (filter (fun a => allowed c a = true) cloud_apps))) by (eapply sublist_NoDup; [exact ids_apart|]; apply (fmap_sublist id), sublist_filter).
  unfold registry. rewrite registered_fold, apps_fold by done. cbn [apps new]. rewrite lookup_empty. split.
  - destruct (find _ _) as [a|] eqn:E; [|by intros [? [=]]]. apply find_some in E as [Ha E]. apply bool_decide_eq_true in E. apply list_elem_of_In, list_elem_of_filter in Ha as [Ha Hin]. intros _. by exists a.
  - intros (a & Ha & Hall & <-). destruct (find _ _) as [b|] eqn:E; [by eexists|]. exfalso.
    assert (Hf : In a (filter (fun a => allowed c a = true) cloud_apps)) by (by apply list_elem_of_In, list_elem_of_filter).
    pose proof (find_none _ _ E a Hf) as H. cbn beta in H. by rewrite bool_decide_eq_true_2 in H.
Qed.

(** The applications after the overview have a route of their own and do not claim the default. *)
Definition plain_app (a : App) : bool := negb (isDefaultRouter a) && truthy (routerPrefix a) && bool_decide (indexRoute a = None).
Definition rest : list App := tail (tail cloud_apps).
Lemma rest_plain c : Forall (fun a => plain_app a = true) (filter (fun a => allowed c a = true) rest).
Proof. apply Forall_forall. intros a [_ Ha]%list_elem_of_filter. apply list_elem_of_In in Ha. revert a Ha. apply forallb_forall. vm_compute. reflexivity. Qed.

Lemma plain_route l : Forall (fun a => plain_app a = true) l -> first_route l "" = match l with a :: _ => routerPrefix a | [] => "" end /\ forall d, truthy d = true -> first_route l d = d.
Proof.
  intros Hl. assert (Hd : forall l d, Forall (fun a => plain_app a = true) l -> truthy d = true -> first_route l d = d).
  { clear. intros l d Hl Hd. apply first_route_plain; [done|]. eapply Forall_impl; [exact Hl|]. intros a [[H _]%andb_true_iff _]%andb_true_iff. by apply negb_true_iff in H. }
  split; [|intros d; by apply Hd]. destruct l as [|a l]; [done|]. apply Forall_cons in Hl as [Ha Hl]. apply andb_true_iff in Ha as [[_ Hp]%andb_true_iff Hi]. apply bool_decide_eq_true in Hi.
  cbn [first_route]. rewrite Hi. by apply Hd.
Qed.

Lemma default_route c : getDefaultRouter (registry c) =
  if allowed c (mkApp "overview" "/overview" None true) then "/overview"
  else match filter (fun a => allowed c a = true) cloud_apps with a :: _ => routerPrefix a | [] => "/" end.
Proof.
  unfold getDefaultRouter, registry. rewrite registered_fold, default_fold. cbn [defaultRouter new].
  change cloud_apps with (meta "user_profile" "/user_profile" :: mkApp "overview" "/overview" None true :: rest).
  destruct (plain_route _ (rest_plain c)) as [H1 H2]. pose proof (rest_plain c) as Hr. rewrite !filter_cons. set (l := filter (fun a => allowed c a = true) rest) in *.
  destruct (allowed c (meta "user_profile" "/user_profile")), (allowed c (mkApp "overview" "/overview" None true)); repeat (case_decide; try done); cbn [first_route]; cbn [routerPrefix meta].
  - match goal with |- context [first_route l ?d] => change d with "/overview" end. by rewrite (H2 "/overview").
  - match goal with |- context [first_route l ?d] => change d with "/user_profile" end. by rewrite (H2 "/user_profile").
  - match goal with |- context [first_route l ?d] => change d with "/overview" end. by rewrite (H2 "/overview").
  - rewrite H1. destruct l as [|a l']; [done|]. apply Forall_cons in Hr as [Ha _]. apply andb_true_iff in Ha as [[_ Hp]%andb_true_iff _]. by rewrite Hp.
Qed.

Lemma registry_route c app b : app ∈ cloud_apps -> allowed c app = true -> apps (registry c) !! id app = Some b -> default "" (indexRoute b) = routerPrefix app.
Proof.
  intros Ha Hall. assert (Hl : NoDup (map id (filter (fun a => allowed c a = true) cloud_apps))) by (eapply sublist_NoDup; [exact ids_apart|]; apply (fmap_sublist id), sublist_filter).
  unfold registry. rewrite registered_fold, apps_fold by done. cbn [apps new]. rewrite lookup_empty. destruct (find _ _) as [x|] eqn:E; [|done]. intros [= <-]. cbn.
  apply find_some in E as [Hx E]. apply bool_decide_eq_true in E. apply list_elem_of_In, list_elem_of_filter in Hx as [_ Hx].
  assert (Hix : indexRoute x = None). { revert x Hx E. intros x Hx _. apply list_elem_of_In in Hx. assert (Hn : forallb (fun a => bool_decide (indexRoute a = None)) cloud_apps = true) by (vm_compute; reflexivity). by apply (forallb_forall _ _) with (x := x) in Hn; [apply bool_decide_eq_true in Hn|]. }
  rewrite Hix. cbn. f_equal. by apply (same_id x app).
Qed.

Lemma one_active_at c hash : (length (active_apps c hash) <= 1)%nat.
Proof. apply one_active, filter_apart. vm_compute. reflexivity. Qed.

Lemma active_at_route a : a ∈ cloud_apps -> active ("#" +:+ routerPrefix a) a = true.
Proof. intros Ha. apply list_elem_of_In in Ha. revert a Ha. apply forallb_forall. vm_compute. reflexivity. Qed.

(** Whatever is chosen, the registry has the applications that are allowed and no others, at most one
    of them is active at a location, and the page starts with the overview if it is allowed, with the
    first one that is allowed otherwise. *)
Theorem registry_spec (c : Chosen) :
  (forall a, a ∈ cloud_apps -> is_Some (apps (registry c) !! id a) <-> allowed c a = true) /\
  (forall k, is_Some (apps (registry c) !! k) -> exists a, a ∈ cloud_apps /\ id a = k) /\
  (forall hash, (length (active_apps c hash) <= 1)%nat) /\
  getDefaultRouter (registry c) =
    if allowed c (mkApp "overview" "/overview" None true) then "/overview"
    else match filter (fun a => allowed c a = true) cloud_apps with a :: _ => routerPrefix a | [] => "/" end.
Proof.
  split_and!; [| | |apply default_route].
  - intros a Ha. rewrite registry_lookup. split; [|intros Hall; by exists a]. intros (b & Hb & Hall & Hid). by rewrite <- (same_id b a).
  - intros k (a & Ha & _ & <-)%registry_lookup. by exists a.
  - apply one_active_at.
Qed.
End Apps.

(** ** The menus *)

Module Menu.
Import Registry.
Inductive Item := Entry (appId route title : string) | SubMenu (key : string) (l : list Item).

(** What the menus depend on: the features the server supports, whether it has experimental ones,
    and the name of the user. *)
Record Info := mkInfo { supported_features : option (list string); enable_experimental : bool; display_name : option string }.
Definition supports (i : Info) (f : string) : bool := match supported_features i with Some l => bool_decide (f ∈ l) | None => false end.

Section Sider.
Context (t : string -> string) (r : AppRegistry) (i : Info).

Definition useAppMenuItem (appId : string) (enable : bool) (title : string) : option Item :=
  match (if enable then apps r !! appId else None) with
  | Some a => Some (Entry appId (default "" (indexRoute a)) (if truthy title then title else t (appId +:+ ".nav_title")))
  | None => None
  end.
Definition item (appId : string) : option Item := useAppMenuItem appId true "".
Definition profilingSubMenu : Item := SubMenu "profiling" (omap (fun x => x) [item "instance_profiling"; useAppMenuItem "conprof" (supports i "conprof") ""]).
Definition debugSubMenu : Item := SubMenu "debug" (omap (fun x => x) [Some profilingSubMenu; item "debug_api"]).
Definition experimentalSubMenu : Item := SubMenu "experimental" (omap (fun x => x) [item "query_editor"; item "configuration"]).
Definition menuItems : list Item :=
  omap (fun x => x)
    ([item "overview"; item "cluster_info"; useAppMenuItem "topsql" (supports i "topsql") ""; item "statement"; item "slow_query"; item "keyviz"; item "system_report";
      item "monitoring"; item "search_logs"; useAppMenuItem "resource_manager" (supports i "resource_manager") ""; Some debugSubMenu] ++
     (if enable_experimental i then [Some experimentalSubMenu] else [])).
Definition extraMenuItems : list Item := omap (fun x => x) [item "dashboard_settings"; useAppMenuItem "user_profile" true (js_or (display_name i) "...")].
End Sider.

(** The entries of a menu and its submenus. *)
Fixpoint entries (m : Item) : list (string * string) := match m with Entry a r _ => [(a, r)] | SubMenu _ l => flat_map entries l end.
Definition all_entries (t : string -> string) (r : AppRegistry) (i : Info) : list (string * string) := flat_map entries (menuItems t r i ++ extraMenuItems t r i).

(** The active application that is marked: the last one that was active. *)
Definition useActiveAppId (mounted : list string) (r : AppRegistry) (appId : string) : string :=
  match getActiveApp mounted r with Some a => id a | None => appId end.

(** An entry is shown for an application that is registered, and leads to its route. *)
Definition leads (r : AppRegistry) (x : string * string) : Prop := exists b, apps r !! (fst x) = Some b /\ snd x = default "" (indexRoute b).
Definition item_leads (r : AppRegistry) (o : option Item) : Prop := Forall (leads r) (from_option entries [] o).

Lemma app_item_leads t r a en ti : item_leads r (useAppMenuItem t r a en ti).
Proof. unfold item_leads, useAppMenuItem. destruct en; [|constructor]. destruct (apps r !! a) as [b|] eqn:E; cbn; [|constructor]. repeat constructor. by exists b. Qed.

Lemma items_lead r l : Forall (item_leads r) l -> Forall (leads r) (flat_map entries (omap (fun x => x) l)).
Proof. induction 1 as [|o l Ho _ IH]; [constructor|]. destruct o as [m|]; cbn; [|exact IH]. apply Forall_app. split; [exact Ho|exact IH]. Qed.

Lemma submenu_leads r key l : Forall (item_leads r) l -> item_leads r (Some (SubMenu key (omap (fun x => x) l))).
Proof. apply items_lead. Qed.

Lemma all_entries_lead t r i : Forall (leads r) (all_entries t r i).
Proof.
  assert (Hp : item_leads r (Some (profilingSubMenu t r i))) by (apply submenu_leads; repeat (apply Forall_cons_2; [apply app_item_leads|]); apply Forall_nil_2).
  assert (Hd : item_leads r (Some (debugSubMenu t r i))) by (apply submenu_leads; apply Forall_cons_2; [exact Hp|]; apply Forall_cons_2; [apply app_item_leads|apply Forall_nil_2]).
  assert (He : item_leads r (Some (experimentalSubMenu t r))) by (apply submenu_leads; repeat (apply Forall_cons_2; [apply app_item_leads|]); apply Forall_nil_2).
  unfold all_entries. rewrite flat_map_app. apply Forall_app. split; apply items_lead; [apply Forall_app; split|].
  - repeat (apply Forall_cons_2; [first [apply app_item_leads|exact Hd]|]). apply Forall_nil_2.
  - destruct (enable_experimental i); [|apply Forall_nil_2]. apply Forall_cons_2; [exact He|apply Forall_nil_2].
  - repeat (apply Forall_cons_2; [apply app_item_leads|]). apply Forall_nil_2.
Qed.

(** Every entry of the menus of the clinic opens the application it names, and no other. *)
Theorem entries_open t c i a route : (a, route) ∈ all_entries t (Apps.registry c) i ->
  exists app, app ∈ Apps.cloud_apps /\ Apps.allowed c app = true /\ id app = a /\ Apps.active_apps c ("#" +:+ route) = [app].
Proof.
  intros Hin. pose proof (proj1 (Forall_forall _ _) (all_entries_lead t (Apps.registry c) i) _ Hin) as (b & Hb & Hr). cbn [fst snd] in Hb, Hr.
  destruct (proj1 (Apps.registry_lookup c a) ltac:(by eexists)) as (app & Happ & Hall & Hid). exists app. split_and!; [done..|].
  assert (Hroute : route = routerPrefix app).
  { rewrite Hr. rewrite <- Hid in Hb. by apply (Apps.registry_route c app b). }
  rewrite Hroute. pose proof (Apps.one_active_at c ("#" +:+ routerPrefix app)) as Hone. assert (Hact : app ∈ Apps.active_apps c ("#" +:+ routerPrefix app)).
  { unfold Apps.active_apps. apply list_elem_of_filter. split; [|by apply list_elem_of_filter]. by apply Apps.active_at_route. }
  destruct (Apps.active_apps c _) as [|x [|y l]]; [by apply elem_of_nil in Hact| |cbn in Hone; lia]. apply list_elem_of_singleton in Hact. by rewrite Hact.
Qed.

(** The menu of tools for debugging is shown even when it has no entry. *)
Lemma empty_debug_menu : flat_map entries (menuItems (fun s => s) (Apps.registry (Apps.mkChosen None (Some ["slow_query"]))) (mkInfo None false None)) = [("slow_query", "/slow_query")] /\
  SubMenu "debug" [SubMenu "profiling" []] ∈ menuItems (fun s => s) (Apps.registry (Apps.mkChosen None (Some ["slow_query"]))) (mkInfo None false None).
Proof. split; [vm_compute; reflexivity|]. apply list_elem_of_In. vm_compute. tauto. Qed.
End Menu.

(** ** The client *)

Module Client.
(** The headers of all requests (utils/globalConfig.ts, [initAxios]). *)
Record ClusterInfo := mkCluster { provider : option string; region : option string; orgId : option string; projectId : option string; clusterId : option string; deployType : option string; env : option string }.
Definition header (name : string) (v : option string) : list (string * string) := match v with Some s => if truthy s then [(name, s)] else [] | None => [] end.
Definition headers (apiToken : string) (c : ClusterInfo) : list (string * string) :=
  [("x-csrf-token", apiToken)] ++ header "x-provider" (provider c) ++ header "x-region" (region c) ++ header "x-org-id" (orgId c) ++
  header "x-project-id" (projectId c) ++ header "x-cluster-id" (clusterId c) ++ header "x-deploy-type" (deployType c) ++ header "x-env" (env c).

(** The browser: the location, what is remembered of it, and the redirections that are due. *)
Record Browser := mkBrowser { origin : string; href : string; hash : string; login_from : option string; due : nat }.

Definition signed_out (e : AxiosError) (status : option Z) : bool := bool_decide (errCode e = Some "common.unauthenticated") || bool_decide (status = Some 401).
Definition intercept (e : AxiosError) (status : option Z) (b : Browser) : Browser * ErrorAction * bool :=
  if signed_out e status then
    (mkBrowser (origin b) (href b) (hash b) (Some (href b)) (S (due b)),
     if negb (Routing.isLocationMatch (hash b) "/" false) && negb (Routing.isSignInPage (hash b)) then Toast else Nothing, true)
  else
    match handleError e with
    | Default =>
        (b, if String.eqb (js_toLowerCase (method e)) "get" then Notification
            else if bool_decide (js_toLowerCase (method e) ∈ ["post"; "put"; "delete"; "patch"]) then ModalError else Nothing, true)
    | Custom => (b, Nothing, false)
    end.

(** Two seconds later. *)
Definition timeout (b : Browser) : Browser := match due b with O => b | S n => mkBrowser (origin b) (origin b) "" (login_from b) n end.

(** The address to come back to is remembered, and the page is left. *)
Lemma signed_out_leaves e st b : signed_out e st = true -> let b' := fst (fst (intercept e st b)) in
  login_from b' = Some (href b) /\ href (timeout b') = origin b /\ login_from (timeout b') = Some (href b) /\ snd (intercept e st b) = true.
Proof. intros He. unfold intercept. by rewrite He. Qed.

(** Unlike in the other distribution, an error of an old server that says that the user is not
    authorized is an error like any other. *)
Lemma old_code_not_special m mes st b h : st <> Some 401 -> mes <> "Network Error" ->
  fst (fst (intercept (mkError mes (Some "error.api.unauthorized") m h "get") st b)) = b.
Proof.
  intros Hs Hm. unfold intercept, signed_out, errCode. cbn. rewrite (proj2 (String.eqb_neq _ _)) by done. rewrite (bool_decide_eq_false_2 (Some _ = Some _)) by done.
  rewrite bool_decide_eq_false_2 by done. by destruct h.
Qed.
End Client.

(** ** The first steps of the page *)

Module Start.
Record Options := mkOptions { skipNgmCheck : bool; skipLoadAppInfo : bool; skipReloadWhoAmI : bool; hideNav : bool }.
(** What the page does: it warns, fails, starts, or goes to a route first. *)
Inductive Step := NgmWarning | ConnectError (e : string) | GoTo (route : string) | Run.

(** [info] is the state of NgMonitoring or an error, [who] whether the user could be read. *)
Definition webPageStart (o : Options) (info : string + option string) (who : bool) (hash : string) (c : Apps.Chosen) : list Step :=
  let rest := (if negb (skipReloadWhoAmI o) && Routing.isLocationMatch hash "/" false && who then [GoTo ("#" +:+ Registry.getDefaultRouter (Apps.registry c))] else []) ++ [Run] in
  if skipLoadAppInfo o then rest
  else match info with
       | inl e => [ConnectError e]
       | inr s => (if negb (skipNgmCheck o) && bool_decide (s = Some "not_started") then [NgmWarning] else []) ++ rest
       end.

(** The page runs exactly when the server answered or was not asked. *)
Lemma runs o info who hash c : Run ∈ webPageStart o info who hash c <-> skipLoadAppInfo o = true \/ exists s, info = inr s.
Proof.
  unfold webPageStart. destruct (skipLoadAppInfo o), info as [e|s]; rewrite ?elem_of_app, ?list_elem_of_singleton; split; try naive_solver.
Qed.
End Start.

(** ** The version in the banner *)

Module Banner.
Record Version := mkVersion { standalone : option string; internal_version : option string; build_git_hash : option string; pd_version : option string }.
Definition parseVersion (distro_pd : string) (v : option Version) : option string :=
  match v with
  | None => None
  | Some v =>
      if bool_decide (standalone v = Some "No") then
        match pd_version v with Some p => if truthy p then Some (distro_pd +:+ " " +:+ p) else None | None => None end
      else
        match internal_version v with
        | Some iv =>
            if String.eqb iv "nightly" then
              Some (match build_git_hash v with Some h => if truthy h then iv +:+ "-" +:+ js_slice h 0 8 else iv | None => iv end)
            else if truthy iv then Some (if js_startsWith iv "v" then iv else "v" +:+ iv) else None
        | None => None
        end
  end.
Definition shown (distro_pd : string) (v : option Version) : string := js_or (parseVersion distro_pd v) "Version unknown".

(** A released version is shown with one leading letter, whether it has one or not. *)
Lemma released pd s iv h p : s <> Some "No" -> iv <> "nightly" -> iv <> "" -> js_startsWith iv "v" = false ->
  shown pd (Some (mkVersion s (Some iv) h p)) = shown pd (Some (mkVersion s (Some ("v" +:+ iv)) h p)).
Proof.
  intros Hs Hn Hne Hv. unfold shown, parseVersion. cbn [standalone internal_version]. rewrite bool_decide_eq_false_2 by done.
  rewrite (proj2 (String.eqb_neq iv _)) by done. rewrite (proj2 (truthy_string_spec iv)), Hv by done.
  change (String.eqb ("v" +:+ iv) "nightly") with false. assert (E : js_startsWith ("v" +:+ iv) "v" = true) by (unfold js_startsWith; by destruct iv). by rewrite E.
Qed.
End Banner.

(** ** The place of the content *)

Module Layout.
Definition siderWidth : Q := 260.
Definition siderCollapsedWidth : Q := 80.
Definition collapsedContentOffset : Q := siderCollapsedWidth - siderWidth.
Definition contentOffsetTrigger : Q := collapsedContentOffset * (99 # 100).

Record State := mkState { collapsed : bool; offset : Q }.
Inductive Event := Toggle | AnimationStart | AnimationFrame (x : Q).
Definition open (c : bool) : State := mkState c siderWidth.
Definition step (e : Event) (s : State) : State :=
  match e with
  | Toggle => mkState (negb (collapsed s)) (offset s)
  | AnimationStart => if collapsed s then s else mkState false siderWidth
  | AnimationFrame x => if collapsed s && negb (Qle_bool contentOffsetTrigger x) then mkState true siderCollapsedWidth else s
  end.

(** The content is wide only while the menu is collapsed or about to be expanded: a frame of the
    animation before its last hundredth does not move it. *)
Lemma early_frame x s : (contentOffsetTrigger <= x)%Q -> step (AnimationFrame x) s = s.
Proof. intros Hx. cbn. rewrite (proj2 (Qle_bool_iff _ _) Hx). by rewrite andb_false_r. Qed.
Lemma expanded s : collapsed s = true -> offset (step AnimationStart (step Toggle s)) = siderWidth.
Proof. intros Hc. cbn. by rewrite Hc. Qed.
(** A menu that is collapsed when the page opens leaves the place of a wide one, until a frame is drawn. *)
Lemma opens_wide : offset (open true) = siderWidth /\ offset (step (AnimationFrame collapsedContentOffset) (open true)) = siderCollapsedWidth.
Proof. split; vm_compute; reflexivity. Qed.
End Layout.
