(* ===== verification/QueryEditor.v ===== *)
(** * The query editor (apps/QueryEditor)

    The statements of the editor are run one request at a time, and the results shown as a table
    (index.tsx, ResultTable.tsx).  The editor itself is a library; its text is an argument. *)

From S2P Require Import Prelude JsString JsNumber.
Local Open Scope Z_scope.

Definition MAX_DISPLAY_ROWS : Z := 1000.

Section Editor.
(** A value of a row, and the text that the formats of Grafana give a number of milliseconds. *)
Context {Value : Type} (ms_text : num -> string).

Record Response := mkResponse {
  actual_rows : option num; column_names : option (list string); error_msg : option string; execution_ms : option num; rows : option (list (list Value)) }.

Record Request := mkRequest { max_rows : Z; statements : option string }.

(** ** The page *)

Record State := mkState { results : option Response; isRunning : bool }.
Definition init : State := mkState None false.

(** [handleRun]: the button is disabled while a request is in flight; an error leaves no results. *)
Definition handleRun (text : option string) (s : State) : State * option Request :=
  if isRunning s then (s, None) else (mkState None true, Some (mkRequest MAX_DISPLAY_ROWS text)).
Definition answered (r : option Response) (s : State) : State := mkState r false.

Definition isResultsEmpty (s : State) : bool :=
  match results s with
  | None => true
  | Some r => negb (truthy (error_msg r)) && (match column_names r with Some (_ :: _) => false | _ => true end || bool_decide (rows r = None))
  end.

(** The text beside the button. *)
Definition zero_of (n : option num) : num := js_or n (num_of_Z 0).
Definition row_count (r : Response) : Z := match rows r with Some l => Z.of_nat (length l) | None => 0 end.
Definition status (s : State) : option string :=
  match results s with
  | None => None
  | Some r =>
      if truthy (error_msg r) then Some ("Error (" +:+ ms_text (zero_of (execution_ms r)) +:+ ")")
      else Some ("Success (" +:+ ms_text (zero_of (execution_ms r)) +:+ ", " +:+
        (if num_lt (num_of_Z (row_count r)) (zero_of (actual_rows r))
         then "Displaying first " +:+ show (row_count r) +:+ " of " +:+ num_show (zero_of (actual_rows r)) +:+ " rows"
         else show (row_count r) +:+ " rows") +:+ ")")
  end.

(** ** The table *)

(** A column: its name, its key, and the field of a row it shows. *)
Record Column := mkColumn { name : string; key : string; fieldName : string }.
Inductive Row := ErrorRow (e : string) | Values (l : list Value).

Definition columns (res : option Response) : list Column :=
  match res with
  | None => []
  | Some r => if truthy (error_msg r) then [mkColumn "Error" "error" "error"] else imap (fun i cn => mkColumn cn cn (show (Z.of_nat i))) (default [] (column_names r))
  end.
Definition items (res : option Response) : list Row :=
  match res with
  | None => []
  | Some r => if truthy (error_msg r) then [ErrorRow (default "" (error_msg r))] else map Values (default [] (rows r))
  end.

(** [row[fieldName]]: a field of an array is read by the text of its index. *)
Inductive Cell := CText (s : string) | CValue (v : Value) | CNothing.
Definition cell (it : Row) (c : Column) : Cell :=
  match it with
  | ErrorRow e => if String.eqb (fieldName c) "error" then CText e else CNothing
  | Values l => match list_find (fun i => show (Z.of_nat i) = fieldName c) (seq 0 (length l)) with Some (_, i) => from_option CValue CNothing (l !! i) | None => CNothing end
  end.
Definition table (res : option Response) : list (list Cell) := map (fun it => map (cell it) (columns res)) (items res).

Lemma cell_index (l : list Value) i n k : cell (Values l) (mkColumn n k (show (Z.of_nat i))) = from_option CValue CNothing (l !! i).
Proof.
  cbn [cell fieldName]. destruct (list_find _ _) as [[j i']|] eqn:E.
  - apply list_find_Some in E as (Hj & Hs & _). apply (inj show) in Hs. by replace i' with i by lia.
  - apply list_find_None in E. rewrite (lookup_ge_None_2 l i); [done|]. destruct (decide (length l <= i)%nat) as [|Hlt]; [done|]. exfalso. rewrite Forall_forall in E. apply (E i); [|done]. apply elem_of_seq. lia.
Qed.

(** A table without an error has the values of the answer in their places. *)
Theorem table_shows r cols rs : truthy (error_msg r) = false -> column_names r = Some cols -> rows r = Some rs -> Forall (fun l => length l = length cols) rs ->
  table (Some r) = map (map CValue) rs.
Proof.
  intros He Hc Hr Hl. unfold table, items. rewrite He, Hr. cbn [default]. change (default [] (Some rs)) with rs. rewrite map_map. apply map_ext_in. intros l Hin. apply list_elem_of_In in Hin.
  rewrite Forall_forall in Hl. specialize (Hl l Hin). unfold columns. rewrite He, Hc. change (default [] (Some cols)) with cols. apply list_eq. intros i.
  rewrite !list_lookup_fmap, list_lookup_imap. destruct (cols !! i) as [cn|] eqn:E; cbn [fmap option_fmap option_map].
  - rewrite cell_index. apply lookup_lt_Some in E. rewrite <- Hl in E. apply lookup_lt_is_Some in E as [v Hv]. by rewrite Hv.
  - apply lookup_ge_None in E. rewrite lookup_ge_None_2 by lia. done.
Qed.

(** At most one request is in flight; after an answer or an error the button can be used again. *)
Inductive Event := Run (text : option string) | Answer (r : Response) | Error.
Definition step (e : Event) (p : State * nat) : State * nat :=
  let '(s, n) := p in
  match e with
  | Run t => match handleRun t s with (s', Some _) => (s', S n) | (s', None) => (s', n) end
  | Answer r => match n with O => p | S n => (answered (Some r) s, n) end
  | Error => match n with O => p | S n => (mkState (results s) false, n) end
  end.
Lemma one_request l : let '(s, n) := fold_left (fun p e => step e p) l (init, O) in (isRunning s = true <-> n = 1%nat) /\ (n <= 1)%nat /\ (isRunning s = true -> results s = None).
Proof.
  induction l as [|e l IH] using rev_ind; [cbn; split_and!; [done|lia|done]|]. rewrite fold_left_app. cbn [fold_left]. destruct (fold_left _ l _) as [s n]. destruct IH as (H1 & H2 & H3).
  destruct e as [t|r|]; cbn.
  - unfold handleRun. destruct (isRunning s) eqn:E; cbn; [split_and!; [by rewrite E|done|by rewrite E]|]. assert (n = O) as -> by (destruct n as [|[|n]]; [done|by specialize (proj2 H1 eq_refl)|lia]). split_and!; [done|lia|done].
  - destruct n as [|n]; [done|]. cbn. split_and!; [split; [done|lia]|lia|done].
  - destruct n as [|n]; [done|]. cbn. split_and!; [split; [done|lia]|lia|done].
Qed.
End Editor.

(** An answer without columns shows its error, or nothing, and columns of one name share their key. *)
Lemma same_keys : map key (columns (Some (mkResponse (Value := Z) None (Some ["a"; "a"]) None None (Some [[1; 2]])))) = ["a"; "a"].
Proof. reflexivity. Qed.
