(* ===== verification/Locales.v ===== *)
(** * The script that collects the texts of ui-v2 (ui-v2/scripts/gen-locales.ts)

    The script reads the source files of the library, collects the texts of their calls of [tt] and [tk]
    per application, and writes the locale files of the applications and the locale blocks of the shared
    components.  Module [Object] holds objects in the order of their properties, [Scan] the collection
    ([generateLocales] up to its sort), [App] the files of an application ([handleAppFiles]), [BizUI] the
    block of a shared component ([handleBizUIFiles]) and [Run] the whole script on a disk.  Module [I18n]
    is what loads these files when a page runs (1-utils/src/i18n.ts).

    The syntax trees are those of a library: a [File] holds what the queries of the script find in one
    file.  Whether its [each] ends when its callback answers [false] is the parameter [each_stops]. *)

From Stdlib Require Import Sorted Ascii.
From S2P Require Import Prelude JsString JsNumber JsArray.
From stdpp Require Import sorting options.
Local Open Scope Z_scope.

(** The literals of a syntax tree; a node that is none has no [value]. *)
Inductive Val := VUndefined | VBool (b : bool) | VNum (z : Z) | VStr (s : string).
#[export] Instance Val_eq_dec : EqDecision Val.
Proof. solve_decision. Defined.

Definition to_str (v : Val) : string :=
  match v with VUndefined => "undefined" | VBool true => "true" | VBool false => "false" | VNum z => show z | VStr s => s end.
#[export] Instance Val_truthy : Truthy Val :=
  fun v => match v with VUndefined => false | VBool b => b | VNum z => negb (z =? 0) | VStr s => truthy s end.

(** ** Objects *)

Module Object.

(** An object of the script as its properties in the order of their creation. *)
Section Properties.
Context {A : Type}.

Fixpoint get (k : string) (o : list (string * A)) : option A :=
  match o with [] => None | (k', v) :: o => if decide (k' = k) then Some v else get k o end.
Fixpoint set (k : string) (v : A) (o : list (string * A)) : list (string * A) :=
  match o with [] => [(k, v)] | (k', v') :: o => if decide (k' = k) then (k, v) :: o else (k', v') :: set k v o end.
Definition spread (o p : list (string * A)) : list (string * A) := fold_left (fun o kv => set (fst kv) (snd kv) o) p o.
Definition fromEntries (l : list (string * A)) : list (string * A) := spread [] l.

(** The keys that are array indices come first, in numeric order. *)
Definition array_index (k : string) : option Z :=
  match parseInt k with Some z => if decide (0 <= z < 2 ^ 32 - 1 /\ show z = k) then Some z else None | None => None end.
Definition order (ks : list string) : list string :=
  map show (js_sort Z.sub (omap array_index ks)) ++ filter (fun k => array_index k = None) ks.
Definition own_keys (o : list (string * A)) : list string := order (map fst o).
Definition entries (o : list (string * A)) : list (string * A) := omap (fun k => pair k <$> get k o) (own_keys o).

Lemma get_set k v o k' : get k' (set k v o) = if decide (k = k') then Some v else get k' o.
Proof.
  induction o as [|[k1 v1] o IH]; cbn [set get]; [done|].
  destruct (decide (k1 = k)) as [->|Hk]; cbn [get]; [by case_decide|].
  rewrite IH. repeat case_decide; congruence.
Qed.

Lemma keys_set k v o : map fst (set k v o) = if decide (k ∈ map fst o) then map fst o else map fst o ++ [k].
Proof.
  induction o as [|[k1 v1] o IH]; cbn [set map fst]; [done|].
  destruct (decide (k1 = k)) as [->|Hk]; cbn [map fst].
  - by rewrite decide_True by (by left).
  - rewrite IH. destruct (decide (k ∈ map fst o)); [by rewrite decide_True by (by right)|by rewrite decide_False by set_solver].
Qed.

Lemma set_NoDup k v o : NoDup (map fst o) -> NoDup (map fst (set k v o)).
Proof.
  intros Ho. rewrite keys_set. case_decide; [done|]. apply NoDup_app. split_and!; [done|set_solver|apply NoDup_singleton].
Qed.

Lemma elem_get k v o : NoDup (map fst o) -> (k, v) ∈ o <-> get k o = Some v.
Proof.
  induction o as [|[k1 v1] o IH]; cbn [map fst get]; intros Hn; [set_solver|].
  apply NoDup_cons in Hn as [Hk Hn]. rewrite elem_of_cons, IH by done. case_decide as E; subst; [|naive_solver].
  split; [intros [H|H]; [by simplify_eq|]|intros H; by simplify_eq; left].
  exfalso. apply Hk. apply IH in H; [|done]. by apply (list_elem_of_fmap_2 fst) in H.
Qed.

Lemma get_keys k o : is_Some (get k o) <-> k ∈ map fst o.
Proof.
  induction o as [|[k1 v1] o IH]; cbn [map fst get]; [split; [by intros []|set_solver]|].
  rewrite elem_of_cons. case_decide as E; [subst; split; [by left|done]|]. rewrite IH. naive_solver.
Qed.

Lemma get_fold {B} (f : B -> string) (g : B -> A) (l : list B) o k :
  NoDup (map f l) ->
  get k (fold_left (fun o b => set (f b) (g b) o) l o) =
    match find (fun b => bool_decide (f b = k)) l with Some b => Some (g b) | None => get k o end.
Proof.
  revert o. induction l as [|b l IH]; intros o Hn; [done|]. cbn [map] in Hn. apply NoDup_cons in Hn as [Hb Hn].
  cbn [fold_left find]. rewrite IH by done. case_bool_decide as Hk.
  - destruct (find _ l) as [c|] eqn:E; [|by rewrite get_set, decide_True]. exfalso. apply find_some in E as [Hc E].
    apply bool_decide_eq_true in E. apply Hb. rewrite Hk, <- E. apply (list_elem_of_fmap_2 f). by apply list_elem_of_In.
  - destruct (find _ l); [done|]. by rewrite get_set, decide_False.
Qed.

Lemma find_get k (l : list (string * A)) : snd <$> find (fun b => bool_decide (fst b = k)) l = get k l.
Proof. induction l as [|[k1 v] l IH]; [done|]. cbn [find get fst]. case_bool_decide; [by rewrite decide_True|by rewrite decide_False]. Qed.

Lemma get_spread o p k : NoDup (map fst p) -> get k (spread o p) = match get k p with Some v => Some v | None => get k o end.
Proof. intros Hp. unfold spread. rewrite get_fold by done. rewrite <- (find_get k p). by destruct (find _ p). Qed.

Lemma spread_distinct o p : NoDup (map fst o) -> NoDup (map fst (spread o p)).
Proof. unfold spread. revert o. induction p as [|[k v] p IH]; intros o Ho; [done|]. cbn [fold_left]. by apply IH, set_NoDup. Qed.

(** New keys come after the old ones. *)
Lemma keys_fold {B} (f : B -> string) (g : B -> A) (l : list B) o : NoDup (map f l) ->
  map fst (fold_left (fun o b => set (f b) (g b) o) l o) = map fst o ++ filter (fun k => k ∉ map fst o) (map f l).
Proof.
  revert o. induction l as [|b l IH]; intros o Hn; [by rewrite app_nil_r|]. cbn [map] in Hn. apply NoDup_cons in Hn as [Hb Hn].
  cbn [fold_left map]. rewrite IH by done. rewrite keys_set, filter_cons. destruct (decide (f b ∈ map fst o)) as [Hi|Hi].
  - by rewrite decide_False by tauto.
  - rewrite decide_True by done. rewrite <- app_assoc. cbn. do 2 f_equal. apply filter_ext_elem. intros x Hx.
    rewrite not_elem_of_app, list_elem_of_singleton. split; [tauto|]. intros ?. split; [done|]. by intros ->.
Qed.

(** Two objects are the same when their keys and values are. *)
Lemma obj_ext (o p : list (string * A)) : NoDup (map fst o) -> map fst o = map fst p -> (forall k, get k o = get k p) -> o = p.
Proof.
  revert p. induction o as [|[k v] o IH]; intros [|[k' v'] p] Hn Hk Hg; try done. cbn in Hk, Hn. injection Hk as -> Hk.
  apply NoDup_cons in Hn as [Hi Hn]. pose proof (Hg k') as E. cbn in E. rewrite !decide_True in E by done. injection E as ->.
  f_equal. apply IH; [done|done|]. intros j. specialize (Hg j). cbn in Hg. case_decide; [|done]. subst.
  assert (get j o = None) as -> by (apply eq_None_not_Some; by rewrite get_keys).
  symmetry. apply eq_None_not_Some. rewrite get_keys. by rewrite <- Hk.
Qed.
End Properties.

(** *** The order of the keys *)

Lemma array_index_show k z : array_index k = Some z -> show z = k.
Proof. unfold array_index. destruct (parseInt k); [|done]. case_decide; [|done]. intros [= <-]. tauto. Qed.

Lemma array_index_of_show k z : array_index k = Some z -> array_index (show z) = Some z.
Proof. intros H. by rewrite (array_index_show k z H). Qed.

Lemma elem_order k ks : k ∈ order ks <-> k ∈ ks.
Proof.
  unfold order. rewrite elem_of_app, list_elem_of_filter. destruct (array_index k) as [z|] eqn:E.
  - split.
    + intros [H|[? _]]; [|done]. apply list_elem_of_fmap in H as (y & -> & Hy). rewrite js_sort_perm in Hy.
      apply list_elem_of_omap in Hy as (k' & Hk & E'). by rewrite (array_index_show _ _ E').
    + intros H. left. rewrite <- (array_index_show _ _ E). apply (list_elem_of_fmap_2 show). rewrite js_sort_perm.
      apply list_elem_of_omap. eauto.
  - split; [|tauto]. intros [H|H]; [|tauto]. apply list_elem_of_fmap in H as (y & -> & Hy). rewrite js_sort_perm in Hy.
    apply list_elem_of_omap in Hy as (k' & Hk & E'). by rewrite (array_index_of_show _ _ E') in E.
Qed.

Lemma NoDup_omap_index ks : NoDup ks -> NoDup (omap array_index ks).
Proof.
  induction 1 as [|k ks Hk _ IH]; [constructor|]. cbn. destruct (array_index k) as [z|] eqn:E; [|done]. constructor; [|done].
  intros H. apply list_elem_of_omap in H as (k' & Hk' & E'). apply Hk. by rewrite <- (array_index_show _ _ E), (array_index_show _ _ E').
Qed.

Lemma order_NoDup ks : NoDup ks -> NoDup (order ks).
Proof.
  intros Hn. unfold order. apply NoDup_app. split_and!; [| |by apply NoDup_filter'].
  - assert (Forall (fun z => array_index (show z) = Some z) (js_sort Z.sub (omap array_index ks))) as Hf.
    { apply Forall_forall. intros z Hz. rewrite js_sort_perm in Hz. apply list_elem_of_omap in Hz as (k & _ & E). by eapply array_index_of_show. }
    assert (Hs : NoDup (js_sort Z.sub (omap array_index ks))) by (rewrite js_sort_perm; by apply NoDup_omap_index).
    induction Hs as [|z l Hz _ IH]; [constructor|]. apply Forall_cons in Hf as [Hz' Hf]. cbn. constructor; [|by apply IH].
    intros H. apply list_elem_of_fmap in H as (y & E & Hy). rewrite Forall_forall in Hf. specialize (Hf _ Hy). rewrite <- E, Hz' in Hf. by simplify_eq.
  - intros k H. rewrite list_elem_of_filter. apply list_elem_of_fmap in H as (y & -> & Hy). rewrite js_sort_perm in Hy.
    apply list_elem_of_omap in Hy as (k' & _ & E). rewrite (array_index_of_show _ _ E). by intros [? _].
Qed.

Lemma index_sort_unique (l k : list Z) : l ≡ₚ k -> js_sort Z.sub l = js_sort Z.sub k.
Proof.
  intros H. assert (S : forall m : list Z, StronglySorted Z.le (js_sort Z.sub m)).
  { intros m. eapply sorted_impl; [|apply (js_sort_sorted Z.sub)]; [cbn; lia|intros; lia..]. }
  apply (StronglySorted_unique Z.le); [apply S..|]. by rewrite !js_sort_perm.
Qed.
(** The order depends on which indices there are, and on the order of the other keys only. *)
Lemma order_indices ks js : omap array_index ks ≡ₚ omap array_index js ->
  filter (fun k => array_index k = None) ks = filter (fun k => array_index k = None) js -> order ks = order js.
Proof. intros Hi Hf. unfold order. by rewrite (index_sort_unique _ _ Hi), Hf. Qed.

Section Entries.
Context {A : Type} (o : list (string * A)) (Ho : NoDup (map fst o)).

Lemma entries_keys : map fst (entries o) = own_keys o.
Proof using.
  unfold entries. assert (H : forall k, k ∈ own_keys o -> is_Some (get k o)) by (intros k; unfold own_keys; by rewrite elem_order, get_keys).
  revert H. induction (own_keys o) as [|k ks IH]; intros H; [done|]. destruct (H k) as [v E]; [by left|]. cbn. rewrite E. cbn.
  f_equal. apply IH. intros j Hj. apply H. by right.
Qed.

Lemma entries_NoDup : NoDup (map fst (entries o)).
Proof using Ho. rewrite entries_keys. by apply order_NoDup. Qed.

Lemma get_entries k : get k (entries o) = get k o.
Proof using Ho.
  apply option_eq. intros v. rewrite <- elem_get by apply entries_NoDup. unfold entries. rewrite list_elem_of_omap. split.
  - intros (j & _ & E). destruct (get j o) as [w|] eqn:Ej; [|done]. cbn in E. by simplify_eq.
  - intros E. exists k. rewrite E. split; [|done]. unfold own_keys. rewrite elem_order, <- get_keys. by exists v.
Qed.
End Entries.
End Object.
Import Object.

(** ** What the script reads *)

(** The key of a property is a name or a literal, and only a name has the field [name]. *)
Inductive KeyNode := KName (n : string) | KLiteral (s : string).
Definition key_name (k : KeyNode) : string := match k with KName n => n | KLiteral _ => "undefined" end.
(** A property of an object literal; a spread or a method has no key and value. *)
Inductive Property := Pair (k : KeyNode) (v : Val) | Other.
Record Arg := mkArg { value : Val; properties : option (list Property) }.

(** What the queries find in a file: the values of [I18nNamespace], of the calls of [useTn] and [tt], the
    arguments of the calls of [tk], and the properties of [const zh]. *)
Record File := mkFile { path : string; namespaces : list string; useTns : list string; tts : list string;
                        tks : list (list Arg); zh_block : option (list Property) }.

Record Locale := mkLocale { keys : list (string * Val); texts : list (string * Val) }.
Definition LocaleData := list (string * Locale).
Inductive Message := NameMismatch (filePath appName : string) | DifferentValues (key : string) (existed : option Val) (v : Val).

(** What every object inherits: reading such a name does not give [undefined]. *)
Definition inherited : list string :=
  ["__defineGetter__"; "__defineSetter__"; "hasOwnProperty"; "__lookupGetter__"; "__lookupSetter__"; "isPrototypeOf";
   "propertyIsEnumerable"; "toString"; "valueOf"; "__proto__"; "toLocaleString"; "constructor"].
(** [o[k] = v] for a value that is no object: the name of the prototype is not a property. *)
Definition assign (k : string) (v : Val) (o : list (string * Val)) : list (string * Val) :=
  if decide (k = "__proto__") then o else set k v o.

Fixpoint js_indexOf (s p : string) : Z :=
  if String.prefix p s then 0
  else match s with "" => -1 | String _ s => let i := js_indexOf s p in if i =? -1 then -1 else i + 1 end.

(** ** Collecting the texts *)

Module Scan.
Section Scan.
Context (each_stops : bool).

Record State := mkState { data : LocaleData; bizUiNsPathMap : list (string * string); messages : list Message }.

(** The application of a file: the last of its calls of [useTn] with the name of a part of the path. *)
Definition tn_step (filePath : string) (st : option string * list Message) (appName : string) : option string * list Message :=
  let appFolderPos := js_indexOf filePath ("/" +:+ appName) in
  if appFolderPos =? -1 then (fst st, snd st ++ [NameMismatch filePath appName])
  else (Some (if js_indexOf filePath "/3-biz-ui/" =? -1 then js_slice filePath 0 appFolderPos +:+ "/" +:+ appName else appName), snd st).
Definition appFolder_of (f : File) : option string * list Message := fold_left (tn_step (path f)) (useTns f) (None, []).

Definition tt_step (text : string) (l : Locale) : Locale := mkLocale (keys l) (assign text (VStr text) (texts l)).

(** [options.count] of a call with options; [None] when reading them throws. *)
Fixpoint read_options (ps : list Property) (options : list (string * Val)) : option (list (string * Val)) :=
  match ps with [] => Some options | Pair k v :: ps => read_options ps (assign (key_name k) v options) | Other :: _ => None end.
Definition more_than_one (v : Val) : bool :=
  match v with VNum z => 1 <? z | VStr s => JsNumber.num_lt (JsNumber.num_of_Z 1) (JsNumber.js_Number s) | _ => false end.
Definition plural_key (key : string) (count : Val) : string :=
  if decide (count = VNum 0) then key +:+ "_zero"
  else if decide (count = VNum 1) then key +:+ "_one"
  else if more_than_one count then key +:+ "_other" else key.

(** What a call of [tk] writes: nothing, when it has no default or its key is no literal. *)
Inductive Target := Throws | Ignored | Write (key : string) (v : Val).
Definition tk_target (args : list Arg) : Target :=
  match args with
  | [] => Throws
  | [_] => Ignored
  | a :: b :: r =>
      if decide (value a = VUndefined) then Ignored
      else if negb (truthy (value b)) then Ignored
      else match r with
           | [c] => match properties c ≫= fun ps => read_options ps [] with
                    | None => Throws
                    | Some options => Write (plural_key (to_str (value a)) (default VUndefined (get "count" options))) (value b)
                    end
           | _ => Write (to_str (value a)) (value b)
           end
  end.

(** A key keeps its first value; another value is reported. *)
Definition record (l : Locale) (key : string) (v : Val) : Locale + Message :=
  match get key (keys l) with
  | Some e => if decide (e = v) then inl (mkLocale (assign key v (keys l)) (texts l)) else inr (DifferentValues key (Some e) v)
  | None => if decide (key ∈ inherited) then inr (DifferentValues key None v) else inl (mkLocale (assign key v (keys l)) (texts l))
  end.
Fixpoint tk_calls (l : Locale) (calls : list (list Arg)) : option (Locale * list Message) :=
  match calls with
  | [] => Some (l, [])
  | c :: calls =>
      match tk_target c with
      | Throws => None
      | Ignored => tk_calls l calls
      | Write key v =>
          match record l key v with
          | inl l' => tk_calls l' calls
          | inr m => if each_stops then Some (l, [m]) else '(l', ms) ← tk_calls l calls; Some (l', m :: ms)
          end
      end
  end.

(** One file; [None] when the script throws.  A folder with an inherited name is taken for initialised,
    and throws at the first text. *)
Definition register_ns (f : File) (m : list (string * string)) : list (string * string) :=
  match namespaces f with ns :: _ => set ns (path f) m | [] => m end.
Definition init_app (appFolder : string) (d : LocaleData) : option Locale :=
  match get appFolder d with
  | Some l => Some l
  | None => if decide (appFolder ∈ inherited) then None else Some (mkLocale [] [])
  end.
Definition no_text (f : File) : bool :=
  bool_decide (tts f = []) && forallb (fun c => match tk_target c with Ignored => true | _ => false end) (tks f).
Definition scan_file (st : State) (f : File) : option State :=
  let m := register_ns f (bizUiNsPathMap st) in
  let '(folder, ms) := appFolder_of f in
  match folder with
  | None => Some (mkState (data st) m (messages st ++ ms))
  | Some appFolder =>
      match init_app appFolder (data st) with
      | None => if no_text f then Some (mkState (data st) m (messages st ++ ms)) else None
      | Some l =>
          '(l', ms') ← tk_calls (fold_left (fun l t => tt_step t l) (tts f) l) (tks f);
          Some (mkState (set appFolder l' (data st)) m (messages st ++ ms ++ ms'))
      end
  end.
Fixpoint scan (st : State) (files : list File) : option State :=
  match files with [] => Some st | f :: files => st' ← scan_file st f; scan st' files end.
Definition scan_all (files : list File) : option State := scan (mkState [] [] []) files.
End Scan.

(** *** What is collected *)

Lemma assign_get k v o k' : get k' (assign k v o) = if decide (k = k' /\ k <> "__proto__") then Some v else get k' o.
Proof.
  unfold assign. case_decide as E; [by rewrite decide_False by tauto|]. rewrite get_set.
  case_decide; case_decide; naive_solver.
Qed.
End Scan.

(** ** The files of an application *)

(** [sort()] without a comparator compares the texts of the entries. *)
Definition entry_text (e : string * Val) : string :=
  fst e +:+ "," +:+ match snd e with VUndefined => "" | v => to_str v end.
Definition compare_texts (a b : string * Val) : Z :=
  match String.compare (entry_text a) (entry_text b) with Lt => -1 | Eq => 0 | Gt => 1 end.
Definition sort_object (o : list (string * Val)) : list (string * Val) := fromEntries (js_sort compare_texts (entries o)).
Definition sortLocaleData (d : LocaleData) : LocaleData :=
  map (fun al => (fst al, mkLocale (sort_object (keys (snd al))) (sort_object (texts (snd al))))) d.

(** What is written to a file: an object, the module that loads the two languages, or the three
    replacements in the source of a component: the type of the keys, [en] and [zh]. *)
Inductive Content := Json (o : list (string * Val)) | IndexModule | Blocks (keysType en zh : string).
Inductive Error := TypeError | SyntaxError.

(** [JSON.stringify] writes the properties in their order, without those that are not defined. *)
Definition stringify (o : list (string * Val)) : Content := Json (filter (fun e => snd e <> VUndefined) (entries o)).

Module App.
Definition last_part (folder : string) : string := default "" (last (js_split "/" folder)).
Definition header (appName : string) : list (string * Val) :=
  [("__namespace__", VStr appName); ("__comment__", VStr "this file can be updated by running `pnpm gen:locales` command")].
Definition en_of (appFolder : string) (l : Locale) : list (string * Val) := spread (header (last_part appFolder)) (keys l).
Definition merge_existed (existedZh out : list (string * Val)) : list (string * Val) :=
  fold_left (fun o kv => assign (fst kv) (snd kv) o) (entries existedZh) out.

Definition enPath (appFolder : string) : string := appFolder +:+ "/locales/en.json".
Definition zhPath (appFolder : string) : string := appFolder +:+ "/locales/zh.json".
Definition indexPath (appFolder : string) : string := appFolder +:+ "/locales/index.ts".

Definition handleAppFiles (appFolder : string) (l : Locale) (d : gmap string Content) : gmap string Content * option Error :=
  let outputData := en_of appFolder l in
  let d := <[enPath appFolder := stringify outputData]> d in
  let outputData := spread outputData (texts l) in
  match d !! zhPath appFolder with
  | None => (<[indexPath appFolder := IndexModule]> (<[zhPath appFolder := stringify outputData]> d), None)
  | Some (Json existedZh) => (<[indexPath appFolder := IndexModule]> (<[zhPath appFolder := stringify (merge_existed existedZh outputData)]> d), None)
  | Some _ => (d, Some SyntaxError)
  end.
End App.

(** ** The block of a shared component *)

Module BizUI.
Definition dq : string := String (Ascii.ascii_of_nat 34) "".
Definition nl : string := String (Ascii.ascii_of_nat 10) "".
Definition quote (s : string) : string := dq +:+ s +:+ dq.

(** The translations that are there; a value that is no literal is [undefined]. *)
Fixpoint existedZhLocales (ps : list Property) (acc : list (string * Val)) : option (list (string * Val)) :=
  match ps with [] => Some acc | Pair k v :: ps => existedZhLocales ps (assign (key_name k) v acc) | Other :: _ => None end.
Definition all_keys (l : Locale) : list string := own_keys (keys l) ++ own_keys (texts l).
Definition zhLocales (l : Locale) (existed : list (string * Val)) : list (string * Val) :=
  fold_left (fun o k => assign k (default VUndefined (get k existed)) o) (own_keys existed) (spread (fromEntries (entries (keys l))) (entries (texts l))).
Definition text_of (o : list (string * Val)) (k : string) : string := to_str (default VUndefined (get k o)).

Definition keys_type (l : Locale) : string :=
  "type I18nLocaleKeys = " +:+ js_join "" (map (fun k => nl +:+ "  | " +:+ quote k) (all_keys l)).
Definition en_block (l : Locale) : string :=
  "const en: I18nLocale = { " +:+ js_join ", " (map (fun k => quote k +:+ ": " +:+ quote (text_of (keys l) k)) (own_keys (keys l))) +:+ " }".
Definition zh_block_text (l : Locale) (zh : list (string * Val)) : string :=
  "const zh: I18nLocale = { " +:+ js_join "" (map (fun k => nl +:+ "  " +:+ quote k +:+ ": " +:+ quote (text_of zh k) +:+ ",") (all_keys l)) +:+ " }".

Definition read_existed (files : list File) (filePath : string) : option (list (string * Val)) :=
  match find (fun f => String.eqb (path f) filePath) files with
  | Some f => match zh_block f with Some ps => existedZhLocales ps [] | None => None end
  | None => None
  end.

Definition handleBizUIFiles (files : list File) (nsMap : list (string * string)) (appName : string) (l : Locale) (d : gmap string Content) : gmap string Content * option Error :=
  match get appName nsMap with
  | None => (d, None)
  | Some filePath =>
      if negb (truthy filePath) then (d, None)
      else match read_existed files filePath with
           | None => (d, Some TypeError)
           | Some existed => (<[filePath := Blocks (keys_type l) (en_block l) (zh_block_text l (zhLocales l existed))]> d, None)
           end
  end.
End BizUI.

(** ** The whole script *)

Module Run.
Section Run.
Context (each_stops : bool) (files : list File).

Definition handle (nsMap : list (string * string)) (al : string * Locale) (d : gmap string Content) : gmap string Content * option Error :=
  if js_indexOf (fst al) "/4-apps/" =? -1 then BizUI.handleBizUIFiles files nsMap (fst al) (snd al) d else App.handleAppFiles (fst al) (snd al) d.
Fixpoint output (nsMap : list (string * string)) (als : list (string * Locale)) (d : gmap string Content) : gmap string Content * option Error :=
  match als with
  | [] => (d, None)
  | al :: als => let '(d, e) := handle nsMap al d in match e with Some e => (d, Some e) | None => output nsMap als d end
  end.
Definition generateLocales (d : gmap string Content) : gmap string Content * option Error :=
  match Scan.scan_all each_stops files with
  | None => (d, Some TypeError)
  | Some st => output (Scan.bizUiNsPathMap st) (entries (sortLocaleData (Scan.data st))) d
  end.
End Run.
End Run.

(** ** Loading the files *)

Module I18n.
Definition Texts := list (string * Val).
Definition Resource := list (string * Texts).
Record Bundle := mkBundle { lang : string; ns : string; locales : Texts }.
(** The instance of i18next: whether it is initialised, who waits for that, and its bundles. *)
Record I18next := mkI18n { isInitialized : bool; waiting : list Resource; bundles : list Bundle }.

Definition DEF_DISTRO : list (string * string) :=
  [("pd", "PD"); ("tidb", "TiDB"); ("tikv", "TiKV"); ("tiflash", "TiFlash"); ("ticdc", "TiCDC")].

(** One bundle per language; texts without a name space throw, and the ones before them are added. *)
Definition bundle_of (lt : string * Texts) : option Bundle :=
  match get "__namespace__" (snd lt) with
  | Some v => if truthy v then Some (mkBundle (fst lt) (to_str v) (snd lt)) else None
  | None => None
  end.
Fixpoint add_bundles (l : Resource) (bs : list Bundle) : list Bundle * bool :=
  match l with
  | [] => (bs, true)
  | lt :: l => match bundle_of lt with Some b => add_bundles l (bs ++ [b]) | None => (bs, false) end
  end.
Definition addResourceBundles (r : Resource) (bs : list Bundle) : list Bundle * bool := add_bundles (entries r) bs.
Definition addLangsLocales (r : Resource) (i : I18next) : I18next * bool :=
  if isInitialized i then let '(bs, ok) := addResourceBundles r (bundles i) in (mkI18n true (waiting i) bs, ok)
  else (mkI18n false (waiting i ++ [r]) (bundles i), true).

(** The event calls the listeners in their order, up to one that throws. *)
Fixpoint call_waiting (rs : list Resource) (bs : list Bundle) : list Bundle :=
  match rs with
  | [] => bs
  | r :: rs => let '(bs, ok) := addResourceBundles r bs in if ok then call_waiting rs bs else bs
  end.
Definition initialized (i : I18next) : I18next := mkI18n true (waiting i) (call_waiting (waiting i) (bundles i)).
Definition load (rs : list Resource) (i : I18next) : I18next := fold_left (fun i r => fst (addLangsLocales r i)) rs i.

(** What [tk] and [tt] ask i18next for: the key, the default, and the options after the name space. *)
Record Request := mkRequest { request_key : string; request_default : string; request_options : Texts }.
Definition tk (ns : string) (i18nKey : string) (defVal : option string) (options : Texts) : Request :=
  mkRequest i18nKey (default i18nKey defVal) (spread [("ns", VStr ns)] options).
Definition tt (ns : string) (text : string) (options : Texts) : Request := mkRequest text text (spread [("ns", VStr ns)] options).
Definition hotkey_lang (language : string) : string := if String.eqb language "en" then "zh" else "en".

(** All texts of a resource have a name space. *)
Definition named_texts (r : Resource) : Prop := Forall (fun lt => is_Some (bundle_of lt)) (entries r).
Definition bundles_of (r : Resource) : list Bundle := omap bundle_of (entries r).

Lemma add_named r bs : named_texts r -> addResourceBundles r bs = (bs ++ bundles_of r, true).
Proof.
  unfold named_texts, addResourceBundles, bundles_of. intros H. revert bs. induction H as [|lt l [b E] _ IH]; intros bs; [by rewrite app_nil_r|].
  cbn. rewrite E, IH. by rewrite <- app_assoc.
Qed.

Lemma load_before rs i : isInitialized i = false -> load rs i = mkI18n false (waiting i ++ rs) (bundles i).
Proof.
  revert i. induction rs as [|r rs IH]; intros [ini w b] H; cbn in *; subst; [by rewrite app_nil_r|]. unfold addLangsLocales. cbn.
  unfold load in IH. rewrite IH by done. cbn. by rewrite <- app_assoc.
Qed.

Lemma load_after rs i : isInitialized i = true -> Forall named_texts rs -> load rs i = mkI18n true (waiting i) (bundles i ++ flat_map bundles_of rs).
Proof.
  intros Hi H. revert i Hi. induction H as [|r rs Hr _ IH]; intros [ini w b] Hi; cbn in *; subst; [by rewrite app_nil_r|].
  unfold addLangsLocales. cbn. rewrite add_named by done. unfold load in IH. cbn. rewrite IH by done. cbn. by rewrite <- app_assoc.
Qed.

Lemma waiting_named rs bs : Forall named_texts rs -> call_waiting rs bs = bs ++ flat_map bundles_of rs.
Proof. intros H. revert bs. induction H as [|r rs Hr _ IH]; intros bs; [by rewrite app_nil_r|]. cbn. rewrite add_named, IH by done. by rewrite <- app_assoc. Qed.

(** It does not matter whether a file is loaded before or after i18next is initialised: all its bundles
    are added, in the order of the files. *)
Theorem bundles_loaded before after : Forall named_texts before -> Forall named_texts after ->
  bundles (load after (initialized (load before (mkI18n false [] [])))) = flat_map bundles_of (before ++ after).
Proof. intros Hb Ha. rewrite (load_before before), (load_after after) by done. cbn. rewrite waiting_named by done. by rewrite flat_map_app. Qed.
End I18n.

(** ** Properties *)

(** [indexOf] is the place of the first occurrence. *)
Lemma js_indexOf_spec s p i : js_indexOf s p = i -> i <> -1 -> exists a b, s = a +:+ p +:+ b /\ js_length a = i.
Proof.
  revert i. induction s as [|c s IH]; intros i; cbn [js_indexOf].
  - destruct (String.prefix p "") eqn:E; [|intros <-; done]. apply prefix_inv in E as [t ->]. intros <- _. by exists "", t.
  - destruct (String.prefix p (String c s)) eqn:E; [apply prefix_inv in E as [t ->]; intros <- _; by exists "", t|].
    destruct (js_indexOf s p =? -1) eqn:Ei; [by intros <-|]. intros <- _. apply Z.eqb_neq in Ei.
    destruct (IH _ eq_refl Ei) as (a & b & -> & Ha). exists (String c a), b. split; [done|].
    unfold js_length in *. cbn [String.length]. lia.
Qed.

(** *** Where the texts of a file go *)

Module Facts.
Import Scan.

Lemma tn_step_folder f st app folder : js_indexOf f "/3-biz-ui/" = -1 ->
  fst (tn_step f st app) = Some folder -> fst st = Some folder \/ exists rest, f = folder +:+ rest.
Proof.
  intros Hb. unfold tn_step. destruct (_ =? -1) eqn:E; [by left|]. rewrite Hb. cbn. intros [= <-]. right.
  apply Z.eqb_neq in E. destruct (js_indexOf_spec _ _ _ eq_refl E) as (a & b & Hf & Ha). exists b. rewrite <- Ha, Hf.
  pose proof (js_slice_mid "" a (("/" +:+ app) +:+ b)) as Es. rewrite !str_app_nil_l in Es. change (js_length "") with 0 in Es. rewrite Z.add_0_l in Es.
  rewrite Es. by rewrite !str_app_assoc.
Qed.

(** The folder of an application is the beginning of the paths of its files. *)
Theorem folder_is_prefix f folder : js_indexOf (path f) "/3-biz-ui/" = -1 -> fst (appFolder_of f) = Some folder -> exists rest, path f = folder +:+ rest.
Proof.
  intros Hb. unfold appFolder_of. enough (forall l st, (forall g, fst st = Some g -> exists rest, path f = g +:+ rest) ->
    fst (fold_left (tn_step (path f)) l st) = Some folder -> exists rest, path f = folder +:+ rest) as H by by apply H.
  induction l as [|app l IH]; intros st Hst; [apply Hst|]. cbn [fold_left]. apply IH. intros g Hg.
  by destruct (tn_step_folder _ _ _ _ Hb Hg) as [H|H]; [apply Hst|].
Qed.

(** What the files of a folder say: the texts of their calls of [tt], and what their calls of [tk] write. *)
Definition calls_write (cs : list (list Arg)) : list (string * Val) := omap (fun c => match tk_target c with Write k v => Some (k, v) | _ => None end) cs.
Definition writes (f : File) : list (string * Val) := calls_write (tks f).
Definition of_folder {B} (g : string) (w : File -> list B) (files : list File) : list B :=
  flat_map (fun f => if decide (fst (appFolder_of f) = Some g) then w f else []) files.
Definition locale_at (g : string) (d : LocaleData) : Locale := default (mkLocale [] []) (get g d).

Lemma tt_texts ts l t : get t (texts (fold_left (fun l t => tt_step t l) ts l)) =
  if decide (t ∈ ts /\ t <> "__proto__") then Some (VStr t) else get t (texts l).
Proof.
  revert l. induction ts as [|x ts IH]; intros l; [by rewrite decide_False by set_solver|]. cbn [fold_left]. rewrite IH. cbn. rewrite assign_get.
  repeat case_decide; set_solver.
Qed.
Lemma tt_keys ts l : keys (fold_left (fun l t => tt_step t l) ts l) = keys l.
Proof. revert l. induction ts as [|x ts IH]; intros l; [done|]. cbn [fold_left]. by rewrite IH. Qed.

Lemma record_keeps l key v l' k : record l key v = inl l' -> texts l' = texts l /\
  get k (keys l') = match get k (keys l) with Some e => Some e | None => if decide (key = k /\ key <> "__proto__") then Some v else None end.
Proof.
  unfold record. destruct (get key (keys l)) as [e|] eqn:E.
  - case_decide as Ev; [|done]. intros [= <-]. cbn. split; [done|]. rewrite assign_get. case_decide as Ek.
    + destruct Ek as [<- _]. by rewrite E, Ev.
    + by destruct (get k _).
  - case_decide; [done|]. intros [= <-]. cbn. split; [done|]. rewrite assign_get. case_decide as Ek; [|by destruct (get k _)].
    destruct Ek as [<- _]. by rewrite E.
Qed.

Lemma record_rejects l key v m k : record l key v = inr m -> key = k -> k ∉ inherited -> is_Some (get k (keys l)).
Proof. unfold record. intros H <- Hk. destruct (get key (keys l)); [done|]. by destruct (decide (key ∈ inherited)). Qed.

Lemma not_proto k : k ∉ inherited -> k <> "__proto__".
Proof. intros H ->. apply H. unfold inherited. set_solver. Qed.

Lemma tk_calls_first cs l l' ms : tk_calls false l cs = Some (l', ms) -> texts l' = texts l /\ forall k, k ∉ inherited ->
  get k (keys l') = match get k (keys l) with Some e => Some e | None => get k (calls_write cs) end.
Proof.
  revert l ms. induction cs as [|c cs IH]; intros l ms; cbn [tk_calls].
  - intros [= <- <-]. split; [done|]. intros k _. by destruct (get k _).
  - unfold calls_write. cbn [omap list_omap]. fold (calls_write cs). destruct (tk_target c) as [| |key v] eqn:Et; [done|apply IH|]. destruct (record l key v) as [l1|m] eqn:Er.
    + intros H. destruct (IH _ _ H) as [Ht Hk]. split; [rewrite Ht; by apply (record_keeps _ _ _ _ key Er)|]. intros k Hi. rewrite Hk by done.
      destruct (record_keeps _ _ _ _ k Er) as [_ ->]. destruct (get k (keys l)); [done|]. cbn [get].
      case_decide as E1; case_decide as E2; try done; [naive_solver|]. subst. exfalso. apply E1. split; [done|by apply not_proto].
    + destruct (tk_calls false l cs) as [[l2 ms2]|] eqn:E; [|done]. intros [= <- _]. destruct (IH _ _ E) as [Ht Hk]. split; [done|].
      intros k Hi. rewrite Hk by done. destruct (get k (keys l)) eqn:Ek; [done|]. cbn [get]. case_decide as Ekk; [|done]. exfalso.
      destruct (record_rejects _ _ _ _ k Er Ekk Hi) as [? ?]. congruence.
Qed.

Lemma no_text_writes f : no_text f = true -> tts f = [] /\ writes f = [].
Proof.
  unfold no_text, writes, calls_write. intros H. apply andb_true_iff in H as [Ht Hc]. apply bool_decide_eq_true in Ht. split; [done|].
  induction (tks f) as [|c cs IH]; [done|]. cbn in *. apply andb_true_iff in Hc as [Hc Hcs]. destruct (tk_target c); try done. by apply IH.
Qed.

Lemma or_nothing {B} (o : option B) : match o with Some e => Some e | None => None end = o.
Proof. by destruct o. Qed.

(** One file adds its texts and the first values of its keys to its folder, and changes no other. *)
Lemma scan_file_adds st f st' g : scan_file false st f = Some st' ->
  (forall t, get t (texts (locale_at g (data st'))) =
     if decide (t ∈ of_folder g tts [f] /\ t <> "__proto__") then Some (VStr t) else get t (texts (locale_at g (data st)))) /\
  (forall k, k ∉ inherited -> get k (keys (locale_at g (data st'))) =
     match get k (keys (locale_at g (data st))) with Some e => Some e | None => get k (of_folder g writes [f]) end).
Proof.
  unfold scan_file, of_folder. cbn [flat_map]. destruct (appFolder_of f) as [[folder|] ms]; cbn [fst]; [destruct (init_app folder (data st)) as [l|] eqn:El|].
  - destruct (tk_calls _ _ _) as [[l' ms']|] eqn:Et; [|done]. cbn. intros [= <-]. cbn. destruct (tk_calls_first _ _ _ _ Et) as [Ht Hk].
    unfold locale_at. rewrite get_set. destruct (decide (folder = g)) as [->|Hg].
    + rewrite !(decide_True (P := Some g = Some g)) by done. rewrite !app_nil_r. assert (default (mkLocale [] []) (get g (data st)) = l) as ->.
      { unfold init_app in El. destruct (get g (data st)); [by simplify_eq|]. by case_decide; simplify_eq. }
      cbn. split; [intros t; by rewrite Ht, tt_texts|]. intros k Hi. by rewrite Hk, tt_keys.
    + rewrite !(decide_False (P := Some folder = Some g)) by congruence. split; [intros t; by rewrite decide_False by set_solver|]. intros k _. by rewrite or_nothing.
  - destruct (no_text f) eqn:En; [|done]. intros [= <-]. cbn. apply no_text_writes in En as [-> ->].
    split; [intros t; rewrite decide_False; [done|]; case_decide; set_solver|]. intros k _. by case_decide; rewrite or_nothing.
  - intros [= <-]. cbn. split; [intros t; by rewrite decide_False by set_solver|]. intros k _. by rewrite or_nothing.
Qed.

Lemma get_app {B} k (a b : list (string * B)) : get k (a ++ b) = match get k a with Some v => Some v | None => get k b end.
Proof. induction a as [|[j v] a IH]; [done|]. cbn. by case_decide. Qed.

Lemma scan_adds files st0 st g : scan false st0 files = Some st ->
  (forall t, get t (texts (locale_at g (data st))) = if decide (t ∈ of_folder g tts files /\ t <> "__proto__") then Some (VStr t) else get t (texts (locale_at g (data st0)))) /\
  (forall k, k ∉ inherited -> get k (keys (locale_at g (data st))) =
     match get k (keys (locale_at g (data st0))) with Some e => Some e | None => get k (of_folder g writes files) end).
Proof.
  revert st0. induction files as [|f files IH]; intros st0; cbn [scan].
  - intros [= <-]. split; [intros t; by rewrite decide_False by set_solver|]. intros k _. by rewrite or_nothing.
  - destruct (scan_file false st0 f) as [st1|] eqn:E; [|done]. intros H. destruct (IH _ H) as [Ht Hk]. destruct (scan_file_adds _ _ _ g E) as [Ht1 Hk1].
    unfold of_folder in *. cbn [flat_map] in *. rewrite !app_nil_r in *. split.
    + intros t. rewrite Ht, Ht1. repeat case_decide; set_solver.
    + intros k Hi. rewrite Hk, Hk1, get_app by done. by destruct (get k (keys _)).
Qed.

(** The texts of a folder are those of the calls of [tt] in its files, and a key has the value of the first
    call of [tk] that writes it, in the order of the files. *)
Theorem collected files st g : scan_all false files = Some st ->
  (forall t, get t (texts (locale_at g (data st))) = if decide (t ∈ of_folder g tts files /\ t <> "__proto__") then Some (VStr t) else None) /\
  (forall k, k ∉ inherited -> get k (keys (locale_at g (data st))) = get k (of_folder g writes files)).
Proof. intros H. by destruct (scan_adds _ _ _ g H) as [Ht Hk]. Qed.

(** *** Sorting *)

Lemma fromEntries_id (l : list (string * Val)) : NoDup (map fst l) -> fromEntries l = l.
Proof.
  intros Hl. unfold fromEntries. assert (Hk : map fst (spread [] l) = map fst l).
  { unfold spread. rewrite keys_fold by done. cbn. apply filter_id, Forall_forall. intros k _ H. by apply elem_of_nil in H. }
  apply obj_ext; [by rewrite Hk|done|]. intros k. rewrite get_spread by done. by destruct (get k l).
Qed.

Lemma sorted_entries (o : list (string * Val)) : NoDup (map fst o) -> sort_object o = js_sort compare_texts (entries o) /\ NoDup (map fst (sort_object o)).
Proof.
  intros Ho. assert (Hn : NoDup (map fst (js_sort compare_texts (entries o)))) by (rewrite js_sort_perm; by apply entries_NoDup).
  unfold sort_object. by rewrite fromEntries_id.
Qed.

(** Sorting keeps what an object maps its keys to. *)
Theorem get_sort_object o k : NoDup (map fst o) -> get k (sort_object o) = get k o.
Proof.
  intros Ho. destruct (sorted_entries o Ho) as [E Hn]. apply option_eq. intros v. rewrite <- elem_get by done. rewrite E, js_sort_perm.
  rewrite elem_get by by apply entries_NoDup. by rewrite get_entries.
Qed.

(** *** The files of an application *)

Lemma stringify_keeps o z : NoDup (map fst o) -> (forall k, get k o <> Some VUndefined) -> stringify o = Json z -> z = entries o.
Proof.
  intros Ho Hu. unfold stringify. intros [= <-]. apply filter_id, Forall_forall. intros [k v] He Hv. cbn in Hv. subst.
  apply elem_get in He; [|by apply entries_NoDup]. rewrite get_entries in He by done. by apply (Hu k).
Qed.

(** An object of a JSON file: its keys are distinct, and its values defined. *)
Definition json_object (o : list (string * Val)) : Prop := NoDup (map fst o) /\ forall k, get k o <> Some VUndefined.

Lemma stringify_json o : json_object o -> stringify o = Json (entries o).
Proof. intros [Ho Hu]. destruct (stringify o) as [z| |] eqn:E; try done. f_equal. by eapply stringify_keeps. Qed.

Lemma entries_json o : json_object o -> json_object (entries o).
Proof. intros [Ho Hu]. split; [by apply entries_NoDup|]. intros k. by rewrite get_entries. Qed.

Lemma spread_json o p : json_object o -> json_object p -> json_object (spread o p).
Proof. intros [Ho Hu] [Hp Hv]. split; [by apply spread_distinct|]. intros k. rewrite get_spread by done. by destruct (get k p) eqn:E; [rewrite <- E|]. Qed.

Lemma assign_fold l (o : list (string * Val)) :
  fold_left (fun o kv => assign (fst kv) (snd kv) o) l o = fold_left (fun o kv => set (fst kv) (snd kv) o) (filter (fun kv => fst kv <> "__proto__") l) o.
Proof.
  revert o. induction l as [|[k v] l IH]; intros o; [done|]. cbn [fold_left]. rewrite IH, filter_cons. unfold assign. cbn.
  case_decide as E; [by rewrite decide_False by tauto|by rewrite decide_True by done].
Qed.

Lemma merge_spec e (o : list (string * Val)) : json_object e -> json_object o ->
  json_object (App.merge_existed e o) /\
  (forall k, get k (App.merge_existed e o) = match (if decide (k = "__proto__") then None else get k e) with Some v => Some v | None => get k o end) /\
  map fst (App.merge_existed e o) = map fst o ++ filter (fun k => k ∉ map fst o) (filter (fun k => k <> "__proto__") (own_keys e)).
Proof.
  intros He Ho. pose proof (entries_json e He) as Hj. unfold App.merge_existed. rewrite assign_fold.
  set (p := filter (fun kv => fst kv <> "__proto__") (entries e)).
  assert (Hk : map fst p = filter (fun k => k <> "__proto__") (own_keys e)).
  { clear Hj. rewrite <- (entries_keys e). subst p. induction (entries e) as [|[k v] l IH]; [done|]. cbn [map fst]. rewrite !filter_cons. cbn [fst]. case_decide; cbn [map fst]; by rewrite IH. }
  assert (Hp : NoDup (map fst p)) by (rewrite Hk; by apply NoDup_filter', order_NoDup, He).
  assert (Hg : forall k, get k p = if decide (k = "__proto__") then None else get k e).
  { intros k. apply option_eq. intros v. rewrite <- elem_get by done. subst p. rewrite list_elem_of_filter, elem_get by apply Hj.
    rewrite get_entries by apply He. cbn. case_decide; naive_solver. }
  assert (Hpj : json_object p) by (split; [done|]; intros k; rewrite Hg; case_decide; [done|apply He]).
  split_and!; [by apply spread_json| |].
  - intros k. rewrite <- Hg. by apply get_spread.
  - rewrite <- Hk. by apply keys_fold.
Qed.

Lemma filter_order ks : filter (fun k => array_index k = None) (order ks) = filter (fun k => array_index k = None) ks.
Proof.
  unfold order. rewrite filter_app. rewrite (filter_none _ (map show _)).
  - cbn. apply filter_id, Forall_forall. intros k. rewrite list_elem_of_filter. by intros [? _].
  - apply Forall_forall. intros k Hk. apply list_elem_of_fmap in Hk as (z & -> & Hz). rewrite js_sort_perm in Hz. apply list_elem_of_omap in Hz as (j & _ & E).
    by rewrite (array_index_of_show _ _ E).
Qed.

Lemma filter_comm {A} (P Q : A -> Prop) `{!forall x, Decision (P x), !forall x, Decision (Q x)} (l : list A) : filter P (filter Q l) = filter Q (filter P l).
Proof. rewrite !list_filter_filter. apply filter_ext_elem. intros x _. tauto. Qed.

(** Objects with the same indices, other keys and values are written the same way. *)
Lemma entries_ext (o p : list (string * Val)) : NoDup (map fst o) -> NoDup (map fst p) -> (forall k, get k o = get k p) ->
  filter (fun k => array_index k = None) (map fst o) = filter (fun k => array_index k = None) (map fst p) -> entries o = entries p.
Proof.
  intros Ho Hp Hg Hf. unfold entries, own_keys. assert (Hk : map fst o ≡ₚ map fst p).
  { apply NoDup_Permutation; [done|done|]. intros k. by rewrite <- !get_keys, Hg. }
  rewrite (order_indices _ _ (omap_Permutation array_index _ _ Hk) Hf). induction (order (map fst p)) as [|k ks IH]; [done|]. cbn. by rewrite Hg, IH.
Qed.

Lemma new_keys_again (ks js : list string) :
  filter (fun k => k ∉ ks) (filter (fun k => k <> "__proto__") (ks ++ filter (fun k => k ∉ ks) (filter (fun k => k <> "__proto__") js))) =
  filter (fun k => k ∉ ks) (filter (fun k => k <> "__proto__") js).
Proof.
  rewrite !filter_app. rewrite (filter_none _ (filter _ ks)) by (apply Forall_forall; intros k; rewrite list_elem_of_filter; tauto).
  cbn. rewrite (filter_comm (fun k => k <> "__proto__")), !list_filter_filter. apply filter_ext_elem. intros k _. tauto.
Qed.

(** Merging what was written gives what was written. *)
Lemma merge_again e o : json_object e -> json_object o ->
  entries (App.merge_existed (entries (App.merge_existed e o)) o) = entries (App.merge_existed e o).
Proof.
  intros He Ho. destruct (merge_spec e o He Ho) as (Hj & Hg & Hk). set (m := App.merge_existed e o) in *.
  destruct (merge_spec (entries m) o (entries_json _ Hj) Ho) as (Hj2 & Hg2 & Hk2). apply entries_ext; [apply Hj2|apply Hj| |].
  - intros k. rewrite Hg2, get_entries, Hg by apply Hj. case_decide; [done|]. by destruct (get k e); [|destruct (get k o)].
  - rewrite Hk2, Hk, !filter_app. f_equal. rewrite (filter_comm (fun k => array_index k = None)), (filter_comm (fun k => array_index k = None)).
    unfold own_keys at 1. rewrite filter_order, entries_keys. unfold own_keys at 1. rewrite filter_order, Hk.
    rewrite <- !(filter_comm (fun k => array_index k = None)). by rewrite new_keys_again.
Qed.

Lemma paths_differ f : App.enPath f <> App.zhPath f /\ App.indexPath f <> App.zhPath f /\ App.indexPath f <> App.enPath f.
Proof. unfold App.enPath, App.zhPath, App.indexPath. split_and!; intros H; by apply (inj (String.append f)) in H. Qed.

Lemma header_json a : json_object (App.header a).
Proof.
  split; [cbn; apply NoDup_cons; split; [by intros ?%list_elem_of_singleton|apply NoDup_singleton]|].
  intros k. cbn. by repeat case_decide.
Qed.

(** The translation file of an application before the script runs: there is none, or it is an object. *)
Definition existed (f : string) (d : gmap string Content) (e : list (string * Val)) : Prop :=
  json_object e /\ (d !! App.zhPath f = Some (Json e) \/ d !! App.zhPath f = None /\ e = []).
Definition locale_json (l : Locale) : Prop := json_object (keys l) /\ json_object (texts l).

Lemma handle_app f l d e : existed f d e -> locale_json l ->
  App.handleAppFiles f l d =
    (<[App.indexPath f := IndexModule]> (<[App.zhPath f := Json (entries (App.merge_existed e (spread (App.en_of f l) (texts l))))]>
       (<[App.enPath f := Json (entries (App.en_of f l))]> d)), None).
Proof.
  intros [He Hd] [Hk Ht]. destruct (paths_differ f) as (Hez & _ & _).
  pose proof (spread_json _ _ (header_json (App.last_part f)) Hk) as Hen. fold (App.en_of f l) in Hen.
  pose proof (spread_json _ _ Hen Ht) as Hzh. destruct (merge_spec e _ He Hzh) as (Hm & _ & _).
  unfold App.handleAppFiles. cbv zeta. rewrite lookup_insert_ne, (stringify_json _ Hen) by done. destruct Hd as [->|[-> ->]].
  - by rewrite (stringify_json _ Hm).
  - by rewrite (stringify_json _ Hzh).
Qed.

(** The files of an application.  The translations that were there stay, and every other key has the text
    of the source; the English file has the keys only, since a text is its own translation. *)
Theorem app_files f l d e d' r : existed f d e -> locale_json l -> App.handleAppFiles f l d = (d', r) ->
  r = None /\ (exists en zh, d' !! App.enPath f = Some (Json en) /\ d' !! App.zhPath f = Some (Json zh) /\ json_object en /\ json_object zh /\
    forall k, get k en = (match get k (keys l) with Some v => Some v | None => get k (App.header (App.last_part f)) end) /\
      get k zh = match (if decide (k = "__proto__") then None else get k e) with
                 | Some v => Some v
                 | None => match get k (texts l) with Some v => Some v | None => get k en end
                 end) /\
  d' !! App.indexPath f = Some IndexModule /\ forall p, p <> App.enPath f -> p <> App.zhPath f -> p <> App.indexPath f -> d' !! p = d !! p.
Proof.
  intros He Hl H. rewrite (handle_app f l d e He Hl) in H. injection H as <- <-. destruct Hl as [Hk Ht], He as [He _], (paths_differ f) as (Hez & Hiz & Hie).
  pose proof (spread_json _ _ (header_json (App.last_part f)) Hk) as Hen. fold (App.en_of f l) in Hen.
  pose proof (spread_json _ _ Hen Ht) as Hzh. destruct (merge_spec e _ He Hzh) as (Hm & Hg & _).
  split; [done|]. split; [|split; [by rewrite lookup_insert_eq|]].
  - eexists _, _. rewrite !lookup_insert_ne, lookup_insert_eq by done. rewrite lookup_insert_ne, lookup_insert_eq by done.
    split_and!; [done|done|by apply entries_json|by apply entries_json|]. intros k. rewrite !get_entries by first [apply Hen|apply Hm]. split.
    + apply get_spread, Hk.
    + rewrite Hg. destruct (if decide _ then _ else _); [done|]. apply get_spread, Ht.
  - intros p H1 H2 H3. by rewrite !lookup_insert_ne by done.
Qed.

(** Running the script again changes nothing. *)
Theorem app_files_again f l d e : existed f d e -> locale_json l ->
  let d' := fst (App.handleAppFiles f l d) in App.handleAppFiles f l d' = (d', None).
Proof.
  intros He Hl. cbn zeta. rewrite (handle_app f l d e He Hl). cbn [fst]. set (o := spread (App.en_of f l) (texts l)).
  assert (Ho : json_object o) by (apply spread_json; [apply spread_json; [apply header_json|]|]; apply Hl).
  destruct (merge_spec e o (proj1 He) Ho) as (Hm & _ & _), (paths_differ f) as (Hez & Hiz & Hie).
  rewrite (handle_app f l _ (entries (App.merge_existed e o))); [|split; [by apply entries_json|left; by rewrite lookup_insert_ne, lookup_insert_eq by done]|done].
  fold o. rewrite (merge_again e o (proj1 He) Ho). f_equal. apply map_eq. intros p.
  destruct (decide (p = App.indexPath f)) as [->|Hi]; [by rewrite !lookup_insert_eq|]. rewrite !(lookup_insert_ne _ (App.indexPath f)) by done.
  destruct (decide (p = App.zhPath f)) as [->|Hz]; [by rewrite !lookup_insert_eq|]. rewrite !(lookup_insert_ne _ (App.zhPath f)) by done.
  destruct (decide (p = App.enPath f)) as [->|Hn]; [by rewrite !lookup_insert_eq|]. by rewrite !lookup_insert_ne by done.
Qed.

(** *** What reaches the files *)

Lemma assign_json k v o : json_object o -> v <> VUndefined -> json_object (assign k v o).
Proof.
  intros [Ho Hu] Hv. split; [unfold assign; case_decide; [done|by apply set_NoDup]|]. intros j. rewrite assign_get. case_decide; [congruence|apply Hu].
Qed.

Lemma target_defined c k v : tk_target c = Write k v -> v <> VUndefined.
Proof.
  destruct c as [|a [|b r]]; cbn; [done|done|]. case_decide; [done|]. destruct (truthy (value b)) eqn:E; [|done]. cbn. intros Hw ->.
  assert (value b = VUndefined) as Hb; [|by rewrite Hb in E]. destruct r as [|c [|]]; [by simplify_eq| |by simplify_eq].
  destruct (properties c ≫= _); [by simplify_eq|done].
Qed.

Lemma tk_calls_json b cs l l' ms : locale_json l -> tk_calls b l cs = Some (l', ms) -> locale_json l'.
Proof.
  revert l ms. induction cs as [|c cs IH]; intros l ms Hl; cbn; [by intros [= <- <-]|]. destruct (tk_target c) as [| |k v] eqn:Et; [done|by apply IH|].
  destruct (record l k v) as [l1|m] eqn:Er.
  - apply IH. assert (l1 = mkLocale (assign k v (keys l)) (texts l)) as ->.
    { unfold record in Er. destruct (get k (keys l)); case_decide; by simplify_eq. }
    split; [apply assign_json; [apply Hl|by eapply target_defined]|apply Hl].
  - destruct b; [by intros [= <- _]|]. destruct (tk_calls _ _ _) as [[l2 ms2]|] eqn:E; [|done]. intros [= <- _]. by eapply IH.
Qed.

Lemma tt_json ts l : locale_json l -> locale_json (fold_left (fun l t => tt_step t l) ts l).
Proof.
  revert l. induction ts as [|t ts IH]; intros l Hl; [done|]. cbn [fold_left]. apply IH. split; [apply Hl|]. by apply assign_json; [apply Hl|].
Qed.

Definition all_json (d : LocaleData) : Prop := NoDup (map fst d) /\ forall g l, get g d = Some l -> locale_json l.

Lemma scan_file_json b st f st' : all_json (data st) -> scan_file b st f = Some st' -> all_json (data st').
Proof.
  intros [Hn Hd]. unfold scan_file. destruct (appFolder_of f) as [[g|] ms]; [|by intros [= <-]]. destruct (init_app g (data st)) as [l|] eqn:El.
  - destruct (tk_calls _ _ _) as [[l' ms']|] eqn:Et; [|done]. cbn. intros [= <-]. split; [by apply set_NoDup|]. intros h m. cbn. rewrite get_set. case_decide; [|apply Hd].
    intros [= <-]. eapply tk_calls_json, Et. apply tt_json. unfold init_app in El. destruct (get g (data st)) eqn:Eg; [simplify_eq; by eapply Hd|].
    case_decide; [done|]. simplify_eq. repeat split; by try constructor.
  - destruct (no_text f); [|done]. by intros [= <-].
Qed.

Lemma scan_json b files st st' : all_json (data st) -> scan b st files = Some st' -> all_json (data st').
Proof.
  revert st. induction files as [|f files IH]; intros st Hd; cbn; [by intros [= <-]|]. destruct (scan_file b st f) eqn:E; [|done]. by apply IH, (scan_file_json b st f).
Qed.

Lemma sort_json o : json_object o -> json_object (sort_object o).
Proof. intros [Ho Hu]. split; [by apply sorted_entries|]. intros k. by rewrite get_sort_object. Qed.

Lemma sort_data_keys d : map fst (sortLocaleData d) = map fst d.
Proof. unfold sortLocaleData. by rewrite map_map. Qed.

Lemma sort_data_get g d : get g (sortLocaleData d) = (fun l => mkLocale (sort_object (keys l)) (sort_object (texts l))) <$> get g d.
Proof. induction d as [|[h l] d IH]; [done|]. cbn. by case_decide. Qed.

(** Every application that the script writes has texts that its files can hold, whatever its sources are;
    a script that fails while it reads has written nothing. *)
Theorem written_json b files d : match scan_all b files with
  | Some st => Forall (fun al => locale_json (snd al)) (entries (sortLocaleData (data st)))
  | None => Run.generateLocales b files d = (d, Some TypeError)
  end.
Proof.
  unfold Run.generateLocales. destruct (scan_all b files) as [st|] eqn:E; [|done].
  apply scan_json in E as [Hn Hd]; [|split; [constructor|done]]. apply Forall_forall. intros [g l] Hi.
  apply elem_get in Hi; [|apply entries_NoDup; by rewrite sort_data_keys]. rewrite get_entries, sort_data_get in Hi by by rewrite sort_data_keys.
  destruct (get g (data st)) as [m|] eqn:Eg; [|done]. cbn in Hi. simplify_eq. cbn. split; apply sort_json; by eapply Hd.
Qed.

(** *** The block of a component *)

(** The last translation under a name; a key in quotes has no name. *)
Fixpoint named (k : string) (ps : list Property) : option Val :=
  match ps with
  | Pair (KName n) v :: ps => match named k ps with Some w => Some w | None => if decide (n = k) then Some v else None end
  | _ :: ps => named k ps
  | [] => None
  end.

Lemma existed_get ps acc ex k : k <> "__proto__" -> k <> "undefined" -> BizUI.existedZhLocales ps acc = Some ex ->
  get k ex = match named k ps with Some v => Some v | None => get k acc end.
Proof.
  intros Hp Hu. revert acc. induction ps as [|[[n|s] v|] ps IH]; intros acc; cbn; [by intros [= ->]| | |done]; intros H; rewrite (IH _ H), assign_get.
  - destruct (named k ps); [done|]. repeat case_decide; naive_solver.
  - destruct (named k ps); [done|]. by rewrite decide_False by naive_solver.
Qed.

Lemma existed_NoDup ps acc ex : NoDup (map fst acc) -> BizUI.existedZhLocales ps acc = Some ex -> NoDup (map fst ex).
Proof.
  revert acc. induction ps as [|[k v|] ps IH]; intros acc Ha; cbn; [by intros [= <-]| |done]. apply IH. unfold assign. case_decide; [done|by apply set_NoDup].
Qed.

Lemma find_key k (ks : list string) : find (fun j => bool_decide (j = k)) ks = if decide (k ∈ ks) then Some k else None.
Proof.
  induction ks as [|j ks IH]; [done|]. cbn. case_bool_decide as E; [subst; by rewrite decide_True by by left|]. rewrite IH. repeat case_decide; set_solver.
Qed.

Lemma zh_get l ex k : locale_json l -> NoDup (map fst ex) -> k <> "__proto__" -> get k (BizUI.zhLocales l ex) =
  match get k ex with Some v => Some v | None => match get k (texts l) with Some v => Some v | None => get k (keys l) end end.
Proof.
  intros [Hk Ht] He Hp. unfold BizUI.zhLocales. set (o := spread _ _).
  assert (Hf : forall ks o, NoDup ks -> get k (fold_left (fun o j => assign j (default VUndefined (get j ex)) o) ks o) =
    if decide (k ∈ ks) then Some (default VUndefined (get k ex)) else get k o).
  { intros ks. induction ks as [|j ks IH]; intros p Hn; [by rewrite decide_False by set_solver|]. apply NoDup_cons in Hn as [Hj Hn].
    cbn [fold_left]. rewrite IH, assign_get by done. repeat case_decide; set_solver. }
  rewrite Hf by by apply order_NoDup. unfold own_keys. case_decide as Ei; rewrite elem_order, <- get_keys in Ei; [by destruct Ei as [v ->]|].
  apply eq_None_not_Some in Ei as ->. subst o. rewrite get_spread by by apply entries_NoDup, Ht.
  rewrite fromEntries_id by by apply entries_NoDup, Hk. by rewrite !get_entries by first [apply Hk|apply Ht].
Qed.

(** A component keeps the translations whose keys are names.  All others, those with keys in quotes among
    them, become the text of the source again. *)
Theorem component_translations l ps ex k : locale_json l -> BizUI.existedZhLocales ps [] = Some ex -> k <> "__proto__" -> k <> "undefined" ->
  get k (BizUI.zhLocales l ex) =
    match named k ps with Some v => Some v | None => match get k (texts l) with Some v => Some v | None => get k (keys l) end end.
Proof.
  intros Hl He Hp Hu. rewrite zh_get; [|done|by eapply existed_NoDup, He; constructor|done]. rewrite (existed_get ps [] ex k Hp Hu He). by destruct (named k ps).
Qed.

Example quoted_translation_lost :
  let l := mkLocale [] [("Reset", VStr "Reset"); ("Select All", VStr "Select All")] in
  BizUI.zhLocales l <$> BizUI.existedZhLocales [Pair (KName "Reset") (VStr "chongzhi"); Pair (KLiteral "Select All") (VStr "quanxuan")] [] =
  Some [("Reset", VStr "chongzhi"); ("Select All", VStr "Select All"); ("undefined", VStr "quanxuan")].
Proof. by vm_compute. Qed.

(** A file of an application with a text, a key and its plural forms, and one call without default. *)
Definition statement_page : File :=
  mkFile "packages/libs/4-apps/src/statement/list.tsx" [] ["statement"] ["Reset"; "Clear"]
    [[mkArg (VStr "fields.sql") None; mkArg (VStr "SQL") None]; [mkArg (VStr "other") None];
     [mkArg (VStr "hour") None; mkArg (VStr "{{count}} hr") None; mkArg VUndefined (Some [Pair (KName "count") (VNum 1)])];
     [mkArg (VStr "hour") None; mkArg (VStr "{{count}} hrs") None; mkArg VUndefined (Some [Pair (KName "count") (VNum 24)])]] None.
Example statement_files :
  let '(d, r) := Run.generateLocales true [statement_page] (<["packages/libs/4-apps/src/statement/locales/zh.json" := Json [("Reset", VStr "chongzhi"); ("old", VStr "jiu")]]> ∅) in
  r = None /\
  d !! "packages/libs/4-apps/src/statement/locales/en.json" =
    Some (Json (App.header "statement" ++ [("fields.sql", VStr "SQL"); ("hour_one", VStr "{{count}} hr"); ("hour_other", VStr "{{count}} hrs")])) /\
  d !! "packages/libs/4-apps/src/statement/locales/zh.json" =
    Some (Json (App.header "statement" ++ [("fields.sql", VStr "SQL"); ("hour_one", VStr "{{count}} hr"); ("hour_other", VStr "{{count}} hrs");
                                           ("Clear", VStr "Clear"); ("Reset", VStr "chongzhi"); ("old", VStr "jiu")])).
Proof. by vm_compute. Qed.
End Facts.
